(* ===== verification/_CoqProject ===== *)
-Q . S2P
Prelude.v
Std.v
Double.v
Functions.v
Query.v
Json.v
JsonModel.v
JsonReader.v
External.v
Regex.v
JsonConstraint.v
Keys.v
DataPart.v
MockEvents.v
MockData.v
Concurrency.v
LockedMap.v
TypeConverter.v
Vault.v
Transformation.v
RegexRules.v
ItemText.v
Templates.v
Reports.v
ClientEndpoint.v
Schema.v
Stages.v
StageFrames.v
ServerProvision.v
ServerTransform.v
Filters.v
ServerAdmin.v
TrafficServer.v
ClientProvision.v
ClientTransform.v
Ticker.v
ClientFlow.v
FlowInvariant.v
FlowProperties.v
AdminServer.v
AdminProperties.v
AdminSchemas.v
SchemaPatterns.v
SchemaProperties.v
Files.v
FileProperties.v
Conformance.v
TransformTests.v
ClientTests.v
AdminTests.v
ModelTests.v
StorageTests.v
SystemTests.v
Startup.v
StartupProperties.v
Shutdown.v
Banner.v
Tools.v
UdpClient.v
UdpServerH2client.v
