(* ===== verification/Prelude.v ===== *)
(** * h2agent: a mock of HTTP/2 services

    The program under [src/src] is an HTTP/2 agent: it answers the requests of a
    mocked service from provisions given by the user, and keeps the events so that a
    test can inspect them.  The administration interface loads the matching
    configuration ([AdminServerMatchingData]), the provisions
    ([AdminServerProvisionData]), the schemas ([AdminSchemaData]) and the vault
    ([Vault]).  A request arrives at the traffic server
    ([http2/MyTrafficHttp2Server.cpp], [receive]): its URI is classified, the state of
    its key is read from the mock data ([MockServerData]), a provision is found for the
    state, the method and the URI, its items ([Transformation]) turn the request into a
    response in three stages (sources, filters, targets), and the event is stored with
    the next state.  The agent is a client too: a client provision
    ([AdminClientProvision]) is triggered by the administration interface, by an item of
    the server or by its timer, builds a request with its own items, sends it to an
    endpoint ([AdminClientEndpoint]), and the response, if it is valid, leads to the next
    request of the chain ([http2/MyAdminHttp2Server.cpp], [sendClientRequest]).

    ** Files

    - [Prelude]: exceptions as values ([outcome]), code with a state and exceptions
      ([M]), strings as lists of characters, the tactics and hint databases.
    - [Std], [Double]: what the code uses of the C++ library: integers of 32 and 64 bits
      with their wrap-around, [substr] and searches, [stoull], [stoll], [to_string],
      [stod] and IEEE doubles (the specification of the Standard Library).
    - [Json], [JsonModel]: the JSON documents; the library of the program (nlohmann) is
      a parameter (classes [JsonEq], [JsonText], [JsonPointer]), with a concrete model
      for the witnesses.  [JsonReader]: a reader and a writer of documents by RFC 8259, an
      instance of [JsonText].  [External]: the other parameters: regular expressions of
      the user, schema validator, mathematical expressions, dates, and the outside world.
    - [Regex]: the part of the regular expressions of ECMAScript that the program uses,
      with a declarative semantics and the search for the first match; an instance of the
      expressions of [External].
    - [Functions], [Query], [JsonConstraint]: [model/functions.cpp].
    - [Keys]: [model/keys.hpp].  [DataPart]: [model/DataPart.cpp].
    - [MockEvents], [MockData]: [model/Mock*.cpp].  The events are shared objects: a
      heap of events and histories of locations, as the [std::shared_ptr] of the code.
    - [Concurrency]: the loads of events by several threads; what runs under a lock of
      [model/Map.hpp] or of a history is one step.
    - [LockedMap]: [model/Map.hpp], the map with a lock that the components are made of,
      its methods as accesses to the map by several threads.
    - [TypeConverter]: [model/TypeConverter.cpp].  [Vault]: [model/Vault.cpp],
      [model/SseManager.cpp] and [model/WaitManager.cpp].
    - [Transformation]: [model/Transformation.cpp], the items as the user writes them.
      [RegexRules]: the same, with the expressions of the source as their texts.
      [ItemText]: the texts of items, of converters and of keys in the traces.
      [Templates]: texts with patterns as lists of pieces, and what replacing the
      patterns one after the other does to them; the tools use it too.
    - [Reports]: the summary and the sequence of the mock data.
    - [ClientEndpoint]: [model/AdminClientEndpoint.cpp] and
      [model/AdminClientEndpointData.cpp], the remote servers of the client side.
    - [Schema]: [model/AdminSchema.cpp], [model/AdminSchemaData.cpp].
    - [Stages]: the cases of [processSources], [processFilters] and [processTargets] and
      the loop over the items with its fallbacks, which the code has once for each kind
      of provision.  [StageFrames]: what each of them may change.
    - [ServerProvision]: [model/AdminServerProvision.cpp], the stages of a server
      provision, [transform] and [load].  [ServerTransform] and [Filters] have its
      properties.
    - [ServerAdmin]: [model/AdminServerMatchingData.cpp] and
      [model/AdminServerProvisionData.cpp].
    - [TrafficServer]: [http2/MyTrafficHttp2Server.cpp].
    - [ClientProvision]: [model/AdminClientProvision.cpp], [load], [transform],
      [transformResponse] and [updateTriggering], with properties in [ClientTransform].
      [Ticker]: its timer, and the pool of works.
    - [ClientFlow]: [model/AdminClientProvisionData.cpp] and the client part of
      [http2/MyAdminHttp2Server.cpp] ([sendClientRequest], [triggerClientProvision],
      [triggerClientOperation]).  Provisions are shared objects in a heap, which timers,
      works and callbacks keep alive, and a deleted endpoint stays as detached.
      [FlowInvariant] and [FlowProperties] have the invariant and the properties.
    - [AdminServer]: the operations of [http2/MyAdminHttp2Server.cpp], with
      [model/AdminData.hpp], [model/Configuration.cpp] and [jsonSchema/JsonSchema.cpp];
      the agent is the record of all the components, whose worlds are views of one that
      they share.  [AdminProperties] has its properties.
    - [AdminSchemas]: [jsonSchema/AdminSchemas.hpp], the schemas of the operations as
      documents, and what a validator accepts by them.  [SchemaPatterns]: the sources and
      targets that their patterns admit.  [SchemaProperties]: what the loads may rely on
      after the validation.
    - [Files]: [model/SafeFile.cpp], [model/FileManager.cpp], [model/SafeSocket.cpp] and
      [model/SocketManager.cpp]; an instance of the outside world of [External] made of
      them.  [FileProperties] has their properties.
    - [Conformance]: the instances of all the parameters with which the model is run, that
      they satisfy the hypotheses of the theorems, and the fixture of the tests of
      transformations.  [TransformTests], [ClientTests],
      [AdminTests], [ModelTests], [StorageTests] and [SystemTests]: the unit tests under
      [src/ut], a definition each.
    - [Startup]: [main.cpp], the command line, the wiring of the components and the load
      of the configuration files.  [StartupProperties] has its properties.
      [Shutdown]: the objects [main] makes, and [stopAgent].  [Banner]: the settings [main]
      prints.
    - [Tools]: what the programs under [tools] share, and [h2client], [udp-server],
      [matching-helper] and [arashpartow-helper].  [UdpClient]: [udp-client], which sends
      a datagram for each number of a range.  [UdpServerH2client]: [udp-server-h2client],
      which sends a request for each datagram, as a state machine of its loop, its
      workers and the responses.

    The state of a component is a record with the names of the members of its class;
    a method that writes members or throws is a function of [M] over that record, and
    what it wrote before an exception stays written.

    ** What is shown

    - The server as a state machine: a stored event puts the next request of its key in
      the out-state, with the variables of the chain; a purge goes back to the initial
      state; no provision is a 501; the order of the query parameters does not matter;
      any sequence of traffic and administration keeps the invariant of the server
      ([TrafficServer]).
    - The mock data refine plain lists of events ([MockData]); client loads, and server
      loads of known keys, lose nothing under any interleaving, and the first loads of a
      key can ([Concurrency]); the methods of a map behave as if they ran one after the
      other ([LockedMap]); the sequence reports every event, in order ([Reports]).
    - The transformation: what each stage may change, field by field of the response,
      that the items after a break are not run, what a fallback writes in vain, the
      schemas ([ServerTransform]); [Split] and [BaseConvert] ([Filters]);
      the reading of items from their texts ([Transformation]).
    - The provisions: consistency, search by key and by the first matching expression
      ([ServerAdmin]).
    - The endpoints: a new address reconnects, except with lazy connections
      ([ClientEndpoint]).
    - The client: whatever administration, triggers, timers, works and responses
      interleave, the objects are live and typed and the sequences in flight unique
      ([FlowProperties]); a valid response continues its chain, sends one request at
      most, and a purge removes one event for each request of its chain, the first with its
      key and sequence; the status of a trigger tells what was done; every value of a range
      is ticked, or the range is repeated for ever ([Ticker]); what
      each stage may change and the verdict on a response ([ClientTransform]).
    - The agent: all components together stay whole in the world they share; reading
      changes nothing but the counters in the documents of client provisions, which no
      answer can tell; configuring keeps the traffic, deleting is idempotent, and paths
      lead to their operation ([AdminProperties]).
    - The files: the number of open files is bounded, a thread that waits for one goes
      on, the contents are the writes in their order, what a read gives; the datagrams
      are sent once ([FileProperties]).
    - The start: accepted settings are within their bounds, and whatever the files hold
      the agent starts whole, the traffic server with the switches of the command line,
      which do not reach the client ([StartupProperties]); whenever it ends, the objects are released once and the texts
      written are in their files, unless a file is open and there are metrics
      ([Shutdown]); what is printed is what the traffic server does, and never the password
      of the key ([Banner]).
    - The schemas: no document makes the configuration of schemas, matching and endpoints
      throw or do what is undefined, and none makes the provisions throw unless it has what the schema lets
      through (random bounds, fallback items); accepted provisions do not share a key
      unless they are for the same requests ([SchemaProperties]).
    - The texts of items: on every text the recognizers of sources and targets give what
      the comparisons and expressions of the source give ([RegexRules]); what the
      patterns of the schemas admit is identified by the load, with exceptions that are
      stated ([SchemaPatterns]).
    - The unit tests: run with the instances of [Conformance], the model gives what 444 of
      the tests of the repository expect of the code (a theorem in each file of tests).  It ties the
      definitions to the behaviour of the program, as its authors wrote it down.
    - The tools: the range of numbers is covered, once each, and the program ends
      ([UdpClient]); a request for each datagram in the runs without a race, with its
      content when the datagrams leave time for it; the variables of a datagram
      ([UdpServerH2client]); the parts of
      a URI, the exit of the probe, the lines of the server ([Tools]).
    - The parts: query strings against a specification, JSON constraints against an
      inductive one and the truth of their reports, decoding of bodies, substitution of
      variables whatever their order in texts whose at signs cannot make a pattern
      ([Templates]), round trips of numbers and hexadecimal texts, publication and waits of
      the vault.
    - The places where the code does not do what it documents are theorems about the
      model of the code too.

    ** Fuel and bounds

    Loops that are not structural have a fuel computed from their input:
    [extract_loop] the length of the query plus one (each turn moves past a separator),
    [search_loop] the length of the text plus one, [collect_loop] the length of the
    text, [pad_loop] the missing length (the filler is not empty there), [render_loop]
    64 turns (a 64-bit value in base 2), [seq_matches] the length of the template (a turn
    consumes a character), [seq_loop] and [parts_loop] the length of the text plus one,
    [accepts] 16, more than the depth of the schemas.  The theorems show that the fuel is
    never exhausted; [send_loop] has its turns as an argument, and the theorem says how
    many are enough.  Multipart events are the list the scanner delivers.
    The reader of documents, the reader of expressions and their [replace_loop], which are
    instances of parameters, have fuel from the length of the text.

    ** Not modelled

    Logs, and metrics other than the counters of the traffic server, of the traffic
    client, of the files and of the sockets.  The transports (HTTP/2 server and client)
    and the schema validator, which are parameters, the validator with the hypothesis
    that it follows the keywords the schemas use; the generator of a stream of the vault,
    called by the transport.
    Parallelism is modelled where threads meet in a component ([Concurrency], [Vault],
    [Ticker]) and as interleaving of whole operations elsewhere: in [AdminServer] an
    item of the server that triggers a client provision adds it to the response, and
    the trigger is a step of its own.  Two threads in one [SafeFile] at once, two paths
    of one file, and files changed by other programs are left out of [Files].  The
    threads, the drawing and the date of the banner in [main.cpp].  Of the expressions of a user
    [Regex] has no back references, positive lookahead or word boundaries: the expressions
    stay a parameter, and the theorems hold for any.  Of the unit tests: the ones that compare
    pointers or test copies and setters, and the ones that expect the text of an error of
    the parser or of the validator.  Of the
    tools: the texts of the usage and of the banners, the sleeps between datagrams (their
    due time is modelled), the removal of the sockets and the handlers of signals other
    than the exit. *)
From stdpp Require Export base list strings gmap sorting.
From Stdlib Require Export ZArith Lia Ascii.
From Stdlib Require String.
From stdpp Require Import options.

Declare Scope h2_scope.
Delimit Scope h2_scope with h2.
#[global] Open Scope h2_scope.

Create HintDb h2.
Create Rewrite HintDb h2.

(** ** C++ exceptions as values *)

(** The exception classes the code distinguishes or catches; [undefined] stands for
    an operation C++ leaves undefined (a division by zero, a signed overflow). *)
Inductive exn :=
| invalid_argument
| out_of_range
| json_exception
| regex_error
| undefined.

#[global] Instance exn_eq_dec : EqDecision exn.
Proof. solve_decision. Defined.

(** A call that returns a value or throws. *)
Inductive outcome (A : Type) :=
| Val (a : A)
| Throw (e : exn).
Arguments Val {A} a.
Arguments Throw {A} e.

#[global] Instance outcome_eq_dec `{EqDecision A} : EqDecision (outcome A).
Proof. solve_decision. Defined.

Definition obind {A B} (o : outcome A) (f : A -> outcome B) : outcome B :=
  match o with Val a => f a | Throw e => Throw e end.

Notation "'let!' x ':=' o 'in' k" := (obind o (fun x => k))
  (at level 10, x name, o at level 100, k at level 200) : h2_scope.
Notation "'let!' ' p ':=' o 'in' k" := (obind o (fun p => k))
  (at level 10, p strict pattern, o at level 100, k at level 200) : h2_scope.

Lemma obind_val {A B} (o : outcome A) (f : A -> outcome B) b :
  obind o f = Val b -> exists a, o = Val a /\ f a = Val b.
Proof. destruct o; simpl; [eauto | discriminate]. Qed.

(** ** Code that updates a state and may throw *)

(** What was written before an exception stays written. *)
Definition M (S A : Type) : Type := S -> S * outcome A.

Definition ret {S A} (a : A) : M S A := fun s => (s, Val a).
Definition throw {S A} (e : exn) : M S A := fun s => (s, Throw e).
Definition bind {S A B} (m : M S A) (f : A -> M S B) : M S B :=
  fun s => match m s with (s', Val a) => f a s' | (s', Throw e) => (s', Throw e) end.
(** [try m catch (std::exception) h]; no handler is entered on [undefined]. *)
Definition catch {S A} (m : M S A) (h : exn -> M S A) : M S A :=
  fun s => match m s with
           | (s', Val a) => (s', Val a)
           | (s', Throw undefined) => (s', Throw undefined)
           | (s', Throw e) => h e s'
           end.
Definition get {S} : M S S := fun s => (s, Val s).
Definition modify {S} (f : S -> S) : M S unit := fun s => (f s, Val tt).
(** A call that has no effect on the state. *)
Definition lift {S A} (o : outcome A) : M S A := fun s => (s, o).

Notation "'do' x '<-' m ';;' k" := (bind m (fun x => k))
  (at level 100, x name, m at level 99, k at level 200, right associativity) : h2_scope.
Notation "'do' ' p '<-' m ';;' k" := (bind m (fun p => k))
  (at level 100, p strict pattern, m at level 99, k at level 200, right associativity) : h2_scope.
Notation "m ';;;' k" := (bind m (fun _ => k))
  (at level 100, k at level 200, right associativity) : h2_scope.

(** ** Boolean reflection of string equality *)

Lemma string_eqb_spec (a b : string) : String.eqb a b = bool_decide (a = b).
Proof.
  destruct (String.eqb_spec a b); [by rewrite bool_decide_eq_true_2 | by rewrite bool_decide_eq_false_2].
Qed.

(** ** Characters of a [std::string] as a list, byte by byte *)

Definition chars (s : string) : list ascii := String.list_ascii_of_string s.
Definition str (l : list ascii) : string := String.string_of_list_ascii l.

#[global] Arguments chars : simpl never.
#[global] Arguments str : simpl never.

Lemma str_chars s : str (chars s) = s.
Proof. apply String.string_of_list_ascii_of_string. Qed.

Lemma chars_str l : chars (str l) = l.
Proof. apply String.list_ascii_of_string_of_list_ascii. Qed.

Lemma chars_app a b : chars (a +:+ b) = chars a ++ chars b.
Proof.
  induction a as [|c a IH]; [done|].
  change (chars (String c (a +:+ b)) = c :: (chars a ++ chars b)). by rewrite <- IH.
Qed.

Lemma chars_inj a b : chars a = chars b -> a = b.
Proof. intros H. by rewrite <- (str_chars a), <- (str_chars b), H. Qed.

Lemma str_app a b : str (a ++ b) = str a +:+ str b.
Proof. apply chars_inj. by rewrite chars_app, !chars_str. Qed.

Lemma chars_nil : chars "" = [].
Proof. done. Qed.

Lemma chars_cons c s : chars (String c s) = c :: chars s.
Proof. done. Qed.

Lemma chars_length s : length (chars s) = String.length s.
Proof. induction s as [|c s IH]; [done|]. change (S (length (chars s)) = S (String.length s)). by f_equal. Qed.

#[export] Hint Rewrite chars_app chars_str str_chars chars_nil chars_cons : h2.

Lemma string_app_nil_r s : s +:+ "" = s.
Proof. apply chars_inj. rewrite chars_app. apply app_nil_r. Qed.

Lemma string_app_assoc a b c : (a +:+ b) +:+ c = a +:+ (b +:+ c).
Proof. apply chars_inj. rewrite !chars_app. symmetry. apply app_assoc. Qed.

Lemma string_app_cons c s t : String c s +:+ t = String c (s +:+ t).
Proof. done. Qed.

(** [std::string::empty] *)
Definition sempty (s : string) : bool :=
  match s with EmptyString => true | _ => false end.

Lemma sempty_true s : sempty s = true <-> s = "".
Proof. by destruct s. Qed.

Lemma sempty_false s : sempty s = false <-> s <> "".
Proof. by destruct s. Qed.

(** ** Splitting at the first occurrence of a separator *)

(** A string free of the character [c]. *)
Definition no_char (c : ascii) (s : string) : Prop := c ∉ chars s.

#[global] Instance no_char_dec c s : Decision (no_char c s).
Proof. unfold no_char. apply _. Defined.

Lemma list_split_unique {A} (c : A) (a a' b b' : list A) :
  c ∉ a -> c ∉ a' -> a ++ c :: b = a' ++ c :: b' -> a = a' /\ b = b'.
Proof.
  revert a'. induction a as [|x a IH]; intros [|x' a'] Ha Ha' H; simplify_eq/=; [done|..].
  - set_solver.
  - set_solver.
  - destruct (IH a'); [set_solver..|done|]. by subst.
Qed.

Lemma string_split_unique c a a' b b' :
  no_char c a -> no_char c a' ->
  a +:+ String c b = a' +:+ String c b' -> a = a' /\ b = b'.
Proof.
  intros Ha Ha' H. apply (f_equal chars) in H. rewrite !chars_app, !chars_cons in H.
  apply list_split_unique in H as [H1 H2]; [|done..].
  by apply chars_inj in H1; apply chars_inj in H2.
Qed.

(** ** Filters *)

Lemma filter_all {A} (P : A -> Prop) `{!forall x, Decision (P x)} (l : list A) : (forall x, x ∈ l -> P x) -> filter P l = l.
Proof.
  induction l as [|x l IH]; intros Hl; [done|]. rewrite filter_cons_True by (apply Hl, list_elem_of_here). f_equal.
  apply IH. intros y Hy. by apply Hl, list_elem_of_further.
Qed.

(** ** Executions *)

(** What every step keeps holds along an execution. *)
Lemma rtc_invariant {A} (R : relation A) (P : A -> Prop) x y :
  P x -> (forall a b, P a -> R a b -> P b) -> rtc R x y -> P y.
Proof. intros Hx Hstep Hr. induction Hr as [|x z y Hxz _ IH]; [done|]. apply IH. by eapply Hstep. Qed.

(** ** Tactics of the development *)

(** Case analysis on the scrutinee of every [match]/[if] in the goal. *)
Ltac case_goal := repeat (case_match; simplify_eq/=; try done).

(** Split the conjunctions and existentials of the context, then simplify. *)
Ltac crush := repeat (destruct_and? || destruct_or? || simplify_eq/=); try done; try lia.
