(* ===== verification/Std.v ===== *)
(** The parts of the C++ standard library the sources call: positions and
    substrings of [std::string], machine-width integers, [std::stoull],
    [std::stoll], [std::stoi], [std::to_string] and the C character classes.
    A position is an [option nat], [None] being [std::string::npos]; a call
    that may throw returns an [outcome]. *)
From S2P Require Import Prelude.
From stdpp Require Import options.
#[local] Open Scope Z_scope.

(** ** Positions and substrings *)

Fixpoint sdrop (n : nat) (s : string) : string :=
  match n, s with
  | S n', String _ s' => sdrop n' s'
  | _, _ => s
  end.

Fixpoint stake (n : nat) (s : string) : string :=
  match n, s with
  | S n', String c s' => String c (stake n' s')
  | _, _ => ""
  end.

Fixpoint find_char (c : ascii) (s : string) : option nat :=
  match s with
  | EmptyString => None
  | String d s' => if decide (d = c) then Some 0%nat else S <$> find_char c s'
  end.

(** [s.find_first_of(c, pos)] *)
Definition find_first_of (c : ascii) (s : string) (pos : option nat) : option nat :=
  match pos with
  | None => None
  | Some p => (fun i => p + i)%nat <$> find_char c (sdrop p s)
  end.

(** [s.substr(pos, n)]: throws when [pos] is past the end. *)
Definition substr (s : string) (pos : nat) (n : option nat) : outcome string :=
  if decide (pos <= String.length s)%nat then
    Val (match n with None => sdrop pos s | Some k => stake k (sdrop pos s) end)
  else Throw out_of_range.

(** [s.rfind(p, 0) == 0]: [s] starts with [p]. *)
Fixpoint starts_with (p s : string) : bool :=
  match p, s with
  | EmptyString, _ => true
  | String c p', String d s' => if decide (c = d) then starts_with p' s' else false
  | _, EmptyString => false
  end.

(** [s.find(p)] *)
Fixpoint find_sub (p s : string) : option nat :=
  if starts_with p s then Some 0%nat
  else match s with
       | EmptyString => None
       | String _ s' => S <$> find_sub p s'
       end.

Lemma sdrop_0 s : sdrop 0 s = s.
Proof. by destruct s. Qed.

Lemma sdrop_app (a b : string) : sdrop (String.length a) (a +:+ b) = b.
Proof. induction a as [|c a IH]; [apply sdrop_0|]. exact IH. Qed.

Lemma stake_app (a b : string) : stake (String.length a) (a +:+ b) = a.
Proof. induction a as [|c a IH]; [by destruct b|]. change (String c (stake (String.length a) (a +:+ b)) = String c a). by f_equal. Qed.

Lemma stake_sdrop n s : stake n s +:+ sdrop n s = s.
Proof. revert n. induction s as [|c s IH]; intros [|n]; [done..|]. change (String c (stake n s +:+ sdrop n s) = String c s). by rewrite IH. Qed.

Lemma sdrop_sdrop n m s : sdrop n (sdrop m s) = sdrop (m + n) s.
Proof. revert s. induction m as [|m IH]; intros [|c s]; [by destruct n..|apply IH]. Qed.

Lemma sdrop_length n s : String.length (sdrop n s) = (String.length s - n)%nat.
Proof. revert s. induction n as [|n IH]; intros [|c s]; cbn; [done..|apply IH]. Qed.

Lemma slength_app a b : String.length (a +:+ b) = (String.length a + String.length b)%nat.
Proof. rewrite <- !chars_length, chars_app. apply length_app. Qed.

Lemma starts_with_spec p s : starts_with p s = true <-> exists t, s = p +:+ t.
Proof.
  revert s. induction p as [|c p IH]; intros s.
  { split; [by eexists|done]. }
  destruct s as [|d s].
  { split; [done|]. intros [t Ht]. by rewrite string_app_cons in Ht. }
  simpl. case_decide as Hc; subst.
  - rewrite IH. split; intros [t Ht]; exists t; [by rewrite string_app_cons, <- Ht|].
    rewrite string_app_cons in Ht. by simplify_eq.
  - split; [done|]. intros [t Ht]. rewrite string_app_cons in Ht. by simplify_eq.
Qed.

(** [find_char] cuts the string at the first occurrence. *)
Lemma no_char_cons c d s : no_char c (String d s) <-> c <> d /\ no_char c s.
Proof. unfold no_char. rewrite chars_cons. set_solver. Qed.

Lemma no_char_app c a b : no_char c (a +:+ b) <-> no_char c a /\ no_char c b.
Proof. unfold no_char. rewrite chars_app. set_solver. Qed.

Lemma find_char_Some c s i :
  find_char c s = Some i ->
  exists a b, s = a +:+ String c b /\ no_char c a /\ String.length a = i.
Proof.
  revert i. induction s as [|d s IH]; intros i; simpl; [done|].
  case_decide as Hd; subst.
  - intros [= <-]. exists "", s. split_and!; [done| |done]. unfold no_char. set_solver.
  - destruct (find_char c s) as [j|]; simpl; intros [= <-].
    destruct (IH _ eq_refl) as (a & b & -> & Ha & <-).
    exists (String d a), b. split_and!; [done| |done]. by apply no_char_cons.
Qed.

Lemma find_char_app c a b : no_char c a -> find_char c (a +:+ String c b) = Some (String.length a).
Proof.
  induction a as [|d a IH]; intros Ha; [simpl; change ("" +:+ String c b) with (String c b); simpl; by rewrite decide_True|].
  apply no_char_cons in Ha as [Hd Ha]. rewrite string_app_cons. simpl.
  rewrite decide_False, IH by done. done.
Qed.

Lemma find_char_None c s : find_char c s = None <-> no_char c s.
Proof.
  unfold no_char. induction s as [|d s IH]; simpl; [set_solver|].
  rewrite chars_cons. case_decide; subst; [set_solver|].
  destruct (find_char c s); simpl; set_solver.
Qed.

(** ** Machine-width integers *)

Definition u64_max : Z := 2 ^ 64 - 1.
Definition i64_min : Z := - 2 ^ 63.
Definition i64_max : Z := 2 ^ 63 - 1.

Definition is_u64 (z : Z) : Prop := 0 <= z <= u64_max.
Definition is_i64 (z : Z) : Prop := i64_min <= z <= i64_max.

(** Conversion to an unsigned type reduces modulo its width; conversion to a
    signed type takes the representative in its range (two's complement). *)
Definition wrap_u (w : Z) (z : Z) : Z := z mod 2 ^ w.
Definition wrap_i (w : Z) (z : Z) : Z := (z + 2 ^ (w - 1)) mod 2 ^ w - 2 ^ (w - 1).

Abbreviation to_u64 := (wrap_u 64).
Abbreviation to_u32 := (wrap_u 32).
Abbreviation to_i64 := (wrap_i 64).
Abbreviation to_i32 := (wrap_i 32).

Lemma to_u64_range z : is_u64 (to_u64 z).
Proof. unfold is_u64, u64_max, wrap_u. pose proof (Z.mod_pos_bound z (2 ^ 64)). lia. Qed.

Lemma to_u64_id z : is_u64 z -> to_u64 z = z.
Proof. unfold is_u64, u64_max, wrap_u. intros. apply Z.mod_small. lia. Qed.

Lemma to_i64_range z : is_i64 (to_i64 z).
Proof.
  unfold is_i64, i64_min, i64_max, wrap_i.
  pose proof (Z.mod_pos_bound (z + 2 ^ (64 - 1)) (2 ^ 64)). lia.
Qed.

Lemma to_i64_id z : is_i64 z -> to_i64 z = z.
Proof.
  unfold is_i64, i64_min, i64_max, wrap_i. intros.
  rewrite Z.mod_small; lia.
Qed.

#[export] Hint Resolve to_u64_range to_i64_range : h2.

(** An operation of [int] arithmetic: a result that is no [int] is an overflow,
    which C++ leaves undefined. *)
Definition is_i32 (z : Z) : Prop := - 2 ^ 31 <= z < 2 ^ 31.
Definition int_arith (z : Z) : outcome Z := if bool_decide (- 2 ^ 31 <= z < 2 ^ 31) then Val z else Throw undefined.

(** ** Characters *)

Definition zc (c : ascii) : Z := Z.of_N (N_of_ascii c).
Definition cz (z : Z) : ascii := ascii_of_N (Z.to_N (z mod 256)).

Lemma zc_range c : 0 <= zc c < 256.
Proof. unfold zc. pose proof (N_ascii_bounded c). lia. Qed.

Lemma cz_zc c : cz (zc c) = c.
Proof.
  unfold cz. rewrite Z.mod_small by apply zc_range. unfold zc. rewrite N2Z.id.
  apply ascii_N_embedding.
Qed.

Lemma zc_cz z : 0 <= z < 256 -> zc (cz z) = z.
Proof.
  intros. unfold cz, zc. rewrite Z.mod_small by done. rewrite N_ascii_embedding; lia.
Qed.

Lemma zc_inj c d : zc c = zc d -> c = d.
Proof. intros H. by rewrite <- (cz_zc c), <- (cz_zc d), H. Qed.

(** C locale character classes. *)
Definition isspace (c : ascii) : bool := (zc c =? 32) || ((9 <=? zc c) && (zc c <=? 13)).
Definition isdigit (c : ascii) : bool := (48 <=? zc c) && (zc c <=? 57).
Definition isupper (c : ascii) : bool := (65 <=? zc c) && (zc c <=? 90).
Definition islower (c : ascii) : bool := (97 <=? zc c) && (zc c <=? 122).
Definition isxdigit (c : ascii) : bool :=
  isdigit c || ((65 <=? zc c) && (zc c <=? 70)) || ((97 <=? zc c) && (zc c <=? 102)).
Definition isprint (c : ascii) : bool := (32 <=? zc c) && (zc c <=? 126).

(** ** [strtoull]/[strtoll] and the [std::sto*] family *)

(** Value of a digit in bases up to 36. *)
Definition digit_val (c : ascii) : option Z :=
  if isdigit c then Some (zc c - 48)
  else if islower c then Some (zc c - 87)
  else if isupper c then Some (zc c - 55)
  else None.

Definition digit_in (base : Z) (c : ascii) : option Z :=
  match digit_val c with
  | Some d => if d <? base then Some d else None
  | None => None
  end.

(** Longest prefix of digits, accumulated on [a]; the rest is returned. *)
Fixpoint scan_digits (base : Z) (s : string) (a : Z) : Z * string :=
  match s with
  | EmptyString => (a, s)
  | String c s' =>
      match digit_in base c with
      | Some d => scan_digits base s' (a * base + d)
      | None => (a, s)
      end
  end.

Fixpoint skip_space (s : string) : string :=
  match s with
  | String c s' => if isspace c then skip_space s' else s
  | EmptyString => s
  end.

Definition take_sign (s : string) : bool * string :=
  match s with
  | String c s' =>
      if decide (c = "-"%char) then (true, s')
      else if decide (c = "+"%char) then (false, s')
      else (false, s)
  | EmptyString => (false, s)
  end.

Definition starts_digit (base : Z) (s : string) : bool :=
  match s with
  | String c _ => match digit_in base c with Some _ => true | None => false end
  | EmptyString => false
  end.

(** In base 16 an optional [0x]/[0X] is skipped when a digit follows it. *)
Definition skip_0x (base : Z) (s : string) : string :=
  match s with
  | String z (String x s') =>
      if (base =? 16) && bool_decide (z = "0"%char)
         && (bool_decide (x = "x"%char) || bool_decide (x = "X"%char)) && starts_digit base s'
      then s' else s
  | _ => s
  end.

(** The subject sequence of [strtoull]: sign and magnitude, [None] when there
    is no digit. *)
Definition strto (base : Z) (s : string) : option (bool * Z) :=
  let '(neg, s1) := take_sign (skip_space s) in
  let s2 := skip_0x base s1 in
  if starts_digit base s2 then Some (neg, (scan_digits base s2 0).1) else None.

(** [std::stoull(s, nullptr, base)]: a negative sequence is converted to the
    unsigned type, as [strtoull] does. *)
Definition stoull_base (base : Z) (s : string) : outcome Z :=
  match strto base s with
  | None => Throw invalid_argument
  | Some (neg, v) =>
      if v <=? u64_max then Val (if neg : bool then to_u64 (- v) else v) else Throw out_of_range
  end.
Definition stoull : string -> outcome Z := stoull_base 10.

Definition sto_signed (lo hi : Z) (s : string) : outcome Z :=
  match strto 10 s with
  | None => Throw invalid_argument
  | Some (neg, v) =>
      let z := if neg : bool then - v else v in
      if (lo <=? z) && (z <=? hi) then Val z else Throw out_of_range
  end.
Definition stoll : string -> outcome Z := sto_signed i64_min i64_max.
Definition stoi : string -> outcome Z := sto_signed (- 2 ^ 31) (2 ^ 31 - 1).

(** ** Printing integers *)

Definition digit_char (capital : bool) (d : Z) : ascii :=
  if d <? 10 then cz (48 + d) else cz ((if capital then 65 else 97) + d - 10).

(** The loop [while (val > 0) \{ emit val % base; val /= base \}] and the final
    reversal: the digits are consed in front of [acc]. *)
Fixpoint render_loop (fuel : nat) (base : Z) (capital : bool) (v : Z) (acc : string) : string :=
  match fuel with
  | O => acc
  | S f =>
      if 0 <? v
      then render_loop f base capital (v / base) (String (digit_char capital (v mod base)) acc)
      else acc
  end.

(** 64 rounds consume any 64-bit value in any base from 2 on. *)
Definition render (base : Z) (capital : bool) (v : Z) : string :=
  if v =? 0 then "0" else render_loop 64 base capital v "".

(** [std::to_string] on unsigned and signed 64-bit integers. *)
Definition to_string_u (v : Z) : string := render 10 false v.
Definition to_string_i (v : Z) : string :=
  if v <? 0 then "-" +:+ render 10 false (- v) else render 10 false v.

(** ** Round trip between printing and parsing *)

Lemma digit_char_zc cap d :
  0 <= d < 36 -> zc (digit_char cap d) = (if d <? 10 then 48 + d else (if cap : bool then 65 else 97) + d - 10).
Proof. intros. unfold digit_char. destruct (d <? 10) eqn:E, cap; apply zc_cz; lia. Qed.

Lemma digit_val_char cap d : 0 <= d < 36 -> digit_val (digit_char cap d) = Some d.
Proof.
  intros Hd. unfold digit_val, isdigit, islower, isupper. rewrite digit_char_zc by done.
  destruct (d <? 10) eqn:E, cap; repeat case_match; try lia; f_equal; lia.
Qed.

Lemma digit_in_char base cap d :
  0 <= d < base -> base <= 36 -> digit_in base (digit_char cap d) = Some d.
Proof.
  intros. unfold digit_in. rewrite digit_val_char by lia. by destruct (Z.ltb_spec d base); [|lia].
Qed.

(** Scanning what the loop wrote in front of [acc] reaches [acc] with the
    printed value accumulated. *)
Lemma scan_render_loop base cap fuel : forall v acc,
  2 <= base <= 36 -> 0 <= v < base ^ Z.of_nat fuel ->
  scan_digits base (render_loop fuel base cap v acc) 0 = scan_digits base acc v.
Proof.
  induction fuel as [|f IH]; intros v acc Hb Hv.
  - simpl. f_equal. change (Z.of_nat 0) with 0 in Hv. lia.
  - simpl. destruct (Z.ltb_spec 0 v); [|f_equal; lia].
    rewrite Nat2Z.inj_succ, Z.pow_succ_r in Hv by lia.
    rewrite IH; [|done|].
    + simpl. rewrite digit_in_char by (pose proof (Z.mod_pos_bound v base); lia).
      f_equal. rewrite Z.mul_comm. symmetry. apply Z.div_mod. lia.
    + split; [apply Z.div_pos; lia|]. apply Z.div_lt_upper_bound; lia.
Qed.

(** Every character the loop writes is a digit of the base. *)
Lemma render_loop_starts base cap fuel : forall v acc,
  2 <= base <= 36 -> 0 <= v ->
  starts_digit base acc = true \/ (0 < v /\ (0 < fuel)%nat) ->
  starts_digit base (render_loop fuel base cap v acc) = true.
Proof.
  induction fuel as [|f IH]; intros v acc Hb Hv H; simpl; [crush|].
  destruct (Z.ltb_spec 0 v); [|crush].
  apply IH; [done|apply Z.div_pos; lia|]. left. simpl.
  by rewrite digit_in_char by (pose proof (Z.mod_pos_bound v base); lia).
Qed.

(** The leading digit of a printed non-zero value is not zero. *)
Lemma render_loop_head base cap fuel : forall v acc,
  2 <= base <= 36 -> 0 < v < base ^ Z.of_nat fuel ->
  exists d r, 0 < d < base /\ render_loop fuel base cap v acc = String (digit_char cap d) r.
Proof.
  induction fuel as [|f IH]; intros v acc Hb Hv.
  - change (Z.of_nat 0) with 0 in Hv. lia.
  - simpl. destruct (Z.ltb_spec 0 v); [|lia].
    rewrite Nat2Z.inj_succ, Z.pow_succ_r in Hv by lia.
    destruct (decide (v < base)) as [Hlt|].
    + rewrite (Z.div_small v), (Z.mod_small v) by lia. exists v, acc. split; [lia|].
      by destruct f.
    + apply IH; [done|]. split.
      * apply Z.div_str_pos. lia.
      * apply Z.div_lt_upper_bound; lia.
Qed.

Lemma u64_lt_pow base v : 2 <= base -> is_u64 v -> 0 <= v < base ^ Z.of_nat 64.
Proof.
  intros Hb [H0 H1]. split; [done|]. unfold u64_max in H1.
  assert (2 ^ 64 <= base ^ Z.of_nat 64); [|lia].
  change (Z.of_nat 64) with 64. apply Z.pow_le_mono_l. lia.
Qed.

Lemma digit_not_special base c :
  digit_in base c <> None -> isspace c = false /\ c <> "-"%char /\ c <> "+"%char.
Proof.
  intros H. assert (digit_val c <> None) as Hd.
  { unfold digit_in in H. by destruct (digit_val c). }
  split_and!.
  - unfold digit_val, isdigit, islower, isupper, isspace in *. repeat case_match; first [done|lia].
  - intros ->. by apply Hd.
  - intros ->. by apply Hd.
Qed.

(** A string that starts with a digit has no blanks or sign to skip. *)
Lemma strto_digits base s :
  starts_digit base s = true -> skip_0x base s = s ->
  strto base s = Some (false, (scan_digits base s 0).1).
Proof.
  intros Hs Hx. unfold strto. destruct s as [|c s]; [done|].
  assert (digit_in base c <> None) as Hc by (simpl in Hs; by case_match).
  destruct (digit_not_special _ _ Hc) as (Hsp & Hm & Hp). simpl skip_space. rewrite Hsp.
  simpl take_sign. rewrite !decide_False by done. by rewrite Hx, Hs.
Qed.

Lemma render_no_0x base cap v :
  2 <= base <= 36 -> is_u64 v -> skip_0x base (render base cap v) = render base cap v.
Proof.
  intros Hb Hv. unfold render. destruct (Z.eqb_spec v 0); [done|].
  destruct (render_loop_head base cap 64 v "") as (d & r & Hd & ->); [done| |].
  { destruct (u64_lt_pow base v); [lia|done|]. split; lia. }
  assert (digit_char cap d <> "0"%char) as Hz.
  { intros H. apply (f_equal digit_val) in H. rewrite digit_val_char in H by lia.
    assert (Some d = Some 0) by done. crush. }
  simpl. destruct r as [|x r]; [done|]. rewrite (bool_decide_eq_false_2 _ Hz).
  by rewrite andb_false_r.
Qed.

Lemma render_starts base cap v :
  2 <= base <= 36 -> is_u64 v -> starts_digit base (render base cap v) = true.
Proof.
  intros Hb [Hv _]. unfold render. destruct (Z.eqb_spec v 0).
  - simpl. unfold digit_in. change (digit_val "0") with (Some 0). simpl.
    by destruct (Z.ltb_spec 0 base); [|lia].
  - apply render_loop_starts; [done..|]. right. lia.
Qed.

Lemma strto_render base cap v :
  2 <= base <= 36 -> is_u64 v -> strto base (render base cap v) = Some (false, v).
Proof.
  intros Hb Hv. rewrite strto_digits by auto using render_starts, render_no_0x.
  do 2 f_equal. unfold render. destruct (Z.eqb_spec v 0) as [->|].
  - simpl. unfold digit_in. change (digit_val "0") with (Some 0). simpl.
    by destruct (Z.ltb_spec 0 base); [|lia].
  - rewrite scan_render_loop; [done|done|]. apply u64_lt_pow; [lia|done].
Qed.

Lemma stoull_render base cap v :
  2 <= base <= 36 -> is_u64 v -> stoull_base base (render base cap v) = Val v.
Proof.
  intros Hb Hv. unfold stoull_base. rewrite strto_render by done.
  destruct Hv. by destruct (Z.leb_spec v u64_max); [|lia].
Qed.

Lemma stoull_range base s v : stoull_base base s = Val v -> is_u64 v.
Proof.
  unfold stoull_base. destruct (strto base s) as [[neg z]|] eqn:Hs; [|done].
  destruct (Z.leb_spec z u64_max); [|done]. intros [= <-].
  destruct neg; [apply to_u64_range|]. split; [|done].
  unfold strto in Hs. destruct (take_sign _) as [n s1]. case_match; simplify_eq.
  assert (forall t a, 0 <= a -> 0 <= base -> 0 <= (scan_digits base t a).1) as Hnn.
  { induction t as [|c t IH]; intros a Ha Hb; simpl; [done|].
    destruct (digit_in base c) as [d|] eqn:Hd; [|done]. apply IH; [|done].
    unfold digit_in, digit_val, isdigit, islower, isupper in Hd.
    repeat case_match; simplify_eq; nia. }
  destruct (decide (0 <= base)); [by apply Hnn|].
  destruct (skip_0x base s1) as [|c t]; [done|]. simpl in *.
  destruct (digit_in base c) as [d|] eqn:Hd; [|done].
  unfold digit_in, digit_val, isdigit, islower, isupper in Hd.
  repeat case_match; simplify_eq; lia.
Qed.

(** Signed values: [std::stoll] reads what [std::to_string] writes. *)
Lemma strto_neg base s :
  starts_digit base s = true -> skip_0x base s = s ->
  strto base ("-" +:+ s) = Some (true, (scan_digits base s 0).1).
Proof.
  intros Hs Hx. unfold strto.
  assert (take_sign (skip_space ("-" +:+ s)) = (true, s)) as -> by done. by rewrite Hx, Hs.
Qed.

Lemma strto_neg_render v :
  is_u64 v -> strto 10 ("-" +:+ render 10 false v) = Some (true, v).
Proof.
  intros Hv. assert (2 <= 10 <= 36) as Hb by lia.
  rewrite strto_neg by auto using render_starts, render_no_0x.
  pose proof (strto_render 10 false v Hb Hv) as H1.
  rewrite strto_digits in H1 by auto using render_starts, render_no_0x. congruence.
Qed.

Lemma stoll_to_string i : is_i64 i -> stoll (to_string_i i) = Val i.
Proof.
  intros Hi. unfold stoll, sto_signed, to_string_i. unfold is_i64, i64_min, i64_max in *.
  destruct (Z.ltb_spec i 0).
  - rewrite strto_neg_render by (unfold is_u64, u64_max; lia). rewrite Z.opp_involutive.
    by destruct (Z.leb_spec (- 2 ^ 63) i), (Z.leb_spec i (2 ^ 63 - 1)); [|lia..].
  - rewrite strto_render by (unfold is_u64, u64_max; lia).
    by destruct (Z.leb_spec (- 2 ^ 63) i), (Z.leb_spec i (2 ^ 63 - 1)); [|lia..].
Qed.

Lemma stoll_range s v : stoll s = Val v -> is_i64 v.
Proof.
  unfold stoll, sto_signed, is_i64. destruct (strto 10 s) as [[neg z]|]; [|done].
  destruct (Z.leb_spec i64_min (if neg : bool then - z else z)),
    (Z.leb_spec (if neg : bool then - z else z) i64_max); cbn; try done. by intros [= <-].
Qed.
