(* ===== verification/Double.v ===== *)
(** [double] as IEEE binary64 over the standard library's [SpecFloat]: the
    conversions, the operations and the text forms ([std::to_string],
    [std::stod]) the sources use.  Executable and axiom free. *)
From S2P Require Import Prelude Std.
From Stdlib Require Import SpecFloat.
From stdpp Require Import options.
#[local] Open Scope Z_scope.

Definition double := spec_float.
Definition prec := 53.
Definition emax := 1024.

(** Nearest double (ties to even) to [m * 2^e]. *)
Definition d_make (m e : Z) : double := binary_normalize prec emax m e false.
Definition d_of_Z (z : Z) : double := d_make z 0.
Definition d_add : double -> double -> double := SFadd prec emax.
Definition d_mul : double -> double -> double := SFmul prec emax.
Definition d_div : double -> double -> double := SFdiv prec emax.
(** IEEE equality: zeros are equal, a NaN is different from everything. *)
Definition d_eqb : double -> double -> bool := SFeqb.

(** Truncation toward zero; [None] for infinities and NaN. *)
Definition d_trunc (f : double) : option Z :=
  match f with
  | S754_zero _ => Some 0
  | S754_finite s m e =>
      let a := if 0 <=? e then Z.pos m * 2 ^ e else Z.pos m / 2 ^ (- e) in
      Some (if s then - a else a)
  | _ => None
  end.

(** [std::int64_t(f)] and [std::uint64_t(f)]; [None] where C++ leaves the
    conversion undefined. *)
Definition d_to_i64 (f : double) : option Z :=
  match d_trunc f with
  | Some z => if (i64_min <=? z) && (z <=? i64_max) then Some z else None
  | None => None
  end.
Definition d_to_u64 (f : double) : option Z :=
  match d_trunc f with
  | Some z => if (0 <=? z) && (z <=? u64_max) then Some z else None
  | None => None
  end.

(** ** [std::to_string(double)]: the format [%f] *)

(** Nearest integer to [a / b], ties to even. *)
Definition div_nearest (a b : Z) : Z :=
  let q := a / b in
  let r := a mod b in
  if 2 * r <? b then q
  else if b <? 2 * r then q + 1
  else if Z.even q then q else q + 1.

(** Millionths of the value, rounded. *)
Definition d_micros (m : positive) (e : Z) : Z :=
  let a := Z.pos m * 1000000 in
  if 0 <=? e then a * 2 ^ e else div_nearest a (2 ^ (- e)).

(** Decimal digits; a double of the type has at most 1024 bits, so 1100 rounds
    are enough for any base. *)
Definition dec (v : Z) : string := if v =? 0 then "0" else render_loop 1100 10 false v "".

Fixpoint pad6 (n : nat) (v : Z) (acc : string) : string :=
  match n with
  | O => acc
  | S n' => pad6 n' (v / 10) (String (digit_char false (v mod 10)) acc)
  end.

Definition d_to_string (f : double) : string :=
  match f with
  | S754_zero s => (if s then "-" else "") +:+ "0.000000"
  | S754_infinity s => (if s then "-" else "") +:+ "inf"
  | S754_nan => "nan"
  | S754_finite s m e =>
      let v := d_micros m e in
      (if s then "-" else "") +:+ dec (v / 1000000) +:+ "." +:+ pad6 6 (v mod 1000000) ""
  end.

(** ** [std::stod] *)

(** Digits of [base] with a count, accumulated on [(a, n)]. *)
Fixpoint scan_count (base : Z) (s : string) (a n : Z) : Z * Z * string :=
  match s with
  | EmptyString => (a, n, s)
  | String c s' =>
      match digit_in base c with
      | Some d => scan_count base s' (a * base + d) (n + 1)
      | None => (a, n, s)
      end
  end.

Fixpoint istarts_with (p s : string) : bool :=
  match p, s with
  | EmptyString, _ => true
  | String c p', String d s' =>
      if decide (c = (if isupper d then cz (zc d + 32) else d)) then istarts_with p' s' else false
  | _, EmptyString => false
  end.

(** Mantissa: digits with an optional point; value, number of fractional
    digits, number of digits, rest. *)
Definition scan_mantissa (base : Z) (s : string) : Z * Z * Z * string :=
  let '(a, n, s1) := scan_count base s 0 0 in
  match s1 with
  | String "." s2 => let '(a', n', s3) := scan_count base s2 a 0 in (a', n', n + n', s3)
  | _ => (a, 0, n, s1)
  end.

(** Optional exponent after the mark [x] (lower case). *)
Definition scan_exponent (x : string) (s : string) : Z :=
  if istarts_with x s then
    let '(neg, s1) := take_sign (sdrop 1 s) in
    if starts_digit 10 s1 then let e := (scan_digits 10 s1 0).1 in if neg : bool then - e else e else 0
  else 0.

(** Nearest double to [a * 10^k]: for a negative [k] the quotient is computed
    with 64 bits more than the operands need and a sticky bit. *)
Definition d_of_decimal (a k : Z) : double :=
  if 0 <=? k then d_make (a * 10 ^ k) 0
  else
    let den := 10 ^ (- k) in
    let sh := Z.log2 den + 64 in
    let num := a * 2 ^ sh in
    let q := num / den in
    d_make (2 * q + (if num mod den =? 0 then 0 else 1)) (- sh - 1).

Definition d_opp (neg : bool) (f : double) : double := if neg then SFopp f else f.

(** A finite value that is neither an overflow nor an underflow. *)
Definition d_in_range (a : Z) (f : double) : bool :=
  match f with
  | S754_finite _ m e => negb ((e =? -1074) && (Z.pos m <? 2 ^ 52))
  | S754_zero _ => a =? 0
  | _ => false
  end.

Definition stod (s : string) : outcome double :=
  let '(neg, s1) := take_sign (skip_space s) in
  if istarts_with "inf" s1 then Val (S754_infinity neg)
  else if istarts_with "nan" s1 then Val S754_nan
  else
    let hex := istarts_with "0x" s1 in
    let '(a, nf, n, rest) := if hex then scan_mantissa 16 (sdrop 2 s1) else scan_mantissa 10 s1 in
    if hex && negb (n =? 0) then
      let f := d_make a (scan_exponent "p" rest - 4 * nf) in
      if d_in_range a f then Val (d_opp neg f) else Throw out_of_range
    else
      let '(a, nf, n, rest) := scan_mantissa 10 s1 in
      if n =? 0 then Throw invalid_argument
      else
        let f := d_of_decimal a (scan_exponent "e" rest - nf) in
        if d_in_range a f then Val (d_opp neg f) else Throw out_of_range.

(** ** Checks against known values *)

Example stod_pi : stod "3.25xyz" = Val (d_make 13 (-2)).
Proof. vm_compute. reflexivity. Qed.
Example stod_tenth : d_to_string <$> (match stod "-0.1" with Val f => Some f | _ => None end) = Some "-0.100000".
Proof. vm_compute. reflexivity. Qed.
Example stod_bad : stod "abc" = Throw invalid_argument.
Proof. vm_compute. reflexivity. Qed.
Example to_string_third : d_to_string (d_of_decimal 33333333 (-8)) = "0.333333".
Proof. vm_compute. reflexivity. Qed.
Example to_string_big : d_to_string (d_of_Z (10 ^ 16)) = "10000000000000000.000000".
Proof. vm_compute. reflexivity. Qed.
