(* ===== verification/Functions.v ===== *)
(** [src/model/functions.cpp]: keys aggregated with ['#'], numbers with a sign,
    query parameters, printable and hexadecimal views of a byte string, metric
    names.  The URL decoder of the http2comm library is a parameter. *)
From S2P Require Import Prelude Std.
From stdpp Require Import options.
#[local] Open Scope Z_scope.

(** ** Aggregated keys *)

Module StringKey.

Definition calculateStringKey (k1 k2 k3 : string) : string :=
  let key := k1 +:+ "#" +:+ k2 in
  if negb (sempty k3) then key +:+ "#" +:+ k3 else key.

Definition aggregateKeyPart (key k1 k2 : string) : string :=
  if sempty k2 then (k1 +:+ "#") +:+ key else k1 +:+ "#" +:+ k2.

Lemma two_parts_unique k1 k2 k1' k2' :
  no_char "#" k1 -> no_char "#" k1' ->
  k1 +:+ "#" +:+ k2 = k1' +:+ "#" +:+ k2' -> k1 = k1' /\ k2 = k2'.
Proof. intros. by apply (string_split_unique "#"). Qed.

Lemma key_as_two_parts k1 k2 k3 :
  calculateStringKey k1 k2 k3 =
  k1 +:+ "#" +:+ (if sempty k3 then k2 else k2 +:+ "#" +:+ k3).
Proof.
  unfold calculateStringKey. destruct (sempty k3); [done|]. simpl.
  by rewrite !string_app_assoc.
Qed.

(** The tail of a key, with an optional third part, splits in one way only. *)
Lemma tail_unique k2 k3 k2' k3' :
  no_char "#" k2 -> no_char "#" k2' ->
  (if sempty k3 then k2 else k2 +:+ "#" +:+ k3) =
  (if sempty k3' then k2' else k2' +:+ "#" +:+ k3') -> k2 = k2' /\ k3 = k3'.
Proof.
  intros H2 H2'.
  destruct (sempty k3) eqn:E; destruct (sempty k3') eqn:E'; intros H.
  - apply sempty_true in E as ->. apply sempty_true in E' as ->. done.
  - exfalso. rewrite H in H2. apply no_char_app in H2 as [_ H2].
    apply (no_char_cons "#" "#" k3') in H2 as [? _]. done.
  - exfalso. rewrite <- H in H2'. apply no_char_app in H2' as [_ H2'].
    apply (no_char_cons "#" "#" k3) in H2' as [? _]. done.
  - by apply two_parts_unique.
Qed.

Lemma calculateStringKey_inj k1 k2 k3 k1' k2' k3' :
  no_char "#" k1 -> no_char "#" k2 -> no_char "#" k1' -> no_char "#" k2' ->
  calculateStringKey k1 k2 k3 = calculateStringKey k1' k2' k3' ->
  k1 = k1' /\ k2 = k2' /\ k3 = k3'.
Proof.
  intros H1 H2 H1' H2'. rewrite !key_as_two_parts. intros H.
  apply two_parts_unique in H as [-> H]; [|done..].
  by apply tail_unique in H as [-> ->].
Qed.

End StringKey.
Export StringKey.

(** ** Numbers with a sign *)

(** Outputs: success, the number passed by reference, the sign flag. *)
Definition string2uint64andSign (input : string) (output : Z) (negative : bool) : bool * Z * bool :=
  match input with
  | EmptyString => (false, output, negative)
  | String c rest =>
      let negative := bool_decide (c = "-"%char) in
      match stoull (if negative then rest else input) with
      | Val v => (true, v, negative)
      | Throw _ => (false, output, negative)
      end
  end.

Lemma string2uint64andSign_pos v o n :
  is_u64 v -> string2uint64andSign (to_string_u v) o n = (true, v, false).
Proof.
  intros Hv. pose proof (render_starts 10 false v ltac:(lia) Hv) as Hs.
  pose proof (stoull_render 10 false v ltac:(lia) Hv) as Hr.
  unfold string2uint64andSign, to_string_u, stoull.
  destruct (render 10 false v) as [|c s] eqn:E; [done|].
  assert (digit_in 10 c <> None) as Hc by (simpl in Hs; by case_match).
  destruct (digit_not_special _ _ Hc) as (_ & Hm & _).
  rewrite (bool_decide_eq_false_2 _ Hm). by rewrite Hr.
Qed.

Lemma string2uint64andSign_neg v o n :
  is_u64 v -> string2uint64andSign ("-" +:+ to_string_u v) o n = (true, v, true).
Proof.
  intros Hv. change ("-" +:+ to_string_u v) with (String "-" (to_string_u v)).
  simpl. unfold stoull, to_string_u. rewrite stoull_render by (done || lia). done.
Qed.

Lemma string2uint64andSign_range input o n v neg :
  string2uint64andSign input o n = (true, v, neg) -> is_u64 v.
Proof.
  unfold string2uint64andSign. destruct input as [|c r]; [done|].
  destruct (stoull _) eqn:E; [|done]. intros [= <- _]. by eapply stoull_range.
Qed.

(** ** Printable and hexadecimal views *)

Module Hex.

(** [output] is the string passed by reference; characters are appended. *)
Definition asAsciiString (input output : string) : bool * string :=
  match input with
  | EmptyString => (false, "<null>")
  | _ =>
      foldl (fun '(result, out) c =>
               let printable := isprint c in
               (if printable then result else false,
                out +:+ String (if printable then c else "."%char) ""))
            (true, output) (chars input)
  end.

Definition hex_digit (byte : Z) : ascii :=
  if (0 <=? byte) && (byte <=? 9) then cz (byte + 48) else cz ((byte - 10) + 97).

Definition asHexString (input : string) : bool * string :=
  foldl (fun '(result, out) c =>
           (if isprint c then result else false,
            out +:+ String (hex_digit (Z.shiftr (Z.land (zc c) 240) 4))
                      (String (hex_digit (Z.land (zc c) 15)) "")))
        (true, "0x") (chars input).

(** [(aux >= '0' && aux <= '9') ? (aux - '0') : ((aux - 'a') + 0x0a)] *)
Definition hex_value (aux : Z) : Z :=
  if (48 <=? aux) && (aux <=? 57) then aux - 48 else (aux - 97) + 10.

(** The two assignments to the [unsigned char hex]. *)
Definition hex_byte (hi lo : Z) : ascii :=
  let hex := wrap_u 8 (Z.shiftl (hex_value hi) 4) in
  cz (wrap_u 8 (Z.lor hex (hex_value lo))).

Fixpoint fromHex_loop (l : list ascii) (output : string) : bool * string :=
  match l with
  | h :: t =>
      match t with
      | lo :: t' =>
          if negb (isxdigit h) then (false, output)
          else if negb (isxdigit lo) then (false, output)
          else fromHex_loop t' (output +:+ String (hex_byte (zc h) (zc lo)) "")
      | [] => (true, output)
      end
  | [] => (true, output)
  end.

Definition fromHexString (input output : string) : bool * string :=
  let has0x := starts_with "0x" input in
  if negb (Z.of_nat (String.length input) mod 2 =? 0) then (false, output)
  else fromHex_loop (chars (if has0x then sdrop 2 input else input)) "".

(** *** Reference views, one character at a time *)

Definition hex_pair (c : ascii) : list ascii :=
  [hex_digit (zc c / 16); hex_digit (zc c mod 16)].

Lemma land_240_shiftr z : 0 <= z < 256 -> Z.shiftr (Z.land z 240) 4 = z / 16.
Proof.
  intros. rewrite Z.shiftr_land. change (Z.shiftr 240 4) with (Z.ones 4).
  rewrite Z.land_ones, Z.shiftr_div_pow2 by lia. change (2 ^ 4) with 16.
  apply Z.mod_small. split; [apply Z.div_pos; lia|apply Z.div_lt_upper_bound; lia].
Qed.

Lemma land_15 z : Z.land z 15 = z mod 16.
Proof. change 15 with (Z.ones 4). by rewrite Z.land_ones. Qed.

Lemma asHex_fold l : forall r out,
  foldl (fun '(result, out) c =>
           (if isprint c then result else false,
            out +:+ String (hex_digit (Z.shiftr (Z.land (zc c) 240) 4))
                      (String (hex_digit (Z.land (zc c) 15)) "")))
        (r, out) l
  = (r && forallb isprint l, out +:+ str (l ≫= hex_pair)).
Proof.
  induction l as [|c l IH]; intros r out; simpl.
  { by rewrite andb_true_r, string_app_nil_r. }
  rewrite IH. rewrite land_240_shiftr, land_15 by apply zc_range. f_equal.
  - by destruct (isprint c), r.
  - by rewrite string_app_assoc.
Qed.

Lemma asHexString_eq s :
  asHexString s = (forallb isprint (chars s), "0x" +:+ str (chars s ≫= hex_pair)).
Proof. unfold asHexString. by rewrite asHex_fold. Qed.

Lemma asAscii_fold l : forall r out,
  foldl (fun '(result, out) c =>
               let printable := isprint c in
               (if printable then result else false,
                out +:+ String (if printable then c else "."%char) ""))
        (r, out) l
  = (r && forallb isprint l,
     out +:+ str (map (fun c => if isprint c then c else "."%char) l)).
Proof.
  induction l as [|c l IH]; intros r out; simpl.
  { by rewrite andb_true_r, string_app_nil_r. }
  rewrite IH. f_equal; [by destruct (isprint c), r|]. by rewrite string_app_assoc.
Qed.

Lemma hex_digit_zc b : 0 <= b < 16 -> zc (hex_digit b) = if b <=? 9 then b + 48 else b + 87.
Proof. intros. unfold hex_digit. repeat case_match; rewrite ?zc_cz; lia. Qed.

Lemma hex_digit_xdigit b : 0 <= b < 16 -> isxdigit (hex_digit b) = true.
Proof.
  intros. unfold isxdigit, isdigit. rewrite hex_digit_zc by done. case_match; lia.
Qed.

Lemma hex_value_digit b : 0 <= b < 16 -> hex_value (zc (hex_digit b)) = b.
Proof. intros. unfold hex_value. rewrite hex_digit_zc by done. repeat case_match; lia. Qed.

Lemma hex_byte_digits h l :
  0 <= h < 16 -> 0 <= l < 16 -> hex_byte (zc (hex_digit h)) (zc (hex_digit l)) = cz (16 * h + l).
Proof.
  intros Hh Hl. unfold hex_byte. rewrite !hex_value_digit by done.
  rewrite Z.shiftl_mul_pow2 by lia. change (2 ^ 4) with 16.
  assert (Z.lor (h * 16) l = h * 16 + l) as Hlor.
  { change 16 with (2 ^ 4). rewrite <- Z.shiftl_mul_pow2 by lia. symmetry.
    apply Z.add_nocarry_lor. apply Z.bits_inj_0. intros n.
    rewrite Z.land_spec. destruct (Z.ltb_spec n 4).
    - by rewrite Z.shiftl_spec_low by lia.
    - rewrite (Z.bits_above_log2 l n); [apply andb_false_r|lia|].
      destruct (decide (l = 0)) as [->|]; [simpl; lia|].
      assert (Z.log2 l < 4); [|lia]. apply Z.log2_lt_pow2; [lia|]. simpl. lia. }
  unfold wrap_u. change (2 ^ 8) with 256. rewrite (Z.mod_small (h * 16)) by lia.
  rewrite Hlor, Z.mod_small by lia. f_equal. lia.
Qed.

Lemma fromHex_pairs l : forall out,
  fromHex_loop (l ≫= hex_pair) out = (true, out +:+ str l).
Proof.
  induction l as [|c l IH]; intros out; simpl; [by rewrite string_app_nil_r|].
  pose proof (zc_range c).
  assert (0 <= zc c / 16 < 16) as Hh.
  { split; [apply Z.div_pos; lia|apply Z.div_lt_upper_bound; lia]. }
  assert (0 <= zc c mod 16 < 16) as Hl by (apply Z.mod_pos_bound; lia).
  rewrite !hex_digit_xdigit, hex_byte_digits by done. simpl. rewrite IH.
  rewrite <- Z.div_mod by lia. rewrite cz_zc. by rewrite string_app_assoc.
Qed.

Lemma hex_pairs_length (l : list ascii) : length (l ≫= hex_pair) = (2 * length l)%nat.
Proof. induction l as [|c l IH]; simpl; [done|]. unfold mbind in IH. rewrite IH. lia. Qed.

End Hex.
Export Hex.

(** ** Metric names *)

(** [[a-zA-Z0-9:_]] *)
Definition metrics_char (c : ascii) : bool :=
  islower c || isupper c || isdigit c || bool_decide (c = ":"%char) || bool_decide (c = "_"%char).

Definition fixMetricsName (input : string) : string :=
  foldl (fun result c => if metrics_char c then result +:+ String c "" else result +:+ "_") "" (chars input).

Lemma fixMetricsName_map input :
  fixMetricsName input = str (map (fun c => if metrics_char c then c else "_"%char) (chars input)).
Proof.
  assert (forall l out, foldl (fun result c => if metrics_char c then result +:+ String c "" else result +:+ "_") out l
    = out +:+ str (map (fun c => if metrics_char c then c else "_"%char) l)) as Hfold; [|apply Hfold].
  induction l as [|c l IH]; intros out; simpl; [by rewrite string_app_nil_r|].
  rewrite IH. by destruct (metrics_char c); rewrite string_app_assoc.
Qed.

Lemma hex_inverse (s output : string) : fromHexString (asHexString s).2 output = (true, s).
Proof.
  rewrite asHexString_eq. cbn [snd]. unfold fromHexString.
  assert (starts_with "0x" ("0x" +:+ str (chars s ≫= hex_pair)) = true) as ->
    by (apply starts_with_spec; eauto).
  assert (String.length ("0x" +:+ str (chars s ≫= hex_pair)) = 2 * (S (length (chars s))))%nat as ->.
  { rewrite slength_app, <- !chars_length, chars_str, hex_pairs_length.
    change (length (chars "0x")) with 2%nat. lia. }
  rewrite Nat2Z.inj_mul, Z.mul_comm, Z_mod_mult. cbn [negb Z.eqb].
  change (sdrop 2 ("0x" +:+ str (chars s ≫= hex_pair))) with (str (chars s ≫= hex_pair)).
  rewrite chars_str, fromHex_pairs, str_chars. done.
Qed.

(** ** Properties *)

(** The key of an events history (two or three parts joined by ['#'], the
    third one optional) determines its parts when the parts before the last one
    have no ['#']: two different parts never share a key. *)
Theorem calculateStringKey_injective k1 k2 k3 k1' k2' k3'
  (H1 : no_char "#" k1) (H2 : no_char "#" k2) (H1' : no_char "#" k1') (H2' : no_char "#" k2')
  (Hk : calculateStringKey k1 k2 k3 = calculateStringKey k1' k2' k3') :
  k1 = k1' /\ k2 = k2' /\ k3 = k3'.
Proof. by apply calculateStringKey_inj. Qed.

(** [asHexString] and [fromHexString] are inverse on every byte string, the
    empty one and bytes above 127 included; [asHexString] answers whether every
    byte is printable. *)
Theorem hex_round_trip (s output : string) :
  fromHexString (asHexString s).2 output = (true, s) /\
  (asHexString s).1 = forallb isprint (chars s).
Proof. split; [apply hex_inverse|]. by rewrite asHexString_eq. Qed.

(** An upper case digit in the low half of a byte is accepted but not decoded
    as its value: the byte gets its three upper bits set. *)
Theorem fromHex_upper_case_low_digit (h d : Z) (Hh : 0 <= h < 16) (Hd : 10 <= d < 16) :
  let text := str [hex_digit h; cz (d + 55)] in
  fromHexString text "" = (true, str [cz (Z.lor (16 * h + d) 224)]) /\ isxdigit (cz (d + 55)) = true.
Proof.
  cbn zeta.
  assert (forallb (fun h => forallb (fun d =>
     bool_decide (fromHexString (str [hex_digit h; cz (d + 55)]) "" = (true, str [cz (Z.lor (16 * h + d) 224)]))
     && isxdigit (cz (d + 55))) (seqZ 10 6)) (seqZ 0 16) = true) as Hall by (vm_compute; reflexivity).
  rewrite forallb_forall in Hall. specialize (Hall h).
  rewrite forallb_forall in Hall.
  assert (In h (seqZ 0 16)) as Hin' by (apply list_elem_of_In, elem_of_seqZ; lia).
  assert (In d (seqZ 10 6)) as Hin by (apply list_elem_of_In, elem_of_seqZ; lia).
  specialize (Hall Hin' d Hin). apply andb_true_iff in Hall as [Hall ?].
  by apply bool_decide_eq_true_1 in Hall.
Qed.

(** The number of an event is read as a 64-bit magnitude and a sign: every
    unsigned 64-bit integer written in decimal, with or without ['-'], is read back,
    and whatever the text, a success gives a value of that range. *)
Theorem string2uint64andSign_correct (v : Z) (input : string) (o : Z) (n : bool) (Hv : is_u64 v) :
  string2uint64andSign (to_string_u v) o n = (true, v, false) /\
  string2uint64andSign ("-" +:+ to_string_u v) o n = (true, v, true) /\
  (forall w neg, string2uint64andSign input o n = (true, w, neg) -> is_u64 w).
Proof.
  split_and!; [by apply string2uint64andSign_pos|by apply string2uint64andSign_neg|].
  intros w neg. apply string2uint64andSign_range.
Qed.

(** A metric name has only the characters Prometheus allows, keeps its length
    and its valid characters, and fixing it twice changes nothing. *)
Theorem fixMetricsName_correct (input : string) :
  forallb metrics_char (chars (fixMetricsName input)) = true /\
  String.length (fixMetricsName input) = String.length input /\
  (forall i c, chars input !! i = Some c -> metrics_char c = true -> chars (fixMetricsName input) !! i = Some c) /\
  fixMetricsName (fixMetricsName input) = fixMetricsName input.
Proof.
  rewrite !fixMetricsName_map, !chars_str, <- !chars_length, !chars_str. split_and!.
  - rewrite forallb_forall. intros c (c' & <- & _)%in_map_iff. by destruct (metrics_char c') eqn:E.
  - apply length_map.
  - intros i c Hc Hm. change (map ?f ?l) with (f <$> l). rewrite list_lookup_fmap, Hc. cbn. by rewrite Hm.
  - rewrite map_map. f_equal. apply map_ext. intros c. by destruct (metrics_char c) eqn:E; rewrite ?E.
Qed.

Module FunctionsExamples.

Lemma calculateStringKey_injective_witness :
  calculateStringKey "ep1" "GET" "/a#b" = calculateStringKey "ep1" "GET" "/a#b" /\ "/a#b" = "/a#b".
Proof.
  split; [reflexivity|].
  destruct (calculateStringKey_injective "ep1" "GET" "/a#b" "ep1" "GET" "/a#b") as (_ & _ & H);
    [by apply (bool_decide_unpack _)..|reflexivity|exact H].
Defined.

Lemma fromHex_upper_case_low_digit_witness : fromHexString "0A" "" = (true, str [cz 234]).
Proof. destruct (fromHex_upper_case_low_digit 0 10) as [H _]; [lia..|exact H]. Defined.

Lemma string2uint64andSign_correct_witness :
  string2uint64andSign "-18446744073709551615" 7 false = (true, 18446744073709551615, true).
Proof.
  destruct (string2uint64andSign_correct 18446744073709551615 "" 7 false) as (_ & H & _);
    [unfold is_u64, u64_max; lia|exact H].
Defined.

End FunctionsExamples.
