(* ===== verification/Query.v ===== *)
(** [extractQueryParameters] of [src/model/functions.cpp]: the scanning loop over
    positions as the code writes it, a reference that splits the text and cuts
    each piece at the first ['='], and the refinement between the two.
    [std::map] is a [gmap]; its iteration order is [map_entries]. *)
From S2P Require Import Prelude Std.
From stdpp Require Import options.

(** ** [std::map<std::string, V>] in iteration order *)

Definition key_le {V} (a b : string * V) : Prop := String.le a.1 b.1.

#[global] Instance key_le_dec {V} : RelDecision (@key_le V).
Proof. intros a b. unfold key_le. apply _. Defined.
#[global] Instance key_le_total {V} : Total (@key_le V).
Proof. intros a b. apply String.le_total. Qed.
#[global] Instance key_le_trans {V} : Transitive (@key_le V).
Proof. intros a b c. unfold key_le. apply transitivity. Qed.

Definition map_entries {V} (m : gmap string V) : list (string * V) :=
  merge_sort key_le (map_to_list m).

Lemma map_entries_perm {V} (m : gmap string V) : map_entries m ≡ₚ map_to_list m.
Proof. apply merge_sort_Permutation. Qed.

Lemma map_entries_sorted {V} (m : gmap string V) : StronglySorted key_le (map_entries m).
Proof. apply StronglySorted_merge_sort; apply _. Qed.

(** Two sorted lists with distinct keys and the same entries are equal. *)
Lemma entries_unique {V} (l1 l2 : list (string * V)) :
  NoDup l1.*1 -> StronglySorted key_le l1 -> StronglySorted key_le l2 -> l1 ≡ₚ l2 -> l1 = l2.
Proof.
  revert l2. induction l1 as [|[k v] l1 IH]; intros l2 Hnd Hs1 Hs2 Hp.
  { by apply Permutation_nil_l in Hp. }
  destruct l2 as [|[k' v'] l2]; [by apply Permutation_nil_r in Hp|].
  assert ((k, v) = (k', v')) as [= <- <-].
  { assert ((k', v') ∈ (k, v) :: l1) as H1 by (rewrite Hp; set_solver).
    assert ((k, v) ∈ (k', v') :: l2) as H2 by (rewrite <- Hp; set_solver).
    apply StronglySorted_inv in Hs1 as [_ Hs1]. apply StronglySorted_inv in Hs2 as [_ Hs2].
    apply elem_of_cons in H1 as [|H1]; [done|]. apply elem_of_cons in H2 as [|H2]; [done|].
    rewrite Forall_forall in Hs1, Hs2. specialize (Hs1 _ H1). specialize (Hs2 _ H2).
    unfold key_le in *; simpl in *.
    assert (k = k') as -> by (apply (anti_symm String.le); done).
    exfalso. cbn in Hnd. apply NoDup_cons in Hnd as [Hk _]. apply Hk.
    apply (list_elem_of_fmap_2 fst l1 (k', v')) in H1. done. }
  f_equal. apply Permutation.Permutation_cons_inv in Hp.
  apply StronglySorted_inv in Hs1 as [Hs1 _]. apply StronglySorted_inv in Hs2 as [Hs2 _].
  cbn in Hnd. apply NoDup_cons in Hnd as [_ Hnd]. by apply IH.
Qed.

Lemma map_entries_of_sorted {V} (l : list (string * V)) :
  NoDup l.*1 -> StronglySorted key_le l -> map_entries (list_to_map l : gmap string V) = l.
Proof.
  intros Hnd Hs. symmetry. apply entries_unique; [done..|apply map_entries_sorted|].
  rewrite map_entries_perm. symmetry. by apply map_to_list_to_map.
Qed.

(** ** The code's loop *)

Section Extract.
Context (decode : string -> string) (* ert::http2comm::URLFunctions::decode *).

(** [m.emplace(k, v)]: keeps the value of a key already present. *)
Definition emplace (k v : string) (m : gmap string string) : gmap string string :=
  match m !! k with Some _ => m | None => <[k := v]> m end.

Definition qpair_of (queryParams : string) (pos : option nat) (qpair_end : option nat) : outcome string :=
  match pos with
  | None => Throw out_of_range
  | Some p => substr queryParams p (match qpair_end with Some e => Some (e - p) | None => None end)
  end.

(** Key and value of a piece, cut at the first ['=']. *)
Definition cut_pair (qpair : string) : string * string :=
  match find_char "=" qpair with
  | None => (qpair, "")
  | Some d => (stake d qpair, sdrop (d + 1) qpair)
  end.

(** One turn per separator; [None] is an exhausted budget.  The pair is
    (result, resultOriginal), or [inr tt] for the early return on a repeated key. *)
Fixpoint extract_loop (fuel : nat) (queryParams : string) (separator : ascii) (sorted : bool)
    (pos qpair_end : option nat) (result resultOriginal : gmap string string)
    : option (outcome (gmap string string * gmap string string + unit)) :=
  match fuel with
  | O => None
  | S fuel =>
      match qpair_of queryParams pos qpair_end with
      | Throw e => Some (Throw e)
      | Val qpair =>
          let '(key, value) := cut_pair qpair in
          match result !! key with
          | Some _ => Some (Val (inr tt))
          | None =>
              let resultOriginal := if sorted then emplace key value resultOriginal else resultOriginal in
              let valueDecoded := decode value in
              let value := if decide (valueDecoded = value) then value else valueDecoded in
              let result := emplace key value result in
              let pos := match qpair_end with Some e => Some (e + 1) | None => None end in
              let qpair_end := find_first_of separator queryParams pos in
              match qpair_end, pos with
              | None, None => Some (Val (inl (result, resultOriginal)))
              | _, _ => extract_loop fuel queryParams separator sorted pos qpair_end result resultOriginal
              end
          end
      end
  end.

(** [key[=value]] *)
Definition literal (kv : string * string) : string :=
  kv.1 +:+ (if sempty kv.2 then "" else "=" +:+ kv.2).

Fixpoint join (separator : ascii) (l : list string) : string :=
  match l with
  | [] => ""
  | [s] => s
  | s :: l' => s +:+ String separator (join separator l')
  end.

Definition sorted_literal (separator : ascii) (m : gmap string string) : string :=
  join separator (map literal (map_entries m)).

(** [sortedQueryParameters] is the pointer: [None] for [nullptr], otherwise the
    string it points to, which the call may rewrite. *)
Definition extractQueryParameters (queryParams : string) (sortedQueryParameters : option string)
    (separator : ascii) : option (outcome (gmap string string * option string)) :=
  if sempty queryParams then Some (Val (∅, sortedQueryParameters))
  else
    match extract_loop (S (String.length queryParams)) queryParams separator
            (match sortedQueryParameters with Some _ => true | None => false end)
            (Some 0) (find_first_of separator queryParams (Some 0)) ∅ ∅ with
    | None => None
    | Some (Throw e) => Some (Throw e)
    | Some (Val (inr _)) => Some (Val (∅, sortedQueryParameters))
    | Some (Val (inl (result, resultOriginal))) =>
        Some (Val (result, match sortedQueryParameters with
                           | Some _ => Some (sorted_literal separator resultOriginal)
                           | None => None
                           end))
    end.

(** ** Reference: split at the separator, then cut each piece *)

Fixpoint split_on (c : ascii) (s : string) : string * list string :=
  match s with
  | EmptyString => ("", [])
  | String d s' =>
      let '(p, l) := split_on c s' in
      if decide (d = c) then ("", p :: l) else (String d p, l)
  end.

Definition pieces (c : ascii) (s : string) : list string :=
  let '(p, l) := split_on c s in p :: l.

Definition pairs (separator : ascii) (queryParams : string) : list (string * string) :=
  map cut_pair (pieces separator queryParams).

Definition decode_pair (kv : string * string) : string * string := (kv.1, decode kv.2).

(** The specification: the decoded parameters and their sorted text when the
    names are distinct, nothing otherwise. *)
Definition extract_spec (queryParams : string) (sortedQueryParameters : option string)
    (separator : ascii) : gmap string string * option string :=
  let l := pairs separator queryParams in
  if sempty queryParams then (∅, sortedQueryParameters)
  else if decide (NoDup l.*1) then
    (list_to_map (decode_pair <$> l),
     match sortedQueryParameters with
     | Some _ => Some (sorted_literal separator (list_to_map l))
     | None => None
     end)
  else (∅, sortedQueryParameters).
End Extract.

(** ** Splitting *)

Lemma pieces_no_sep c s : no_char c s -> pieces c s = [s].
Proof.
  unfold pieces. induction s as [|d s IH]; intros Hn; [done|].
  apply no_char_cons in Hn as [Hd Hn]. simpl. specialize (IH Hn).
  destruct (split_on c s) as [p l]. simplify_eq. by rewrite decide_False.
Qed.

Lemma pieces_sep c a b : no_char c a -> pieces c (a +:+ String c b) = a :: pieces c b.
Proof.
  unfold pieces. induction a as [|d a IH]; intros Hn.
  - change ("" +:+ String c b) with (String c b). simpl. destruct (split_on c b). by rewrite decide_True.
  - apply no_char_cons in Hn as [Hd Hn]. rewrite string_app_cons. simpl. specialize (IH Hn).
    destruct (split_on c (a +:+ String c b)) as [p l]. simplify_eq. by rewrite decide_False.
Qed.

Lemma pieces_join c (l : list string) :
  l <> [] -> Forall (no_char c) l -> pieces c (join c l) = l.
Proof.
  induction l as [|s l IH]; [done|]. intros _ Hf. apply Forall_cons in Hf as [Hs Hf].
  destruct l as [|s' l]; [by apply pieces_no_sep|].
  change (join c (s :: s' :: l)) with (s +:+ String c (join c (s' :: l))).
  rewrite pieces_sep by done. f_equal. by apply IH.
Qed.

(** ** The loop follows the pieces *)

Section Refinement.
Context (decode : string -> string).

Fixpoint process (sorted : bool) (l : list (string * string)) (R O : gmap string string)
    : gmap string string * gmap string string + unit :=
  match l with
  | [] => inl (R, O)
  | (k, v) :: l' =>
      match R !! k with
      | Some _ => inr tt
      | None => process sorted l' (<[k := decode v]> R) (if sorted then emplace k v O else O)
      end
  end.

Lemma process_unfold sorted k v l R O :
  R !! k = None ->
  process sorted l (emplace k (if decide (decode v = v) then v else decode v) R)
    (if sorted then emplace k v O else O) = process sorted ((k, v) :: l) R O.
Proof.
  intros HR. simpl. rewrite HR. unfold emplace at 1. rewrite HR.
  f_equal. f_equal. by case_decide as Hd.
Qed.

Lemma match_both_some {A B} (x : option A) (f : option A -> B) :
  match x with Some _ => f x | None => f x end = f x.
Proof. by destruct x. Qed.

Lemma extract_loop_process sep sorted q : forall fuel p R O,
  p <= String.length q -> String.length (sdrop p q) < fuel ->
  extract_loop decode fuel q sep sorted (Some p) (find_first_of sep q (Some p)) R O
  = Some (Val (process sorted (pairs sep (sdrop p q)) R O)).
Proof.
  induction fuel as [|fuel IH]; intros p R O Hp Hf; [lia|].
  unfold find_first_of, pairs. destruct (find_char sep (sdrop p q)) as [i|] eqn:Hc.
  - apply find_char_Some in Hc as (a & b & Hrest & Ha & Hi).
    assert (sdrop (p + i + 1) q = b) as Hb.
    { rewrite <- Nat.add_assoc, <- sdrop_sdrop, Hrest, <- sdrop_sdrop, <- Hi, sdrop_app. apply sdrop_0. }
    assert (String.length a + S (String.length b) = String.length q - p) as Hlen.
    { rewrite <- sdrop_length, Hrest, slength_app. done. }
    assert (qpair_of q (Some p) (Some (p + i)) = Val a) as Hq.
    { unfold qpair_of, substr. rewrite decide_True by done. f_equal.
      replace (p + i - p) with (String.length a) by lia. rewrite Hrest. apply stake_app. }
    cbn [extract_loop fmap option_fmap option_map]. rewrite Hq, Hrest, pieces_sep by done.
    cbn [map process]. destruct (cut_pair a) as [k v]. destruct (R !! k) eqn:HR; [done|].
    etransitivity; [apply (match_both_some (find_first_of sep q (Some (p + i + 1)))
      (fun x => extract_loop decode fuel q sep sorted (Some (p + i + 1)) x _ _))|].
    rewrite sdrop_length in Hf. rewrite IH by (rewrite ?sdrop_length; lia). rewrite Hb.
    rewrite process_unfold by done. cbn [process]. by rewrite HR.
  - apply find_char_None in Hc. cbn [extract_loop fmap option_fmap option_map].
    unfold qpair_of, substr. rewrite decide_True, pieces_no_sep by done. cbn [map process].
    destruct (cut_pair (sdrop p q)) as [k v]. destruct (R !! k) eqn:HR; [done|].
    change (Some (Val (process sorted [] (emplace k (if decide (decode v = v) then v else decode v) R)
              (if sorted then emplace k v O else O)))
            = Some (Val (process sorted [] (<[k:=decode v]> R) (if sorted then emplace k v O else O)))).
    rewrite process_unfold by done. cbn [process]. by rewrite HR.
Qed.

(** The maps accumulated over pieces with distinct, new names. *)
Lemma process_ok sorted l : forall R O,
  NoDup l.*1 -> (forall k, k ∈ l.*1 -> R !! k = None /\ O !! k = None) ->
  process sorted l R O =
  inl (list_to_map (decode_pair decode <$> l) ∪ R, if sorted then list_to_map l ∪ O else O).
Proof.
  induction l as [|[k v] l IH]; intros R O Hnd Hk; cbn.
  { rewrite !(left_id_L ∅ (∪)). by destruct sorted. }
  cbn in Hnd, Hk. apply NoDup_cons in Hnd as [Hnk Hnd].
  destruct (Hk k) as [HR HO]; [set_solver|]. rewrite HR.
  assert ((list_to_map (decode_pair decode <$> l) : gmap string string) !! k = None) as Hk1.
  { apply not_elem_of_list_to_map. rewrite <- list_fmap_compose. done. }
  assert ((list_to_map l : gmap string string) !! k = None) as Hk2.
  { by apply not_elem_of_list_to_map. }
  rewrite IH; [|done|].
  - f_equal. f_equal.
    + rewrite <- insert_union_r by done. by rewrite insert_union_l.
    + destruct sorted; [|done]. unfold emplace. rewrite HO.
      rewrite <- insert_union_r by done. by rewrite insert_union_l.
  - intros k' Hk'. destruct (Hk k') as [HR' HO']; [set_solver|].
    assert (k <> k') by set_solver. rewrite lookup_insert_ne by done. split; [done|].
    destruct sorted; [|done]. unfold emplace. rewrite HO. by rewrite lookup_insert_ne.
Qed.

Lemma process_repeated sorted l : forall R O,
  ~ (NoDup l.*1 /\ forall k, k ∈ l.*1 -> R !! k = None) -> process sorted l R O = inr tt.
Proof.
  induction l as [|[k v] l IH]; intros R O Hn; cbn.
  { exfalso. apply Hn. split; [constructor|set_solver]. }
  destruct (R !! k) eqn:HR; [done|]. apply IH. intros [Hnd Hk]. apply Hn. cbn. split.
  - apply NoDup_cons. split; [|done]. intros Hin. apply Hk in Hin.
    by rewrite lookup_insert_eq in Hin.
  - intros k' [->|Hk']%elem_of_cons; [done|]. apply Hk in Hk' as H.
    destruct (decide (k = k')) as [->|]; [by rewrite lookup_insert_eq in H|].
    by rewrite lookup_insert_ne in H.
Qed.

Lemma extract_refines q sp sep :
  extractQueryParameters decode q sp sep = Some (Val (extract_spec decode q sp sep)).
Proof.
  unfold extractQueryParameters, extract_spec. destruct (sempty q); [done|].
  rewrite (extract_loop_process sep _ q (S (String.length q)) 0) by (rewrite ?sdrop_0; lia).
  rewrite sdrop_0. case_decide as Hnd.
  - rewrite process_ok by (done || (intros; by rewrite !lookup_empty)).
    rewrite !(right_id_L ∅ (∪)). by destruct sp.
  - rewrite process_repeated; [done|]. by intros [? _].
Qed.

End Refinement.

(** ** What the pieces look like *)

Lemma pieces_free c s : Forall (no_char c) (pieces c s).
Proof.
  unfold pieces. induction s as [|d s IH]; simpl; [by repeat constructor; unfold no_char; set_solver|].
  destruct (split_on c s) as [p l]. apply Forall_cons in IH as [Hp Hl].
  case_decide as Hd; subst; repeat constructor; [unfold no_char; set_solver|done..| |done].
  by apply no_char_cons.
Qed.

Lemma cut_pair_cases s :
  (no_char "=" s /\ cut_pair s = (s, "")) \/
  exists k v, s = k +:+ String "=" v /\ no_char "=" k /\ cut_pair s = (k, v).
Proof.
  unfold cut_pair. destruct (find_char "=" s) as [i|] eqn:Hf.
  - right. apply find_char_Some in Hf as (k & v & -> & Hk & <-). exists k, v.
    split_and!; [done..|]. rewrite stake_app. f_equal.
    by rewrite <- sdrop_sdrop, sdrop_app.
  - left. by apply find_char_None in Hf.
Qed.

(** The shape of a parameter: the name has no ['='] and neither part has the
    separator. *)
Definition wf_pair (sep : ascii) (kv : string * string) : Prop :=
  no_char "=" kv.1 /\ no_char sep kv.1 /\ no_char sep kv.2.

Lemma pairs_wf sep q : Forall (wf_pair sep) (pairs sep q).
Proof.
  unfold pairs. apply Forall_map. eapply Forall_impl; [apply pieces_free|].
  intros s Hs. destruct (cut_pair_cases s) as [[H ->]|(k & v & -> & Hk & ->)]; unfold wf_pair; cbn.
  - split_and!; [done..|]. unfold no_char. set_solver.
  - apply no_char_app in Hs as [? Hv]. apply no_char_cons in Hv as [_ ?]. done.
Qed.

Lemma literal_free sep kv : sep <> "="%char -> wf_pair sep kv -> no_char sep (literal kv).
Proof.
  intros Hne (Hk & Hs1 & Hs2). unfold literal. apply no_char_app. split; [done|].
  destruct (sempty kv.2); [unfold no_char; set_solver|].
  change ("=" +:+ kv.2) with (String "=" kv.2). by apply no_char_cons.
Qed.

Lemma cut_literal sep kv : wf_pair sep kv -> cut_pair (literal kv) = kv.
Proof.
  intros (Hk & _). destruct kv as [k v]. cbn in Hk. unfold literal, cut_pair. cbn.
  destruct (sempty v) eqn:E.
  - apply sempty_true in E as ->. rewrite string_app_nil_r.
    by apply find_char_None in Hk as ->.
  - change ("=" +:+ v) with (String "=" v). rewrite find_char_app by done.
    rewrite stake_app, <- sdrop_sdrop, sdrop_app. done.
Qed.

Lemma pairs_join sep (l : list (string * string)) :
  sep <> "="%char -> l <> [] -> Forall (wf_pair sep) l ->
  pairs sep (join sep (map literal l)) = l.
Proof.
  intros Hne Hnil Hwf. unfold pairs. rewrite pieces_join.
  - rewrite map_map. rewrite <- (map_id l) at 2. apply map_ext_in. intros kv Hin.
    apply cut_literal with sep. rewrite Forall_forall in Hwf. apply Hwf. by apply list_elem_of_In.
  - by destruct l.
  - apply Forall_map. eapply Forall_impl; [exact Hwf|]. intros kv. by apply literal_free.
Qed.

Lemma pairs_entries sep q :
  NoDup (pairs sep q).*1 -> map_entries (list_to_map (pairs sep q) : gmap string string) ≡ₚ pairs sep q.
Proof. intros. rewrite map_entries_perm. by apply map_to_list_to_map. Qed.

(** Re-reading the sorted text of the parameters gives the sorted entries. *)
Lemma pairs_sorted_literal sep q :
  sep <> "="%char -> NoDup (pairs sep q).*1 ->
  pairs sep (sorted_literal sep (list_to_map (pairs sep q)))
  = map_entries (list_to_map (pairs sep q) : gmap string string).
Proof.
  intros Hne Hnd. unfold sorted_literal. pose proof (pairs_entries sep q Hnd) as Hp.
  apply pairs_join; [done|..].
  - intros E. rewrite E in Hp. apply Permutation_nil_l in Hp.
    unfold pairs, pieces in Hp. by destruct (split_on sep q).
  - rewrite Hp. apply pairs_wf.
Qed.

(** ** Properties of [extractQueryParameters] *)

Section Properties.
Context (decode : string -> string).

Lemma pairs_maps_perm (l1 l2 : list (string * string)) :
  NoDup l1.*1 -> l1 ≡ₚ l2 ->
  (list_to_map (decode_pair decode <$> l1) : gmap string string) = list_to_map (decode_pair decode <$> l2)
  /\ (list_to_map l1 : gmap string string) = list_to_map l2.
Proof.
  intros Hnd Hp. split; apply list_to_map_proper; [|by rewrite Hp|done..].
  by rewrite <- list_fmap_compose.
Qed.

(** C18: Reading a query string returns for every input, and computes its
    specification: split at the separator, cut each piece at the first ['='], nothing
    if a name is repeated, otherwise the map of the decoded values and, when it is
    asked for, the text of the undecoded parameters in the order of their names. *)
Theorem extractQueryParameters_correct q sp sep :
  extractQueryParameters decode q sp sep = Some (Val (extract_spec decode q sp sep)).
Proof. apply extract_refines. Qed.

(** Two query strings with the same parameters in a different order have the
    same map and the same sorted text: provisions match regardless of the order. *)
Theorem extractQueryParameters_order_independent q1 q2 sp sep
  (Hne1 : q1 <> "") (Hne2 : q2 <> "")
  (Hnd : NoDup (pairs sep q1).*1) (Hperm : pairs sep q1 ≡ₚ pairs sep q2) :
  extractQueryParameters decode q1 (Some sp) sep = extractQueryParameters decode q2 (Some sp) sep.
Proof.
  rewrite !extract_refines. unfold extract_spec.
  apply sempty_false in Hne1 as ->. apply sempty_false in Hne2 as ->.
  assert (NoDup (pairs sep q2).*1) as Hnd2 by (by rewrite <- Hperm).
  rewrite !decide_True by done. by destruct (pairs_maps_perm _ _ Hnd Hperm) as [-> ->].
Qed.

(** C39: The sorted text is a normal form: read again, it gives the same map and
    itself. *)
Theorem extractQueryParameters_normal_form q sp sp' sep m s
  (Hsep : sep <> "="%char) (Hne : q <> "") (Hs : s <> "") (Hnd : NoDup (pairs sep q).*1)
  (Hq : extractQueryParameters decode q (Some sp) sep = Some (Val (m, Some s))) :
  extractQueryParameters decode s (Some sp') sep = Some (Val (m, Some s)).
Proof.
  rewrite extract_refines in *. unfold extract_spec in *. apply sempty_false in Hne as Eq. rewrite Eq in Hq.
  rewrite decide_True in Hq by done. injection Hq as <- <-.
  apply sempty_false in Hs as ->. rewrite pairs_sorted_literal by done.
  pose proof (pairs_entries sep q Hnd) as Hp.
  assert (NoDup (map_entries (list_to_map (pairs sep q) : gmap string string)).*1) as Hnd'
    by (by rewrite Hp).
  rewrite decide_True by done. by destruct (pairs_maps_perm _ _ Hnd' Hp) as [-> ->].
Qed.
End Properties.

Module QueryExamples.

(** '+' decoded as a blank. *)
Definition plus_decode (s : string) : string :=
  str (map (fun c => if decide (c = "+"%char) then " "%char else c) (chars s)).

Lemma extractQueryParameters_order_independent_witness :
  extractQueryParameters plus_decode "b=2+2&a=1&c" (Some "") "&" =
  extractQueryParameters plus_decode "c&b=2+2&a=1" (Some "") "&".
Proof.
  apply (extractQueryParameters_order_independent plus_decode "b=2+2&a=1&c" "c&b=2+2&a=1" "" "&"); [done|done|..].
  - apply (bool_decide_unpack _). vm_compute. exact I.
  - vm_compute. apply (Permutation_app_comm [("b", "2+2"); ("a", "1")] [("c", "")]).
Defined.

Lemma extractQueryParameters_normal_form_witness :
  extractQueryParameters plus_decode "a=1&b=2+2&c" (Some "") "&" =
  extractQueryParameters plus_decode "b=2+2&a=1&c" (Some "x") "&".
Proof.
  assert (exists m, extractQueryParameters plus_decode "b=2+2&a=1&c" (Some "x") "&" = Some (Val (m, Some "a=1&b=2+2&c")))
    as [m Hm] by (eexists; vm_compute; reflexivity).
  rewrite Hm.
  apply (extractQueryParameters_normal_form plus_decode "b=2+2&a=1&c" "x" "" "&" m "a=1&b=2+2&c"); [done|done|done| |exact Hm].
  apply (bool_decide_unpack _). vm_compute. exact I.
Defined.

End QueryExamples.
