(* ===== verification/Json.v ===== *)
(** JSON documents as the sources handle them ([nlohmann::json]): the value
    types with their constructors, the inspection members the code calls, and
    interfaces for the algorithms of the JSON library that are not part of the
    repository (comparison, text, pointers, patches).  Every client is proved
    against these interfaces; [JsonModel.v] has the instances the witnesses use. *)
From S2P Require Import Prelude Std.
From Stdlib Require Import SpecFloat.
From stdpp Require Import options.

(** [value_t]: null, boolean, number_integer (int64), number_unsigned (uint64),
    number_float (double), string, array, object.  An object keeps its entries
    in the order of [std::map]. *)
Inductive json : Set :=
| JNull
| JBool (b : bool)
| JInt (i : Z)
| JUint (u : Z)
| JFloat (f : spec_float)
| JString (s : string)
| JArray (l : list json)
| JObject (l : list (string * json)).

Definition is_null (j : json) : bool := match j with JNull => true | _ => false end.
Definition is_boolean (j : json) : bool := match j with JBool _ => true | _ => false end.
Definition is_number_unsigned (j : json) : bool := match j with JUint _ => true | _ => false end.
(** True for unsigned numbers too, as in the library. *)
Definition is_number_integer (j : json) : bool := match j with JInt _ | JUint _ => true | _ => false end.
Definition is_number_float (j : json) : bool := match j with JFloat _ => true | _ => false end.
Definition is_number (j : json) : bool := is_number_integer j || is_number_float j.
Definition is_string (j : json) : bool := match j with JString _ => true | _ => false end.
Definition is_array (j : json) : bool := match j with JArray _ => true | _ => false end.
Definition is_object (j : json) : bool := match j with JObject _ => true | _ => false end.

(** [j.empty()]: null, and arrays and objects without elements. *)
Definition json_empty (j : json) : bool :=
  match j with
  | JNull | JArray [] | JObject [] => true
  | _ => false
  end.

(** [j.size()] *)
Definition json_size (j : json) : nat :=
  match j with
  | JNull => 0
  | JArray l => length l
  | JObject l => length l
  | _ => 1
  end.

Fixpoint assoc (k : string) (l : list (string * json)) : option json :=
  match l with
  | [] => None
  | (k', v) :: l' => if decide (k = k') then Some v else assoc k l'
  end.

(** [j.find(key)]: [None] is [end()], the only result on a value that is not an
    object; [contains] is its test. *)
Definition json_find (k : string) (j : json) : option json :=
  match j with JObject l => assoc k l | _ => None end.

(** [j.items()]: the entries of an object; an array has its indexes as keys; a
    scalar is seen as one element with an empty key. *)
Definition items (j : json) : list (string * json) :=
  match j with
  | JNull => []
  | JObject l => l
  | JArray l => imap (fun i v => (to_string_u (Z.of_nat i), v)) l
  | _ => [("", j)]
  end.

(** [j[key] = v] on an object or null document, at the place [std::map] gives it. *)
Fixpoint assoc_set (k : string) (v : json) (l : list (string * json)) : list (string * json) :=
  match l with
  | [] => [(k, v)]
  | (k', v') :: l' =>
      if decide (k = k') then (k, v) :: l'
      else if decide (String.le k k') then (k, v) :: l
      else (k', v') :: assoc_set k v l'
  end.

Definition json_set (k : string) (v : json) (j : json) : json :=
  match j with
  | JObject l => JObject (assoc_set k v l)
  | JNull => JObject [(k, v)]
  | _ => j
  end.

(** ** Induction over documents *)

Section JsonInd.
Context (P : json -> Prop).
Context (Hnull : P JNull) (Hbool : forall b, P (JBool b)) (Hint : forall i, P (JInt i))
  (Huint : forall u, P (JUint u)) (Hfloat : forall f, P (JFloat f)) (Hstr : forall s, P (JString s))
  (Harr : forall l, Forall P l -> P (JArray l))
  (Hobj : forall l, Forall (fun kv => P kv.2) l -> P (JObject l)).

Fixpoint json_induction (j : json) : P j :=
  match j with
  | JNull => Hnull
  | JBool b => Hbool b
  | JInt i => Hint i
  | JUint u => Huint u
  | JFloat f => Hfloat f
  | JString s => Hstr s
  | JArray l =>
      Harr l ((fix go (l : list json) : Forall P l :=
                 match l with
                 | [] => Forall_nil_2 _
                 | x :: l' => Forall_cons_2 _ _ _ (json_induction x) (go l')
                 end) l)
  | JObject l =>
      Hobj l ((fix go (l : list (string * json)) : Forall (fun kv => P kv.2) l :=
                 match l with
                 | [] => Forall_nil_2 _
                 | kv :: l' => Forall_cons_2 _ _ _ (json_induction kv.2) (go l')
                 end) l)
  end.
End JsonInd.

(** ** Lookup *)

Lemma assoc_elem k v l : assoc k l = Some v -> (k, v) ∈ l.
Proof.
  induction l as [|[k' v'] l IH]; [done|]. simpl. case_decide; intros; simplify_eq; set_solver.
Qed.

Lemma assoc_nodup k v l : NoDup l.*1 -> (k, v) ∈ l -> assoc k l = Some v.
Proof.
  induction l as [|[k' v'] l IH]; cbn; [set_solver|].
  intros [Hk Hnd]%NoDup_cons [H|H]%elem_of_cons.
  - simplify_eq. by rewrite decide_True.
  - rewrite decide_False; [by apply IH|]. intros ->. apply Hk.
    by apply (list_elem_of_fmap_2 fst l (k', v)).
Qed.

Lemma assoc_set_eq k v l : assoc k (assoc_set k v l) = Some v.
Proof.
  induction l as [|[k' v'] l IH]; simpl; [by rewrite decide_True|].
  repeat case_decide; simpl; rewrite ?decide_True by done; try done.
  by rewrite decide_False.
Qed.

Lemma assoc_set_ne k k' v l : k <> k' -> assoc k' (assoc_set k v l) = assoc k' l.
Proof.
  intros Hne. induction l as [|[k2 v2] l IH]; simpl; [by rewrite decide_False|].
  repeat (case_decide; simpl; subst; try done).
Qed.

Lemma json_find_set_eq k v j :
  is_object j = true \/ is_null j = true -> json_find k (json_set k v j) = Some v.
Proof.
  destruct j; intros [H|H]; try done; cbn -[assoc assoc_set].
  - simpl. by rewrite decide_True.
  - apply assoc_set_eq.
Qed.

Lemma json_find_set_ne k k' v j :
  k <> k' -> json_find k' (json_set k v j) = json_find k' j.
Proof.
  intros Hne. destruct j; try done; cbn -[assoc_set]; [by rewrite decide_False|].
  by apply assoc_set_ne.
Qed.

Lemma json_set_object k v j :
  is_object j = true \/ is_null j = true -> is_object (json_set k v j) = true.
Proof. destruct j; intros [|]; done. Qed.

#[export] Hint Resolve json_set_object : h2.

(** ** Interfaces to the JSON library *)

(** [operator==]. *)
Class JsonEq := json_eqb : json -> json -> bool.

(** A document without NaN (the text format cannot express one). *)
Fixpoint no_nan (j : json) : bool :=
  match j with
  | JFloat S754_nan => false
  | JArray l => forallb no_nan l
  | JObject l => forallb (fun kv => no_nan kv.2) l
  | _ => true
  end.

Class JsonEqLaws `{JsonEq} := {
  json_eqb_refl : forall j, no_nan j = true -> json_eqb j j = true;
  json_eqb_object : forall a b, json_eqb a b = true -> is_object a = is_object b;
  json_eqb_array : forall a b, json_eqb a b = true -> is_array a = is_array b
}.

(** [json::parse], the text of its exception, and [dump()], which throws on
    strings that are not UTF-8. *)
Class JsonText := {
  json_parse : string -> option json;
  json_parse_error : string -> string;
  json_dump : json -> outcome string
}.

(** The constructor of a pointer, which throws on a malformed one,
    [at(json_pointer)], [operator[](json_pointer) = v], [merge_patch],
    [operator[](json_pointer).erase(key)].  An assignment through a pointer
    creates the missing nodes, also when it ends in an exception: the document it
    leaves is part of the result. *)
Class JsonPointer := {
  json_pointer_check : string -> outcome unit;
  json_at : string -> json -> outcome json;
  json_put : string -> json -> json -> json * outcome unit;
  json_merge_patch : json -> json -> json;
  json_erase_at : string -> string -> json -> json * outcome unit
}.
