(* ===== verification/JsonModel.v ===== *)
(** Concrete instances of the interfaces of [Json.v], as the JSON library
    documents them.  Only the witnesses use them: the theorems about the program
    hold for every instance. *)
From S2P Require Import Prelude Std Double Json.
From Stdlib Require Import SpecFloat.
From stdpp Require Import options.
#[local] Open Scope Z_scope.

(** ** Equality *)

Definition num_eqb (a b : json) : bool :=
  match a, b with
  | JInt x, JInt y | JUint x, JUint y => x =? y
  | JInt x, JUint y => x =? to_i64 y
  | JUint x, JInt y => to_i64 x =? y
  | JFloat x, JFloat y => d_eqb x y
  | JFloat x, (JInt y | JUint y) => d_eqb x (d_of_Z y)
  | (JInt x | JUint x), JFloat y => d_eqb (d_of_Z x) y
  | _, _ => false
  end.

Fixpoint model_eqb (a b : json) {struct a} : bool :=
  match a, b with
  | JNull, JNull => true
  | JBool x, JBool y => Bool.eqb x y
  | JString x, JString y => String.eqb x y
  | JArray xs, JArray ys =>
      (fix go (xs ys : list json) :=
         match xs, ys with
         | [], [] => true
         | x :: xs, y :: ys => model_eqb x y && go xs ys
         | _, _ => false
         end) xs ys
  | JObject xs, JObject ys =>
      (fix go (xs ys : list (string * json)) :=
         match xs, ys with
         | [], [] => true
         | (k, x) :: xs, (k', y) :: ys => String.eqb k k' && model_eqb x y && go xs ys
         | _, _ => false
         end) xs ys
  | _, _ => num_eqb a b
  end.

#[export] Instance model_eq : JsonEq := model_eqb.

Lemma d_eqb_refl f : f <> S754_nan -> d_eqb f f = true.
Proof.
  destruct f as [|[]| |[] m e]; try done; intros _; unfold d_eqb, SFeqb; cbn; by rewrite Z.compare_refl, Pos.compare_cont_refl.
Qed.

Lemma model_eqb_refl j : no_nan j = true -> model_eqb j j = true.
Proof.
  induction j as [|b|i|u|f|s|l IH|l IH] using json_induction; intros Hn; cbn; try done.
  - by destruct b.
  - apply Z.eqb_refl.
  - apply Z.eqb_refl.
  - apply d_eqb_refl. by intros ->.
  - apply String.eqb_refl.
  - cbn in Hn. induction IH as [|x l Hx _ IHl]; [done|]. cbn in Hn.
    apply andb_true_iff in Hn as [? ?]. apply andb_true_iff. auto.
  - cbn in Hn. induction IH as [|[k x] l Hx _ IHl]; [done|]. cbn in Hn.
    apply andb_true_iff in Hn as [? ?]. rewrite String.eqb_refl. cbn. apply andb_true_iff. auto.
Qed.

#[export] Instance model_eq_laws : JsonEqLaws.
Proof.
  split; [apply model_eqb_refl|..]; intros [] []; done.
Defined.

(** ** Text *)

Definition quote (s : string) : string := String (cz 34) (s +:+ String (cz 34) "").

Fixpoint model_dump (j : json) : string :=
  match j with
  | JNull => "null"
  | JBool b => if b then "true" else "false"
  | JInt i => to_string_i i
  | JUint u => to_string_u u
  | JFloat f => d_to_string f
  | JString s => quote s
  | JArray l => "[" +:+ String.concat "," (map model_dump l) +:+ "]"
  | JObject l => "{" +:+ String.concat "," (map (fun kv => quote kv.1 +:+ ":" +:+ model_dump kv.2) l) +:+ "}"
  end.

(** Literals, decimal numbers, and the two empty containers. *)
Definition model_parse (s : string) : option json :=
  if decide (s = "null") then Some JNull
  else if decide (s = "true") then Some (JBool true)
  else if decide (s = "false") then Some (JBool false)
  else if decide (s = "[]") then Some (JArray [])
  else if decide (s = "{}") then Some (JObject [])
  else match stoull s with
       | Val u => if decide (to_string_u u = s) then Some (JUint u) else None
       | Throw _ => None
       end.

#[export] Instance model_text : JsonText :=
  {| json_parse := model_parse; json_parse_error := fun _ => "parse error"; json_dump := fun j => Val (model_dump j) |}.

(** ** Pointers *)

Fixpoint split_slash (s acc : string) : list string :=
  match s with
  | EmptyString => [acc]
  | String c s' => if decide (c = "/"%char) then acc :: split_slash s' "" else split_slash s' (acc +:+ String c "")
  end.

Definition pointer_tokens (path : string) : outcome (list string) :=
  match path with
  | EmptyString => Val []
  | String c s => if decide (c = "/"%char) then Val (split_slash s "") else Throw json_exception
  end.

Fixpoint walk (tokens : list string) (j : json) : outcome json :=
  match tokens with
  | [] => Val j
  | t :: ts =>
      match j with
      | JObject l => match assoc t l with Some v => walk ts v | None => Throw json_exception end
      | JArray l =>
          match stoull t with
          | Val n => match l !! Z.to_nat n with Some v => walk ts v | None => Throw json_exception end
          | Throw _ => Throw json_exception
          end
      | _ => Throw json_exception
      end
  end.

(** Objects only: what the witnesses need. *)
Fixpoint put (tokens : list string) (v j : json) : outcome json :=
  match tokens with
  | [] => Val v
  | t :: ts =>
      if is_object j || is_null j then
        let! v' := put ts v (default JNull (json_find t j)) in Val (json_set t v' j)
      else Throw json_exception
  end.
Definition written (j : json) (o : outcome json) : json * outcome unit :=
  match o with Val j' => (j', Val tt) | Throw e => (j, Throw e) end.

Fixpoint merge_patch (fuel : nat) (patch target : json) : json :=
  match fuel, patch with
  | S fuel, JObject l =>
      foldl (fun acc kv => if is_null kv.2
                           then JObject (filter (fun e => e.1 <> kv.1) (items acc))
                           else json_set kv.1 (merge_patch fuel kv.2 (default JNull (json_find kv.1 acc))) acc)
        (if is_object target then target else JObject []) l
  | _, _ => patch
  end.

#[export] Instance model_pointer : JsonPointer :=
  {| json_pointer_check := fun p => let! _ := pointer_tokens p in Val tt;
     json_at := fun p j => let! ts := pointer_tokens p in walk ts j;
     json_put := fun p v j => written j (let! ts := pointer_tokens p in put ts v j);
     json_merge_patch := fun target patch => merge_patch 100 patch target;
     json_erase_at := fun p k j => written j
       (let! ts := pointer_tokens p in
        let! n := walk ts j in
        match n with JObject l => put ts (JObject (filter (fun e => e.1 <> k) l)) j | _ => Throw json_exception end) |}.
