(* ===== verification/JsonReader.v ===== *)
(** The texts of documents as the JSON library documents them: a reader of the grammar of
    RFC 8259 and the writer of [dump()], which the tests of the repository run the model with.
    The theorems about the program hold for every instance of [JsonText]; this is the one of
    [Conformance]. *)
From S2P Require Import Prelude Std Double Json.
From Stdlib Require Import SpecFloat.
From stdpp Require Import options.
#[local] Open Scope Z_scope.

(** ** UTF-8 *)

(** The bytes of a code point. *)
Definition utf8 (c : Z) : list ascii :=
  if c <? 128 then [cz c]
  else if c <? 2048 then [cz (192 + c / 64); cz (128 + c mod 64)]
  else if c <? 65536 then [cz (224 + c / 4096); cz (128 + c / 64 mod 64); cz (128 + c mod 64)]
  else [cz (240 + c / 262144); cz (128 + c / 4096 mod 64); cz (128 + c / 64 mod 64); cz (128 + c mod 64)].

Definition between_z (a b : Z) (c : ascii) : bool := (a <=? zc c) && (zc c <=? b).

(** Well-formed sequences of bytes. *)
Fixpoint utf8_ok (l : list ascii) : bool :=
  match l with
  | [] => true
  | c :: l1 =>
      if zc c <? 128 then utf8_ok l1
      else
        match l1 with
        | d :: l2 =>
            if between_z 194 223 c then between_z 128 191 d && utf8_ok l2
            else
              match l2 with
              | e :: l3 =>
                  if zc c =? 224 then between_z 160 191 d && between_z 128 191 e && utf8_ok l3
                  else if between_z 225 236 c || between_z 238 239 c then between_z 128 191 d && between_z 128 191 e && utf8_ok l3
                  else if zc c =? 237 then between_z 128 159 d && between_z 128 191 e && utf8_ok l3
                  else
                    match l3 with
                    | f :: l4 =>
                        if zc c =? 240 then between_z 144 191 d && between_z 128 191 e && between_z 128 191 f && utf8_ok l4
                        else if between_z 241 243 c then between_z 128 191 d && between_z 128 191 e && between_z 128 191 f && utf8_ok l4
                        else if zc c =? 244 then between_z 128 143 d && between_z 128 191 e && between_z 128 191 f && utf8_ok l4
                        else false
                    | [] => false
                    end
              | [] => false
              end
        | [] => false
        end
  end.

(** ** Reading *)

Definition is_ws (c : ascii) : bool := (zc c =? 32) || (zc c =? 9) || (zc c =? 10) || (zc c =? 13).
Fixpoint skip_ws (l : list ascii) : list ascii := match l with c :: l' => if is_ws c then skip_ws l' else l | [] => [] end.

Definition take_lit (w : string) (l : list ascii) : option (list ascii) :=
  if bool_decide (take (String.length w) l = chars w) then Some (drop (String.length w) l) else None.

(** Four hexadecimal digits. *)
Definition hex4 (l : list ascii) : option (Z * list ascii) :=
  match l with
  | a :: b :: c :: d :: l' =>
      if isxdigit a && isxdigit b && isxdigit c && isxdigit d then
        let v x := default 0 (digit_val x) in
        Some (4096 * v a + 256 * v b + 16 * v c + v d, l')
      else None
  | _ => None
  end.

(** The escapes, and the code points beyond 16 bits as two of them. *)
Definition read_escape (c : ascii) (l : list ascii) : option (list ascii * list ascii) :=
  match zc c with
  | 34 | 92 | 47 => Some ([c], l)
  | 98 => Some ([cz 8], l) | 102 => Some ([cz 12], l) | 110 => Some ([cz 10], l) | 114 => Some ([cz 13], l) | 116 => Some ([cz 9], l)
  | 117 =>
      '(u, l) ← hex4 l;
      if (55296 <=? u) && (u <=? 56319) then
        l ← take_lit "\u" l; '(v, l) ← hex4 l;
        if (56320 <=? v) && (v <=? 57343) then Some (utf8 (65536 + 1024 * (u - 55296) + (v - 56320)), l) else None
      else if (56320 <=? u) && (u <=? 57343) then None
      else Some (utf8 u, l)
  | _ => None
  end.

(** After the opening quote. *)
Fixpoint read_string (fuel : nat) (l acc : list ascii) : option (string * list ascii) :=
  match fuel, l with
  | S fuel, c :: l =>
      if zc c =? 34 then if utf8_ok (rev acc) then Some (str (rev acc), l) else None
      else if zc c =? 92 then
        match l with
        | e :: l => '(cs, l) ← read_escape e l; read_string fuel l (rev cs ++ acc)
        | [] => None
        end
      else if zc c <? 32 then None
      else read_string fuel l (c :: acc)
  | _, _ => None
  end.

Fixpoint read_digits (l : list ascii) (a n : Z) : Z * Z * list ascii :=
  match l with
  | c :: l' => if isdigit c then read_digits l' (10 * a + (zc c - 48)) (n + 1) else (a, n, l)
  | [] => (a, n, l)
  end.

(** An integer part without leading zeros, a fraction, an exponent. *)
Definition read_num (l : list ascii) : option (json * list ascii) :=
  let '(neg, l) := match l with c :: l' => if zc c =? 45 then (true, l') else (false, l) | [] => (false, l) end in
  let '(a, n, rest) := read_digits l 0 0 in
  if (n =? 0) || match l with c :: _ => (zc c =? 48) && (1 <? n) | [] => true end then None
  else
    let sign (z : Z) := if neg : bool then - z else z in
    let float a k := JFloat (d_opp neg (d_of_decimal a k)) in
    fr ← match rest with
         | c :: l' => if zc c =? 46 then let '(a', n', l'') := read_digits l' a 0 in if n' =? 0 then None else Some (a', n', true, l'') else Some (a, 0, false, rest)
         | [] => Some (a, 0, false, rest)
         end;
    let '(a, nf, point, rest) := (fr : Z * Z * bool * list ascii) in
    ex ← match rest with
         | c :: l' =>
             if (zc c =? 101) || (zc c =? 69) then
               let '(eneg, l') := match l' with d :: l2 => if zc d =? 45 then (true, l2) else if zc d =? 43 then (false, l2) else (false, l') | [] => (false, l') end in
               let '(e, ne, l'') := read_digits l' 0 0 in
               if ne =? 0 then None else Some (if eneg : bool then - e else e, true, l'')
             else Some (0, false, rest)
         | [] => Some (0, false, rest)
         end;
    let '(e, expo, rest) := (ex : Z * bool * list ascii) in
    if point || expo then Some (float a (e - nf), rest)
    else if neg then Some (if a <=? 2 ^ 63 then JInt (sign a) else float a 0, rest)
    else Some (if a <? 2 ^ 64 then JUint a else float a 0, rest).

Fixpoint read_value (fuel : nat) (l : list ascii) : option (json * list ascii) :=
  match fuel with
  | O => None
  | S fuel =>
      let l := skip_ws l in
      match l with
      | [] => None
      | c :: l' =>
          match zc c with
          | 110 => l ← take_lit "null" l; Some (JNull, l)
          | 116 => l ← take_lit "true" l; Some (JBool true, l)
          | 102 => l ← take_lit "false" l; Some (JBool false, l)
          | 34 => '(s, l) ← read_string (S (length l')) l' []; Some (JString s, l)
          | 91 =>
              match skip_ws l' with
              | d :: l2 => if zc d =? 93 then Some (JArray [], l2) else '(vs, l) ← read_elements fuel l'; Some (JArray vs, l)
              | [] => None
              end
          | 123 =>
              match skip_ws l' with
              | d :: l2 => if zc d =? 125 then Some (JObject [], l2) else '(o, l) ← read_members fuel l' (JObject []); Some (o, l)
              | [] => None
              end
          | _ => read_num l
          end
      end
  end
with read_elements (fuel : nat) (l : list ascii) : option (list json * list ascii) :=
  match fuel with
  | O => None
  | S fuel =>
      '(v, l) ← read_value fuel l;
      match skip_ws l with
      | c :: l => if zc c =? 44 then '(vs, l) ← read_elements fuel l; Some (v :: vs, l) else if zc c =? 93 then Some ([v], l) else None
      | [] => None
      end
  end
with read_members (fuel : nat) (l : list ascii) (acc : json) : option (json * list ascii) :=
  match fuel with
  | O => None
  | S fuel =>
      match skip_ws l with
      | c :: l =>
          if zc c =? 34 then
            '(k, l) ← read_string (S (length l)) l [];
            match skip_ws l with
            | d :: l =>
                if zc d =? 58 then
                  '(v, l) ← read_value fuel l;
                  let acc := json_set k v acc in
                  match skip_ws l with
                  | e :: l => if zc e =? 44 then read_members fuel l acc else if zc e =? 125 then Some (acc, l) else None
                  | [] => None
                  end
                else None
            | [] => None
            end
          else None
      | [] => None
      end
  end.

(** A text is one value; three calls at most for each of its characters. *)
Definition read_json (s : string) : option json :=
  match read_value (S (3 * String.length s)) (chars s) with
  | Some (j, l) => match skip_ws l with [] => Some j | _ => None end
  | None => None
  end.

(** ** Writing *)

Definition hex_digit (z : Z) : ascii := if z <? 10 then cz (48 + z) else cz (87 + z).
Definition escaped (c : ascii) : list ascii :=
  match zc c with
  | 34 => [cz 92; cz 34] | 92 => [cz 92; cz 92]
  | 8 => chars "\b" | 12 => chars "\f" | 10 => chars "\n" | 13 => chars "\r" | 9 => chars "\t"
  | z => if z <? 32 then chars "\u00" ++ [hex_digit (z / 16); hex_digit (z mod 16)] else [c]
  end.
Definition write_string (s : string) : string := str (cz 34 :: concat (map escaped (chars s)) ++ [cz 34]).

(** The shortest decimal that reads as the number, of the exact value [num / den]. *)
Definition ten_le (t num den : Z) : bool := if 0 <=? t then 10 ^ t * den <=? num else den <=? num * 10 ^ (- t).
Definition log10 (num den : Z) : Z :=
  let e := (Z.log2 num - Z.log2 den) * 30103 / 100000 in
  if ten_le (e + 1) num den then e + 1 else if ten_le e num den then e else if ten_le (e - 1) num den then e - 1 else e - 2.
Definition rounded (num den k : Z) : Z :=
  let '(n, d) := if 0 <=? k then (num, den * 10 ^ k) else (num * 10 ^ (- k), den) in
  let q := n / d in let r := 2 * (n mod d) in
  if (r <? d) || ((r =? d) && Z.even q) then q else q + 1.
Fixpoint shortest (tries : nat) (p : Z) (f : double) (num den t : Z) : Z * Z :=
  let k := t + 1 - p in
  let a := rounded num den k in
  match tries with
  | O => (a, k)
  | S tries => if SFeqb (d_of_decimal a k) f then (a, k) else shortest tries (p + 1) f num den t
  end.
Fixpoint strip_zeros (fuel : nat) (a k : Z) : Z * Z :=
  match fuel with O => (a, k) | S fuel => if a mod 10 =? 0 then strip_zeros fuel (a / 10) (k + 1) else (a, k) end.
Definition zeros (n : Z) : string := str (repeat (cz 48) (Z.to_nat n)).
(** Plain between [1e-4] and [1e15], with an exponent otherwise. *)
Definition write_decimal (a k : Z) : string :=
  let ds := to_string_u a in
  let len := Z.of_nat (String.length ds) in
  let n := len + k in
  if (0 <=? k) && (n <=? 15) then ds +:+ zeros k +:+ ".0"
  else if (0 <? n) && (n <=? 15) then stake (Z.to_nat n) ds +:+ "." +:+ sdrop (Z.to_nat n) ds
  else if (-4 <? n) && (n <=? 0) then "0." +:+ zeros (- n) +:+ ds
  else
    let e := n - 1 in
    let x := Z.abs e in
    stake 1 ds +:+ (if len =? 1 then "" else "." +:+ sdrop 1 ds) +:+ "e" +:+ (if e <? 0 then "-" else "+")
    +:+ (if x <? 10 then "0" else "") +:+ to_string_u x.
Definition write_float (f : double) : string :=
  match f with
  | S754_zero false => "0.0" | S754_zero true => "-0.0"
  | S754_finite s m e =>
      let '(num, den) := if 0 <=? e then (Z.pos m * 2 ^ e, 1) else (Z.pos m, 2 ^ (- e)) in
      let '(a, k) := shortest 16 1 (S754_finite false m e) num den (log10 num den) in
      let '(a, k) := strip_zeros 20 a k in
      (if s then "-" else "") +:+ write_decimal a k
  | _ => "null"
  end.

Fixpoint write_json (j : json) : string :=
  match j with
  | JNull => "null"
  | JBool b => if b then "true" else "false"
  | JInt i => to_string_i i
  | JUint u => to_string_u u
  | JFloat f => write_float f
  | JString s => write_string s
  | JArray l => "[" +:+ String.concat "," (map write_json l) +:+ "]"
  | JObject l => "{" +:+ String.concat "," (map (fun kv => write_string kv.1 +:+ ":" +:+ write_json kv.2) l) +:+ "}"
  end.

(** All the texts of a document are UTF-8. *)
Fixpoint texts_ok (j : json) : bool :=
  match j with
  | JString s => utf8_ok (chars s)
  | JArray l => forallb texts_ok l
  | JObject l => forallb (fun kv => utf8_ok (chars kv.1) && texts_ok kv.2) l
  | _ => true
  end.

#[export] Instance reader_text : JsonText :=
  {| json_parse := read_json; json_parse_error := fun _ => "parse error";
     json_dump := fun j => if texts_ok j then Val (write_json j) else Throw json_exception |}.

(** ** Checks against known values *)

(** A text with apostrophes for its quotes. *)
Definition quoted (s : string) : string := str (map (fun c => if decide (c = "'"%char) then cz 34 else c) (chars s)).

Example reads_and_writes :
  write_json <$> read_json (quoted " { 'b' : [1, -2, 3.14, 1e3 , null, 0.5, 1e22, 2.5E-7], 'a':{}, 'c':'x\u0041\n' } ")
  = Some (quoted "{'a':{},'b':[1,-2,3.14,1000.0,null,0.5,1e+22,2.5e-07],'c':'xA\n'}").
Proof. vm_compute. reflexivity. Qed.
Example refuses : map (fun s => read_json (quoted s)) ["{'bar:'bar-8'}"; "01"; "[1,]"; "'a"; "hello"; ""] = [None; None; None; None; None; None].
Proof. vm_compute. reflexivity. Qed.
