(* ===== verification/External.v ===== *)
(** What the program uses of code that is not in the repository, beside the JSON
    library ([Json.v]): regular expressions given by the user, JSON schemas,
    mathematical expressions, dates, and the outside world (random numbers,
    clock, shell, files, sockets). *)
From S2P Require Import Prelude Std Double Json.
From stdpp Require Import options.

(** [std::regex]: [assign] may throw; [regex_match] is a match of the whole
    string, with the text of its groups, group 0 first. *)
Class RegexLib := {
  regex : Type;
  regex_default : regex;
  regex_assign : string -> outcome regex;
  regex_match : string -> regex -> option (list string);
  regex_replace : string -> regex -> string -> string
}.

Class RegexLaws `{RegexLib} := {
  (** A default constructed expression matches nothing. *)
  regex_default_fails : forall s, regex_match s regex_default = None;
  (** Group 0 is the matched string. *)
  regex_match_whole : forall s r l, regex_match s r = Some l -> head l = Some s;
  (** [assign] throws its own exception only. *)
  regex_assign_throws : forall s e, regex_assign s = Throw e -> e = regex_error
}.

(** [nlohmann::json_schema::json_validator]: [set_root_schema] may throw, and a
    validation is the text of its exception, if any. *)
Class SchemaLib := {
  validator : Type;
  set_root_schema : json -> option validator;
  schema_error : validator -> json -> option string
}.

(** Mathematical expressions, and the C functions on dates: [strptime] with
    [timegm] to an epoch, [gmtime_r] with [strftime] in a buffer of the given
    size ([None] is a length of zero). *)
Class Calculus := {
  expression_value : string -> double;
  strptime_gm : string -> string -> option Z;
  strftime_gm : string -> Z -> nat -> option string
}.

(** The outside world: [rand()] and the clock, [strftime] of the local time in a
    buffer of the given size, a command line with its output and exit status (if
    it could be run), and the operations of the file and socket managers, which [Files.v]
    models. *)
Class Outside (O : Type) := {
  os_rand : O -> Z * O;
  os_clock_ns : O -> Z * O;
  os_strftime : string -> nat -> O -> string * O;
  os_popen : string -> O -> option (string * Z) * O;
  fm_read : string -> bool -> O -> string * O;
  fm_write : string -> string -> bool -> Z -> O -> O;
  fm_empty : string -> O -> O;
  sm_write : string -> string -> Z -> O -> outcome unit * O
}.

(** A world with no files and a clock that stands still, for the witnesses. *)
Module Still.
Definition world := list string.
#[export] Instance still : Outside world :=
  {| os_rand := fun o => (0%Z, o); os_clock_ns := fun o => (1000000000%Z, o);
     os_strftime := fun f _ o => (f, o);
     os_popen := fun c o => (Some ("", 0%Z), o ++ [c]);
     fm_read := fun _ _ o => ("", o);
     fm_write := fun p _ _ _ o => o ++ [p];
     fm_empty := fun p o => o ++ [p];
     sm_write := fun p _ _ o => (Val tt, o ++ [p]) |}.
#[export] Instance no_calculus : Calculus :=
  {| expression_value := fun _ => d_of_Z 0; strptime_gm := fun _ _ => None; strftime_gm := fun _ _ _ => None |}.
(** Literal patterns, the empty one excepted; ['*'] alone is an invalid one. *)
#[export] Instance literal_regex : RegexLib :=
  {| regex := option string; regex_default := None;
     regex_assign := fun s => if decide (s = "*") then Throw regex_error else Val (Some s);
     regex_match := fun s r => if decide (r = Some s) then Some [s] else None;
     regex_replace := fun s r fmt => if decide (r = Some s) then fmt else s |}.
#[export] Instance literal_regex_laws : RegexLaws.
Proof.
  split.
  - done.
  - intros s r l. cbn. case_decide; [by intros [= <-]|done].
  - intros s e. cbn. case_decide; [by intros [= <-]|done].
Defined.
(** A schema accepts the documents equal to it in type. *)
#[export] Instance type_schema : SchemaLib :=
  {| validator := json; set_root_schema := fun j => if is_null j then None else Some j;
     schema_error := fun v j => if bool_decide (is_object v = is_object j) then None else Some "type" |}.
End Still.
