(* ===== verification/Regex.v ===== *)
(** [std::regex], as far as the program and its tests use it: the expressions of
    ECMAScript with classes, groups, repetitions, alternatives, anchors and negative lookaheads;
    their reading from a text, their meaning as a relation between positions, and the
    search with backtracking, the first alternative first, that finds a match with its
    groups.  Back references, positive lookaheads and
    word boundaries are left out: the reader refuses them.  [std_regex] is the
    instance of [RegexLib] made of it. *)
From S2P Require Import Prelude Std Double Json External.
From stdpp Require Import options.

(** ** Expressions *)

(** A class is a list of ranges, taken or left out; a group has its number; a repetition
    is greedy or not; [NotAhead] is the negative lookahead. *)
Inductive re :=
| Eps
| Char (c : ascii)
| Dot
| Class_ (negated : bool) (ranges : list (ascii * ascii))
| Seq (a b : re)
| Alt (a b : re)
| Star (greedy : bool) (a : re)
| Group (n : nat) (a : re)
| Bol
| Eol
| NotAhead (a : re).

Definition in_range (c : ascii) (r : ascii * ascii) : bool := (zc r.1 <=? zc c)%Z && (zc c <=? zc r.2)%Z.
(** The dot does not match a line terminator. *)
Definition not_newline (c : ascii) : bool := negb ((zc c =? 10) || (zc c =? 13))%Z.
Definition in_class (negated : bool) (ranges : list (ascii * ascii)) (c : ascii) : bool := xorb negated (existsb (in_range c) ranges).

(** A position in a text: whether it is its begin, what is left of it, and the groups
    that were found, the last one first. *)
Record pos := mkPos {
  p_begin : bool;
  p_rest : list ascii;
  p_groups : list (nat * list ascii)
}.
Definition at_begin (s : list ascii) : pos := mkPos true s [].

(** The text between two positions. *)
Definition between (p q : pos) : list ascii := take (length (p_rest p) - length (p_rest q)) (p_rest p).
Definition capture (n : nat) (p q : pos) : pos := mkPos (p_begin q) (p_rest q) ((n, between p q) :: p_groups q).
Definition shorter (q p : pos) : bool := length (p_rest q) <? length (p_rest p).

(** ** The meaning of an expression *)

(** Repetition; an iteration that consumes nothing is not repeated. *)
Inductive iter (R : pos -> pos -> Prop) : pos -> pos -> Prop :=
| iter_stop p : iter R p p
| iter_more p q s : R p q -> shorter q p = true -> iter R q s -> iter R p s.

(** A character of a set. *)
Definition eats (f : ascii -> bool) (p q : pos) : Prop := exists c r, p_rest p = c :: r /\ f c = true /\ q = mkPos false r (p_groups p).

(** The positions an expression leads to. *)
Fixpoint accepts_re (r : re) (p q : pos) : Prop :=
  match r with
  | Eps => q = p
  | Char c => eats (Ascii.eqb c) p q
  | Dot => eats not_newline p q
  | Class_ n l => eats (in_class n l) p q
  | Seq a b => exists m, accepts_re a p m /\ accepts_re b m q
  | Alt a b => accepts_re a p q \/ accepts_re b p q
  | Star _ a => iter (accepts_re a) p q
  | Group n a => exists m, accepts_re a p m /\ q = capture n p m
  | Bol => p_begin p = true /\ q = p
  | Eol => p_rest p = [] /\ q = p
  | NotAhead a => ~ (exists m, accepts_re a p m) /\ q = p
  end.

(** ** The search with backtracking *)

Definition or_else {A} (a b : option A) : option A := match a with Some x => Some x | None => b end.

Definition eat {A} (f : ascii -> bool) (k : pos -> option A) (p : pos) : option A :=
  match p_rest p with
  | c :: r => if f c then k (mkPos false r (p_groups p)) else None
  | [] => None
  end.

(** At most [n] iterations, each of which consumes something. *)
Fixpoint repeat_ {A} (m : (pos -> option A) -> pos -> option A) (greedy : bool) (k : pos -> option A) (n : nat) (p : pos) : option A :=
  match n with
  | O => k p
  | S n =>
      let again := m (fun q => if shorter q p then repeat_ m greedy k n q else None) p in
      if greedy then or_else again (k p) else or_else (k p) again
  end.

(** The first match after which [k] succeeds. *)
Fixpoint backtrack (r : re) {A : Type} (k : pos -> option A) (p : pos) : option A :=
  match r with
  | Eps => k p
  | Char c => eat (Ascii.eqb c) k p
  | Dot => eat not_newline k p
  | Class_ n l => eat (in_class n l) k p
  | Seq a b => backtrack a (backtrack b k) p
  | Alt a b => or_else (backtrack a k p) (backtrack b k p)
  | Star greedy a => repeat_ (fun k => backtrack a k) greedy k (length (p_rest p)) p
  | Group n a => backtrack a (fun q => k (capture n p q)) p
  | Bol => if p_begin p then k p else None
  | Eol => match p_rest p with [] => k p | _ => None end
  | NotAhead a => match backtrack a Some p with Some _ => None | None => k p end
  end.

(** ** The functions of the library *)

(** An expression with the number of its groups. *)
Record compiled := mkCompiled { rx_re : re; rx_groups : nat }.

Definition group_text (n : nat) (gs : list (nat * list ascii)) : string :=
  match find (fun g => g.1 =? n) gs with Some g => str g.2 | None => "" end.
(** [std::smatch]: the text of the match, and of the groups; a group that took no part is
    empty. *)
Definition groups_of (n : nat) (matched : list ascii) (gs : list (nat * list ascii)) : list string :=
  str matched :: map (fun i => group_text i gs) (seq 1 n).

Definition to_the_end (q : pos) : option pos := match p_rest q with [] => Some q | _ => None end.
Definition rx_match (x : compiled) (s : string) : option (list string) :=
  (fun q => groups_of (rx_groups x) (chars s) (p_groups q)) <$> backtrack (rx_re x) to_the_end (at_begin (chars s)).

(** The first position from which there is a match: what is before it, the position where
    it starts and the one where it ends. *)
Fixpoint search_from (r : re) (begin : bool) (s : list ascii) : option (list ascii * pos * pos) :=
  let p := mkPos begin s [] in
  match backtrack r Some p with
  | Some q => Some ([], p, q)
  | None =>
      match s with
      | [] => None
      | c :: s => (fun '(before, p, q) => (c :: before, p, q)) <$> search_from r false s
      end
  end.
Definition rx_search (x : compiled) (s : string) : bool :=
  match search_from (rx_re x) true (chars s) with Some _ => true | None => false end.

(** The format of a replacement: [$n], [$&] and [$$]. *)
Fixpoint format (fmt : list ascii) (gs : list string) : string :=
  match fmt with
  | c1 :: (c2 :: rest) as tail =>
      if (zc c1 =? 36)%Z then
        if (zc c2 =? 36)%Z then String c1 (format rest gs)
        else if (zc c2 =? 38)%Z then default "" (gs !! 0) +:+ format rest gs
        else if isdigit c2 then
          match rest with
          | c3 :: rest' =>
              if isdigit c3 then default "" (gs !! Z.to_nat (10 * (zc c2 - 48) + (zc c3 - 48))) +:+ format rest' gs
              else default "" (gs !! Z.to_nat (zc c2 - 48)) +:+ format rest gs
          | [] => default "" (gs !! Z.to_nat (zc c2 - 48)) +:+ format rest gs
          end
        else String c1 (format tail gs)
      else String c1 (format tail gs)
  | c :: tail => String c (format tail gs)
  | [] => ""
  end.

(** [regex_replace]: all the matches, from the left; after an empty match the next one has
    to consume something where that one was, or comes later. *)
Fixpoint replace_loop (fuel : nat) (x : compiled) (fmt : list ascii) (begin : bool) (s : list ascii) : string :=
  match fuel with
  | O => str s
  | S fuel =>
      match search_from (rx_re x) begin s with
      | None => str s
      | Some (before, p, q) =>
          let put p q := format fmt (groups_of (rx_groups x) (between p q) (p_groups q)) in
          str before +:+ put p q +:+
          (if shorter q p then replace_loop fuel x fmt false (p_rest q)
           else
             let next := mkPos false (p_rest q) [] in
             match backtrack (rx_re x) (fun q' => if shorter q' next then Some q' else None) next with
             | Some q' => put next q' +:+ replace_loop fuel x fmt false (p_rest q')
             | None =>
                 match p_rest q with
                 | [] => ""
                 | c :: s => String c (replace_loop fuel x fmt false s)
                 end
             end)
      end
  end.
Definition rx_replace (x : compiled) (s fmt : string) : string := replace_loop (S (String.length s)) x (chars fmt) true (chars s).

(** ** Reading an expression *)

(** The sets of the escapes [\d], [\w] and [\s], and their complements. *)
Definition digit_set : list (ascii * ascii) := [(cz 48, cz 57)].
Definition word_set : list (ascii * ascii) := [(cz 48, cz 57); (cz 65, cz 90); (cz 95, cz 95); (cz 97, cz 122)].
Definition space_set : list (ascii * ascii) := [(cz 9, cz 13); (cz 32, cz 32)].
Definition non_digit_set : list (ascii * ascii) := [(cz 0, cz 47); (cz 58, cz 255)].
Definition non_word_set : list (ascii * ascii) := [(cz 0, cz 47); (cz 58, cz 64); (cz 91, cz 94); (cz 96, cz 96); (cz 123, cz 255)].
Definition non_space_set : list (ascii * ascii) := [(cz 0, cz 8); (cz 14, cz 31); (cz 33, cz 255)].

Definition escape_set (c : ascii) : option (list (ascii * ascii)) :=
  match zc c with
  | 100 => Some digit_set | 68 => Some non_digit_set
  | 119 => Some word_set | 87 => Some non_word_set
  | 115 => Some space_set | 83 => Some non_space_set
  | _ => None
  end%Z.
(** The other escapes: control characters, and punctuation for itself. *)
Definition is_alnum (c : ascii) : bool := existsb (in_range c) word_set.
Definition escape_char (c : ascii) : option ascii :=
  match zc c with
  | 110 => Some (cz 10) | 114 => Some (cz 13) | 116 => Some (cz 9) | 102 => Some (cz 12) | 118 => Some (cz 11) | 48 => Some (cz 0)
  | _ => if is_alnum c then None else Some c
  end%Z.

(** The content of a class, up to its bracket. *)
Fixpoint read_class (fuel : nat) (s : list ascii) (ranges : list (ascii * ascii)) : option (list (ascii * ascii) * list ascii) :=
  match fuel with
  | O => None
  | S fuel =>
      match s with
      | [] => None
      | c :: s =>
          if (zc c =? 93)%Z then Some (ranges, s)
          else if (zc c =? 92)%Z then
            match s with
            | e :: s =>
                match escape_set e, escape_char e with
                | Some l, _ => read_class fuel s (ranges ++ l)
                | None, Some d => read_class fuel s (ranges ++ [(d, d)])
                | None, None => None
                end
            | [] => None
            end
          else
            match s with
            | d :: e :: s' =>
                if (zc d =? 45)%Z && negb (zc e =? 93)%Z then
                  if (zc e =? 92)%Z || (zc e <? zc c)%Z then None else read_class fuel s' (ranges ++ [(c, e)])
                else read_class fuel s (ranges ++ [(c, c)])
            | _ => read_class fuel s (ranges ++ [(c, c)])
            end
      end
  end.

(** [r] repeated [n] times; up to [n] times. *)
Fixpoint times (n : nat) (r tail : re) : re := match n with O => tail | S n => Seq r (times n r tail) end.
Fixpoint up_to (n : nat) (greedy : bool) (r : re) : re :=
  match n with
  | O => Eps
  | S n => let more := Seq r (up_to n greedy r) in if greedy then Alt more Eps else Alt Eps more
  end.

Fixpoint read_number (s : list ascii) (n : option Z) : option Z * list ascii :=
  match s with
  | c :: s' => if isdigit c then read_number s' (Some (10 * default 0 n + (zc c - 48))%Z) else (n, s)
  | [] => (n, s)
  end.

(** The bounds between braces. *)
Definition read_bounds (s : list ascii) : option (nat * option nat * list ascii) :=
  match read_number s None with
  | (Some a, c :: s) =>
      if (zc c =? 125)%Z then Some (Z.to_nat a, Some (Z.to_nat a), s)
      else if (zc c =? 44)%Z then
        match read_number s None with
        | (b, d :: s) =>
            if (zc d =? 125)%Z then
              match b with
              | Some b => if (b <? a)%Z then None else Some (Z.to_nat a, Some (Z.to_nat b), s)
              | None => Some (Z.to_nat a, None, s)
              end
            else None
        | _ => None
        end
      else None
  | _ => None
  end.

(** What follows an atom. *)
Definition read_quantifier (r : re) (s : list ascii) : option (re * list ascii) :=
  let quantified (a : nat) (b : option nat) (s : list ascii) :=
    let '(greedy, s) := match s with c :: s' => if (zc c =? 63)%Z then (false, s') else (true, s) | [] => (true, s) end in
    Some (times a r (match b with Some b => up_to (b - a) greedy r | None => Star greedy r end), s) in
  match s with
  | c :: s' =>
      match zc c with
      | 42 => quantified 0%nat None s'
      | 43 => quantified 1%nat None s'
      | 63 => quantified 0%nat (Some 1%nat) s'
      | 123 => '(a, b, s') ← read_bounds s'; quantified a b s'
      | _ => Some (r, s)
      end%Z
  | [] => Some (r, s)
  end.

Definition seq_re (a b : re) : re := match b with Eps => a | _ => Seq a b end.

(** Alternatives, up to the end or a parenthesis: the expression, the number of groups so
    far, and what is left. *)
Fixpoint read_alternatives (fuel g : nat) (s : list ascii) : option (re * nat * list ascii) :=
  match fuel with
  | O => None
  | S fuel =>
      '(a, g, s) ← read_terms fuel g s;
      match s with
      | c :: s' =>
          if (zc c =? 124)%Z then '(b, g, s) ← read_alternatives fuel g s'; Some (Alt a b, g, s)
          else Some (a, g, s)
      | [] => Some (a, g, s)
      end
  end
with read_terms (fuel g : nat) (s : list ascii) : option (re * nat * list ascii) :=
  match fuel with
  | O => None
  | S fuel =>
      match s with
      | [] => Some (Eps, g, s)
      | c :: s' =>
          if (zc c =? 124)%Z || (zc c =? 41)%Z then Some (Eps, g, s)
          else
            '(a, g, s) ←
              match zc c with
              | 94 => Some (Bol, g, s')
              | 36 => Some (Eol, g, s')
              | 40 =>
                  let closed (r : option (re * nat * list ascii)) (f : re -> re) :=
                    '(a, g, s) ← r;
                    match s with d :: s => if (zc d =? 41)%Z then Some (f a, g, s) else None | [] => None end in
                  match s' with
                  | q :: d :: s2 =>
                      if (zc q =? 63)%Z then
                        match zc d with
                        | 58 => '(a, g, s) ← closed (read_alternatives fuel g s2) (fun a => a); '(a, s) ← read_quantifier a s; Some (a, g, s)
                        | 33 => closed (read_alternatives fuel g s2) NotAhead
                        | _ => None
                        end
                      else '(a, g', s) ← closed (read_alternatives fuel (S g) s') (Group (S g)); '(a, s) ← read_quantifier a s; Some (a, g', s)
                  | _ => '(a, g', s) ← closed (read_alternatives fuel (S g) s') (Group (S g)); '(a, s) ← read_quantifier a s; Some (a, g', s)
                  end
              | 91 =>
                  let '(negated, s) := match s' with d :: s2 => if (zc d =? 94)%Z then (true, s2) else (false, s') | [] => (false, s') end in
                  '(l, s) ← read_class (S (length s)) s []; '(a, s) ← read_quantifier (Class_ negated l) s; Some (a, g, s)
              | 92 =>
                  match s' with
                  | e :: s2 =>
                      a ← match escape_set e with Some l => Some (Class_ false l) | None => Char <$> escape_char e end;
                      '(a, s) ← read_quantifier a s2; Some (a, g, s)
                  | [] => None
                  end
              | 46 => '(a, s) ← read_quantifier Dot s'; Some (a, g, s)
              | 42 | 43 | 63 | 123 => None
              | _ => '(a, s) ← read_quantifier (Char c) s'; Some (a, g, s)
              end%Z;
            '(b, g, s) ← read_terms fuel g s;
            Some (seq_re a b, g, s)
      end
  end.

Definition rx_compile (s : string) : option compiled :=
  match read_alternatives (S (3 * String.length s)) 0 (chars s) with
  | Some (r, g, []) => Some (mkCompiled r g)
  | _ => None
  end.

(** ** The search finds the matches there are *)

Lemma or_else_Some {A} (a b : option A) x : or_else a b = Some x -> a = Some x \/ b = Some x.
Proof. destruct a; cbn; auto. Qed.
Lemma or_else_is_Some {A} (a b : option A) : is_Some (or_else a b) <-> is_Some a \/ is_Some b.
Proof. destruct a as [x|]; cbn; [split; eauto|]. split; [auto|]. intros [[x [=]]|]; auto. Qed.

Lemma eat_sound {A} f (k : pos -> option A) p x : eat f k p = Some x -> exists q, eats f p q /\ k q = Some x.
Proof.
  unfold eat, eats. destruct (p_rest p) as [|c r] eqn:E; [done|]. destruct (f c) eqn:Ef; [|done].
  intros Hk. eexists. split; [|exact Hk]. eauto.
Qed.
Lemma eat_complete {A} f (k : pos -> option A) p q : eats f p q -> eat f k p = k q.
Proof. intros (c & r & E & Ef & ->). unfold eat. by rewrite E, Ef. Qed.

Section Repeat.
Context {A : Type} (m : (pos -> option A) -> pos -> option A) (R : pos -> pos -> Prop) (greedy : bool) (k : pos -> option A).
Context (Hsound : forall k p x, m k p = Some x -> exists q, R p q /\ k q = Some x).
Context (Hcomplete : forall k p q, R p q -> is_Some (k q) -> is_Some (m k p)).

Lemma repeat_sound n : forall p x, repeat_ m greedy k n p = Some x -> exists q, iter R p q /\ k q = Some x.
Proof using Hsound.
  induction n as [|n IH]; intros p x; cbn; [intros; eexists; split; [constructor|done]|].
  assert (m (fun q => if shorter q p then repeat_ m greedy k n q else None) p = Some x -> exists q, iter R p q /\ k q = Some x) as Hm.
  { intros (q & Hq & Hk)%Hsound. destruct (shorter q p) eqn:Es; [|done]. apply IH in Hk as (s & Hs & Hk).
    exists s. split; [by eapply iter_more|done]. }
  assert (k p = Some x -> exists q, iter R p q /\ k q = Some x) as Hk by (intros; eexists; split; [constructor|done]).
  destruct greedy; intros [|]%or_else_Some; auto.
Qed.

Lemma repeat_complete p q : iter R p q -> is_Some (k q) -> forall n, length (p_rest p) <= n -> is_Some (repeat_ m greedy k n p).
Proof using Hcomplete.
  induction 1 as [p|p q s Hpq Hs Hqs IH]; intros Hk n Hn.
  - destruct n as [|n]; cbn; [done|]. destruct greedy; apply or_else_is_Some; auto.
  - unfold shorter in Hs. apply Nat.ltb_lt in Hs. destruct n as [|n]; [lia|]. cbn.
    assert (is_Some (m (fun q => if shorter q p then repeat_ m greedy k n q else None) p)) as Hm.
    { eapply Hcomplete; [exact Hpq|]. unfold shorter. rewrite (proj2 (Nat.ltb_lt _ _) Hs). apply IH; [done|lia]. }
    destruct greedy; apply or_else_is_Some; auto.
Qed.
End Repeat.

Lemma backtrack_correct r : forall A (k : pos -> option A) p,
  (forall x, backtrack r k p = Some x -> exists q, accepts_re r p q /\ k q = Some x) /\
  (forall q, accepts_re r p q -> is_Some (k q) -> is_Some (backtrack r k p)).
Proof.
  induction r as [|c| |n l|a IHa b IHb|a IHa b IHb|g a IHa|n a IHa| | |a IHa]; intros A k p; cbn.
  - split; [eauto|]. by intros q ->.
  - split; [apply eat_sound|]. intros q Hq. by rewrite (eat_complete _ _ _ _ Hq).
  - split; [apply eat_sound|]. intros q Hq. by rewrite (eat_complete _ _ _ _ Hq).
  - split; [apply eat_sound|]. intros q Hq. by rewrite (eat_complete _ _ _ _ Hq).
  - split.
    + intros x (m & Hm & (q & Hq & Hk)%IHb)%IHa. eauto.
    + intros q (m & Hm & Hq) Hk. eapply IHa; [done|]. by eapply IHb.
  - split.
    + intros x [(q & ? & ?)%IHa|(q & ? & ?)%IHb]%or_else_Some; eauto.
    + intros q Hq Hk. apply or_else_is_Some. destruct Hq; [left; by eapply IHa|right; by eapply IHb].
  - split.
    + intros x. apply repeat_sound. intros k' p' x'. apply IHa.
    + intros q Hq Hk. eapply repeat_complete; [|exact Hq|exact Hk|done]. intros k' p' q' ??. by eapply IHa.
  - split.
    + intros x (m & Hm & Hk)%IHa. eauto.
    + intros q (m & Hm & ->) Hk. by eapply IHa.
  - split.
    + intros x. destruct (p_begin p); [eauto|done].
    + by intros q [-> ->].
  - split.
    + intros x. destruct (p_rest p); [eauto|done].
    + by intros q [-> ->].
  - destruct (IHa pos Some p) as [Hs Hc]. destruct (backtrack a Some p) as [m|] eqn:E.
    + split; [done|]. intros q [Hn _]. destruct Hn. destruct (Hs m eq_refl) as (q' & Hq & _). eauto.
    + split; [|by intros q [_ ->]]. intros x Hk. exists p. split; [|done]. split; [|done].
      intros (m & Hm). destruct (Hc m Hm) as [y Hy]; eauto; done.
Qed.

(** The result is the one of the only match there is. *)
Lemma backtrack_only {A} r (k : pos -> option A) p q x : accepts_re r p q -> k q = Some x ->
  (forall q', accepts_re r p q' -> is_Some (k q') -> k q' = Some x) -> backtrack r k p = Some x.
Proof.
  intros Hq Hk Hu. destruct (backtrack_correct r A k p) as [Hs Hc]. destruct (Hc q Hq) as [y Hy]; [by rewrite Hk|].
  destruct (Hs y Hy) as (q' & Hq' & Hk'). rewrite Hy, <- Hk'. apply Hu; [done|by rewrite Hk'].
Qed.
Lemma backtrack_none {A} r (k : pos -> option A) p : (forall q, accepts_re r p q -> k q = None) -> backtrack r k p = None.
Proof.
  intros Hn. destruct (backtrack r k p) as [x|] eqn:E; [|done]. apply backtrack_correct in E as (q & Hq & Hk). by rewrite (Hn q Hq) in Hk.
Qed.

Lemma search_correct r t : forall begin, is_Some (search_from r begin t) <->
  exists a b q, t = a ++ b /\ accepts_re r (mkPos (begin && bool_decide (a = [])) b []) q.
Proof.
  assert (forall begin t, backtrack r Some (mkPos begin t []) = None -> forall q, ~ accepts_re r (mkPos begin t []) q) as Hnone.
  { intros begin t' E q Hq. destruct (proj2 (backtrack_correct r pos Some _) q Hq) as [y Hy]; [eauto|]. congruence. }
  assert (forall begin t q, backtrack r Some (mkPos begin t []) = Some q -> accepts_re r (mkPos begin t []) q) as Hsome.
  { intros begin t' q (q' & Hq & [= ->])%backtrack_correct. done. }
  induction t as [|c t IH]; intros begin; cbn; destruct (backtrack r Some _) as [q|] eqn:E.
  - split; [|eauto]. intros _. exists [], [], q. rewrite bool_decide_eq_true_2, andb_true_r by done. auto.
  - split; [by intros []|]. intros (a & b & q & Et & Hq). symmetry in Et. apply app_nil in Et as [-> ->].
    rewrite bool_decide_eq_true_2, andb_true_r in Hq by done. by apply Hnone in Hq.
  - split; [|eauto]. intros _. exists [], (c :: t), q. rewrite bool_decide_eq_true_2, andb_true_r by done. auto.
  - rewrite fmap_is_Some, IH. split.
    + intros (a & b & q & -> & Hq). exists (c :: a), b, q. rewrite bool_decide_eq_false_2, andb_false_r by done. auto.
    + intros ([|d a] & b & q & Et & Hq); cbn in Et; simplify_eq.
      * rewrite bool_decide_eq_true_2, andb_true_r in Hq by done. by apply Hnone in Hq.
      * exists a, b, q. split; [done|]. by rewrite bool_decide_eq_false_2, andb_false_r in Hq by done.
Qed.

Lemma match_accepts x s : is_Some (rx_match x s) <-> exists q, accepts_re (rx_re x) (at_begin (chars s)) q /\ p_rest q = [].
Proof.
  destruct (backtrack_correct (rx_re x) pos to_the_end (at_begin (chars s))) as [Hs Hc]. unfold rx_match. rewrite fmap_is_Some. split.
  - intros [q Hq]. apply Hs in Hq as (q' & Hq' & Hk). exists q'. split; [done|]. unfold to_the_end in Hk. by destruct (p_rest q').
  - intros (q & Hq & Er). eapply Hc; [exact Hq|]. unfold to_the_end. by rewrite Er.
Qed.

(** A text matches an expression exactly when the expression leads from its begin to
    its end, and the groups are those of such a way; a search succeeds exactly when there
    is a match from some position. *)
Theorem regex_finds_the_matches (x : compiled) (s : string) :
  (is_Some (rx_match x s) <-> exists q, accepts_re (rx_re x) (at_begin (chars s)) q /\ p_rest q = []) /\
  (forall l, rx_match x s = Some l ->
     exists q, accepts_re (rx_re x) (at_begin (chars s)) q /\ p_rest q = [] /\ l = groups_of (rx_groups x) (chars s) (p_groups q)) /\
  (rx_search x s = true <-> exists a b q, chars s = a ++ b /\ accepts_re (rx_re x) (mkPos (bool_decide (a = [])) b []) q).
Proof.
  split_and!; [apply match_accepts| |].
  - intros l (q & Hq & ->)%fmap_Some. apply backtrack_correct in Hq as (q' & Hq' & Hk). exists q'. unfold to_the_end in Hk.
    destruct (p_rest q') eqn:E; [|done]. injection Hk as <-. auto.
  - unfold rx_search. pose proof (search_correct (rx_re x) (chars s) true) as Hf. cbn in Hf. rewrite <- Hf.
    destruct (search_from _ _ _); split; [eauto|done|done|by intros []].
Qed.

(** ** The library *)

#[export] Instance std_regex : RegexLib :=
  {| regex := option compiled;
     regex_default := None;
     regex_assign := fun s => match rx_compile s with Some x => Val (Some x) | None => Throw regex_error end;
     regex_match := fun s r => x ← r; rx_match x s;
     regex_replace := fun s r fmt => match r with Some x => rx_replace x s fmt | None => s end |}.

#[export] Instance std_regex_laws : RegexLaws.
Proof.
  split; cbn.
  - done.
  - intros s [x|] l; cbn; [|done]. unfold rx_match. intros (q & _ & ->)%fmap_Some. cbn. by rewrite str_chars.
  - intros s e. destruct (rx_compile s); congruence.
Qed.
