(* ===== verification/JsonConstraint.v ===== *)
(** [jsonConstraint] of [src/model/functions.cpp]: the expected document as a
    constraint on the received one.  The recursive check is shown equivalent to
    a declarative relation, insensitive to what the expected document does not
    mention, and truthful in the report it builds on failure. *)
From S2P Require Import Prelude Std Json JsonModel.
From stdpp Require Import options.

Section Constraint.
Context `{JsonEq}.

(** The four reports; their text is built by the tracing library. *)
Inductive fail_report :=
| ExpectedArray
| ElementNotFound (index : nat) (element : json)
| KeyMissing (key : string)
| ValueDiffers (key : string).

Definition isNone {A} (o : option A) : bool := match o with None => true | Some _ => false end.

(** [None] is success; [Some r] the failure with the report in [failReport]. *)
Fixpoint jsonConstraint (received expected : json) {struct expected} : option fail_report :=
  match expected with
  | JArray es =>
      match received with
      | JArray rs =>
          (fix array_mode (i : nat) (es : list json) : option fail_report :=
             match es with
             | [] => None
             | e :: es' =>
                 if existsb (fun r => if is_object e && is_object r
                                      then isNone (jsonConstraint r e)
                                      else json_eqb r e) rs
                 then array_mode (S i) es'
                 else Some (ElementNotFound i e)
             end) 0 es
      | _ => Some ExpectedArray
      end
  | JObject kvs =>
      (fix object_mode (kvs : list (string * json)) : option fail_report :=
         match kvs with
         | [] => None
         | (key, value) :: kvs' =>
             match json_find key received with
             | None => Some (KeyMissing key)
             | Some rv =>
                 if is_object value || (is_array value && is_array rv) then
                   match jsonConstraint rv value with
                   | Some report => Some report
                   | None => object_mode kvs'
                   end
                 else if json_eqb rv value then object_mode kvs'
                 else Some (ValueDiffers key)
             end
         end) kvs
  | JNull => None
  | scalar =>
      (* items() of a scalar: one element with an empty key *)
      match json_find "" received with
      | None => Some (KeyMissing "")
      | Some rv => if json_eqb rv scalar then None else Some (ValueDiffers "")
      end
  end.

(** ** The loops by name *)

(** Does a received array element satisfy an expected one? *)
Definition element_ok (e r : json) : bool :=
  if is_object e && is_object r then isNone (jsonConstraint r e) else json_eqb r e.

Fixpoint array_mode (rs : list json) (i : nat) (es : list json) : option fail_report :=
  match es with
  | [] => None
  | e :: es' => if existsb (element_ok e) rs then array_mode rs (S i) es' else Some (ElementNotFound i e)
  end.

(** Does the value received under a key satisfy the expected one? *)
Definition value_check (key : string) (value rv : json) : option fail_report :=
  if is_object value || (is_array value && is_array rv) then jsonConstraint rv value
  else if json_eqb rv value then None else Some (ValueDiffers key).

Fixpoint object_mode (received : json) (kvs : list (string * json)) : option fail_report :=
  match kvs with
  | [] => None
  | (key, value) :: kvs' =>
      match json_find key received with
      | None => Some (KeyMissing key)
      | Some rv =>
          match value_check key value rv with
          | Some report => Some report
          | None => object_mode received kvs'
          end
      end
  end.

Lemma jsonConstraint_array rs es :
  jsonConstraint (JArray rs) (JArray es) = array_mode rs 0 es.
Proof.
  cbn. generalize 0. induction es as [|e es IH]; intros i; [done|]. cbn.
  change (fun r => if is_object e && is_object r then isNone (jsonConstraint r e) else json_eqb r e)
    with (element_ok e). case_match; [apply IH|done].
Qed.

Lemma jsonConstraint_object r kvs :
  jsonConstraint r (JObject kvs) = object_mode r kvs.
Proof.
  cbn. induction kvs as [|[k v] kvs IH]; [done|]. cbn.
  destruct (json_find k r) as [rv|]; [|done]. unfold value_check.
  destruct (is_object v || is_array v && is_array rv).
  - by destruct (jsonConstraint rv v).
  - by destruct (json_eqb rv v).
Qed.

(** ** Declarative meaning *)

(** [sat received expected]: every element of an expected array is found in the
    received array, and every entry of an expected object is found in the
    received document, recursively. *)
Inductive sat : json -> json -> Prop :=
| sat_array rs es :
    Forall (fun e => Exists (fun r => sat_element r e) rs) es -> sat (JArray rs) (JArray es)
| sat_object r kvs :
    Forall (fun kv => exists rv, json_find kv.1 r = Some rv /\ sat_value rv kv.2) kvs ->
    sat r (JObject kvs)
with sat_element : json -> json -> Prop :=
| se_objects r e : is_object e && is_object r = true -> sat r e -> sat_element r e
| se_equal r e : is_object e && is_object r = false -> json_eqb r e = true -> sat_element r e
with sat_value : json -> json -> Prop :=
| sv_nested rv v : is_object v || (is_array v && is_array rv) = true -> sat rv v -> sat_value rv v
| sv_equal rv v : is_object v || (is_array v && is_array rv) = false -> json_eqb rv v = true -> sat_value rv v.

Definition container (j : json) : bool := is_object j || is_array j.

Lemma array_mode_None rs es : forall i,
  array_mode rs i es = None <-> Forall (fun e => existsb (element_ok e) rs = true) es.
Proof.
  induction es as [|e es IH]; intros i; cbn; [by split; constructor|].
  rewrite Forall_cons. destruct (existsb (element_ok e) rs); [rewrite IH; tauto|].
  split; [done|]. by intros [? _].
Qed.

Lemma object_mode_None r kvs :
  object_mode r kvs = None <->
  Forall (fun kv => exists rv, json_find kv.1 r = Some rv /\ value_check kv.1 kv.2 rv = None) kvs.
Proof.
  induction kvs as [|[k v] kvs IH]; cbn; [by split; constructor|].
  rewrite Forall_cons, <- IH; cbn. destruct (json_find k r) as [rv|].
  - destruct (value_check k v rv) eqn:E; split; try done.
    + intros [(rv' & [= <-] & Hv) _]. congruence.
    + intros Hm. split; [by exists rv|done].
    + tauto.
  - split; [done|]. by intros [(? & ? & _) _].
Qed.

Lemma existsb_Exists {A} (f : A -> bool) l : existsb f l = true <-> Exists (fun x => f x = true) l.
Proof. rewrite existsb_exists, List.Exists_exists. done. Qed.

Lemma sat_value_spec k rv v :
  (forall r, container v = true -> jsonConstraint r v = None <-> sat r v) ->
  value_check k v rv = None <-> sat_value rv v.
Proof.
  intros IH. unfold value_check.
  destruct (is_object v || (is_array v && is_array rv)) eqn:E.
  - rewrite IH; [split; [by constructor|]|].
    + inversion 1; [done|congruence].
    + unfold container. destruct v; cbn in *; done.
  - destruct (json_eqb rv v) eqn:Ej; split; try done.
    + by constructor 2.
    + inversion 1; congruence.
Qed.

Lemma sat_element_spec r e :
  (forall r, container e = true -> jsonConstraint r e = None <-> sat r e) ->
  element_ok e r = true <-> sat_element r e.
Proof.
  intros IH. unfold element_ok. destruct (is_object e && is_object r) eqn:E.
  - assert (container e = true) as Hc by (unfold container; destruct e; done).
    specialize (IH r Hc). destruct (jsonConstraint r e); cbn.
    + split; [done|]. inversion 1 as [? ? ? Hsat|]; [|congruence]. by apply IH in Hsat.
    + split; [|done]. intros _. constructor; [done|]. by apply IH.
  - split; [by constructor 2|]. inversion 1; [congruence|done].
Qed.

Lemma jsonConstraint_sat e : forall r,
  container e = true -> jsonConstraint r e = None <-> sat r e.
Proof.
  induction e as [| | | | | |es IH|kvs IH] using json_induction; intros r Hc; try done.
  - destruct r as [| | | | | |rs|]; try (split; [done|by inversion 1]).
    rewrite jsonConstraint_array, array_mode_None. split.
    + intros Hf. constructor. rewrite Forall_forall in *. intros e He.
      specialize (Hf e He). apply existsb_Exists in Hf.
      eapply Exists_impl; [exact Hf|]. cbn. intros r Hr. apply sat_element_spec; auto.
    + inversion 1 as [? ? Hf|]; subst. rewrite Forall_forall in *. intros e He.
      apply existsb_Exists. eapply Exists_impl; [by apply Hf|]. cbn.
      intros r Hr. apply sat_element_spec; auto.
  - rewrite jsonConstraint_object, object_mode_None. split.
    + intros Hf. constructor. rewrite Forall_forall in *. intros kv Hkv.
      destruct (Hf kv Hkv) as (rv & Hrv & Hv). exists rv. split; [done|].
      apply sat_value_spec in Hv; auto.
    + inversion 1 as [|? ? Hf]; subst. rewrite Forall_forall in *. intros kv Hkv.
      destruct (Hf kv Hkv) as (rv & Hrv & Hv). exists rv. split; [done|].
      apply sat_value_spec; auto.
Qed.

(** ** Failure reports *)

(** The pairs of documents the check compares, going down through the objects. *)
Inductive visits : json -> json -> json -> json -> Prop :=
| visits_here r e : visits r e r e
| visits_under r kvs k v rv r' e' :
    (k, v) ∈ kvs -> json_find k r = Some rv ->
    is_object v || (is_array v && is_array rv) = true ->
    visits rv v r' e' -> visits r (JObject kvs) r' e'.

(** What a report says of the documents where the check stopped. *)
Definition report_holds (report : fail_report) (r e : json) : Prop :=
  match report with
  | ExpectedArray => is_array e = true /\ is_array r = false
  | ElementNotFound i x =>
      exists rs es, r = JArray rs /\ e = JArray es /\ es !! i = Some x /\
        Forall (fun y => element_ok x y = false) rs /\
        forall j y, j < i -> es !! j = Some y -> Exists (fun z => element_ok y z = true) rs
  | KeyMissing k => exists kvs v, e = JObject kvs /\ (k, v) ∈ kvs /\ json_find k r = None
  | ValueDiffers k =>
      exists kvs v rv, e = JObject kvs /\ (k, v) ∈ kvs /\ json_find k r = Some rv /\ json_eqb rv v = false
  end.

Lemma existsb_false {A} (f : A -> bool) l : existsb f l = false -> Forall (fun x => f x = false) l.
Proof.
  induction l as [|x l IH]; cbn; [constructor|]. intros [Hx Hl]%orb_false_iff. constructor; auto.
Qed.

Lemma array_mode_report rs es : forall i rep,
  array_mode rs i es = Some rep ->
  exists k x, rep = ElementNotFound (i + k) x /\ es !! k = Some x /\
    Forall (fun y => element_ok x y = false) rs /\
    forall j y, j < k -> es !! j = Some y -> Exists (fun z => element_ok y z = true) rs.
Proof.
  induction es as [|e es IH]; intros i rep; cbn; [done|].
  destruct (existsb (element_ok e) rs) eqn:E.
  - intros Hr. apply IH in Hr as (k & x & -> & Hk & Hf & Hj).
    exists (S k), x. split_and!; [f_equal; lia|done..|].
    intros [|j] y Hlt Hy; cbn in Hy; simplify_eq; [by apply existsb_Exists|]. apply (Hj j); [lia|done].
  - intros [= <-]. exists 0, e. split_and!; [f_equal; lia|done| |lia]. by apply existsb_false.
Qed.

Lemma object_mode_report r kvs rep :
  object_mode r kvs = Some rep ->
  exists k v, (k, v) ∈ kvs /\
    ((json_find k r = None /\ rep = KeyMissing k) \/
     exists rv, json_find k r = Some rv /\ value_check k v rv = Some rep).
Proof.
  induction kvs as [|[k v] kvs IH]; cbn; [done|].
  destruct (json_find k r) as [rv|] eqn:Hf.
  - destruct (value_check k v rv) eqn:Hv.
    + intros [= <-]. exists k, v. split; [set_solver|]. right. by exists rv.
    + intros Hm. destruct (IH Hm) as (k' & v' & Hin & Hc). exists k', v'. split; [set_solver|done].
  - intros [= <-]. exists k, v. split; [set_solver|]. by left.
Qed.

Lemma jsonConstraint_report e : forall r rep,
  container e = true -> jsonConstraint r e = Some rep ->
  exists r' e', visits r e r' e' /\ report_holds rep r' e'.
Proof.
  induction e as [| | | | | |es IH|kvs IH] using json_induction; intros r rep Hc; try done.
  - destruct r as [| | | | | |rs|];
      try (intros [= <-]; do 2 eexists; split; [apply visits_here|done]).
    rewrite jsonConstraint_array. intros Hm.
    apply array_mode_report in Hm as (k & x & -> & Hk & Hf & Hj). cbn.
    exists (JArray rs), (JArray es). split; [constructor|]. by exists rs, es.
  - rewrite jsonConstraint_object. intros Hm.
    apply object_mode_report in Hm as (k & v & Hin & [[Hf ->]|(rv & Hf & Hv)]).
    + exists r, (JObject kvs). split; [constructor|]. by exists kvs, v.
    + unfold value_check in Hv. destruct (is_object v || is_array v && is_array rv) eqn:Hn.
      * rewrite Forall_forall in IH. destruct (IH _ Hin rv rep) as (r' & e' & Hvis & Hrep); [|done|].
        { unfold container. by destruct v. }
        exists r', e'. split; [|done]. by apply visits_under with k v rv.
      * destruct (json_eqb rv v) eqn:Ej; simplify_eq.
        exists r, (JObject kvs). split; [constructor|]. by exists kvs, v, rv.
Qed.

(** ** Extra content is ignored *)

Lemma jsonConstraint_arrays_mono rs rs' es es' :
  rs ⊆ rs' -> es' ⊆ es ->
  jsonConstraint (JArray rs) (JArray es) = None -> jsonConstraint (JArray rs') (JArray es') = None.
Proof.
  intros Hr He. rewrite !jsonConstraint_array, !array_mode_None, !Forall_forall.
  intros Hf e Hin. specialize (Hf e (He _ Hin)). apply existsb_exists in Hf as (r & Hrin & Hok).
  apply existsb_exists. exists r. split; [|done].
  apply list_elem_of_In. apply Hr. by apply list_elem_of_In.
Qed.

Lemma jsonConstraint_objects_mono r r' kvs kvs' :
  (forall k v, json_find k r = Some v -> json_find k r' = Some v) -> kvs' ⊆ kvs ->
  jsonConstraint r (JObject kvs) = None -> jsonConstraint r' (JObject kvs') = None.
Proof.
  intros Hr He. rewrite !jsonConstraint_object, !object_mode_None, !Forall_forall.
  intros Hf kv Hin. destruct (Hf kv (He _ Hin)) as (rv & Hrv & Hv). exists rv. auto.
Qed.

(** ** A document satisfies itself *)

(** Keys of every object are distinct. *)
Fixpoint wf_json (j : json) : bool :=
  match j with
  | JArray l => forallb wf_json l
  | JObject l => bool_decide (NoDup l.*1) && forallb (fun kv => wf_json kv.2) l
  | _ => true
  end.

Context {Laws : JsonEqLaws}.

Lemma jsonConstraint_self j :
  container j = true -> wf_json j = true -> no_nan j = true -> jsonConstraint j j = None.
Proof using Laws.
  induction j as [| | | | | |es IH|kvs IH] using json_induction; intros Hc Hw Hn; try done.
  - rewrite jsonConstraint_array, array_mode_None. rewrite Forall_forall in *. intros e He.
    cbn in Hw, Hn. rewrite forallb_forall in Hw, Hn.
    assert (wf_json e = true) as Hwe by (apply Hw; by apply list_elem_of_In).
    assert (no_nan e = true) as Hne by (apply Hn; by apply list_elem_of_In).
    apply existsb_exists. exists e. split; [by apply list_elem_of_In|].
    unfold element_ok. destruct (is_object e) eqn:Eo; cbn; [|by apply json_eqb_refl].
    rewrite IH; [done..|unfold container; by rewrite Eo|done|done].
  - rewrite jsonConstraint_object, object_mode_None. rewrite Forall_forall in *. intros [k v] Hin.
    cbn in Hw, Hn. apply andb_true_iff in Hw as [Hnd%bool_decide_eq_true_1 Hw].
    rewrite forallb_forall in Hw, Hn.
    assert (wf_json v = true) as Hwv by (apply (Hw (k, v)); by apply list_elem_of_In).
    assert (no_nan v = true) as Hnv by (apply (Hn (k, v)); by apply list_elem_of_In).
    exists v. split; [by apply assoc_nodup|]. cbn. unfold value_check.
    destruct (is_object v || is_array v && is_array v) eqn:Eo; [|by rewrite json_eqb_refl].
    apply (IH _ Hin); [|done..]. unfold container. by destruct v.
Qed.

End Constraint.

(** ** Properties *)

Section ConstraintProperties.
Context `{JsonEq}.

(** C20: On an expected object or array, [jsonConstraint] succeeds exactly when the
    received document satisfies it: every expected element is found in the received
    array, every expected entry in the received object, recursively. *)
Theorem jsonConstraint_decides_sat (received expected : json) (Hc : container expected = true) :
  jsonConstraint received expected = None <-> sat received expected.
Proof. by apply jsonConstraint_sat. Qed.

(** A failure report is true: it names a place both documents are compared at,
    and there the array, the element, the key or the value it mentions is missing or
    different, the element named being the first one not found. *)
Theorem jsonConstraint_report_is_true (received expected : json) (report : fail_report)
  (Hc : container expected = true) (Hr : jsonConstraint received expected = Some report) :
  exists r e, visits received expected r e /\ report_holds report r e.
Proof. by apply jsonConstraint_report. Qed.

(** What the expected document does not mention is ignored: a satisfied
    constraint stays satisfied when the received object gains entries, the received
    array gains elements in any order, or expectations are dropped. *)
Theorem jsonConstraint_ignores_extras (r r' : json) kvs kvs' (rs rs' es es' : list json)
  (Hr : forall k v, json_find k r = Some v -> json_find k r' = Some v) (Hkvs : kvs' ⊆ kvs)
  (Hrs : rs ⊆ rs') (Hes : es' ⊆ es) :
  (jsonConstraint r (JObject kvs) = None -> jsonConstraint r' (JObject kvs') = None) /\
  (jsonConstraint (JArray rs) (JArray es) = None -> jsonConstraint (JArray rs') (JArray es') = None).
Proof.
  split; [by apply jsonConstraint_objects_mono|by apply jsonConstraint_arrays_mono].
Qed.

(** Every document without repeated keys and without NaN satisfies itself. *)
Theorem jsonConstraint_reflexive {Laws : JsonEqLaws} (j : json)
  (Hc : container j = true) (Hw : wf_json j = true) (Hn : no_nan j = true) :
  jsonConstraint j j = None.
Proof. by apply jsonConstraint_self. Qed.
End ConstraintProperties.

Module ConstraintExamples.

Definition received := JObject [("a", JArray [JUint 1; JObject [("x", JBool true); ("y", JNull)]]); ("b", JString "v")].
Definition expected := JObject [("a", JArray [JObject [("y", JNull)]])].

Lemma jsonConstraint_decides_sat_witness : sat received expected.
Proof. apply (jsonConstraint_decides_sat received expected); [reflexivity|vm_compute; reflexivity]. Defined.

Lemma jsonConstraint_report_is_true_witness :
  exists r e, visits received (JObject [("b", JString "w")]) r e /\ report_holds (ValueDiffers "b") r e.
Proof.
  apply (jsonConstraint_report_is_true received (JObject [("b", JString "w")]) (ValueDiffers "b"));
    vm_compute; reflexivity.
Defined.

Lemma jsonConstraint_ignores_extras_witness :
  jsonConstraint (JArray [JUint 2; JUint 1]) (JArray [JUint 1]) = None.
Proof.
  destruct (jsonConstraint_ignores_extras JNull JNull [] [] [JUint 1] [JUint 2; JUint 1] [JUint 1] [JUint 1]) as [_ H1];
    [done|set_solver|set_solver|set_solver|]. apply H1. vm_compute. reflexivity.
Defined.

Lemma jsonConstraint_reflexive_witness : jsonConstraint received received = None.
Proof. apply (jsonConstraint_reflexive received); vm_compute; reflexivity. Defined.

End ConstraintExamples.
