(* ===== verification/Keys.v ===== *)
(** [src/model/keys.hpp]: the key of an events history ([DataKey]), of one event
    in it ([EventKey]) and of a location in that event ([EventLocationKey]). *)
From S2P Require Import Prelude Std Functions Json.
From stdpp Require Import options.
#[local] Open Scope Z_scope.

(** ** [DataKey] *)

Record DataKey := mkDataKey {
  client_endpoint_id_ : string;
  method_ : string;
  uri_ : string;
  provision_uri_ : string;
  key_ : string;
  nkeys_ : Z
}.

(** The two constructors. *)
Definition DataKey2 (method uri : string) : DataKey :=
  {| client_endpoint_id_ := ""; method_ := method; uri_ := uri; provision_uri_ := "";
     key_ := calculateStringKey method uri ""; nkeys_ := 2 |}.
Definition DataKey3 (clientEndpointId method uri : string) : DataKey :=
  {| client_endpoint_id_ := clientEndpointId; method_ := method; uri_ := uri; provision_uri_ := "";
     key_ := calculateStringKey clientEndpointId method uri; nkeys_ := 3 |}.

Definition dk_empty (k : DataKey) : bool :=
  let none := sempty (method_ k) && sempty (uri_ k) in
  if nkeys_ k =? 3 then none && sempty (client_endpoint_id_ k) else none.

Definition dk_complete (k : DataKey) : bool :=
  let all := negb (sempty (method_ k)) && negb (sempty (uri_ k)) in
  if nkeys_ k =? 3 then all && negb (sempty (client_endpoint_id_ k)) else all.

Definition dk_checkSelection (k : DataKey) : bool := dk_complete k || dk_empty k.

Definition keyToJson (k : DataKey) (doc : json) : json :=
  let doc := json_set "method" (JString (method_ k)) doc in
  let doc := json_set "uri" (JString (uri_ k)) doc in
  let doc := if negb (sempty (provision_uri_ k))
             then json_set "provisionUri" (JString (provision_uri_ k)) doc else doc in
  if nkeys_ k =? 3 then json_set "clientEndpointId" (JString (client_endpoint_id_ k)) doc else doc.

Definition setProvisionUri (provisionUri : string) (k : DataKey) : DataKey :=
  {| client_endpoint_id_ := client_endpoint_id_ k; method_ := method_ k; uri_ := uri_ k;
     provision_uri_ := provisionUri; key_ := key_ k; nkeys_ := nkeys_ k |}.

(** ** [EventKey] *)

Record EventKey := mkEventKey {
  ek_data : DataKey;
  number_ : string;
  valid_ : bool;
  u_number_ : Z;
  reverse_ : bool
}.

(** The common tail of the three constructors. *)
Definition EventKey_of (key : DataKey) (number : string) : EventKey :=
  let '(valid, u, rev) :=
    if negb (sempty number) then string2uint64andSign number 0 false else (false, 0, false) in
  {| ek_data := key; number_ := number; valid_ := valid; u_number_ := u; reverse_ := rev |}.
Definition EventKey2 (method uri number : string) : EventKey := EventKey_of (DataKey2 method uri) number.
Definition EventKey3 (clientEndpointId method uri number : string) : EventKey :=
  EventKey_of (DataKey3 clientEndpointId method uri) number.

Definition hasNumber (k : EventKey) : bool := negb (sempty (number_ k)).
Definition validNumber (k : EventKey) : bool := valid_ k.
Definition ek_empty (k : EventKey) : bool := dk_empty (ek_data k) && negb (hasNumber k).
Definition ek_complete (k : EventKey) : bool := dk_complete (ek_data k) && hasNumber k.

Definition ek_checkSelection (k : EventKey) : bool :=
  if negb (dk_checkSelection (ek_data k)) then false
  else if hasNumber k && sempty (method_ (ek_data k)) then false
  else true.

(** ** [EventLocationKey] *)

Record EventLocationKey := mkEventLocationKey {
  elk_event : EventKey;
  path_ : string
}.

Definition EventLocationKey2 (method uri number path : string) : EventLocationKey :=
  {| elk_event := EventKey2 method uri number; path_ := path |}.
Definition EventLocationKey3 (clientEndpointId method uri number path : string) : EventLocationKey :=
  {| elk_event := EventKey3 clientEndpointId method uri number; path_ := path |}.

(** [empty] is inherited: the path does not take part. *)
Definition elk_empty (k : EventLocationKey) : bool := ek_empty (elk_event k).

Definition elk_checkSelection (k : EventLocationKey) : bool :=
  if negb (ek_checkSelection (elk_event k)) then false
  else if negb (sempty (path_ k)) && negb (hasNumber (elk_event k)) then false
  else true.

(** ** Well-formedness *)

(** What the constructors establish. *)
Definition wf_key (k : DataKey) : Prop :=
  (nkeys_ k = 2 /\ client_endpoint_id_ k = "" /\ key_ k = calculateStringKey (method_ k) (uri_ k) "") \/
  (nkeys_ k = 3 /\ key_ k = calculateStringKey (client_endpoint_id_ k) (method_ k) (uri_ k)).

Lemma wf_key2 m u : wf_key (DataKey2 m u).
Proof. by left. Qed.
Lemma wf_key3 c m u : wf_key (DataKey3 c m u).
Proof. by right. Qed.
Lemma wf_setProvisionUri p k : wf_key k -> wf_key (setProvisionUri p k).
Proof. by intros [|]; [left|right]. Qed.
#[export] Hint Resolve wf_key2 wf_key3 wf_setProvisionUri : h2.

(** The parts that must not contain the separator. *)
Definition key_parts_ok (k : DataKey) : Prop :=
  if nkeys_ k =? 3 then no_char "#" (client_endpoint_id_ k) /\ no_char "#" (method_ k)
  else no_char "#" (method_ k).

Lemma wf_key_inj k k' :
  wf_key k -> wf_key k' -> nkeys_ k = nkeys_ k' -> key_parts_ok k -> key_parts_ok k' ->
  key_ k = key_ k' ->
  client_endpoint_id_ k = client_endpoint_id_ k' /\ method_ k = method_ k' /\ uri_ k = uri_ k'.
Proof.
  unfold key_parts_ok.
  intros [(Hn & Hc & Hk)|(Hn & Hk)] [(Hn' & Hc' & Hk')|(Hn' & Hk')] Heq; rewrite Hn, Hn' in *; try done;
    cbn; rewrite Hk, Hk', ?Hc, ?Hc'.
  - intros. rewrite !key_as_two_parts in *. cbn in *.
    edestruct two_parts_unique; [..|done|]; [done|done|]. auto.
  - intros [] [] Hs. apply calculateStringKey_inj in Hs; done.
Qed.

Lemma empty_not_complete k : dk_empty k = true -> dk_complete k = false.
Proof.
  unfold dk_empty, dk_complete. case_match; destruct (sempty (method_ k)), (sempty (uri_ k)); done.
Qed.

(** The number of an event key is a 64-bit unsigned integer. *)
Lemma EventKey_of_u64 k n : is_u64 (u_number_ (EventKey_of k n)).
Proof.
  unfold EventKey_of. destruct (sempty n); cbn; [done|].
  destruct (string2uint64andSign n 0 false) as [[v u] r] eqn:E. cbn. destruct v.
  - by eapply string2uint64andSign_range.
  - unfold string2uint64andSign in E. destruct n as [|c n]; [by simplify_eq|].
    destruct (stoull _); simplify_eq. done.
Qed.
#[export] Hint Resolve EventKey_of_u64 : h2.

(** ** Properties *)

(** Within the server data or within the client data, the key of an events
    history identifies the endpoint, method and URI it was built from, when the
    endpoint and the method have no ['#']. *)
Theorem DataKey_identifies (k k' : DataKey) (Hk : wf_key k) (Hk' : wf_key k')
  (Hn : nkeys_ k = nkeys_ k') (Hp : key_parts_ok k) (Hp' : key_parts_ok k') (Heq : key_ k = key_ k') :
  client_endpoint_id_ k = client_endpoint_id_ k' /\ method_ k = method_ k' /\ uri_ k = uri_ k'.
Proof. by apply wf_key_inj. Qed.

Lemma EventKey_of_number k n : number_ (EventKey_of k n) = n.
Proof. unfold EventKey_of. by repeat case_match. Qed.
Lemma EventKey_of_data k n : ek_data (EventKey_of k n) = k.
Proof. unfold EventKey_of. by repeat case_match. Qed.

Lemma checkSelection2 m u n p :
  elk_checkSelection (EventLocationKey2 m u n p) = true <->
  ((m = "" <-> u = "") /\ (n <> "" -> m <> "") /\ (p <> "" -> n <> "")).
Proof.
  unfold elk_checkSelection, ek_checkSelection, dk_checkSelection, dk_complete, dk_empty, hasNumber.
  cbn [elk_event EventLocationKey2 EventLocationKey3]. unfold EventKey2, EventKey3.
  rewrite EventKey_of_number, EventKey_of_data. cbn.
  destruct m, u, n, p; cbn; intuition congruence.
Qed.

Lemma checkSelection3 c m u n p :
  elk_checkSelection (EventLocationKey3 c m u n p) = true <->
  ((m = "" <-> u = "") /\ (m = "" <-> c = "") /\ (n <> "" -> m <> "") /\ (p <> "" -> n <> "")).
Proof.
  unfold elk_checkSelection, ek_checkSelection, dk_checkSelection, dk_complete, dk_empty, hasNumber.
  cbn [elk_event EventLocationKey2 EventLocationKey3]. unfold EventKey2, EventKey3.
  rewrite EventKey_of_number, EventKey_of_data. cbn.
  destruct c, m, u, n, p; cbn; intuition congruence.
Qed.

(** A selection of events is accepted exactly when its key parts (endpoint,
    method, URI) are given all or none, a number only with the key and a path only
    with a number; for the server (two parts) and for the client (three). *)
Theorem checkSelection_correct (c m u n p : string) :
  (elk_checkSelection (EventLocationKey2 m u n p) = true <->
   ((m = "" <-> u = "") /\ (n <> "" -> m <> "") /\ (p <> "" -> n <> ""))) /\
  (elk_checkSelection (EventLocationKey3 c m u n p) = true <->
   ((m = "" <-> u = "") /\ (m = "" <-> c = "") /\ (n <> "" -> m <> "") /\ (p <> "" -> n <> ""))).
Proof. split; [apply checkSelection2|apply checkSelection3]. Qed.

Module KeysExamples.
Lemma DataKey_identifies_witness : uri_ (setProvisionUri "/p" (DataKey3 "ep" "GET" "/a#b")) = uri_ (DataKey3 "ep" "GET" "/a#b").
Proof.
  destruct (DataKey_identifies (setProvisionUri "/p" (DataKey3 "ep" "GET" "/a#b")) (DataKey3 "ep" "GET" "/a#b"))
    as (_ & _ & H); [auto with h2|auto with h2|reflexivity| | |reflexivity|exact H];
    split; by apply (bool_decide_unpack _).
Defined.
End KeysExamples.
