(* ===== verification/DataPart.v ===== *)
(** [src/model/DataPart.cpp]: a body with its lazily decoded JSON view.  The
    multipart scanner of the multipart library is a parameter: the sequence of
    callbacks it makes for a boundary and a content. *)
From S2P Require Import Prelude Std Functions Json JsonModel.
From stdpp Require Import options.

(** [nghttp2::asio_http2::header_map], a multimap in iteration order. *)
Definition header_map := list (string * string).

Fixpoint headers_find (k : string) (h : header_map) : option string :=
  match h with
  | [] => None
  | (k', v) :: h' => if decide (k = k') then Some v else headers_find k h'
  end.

Record DataPart := mkDataPart {
  str_ : string;
  decoded_ : bool;
  is_json_ : bool;
  dp_json_ : json
}.

Definition DataPart_empty : DataPart :=
  {| str_ := ""; decoded_ := false; is_json_ := false; dp_json_ := JNull |}.
Definition DataPart_of (s : string) : DataPart :=
  {| str_ := s; decoded_ := false; is_json_ := false; dp_json_ := JNull |}.

(** [assign] keeps the decoded document. *)
Definition assign (s : string) (dp : DataPart) : DataPart :=
  {| str_ := s; decoded_ := false; is_json_ := false; dp_json_ := dp_json_ dp |}.

(** [assignFromHex]: [fromHexString] writes into [str_]. *)
Definition assignFromHex (strAsHex : string) (dp : DataPart) : bool * DataPart :=
  let '(ok, out) := fromHexString strAsHex (str_ dp) in
  (ok, {| str_ := out; decoded_ := false; is_json_ := is_json_ dp; dp_json_ := dp_json_ dp |}).

Definition asAsciiString_dp (dp : DataPart) : string := (asAsciiString (str_ dp) "").2.

Definition set_is_json (b : bool) (dp : DataPart) : DataPart :=
  {| str_ := str_ dp; decoded_ := decoded_ dp; is_json_ := b; dp_json_ := dp_json_ dp |}.
Definition set_json (j : json) (dp : DataPart) : DataPart :=
  {| str_ := str_ dp; decoded_ := decoded_ dp; is_json_ := is_json_ dp; dp_json_ := j |}.
Definition set_decoded (dp : DataPart) : DataPart :=
  {| str_ := str_ dp; decoded_ := true; is_json_ := is_json_ dp; dp_json_ := dp_json_ dp |}.

(** [j[k]] for writing: null becomes an object, a scalar or array throws. *)
Definition json_sub (k : string) (j : json) : json :=
  match json_find k j with Some v => v | None => JNull end.
Definition json_set_ex (k : string) (v : json) (j : json) : outcome json :=
  if is_object j || is_null j then Val (json_set k v j) else Throw json_exception.

(** Callbacks of the multipart scanner. *)
Inductive mp_event :=
| MPHeader (name value : string)
| MPData (data : string).

Definition tolower (c : ascii) : ascii := if isupper c then cz (zc c + 32) else c.

Section Decode.
Context `{JsonText} (multipart_decode : string -> string -> list mp_event).

(** [parseJsonContent(content, j, true)]: the assigned document. *)
Definition parseJsonContent (content : string) : bool * json :=
  match json_parse content with
  | Some j => (true, j)
  | None => (false, JString (json_parse_error content))
  end.

(** [content_type_] and [data_count_] of the consumer, with the data part. *)
Record consumer := { mp_content_type : string; mp_count : Z; mp_part : DataPart }.

Definition mp_name (c : consumer) : string := "multipart." +:+ to_string_i (mp_count c).

Definition receiveHeader (name value : string) (c : consumer) : outcome consumer :=
  let n := str (map tolower (chars name)) in
  let ct := if decide (n = "content-type") then value else mp_content_type c in
  let part := json_sub (mp_name c) (dp_json_ (mp_part c)) in
  let! hs := json_set_ex name (JString value) (json_sub "headers" part) in
  let! part' := json_set_ex "headers" hs part in
  let! j := json_set_ex (mp_name c) part' (dp_json_ (mp_part c)) in
  Val {| mp_content_type := ct; mp_count := mp_count c; mp_part := set_json j (mp_part c) |}.

(** What [decodeContent] assigned to its document, for a decoder [dec]. *)
Definition receiveData (dec : DataPart -> string -> string -> outcome (DataPart * option json))
    (data : string) (c : consumer) : outcome consumer :=
  let! '(dp, content) := dec (mp_part c) data (mp_content_type c) in
  let part := json_sub (mp_name c) (dp_json_ dp) in
  let! part' := json_set_ex "content" (default JNull content) part in
  let! j := json_set_ex (mp_name c) part' (dp_json_ dp) in
  Val {| mp_content_type := mp_content_type c; mp_count := mp_count c + 1; mp_part := set_json j dp |}.

Fixpoint consume (dec : DataPart -> string -> string -> outcome (DataPart * option json))
    (evs : list mp_event) (c : consumer) : outcome consumer :=
  match evs with
  | [] => Val c
  | MPHeader n v :: evs' => let! c := receiveHeader n v c in consume dec evs' c
  | MPData d :: evs' => let! c := receiveData dec d c in consume dec evs' c
  end.

(** [decodeContent]: the part after the call and the document assigned to
    [jsonRepresentation], if any.  A body part is shorter than its body, so a
    budget of one more than the length reaches every nested part. *)
Fixpoint decodeContent (fuel : nat) (dp : DataPart) (content contentType : string)
    : outcome (DataPart * option json) :=
  if decide (contentType = "application/json") then
    Val (set_is_json true dp, Some (parseJsonContent content).2)
  else if starts_with "text/" contentType then Val (dp, Some (JString content))
  else if starts_with "multipart/" contentType then
    let boundary := match find_sub "boundary=" contentType with
                    | Some pos => sdrop (pos + 9) contentType
                    | None => ""
                    end in
    if sempty boundary then Val (dp, None)
    else
      match fuel with
      | O => Val (set_is_json true dp, None)
      | S fuel' =>
          let! c := consume (decodeContent fuel') (multipart_decode boundary content)
                      {| mp_content_type := ""; mp_count := 1; mp_part := set_is_json true dp |} in
          Val (mp_part c, None)
      end
  else
    let '(printable, output) := asHexString content in
    Val (dp, Some (JString (if printable then content else output))).

Definition decode (headers : header_map) (dp : DataPart) : outcome DataPart :=
  if decoded_ dp then Val dp
  else if sempty (str_ dp) then Val (set_decoded (set_is_json false dp))
  else
    let contentType := default "" (headers_find "content-type" headers) in
    let! '(dp', assigned) := decodeContent (S (String.length (str_ dp))) dp (str_ dp) contentType in
    Val (set_decoded (match assigned with Some j => set_json j dp' | None => dp' end)).
End Decode.

(** ** The budget of [decodeContent] is enough *)

Lemma consume_ext dec1 dec2 evs : forall c,
  (forall dp d ct, MPData d ∈ evs -> dec1 dp d ct = dec2 dp d ct) ->
  consume dec1 evs c = consume dec2 evs c.
Proof.
  induction evs as [|[n v|d] evs IH]; intros c Hd; [done|..]; cbn.
  - destruct (receiveHeader n v c); cbn; [|done]. apply IH. set_solver.
  - unfold receiveData. rewrite Hd by set_solver.
    destruct (dec2 (mp_part c) d (mp_content_type c)) as [[dp cj]|]; cbn; [|done].
    destruct (json_set_ex "content" _ _); cbn; [|done].
    destruct (json_set_ex (mp_name c) _ _); cbn; [|done]. apply IH. set_solver.
Qed.

(** Decoding keeps the raw bytes and runs once. *)
Lemma receiveHeader_str n v c c' : receiveHeader n v c = Val c' -> str_ (mp_part c') = str_ (mp_part c).
Proof.
  unfold receiveHeader. intros (hs & _ & Hs)%obind_val. apply obind_val in Hs as (p & _ & Hs).
  apply obind_val in Hs as (j & _ & [= <-]). done.
Qed.

Lemma consume_str dec evs : forall c c',
  (forall dp d ct dp' j, dec dp d ct = Val (dp', j) -> str_ dp' = str_ dp) ->
  consume dec evs c = Val c' -> str_ (mp_part c') = str_ (mp_part c).
Proof.
  induction evs as [|[n v|d] evs IH]; intros c c' Hd; cbn.
  - by intros [= <-].
  - intros (c1 & H1 & H2)%obind_val. apply IH in H2; [|done]. apply receiveHeader_str in H1. congruence.
  - intros (c1 & H1 & H2)%obind_val. apply IH in H2; [|done]. rewrite H2.
    unfold receiveData in H1. apply obind_val in H1 as ([dp cj] & Hdec & H1).
    apply obind_val in H1 as (p & _ & H1). apply obind_val in H1 as (j & _ & [= <-]).
    cbn. by eapply Hd.
Qed.

Section Fuel.
Context `{JsonText} (multipart_decode : string -> string -> list mp_event).

(** Documented behaviour of the scanner: a part is a proper piece of its body. *)
Definition parts_shorter : Prop :=
  forall boundary content d,
    MPData d ∈ multipart_decode boundary content -> String.length d < String.length content.

Lemma decodeContent_fuel : parts_shorter ->
  forall f1 f2 dp content ct,
    String.length content < f1 -> String.length content < f2 ->
    decodeContent multipart_decode f1 dp content ct = decodeContent multipart_decode f2 dp content ct.
Proof.
  intros Hsh. induction f1 as [|f1 IH]; intros f2 dp content ct H1 H2; [lia|].
  destruct f2 as [|f2]; [lia|]. cbn -[starts_with find_sub]. repeat (case_match; [done|] || done).
  all: repeat (case_match; try done).
  erewrite consume_ext; [done|]. intros dp' d ct' Hd. apply Hsh in Hd. apply IH; lia.
Qed.

Lemma decodeContent_str fuel : forall dp content ct dp' j,
  decodeContent multipart_decode fuel dp content ct = Val (dp', j) -> str_ dp' = str_ dp.
Proof.
  induction fuel as [|fuel IH]; intros dp content ct dp' j; cbn [decodeContent];
    (destruct (decide (ct = "application/json")); [by intros [= <- _]|]);
    (destruct (starts_with "text/" ct); [by intros [= <- _]|]);
    destruct (starts_with "multipart/" ct);
    try (destruct (asHexString content); by intros [= <- _]);
    (destruct (sempty _); [by intros [= <- _]|]); [by intros [= <- _]|].
  intros (c & Hc & [= <- _])%obind_val. apply consume_str in Hc; [done|].
  intros. by eapply IH.
Qed.

Lemma decode_once h h' dp dp' :
  decode multipart_decode h dp = Val dp' ->
  str_ dp' = str_ dp /\ decoded_ dp' = true /\ decode multipart_decode h' dp' = Val dp'.
Proof.
  unfold decode. destruct (decoded_ dp) eqn:Hd.
  { intros [= <-]. by rewrite Hd. }
  destruct (sempty (str_ dp)) eqn:He; [by intros [= <-]|].
  intros ([dp1 j] & Hc & [= <-])%obind_val. apply decodeContent_str in Hc. by destruct j.
Qed.
End Fuel.

(** ** Properties *)

Section DataPartProperties.
Context `{JsonText} (multipart_decode : string -> string -> list mp_event).

Lemma decodeContent_json fuel dp d :
  decodeContent multipart_decode fuel dp d "application/json" = Val (set_is_json true dp, Some (parseJsonContent d).2).
Proof. by destruct fuel. Qed.

Lemma json_set_ex_ok k v j : is_object j || is_null j = true -> json_set_ex k v j = Val (json_set k v j).
Proof. unfold json_set_ex. by intros ->. Qed.

(** The data of a part whose entry can be written. *)
Lemma receiveData_ok dec dp' content d c :
  dec (mp_part c) d (mp_content_type c) = Val (dp', content) ->
  is_object (json_sub (mp_name c) (dp_json_ dp')) || is_null (json_sub (mp_name c) (dp_json_ dp')) = true ->
  is_object (dp_json_ dp') = true ->
  receiveData dec d c =
  Val {| mp_content_type := mp_content_type c; mp_count := mp_count c + 1;
         mp_part := set_json (json_set (mp_name c)
                                (json_set "content" (default JNull content) (json_sub (mp_name c) (dp_json_ dp')))
                                (dp_json_ dp')) dp' |}.
Proof.
  intros Hd Hs Ho. unfold receiveData. rewrite Hd. cbn [obind]. rewrite json_set_ex_ok by done. cbn [obind].
  rewrite json_set_ex_ok by (by rewrite Ho). done.
Qed.

(** Two parts, the second one without headers. *)
Lemma consume_same_type dec (view : string -> json) dp d1 d2 :
  (forall dp d, dec dp d "application/json" = Val (set_is_json true dp, Some (view d))) -> dp_json_ dp = JNull ->
  exists c, consume dec [MPHeader "content-type" "application/json"; MPData d1; MPData d2]
              {| mp_content_type := ""; mp_count := 1; mp_part := dp |} = Val c /\
    json_find "content" (json_sub "multipart.2" (dp_json_ (mp_part c))) = Some (view d2).
Proof.
  intros Hdec Hj. cbn [consume]. destruct dp as [s d ij j]. cbn in Hj. subst j.
  assert (receiveHeader "content-type" "application/json"
            {| mp_content_type := ""; mp_count := 1; mp_part := mkDataPart s d ij JNull |} =
          Val {| mp_content_type := "application/json"; mp_count := 1;
                 mp_part := mkDataPart s d ij (JObject [("multipart.1", JObject [("headers",
                   JObject [("content-type", JString "application/json")])])]) |}) as -> by done.
  cbn [obind]. erewrite receiveData_ok; [|apply Hdec|done|done]. cbn [obind].
  erewrite receiveData_ok; [|apply Hdec|done|done]. cbn [obind]. eexists. split; [done|].
  by vm_compute.
Qed.

(** Decoding a body that is not multipart always succeeds, keeps the raw bytes,
    and gives by content type: the parsed document or the text of the parse error
    (flagged as JSON either way), the text itself, or, for any other type, the body
    when printable and otherwise a hexadecimal text that decodes back to it. *)
Theorem decode_by_content_type (headers : header_map) (dp : DataPart)
  (Hd : decoded_ dp = false) (Hs : str_ dp <> "") :
  let ct := default "" (headers_find "content-type" headers) in
  (ct = "application/json" ->
     decode multipart_decode headers dp =
     Val (mkDataPart (str_ dp) true true
            (match json_parse (str_ dp) with
             | Some j => j
             | None => JString (json_parse_error (str_ dp))
             end))) /\
  (starts_with "text/" ct = true ->
     decode multipart_decode headers dp = Val (mkDataPart (str_ dp) true (is_json_ dp) (JString (str_ dp)))) /\
  (ct <> "application/json" -> starts_with "text/" ct = false -> starts_with "multipart/" ct = false ->
     exists t, decode multipart_decode headers dp = Val (mkDataPart (str_ dp) true (is_json_ dp) (JString t)) /\
       (t = str_ dp /\ forallb isprint (chars (str_ dp)) = true \/
        fromHexString t "" = (true, str_ dp))).
Proof.
  cbn zeta. unfold decode. rewrite Hd. apply sempty_false in Hs as ->.
  generalize (default "" (headers_find "content-type" headers)). intros ct. cbn [decodeContent].
  split_and!.
  - intros ->. rewrite decide_True by done. unfold parseJsonContent. by destruct (json_parse (str_ dp)).
  - intros Ht. rewrite decide_False by (by intros ->). by rewrite Ht.
  - intros H1 H2 H3. rewrite decide_False, H2, H3 by done.
    pose proof (hex_inverse (str_ dp) "") as Hx. pose proof (asHexString_eq (str_ dp)) as Hp.
    destruct (asHexString (str_ dp)) as [[] out]; cbn [fst snd] in *; simplify_eq;
      eexists; (split; [done|]); auto.
Qed.

(** Nested multipart bodies are decoded to the bottom: since every part is
    shorter than its body, a larger budget than the one [decode] takes gives the same
    result. *)
Theorem decode_reaches_every_part (headers : header_map) (dp : DataPart) (extra : nat)
  (Hsh : parts_shorter multipart_decode) (Hd : decoded_ dp = false) (Hs : str_ dp <> "") :
  decode multipart_decode headers dp =
  let! '(dp', assigned) := decodeContent multipart_decode (S (String.length (str_ dp)) + extra) dp (str_ dp)
                             (default "" (headers_find "content-type" headers)) in
  Val (set_decoded (match assigned with Some j => set_json j dp' | None => dp' end)).
Proof.
  unfold decode. rewrite Hd. apply sempty_false in Hs as ->.
  by rewrite (decodeContent_fuel multipart_decode Hsh _ (S (String.length (str_ dp)) + extra)) by lia.
Qed.

(** Decoding runs once: it keeps the raw bytes, marks the part as decoded, and a
    second call, whatever its headers, changes nothing. *)
Theorem decode_is_lazy_and_stable (h h' : header_map) (dp dp' : DataPart)
  (Hv : decode multipart_decode h dp = Val dp') :
  str_ dp' = str_ dp /\ decoded_ dp' = true /\ decode multipart_decode h' dp' = Val dp'.
Proof. by apply decode_once with h. Qed.

(** The content type of a part is not forgotten at the end of the part: a part
    without headers is decoded with the type of the part before it. *)
Theorem multipart_type_leaks_to_next_part (boundary content d1 d2 : string)
  (Hb : boundary <> "") (Hc : content <> "")
  (Hscan : multipart_decode boundary content =
           [MPHeader "content-type" "application/json"; MPData d1; MPData d2]) :
  exists dp, decode multipart_decode [("content-type", "multipart/related; boundary=" +:+ boundary)] (DataPart_of content)
               = Val dp /\
    json_find "content" (json_sub "multipart.2" (dp_json_ dp)) = Some (parseJsonContent d2).2.
Proof.
  unfold decode. cbn [decoded_ DataPart_of str_]. apply sempty_false in Hc as ->.
  cbn [headers_find]. rewrite decide_True by done. change (default "" (Some ?x)) with x.
  cbn [decodeContent]. rewrite decide_False by done.
  change (starts_with "text/" ("multipart/related; boundary=" +:+ boundary)) with false.
  change (starts_with "multipart/" ("multipart/related; boundary=" +:+ boundary)) with true.
  assert (find_sub "boundary=" ("multipart/related; boundary=" +:+ boundary) = Some 19) as ->.
  { cbn -[starts_with]. by destruct boundary. }
  change (sdrop (19 + 9) ("multipart/related; boundary=" +:+ boundary)) with boundary.
  apply sempty_false in Hb as ->. cbn zeta iota. rewrite Hscan.
  destruct (consume_same_type (decodeContent multipart_decode (String.length content)) (fun d => (parseJsonContent d).2)
              (set_is_json true (DataPart_of content)) d1 d2) as (c & -> & Hc'); [apply decodeContent_json|done|].
  by eexists.
Qed.
End DataPartProperties.

Module DataPartExamples.

(** A scanner with one part per body: what follows the first two characters. *)
Definition scan0 (boundary content : string) : list mp_event :=
  match content with
  | String _ (String _ d) => [MPHeader "content-type" "text/plain"; MPData d]
  | _ => []
  end.

Lemma decode_by_content_type_witness :
  decode scan0 [("content-type", "application/json")] (DataPart_of "12") = Val (mkDataPart "12" true true (JUint 12)).
Proof.
  destruct (decode_by_content_type scan0 [("content-type", "application/json")] (DataPart_of "12")) as [H1 _];
    [done|done|]. exact (H1 eq_refl).
Defined.

Lemma decode_reaches_every_part_witness :
  parts_shorter scan0 /\
  exists r, decode scan0 [("content-type", "multipart/x; boundary=b")] (DataPart_of "--ab") = r /\ r <> Throw json_exception.
Proof.
  assert (parts_shorter scan0) as Hsh.
  { intros b [|c1 [|c2 s]] d Hin; cbn in *; try (by apply not_elem_of_nil in Hin).
    assert (d = s) as -> by set_solver. lia. }
  split; [exact Hsh|]. eexists. split.
  - apply (decode_reaches_every_part scan0 [("content-type", "multipart/x; boundary=b")] (DataPart_of "--ab") 3 Hsh); done.
  - vm_compute. discriminate.
Defined.

Lemma decode_is_lazy_and_stable_witness :
  decode scan0 [("content-type", "text/plain")] (mkDataPart "12" true true (JUint 12)) = Val (mkDataPart "12" true true (JUint 12)).
Proof.
  destruct (decode_is_lazy_and_stable scan0 [("content-type", "application/json")] [("content-type", "text/plain")]
              (DataPart_of "12") (mkDataPart "12" true true (JUint 12))) as (_ & _ & H1); [vm_compute; reflexivity|exact H1].
Defined.

Definition scan1 (boundary content : string) : list mp_event :=
  [MPHeader "content-type" "application/json"; MPData "1"; MPData "hello"].

Lemma multipart_type_leaks_to_next_part_witness :
  exists dp, decode scan1 [("content-type", "multipart/related; boundary=" +:+ "b")] (DataPart_of "..") = Val dp /\
    json_find "content" (json_sub "multipart.2" (dp_json_ dp)) = Some (JString "parse error").
Proof.
  assert ((parseJsonContent "hello").2 = JString "parse error") as <- by (vm_compute; reflexivity).
  apply (multipart_type_leaks_to_next_part scan1 "b" ".." "1" "hello"); done.
Defined.

End DataPartExamples.
