(* ===== verification/MockEvents.v ===== *)
(** Events and their histories: [MockEvent], [MockServerEvent],
    [MockClientEvent] and [MockEventsHistory] with its server and client
    versions ([src/model/Mock*Event*.cpp]).  Events are shared objects
    ([std::shared_ptr]): a history holds locations in an append-only heap. *)
From S2P Require Import Prelude Std Functions Json Keys DataPart.
From stdpp Require Import options.
#[local] Open Scope Z_scope.

(** ** [MockEvent] *)

Record MockEvent := mkMockEvent {
  previous_state_ : string;
  state_ : string;
  reception_timestamp_us_ : Z;
  response_status_code_ : Z;
  request_headers_ : header_map;
  response_headers_ : header_map;
  json_ : json
}.

Definition MockEvent_empty : MockEvent :=
  {| previous_state_ := ""; state_ := ""; reception_timestamp_us_ := 0; response_status_code_ := 0;
     request_headers_ := []; response_headers_ := []; json_ := JNull |}.

(** [hdrs[k] = v.value] over a header map. *)
Definition headersJson (h : header_map) : json :=
  foldl (fun hdrs '(k, v) => json_set k (JString v) hdrs) JNull h.

Definition set_if (b : bool) (k : string) (v : json) (j : json) : json :=
  if b then json_set k v j else j.

(** [MockEvent::load] on the event [e]. *)
Definition MockEvent_load (previousState state : string) (receptionTimestampUs responseStatusCode : Z)
    (requestHeaders responseHeaders : header_map) (e : MockEvent) : MockEvent :=
  let ts := to_u64 receptionTimestampUs in
  let code := to_u32 responseStatusCode in
  let j := set_if (negb (sempty previousState)) "previousState" (JString previousState) (json_ e) in
  let j := set_if (negb (sempty state)) "state" (JString state) j in
  let j := json_set "receptionTimestampUs" (JUint ts) j in
  let j := json_set "responseStatusCode" (JInt (to_i32 code)) j in
  let j := set_if (negb (bool_decide (requestHeaders = []))) "requestHeaders" (headersJson requestHeaders) j in
  let j := set_if (negb (bool_decide (responseHeaders = []))) "responseHeaders" (headersJson responseHeaders) j in
  {| previous_state_ := previousState; state_ := state; reception_timestamp_us_ := ts;
     response_status_code_ := code; request_headers_ := requestHeaders;
     response_headers_ := responseHeaders; json_ := j |}.

Definition with_json (j : json) (e : MockEvent) : MockEvent :=
  {| previous_state_ := previous_state_ e; state_ := state_ e;
     reception_timestamp_us_ := reception_timestamp_us_ e;
     response_status_code_ := response_status_code_ e; request_headers_ := request_headers_ e;
     response_headers_ := response_headers_ e; json_ := j |}.

(** [getJson(path)]: the whole document, or the node at a JSON pointer. *)
Definition MockEvent_getJson `{JsonPointer} (path : string) (e : MockEvent) : outcome json :=
  if sempty path then Val (json_ e) else json_at path (json_ e).

(** ** [MockServerEvent] *)

Record MockServerEvent := mkMockServerEvent {
  se_base : MockEvent;
  request_body_ : json;
  response_body_data_part_ : DataPart;
  recv_seq_ : Z;
  response_delay_ms_ : Z;
  virtual_origin_coming_from_method_ : string;
  virtual_origin_coming_from_uri_ : string;
  se_sending_timestamp_us_ : Z
}.

(** ** [MockClientEvent] *)

Record MockClientEvent := mkMockClientEvent {
  ce_base : MockEvent;
  client_provision_id_ : string;
  ce_sending_timestamp_us_ : Z;
  request_body_data_part_ : DataPart;
  response_body_ : json;
  send_seq_ : Z;
  sequence_ : Z;
  request_delay_ms_ : Z;
  timeout_ms_ : Z
}.

Section Load.
Context `{JsonText} (multipart_decode : string -> string -> list mp_event).

(** [MockServerEvent::load] on a new event; the request body is decoded in
    place, so the part after the call is returned too. *)
Definition MockServerEvent_load (previousState state : string) (receptionTimestampUs responseStatusCode : Z)
    (requestHeaders responseHeaders : header_map) (requestBodyDataPart : DataPart)
    (responseBody : string) (recvSeq responseDelayMs : Z)
    (virtualOriginComingFromMethod virtualOriginComingFromUri : string)
    : outcome (MockServerEvent * DataPart) :=
  let base := MockEvent_load previousState state receptionTimestampUs responseStatusCode
                requestHeaders responseHeaders MockEvent_empty in
  let! reqPart := decode multipart_decode requestHeaders requestBodyDataPart in
  let! resPart := decode multipart_decode responseHeaders (assign responseBody DataPart_empty) in
  let request_body := dp_json_ reqPart in
  let j := set_if (negb (json_empty request_body)) "requestBody" request_body (json_ base) in
  let j := set_if (negb (sempty (str_ resPart))) "responseBody" (dp_json_ resPart) j in
  let j := json_set "recvseq" (JUint recvSeq) j in
  let j := json_set "responseDelayMs" (JUint responseDelayMs) j in
  let j := set_if (negb (sempty virtualOriginComingFromMethod)) "virtualOrigin"
             (json_set "uri" (JString virtualOriginComingFromUri)
                (json_set "method" (JString virtualOriginComingFromMethod) JNull)) j in
  Val ({| se_base := with_json j base; request_body_ := request_body;
          response_body_data_part_ := resPart; recv_seq_ := recvSeq;
          response_delay_ms_ := responseDelayMs;
          virtual_origin_coming_from_method_ := virtualOriginComingFromMethod;
          virtual_origin_coming_from_uri_ := virtualOriginComingFromUri;
          se_sending_timestamp_us_ := 0 |}, reqPart).

(** [MockClientEvent::load] on a new event. *)
Definition MockClientEvent_load (clientProvisionId previousState state : string)
    (sendingTimestampUs receptionTimestampUs responseStatusCode : Z)
    (requestHeaders responseHeaders : header_map) (requestBody : string)
    (responseBodyDataPart : DataPart) (sendSeq sequence requestDelayMs timeoutMs : Z)
    : outcome (MockClientEvent * DataPart) :=
  let base := MockEvent_load previousState state receptionTimestampUs responseStatusCode
                requestHeaders responseHeaders MockEvent_empty in
  let! reqPart := decode multipart_decode requestHeaders (assign requestBody DataPart_empty) in
  let! resPart := decode multipart_decode responseHeaders responseBodyDataPart in
  let ts := to_u64 sendingTimestampUs in
  let j := json_set "clientProvisionId" (JString clientProvisionId) (json_ base) in
  let j := json_set "sendingTimestampUs" (JUint ts) j in
  let j := set_if (negb (sempty (str_ reqPart))) "requestBody" (dp_json_ reqPart) j in
  let j := set_if (negb (json_empty (dp_json_ resPart))) "responseBody" (dp_json_ resPart) j in
  let j := json_set "sendseq" (JUint sendSeq) j in
  let j := json_set "sequence" (JInt sequence) j in
  let j := json_set "requestDelayMs" (JUint requestDelayMs) j in
  let j := json_set "timeoutMs" (JUint timeoutMs) j in
  Val ({| ce_base := with_json j base; client_provision_id_ := clientProvisionId;
          ce_sending_timestamp_us_ := ts; request_body_data_part_ := reqPart;
          response_body_ := dp_json_ resPart; send_seq_ := sendSeq; sequence_ := sequence;
          request_delay_ms_ := requestDelayMs; timeout_ms_ := timeoutMs |}, resPart).
End Load.

(** [setSendingTimestampUs]: the event and its document. *)
Definition setSendingTimestampUs (sendingTimestampUs : Z) (e : MockServerEvent) : MockServerEvent :=
  let ts := to_u64 sendingTimestampUs in
  {| se_base := with_json (json_set "sendingTimestampUs" (JUint ts) (json_ (se_base e))) (se_base e);
     request_body_ := request_body_ e; response_body_data_part_ := response_body_data_part_ e;
     recv_seq_ := recv_seq_ e; response_delay_ms_ := response_delay_ms_ e;
     virtual_origin_coming_from_method_ := virtual_origin_coming_from_method_ e;
     virtual_origin_coming_from_uri_ := virtual_origin_coming_from_uri_ e;
     se_sending_timestamp_us_ := ts |}.

(** ** [MockEventsHistory] *)

(** What a history asks of its events, and the sequence number a derived class
    searches by ([getRecvSeq] or [getSendSeq]). *)
Class EventType (E : Type) := {
  ev_base : E -> MockEvent;
  ev_seq : E -> Z
}.
#[global] Instance server_event : EventType MockServerEvent := {| ev_base := se_base; ev_seq := recv_seq_ |}.
#[global] Instance client_event : EventType MockClientEvent := {| ev_base := ce_base; ev_seq := send_seq_ |}.

Definition getState `{EventType E} (e : E) : string := state_ (ev_base e).

(** [std::vector<std::shared_ptr<MockEvent>>]: locations of events. *)
Abbreviation loc := nat (only parsing).

Record MockEventsHistory := mkHistory {
  events_ : list loc;
  data_key_ : DataKey;
  chain_variables_ : gmap string string
}.

Definition MockEventsHistory_new (dataKey : DataKey) : MockEventsHistory :=
  {| events_ := []; data_key_ := dataKey; chain_variables_ := ∅ |}.

Definition with_events (l : list loc) (h : MockEventsHistory) : MockEventsHistory :=
  {| events_ := l; data_key_ := data_key_ h; chain_variables_ := chain_variables_ h |}.

Definition history_size (h : MockEventsHistory) : Z := Z.of_nat (length (events_ h)).

(** [loadEvent(event, historyEnabled)] *)
Definition history_loadEvent (event : loc) (historyEnabled : bool) (h : MockEventsHistory) : MockEventsHistory :=
  if negb historyEnabled && negb (history_size h =? 0)
  then with_events (<[0%nat := event]> (events_ h)) h
  else with_events (events_ h ++ [event]) h.

(** Position of event number [eventNumber], from the head or from the tail. *)
Definition event_index (size eventNumber : Z) (reverse : bool) : nat :=
  Z.to_nat (if reverse then size - eventNumber else eventNumber - 1).

Definition removeEvent (eventNumber : Z) (reverse : bool) (h : MockEventsHistory) : bool * MockEventsHistory :=
  if (history_size h =? 0) || (eventNumber =? 0) then (false, h)
  else if history_size h <? eventNumber then (false, h)
  else (true, with_events (delete (event_index (history_size h) eventNumber reverse) (events_ h)) h).

Definition history_getEvent (eventNumber : Z) (reverse : bool) (h : MockEventsHistory) : option loc :=
  if history_size h =? 0 then None
  else if eventNumber =? 0 then None
  else if history_size h <? eventNumber then None
  else events_ h !! event_index (history_size h) eventNumber reverse.

Definition setChainVariables (vars : gmap string string) (h : MockEventsHistory) : MockEventsHistory :=
  {| events_ := events_ h; data_key_ := data_key_ h; chain_variables_ := vars |}.

Section Heap.
Context `{EventType E}.

(** [getJson()]: the key and the events; the library creates the array on the
    first [push_back]. *)
Definition history_getJson (heap : list E) (h : MockEventsHistory) : json :=
  let result := keyToJson (data_key_ h) JNull in
  let evs := (fun l => json_ (ev_base l)) <$> omap (fun l => heap !! l) (events_ h) in
  match evs with [] => result | _ => json_set "events" (JArray evs) result end.

(** [events_.back()->getState()]; [None] on an empty history, where [back] is
    undefined. *)
Definition getLastRegisteredRequestState (heap : list E) (h : MockEventsHistory) : option string :=
  last (events_ h) ≫= fun l => getState <$> heap !! l.

(** First event with the sequence number: its index and location. *)
Fixpoint find_by_seq (heap : list E) (seq : Z) (l : list loc) : option (nat * loc) :=
  match l with
  | [] => None
  | x :: l' =>
      if match heap !! x with Some e => ev_seq e =? seq | None => false end
      then Some (0%nat, x)
      else (fun '(i, y) => (S i, y)) <$> find_by_seq heap seq l'
  end.

(** [removeEventByRecvSeq] and [removeEventBySendSeq] *)
Definition removeEventBySeq (heap : list E) (seq : Z) (h : MockEventsHistory) : bool * MockEventsHistory :=
  match find_by_seq heap seq (events_ h) with
  | Some (i, _) => (true, with_events (delete i (events_ h)) h)
  | None => (false, h)
  end.

(** [getEventByRecvSeq] and [getEventBySendSeq] *)
Definition getEventBySeq (heap : list E) (seq : Z) (h : MockEventsHistory) : option loc :=
  snd <$> find_by_seq heap seq (events_ h).
End Heap.

(** ** Lemmas *)

Lemma history_loadEvent_nonempty e b h : events_ (history_loadEvent e b h) <> [].
Proof.
  unfold history_loadEvent, history_size. destruct (events_ h) as [|x l] eqn:E; destruct b; cbn;
    rewrite ?E; try done; by destruct l.
Qed.

Lemma history_loadEvent_key e b h : data_key_ (history_loadEvent e b h) = data_key_ h.
Proof. unfold history_loadEvent. by case_match. Qed.

Lemma removeEvent_key n r h : data_key_ (removeEvent n r h).2 = data_key_ h.
Proof. unfold removeEvent. by repeat case_match. Qed.

(** With the history enabled, or with at most one event, the loaded event is the
    last one. *)
Lemma history_loadEvent_last e b h :
  b = true \/ (length (events_ h) <= 1)%nat -> last (events_ (history_loadEvent e b h)) = Some e.
Proof.
  unfold history_loadEvent, history_size. intros Hb.
  destruct (events_ h) as [|x [|y l]] eqn:E; destruct b; cbn -[app]; rewrite ?last_snoc; try done.
  - destruct Hb as [|Hb]; [done|]. cbn in Hb. lia.
Qed.

Lemma in_range_index size n r :
  n <> 0 -> 0 <= n -> n <= size -> (event_index size n r < Z.to_nat size)%nat.
Proof. intros. unfold event_index. destruct r; lia. Qed.

Lemma history_getEvent_spec n r h :
  0 <= n ->
  history_getEvent n r h =
  if (1 <=? n) && (n <=? history_size h) then events_ h !! event_index (history_size h) n r else None.
Proof.
  intros Hn. unfold history_getEvent. unfold history_size in *.
  repeat case_match; try done; lia.
Qed.

(** [getEvent(1, true)] is the back of the history. *)
Lemma history_getEvent_last h : history_getEvent 1 true h = last (events_ h).
Proof.
  rewrite history_getEvent_spec by lia. unfold history_size, event_index.
  destruct (events_ h) as [|x l]; [done|]. rewrite last_lookup, length_cons.
  assert ((1 <=? 1) && (1 <=? Z.of_nat (S (length l))) = true) as ->.
  { apply andb_true_iff. split; [done|]. apply Z.leb_le. lia. }
  f_equal. lia.
Qed.
