(* ===== verification/MockData.v ===== *)
(** [src/model/MockData.cpp] with [MockServerData] and [MockClientData]: the map
    from data keys to histories ([src/model/Map.hpp] is a [gmap] here; what
    runs under one of its locks is one step), its operations, the
    invariant that no key is left without history, and the refinement of the
    stored events by plain lists of event values. *)
From S2P Require Import Prelude Std Functions Json JsonModel Keys DataPart MockEvents.
From stdpp Require Import options.
#[local] Open Scope Z_scope.

Definition DEFAULT_ADMIN_PROVISION_STATE : string := "initial".

Section Data.
Context `{EventType E}.

(** The map, the heap of events, and [last_loaded_event_] of the server data. *)
Record MockData := mkMockData {
  map_ : gmap string MockEventsHistory;
  heap_ : list E;
  last_loaded_event_ : option loc
}.

Definition MockData_empty : MockData := {| map_ := ∅; heap_ := []; last_loaded_event_ := None |}.

Definition with_map (m : gmap string MockEventsHistory) (d : MockData) : MockData :=
  {| map_ := m; heap_ := heap_ d; last_loaded_event_ := last_loaded_event_ d |}.

(** [getEvents(dataKey, maiden)] *)
Definition getEvents (dataKey : DataKey) (d : MockData) : MockEventsHistory * bool :=
  match map_ d !! key_ dataKey with
  | Some h => (h, false)
  | None => (MockEventsHistory_new dataKey, true)
  end.

(** [loadEvent] of the server data, for an event already built by
    [MockServerEvent::load]: it is allocated, pushed in the history of its key
    (the shared history of a known key is updated in place, a new one is added
    to the map) and remembered as the last one loaded. *)
Definition data_loadEvent (dataKey : DataKey) (event : E) (historyEnabled : bool) (d : MockData) : MockData :=
  let '(events, maiden) := getEvents dataKey d in
  let l := length (heap_ d) in
  let events := history_loadEvent l historyEnabled events in
  {| map_ := <[key_ dataKey := events]> (map_ d);
     heap_ := heap_ d ++ [event];
     last_loaded_event_ := history_getEvent 1 true events |}.

(** [clear(somethingDeleted, ekey)]: result, [somethingDeleted], data. *)
Definition clear (ekey : EventKey) (d : MockData) : bool * bool * MockData :=
  if ek_empty ekey then (true, negb (bool_decide (map_ d = ∅)), with_map ∅ d)
  else if negb (ek_checkSelection ekey) then (false, false, d)
  else
    let key := key_ (ek_data ekey) in
    match map_ d !! key with
    | None => (true, false, d)
    | Some value =>
        if hasNumber ekey then
          if negb (validNumber ekey) then (false, false, d)
          else
            let '(deleted, value) := removeEvent (u_number_ ekey) (reverse_ ekey) value in
            (true, deleted,
             with_map (if history_size value =? 0 then delete key (map_ d) else <[key := value]> (map_ d)) d)
        else (true, true, with_map (delete key (map_ d)) d)
    end.

(** [getEvent(ekey)] *)
Definition data_getEvent (ekey : EventKey) (d : MockData) : option loc :=
  if negb (ek_complete ekey) then None
  else match map_ d !! key_ (ek_data ekey) with
       | None => None
       | Some h => if negb (validNumber ekey) then None
                   else history_getEvent (u_number_ ekey) (reverse_ ekey) h
       end.

(** [getJson()]: one document per key, in the iteration order of the map. *)
Definition data_getJson (d : MockData) : json :=
  match map_to_list (map_ d) with
  | [] => JNull
  | l => JArray (history_getJson (heap_ d) <$> l.*2)
  end.

(** [asJsonString(elkey, validQuery)] *)
Definition asJsonString `{JsonText} `{JsonPointer} (elkey : EventLocationKey) (d : MockData)
    : outcome string * bool :=
  if elk_empty elkey then
    (if bool_decide (map_ d = ∅) then Val "[]" else json_dump (data_getJson d), true)
  else if negb (elk_checkSelection elkey) then (Val "[]", false)
  else
    let ekey := elk_event elkey in
    match map_ d !! key_ (ek_data ekey) with
    | None => (Val "[]", true)
    | Some h =>
        if hasNumber ekey then
          if negb (validNumber ekey) then (Val "[]", false)
          else match history_getEvent (u_number_ ekey) (reverse_ ekey) h ≫= fun l => heap_ d !! l with
               | Some e => (let! j := MockEvent_getJson (path_ elkey) (ev_base e) in json_dump j, true)
               | None => (Val "[]", true)
               end
        else (json_dump (history_getJson (heap_ d) h), true)
    end.

(** [findLastRegisteredRequestState(key, state, chainVariables)]: found, state,
    variables.  [None] is the undefined [back()] of an empty history. *)
Definition findLastRegisteredRequestState (key : DataKey) (d : MockData)
    : option (bool * string * gmap string string) :=
  match map_ d !! key_ key with
  | Some h =>
      state ← getLastRegisteredRequestState (heap_ d) h;
      Some (if sempty state then (true, DEFAULT_ADMIN_PROVISION_STATE, ∅)
            else (true, state, chain_variables_ h))
  | None => Some (false, DEFAULT_ADMIN_PROVISION_STATE, ∅)
  end.

Definition storeChainVariables (key : DataKey) (chainVariables : gmap string string) (d : MockData) : MockData :=
  match map_ d !! key_ key with
  | Some h => with_map (<[key_ key := setChainVariables chainVariables h]> (map_ d)) d
  | None => d
  end.

(** [removeEventByRecvSeq] / [removeEventBySendSeq] *)
Definition data_removeEventBySeq (dataKey : DataKey) (seq : Z) (d : MockData) : bool * MockData :=
  match map_ d !! key_ dataKey with
  | None => (false, d)
  | Some h =>
      let '(deleted, h') := removeEventBySeq (heap_ d) seq h in
      if deleted && (history_size h' =? 0) then (deleted, with_map (delete (key_ dataKey) (map_ d)) d)
      else (deleted, with_map (<[key_ dataKey := h']> (map_ d)) d)
  end.

(** [getEventByRecvSeq] / [getEventBySendSeq] *)
Definition data_getEventBySeq (dataKey : DataKey) (seq : Z) (d : MockData) : option loc :=
  match map_ d !! key_ dataKey with
  | None => None
  | Some h => getEventBySeq (heap_ d) seq h
  end.

(** An update of a shared event through a pointer to it. *)
Definition update_event (l : loc) (f : E -> E) (d : MockData) : MockData :=
  {| map_ := map_ d; heap_ := alter f l (heap_ d); last_loaded_event_ := last_loaded_event_ d |}.

(** ** Steps and invariant *)

(** Everything the server and the administration interface do to the data. *)
Inductive data_step : MockData -> MockData -> Prop :=
| step_load k e b d : wf_key k -> data_step d (data_loadEvent k e b d)
| step_clear ek d : data_step d (clear ek d).2
| step_chain k vars d : data_step d (storeChainVariables k vars d)
| step_remove k seq d : data_step d (data_removeEventBySeq k seq d).2
| step_update l f d : data_step d (update_event l f d).

Definition reachable : MockData -> Prop := rtc data_step MockData_empty.

(** No key without history, no dangling event, every history under its own key. *)
Definition history_ok (heap : list E) (k : string) (h : MockEventsHistory) : Prop :=
  events_ h <> [] /\ Forall (fun l => (l < length heap)%nat) (events_ h) /\ key_ (data_key_ h) = k.

Definition data_inv (d : MockData) : Prop := map_Forall (history_ok (heap_ d)) (map_ d).

Lemma history_ok_mono heap heap' k h :
  (length heap <= length heap')%nat -> history_ok heap k h -> history_ok heap' k h.
Proof.
  intros Hl (Hne & Hf & Hk). split_and!; [done| |done]. eapply Forall_impl; [exact Hf|]. cbn. lia.
Qed.

Lemma history_load_ok heap k h e b :
  (h = MockEventsHistory_new (data_key_ h) \/ history_ok heap k h) -> key_ (data_key_ h) = k ->
  history_ok (heap ++ [e]) k (history_loadEvent (length heap) b h).
Proof.
  intros Hh Hk. split_and!.
  - apply history_loadEvent_nonempty.
  - assert (Forall (fun l => (l < length (heap ++ [e]))%nat) (events_ h)) as Hf.
    { destruct Hh as [-> | (_ & Hf & _)]; [constructor|].
      eapply Forall_impl; [exact Hf|]. cbn. rewrite length_app. cbn. lia. }
    unfold history_loadEvent. case_match; cbn.
    + apply Forall_insert; [done|]. rewrite length_app. cbn. lia.
    + apply Forall_app. split; [done|]. repeat constructor. rewrite length_app. cbn. lia.
  - by rewrite history_loadEvent_key.
Qed.

Lemma data_inv_load k e b d : wf_key k -> data_inv d -> data_inv (data_loadEvent k e b d).
Proof.
  intros Hk Hd. unfold data_loadEvent, getEvents. destruct (map_ d !! key_ k) as [h|] eqn:Hh; cbn.
  - apply map_Forall_insert_2.
    + apply history_load_ok; [right; by apply Hd|]. by apply Hd in Hh as (_ & _ & ?).
    + eapply map_Forall_impl; [exact Hd|]. intros. eapply history_ok_mono; [|done].
      cbn. rewrite length_app. lia.
  - apply map_Forall_insert_2.
    + apply history_load_ok; [by left|done].
    + eapply map_Forall_impl; [exact Hd|]. intros. eapply history_ok_mono; [|done].
      cbn. rewrite length_app. lia.
Qed.

(** Removing one event keeps a history whole unless it was the last one. *)
Lemma history_ok_delete heap k h i :
  history_ok heap k h -> length (delete i (events_ h)) <> 0%nat ->
  history_ok heap k (with_events (delete i (events_ h)) h).
Proof.
  intros (Hne & Hf & Hk) Hl. split_and!; cbn; [by destruct (delete i _)| |done].
  by apply Forall_delete.
Qed.

Lemma data_inv_clear ek d : data_inv d -> data_inv (clear ek d).2.
Proof.
  intros Hd. unfold clear. destruct (ek_empty ek); [apply map_Forall_empty|].
  destruct (negb _); [done|]. destruct (map_ d !! key_ (ek_data ek)) as [h|] eqn:Hh; [|done].
  destruct (hasNumber ek); [|by apply map_Forall_delete].
  destruct (negb _); [done|]. unfold removeEvent. repeat case_match; simplify_eq/=;
    try (by apply map_Forall_delete); (apply map_Forall_insert_2; [|done]); try by apply Hd.
  apply history_ok_delete; [by apply Hd|]. unfold history_size in *. cbn in *. lia.
Qed.

Lemma find_by_seq_Some heap seq l i x :
  find_by_seq heap seq l = Some (i, x) ->
  l !! i = Some x /\ exists e, heap !! x = Some e /\ ev_seq e = seq.
Proof.
  revert i. induction l as [|y l IH]; intros i; cbn; [done|].
  destruct (heap !! y) as [e|] eqn:Hy.
  - destruct (Z.eqb_spec (ev_seq e) seq).
    + intros [= <- <-]. split; [done|]. by exists e.
    + destruct (find_by_seq heap seq l) as [[j z]|]; cbn; [|done]. intros [= <- <-]. by apply IH.
  - destruct (find_by_seq heap seq l) as [[j z]|]; cbn; [|done]. intros [= <- <-]. by apply IH.
Qed.

Lemma data_inv_remove k seq d : data_inv d -> data_inv (data_removeEventBySeq k seq d).2.
Proof.
  intros Hd. unfold data_removeEventBySeq, removeEventBySeq.
  destruct (map_ d !! key_ k) as [h|] eqn:Hh; [|done].
  destruct (find_by_seq _ _ _) as [[i x]|]; cbn.
  - case_match; cbn; [by apply map_Forall_delete|]. apply map_Forall_insert_2; [|done].
    apply history_ok_delete; [by apply Hd|]. unfold history_size in *. cbn in *. lia.
  - apply map_Forall_insert_2; [|done]. by apply Hd.
Qed.

Lemma data_inv_update l f d : data_inv d -> data_inv (update_event l f d).
Proof.
  intros Hd. eapply map_Forall_impl; [exact Hd|]. intros. eapply history_ok_mono; [|done].
  cbn. by rewrite length_alter.
Qed.

Lemma data_inv_chain k vars d : data_inv d -> data_inv (storeChainVariables k vars d).
Proof.
  intros Hd. unfold storeChainVariables. destruct (map_ d !! key_ k) as [h|] eqn:Hh; [|done].
  apply map_Forall_insert_2; [|done]. by apply Hd in Hh.
Qed.

Lemma data_inv_step d d' : data_step d d' -> data_inv d -> data_inv d'.
Proof.
  destruct 1; auto using data_inv_load, data_inv_clear, data_inv_remove, data_inv_update, data_inv_chain.
Qed.

Lemma reachable_inv d : reachable d -> data_inv d.
Proof.
  unfold reachable. generalize (map_Forall_empty (history_ok (@nil E)) : data_inv MockData_empty).
  intros H0 Hr. revert H0. induction Hr; [done|]. intros. apply IHHr. by eapply data_inv_step.
Qed.

(** A whole history always has a last registered state. *)
Lemma last_state_defined heap k h :
  history_ok heap k h -> exists s, getLastRegisteredRequestState heap h = Some s.
Proof.
  intros (Hne & Hf & _). unfold getLastRegisteredRequestState.
  destruct (last (events_ h)) as [l|] eqn:Hl; [|by apply last_None in Hl].
  apply last_Some_elem_of in Hl. rewrite Forall_forall in Hf. specialize (Hf _ Hl).
  apply lookup_lt_is_Some_2 in Hf as [e He]. exists (getState e). cbn. by rewrite He.
Qed.

(** ** Abstract view: the events of a key as a list of values *)

Definition deref (heap : list E) (l : list loc) : list E := omap (fun x => heap !! x) l.

Definition events_of (d : MockData) (k : string) : list E :=
  match map_ d !! k with Some h => deref (heap_ d) (events_ h) | None => [] end.

Lemma deref_app heap l1 l2 : deref heap (l1 ++ l2) = deref heap l1 ++ deref heap l2.
Proof. apply omap_app. Qed.

Lemma deref_single heap x e : heap !! x = Some e -> deref heap [x] = [e].
Proof. unfold deref. cbn. by intros ->. Qed.

Lemma deref_snoc heap e l :
  Forall (fun x => (x < length heap)%nat) l -> deref (heap ++ [e]) l = deref heap l.
Proof.
  unfold deref. induction l as [|x l IH]; [done|]. intros [Hx Hl]%Forall_cons. cbn.
  rewrite lookup_app_l by done. destruct (heap !! x); cbn; rewrite IH; done.
Qed.

Lemma deref_length heap l :
  Forall (fun x => (x < length heap)%nat) l -> length (deref heap l) = length l.
Proof.
  unfold deref. induction l as [|x l IH]; [done|]. intros [Hx Hl]%Forall_cons. cbn.
  apply lookup_lt_is_Some_2 in Hx as [e ->]. cbn. by rewrite IH.
Qed.

Lemma deref_lookup heap l i :
  Forall (fun x => (x < length heap)%nat) l -> deref heap l !! i = l !! i ≫= fun x => heap !! x.
Proof.
  unfold deref. revert i. induction l as [|x l IH]; intros i; [done|]. intros [Hx Hl]%Forall_cons. cbn.
  apply lookup_lt_is_Some_2 in Hx as [e He]. rewrite He. destruct i; cbn; [done|]. by apply IH.
Qed.

Lemma deref_delete heap l i :
  Forall (fun x => (x < length heap)%nat) l -> deref heap (delete i l) = delete i (deref heap l).
Proof.
  unfold deref. revert i. induction l as [|x l IH]; intros i; [done|]. intros [Hx Hl]%Forall_cons.
  apply lookup_lt_is_Some_2 in Hx as [e He]. destruct i; cbn; rewrite He; cbn; [done|]. by rewrite IH.
Qed.

Lemma deref_insert0 heap x l e :
  heap !! x = Some e -> l <> [] -> Forall (fun x => (x < length heap)%nat) l ->
  deref heap (<[0%nat := x]> l) = <[0%nat := e]> (deref heap l).
Proof.
  intros He Hne Hf. destruct l as [|y l]; [done|]. apply Forall_cons in Hf as [Hy Hf].
  apply lookup_lt_is_Some_2 in Hy as [e' He']. unfold deref. cbn. by rewrite He, He'.
Qed.

(** The specification state: for every known key, its events in order. *)
Definition abs (d : MockData) : gmap string (list E) :=
  (fun h => deref (heap_ d) (events_ h)) <$> map_ d.

Definition spec_loadEvent (key : string) (event : E) (historyEnabled : bool) (m : gmap string (list E))
    : gmap string (list E) :=
  let events := default [] (m !! key) in
  <[key := if negb historyEnabled && negb (bool_decide (events = []))
           then <[0%nat := event]> events else events ++ [event]]> m.

Definition spec_drop (key : string) (events : list E) (m : gmap string (list E)) : gmap string (list E) :=
  if bool_decide (events = []) then delete key m else <[key := events]> m.

Definition spec_clear (ekey : EventKey) (m : gmap string (list E)) : bool * bool * gmap string (list E) :=
  if ek_empty ekey then (true, negb (bool_decide (m = ∅)), ∅)
  else if negb (ek_checkSelection ekey) then (false, false, m)
  else
    let key := key_ (ek_data ekey) in
    match m !! key with
    | None => (true, false, m)
    | Some events =>
        if negb (hasNumber ekey) then (true, true, delete key m)
        else if negb (validNumber ekey) then (false, false, m)
        else
          let size := Z.of_nat (length events) in
          if (1 <=? u_number_ ekey) && (u_number_ ekey <=? size) then
            (true, true, spec_drop key (delete (event_index size (u_number_ ekey) (reverse_ ekey)) events) m)
          else (true, false, m)
    end.

Definition spec_removeBySeq (key : string) (seq : Z) (m : gmap string (list E)) : bool * gmap string (list E) :=
  match m !! key with
  | None => (false, m)
  | Some events =>
      match list_find (fun e => ev_seq e = seq) events with
      | Some (i, _) => (true, spec_drop key (delete i events) m)
      | None => (false, m)
      end
  end.

Lemma abs_lookup d k : abs d !! k = (fun h => deref (heap_ d) (events_ h)) <$> map_ d !! k.
Proof. apply lookup_fmap. Qed.

Lemma history_size_pos h : events_ h <> [] -> history_size h =? 0 = false.
Proof. unfold history_size. destruct (events_ h); [done|]. intros _. rewrite length_cons. apply Z.eqb_neq. lia. Qed.

Lemma history_deref_length d k h :
  data_inv d -> map_ d !! k = Some h -> history_size h = Z.of_nat (length (deref (heap_ d) (events_ h))).
Proof. intros Hd (_ & Hf & _)%Hd. unfold history_size. by rewrite deref_length. Qed.

Lemma abs_same_heap d m :
  abs (with_map m d) = (fun h => deref (heap_ d) (events_ h)) <$> m.
Proof. done. Qed.

(** Growing the heap does not change the events already stored. *)
Lemma abs_snoc d e :
  data_inv d -> (fun h => deref (heap_ d ++ [e]) (events_ h)) <$> map_ d = abs d.
Proof.
  intros Hd. apply map_eq. intros k. rewrite abs_lookup, lookup_fmap.
  destruct (map_ d !! k) as [h|] eqn:Hh; [|done]. cbn. f_equal.
  apply deref_snoc. by apply Hd in Hh as (_ & ? & _).
Qed.

Lemma abs_load k e b d :
  data_inv d -> abs (data_loadEvent k e b d) = spec_loadEvent (key_ k) e b (abs d).
Proof.
  intros Hd. unfold data_loadEvent, spec_loadEvent, getEvents. rewrite abs_lookup.
  assert ((heap_ d ++ [e]) !! length (heap_ d) = Some e) as Hl.
  { rewrite lookup_app_r by done. by rewrite Nat.sub_diag. }
  destruct (map_ d !! key_ k) as [h|] eqn:Hh; unfold abs at 1; cbn [map_ heap_];
    rewrite fmap_insert, abs_snoc by done; f_equal; unfold history_loadEvent; cbn [fmap option_fmap option_map default id].
  - unfold id. destruct (Hd _ _ Hh) as (Hne & Hf & _).
    assert (bool_decide (deref (heap_ d) (events_ h) = []) = false) as ->.
    { apply bool_decide_eq_false_2. intros E0. apply (f_equal length) in E0.
      rewrite deref_length in E0 by done. by destruct (events_ h). }
    assert (history_size h =? 0 = false) as -> by (by apply history_size_pos).
    assert (Forall (fun x => (x < length (heap_ d ++ [e]))%nat) (events_ h)) as Hf'.
    { eapply Forall_impl; [exact Hf|]. cbn. rewrite length_app. cbn. lia. }
    destruct b; cbn [negb andb with_events events_].
    + rewrite deref_app, deref_snoc by done. by rewrite (deref_single _ _ _ Hl).
    + rewrite (deref_insert0 _ _ _ e) by (done || congruence). by rewrite deref_snoc.
  - cbn. rewrite !andb_false_r. exact (deref_single _ _ _ Hl).
Qed.

Lemma abs_spec_drop d k h i :
  data_inv d -> map_ d !! k = Some h ->
  abs (with_map (if history_size (with_events (delete i (events_ h)) h) =? 0
                 then delete k (map_ d)
                 else <[k := with_events (delete i (events_ h)) h]> (map_ d)) d)
  = spec_drop k (delete i (deref (heap_ d) (events_ h))) (abs d).
Proof.
  intros Hd Hh. destruct (Hd _ _ Hh) as (_ & Hf & _). rewrite <- deref_delete by done.
  unfold spec_drop, history_size. cbn [with_events events_].
  assert (bool_decide (deref (heap_ d) (delete i (events_ h)) = [])
          = (Z.of_nat (length (delete i (events_ h))) =? 0)) as ->.
  { rewrite <- (deref_length (heap_ d)) by (by apply Forall_delete).
    by destruct (deref (heap_ d) (delete i (events_ h))). }
  rewrite abs_same_heap. destruct (Z.of_nat _ =? 0).
  - by rewrite fmap_delete.
  - by rewrite fmap_insert.
Qed.

Lemma abs_clear ek d :
  is_u64 (u_number_ ek) -> data_inv d -> ((clear ek d).1, abs (clear ek d).2) = spec_clear ek (abs d).
Proof.
  intros [Hu _] Hd. unfold clear, spec_clear. destruct (ek_empty ek).
  { cbn [fst snd]. rewrite abs_same_heap, fmap_empty. do 3 f_equal.
    apply bool_decide_ext. unfold abs. by rewrite fmap_empty_iff. }
  destruct (negb (ek_checkSelection ek)); [done|]. rewrite abs_lookup.
  destruct (map_ d !! key_ (ek_data ek)) as [h|] eqn:Hh; [|done]. cbn [fmap option_fmap option_map].
  destruct (hasNumber ek); cbn [negb fst snd]; [|by rewrite abs_same_heap, fmap_delete].
  destruct (negb (validNumber ek)); [done|].
  rewrite <- (history_deref_length _ _ _ Hd Hh). unfold removeEvent.
  destruct (Hd _ _ Hh) as (Hne & _ & _).
  assert (history_size h =? 0 = false) as Hs by (by apply history_size_pos).
  rewrite Hs. cbn [orb].
  destruct (Z.eqb_spec (u_number_ ek) 0); [|destruct (Z.ltb_spec (history_size h) (u_number_ ek))].
  - assert ((1 <=? u_number_ ek) && (u_number_ ek <=? history_size h) = false) as -> by lia.
    cbn [fst snd]. rewrite Hs, abs_same_heap. by rewrite insert_id.
  - assert ((1 <=? u_number_ ek) && (u_number_ ek <=? history_size h) = false) as -> by lia.
    cbn [fst snd]. rewrite Hs, abs_same_heap. by rewrite insert_id.
  - destruct (decide (1 <= u_number_ ek)).
    + assert ((1 <=? u_number_ ek) && (u_number_ ek <=? history_size h) = true) as -> by lia.
      cbn [fst snd]. by rewrite abs_spec_drop.
    + lia.
Qed.

Lemma find_by_seq_deref heap seq l :
  Forall (fun x => (x < length heap)%nat) l ->
  fst <$> find_by_seq heap seq l = fst <$> list_find (fun e => ev_seq e = seq) (deref heap l).
Proof.
  induction l as [|x l IH]; [done|]. intros [Hx Hl]%Forall_cons.
  apply lookup_lt_is_Some_2 in Hx as [e He]. unfold deref. cbn. rewrite He. cbn.
  destruct (Z.eqb_spec (ev_seq e) seq) as [Hs|Hs].
  - by rewrite decide_True.
  - rewrite decide_False by done. specialize (IH Hl). unfold deref in IH.
    destruct (find_by_seq heap seq l) as [[i y]|], (list_find _ _) as [[j z]|]; cbn in *; congruence.
Qed.

Lemma abs_remove k seq d :
  data_inv d ->
  ((data_removeEventBySeq k seq d).1, abs (data_removeEventBySeq k seq d).2)
  = spec_removeBySeq (key_ k) seq (abs d).
Proof.
  intros Hd. unfold data_removeEventBySeq, spec_removeBySeq, removeEventBySeq. rewrite abs_lookup.
  destruct (map_ d !! key_ k) as [h|] eqn:Hh; [|done]. cbn [fmap option_fmap option_map].
  destruct (Hd _ _ Hh) as (_ & Hf & _). pose proof (find_by_seq_deref _ seq _ Hf) as Hi.
  destruct (find_by_seq _ _ _) as [[i x]|], (list_find _ _) as [[j y]|]; cbn in Hi; simplify_eq.
  - rewrite <- abs_spec_drop by done. cbn [andb]. by case_match.
  - cbn [andb fst snd]. rewrite abs_same_heap. by rewrite insert_id.
Qed.

(** ** Any sequence of operations *)

Inductive data_op :=
| OpLoad (k : DataKey) (e : E) (historyEnabled : bool)
| OpClear (k : DataKey) (number : string)
| OpRemove (k : DataKey) (seq : Z)
| OpChain (k : DataKey) (vars : gmap string string).

Definition op_wf (op : data_op) : Prop :=
  match op with OpLoad k _ _ => wf_key k | _ => True end.

(** Outputs (result, something deleted) and state, for the code and for the
    specification. *)
Definition run_op (op : data_op) (d : MockData) : bool * bool * MockData :=
  match op with
  | OpLoad k e b => (true, false, data_loadEvent k e b d)
  | OpClear k n => clear (EventKey_of k n) d
  | OpRemove k seq => let '(deleted, d) := data_removeEventBySeq k seq d in (true, deleted, d)
  | OpChain k vars => (true, false, storeChainVariables k vars d)
  end.

Definition spec_op (op : data_op) (m : gmap string (list E)) : bool * bool * gmap string (list E) :=
  match op with
  | OpLoad k e b => (true, false, spec_loadEvent (key_ k) e b m)
  | OpClear k n => spec_clear (EventKey_of k n) m
  | OpRemove k seq => let '(deleted, m) := spec_removeBySeq (key_ k) seq m in (true, deleted, m)
  | OpChain _ _ => (true, false, m)
  end.

Fixpoint run_ops {S} (step : data_op -> S -> bool * bool * S) (ops : list data_op) (s : S)
    : list (bool * bool) * S :=
  match ops with
  | [] => ([], s)
  | op :: ops' =>
      let '(out, s) := step op s in
      let '(outs, s) := run_ops step ops' s in (out :: outs, s)
  end.

Lemma abs_chain k vars d : abs (storeChainVariables k vars d) = abs d.
Proof.
  unfold storeChainVariables. destruct (map_ d !! key_ k) as [h|] eqn:Hh; [|done].
  rewrite abs_same_heap, fmap_insert. apply insert_id.
  transitivity (abs d !! key_ k); [done|]. by rewrite abs_lookup, Hh.
Qed.

Lemma op_refines op d :
  op_wf op -> data_inv d ->
  data_inv (run_op op d).2 /\ ((run_op op d).1, abs (run_op op d).2) = spec_op op (abs d).
Proof.
  intros Hop Hd. destruct op as [k e b|k n|k seq|k vars]; cbn in *.
  - split; [by apply data_inv_load|]. by rewrite abs_load.
  - split; [by apply data_inv_clear|]. apply abs_clear; [apply EventKey_of_u64|done].
  - pose proof (data_inv_remove k seq d Hd). pose proof (abs_remove k seq d Hd) as Ha.
    destruct (data_removeEventBySeq k seq d) as [b d']. cbn in *. by rewrite <- Ha.
  - split; [by apply data_inv_chain|]. by rewrite abs_chain.
Qed.

Lemma ops_refine ops : forall d,
  Forall op_wf ops -> data_inv d ->
  let '(outs, d') := run_ops run_op ops d in
  data_inv d' /\ (outs, abs d') = run_ops spec_op ops (abs d).
Proof.
  induction ops as [|op ops IH]; intros d Hf Hd; cbn; [done|].
  apply Forall_cons in Hf as [Hop Hf]. destruct (op_refines op d Hop Hd) as [Hi Ha].
  destruct (run_op op d) as [out d1]. cbn in Hi, Ha. rewrite <- Ha.
  specialize (IH d1 Hf Hi). destruct (run_ops run_op ops d1) as [outs d2].
  destruct IH as [Hi2 Ha2]. by rewrite <- Ha2.
Qed.

(** ** The last registered state after a load *)

Definition chain_of (d : MockData) (k : string) : gmap string string :=
  match map_ d !! k with Some h => chain_variables_ h | None => ∅ end.

Definition effective_state (s : string) (vars : gmap string string) : bool * string * gmap string string :=
  if sempty s then (true, DEFAULT_ADMIN_PROVISION_STATE, ∅) else (true, s, vars).

Lemma events_of_length d k h :
  data_inv d -> map_ d !! k = Some h -> length (events_of d k) = length (events_ h).
Proof.
  intros Hd Hh. unfold events_of. rewrite Hh. apply deref_length. by apply Hd in Hh as (_ & ? & _).
Qed.

Lemma history_loadEvent_chain e b h : chain_variables_ (history_loadEvent e b h) = chain_variables_ h.
Proof. unfold history_loadEvent. by case_match. Qed.

Lemma load_find_last k e b d :
  data_inv d -> b = true \/ (length (events_of d (key_ k)) <= 1)%nat ->
  findLastRegisteredRequestState k (data_loadEvent k e b d)
  = Some (effective_state (getState e) (chain_of d (key_ k))).
Proof.
  intros Hd Hb. unfold findLastRegisteredRequestState, data_loadEvent, getEvents, chain_of.
  assert ((heap_ d ++ [e]) !! length (heap_ d) = Some e) as Hl.
  { rewrite lookup_app_r by done. by rewrite Nat.sub_diag. }
  destruct (map_ d !! key_ k) as [h|] eqn:Hh; cbn; rewrite lookup_insert_eq;
    unfold getLastRegisteredRequestState; rewrite history_loadEvent_last.
  - cbn. rewrite Hl. cbn. unfold effective_state. rewrite history_loadEvent_chain. by destruct (sempty _).
  - destruct Hb as [|Hb]; [by left|right]. by rewrite (events_of_length d _ h) in Hb.
  - cbn. rewrite Hl. cbn. unfold effective_state. rewrite history_loadEvent_chain. by destruct (sempty _).
  - right. cbn. lia.
Qed.

(** With the history disabled and two or more events stored, the load overwrites
    the oldest one: the last registered state does not change. *)
Lemma load_find_stale k e d :
  data_inv d -> (2 <= length (events_of d (key_ k)))%nat ->
  findLastRegisteredRequestState k (data_loadEvent k e false d) = findLastRegisteredRequestState k d.
Proof.
  intros Hd Hlen. unfold findLastRegisteredRequestState, data_loadEvent, getEvents.
  destruct (map_ d !! key_ k) as [h|] eqn:Hh.
  - rewrite (events_of_length d _ h) in Hlen by done. destruct (Hd _ _ Hh) as (_ & Hf & _).
    cbn. rewrite lookup_insert_eq. unfold history_loadEvent.
    rewrite history_size_pos by (by destruct (events_ h); cbn in Hlen; [lia|]). cbn.
    unfold getLastRegisteredRequestState. cbn.
    destruct (events_ h) as [|x [|y l]]; cbn in Hlen; [lia..|]. cbn [list_insert insert].
    change (last (length (heap_ d) :: y :: l)) with (last (y :: l)).
    change (last (x :: y :: l)) with (last (y :: l)).
    destruct (last (y :: l)) as [z|] eqn:Hz; [|done]. cbn.
    apply last_Some_elem_of in Hz. rewrite Forall_forall in Hf.
    rewrite lookup_app_l; [done|]. apply Hf. set_solver.
  - unfold events_of in Hlen. rewrite Hh in Hlen. cbn in Hlen. lia.
Qed.

(** The event pointed to by [last_loaded_event_] after a load. *)
Lemma load_last_loaded k e b d :
  data_inv d -> b = true \/ (length (events_of d (key_ k)) <= 1)%nat ->
  last_loaded_event_ (data_loadEvent k e b d) = Some (length (heap_ d)).
Proof.
  intros Hd Hb. unfold data_loadEvent, getEvents.
  destruct (map_ d !! key_ k) as [h|] eqn:Hh; cbn -[history_getEvent];
    rewrite history_getEvent_last; apply history_loadEvent_last.
  - destruct Hb as [|Hb]; [by left|right]. by rewrite (events_of_length d _ h) in Hb.
  - right. cbn. lia.
Qed.

End Data.

Arguments MockData E : clear implicits.
Arguments data_op E : clear implicits.

(** ** Properties *)

(** In every state reachable by loading, clearing, purging and updating events,
    the state of a key can be read: no key is left with an empty history, so the
    [events_.back()] that [findLastRegisteredRequestState] relies on is always
    defined. *)
Theorem reachable_state_defined `{EventType E} (d : MockData E) (k : DataKey) (Hr : reachable d) :
  exists r, findLastRegisteredRequestState k d = Some r.
Proof.
  apply reachable_inv in Hr. unfold findLastRegisteredRequestState.
  destruct (map_ d !! key_ k) as [h|] eqn:Hh; [|eauto].
  destruct (last_state_defined _ _ _ (Hr _ _ Hh)) as [s ->]. cbn. eauto.
Qed.

(** C3: Any sequence of loads, clears by number or by key, removals by sequence
    number and chain-variable updates, run on the shared histories and the heap of
    events, gives the same results and the same events per key as the specification
    on plain lists of event values. *)
Theorem mock_data_refines `{EventType E} (ops : list (data_op E)) (Hwf : Forall op_wf ops) :
  let '(outs, d) := run_ops run_op ops MockData_empty in
  (outs, abs d) = run_ops spec_op ops ∅.
Proof.
  pose proof (ops_refine ops MockData_empty Hwf (map_Forall_empty _)) as H1.
  destruct (run_ops run_op ops MockData_empty) as [outs d]. destruct H1 as [_ H1].
  rewrite H1. unfold abs. cbn. by rewrite fmap_empty.
Qed.

(** After loading an event with the history enabled (or when its key has at
    most one event), the registered state is the state of that event, [initial] with
    no chain variables when it has none, and [last_loaded_event_] points to it. *)
Theorem load_registers_state `{EventType E} (d : MockData E) (k : DataKey) (e : E) (b : bool)
  (Hr : reachable d) (Hb : b = true \/ (length (events_of d (key_ k)) <= 1)%nat) :
  findLastRegisteredRequestState k (data_loadEvent k e b d)
    = Some (effective_state (getState e) (chain_of d (key_ k))) /\
  last_loaded_event_ (data_loadEvent k e b d) = Some (length (heap_ d)) /\
  heap_ (data_loadEvent k e b d) !! length (heap_ d) = Some e.
Proof.
  apply reachable_inv in Hr. split_and!; [by apply load_find_last|by apply load_last_loaded|].
  unfold data_loadEvent. destruct (getEvents k d). cbn.
  rewrite lookup_app_r by done. by rewrite Nat.sub_diag.
Qed.

(** With the history disabled and two or more events under a key, a load
    overwrites the oldest event, so the registered state and the chain variables of
    the key stay those of the previous last event whatever the new event carries. *)
Theorem load_without_history_keeps_old_state `{EventType E} (d : MockData E) (k : DataKey) (e : E)
  (Hr : reachable d) (Hlen : (2 <= length (events_of d (key_ k)))%nat) :
  findLastRegisteredRequestState k (data_loadEvent k e false d) = findLastRegisteredRequestState k d.
Proof. apply load_find_stale; [by apply reachable_inv|done]. Qed.

(** Event numbers address the history from both ends: the [n]-th event from the
    head is the [(size + 1 - n)]-th from the tail, and 0 or a number past the size
    selects nothing. *)
Theorem event_numbers_both_ends (n : Z) (h : MockEventsHistory) (Hn : is_u64 n) :
  history_getEvent n false h =
    (if (1 <=? n) && (n <=? history_size h) then events_ h !! Z.to_nat (n - 1) else None) /\
  (1 <= n <= history_size h ->
   history_getEvent n false h = history_getEvent (history_size h + 1 - n) true h).
Proof.
  destruct Hn as [Hn _]. split; [by rewrite history_getEvent_spec|].
  intros Hr. rewrite !history_getEvent_spec by lia.
  assert ((1 <=? n) && (n <=? history_size h) = true) as -> by lia.
  assert ((1 <=? history_size h + 1 - n) && (history_size h + 1 - n <=? history_size h) = true) as -> by lia.
  unfold event_index. f_equal. lia.
Qed.

(** A query with only an event path is refused by [checkSelection], yet
    [asJsonString] accepts it and answers with the whole data, because the inherited
    [empty] ignores the path. *)
Theorem path_alone_is_accepted `{EventType E} `{JsonText} `{JsonPointer} (d : MockData E) (path : string)
  (Hp : path <> "") :
  elk_checkSelection (EventLocationKey2 "" "" "" path) = false /\
  asJsonString (EventLocationKey2 "" "" "" path) d = asJsonString (EventLocationKey2 "" "" "" "") d /\
  (asJsonString (EventLocationKey2 "" "" "" path) d).2 = true.
Proof.
  split_and!; [|done..]. unfold elk_checkSelection. cbn. by apply sempty_false in Hp as ->.
Qed.

(** ** Witnesses *)

Module Examples.

(** A server event with a state and a receive sequence. *)
Definition ev (state : string) (seq : Z) : MockServerEvent :=
  {| se_base := MockEvent_load "initial" state 1 200 [] [] MockEvent_empty;
     request_body_ := JNull; response_body_data_part_ := DataPart_empty; recv_seq_ := seq;
     response_delay_ms_ := 0; virtual_origin_coming_from_method_ := "";
     virtual_origin_coming_from_uri_ := ""; se_sending_timestamp_us_ := 0 |}.

Definition k1 : DataKey := DataKey2 "GET" "/foo".
Definition d1 : MockData MockServerEvent := data_loadEvent k1 (ev "one" 1) true MockData_empty.
Definition d2 : MockData MockServerEvent := data_loadEvent k1 (ev "two" 2) true d1.

Lemma d1_reachable : reachable d1.
Proof. apply rtc_once. constructor. apply wf_key2. Qed.
Lemma d2_reachable : reachable d2.
Proof. eapply rtc_r; [apply d1_reachable|]. constructor. apply wf_key2. Qed.

Lemma reachable_state_defined_witness : exists r, findLastRegisteredRequestState k1 d2 = Some r.
Proof. exact (reachable_state_defined d2 k1 d2_reachable). Defined.

Definition ops1 : list (data_op MockServerEvent) :=
  [OpLoad k1 (ev "one" 1) true; OpLoad k1 (ev "two" 2) true; OpClear k1 "-1"; OpRemove k1 1].

Lemma mock_data_refines_witness :
  let '(outs, d) := run_ops run_op ops1 MockData_empty in
  (outs, abs d) = run_ops spec_op ops1 ∅ /\ outs = [(true, false); (true, false); (true, true); (true, true)].
Proof.
  assert (Forall op_wf ops1) as Hwf by (repeat constructor).
  pose proof (mock_data_refines ops1 Hwf) as H1.
  destruct (run_ops run_op ops1 MockData_empty) as [outs d] eqn:E0. split; [exact H1|].
  apply (f_equal fst) in E0. vm_compute in E0. congruence.
Defined.

Lemma load_registers_state_witness :
  findLastRegisteredRequestState k1 (data_loadEvent k1 (ev "two" 2) true d1) = Some (true, "two", ∅) /\
  last_loaded_event_ d2 = Some 1%nat.
Proof.
  destruct (load_registers_state d1 k1 (ev "two" 2) true d1_reachable (or_introl eq_refl)) as (H1 & H2 & _).
  split; [rewrite H1; reflexivity|exact H2].
Defined.

Lemma load_without_history_keeps_old_state_witness :
  findLastRegisteredRequestState k1 (data_loadEvent k1 (ev "three" 3) false d2) = Some (true, "two", ∅).
Proof.
  rewrite (load_without_history_keeps_old_state d2 k1 (ev "three" 3) d2_reachable); [reflexivity|].
  vm_compute. lia.
Defined.

Lemma event_numbers_both_ends_witness :
  history_getEvent 1 false (with_events [7; 8; 9]%nat (MockEventsHistory_new k1))
  = history_getEvent 3 true (with_events [7; 8; 9]%nat (MockEventsHistory_new k1)).
Proof.
  destruct (event_numbers_both_ends 1 (with_events [7; 8; 9]%nat (MockEventsHistory_new k1))) as [_ H1].
  - unfold is_u64, u64_max. lia.
  - apply H1. vm_compute. split; discriminate.
Defined.

Lemma path_alone_is_accepted_witness :
  elk_checkSelection (EventLocationKey2 "" "" "" "/requestBody") = false /\
  (asJsonString (EventLocationKey2 "" "" "" "/requestBody") d1).2 = true.
Proof.
  assert ("/requestBody" <> "") as Hp by done.
  destruct (path_alone_is_accepted d1 "/requestBody" Hp) as (H1 & _ & H2). split; [exact H1|exact H2].
Defined.
End Examples.
