(* ===== verification/Concurrency.v ===== *)
(** Concurrent loads.  Worker threads call [MockServerData::loadEvent] and
    [MockClientData::loadEvent]; what runs under one lock of [src/model/Map.hpp]
    or of a history is one step.  The server reads the map, fills the history and
    adds it to the map in three steps; the client does all in one
    ([modifyOrInsert]).  The history is enabled in both. *)
From S2P Require Import Prelude.
From stdpp Require Import options.

(** Shared state: the map from keys to histories and the histories themselves,
    each a vector of events. *)
Record shared := mkShared {
  c_map : gmap string nat;
  c_hist : list (list nat)
}.

Definition shared_empty : shared := {| c_map := ∅; c_hist := [] |}.

(** Where a thread is in its load. *)
Inductive pc :=
| Start
| Got (history : nat) (maiden : bool)
| Loaded (history : nat) (maiden : bool)
| Done.

Record thread := mkThread { t_key : string; t_event : nat; t_pc : pc }.

Definition goto (p : pc) (t : thread) : thread :=
  {| t_key := t_key t; t_event := t_event t; t_pc := p |}.

Definition push (l e : nat) (s : shared) : shared :=
  {| c_map := c_map s; c_hist := alter (fun h => h ++ [e]) l (c_hist s) |}.

(** [MockServerData::loadEvent] *)
Inductive server_load : shared -> thread -> shared -> thread -> Prop :=
| sl_known s t l :
    t_pc t = Start -> c_map s !! t_key t = Some l ->
    server_load s t s (goto (Got l false) t)
| sl_maiden s t :
    t_pc t = Start -> c_map s !! t_key t = None ->
    server_load s t {| c_map := c_map s; c_hist := c_hist s ++ [[]] |}
      (goto (Got (length (c_hist s)) true) t)
| sl_load s t l m :
    t_pc t = Got l m -> server_load s t (push l (t_event t) s) (goto (Loaded l m) t)
| sl_add s t l :
    t_pc t = Loaded l true ->
    server_load s t {| c_map := <[t_key t := l]> (c_map s); c_hist := c_hist s |} (goto Done t)
| sl_end s t l :
    t_pc t = Loaded l false -> server_load s t s (goto Done t).

(** [MockClientData::loadEvent]: [modifyOrInsert] under the write lock. *)
Definition modifyOrInsert (k : string) (e : nat) (s : shared) : shared :=
  match c_map s !! k with
  | Some l => push l e s
  | None => {| c_map := <[k := length (c_hist s)]> (c_map s); c_hist := c_hist s ++ [[e]] |}
  end.

Inductive client_load : shared -> thread -> shared -> thread -> Prop :=
| cl_load s t :
    t_pc t = Start -> client_load s t (modifyOrInsert (t_key t) (t_event t) s) (goto Done t).

(** Any thread may move. *)
Inductive interleave (load : shared -> thread -> shared -> thread -> Prop)
    : shared * list thread -> shared * list thread -> Prop :=
| il_step s ts i t s' t' :
    ts !! i = Some t -> load s t s' t' -> interleave load (s, ts) (s', <[i := t']> ts).

Definition all_start (ts : list thread) : Prop := Forall (fun t => t_pc t = Start) ts.
Definition all_done (ts : list thread) : Prop := Forall (fun t => t_pc t = Done) ts.

(** Events stored under a key. *)
Definition stored (s : shared) (k : string) : list nat :=
  match c_map s !! k with Some l => default [] (c_hist s !! l) | None => [] end.

(** Events of the threads on a key that satisfy [p]. *)
Definition events_at (p : pc -> bool) (k : string) (ts : list thread) : list nat :=
  t_event <$> filter (fun t => t_key t = k /\ p (t_pc t) = true) ts.

Definition is_done (p : pc) : bool := match p with Done => true | _ => false end.
Definition is_loaded (p : pc) : bool := match p with Done | Loaded _ _ => true | _ => false end.

(** ** Counting the events of the threads *)

Lemma events_at_insert p k ts i t t' :
  ts !! i = Some t -> t_key t' = t_key t -> t_event t' = t_event t ->
  p (t_pc t) = false -> p (t_pc t') = true ->
  events_at p k (<[i := t']> ts) ≡ₚ events_at p k ts ++ (if decide (t_key t = k) then [t_event t] else []).
Proof.
  unfold events_at. intros Hi Hk He Hp Hp'. revert i Hi.
  induction ts as [|x ts IH]; intros [|i] Hi; simplify_eq/=.
  - rewrite !filter_cons. rewrite (decide_False (P := t_key t = k /\ _)) by (rewrite Hp; naive_solver).
    rewrite Hk, Hp'. case_decide as H1; case_decide as H2; cbn; rewrite ?He; try naive_solver.
    + by rewrite Permutation_app_comm.
    + by rewrite app_nil_r.
  - rewrite !filter_cons. specialize (IH i Hi).
    destruct (decide (t_key x = k /\ p (t_pc x) = true)); by rewrite ?fmap_cons, IH.
Qed.

Lemma events_at_same p k ts i t t' :
  ts !! i = Some t -> t_key t' = t_key t -> t_event t' = t_event t -> p (t_pc t) = p (t_pc t') ->
  events_at p k (<[i := t']> ts) = events_at p k ts.
Proof.
  unfold events_at. intros Hi Hk He Hp. revert i Hi.
  induction ts as [|x ts IH]; intros [|i] Hi; simplify_eq/=.
  - rewrite !filter_cons. rewrite Hk, Hp. case_decide; cbn; by rewrite ?He.
  - rewrite !filter_cons. specialize (IH i Hi).
    destruct (decide (t_key x = k /\ p (t_pc x) = true)); by rewrite ?fmap_cons, IH.
Qed.

Lemma events_at_none p k ts : Forall (fun t => p (t_pc t) = false) ts -> events_at p k ts = [].
Proof.
  unfold events_at. induction 1 as [|t ts Ht _ IH]; [done|].
  rewrite filter_cons, decide_False by (rewrite Ht; naive_solver). done.
Qed.

Lemma events_at_all p k ts :
  Forall (fun t => p (t_pc t) = true) ts -> events_at p k ts = t_event <$> filter (fun t => t_key t = k) ts.
Proof.
  unfold events_at. induction 1 as [|t ts Ht _ IH]; [done|].
  rewrite !filter_cons. case_decide; case_decide; cbn; rewrite ?IH; naive_solver.
Qed.

(** ** The client *)

(** Every location in the map exists and belongs to one key. *)
Definition map_ok (s : shared) : Prop :=
  (forall k l, c_map s !! k = Some l -> l < length (c_hist s)) /\
  (forall k k' l, c_map s !! k = Some l -> c_map s !! k' = Some l -> k = k').

Lemma push_stored s k l e :
  map_ok s -> c_map s !! k = Some l ->
  forall k', stored (push l e s) k' = if decide (k' = k) then stored s k ++ [e] else stored s k'.
Proof.
  intros [Hv Hi] Hk k'. unfold stored, push. cbn. destruct (c_map s !! k') as [l'|] eqn:Hk'.
  - case_decide as Hd; subst.
    + rewrite Hk in Hk'. injection Hk' as <-. rewrite Hk, list_lookup_alter_eq.
      destruct (lookup_lt_is_Some_2 (c_hist s) l) as [h Hh]; [by eapply Hv|]. by rewrite Hh.
    + rewrite list_lookup_alter_ne; [done|]. intros ->. apply Hd. by eapply Hi.
  - rewrite decide_False by congruence. done.
Qed.

Lemma modifyOrInsert_ok s k e :
  map_ok s ->
  map_ok (modifyOrInsert k e s) /\
  forall k', stored (modifyOrInsert k e s) k' = if decide (k' = k) then stored s k ++ [e] else stored s k'.
Proof.
  intros [Hv Hi]. unfold modifyOrInsert. destruct (c_map s !! k) as [l|] eqn:Hk.
  - split; [|by apply push_stored]. split; cbn; [|done]. intros k' l' Hl. rewrite length_alter. eauto.
  - split.
    + split; cbn.
      * intros k' l' Hl. rewrite length_app. cbn.
        apply lookup_insert_Some in Hl as [[_ <-]|[_ Hl]]; [lia|]. apply Hv in Hl. lia.
      * intros k1 k2 l' H1 H2.
        apply lookup_insert_Some in H1 as [[<- <-]|[_ H1]];
          apply lookup_insert_Some in H2 as [[<- Hl]|[_ H2]]; [done|..].
        -- apply Hv in H2. lia.
        -- subst. apply Hv in H1. lia.
        -- by eapply Hi.
    + intros k'. unfold stored. cbn. rewrite Hk. case_decide as Hd; subst.
      * rewrite lookup_insert_eq. rewrite lookup_app_r by done. by rewrite Nat.sub_diag.
      * rewrite lookup_insert_ne by done. destruct (c_map s !! k') as [l'|] eqn:Hk'; [|done].
        rewrite lookup_app_l; [done|]. by eapply Hv.
Qed.

Definition client_inv (s0 : shared) (st : shared * list thread) : Prop :=
  map_ok st.1 /\ forall k, stored st.1 k ≡ₚ stored s0 k ++ events_at is_done k st.2.

Lemma client_inv_step s0 st st' :
  client_inv s0 st -> interleave client_load st st' -> client_inv s0 st'.
Proof.
  intros [Hm Hs] Hst. destruct Hst as [s ts i t s' t' Hi Hl]. inversion Hl as [? ? Hpc]; subst. cbn [fst snd] in *.
  destruct (modifyOrInsert_ok s (t_key t) (t_event t) Hm) as [Hm' Hs']. split; cbn [fst snd]; [done|].
  intros k. rewrite Hs'. rewrite (events_at_insert _ _ _ _ t) by (done || by rewrite Hpc).
  rewrite app_assoc, <- Hs. destruct (decide (t_key t = k)) as [<-|].
  - by rewrite decide_True.
  - rewrite decide_False by congruence. by rewrite app_nil_r.
Qed.

(** ** The server on known keys *)

(** Every thread works on a key of the map and holds the location of its key. *)
Definition known (m : gmap string nat) (t : thread) : Prop :=
  exists l, m !! t_key t = Some l /\
    match t_pc t with Start | Done => True | Got l' b | Loaded l' b => l' = l /\ b = false end.

Definition server_inv (s0 : shared) (st : shared * list thread) : Prop :=
  c_map st.1 = c_map s0 /\ map_ok st.1 /\ Forall (known (c_map s0)) st.2 /\
  forall k, stored st.1 k ≡ₚ stored s0 k ++ events_at is_loaded k st.2.

Lemma known_goto m t p :
  known m t -> match p with Start | Done => True | Got l b | Loaded l b => m !! t_key t = Some l /\ b = false end ->
  known m (goto p t).
Proof. intros (l & Hl & _) Hp. exists l. split; [done|]. destruct p; cbn; naive_solver. Qed.

Lemma server_inv_step s0 st st' :
  server_inv s0 st -> interleave server_load st st' -> server_inv s0 st'.
Proof.
  intros (Hc & Hm & Hk & Hs) Hst. destruct Hst as [s ts i t s' t' Hi Hl]. cbn [fst snd] in *.
  assert (known (c_map s0) t) as Ht by (rewrite Forall_forall in Hk; apply Hk; by apply list_elem_of_lookup_2 in Hi).
  destruct Ht as (l0 & Hl0 & Hpc0). unfold server_inv. cbn [fst snd].
  inversion Hl as [? ? l Hpc Hg|? ? Hpc Hg|? ? l b Hpc|? ? l Hpc|? ? l Hpc]; subst; rewrite Hpc in Hpc0.
  - split_and!; [done..| |].
    + apply Forall_insert; [done|]. apply known_goto; [by exists l0; rewrite Hpc|]. by rewrite <- Hc.
    + intros k. by rewrite (events_at_same _ _ _ _ t) by (done || by rewrite Hpc).
  - congruence.
  - destruct Hpc0 as [-> ->]. assert (c_map s !! t_key t = Some l0) as Hg by (by rewrite Hc).
    split_and!; [done| | |].
    + destruct Hm as [Hv Hinj]. split; cbn; [|done]. intros k l Hkl. rewrite length_alter. eauto.
    + apply Forall_insert; [done|]. by apply known_goto; [exists l0; rewrite Hpc|].
    + intros k. rewrite (push_stored _ (t_key t)) by done.
      rewrite (events_at_insert _ _ _ _ t) by (done || by rewrite Hpc).
      rewrite app_assoc, <- Hs. destruct (decide (t_key t = k)) as [<-|].
      * by rewrite decide_True.
      * rewrite decide_False by congruence. by rewrite app_nil_r.
  - destruct Hpc0 as [_ [=]].
  - split_and!; [done..| |].
    + apply Forall_insert; [done|]. by apply known_goto; [exists l0; rewrite Hpc|].
    + intros k. by rewrite (events_at_same _ _ _ _ t) by (done || by rewrite Hpc).
Qed.

(** ** Properties *)

(** Client loads lose nothing: whatever the interleaving of any number of
    threads, once all are done every key holds its previous events plus exactly the
    events loaded for it. *)
Theorem client_loads_keep_all_events s0 ts s ts' k
  (Hm : map_ok s0) (Hs : all_start ts)
  (Hrun : rtc (interleave client_load) (s0, ts) (s, ts')) (Hd : all_done ts') :
  stored s k ≡ₚ stored s0 k ++ (t_event <$> filter (fun t => t_key t = k) ts').
Proof.
  assert (client_inv s0 (s0, ts)) as H0.
  { split; [done|]. intros k'. cbn [fst snd]. rewrite events_at_none; [by rewrite app_nil_r|].
    eapply Forall_impl; [exact Hs|]. by intros t ->. }
  apply (fun Hi => rtc_invariant _ _ _ _ Hi (client_inv_step s0) Hrun) in H0 as [_ H0]. cbn [fst snd] in H0.
  rewrite H0, events_at_all; [done|]. eapply Forall_impl; [exact Hd|]. by intros t ->.
Qed.

(** Server loads on keys that already have a history lose nothing, in any
    interleaving. *)
Theorem server_loads_on_known_keys_keep_all_events s0 ts s ts' k
  (Hm : map_ok s0) (Hs : all_start ts) (Hk : Forall (fun t => is_Some (c_map s0 !! t_key t)) ts)
  (Hrun : rtc (interleave server_load) (s0, ts) (s, ts')) (Hd : all_done ts') :
  stored s k ≡ₚ stored s0 k ++ (t_event <$> filter (fun t => t_key t = k) ts').
Proof.
  assert (server_inv s0 (s0, ts)) as H0.
  { split_and!; [done..| |].
    - cbn [fst snd]. apply Forall_forall. intros t Ht. unfold all_start in Hs. rewrite Forall_forall in Hk, Hs.
      destruct (Hk _ Ht) as [l Hl]. exists l. split; [done|]. by rewrite (Hs _ Ht).
    - intros k'. cbn [fst snd]. rewrite events_at_none; [by rewrite app_nil_r|].
      eapply Forall_impl; [exact Hs|]. by intros t ->. }
  apply (fun Hi => rtc_invariant _ _ _ _ Hi (server_inv_step s0) Hrun) in H0 as (_ & _ & _ & H0). cbn [fst snd] in H0.
  rewrite H0, events_at_all; [done|]. eapply Forall_impl; [exact Hd|]. by intros t ->.
Qed.

(** The first load of a key is not atomic in the server: two threads that both
    find the key missing create two histories, and the one added last hides the
    event of the other. *)
Theorem server_first_loads_can_lose_an_event (k : string) (e1 e2 : nat) :
  exists s, rtc (interleave server_load)
              (shared_empty, [mkThread k e1 Start; mkThread k e2 Start])
              (s, [mkThread k e1 Done; mkThread k e2 Done]) /\
            stored s k = [e2].
Proof.
  exists {| c_map := <[k := 1]> (<[k := 0]> ∅); c_hist := [[e1]; [e2]] |}. split.
  - eapply rtc_l. { eapply (il_step _ _ _ 0); [reflexivity|eapply sl_maiden; reflexivity]. }
    eapply rtc_l. { eapply (il_step _ _ _ 1); [reflexivity|eapply sl_maiden; reflexivity]. }
    eapply rtc_l. { eapply (il_step _ _ _ 0); [reflexivity|eapply sl_load; reflexivity]. }
    eapply rtc_l. { eapply (il_step _ _ _ 1); [reflexivity|eapply sl_load; reflexivity]. }
    eapply rtc_l. { eapply (il_step _ _ _ 0); [reflexivity|eapply sl_add; reflexivity]. }
    eapply rtc_l. { eapply (il_step _ _ _ 1); [reflexivity|eapply sl_add; reflexivity]. }
    apply rtc_refl.
  - unfold stored. cbn. by rewrite lookup_insert_eq.
Qed.

(** ** Witnesses *)

Definition two_threads : list thread := [mkThread "GET#/a" 1 Start; mkThread "GET#/a" 2 Start].
Definition two_done : list thread := [mkThread "GET#/a" 1 Done; mkThread "GET#/a" 2 Done].
Definition known_key : shared := {| c_map := {["GET#/a" := 0]}; c_hist := [[7]] |}.

Lemma shared_empty_ok : map_ok shared_empty.
Proof. split; cbn; intros *; by rewrite lookup_empty. Qed.
Lemma known_key_ok : map_ok known_key.
Proof.
  split; cbn; intros *.
  - intros [_ <-]%lookup_singleton_Some. lia.
  - by intros [<- _]%lookup_singleton_Some [<- _]%lookup_singleton_Some.
Qed.

Lemma client_run : exists s, rtc (interleave client_load) (shared_empty, two_threads) (s, two_done).
Proof.
  eexists. eapply rtc_l. { eapply (il_step _ _ _ 1); [reflexivity|eapply cl_load; reflexivity]. }
  eapply rtc_l. { eapply (il_step _ _ _ 0); [reflexivity|eapply cl_load; reflexivity]. }
  apply rtc_refl.
Qed.

Lemma client_loads_keep_all_events_witness : exists s,
  rtc (interleave client_load) (shared_empty, two_threads) (s, two_done) /\ stored s "GET#/a" ≡ₚ [1; 2].
Proof.
  destruct client_run as [s Hrun]. exists s. split; [exact Hrun|].
  exact (client_loads_keep_all_events shared_empty two_threads s two_done "GET#/a" shared_empty_ok
           ltac:(repeat constructor) Hrun ltac:(repeat constructor)).
Defined.

Lemma server_run : exists s, rtc (interleave server_load) (known_key, two_threads) (s, two_done).
Proof.
  eexists. eapply rtc_l. { eapply (il_step _ _ _ 1); [reflexivity|eapply sl_known; reflexivity]. }
  eapply rtc_l. { eapply (il_step _ _ _ 0); [reflexivity|eapply sl_known; reflexivity]. }
  eapply rtc_l. { eapply (il_step _ _ _ 1); [reflexivity|eapply sl_load; reflexivity]. }
  eapply rtc_l. { eapply (il_step _ _ _ 0); [reflexivity|eapply sl_load; reflexivity]. }
  eapply rtc_l. { eapply (il_step _ _ _ 1); [reflexivity|eapply sl_end; reflexivity]. }
  eapply rtc_l. { eapply (il_step _ _ _ 0); [reflexivity|eapply sl_end; reflexivity]. }
  apply rtc_refl.
Qed.

Lemma server_loads_on_known_keys_keep_all_events_witness : exists s,
  rtc (interleave server_load) (known_key, two_threads) (s, two_done) /\ stored s "GET#/a" ≡ₚ [7; 1; 2].
Proof.
  destruct server_run as [s Hrun]. exists s. split; [exact Hrun|].
  exact (server_loads_on_known_keys_keep_all_events known_key two_threads s two_done "GET#/a" known_key_ok
           ltac:(repeat constructor) ltac:(repeat constructor; eexists; reflexivity) Hrun ltac:(repeat constructor)).
Defined.
