(* ===== verification/LockedMap.v ===== *)
(** The map with a lock ([src/model/Map.hpp]): its methods, each one under a read or a write
    guard, run by any number of threads, and that they behave as if they ran one after the
    other. *)
From S2P Require Import Prelude.
From stdpp Require Import options.

(** A lookup in a list that was updated in place. *)
Lemma list_lookup_insert_Some' {A} (l : list A) i j x y : <[i := x]> l !! j = Some y -> i = j /\ x = y \/ j <> i /\ l !! j = Some y.
Proof. intros [(-> & -> & _)|[Hne Hj]]%list_lookup_insert_Some; auto. Qed.

Section Map.
Context {K V : Type} `{Countable K} `{Inhabited V}.
#[local] Notation map_t := (gmap K V).

(** ** The methods *)

Inductive Method :=
| MExists (key : K)
| MGet (key : K)
| MTryGet (key : K)
| MSize
| MEmpty
| MForEach
| MGetJson
| MCopy
| MAdd (key : K) (value : V)
| MModifyOrInsert (key : K) (modifier : V -> V)
| MAddAll (m : list (K * V))
| MRemove (key : K)
| MClear.

(** What a method gives: a flag, a value with a flag, a number, what the callback of an
    iteration was given, a copy of the map, or nothing. *)
Inductive Result :=
| RFlag (b : bool)
| RValue (exists_ : bool) (value : V)
| RFound (value : option V)
| RNumber (n : nat)
| RVisited (l : list (K * V))
| RMap (m : map_t)
| RNothing.

(** [write_guard_t] or [read_guard_t] *)
Definition is_writer (o : Method) : bool :=
  match o with MAdd _ _ | MModifyOrInsert _ _ | MAddAll _ | MRemove _ | MClear => true | _ => false end.

(** The body of a method: accesses to the shared map, one at a time. *)
Inductive Body :=
| Return (r : Result)
| Read (k : map_t -> Body)
| Write (f : map_t -> map_t) (b : Body).

(** The loops over the elements: of the map itself, of another map. *)
Fixpoint visit (keys : list K) (visited : list (K * V)) : Body :=
  match keys with
  | [] => Return (RVisited visited)
  | key :: keys => Read (fun m => visit keys (visited ++ match m !! key with Some v => [(key, v)] | None => [] end))
  end.
Fixpoint assign_all (l : list (K * V)) : Body :=
  match l with
  | [] => Return RNothing
  | (key, value) :: l => Write (<[key := value]>) (assign_all l)
  end.

Definition exists_body (key : K) : Body := Read (fun m => Return (RFlag (bool_decide (is_Some (m !! key))))).
Definition get_body (key : K) : Body :=
  Read (fun it => let exists_ := bool_decide (is_Some (it !! key)) in
    if exists_ then Read (fun m => Return (RValue exists_ (default inhabitant (m !! key)))) else Return (RValue exists_ inhabitant)).
Definition tryGet_body (key : K) : Body :=
  Read (fun it => if bool_decide (is_Some (it !! key)) then Read (fun m => Return (RFound (m !! key))) else Return (RFound None)).
Definition size_body : Body := Read (fun m => Return (RNumber (size m))).
Definition empty_body : Body := Read (fun m => Return (RFlag (bool_decide (size m = 0)))).
Definition forEach_body : Body := Read (fun m => visit (map_to_list m).*1 []).
Definition getJson_body : Body := Read (fun m => Return (RMap m)).
Definition copy_body : Body := Read (fun m => Return (RMap m)).
Definition add_body (key : K) (value : V) : Body := Write (<[key := value]>) (Return RNothing).
(** The access by the operator of the map inserts a default value when there is none. *)
Definition modifyOrInsert_body (key : K) (modifier : V -> V) : Body :=
  Write (fun m => <[key := default inhabitant (m !! key)]> m) (Write (alter modifier key) (Return RNothing)).
Definition remove_body (key : K) : Body :=
  Read (fun m => let exists_ := bool_decide (is_Some (m !! key)) in Write (delete key) (Return (RFlag exists_))).
(** [clear_unsafe] *)
Definition clear_body : Body :=
  Read (fun m => let result := bool_decide (size m <> 0) in Write (fun _ => ∅) (Return (RFlag result))).

Definition body (o : Method) : Body :=
  match o with
  | MExists key => exists_body key
  | MGet key => get_body key
  | MTryGet key => tryGet_body key
  | MSize => size_body
  | MEmpty => empty_body
  | MForEach => forEach_body
  | MGetJson => getJson_body
  | MCopy => copy_body
  | MAdd key value => add_body key value
  | MModifyOrInsert key modifier => modifyOrInsert_body key modifier
  | MAddAll l => assign_all l
  | MRemove key => remove_body key
  | MClear => clear_body
  end.

(** ** Threads *)

(** A thread runs methods one after the other: outside of the lock with the methods it is
    going to call, or inside of it with what is left of the body. *)
Inductive Thread :=
| Outside (calls : list Method)
| Inside (o : Method) (b : Body) (calls : list Method).

(** The map, the threads, and the calls that returned, in order, with their thread. *)
Record State := mkState {
  st_map : map_t;
  st_threads : list Thread;
  st_history : list (nat * Method * Result)
}.

Definition holds (write : bool) (t : Thread) : Prop :=
  match t with Inside o _ _ => is_writer o = write | Outside _ => False end.

(** The lock is free for a reader if no thread writes, and for a writer if no thread is
    inside. *)
Definition free_for (write : bool) (s : State) : Prop :=
  Forall (fun t => ~ holds true t) (st_threads s) /\ (write = true -> Forall (fun t => ~ holds false t) (st_threads s)).

Inductive step : State -> State -> Prop :=
| step_acquire s i o calls :
    st_threads s !! i = Some (Outside (o :: calls)) -> free_for (is_writer o) s ->
    step s (mkState (st_map s) (<[i := Inside o (body o) calls]> (st_threads s)) (st_history s))
| step_read s i o k calls :
    st_threads s !! i = Some (Inside o (Read k) calls) ->
    step s (mkState (st_map s) (<[i := Inside o (k (st_map s)) calls]> (st_threads s)) (st_history s))
| step_write s i o f b calls :
    st_threads s !! i = Some (Inside o (Write f b) calls) ->
    step s (mkState (f (st_map s)) (<[i := Inside o b calls]> (st_threads s)) (st_history s))
| step_release s i o r calls :
    st_threads s !! i = Some (Inside o (Return r) calls) ->
    step s (mkState (st_map s) (<[i := Outside calls]> (st_threads s)) (st_history s ++ [(i, o, r)])).

(** A step of the thread [i], if it can make one. *)
Definition is_holder (write : bool) (t : Thread) : bool :=
  match t with Inside o _ _ => Bool.eqb (is_writer o) write | Outside _ => false end.
Definition next (i : nat) (s : State) : option State :=
  let put m t h := Some (mkState m (<[i := t]> (st_threads s)) h) in
  match st_threads s !! i with
  | Some (Outside (o :: calls)) =>
      if existsb (is_holder true) (st_threads s) || (is_writer o && existsb (is_holder false) (st_threads s)) then None
      else put (st_map s) (Inside o (body o) calls) (st_history s)
  | Some (Inside o (Read k) calls) => put (st_map s) (Inside o (k (st_map s)) calls) (st_history s)
  | Some (Inside o (Write f b) calls) => put (f (st_map s)) (Inside o b calls) (st_history s)
  | Some (Inside o (Return r) calls) => put (st_map s) (Outside calls) (st_history s ++ [(i, o, r)])
  | _ => None
  end.

(** ** The specification: a map and one method at a time *)

Definition spec (o : Method) (m : map_t) : map_t * Result :=
  match o with
  | MExists key => (m, RFlag (bool_decide (is_Some (m !! key))))
  | MGet key => (m, RValue (bool_decide (is_Some (m !! key))) (default inhabitant (m !! key)))
  | MTryGet key => (m, RFound (m !! key))
  | MSize => (m, RNumber (size m))
  | MEmpty => (m, RFlag (bool_decide (m = ∅)))
  | MForEach => (m, RVisited (map_to_list m))
  | MGetJson | MCopy => (m, RMap m)
  | MAdd key value => (<[key := value]> m, RNothing)
  | MModifyOrInsert key modifier => (<[key := modifier (default inhabitant (m !! key))]> m, RNothing)
  | MAddAll l => (foldl (fun m kv => <[kv.1 := kv.2]> m) m l, RNothing)
  | MRemove key => (delete key m, RFlag (bool_decide (is_Some (m !! key))))
  | MClear => (∅, RFlag (bool_decide (m <> ∅)))
  end.

(** A history of calls that ran one after the other. *)
Inductive sequential (m : map_t) : list (nat * Method * Result) -> map_t -> Prop :=
| sequential_nil : sequential m [] m
| sequential_snoc h i o r m1 m2 : sequential m h m1 -> spec o m1 = (m2, r) -> sequential m (h ++ [(i, o, r)]) m2.

(** The calls of a thread, in its order: those that returned, the one that runs and those
    to come. *)
Definition of_thread (i : nat) (h : list (nat * Method * Result)) : list Method :=
  omap (fun c => if decide (c.1.1 = i) then Some c.1.2 else None) h.
#[local] Arguments of_thread : simpl never.
Definition to_come (t : Thread) : list Method :=
  match t with Outside calls => calls | Inside o _ calls => o :: calls end.

(** ** Bodies *)

Lemma not_holder write l : existsb (is_holder write) l = false -> Forall (fun t => ~ holds write t) l.
Proof.
  induction l as [|t l IH]; cbn; [constructor|]. intros [Ht Hl]%orb_false_iff. constructor; [|auto].
  destruct t as [|o b calls]; cbn in *; [tauto|]. intros E. rewrite E in Ht. by destruct write.
Qed.
Lemma next_step i s s' : next i s = Some s' -> step s s'.
Proof.
  unfold next. destruct (st_threads s !! i) as [[[|o calls]|o [r|k|f b] calls]|] eqn:E; try done.
  - destruct (existsb (is_holder true) _) eqn:Ew; [done|]. destruct (is_writer o && _) eqn:Er; [done|]. intros [= <-].
    apply step_acquire; [done|]. split; [by apply not_holder|]. intros Ho. rewrite Ho in Er. by apply not_holder.
  - intros [= <-]. by apply step_release.
  - intros [= <-]. by apply step_read.
  - intros [= <-]. by apply step_write.
Qed.
Lemma steps_reach l : forall s s', foldl (fun s i => s ≫= next i) (Some s) l = Some s' -> rtc step s s'.
Proof.
  induction l as [|i l IH]; intros s s'; cbn; [by intros [= ->]; apply rtc_refl|].
  destruct (next i s) as [s1|] eqn:E; cbn.
  - intros Hl. eapply rtc_l; [by eapply next_step|by apply IH].
  - intros Hl. exfalso. clear IH. induction l as [|j l IHl]; cbn in Hl; [done|]. by apply IHl.
Qed.

(** A body that runs alone. *)
Fixpoint run (b : Body) (m : map_t) : map_t * Result :=
  match b with
  | Return r => (m, r)
  | Read k => run (k m) m
  | Write f b => run b (f m)
  end.

(** A body that only reads. *)
Inductive reading : Body -> Prop :=
| reading_return r : reading (Return r)
| reading_read k : (forall m, reading (k m)) -> reading (Read k).

Lemma visit_run m keys : forall visited,
  run (visit keys visited) m = (m, RVisited (visited ++ omap (fun key => pair key <$> m !! key) keys)).
Proof.
  induction keys as [|key keys IH]; intros visited; cbn; [by rewrite app_nil_r|]. rewrite IH.
  destruct (m !! key); cbn; by rewrite <- ?app_assoc, ?app_nil_r.
Qed.
Lemma visit_all (m : map_t) : omap (fun key => pair key <$> m !! key) (map_to_list m).*1 = map_to_list m.
Proof.
  assert (Forall (fun kv => m !! kv.1 = Some kv.2) (map_to_list m)) as Hl.
  { apply Forall_forall. intros [key v]. by rewrite elem_of_map_to_list. }
  induction (map_to_list m) as [|[key v] l IH]; [done|]. apply Forall_cons in Hl as [E Hl]. cbn in *. rewrite E. cbn. by rewrite IH.
Qed.
Lemma assign_all_run l : forall m, run (assign_all l) m = (foldl (fun m kv => <[kv.1 := kv.2]> m) m l, RNothing).
Proof. induction l as [|[key v] l IH]; intros m; [done|]. apply IH. Qed.

(** The body of a method that runs alone does what the specification says. *)
Lemma body_run o m : run (body o) m = spec o m.
Proof.
  destruct o as [key|key|key| | | | | |key v|key f|l|key|]; cbn; try done.
  - destruct (m !! key) eqn:E; cbn; by rewrite ?E.
  - destruct (m !! key) eqn:E; cbn; by rewrite ?E.
  - by rewrite (bool_decide_ext _ _ (map_size_empty_iff m)).
  - rewrite visit_run, visit_all. done.
  - rewrite alter_insert_eq. done.
  - apply assign_all_run.
  - do 2 f_equal. apply bool_decide_ext. by rewrite map_size_empty_iff.
Qed.

Lemma body_reading o : is_writer o = false -> reading (body o).
Proof.
  assert (forall keys visited, reading (visit keys visited)) as Hv.
  { induction keys; intros; cbn; constructor; auto. }
  destruct o; try done; intros _; unfold body; constructor; intros; auto; cbn; try case_match; repeat constructor.
Qed.
Lemma reading_run b m : reading b -> (run b m).1 = m.
Proof. induction 1 as [r|k _ IH]; cbn; auto. Qed.

(** ** The invariant of the lock *)

Definition inside (t : Thread) : Prop := match t with Inside _ _ _ => True | Outside _ => False end.

#[local] Instance inside_dec t : Decision (inside t).
Proof. destruct t; apply _. Defined.
Definition waiting (t : Thread) : Prop := match t with Outside (_ :: _) => True | _ => False end.
#[local] Instance waiting_dec t : Decision (waiting t).
Proof. destruct t as [[]|]; apply _. Defined.

(** The calls that returned ran one after the other up to a map; a call that runs, from
    the map as it is, does what it would do on that map; a writer is alone, and while
    there is none the map is that one. *)
Record lock_inv (m0 : map_t) (programs : list (list Method)) (s : State) : Prop := {
  li_order : forall i t, st_threads s !! i = Some t -> exists calls, programs !! i = Some calls /\ of_thread i (st_history s) ++ to_come t = calls;
  li_alone : forall i j ti tj, st_threads s !! i = Some ti -> st_threads s !! j = Some tj -> holds true ti -> inside tj -> i = j;
  li_base : exists m, sequential m0 (st_history s) m /\
    (forall i o b calls, st_threads s !! i = Some (Inside o b calls) -> run b (st_map s) = spec o m /\ (is_writer o = false -> reading b)) /\
    ((forall i t, st_threads s !! i = Some t -> ~ holds true t) -> st_map s = m)
}.

Lemma of_thread_snoc i h c : of_thread i (h ++ [c]) = of_thread i h ++ (if decide (c.1.1 = i) then [c.1.2] else []).
Proof. unfold of_thread. rewrite omap_app. cbn. by destruct (decide _). Qed.

(** A thread that goes on inside of the lock. *)
Lemma go_on m0 programs s i o b b' calls m' : lock_inv m0 programs s ->
  st_threads s !! i = Some (Inside o b calls) -> run b' m' = run b (st_map s) -> (reading b -> reading b') ->
  (m' = st_map s \/ is_writer o = true) ->
  lock_inv m0 programs (mkState m' (<[i := Inside o b' calls]> (st_threads s)) (st_history s)).
Proof.
  intros [Ho Ha (m & Hs & Hr & Hm)] Hi Hrun Hread Hw. assert (Hlt := lookup_lt_Some _ _ _ Hi).
  assert (is_writer o = true -> forall j tj, st_threads s !! j = Some tj -> j <> i -> ~ inside tj) as Hal.
  { intros Hwo j tj Hj Hne Hin. apply Hne. symmetry. by apply (Ha i j _ _ Hi Hj). }
  split; cbn.
  - intros j t [[<- <-]|[Hne Hj]]%list_lookup_insert_Some'; [|by apply Ho]. destruct (Ho i _ Hi) as (c & Hc & E). by exists c.
  - intros j1 j2 t1 t2 [[<- <-]|[Hn1 H1]]%list_lookup_insert_Some' [[<- <-]|[Hn2 H2]]%list_lookup_insert_Some' Hh Hin; [done|..|by eapply Ha].
    + by eapply (Ha i j2 _ _ Hi H2).
    + by eapply (Ha j1 i _ _ H1 Hi).
  - exists m. split_and!; [done| |].
    + intros j o' c calls' [[<- [= <- <- <-]]|[Hne Hj]]%list_lookup_insert_Some'.
      * destruct (Hr i o b calls Hi) as [E Hrd]. rewrite Hrun. auto.
      * destruct Hw as [-> | Hw]; [by eapply Hr|]. by destruct (Hal Hw j _ Hj Hne).
    + intros Hno. destruct Hw as [-> | Hw].
      * apply Hm. intros j t Hj Hh. destruct (decide (j = i)) as [->|Hne].
        -- rewrite Hi in Hj. simplify_eq. apply (Hno i (Inside o b' calls)); [by apply list_lookup_insert_eq|done].
        -- by apply (Hno j t); [rewrite list_lookup_insert_ne|].
      * destruct (Hno i (Inside o b' calls)); [by apply list_lookup_insert_eq|done].
Qed.

Lemma acquire_inv m0 programs s i o calls : lock_inv m0 programs s ->
  st_threads s !! i = Some (Outside (o :: calls)) -> free_for (is_writer o) s ->
  lock_inv m0 programs (mkState (st_map s) (<[i := Inside o (body o) calls]> (st_threads s)) (st_history s)).
Proof.
  intros [Ho Ha (m & Hs & Hr & Hm)] Hi [Hw Hr']. assert (Hlt := lookup_lt_Some _ _ _ Hi). rewrite Forall_lookup in Hw.
  assert (st_map s = m) as Em by (apply Hm; intros j t Hj; by eapply Hw).
  assert (is_writer o = true -> forall j t, st_threads s !! j = Some t -> ~ inside t) as Hal.
  { intros E j t Hj Hin. specialize (Hr' E). rewrite Forall_lookup in Hr'. specialize (Hw j t Hj). specialize (Hr' j t Hj).
    destruct t as [|o' b' c']; [done|]. cbn in *. by destruct (is_writer o'). }
  split; cbn.
  - intros j t [[<- <-]|[Hne Hj]]%list_lookup_insert_Some'; [|by apply Ho]. by destruct (Ho i _ Hi) as (c & Hc & E); exists c.
  - intros j1 j2 t1 t2 [[<- <-]|[Hn1 H1]]%list_lookup_insert_Some' [[<- <-]|[Hn2 H2]]%list_lookup_insert_Some' Hh Hin; [done|..|by eapply Ha].
    + by destruct (Hal Hh j2 _ H2).
    + by destruct (Hw j1 _ H1).
  - exists m. split_and!; [done| |by intros].
    intros j o' c calls' [[<- [= <- <- <-]]|[Hne Hj]]%list_lookup_insert_Some'; [|by eapply Hr].
    rewrite Em, body_run. split; [done|apply body_reading].
Qed.

Lemma release_inv m0 programs s i o r calls : lock_inv m0 programs s ->
  st_threads s !! i = Some (Inside o (Return r) calls) ->
  lock_inv m0 programs (mkState (st_map s) (<[i := Outside calls]> (st_threads s)) (st_history s ++ [(i, o, r)])).
Proof.
  intros [Ho Ha (m & Hs & Hr & Hm)] Hi. assert (Hlt := lookup_lt_Some _ _ _ Hi).
  destruct (Hr i o _ calls Hi) as [E _]. cbn in E.
  assert (forall j t, st_threads s !! j = Some t -> j <> i -> inside t -> st_map s = m) as Hsame.
  { intros j t Hj Hne Hin. apply Hm. intros j' t' Hj' Hh. apply Hne.
    assert (j' = i) as -> by by eapply (Ha j' i). symmetry. by eapply (Ha i j). }
  split; cbn.
  - intros j t [[<- <-]|[Hne Hj]]%list_lookup_insert_Some'; rewrite of_thread_snoc; cbn.
    + rewrite decide_True by done. destruct (Ho i _ Hi) as (c & Hc & Ec). exists c. split; [done|]. by rewrite <- app_assoc.
    + rewrite decide_False by done. rewrite app_nil_r. by apply Ho.
  - intros j1 j2 t1 t2 [[<- <-]|[Hn1 H1]]%list_lookup_insert_Some' [[<- <-]|[Hn2 H2]]%list_lookup_insert_Some' Hh Hin; [done..|by eapply Ha].
  - exists (st_map s). split_and!; [by eapply sequential_snoc| |done].
    intros j o' c calls' [[<- [=]]|[Hne Hj]]%list_lookup_insert_Some'. rewrite (Hsame j _ Hj Hne I) at 2. by eapply Hr.
Qed.

Lemma step_inv m0 programs s s' : lock_inv m0 programs s -> step s s' -> lock_inv m0 programs s'.
Proof.
  intros Hi Hst. destruct Hst as [s i o calls Ht Hf|s i o k calls Ht|s i o f b calls Ht|s i o r calls Ht].
  - by apply acquire_inv.
  - eapply go_on; [done|done|done| |by left]. by inversion 1; subst.
  - eapply go_on; [done|done|done|by inversion 1|]. right.
    destruct (li_base _ _ _ Hi) as (m & _ & Hr & _). destruct (Hr i o _ calls Ht) as [_ Hrd].
    destruct (is_writer o); [done|]. by specialize (Hrd eq_refl); inversion Hrd.
  - by apply release_inv.
Qed.

(** ** Properties *)

Definition start (m : map_t) (programs : list (list Method)) : State := mkState m (Outside <$> programs) [].

Lemma lock_reachable m programs s : rtc step (start m programs) s -> lock_inv m programs s.
Proof.
  intros Hs. assert (lock_inv m programs (start m programs)) as Hstart.
  { split; cbn.
    - intros i t Ht. apply list_lookup_fmap_Some in Ht as (calls & -> & Hc). by exists calls.
    - intros i j ti tj Hi _ Hh. apply list_lookup_fmap_Some in Hi as (calls & -> & _). done.
    - exists m. split_and!; [constructor| |done]. intros i o b calls Hi. apply list_lookup_fmap_Some in Hi as (c & ? & _). done. }
  induction Hs as [s|s1 s2 s3 Hst _ IH]; [done|]. apply IH. by eapply step_inv.
Qed.

(** C7: whatever the threads that call the methods of a map, and however their accesses to
    it interleave, the results are those of the same calls one after the other, in an order
    that is the one of each thread, and while no thread writes the map is the one after the
    calls that returned. *)
Theorem map_is_linearizable (m : map_t) (programs : list (list Method)) (s : State) (Hs : rtc step (start m programs) s) :
  exists m', sequential m (st_history s) m' /\
    (Forall (fun t => ~ holds true t) (st_threads s) -> st_map s = m') /\
    (forall i t, st_threads s !! i = Some t -> programs !! i = Some (of_thread i (st_history s) ++ to_come t)).
Proof.
  destruct (lock_reachable _ _ _ Hs) as [Ho _ (m' & Hq & _ & Hm)]. exists m'. split_and!; [done| |].
  - rewrite Forall_lookup. exact Hm.
  - intros i t Ht. destruct (Ho i t Ht) as (calls & Hc & <-). done.
Qed.

(** No deadlock: as long as a thread has a call to make or to end, some thread can go on. *)
Theorem map_never_blocks (s : State) : (exists s', step s s') \/ Forall (fun t => t = Outside []) (st_threads s).
Proof.
  destruct (decide (Exists inside (st_threads s))) as [He|Hn].
  - left. apply Exists_exists in He as (t & (i & Hi)%list_elem_of_lookup_1 & Hin).
    destruct t as [|o [r|k|f b] calls]; [done|eexists; by eapply step_release|eexists; by eapply step_read|eexists; by eapply step_write].
  - rewrite <- Forall_Exists_neg in Hn. destruct (decide (Exists waiting (st_threads s))) as [He|Hd].
    + left. apply Exists_exists in He as (t & (i & Hi)%list_elem_of_lookup_1 & Hw). destruct t as [[|o calls]|]; [done| |done].
      eexists. eapply step_acquire; [exact Hi|]. split; [|intros _]; (eapply Forall_impl; [exact Hn|]; by intros []).
    + right. rewrite <- Forall_Exists_neg in Hd. apply Forall_forall. intros t Ht. rewrite Forall_forall in Hn, Hd.
      specialize (Hn t Ht). specialize (Hd t Ht). by destruct t as [[|o calls]|].
Qed.
End Map.

(** ** Witness *)

Module LockedMapExamples.
Definition programs : list (list (Method (K := nat) (V := nat))) := [[MModifyOrInsert 1 S]; [MGet 1]; [MTryGet 1]].

(** A writer, and then two readers that are inside of the lock at the same time. *)
Definition last : State (K := nat) (V := nat) :=
  mkState {[1 := 1]} [Outside []; Outside []; Outside []]
    [(0, MModifyOrInsert 1 S, RNothing); (2, MTryGet 1, RFound (Some 1)); (1, MGet 1, RValue true 1)].
Lemma last_reachable : rtc step (start ∅ programs) last.
Proof. apply (steps_reach [0; 0; 0; 0; 1; 2; 2; 2; 1; 1; 2; 1]). vm_compute. reflexivity. Qed.

Lemma map_is_linearizable_witness : sequential ∅ (st_history last) {[1 := 1]} /\ programs !! 1 = Some [MGet 1].
Proof.
  destruct (map_is_linearizable ∅ programs last last_reachable) as (m' & Hs & Hm & Ho). split.
  - rewrite <- Hm in Hs; [exact Hs|]. by apply not_holder.
  - exact (Ho 1 (Outside []) eq_refl).
Defined.
End LockedMapExamples.
