(* ===== verification/TypeConverter.v ===== *)
(** [src/model/TypeConverter.cpp]: the value a transformation moves from its
    source to its target, with its native type and conversions, and the variable
    substitution ([searchReplaceAll], [replaceVariables]). *)
From S2P Require Import Prelude Std Double Functions Query Json JsonModel.
From Stdlib Require Import SpecFloat.
From stdpp Require Import options.
#[local] Open Scope Z_scope.

(** ** Search and replace *)

(** [str.replace(pos, len, to)] *)
Definition replace_at (s : string) (pos len : nat) (to : string) : string :=
  stake pos s +:+ to +:+ sdrop (pos + len) s.

(** The [while] of [searchReplaceAll]; [None] is an exhausted budget. *)
Fixpoint search_loop (fuel : nat) (s from to : string) (pos : nat) : option string :=
  match fuel with
  | O => None
  | S fuel =>
      match find_sub from (sdrop pos s) with
      | None => Some s
      | Some i =>
          let pos := (pos + i)%nat in
          search_loop fuel (replace_at s pos (String.length from) to) from to (pos + String.length to)
      end
  end.

(** A non-empty pattern is consumed by every turn. *)
Definition searchReplaceAll (s from to : string) : option string :=
  search_loop (S (String.length s)) s from to 0.

(** ** Lemmas on the first occurrence *)

Lemma find_sub_Some p s i :
  find_sub p s = Some i ->
  exists a b, s = a +:+ p +:+ b /\ String.length a = i /\
    forall j, (j < i)%nat -> starts_with p (sdrop j s) = false.
Proof.
  revert i. induction s as [|c s IH]; intros i.
  - cbn. destruct (starts_with p "") eqn:E; [|done]. intros [= <-].
    apply starts_with_spec in E as [t Ht]. exists "", t. split_and!; [done|done|lia].
  - cbn [find_sub]. destruct (starts_with p (String c s)) eqn:E.
    + intros [= <-]. apply starts_with_spec in E as [t Ht]. exists "", t. split_and!; [done|done|lia].
    + destruct (find_sub p s) as [j|]; cbn; intros [= <-].
      destruct (IH _ eq_refl) as (a & b & -> & <- & Hno).
      exists (String c a), b. split_and!; [done..|]. intros [|j] Hj; [done|]. apply Hno. lia.
Qed.

Lemma find_sub_None p s : find_sub p s = None -> forall a b, s <> a +:+ p +:+ b.
Proof.
  induction s as [|c s IH]; cbn [find_sub]; destruct (starts_with p _) eqn:E; try done.
  - intros _ a b H. destruct a; [|by rewrite string_app_cons in H].
    assert (starts_with p "" = true); [|congruence]. apply starts_with_spec. by exists b.
  - destruct (find_sub p s) eqn:Ef; [done|]. intros _ a b H. destruct a as [|d a].
    + assert (starts_with p (String c s) = true); [|congruence]. apply starts_with_spec. by exists b.
    + rewrite string_app_cons in H. simplify_eq. by apply (IH eq_refl a b).
Qed.

Lemma replace_at_app x from b to :
  replace_at (x +:+ from +:+ b) (String.length x) (String.length from) to = x +:+ to +:+ b.
Proof. unfold replace_at. by rewrite stake_app, <- sdrop_sdrop, !sdrop_app. Qed.

(** The result: the text between occurrences kept, every occurrence found from
    the left replaced, and the replacement never searched again. *)
Inductive replaced (from to : string) : string -> string -> Prop :=
| replaced_none s : (forall a b, s <> a +:+ from +:+ b) -> replaced from to s s
| replaced_first a b t :
    find_sub from (a +:+ from +:+ b) = Some (String.length a) ->
    replaced from to b t -> replaced from to (a +:+ from +:+ b) (a +:+ to +:+ t).

Lemma search_loop_replaced from to : from <> "" ->
  forall fuel p s, (String.length s < fuel)%nat ->
    exists t, search_loop fuel (p +:+ s) from to (String.length p) = Some (p +:+ t) /\ replaced from to s t.
Proof.
  intros Hne. induction fuel as [|fuel IH]; intros p s Hf; [lia|].
  cbn [search_loop]. rewrite sdrop_app. destruct (find_sub from s) as [i|] eqn:Hs.
  - pose proof Hs as Hs'. apply find_sub_Some in Hs' as (a & b & -> & <- & _).
    assert (0 < String.length from)%nat by (destruct from; [done|cbn; lia]).
    rewrite !slength_app in Hf.
    destruct (IH (p +:+ a +:+ to) b) as (t & Ht & Hr); [lia|].
    exists (a +:+ to +:+ t). split; [|by constructor].
    rewrite <- (string_app_assoc p a), <- slength_app, replace_at_app, <- slength_app.
    rewrite <- (string_app_assoc p a) in Ht.
    rewrite <- (string_app_assoc (p +:+ a) to), Ht. by rewrite !string_app_assoc.
  - exists s. split; [done|]. constructor. by apply find_sub_None.
Qed.

Lemma searchReplaceAll_replaced s from to :
  from <> "" -> exists t, searchReplaceAll s from to = Some t /\ replaced from to s t.
Proof.
  intros Hne. unfold searchReplaceAll.
  destruct (search_loop_replaced from to Hne (S (String.length s)) "" s) as (t & Ht & Hr); [lia|].
  by exists t.
Qed.

(** ** Variables *)

(** [jsonToString] of [Vault.hpp]. *)
Definition jsonToString `{JsonText} (j : json) : outcome string :=
  match j with
  | JString s => Val s
  | JNull => Val ""
  | _ => json_dump j
  end.

(** The body of the loop over the patterns: a local variable has priority over a
    vault entry of the same name; an unknown name is left as it is. *)
Definition replace_one `{JsonText} (vars : gmap string string) (vault : gmap string json)
    (s : string) (pattern : string * string) : outcome string :=
  match vars !! pattern.2 with
  | Some v => Val (default s (searchReplaceAll s pattern.1 v))
  | None =>
      match vault !! pattern.2 with
      | Some j => let! v := jsonToString j in Val (default s (searchReplaceAll s pattern.1 v))
      | None => Val s
      end
  end.

Fixpoint replace_patterns `{JsonText} (vars : gmap string string) (vault : gmap string json)
    (s : string) (patterns : list (string * string)) : outcome string :=
  match patterns with
  | [] => Val s
  | p :: ps => let! s := replace_one vars vault s p in replace_patterns vars vault s ps
  end.

(** [replaceVariables(str, patterns, vars, vault)] with its two early exits. *)
Definition replaceVariables `{JsonText} (s : string) (patterns : gmap string string)
    (vars : gmap string string) (vault : gmap string json) : outcome string :=
  if bool_decide (patterns = ∅) then Val s
  else if bool_decide (vars = ∅) && bool_decide (vault = ∅) then Val s
  else replace_patterns vars vault s (map_entries patterns).

(** ** [TypeConverter] *)

Inductive NativeType := TString | TInteger | TUnsigned | TFloat | TBoolean | TObject.
#[global] Instance NativeType_eq_dec : EqDecision NativeType.
Proof. solve_decision. Defined.

Record TypeConverter := mkTC {
  s_value_ : string;
  i_value_ : Z;
  u_value_ : Z;
  f_value_ : double;
  b_value_ : bool;
  j_value_ : json;
  native_type_ : NativeType
}.

(** [clear()] and the constructor. [j_value_.clear()] keeps the type of the
    document and empties it. *)
Definition json_clear (j : json) : json :=
  match j with
  | JNull => JNull
  | JBool _ => JBool false
  | JInt _ => JInt 0
  | JUint _ => JUint 0
  | JFloat _ => JFloat (S754_zero false)
  | JString _ => JString ""
  | JArray _ => JArray []
  | JObject _ => JObject []
  end.

Definition tc_clear (t : TypeConverter) : TypeConverter :=
  {| s_value_ := ""; i_value_ := 0; u_value_ := 0; f_value_ := S754_zero false; b_value_ := false;
     j_value_ := json_clear (j_value_ t); native_type_ := TString |}.

Definition TypeConverter_new : TypeConverter :=
  {| s_value_ := ""; i_value_ := 0; u_value_ := 0; f_value_ := S754_zero false; b_value_ := false;
     j_value_ := JNull; native_type_ := TString |}.

Definition put_s (s : string) (t : TypeConverter) : TypeConverter :=
  {| s_value_ := s; i_value_ := i_value_ t; u_value_ := u_value_ t; f_value_ := f_value_ t;
     b_value_ := b_value_ t; j_value_ := j_value_ t; native_type_ := native_type_ t |}.
Definition put_i (i : Z) (t : TypeConverter) : TypeConverter :=
  {| s_value_ := s_value_ t; i_value_ := i; u_value_ := u_value_ t; f_value_ := f_value_ t;
     b_value_ := b_value_ t; j_value_ := j_value_ t; native_type_ := native_type_ t |}.
Definition put_u (u : Z) (t : TypeConverter) : TypeConverter :=
  {| s_value_ := s_value_ t; i_value_ := i_value_ t; u_value_ := u; f_value_ := f_value_ t;
     b_value_ := b_value_ t; j_value_ := j_value_ t; native_type_ := native_type_ t |}.
Definition put_f (f : double) (t : TypeConverter) : TypeConverter :=
  {| s_value_ := s_value_ t; i_value_ := i_value_ t; u_value_ := u_value_ t; f_value_ := f;
     b_value_ := b_value_ t; j_value_ := j_value_ t; native_type_ := native_type_ t |}.
Definition put_b (b : bool) (t : TypeConverter) : TypeConverter :=
  {| s_value_ := s_value_ t; i_value_ := i_value_ t; u_value_ := u_value_ t; f_value_ := f_value_ t;
     b_value_ := b; j_value_ := j_value_ t; native_type_ := native_type_ t |}.
Definition put_j (j : json) (t : TypeConverter) : TypeConverter :=
  {| s_value_ := s_value_ t; i_value_ := i_value_ t; u_value_ := u_value_ t; f_value_ := f_value_ t;
     b_value_ := b_value_ t; j_value_ := j; native_type_ := native_type_ t |}.
Definition put_type (n : NativeType) (t : TypeConverter) : TypeConverter :=
  {| s_value_ := s_value_ t; i_value_ := i_value_ t; u_value_ := u_value_ t; f_value_ := f_value_ t;
     b_value_ := b_value_ t; j_value_ := j_value_ t; native_type_ := n |}.

(** Setters. *)
Definition setString (s : string) (t : TypeConverter) : TypeConverter := put_type TString (put_s s (tc_clear t)).
Definition setInteger (i : Z) (t : TypeConverter) : TypeConverter := put_type TInteger (put_i i (tc_clear t)).
Definition setUnsigned (u : Z) (t : TypeConverter) : TypeConverter := put_type TUnsigned (put_u u (tc_clear t)).
Definition setFloat (f : double) (t : TypeConverter) : TypeConverter := put_type TFloat (put_f f (tc_clear t)).
Definition setBoolean (b : bool) (t : TypeConverter) : TypeConverter := put_type TBoolean (put_b b (tc_clear t)).

Definition setStringReplacingVariables `{JsonText} (s : string) (patterns vars : gmap string string)
    (vault : gmap string json) (t : TypeConverter) : outcome TypeConverter :=
  let t := setString s t in
  let! s' := replaceVariables (s_value_ t) patterns vars vault in
  Val (put_s s' t).

(** [setObject(jsonSource, path)]: success and the converter. *)
Definition setObject `{JsonPointer} (jsonSource : json) (path : string) (t : TypeConverter)
    : bool * TypeConverter :=
  let t := tc_clear t in
  let typed (j : json) : bool * TypeConverter :=
    let t := put_j j t in
    (true, match j with
           | JObject _ | JArray _ => put_type TObject t
           | JString s => put_type TString (put_s s t)
           | JUint u => put_type TUnsigned (put_u u t)
           | JInt i => put_type TInteger (put_i i t)
           | JFloat f => put_type TFloat (put_f f t)
           | JBool b => put_type TBoolean (put_b b t)
           | JNull => t
           end) in
  if sempty path then typed jsonSource
  else match json_at path jsonSource with
       | Throw _ => (false, t)
       | Val j => if json_empty j then (false, put_j j t) else typed j
       end.

(** [s.erase(s.find_last_not_of(c) + 1)]: drop the trailing [c]s. *)
Definition trim_end (c : ascii) (s : string) : string :=
  str (rev ((fix go (l : list ascii) := match l with
                                        | [] => []
                                        | x :: l' => if decide (x = c) then go l' else l
                                        end) (rev (chars s)))).

(** Getters: the converter after the call (conversions are cached), success and
    value.  [ub] is the value of a conversion C++ leaves undefined. *)
Section Getters.
Context `{JsonText} (ub : double -> Z).

Definition getString (t : TypeConverter) : outcome (TypeConverter * string) :=
  let! s := match native_type_ t with
            | TObject => json_dump (j_value_ t)
            | TInteger => Val (to_string_i (i_value_ t))
            | TUnsigned => Val (to_string_u (u_value_ t))
            | TFloat => Val (trim_end "." (trim_end "0" (d_to_string (f_value_ t))))
            | TBoolean => Val (if b_value_ t then "true" else "false")
            | TString => Val (s_value_ t)
            end in
  Val (put_s s t, s).

Definition getInteger (t : TypeConverter) : TypeConverter * bool * Z :=
  let ok (i : Z) := (put_i i t, true, i) in
  match native_type_ t with
  | TObject => (t, false, i_value_ t)
  | TString => match stoll (s_value_ t) with Val i => ok i | Throw _ => (t, false, i_value_ t) end
  | TUnsigned => ok (to_i64 (u_value_ t))
  | TFloat => ok (default (ub (f_value_ t)) (d_to_i64 (f_value_ t)))
  | TBoolean => ok (if b_value_ t then 1 else 0)
  | TInteger => ok (i_value_ t)
  end.

Definition getUnsigned (t : TypeConverter) : TypeConverter * bool * Z :=
  let ok (u : Z) := (put_u u t, true, u) in
  match native_type_ t with
  | TObject => (t, false, u_value_ t)
  | TString => match stoull (s_value_ t) with Val u => ok u | Throw _ => (t, false, u_value_ t) end
  | TInteger => ok (to_u64 (i_value_ t))
  | TFloat => ok (default (ub (f_value_ t)) (d_to_u64 (f_value_ t)))
  | TBoolean => ok (if b_value_ t then 1 else 0)
  | TUnsigned => ok (u_value_ t)
  end.

Definition getFloat (t : TypeConverter) : TypeConverter * bool * double :=
  let ok (f : double) := (put_f f t, true, f) in
  match native_type_ t with
  | TObject => (t, false, f_value_ t)
  | TString => match stod (s_value_ t) with Val f => ok f | Throw _ => (t, false, f_value_ t) end
  | TInteger => ok (d_of_Z (i_value_ t))
  | TUnsigned => ok (d_of_Z (u_value_ t))
  | TBoolean => ok (d_of_Z (if b_value_ t then 1 else 0))
  | TFloat => ok (f_value_ t)
  end.

Definition getBoolean (t : TypeConverter) : TypeConverter * bool * bool :=
  let ok (b : bool) := (put_b b t, true, b) in
  match native_type_ t with
  | TObject => (t, false, b_value_ t)
  | TString => ok (negb (sempty (s_value_ t)))
  | TInteger => ok (negb (i_value_ t =? 0))
  | TUnsigned => ok (negb (u_value_ t =? 0))
  | TFloat => ok (negb (d_eqb (f_value_ t) (S754_zero false)))
  | TBoolean => ok (b_value_ t)
  end.

Definition getObject (t : TypeConverter) : bool * json :=
  (bool_decide (native_type_ t = TObject), j_value_ t).

End Getters.

(** ** Machine ranges *)

Definition tc_wf (t : TypeConverter) : Prop := is_i64 (i_value_ t) /\ is_u64 (u_value_ t).

Lemma zero_i64 : is_i64 0. Proof. done. Qed.
Lemma zero_u64 : is_u64 0. Proof. done. Qed.
Lemma bool_i64 (b : bool) : is_i64 (if b then 1 else 0). Proof. by destruct b. Qed.
Lemma bool_u64 (b : bool) : is_u64 (if b then 1 else 0). Proof. by destruct b. Qed.
#[export] Hint Resolve zero_i64 zero_u64 bool_i64 bool_u64 : h2.

(** Numbers of a document are in the range of their type. *)
Definition json_num_ok (j : json) : Prop :=
  match j with JInt i => is_i64 i | JUint u => is_u64 u | _ => True end.

Lemma d_to_i64_range f i : d_to_i64 f = Some i -> is_i64 i.
Proof.
  unfold d_to_i64, is_i64. destruct (d_trunc f) as [z|]; [|done].
  destruct (Z.leb_spec i64_min z), (Z.leb_spec z i64_max); cbn; try done. by intros [= <-].
Qed.
Lemma d_to_u64_range f u : d_to_u64 f = Some u -> is_u64 u.
Proof.
  unfold d_to_u64, is_u64. destruct (d_trunc f) as [z|]; [|done].
  destruct (Z.leb_spec 0 z), (Z.leb_spec z u64_max); cbn; try done. by intros [= <-].
Qed.

Lemma setObject_wf `{JsonPointer} j path t :
  json_num_ok j -> (forall j', json_at path j = Val j' -> json_num_ok j') -> tc_wf (setObject j path t).2.
Proof.
  intros Hj Hp. unfold setObject. destruct (sempty path).
  - destruct j; cbn; split; cbn; auto with h2.
  - destruct (json_at path j) as [j'|] eqn:E; [|split; cbn; auto with h2].
    specialize (Hp _ eq_refl). destruct (json_empty j'); [split; cbn; auto with h2|].
    destruct j'; cbn; split; cbn; auto with h2.
Qed.

Section Properties.
Context `{JsonText} (ub : double -> Z).

(** Substitution of a non-empty pattern ends, keeps the text between the
    occurrences found from the left, replaces each of them, and never searches the
    replacement text again. *)
Theorem searchReplaceAll_correct s from to (Hne : from <> "") :
  exists t, searchReplaceAll s from to = Some t /\ replaced from to s t.
Proof. by apply searchReplaceAll_replaced. Qed.

(** A 64-bit integer, signed or unsigned, set in the converter, read as a string
    and set again as that string converts back to itself. *)
Theorem numbers_survive_strings (i u : Z) (t t' : TypeConverter) (Hi : is_i64 i) (Hu : is_u64 u) :
  (exists s, (let! '(_, s) := getString (setInteger i t) in Val s) = Val s /\
     (let '(_, ok, v) := getInteger ub (setString s t') in (ok, v)) = (true, i)) /\
  (exists s, (let! '(_, s) := getString (setUnsigned u t) in Val s) = Val s /\
     (let '(_, ok, v) := getUnsigned ub (setString s t') in (ok, v)) = (true, u)).
Proof.
  split.
  - exists (to_string_i i). split; [done|]. unfold getInteger. cbn. by rewrite stoll_to_string.
  - exists (to_string_u u). split; [done|]. unfold getUnsigned. cbn. unfold stoull, to_string_u.
    by rewrite stoull_render by (done || lia).
Qed.

(** Whatever the native type, the integer getters return values of their width
    and keep the converter well formed; they fail exactly on documents and on
    strings that are not numbers of that width. *)
Theorem integer_getters_in_range (t : TypeConverter) (Hwf : tc_wf t)
  (Hub : forall f, is_i64 (ub f) /\ is_u64 (ub f)) :
  (let '(t', ok, v) := getInteger ub t in
   tc_wf t' /\ is_i64 v /\
   (ok = false <-> native_type_ t = TObject \/ (native_type_ t = TString /\ exists e, stoll (s_value_ t) = Throw e))) /\
  (let '(t', ok, v) := getUnsigned ub t in
   tc_wf t' /\ is_u64 v /\
   (ok = false <-> native_type_ t = TObject \/ (native_type_ t = TString /\ exists e, stoull (s_value_ t) = Throw e))).
Proof.
  destruct Hwf as [Hi Hu]. split.
  - unfold getInteger. destruct (native_type_ t); [destruct (stoll (s_value_ t)) eqn:E|..]; cbn; unfold tc_wf; cbn;
      split_and!; auto with h2; try naive_solver; try (by eapply stoll_range);
      destruct (d_to_i64 (f_value_ t)) eqn:Ed; cbn; try apply Hub; by eapply d_to_i64_range.
  - unfold getUnsigned. destruct (native_type_ t); [destruct (stoull (s_value_ t)) eqn:E|..]; cbn; unfold tc_wf; cbn;
      split_and!; auto with h2; try naive_solver; try (by eapply stoull_range);
      destruct (d_to_u64 (f_value_ t)) eqn:Ed; cbn; try apply Hub; by eapply d_to_u64_range.
Qed.
End Properties.

(** ** Witnesses *)

Module TCExamples.
Lemma searchReplaceAll_correct_witness :
  exists t, searchReplaceAll "a@{x}b@{x}" "@{x}" "@{x}!" = Some t /\ t = "a@{x}!b@{x}!".
Proof.
  assert ("@{x}" <> "") as Hne by done.
  destruct (searchReplaceAll_correct "a@{x}b@{x}" "@{x}" "@{x}!" Hne) as (t & Ht & _).
  exists t. split; [exact Ht|]. vm_compute in Ht. congruence.
Defined.

Lemma numbers_survive_strings_witness :
  exists s, s = "-9223372036854775808" /\
    (let '(_, ok, v) := getInteger (fun _ => 0) (setString s TypeConverter_new) in (ok, v)) = (true, - 2 ^ 63).
Proof.
  destruct (numbers_survive_strings (fun _ => 0) (- 2 ^ 63) 0 TypeConverter_new TypeConverter_new) as [(s & Hs & Hv) _].
  - unfold is_i64, i64_min, i64_max. lia.
  - unfold is_u64, u64_max. lia.
  - exists s. split; [|exact Hv]. vm_compute in Hs. congruence.
Defined.

Lemma integer_getters_in_range_witness :
  is_i64 (getInteger (fun _ => 0) (setUnsigned (2 ^ 64 - 1) TypeConverter_new)).2.
Proof.
  destruct (integer_getters_in_range (fun _ => 0) (setUnsigned (2 ^ 64 - 1) TypeConverter_new)) as [H1 _].
  - split; unfold is_i64, is_u64, u64_max, i64_min, i64_max; cbn; lia.
  - intros f. split; unfold is_i64, is_u64, u64_max, i64_min, i64_max; lia.
  - exact (proj1 (proj2 H1)).
Defined.
End TCExamples.
