(* ===== verification/Vault.v ===== *)
(** [src/model/Vault.cpp], [SseManager.cpp] and [WaitManager.cpp]: the store of
    entries shared by all the provisions, the publication of its writes to the
    subscribed connections, and the blocking wait for a change of an entry. *)
From S2P Require Import Prelude Std Json JsonModel TypeConverter.
From stdpp Require Import options.
#[local] Open Scope Z_scope.

(** ** [SseManager] *)

(** A connection watches a set of keys (all of them when empty); what its write
    callback was given is kept in order. *)
Record Connection := mkConnection {
  c_keys : gset string;
  c_written : list string
}.

Record SseManager := mkSse {
  connections_ : gmap Z Connection;
  next_id_ : Z
}.

Definition SseManager_new : SseManager := {| connections_ := ∅; next_id_ := 1 |}.

(** [addConnection(keys, writeCb)]; the counter is a [uint64_t]. *)
Definition addConnection (keys : gset string) (m : SseManager) : Z * SseManager :=
  let id := next_id_ m in
  (id, {| connections_ := <[id := mkConnection keys []]> (connections_ m); next_id_ := to_u64 (id + 1) |}).

Definition removeConnection (id : Z) (m : SseManager) : SseManager :=
  {| connections_ := delete id (connections_ m); next_id_ := next_id_ m |}.

Definition newline : string := String (cz 10) "".

Definition sse_event (key dump : string) : string :=
  "event: vault-set" +:+ newline +:+ "data: " +:+ dump +:+ newline +:+ newline.

Definition watches (key : string) (c : Connection) : bool :=
  bool_decide (c_keys c = ∅) || bool_decide (key ∈ c_keys c).

Definition deliver (key event : string) (c : Connection) : Connection :=
  if watches key c then mkConnection (c_keys c) (c_written c ++ [event]) else c.

(** [notify(key, value)]: the text is built only if somebody listens, and building
    it may throw; an exception of a callback is swallowed. *)
Definition sse_notify `{JsonText} (key : string) (value : json) : M SseManager unit := fun m =>
  if bool_decide (connections_ m = ∅) then (m, Val tt)
  else
    let data := json_set "value" value (json_set "key" (JString key) JNull) in
    match json_dump data with
    | Throw e => (m, Throw e)
    | Val dump =>
        ({| connections_ := deliver key (sse_event key dump) <$> connections_ m; next_id_ := next_id_ m |}, Val tt)
    end.

Definition activeConnections (m : SseManager) : Z := Z.of_nat (size (connections_ m)).

(** ** [Vault] *)

(** The map, the number of calls to [wait_manager_->notify()], and the streams. *)
Record Vault := mkVault {
  v_map : gmap string json;
  v_wakeups : nat;
  v_sse : SseManager
}.

Definition Vault_new : Vault := {| v_map := ∅; v_wakeups := 0; v_sse := SseManager_new |}.

Definition v_add (k : string) (j : json) (v : Vault) : Vault :=
  {| v_map := <[k := j]> (v_map v); v_wakeups := v_wakeups v; v_sse := v_sse v |}.
Definition v_wake (v : Vault) : Vault :=
  {| v_map := v_map v; v_wakeups := S (v_wakeups v); v_sse := v_sse v |}.
Definition v_publish `{JsonText} (k : string) (j : json) : M Vault unit := fun v =>
  let '(m, o) := sse_notify k j (v_sse v) in
  ({| v_map := v_map v; v_wakeups := v_wakeups v; v_sse := m |}, o).

(** [tryGet] of [Map.hpp] *)
Definition v_tryGet (k : string) (v : Vault) : option json := v_map v !! k.

(** Both overloads of [load]: the second one reads the stored value back. *)
Definition vault_load `{JsonText} (variable : string) (value : json) : M Vault unit :=
  modify (v_add variable value) ;;;
  modify v_wake ;;;
  v_publish variable value.

(** [loadAtPath]: the node is written in place, under the lock of the map; a value
    that is not an object is replaced by an empty one first. *)
Definition loadAtPath `{JsonText} `{JsonPointer} (variable path : string) (value : json) : M Vault unit := fun v =>
  let current := default JNull (v_map v !! variable) in
  let current := if is_object current then current else JObject [] in
  let '(current, o) := json_put path value current in
  let v := v_add variable current v in
  match o with
  | Throw e => (v, Throw e)
  | Val _ => (modify v_wake ;;; v_publish variable current) v
  end.

(** [remove(key, exists)] of [Map.hpp] *)
Definition v_remove (k : string) (v : Vault) : bool * Vault :=
  (bool_decide (is_Some (v_map v !! k)),
   {| v_map := delete k (v_map v); v_wakeups := v_wakeups v; v_sse := v_sse v |}).

(** [loadJson(j)]; [valid] is the validation against the schema of the operation. *)
Fixpoint vault_load_entries `{JsonText} (l : list (string * json)) : M Vault unit :=
  match l with
  | [] => ret tt
  | (k, j) :: l' =>
      modify (v_add k j) ;;;
      v_publish k j ;;;
      vault_load_entries l'
  end.

Definition has_dot (k : string) : bool := match find_char "." k with Some _ => true | None => false end.

Definition loadJson `{JsonText} (valid : json -> bool) (j : json) : M Vault bool :=
  if negb (valid j) then ret false
  else if existsb (fun kv => has_dot kv.1) (items j) then ret false
  else
    vault_load_entries (items j) ;;;
    modify v_wake ;;;
    ret true.

(** ** [WaitManager] *)

Record WaitManager := mkWait {
  active_waiters_ : Z;
  shutdown_ : bool
}.

Definition MAX_WAITERS : Z := 32.
Definition MAX_TIMEOUT_MS : Z := 300000.

(** The predicate of [cv_.wait_for]: its value and the [resultValue] it leaves. *)
Definition wait_condition `{JsonEq} (key : string) (targetValue previousValue : json)
    (shutdown : bool) (vault : gmap string json) (resultValue : json) : bool * json :=
  if shutdown then (true, resultValue)
  else match vault !! key with
       | None => (false, JNull)
       | Some v => (if is_null targetValue then negb (json_eqb v previousValue) else json_eqb v targetValue, v)
       end.

(** What the waiter sees each time the condition is evaluated: the shutdown flag and
    the entries; the list ends when the time is over. *)
Fixpoint wait_for `{JsonEq} (key : string) (targetValue previousValue : json)
    (seen : list (bool * gmap string json)) (resultValue : json) : bool * bool * json :=
  match seen with
  | [] => (false, false, resultValue)
  | (shutdown, vault) :: seen' =>
      let '(result, resultValue) := wait_condition key targetValue previousValue shutdown vault resultValue in
      if result then (true, shutdown, resultValue)
      else match seen' with
           | [] => (false, shutdown, resultValue)
           | _ => wait_for key targetValue previousValue seen' resultValue
           end
  end.

(** The outcome of [waitForVault]: its result, [resultValue], [previousValue], and
    how long it was willing to wait, if it waited. *)
Record wait_result := mkWaitResult {
  wr_result : bool;
  wr_value : json;
  wr_previous : json;
  wr_timeout : option Z
}.

(** A thread blocked in [waitForVault]: its arguments and the value captured first. *)
Record waiter := mkWaiter {
  wt_key : string;
  wt_target : json;
  wt_timeout : Z;
  wt_previous : json
}.

(** [waitForVault] up to [cv_.wait_for]: it returns at once, or blocks counted as
    an active waiter. *)
Definition wait_enter `{JsonEq} (key : string) (targetValue : json) (timeoutMs : Z)
    (vault : gmap string json) (resultValue : json) (w : WaitManager) : (wait_result + waiter) * WaitManager :=
  let timeoutMs := Z.min timeoutMs MAX_TIMEOUT_MS in
  if MAX_WAITERS <=? active_waiters_ w then (inl (mkWaitResult false resultValue JNull None), w)
  else if shutdown_ w then (inl (mkWaitResult false resultValue JNull None), w)
  else
    let previousValue := default JNull (vault !! key) in
    if negb (is_null targetValue) && json_eqb previousValue targetValue
    then (inl (mkWaitResult true previousValue previousValue None), w)
    else (inr (mkWaiter key targetValue timeoutMs previousValue),
          {| active_waiters_ := active_waiters_ w + 1; shutdown_ := shutdown_ w |}).

(** [waitForVault] from [cv_.wait_for] on: [seen] is what the thread sees while it
    waits, [final] the entries when the wait is over. *)
Definition wait_leave `{JsonEq} (t : waiter) (seen : list (bool * gmap string json)) (final : gmap string json)
    (resultValue : json) (w : WaitManager) : wait_result * WaitManager :=
  let '(result, stop, value) := wait_for (wt_key t) (wt_target t) (wt_previous t) seen resultValue in
  let w := {| active_waiters_ := active_waiters_ w - 1; shutdown_ := shutdown_ w |} in
  if stop then (mkWaitResult false value (wt_previous t) (Some (wt_timeout t)), w)
  else if negb result
  then (mkWaitResult false (default JNull (final !! wt_key t)) (wt_previous t) (Some (wt_timeout t)), w)
  else (mkWaitResult true value (wt_previous t) (Some (wt_timeout t)), w).

Definition wait_shutdown (w : WaitManager) : WaitManager :=
  {| active_waiters_ := active_waiters_ w; shutdown_ := true |}.
Definition isFull (w : WaitManager) : bool := MAX_WAITERS <=? active_waiters_ w.

(** Threads enter, leave and the process shuts down, in any order. *)
Inductive wait_step `{JsonEq} : WaitManager * list waiter -> WaitManager * list waiter -> Prop :=
| ws_return key target timeout vault rv w ts r w' :
    wait_enter key target timeout vault rv w = (inl r, w') -> wait_step (w, ts) (w', ts)
| ws_block key target timeout vault rv w ts t w' :
    wait_enter key target timeout vault rv w = (inr t, w') -> wait_step (w, ts) (w', t :: ts)
| ws_leave t seen final rv w ts1 ts2 r w' :
    wait_leave t seen final rv w = (r, w') -> wait_step (w, ts1 ++ t :: ts2) (w', ts1 ++ ts2)
| ws_shutdown w ts : wait_step (w, ts) (wait_shutdown w, ts).

Definition wait_inv (c : WaitManager * list waiter) : Prop :=
  active_waiters_ c.1 = Z.of_nat (length c.2) /\ active_waiters_ c.1 <= MAX_WAITERS /\
  Forall (fun t => wt_timeout t <= MAX_TIMEOUT_MS) c.2.

(** ** Lemmas *)

Section Lemmas.
Context `{JsonText} `{JsonPointer}.

Lemma deliver_spec key event c :
  c_keys (deliver key event c) = c_keys c /\
  c_written (deliver key event c) = (if watches key c then c_written c ++ [event] else c_written c).
Proof. unfold deliver. by destruct (watches key c). Qed.

(** Publishing keeps the entries and the count of wakeups. *)
Lemma v_publish_map k j v : v_map (v_publish k j v).1 = v_map v /\ v_wakeups (v_publish k j v).1 = v_wakeups v.
Proof. unfold v_publish. by destruct (sse_notify k j (v_sse v)). Qed.

Lemma sse_notify_ok key value m dump :
  json_dump (json_set "value" value (json_set "key" (JString key) JNull)) = Val dump ->
  sse_notify key value m =
  ({| connections_ := deliver key (sse_event key dump) <$> connections_ m; next_id_ := next_id_ m |}, Val tt).
Proof.
  intros Hd. unfold sse_notify. case_bool_decide as He; [|by rewrite Hd].
  destruct m as [cs n]. cbn in *. subst cs. by rewrite fmap_empty.
Qed.

Lemma load_entries_map l : NoDup l.*1 -> forall v v',
  vault_load_entries l v = (v', Val tt) ->
  v_map v' = list_to_map l ∪ v_map v /\ v_wakeups v' = v_wakeups v.
Proof.
  induction l as [|[k j] l IH]; intros Hnd v v'; cbn.
  - intros [= <-]. by rewrite (left_id_L ∅ (∪)).
  - apply NoDup_cons in Hnd as [Hk Hnd]. unfold bind at 1. cbn.
    unfold bind. destruct (v_publish k j (v_add k j v)) as [v1 o1] eqn:E1.
    pose proof (v_publish_map k j (v_add k j v)) as [Hm Hw]. rewrite E1 in Hm, Hw. cbn in Hm, Hw.
    destruct o1; [|done]. intros Hl. apply IH in Hl as [-> ->]; [|done]. rewrite Hm, Hw. split; [|done].
    rewrite <- insert_union_l, insert_union_r; [done|]. by apply not_elem_of_list_to_map_1.
Qed.
End Lemmas.

Lemma wait_for_result `{JsonEq} key target prev seen : forall rv rv' stop,
  wait_for key target prev seen rv = (true, stop, rv') -> stop = false ->
  exists vault, (false, vault) ∈ seen /\ vault !! key = Some rv' /\
    (if is_null target then json_eqb rv' prev = false else json_eqb rv' target = true).
Proof.
  induction seen as [|[sd vault] seen IH]; intros rv rv' stop; cbn; [done|].
  unfold wait_condition. destruct sd; [intros [= <- <-]; done|].
  destruct (vault !! key) as [v|] eqn:Ev.
  - destruct (if is_null target then negb (json_eqb v prev) else json_eqb v target) eqn:Ec.
    + intros [= <- <-] _. exists vault. split_and!; [set_solver|done|].
      destruct (is_null target); [by apply negb_true_iff|done].
    + destruct seen as [|s seen']; [done|]. intros Hw Hs. destruct (IH _ _ _ Hw Hs) as (vl & Hin & Hr).
      exists vl. split; [set_solver|done].
  - destruct seen as [|s seen']; [done|]. intros Hw Hs. destruct (IH _ _ _ Hw Hs) as (vl & Hin & Hr).
    exists vl. split; [set_solver|done].
Qed.

Lemma wait_step_inv `{JsonEq} c c' : wait_inv c -> wait_step c c' -> wait_inv c'.
Proof.
  unfold wait_inv. intros (Ha & Hm & Ht) Hs. inversion Hs; subst; cbn in *.
  - unfold wait_enter in *. repeat case_match; simplify_eq; done.
  - unfold wait_enter in *. repeat case_match; simplify_eq; cbn. split_and!; [lia| |].
    + match goal with Hc : (MAX_WAITERS <=? _) = false |- _ => apply Z.leb_gt in Hc; lia end.
    + constructor; [cbn; lia|done].
  - unfold wait_leave in *. rewrite length_app in *. cbn in Ha. apply Forall_app in Ht as [Ht1 Ht2].
    inversion Ht2; subst.
    repeat case_match; simplify_eq; cbn; split_and!; try lia; by apply Forall_app.
  - done.
Qed.

(** ** Properties *)

Section VaultProperties.
Context `{JsonText} `{JsonPointer}.

(** A write to the vault stores the value and leaves the other entries, wakes
    the waiters once, and writes one event to exactly the connections that watch
    the key.  If the value has no text (bytes that are not UTF-8) and somebody
    listens, the write throws after storing and waking, and nothing is published. *)
Theorem vault_load_publishes (k : string) (value : json) (v : Vault) :
  let '(v', o) := vault_load k value v in
  v_tryGet k v' = Some value /\
  (forall k', k' <> k -> v_tryGet k' v' = v_tryGet k' v) /\
  v_wakeups v' = S (v_wakeups v) /\
  match json_dump (json_set "value" value (json_set "key" (JString k) JNull)) with
  | Val dump =>
      o = Val tt /\
      forall id, connections_ (v_sse v') !! id =
        (fun c => if watches k c then mkConnection (c_keys c) (c_written c ++ [sse_event k dump]) else c)
          <$> connections_ (v_sse v) !! id
  | Throw e =>
      v_sse v' = v_sse v /\ (connections_ (v_sse v) <> ∅ -> o = Throw e)
  end.
Proof.
  destruct (vault_load k value v) as [v' o] eqn:E.
  unfold vault_load, bind, modify, v_publish in E. cbn in E.
  destruct (json_dump _) as [dump|e] eqn:Ed.
  - rewrite (sse_notify_ok _ _ _ _ Ed) in E. simplify_eq. unfold v_tryGet. cbn.
    split; [by simplify_map_eq|]. split; [intros; by simplify_map_eq|]. split; [done|]. split; [done|].
    intros id. by rewrite lookup_fmap.
  - unfold sse_notify in E. rewrite Ed in E. unfold v_tryGet.
    case_bool_decide; simplify_eq; cbn;
      (split; [by simplify_map_eq|]); (split; [intros; by simplify_map_eq|]); done.
Qed.

(** Loading a document in the vault is all or nothing on its keys: an invalid
    document, or one with a dot in any key, changes nothing; otherwise every entry
    is stored over the old ones, and the waiters are woken once, at the end. *)
Theorem loadJson_all_or_nothing (valid : json -> bool) (j : json) (v v' : Vault) (r : bool)
  (Hnd : NoDup (items j).*1) (Hl : loadJson valid j v = (v', Val r)) :
  (r = true <-> valid j = true /\ Forall (fun kv => no_char "." kv.1) (items j)) /\
  (r = false -> v' = v) /\
  (r = true -> v_map v' = list_to_map (items j) ∪ v_map v /\ v_wakeups v' = S (v_wakeups v)).
Proof.
  unfold loadJson in Hl. destruct (valid j); cbn in Hl; [|injection Hl as <- <-; naive_solver].
  assert (existsb (fun kv : string * json => has_dot kv.1) (items j) = false <->
          Forall (fun kv : string * json => no_char "." kv.1) (items j)) as Hdot.
  { clear. induction (items j) as [|kv l IH]; cbn; [split; [constructor|done]|].
    rewrite orb_false_iff, Forall_cons, <- IH. unfold has_dot. rewrite <- find_char_None.
    destruct (find_char "." kv.1); naive_solver. }
  destruct (existsb _ (items j)) eqn:Ed; cbn in Hl.
  - injection Hl as <- <-. split_and!; [|done|done]. split; [done|]. intros [_ Hf]. apply Hdot in Hf. done.
  - unfold bind in Hl. destruct (vault_load_entries (items j) v) as [v1 []] eqn:El; [|done]. cbn in Hl.
    injection Hl as <- <-. destruct a. apply load_entries_map in El as [Hm Hw]; [|done].
    split; [|split; [done|]]; [|intros _; cbn; by rewrite Hm, Hw]. split; [|done]. intros _.
    split; [done|]. by apply Hdot.
Qed.

(** C38: A wait that succeeds returns a value the entry really had while nobody
    stopped the process: the one asked for, or, if none was asked for, one different
    from the value captured at the start; and it never asks for more than five
    minutes. *)
Theorem waitForVault_truthful `{JsonEq} (key : string) (target : json) (timeout : Z)
  (vault final : gmap string json) (seen : list (bool * gmap string json)) (rv rv' : json)
  (w w1 w2 w3 : WaitManager) (t : waiter) (r : wait_result)
  (He : wait_enter key target timeout vault rv w = (inr t, w1))
  (Hl : wait_leave t seen final rv' w2 = (r, w3)) (Hr : wr_result r = true) :
  wr_previous r = default JNull (vault !! key) /\
  (exists vt, (false, vt) ∈ seen /\ vt !! key = Some (wr_value r)) /\
  (if is_null target then json_eqb (wr_value r) (wr_previous r) = false else json_eqb (wr_value r) target = true) /\
  (forall ms, wr_timeout r = Some ms -> ms <= 300000).
Proof.
  unfold wait_enter in He. destruct (MAX_WAITERS <=? _); [done|]. destruct (shutdown_ w); [done|].
  destruct (negb _ && _); [done|]. injection He as <- <-. unfold wait_leave in Hl. cbn in Hl.
  destruct (wait_for _ _ _ _ _) as [[res stop] value] eqn:Ew. destruct stop; [by simplify_eq|].
  destruct res; [|by cbn in Hl; simplify_eq]. cbn in Hl. simplify_eq. cbn in *.
  destruct (wait_for_result _ _ _ _ _ _ _ Ew eq_refl) as (vt & Hin & Hv & Hc).
  split_and!; [done|by exists vt|done|]. intros ms [= <-]. unfold MAX_TIMEOUT_MS. lia.
Qed.

(** However threads enter and leave, the number of active waiters is the number
    of threads blocked and never more than 32. *)
Theorem waiters_are_bounded `{JsonEq} (c : WaitManager * list waiter)
  (Hr : rtc wait_step (mkWait 0 false, []) c) :
  active_waiters_ c.1 = Z.of_nat (length c.2) /\ (length c.2 <= 32)%nat.
Proof.
  assert (wait_inv c) as (Ha & Hm & _); [|unfold MAX_WAITERS in Hm; lia].
  remember (mkWait 0 false, []) as c0 eqn:E0.
  assert (wait_inv c0) as Hinit by (subst; done). clear E0.
  induction Hr as [|c0 c1 c2 Hs _ IH]; [done|]. apply IH. by eapply wait_step_inv.
Qed.
End VaultProperties.

Module VaultExamples.

Definition entries := JObject [("a", JUint 1); ("b", JString "x")].

Lemma loadJson_all_or_nothing_witness :
  v_map (loadJson (fun _ => true) entries Vault_new).1 !! "a" = Some (JUint 1) /\
  loadJson (fun _ => true) (JObject [("a", JUint 1); ("b.c", JNull)]) Vault_new = (Vault_new, Val false).
Proof.
  assert (exists v', loadJson (fun _ => true) entries Vault_new = (v', Val true)) as [v' Hv] by (eexists; vm_compute; reflexivity).
  destruct (loadJson_all_or_nothing (fun _ => true) entries Vault_new v' true) as (_ & _ & Hm); [|exact Hv|].
  - apply (bool_decide_unpack _). vm_compute. exact I.
  - destruct (Hm eq_refl) as [Hmap _]. split; [|vm_compute; reflexivity].
    rewrite Hv. cbn [fst]. rewrite Hmap. vm_compute. reflexivity.
Defined.

Lemma waitForVault_truthful_witness :
  exists r w, wait_leave (mkWaiter "k" (JUint 2) 300000 JNull) [(false, ∅); (false, {["k" := JUint 2]})] ∅ JNull
                (mkWait 1 false) = (r, w) /\ json_eqb (wr_value r) (JUint 2) = true.
Proof.
  do 2 eexists. split; [vm_compute; reflexivity|].
  apply (waitForVault_truthful "k" (JUint 2) 400000 ∅ ∅ [(false, ∅); (false, {["k" := JUint 2]})] JNull JNull
           (mkWait 0 false) (mkWait 1 false) (mkWait 1 false) (mkWait 0 false)
           (mkWaiter "k" (JUint 2) 300000 JNull) (mkWaitResult true (JUint 2) JNull (Some 300000)));
    vm_compute; reflexivity.
Defined.

Lemma waiters_are_bounded_witness : (length [mkWaiter "k" JNull 5 JNull] <= 32)%nat.
Proof.
  apply (waiters_are_bounded (mkWait 1 false, [mkWaiter "k" JNull 5 JNull])).
  eapply rtc_l; [|apply rtc_refl]. apply (ws_block "k" JNull 5 ∅ JNull). vm_compute. reflexivity.
Defined.

End VaultExamples.
