(* ===== verification/Transformation.v ===== *)
(** [src/model/Transformation.cpp]: the items of a provision (a source, an
    optional filter, a target and the items to run when the filter fails), read
    from their JSON form.  The regular expressions the program compiles itself are
    written out; those of the user go through [RegexLib]. *)
From S2P Require Import Prelude Std Double Functions Query Json JsonModel External TypeConverter.
From Stdlib Require Import SpecFloat.
From stdpp Require Import options.
#[local] Open Scope Z_scope.

(** ** Types *)

Inductive SourceType :=
| RequestUri | RequestUriPath | RequestUriParam | RequestBody | ResponseBody | RequestHeader | RequestHeaders
| Eraser | Math | Random | RandomSet | Timestamp | Strftime | Recvseq | SVar | SGVar | Value | ServerEvent
| InState | STxtFile | SBinFile | Command | Sendseq | ClientEvent | ResponseHeader | ResponseHeaders
| ResponseStatusCode.

Inductive TargetType :=
| ResponseBodyString | ResponseBodyHexString | ResponseBodyJson_String | ResponseBodyJson_Integer
| ResponseBodyJson_Unsigned | ResponseBodyJson_Float | ResponseBodyJson_Boolean | ResponseBodyJson_Object
| ResponseBodyJson_JsonString | ResponseHeader_t | ResponseStatusCode_t | ResponseDelayMs | TVar | TGVar
| TGVarJson_Object | TGVarJson_JsonString | OutState | TTxtFile | TBinFile | UDPSocket | ServerEventToPurge
| Break | RequestBodyString | RequestBodyHexString | RequestBodyJson_String | RequestBodyJson_Integer
| RequestBodyJson_Unsigned | RequestBodyJson_Float | RequestBodyJson_Boolean | RequestBodyJson_Object
| RequestBodyJson_JsonString | RequestHeader_t | RequestDelayMs | RequestTimeoutMs | ClientEventToPurge
| RequestUri_t | RequestMethod_t | ClientProvision_t.

Inductive FilterType :=
| RegexCapture | RegexReplace | Append | Prepend | Sum | Multiply | ConditionVar | EqualTo | DifferentFrom
| JsonConstraint_f | SchemaId | Split | BaseConvert | FStrptime | FStrftime | RegexKey | Size.

#[global] Instance SourceType_eq_dec : EqDecision SourceType.
Proof. solve_decision. Defined.
#[global] Instance TargetType_eq_dec : EqDecision TargetType.
Proof. solve_decision. Defined.
#[global] Instance FilterType_eq_dec : EqDecision FilterType.
Proof. solve_decision. Defined.

Record Source := mkSource {
  source_type_ : SourceType;
  source_ : string;
  source2_ : string;
  source_tokenized_ : list string;
  source_i1_ : Z;
  source_i2_ : Z
}.

Record Target := mkTarget {
  target_type_ : TargetType;
  target_ : string;
  target2_ : string;
  target_tokenized_ : list string
}.

Record Filter `{RegexLib} := mkFilter {
  filter_type_ : FilterType;
  filter_ : string;
  filter_object_ : json;
  filter_rgx_ : regex;
  filter_number_type_ : Z;
  filter_i_ : Z;
  filter_u_ : Z;
  filter_f_ : double;
  filter_filler_ : string
}.

(** [has_filter_] is the presence of the filter. *)
Record Item `{RegexLib} := mkItem {
  it_source : Source;
  it_target : Target;
  it_filter : option Filter;
  source_patterns_ : gmap string string;
  filter_patterns_ : gmap string string;
  target_patterns_ : gmap string string;
  target2_patterns_ : gmap string string
}.

Inductive Transformation `{RegexLib} :=
| Trans (item : Item) (on_filter_fail_ : list Transformation).

Definition tr_item `{RegexLib} (t : Transformation) : Item := let 'Trans i _ := t in i.
Definition getOnFilterFail `{RegexLib} (t : Transformation) : list Transformation := let 'Trans _ l := t in l.

(** ** The expressions the program compiles itself *)

(** ['.'] does not match a line terminator. *)
Definition dot_ok (c : ascii) : bool := negb ((zc c =? 10) || (zc c =? 13)).

(** [^pattern], where ['.'] is the only special character; what follows. *)
Fixpoint wild (pattern s : string) : option string :=
  match pattern with
  | EmptyString => Some s
  | String p pattern' =>
      match s with
      | EmptyString => None
      | String c s' => if (if decide (p = "."%char) then dot_ok c else bool_decide (p = c)) then wild pattern' s' else None
      end
  end.

(** The pattern followed by a group of any characters: the text of the group. *)
Definition wild_rest (pattern s : string) : option string :=
  match wild pattern s with
  | Some r => if forallb dot_ok (chars r) then Some r else None
  | None => None
  end.

(** [[-+]{0,1}[0-9]+] *)
Definition signed_digits (s : string) : bool :=
  let digits (t : string) := negb (sempty t) && forallb isdigit (chars t) in
  match s with
  | String c t => if (zc c =? 43) || (zc c =? 45) then digits t else digits s
  | EmptyString => false
  end.

(** [^random\.([-+]{0,1}[0-9]+)\.([-+]{0,1}[0-9]+)$] *)
Definition random_groups (s : string) : option (string * string) :=
  if starts_with "random." s then
    let r := sdrop 7 s in
    match find_char "." r with
    | Some i => let a := stake i r in
                let b := sdrop (S i) r in
                if signed_digits a && signed_digits b then Some (a, b) else None
    | None => None
    end
  else None.

(** [([^.]+)] followed by a dot or the end: the group and what follows. *)
Definition dot_free_head (s : string) : option (string * string) :=
  let i := default (String.length s) (find_char "." s) in
  if (0 <? Z.of_nat i) then Some (stake i s, sdrop i s) else None.

(** [(?:\.(/.+))?$]: an absent group is empty. *)
Definition optional_path (s : string) : option string :=
  match s with
  | EmptyString => Some ""
  | String c1 (String c2 (String c3 r)) =>
      if (zc c1 =? 46) && (zc c2 =? 47) && forallb dot_ok (c3 :: chars r)
      then Some (String c2 (String c3 r)) else None
  | _ => None
  end.

(** [^vault\.([^.]+)<middle>(?:\.(/.+))?$] *)
Definition vault_groups (middle s : string) : option (string * string) :=
  if starts_with "vault." s then
    match dot_free_head (sdrop 6 s) with
    | Some (k, r) => if starts_with middle r then (fun p => (k, p)) <$> optional_path (sdrop (String.length middle) r) else None
    | None => None
    end
  else None.

(** [(\..+)?] at the end, the dot included; an absent group is empty. *)
Definition optional_tail (s : string) : option string :=
  match s with
  | EmptyString => Some ""
  | String c1 (String c2 r) => if (zc c1 =? 46) && forallb dot_ok (c2 :: chars r) then Some s else None
  | _ => None
  end.

(** [^outState.(POST|GET|PUT|DELETE|HEAD)(\..+)?] *)
Definition outState_groups (s : string) : option (string * string) :=
  match wild "outState." s with
  | Some r =>
      (fix try_methods (ms : list string) :=
         match ms with
         | [] => None
         | m :: ms' => if starts_with m r then match optional_tail (sdrop (String.length m) r) with
                                               | Some u => Some (m, u)
                                               | None => try_methods ms'
                                               end
                       else try_methods ms'
         end) ["POST"; "GET"; "PUT"; "DELETE"; "HEAD"]
  | None => None
  end.

(** [^clientProvision\.([^.]+)(?:\.(.+))?$] *)
Definition clientProvision_groups (s : string) : option (string * string) :=
  if starts_with "clientProvision." s then
    match dot_free_head (sdrop 16 s) with
    | Some (k, r) => (fun t => (k, sdrop 1 t)) <$> optional_tail r
    | None => None
    end
  else None.

(** ** [collectVariablePatterns] *)

(** Up to the closing brace: the name and what follows it. *)
Fixpoint take_name (s : string) : option (string * string) :=
  match s with
  | EmptyString => None
  | String c s' =>
      if zc c =? 125 then Some ("", s')
      else if zc c =? 123 then None
      else (fun '(n, r) => (String c n, r)) <$> take_name s'
  end.

Definition pattern_of (name : string) : string := "@{" +:+ name +:+ "}".

(** Successive searches of [@\{[^\{\}]*\}], each one from the end of the match
    before; a turn consumes at least a character. *)
Fixpoint collect_loop (fuel : nat) (s : string) (patterns : gmap string string) : gmap string string :=
  match fuel with
  | O => patterns
  | S fuel =>
      match s with
      | EmptyString => patterns
      | String c s' =>
          match (if starts_with "@{" s then take_name (sdrop 2 s) else None) with
          | Some (name, rest) => collect_loop fuel rest (<[pattern_of name := name]> patterns)
          | None => collect_loop fuel s' patterns
          end
      end
  end.

Definition collectVariablePatterns (s : string) : gmap string string := collect_loop (String.length s) s ∅.

(** ** Reading a filter *)

(** [get<T>()] of a document; a mandatory field the schema of the operation
    guarantees is modelled as an exception when it is missing. *)
Definition get_string (j : option json) : outcome string :=
  match j with Some (JString s) => Val s | _ => Throw json_exception end.
Definition get_bool (j : json) : outcome bool :=
  match j with JBool b => Val b | _ => Throw json_exception end.

Section Load.
Context `{RegexLib} (decode : string -> string) (ub : double -> Z).

Definition get_i64 (j : option json) : outcome Z :=
  match j with
  | Some (JInt i) => Val i
  | Some (JUint u) => Val (to_i64 u)
  | Some (JFloat f) => Val (default (ub f) (d_to_i64 f))
  | Some (JBool b) => Val (if b then 1 else 0)
  | _ => Throw json_exception
  end.
Definition get_u64 (j : option json) : outcome Z :=
  match j with
  | Some (JInt i) => Val (to_u64 i)
  | Some (JUint u) => Val u
  | Some (JFloat f) => Val (default (ub f) (d_to_u64 f))
  | Some (JBool b) => Val (if b then 1 else 0)
  | _ => Throw json_exception
  end.

Definition filter_default : Filter :=
  {| filter_type_ := RegexCapture; filter_ := ""; filter_object_ := JNull; filter_rgx_ := regex_default;
     filter_number_type_ := 0; filter_i_ := 0; filter_u_ := 0; filter_f_ := S754_zero false; filter_filler_ := "" |}.

(** A filter with a text; with an expression too; with numbers too. *)
Definition filter_text (t : FilterType) (s : string) : Filter := mkFilter _ t s JNull regex_default 0 0 0 (S754_zero false) "".
Definition filter_regex (t : FilterType) (s : string) (r : regex) : Filter := mkFilter _ t s JNull r 0 0 0 (S754_zero false) "".
Definition filter_nums (t : FilterType) (s : string) (n i u : Z) (filler : string) : Filter :=
  mkFilter _ t s JNull regex_default n i u (S754_zero false) filler.

(** The amount of [Sum] and [Multiply]: unsigned is tested first. *)
Definition filter_amount (t : FilterType) (j : json) : Filter :=
  match j with
  | JUint u => filter_nums t "" 1 0 u ""
  | JInt i => filter_nums t "" 0 i 0 ""
  | JFloat f => mkFilter _ t "" JNull regex_default 2 0 0 f ""
  | _ => filter_nums t "" 0 0 0 ""
  end.

(** The unit of [Strptime] and [Strftime]. *)
Definition filter_date (t : FilterType) (j : json) : outcome Filter :=
  let! fmt := get_string (json_find "fmt" j) in
  let! unit := match json_find "unit" j with Some u => get_string (Some u) | None => Val "s" end in
  let n := if decide (unit = "ms") then 1 else if decide (unit = "us") then 2 else if decide (unit = "ns") then 3 else 0 in
  Val (filter_nums t fmt n 0 0 "").

Definition filter_split (j : json) : outcome Filter :=
  let! size := match json_find "size" j with Some x => get_i64 (Some x) | None => Val 2 end in
  let! count := match json_find "count" j with Some x => get_u64 (Some x) | None => Val 4 end in
  let! sep := match json_find "sep" j with Some x => get_string (Some x) | None => Val "." end in
  let! filler := match json_find "filler" j with Some x => get_string (Some x) | None => Val "0" end in
  let! numeric := match json_find "numeric" j with Some x => get_bool x | None => Val false end in
  Val (filter_nums Split sep (if numeric then 1 else 0) size count filler).

Definition filter_base (j : json) : outcome Filter :=
  let! i := get_i64 (json_find "in" j) in
  let! o := get_u64 (json_find "out" j) in
  let! capital := match json_find "capital" j with Some x => get_bool x | None => Val false end in
  Val (filter_nums BaseConvert "" (if capital then 1 else 0) i o "").

(** The keys in the order the code looks for them; no key at all leaves the default
    filter. *)
Definition filter_readers : list (string * (json -> outcome Filter)) :=
  [("RegexCapture", fun j => let! s := get_string (Some j) in let! r := regex_assign s in Val (filter_regex RegexCapture s r));
   ("RegexReplace", fun j => let! s := get_string (json_find "rgx" j) in let! r := regex_assign s in
                             let! fmt := get_string (json_find "fmt" j) in Val (filter_regex RegexReplace fmt r));
   ("Append", fun j => let! s := get_string (Some j) in Val (filter_text Append s));
   ("Prepend", fun j => let! s := get_string (Some j) in Val (filter_text Prepend s));
   ("Sum", fun j => Val (filter_amount Sum j));
   ("Multiply", fun j => Val (filter_amount Multiply j));
   ("ConditionVar", fun j => let! s := get_string (Some j) in Val (filter_text ConditionVar s));
   ("EqualTo", fun j => let! s := get_string (Some j) in Val (filter_text EqualTo s));
   ("DifferentFrom", fun j => let! s := get_string (Some j) in Val (filter_text DifferentFrom s));
   ("JsonConstraint", fun j => Val (mkFilter _ JsonConstraint_f "" j regex_default 0 0 0 (S754_zero false) ""));
   ("SchemaId", fun j => let! s := get_string (Some j) in Val (filter_text SchemaId s));
   ("Split", filter_split);
   ("BaseConvert", filter_base);
   ("Strptime", filter_date FStrptime);
   ("Strftime", filter_date FStrftime);
   ("RegexKey", fun j => let! s := get_string (Some j) in let! r := regex_assign s in Val (filter_regex RegexKey s r))].

Fixpoint first_reader (readers : list (string * (json -> outcome Filter))) (j : json) : outcome Filter :=
  match readers with
  | [] => Val filter_default
  | (k, read) :: readers' =>
      match json_find k j with
      | Some v => read v
      | None => first_reader readers' j
      end
  end.

(** The ["filter"] field: [Val None] is [return false]. *)
Definition load_filter (j : json) : outcome (option Filter) :=
  match j with
  | JString "Size" => Val (Some (filter_text Size ""))
  | _ =>
      match first_reader filter_readers j with
      | Val f => Val (Some f)
      | Throw regex_error => Val None
      | Throw e => Throw e
      end
  end.

(** Filters whose text admits variables. *)
Definition filter_has_patterns (f : Filter) : bool :=
  match filter_type_ f with Append | Prepend | EqualTo | DifferentFrom => true | _ => false end.

(** ** Reading a source *)

Definition source_arg (t : SourceType) (s : string) : Source := mkSource t s "" [] 0 0.

(** A rule recognizes a specification. *)
Definition rule (A : Type) : Type := string -> option (outcome (option A)).

Definition lit {A} (name : string) (a : A) : rule A :=
  fun s => if decide (s = name) then Some (Val (Some a)) else None.
Definition pre {A} (pattern : string) (f : string -> A) : rule A :=
  fun s => (fun r => Val (Some (f r))) <$> wild_rest pattern s.

Definition groups_rule {A} (groups : string -> option (string * string)) (f : string -> string -> A) : rule A :=
  fun s => (fun '(a, b) => Val (Some (f a b))) <$> groups s.

Fixpoint first_rule {A} (rules : list (rule A)) (s : string) : outcome (option A) :=
  match rules with
  | [] => Val None
  | r :: rules' => match r s with Some o => o | None => first_rule rules' s end
  end.

(** Values of an event address, in the order of its fields. *)
Definition tokens (fields : list string) (address : string) : list string :=
  let qmap := match extractQueryParameters decode address None "&" with
              | Some (Val (m, _)) => m
              | _ => ∅
              end in
  map (fun f => default "" (qmap !! f)) fields.

Definition server_event_source : list string := ["requestMethod"; "requestUri"; "eventNumber"; "eventPath"; "recvseq"].
Definition client_event_source : list string :=
  ["clientEndpointId"; "requestMethod"; "requestUri"; "eventNumber"; "eventPath"; "sendseq"].
Definition server_event_target : list string := ["requestMethod"; "requestUri"; "eventNumber"; "recvseq"].
Definition client_event_target : list string :=
  ["clientEndpointId"; "requestMethod"; "requestUri"; "eventNumber"; "sendseq"].

Definition random_rule : rule Source := fun s =>
  (fun '(a, b) => let! i1 := stoi a in let! i2 := stoi b in Val (Some (mkSource Random "" "" [] i1 i2))) <$> random_groups s.

(** The group of [value.] has line terminators too. *)
Definition value_rule : rule Source := fun s =>
  (fun r => Val (Some (source_arg Value r))) <$> wild "value." s.

Definition source_rules : list (rule Source) :=
  [lit "request.uri" (source_arg RequestUri "");
   lit "request.uri.path" (source_arg RequestUriPath "");
   pre "request.uri.param." (source_arg RequestUriParam);
   lit "request.body" (source_arg RequestBody "");
   pre "request.body." (source_arg RequestBody);
   lit "response.body" (source_arg ResponseBody "");
   pre "response.body." (source_arg ResponseBody);
   lit "request.headers" (source_arg RequestHeaders "");
   lit "response.headers" (source_arg ResponseHeaders "");
   pre "request.header." (source_arg RequestHeader);
   lit "eraser" (source_arg Eraser "");
   pre "math." (source_arg Math);
   random_rule;
   pre "randomset." (fun r => mkSource RandomSet r "" (pieces "|" r) 0 0);
   pre "timestamp." (source_arg Timestamp);
   pre "strftime." (source_arg Strftime);
   lit "recvseq" (source_arg Recvseq "");
   lit "sendseq" (source_arg Sendseq "");
   pre "var." (source_arg SVar);
   groups_rule (vault_groups "") (fun k p => mkSource SGVar k p [] 0 0);
   value_rule;
   pre "serverEvent." (fun r => mkSource ServerEvent r "" (tokens server_event_source r) 0 0);
   pre "clientEvent." (fun r => mkSource ClientEvent r "" (tokens client_event_source r) 0 0);
   lit "response.statusCode" (source_arg ResponseStatusCode "");
   pre "response.header." (source_arg ResponseHeader);
   lit "inState" (source_arg InState "");
   pre "txtFile." (source_arg STxtFile);
   pre "binFile." (source_arg SBinFile);
   pre "command." (source_arg Command)].

Definition load_source (spec : string) : outcome (option Source) := first_rule source_rules spec.

(** ** Reading a target *)

Definition target_arg (t : TargetType) (s : string) : Target := mkTarget t s "" [].

(** The whole document, or the node at a path. *)
Definition body_rules (prefix : string) (t : TargetType) : list (rule Target) :=
  [lit prefix (target_arg t ""); pre (prefix +:+ ".") (target_arg t)].

Definition response_body_rules : list (rule Target) :=
  [lit "response.body.string" (target_arg ResponseBodyString "");
   lit "response.body.hexstring" (target_arg ResponseBodyHexString "")]
  ++ body_rules "response.body.json.string" ResponseBodyJson_String
  ++ body_rules "response.body.json.integer" ResponseBodyJson_Integer
  ++ body_rules "response.body.json.unsigned" ResponseBodyJson_Unsigned
  ++ body_rules "response.body.json.float" ResponseBodyJson_Float
  ++ body_rules "response.body.json.boolean" ResponseBodyJson_Boolean
  ++ body_rules "response.body.json.object" ResponseBodyJson_Object
  ++ body_rules "response.body.json.jsonstring" ResponseBodyJson_JsonString.

Definition request_body_rules : list (rule Target) :=
  [lit "request.body.string" (target_arg RequestBodyString "");
   lit "request.body.hexstring" (target_arg RequestBodyHexString "")]
  ++ body_rules "request.body.json.string" RequestBodyJson_String
  ++ body_rules "request.body.json.integer" RequestBodyJson_Integer
  ++ body_rules "request.body.json.unsigned" RequestBodyJson_Unsigned
  ++ body_rules "request.body.json.float" RequestBodyJson_Float
  ++ body_rules "request.body.json.boolean" RequestBodyJson_Boolean
  ++ body_rules "request.body.json.object" RequestBodyJson_Object
  ++ body_rules "request.body.json.jsonstring" RequestBodyJson_JsonString.

(** A provision without state is refused. *)
Definition clientProvision_rule : rule Target := fun s =>
  (fun '(id, st) => if sempty st then Val None else Val (Some (mkTarget ClientProvision_t id st [])))
    <$> clientProvision_groups s.

Definition other_target_rules : list (rule Target) :=
  [pre "request.header." (target_arg RequestHeader_t);
   lit "request.delayMs" (target_arg RequestDelayMs "");
   lit "request.timeoutMs" (target_arg RequestTimeoutMs "");
   lit "request.uri" (target_arg RequestUri_t "");
   lit "request.method" (target_arg RequestMethod_t "");
   pre "response.header." (target_arg ResponseHeader_t);
   lit "response.statusCode" (target_arg ResponseStatusCode_t "");
   lit "response.delayMs" (target_arg ResponseDelayMs "");
   pre "var." (target_arg TVar);
   groups_rule (vault_groups ".json.object") (fun k p => mkTarget TGVarJson_Object k p []);
   groups_rule (vault_groups ".json.jsonstring") (fun k p => mkTarget TGVarJson_JsonString k p []);
   groups_rule (vault_groups "") (fun k p => mkTarget TGVar k p []);
   lit "outState" (target_arg OutState "");
   groups_rule outState_groups (fun m u => mkTarget OutState m (sdrop 1 u) []);
   pre "txtFile." (target_arg TTxtFile);
   pre "binFile." (target_arg TBinFile);
   pre "udpSocket." (target_arg UDPSocket);
   pre "serverEvent." (fun r => mkTarget ServerEventToPurge r "" (tokens server_event_target r));
   pre "clientEvent." (fun r => mkTarget ClientEventToPurge r "" (tokens client_event_target r));
   lit "break" (target_arg Break "");
   clientProvision_rule].

Definition load_target (spec : string) : outcome (option Target) :=
  first_rule (response_body_rules ++ request_body_rules ++ other_target_rules) spec.

(** ** [Transformation::load] *)

(** Everything but [onFilterFail]; [Val None] is [return false]. *)
Definition load_item (j : json) : outcome (option Item) :=
  let! sourceSpec := get_string (json_find "source" j) in
  let! targetSpec := get_string (json_find "target" j) in
  let! filter := match json_find "filter" j with
                 | None => Val (Some None)
                 | Some f => let! r := load_filter f in Val (Some <$> r)
                 end in
  match filter with
  | None => Val None
  | Some filter =>
      let! source := load_source sourceSpec in
      match source with
      | None => Val None
      | Some source =>
          let! target := load_target targetSpec in
          match target with
          | None => Val None
          | Some target =>
              Val (Some {| it_source := source; it_target := target; it_filter := filter;
                           source_patterns_ := collectVariablePatterns (source_ source);
                           filter_patterns_ :=
                             match filter with
                             | Some f => if filter_has_patterns f then collectVariablePatterns (filter_ f) else ∅
                             | None => ∅
                             end;
                           target_patterns_ := collectVariablePatterns (target_ target);
                           target2_patterns_ := collectVariablePatterns (target2_ target) |})
          end
      end
  end.

(** An item is refused when any of its [onFilterFail] items is. *)
Fixpoint Transformation_load (j : json) : outcome (option Transformation) :=
  let! item := load_item j in
  match item with
  | None => Val None
  | Some item =>
      match j with
      | JObject fields =>
          (fix off (fields : list (string * json)) : outcome (option Transformation) :=
             match fields with
             | [] => Val (Some (Trans item []))
             | (k, v) :: fields' =>
                 if decide ("onFilterFail" = k) then
                   match v with
                   | JArray items =>
                       let! l := (fix all (items : list json) : outcome (option (list Transformation)) :=
                                    match items with
                                    | [] => Val (Some [])
                                    | x :: items' =>
                                        let! t := Transformation_load x in
                                        match t with
                                        | None => Val None
                                        | Some t => let! ts := all items' in Val (cons t <$> ts)
                                        end
                                    end) items in
                       Val (Trans item <$> l)
                   | _ => Val (Some (Trans item []))
                   end
                 else off fields'
             end) fields
      | _ => Val (Some (Trans item []))
      end
  end.
End Load.

(** ** Variables of a text *)

(** The characters that delimit a variable. *)
Definition lbrace : ascii := "{"%char.
Definition rbrace : ascii := "}"%char.
Definition var_name (n : string) : Prop := no_char lbrace n /\ no_char rbrace n.

Lemma zc_eqb c d : (zc c =? zc d) = bool_decide (c = d).
Proof.
  case_bool_decide as E; [subst; apply Z.eqb_refl|]. apply Z.eqb_neq. intros Hz. apply E.
  rewrite <- (cz_zc c), <- (cz_zc d). by rewrite Hz.
Qed.

Lemma take_name_Some s n r : take_name s = Some (n, r) -> s = n +:+ "}" +:+ r /\ var_name n.
Proof.
  revert n. induction s as [|c s IH]; intros n; cbn [take_name]; [done|].
  change 125 with (zc rbrace). change 123 with (zc lbrace). rewrite !zc_eqb.
  case_bool_decide as E1; [intros [= <- <-]; subst; split; [done|]; unfold var_name, no_char; set_solver|].
  case_bool_decide as E2; [done|]. destruct (take_name s) as [[n' r']|]; [|done].
  intros [= <- <-]. destruct (IH n' eq_refl) as [-> [H1 H2]]. split; [done|].
  split; apply no_char_cons; split; done.
Qed.

Lemma take_name_app n r : var_name n -> take_name (n +:+ "}" +:+ r) = Some (n, r).
Proof.
  induction n as [|c n IH]; intros [H1 H2]; [done|]. rewrite string_app_cons. cbn [take_name].
  apply no_char_cons in H1 as [Hc1 H1]. apply no_char_cons in H2 as [Hc2 H2].
  change 125 with (zc rbrace). change 123 with (zc lbrace). rewrite !zc_eqb.
  rewrite !bool_decide_eq_false_2 by done. by rewrite IH.
Qed.

(** The text of a variable occurs. *)
Definition occurs (p s : string) : Prop := exists a b, s = a +:+ p +:+ b.

Lemma occurs_cons p c s : occurs p (String c s) <-> starts_with p (String c s) = true \/ occurs p s.
Proof.
  split.
  - intros ([|d a] & b & E).
    + left. apply starts_with_spec. by exists b.
    + right. rewrite string_app_cons in E. simplify_eq. by exists a, b.
  - intros [(b & E)%starts_with_spec|(a & b & ->)].
    + by exists "", b.
    + by exists (String c a), b.
Qed.

Lemma pattern_of_inj n n' : pattern_of n = pattern_of n' -> n = n'.
Proof.
  intros E. apply (f_equal chars) in E. unfold pattern_of in E. rewrite !chars_app in E.
  apply app_inv_head, app_inv_tail in E. by apply chars_inj.
Qed.

(** A pattern starting inside another one starts after it. *)
Lemma occurs_after n name rest :
  var_name name -> occurs (pattern_of n) (pattern_of name +:+ rest) -> var_name n ->
  n = name \/ occurs (pattern_of n) rest.
Proof.
  intros [Hl Hr] (a & b & E) Hn. apply (f_equal chars) in E. unfold pattern_of in E.
  rewrite !chars_app in E. change (chars "@{") with ["@"%char; lbrace] in E.
  change (chars "}") with [rbrace] in E. cbn [app] in E.
  destruct (chars a) as [|a1 a'] eqn:Ea; cbn [app] in E.
  { left. injection E as E. rewrite <- !app_assoc in E. cbn in E.
    apply list_split_unique in E as [E _]; [symmetry; by apply chars_inj|done|by destruct Hn]. }
  right. injection E as _ E. destruct a' as [|a2 a'']; cbn [app] in E; [done|]. injection E as _ E.
  rewrite <- app_assoc in E. cbn [app] in E.
  apply app_eq_inv in E as [(k & E1 & E2)|(k & E1 & E2)].
  - destruct k as [|k1 k]; cbn [app] in E2; [done|]. injection E2 as <- E2.
    exfalso. destruct k as [|k2 k]; cbn [app] in E2; [done|]. injection E2 as <- E2.
    unfold no_char in Hl. rewrite E1 in Hl. set_solver.
  - destruct k as [|k1 k]; cbn [app] in E2; [done|]. injection E2 as <- E2.
    exists (str k), b. apply chars_inj. unfold pattern_of. rewrite !chars_app, chars_str. rewrite E2.
    by rewrite <- !app_assoc.
Qed.

Lemma take_pattern s : starts_with "@{" s = true -> forall n r,
  take_name (sdrop 2 s) = Some (n, r) -> s = pattern_of n +:+ r /\ var_name n.
Proof.
  intros [t ->]%starts_with_spec n r Ht. change (sdrop 2 ("@{" +:+ t)) with t in Ht.
  apply take_name_Some in Ht as [-> Hv]. split; [|done]. unfold pattern_of. by rewrite !string_app_assoc.
Qed.

Lemma collect_loop_spec fuel : forall s m p n,
  (String.length s <= fuel)%nat -> (forall p n, m !! p = Some n -> p = pattern_of n) ->
  collect_loop fuel s m !! p = Some n <->
  m !! p = Some n \/ (p = pattern_of n /\ var_name n /\ occurs p s).
Proof.
  induction fuel as [|fuel IH]; intros s m p n Hf Hm; cbn [collect_loop].
  { destruct s; [|cbn in Hf; lia]. split; [auto|]. intros [|(-> & _ & a & b & E)]; [done|].
    by destruct a. }
  destruct s as [|c s].
  { split; [auto|]. intros [|(-> & _ & a & b & E)]; [done|]. by destruct a. }
  destruct (if starts_with "@{" (String c s) then _ else None) as [[name rest]|] eqn:Et.
  - destruct (starts_with "@{" (String c s)) eqn:Es; [|done].
    destruct (take_pattern _ Es _ _ Et) as [E Hv]. rewrite IH.
    + split.
      * intros [Hl|(-> & Hn & a & b & ->)].
        -- destruct (decide (p = pattern_of name)) as [->|Hne].
           ++ rewrite lookup_insert_eq in Hl. simplify_eq. right. split_and!; [done|done|].
              rewrite E. by exists "", rest.
           ++ rewrite lookup_insert_ne in Hl by done. auto.
        -- right. split_and!; [done|done|]. rewrite E. exists (pattern_of name +:+ a), b. by rewrite string_app_assoc.
      * intros [Hl|(-> & Hn & Ho)].
        -- left. destruct (decide (p = pattern_of name)) as [->|Hne].
           ++ rewrite lookup_insert_eq. f_equal. apply pattern_of_inj. by apply Hm.
           ++ by rewrite lookup_insert_ne.
        -- rewrite E in Ho. apply occurs_after in Ho as [->|Ho]; [left; by rewrite lookup_insert_eq|auto|done|done].
    + apply (f_equal String.length) in E. rewrite slength_app in E.
      assert (1 <= String.length (pattern_of name))%nat; [|lia].
      unfold pattern_of. rewrite slength_app. change (String.length "@{") with 2%nat. lia.
    + intros p' n'. destruct (decide (p' = pattern_of name)) as [->|Hne].
      * rewrite lookup_insert_eq. by intros [= ->].
      * rewrite lookup_insert_ne by done. apply Hm.
  - rewrite IH by (done || (cbn in Hf; lia)). split; [intros [|(? & ? & a & b & ->)]; [auto|]|].
    + right. split_and!; [done|done|]. by exists (String c a), b.
    + intros [|(-> & Hn & Ho)]; [auto|]. right. split_and!; [done|done|].
      apply occurs_cons in Ho as [[b E]%starts_with_spec|]; [|done]. exfalso.
      unfold pattern_of in E. rewrite !string_app_assoc in E. rewrite E in Et.
      assert (starts_with "@{" ("@{" +:+ n +:+ "}" +:+ b) = true) as Hs by (apply starts_with_spec; eauto).
      rewrite Hs in Et. change (sdrop 2 ("@{" +:+ n +:+ "}" +:+ b)) with (n +:+ "}" +:+ b) in Et.
      by rewrite take_name_app in Et.
Qed.

Lemma collectVariablePatterns_spec s p n :
  collectVariablePatterns s !! p = Some n <-> p = pattern_of n /\ var_name n /\ occurs p s.
Proof. unfold collectVariablePatterns. rewrite collect_loop_spec by done. naive_solver. Qed.

(** ** Specifications are recognized *)

Definition one_line (s : string) : bool := forallb dot_ok (chars s).

Lemma wild_app pattern s : one_line pattern = true -> wild pattern (pattern +:+ s) = Some s.
Proof.
  unfold one_line. induction pattern as [|c p IH]; [done|]. rewrite chars_cons. cbn [forallb].
  intros [Hc Hp]%andb_true_iff. rewrite string_app_cons. cbn [wild].
  case_decide; [rewrite Hc|rewrite bool_decide_eq_true_2 by done]; auto.
Qed.

Lemma pre_hit {A} pattern (f : string -> A) s :
  one_line pattern = true -> one_line s = true -> pre pattern f (pattern +:+ s) = Some (Val (Some (f s))).
Proof. intros Hp Hs. unfold pre, wild_rest. rewrite wild_app by done. fold (one_line s). by rewrite Hs. Qed.

Lemma first_rule_miss {A} (r : rule A) rules s : r s = None -> first_rule (r :: rules) s = first_rule rules s.
Proof. cbn. by intros ->. Qed.
Lemma first_rule_hit {A} (r : rule A) rules s o : r s = Some o -> first_rule (r :: rules) s = o.
Proof. cbn. by intros ->. Qed.

(** Rule by rule: the ones before the right one do not apply. *)
Ltac recognize :=
  repeat first
    [ apply first_rule_hit; first [ apply pre_hit; [reflexivity|assumption] | reflexivity ]
    | rewrite first_rule_miss by reflexivity ].

Lemma dot_free_head_app k s :
  no_char "." k -> k <> "" -> dot_free_head (k +:+ String "." s) = Some (k, String "." s).
Proof.
  intros Hk Hne. unfold dot_free_head. rewrite find_char_app by done. cbn [default from_option id].
  rewrite stake_app, sdrop_app. destruct k; [done|]. by cbn.
Qed.
Lemma dot_free_head_all k : no_char "." k -> k <> "" -> dot_free_head k = Some (k, "").
Proof.
  intros Hk Hne. unfold dot_free_head. apply find_char_None in Hk as ->. cbn [default from_option id].
  pose proof (stake_app k "") as H1. pose proof (sdrop_app k "") as H2. rewrite string_app_nil_r in H1, H2.
  rewrite H1, H2. by destruct k.
Qed.

Lemma vault_groups_key k : no_char "." k -> k <> "" -> vault_groups "" ("vault." +:+ k) = Some (k, "").
Proof.
  intros Hk Hne. unfold vault_groups. change (starts_with "vault." ("vault." +:+ k)) with (starts_with "" k).
  change (sdrop 6 ("vault." +:+ k)) with k. rewrite dot_free_head_all by done. by destruct k.
Qed.

Lemma vault_groups_path k p :
  no_char "." k -> k <> "" -> p <> "" -> one_line p = true ->
  vault_groups "" ("vault." +:+ k +:+ "./" +:+ p) = Some (k, "/" +:+ p).
Proof.
  intros Hk Hne Hp Hl. unfold vault_groups.
  change (starts_with "vault." ("vault." +:+ k +:+ "./" +:+ p)) with (starts_with "" (k +:+ "./" +:+ p)).
  change (sdrop 6 ("vault." +:+ k +:+ "./" +:+ p)) with (k +:+ String "." (String "/" p)).
  rewrite dot_free_head_app by done. destruct (k +:+ "./" +:+ p); cbn -[optional_path];
    destruct p as [|c p]; try done; unfold one_line in Hl; rewrite chars_cons in Hl; cbn in Hl |- *; by rewrite Hl.
Qed.

(** A plain entry is not one of the typed ones. *)
Lemma vault_groups_plain m k p :
  no_char "." k -> k <> "" -> starts_with m p = false -> (p = "" \/ exists r, p = String "." r) ->
  vault_groups m ("vault." +:+ k +:+ p) = None.
Proof.
  intros Hk Hne Hm Hp. unfold vault_groups.
  change (starts_with "vault." ("vault." +:+ k +:+ p)) with (starts_with "" (k +:+ p)).
  change (sdrop 6 ("vault." +:+ k +:+ p)) with (k +:+ p).
  assert (dot_free_head (k +:+ p) = Some (k, p)) as ->.
  { destruct Hp as [->|[r ->]]; [rewrite string_app_nil_r; by apply dot_free_head_all|by apply dot_free_head_app]. }
  rewrite Hm. by destruct (k +:+ p).
Qed.

Lemma optional_tail_dot a : one_line a = true -> a <> "" -> optional_tail (String "." a) = Some (String "." a).
Proof.
  destruct a as [|c a]; [done|]. unfold one_line. rewrite chars_cons. intros Ha _. unfold optional_tail.
  by rewrite Ha.
Qed.

Lemma outState_get a : one_line a = true -> a <> "" -> outState_groups ("outState.GET." +:+ a) = Some ("GET", "." +:+ a).
Proof.
  intros Ha Hne. transitivity (match optional_tail (String "." a) with Some u => Some ("GET", u) | None => None end).
  - unfold outState_groups. change (wild "outState." ("outState.GET." +:+ a)) with (Some (String "G" (String "E" (String "T" (String "." a))))).
    rewrite optional_tail_dot by done. cbn -[optional_tail]. by rewrite optional_tail_dot by done.
  - by rewrite optional_tail_dot by done.
Qed.

Section LoadProperties.
Context `{RegexLib} (decode : string -> string) (ub : double -> Z).

(** The array of [onFilterFail], by name. *)
Fixpoint load_all (items : list json) : outcome (option (list Transformation)) :=
  match items with
  | [] => Val (Some [])
  | x :: items' =>
      let! t := Transformation_load decode ub x in
      match t with
      | None => Val None
      | Some t => let! ts := load_all items' in Val (cons t <$> ts)
      end
  end.

Lemma Transformation_load_unfold j :
  Transformation_load decode ub j =
  let! item := load_item decode ub j in
  match item with
  | None => Val None
  | Some item =>
      match json_find "onFilterFail" j with
      | Some (JArray items) => let! l := load_all items in Val (Trans item <$> l)
      | _ => Val (Some (Trans item []))
      end
  end.
Proof.
  destruct j as [| | | | | | |fields]; try done. cbn [Transformation_load json_find].
  destruct (load_item decode ub (JObject fields)) as [[item|]|]; [|done|done]. cbn [obind].
  induction fields as [|[k v] fields IH]; [done|]. cbn [assoc].
  destruct (decide ("onFilterFail" = k)); [|exact IH]. destruct v as [| | | | | |items|]; try done.
Qed.

Lemma load_all_Forall2 items : forall ts,
  load_all items = Val (Some ts) <-> Forall2 (fun x t => Transformation_load decode ub x = Val (Some t)) items ts.
Proof.
  induction items as [|x items IH]; intros ts; cbn [load_all].
  - split; [by intros [= <-]; constructor|]. by inversion 1.
  - split.
    + destruct (Transformation_load decode ub x) as [[t|]|] eqn:Ex; cbn [obind]; try done.
      destruct (load_all items) as [[ts'|]|] eqn:El; cbn; try done. intros [= <-].
      constructor; [done|]. by apply IH.
    + inversion 1 as [|? t ? ts' Hx Hf]; subst. rewrite Hx. cbn [obind]. apply IH in Hf. by rewrite Hf.
Qed.
End LoadProperties.

(** ** Properties *)

(** The variables of a text are found exactly: a pattern is collected if and
    only if it is [@{name}], with no brace in the name, and occurs in the text; and
    it is collected with its name. *)
Theorem collectVariablePatterns_correct (s p n : string) :
  collectVariablePatterns s !! p = Some n <->
  p = "@{" +:+ n +:+ "}" /\ no_char lbrace n /\ no_char rbrace n /\ occurs p s.
Proof. rewrite collectVariablePatterns_spec. unfold pattern_of, var_name. naive_solver. Qed.

Section TransformationProperties.
Context `{RegexLib} (decode : string -> string) (ub : double -> Z).

(** An item is loaded with the items of its [onFilterFail], all of them and in
    order, at any depth; if one of them is refused the whole item is. *)
Theorem Transformation_load_tree (j : json) (item : Item) (ts : list Transformation) :
  Transformation_load decode ub j = Val (Some (Trans item ts)) <->
  load_item decode ub j = Val (Some item) /\
  match json_find "onFilterFail" j with
  | Some (JArray items) => Forall2 (fun x t => Transformation_load decode ub x = Val (Some t)) items ts
  | _ => ts = []
  end.
Proof.
  rewrite Transformation_load_unfold.
  destruct (load_item decode ub j) as [[item'|]|]; cbn [obind]; [|naive_solver|naive_solver].
  destruct (json_find "onFilterFail" j) as [[| | | | | |items|]|]; try naive_solver.
  rewrite <- load_all_Forall2. destruct (load_all decode ub items) as [[l|]|]; cbn; naive_solver.
Qed.

(** Every documented source is recognized as what it is, with its argument,
    although the expressions of the rules overlap and the first one wins. *)
Theorem load_source_recognizes (a k : string)
  (Ha : one_line a = true) (Hk : no_char "." k) (Hk1 : k <> "") (Ha1 : a <> "") :
  let found (t : SourceType) (arg : string) (spec : string) := load_source decode spec = Val (Some (source_arg t arg)) in
  found RequestUri "" "request.uri" /\ found RequestUriPath "" "request.uri.path" /\
  found RequestUriParam a ("request.uri.param." +:+ a) /\
  found RequestBody "" "request.body" /\ found RequestBody a ("request.body." +:+ a) /\
  found ResponseBody "" "response.body" /\ found ResponseBody a ("response.body." +:+ a) /\
  found RequestHeaders "" "request.headers" /\ found RequestHeader a ("request.header." +:+ a) /\
  found Eraser "" "eraser" /\ found Math a ("math." +:+ a) /\
  found Timestamp a ("timestamp." +:+ a) /\ found Strftime a ("strftime." +:+ a) /\
  found Recvseq "" "recvseq" /\ found SVar a ("var." +:+ a) /\ found Value a ("value." +:+ a) /\
  found SGVar k ("vault." +:+ k) /\
  load_source decode ("vault." +:+ k +:+ "./" +:+ a) = Val (Some (mkSource SGVar k ("/" +:+ a) [] 0 0)) /\
  load_source decode ("randomset." +:+ a) = Val (Some (mkSource RandomSet a "" (pieces "|" a) 0 0)) /\
  found InState "" "inState" /\ found STxtFile a ("txtFile." +:+ a) /\ found SBinFile a ("binFile." +:+ a) /\
  found Command a ("command." +:+ a).
Proof.
  cbn zeta. unfold load_source, source_rules.
  split_and!; recognize.
  - apply first_rule_hit. unfold groups_rule. by rewrite vault_groups_key.
  - apply first_rule_hit. unfold groups_rule. by rewrite vault_groups_path.
  - apply first_rule_hit. by rewrite pre_hit.
Qed.

(** Every documented target of a server provision is recognized as what it is,
    with its path, name, method and URI. *)
Theorem load_target_recognizes (a k : string)
  (Ha : one_line a = true) (Hk : no_char "." k) (Hk1 : k <> "") (Ha1 : a <> "") :
  let found (t : TargetType) (arg : string) (spec : string) := load_target decode spec = Val (Some (target_arg t arg)) in
  found ResponseBodyString "" "response.body.string" /\ found ResponseBodyHexString "" "response.body.hexstring" /\
  found ResponseBodyJson_String a ("response.body.json.string." +:+ a) /\
  found ResponseBodyJson_Integer a ("response.body.json.integer." +:+ a) /\
  found ResponseBodyJson_Unsigned a ("response.body.json.unsigned." +:+ a) /\
  found ResponseBodyJson_Float a ("response.body.json.float." +:+ a) /\
  found ResponseBodyJson_Boolean a ("response.body.json.boolean." +:+ a) /\
  found ResponseBodyJson_Object "" "response.body.json.object" /\
  found ResponseBodyJson_Object a ("response.body.json.object." +:+ a) /\
  found ResponseBodyJson_JsonString a ("response.body.json.jsonstring." +:+ a) /\
  found ResponseHeader_t a ("response.header." +:+ a) /\ found ResponseStatusCode_t "" "response.statusCode" /\
  found ResponseDelayMs "" "response.delayMs" /\ found TVar a ("var." +:+ a) /\
  found TGVar k ("vault." +:+ k) /\
  load_target decode ("vault." +:+ k +:+ "./" +:+ a) = Val (Some (mkTarget TGVar k ("/" +:+ a) [])) /\
  found OutState "" "outState" /\
  load_target decode ("outState.GET." +:+ a) = Val (Some (mkTarget OutState "GET" a [])) /\
  found TTxtFile a ("txtFile." +:+ a) /\ found TBinFile a ("binFile." +:+ a) /\
  found UDPSocket a ("udpSocket." +:+ a) /\ found Break "" "break".
Proof.
  cbn zeta. unfold load_target, response_body_rules, request_body_rules, other_target_rules, body_rules. cbn [app].
  split_and!; recognize.
  - rewrite <- (string_app_nil_r k).
    do 2 (rewrite first_rule_miss by (unfold groups_rule; by rewrite vault_groups_plain by auto)).
    apply first_rule_hit. unfold groups_rule. rewrite string_app_nil_r. by rewrite vault_groups_key.
  - do 2 (rewrite first_rule_miss by (unfold groups_rule; by rewrite vault_groups_plain by eauto)).
    apply first_rule_hit. unfold groups_rule. by rewrite vault_groups_path.
  - apply first_rule_hit. unfold groups_rule. by rewrite outState_get.
Qed.
End TransformationProperties.

Module TransformationExamples.
Import Still.

Lemma load_source_recognizes_witness :
  load_source id "request.uri.param.name" = Val (Some (source_arg RequestUriParam "name")).
Proof.
  destruct (load_source_recognizes id "name" "key") as (_ & _ & H1 & _); [reflexivity| |done|done|exact H1].
  by apply (bool_decide_unpack _).
Defined.

Lemma load_target_recognizes_witness :
  load_target id "response.body.json.string.name" = Val (Some (target_arg ResponseBodyJson_String "name")).
Proof.
  destruct (load_target_recognizes id "name" "key") as (_ & _ & H1 & _); [reflexivity| |done|done|exact H1].
  by apply (bool_decide_unpack _).
Defined.

End TransformationExamples.
