(* ===== verification/RegexRules.v ===== *)
(** The regular expressions of [Transformation::load] and of [collectVariablePatterns],
    as the source writes them: the chains of [std::regex_match] and comparisons that
    identify a source and a target, with the expressions read by [rx_compile] and run by
    the search of [Regex].  The recognizers of [Transformation] are proved equal to them,
    on every text. *)
From S2P Require Import Prelude Std Double Json External Functions Query Regex Transformation.
From stdpp Require Import options.

(** ** The chains of the source *)

(** [std::regex_match(spec, matches, std::regex(text))], and [matches.str(i)]. *)
Definition matches_of (text s : string) : option (list string) := x ← rx_compile text; rx_match x s.
Definition group_str (m : list string) (i : nat) : string := default "" (m !! i).

Definition expr {A} (text : string) (f : (nat -> string) -> outcome (option A)) : rule A :=
  fun s => (fun m => f (group_str m)) <$> matches_of text s.
(** The first group is the argument. *)
Definition expr_arg {A} (text : string) (f : string -> A) : rule A := expr text (fun g => Val (Some (f (g 1%nat)))).
(** The two groups are the arguments; the second one is empty when it took no part. *)
Definition expr_groups {A} (text : string) (f : string -> string -> A) : rule A := expr text (fun g => Val (Some (f (g 1%nat) (g 2%nat)))).

Section Chains.
Context (decode : string -> string).

Definition source_chain : list (rule Source) :=
  [lit "request.uri" (source_arg RequestUri "");
   lit "request.uri.path" (source_arg RequestUriPath "");
   expr_arg "^request.uri.param.(.*)" (source_arg RequestUriParam);
   lit "request.body" (source_arg RequestBody "");
   expr_arg "^request.body.(.*)" (source_arg RequestBody);
   lit "response.body" (source_arg ResponseBody "");
   expr_arg "^response.body.(.*)" (source_arg ResponseBody);
   lit "request.headers" (source_arg RequestHeaders "");
   lit "response.headers" (source_arg ResponseHeaders "");
   expr_arg "^request.header.(.*)" (source_arg RequestHeader);
   lit "eraser" (source_arg Eraser "");
   expr_arg "^math.(.*)" (source_arg Math);
   expr "^random\.([-+]{0,1}[0-9]+)\.([-+]{0,1}[0-9]+)$"
     (fun g => let! i1 := stoi (g 1%nat) in let! i2 := stoi (g 2%nat) in Val (Some (mkSource Random "" "" [] i1 i2)));
   expr_arg "^randomset.(.*)" (fun r => mkSource RandomSet r "" (pieces "|" r) 0 0);
   expr_arg "^timestamp.(.*)" (source_arg Timestamp);
   expr_arg "^strftime.(.*)" (source_arg Strftime);
   lit "recvseq" (source_arg Recvseq "");
   lit "sendseq" (source_arg Sendseq "");
   expr_arg "^var.(.*)" (source_arg SVar);
   expr_groups "^vault\.([^.]+)(?:\.(/.+))?$" (fun k p => mkSource SGVar k p [] 0 0);
   expr_arg "^value.([.\s\S]*)" (source_arg Value);
   expr_arg "^serverEvent.(.*)" (fun r => mkSource ServerEvent r "" (tokens decode server_event_source r) 0 0);
   expr_arg "^clientEvent.(.*)" (fun r => mkSource ClientEvent r "" (tokens decode client_event_source r) 0 0);
   lit "response.statusCode" (source_arg ResponseStatusCode "");
   expr_arg "^response.header.(.*)" (source_arg ResponseHeader);
   lit "inState" (source_arg InState "");
   expr_arg "^txtFile.(.*)" (source_arg STxtFile);
   expr_arg "^binFile.(.*)" (source_arg SBinFile);
   expr_arg "^command.(.*)" (source_arg Command)].

Definition response_body_chain : list (rule Target) :=
  [lit "response.body.string" (target_arg ResponseBodyString "");
   lit "response.body.hexstring" (target_arg ResponseBodyHexString "");
   lit "response.body.json.string" (target_arg ResponseBodyJson_String "");
   expr_arg "^response.body.json.string.(.*)" (target_arg ResponseBodyJson_String);
   lit "response.body.json.integer" (target_arg ResponseBodyJson_Integer "");
   expr_arg "^response.body.json.integer.(.*)" (target_arg ResponseBodyJson_Integer);
   lit "response.body.json.unsigned" (target_arg ResponseBodyJson_Unsigned "");
   expr_arg "^response.body.json.unsigned.(.*)" (target_arg ResponseBodyJson_Unsigned);
   lit "response.body.json.float" (target_arg ResponseBodyJson_Float "");
   expr_arg "^response.body.json.float.(.*)" (target_arg ResponseBodyJson_Float);
   lit "response.body.json.boolean" (target_arg ResponseBodyJson_Boolean "");
   expr_arg "^response.body.json.boolean.(.*)" (target_arg ResponseBodyJson_Boolean);
   lit "response.body.json.object" (target_arg ResponseBodyJson_Object "");
   expr_arg "^response.body.json.object.(.*)" (target_arg ResponseBodyJson_Object);
   lit "response.body.json.jsonstring" (target_arg ResponseBodyJson_JsonString "");
   expr_arg "^response.body.json.jsonstring.(.*)" (target_arg ResponseBodyJson_JsonString)].

Definition request_body_chain : list (rule Target) :=
  [lit "request.body.string" (target_arg RequestBodyString "");
   lit "request.body.hexstring" (target_arg RequestBodyHexString "");
   lit "request.body.json.string" (target_arg RequestBodyJson_String "");
   expr_arg "^request.body.json.string.(.*)" (target_arg RequestBodyJson_String);
   lit "request.body.json.integer" (target_arg RequestBodyJson_Integer "");
   expr_arg "^request.body.json.integer.(.*)" (target_arg RequestBodyJson_Integer);
   lit "request.body.json.unsigned" (target_arg RequestBodyJson_Unsigned "");
   expr_arg "^request.body.json.unsigned.(.*)" (target_arg RequestBodyJson_Unsigned);
   lit "request.body.json.float" (target_arg RequestBodyJson_Float "");
   expr_arg "^request.body.json.float.(.*)" (target_arg RequestBodyJson_Float);
   lit "request.body.json.boolean" (target_arg RequestBodyJson_Boolean "");
   expr_arg "^request.body.json.boolean.(.*)" (target_arg RequestBodyJson_Boolean);
   lit "request.body.json.object" (target_arg RequestBodyJson_Object "");
   expr_arg "^request.body.json.object.(.*)" (target_arg RequestBodyJson_Object);
   lit "request.body.json.jsonstring" (target_arg RequestBodyJson_JsonString "");
   expr_arg "^request.body.json.jsonstring.(.*)" (target_arg RequestBodyJson_JsonString)].

Definition other_target_chain : list (rule Target) :=
  [expr_arg "^request.header.(.*)" (target_arg RequestHeader_t);
   lit "request.delayMs" (target_arg RequestDelayMs "");
   lit "request.timeoutMs" (target_arg RequestTimeoutMs "");
   lit "request.uri" (target_arg RequestUri_t "");
   lit "request.method" (target_arg RequestMethod_t "");
   expr_arg "^response.header.(.*)" (target_arg ResponseHeader_t);
   lit "response.statusCode" (target_arg ResponseStatusCode_t "");
   lit "response.delayMs" (target_arg ResponseDelayMs "");
   expr_arg "^var.(.*)" (target_arg TVar);
   expr_groups "^vault\.([^.]+)\.json\.object(?:\.(/.+))?$" (fun k p => mkTarget TGVarJson_Object k p []);
   expr_groups "^vault\.([^.]+)\.json\.jsonstring(?:\.(/.+))?$" (fun k p => mkTarget TGVarJson_JsonString k p []);
   expr_groups "^vault\.([^.]+)(?:\.(/.+))?$" (fun k p => mkTarget TGVar k p []);
   lit "outState" (target_arg OutState "");
   expr "^outState.(POST|GET|PUT|DELETE|HEAD)(\..+)?"
     (fun g => let u := if sempty (g 2%nat) then g 2%nat else sdrop 1 (g 2%nat) in Val (Some (mkTarget OutState (g 1%nat) u [])));
   expr_arg "^txtFile.(.*)" (target_arg TTxtFile);
   expr_arg "^binFile.(.*)" (target_arg TBinFile);
   expr_arg "^udpSocket.(.*)" (target_arg UDPSocket);
   expr_arg "^serverEvent.(.*)" (fun r => mkTarget ServerEventToPurge r "" (tokens decode server_event_target r));
   expr_arg "^clientEvent.(.*)" (fun r => mkTarget ClientEventToPurge r "" (tokens decode client_event_target r));
   lit "break" (target_arg Break "");
   expr "^clientProvision\.([^.]+)(?:\.(.+))?$"
     (fun g => if sempty (g 2%nat) then Val None else Val (Some (mkTarget ClientProvision_t (g 1%nat) (g 2%nat) [])))].

Definition target_chain : list (rule Target) := response_body_chain ++ request_body_chain ++ other_target_chain.
End Chains.

(** The loop of [collectVariablePatterns]: [regex_search] from the end of the match before,
    [matches[0]] and its name. *)
Fixpoint pattern_searches (fuel : nat) (r : re) (s : list ascii) (patterns : gmap string string) : gmap string string :=
  match fuel with
  | O => patterns
  | S fuel =>
      match search_from r true s with
      | None => patterns
      | Some (_, p, q) =>
          let pattern := str (between p q) in
          pattern_searches fuel r (p_rest q) (<[pattern := stake (String.length pattern - 3) (sdrop 2 pattern)]> patterns)
      end
  end.
Definition collect_chain (s : string) : gmap string string :=
  match rx_compile "@\{[^\{\}]*\}" with
  | Some x => pattern_searches (S (String.length s)) (rx_re x) (chars s) ∅
  | None => ∅
  end.

(** ** Expressions that leave no choice *)

Fixpoint lit_re (w : string) (tail : re) : re :=
  match w with EmptyString => tail | String c w => Seq (Char c) (lit_re w tail) end.
Fixpoint wild_re (w : string) (tail : re) : re :=
  match w with EmptyString => tail | String c w => Seq (if decide (c = "."%char) then Dot else Char c) (wild_re w tail) end.

Lemma backtrack_lit {A} w tail (k : pos -> option A) : forall s gs,
  backtrack (lit_re w tail) k (mkPos false (chars s) gs) =
  if starts_with w s then backtrack tail k (mkPos false (chars (sdrop (String.length w) s)) gs) else None.
Proof.
  induction w as [|c w IH]; intros s gs; cbn [lit_re starts_with String.length]; [by rewrite sdrop_0|].
  cbn [backtrack]. unfold eat. cbn [p_rest]. destruct s as [|d s]; [done|]. rewrite chars_cons. cbn [p_groups sdrop].
  case_decide as Hc; [subst; rewrite Ascii.eqb_refl; apply IH|]. by apply Ascii.eqb_neq in Hc as ->.
Qed.

Lemma backtrack_wild {A} w tail (k : pos -> option A) : forall s gs,
  backtrack (wild_re w tail) k (mkPos false (chars s) gs) =
  match wild w s with Some t => backtrack tail k (mkPos false (chars t) gs) | None => None end.
Proof.
  induction w as [|c w IH]; intros s gs; cbn [wild_re wild]; [done|].
  destruct s as [|d s]; [by case_decide|].
  case_decide as Hc; cbn [backtrack]; unfold eat; cbn [p_rest p_groups]; rewrite chars_cons.
  - change (not_newline d) with (dot_ok d). destruct (dot_ok d); [apply IH|done].
  - destruct (Ascii.eqb_spec c d) as [->|Hd]; [rewrite bool_decide_eq_true_2 by done; apply IH|by rewrite bool_decide_eq_false_2].
Qed.

(** The first character of an expression that starts at the begin of the text. *)
Lemma begin_lit {A} c w tail (k : pos -> option A) s :
  backtrack (Seq Bol (lit_re (String c w) tail)) k (at_begin (chars s)) = backtrack (lit_re (String c w) tail) k (mkPos false (chars s) []).
Proof. done. Qed.
Lemma begin_wild {A} c w tail (k : pos -> option A) s :
  backtrack (Seq Bol (wild_re (String c w) tail)) k (at_begin (chars s)) = backtrack (wild_re (String c w) tail) k (mkPos false (chars s) []).
Proof. cbn [wild_re]. by case_decide. Qed.

(** An expression for one character of a set. *)
Definition one_of (r : re) (f : ascii -> bool) : Prop := forall A (k : pos -> option A) p, backtrack r k p = eat f k p.

(** What follows a repetition of the set does not start with it: there is one way. *)
Lemma star_span {A} r f g (k : pos -> option A) : one_of r f ->
  (forall c l gs, f c = true -> k (mkPos false (c :: l) gs) = None) ->
  forall a l gs, forallb f a = true -> match l with c :: _ => f c = false | [] => True end ->
  backtrack (Star g r) k (mkPos false (a ++ l) gs) = k (mkPos false l gs).
Proof.
  intros Hr Hk a l gs Ha Hl. cbn [backtrack p_rest].
  assert (forall n, length (a ++ l) <= n -> repeat_ (fun k => backtrack r k) g k n (mkPos false (a ++ l) gs) = k (mkPos false l gs)) as H; [|by apply H].
  induction a as [|c a IH]; intros n Hn; cbn [app].
  - destruct n as [|n]; [done|]. cbn [repeat_]. rewrite (Hr A). unfold eat. cbn [p_rest].
    assert (match l with c :: l' => if f c then (if shorter (mkPos false l' gs) (mkPos false l gs) then repeat_ (fun k => backtrack r k) g k n (mkPos false l' gs) else None) else None | [] => None end = None) as E.
    { destruct l as [|d l]; [done|]. by rewrite Hl. }
    cbn [p_groups]. rewrite E. destruct g; cbn; [done|]. by destruct (k _).
  - cbn in Ha. apply andb_true_iff in Ha as [Hc Ha]. destruct n as [|n]; [cbn in Hn; lia|]. cbn [repeat_].
    rewrite (Hr A). unfold eat. cbn [p_rest p_groups]. rewrite Hc.
    assert (shorter (mkPos false (a ++ l) gs) (mkPos false (c :: a ++ l) gs) = true) as ->.
    { unfold shorter. cbn [p_rest length]. apply Nat.ltb_lt. lia. }
    rewrite IH by (done || (cbn in Hn; lia)). rewrite Hk by done. destruct g; cbn; [|done]. by destruct (k _).
Qed.

Lemma span_of (f : ascii -> bool) (l : list ascii) :
  exists a b, l = a ++ b /\ forallb f a = true /\ match b with c :: _ => f c = false | [] => True end.
Proof.
  induction l as [|c l (a & b & -> & Ha & Hb)]; [by exists [], []|].
  destruct (f c) eqn:E; [exists (c :: a), b; cbn; by rewrite E|by exists [], (c :: a ++ b)].
Qed.

(** A repetition up to the end of the text. *)
Lemma star_end {A} r f g (k : pos -> option A) l gs : one_of r f ->
  (forall c l gs, k (mkPos false (c :: l) gs) = None) ->
  backtrack (Star g r) k (mkPos false l gs) = if forallb f l then k (mkPos false [] gs) else None.
Proof.
  intros Hr Hk. destruct (span_of f l) as (a & b & -> & Ha & Hb). rewrite (star_span r f) by auto.
  rewrite forallb_app, Ha. destruct b as [|c b]; [done|]. cbn. by rewrite Hb.
Qed.

Lemma between_app b b' a l gs gs' : between (mkPos b (a ++ l) gs) (mkPos b' l gs') = a.
Proof. unfold between. cbn [p_rest]. rewrite length_app. apply take_app_length'. lia. Qed.
Lemma between_all b b' l gs gs' : between (mkPos b l gs) (mkPos b' [] gs') = l.
Proof. rewrite <- (app_nil_r l) at 1. apply between_app. Qed.

Lemma one_of_dot : one_of Dot dot_ok.
Proof. done. Qed.
Lemma one_of_class n l : one_of (Class_ n l) (in_class n l).
Proof. done. Qed.
#[local] Hint Resolve one_of_dot one_of_class : core.

Lemma zc_eqb_ascii c d : (zc c =? zc d)%Z = Ascii.eqb c d.
Proof. destruct (Ascii.eqb_spec c d) as [->|Hd]; [apply Z.eqb_refl|]. apply Z.eqb_neq. by intros ?%zc_inj. Qed.

(** ** Each expression *)

Lemma rest_match text c w r f s :
  rx_compile text = Some (mkCompiled (Seq Bol (wild_re (String c w) (Group 1 (Star true r)))) 1) -> one_of r f ->
  matches_of text s = match wild (String c w) s with Some t => if forallb f (chars t) then Some [s; t] else None | None => None end.
Proof.
  intros Ht Hr. unfold matches_of. rewrite Ht. cbn [mbind option_bind]. unfold rx_match. cbn [rx_re rx_groups].
  rewrite begin_wild, backtrack_wild. destruct (wild _ s) as [t|]; [|done]. cbn [backtrack].
  change (repeat_ ?m true ?k (length (p_rest ?p)) ?p) with (backtrack (Star true r) k p).
  rewrite (star_end r f) by done. destruct (forallb f (chars t)); [|done].
  unfold capture, to_the_end, groups_of, group_text. rewrite between_all. cbn. by rewrite !str_chars.
Qed.

Lemma pre_match {A} text c w (f : string -> A) :
  rx_compile text = Some (mkCompiled (Seq Bol (wild_re (String c w) (Group 1 (Star true Dot)))) 1) ->
  forall s, expr_arg text f s = pre (String c w) f s.
Proof.
  intros Ht s. unfold expr_arg, expr, pre, wild_rest. rewrite (rest_match _ _ _ _ dot_ok _ Ht) by done.
  destruct (wild _ s) as [t|]; [|done]. by destruct (forallb dot_ok (chars t)).
Qed.

Lemma value_match s : expr_arg "^value.([.\s\S]*)" (source_arg Value) s = value_rule s.
Proof.
  set (any := (".", ".")%char :: space_set ++ non_space_set).
  unfold expr_arg, expr, value_rule. rewrite (rest_match _ "v" "alue." (Class_ false any) (in_class false any)) by done.
  destruct (wild "value." s) as [t|]; [|done].
  assert (forallb (in_class false any) (chars t) = true) as ->; [|done].
  apply forallb_forall. intros c _. destruct c as [[] [] [] [] [] [] [] []]; reflexivity.
Qed.

(** A dot cuts a text, or there is none. *)
Lemma dot_cut s : (no_char "." s /\ find_char "." s = None) \/
  exists a b, s = a +:+ String "." b /\ no_char "." a /\ find_char "." s = Some (String.length a).
Proof.
  destruct (find_char "." s) as [i|] eqn:E; [right|left].
  - destruct (find_char_Some _ _ _ E) as (a & b & -> & Ha & <-). eauto.
  - split; [by apply find_char_None|done].
Qed.

Definition no_dot : re := Class_ true [("."%char, "."%char)].
Definition not_dot (c : ascii) : bool := in_class true [("."%char, "."%char)] c.
Lemma not_dot_spec c : not_dot c = true <-> c <> "."%char.
Proof. destruct c as [[] [] [] [] [] [] [] []]; cbn; split; done. Qed.
Lemma not_dot_all s : no_char "." s -> forallb not_dot (chars s) = true.
Proof. intros Hn. apply forallb_forall. intros c Hc. apply not_dot_spec. intros ->. by apply Hn, list_elem_of_In. Qed.

(** [([^.]+)] before something that is empty or starts with a dot. *)
Lemma key_group {A} n (k : pos -> option A) s gs :
  (forall c l gs, not_dot c = true -> k (mkPos false (c :: l) gs) = None) ->
  backtrack (Group n (Seq no_dot (Star true no_dot))) k (mkPos false (chars s) gs) =
  match dot_free_head s with
  | Some (a, t) => k (mkPos false (chars t) ((n, chars a) :: gs))
  | None => None
  end.
Proof.
  intros Hk.
  assert (forall a l, no_char "." a -> match l with c :: _ => not_dot c = false | [] => True end ->
    backtrack (Group n (Seq no_dot (Star true no_dot))) k (mkPos false (chars a ++ l) gs) =
    if sempty a then None else k (mkPos false l ((n, chars a) :: gs))) as H.
  { intros a l Ha Hl. cbn [backtrack no_dot].
    change (repeat_ ?m true ?k (length (p_rest ?p)) ?p) with (backtrack (Star true no_dot) k p).
    unfold eat. cbn [p_rest p_groups]. destruct a as [|c a]; cbn [sempty].
    { rewrite chars_nil. cbn [app]. destruct l as [|c l]; [done|]. change (in_class true _ c) with (not_dot c). by rewrite Hl. }
    pose proof (not_dot_all _ Ha) as Hall. rewrite chars_cons in *. cbn [app forallb] in *. apply andb_true_iff in Hall as [Hc Hall].
    change (in_class true _ c) with (not_dot c). rewrite Hc.
    rewrite (star_span no_dot not_dot); [|done| |done|done].
    - unfold capture. cbn [p_begin p_rest p_groups]. change (c :: chars a ++ l) with ((c :: chars a) ++ l). by rewrite between_app.
    - intros d l' gs' Hd. unfold capture. cbn. by apply Hk. }
  unfold dot_free_head. destruct (dot_cut s) as [[Hn ->]|(a & b & -> & Ha & ->)]; cbn [default from_option id].
  - specialize (H s [] Hn I). rewrite app_nil_r in H. rewrite H.
    pose proof (stake_app s "") as H1. pose proof (sdrop_app s "") as H2. rewrite string_app_nil_r in H1, H2. rewrite H1, H2. by destruct s.
  - rewrite chars_app, chars_cons, H by (done || reflexivity). rewrite stake_app, sdrop_app. by destruct a.
Qed.

(** Something and the end of the text: [to_the_end] refuses the rest. *)
Lemma end_only c l gs : to_the_end (mkPos false (c :: l) gs) = None.
Proof. done. Qed.
Lemma eol_only {A} (k : pos -> option A) c l gs : backtrack Eol k (mkPos false (c :: l) gs) = None.
Proof. done. Qed.

(** One character and more of them, up to the end. *)
Lemma plus_dot_end (k : pos -> option pos) s gs :
  (forall c l gs, k (mkPos false (c :: l) gs) = None) ->
  backtrack (Seq Dot (Star true Dot)) k (mkPos false (chars s) gs) =
  if negb (sempty s) && forallb dot_ok (chars s) then k (mkPos false [] gs) else None.
Proof.
  intros Hk. cbn [backtrack]. change (repeat_ ?m true ?k (length (p_rest ?p)) ?p) with (backtrack (Star true Dot) k p).
  unfold eat. cbn [p_rest p_groups]. destruct s as [|c s]; [done|]. rewrite chars_cons. cbn [sempty negb andb forallb].
  change (not_newline c) with (dot_ok c). destruct (dot_ok c); [|done]. by rewrite (star_end Dot dot_ok).
Qed.

(** The end of the text, and the groups found by then. *)
Definition ended (gs : list (nat * list ascii)) : option pos := Some (mkPos false [] gs).

(** [<first>.+], all of it in a group, up to the end. *)
Definition tail_re (n : nat) (first : ascii) : re := Group n (Seq (Char first) (Seq Dot (Star true Dot))).
Lemma tail_match n first (k : pos -> option pos) s gs :
  (forall c l gs, k (mkPos false (c :: l) gs) = None) ->
  backtrack (tail_re n first) k (mkPos false (chars s) gs) =
  match s with
  | String c1 (String c2 r) => if Ascii.eqb first c1 && forallb dot_ok (c2 :: chars r) then k (mkPos false [] ((n, chars s) :: gs)) else None
  | _ => None
  end.
Proof.
  intros Hk. unfold tail_re. change (backtrack (Group n ?r) ?k ?p) with (backtrack r (fun q => k (capture n p q)) p).
  change (backtrack (Seq (Char first) ?b) ?k ?p) with (eat (Ascii.eqb first) (backtrack b k) p).
  unfold eat. cbn [p_rest p_groups]. destruct s as [|c1 s]; [done|]. rewrite chars_cons.
  destruct (Ascii.eqb first c1); [|by destruct s]. rewrite plus_dot_end by (intros; apply Hk).
  destruct s as [|c2 s]; [done|]. cbn [sempty negb andb]. rewrite chars_cons. destruct (forallb dot_ok _); [|done].
  unfold capture. by rewrite between_all.
Qed.

(** [(?:\.(/.+))?$] *)
Definition path_re : re := Seq (Alt (Seq (Seq (Char ".") (tail_re 2 "/")) Eps) Eps) Eol.
Lemma path_match s gs :
  backtrack path_re to_the_end (mkPos false (chars s) gs) =
  match optional_path s with Some t => ended (if sempty t then gs else (2%nat, chars t) :: gs) | None => None end.
Proof.
  change (backtrack path_re ?k ?p) with (or_else (eat (Ascii.eqb ".") (backtrack (tail_re 2 "/") (backtrack Eol k)) p) (backtrack Eol k p)).
  unfold eat. cbn [p_rest p_groups]. destruct s as [|c1 s]; [done|]. rewrite chars_cons.
  rewrite (eq_refl : backtrack Eol _ (mkPos false (c1 :: _) gs) = None), tail_match by done.
  destruct s as [|c2 [|c3 s]]; cbn [optional_path]; [by destruct (Ascii.eqb "." c1)..|].
  rewrite (zc_eqb_ascii c1 "." : (zc c1 =? 46)%Z = _), (zc_eqb_ascii c2 "/" : (zc c2 =? 47)%Z = _), (Ascii.eqb_sym c1), (Ascii.eqb_sym c2).
  destruct (Ascii.eqb "." c1), (Ascii.eqb "/" c2); [|done..]. cbn [andb]. by destruct (forallb dot_ok _).
Qed.

(** [(?:\.(.+))?$] *)
Definition state_re : re := Seq (Alt (Seq (Seq (Char ".") (Group 2 (Seq Dot (Star true Dot)))) Eps) Eps) Eol.
Lemma state_match s gs :
  backtrack state_re to_the_end (mkPos false (chars s) gs) =
  match optional_tail s with Some t => ended (if sempty t then gs else (2%nat, chars (sdrop 1 t)) :: gs) | None => None end.
Proof.
  change (backtrack state_re ?k ?p) with
    (or_else (eat (Ascii.eqb ".") (fun q => backtrack (Seq Dot (Star true Dot)) (fun q' => backtrack Eol k (capture 2 q q')) q) p) (backtrack Eol k p)).
  unfold eat. cbn [p_rest p_groups]. destruct s as [|c1 s]; [done|]. rewrite chars_cons.
  rewrite (eq_refl : backtrack Eol _ (mkPos false (c1 :: _) gs) = None), plus_dot_end by done. unfold capture. rewrite between_all.
  destruct s as [|c2 s]; cbn [optional_tail]; [by destruct (Ascii.eqb "." c1)|].
  rewrite (zc_eqb_ascii c1 "." : (zc c1 =? 46)%Z = _), (Ascii.eqb_sym c1).
  destruct (Ascii.eqb "." c1); [|done]. rewrite chars_cons. cbn [andb negb sempty]. by destruct (forallb dot_ok _).
Qed.

(** [(\..+)?] *)
Definition uri_re : re := Alt (Seq (tail_re 2 ".") Eps) Eps.
Lemma uri_match s gs :
  backtrack uri_re to_the_end (mkPos false (chars s) gs) =
  match optional_tail s with Some t => ended (if sempty t then gs else (2%nat, chars t) :: gs) | None => None end.
Proof.
  change (backtrack uri_re ?k ?p) with (or_else (backtrack (tail_re 2 ".") k p) (k p)). rewrite tail_match by done.
  destruct s as [|c1 [|c2 s]]; [done..|]. cbn [optional_tail].
  rewrite (zc_eqb_ascii c1 "." : (zc c1 =? 46)%Z = _), (Ascii.eqb_sym c1). rewrite !chars_cons. by destruct (_ && _).
Qed.

(** ** The rules with two groups *)

Lemma vault_match text middle s :
  rx_compile text = Some (mkCompiled (Seq Bol (lit_re "vault." (Seq (Group 1 (Seq no_dot (Star true no_dot))) (lit_re middle path_re)))) 2) ->
  (middle = "" \/ exists m, middle = String "." m) ->
  matches_of text s = (fun '(a, b) => [s; a; b]) <$> vault_groups middle s.
Proof.
  intros Ht Hm. unfold matches_of. rewrite Ht. cbn [mbind option_bind]. unfold rx_match. cbn [rx_re rx_groups].
  rewrite begin_lit, backtrack_lit. unfold vault_groups. destruct (starts_with "vault." s); [|done]. cbn [String.length].
  change (backtrack (Seq ?a ?b) ?k ?p) with (backtrack a (backtrack b k) p). rewrite key_group.
  - destruct (dot_free_head (sdrop 6 s)) as [[k r]|] eqn:Eh; [|done]. rewrite backtrack_lit. destruct (starts_with middle r); [|done].
    rewrite path_match. destruct (optional_path _) as [t|]; [|done]. cbn. unfold groups_of, group_text.
    destruct t; cbn; by rewrite !str_chars.
  - intros c l gs Hc. apply not_dot_spec in Hc. destruct Hm as [->|[m ->]].
    + cbn [lit_re]. change (backtrack path_re ?k ?p) with (or_else (eat (Ascii.eqb ".") (backtrack (tail_re 2 "/") (backtrack Eol k)) p) (backtrack Eol k p)).
      unfold eat. cbn [p_rest]. by destruct (Ascii.eqb_spec "." c) as [<-|_].
    + cbn [lit_re backtrack]. unfold eat. cbn [p_rest]. by destruct (Ascii.eqb_spec "." c) as [<-|_].
Qed.

Lemma clientProvision_match s :
  matches_of "^clientProvision\.([^.]+)(?:\.(.+))?$" s = (fun '(a, b) => [s; a; b]) <$> clientProvision_groups s.
Proof.
  unfold matches_of.
  rewrite (eq_refl : rx_compile "^clientProvision\.([^.]+)(?:\.(.+))?$"
                     = Some (mkCompiled (Seq Bol (lit_re "clientProvision." (Seq (Group 1 (Seq no_dot (Star true no_dot))) state_re))) 2)).
  cbn [mbind option_bind]. unfold rx_match. cbn [rx_re rx_groups].
  rewrite begin_lit, backtrack_lit. unfold clientProvision_groups. destruct (starts_with "clientProvision." s); [|done].
  change (backtrack (Seq ?a ?b) ?k ?p) with (backtrack a (backtrack b k) p). rewrite key_group.
  - change (String.length "clientProvision.") with 16%nat. destruct (dot_free_head (sdrop 16 s)) as [[k r]|]; [|done].
    rewrite state_match. destruct (optional_tail _) as [t|]; [|done]. cbn. unfold groups_of, group_text.
    destruct t; cbn; by rewrite !str_chars.
  - intros c l gs Hc. apply not_dot_spec in Hc. unfold state_re. cbn [backtrack]. unfold eat. cbn [p_rest].
    by destruct (Ascii.eqb_spec "." c) as [<-|_].
Qed.

(** A word, its last character without anything after it. *)
Fixpoint word_re (c : ascii) (w : string) : re :=
  match w with EmptyString => Char c | String d w => Seq (Char c) (word_re d w) end.
Lemma backtrack_word {A} w (k : pos -> option A) : forall c s gs,
  backtrack (word_re c w) k (mkPos false (chars s) gs) =
  if starts_with (String c w) s then k (mkPos false (chars (sdrop (S (String.length w)) s)) gs) else None.
Proof.
  induction w as [|d w IH]; intros c s gs; cbn [word_re backtrack]; unfold eat; cbn [p_rest p_groups];
    (destruct s as [|e s]; [done|]); rewrite chars_cons; cbn [starts_with String.length sdrop];
    (case_decide as Hc; [subst; rewrite Ascii.eqb_refl|by apply Ascii.eqb_neq in Hc as ->]).
  - by destruct s.
  - apply IH.
Qed.

Lemma word_group {A} n c w (k : pos -> option A) s gs :
  backtrack (word_re c w) (fun q => k (capture n (mkPos false (chars s) gs) q)) (mkPos false (chars s) gs) =
  if starts_with (String c w) s then k (mkPos false (chars (sdrop (S (String.length w)) s)) ((n, chars (String c w)) :: gs)) else None.
Proof.
  rewrite backtrack_word. destruct (starts_with (String c w) s) eqn:E; [|done]. apply starts_with_spec in E as [t ->].
  change (S (String.length w)) with (String.length (String c w)). rewrite sdrop_app, chars_app. unfold capture. by rewrite between_app.
Qed.

Definition methods_re : re :=
  Alt (word_re "P" "OST") (Alt (word_re "G" "ET") (Alt (word_re "P" "UT") (Alt (word_re "D" "ELETE") (word_re "H" "EAD")))).

Lemma outState_match s :
  matches_of "^outState.(POST|GET|PUT|DELETE|HEAD)(\..+)?" s = (fun '(a, b) => [s; a; b]) <$> outState_groups s.
Proof.
  unfold matches_of.
  rewrite (eq_refl : rx_compile "^outState.(POST|GET|PUT|DELETE|HEAD)(\..+)?"
                     = Some (mkCompiled (Seq Bol (wild_re "outState." (Seq (Group 1 methods_re) uri_re))) 2)).
  cbn [mbind option_bind]. unfold rx_match. cbn [rx_re rx_groups].
  rewrite begin_wild, backtrack_wild. unfold outState_groups. destruct (wild "outState." s) as [r|]; [|done].
  unfold methods_re. change (backtrack (Seq ?a ?b) ?k ?p) with (backtrack a (backtrack b k) p).
  change (backtrack (Group ?n ?a) ?k ?p) with (backtrack a (fun q => k (capture n p q)) p).
  change (backtrack (Alt ?a (Alt ?b (Alt ?c (Alt ?d ?e)))) ?k ?p)
    with (or_else (backtrack a k p) (or_else (backtrack b k p) (or_else (backtrack c k p) (or_else (backtrack d k p) (backtrack e k p))))).
  rewrite !word_group, !uri_match. cbn [String.length].
  repeat match goal with |- context [if starts_with ?m r then _ else _] => destruct (starts_with m r) end;
    repeat match goal with |- context [optional_tail ?t] => destruct (optional_tail t) as [[]|] end;
    cbn; unfold groups_of, group_text; cbn; by rewrite ?str_chars.
Qed.

(** [[-+]{0,1}[0-9]+] in a group. *)
Definition digit_re : re := Class_ false digit_set.
Definition sign_re : re := Class_ false [("-"%char, "-"%char); ("+"%char, "+"%char)].
Definition number_re (n : nat) : re := Group n (Seq (Alt (Seq sign_re Eps) Eps) (Seq digit_re (Star true digit_re))).

Lemma digit_class c : in_class false digit_set c = isdigit c.
Proof. unfold in_class, isdigit, in_range. cbn -[Z.leb]. by rewrite orb_false_r. Qed.
Lemma sign_class c : in_class false [("-"%char, "-"%char); ("+"%char, "+"%char)] c = ((zc c =? 43) || (zc c =? 45))%Z.
Proof. destruct c as [[] [] [] [] [] [] [] []]; reflexivity. Qed.
Lemma sign_not_digit c : ((zc c =? 43) || (zc c =? 45))%Z = true -> isdigit c = false.
Proof. unfold isdigit. intros [H|H]%orb_true_iff; apply Z.eqb_eq in H as ->; done. Qed.

Lemma plus_digits {A} (k : pos -> option A) a l gs :
  (forall c l gs, isdigit c = true \/ c ∈ a -> k (mkPos false (c :: l) gs) = None) ->
  match l with c :: _ => isdigit c = false | [] => True end ->
  backtrack (Seq digit_re (Star true digit_re)) k (mkPos false (a ++ l) gs) =
  if match a with [] => false | _ => forallb isdigit a end then k (mkPos false l gs) else None.
Proof.
  intros Hk Hl. change (backtrack (Seq digit_re ?b) ?k ?p) with (eat (in_class false digit_set) (backtrack b k) p).
  unfold eat. cbn [p_rest p_groups]. destruct a as [|c a]; cbn [app].
  { destruct l as [|c l]; [done|]. by rewrite digit_class, Hl. }
  rewrite digit_class. cbn [forallb]. destruct (isdigit c); [|done]. cbn [andb].
  destruct (span_of isdigit a) as (d & x & -> & Hd & Hx). rewrite forallb_app, Hd, <- app_assoc. cbn [andb].
  rewrite (star_span digit_re (in_class false digit_set)).
  - destruct x as [|y x]; [done|]. cbn [app forallb]. rewrite Hx. apply Hk. right. set_solver.
  - done.
  - intros e l' gs' He. apply Hk. left. by rewrite <- digit_class.
  - apply forallb_forall. intros e He. rewrite digit_class. by apply (proj1 (forallb_forall isdigit d)).
  - destruct x as [|y x]; cbn [app]; [destruct l; [done|]|]; by rewrite digit_class.
Qed.

Lemma number_group {A} n (k : pos -> option A) a l gs :
  (forall c l gs, isdigit c = true \/ c ∈ chars a -> k (mkPos false (c :: l) gs) = None) ->
  match l with c :: _ => isdigit c = false /\ ((zc c =? 43) || (zc c =? 45))%Z = false | [] => True end ->
  backtrack (number_re n) k (mkPos false (chars a ++ l) gs) =
  if signed_digits a then k (mkPos false l ((n, chars a) :: gs)) else None.
Proof.
  intros Hk Hl. unfold number_re. set (p := mkPos false (chars a ++ l) gs).
  set (k' := fun q => k (capture n p q)).
  change (backtrack (Group n ?r) k p) with (backtrack r k' p).
  change (backtrack (Seq (Alt (Seq sign_re Eps) Eps) ?b) k' p)
    with (or_else (eat (in_class false [("-"%char, "-"%char); ("+"%char, "+"%char)]) (backtrack b k') p) (backtrack b k' p)).
  assert (forall c l' gs', isdigit c = true \/ c ∈ chars a -> k' (mkPos false (c :: l') gs') = None) as Hk' by (intros; by apply Hk).
  assert (k' (mkPos false l gs) = k (mkPos false l ((n, chars a) :: gs))) as Hdone.
  { unfold k', p, capture. by rewrite between_app. }
  assert (match l with c :: _ => isdigit c = false | [] => True end) as Hl' by (destruct l; [done|apply Hl]).
  subst p. rewrite (plus_digits k') by done. unfold eat. cbn [p_rest p_groups]. destruct a as [|c a]; cbn [signed_digits].
  { rewrite chars_nil. cbn [app]. destruct l as [|c l]; [done|]. rewrite sign_class. by rewrite (proj2 Hl). }
  rewrite chars_cons in *. cbn [app]. rewrite sign_class. destruct ((zc c =? 43) || (zc c =? 45))%Z eqn:Es.
  - rewrite plus_digits by (done || (intros c' l' gs' [?|?]; apply Hk'; set_solver)). cbn [forallb]. rewrite (sign_not_digit _ Es). cbn [andb].
    rewrite Hdone. destruct a as [|d a]; [done|]. rewrite chars_cons. cbn [sempty negb andb]. destruct (forallb isdigit _); [|done]. by destruct (k _).
  - cbn [or_else sempty negb andb]. by rewrite Hdone.
Qed.

Lemma random_match s :
  matches_of "^random\.([-+]{0,1}[0-9]+)\.([-+]{0,1}[0-9]+)$" s = (fun '(a, b) => [s; a; b]) <$> random_groups s.
Proof.
  unfold matches_of.
  rewrite (eq_refl : rx_compile "^random\.([-+]{0,1}[0-9]+)\.([-+]{0,1}[0-9]+)$"
                     = Some (mkCompiled (Seq Bol (lit_re "random." (Seq (number_re 1) (Seq (Char ".") (Seq (number_re 2) Eol))))) 2)).
  cbn [mbind option_bind]. unfold rx_match. cbn [rx_re rx_groups].
  rewrite begin_lit, backtrack_lit. unfold random_groups. destruct (starts_with "random." s); [|done].
  change (String.length "random.") with 7%nat. generalize (sdrop 7 s) as r. intros r.
  change (backtrack (Seq (number_re 1) ?b) ?k ?p) with (backtrack (number_re 1) (backtrack b k) p).
  assert (forall c l gs b, c <> "."%char -> backtrack (Seq (Char ".") b) to_the_end (mkPos false (c :: l) gs) = None) as Hdot.
  { intros c l gs b Hc. cbn [backtrack]. unfold eat. cbn [p_rest]. by destruct (Ascii.eqb_spec "." c) as [<-|_]. }
  assert (forall a, no_char "." a -> forall c, isdigit c = true \/ c ∈ chars a -> c <> "."%char) as Hnot.
  { intros a Ha c [Hc|Hc] ->; [done|]. by apply Ha. }
  destruct (dot_cut r) as [[Hn ->]|(a & b & -> & Ha & ->)].
  - rewrite <- (app_nil_r (chars r)), number_group; [by destruct (signed_digits r)| |done].
    intros c l gs Hc. apply Hdot. by apply (Hnot r).
  - rewrite chars_app, chars_cons, number_group by first [done | intros c l gs Hc; apply Hdot; by apply (Hnot a)].
    rewrite stake_app. assert (sdrop (S (String.length a)) (a +:+ String "." b) = b) as ->.
    { rewrite <- Nat.add_1_r, <- sdrop_sdrop, sdrop_app. by destruct b. }
    destruct (signed_digits a); [|done]. cbn [andb].
    change (backtrack (Seq (Char ".") ?b) ?k (mkPos false ("."%char :: ?l) ?gs)) with (backtrack b k (mkPos false l gs)).
    change (backtrack (Seq (number_re 2) ?b) ?k ?p) with (backtrack (number_re 2) (backtrack b k) p).
    rewrite <- (app_nil_r (chars b)), number_group by done. destruct (signed_digits b); [|done].
    cbn. unfold groups_of, group_text. cbn. by rewrite !str_chars.
Qed.

(** ** The chains and the recognizers *)

Definition same_rules {A} : list (rule A) -> list (rule A) -> Prop := Forall2 (fun r r' => forall s, r s = r' s).
Lemma first_rule_same {A} (l l' : list (rule A)) s : same_rules l l' -> first_rule l s = first_rule l' s.
Proof. induction 1 as [|r r' l l' Hr _ IH]; [done|]. cbn. by rewrite Hr, IH. Qed.

Lemma groups_match {A} text groups (f : string -> string -> A) :
  (forall s, matches_of text s = (fun '(a, b) => [s; a; b]) <$> groups s) ->
  forall s, expr_groups text f s = groups_rule groups f s.
Proof. intros Hm s. unfold expr_groups, expr, groups_rule. rewrite Hm. by destruct (groups s) as [[]|]. Qed.

Lemma random_rule_match s :
  expr "^random\.([-+]{0,1}[0-9]+)\.([-+]{0,1}[0-9]+)$"
    (fun g => let! i1 := stoi (g 1%nat) in let! i2 := stoi (g 2%nat) in Val (Some (mkSource Random "" "" [] i1 i2))) s = random_rule s.
Proof. unfold expr, random_rule. rewrite random_match. by destruct (random_groups s) as [[]|]. Qed.
Lemma clientProvision_rule_match s :
  expr "^clientProvision\.([^.]+)(?:\.(.+))?$"
    (fun g => if sempty (g 2%nat) then Val None else Val (Some (mkTarget ClientProvision_t (g 1%nat) (g 2%nat) []))) s = clientProvision_rule s.
Proof. unfold expr, clientProvision_rule. rewrite clientProvision_match. by destruct (clientProvision_groups s) as [[]|]. Qed.
Lemma outState_rule_match s :
  expr "^outState.(POST|GET|PUT|DELETE|HEAD)(\..+)?"
    (fun g => let u := if sempty (g 2%nat) then g 2%nat else sdrop 1 (g 2%nat) in Val (Some (mkTarget OutState (g 1%nat) u []))) s
  = groups_rule outState_groups (fun m u => mkTarget OutState m (sdrop 1 u) []) s.
Proof. unfold expr, groups_rule. rewrite outState_match. by destruct (outState_groups s) as [[m []]|]. Qed.

(** Rule by rule. *)
Ltac same_rule :=
  intros ?; first
    [ reflexivity
    | apply pre_match; reflexivity
    | apply value_match | apply random_rule_match | apply clientProvision_rule_match | apply outState_rule_match
    | apply groups_match; intros ?; apply vault_match; [reflexivity|eauto] ].

Lemma source_same decode : same_rules (source_chain decode) (source_rules decode).
Proof. unfold source_chain, source_rules. repeat (apply List.Forall2_cons; [same_rule|]). apply List.Forall2_nil. Qed.
Lemma target_same decode : same_rules (target_chain decode) (response_body_rules ++ request_body_rules ++ other_target_rules decode).
Proof.
  unfold target_chain, response_body_chain, request_body_chain, other_target_chain, response_body_rules, request_body_rules, other_target_rules, body_rules.
  cbn [app]. repeat (apply List.Forall2_cons; [same_rule|]). apply List.Forall2_nil.
Qed.

(** ** Patterns of variables *)

Definition brace_re : re := Class_ true [("{"%char, "{"%char); ("}"%char, "}"%char)].
Definition no_brace (c : ascii) : bool := in_class true [("{"%char, "{"%char); ("}"%char, "}"%char)] c.
Definition var_re : re := lit_re "@{" (Seq (Star true brace_re) (Char "}")).

Lemma no_brace_spec c : no_brace c = negb (zc c =? 125)%Z && negb (zc c =? 123)%Z.
Proof. destruct c as [[] [] [] [] [] [] [] []]; reflexivity. Qed.

Lemma take_name_span a t : forallb no_brace (chars a) = true ->
  take_name (a +:+ t) = (fun '(n, r) => (a +:+ n, r)) <$> take_name t.
Proof.
  induction a as [|c a IH]; [intros _; change ("" +:+ t) with t; by destruct (take_name t) as [[]|]|].
  rewrite chars_cons, string_app_cons. cbn [forallb take_name]. rewrite no_brace_spec.
  destruct (zc c =? 125)%Z, (zc c =? 123)%Z; cbn [negb andb]; [done..|]. intros Ha. rewrite IH by done. by destruct (take_name t) as [[]|].
Qed.

(** A pattern at the begin of a text. *)
Definition here (s : string) : option (string * string) := if starts_with "@{" s then take_name (sdrop 2 s) else None.

Lemma var_here b s : backtrack var_re Some (mkPos b (chars s) []) = (fun '(_, rest) => mkPos false (chars rest) []) <$> here s.
Proof.
  transitivity (backtrack var_re Some (mkPos false (chars s) [])); [done|]. unfold var_re, here. rewrite backtrack_lit.
  destruct (starts_with "@{" s); [|done]. change (String.length "@{") with 2%nat. generalize (sdrop 2 s) as t. intros t.
  change (backtrack (Seq ?a ?b) ?k ?p) with (backtrack a (backtrack b k) p).
  destruct (span_of no_brace (chars t)) as (a & l & Ht & Ha & Hl). rewrite Ht, (star_span brace_re no_brace); [|done| |done|done].
  - assert (t = str a +:+ str l) as -> by (apply chars_inj; by rewrite chars_app, !chars_str).
    rewrite take_name_span by (by rewrite chars_str). cbn [backtrack]. unfold eat. cbn [p_rest p_groups].
    destruct l as [|c l]; [done|]. change (str (c :: l)) with (String c (str l)). cbn [take_name]. rewrite no_brace_spec in Hl.
    rewrite (Ascii.eqb_sym "}" c), <- (zc_eqb_ascii c "}"). change (zc "}") with 125%Z.
    destruct (zc c =? 125)%Z; [cbn; by rewrite chars_str|]. by destruct (zc c =? 123)%Z.
  - intros c l' gs Hc. cbn [backtrack]. unfold eat. cbn [p_rest]. rewrite no_brace_spec in Hc.
    rewrite (Ascii.eqb_sym "}" c), <- (zc_eqb_ascii c "}"). change (zc "}") with 125%Z. by destruct (zc c =? 125)%Z.
Qed.

(** What the first match is, and what follows it. *)
Definition found (b : bool) (s : list ascii) : option (list ascii * list ascii) :=
  (fun '(_, p, q) => (between p q, p_rest q)) <$> search_from var_re b s.

Lemma here_text s name rest : here s = Some (name, rest) -> s = pattern_of name +:+ rest.
Proof.
  unfold here. destruct (starts_with "@{" s) eqn:Es; [|done]. intros Ht. by apply (take_pattern s Es) in Ht as [Hs _].
Qed.

Lemma found_cases b s :
  found b (chars s) =
  match here s with
  | Some (name, rest) => Some (chars (pattern_of name), chars rest)
  | None => match s with EmptyString => None | String _ s' => found false (chars s') end
  end.
Proof.
  unfold found. destruct s as [|c s]; [done|]. rewrite chars_cons. cbn [search_from]. rewrite <- chars_cons, var_here.
  destruct (here (String c s)) as [[name rest]|] eqn:Eh; cbn [fmap option_fmap option_map].
  - rewrite (here_text _ _ _ Eh), chars_app, between_app. done.
  - by destruct (search_from var_re false (chars s)) as [[[]]|].
Qed.

Lemma found_begin b s : found b (chars s) = found true (chars s).
Proof. by rewrite !found_cases. Qed.

Lemma pattern_searches_found n s m :
  pattern_searches (S n) var_re s m =
  match found true s with
  | None => m
  | Some (w, l) => pattern_searches n var_re l (<[str w := stake (String.length (str w) - 3) (sdrop 2 (str w))]> m)
  end.
Proof. unfold found. cbn [pattern_searches]. by destruct (search_from var_re true s) as [[[]]|]. Qed.

Lemma pattern_name name : stake (String.length (pattern_of name) - 3) (sdrop 2 (pattern_of name)) = name.
Proof.
  unfold pattern_of. rewrite !slength_app. change (sdrop 2 ("@{" +:+ name +:+ "}")) with (name +:+ "}").
  change (String.length "@{") with 2%nat. change (String.length "}") with 1%nat.
  replace (2 + (String.length name + 1) - 3)%nat with (String.length name) by lia. apply stake_app.
Qed.

(** A search skips what is before the match, the loop of the development goes through it. *)
Lemma search_collect f : forall n s m, (String.length s <= f)%nat -> (String.length s < n)%nat ->
  pattern_searches n var_re (chars s) m = collect_loop f s m.
Proof.
  induction f as [|f IH]; intros n s m Hf Hn; (destruct n as [|n]; [lia|]); rewrite pattern_searches_found, found_cases.
  - by destruct s; [|cbn in Hf; lia].
  - destruct s as [|c s]; [done|]. cbn [collect_loop]. fold (here (String c s)).
    destruct (here (String c s)) as [[name rest]|] eqn:Eh.
    + rewrite str_chars, pattern_name. apply here_text, (f_equal String.length) in Eh. rewrite slength_app in Eh.
      assert (3 <= String.length (pattern_of name))%nat.
      { unfold pattern_of. rewrite !slength_app. change (String.length "@{") with 2%nat. change (String.length "}") with 1%nat. lia. }
      apply IH; lia.
    + rewrite found_begin, <- (pattern_searches_found n), IH by (cbn in Hf, Hn; lia). done.
Qed.

(** C13: the texts of a transformation: what the recognizers of sources and targets and the
    collector of variable patterns of the development give is, on every text, what the
    source gives with its own regular expressions, read by the library and matched or
    searched in the order of its comparisons: the same kind, groups, errors and patterns. *)
Theorem recognizers_are_the_expressions (decode : string -> string) (s : string) :
  load_source decode s = first_rule (source_chain decode) s /\
  load_target decode s = first_rule (target_chain decode) s /\
  collectVariablePatterns s = collect_chain s.
Proof.
  split_and!; [symmetry; apply first_rule_same, source_same|symmetry; apply first_rule_same, target_same|].
  unfold collect_chain.
  rewrite (eq_refl : rx_compile "@\{[^\{\}]*\}" = Some (mkCompiled var_re 0)). symmetry. apply search_collect; lia.
Qed.
