(* ===== verification/ItemText.v ===== *)
(** [asString]: the text in the traces of an item, with the names of the types
    ([model/Transformation.hpp]), of a converter ([model/TypeConverter.cpp]) and of the key of
    an event ([model/keys.hpp]). *)
From S2P Require Import Prelude Std Double Functions Query Json External JsonReader Keys TypeConverter Transformation.
From Stdlib Require Import SpecFloat.
From stdpp Require Import options.
#[local] Open Scope Z_scope.

Definition SourceTypeAsText (t : SourceType) : string :=
  match t with
  | RequestUri => "RequestUri" | RequestUriPath => "RequestUriPath" | RequestUriParam => "RequestUriParam" | RequestBody => "RequestBody"
  | ResponseBody => "ResponseBody" | RequestHeader => "RequestHeader" | RequestHeaders => "RequestHeaders" | Eraser => "Eraser" | Math => "Math"
  | Random => "Random" | RandomSet => "RandomSet" | Timestamp => "Timestamp" | Strftime => "Strftime" | Recvseq => "Recvseq" | SVar => "SVar"
  | SGVar => "SGVar" | Value => "Value" | ServerEvent => "ServerEvent" | InState => "InState" | STxtFile => "STxtFile" | SBinFile => "SBinFile"
  | Command => "Command" | Sendseq => "Sendseq" | ClientEvent => "ClientEvent" | ResponseHeader => "ResponseHeader"
  | ResponseHeaders => "ResponseHeaders" | ResponseStatusCode => "ResponseStatusCode"
  end.

Definition TargetTypeAsText (t : TargetType) : string :=
  match t with
  | ResponseBodyString => "ResponseBodyString" | ResponseBodyHexString => "ResponseBodyHexString"
  | ResponseBodyJson_String => "ResponseBodyJson_String" | ResponseBodyJson_Integer => "ResponseBodyJson_Integer"
  | ResponseBodyJson_Unsigned => "ResponseBodyJson_Unsigned" | ResponseBodyJson_Float => "ResponseBodyJson_Float"
  | ResponseBodyJson_Boolean => "ResponseBodyJson_Boolean" | ResponseBodyJson_Object => "ResponseBodyJson_Object"
  | ResponseBodyJson_JsonString => "ResponseBodyJson_JsonString" | ResponseHeader_t => "ResponseHeader"
  | ResponseStatusCode_t => "ResponseStatusCode" | ResponseDelayMs => "ResponseDelayMs" | TVar => "TVar" | TGVar => "TGVar"
  | TGVarJson_Object => "TGVarJson_Object" | TGVarJson_JsonString => "TGVarJson_JsonString" | OutState => "OutState" | TTxtFile => "TTxtFile"
  | TBinFile => "TBinFile" | UDPSocket => "UDPSocket" | ServerEventToPurge => "ServerEventToPurge" | Break => "Break"
  | RequestBodyString => "RequestBodyString" | RequestBodyHexString => "RequestBodyHexString"
  | RequestBodyJson_String => "RequestBodyJson_String" | RequestBodyJson_Integer => "RequestBodyJson_Integer"
  | RequestBodyJson_Unsigned => "RequestBodyJson_Unsigned" | RequestBodyJson_Float => "RequestBodyJson_Float"
  | RequestBodyJson_Boolean => "RequestBodyJson_Boolean" | RequestBodyJson_Object => "RequestBodyJson_Object"
  | RequestBodyJson_JsonString => "RequestBodyJson_JsonString" | RequestHeader_t => "RequestHeader" | RequestDelayMs => "RequestDelayMs"
  | RequestTimeoutMs => "RequestTimeoutMs" | ClientEventToPurge => "ClientEventToPurge" | RequestUri_t => "RequestUri"
  | RequestMethod_t => "RequestMethod" | ClientProvision_t => "ClientProvision"
  end.

Definition FilterTypeAsText (t : FilterType) : string :=
  match t with
  | RegexCapture => "RegexCapture" | RegexReplace => "RegexReplace" | Append => "Append" | Prepend => "Prepend" | Sum => "Sum"
  | Multiply => "Multiply" | ConditionVar => "ConditionVar" | EqualTo => "EqualTo" | DifferentFrom => "DifferentFrom"
  | JsonConstraint_f => "JsonConstraint" | SchemaId => "SchemaId" | Split => "Split" | BaseConvert => "BaseConvert" | FStrptime => "Strptime"
  | FStrftime => "Strftime" | RegexKey => "RegexKey" | Size => "Size"
  end.

(** [ss << f]: six significant digits, without the zeros at the end. *)
Definition stream_double (f : double) : string :=
  match f with
  | S754_zero s => if s then "-0" else "0"
  | S754_infinity s => if s then "-inf" else "inf"
  | S754_nan => "nan"
  | S754_finite s m e =>
      let '(num, den) := if 0 <=? e then (Z.pos m * 2 ^ e, 1) else (Z.pos m, 2 ^ (- e)) in
      let k := log10 num den - 5 in
      let '(a, k) := strip_zeros 7 (rounded num den k) k in
      let ds := to_string_u a in
      let len := Z.of_nat (String.length ds) in
      let x := len + k - 1 in
      (if s then "-" else "") +:+
      (if (x <? -4) || (6 <=? x) then
         stake 1 ds +:+ (if len =? 1 then "" else "." +:+ sdrop 1 ds) +:+ "e" +:+ (if x <? 0 then "-" else "+")
         +:+ (if Z.abs x <? 10 then "0" else "") +:+ to_string_u (Z.abs x)
       else if 0 <=? k then ds +:+ zeros k
       else if 0 <=? x then stake (Z.to_nat (x + 1)) ds +:+ "." +:+ sdrop (Z.to_nat (x + 1)) ds
       else "0." +:+ zeros (- x - 1) +:+ ds)
  end.

(** The names of the variables, in the order of their patterns. *)
Definition variables_text (title : string) (m : gmap string string) : string :=
  if bool_decide (m = ∅) then "" else
  title +:+ String.concat "" (map (fun kv => " " +:+ kv.2) (map_entries m)).

Section ItemText.
Context `{RegexLib}.

Definition source_text (t : Item) : string :=
  let s := it_source t in
  "SourceType: " +:+ SourceTypeAsText (source_type_ s) +:+
  match source_type_ s with
  | RequestUri | RequestUriPath | Eraser | Recvseq | Sendseq | InState | ResponseStatusCode => ""
  | ty =>
      " | source_: " +:+ source_ s +:+
      match ty with
      | RequestBody | ResponseBody => " (empty: whole, path: node)"
      | Random => " | source_i1_: " +:+ to_string_i (source_i1_ s) +:+ " (Random min) | source_i2_: " +:+ to_string_i (source_i2_ s) +:+ " (Random max)"
      | RandomSet | ServerEvent | ClientEvent =>
          " | source_tokenized_:" +:+ String.concat "" (map (fun x => " '" +:+ x +:+ "'") (source_tokenized_ s))
      | STxtFile | SBinFile => " (path file)"
      | Command => " (shell command expression)"
      | _ => ""
      end +:+ variables_text " | source variables:" (source_patterns_ t)
  end.

Definition target_text (t : Item) : string :=
  let a := it_target t in
  let second := variables_text " | target2 variables:" (target2_patterns_ t) in
  " | TargetType: " +:+ TargetTypeAsText (target_type_ a) +:+
  match target_type_ a with
  | ResponseStatusCode_t | ResponseDelayMs | ResponseBodyString | ResponseBodyHexString
  | RequestDelayMs | RequestTimeoutMs | RequestBodyString | RequestBodyHexString => ""
  | ty =>
      " | target_: " +:+ target_ a +:+
      match ty with
      | ResponseBodyJson_String | ResponseBodyJson_Integer | ResponseBodyJson_Unsigned | ResponseBodyJson_Float | ResponseBodyJson_Boolean
      | ResponseBodyJson_Object | RequestBodyJson_String | RequestBodyJson_Integer | RequestBodyJson_Unsigned | RequestBodyJson_Float
      | RequestBodyJson_Boolean | RequestBodyJson_Object => " (empty: whole, path: node)"
      | OutState =>
          " (empty: current method, method: another) | target2_: " +:+ target2_ a +:+ "(empty: current uri, uri: another)" +:+ second
      | TTxtFile | TBinFile => " (path file)"
      | ClientProvision_t => if sempty (target2_ a) then "" else " | target2_: " +:+ target2_ a +:+ " (explicit inState)" +:+ second
      | UDPSocket => " (<path file>[|<write delay ms>])"
      | _ => ""
      end +:+ variables_text " | target variables:" (target_patterns_ t)
  end.

Definition bool_text (b : bool) : string := if b then "true" else "false".
Definition unit_text (n : Z) : string := default "" (["s"; "ms"; "us"; "ns"] !! Z.to_nat n).

Definition filter_text_ (f : Filter) (patterns : gmap string string) : string :=
  " | FilterType: " +:+ FilterTypeAsText (filter_type_ f) +:+
  match filter_type_ f with
  | Split => " | size: " +:+ to_string_i (filter_i_ f) +:+ " | count: " +:+ to_string_u (filter_u_ f) +:+ " | sep: '" +:+ filter_ f
             +:+ "' | filler: '" +:+ filter_filler_ f +:+ "' | numeric: " +:+ bool_text (negb (filter_number_type_ f =? 0))
  | BaseConvert => " | in: " +:+ to_string_i (filter_i_ f) +:+ " | out: " +:+ to_string_u (filter_u_ f) +:+ " | capital: "
                   +:+ bool_text (negb (filter_number_type_ f =? 0))
  | FStrptime | FStrftime => " | fmt: '" +:+ filter_ f +:+ "' | unit: " +:+ unit_text (filter_number_type_ f)
  | Sum | Multiply | Size =>
      " | filter_number_type_: " +:+ to_string_i (filter_number_type_ f) +:+ " (0: integer, 1: unsigned, 2: float)"
      +:+ " | filter_i_: " +:+ to_string_i (filter_i_ f) +:+ " | filter_u_: " +:+ to_string_u (filter_u_ f)
      +:+ " | filter_f_: " +:+ stream_double (filter_f_ f)
  | ty =>
      " | filter_ " +:+ filter_ f +:+
      match ty with
      | RegexReplace => " (fmt)"
      | RegexCapture => " (literal, although not actually needed, but useful to access & print on traces)"
      | _ => ""
      end
  end +:+ variables_text " | filter variables:" patterns.

Definition Transformation_asString (t : Transformation) : string :=
  let i := tr_item t in
  source_text i +:+ target_text i +:+ match it_filter i with Some f => filter_text_ f (filter_patterns_ i) | None => "" end.
End ItemText.

(** [TypeConverter::asString]: the native type is in capitals; the text of the document may
    throw. *)
Definition native_index (n : NativeType) : Z :=
  match n with TString => 0 | TInteger => 1 | TUnsigned => 2 | TFloat => 3 | TBoolean => 4 | TObject => 5 end.
Definition TypeConverter_asString `{JsonText} (t : TypeConverter) : outcome string :=
  let title n (native other : string) := " | " +:+ (if decide (native_type_ t = n) then native else other) +:+ ": " in
  let! dump := json_dump (j_value_ t) in
  Val ("NativeType (String = 0, Integer, Unsigned, Float, Boolean, Object): " +:+ to_string_i (native_index (native_type_ t))
       +:+ title TString "STRING" "String" +:+ s_value_ t
       +:+ title TInteger "INTEGER" "Integer" +:+ to_string_i (i_value_ t)
       +:+ title TUnsigned "UNSIGNED" "Unsigned" +:+ to_string_u (u_value_ t)
       +:+ title TFloat "FLOAT" "Float" +:+ stream_double (f_value_ t)
       +:+ title TBoolean "BOOLEAN" "Boolean" +:+ bool_text (b_value_ t)
       +:+ title TObject "OBJECT" "Object" +:+ dump).

(** [EventKey::asString] *)
Definition EventKey_asString (k : EventKey) : string :=
  (if nkeys_ (ek_data k) =? 3 then "clientEndpointId: " +:+ client_endpoint_id_ (ek_data k) +:+ " | " else "") +:+
  "requestMethod: " +:+ method_ (ek_data k) +:+ " | requestUri: " +:+ uri_ (ek_data k) +:+ " | eventNumber: " +:+ number_ k.
