(* ===== verification/Templates.v ===== *)
(** Texts with variables: plain pieces and patterns [@{name}], and what the searches and
    replacements of the programs ([searchReplaceAll], the loops over the collected
    patterns) do to them.  Shared by the agent and the tools. *)
From S2P Require Import Prelude Std Double Functions Query Json JsonModel External TypeConverter Transformation.
From stdpp Require Import options.

(** ** Templates *)

Inductive piece := Lit (s : string) | Var (name : string).
#[global] Instance piece_eq_dec : EqDecision piece.
Proof. solve_decision. Defined.

(** A quiet text can not be the start of a pattern, alone or with what follows it: each of
    its at signs has a character after it that is not an opening brace. *)
Fixpoint quiet (s : string) : bool :=
  match s with
  | EmptyString => true
  | String c s' => (negb (bool_decide (c = "@"%char)) || match s' with String d _ => negb (bool_decide (d = lbrace)) | EmptyString => false end) && quiet s'
  end.

Lemma quiet_app a b : quiet a = true -> quiet b = true -> quiet (a +:+ b) = true.
Proof.
  intros Ha Hb. induction a as [|c a IH]; [done|]. rewrite string_app_cons. cbn [quiet] in *.
  apply andb_true_iff in Ha as [Hc Ha]. rewrite (IH Ha), andb_true_r. destruct a as [|d a]; [|done].
  rewrite orb_false_r in Hc. by rewrite Hc.
Qed.
Lemma quiet_no_at s : no_char "@" s -> quiet s = true.
Proof.
  induction s as [|c s IH]; [done|]. intros [Hc Hs]%no_char_cons. cbn [quiet].
  rewrite bool_decide_eq_false_2 by congruence. by rewrite IH.
Qed.
(** Without opening braces only the last character matters. *)
Lemma quiet_end s c : no_char lbrace s -> c <> "@"%char -> c <> lbrace -> quiet (s +:+ String c "") = true.
Proof.
  intros Hs Hc Hl. induction s as [|d s IH].
  { change ("" +:+ ?x) with x. cbn [quiet]. by rewrite (bool_decide_eq_false_2 (c = "@"%char)). }
  apply no_char_cons in Hs as [Hd Hs]. rewrite string_app_cons. cbn [quiet]. rewrite (IH Hs), andb_true_r.
  destruct s as [|e s].
  { change ("" +:+ ?x) with x. cbv iota. by rewrite (bool_decide_eq_false_2 (c = lbrace)), orb_true_r. }
  rewrite string_app_cons.
  apply no_char_cons in Hs as [He _]. by rewrite (bool_decide_eq_false_2 (e = lbrace)), orb_true_r by congruence.
Qed.

(** Plain text is quiet, and a name has no brace. *)
Definition piece_ok (p : piece) : Prop := match p with Lit s => quiet s = true | Var n => var_name n end.
#[global] Instance piece_ok_dec p : Decision (piece_ok p).
Proof. destruct p; unfold piece_ok, var_name; apply _. Defined.
Definition piece_text (p : piece) : string := match p with Lit s => s | Var n => pattern_of n end.
Fixpoint template_text (ps : list piece) : string :=
  match ps with [] => "" | p :: ps => piece_text p +:+ template_text ps end.
Fixpoint var_count (ps : list piece) : nat :=
  match ps with [] => O | Lit _ :: ps => var_count ps | Var _ :: ps => S (var_count ps) end.
(** One name replaced by a text. *)
Definition put (n to : string) (p : piece) : piece := if bool_decide (p = Var n) then Lit to else p.

Lemma template_text_app ps1 ps2 : template_text (ps1 ++ ps2) = template_text ps1 +:+ template_text ps2.
Proof. induction ps1 as [|p ps1 IH]; [done|]. cbn [app template_text]. by rewrite IH, string_app_assoc. Qed.
Lemma var_count_app ps1 ps2 : var_count (ps1 ++ ps2) = (var_count ps1 + var_count ps2)%nat.
Proof. induction ps1 as [|[] ps1 IH]; cbn; [done|done|by rewrite IH]. Qed.

(** The text of a pattern after its at sign. *)
Definition pattern_rest (n : string) : string := "{" +:+ n +:+ "}".
Lemma pattern_of_cons n : pattern_of n = String "@" (pattern_rest n).
Proof. done. Qed.
Lemma pattern_rest_ok n : var_name n -> quiet (pattern_rest n) = true.
Proof. intros [Hn _]. unfold pattern_rest. apply quiet_app; [done|]. by apply quiet_end. Qed.

Lemma var_count_length ps : (var_count ps <= String.length (template_text ps))%nat.
Proof.
  induction ps as [|[s|n] ps IH]; [done|..]; cbn [template_text piece_text];
    rewrite slength_app, ?pattern_of_cons; cbn [var_count String.length]; lia.
Qed.

Lemma pattern_of_prefix n n' r r' : var_name n -> var_name n' -> pattern_of n +:+ r = pattern_of n' +:+ r' -> n = n'.
Proof.
  intros [_ Hn] [_ Hn'] E. unfold pattern_of in E. rewrite !string_app_assoc in E.
  apply (f_equal chars) in E. rewrite !chars_app in E. apply app_inv_head in E.
  rewrite <- !chars_app in E. apply chars_inj in E.
  by apply (string_split_unique "}") in E as [-> _].
Qed.

(** ** Searching *)

(** The first occurrence of a text whose first character does not occur before. *)
Lemma find_sub_app c p a b : no_char c a -> find_sub (String c p) (a +:+ String c p +:+ b) = Some (String.length a).
Proof.
  induction a as [|d a IH]; intros Ha.
  - assert (starts_with (String c p) (String c p +:+ b) = true) as E by (apply starts_with_spec; eauto).
    change ("" +:+ ?x) with x. rewrite string_app_cons in *. unfold find_sub. by rewrite E.
  - apply no_char_cons in Ha as [Hd Ha]. rewrite string_app_cons. cbn [find_sub].
    destruct (starts_with (String c p) _) eqn:E; [cbn in E; by rewrite decide_False in E|].
    by rewrite IH.
Qed.

(** A pattern does not start inside a quiet text. *)
Lemma quiet_no_brace p c a s : quiet (String c a) = true -> starts_with ("@{" +:+ p) (String c (a +:+ s)) = false.
Proof.
  cbn [quiet]. intros [Hc _]%andb_true_iff. rewrite !string_app_cons. cbn.
  destruct (decide ("@"%char = c)) as [<-|Ec]; [|reflexivity]. destruct a as [|d a]; [discriminate Hc|].
  rewrite !string_app_cons. cbn -[bool_decide] in Hc |- *.
  destruct (decide ("{"%char = d)) as [<-|Ed]; [discriminate Hc|reflexivity].
Qed.
Lemma quiet_no_start n c a s : quiet (String c a) = true -> starts_with (pattern_of n) (String c (a +:+ s)) = false.
Proof. apply quiet_no_brace. Qed.

Lemma find_sub_skip n a s : quiet a = true ->
  find_sub (pattern_of n) (a +:+ s) = (fun i => String.length a + i)%nat <$> find_sub (pattern_of n) s.
Proof.
  induction a as [|c a IH]; intros Ha.
  { change ("" +:+ s) with s. by destruct (find_sub _ s). }
  rewrite string_app_cons. cbn [find_sub]. rewrite quiet_no_start by done.
  cbn [quiet] in Ha. apply andb_true_iff in Ha as [_ Ha]. rewrite IH by done. by destruct (find_sub _ s).
Qed.

Lemma find_sub_here p s : p <> "" -> find_sub p (p +:+ s) = Some 0%nat.
Proof.
  intros Hp. assert (starts_with p (p +:+ s) = true) as E by (apply starts_with_spec; eauto).
  destruct p as [|c p]; [done|]. rewrite string_app_cons in *. unfold find_sub. by rewrite E.
Qed.

(** A pattern other than the searched one is passed over. *)
Lemma find_other_pattern n n' s : var_name n -> var_name n' -> n <> n' ->
  find_sub (pattern_of n) (pattern_of n' +:+ s) = (fun i => String.length (pattern_of n') + i)%nat <$> find_sub (pattern_of n) s.
Proof.
  intros Hn Hn' Hne. rewrite (pattern_of_cons n'), string_app_cons. cbn [find_sub].
  destruct (starts_with _ _) eqn:E.
  { apply starts_with_spec in E as [t E]. rewrite <- string_app_cons, <- pattern_of_cons in E.
    symmetry in E. by apply pattern_of_prefix in E. }
  rewrite find_sub_skip by by apply pattern_rest_ok. by destruct (find_sub _ s).
Qed.

(** The first occurrence of a pattern is the first piece that is this pattern. *)
Lemma find_var_none n ps : var_name n -> Forall piece_ok ps -> Var n ∉ ps -> find_sub (pattern_of n) (template_text ps) = None.
Proof.
  intros Hn Hps Hni. induction Hps as [|[s|n'] ps Hp Hps IH]; [done|..]; cbn [template_text piece_text].
  - rewrite find_sub_skip by done. by rewrite IH by set_solver.
  - rewrite find_other_pattern by (done || set_solver). by rewrite IH by set_solver.
Qed.

Lemma find_var_first n ps1 ps2 : var_name n -> Forall piece_ok ps1 -> Var n ∉ ps1 ->
  find_sub (pattern_of n) (template_text (ps1 ++ Var n :: ps2)) = Some (String.length (template_text ps1)).
Proof.
  intros Hn Hps Hni. induction Hps as [|[s|n'] ps Hp Hps IH]; cbn [app template_text piece_text].
  - by apply find_sub_here.
  - rewrite find_sub_skip by done. rewrite IH by set_solver. cbn. by rewrite slength_app.
  - rewrite find_other_pattern by (done || set_solver). rewrite IH by set_solver. cbn. by rewrite slength_app.
Qed.

(** A pattern occurs in a template only as one of its pieces. *)
Lemma occurs_skip n a s : quiet a = true -> occurs (pattern_of n) (a +:+ s) -> occurs (pattern_of n) s.
Proof.
  induction a as [|c a IH]; [done|]. intros Ha. rewrite string_app_cons.
  intros [E|Ho]%occurs_cons; [by rewrite quiet_no_start in E|].
  cbn [quiet] in Ha. apply andb_true_iff in Ha as [_ Ha]. by apply IH.
Qed.
Lemma occurs_in_template n ps : var_name n -> Forall piece_ok ps -> occurs (pattern_of n) (template_text ps) -> Var n ∈ ps.
Proof.
  intros Hn. induction 1 as [|[s|n'] ps Hp _ IH]; cbn [template_text piece_text]; intros Ho.
  - destruct Ho as (a & b & E). by destruct a.
  - apply occurs_skip in Ho; [|done]. apply elem_of_cons. auto.
  - apply occurs_after in Ho as [->|Ho]; [by apply elem_of_cons; left|apply elem_of_cons; auto|apply Hp|done].
Qed.

(** ** Replacing *)

Lemma put_none n to (ps : list piece) : Var n ∉ ps -> put n to <$> ps = ps.
Proof.
  induction ps as [|p ps IH]; intros Hn; [done|]. cbn. rewrite IH by set_solver. f_equal.
  unfold put. rewrite bool_decide_eq_false_2; [done|]. set_solver.
Qed.
Lemma put_var n to : put n to (Var n) = Lit to.
Proof. unfold put. by rewrite bool_decide_eq_true_2. Qed.
Lemma put_ok n to ps : quiet to = true -> Forall piece_ok ps -> Forall piece_ok (put n to <$> ps).
Proof.
  intros Ht Hok. apply Forall_fmap. eapply Forall_impl; [done|]. intros p Hp. cbn. unfold put. by case_bool_decide.
Qed.

Lemma var_split n (ps : list piece) : Var n ∈ ps -> exists ps1 ps2, ps = ps1 ++ Var n :: ps2 /\ Var n ∉ ps1.
Proof.
  induction ps as [|p ps IH]; [set_solver|]. destruct (decide (p = Var n)) as [->|Hp].
  - intros _. exists [], ps. split; [done|set_solver].
  - intros [|Hin]%elem_of_cons; [done|]. destruct (IH Hin) as (ps1 & ps2 & -> & Hn).
    exists (p :: ps1), ps2. split; [done|]. set_solver.
Qed.

Lemma search_loop_pieces n to : var_name n -> forall fuel p ps,
  (var_count ps < fuel)%nat -> Forall piece_ok ps ->
  search_loop fuel (p +:+ template_text ps) (pattern_of n) to (String.length p) = Some (p +:+ template_text (put n to <$> ps)).
Proof.
  intros Hn. induction fuel as [|fuel IH]; intros p ps Hf Hok; [lia|].
  cbn [search_loop]. rewrite sdrop_app. destruct (decide (Var n ∈ ps)) as [Hin|Hni].
  - apply var_split in Hin as (ps1 & ps2 & -> & Hni). apply Forall_app in Hok as [Hok1 Hok2].
    apply Forall_cons in Hok2 as [_ Hok2]. rewrite find_var_first by done.
    rewrite <- slength_app, template_text_app. cbn [template_text piece_text].
    rewrite <- (string_app_assoc p), replace_at_app, <- slength_app, <- string_app_assoc. rewrite IH.
    + rewrite fmap_app, template_text_app, (put_none n to ps1) by done. cbn [fmap list_fmap template_text].
      by rewrite put_var, !string_app_assoc.
    + rewrite var_count_app in Hf. cbn in *. lia.
    + done.
  - by rewrite find_var_none, put_none.
Qed.

Lemma searchReplaceAll_pieces n to ps : var_name n -> Forall piece_ok ps ->
  searchReplaceAll (template_text ps) (pattern_of n) to = Some (template_text (put n to <$> ps)).
Proof.
  intros Hn Hok. unfold searchReplaceAll. apply (search_loop_pieces n to Hn _ "" ps); [|done].
  pose proof (var_count_length ps). lia.
Qed.

(** ** A series of replacements *)

Section Fill.
(** The values of the names. *)
Context (value : string -> option string).

Definition subst_name (n : string) (ps : list piece) : list piece :=
  match value n with Some v => put n v <$> ps | None => ps end.
Definition piece_value (p : piece) : piece :=
  match p with Var n => match value n with Some v => Lit v | None => p end | Lit _ => p end.
Definition fill_name (names : list string) (p : piece) : piece :=
  match p with Var n => if bool_decide (n ∈ names) then piece_value p else p | Lit _ => p end.

Lemma subst_name_fill n names ps : fill_name names <$> subst_name n ps = fill_name (n :: names) <$> ps.
Proof.
  unfold subst_name. destruct (value n) as [v|] eqn:Hv.
  - rewrite <- list_fmap_compose. apply list_fmap_ext. intros i p _. cbn. unfold put. case_bool_decide as Ep.
    + subst p. cbn. rewrite bool_decide_eq_true_2 by set_solver. by rewrite Hv.
    + destruct p as [s|n']; [done|]. cbn. erewrite bool_decide_ext; [done|]. rewrite elem_of_cons.
      split; [auto|]. intros [->|]; done.
  - apply list_fmap_ext. intros i [s|n'] _; [done|]. cbn. destruct (decide (n' = n)) as [->|Hne].
    + rewrite Hv. by destruct (bool_decide _), (bool_decide _).
    + erewrite bool_decide_ext; [done|]. set_solver.
Qed.

Lemma subst_name_ok n ps : (forall v, value n = Some v -> quiet v = true) -> Forall piece_ok ps -> Forall piece_ok (subst_name n ps).
Proof. intros Hv Hok. unfold subst_name. destruct (value n); [apply put_ok; auto|done]. Qed.

(** Steps that replace the name of an entry by its value, one after the other, are one
    simultaneous substitution. *)
Lemma fold_fill {E} (name_of : E -> string) (rep : string -> E -> string) l :
  (forall e, e ∈ l -> forall v, value (name_of e) = Some v -> quiet v = true) ->
  (forall e ps, e ∈ l -> Forall piece_ok ps -> rep (template_text ps) e = template_text (subst_name (name_of e) ps)) ->
  forall ps, Forall piece_ok ps -> foldl rep (template_text ps) l = template_text (fill_name (name_of <$> l) <$> ps).
Proof.
  induction l as [|e l IH]; intros Hv Hr ps Hok; cbn [foldl fmap list_fmap].
  - f_equal. induction ps as [|[|] ps IHp]; [done|..]; apply Forall_cons in Hok as [_ Hok]; cbn; by rewrite <- IHp.
  - rewrite Hr by set_solver. rewrite IH; [by rewrite subst_name_fill|set_solver|set_solver|].
    apply subst_name_ok; [|done]. apply Hv. set_solver.
Qed.

Lemma fill_all names (ps : list piece) : (forall n, Var n ∈ ps -> n ∈ names) -> fill_name names <$> ps = piece_value <$> ps.
Proof.
  intros Hn. apply list_fmap_ext. intros i [s|n] Hp%list_elem_of_lookup_2; [done|]. cbn.
  by rewrite bool_decide_eq_true_2 by auto.
Qed.
End Fill.

(** ** The patterns collected from a template *)

Lemma collected_vars ps : Forall piece_ok ps -> forall n, Var n ∈ ps ->
  collectVariablePatterns (template_text ps) !! pattern_of n = Some n.
Proof.
  intros Hok n Hn. apply collectVariablePatterns_spec. split; [done|]. split.
  - rewrite Forall_forall in Hok. apply Hok in Hn. apply Hn.
  - apply var_split in Hn as (ps1 & ps2 & -> & _). rewrite template_text_app.
    by exists (template_text ps1), (template_text ps2).
Qed.
Lemma collected_only ps p n : Forall piece_ok ps -> collectVariablePatterns (template_text ps) !! p = Some n ->
  p = pattern_of n /\ var_name n /\ Var n ∈ ps.
Proof.
  intros Hok (-> & Hn & Ho)%collectVariablePatterns_spec. split_and!; [done..|]. by apply occurs_in_template in Ho.
Qed.
Lemma collected_entry ps kv : Forall piece_ok ps -> kv ∈ map_entries (collectVariablePatterns (template_text ps)) ->
  kv.1 = pattern_of kv.2 /\ var_name kv.2 /\ Var kv.2 ∈ ps.
Proof.
  destruct kv as [p n]. intros Hok Hin. rewrite map_entries_perm in Hin. apply elem_of_map_to_list in Hin. by apply collected_only.
Qed.

(** The loop over the patterns collected from a template, with its early exits. *)
Lemma replace_template (value : string -> option string) (none : bool) ps :
  Forall piece_ok ps -> (forall n v, Var n ∈ ps -> value n = Some v -> quiet v = true) -> (none = true -> forall n, value n = None) ->
  (if bool_decide (collectVariablePatterns (template_text ps) = ∅) then template_text ps
   else if none then template_text ps
   else foldl (fun s it => match value it.2 with Some v => default s (searchReplaceAll s it.1 v) | None => s end)
          (template_text ps) (map_entries (collectVariablePatterns (template_text ps)))) =
  template_text (piece_value value <$> ps).
Proof.
  intros Hok Hv Hnone. pose proof (collected_vars ps Hok) as Hc. case_bool_decide as He.
  { f_equal. rewrite <- (list_fmap_id ps) at 1. apply list_fmap_ext. intros i [s|n] Hp%list_elem_of_lookup_2; [done|].
    exfalso. apply Hc in Hp. by rewrite He in Hp. }
  destruct none.
  { f_equal. rewrite <- (list_fmap_id ps) at 1. apply list_fmap_ext. intros i [s|n] _; [done|]. cbn. by rewrite Hnone. }
  rewrite (fold_fill value snd).
  - f_equal. apply fill_all. intros n Hn. apply list_elem_of_fmap. exists (pattern_of n, n). split; [done|].
    rewrite map_entries_perm. apply elem_of_map_to_list. by apply Hc.
  - intros kv (_ & _ & Hin)%collected_entry v; [|done]. by apply Hv.
  - intros [p n] qs (Ep & Hn & _)%collected_entry Hqs; [|done]. cbn [fst snd] in *. subst p. unfold subst_name.
    cbn [fst snd]. destruct (value n) as [v|]; [|done]. by rewrite searchReplaceAll_pieces.
  - done.
Qed.

(** ** The variables of the agent *)

(** The value of a name: a variable, or else an entry of the vault. *)
Definition var_value `{JsonText} (vars : gmap string string) (vault : gmap string json) (n : string) : option string :=
  match vars !! n with
  | Some v => Some v
  | None => j ← vault !! n; match jsonToString j with Val v => Some v | Throw _ => None end
  end.

Section Variables.
Context `{JsonText} (vars : gmap string string) (vault : gmap string json).

Lemma replace_patterns_fold l : (forall kv j, kv ∈ l -> vars !! kv.2 = None -> vault !! kv.2 = Some j -> exists v, jsonToString j = Val v) -> forall s,
  replace_patterns vars vault s l =
  Val (foldl (fun s e => match var_value vars vault e.2 with Some v => default s (searchReplaceAll s e.1 v) | None => s end) s l).
Proof using Type.
  induction l as [|[p n] l IH]; intros Hl s; [done|]. cbn [replace_patterns foldl]. unfold replace_one, var_value. cbn [fst snd].
  destruct (vars !! n) as [v|] eqn:Ev; cbn [obind].
  { apply IH. intros kv j Hin. apply Hl. by apply elem_of_cons; right. }
  destruct (vault !! n) as [j|] eqn:Ej; cbn [mbind option_bind].
  2: { cbn [obind]. apply IH. intros kv j Hin. apply Hl. by apply elem_of_cons; right. }
  destruct (Hl (p, n) j) as [v ->]; [by apply elem_of_cons; left|done..|]. cbn [obind].
  apply IH. intros kv j' Hin. apply Hl. by apply elem_of_cons; right.
Qed.

(** C21: take a text made of patterns and of plain parts, in which an at sign is always
    followed by another character of the part than an opening brace, and let the values of
    its names be such texts too, and the entries of the vault it names have a text.  Then,
    whatever the order in which the patterns are replaced, the result is the text with
    every known name replaced by its value, a variable before an entry of the vault, and
    the unknown ones left as they are. *)
Theorem variables_are_substituted (ps : list piece) (Hok : Forall piece_ok ps)
    (Hv : forall n v, Var n ∈ ps -> var_value vars vault n = Some v -> quiet v = true)
    (Hj : forall n j, Var n ∈ ps -> vars !! n = None -> vault !! n = Some j -> exists v, jsonToString j = Val v) :
  replaceVariables (template_text ps) (collectVariablePatterns (template_text ps)) vars vault =
  Val (template_text (piece_value (var_value vars vault) <$> ps)).
Proof using Type.
  rewrite <- (replace_template (var_value vars vault) (bool_decide (vars = ∅) && bool_decide (vault = ∅)) ps); [|done|done|].
  - unfold replaceVariables. destruct (bool_decide (collectVariablePatterns _ = ∅)); [done|].
    destruct (bool_decide (vars = ∅) && bool_decide (vault = ∅)); [done|]. apply replace_patterns_fold.
    intros kv j (_ & _ & Hin)%collected_entry; [|done]. by apply Hj.
  - intros [Ev%bool_decide_eq_true Ew%bool_decide_eq_true]%andb_true_iff n. unfold var_value. by rewrite Ev, Ew.
Qed.
End Variables.

Lemma variables_are_substituted_witness :
  replaceVariables "me@x@{a}-@{b}-@{c}" (collectVariablePatterns "me@x@{a}-@{b}-@{c}") {["a" := "1"]} {["b" := JString "2@3"]} =
  Val "me@x1-2@3-@{c}".
Proof.
  set (ps := [Lit "me@x"; Var "a"; Lit "-"; Var "b"; Lit "-"; Var "c"]). change "me@x@{a}-@{b}-@{c}" with (template_text ps).
  rewrite (variables_are_substituted {["a" := "1"]} {["b" := JString "2@3"]} ps); [vm_compute; reflexivity|..].
  - repeat (apply Forall_cons; split); try apply Forall_nil_2; apply (bool_decide_unpack _); vm_compute; exact I.
  - intros n v _. unfold var_value. rewrite !lookup_singleton. destruct (decide ("a" = n)); [|destruct (decide ("b" = n)); [|done]];
      intros [= <-]; vm_compute; reflexivity.
  - intros n j _ _ [_ <-]%lookup_singleton_Some. by exists "2@3".
Defined.

(** Otherwise the order matters: an at sign before a pattern and a value that starts with an
    opening brace make a new pattern, which a later replacement finds. *)
Theorem made_pattern_is_replaced `{JsonText} :
  replaceVariables "@@{x} @{y}" (collectVariablePatterns "@@{x} @{y}") {["x" := "{y}"; "y" := "1"]} ∅ = Val "1 1".
Proof. vm_compute. reflexivity. Qed.
