(* ===== verification/Reports.v ===== *)
(** The reports of the mock data: [summary] of [src/model/MockData.cpp] and
    [getSequence] of [MockServerData.cpp] and [MockClientData.cpp]. *)
From S2P Require Import Prelude Std Double Functions Json JsonModel External Keys DataPart MockEvents MockData Transformation.
From stdpp Require Import options.
#[local] Open Scope Z_scope.

(** ** [getSequence] *)

Record Entry := mkEntry {
  en_timestampUs : Z;
  en_direction : string;
  en_method : string;
  en_uri : string;
  en_clientProvisionId : string
}.

Definition entry_le (a b : Entry) : Prop := en_timestampUs a <= en_timestampUs b.

(** [std::sort] by timestamp: some ordered permutation, the order of equal elements is
    not specified. *)
Class StdSort := std_sort : list Entry -> list Entry.
Class StdSortLaws `{StdSort} := {
  std_sort_perm : forall l, std_sort l ≡ₚ l;
  std_sort_sorted : forall l, StronglySorted entry_le (std_sort l)
}.

(** The limits of the query; 0 is no limit. *)
Definition in_window (fromTimestampUs toTimestampUs ts : Z) : bool :=
  ((fromTimestampUs =? 0) || (fromTimestampUs <=? ts)) && ((toTimestampUs =? 0) || (ts <=? toTimestampUs)).

Definition entry_json (e : Entry) : json :=
  let obj := json_set "direction" (JString (en_direction e)) JNull in
  let obj := json_set "method" (JString (en_method e)) obj in
  let obj := json_set "uri" (JString (en_uri e)) obj in
  let obj := json_set "timestampUs" (JUint (en_timestampUs e)) obj in
  if sempty (en_clientProvisionId e) then obj else json_set "clientProvisionId" (JString (en_clientProvisionId e)) obj.

Section Sequence.
Context `{JsonText} `{StdSort} (ub : double -> Z).

(** [json[k].get<std::uint64_t>()] on a constant document: undefined without the key. *)
Definition timestamp_of (k : string) (j : json) : outcome Z :=
  match json_find k j with Some v => get_u64 ub (Some v) | None => Throw undefined end.

(** The entries of an event, in the order they are pushed. *)
Definition server_event_entries (from to : Z) (method uri : string) (e : MockServerEvent) : outcome (list Entry) :=
  let! recTs := timestamp_of "receptionTimestampUs" (json_ (se_base e)) in
  let sendTs := se_sending_timestamp_us_ e in
  Val ((if in_window from to recTs then [mkEntry recTs "recv" method uri ""] else []) ++
       (if negb (sendTs =? 0) && in_window from to sendTs then [mkEntry sendTs "send" method uri ""] else [])).

Definition client_event_entries (from to : Z) (method uri : string) (e : MockClientEvent) : outcome (list Entry) :=
  let j := json_ (ce_base e) in
  let! sendTs := timestamp_of "sendingTimestampUs" j in
  let! recvTs := match json_find "receptionTimestampUs" j with Some v => get_u64 ub (Some v) | None => Val 0 end in
  let! provId := match json_find "clientProvisionId" j with Some v => get_string (Some v) | None => Val "" end in
  Val ((if in_window from to sendTs then [mkEntry sendTs "send" method uri provId] else []) ++
       (if negb (recvTs =? 0) && in_window from to recvTs then [mkEntry recvTs "recv" method uri provId] else [])).

(** The filters on the key; [uriRegex] is the search of the expression, if there is one. *)
Definition selected (requestMethod : string) (uriRegex : option (string -> bool)) (h : MockEventsHistory) : bool :=
  (sempty requestMethod || bool_decide (method_ (data_key_ h) = requestMethod)) &&
  match uriRegex with Some search => search (uri_ (data_key_ h)) | None => true end.

(** A loop whose body may throw and pushes a list. *)
Fixpoint gather {A B} (f : A -> outcome (list B)) (l : list A) : outcome (list B) :=
  match l with
  | [] => Val []
  | a :: l' => let! x := f a in let! y := gather f l' in Val (x ++ y)
  end.

Section Entries.
Context {E : Type} (event_entries : Z -> Z -> string -> string -> E -> outcome (list Entry)).

Definition history_entries (from to : Z) (requestMethod : string) (uriRegex : option (string -> bool)) (heap : list E)
    (h : MockEventsHistory) : outcome (list Entry) :=
  if selected requestMethod uriRegex h
  then gather (event_entries from to (method_ (data_key_ h)) (uri_ (data_key_ h))) (deref heap (events_ h))
  else Val [].

Definition getSequence (from to : Z) (requestMethod : string) (uriRegex : option (string -> bool)) (d : MockData E)
    : outcome string :=
  let! entries := gather (history_entries from to requestMethod uriRegex (heap_ d)) (map_to_list (map_ d)).*2 in
  json_dump (JArray (entry_json <$> std_sort entries)).
End Entries.
End Sequence.

(** ** [summary] *)

(** The variables of the loop: the document of the key, which the loop does not reset,
    the list displayed, and the counters. *)
Record Summary := mkSummary {
  sm_key : json;
  sm_list : list json;
  sm_totalEvents : Z;
  sm_displayedKeys : Z
}.

Definition summary_step (u_maxKeys : Z) (s : Summary) (h : MockEventsHistory) : Summary :=
  let totalEvents := sm_totalEvents s + history_size h in
  if sm_displayedKeys s <? u_maxKeys then
    let key := json_set "amount" (JUint (history_size h)) (keyToJson (data_key_ h) (sm_key s)) in
    mkSummary key (sm_list s ++ [key]) totalEvents (sm_displayedKeys s + 1)
  else mkSummary (sm_key s) (sm_list s) totalEvents (sm_displayedKeys s).

Definition summary_loop (u_maxKeys : Z) (hs : list MockEventsHistory) : Summary :=
  foldl (summary_step u_maxKeys) (mkSummary JNull [] 0 0) hs.

(** A maximum that is not a number is no maximum. *)
Definition summary_max (maxKeys : string) : Z :=
  let '(ok, u, _) := string2uint64andSign maxKeys 0 false in if ok then u else u64_max.

Definition summary `{JsonText} {E} (maxKeys : string) (d : MockData E) : outcome string :=
  let s := summary_loop (summary_max maxKeys) (map_to_list (map_ d)).*2 in
  let result := json_set "totalKeys" (JUint (Z.of_nat (size (map_ d)))) JNull in
  let result := if 0 <? sm_displayedKeys s
                then json_set "displayedKeys"
                       (json_set "amount" (JUint (sm_displayedKeys s)) (json_set "list" (JArray (sm_list s)) JNull)) result
                else result in
  json_dump (json_set "totalEvents" (JUint (sm_totalEvents s)) result).

(** ** Lemmas *)

(** A document that can get a key. *)
Definition open_doc (j : json) : Prop := is_object j = true \/ is_null j = true.

Lemma open_set k v j : open_doc j -> open_doc (json_set k v j).
Proof. intros Hj. left. by apply json_set_object. Qed.
Lemma open_set_if b k v j : open_doc j -> open_doc (set_if b k v j).
Proof. intros Hj. destruct b; [by apply open_set|done]. Qed.
Lemma find_set_if b k k' v j : k <> k' -> json_find k' (set_if b k v j) = json_find k' j.
Proof. intros Hne. destruct b; [by apply json_find_set_ne|done]. Qed.

(** The document of an event has its reception time. *)
Definition reported (e : MockServerEvent) : Prop :=
  json_find "receptionTimestampUs" (json_ (se_base e)) = Some (JUint (reception_timestamp_us_ (se_base e))).

Lemma load_reported `{JsonText} scan ps st ts code h1 h2 part body seq dl om ou e part' :
  MockServerEvent_load scan ps st ts code h1 h2 part body seq dl om ou = Val (e, part') -> reported e.
Proof.
  unfold MockServerEvent_load. intros (p1 & _ & Hl)%obind_val. apply obind_val in Hl as (p2 & _ & Hl). injection Hl as <- <-.
  unfold reported. cbn -[json_set json_find headersJson MockEvent_load set_if].
  rewrite find_set_if, !json_find_set_ne, !find_set_if by done.
  unfold MockEvent_load. cbn -[json_set json_find headersJson set_if]. rewrite json_find_set_ne by done.
  rewrite json_find_set_eq; [done|]. apply open_set_if, open_set_if. by right.
Qed.

Lemma stamp_reported now e : reported e -> reported (setSendingTimestampUs now e).
Proof. unfold reported. cbn -[json_set json_find]. by rewrite json_find_set_ne. Qed.

Lemma gather_val {A B} (f : A -> outcome (list B)) (g : A -> list B) l :
  (forall a, a ∈ l -> f a = Val (g a)) -> gather f l = Val (l ≫= g).
Proof.
  induction l as [|a l IH]; intros Hf; [done|]. cbn. rewrite Hf by set_solver. cbn. by rewrite IH by set_solver.
Qed.

(** What is reported of an event. *)
Definition spec_entries (from to : Z) (method uri : string) (e : MockServerEvent) : list Entry :=
  let entry ts direction := if in_window from to ts then [mkEntry ts direction method uri ""] else [] in
  entry (reception_timestamp_us_ (se_base e)) "recv" ++
  (if se_sending_timestamp_us_ e =? 0 then [] else entry (se_sending_timestamp_us_ e) "send").

Lemma server_event_entries_val `{JsonText} ub from to method uri e :
  reported e -> server_event_entries ub from to method uri e = Val (spec_entries from to method uri e).
Proof.
  intros Hr. unfold server_event_entries, timestamp_of. rewrite Hr. cbn. unfold spec_entries.
  by destruct (se_sending_timestamp_us_ e =? 0).
Qed.

(** *** The loop of [summary] *)

Lemma json_doc_keyToJson k j : open_doc j -> open_doc (keyToJson k j).
Proof.
  intros Hj. unfold keyToJson. destruct (negb _), (nkeys_ k =? 3); repeat apply open_set; done.
Qed.

Lemma summary_loop_snoc u hs h : summary_loop u (hs ++ [h]) = summary_step u (summary_loop u hs) h.
Proof. unfold summary_loop. by rewrite foldl_app. Qed.

Lemma summary_loop_spec u hs :
  0 <= u ->
  let s := summary_loop u hs in
  open_doc (sm_key s) /\ sm_displayedKeys s = Z.of_nat (length (sm_list s)) /\
  sm_displayedKeys s = Z.min u (Z.of_nat (length hs)) /\ sm_totalEvents s = foldr (fun h n => history_size h + n) 0 hs.
Proof.
  intros Hu. cbn zeta. induction hs as [|h hs IH] using rev_ind; [cbn; split_and!; [by right|done|lia|done]|].
  rewrite summary_loop_snoc. destruct IH as (Hk & Hd & Hm & Ht). unfold summary_step.
  assert (foldr (fun h n => history_size h + n) 0 (hs ++ [h]) = foldr (fun h n => history_size h + n) 0 hs + history_size h) as Hsum.
  { clear. induction hs as [|x hs IH]; cbn; lia. }
  rewrite Hsum, length_app. cbn [length].
  destruct (Z.ltb_spec (sm_displayedKeys (summary_loop u hs)) u); cbn -[json_set keyToJson]; split_and!; try lia; try done.
  - by apply open_set, json_doc_keyToJson.
  - rewrite length_app. cbn. lia.
Qed.

(** The keys displayed are the first ones of the loop. *)
Lemma summary_list_prefix u hs hs' : exists l, sm_list (summary_loop u (hs ++ hs')) = sm_list (summary_loop u hs) ++ l.
Proof.
  induction hs' as [|h hs' IH] using rev_ind; [exists []; by rewrite !app_nil_r|].
  rewrite app_assoc, summary_loop_snoc. destruct IH as [l IH]. unfold summary_step.
  destruct (_ <? u); cbn; [|by exists l]. eexists. rewrite IH. by rewrite <- app_assoc.
Qed.

Lemma keyToJson_provision k j :
  provision_uri_ k = "" -> json_find "provisionUri" (keyToJson k j) = json_find "provisionUri" j.
Proof.
  intros Hp. unfold keyToJson. rewrite Hp. cbn [negb sempty].
  destruct (nkeys_ k =? 3); by rewrite !json_find_set_ne by done.
Qed.

Lemma keyToJson_provision_set k j :
  open_doc j -> provision_uri_ k <> "" -> json_find "provisionUri" (keyToJson k j) = Some (JString (provision_uri_ k)).
Proof.
  intros Hj Hp. unfold keyToJson. apply sempty_false in Hp. rewrite Hp. cbn [negb].
  destruct (nkeys_ k =? 3); rewrite ?json_find_set_ne by done; apply json_find_set_eq; repeat apply open_set; done.
Qed.

(** ** Properties *)

(** C40: The sequence of the server has, for each event of the selected keys, its
    reception and (once it was sent) its sending, when they are in the time window,
    each of them once, and in the order of time.  Loaded events have the time the
    sequence reads, also after the end of their stream. *)
Theorem sequence_is_complete_and_ordered `{JsonText} `{StdSort} `{!StdSortLaws} (ub : double -> Z) (from to : Z)
  (requestMethod : string) (uriRegex : option (string -> bool)) (d : MockData MockServerEvent) (Hr : Forall reported (heap_ d)) :
  (exists es, getSequence (server_event_entries ub) from to requestMethod uriRegex d = json_dump (JArray (entry_json <$> es)) /\
     StronglySorted entry_le es /\
     es ≡ₚ filter (fun h => selected requestMethod uriRegex h = true) (map_to_list (map_ d)).*2 ≫=
           fun h => deref (heap_ d) (events_ h) ≫= spec_entries from to (method_ (data_key_ h)) (uri_ (data_key_ h))) /\
  (forall scan ps st ts code h1 h2 part body seq dl om ou e part' now,
     MockServerEvent_load scan ps st ts code h1 h2 part body seq dl om ou = Val (e, part') ->
     reported e /\ reported (setSendingTimestampUs now e)).
Proof.
  split; [|intros; split; [|apply stamp_reported]; by eapply load_reported].
  eexists. split_and!; [|apply std_sort_sorted|apply std_sort_perm]. unfold getSequence.
  rewrite (gather_val _ (fun h => if selected requestMethod uriRegex h
                                  then deref (heap_ d) (events_ h) ≫= spec_entries from to (method_ (data_key_ h)) (uri_ (data_key_ h))
                                  else [])).
  - cbn. do 3 f_equal. generalize (map_to_list (map_ d)).*2. intros hs. f_equal. induction hs as [|h hs IH]; [done|].
    rewrite filter_cons. cbn. rewrite IH. destruct (selected requestMethod uriRegex h); [by rewrite decide_True|by rewrite decide_False].
  - intros h _. unfold history_entries. destruct (selected requestMethod uriRegex h); [|done].
    apply gather_val. intros e He. apply server_event_entries_val. rewrite Forall_forall in Hr. apply Hr.
    unfold deref in He. apply list_elem_of_omap in He as (x & _ & Hx). by apply list_elem_of_lookup_2 in Hx.
Qed.

(** The summary counts every event and displays as many keys as asked, or all of
    them; but the document of a key is not reset between two keys, so a key without
    provision (one with unknown requests only) displayed after a provisioned one is
    given the provision URI of the other. *)
Theorem summary_repeats_the_provision_uri (u : Z) (hs1 hs2 : list MockEventsHistory) (h1 h2 : MockEventsHistory)
  (Hu : Z.of_nat (length hs1) + 2 <= u)
  (H1 : provision_uri_ (data_key_ h1) <> "") (H2 : provision_uri_ (data_key_ h2) = "") :
  let s := summary_loop u (hs1 ++ h1 :: h2 :: hs2) in
  sm_totalEvents s = foldr (fun h n => history_size h + n) 0 (hs1 ++ h1 :: h2 :: hs2) /\
  Z.of_nat (length (sm_list s)) = Z.min u (Z.of_nat (length (hs1 ++ h1 :: h2 :: hs2))) /\
  exists key, sm_list s !! S (length hs1) = Some key /\ json_find "uri" key = Some (JString (uri_ (data_key_ h2))) /\
    json_find "provisionUri" key = Some (JString (provision_uri_ (data_key_ h1))).
Proof.
  cbn zeta. destruct (summary_loop_spec u (hs1 ++ h1 :: h2 :: hs2)) as (_ & Hd & Hm & Ht); [lia|].
  split; [done|]. split; [lia|].
  replace (hs1 ++ h1 :: h2 :: hs2) with (((hs1 ++ [h1]) ++ [h2]) ++ hs2) by (by rewrite <- !app_assoc).
  destruct (summary_list_prefix u ((hs1 ++ [h1]) ++ [h2]) hs2) as [l ->].
  destruct (summary_loop_spec u hs1) as (Hk & Hd1 & Hm1 & _); [lia|].
  rewrite !summary_loop_snoc. set (s1 := summary_loop u hs1) in *. unfold summary_step.
  rewrite (proj2 (Z.ltb_lt (sm_displayedKeys s1) u)) by lia. cbn [sm_displayedKeys sm_key sm_list sm_totalEvents].
  rewrite (proj2 (Z.ltb_lt (sm_displayedKeys s1 + 1) u)) by lia. cbn [sm_list].
  assert (length (sm_list s1) = length hs1) as Hlen by lia.
  eexists. split.
  - rewrite <- !app_assoc, lookup_app_r by lia. rewrite Hlen. replace (S (length hs1) - length hs1)%nat with 1%nat by lia. done.
  - set (k1 := json_set "amount" _ (keyToJson (data_key_ h1) _)).
    assert (open_doc k1) as Hk1 by (by apply open_set, json_doc_keyToJson). split.
    + rewrite json_find_set_ne by done. unfold keyToJson. rewrite H2. cbn [negb sempty].
      destruct (nkeys_ _ =? 3); rewrite ?(json_find_set_ne "clientEndpointId") by done;
        apply json_find_set_eq; apply open_set; exact Hk1.
    + rewrite json_find_set_ne, keyToJson_provision by done. unfold k1. rewrite json_find_set_ne by done.
      by apply keyToJson_provision_set.
Qed.

Module ReportsExamples.

#[local] Instance entry_le_dec : RelDecision entry_le.
Proof. intros a b. unfold entry_le. apply _. Defined.
#[local] Instance entry_le_total : Total entry_le.
Proof. intros a b. unfold entry_le. lia. Qed.
#[local] Instance entry_le_trans : Transitive entry_le.
Proof. intros a b c. unfold entry_le. lia. Qed.
#[local] Instance by_time : StdSort := merge_sort entry_le.
#[local] Instance by_time_laws : StdSortLaws.
Proof. split; intros l; [apply merge_sort_Permutation|apply StronglySorted_merge_sort; apply _]. Qed.

Definition event (ts : Z) : MockServerEvent :=
  match MockServerEvent_load (fun _ _ => []) "" "" ts 501 [] [] DataPart_empty "" 1 0 "" "" with
  | Val (e, _) => e
  | Throw _ => mkMockServerEvent MockEvent_empty JNull DataPart_empty 0 0 "" "" 0
  end.

Definition key1 : DataKey := DataKey2 "GET" "/a".
Definition data1 : MockData MockServerEvent :=
  data_loadEvent key1 (event 30) true (data_loadEvent key1 (setSendingTimestampUs 40 (event 20)) true MockData_empty).

Lemma sequence_is_complete_and_ordered_witness :
  exists es, getSequence (server_event_entries (fun _ => 0)) 25 0 "" None data1 = json_dump (JArray (entry_json <$> es)) /\
    es ≡ₚ [mkEntry 40 "send" "GET" "/a" ""; mkEntry 30 "recv" "GET" "/a" ""].
Proof.
  destruct (sequence_is_complete_and_ordered (fun _ => 0) 25 0 "" None data1) as [(es & E & _ & Hp) _].
  - repeat constructor.
  - exists es. split; [exact E|]. rewrite Hp. vm_compute. reflexivity.
Defined.

Definition history1 (uri provision : string) : MockEventsHistory :=
  MockEventsHistory_new (setProvisionUri provision (DataKey2 "GET" uri)).

Lemma summary_repeats_the_provision_uri_witness :
  exists key, sm_list (summary_loop 10 [history1 "/a" "/a"; history1 "/b" ""]) !! 1%nat = Some key /\
    json_find "provisionUri" key = Some (JString "/a").
Proof.
  destruct (summary_repeats_the_provision_uri 10 [] [] (history1 "/a" "/a") (history1 "/b" "")) as (_ & _ & key & Hk & _ & Hp);
    [cbn; lia|discriminate|reflexivity|]. exists key. split; [exact Hk|exact Hp].
Defined.
End ReportsExamples.
