(* ===== verification/ClientEndpoint.v ===== *)
(** [src/model/AdminClientEndpoint.cpp] and [AdminClientEndpointData.cpp]: the remote
    servers of the client side, their connections, and their registration. *)
From S2P Require Import Prelude Std Double Json JsonModel Transformation.
From stdpp Require Import options.
#[local] Open Scope Z_scope.

(** ** [AdminClientEndpoint] *)

(** A connection ([MyTrafficHttp2Client]) is what it was created with. *)
Record Client := mkClient {
  cl_host : string;
  cl_port : string;
  cl_secure : bool
}.

Record AdminClientEndpoint := mkEndpoint {
  ep_json : json;
  ep_key : string;
  host_ : string;
  port_ : Z;
  secure_ : bool;
  permit_ : bool;
  client_ : option Client;
  clients_ : list (option Client);
  send_seq_ : Z;
  num_workers_ : Z
}.

Definition AdminClientEndpoint_new : AdminClientEndpoint := mkEndpoint JNull "" "" 0 false false None [] 0 1.

Section Endpoint.
Context `{JsonText} (ub : double -> Z).

(** [get<int>()] *)
Definition get_i32 (j : option json) : outcome Z :=
  match j with
  | Some (JInt i) => Val (to_i32 i)
  | Some (JUint u) => Val (to_i32 u)
  | Some (JFloat f) =>
      Val (match d_trunc f with Some z => if (- 2 ^ 31 <=? z) && (z <? 2 ^ 31) then z else to_i32 (ub f) | None => to_i32 (ub f) end)
  | Some (JBool b) => Val (if b then 1 else 0)
  | _ => Throw json_exception
  end.

(** A boolean field, or its default. *)
Definition bool_field (k : string) (dflt : bool) (j : json) : bool :=
  match json_find k j with Some (JBool b) => b | _ => dflt end.

(** [load]: a mandatory field missing or of another type, which the schema of the
    operation excludes, is an exception. *)
Definition Endpoint_load (j : json) (e : AdminClientEndpoint) : outcome (bool * AdminClientEndpoint) :=
  let! key := get_string (json_find "id" j) in
  let! host := get_string (json_find "host" j) in
  let! port := get_i32 (json_find "port" j) in
  let e := mkEndpoint j key host port (bool_field "secure" false j) (bool_field "permit" true j)
             (client_ e) (clients_ e) (send_seq_ e) (num_workers_ e) in
  Val (negb (sempty key) && negb (sempty host), e).

Definition new_client (e : AdminClientEndpoint) : Client := mkClient (host_ e) (to_string_i (port_ e)) (secure_ e).

(** The loop of [connect] over the first [n] workers: the missing ones are created. *)
Fixpoint fill (n : nat) (c : Client) (l : list (option Client)) : list (option Client) :=
  match n, l with
  | S n, x :: l => Some (default c x) :: fill n c l
  | _, _ => l
  end.

(** [connect(fromScratch, numWorkers)] *)
Definition connect (fromScratch : bool) (numWorkers : Z) (e : AdminClientEndpoint) : AdminClientEndpoint :=
  let '(client, clients) := if fromScratch then (None, []) else (client_ e, clients_ e) in
  let workers := if 1 <? numWorkers then numWorkers else num_workers_ e in
  let workers := if workers <? 1 then 1 else workers in
  let n := Z.to_nat workers in
  let clients := fill n (new_client e) (clients ++ replicate (n - length clients) None) in
  let client := match clients with c :: _ => c | [] => client end in
  mkEndpoint (ep_json e) (ep_key e) (host_ e) (port_ e) (secure_ e) (permit_ e) client clients (send_seq_ e) workers.

Definition getClient (workerIndex : nat) (e : AdminClientEndpoint) : option Client :=
  match clients_ e !! workerIndex with Some c => c | None => client_ e end.

Definition getNumWorkers (e : AdminClientEndpoint) : Z :=
  match clients_ e with
  | [] => match client_ e with Some _ => 1 | None => 0 end
  | l => Z.of_nat (length l)
  end.

(** [incrementSendSeq]: the new value. *)
Definition incrementSendSeq (e : AdminClientEndpoint) : Z * AdminClientEndpoint :=
  let n := to_u64 (send_seq_ e + 1) in
  (n, mkEndpoint (ep_json e) (ep_key e) (host_ e) (port_ e) (secure_ e) (permit_ e) (client_ e) (clients_ e) n (num_workers_ e)).

(** [asJson]; [status] is the state of a connection. *)
Definition Endpoint_asJson (status : Client -> string) (e : AdminClientEndpoint) : json :=
  match client_ e with
  | None => ep_json e
  | Some c => json_set "status" (JString (status c)) (ep_json e)
  end.

(** ** [AdminClientEndpointData] *)

Inductive EndpointResult := EpSuccess | EpAccepted | EpBadSchema | EpBadContent.

Abbreviation EndpointData := (gmap string AdminClientEndpoint) (only parsing).

Definition endpoint_find (id : string) (d : EndpointData) : option AdminClientEndpoint := d !! id.

(** What the configuration says of connections: lazy or not, and how many. *)
Context (lazy : bool) (connections : Z).

Definition connect_unless_lazy (fromScratch : bool) (e : AdminClientEndpoint) : AdminClientEndpoint :=
  if lazy then e else connect fromScratch connections e.

(** [valid] is the validation against the schema of the operation. *)
Definition ep_loadSingle (valid : json -> bool) (j : json) : M EndpointData EndpointResult :=
  if negb (valid j) then ret EpBadSchema
  else
    do '(ok, e) <- lift (Endpoint_load j AdminClientEndpoint_new) ;;
    if negb ok then ret EpBadContent
    else
      do d <- get ;;
      match endpoint_find (ep_key e) d with
      | Some r =>
          if negb (bool_decide (host_ r = host_ e)) || negb (port_ r =? port_ e) || negb (Bool.eqb (secure_ r) (secure_ e)) then
            do '(_, r) <- lift (Endpoint_load j r) ;;
            modify (<[ep_key e := connect_unless_lazy true r]>) ;;;
            ret EpAccepted
          else ret EpSuccess
      | None =>
          modify (<[ep_key e := connect_unless_lazy false e]>) ;;;
          ret EpSuccess
      end.

(** The loop of [load]: it stops at the first failure. *)
Fixpoint ep_load_items (valid : json -> bool) (l : list json) (oneAccepted : bool) : M EndpointData EndpointResult :=
  match l with
  | [] => ret (if oneAccepted then EpAccepted else EpSuccess)
  | j :: l' =>
      do result <- ep_loadSingle valid j ;;
      match result with
      | EpSuccess => ep_load_items valid l' oneAccepted
      | EpAccepted => ep_load_items valid l' true
      | _ => ret result
      end
  end.

Definition ep_load (valid : json -> bool) (j : json) : M EndpointData EndpointResult :=
  match j with
  | JArray l => ep_load_items valid l false
  | _ => ep_loadSingle valid j
  end.

Definition ep_asJsonString (status : Client -> string) (d : EndpointData) : outcome string :=
  json_dump (JArray (Endpoint_asJson status <$> (map_to_list d).*2)).
End Endpoint.

(** ** Lemmas *)

Lemma fill_length n c l : length (fill n c l) = length l.
Proof. revert l. induction n as [|n IH]; intros [|x l]; cbn; auto. Qed.

Lemma fill_lookup n c l i : fill n c l !! i = (fun x => if decide (i < n)%nat then Some (default c x) else x) <$> l !! i.
Proof.
  revert l i. induction n as [|n IH]; intros l i.
  - cbn. rewrite (option_fmap_ext _ id), option_fmap_id; [done|]. intros x. by rewrite decide_False by lia.
  - destruct l as [|x l]; [done|]. destruct i as [|i]; cbn; [done|]. rewrite IH.
    destruct (l !! i); cbn; [|done]. by destruct (decide (i < n)%nat), (decide (S i < S n)%nat); try lia.
Qed.

(** The workers after [connect]: all of them are connected, the ones kept first. *)
Lemma connect_lookup fromScratch numWorkers e i :
  (i < Z.to_nat (num_workers_ (connect fromScratch numWorkers e)))%nat ->
  clients_ (connect fromScratch numWorkers e) !! i =
  Some (Some (default (new_client e) (if fromScratch then None else default None (clients_ e !! i)))).
Proof.
  unfold connect. set (w := if (if 1 <? numWorkers then numWorkers else num_workers_ e) <? 1 then 1 else _).
  destruct fromScratch; cbn [clients_ num_workers_]; intros Hi; rewrite fill_lookup.
  - cbn [app length]. rewrite lookup_replicate_2 by lia. cbn. by rewrite decide_True.
  - destruct (clients_ e !! i) as [x|] eqn:Ex.
    + rewrite lookup_app_l by (by eapply lookup_lt_Some). rewrite Ex. cbn. rewrite decide_True by done. by destruct x.
    + apply lookup_ge_None in Ex. rewrite lookup_app_r by done.
      rewrite lookup_replicate_2 by lia. cbn. by rewrite decide_True.
Qed.

Lemma connect_workers fromScratch numWorkers e : 1 <= num_workers_ (connect fromScratch numWorkers e).
Proof. unfold connect. destruct fromScratch; cbn; repeat case_match; lia. Qed.

Lemma connect_client fromScratch numWorkers e :
  client_ (connect fromScratch numWorkers e) = default None (clients_ (connect fromScratch numWorkers e) !! 0%nat).
Proof.
  pose proof (connect_workers fromScratch numWorkers e) as Hw.
  pose proof (connect_lookup fromScratch numWorkers e 0) as Hl. specialize (Hl ltac:(lia)). rewrite Hl. cbn.
  revert Hl. unfold connect. destruct fromScratch; cbn [client_ clients_]; destruct (fill _ _ _); cbn; intros [=]; done.
Qed.

(** From scratch there is no other connection than the new ones. *)
Lemma connect_scratch numWorkers e c : Some c ∈ clients_ (connect true numWorkers e) -> c = new_client e.
Proof.
  intros [i Hi]%list_elem_of_lookup. pose proof (connect_lookup true numWorkers e i) as Hl.
  destruct (decide (i < Z.to_nat (num_workers_ (connect true numWorkers e)))%nat) as [Hlt|Hge].
  - specialize (Hl Hlt). rewrite Hi in Hl. cbn in Hl. congruence.
  - exfalso. apply Hge. apply lookup_lt_Some in Hi. revert Hi. unfold connect. cbn.
    rewrite fill_length, length_replicate. lia.
Qed.

Lemma connect_fields fromScratch numWorkers e :
  ep_json (connect fromScratch numWorkers e) = ep_json e /\ host_ (connect fromScratch numWorkers e) = host_ e /\
  port_ (connect fromScratch numWorkers e) = port_ e /\ secure_ (connect fromScratch numWorkers e) = secure_ e /\
  permit_ (connect fromScratch numWorkers e) = permit_ e /\ send_seq_ (connect fromScratch numWorkers e) = send_seq_ e.
Proof. unfold connect. by destruct fromScratch. Qed.

Lemma Endpoint_load_any ub j e1 e2 ok e :
  Endpoint_load ub j e1 = Val (ok, e) ->
  exists e', Endpoint_load ub j e2 = Val (ok, e') /\ ep_json e' = j /\ ep_json e = j /\ ep_key e' = ep_key e /\
    host_ e' = host_ e /\ port_ e' = port_ e /\ secure_ e' = secure_ e /\ permit_ e' = permit_ e /\
    client_ e' = client_ e2 /\ clients_ e' = clients_ e2 /\ send_seq_ e' = send_seq_ e2 /\ num_workers_ e' = num_workers_ e2.
Proof.
  unfold Endpoint_load. intros (k & -> & Hl)%obind_val. apply obind_val in Hl as (h & -> & Hl).
  apply obind_val in Hl as (p & -> & Hl). injection Hl as <- <-. cbn. eexists. by split_and!.
Qed.

(** ** Properties *)

Section EndpointProperties.
Context (ub : double -> Z) (connections : Z) (valid : json -> bool).

(** The address of an endpoint. *)
Definition same_address (a b : AdminClientEndpoint) : Prop := host_ a = host_ b /\ port_ a = port_ b /\ secure_ a = secure_ b.

Lemma address_test r e :
  negb (bool_decide (host_ r = host_ e)) || negb (port_ r =? port_ e) || negb (Bool.eqb (secure_ r) (secure_ e)) = false <->
  same_address r e.
Proof.
  unfold same_address. rewrite !orb_false_iff, !negb_false_iff, bool_decide_eq_true, Z.eqb_eq, Bool.eqb_true_iff. tauto.
Qed.

Lemma loadSingle_known lazy j d e r :
  valid j = true -> Endpoint_load ub j AdminClientEndpoint_new = Val (true, e) -> d !! ep_key e = Some r -> ~ same_address r e ->
  exists r', Endpoint_load ub j r = Val (true, r') /\
    ep_loadSingle ub lazy connections valid j d = (<[ep_key e := connect_unless_lazy lazy connections true r']> d, Val EpAccepted).
Proof.
  intros Hv Hl Hd Ha. destruct (Endpoint_load_any ub j _ r _ _ Hl) as (r' & Hr & _). exists r'. split; [done|].
  unfold ep_loadSingle. rewrite Hv. cbn [negb]. unfold bind, lift, get, modify, ret, endpoint_find. rewrite Hl. cbn [negb]. rewrite Hd.
  match goal with |- context [if ?b then _ else _] => destruct b eqn:Eb end.
  - by rewrite Hr.
  - by apply address_test in Eb.
Qed.

(** A document with a new address for a registered endpoint is accepted: the
    endpoint has its fields, keeps its sequence, and all its connections, at least one,
    are new ones to the new address (with connections that are not lazy). *)
Theorem reloaded_endpoint_is_reconnected (j : json) (d : gmap string AdminClientEndpoint) (e r : AdminClientEndpoint)
  (Hv : valid j = true) (Hl : Endpoint_load ub j AdminClientEndpoint_new = Val (true, e))
  (Hd : d !! ep_key e = Some r) (Ha : ~ same_address r e) :
  exists r' c, ep_loadSingle ub false connections valid j d = (<[ep_key e := r']> d, Val EpAccepted) /\
    ep_json r' = j /\ same_address r' e /\ permit_ r' = permit_ e /\ send_seq_ r' = send_seq_ r /\
    client_ r' = Some c /\ c = mkClient (host_ e) (to_string_i (port_ e)) (secure_ e) /\
    Forall (fun x => x = None \/ x = Some c) (clients_ r') /\ (1 <= getNumWorkers r') /\
    (1 < connections -> forall i, Z.of_nat i < connections -> getClient i r' = Some c).
Proof.
  destruct (loadSingle_known false j d e r Hv Hl Hd Ha) as (r0 & Hr & E). cbn in E.
  destruct (Endpoint_load_any ub j _ r _ _ Hl) as (r0' & Hr' & Hj & _ & _ & Hh & Hp & Hsec & Hper & _ & _ & Hseq & Hnw).
  rewrite Hr in Hr'. injection Hr' as <-.
  set (r' := connect true connections r0) in *. exists r', (new_client r0).
  destruct (connect_fields true connections r0) as (Fj & Fh & Fp & Fs & Fper & Fseq).
  pose proof (connect_workers true connections r0) as Hw. fold r' in Fj, Fh, Fp, Fs, Fper, Fseq, Hw.
  assert (forall i, (i < Z.to_nat (num_workers_ r'))%nat -> clients_ r' !! i = Some (Some (new_client r0))) as Hcl
    by (intros i Hi; by apply (connect_lookup true connections r0 i)).
  split_and!; try congruence.
  - done.
  - unfold same_address. split_and!; congruence.
  - unfold r'. rewrite connect_client. fold r'. rewrite Hcl by lia. done.
  - unfold new_client. congruence.
  - apply Forall_forall. intros [c|] Hc; [right|by left]. f_equal. by eapply connect_scratch.
  - unfold getNumWorkers. pose proof (Hcl 0%nat ltac:(lia)) as H0. destruct (clients_ r') as [|x l]; [done|]. cbn. lia.
  - intros Hc i Hi. unfold getClient. rewrite Hcl; [done|]. unfold r', connect. cbn. repeat case_match; lia.
Qed.

(** With lazy connections a new address does not close the old connection, and the
    connection on demand keeps it: the requests go on to the old address.  And an
    endpoint first loaded then has one connection only, whatever the number configured. *)
Theorem lazy_endpoint_keeps_old_connection (j : json) (d : gmap string AdminClientEndpoint) (e r : AdminClientEndpoint)
  (c : Client) (rest : list (option Client))
  (Hv : valid j = true) (Hl : Endpoint_load ub j AdminClientEndpoint_new = Val (true, e))
  (Hd : d !! ep_key e = Some r) (Ha : ~ same_address r e) (Hc : clients_ r = Some c :: rest) :
  (exists r', ep_loadSingle ub true connections valid j d = (<[ep_key e := r']> d, Val EpAccepted) /\
     same_address r' e /\ getClient 0 (connect false 1 r') = Some c /\ client_ (connect false 1 r') = Some c) /\
  (exists d', ep_loadSingle ub true connections valid j ∅ = (d', Val EpSuccess) /\
     (getNumWorkers ∘ connect false 1) <$> d' !! ep_key e = Some 1).
Proof.
  split.
  - destruct (loadSingle_known true j d e r Hv Hl Hd Ha) as (r0 & Hr & E). cbn in E. exists r0.
    destruct (Endpoint_load_any ub j _ r _ _ Hl) as (r0' & Hr' & _ & _ & _ & Hh & Hp & Hsec & _ & _ & Hcs & _).
    rewrite Hr in Hr'. injection Hr' as <-.
    pose proof (connect_workers false 1 r0) as Hw. pose proof (connect_lookup false 1 r0 0 ltac:(lia)) as H0.
    rewrite Hcs, Hc in H0. cbn -[connect] in H0. split_and!; [done|done| |].
    + unfold getClient. by rewrite H0.
    + rewrite connect_client, H0. done.
  - destruct (Endpoint_load_any ub j _ AdminClientEndpoint_new _ _ Hl) as (e' & He' & _ & _ & _ & _ & _ & _ & _ & Hc1 & Hc2 & _ & Hn).
    rewrite Hl in He'. injection He' as <-. eexists. split.
    + unfold ep_loadSingle. rewrite Hv. cbn [negb]. unfold bind, lift, get, modify, ret, endpoint_find. rewrite Hl. cbn [negb].
      rewrite lookup_empty. reflexivity.
    + rewrite lookup_insert_eq. cbn. f_equal. unfold connect. rewrite Hc1, Hc2, Hn. done.
Qed.

(** A document that changes nothing but the permission is answered with success
    and not stored: the endpoint goes on permitting, or refusing, as before. *)
Theorem permit_change_is_ignored (lazy : bool) (j : json) (d : gmap string AdminClientEndpoint) (e r : AdminClientEndpoint)
  (Hv : valid j = true) (Hl : Endpoint_load ub j AdminClientEndpoint_new = Val (true, e))
  (Hd : d !! ep_key e = Some r) (Ha : same_address r e) :
  ep_loadSingle ub lazy connections valid j d = (d, Val EpSuccess) /\ endpoint_find (ep_key e) d = Some r.
Proof.
  split; [|done]. unfold ep_loadSingle. rewrite Hv. cbn [negb]. unfold bind, lift, get, ret, endpoint_find. rewrite Hl. cbn [negb].
  rewrite Hd. apply address_test in Ha. by rewrite Ha.
Qed.
End EndpointProperties.

Module EndpointExamples.

Definition ub0 (d : double) : Z := 0.
Definition all (j : json) : bool := true.
Definition doc (host : string) (permit : bool) : json :=
  JObject [("host", JString host); ("id", JString "s"); ("permit", JBool permit); ("port", JUint 8000)].
Definition endpoint (host : string) (permit : bool) : AdminClientEndpoint :=
  match Endpoint_load ub0 (doc host permit) AdminClientEndpoint_new with Val (_, e) => e | Throw _ => AdminClientEndpoint_new end.
Definition registered : AdminClientEndpoint := connect false 3 (endpoint "a" true).
Definition data1 : gmap string AdminClientEndpoint := {["s" := registered]}.

Lemma other_address : ~ same_address registered (endpoint "b" true).
Proof. intros [E _]. vm_compute in E. discriminate. Qed.

Lemma reloaded_endpoint_is_reconnected_witness :
  exists r', (ep_loadSingle ub0 false 3 all (doc "b" true) data1).1 !! "s" = Some r' /\
    getClient 2 r' = Some (mkClient "b" "8000" false).
Proof.
  destruct (reloaded_endpoint_is_reconnected ub0 3 all (doc "b" true) data1 (endpoint "b" true) registered)
    as (r' & c & E & _ & _ & _ & _ & _ & Hc & _ & _ & Hg); [reflexivity|vm_compute; reflexivity|vm_compute; reflexivity|exact other_address|].
  exists r'. split; [rewrite E; apply lookup_insert_eq|]. rewrite (Hg ltac:(lia) 2%nat ltac:(lia)), Hc. vm_compute. reflexivity.
Defined.

Lemma lazy_endpoint_keeps_old_connection_witness :
  exists r', (ep_loadSingle ub0 true 3 all (doc "b" true) data1).1 !! "s" = Some r' /\ host_ r' = "b" /\
    getClient 0 (connect false 1 r') = Some (mkClient "a" "8000" false).
Proof.
  destruct (lazy_endpoint_keeps_old_connection ub0 3 all (doc "b" true) data1 (endpoint "b" true) registered
              (mkClient "a" "8000" false) [Some (mkClient "a" "8000" false); Some (mkClient "a" "8000" false)])
    as [(r' & E & [Hh _] & Hg & _) _]; [reflexivity|vm_compute; reflexivity|vm_compute; reflexivity|exact other_address|vm_compute; reflexivity|].
  exists r'. split; [rewrite E; apply lookup_insert_eq|]. split; [exact Hh|exact Hg].
Defined.

Lemma permit_change_is_ignored_witness :
  (ep_loadSingle ub0 false 1 all (doc "a" false) data1).1 = data1 /\ permit_ registered = true.
Proof.
  destruct (permit_change_is_ignored ub0 1 all false (doc "a" false) data1 (endpoint "a" false) registered) as [E _];
    [reflexivity|vm_compute; reflexivity|vm_compute; reflexivity|vm_compute; auto|]. rewrite E. split; reflexivity.
Defined.
End EndpointExamples.
