(* ===== verification/Schema.v ===== *)
(** [src/model/AdminSchema.cpp], [AdminSchemaData.cpp] and
    [src/jsonSchema/JsonSchema.cpp]: the schemas registered by identifier.  The
    load of an array, item by item, is shared by all the administration data. *)
From S2P Require Import Prelude Json External Transformation.
From stdpp Require Import options.

(** ** The result of a load, and loads of several items *)

Inductive LoadResult := Success | BadSchema | BadContent.
#[global] Instance LoadResult_eq_dec : EqDecision LoadResult.
Proof. solve_decision. Defined.

Section LoadArray.
Context {S : Type} (loadSingle : json -> M S LoadResult).

(** The first failure stops the load; what was loaded before it stays. *)
Fixpoint load_items (l : list json) : M S LoadResult :=
  match l with
  | [] => ret Success
  | j :: l' =>
      do result <- loadSingle j ;;
      match result with Success => load_items l' | _ => ret result end
  end.

Definition load_document (j : json) : M S LoadResult :=
  match j with
  | JArray l => load_items l
  | _ => loadSingle j
  end.
End LoadArray.

(** ** [AdminSchema] *)

Section Schema.
Context `{SchemaLib}.

Record AdminSchema := mkAdminSchema {
  as_json : json;
  as_key : string;
  as_schema : validator
}.

(** [load]: [Val None] is a schema the validator refuses. *)
Definition AdminSchema_load (j : json) : outcome (option AdminSchema) :=
  let! key := get_string (json_find "id" j) in
  match json_find "schema" j with
  | None => Throw json_exception
  | Some s => Val ((fun v => mkAdminSchema j key v) <$> set_root_schema s)
  end.

(** [validate]: the text of the error, if any. *)
Definition AdminSchema_validate (s : AdminSchema) (j : json) : option string := schema_error (as_schema s) j.

(** ** [AdminSchemaData] *)

Abbreviation AdminSchemaData := (gmap string AdminSchema) (only parsing).

Definition schema_find (id : string) (d : AdminSchemaData) : option AdminSchema := d !! id.

(** [valid] is the validation against the schema of the operation. *)
Definition schema_loadSingle (valid : json -> bool) (j : json) : M AdminSchemaData LoadResult :=
  if negb (valid j) then ret BadSchema
  else
    do schema <- lift (AdminSchema_load j) ;;
    match schema with
    | Some s => modify (<[as_key s := s]>) ;;; ret Success
    | None => ret BadContent
    end.

Definition schema_load (valid : json -> bool) : json -> M AdminSchemaData LoadResult :=
  load_document (schema_loadSingle valid).
End Schema.

(** ** Lemmas *)

(** A load of several items succeeds exactly when each of them does, from the state
    the ones before it left. *)
Lemma load_items_app {S} (loadSingle : json -> M S LoadResult) l1 l2 s :
  load_items loadSingle (l1 ++ l2) s =
  match load_items loadSingle l1 s with
  | (s', Val Success) => load_items loadSingle l2 s'
  | r => r
  end.
Proof.
  revert s. induction l1 as [|j l1 IH]; intros s; [done|]. cbn [load_items app]. unfold bind.
  destruct (loadSingle j s) as [s' [[]|]]; [apply IH|done..].
Qed.

(** An invariant of single loads is one of arrays. *)
Lemma load_document_inv {S} (loadSingle : json -> M S LoadResult) (P : S -> Prop) :
  (forall j s, P s -> P (loadSingle j s).1) -> forall j s, P s -> P (load_document loadSingle j s).1.
Proof.
  intros Hs. assert (forall l s, P s -> P (load_items loadSingle l s).1) as Hl.
  { induction l as [|j l IH]; intros s Hp; [done|]. cbn [load_items]. unfold bind.
    pose proof (Hs j s Hp) as Hp'. destruct (loadSingle j s) as [s' [[]|]]; cbn in *; auto. }
  intros j s Hp. destruct j; cbn; auto.
Qed.
