(* ===== verification/Stages.v ===== *)
(** The stages that server and client provisions share
    ([src/model/AdminServerProvision.cpp], [src/model/AdminClientProvision.cpp]):
    the state they work on, the sources, filters and targets that are the same in
    both, the loop over the items with their fallbacks, and the fields of their
    documents. *)
From S2P Require Import Prelude Std Double Functions Query Json JsonModel External JsonConstraint Keys DataPart MockEvents MockData TypeConverter Vault Transformation Schema.
From Stdlib Require Import SpecFloat.
From stdpp Require Import options.
#[local] Open Scope Z_scope.

(** What a provision reaches through its pointers. *)
Record World `{SchemaLib} (OS : Type) := mkWorld {
  w_vault : Vault;
  w_server : MockData MockServerEvent;
  w_client : MockData MockClientEvent;
  w_schemas : gmap string AdminSchema;
  w_long_term_us : Z;
  w_short_term_us : Z;
  w_out : OS
}.
Arguments mkWorld {_} {OS}.
Arguments w_vault {_} {OS}.
Arguments w_server {_} {OS}.
Arguments w_client {_} {OS}.
Arguments w_schemas {_} {OS}.
Arguments w_long_term_us {_} {OS}.
Arguments w_short_term_us {_} {OS}.
Arguments w_out {_} {OS}.

(** The objects the three stages share: the type converter, the variables, the
    document being built, the other outputs (a response or a request), the break
    flag and the world. *)
Record Run `{SchemaLib} (P OS : Type) := mkRun {
  r_source : TypeConverter;
  r_vars : gmap string string;
  r_json : json;
  r_output : P;
  r_break : bool;
  r_world : World OS
}.
Arguments mkRun {_} {P OS}.
Arguments r_source {_} {P OS}.
Arguments r_vars {_} {P OS}.
Arguments r_json {_} {P OS}.
Arguments r_output {_} {P OS}.
Arguments r_break {_} {P OS}.
Arguments r_world {_} {P OS}.

(** [nghttp2::asio_http2::header_map] is a multimap: a new pair goes after the
    pairs with the same name. *)
Fixpoint headers_emplace (k v : string) (h : header_map) : header_map :=
  match h with
  | [] => [(k, v)]
  | (k', v') :: h' => if decide (String.le k' k) then (k', v') :: headers_emplace k v h' else (k, v) :: h
  end.

Section Stages.
Context `{JsonEq} `{JsonText} `{JsonPointer} `{RegexLib} `{SchemaLib} `{Calculus} {P OS : Type} `{Outside OS}.
(** The URL decoder and the value of undefined conversions of a [double]. *)
Context (decode_url : string -> string) (ub : double -> Z).

(** ** State and calls on its parts *)
Definition with_source (t : TypeConverter) (r : Run P OS) : Run P OS :=
  mkRun t (r_vars r) (r_json r) (r_output r) (r_break r) (r_world r).
Definition with_vars (v : gmap string string) (r : Run P OS) : Run P OS :=
  mkRun (r_source r) v (r_json r) (r_output r) (r_break r) (r_world r).
Definition with_rjson (j : json) (r : Run P OS) : Run P OS :=
  mkRun (r_source r) (r_vars r) j (r_output r) (r_break r) (r_world r).
Definition with_output (p : P) (r : Run P OS) : Run P OS :=
  mkRun (r_source r) (r_vars r) (r_json r) p (r_break r) (r_world r).
Definition with_break (r : Run P OS) : Run P OS :=
  mkRun (r_source r) (r_vars r) (r_json r) (r_output r) true (r_world r).
Definition with_world (w : World OS) (r : Run P OS) : Run P OS :=
  mkRun (r_source r) (r_vars r) (r_json r) (r_output r) (r_break r) w.
Definition with_vault (v : Vault) (w : World OS) : World OS :=
  mkWorld v (w_server w) (w_client w) (w_schemas w) (w_long_term_us w) (w_short_term_us w) (w_out w).
Definition with_server (d : MockData MockServerEvent) (w : World OS) : World OS :=
  mkWorld (w_vault w) d (w_client w) (w_schemas w) (w_long_term_us w) (w_short_term_us w) (w_out w).
Definition with_client (d : MockData MockClientEvent) (w : World OS) : World OS :=
  mkWorld (w_vault w) (w_server w) d (w_schemas w) (w_long_term_us w) (w_short_term_us w) (w_out w).
Definition with_out (o : OS) (w : World OS) : World OS :=
  mkWorld (w_vault w) (w_server w) (w_client w) (w_schemas w) (w_long_term_us w) (w_short_term_us w) o.

(** Calls on a component of the state. *)
Definition on_source {A} (f : TypeConverter -> A * TypeConverter) : M (Run P OS) A := fun r =>
  let '(a, t) := f (r_source r) in (with_source t r, Val a).
Definition set_source (f : TypeConverter -> TypeConverter) : M (Run P OS) unit := fun r =>
  (with_source (f (r_source r)) r, Val tt).
Definition on_vault {A} (m : M Vault A) : M (Run P OS) A := fun r =>
  let '(v, o) := m (w_vault (r_world r)) in (with_world (with_vault v (r_world r)) r, o).
Definition on_out {A} (f : OS -> A * OS) : M (Run P OS) A := fun r =>
  let '(a, o) := f (w_out (r_world r)) in (with_world (with_out o (r_world r)) r, Val a).
Definition put_output (f : P -> P) : M (Run P OS) unit := fun r => (with_output (f (r_output r)) r, Val tt).
Definition set_var (k v : string) : M (Run P OS) unit := fun r => (with_vars (<[k := v]> (r_vars r)) r, Val tt).

(** [replaceVariables(str, patterns, variables, vault_)] *)
Definition replace (s : string) (patterns : gmap string string) : M (Run P OS) string := fun r =>
  (r, replaceVariables s patterns (r_vars r) (v_map (w_vault (r_world r)))).

(** Getters of the converter. *)
Definition src_getString : M (Run P OS) string := fun r =>
  match getString (r_source r) with
  | Val (t, s) => (with_source t r, Val s)
  | Throw e => (r, Throw e)
  end.
Definition src_getInteger : M (Run P OS) (bool * Z) :=
  on_source (fun t => let '(t', ok, v) := getInteger ub t in ((ok, v), t')).
Definition src_getUnsigned : M (Run P OS) (bool * Z) :=
  on_source (fun t => let '(t', ok, v) := getUnsigned ub t in ((ok, v), t')).
Definition src_getFloat : M (Run P OS) (bool * double) :=
  on_source (fun t => let '(t', ok, v) := getFloat t in ((ok, v), t')).
Definition src_getBoolean : M (Run P OS) (bool * bool) :=
  on_source (fun t => let '(t', ok, v) := getBoolean t in ((ok, v), t')).
Definition src_getObject : M (Run P OS) (bool * json) := fun r => (r, Val (getObject (r_source r))).
Definition src_setObject (j : json) (path : string) : M (Run P OS) bool := on_source (setObject j path).
Definition src_setReplacing (s : string) (patterns : gmap string string) : M (Run P OS) unit := fun r =>
  match setStringReplacingVariables s patterns (r_vars r) (v_map (w_vault (r_world r))) (r_source r) with
  | Val t => (with_source t r, Val tt)
  | Throw e => (with_source (setString s (r_source r)) r, Throw e)
  end.

(** ** Sources *)

(** Results of [processSources]: success and [eraser]. *)
Definition src_ok : M (Run P OS) (bool * bool) := ret (true, false).
Definition src_fail : M (Run P OS) (bool * bool) := ret (false, false).
Definition src_when (b : bool) : M (Run P OS) (bool * bool) := ret (b, false).
Definition set_string (s : string) : M (Run P OS) (bool * bool) := set_source (setString s) ;;; src_ok.

(** [RequestHeaders]: an array of names and values. *)
Definition headers_json (h : header_map) : json :=
  JArray (map (fun kv => JObject [("name", JString kv.1); ("value", JString kv.2)]) h).
Definition d_to_i32 (f : double) : Z :=
  match d_trunc f with
  | Some z => if (- 2 ^ 31 <=? z) && (z <=? 2 ^ 31 - 1) then z else ub f
  | None => ub f
  end.

(** [Math]: an integer when the value has no decimals. *)
Definition source_math (t : Item) : M (Run P OS) (bool * bool) :=
  do expressionString <- replace (source_ (it_source t)) (source_patterns_ t) ;;
  let result := expression_value expressionString in
  set_source (if d_eqb result (d_of_Z (d_to_i32 result))
              then setInteger (default (ub result) (d_to_i64 result))
              else setFloat result) ;;;
  src_ok.

(** [Random]: the arithmetic is the one of [int], whose overflow is undefined like
    the division by the width of an empty range. *)
Definition source_random (t : Item) : M (Run P OS) (bool * bool) :=
  let i1 := source_i1_ (it_source t) in
  do d <- lift (int_arith (source_i2_ (it_source t) - i1)) ;;
  do range <- lift (int_arith (d + 1)) ;;
  do n <- on_out os_rand ;;
  if range =? 0 then throw undefined
  else
    do v <- lift (int_arith (i1 + Z.rem n range)) ;;
    set_source (setInteger v) ;;; src_ok.
Definition source_random_set (t : Item) : M (Run P OS) (bool * bool) :=
  let tokens := source_tokenized_ (it_source t) in
  do n <- on_out os_rand ;;
  src_setReplacing (nth (Z.to_nat (Z.rem n (Z.of_nat (length tokens)))) tokens "") (source_patterns_ t) ;;;
  src_ok.

(** [Timestamp]: an unknown unit leaves the converter as it was. *)
Definition source_timestamp (t : Item) : M (Run P OS) (bool * bool) :=
  let unit := source_ (it_source t) in
  let at_scale (d : Z) := do ns <- on_out os_clock_ns ;; set_source (setInteger (Z.quot ns d)) ;;; src_ok in
  if decide (unit = "s") then at_scale 1000000000
  else if decide (unit = "ms") then at_scale 1000000
  else if decide (unit = "us") then at_scale 1000
  else if decide (unit = "ns") then at_scale 1
  else src_ok.
Definition source_strftime (t : Item) : M (Run P OS) (bool * bool) :=
  do text <- on_out (os_strftime (source_ (it_source t)) 100) ;;
  src_setReplacing text (source_patterns_ t) ;;;
  src_ok.
Definition source_var (t : Item) : M (Run P OS) (bool * bool) :=
  do varname <- replace (source_ (it_source t)) (source_patterns_ t) ;;
  do r <- get ;;
  match r_vars r !! varname with
  | Some v => set_string v
  | None => src_fail
  end.
Definition source_vault (t : Item) : M (Run P OS) (bool * bool) :=
  do varname <- replace (source_ (it_source t)) (source_patterns_ t) ;;
  do r <- get ;;
  match v_tryGet varname (w_vault (r_world r)) with
  | Some j =>
      do path <- (if sempty (source2_ (it_source t)) then ret "" else replace (source2_ (it_source t)) (source_patterns_ t)) ;;
      do ok <- src_setObject j path ;;
      src_when ok
  | None => src_fail
  end.

(** The fields of an event address, with their variables replaced in order. *)
Fixpoint replace_all (l : list string) (patterns : gmap string string) : M (Run P OS) (list string) :=
  match l with
  | [] => ret []
  | s :: l' => do s' <- replace s patterns ;; do ss <- replace_all l' patterns ;; ret (s' :: ss)
  end.

(** The document of an event, by location. *)
Definition event_json `{EventType E} (d : MockData E) (l : option loc) : option json :=
  l ≫= fun l => (fun e => json_ (ev_base e)) <$> heap_ d !! l.
Definition source_event_object (j : option json) (path : string) : M (Run P OS) (bool * bool) :=
  match j with
  | None => src_fail
  | Some j => do ok <- src_setObject j path ;; src_when ok
  end.

(** [ServerEvent]: by sequence when one is given, otherwise by number. *)
Definition source_server_event (t : Item) : M (Run P OS) (bool * bool) :=
  do f <- replace_all (source_tokenized_ (it_source t)) (source_patterns_ t) ;;
  let '(method, uri, number, path, recvseq) := (nth 0 f "", nth 1 f "", nth 2 f "", nth 3 f "", nth 4 f "") in
  do r <- get ;;
  let d := w_server (r_world r) in
  if negb (sempty recvseq) then
    match stoull recvseq with
    | Val n => source_event_object (event_json d (data_getEventBySeq (DataKey2 method uri) n d)) path
    | Throw _ => src_fail
    end
  else source_event_object (event_json d (data_getEvent (EventKey2 method uri number) d)) path.
Definition source_client_event (t : Item) : M (Run P OS) (bool * bool) :=
  do f <- replace_all (source_tokenized_ (it_source t)) (source_patterns_ t) ;;
  let '(endpoint, method, uri, number, path, sendseq) :=
    (nth 0 f "", nth 1 f "", nth 2 f "", nth 3 f "", nth 4 f "", nth 5 f "") in
  do r <- get ;;
  let d := w_client (r_world r) in
  if negb (sempty sendseq) then
    match stoull sendseq with
    | Val n => source_event_object (event_json d (data_getEventBySeq (DataKey3 endpoint method uri) n d)) path
    | Throw _ => src_fail
    end
  else source_event_object (event_json d (data_getEvent (EventKey_of (DataKey3 endpoint method uri) number) d)) path.
Definition source_file (t : Item) (text : bool) : M (Run P OS) (bool * bool) :=
  do path <- replace (source_ (it_source t)) (source_patterns_ t) ;;
  do content <- on_out (fm_read path text) ;;
  set_string content.

(** [Command]: the exit status goes to the variable ["rc"]. *)
Definition source_command (t : Item) : M (Run P OS) (bool * bool) :=
  do command <- replace (source_ (it_source t)) (source_patterns_ t) ;;
  do result <- on_out (os_popen command) ;;
  set_var "rc" "-1" ;;;
  match result with
  | Some (output, status) => set_var "rc" (to_string_i status) ;;; set_string output
  | None => set_string ""
  end.

(** ** Filters *)

(** Results of [processFilters]: success and the groups of [matches]. *)
Definition flt_ok : M (Run P OS) (bool * list string) := ret (true, []).
Definition flt_fail : M (Run P OS) (bool * list string) := ret (false, []).
Definition flt_string (s : string) : M (Run P OS) (bool * list string) := set_source (setString s) ;;; flt_ok.

(** Signed arithmetic on 64 bits. *)
Definition i64_checked (z : Z) : M (Run P OS) Z :=
  if (i64_min <=? z) && (z <=? i64_max) then ret z else throw undefined.

(** [Sum] and [Multiply]: the value keeps when the source is not a number. *)
Definition filter_arith (f : Filter) (zop : Z -> Z -> Z) (dop : double -> double -> double) : M (Run P OS) (bool * list string) :=
  if filter_number_type_ f =? 0 then
    do '(success, i) <- src_getInteger ;;
    do i <- (if success : bool then i64_checked (zop i (filter_i_ f)) else ret i) ;;
    set_source (setInteger i) ;;; flt_ok
  else if filter_number_type_ f =? 1 then
    do '(success, u) <- src_getUnsigned ;;
    set_source (setUnsigned (if success : bool then to_u64 (zop u (filter_u_ f)) else u)) ;;; flt_ok
  else if filter_number_type_ f =? 2 then
    do '(success, d) <- src_getFloat ;;
    set_source (setFloat (if success : bool then dop d (filter_f_ f) else d)) ;;; flt_ok
  else flt_ok.

(** The padding of [Split]: as many copies of the filler as needed, cut on the left. *)
Fixpoint pad_loop (fuel : nat) (padding filler : string) (len totalLen : Z) : string :=
  match fuel with
  | O => padding
  | S fuel =>
      if Z.of_nat (String.length padding) + len <? totalLen
      then pad_loop fuel (padding +:+ filler) filler len totalLen
      else padding
  end.
Definition split_pad (source filler : string) (totalLen : Z) : string :=
  let len := Z.of_nat (String.length source) in
  if totalLen <? len then sdrop (Z.to_nat (len - totalLen)) source
  else if (len <? totalLen) && negb (sempty filler) then
    let padding := pad_loop (Z.to_nat (totalLen - len)) "" filler len totalLen in
    let excess := Z.of_nat (String.length padding) + len - totalLen in
    (if 0 <? excess then sdrop (Z.to_nat excess) padding else padding) +:+ source
  else source.

(** The groups, from the [i]-th on; [substr] throws beyond the end. *)
Fixpoint split_loop (fuel : nat) (i : Z) (padded sep : string) (size : Z) (numeric : bool) (targetS : string) : outcome string :=
  match fuel with
  | O => Val targetS
  | S fuel =>
      let targetS := if 0 <? i then targetS +:+ sep else targetS in
      let! group := substr padded (Z.to_nat (to_u64 (i * size))) (Some (Z.to_nat (to_u64 size))) in
      let targetS := targetS +:+ (if numeric then match stoull group with Val n => to_string_u n | Throw _ => group end
                                  else group) in
      split_loop fuel (i + 1) padded sep size numeric targetS
  end.
Definition split_text (source : string) (size count : Z) (sep filler : string) (numeric : bool) : outcome string :=
  let padded := split_pad source filler (to_u64 (to_u64 size * count)) in
  split_loop (Z.to_nat count) 0 padded sep size numeric "".
Definition filter_split_run (f : Filter) (source : string) : M (Run P OS) (bool * list string) :=
  do targetS <- lift (split_text source (filter_i_ f) (filter_u_ f) (filter_ f) (filter_filler_ f)
                        (negb (filter_number_type_ f =? 0))) ;;
  flt_string targetS.

(** [BaseConvert]: a text that is not a number of the base is kept. *)
Definition base_convert (source : string) (baseIn baseOut : Z) (capital : bool) : string :=
  match stoull_base baseIn source with
  | Val v => if baseOut =? 10 then to_string_u v else render baseOut capital v
  | Throw _ => source
  end.
Definition filter_base_run (f : Filter) (source : string) : M (Run P OS) (bool * list string) :=
  flt_string (base_convert source (to_i32 (filter_i_ f)) (to_i32 (filter_u_ f)) (negb (filter_number_type_ f =? 0))).

(** Units per second. *)
Definition unit_scale (n : Z) : Z :=
  if n =? 1 then 1000 else if n =? 2 then 1000000 else if n =? 3 then 1000000000 else 1.
Definition filter_strptime (f : Filter) (source : string) : M (Run P OS) (bool * list string) :=
  match strptime_gm source (filter_ f) with
  | None => flt_fail
  | Some epoch =>
      do e <- i64_checked (epoch * unit_scale (filter_number_type_ f)) ;;
      set_source (setInteger e) ;;; flt_ok
  end.
Definition filter_strftime (f : Filter) : M (Run P OS) (bool * list string) :=
  do '(success, epoch) <- src_getInteger ;;
  if negb success then flt_fail
  else match strftime_gm (filter_ f) (Z.quot epoch (unit_scale (filter_number_type_ f))) 256 with
       | None => flt_fail
       | Some text => flt_string text
       end.

(** [RegexKey]: the first entry of the object, in the order of its keys, whose key
    matches. *)
Fixpoint first_key (rgx : regex) (l : list (string * json)) : option (json * list string) :=
  match l with
  | [] => None
  | (k, v) :: l' => match regex_match k rgx with Some m => Some (v, m) | None => first_key rgx l' end
  end.
Definition filter_regex_key (f : Filter) : M (Run P OS) (bool * list string) :=
  do '(success, obj) <- src_getObject ;;
  match (if success : bool then obj else JNull) with
  | JObject l =>
      match first_key (filter_rgx_ f) l with
      | Some (v, matches) =>
          do ok <- src_setObject v "" ;;
          if ok : bool then ret (true, matches) else flt_fail
      | None => flt_fail
      end
  | _ => flt_fail
  end.

(** [Size] of an object or an array, or of a text. *)
Definition filter_size : M (Run P OS) (bool * list string) :=
  do '(success, obj) <- src_getObject ;;
  if success && (is_object obj || is_array obj) then flt_string (to_string_u (Z.of_nat (json_size obj)))
  else do source <- src_getString ;; flt_string (to_string_u (Z.of_nat (String.length source))).

(** ** Targets *)

(** [responseBodyJson[j_ptr] = v] *)
Definition json_assign (path : string) (v : json) : M (Run P OS) unit := fun r =>
  let '(j, o) := json_put path v (r_json r) in (with_rjson j r, o).

(** Position of the last [c]. *)
Fixpoint find_last (c : ascii) (s : string) : option nat :=
  match s with
  | EmptyString => None
  | String d s' => match find_last c s' with
                   | Some i => Some (S i)
                   | None => if decide (d = c) then Some O else None
                   end
  end.

(** [erase(begin(), end())]: a null document throws. *)
Definition json_erase_all (j : json) : outcome json :=
  match j with
  | JObject _ => Val (JObject [])
  | JArray _ => Val (JArray [])
  | JNull => Throw json_exception
  | _ => Val JNull
  end.

(** [ResponseBodyJson_Object] with an eraser: always skipped after erasing. *)
Definition target_erase (target : string) : M (Run P OS) bool :=
  if sempty target then
    do r <- get ;;
    do j <- lift (json_erase_all (r_json r)) ;;
    modify (with_rjson j) ;;; ret false
  else
    let parentPath := match find_last "/" target with Some i => stake i target | None => target end in
    let childKey := match find_last "/" target with Some i => sdrop (S i) target | None => target end in
    lift (json_pointer_check parentPath) ;;;
    (fun r => let '(j, o) := json_erase_at parentPath childKey (r_json r) in
              (with_rjson j r, match o with Val _ => Val false | Throw e => Throw e end)).

(** A value merged at the root or written at a path. *)
Definition merge_or_assign (target : string) (obj : json) : M (Run P OS) unit :=
  if sempty target then modify (fun r => with_rjson (json_merge_patch (r_json r) obj) r)
  else json_assign target obj.

(** [ResponseBodyJson_Object]: the value with its native type. *)
Definition target_object (target : string) (eraser : bool) : M (Run P OS) bool :=
  if eraser then target_erase target
  else
    lift (json_pointer_check target) ;;;
    do r <- get ;;
    match native_type_ (r_source r) with
    | TObject => do '(ok, j) <- src_getObject ;; (if ok : bool then merge_or_assign target j else ret tt) ;;; ret true
    | TString => do s <- src_getString ;; json_assign target (JString s) ;;; ret true
    | TInteger => do '(ok, i) <- src_getInteger ;; (if ok : bool then json_assign target (JInt i) else ret tt) ;;; ret true
    | TUnsigned => do '(ok, u) <- src_getUnsigned ;; (if ok : bool then json_assign target (JUint u) else ret tt) ;;; ret true
    | TFloat => do '(ok, d) <- src_getFloat ;; (if ok : bool then json_assign target (JFloat d) else ret tt) ;;; ret true
    | TBoolean => do '(ok, b) <- src_getBoolean ;; (if ok : bool then json_assign target (JBool b) else ret tt) ;;; ret true
    end.

(** Extraction and assignment, skipped when the extraction fails. *)
Definition target_number {A} (getter : M (Run P OS) (bool * A)) (k : A -> M (Run P OS) unit) : M (Run P OS) bool :=
  do '(ok, v) <- getter ;;
  if ok : bool then k v ;;; ret true else ret false.

(** [ResponseBodyJson_JsonString] *)
Definition target_json_string (target : string) : M (Run P OS) bool :=
  lift (json_pointer_check target) ;;;
  do s <- src_getString ;;
  match json_parse s with
  | None => ret false
  | Some obj => merge_or_assign target obj ;;; ret true
  end.

(** The numbered variables of the groups, from [i] on. *)
Fixpoint set_groups (target : string) (i : nat) (groups : list string) : M (Run P OS) unit :=
  match groups with
  | [] => ret tt
  | g :: gs => set_var (target +:+ "." +:+ to_string_u (Z.of_nat i)) g ;;; set_groups target (S i) gs
  end.

(** [TVar]: the groups of a capture, the groups of a key, or the value; a failed
    validation leaves its report in another variable. *)
Definition target_var (target : string) (filter : option FilterType) (matches : list string) : M (Run P OS) bool :=
  match filter with
  | Some RegexCapture =>
      match matches with
      | [] => ret true
      | m :: ms => set_var target m ;;; set_groups target 1 ms ;;; ret true
      end
  | Some RegexKey =>
      do s <- src_getString ;;
      set_var target s ;;; set_groups target 0 matches ;;; ret true
  | Some (JsonConstraint_f | SchemaId) =>
      do s <- src_getString ;;
      (if bool_decide (s = "1") then set_var target s
       else set_var (target +:+ ".fail") s ;;; set_var target "") ;;; ret true
  | _ => do s <- src_getString ;; set_var target s ;;; ret true
  end.

(** An entry of the vault, or a node of it. *)
Definition vault_store (target path : string) (v : json) : M (Run P OS) unit :=
  on_vault (if sempty path then vault_load target v else loadAtPath target path v).

(** The source as a document when it is one, otherwise as a text. *)
Definition vault_store_source (target path : string) : M (Run P OS) unit :=
  do '(ok, obj) <- src_getObject ;;
  if ok : bool then vault_store target path obj
  else do s <- src_getString ;; vault_store target path (JString s).

(** The groups of a capture as a document: ["0"] first, then the others. *)
Definition capture_json (groups : list string) : json :=
  foldl (fun j kg => json_set (to_string_u (Z.of_nat kg.1)) (JString kg.2) j) (JObject []) (imap pair groups).
Definition target_vault (target path : string) (eraser : bool) (filter : option FilterType) (matches : list string)
    : M (Run P OS) bool :=
  if eraser then on_vault (fun v => let '(_, v') := v_remove target v in (v', Val tt)) ;;; ret true
  else match filter with
       | Some RegexCapture =>
           match matches with
           | [] => ret true
           | _ => vault_store target path (capture_json matches) ;;; ret true
           end
       | Some RegexKey => vault_store_source target path ;;; set_groups target 0 matches ;;; ret true
       | _ => vault_store_source target path ;;; ret true
       end.

(** [TTxtFile] and [TBinFile]: a path with variables is a short term file. *)
Definition target_file (t : Item) (target : string) (eraser text : bool) : M (Run P OS) bool :=
  do s <- src_getString ;;
  (if eraser then on_out (fun o => (tt, fm_empty target o))
   else do r <- get ;;
        let delay := if bool_decide (target_patterns_ t = ∅) then w_long_term_us (r_world r) else w_short_term_us (r_world r) in
        on_out (fun o => (tt, fm_write target s text delay o))) ;;;
  ret true.

(** [atoi] *)
Definition atoi (s : string) : Z :=
  match strto 10 s with Some (neg, v) => to_i32 (if neg : bool then - v else v) | None => 0 end.

(** [UDPSocket]: [<path>|<delay>] *)
Definition target_udp (target : string) : M (Run P OS) bool :=
  do s <- src_getString ;;
  let delayMs := to_u32 (atoi (match find_last "|" target with Some i => sdrop (S i) target | None => target end)) in
  let path := match find_last "|" target with Some i => stake i target | None => target end in
  do written <- on_out (sm_write path s (to_u32 (delayMs * 1000))) ;;
  lift written ;;;
  ret true.

(** ** Items and their fallbacks *)

(** The loop over the items of a provision, for the three stages of its kind:
    sources give success and [eraser], filters give success and the groups. *)
Section Items.
Context (sources : Item -> M (Run P OS) (bool * bool)) (filters : Item -> Filter -> M (Run P OS) (bool * list string))
  (targets : Item -> list string -> bool -> M (Run P OS) bool).

(** A fallback: the three stages, and its own fallbacks when its filter fails. *)
Fixpoint fallback_run (t : Transformation) : M (Run P OS) unit :=
  match t with
  | Trans item offs =>
      do '(ok, eraser) <- sources item ;;
      if negb ok then ret tt
      else match it_filter item with
           | Some f =>
               do '(pass, matches) <- (if eraser : bool then flt_fail else filters item f) ;;
               if negb pass
               then (fix fallbacks (l : list Transformation) : M (Run P OS) unit :=
                       match l with
                       | [] => ret tt
                       | x :: l' => fallback_run x ;;; fallbacks l'
                       end) offs
               else targets item matches eraser ;;; ret tt
           | None => targets item [] eraser ;;; ret tt
           end
  end.

Fixpoint fallbacks_run (l : list Transformation) : M (Run P OS) unit :=
  match l with
  | [] => ret tt
  | t :: l' => fallback_run t ;;; fallbacks_run l'
  end.

(** The body of the loop. *)
Definition item_run (t : Transformation) : M (Run P OS) unit :=
  let item := tr_item t in
  do '(ok, eraser) <- sources item ;;
  if negb ok then ret tt
  else match it_filter item with
       | Some f =>
           do '(pass, matches) <- (if eraser : bool then flt_fail else filters item f) ;;
           if negb pass then fallbacks_run (getOnFilterFail t)
           else targets item matches eraser ;;; ret tt
       | None => targets item [] eraser ;;; ret tt
       end.

End Items.

(** The loop: nothing runs after a break. *)
Fixpoint items_run (run : Transformation -> M (Run P OS) unit) (l : list Transformation) : M (Run P OS) unit :=
  match l with
  | [] => ret tt
  | t :: l' =>
      do r <- get ;;
      if r_break r then ret tt else run t ;;; items_run run l'
  end.

(** ** Fields of a provision document *)

(** The cache of a schema: looked up only when there are schemas and none is cached. *)
Definition cached_schema (id : string) (schemas : gmap string AdminSchema) (cache : option AdminSchema) : option AdminSchema :=
  if sempty id then None
  else if bool_decide (schemas = ∅) then cache
  else match cache with Some s => Some s | None => schema_find id schemas end.

(** [get<unsigned int>()] and [get<int>()] *)
Definition get_u32 (j : option json) : outcome Z :=
  match j with
  | Some (JInt i) => Val (to_u32 i)
  | Some (JUint u) => Val (to_u32 u)
  | Some (JFloat f) =>
      Val (match d_trunc f with Some z => if (0 <=? z) && (z <? 2 ^ 32) then z else to_u32 (ub f) | None => to_u32 (ub f) end)
  | Some (JBool b) => Val (if b then 1 else 0)
  | _ => Throw json_exception
  end.

(** A text field, or its default when it is absent or not a text. *)
Definition text_field (k : string) (dflt : string) (j : json) : string :=
  match json_find k j with Some (JString s) => s | _ => dflt end.

(** A state: an empty one is the initial one. *)
Definition state_field (k : string) (j : json) : string :=
  let s := text_field k DEFAULT_ADMIN_PROVISION_STATE j in
  if sempty s then DEFAULT_ADMIN_PROVISION_STATE else s.

(** An empty schema identifier is refused. *)
Definition schema_field_ok (k : string) (j : json) : bool :=
  match json_find k j with Some (JString s) => negb (sempty s) | _ => true end.
Fixpoint headers_field (l : list (string * json)) (h : header_map) : outcome header_map :=
  match l with
  | [] => Val h
  | (k, v) :: l' => let! s := get_string (Some v) in headers_field l' (headers_emplace k s h)
  end.

(** The response body: the document kept apart, and its text. *)
Definition body_field (j : option json) : outcome (json * string) :=
  match j with
  | Some (JObject l) => let! s := json_dump (JObject l) in Val (JObject l, s)
  | Some (JArray l) => let! s := json_dump (JArray l) in Val (JArray l, s)
  | Some (JString s) => Val (JNull, s)
  | Some (JInt i) => Val (JNull, to_string_i (to_i32 i))
  | Some (JUint u) => Val (JNull, to_string_i (to_i32 u))
  | Some (JFloat f) => Val (JNull, d_to_string f)
  | Some (JBool b) => Val (JNull, if b then "true" else "false")
  | Some JNull => Val (JNull, "null")
  | None => Val (JNull, "")
  end.

(** [loadTransformation] on each element: an incoherent item is discarded. *)
Fixpoint load_transformations (l : list json) : outcome (list Transformation) :=
  match l with
  | [] => Val []
  | j :: l' =>
      let! t := Transformation_load decode_url ub j in
      let! ts := load_transformations l' in
      Val (match t with Some t => t :: ts | None => ts end)
  end.

(** The elements [for (auto it : *transform_it)] ranges over. *)
Definition json_elements (j : json) : list json :=
  match j with JArray l => l | JObject l => l.*2 | JNull => [] | _ => [j] end.
End Stages.
