(* ===== verification/StageFrames.v ===== *)
(** What the shared stages ([Stages.v]) can change: relations between the states
    before and after a computation, the quiet stages, the parts a target touches,
    and the loop over the items for any three stages. *)
From S2P Require Import Prelude Std Double Functions Query Json JsonModel External JsonConstraint Keys DataPart MockEvents MockData TypeConverter Vault Transformation Schema Stages.
From stdpp Require Import options.
#[local] Open Scope Z_scope.

(** ** Relations between the states before and after *)

(** [keeps R m]: whatever [m] does, with or without an exception, the state before
    and the one after are related. *)
Definition keeps {S A} (R : relation S) (m : M S A) : Prop := forall s, R s (m s).1.

Create HintDb frame.

Section Frames.
Context {S : Type} (R : relation S) {Hpre : PreOrder R}.

Lemma keeps_ret {A} (a : A) : keeps R (ret a).
Proof using Hpre. intros s. by cbn. Qed.
Lemma keeps_throw {A} e : keeps R (throw (A := A) e).
Proof using Hpre. intros s. by cbn. Qed.
Lemma keeps_lift {A} (o : outcome A) : keeps R (lift o).
Proof using Hpre. intros s. by cbn. Qed.
Lemma keeps_get : keeps R get.
Proof using Hpre. intros s. by cbn. Qed.
Lemma keeps_bind {A B} (m : M S A) (f : A -> M S B) :
  keeps R m -> (forall a, keeps R (f a)) -> keeps R (bind m f).
Proof using Hpre.
  intros Hm Hf s. unfold bind. specialize (Hm s). destruct (m s) as [s' [a|e]]; cbn in *; [|done].
  etransitivity; [exact Hm|apply Hf].
Qed.
Lemma keeps_catch {A} (m : M S A) h : keeps R m -> (forall e, keeps R (h e)) -> keeps R (catch m h).
Proof using Hpre.
  intros Hm Hh s. unfold catch. specialize (Hm s). destruct (m s) as [s' [a|[]]]; cbn in *; try done;
    (etransitivity; [exact Hm|apply Hh]).
Qed.
End Frames.

Lemma keeps_impl {S A} (R R' : relation S) (m : M S A) :
  (forall s s', R s s' -> R' s s') -> keeps R m -> keeps R' m.
Proof. intros Hi Hk s. by apply Hi. Qed.

(** Walk through a computation; what is left are the primitive updates. *)
Ltac frame_step :=
  match goal with
  | |- keeps _ (bind _ _) => refine (keeps_bind _ _ _ _ _); [|intros ?]
  | |- keeps _ (catch _ _) => refine (keeps_catch _ _ _ _ _); [|intros ?]
  | |- keeps _ (ret _) => refine (keeps_ret _ _)
  | |- keeps _ (throw _) => refine (keeps_throw _ _)
  | |- keeps _ (lift _) => refine (keeps_lift _ _)
  | |- keeps _ get => refine (keeps_get _)
  | |- keeps _ (if ?b then _ else _) => destruct b
  | |- keeps _ (match ?x with _ => _ end) => destruct x
  | |- forall _, keeps _ _ => intros ?
  end.
Ltac frame := repeat (frame_step || (progress auto with frame) || (progress cbn zeta)).

Section Quiet.
Context `{JsonEq} `{JsonText} `{JsonPointer} `{RegexLib} `{SchemaLib} `{Calculus} {P OS : Type} `{Outside OS}.
Context (ub : double -> Z).

(** A stage that may only use the converter, the local variables and the outside
    world. *)
Definition quiet (r r' : Run P OS) : Prop :=
  r_json r' = r_json r /\ r_output r' = r_output r /\ r_break r' = r_break r /\
  w_vault (r_world r') = w_vault (r_world r) /\ w_server (r_world r') = w_server (r_world r) /\
  w_client (r_world r') = w_client (r_world r) /\ w_schemas (r_world r') = w_schemas (r_world r) /\
  w_long_term_us (r_world r') = w_long_term_us (r_world r) /\ w_short_term_us (r_world r') = w_short_term_us (r_world r).

#[export] Instance quiet_preorder : PreOrder quiet.
Proof.
  split; [intros r; by repeat split|].
  intros r1 r2 r3 (?&?&?&?&?&?&?&?&?) (?&?&?&?&?&?&?&?&?). unfold quiet. repeat split; congruence.
Qed.

Notation quietly m := (keeps quiet (m : M (Run P OS) _)).

Lemma quiet_set_source f : quietly (set_source f).
Proof. by intros r. Qed.
Lemma quiet_on_source {A} (f : TypeConverter -> A * TypeConverter) : quietly (on_source f).
Proof. intros r. unfold on_source. by destruct (f (r_source r)). Qed.
Lemma quiet_set_var k v : quietly (set_var k v).
Proof. by intros r. Qed.
Lemma quiet_on_out {A} (f : OS -> A * OS) : quietly (on_out f).
Proof. intros r. unfold on_out. by destruct (f (w_out (r_world r))). Qed.
Lemma quiet_replace s p : quietly (replace s p).
Proof. by intros r. Qed.
Lemma quiet_getString : quietly src_getString.
Proof. intros r. unfold src_getString. by destruct (getString (r_source r)) as [[t s]|]. Qed.
Lemma quiet_getObject : quietly src_getObject.
Proof. by intros r. Qed.
Lemma quiet_setReplacing s p : quietly (src_setReplacing s p).
Proof. intros r. unfold src_setReplacing. by destruct (setStringReplacingVariables _ _ _ _ _). Qed.
Hint Resolve quiet_set_source quiet_on_source quiet_set_var quiet_on_out quiet_replace quiet_getString
  quiet_getObject quiet_setReplacing : frame.

Lemma quiet_replace_all l p : quietly (replace_all l p).
Proof. induction l as [|s l IH]; cbn; frame. Qed.
Hint Resolve quiet_replace_all : frame.

(** The shared sources. *)
Lemma quiet_source_math t : quietly (source_math ub t).
Proof. unfold source_math, src_ok. frame. Qed.
Lemma quiet_source_random t : quietly (source_random t).
Proof. unfold source_random, src_ok. frame. Qed.
Lemma quiet_source_random_set t : quietly (source_random_set t).
Proof. unfold source_random_set, src_ok. frame. Qed.
Lemma quiet_source_timestamp t : quietly (source_timestamp t).
Proof. unfold source_timestamp, src_ok. frame. Qed.
Lemma quiet_source_strftime t : quietly (source_strftime t).
Proof. unfold source_strftime, src_ok. frame. Qed.
Lemma quiet_set_string s : quietly (set_string s).
Proof. unfold set_string, src_ok. frame. Qed.
Lemma quiet_setObject j p : quietly (src_setObject j p).
Proof. unfold src_setObject. frame. Qed.
Hint Resolve quiet_set_string quiet_setObject : frame.
Lemma quiet_source_var t : quietly (source_var t).
Proof. unfold source_var, src_fail. frame. Qed.
Lemma quiet_source_vault t : quietly (source_vault t).
Proof. unfold source_vault, src_fail, src_when. frame. Qed.
Lemma quiet_event_object j p : quietly (source_event_object j p).
Proof. unfold source_event_object, src_fail, src_when. frame. Qed.
Hint Resolve quiet_event_object : frame.
Lemma quiet_source_server_event t : quietly (source_server_event t).
Proof. unfold source_server_event, src_fail. frame. Qed.
Lemma quiet_source_client_event t : quietly (source_client_event t).
Proof. unfold source_client_event, src_fail. frame. Qed.
Lemma quiet_source_file t b : quietly (source_file t b).
Proof. unfold source_file. frame. Qed.
Lemma quiet_source_command t : quietly (source_command t).
Proof. unfold source_command. frame. Qed.

(** The shared filters. *)
Lemma quiet_flt_string s : quietly (flt_string s).
Proof. unfold flt_string, flt_ok. frame. Qed.
Lemma quiet_i64_checked z : quietly (i64_checked z).
Proof. unfold i64_checked. frame. Qed.
Lemma quiet_getInteger : quietly (src_getInteger ub).
Proof. unfold src_getInteger. frame. Qed.
Lemma quiet_getUnsigned : quietly (src_getUnsigned ub).
Proof. unfold src_getUnsigned. frame. Qed.
Lemma quiet_getFloat : quietly src_getFloat.
Proof. unfold src_getFloat. frame. Qed.
Hint Resolve quiet_flt_string quiet_i64_checked quiet_getInteger quiet_getUnsigned quiet_getFloat : frame.
Lemma quiet_filter_arith f zop dop : quietly (filter_arith ub f zop dop).
Proof. unfold filter_arith, flt_ok. frame. Qed.
Lemma quiet_filter_split f s : quietly (filter_split_run f s).
Proof. unfold filter_split_run. frame. Qed.
Lemma quiet_filter_base f s : quietly (filter_base_run f s).
Proof. unfold filter_base_run. frame. Qed.
Lemma quiet_filter_strptime f s : quietly (filter_strptime f s).
Proof. unfold filter_strptime, flt_ok, flt_fail. frame. Qed.
Lemma quiet_filter_strftime f : quietly (filter_strftime ub f).
Proof. unfold filter_strftime, flt_fail. frame. Qed.
Lemma quiet_filter_regex_key f : quietly (filter_regex_key f).
Proof. unfold filter_regex_key, flt_fail. frame. Qed.
Lemma quiet_filter_size : quietly filter_size.
Proof. unfold filter_size. frame. Qed.
End Quiet.

#[export] Hint Resolve quiet_set_source quiet_on_source quiet_set_var quiet_on_out quiet_replace quiet_getString
  quiet_getObject quiet_setReplacing quiet_replace_all quiet_source_math quiet_source_random quiet_source_random_set
  quiet_source_timestamp quiet_source_strftime quiet_set_string quiet_setObject quiet_source_var quiet_source_vault
  quiet_source_server_event quiet_source_client_event quiet_source_file quiet_source_command
  quiet_flt_string quiet_filter_arith quiet_filter_split quiet_filter_base quiet_filter_strptime
  quiet_filter_strftime quiet_filter_regex_key quiet_filter_size : frame.

(** ** Targets: the parts of the state one may touch *)

Record Touch := mkTouch {
  t_json : bool;
  t_vault : bool;
  t_vars : bool;
  t_out : bool;
  t_server : bool;
  t_client : bool;
  t_break : bool
}.

Section Touches.
Context `{JsonEq} `{JsonText} `{JsonPointer} `{RegexLib} `{SchemaLib} `{Calculus} {P OS : Type} `{Outside OS}.
Context (ub : double -> Z).
(** [RO] relates the outputs. *)
Context (T : Touch) (RO : relation P) {HRO : PreOrder RO}.

Definition touches (r r' : Run P OS) : Prop :=
  RO (r_output r) (r_output r') /\
  (t_json T = false -> r_json r' = r_json r) /\
  (t_vault T = false -> w_vault (r_world r') = w_vault (r_world r)) /\
  (t_vars T = false -> r_vars r' = r_vars r) /\
  (t_out T = false -> w_out (r_world r') = w_out (r_world r)) /\
  (t_server T = false -> w_server (r_world r') = w_server (r_world r)) /\
  (t_client T = false -> w_client (r_world r') = w_client (r_world r)) /\
  (t_break T = false -> r_break r' = r_break r) /\
  w_schemas (r_world r') = w_schemas (r_world r) /\
  w_long_term_us (r_world r') = w_long_term_us (r_world r) /\ w_short_term_us (r_world r') = w_short_term_us (r_world r).

#[export] Instance touches_preorder : PreOrder touches.
Proof using HRO.
  split; [intros r; unfold touches; by repeat split|].
  intros r1 r2 r3 (A0&A1&A2&A3&A4&A5&A6&A7&A8&A9&A10) (B0&B1&B2&B3&B4&B5&B6&B7&B8&B9&B10). unfold touches.
  split; [by etransitivity|].
  split_and!; intros; first [by rewrite B1, A1|by rewrite B2, A2|by rewrite B3, A3|by rewrite B4, A4|by rewrite B5, A5
    |by rewrite B6, A6|by rewrite B7, A7|congruence].
Qed.

Ltac in_touch := unfold touches; cbn; split; [reflexivity|split_and!; congruence].
Notation within m := (keeps touches (m : M (Run P OS) _)).

Lemma touch_getString : within src_getString.
Proof using HRO. intros r. unfold src_getString. destruct (getString (r_source r)) as [[t s]|]; in_touch. Qed.
Lemma touch_getObject : within src_getObject.
Proof using HRO. intros r. in_touch. Qed.
Lemma touch_on_source {A} (f : TypeConverter -> A * TypeConverter) : within (on_source f).
Proof using HRO. intros r. unfold on_source. destruct (f (r_source r)). in_touch. Qed.
Lemma touch_replace s p : within (replace s p).
Proof using HRO. intros r. in_touch. Qed.
Lemma touch_json_assign p v : t_json T = true -> within (json_assign p v).
Proof using HRO. intros Hty r. unfold json_assign. destruct (json_put p v (r_json r)). in_touch. Qed.
Lemma touch_with_rjson f : t_json T = true -> within (modify (fun r => with_rjson (f r) r)).
Proof using HRO. intros Hty r. in_touch. Qed.
Lemma touch_erase_at p k : t_json T = true ->
  within (fun r => let '(j, o) := json_erase_at p k (r_json r) in
                   (with_rjson j r, match o with Val _ => Val false | Throw e => Throw e end)).
Proof using HRO. intros Hty r. destruct (json_erase_at _ _ _). in_touch. Qed.
Lemma touch_put_output f : (forall p, RO p (f p)) -> within (put_output f).
Proof using HRO. intros Hf r. unfold touches; cbn; split; [apply Hf|by split_and!]. Qed.
Lemma touch_on_vault {A} (m : M Vault A) : t_vault T = true -> within (on_vault m).
Proof using HRO. intros Hty r. unfold on_vault. destruct (m (w_vault (r_world r))). in_touch. Qed.
Lemma touch_set_var k v : t_vars T = true -> within (set_var k v).
Proof using HRO. intros Hty r. in_touch. Qed.
Lemma touch_on_out {A} (f : OS -> A * OS) : t_out T = true -> within (on_out f).
Proof using HRO. intros Hty r. unfold on_out. destruct (f (w_out (r_world r))). in_touch. Qed.
Lemma touch_break : t_break T = true -> within (modify with_break).
Proof using HRO. intros Hty r. in_touch. Qed.
Hint Resolve touch_getString touch_getObject touch_on_source touch_replace touch_json_assign touch_with_rjson
  touch_erase_at touch_on_vault touch_set_var touch_on_out touch_break : frame.

Lemma touch_replace_all l p : within (replace_all l p).
Proof using HRO. induction l as [|s l IH]; cbn; frame. Qed.
Lemma touch_set_groups target groups : t_vars T = true -> forall i, within (set_groups target i groups).
Proof using HRO. intros Hty. induction groups as [|g gs IH]; intros i; cbn; frame. Qed.
Hint Resolve touch_replace_all touch_set_groups : frame.

(** The shared targets. *)
Lemma touch_number {A} (g : TypeConverter -> (bool * A) * TypeConverter) (k : A -> M (Run P OS) unit) :
  (forall a, within (k a)) -> within (target_number (on_source g) k).
Proof using HRO. intros Hk. unfold target_number. frame. Qed.
Lemma touch_merge t j : t_json T = true -> within (merge_or_assign t j).
Proof using HRO. intros Hj. unfold merge_or_assign. frame. Qed.
Hint Resolve touch_merge : frame.
Lemma touch_object t e : t_json T = true -> within (target_object ub t e).
Proof using HRO.
  intros Hj. unfold target_object, target_erase, src_getInteger, src_getUnsigned, src_getFloat, src_getBoolean.
  frame.
Qed.
Lemma touch_json_string t : t_json T = true -> within (target_json_string t).
Proof using HRO. intros Hj. unfold target_json_string. frame. Qed.
Lemma touch_var t f ms : t_vars T = true -> within (target_var t f ms).
Proof using HRO. intros Hj. unfold target_var. frame. Qed.
Lemma touch_vault_store t p v : t_vault T = true -> within (vault_store t p v).
Proof using HRO. intros Hj. unfold vault_store. frame. Qed.
Hint Resolve touch_vault_store : frame.
Lemma touch_vault t p e f ms : t_vault T = true -> t_vars T = true -> within (target_vault t p e f ms).
Proof using HRO. intros Hj Hv. unfold target_vault, vault_store_source. frame. Qed.
Lemma touch_file t target e b : t_out T = true -> within (target_file t target e b).
Proof using HRO. intros Hj. unfold target_file. frame. Qed.
Lemma touch_udp t : t_out T = true -> within (target_udp t).
Proof using HRO. intros Hj. unfold target_udp. frame. Qed.
End Touches.

#[export] Hint Resolve touch_getString touch_getObject touch_on_source touch_replace touch_json_assign
  touch_on_vault touch_set_var touch_on_out touch_break touch_put_output touch_replace_all touch_number touch_object
  touch_json_string touch_var touch_vault_store touch_vault touch_file touch_udp : frame.
#[export] Hint Extern 1 (PreOrder _) => typeclasses eauto : frame.
#[export] Hint Extern 1 (_ = true) => reflexivity : frame.

(** ** Items and their fallbacks *)

(** A property of an item and of all its fallbacks. *)
Fixpoint all_items `{RegexLib} (Q : Item -> bool) (t : Transformation) : bool :=
  match t with
  | Trans item offs => Q item && forallb (all_items Q) offs
  end.

Section TransformationInd.
Context `{RegexLib} (Q : Transformation -> Prop) (Htree : forall item offs, Forall Q offs -> Q (Trans item offs)).
Fixpoint Transformation_induction (t : Transformation) : Q t :=
  match t with
  | Trans item offs =>
      Htree item offs
        ((fix go (l : list Transformation) : Forall Q l :=
            match l with
            | [] => Forall_nil_2 _
            | x :: l' => Forall_cons_2 _ _ _ (Transformation_induction x) (go l')
            end) offs)
  end.
End TransformationInd.

Section Items.
Context `{RegexLib} `{SchemaLib} {P OS : Type}.
Context (sources : Item -> M (Run P OS) (bool * bool)) (filters : Item -> Filter -> M (Run P OS) (bool * list string))
  (targets : Item -> list string -> bool -> M (Run P OS) bool).

Lemma fallback_is_item t : fallback_run sources filters targets t = item_run sources filters targets t.
Proof.
  destruct t as [item offs]. unfold item_run. cbn [tr_item getOnFilterFail].
  assert ((fix fallbacks (l : list Transformation) : M (Run P OS) unit :=
             match l with
             | [] => ret tt
             | x :: l' => fallback_run sources filters targets x ;;; fallbacks l'
             end) offs = fallbacks_run sources filters targets offs) as Hf.
  { induction offs as [|x offs IH]; [done|]. cbn. by rewrite IH. }
  cbn [fallback_run]. by rewrite Hf.
Qed.

(** A sequence of items is run in two halves, the second one only without break. *)
Lemma items_run_app (run : Transformation -> M (Run P OS) unit) l1 l2 r :
  items_run run (l1 ++ l2) r =
  match items_run run l1 r with
  | (r', Val _) => if r_break r' then (r', Val tt) else items_run run l2 r'
  | (r', Throw e) => (r', Throw e)
  end.
Proof.
  revert r. induction l1 as [|t l1 IH]; intros r.
  - cbn. destruct (r_break r) eqn:Hb; [|done]. destruct l2; [done|]. cbn. unfold bind, get. by rewrite Hb.
  - cbn. unfold bind, get. destruct (r_break r) eqn:Hb; [cbn; by rewrite Hb|].
    destruct (run t r) as [r1 [[]|e]]; [apply IH|done].
Qed.

(** A relation kept by every stage of an item and of its fallbacks is kept by it. *)
Lemma item_run_keeps (R : relation (Run P OS)) `{!PreOrder R} (Q : Item -> bool) t :
  (forall item, keeps R (sources item)) ->
  (forall item f, keeps R (filters item f)) ->
  (forall item ms e, Q item = true -> keeps R (targets item ms e)) ->
  all_items Q t = true -> keeps R (item_run sources filters targets t).
Proof.
  intros Hs Hf Ht. induction t as [item offs IH] using Transformation_induction. cbn [all_items].
  intros [Hp Ho]%andb_true_iff. unfold item_run, flt_fail. cbn [tr_item getOnFilterFail].
  assert (keeps R (fallbacks_run sources filters targets offs)) as Hoff.
  { induction IH as [|x offs Hx _ IHl]; cbn; [frame|]. cbn in Ho. apply andb_true_iff in Ho as [Hox Ho].
    refine (keeps_bind _ _ _ _ _); [|intros _; by apply IHl]. rewrite fallback_is_item. by apply Hx. }
  frame; try apply Hs; try apply Hf; try apply Hoff; by apply Ht.
Qed.

Lemma items_run_keeps (R : relation (Run P OS)) `{!PreOrder R} (run : Transformation -> M (Run P OS) unit) l :
  (forall t, In t l -> keeps R (run t)) -> keeps R (items_run run l).
Proof.
  induction l as [|t l IH]; intros Hr; cbn; [frame|]. frame; [by apply Hr; left|]. apply IH. intros t' Ht'. by apply Hr; right.
Qed.
End Items.

Lemma any_items `{RegexLib} l : forallb (all_items (fun _ => true)) l = true.
Proof.
  apply forallb_forall. intros t _. induction t as [item offs IH] using Transformation_induction. cbn.
  apply forallb_forall. rewrite Forall_forall in IH. intros x Hx. apply IH. by apply list_elem_of_In.
Qed.
