(* ===== verification/ServerProvision.v ===== *)
(** [src/model/AdminServerProvision.cpp]: a server provision, read from its JSON
    form, and its transformation of a request into a response: the sources, the
    filters and the targets of its items, their fallbacks, and the schemas of the
    request and of the response. *)
From S2P Require Import Prelude Std Double Functions Query Json JsonModel External JsonConstraint Keys DataPart MockEvents MockData TypeConverter Vault Transformation Schema Stages.
From Stdlib Require Import SpecFloat.
From stdpp Require Import options.
#[local] Open Scope Z_scope.

(** ** State *)

(** The response under construction and the other output parameters of
    [transform]. *)
Record Response := mkResponse {
  responseStatusCode : Z;
  responseHeaders : header_map;
  responseBody : string;
  responseDelayMs : Z;
  outState : string;
  outStateMethod : string;
  outStateUri : string;
  clientProvisionTriggers : list (string * string)
}.

(** The input parameters of [transform] (the body once decoded). *)
Record Request := mkRequest {
  requestUri : string;
  requestUriPath : string;
  requestQueryParametersMap : gmap string string;
  requestBodyDataPart : DataPart;
  requestHeaders : header_map;
  generalUniqueServerSequence : Z
}.

Section Provision.
Context `{JsonEq} `{JsonText} `{JsonPointer} `{RegexLib} `{SchemaLib} `{Calculus} {OS : Type} `{Outside OS}.
(** The URL decoder, the multipart scanner, the value of undefined conversions of
    a [double], and the text of a [jsonConstraint] report. *)
Context (decode_url : string -> string) (multipart_decode : string -> string -> list mp_event)
  (ub : double -> Z) (report_text : fail_report -> outcome string).

Definition set_status (c : Z) (p : Response) : Response :=
  mkResponse c (responseHeaders p) (responseBody p) (responseDelayMs p) (outState p) (outStateMethod p) (outStateUri p) (clientProvisionTriggers p).
Definition set_headers (h : header_map) (p : Response) : Response :=
  mkResponse (responseStatusCode p) h (responseBody p) (responseDelayMs p) (outState p) (outStateMethod p) (outStateUri p) (clientProvisionTriggers p).
Definition set_body (b : string) (p : Response) : Response :=
  mkResponse (responseStatusCode p) (responseHeaders p) b (responseDelayMs p) (outState p) (outStateMethod p) (outStateUri p) (clientProvisionTriggers p).
Definition set_delay (d : Z) (p : Response) : Response :=
  mkResponse (responseStatusCode p) (responseHeaders p) (responseBody p) d (outState p) (outStateMethod p) (outStateUri p) (clientProvisionTriggers p).
Definition set_out (s m u : string) (p : Response) : Response :=
  mkResponse (responseStatusCode p) (responseHeaders p) (responseBody p) (responseDelayMs p) s m u (clientProvisionTriggers p).
Definition add_trigger (t : string * string) (p : Response) : Response :=
  mkResponse (responseStatusCode p) (responseHeaders p) (responseBody p) (responseDelayMs p) (outState p) (outStateMethod p) (outStateUri p)
    (clientProvisionTriggers p ++ [t]).

(** ** Sources *)

(** [RequestBody]: a node of the document, or the text of a body that is not JSON. *)
Definition source_request_body (t : Item) (q : Request) : M (Run Response OS) (bool * bool) :=
  if is_json_ (requestBodyDataPart q) then
    do path <- replace (source_ (it_source t)) (source_patterns_ t) ;;
    do ok <- src_setObject (dp_json_ (requestBodyDataPart q)) path ;;
    src_when ok
  else set_string (str_ (requestBodyDataPart q)).

(** [ResponseBody]: the document being built, or the one provisioned. *)
Definition source_response_body (t : Item) (uses_json : bool) (response_body : json) : M (Run Response OS) (bool * bool) :=
  do path <- replace (source_ (it_source t)) (source_patterns_ t) ;;
  do r <- get ;;
  do ok <- src_setObject (if uses_json then r_json r else response_body) path ;;
  src_when ok.

(** [processSources]; [in_state] and [response_body] are those of the provision. *)
Definition processSources (in_state : string) (response_body : json) (q : Request) (uses_json : bool) (t : Item)
    : M (Run Response OS) (bool * bool) :=
  let source := source_ (it_source t) in
  match source_type_ (it_source t) with
  | RequestUri => set_string (requestUri q)
  | RequestUriPath => set_string (requestUriPath q)
  | RequestUriParam =>
      match requestQueryParametersMap q !! source with
      | Some v => set_string v
      | None => src_fail
      end
  | RequestBody => source_request_body t q
  | ResponseBody => source_response_body t uses_json response_body
  | RequestHeader =>
      match headers_find source (requestHeaders q) with
      | Some v => set_string v
      | None => src_fail
      end
  | RequestHeaders => src_setObject (headers_json (requestHeaders q)) "" ;;; src_ok
  | ResponseHeaders => src_fail
  | Eraser => ret (true, true)
  | Math => source_math ub t
  | Random => source_random t
  | RandomSet => source_random_set t
  | Timestamp => source_timestamp t
  | Strftime => source_strftime t
  | Recvseq => set_source (setUnsigned (generalUniqueServerSequence q)) ;;; src_ok
  | SVar => source_var t
  | SGVar => source_vault t
  | Value => src_setReplacing source (source_patterns_ t) ;;; src_ok
  | ServerEvent => source_server_event t
  | InState => set_string in_state
  | STxtFile => source_file t true
  | SBinFile => source_file t false
  | Command => source_command t
  | ClientEvent => source_client_event t
  | Sendseq | ResponseHeader | ResponseStatusCode => src_fail
  end.

(** ** Filters *)

(** [ConditionVar]: a local variable hides an entry of the vault; a leading ['!']
    negates. *)
Definition filter_condition (f : Filter) (source : string) : M (Run Response OS) (bool * list string) :=
  let reverse := starts_with "!" (filter_ f) in
  let varname := if reverse then sdrop 1 (filter_ f) else filter_ f in
  do r <- get ;;
  do value <- (match r_vars r !! varname with
               | Some v => ret (Some v)
               | None =>
                   match v_tryGet varname (w_vault (r_world r)) with
                   | Some j => do s <- lift (jsonToString j) ;; ret (Some s)
                   | None => ret None
                   end
               end) ;;
  let conditionVar := match value with Some v => negb (sempty v) | None => false end in
  if (reverse && negb conditionVar) || (negb reverse && conditionVar) then flt_string source else flt_fail.

(** [EqualTo] and [DifferentFrom] *)
Definition filter_compare (t : Item) (f : Filter) (source : string) (equal : bool) : M (Run Response OS) (bool * list string) :=
  do filter <- replace (filter_ f) (filter_patterns_ t) ;;
  if Bool.eqb (bool_decide (source = filter)) equal then flt_string source else flt_fail.

(** [JsonConstraint]: ["1"], or the report of the failure. *)
Definition filter_constraint (f : Filter) : M (Run Response OS) (bool * list string) :=
  do '(_, sobj) <- src_getObject ;;
  match jsonConstraint sobj (filter_object_ f) with
  | None => flt_string "1"
  | Some report => do text <- lift (report_text report) ;; flt_string text
  end.

(** [SchemaId]: the source is kept when the schema is not registered. *)
Definition filter_schema (f : Filter) : M (Run Response OS) (bool * list string) :=
  do '(_, sobj) <- src_getObject ;;
  do r <- get ;;
  match schema_find (filter_ f) (w_schemas (r_world r)) with
  | Some s => flt_string (default "1" (AdminSchema_validate s sobj))
  | None => flt_ok
  end.

(** [processFilters] *)
Definition processFilters (t : Item) (f : Filter) : M (Run Response OS) (bool * list string) :=
  match filter_type_ f with
  | Sum => filter_arith ub f Z.add d_add
  | Multiply => filter_arith ub f Z.mul d_mul
  | FStrftime => filter_strftime ub f
  | RegexKey => filter_regex_key f
  | Size => filter_size
  | _ =>
      do source <- src_getString ;;
      match filter_type_ f with
      | RegexCapture =>
          match regex_match source (filter_rgx_ f) with
          | Some (m :: ms) => set_source (setString m) ;;; ret (true, m :: ms)
          | _ => flt_fail
          end
      | RegexReplace => flt_string (regex_replace source (filter_rgx_ f) (filter_ f))
      | Append => do filter <- replace (filter_ f) (filter_patterns_ t) ;; flt_string (source +:+ filter)
      | Prepend => do filter <- replace (filter_ f) (filter_patterns_ t) ;; flt_string (filter +:+ source)
      | ConditionVar => filter_condition f source
      | EqualTo => filter_compare t f source true
      | DifferentFrom => filter_compare t f source false
      | JsonConstraint_f => filter_constraint f
      | SchemaId => filter_schema f
      | Split => filter_split_run f source
      | BaseConvert => filter_base_run f source
      | FStrptime => filter_strptime f source
      | _ => flt_ok
      end
  end.

(** ** Targets *)

(** [ServerEventToPurge]: by sequence, or by number. *)
Definition target_purge (t : Item) (eraser : bool) : M (Run Response OS) bool :=
  if negb eraser then ret false
  else
    do f <- replace_all (target_tokenized_ (it_target t)) (target_patterns_ t) ;;
    let '(method, uri, number, recvseq) := (nth 0 f "", nth 1 f "", nth 2 f "", nth 3 f "") in
    do r <- get ;;
    let d := w_server (r_world r) in
    let store d' := modify (fun r => with_world (with_server d' (r_world r)) r) in
    if negb (sempty recvseq) then
      do n <- lift (stoull recvseq) ;;
      let '(_, d') := data_removeEventBySeq (DataKey2 method uri) n d in
      store d' ;;; ret true
    else
      let '(ok, _, d') := clear (EventKey2 method uri number) d in
      store d' ;;; ret ok.

(** [ClientProvision_t]: an empty source or an eraser is no trigger. *)
Definition target_client_provision (t : Item) (eraser : bool) : M (Run Response OS) bool :=
  do id <- replace (target_ (it_target t)) (target_patterns_ t) ;;
  do s <- (if eraser then ret "" else src_getString) ;;
  if sempty s then ret true
  else
    do st <- replace (target2_ (it_target t)) (target2_patterns_ t) ;;
    put_output (add_trigger (id, st)) ;;; ret true.

(** The [switch] of [processTargets], inside its [try]. *)
Definition target_switch (t : Item) (target target2 : string) (matches : list string) (eraser : bool) : M (Run Response OS) bool :=
  let filter := filter_type_ <$> it_filter t in
  let vault_path := if sempty (target2_ (it_target t)) then ret "" else replace (target2_ (it_target t)) (target2_patterns_ t) in
  match target_type_ (it_target t) with
  | ResponseBodyString => do s <- src_getString ;; put_output (set_body s) ;;; ret true
  | ResponseBodyHexString =>
      do s <- src_getString ;;
      do r <- get ;;
      let '(ok, out) := fromHexString s (responseBody (r_output r)) in
      put_output (set_body out) ;;; ret ok
  | ResponseBodyJson_String => do s <- src_getString ;; json_assign target (JString s) ;;; ret true
  | ResponseBodyJson_Integer => target_number (src_getInteger ub) (fun i => json_assign target (JInt i))
  | ResponseBodyJson_Unsigned => target_number (src_getUnsigned ub) (fun u => json_assign target (JUint u))
  | ResponseBodyJson_Float => target_number src_getFloat (fun d => json_assign target (JFloat d))
  | ResponseBodyJson_Boolean => target_number src_getBoolean (fun b => json_assign target (JBool b))
  | ResponseBodyJson_Object => target_object ub target eraser
  | ResponseBodyJson_JsonString => target_json_string target
  | ResponseHeader_t =>
      do s <- src_getString ;;
      put_output (fun p => set_headers (headers_emplace target s (responseHeaders p)) p) ;;; ret true
  | ResponseStatusCode_t => target_number (src_getUnsigned ub) (fun u => put_output (set_status (to_u32 u)))
  | ResponseDelayMs => target_number (src_getUnsigned ub) (fun u => put_output (set_delay (to_u32 u)))
  | TVar => target_var target filter matches
  | TGVar => do path <- vault_path ;; target_vault target path eraser filter matches
  | TGVarJson_Object =>
      do path <- vault_path ;;
      do '(ok, obj) <- src_getObject ;;
      if ok : bool then vault_store target path obj ;;; ret true else ret false
  | TGVarJson_JsonString =>
      do path <- vault_path ;;
      do s <- src_getString ;;
      match json_parse s with
      | None => ret false
      | Some obj => vault_store target path obj ;;; ret true
      end
  | OutState => do s <- src_getString ;; put_output (set_out s target target2) ;;; ret true
  | TTxtFile => target_file t target eraser true
  | TBinFile => target_file t target eraser false
  | UDPSocket => target_udp target
  | ServerEventToPurge => target_purge t eraser
  | ClientProvision_t => target_client_provision t eraser
  | Break => do s <- src_getString ;; (if sempty s then ret tt else modify with_break) ;;; ret false
  | RequestBodyString | RequestBodyHexString | RequestBodyJson_String | RequestBodyJson_Integer
  | RequestBodyJson_Unsigned | RequestBodyJson_Float | RequestBodyJson_Boolean | RequestBodyJson_Object
  | RequestBodyJson_JsonString | RequestHeader_t | RequestDelayMs | RequestTimeoutMs | ClientEventToPurge
  | RequestUri_t | RequestMethod_t => ret true
  end.

(** [processTargets]: an exception is logged and forgotten. *)
Definition processTargets (t : Item) (matches : list string) (eraser : bool) : M (Run Response OS) bool :=
  catch (do target <- replace (target_ (it_target t)) (target_patterns_ t) ;;
         do target2 <- (if sempty (target2_ (it_target t)) then ret "" else replace (target2_ (it_target t)) (target2_patterns_ t)) ;;
         target_switch t target target2 matches eraser)
        (fun _ => ret true).

(** ** Items and their fallbacks *)

Section Items.
Context (in_state : string) (response_body : json) (q : Request) (uses_json : bool).

(** A fallback of [executeOnFilterFail]. *)
Definition run_fallback : Transformation -> M (Run Response OS) unit :=
  fallback_run (processSources in_state response_body q uses_json) processFilters processTargets.
Definition executeOnFilterFail : list Transformation -> M (Run Response OS) unit :=
  fallbacks_run (processSources in_state response_body q uses_json) processFilters processTargets.
(** The body of the loop of [transform], and the loop. *)
Definition transform_item : Transformation -> M (Run Response OS) unit :=
  item_run (processSources in_state response_body q uses_json) processFilters processTargets.
Definition transform_items : list Transformation -> M (Run Response OS) unit :=
  items_run transform_item.
End Items.

(** ** The provision *)

Record AdminServerProvision := mkProvision {
  employed_ : bool;
  pr_json : json;
  pr_key : string;
  pr_regex : regex;
  in_state_ : string;
  request_method_ : string;
  request_uri_ : string;
  out_state_ : string;
  response_code_ : Z;
  response_headers_ : header_map;
  pr_response_body : json;
  response_body_string_ : string;
  pr_response_delay_ms : Z;
  request_schema_id_ : string;
  response_schema_id_ : string;
  request_schema_ : option AdminSchema;
  response_schema_ : option AdminSchema;
  transformations_ : list Transformation
}.

Definition employ (p : AdminServerProvision) : AdminServerProvision :=
  mkProvision true (pr_json p) (pr_key p) (pr_regex p) (in_state_ p) (request_method_ p) (request_uri_ p) (out_state_ p)
    (response_code_ p) (response_headers_ p) (pr_response_body p) (response_body_string_ p) (pr_response_delay_ms p)
    (request_schema_id_ p) (response_schema_id_ p) (request_schema_ p) (response_schema_ p) (transformations_ p).
Definition with_schemas (rq rs : option AdminSchema) (p : AdminServerProvision) : AdminServerProvision :=
  mkProvision (employed_ p) (pr_json p) (pr_key p) (pr_regex p) (in_state_ p) (request_method_ p) (request_uri_ p) (out_state_ p)
    (response_code_ p) (response_headers_ p) (pr_response_body p) (response_body_string_ p) (pr_response_delay_ms p)
    (request_schema_id_ p) (response_schema_id_ p) rq rs (transformations_ p).

Definition getRequestSchema (schemas : gmap string AdminSchema) (p : AdminServerProvision)
    : option AdminSchema * AdminServerProvision :=
  let s := cached_schema (request_schema_id_ p) schemas (request_schema_ p) in
  (s, if sempty (request_schema_id_ p) then p else with_schemas s (response_schema_ p) p).
Definition getResponseSchema (schemas : gmap string AdminSchema) (p : AdminServerProvision)
    : option AdminSchema * AdminServerProvision :=
  let s := cached_schema (response_schema_id_ p) schemas (response_schema_ p) in
  (s, if sempty (response_schema_id_ p) then p else with_schemas (request_schema_ p) s p).

(** Does any item need the response document as a target? *)
Definition is_json_target (t : Transformation) : bool :=
  match target_type_ (it_target (tr_item t)) with
  | ResponseBodyJson_String | ResponseBodyJson_Integer | ResponseBodyJson_Unsigned | ResponseBodyJson_Float
  | ResponseBodyJson_Boolean | ResponseBodyJson_Object | ResponseBodyJson_JsonString => true
  | _ => false
  end.
Definition is_body_source (t : Transformation) : bool := bool_decide (source_type_ (it_source (tr_item t)) = RequestBody).

Definition needsStorage (p : AdminServerProvision) : bool :=
  existsb (fun t => bool_decide (source_type_ (it_source (tr_item t)) = ServerEvent)
                    || bool_decide (source_type_ (it_source (tr_item t)) = ClientEvent)
                    || bool_decide (target_type_ (it_target (tr_item t)) = ServerEventToPurge)
                    || bool_decide (target_type_ (it_target (tr_item t)) = ClientEventToPurge)) (transformations_ p).

(** What [transform] leaves: the provision with its caches, the body decoded, the
    variables, the response and the world. *)
Record Transformed := mkTransformed {
  td_provision : AdminServerProvision;
  td_body : DataPart;
  td_vars : gmap string string;
  td_resp : Response;
  td_world : World OS
}.

(** After the items: the response document is written when it is used and not
    empty, and the response schema may turn the status code into 500. *)
Definition transform_end (p : AdminServerProvision) (body : DataPart) (uses_json : bool) (r : Run Response OS) : Transformed :=
  let resp := if uses_json && negb (json_empty (r_json r))
              then match json_dump (r_json r) with
                   | Val s => set_body s (r_output r)
                   | Throw _ => r_output r
                   end
              else r_output r in
  let '(rs, p) := getResponseSchema (w_schemas (r_world r)) p in
  let resp := match rs with
              | Some s => match AdminSchema_validate s (if uses_json then r_json r else pr_response_body p) with
                          | Some _ => set_status 500 resp
                          | None => resp
                          end
              | None => resp
              end in
  mkTransformed p body (r_vars r) resp (r_world r).

(** [transform]; [responseBody0] is what the caller passes by reference. *)
Definition transform (uri uriPath : string) (params : gmap string string) (body : DataPart) (headers : header_map)
    (seq : Z) (responseBody0 : string) (vars : gmap string string) (p : AdminServerProvision) (w : World OS)
    : Transformed * outcome unit :=
  let resp := mkResponse (response_code_ p) (response_headers_ p) responseBody0 (pr_response_delay_ms p) (out_state_ p) "" "" [] in
  let '(qs, p) := getRequestSchema (w_schemas w) p in
  let mustDecode := match qs with
                    | Some _ => true
                    | None => existsb is_body_source (transformations_ p) && negb (sempty (str_ body))
                    end in
  match (if mustDecode then decode multipart_decode headers body else Val body) with
  | Throw e => (mkTransformed p body vars resp w, Throw e)
  | Val body =>
      let rejected := match qs with
                      | Some s => match AdminSchema_validate s (dp_json_ body) with
                                  | Some _ => Some (mkTransformed p body vars (set_status 400 resp) w)
                                  | None => None
                                  end
                      | None => None
                      end in
      match rejected with
      | Some td => (td, Val tt)
      | None =>
          let uses_json := existsb is_json_target (transformations_ p) in
          let resp := if uses_json then resp else set_body (response_body_string_ p) resp in
          let r0 := mkRun TypeConverter_new vars (if uses_json then pr_response_body p else JNull) resp false w in
          let q := mkRequest uri uriPath params body headers seq in
          match transform_items (in_state_ p) (pr_response_body p) q uses_json (transformations_ p) r0 with
          | (r, Val _) => (transform_end p body uses_json r, Val tt)
          | (r, Throw e) => (mkTransformed p body (r_vars r) (r_output r) (r_world r), Throw e)
          end
      end
  end.

(** ** [load] *)

(** [load] on a new provision: [Val None] is [return false]. *)
Definition Provision_load (j : json) (regexMatchingConfigured : bool) : outcome (option AdminServerProvision) :=
  let! method := get_string (json_find "requestMethod" j) in
  let! code := get_u32 ub (json_find "responseCode" j) in
  let uri := text_field "requestUri" "" j in
  let inState := state_field "inState" j in
  let outState := state_field "outState" j in
  if negb (schema_field_ok "requestSchemaId" j) then Val None
  else if negb (schema_field_ok "responseSchemaId" j) then Val None
  else
    let! headers := match json_find "responseHeaders" j with
                    | Some (JObject l) => headers_field l []
                    | _ => Val []
                    end in
    let! '(body, text) := body_field (json_find "responseBody" j) in
    let! delay := match json_find "responseDelayMs" j with
                  | Some v => if is_number v then get_u32 ub (Some v) else Val 0
                  | None => Val 0
                  end in
    let! ts := match json_find "transform" j with
               | Some v => load_transformations decode_url ub (json_elements v)
               | None => Val []
               end in
    let key := calculateStringKey inState method uri in
    let provision rgx :=
      mkProvision false j key rgx inState method uri outState code headers body text delay
        (text_field "requestSchemaId" "" j) (text_field "responseSchemaId" "" j) None None ts in
    if regexMatchingConfigured then
      match regex_assign key with
      | Val rgx => Val (Some (provision rgx))
      | Throw regex_error => Val None
      | Throw e => Throw e
      end
    else Val (Some (provision regex_default)).
End Provision.
