(* ===== verification/ServerTransform.v ===== *)
(** Properties of the transformation of a request by a server provision
    ([ServerProvision.v]): what each stage can change, the sequence of items and
    their fallbacks, the filters, and the schemas. *)
From S2P Require Import Prelude Std Double Functions Query Json JsonModel External JsonConstraint Keys DataPart MockEvents MockData TypeConverter Vault Transformation Schema Stages StageFrames ServerProvision.
From Stdlib Require Import SpecFloat.
From stdpp Require Import options.
#[local] Open Scope Z_scope.

Section Stages.
Context `{JsonEq} `{JsonText} `{JsonPointer} `{RegexLib} `{SchemaLib} `{Calculus} {OS : Type} `{Outside OS}.
Context (decode_url : string -> string) (multipart_decode : string -> string -> list mp_event)
  (ub : double -> Z) (report_text : fail_report -> outcome string).

Lemma processSources_quiet in_state body q uses t : keeps quiet (processSources (OS := OS) ub in_state body q uses t).
Proof. unfold processSources, source_request_body, source_response_body, src_ok, src_fail, src_when. frame. Qed.

Lemma processFilters_quiet t f : keeps quiet (processFilters (OS := OS) ub report_text t f).
Proof.
  unfold processFilters, filter_condition, filter_compare, filter_constraint, filter_schema, flt_ok, flt_fail. frame.
Qed.

(** What a target may change, by its type. *)
Definition json_type (ty : TargetType) : bool :=
  match ty with
  | ResponseBodyJson_String | ResponseBodyJson_Integer | ResponseBodyJson_Unsigned | ResponseBodyJson_Float
  | ResponseBodyJson_Boolean | ResponseBodyJson_Object | ResponseBodyJson_JsonString => true
  | _ => false
  end.
Definition status_type (ty : TargetType) : bool := match ty with ResponseStatusCode_t => true | _ => false end.
Definition headers_type (ty : TargetType) : bool := match ty with ResponseHeader_t => true | _ => false end.
Definition body_type (ty : TargetType) : bool :=
  match ty with ResponseBodyString | ResponseBodyHexString => true | _ => false end.
Definition delay_type (ty : TargetType) : bool := match ty with ResponseDelayMs => true | _ => false end.
Definition state_type (ty : TargetType) : bool := match ty with OutState => true | _ => false end.
Definition trigger_type (ty : TargetType) : bool := match ty with ClientProvision_t => true | _ => false end.
Definition vault_type (ty : TargetType) : bool :=
  match ty with TGVar | TGVarJson_Object | TGVarJson_JsonString => true | _ => false end.
Definition var_type (ty : TargetType) : bool := match ty with TVar | TGVar => true | _ => false end.
Definition out_type (ty : TargetType) : bool := match ty with TTxtFile | TBinFile | UDPSocket => true | _ => false end.
Definition purge_type (ty : TargetType) : bool := match ty with ServerEventToPurge => true | _ => false end.
Definition break_type (ty : TargetType) : bool := match ty with Break => true | _ => false end.

(** Each field of the response is changed by the target types that name it and by
    no other one. *)
Definition resp_rel (ty : TargetType) (p p' : Response) : Prop :=
  (status_type ty = false -> responseStatusCode p' = responseStatusCode p) /\
  (headers_type ty = false -> responseHeaders p' = responseHeaders p) /\
  (body_type ty = false -> responseBody p' = responseBody p) /\
  (delay_type ty = false -> responseDelayMs p' = responseDelayMs p) /\
  (state_type ty = false -> outState p' = outState p /\ outStateMethod p' = outStateMethod p /\ outStateUri p' = outStateUri p) /\
  (trigger_type ty = false -> clientProvisionTriggers p' = clientProvisionTriggers p).

Definition target_frame (ty : TargetType) (r r' : Run Response OS) : Prop :=
  (json_type ty = false -> r_json r' = r_json r) /\
  resp_rel ty (r_output r) (r_output r') /\
  (vault_type ty = false -> w_vault (r_world r') = w_vault (r_world r)) /\
  (var_type ty = false -> r_vars r' = r_vars r) /\
  (out_type ty = false -> w_out (r_world r') = w_out (r_world r)) /\
  (purge_type ty = false -> w_server (r_world r') = w_server (r_world r)) /\
  (break_type ty = false -> r_break r' = r_break r) /\
  w_client (r_world r') = w_client (r_world r) /\ w_schemas (r_world r') = w_schemas (r_world r).

(** The same in terms of the parts touched. *)
Definition server_touch (ty : TargetType) : Touch :=
  mkTouch (json_type ty) (vault_type ty) (var_type ty) (out_type ty) (purge_type ty) false (break_type ty).

#[local] Instance resp_rel_preorder ty : PreOrder (resp_rel ty).
Proof.
  split; [intros p; unfold resp_rel; by split_and!|].
  intros p1 p2 p3 (A1&A2&A3&A4&A5&A6) (B1&B2&B3&B4&B5&B6).
  split_and!; intros Hty; [by rewrite B1, A1|by rewrite B2, A2|by rewrite B3, A3|by rewrite B4, A4| |by rewrite B6, A6].
  destruct (A5 Hty) as (X1&X2&X3), (B5 Hty) as (Y1&Y2&Y3). split_and!; congruence.
Qed.

Lemma touches_frame ty (r r' : Run Response OS) : touches (server_touch ty) (resp_rel ty) r r' -> target_frame ty r r'.
Proof. intros (HR&HJ&HV&HX&HO&HS&HC&HK&HE&_&_). unfold target_frame. cbn in *. split_and!; auto; apply HR. Qed.

Lemma target_switch_touches t target target2 matches eraser :
  keeps (touches (server_touch (target_type_ (it_target t))) (resp_rel (target_type_ (it_target t))))
    (target_switch (OS := OS) ub t target target2 matches eraser).
Proof.
  unfold target_switch. destruct (target_type_ (it_target t)).
  all: unfold target_purge, target_client_provision, src_getInteger, src_getUnsigned, src_getFloat, src_getBoolean.
  all: frame; try (refine (touch_number _ _ _ _ _); intros ?; frame).
  all: try (refine (touch_put_output _ _ _ _); intros p; unfold resp_rel; cbn; by split_and!).
  all: try (intros r; unfold touches, resp_rel; cbn; by split_and!).
Qed.

Lemma target_switch_frame t target target2 matches eraser :
  keeps (target_frame (target_type_ (it_target t))) (target_switch (OS := OS) ub t target target2 matches eraser).
Proof. eapply keeps_impl; [intros r r'; apply touches_frame|apply target_switch_touches]. Qed.

#[local] Instance target_frame_preorder ty : PreOrder (target_frame ty).
Proof.
  split; [intros r; unfold target_frame, resp_rel; by split_and!|].
  intros r1 r2 r3 (A1&A2&A3&A4&A5&A6&A7&A8&A9) (B1&B2&B3&B4&B5&B6&B7&B8&B9).
  assert (resp_rel ty (r_output r1) (r_output r3)) as HR by (etransitivity; eassumption).
  split; [intros Hty; by rewrite B1, A1|]. split; [exact HR|].
  split_and!; intros; first [by rewrite B3, A3|by rewrite B4, A4|by rewrite B5, A5|by rewrite B6, A6|by rewrite B7, A7
    |by rewrite B8, A8|by rewrite B9, A9].
Qed.

Lemma frame_replace ty s p : keeps (target_frame ty) (replace (P := Response) (OS := OS) s p).
Proof. intros r. unfold target_frame, resp_rel; cbn; by split_and!. Qed.
Hint Resolve frame_replace : frame.

Lemma processTargets_frame t matches eraser :
  keeps (target_frame (target_type_ (it_target t))) (processTargets (OS := OS) ub t matches eraser).
Proof. unfold processTargets. frame. apply target_switch_frame. Qed.

(** A relation kept by every stage of the items is kept by their sequence. *)
Lemma transform_items_keeps (R : relation (Run Response OS)) `{!PreOrder R} (Q : Item -> bool) in_state body q uses l :
  (forall item, keeps R (processSources (OS := OS) ub in_state body q uses item)) ->
  (forall item f, keeps R (processFilters (OS := OS) ub report_text item f)) ->
  (forall item ms e, Q item = true -> keeps R (processTargets (OS := OS) ub item ms e)) ->
  forallb (all_items Q) l = true ->
  keeps R (transform_items (OS := OS) ub report_text in_state body q uses l).
Proof.
  intros Hs Hf Ht Hl. apply items_run_keeps; [done|]. intros t Hin. eapply item_run_keeps; [done..|].
  rewrite forallb_forall in Hl. by apply Hl.
Qed.
End Stages.

(** ** Capture groups *)

Lemma replaceVariables_none `{JsonText} s vars vault : replaceVariables s ∅ vars vault = Val s.
Proof. unfold replaceVariables. by rewrite bool_decide_eq_true_2. Qed.

Lemma to_string_u_inj a b : is_u64 a -> is_u64 b -> to_string_u a = to_string_u b -> a = b.
Proof.
  intros Ha Hb E. pose proof (stoull_render 10 false a ltac:(lia) Ha) as H1.
  pose proof (stoull_render 10 false b ltac:(lia) Hb) as H2. unfold to_string_u in E. rewrite E in H1. congruence.
Qed.

Definition group_name (target : string) (i : nat) : string := target +:+ "." +:+ to_string_u (Z.of_nat i).

Lemma group_name_inj target i j :
  is_u64 (Z.of_nat i) -> is_u64 (Z.of_nat j) -> group_name target i = group_name target j -> i = j.
Proof.
  intros Hi Hj E. apply (f_equal chars) in E. unfold group_name in E. rewrite !chars_app in E.
  apply app_inv_head in E. change (chars ".") with ["."%char] in E. injection E as E.
  apply chars_inj in E. apply to_string_u_inj in E; [lia|done|done].
Qed.
Lemma group_name_ne target i : group_name target i <> target.
Proof.
  intros E. apply (f_equal String.length) in E. unfold group_name in E. rewrite !slength_app in E. cbn in E. lia.
Qed.

Section Groups.
Context `{SchemaLib} {P OS : Type}.

Lemma set_groups_spec target groups : forall i (r : Run P OS),
  is_u64 (Z.of_nat (i + length groups)) ->
  exists vars, set_groups target i groups r = (with_vars vars r, Val tt) /\
    (forall k g, groups !! k = Some g -> vars !! group_name target (i + k) = Some g) /\
    (forall n, (forall k, (k < length groups)%nat -> n <> group_name target (i + k)) -> vars !! n = r_vars r !! n).
Proof.
  induction groups as [|g gs IH]; intros i r Hb; cbn [set_groups].
  - exists (r_vars r). split_and!; [by destruct r|done|done].
  - unfold bind, set_var at 1. destruct (IH (S i) (with_vars (<[group_name target i := g]> (r_vars r)) r)) as (vars & E & Hg & Ho).
    { cbn in Hb. replace (S i + length gs)%nat with (i + S (length gs))%nat by lia. done. }
    exists vars. fold (group_name target i). rewrite E. split_and!; [done| |].
    + intros [|k] g' Hk; cbn in Hk.
      * simplify_eq. rewrite Nat.add_0_r. rewrite Ho; [by apply lookup_insert_eq|].
        intros k Hk E'. apply group_name_inj in E'; unfold is_u64, u64_max in *; cbn in *; lia.
      * replace (i + S k)%nat with (S i + k)%nat by lia. by apply Hg.
    + intros n Hn. rewrite Ho.
      * apply lookup_insert_ne. intros <-. apply (Hn 0%nat); [cbn; lia|by rewrite Nat.add_0_r].
      * intros k Hk E'. apply (Hn (S k)); [cbn; lia|]. by replace (i + S k)%nat with (S i + k)%nat by lia.
Qed.
End Groups.

(** ** Properties *)

Section TransformProperties.
Context `{JsonEq} `{JsonText} `{JsonPointer} `{RegexLib} `{SchemaLib} `{Calculus} {OS : Type} `{Outside OS}.
Context (decode_url : string -> string) (multipart_decode : string -> string -> list mp_event)
  (ub : double -> Z) (report_text : fail_report -> outcome string).

(** Reading a source and applying a filter, with any outcome or exception, leave
    the response, the response document, the break flag, the vault, the events of
    both sides and the schemas as they were. *)
Theorem sources_and_filters_are_quiet in_state body q uses (t : Item) (f : Filter) (r : Run Response OS) :
  quiet r (processSources ub in_state body q uses t r).1 /\ quiet r (processFilters ub report_text t f r).1.
Proof. split; [apply processSources_quiet|apply processFilters_quiet]. Qed.

(** C34: A target, whatever its source and also when it throws, changes only what its
    type names: the response document, one of the fields of the response (a status
    code target changes the status code and leaves the headers, the body, the delay,
    the next state and the triggers as they were, and so on for each), the variables,
    the vault, the outside world, the server events or the break flag. *)
Theorem targets_change_only_what_they_name (t : Item) (matches : list string) (eraser : bool) (r : Run Response OS) :
  target_frame (target_type_ (it_target t)) r (processTargets ub t matches eraser r).1.
Proof. apply processTargets_frame. Qed.

(** *** Breaks *)

(** An item that breaks whatever the request is: a text that is not empty, without
    variables nor filter, to the target [break]. *)
Definition always_breaks (t : Item) : Prop :=
  source_type_ (it_source t) = Value /\ source_ (it_source t) <> "" /\ source_patterns_ t = ∅ /\ it_filter t = None /\
  target_type_ (it_target t) = Break /\ target2_ (it_target t) = "" /\ target_patterns_ t = ∅.

Lemma always_breaks_sets in_state body q uses t offs (r : Run Response OS) :
  always_breaks t -> exists r', transform_item ub report_text in_state body q uses (Trans t offs) r = (r', Val tt) /\ r_break r' = true.
Proof.
  intros (Hs & Hn & Hsp & Hf & Ht & Ht2 & Htp). unfold transform_item, item_run, bind. cbn [tr_item getOnFilterFail].
  unfold processSources, src_setReplacing, setStringReplacingVariables, bind. rewrite Hs, Hsp, replaceVariables_none. cbn. rewrite Hf. cbn.
  unfold processTargets, target_switch, catch, bind, replace. rewrite Htp, Ht, Ht2, replaceVariables_none. cbn.
  destruct (source_ (it_source t)); [done|]. cbn. eexists. by split.
Qed.

Lemma items_after_break in_state body q uses l1 t offs l2 l2' (r : Run Response OS) : always_breaks t ->
  transform_items ub report_text in_state body q uses (l1 ++ Trans t offs :: l2) r =
  transform_items ub report_text in_state body q uses (l1 ++ Trans t offs :: l2') r.
Proof.
  intros Ht. unfold transform_items. rewrite !items_run_app. destruct (items_run _ l1 r) as [r1 [[]|e]]; [|done].
  destruct (r_break r1) eqn:Hb; [done|]. cbn. unfold bind, get. rewrite Hb.
  destruct (always_breaks_sets in_state body q uses t offs r1 Ht) as (r2 & E & Hb2). rewrite E.
  by destruct l2, l2'; cbn; unfold bind, get; rewrite ?Hb2.
Qed.

(** The provision with other items. *)
Definition with_items (l : list Transformation) (p : AdminServerProvision) : AdminServerProvision :=
  mkProvision (employed_ p) (pr_json p) (pr_key p) (pr_regex p) (in_state_ p) (request_method_ p) (request_uri_ p) (out_state_ p)
    (response_code_ p) (response_headers_ p) (pr_response_body p) (response_body_string_ p) (pr_response_delay_ms p)
    (request_schema_id_ p) (response_schema_id_ p) (request_schema_ p) (response_schema_ p) l.

(** The same results, apart from the provision. *)
Definition same_outcome (a b : Transformed (OS := OS) * outcome unit) : Prop :=
  td_resp a.1 = td_resp b.1 /\ td_vars a.1 = td_vars b.1 /\ td_body a.1 = td_body b.1 /\ td_world a.1 = td_world b.1 /\ a.2 = b.2.

Lemma getRequestSchema_with_items l p schemas :
  getRequestSchema schemas (with_items l p) = let '(s, p') := getRequestSchema schemas p in (s, with_items l p').
Proof. unfold getRequestSchema. cbn. by destruct (sempty (request_schema_id_ p)). Qed.

(** The items enter [transform] by their run, by whether one writes the response
    document, and by whether one reads the body. *)
Lemma transform_by_items uri path params body headers seq body0 vars p l l' (w : World OS) :
  (forall in_state (b : json) q uses (r : Run Response OS), transform_items ub report_text in_state b q uses l r =
     transform_items ub report_text in_state b q uses l' r) ->
  existsb is_json_target l = existsb is_json_target l' -> existsb is_body_source l = existsb is_body_source l' ->
  same_outcome (transform multipart_decode ub report_text uri path params body headers seq body0 vars (with_items l p) w)
    (transform multipart_decode ub report_text uri path params body headers seq body0 vars (with_items l' p) w).
Proof.
  intros Hrun Hj Hb. unfold transform. rewrite !getRequestSchema_with_items.
  destruct (getRequestSchema (w_schemas w) p) as [qs p']. cbn. rewrite Hb.
  set (d := if match qs with Some _ => true | None => _ end then decode multipart_decode headers body else Val body).
  destruct d as [body'|e]; [|done].
  destruct qs as [s|]; [destruct (AdminSchema_validate s _); [done|]|].
  all: rewrite Hj, Hrun; destruct (transform_items _ _ _ _ _ _ _ _) as [r [[]|e]]; [|done].
  all: unfold transform_end, getResponseSchema; cbn; by destruct (sempty (response_schema_id_ p')).
Qed.

(** C24: The items after a break are not run: when an item breaks unconditionally, the
    items written after it can be replaced by any others, and the response, the
    variables, the body, the world and the exception thrown, if an item before it throws,
    are the same.  The exceptions are the two things [transform] reads of the whole list
    before it runs: whether an item writes the response document (the body is then that
    document) and whether one reads the request body (it is then decoded). *)
Theorem items_after_a_break_are_not_run uri path params body headers seq body0 vars (p : AdminServerProvision)
  (l1 l2 l2' : list Transformation) (t : Item) (offs : list Transformation) (w : World OS)
  (Ht : always_breaks t)
  (Hj : existsb is_json_target (l1 ++ Trans t offs :: l2) = existsb is_json_target (l1 ++ Trans t offs :: l2'))
  (Hb : existsb is_body_source (l1 ++ Trans t offs :: l2) = existsb is_body_source (l1 ++ Trans t offs :: l2')) :
  same_outcome
    (transform multipart_decode ub report_text uri path params body headers seq body0 vars (with_items (l1 ++ Trans t offs :: l2) p) w)
    (transform multipart_decode ub report_text uri path params body headers seq body0 vars (with_items (l1 ++ Trans t offs :: l2') p) w).
Proof. apply transform_by_items; [|done|done]. intros. by apply items_after_break. Qed.

Lemma transform_end_body p body uses (r : Run Response OS) :
  uses = false -> responseBody (td_resp (transform_end p body uses r)) = responseBody (r_output r).
Proof.
  intros ->. unfold transform_end. cbn [andb]. destruct (getResponseSchema _ p) as [[s|] p'].
  - by destruct (AdminSchema_validate _ _).
  - done.
Qed.

(** The response document of a provision without JSON targets among its own
    items is never written back: whatever its fallbacks write in it is lost, and the
    body sent is the provisioned text. *)
Theorem fallback_json_targets_are_lost uri path params body headers seq body0 vars (p : AdminServerProvision)
  (w : World OS) (td : Transformed)
  (Hs : request_schema_id_ p = "") (Hj : existsb is_json_target (transformations_ p) = false)
  (Hb : forallb (all_items (fun i => negb (body_type (target_type_ (it_target i))))) (transformations_ p) = true)
  (Ht : transform multipart_decode ub report_text uri path params body headers seq body0 vars p w = (td, Val tt)) :
  responseBody (td_resp td) = response_body_string_ p.
Proof.
  unfold transform, getRequestSchema, cached_schema in Ht. rewrite Hs in Ht. cbn [sempty] in Ht.
  destruct (if _ && _ then _ else _) as [body'|]; [|done]. cbn zeta in Ht. rewrite Hj in Ht.
  set (r0 := mkRun _ _ _ _ _ _) in Ht. set (q := mkRequest _ _ _ _ _ _) in Ht.
  pose (R := fun r r' : Run Response OS => responseBody (r_output r') = responseBody (r_output r)).
  assert (PreOrder R) as HR by (split; [by intros r|intros ? ? ? E1 E2; unfold R in *; congruence]).
  assert (keeps R (transform_items (OS := OS) ub report_text (in_state_ p) (pr_response_body p) q false (transformations_ p))) as Hk.
  { apply (transform_items_keeps ub report_text R (fun i => negb (body_type (target_type_ (it_target i))))); [| | |done].
    - intros item r. destruct (processSources_quiet (OS := OS) ub (in_state_ p) (pr_response_body p) q false item r) as (_ & E & _).
      unfold R. by rewrite E.
    - intros item f r. destruct (processFilters_quiet (OS := OS) ub report_text item f r) as (_ & E & _). unfold R. by rewrite E.
    - intros item ms e Hbt r. apply (processTargets_frame (OS := OS) ub item ms e r). by apply negb_true_iff. }
  specialize (Hk r0). destruct (transform_items _ _ _ _ _ _ _ r0) as [r [[]|e]]; [|done].
  injection Ht as <-. rewrite transform_end_body by done. exact Hk.
Qed.

(** A request its schema refuses is answered 400 and nothing else happens: no
    item runs, the world and the variables are as they were, and the next state is
    the provisioned one. *)
Theorem invalid_request_is_rejected uri path params body headers seq body0 vars (p : AdminServerProvision)
  (w : World OS) (s : AdminSchema) (p' : AdminServerProvision) (body' : DataPart) (error : string)
  (Hs : getRequestSchema (w_schemas w) p = (Some s, p'))
  (Hd : decode multipart_decode headers body = Val body')
  (He : AdminSchema_validate s (dp_json_ body') = Some error) :
  exists td, transform multipart_decode ub report_text uri path params body headers seq body0 vars p w = (td, Val tt) /\
    responseStatusCode (td_resp td) = 400 /\ outState (td_resp td) = out_state_ p /\
    responseBody (td_resp td) = body0 /\ td_world td = w /\ td_vars td = vars /\ td_body td = body'.
Proof.
  unfold transform. rewrite Hs, Hd, He. eexists. split; [done|]. by repeat split.
Qed.

(** A schema a provision has used outlives its removal: after all the schemas are
    removed the provision still validates with it, while a provision that never used
    it ignores the validation. *)
Theorem removed_schema_is_still_used (schemas : gmap string AdminSchema) (p p' : AdminServerProvision) (s : AdminSchema)
  (Hs : getRequestSchema schemas p = (Some s, p')) :
  getRequestSchema ∅ p' = (Some s, p') /\
  (request_schema_ p = None -> (getRequestSchema ∅ p).1 = None).
Proof.
  unfold getRequestSchema, cached_schema in *. destruct (sempty (request_schema_id_ p)) eqn:E; [done|].
  injection Hs as Hc <-. cbn. rewrite E, Hc. destruct p. cbn in *. split; [done|]. by intros ->.
Qed.

(** A filter on a variable passes exactly when the variable, a local one first
    and otherwise an entry of the vault, is defined and not empty; with ['!'] exactly
    when it is not; and passing keeps the source as a text. *)
Theorem condition_filter_correct (f : Filter) (source name : string) (neg : bool) (r : Run Response OS) (v : option string)
  (Hf : filter_ f = (if neg then "!" else "") +:+ name) (Hn : starts_with "!" name = false)
  (Hv : match r_vars r !! name with
        | Some x => Val (Some x)
        | None => match v_map (w_vault (r_world r)) !! name with
                  | Some j => let! s := jsonToString j in Val (Some s)
                  | None => Val None
                  end
        end = Val v) :
  filter_condition f source r =
  if xorb neg (match v with Some x => negb (sempty x) | None => false end)
  then (with_source (setString source (r_source r)) r, Val (true, [])) else (r, Val (false, [])).
Proof.
  assert (starts_with "!" (filter_ f) = neg) as Hneg by (rewrite Hf; destruct neg; [by destruct name|exact Hn]).
  assert ((if neg then sdrop 1 (filter_ f) else filter_ f) = name) as Hname by (rewrite Hf; by destruct neg).
  unfold filter_condition. rewrite Hneg, Hname. unfold bind, get. cbn beta iota.
  destruct (r_vars r !! name) as [x|] eqn:Ex.
  - injection Hv as <-. cbn. by destruct neg, (sempty x).
  - unfold v_tryGet. destruct (v_map (w_vault (r_world r)) !! name) as [j|].
    + unfold lift. destruct (jsonToString j); [|done]. injection Hv as <-. cbn. by destruct neg, (sempty a).
    + injection Hv as <-. cbn. by destruct neg.
Qed.

(** C15: The groups of a regular expression stored in a variable: the whole match
    under its name, group [i] under [name.i], and no other variable changes. *)
Theorem capture_groups_in_variables (t : Item) (f : Filter) (name m : string) (groups : list string) (eraser : bool) (r : Run Response OS)
  (Ht : target_type_ (it_target t) = TVar) (Hn : target_ (it_target t) = name) (Hn2 : target2_ (it_target t) = "")
  (Hp : target_patterns_ t = ∅) (Hf : it_filter t = Some f) (Hc : filter_type_ f = RegexCapture)
  (Hb : is_u64 (Z.of_nat (S (length groups)))) :
  let '(r', o) := processTargets ub t (m :: groups) eraser r in
  o = Val true /\ r_vars r' !! name = Some m /\
  (forall i g, groups !! i = Some g -> r_vars r' !! group_name name (S i) = Some g) /\
  (forall n, n <> name -> (forall i, (i < length groups)%nat -> n <> group_name name (S i)) -> r_vars r' !! n = r_vars r !! n).
Proof.
  unfold processTargets, catch, bind, replace, target_switch. rewrite Hp, Ht, Hn, Hn2, Hf. cbn -[set_groups]. rewrite Hc.
  unfold bind, set_var at 1. cbn -[set_groups].
  destruct (set_groups_spec name groups 1 (with_vars (<[name := m]> (r_vars r)) r)) as (vars & E & Hg & Ho); [done|].
  rewrite replaceVariables_none, E. cbn. split_and!; [done| | |].
  - rewrite Ho; [by apply lookup_insert_eq|]. intros k _ E'. by apply (group_name_ne name (1 + k)).
  - intros i g Hi. by apply (Hg i).
  - intros n Hne Hng. rewrite Ho; [by apply lookup_insert_ne|]. intros k Hk. by apply Hng.
Qed.

(** An eraser does not reset the value in transit: with a variable as target it
    stores the text the item before it left. *)
Theorem eraser_stores_previous_value in_state body q uses (t : Item) (name : string) (r : Run Response OS)
  (Hs : source_type_ (it_source t) = Eraser) (Hf : it_filter t = None)
  (Ht : it_target t = mkTarget TVar name "" []) (Hp : target_patterns_ t = ∅)
  (Hty : native_type_ (r_source r) = TString) :
  let '(r', o) := transform_item ub report_text in_state body q uses (Trans t []) r in
  o = Val tt /\ r_vars r' !! name = Some (s_value_ (r_source r)).
Proof.
  unfold transform_item, item_run, bind. cbn [tr_item]. unfold processSources. rewrite Hs. cbn. rewrite Hf.
  unfold processTargets, catch, bind, replace, target_switch. rewrite Hp, Ht, Hf. cbn.
  rewrite replaceVariables_none. cbn. unfold src_getString, getString, bind. rewrite Hty. cbn.
  split; [done|]. by apply lookup_insert_eq.
Qed.

(** A random source with a range of positive [int] width gives an integer of the
    range; an empty range ([max = min - 1]) divides by zero, and one whose width is no
    [int] overflows it. *)
Theorem random_in_range (t : Item) (r : Run Response OS) (i1 i2 : Z) (n : Z) (o : OS)
  (Ht : it_source t = mkSource Random "" "" [] i1 i2) (Hi1 : is_i32 i1) (Hi2 : is_i32 i2)
  (Hn : os_rand (w_out (r_world r)) = (n, o)) (Hn0 : 0 <= n) :
  (i1 <= i2 -> i2 - i1 + 1 < 2 ^ 31 -> exists z, i1 <= z <= i2 /\
     source_random t r = (with_source (setInteger z (r_source r)) (with_world (with_out o (r_world r)) r), Val (true, false))) /\
  (i2 = i1 - 1 \/ 2 ^ 31 <= i2 - i1 + 1 -> (source_random t r).2 = Throw undefined).
Proof.
  unfold is_i32 in *. unfold source_random, int_arith. rewrite Ht. cbn [source_i1_ source_i2_]. split.
  - intros Hle Hr. unfold bind, on_out, lift. rewrite (bool_decide_eq_true_2 (_ <= i2 - i1 < _)) by lia.
    rewrite bool_decide_eq_true_2, Hn by lia. destruct (Z.eqb_spec (i2 - i1 + 1) 0); [lia|].
    assert (0 <= n mod (i2 - i1 + 1) < i2 - i1 + 1) by (apply Z.mod_pos_bound; lia).
    exists (i1 + n mod (i2 - i1 + 1)). split; [lia|].
    rewrite Z.rem_mod_nonneg, bool_decide_eq_true_2 by lia. done.
  - intros Hr. unfold bind, on_out, lift. destruct (bool_decide _); [|done].
    destruct (bool_decide (_ <= i2 - i1 + 1 < _)) eqn:E; [|done]. apply bool_decide_eq_true in E.
    rewrite Hn. destruct (Z.eqb_spec (i2 - i1 + 1) 0); [done|lia].
Qed.
End TransformProperties.

Module TransformExamples.
Import Still.

Definition ub0 (d : double) : Z := 0.
Definition text0 (r : fail_report) : outcome string := Val "fail".
Definition scan0 (b c : string) : list mp_event := [].

Definition schema0 : AdminSchema := mkAdminSchema (JObject []) "s" (JObject []).
Definition world0 : World world := mkWorld Vault_new MockData_empty MockData_empty {["s" := schema0]} 1 2 [].

Definition item0 (source target : string) (filter : option Filter) : Item :=
  match load_source id source, load_target id target with
  | Val (Some s), Val (Some t) => mkItem _ s t filter ∅ ∅ ∅ ∅
  | _, _ => mkItem _ (source_arg Eraser "") (target_arg Break "") filter ∅ ∅ ∅ ∅
  end.

(** A filter that fails, with a fallback into the response document. *)
Definition lost : Transformation :=
  Trans (item0 "value.a" "var.x" (Some (filter_text EqualTo "b")))
    [Trans (item0 "value.hello" "response.body.json.string./greeting" None) []].

Definition provision0 (schema : string) (ts : list Transformation) : AdminServerProvision :=
  mkProvision false JNull "initial#GET#/a" None "initial" "GET" "/a" "initial" 200 [] JNull "static" 0 schema "" None None ts.

Definition break_item : Item := item0 "value.stop" "break" None.
Definition var_item (name : string) : Transformation := Trans (item0 "value.a" ("var." +:+ name) None) [].

Lemma items_after_a_break_are_not_run_witness :
  td_vars (transform scan0 ub0 text0 "/a" "/a" ∅ DataPart_empty [] 1 "" ∅
             (with_items [var_item "x"; Trans break_item []; var_item "y"; lost] (provision0 "" [])) world0).1 = {["x" := "a"]}.
Proof.
  pose proof (items_after_a_break_are_not_run scan0 ub0 text0 "/a" "/a" ∅ DataPart_empty [] 1 "" ∅ (provision0 "" [])
                [var_item "x"] [var_item "y"; lost] [] break_item [] world0) as Hs.
  destruct Hs as (_ & E & _); [by repeat split|vm_compute; reflexivity|vm_compute; reflexivity|].
  etransitivity; [exact E|vm_compute; reflexivity].
Defined.

Lemma fallback_json_targets_are_lost_witness :
  exists td, transform scan0 ub0 text0 "/a" "/a" ∅ DataPart_empty [] 1 "" ∅ (provision0 "" [lost]) world0 = (td, Val tt) /\
    responseBody (td_resp td) = "static".
Proof.
  eexists. split; [vm_compute; reflexivity|].
  eapply (fallback_json_targets_are_lost scan0 ub0 text0 "/a" "/a" ∅ DataPart_empty [] 1 "" ∅ (provision0 "" [lost]) world0);
    vm_compute; reflexivity.
Defined.

Lemma invalid_request_is_rejected_witness :
  exists td, transform scan0 ub0 text0 "/a" "/a" ∅ (DataPart_of "12") [("content-type", "application/json")] 1 "" ∅
               (provision0 "s" [lost]) world0 = (td, Val tt) /\ responseStatusCode (td_resp td) = 400.
Proof.
  destruct (invalid_request_is_rejected scan0 ub0 text0 "/a" "/a" ∅ (DataPart_of "12") [("content-type", "application/json")] 1 "" ∅
              (provision0 "s" [lost]) world0 schema0 (with_schemas (Some schema0) None (provision0 "s" [lost]))
              (mkDataPart "12" true true (JUint 12)) "type") as (td & E & Hc & _);
    [vm_compute; reflexivity..|]. exists td. split; [exact E|exact Hc].
Defined.

Lemma removed_schema_is_still_used_witness :
  (getRequestSchema ∅ (with_schemas (Some schema0) None (provision0 "s" []))).1 = Some schema0.
Proof.
  destruct (removed_schema_is_still_used {["s" := schema0]} (provision0 "s" [])
              (with_schemas (Some schema0) None (provision0 "s" [])) schema0) as [E _]; [vm_compute; reflexivity|].
  by rewrite E.
Defined.

Definition run0 (vars : gmap string string) : Run Response world :=
  mkRun (setString "previous" TypeConverter_new) vars JNull (mkResponse 200 [] "" 0 "initial" "" "" []) false world0.

Lemma condition_filter_correct_witness :
  (filter_condition (filter_text ConditionVar "!x") "src" (run0 {["x" := "1"]})).2 = Val (false, []).
Proof.
  rewrite (condition_filter_correct (filter_text ConditionVar "!x") "src" "x" true (run0 {["x" := "1"]}) (Some "1"));
    vm_compute; reflexivity.
Defined.

Lemma capture_groups_in_variables_witness :
  r_vars (processTargets ub0 (item0 "request.uri" "var.v" (Some (filter_regex RegexCapture "r" None))) ["ab"; "a"; "b"] false (run0 ∅)).1
    !! "v.2" = Some "b".
Proof.
  pose proof (capture_groups_in_variables ub0 (item0 "request.uri" "var.v" (Some (filter_regex RegexCapture "r" None)))
    (filter_regex RegexCapture "r" None) "v" "ab" ["a"; "b"] false (run0 ∅)) as Hc.
  destruct (processTargets _ _ _ _ _) as [r' o]. destruct Hc as (_ & _ & Hg & _);
    [vm_compute; reflexivity..|unfold is_u64, u64_max; cbn; lia|]. exact (Hg 1%nat "b" eq_refl).
Defined.

Lemma eraser_stores_previous_value_witness :
  r_vars (transform_item ub0 text0 "initial" JNull (mkRequest "" "" ∅ DataPart_empty [] 1) false
            (Trans (item0 "eraser" "var.v" None) []) (run0 ∅)).1 !! "v" = Some "previous".
Proof.
  pose proof (eraser_stores_previous_value ub0 text0 "initial" JNull (mkRequest "" "" ∅ DataPart_empty [] 1) false
                (item0 "eraser" "var.v" None) "v" (run0 ∅)) as Hc.
  destruct (transform_item _ _ _ _ _ _ _ _) as [r' o]. destruct Hc as [_ Hv]; [vm_compute; reflexivity..|]. exact Hv.
Defined.

Lemma random_in_range_witness :
  exists z, -3 <= z <= 4 /\ (source_random (item0 "random.-3.+4" "var.v" None) (run0 ∅)).2 = Val (true, false).
Proof.
  destruct (random_in_range (item0 "random.-3.+4" "var.v" None) (run0 ∅) (-3) 4 0 []) as [Hz _];
    [vm_compute; reflexivity|unfold is_i32; lia|unfold is_i32; lia|vm_compute; reflexivity|lia|].
  destruct Hz as (z & Hz & E); [lia|lia|]. exists z. split; [exact Hz|]. by rewrite E.
Defined.

End TransformExamples.
