(* ===== verification/Filters.v ===== *)
(** The text filters of a server provision ([Split] and [BaseConvert] of
    [src/model/AdminServerProvision.cpp]) against their meaning. *)
From S2P Require Import Prelude Std Double Functions Query Json JsonModel External JsonConstraint Keys DataPart MockEvents MockData TypeConverter Vault Transformation Schema Stages ServerProvision.
From stdpp Require Import options.
#[local] Open Scope Z_scope.

(** ** [Split] *)

(** [n] consecutive groups of [size] characters. *)
Fixpoint chunks (n size : nat) (s : string) : list string :=
  match n with
  | O => []
  | S n => stake size s :: chunks n size (sdrop size s)
  end.

(** How a group is written. *)
Definition group_text (numeric : bool) (g : string) : string :=
  if numeric then match stoull g with Val n => to_string_u n | Throw _ => g end else g.

Lemma stake_length n s : (n <= String.length s)%nat -> String.length (stake n s) = n.
Proof.
  revert s. induction n as [|n IH]; intros [|c s] Hn; cbn in *; try lia. rewrite IH; lia.
Qed.
Lemma chunks_concat n size s : String.length s = (n * size)%nat -> String.concat "" (chunks n size s) = s.
Proof.
  revert s. induction n as [|n IH]; intros s Hs; cbn [chunks].
  { destruct s; [done|cbn in Hs; lia]. }
  assert (String.concat "" (stake size s :: chunks n size (sdrop size s))
          = stake size s +:+ String.concat "" (chunks n size (sdrop size s))) as ->.
  { destruct (chunks n size (sdrop size s)); [|done]. cbn. by rewrite string_app_nil_r. }
  rewrite IH by (rewrite sdrop_length; cbn in Hs; lia). apply stake_sdrop.
Qed.

Lemma chunks_lengths n size s :
  String.length s = (n * size)%nat -> length (chunks n size s) = n /\ Forall (fun g => String.length g = size) (chunks n size s).
Proof.
  revert s. induction n as [|n IH]; intros s Hs; cbn [chunks]; [by split|].
  cbn in Hs. destruct (IH (sdrop size s)) as [Hl Hf]; [rewrite sdrop_length; lia|].
  split; [cbn; by rewrite Hl|]. constructor; [|done]. apply stake_length. lia.
Qed.

(** Padding reaches the length asked for. *)
Lemma pad_loop_long filler len total fuel : forall padding,
  filler <> "" -> total - len <= Z.of_nat (String.length padding) + Z.of_nat fuel ->
  total - len <= Z.of_nat (String.length (pad_loop fuel padding filler len total)).
Proof.
  induction fuel as [|fuel IH]; intros padding Hne Hf; cbn [pad_loop]; [lia|].
  destruct (Z.ltb_spec (Z.of_nat (String.length padding) + len) total); [|lia].
  apply IH; [done|]. rewrite slength_app. assert (0 < String.length filler)%nat by (destruct filler; [done|cbn; lia]). lia.
Qed.

(** The padded text has the length asked for, and the source at its end, or is the
    end of the source. *)
Lemma split_pad_spec source filler total :
  0 <= total -> filler <> "" ->
  let padded := split_pad source filler total in
  Z.of_nat (String.length padded) = total /\
  (Z.of_nat (String.length source) <= total -> exists pad, padded = pad +:+ source) /\
  (total <= Z.of_nat (String.length source) -> exists cut, source = cut +:+ padded).
Proof.
  intros Ht Hne. cbn zeta. unfold split_pad. set (len := Z.of_nat (String.length source)).
  destruct (Z.ltb_spec total len) as [Hlt|Hge].
  - rewrite sdrop_length. split_and!; [lia|lia|]. intros _.
    exists (stake (Z.to_nat (len - total)) source). symmetry. apply stake_sdrop.
  - destruct (Z.ltb_spec len total) as [Hlt|Hge2]; cbn.
    + destruct (sempty filler) eqn:Ee; [by apply sempty_true in Ee|]. cbn.
      pose proof (pad_loop_long filler len total (Z.to_nat (total - len)) "" Hne) as Hlong. cbn in Hlong.
      set (padding := pad_loop _ _ _ _ _) in *.
      assert (total - len <= Z.of_nat (String.length padding)) as Hp by (apply Hlong; lia).
      split_and!; [|by eexists|lia]. rewrite slength_app.
      destruct (Z.ltb_spec 0 (Z.of_nat (String.length padding) + len - total)); [rewrite sdrop_length|]; unfold len in *; lia.
    + split_and!; [unfold len in *; lia|by exists ""|by exists ""].
Qed.

Lemma to_u64_small z : 0 <= z <= u64_max -> to_u64 z = z.
Proof. intros. unfold to_u64, wrap_u, u64_max in *. apply Z.mod_small. lia. Qed.

(** Groups after the first one. *)
Lemma split_loop_tail numeric sep size padded : forall fuel i acc,
  1 <= size -> 1 <= i -> (i + Z.of_nat fuel) * size <= Z.of_nat (String.length padded) -> (i + Z.of_nat fuel) * size <= u64_max ->
  split_loop fuel i padded sep size numeric acc =
  Val (foldl (fun a g => a +:+ sep +:+ group_text numeric g) acc (chunks fuel (Z.to_nat size) (sdrop (Z.to_nat (i * size)) padded))).
Proof.
  induction fuel as [|fuel IH]; intros i acc Hs Hi Hl Hu; cbn [split_loop chunks foldl]; [done|].
  destruct (Z.ltb_spec 0 i); [|lia]. rewrite !to_u64_small by nia. unfold substr.
  destruct (decide _) as [Hd|Hd]; [|exfalso; apply Hd; nia]. cbn [obind].
  rewrite IH by nia. rewrite sdrop_sdrop.
  replace (Z.to_nat (i * size) + Z.to_nat size)%nat with (Z.to_nat ((i + 1) * size)) by nia.
  unfold group_text. by rewrite string_app_assoc.
Qed.

Lemma foldl_concat (sep : string) gs : forall g acc,
  foldl (fun a x => a +:+ sep +:+ x) (acc +:+ g) gs = acc +:+ String.concat sep (g :: gs).
Proof.
  induction gs as [|h gs IH]; intros g acc; cbn [foldl]; [done|].
  replace ((acc +:+ g) +:+ sep +:+ h) with ((acc +:+ g +:+ sep) +:+ h) by (by rewrite !string_app_assoc).
  rewrite IH. change (String.concat sep (g :: h :: gs)) with (g +:+ sep +:+ String.concat sep (h :: gs)).
  by rewrite !string_app_assoc.
Qed.

Lemma split_loop_all numeric sep size count padded :
  1 <= size -> 1 <= count -> Z.of_nat (String.length padded) = size * count -> size * count <= u64_max ->
  split_loop (Z.to_nat count) 0 padded sep size numeric "" =
  Val (String.concat sep (map (group_text numeric) (chunks (Z.to_nat count) (Z.to_nat size) padded))).
Proof.
  intros Hs Hc Hl Hu. replace (Z.to_nat count) with (S (Z.to_nat (count - 1))) by lia.
  cbn [split_loop chunks map]. rewrite !to_u64_small by nia. cbn [Z.ltb Z.compare]. unfold substr.
  rewrite decide_True by lia. cbn [obind]. rewrite split_loop_tail by nia. f_equal.
  rewrite sdrop_0. replace (Z.to_nat ((0 + 1) * size)) with (Z.to_nat size) by nia.
  fold (group_text numeric (stake (Z.to_nat size) padded)).
  assert (forall gs acc, foldl (fun a g => a +:+ sep +:+ group_text numeric g) acc gs
          = foldl (fun a g => a +:+ sep +:+ g) acc (map (group_text numeric) gs)) as ->.
  { induction gs as [|g gs IH]; intros acc; cbn; [done|]. apply IH. }
  apply (foldl_concat sep _ (group_text numeric (stake (Z.to_nat size) padded)) "").
Qed.

(** [Split] writes exactly [count] groups of [size] characters: the end of a
    source that is too long, or a source that is too short with copies of the filler
    in front, is cut without losing or adding a character, and the groups are joined
    with the separator, as numbers without leading zeros when asked. *)
Theorem split_correct (source sep filler : string) (size count : Z) (numeric : bool)
  (Hs : 1 <= size) (Hc : 1 <= count) (Hu : size * count <= u64_max) (Hf : filler <> "") :
  exists padded,
    Z.of_nat (String.length padded) = size * count /\
    (Z.of_nat (String.length source) <= size * count -> exists pad, padded = pad +:+ source) /\
    (size * count <= Z.of_nat (String.length source) -> exists cut, source = cut +:+ padded) /\
    exists groups,
      length groups = Z.to_nat count /\ Forall (fun g => String.length g = Z.to_nat size) groups /\
      String.concat "" groups = padded /\
      split_text source size count sep filler numeric = Val (String.concat sep (map (group_text numeric) groups)).
Proof.
  destruct (split_pad_spec source filler (size * count)) as (Hl & H1 & H2); [nia|done|].
  exists (split_pad source filler (size * count)). split_and!; [done..|].
  assert (String.length (split_pad source filler (size * count)) = Z.to_nat count * Z.to_nat size)%nat as Hn by nia.
  exists (chunks (Z.to_nat count) (Z.to_nat size) (split_pad source filler (size * count))).
  destruct (chunks_lengths _ _ _ Hn) as [Hlen Hall]. split_and!; [done|done|by apply chunks_concat|].
  unfold split_text. rewrite (to_u64_small size) by nia. rewrite to_u64_small by nia. by apply split_loop_all.
Qed.

(** With an empty filler, which the schema of a provision admits, a source that
    ends before the second group starts makes [Split] throw out of the filter, where
    nothing catches it. *)
Theorem split_empty_filler_throws (source sep : string) (size count : Z) (numeric : bool)
  (Hs : 1 <= size) (Hc : 2 <= count) (Hu : size * count <= u64_max) (Hl : Z.of_nat (String.length source) < size) :
  split_text source size count sep "" numeric = Throw out_of_range.
Proof.
  unfold split_text. rewrite (to_u64_small size), to_u64_small by nia. unfold split_pad.
  destruct (Z.ltb_spec (size * count) (Z.of_nat (String.length source))); [nia|]. rewrite andb_false_r.
  replace (Z.to_nat count) with (S (S (Z.to_nat (count - 2)))) by lia. cbn [split_loop].
  cbn [Z.ltb Z.compare]. unfold substr at 1. rewrite decide_True by (rewrite to_u64_small; nia). cbn [obind].
  unfold substr. rewrite decide_False; [done|]. rewrite to_u64_small by nia. nia.
Qed.

(** [BaseConvert] is exact on 64-bit values: the text of a number in a base from
    2 to 36 becomes its text in the other base, and back. *)
Theorem base_convert_round_trip (v b1 b2 : Z) (cap1 cap2 : bool)
  (Hv : is_u64 v) (H1 : 2 <= b1 <= 36) (H2 : 2 <= b2 <= 36) :
  base_convert (render b1 cap1 v) b1 b2 (if b2 =? 10 then false else cap2) = render b2 (if b2 =? 10 then false else cap2) v /\
  base_convert (base_convert (render b1 false v) b1 b2 false) b2 b1 false = render b1 false v.
Proof.
  assert (forall b1 b2 c1 c2, 2 <= b1 <= 36 -> 2 <= b2 <= 36 -> (b2 = 10 -> c2 = false) ->
            base_convert (render b1 c1 v) b1 b2 c2 = render b2 c2 v) as Hconv.
  { intros x y c1 c2 Hx Hy Hc. unfold base_convert. rewrite stoull_render by done.
    destruct (Z.eqb_spec y 10) as [->|]; [|done]. by rewrite Hc. }
  split; [apply Hconv; [done|done|by intros ->]|]. by rewrite !Hconv.
Qed.

Module FiltersExamples.

Lemma split_correct_witness :
  exists groups, length groups = 6%nat /\
    split_text "3232235776" 2 6 "-" "0" true = Val (String.concat "-" (map (group_text true) groups)) /\
    split_text "3232235776" 2 6 "-" "0" true = Val "0-32-32-23-57-76".
Proof.
  destruct (split_correct "3232235776" "-" "0" 2 6 true) as (_ & _ & _ & _ & gs & Hl & _ & _ & Hs);
    [lia|lia|unfold u64_max; lia|done|].
  exists gs. split; [exact Hl|]. split; [exact Hs|]. vm_compute. reflexivity.
Defined.

Lemma split_empty_filler_throws_witness : split_text "1" 2 4 "." "" false = Throw out_of_range.
Proof. apply (split_empty_filler_throws "1" "." 2 4 false); [lia|lia|unfold u64_max; lia|cbn; lia]. Defined.

Lemma base_convert_round_trip_witness : base_convert "ff" 16 2 false = "11111111".
Proof.
  destruct (base_convert_round_trip 255 16 2 false false) as [Hc _]; [|lia|lia|].
  - unfold is_u64, u64_max. lia.
  - exact Hc.
Defined.

End FiltersExamples.
