(* ===== verification/ServerAdmin.v ===== *)
(** [src/model/AdminServerMatchingData.cpp] and [AdminServerProvisionData.cpp]: the
    matching configuration and the provisions registered for the server. *)
From S2P Require Import Prelude Std Double Functions Query Json JsonModel External JsonConstraint Keys DataPart MockEvents MockData TypeConverter Vault Transformation Schema Stages ServerProvision.
From stdpp Require Import options.

(** ** [AdminServerMatchingData] *)

Inductive AlgorithmType := FullMatching | FullMatchingRegexReplace | RegexMatching.
Inductive UriPathQueryParametersFilterType := Sort | PassBy | Ignore.
Inductive UriPathQueryParametersSeparatorType := Ampersand | Semicolon.
#[global] Instance AlgorithmType_eq_dec : EqDecision AlgorithmType.
Proof. solve_decision. Defined.

Section Matching.
Context `{RegexLib}.

Record Config := mkConfig {
  algorithm : AlgorithmType;
  rgx : regex;
  fmt : string;
  uri_path_query_parameters_filter : UriPathQueryParametersFilterType;
  uri_path_query_parameters_separator : UriPathQueryParametersSeparatorType;
  cfg_json : json
}.

Definition Config_new : Config :=
  mkConfig FullMatching regex_default "" Sort Ampersand (JObject [("algorithm", JString "FullMatching")]).

(** Is the field a given text? *)
Definition is_text (j : option json) (s : string) : bool :=
  match j with Some (JString t) => bool_decide (t = s) | _ => false end.

(** The query parameters fields, over the defaults.  The iterator of the mandatory filter is
    dereferenced whatever it is. *)
Definition load_qparams (j : json) : outcome (UriPathQueryParametersFilterType * UriPathQueryParametersSeparatorType) :=
  match json_find "uriPathQueryParameters" j with
  | None => Val (Sort, Ampersand)
  | Some q =>
      match json_find "filter" q with
      | None => Throw undefined
      | filter =>
          let separator := json_find "separator" q in
          Val (if is_text filter "Sort" then Sort else if is_text filter "PassBy" then PassBy
               else if is_text filter "Ignore" then Ignore else Sort,
               if is_text separator "Ampersand" then Ampersand else if is_text separator "Semicolon" then Semicolon else Ampersand)
      end
  end.

(** [load]: the new configuration replaces the old one only on success.  The
    iterator of the algorithm is dereferenced in the same way. *)
Definition matching_load (valid : json -> bool) (j : json) : M Config LoadResult :=
  if negb (valid j) then ret BadSchema
  else
    match (match json_find "rgx" j with
           | Some (JString s) => match regex_assign s with Val r => Some (true, r) | Throw _ => None end
           | _ => Some (false, regex_default)
           end) with
    | None => ret BadContent
    | Some (hasRgx, r) =>
        let '(hasFmt, f) := match json_find "fmt" j with Some (JString s) => (true, s) | _ => (false, "") end in
        do qparams <- lift (load_qparams j) ;;
        let store a := modify (fun _ => mkConfig a r f qparams.1 qparams.2 j) ;;; ret Success in
        match json_find "algorithm" j with
        | None => throw undefined
        | alg =>
            if is_text alg "FullMatching" then
              if hasRgx || hasFmt then ret BadContent else store FullMatching
            else if is_text alg "FullMatchingRegexReplace" then
              if negb hasRgx || negb hasFmt then ret BadContent else store FullMatchingRegexReplace
            else if is_text alg "RegexMatching" then
              if hasRgx || hasFmt then ret BadContent else store RegexMatching
            else store FullMatching
        end
    end.
End Matching.

(** ** [AdminServerProvisionData] *)

Section ProvisionData.
Context `{JsonText} `{RegexLib} `{SchemaLib} (decode_url : string -> string) (ub : double -> Z).

Record ProvisionData := mkProvisionData {
  pd_map : gmap string AdminServerProvision;
  ordered_keys_ : list string
}.

Definition ProvisionData_new : ProvisionData := {| pd_map := ∅; ordered_keys_ := [] |}.

Definition pd_add (p : AdminServerProvision) (d : ProvisionData) : ProvisionData :=
  {| pd_map := <[pr_key p := p]> (pd_map d);
     ordered_keys_ := if bool_decide (is_Some (pd_map d !! pr_key p)) then ordered_keys_ d else ordered_keys_ d ++ [pr_key p] |}.

(** [valid] is the validation against the schema of the operation. *)
Definition pd_loadSingle (valid : json -> bool) (regexMatchingConfigured : bool) (j : json) : M ProvisionData LoadResult :=
  if negb (valid j) then ret BadSchema
  else
    do provision <- lift (Provision_load decode_url ub j regexMatchingConfigured) ;;
    match provision with
    | Some p => modify (pd_add p) ;;; ret Success
    | None => ret BadContent
    end.

Definition pd_load (valid : json -> bool) (regexMatchingConfigured : bool) : json -> M ProvisionData LoadResult :=
  load_document (pd_loadSingle valid regexMatchingConfigured).

(** [clear]: was there something? *)
Definition pd_clear (d : ProvisionData) : bool * ProvisionData :=
  (negb (bool_decide (pd_map d = ∅)), ProvisionData_new).

Definition pd_find (inState method uri : string) (d : ProvisionData) : option AdminServerProvision :=
  pd_map d !! calculateStringKey inState method uri.

(** The loop over the ordered keys; [None] inside is the null pointer a missing key
    would be. *)
Fixpoint find_matching (key : string) (m : gmap string AdminServerProvision) (keys : list string) : option AdminServerProvision :=
  match keys with
  | [] => None
  | k :: keys' =>
      match m !! k with
      | Some p => match regex_match key (pr_regex p) with Some _ => Some p | None => find_matching key m keys' end
      | None => find_matching key m keys'
      end
  end.

Definition pd_findRegexMatching (inState method uri : string) (d : ProvisionData) : option AdminServerProvision :=
  find_matching (calculateStringKey inState method uri) (pd_map d) (ordered_keys_ d).

(** [asJsonString(ordered, getUnused)] *)
Definition pd_asJsonString (ordered getUnused : bool) (d : ProvisionData) : outcome string :=
  let provisions := if ordered then omap (fun k => pd_map d !! k) (ordered_keys_ d) else (map_to_list (pd_map d)).*2 in
  json_dump (JArray (pr_json <$> filter (fun p => negb (getUnused && employed_ p)) provisions)).

Definition pd_needsStorage (d : ProvisionData) : bool := existsb needsStorage (map_to_list (pd_map d)).*2.

(** An update of the provision held by the map (it is shared by pointer). *)
Definition pd_update (p : AdminServerProvision) (d : ProvisionData) : ProvisionData :=
  {| pd_map := <[pr_key p := p]> (pd_map d); ordered_keys_ := ordered_keys_ d |}.

End ProvisionData.

(** ** Invariant *)

Section Invariant.
Context `{JsonText} `{RegexLib} `{SchemaLib}.

(** The list has the keys of the map, once each, and each provision is under its own
    key. *)
Definition pd_inv (d : ProvisionData) : Prop :=
  NoDup (ordered_keys_ d) /\
  (forall k, k ∈ ordered_keys_ d <-> is_Some (pd_map d !! k)) /\
  (forall k p, pd_map d !! k = Some p -> pr_key p = k).

Lemma pd_inv_new : pd_inv ProvisionData_new.
Proof.
  split_and!; cbn; [constructor| |done]. intros k. split; [by intros ?%elem_of_nil|]. by intros [? ?].
Qed.

Lemma pd_inv_add p d : pd_inv d -> pd_inv (pd_add p d).
Proof.
  intros (Hnd & Hk & Hp). unfold pd_add. split_and!; cbn.
  - case_bool_decide as Hi; [done|]. apply NoDup_app. split_and!; [done| |apply NoDup_singleton].
    intros k Hin ->%list_elem_of_singleton. by apply Hk in Hin.
  - intros k. destruct (decide (k = pr_key p)) as [->|Hne].
    + rewrite lookup_insert_eq. split; [done|]. intros _. case_bool_decide as Hi; [by apply Hk|set_solver].
    + rewrite lookup_insert_ne by done. specialize (Hk k). case_bool_decide; [done|]. set_solver.
  - intros k p'. destruct (decide (k = pr_key p)) as [->|Hne].
    + rewrite lookup_insert_eq. by intros [= <-].
    + rewrite lookup_insert_ne by done. apply Hp.
Qed.

Lemma pd_loadSingle_inv decode_url ub valid rm j d : pd_inv d -> pd_inv (pd_loadSingle decode_url ub valid rm j d).1.
Proof.
  intros Hd. unfold pd_loadSingle. destruct (valid j); [|done]. unfold bind, lift. cbn.
  destruct (Provision_load decode_url ub j rm) as [[p|]|]; cbn; [by apply pd_inv_add|done|done].
Qed.

(** What the loop finds: the first key of the list that matches. *)
Lemma find_matching_Some key m keys p :
  find_matching key m keys = Some p ->
  exists l1 k l2, keys = l1 ++ k :: l2 /\ m !! k = Some p /\ is_Some (regex_match key (pr_regex p)) /\
    Forall (fun k' => forall p', m !! k' = Some p' -> regex_match key (pr_regex p') = None) l1.
Proof.
  induction keys as [|k keys IH]; cbn; [done|]. destruct (m !! k) as [p'|] eqn:Ek.
  - destruct (regex_match key (pr_regex p')) eqn:Em.
    + intros [= <-]. exists [], k, keys. split_and!; [done|done|by rewrite Em|constructor].
    + intros (l1 & k' & l2 & -> & ? & ? & ?)%IH. exists (k :: l1), k', l2. split_and!; [done..|].
      constructor; [|done]. intros p'' E. by simplify_eq.
  - intros (l1 & k' & l2 & -> & ? & ? & ?)%IH. exists (k :: l1), k', l2. split_and!; [done..|].
    constructor; [|done]. intros p'' E. by simplify_eq.
Qed.

Lemma find_matching_None key m keys :
  find_matching key m keys = None <-> Forall (fun k => forall p, m !! k = Some p -> regex_match key (pr_regex p) = None) keys.
Proof.
  induction keys as [|k keys IH]; cbn; [split; [constructor|done]|]. rewrite Forall_cons, <- IH.
  destruct (m !! k) as [p|]; [destruct (regex_match key (pr_regex p)) eqn:Em|]; naive_solver.
Qed.

(** *** What a loaded provision is *)

Lemma Provision_load_key decode_url ub j rm p :
  Provision_load decode_url ub j rm = Val (Some p) ->
  pr_key p = calculateStringKey (in_state_ p) (request_method_ p) (request_uri_ p) /\ pr_json p = j /\
  employed_ p = false /\ in_state_ p <> "" /\ out_state_ p <> "" /\ (rm = false -> pr_regex p = regex_default) /\
  (rm = true -> regex_assign (pr_key p) = Val (pr_regex p)).
Proof.
  unfold Provision_load. intros (m & _ & Hl)%obind_val. apply obind_val in Hl as (c & _ & Hl).
  destruct (schema_field_ok "requestSchemaId" j); [|done]. destruct (schema_field_ok "responseSchemaId" j); [|done].
  cbn [negb] in Hl. apply obind_val in Hl as (h & _ & Hl). apply obind_val in Hl as ([b t] & _ & Hl).
  apply obind_val in Hl as (dl & _ & Hl). apply obind_val in Hl as (ts & _ & Hl).
  assert (forall k, state_field k j <> "") as Hst.
  { intros k. unfold state_field. destruct (sempty (text_field k _ j)) eqn:E; [done|]. by apply sempty_false. }
  destruct rm.
  - destruct (regex_assign _) as [r|[]] eqn:Er; try done. injection Hl as <-. cbn. by split_and!.
  - injection Hl as <-. cbn. by split_and!.
Qed.
End Invariant.

(** ** Properties *)

Section AdminProperties.
Context `{JsonText} `{RegexLib} `{SchemaLib}.

(** Loading a matching configuration is a transaction: on any failure the old one
    stays, whole; on success the new one has the document as sent, and asks for an
    expression and a format exactly when its algorithm uses them. *)
Theorem matching_load_is_transactional (valid : json -> bool) (j : json) (c c' : Config) (r : LoadResult)
  (Hl : matching_load valid j c = (c', Val r)) :
  (r <> Success -> c' = c) /\
  (r = Success -> cfg_json c' = j /\ valid j = true /\
     (algorithm c' = FullMatchingRegexReplace -> exists s f, json_find "rgx" j = Some (JString s) /\
        regex_assign s = Val (rgx c') /\ json_find "fmt" j = Some (JString f) /\ fmt c' = f) /\
     (is_text (json_find "algorithm" j) "FullMatching" = true -> algorithm c' = FullMatching /\
        forall s, json_find "rgx" j <> Some (JString s) /\ json_find "fmt" j <> Some (JString s))).
Proof.
  unfold matching_load in Hl. destruct (valid j) eqn:Ev; cbn [negb] in Hl; [|injection Hl as <- <-; done].
  destruct (match json_find "rgx" j with Some (JString s) => _ | _ => _ end) as [[hasRgx r0]|] eqn:Er;
    [|injection Hl as <- <-; done].
  assert (hasRgx = true -> exists s, json_find "rgx" j = Some (JString s) /\ regex_assign s = Val r0) as Hrgx.
  { intros ->. destruct (json_find "rgx" j) as [[]|]; simplify_eq. eexists. split; [done|].
    destruct (regex_assign s); by simplify_eq. }
  assert (hasRgx = false -> forall s, json_find "rgx" j <> Some (JString s)) as Hnrgx.
  { intros -> s Es. rewrite Es in Er. destruct (regex_assign s); by simplify_eq. }
  destruct (match json_find "fmt" j with Some (JString s) => _ | _ => _ end) as [hasFmt f0] eqn:Ef.
  assert (hasFmt = true -> json_find "fmt" j = Some (JString f0)) as Hfmt.
  { intros ->. destruct (json_find "fmt" j) as [[]|]; by simplify_eq. }
  assert (hasFmt = false -> forall s, json_find "fmt" j <> Some (JString s)) as Hnfmt.
  { intros -> s Es. rewrite Es in Ef. by simplify_eq. }
  clear Er Ef. destruct (load_qparams j) as [q|]; [|done]. cbn [lift bind] in Hl.
  destruct (json_find "algorithm" j) as [alg|]; [|done].
  destruct (is_text (Some alg) "FullMatching") eqn:E1;
    [|destruct (is_text (Some alg) "FullMatchingRegexReplace") eqn:E2;
      [|destruct (is_text (Some alg) "RegexMatching")]];
    destruct hasRgx, hasFmt; cbn in Hl; injection Hl as <- <-;
    (split; [try done; by intros []|]); intros Hok; try done; cbn.
  all: split_and!; try done; naive_solver.
Qed.

(** The operations of the administration interface and of the traffic. *)
Inductive pd_step (decode_url : string -> string) (ub : double -> Z) (valid : json -> bool) : ProvisionData -> ProvisionData -> Prop :=
| pd_step_load rm j d : pd_step decode_url ub valid d (pd_load decode_url ub valid rm j d).1
| pd_step_clear d : pd_step decode_url ub valid d (pd_clear d).2
| pd_step_update p p' d : pd_map d !! pr_key p = Some p -> pr_key p' = pr_key p ->
    pd_step decode_url ub valid d (pd_update p' d).

Lemma pd_step_inv decode_url ub valid d d' : pd_step decode_url ub valid d d' -> pd_inv d -> pd_inv d'.
Proof.
  intros [rm j d0|d0|p p' d0 Hp Hk] Hd.
  - apply (load_document_inv _ pd_inv); [|done]. intros. by apply pd_loadSingle_inv.
  - apply pd_inv_new.
  - destruct Hd as (Hnd & Hin & Hkey). unfold pd_update. split_and!; cbn; [done| |].
    + intros k. specialize (Hin k). destruct (decide (k = pr_key p')) as [->|Hne].
      * rewrite lookup_insert_eq. rewrite Hk, Hp in Hin. rewrite Hk. naive_solver.
      * by rewrite lookup_insert_ne.
    + intros k q. destruct (decide (k = pr_key p')) as [->|Hne].
      * rewrite lookup_insert_eq. by intros [= <-].
      * rewrite lookup_insert_ne by done. apply Hkey.
Qed.

(** Whatever the sequence of loads (of documents and of arrays, that fail or
    succeed), clears and uses, the ordered list has every provision once and each
    provision is stored under its own key, so that the ordered search never meets a
    missing one. *)
Theorem provisions_stay_consistent decode_url ub valid (d : ProvisionData)
  (Hr : rtc (pd_step decode_url ub valid) ProvisionData_new d) :
  NoDup (ordered_keys_ d) /\ (forall k, k ∈ ordered_keys_ d <-> is_Some (pd_map d !! k)) /\
  (forall k p, pd_map d !! k = Some p -> pr_key p = k).
Proof.
  change (pd_inv d). pose proof pd_inv_new as Hi. revert Hi. generalize dependent ProvisionData_new.
  intros d0 Hr. induction Hr as [|d0 d1 d2 Hs _ IH]; [done|]. intros Hi. apply IH. by eapply pd_step_inv.
Qed.

(** With the regular expression algorithm, the provision found is the first one
    in order of registration whose expression matches the key of the request, and
    none is found exactly when none matches. *)
Theorem regex_matching_finds_the_first inState method uri (d : ProvisionData) (Hd : pd_inv d) :
  let key := calculateStringKey inState method uri in
  match pd_findRegexMatching inState method uri d with
  | Some p => exists l1 l2, ordered_keys_ d = l1 ++ pr_key p :: l2 /\ pd_map d !! pr_key p = Some p /\
                is_Some (regex_match key (pr_regex p)) /\
                (forall k q, k ∈ l1 -> pd_map d !! k = Some q -> regex_match key (pr_regex q) = None)
  | None => forall k q, pd_map d !! k = Some q -> regex_match key (pr_regex q) = None
  end.
Proof.
  cbn zeta. unfold pd_findRegexMatching. destruct (find_matching _ _ _) as [p|] eqn:E.
  - apply find_matching_Some in E as (l1 & k & l2 & Hk & Hp & Hm & Hf).
    destruct Hd as (_ & _ & Hkey). rewrite (Hkey _ _ Hp). exists l1, l2. split_and!; [done..|].
    intros k' q Hin. rewrite Forall_forall in Hf. by apply Hf.
  - apply find_matching_None in E. rewrite Forall_forall in E. intros k q Hq. apply (E k); [|done].
    apply Hd. by eexists.
Qed.

(** A provision loaded is found by its state, method and URI, with the document
    it came from; the provisions with other keys stay, and the order of the others
    does not change. *)
Theorem loaded_provision_is_found decode_url ub valid rm (j : json) (d d' : ProvisionData)
  (Hl : pd_loadSingle decode_url ub valid rm j d = (d', Val Success)) :
  exists p, pr_json p = j /\ pd_find (in_state_ p) (request_method_ p) (request_uri_ p) d' = Some p /\
    (forall k, k <> pr_key p -> pd_map d' !! k = pd_map d !! k) /\
    (ordered_keys_ d' = ordered_keys_ d \/ ordered_keys_ d' = ordered_keys_ d ++ [pr_key p]).
Proof.
  unfold pd_loadSingle in Hl. destruct (valid j); [|done]. unfold bind, lift in Hl. cbn in Hl.
  destruct (Provision_load decode_url ub j rm) as [[p|]|] eqn:Ep; try done. cbn in Hl. injection Hl as <-.
  apply Provision_load_key in Ep as (Hk & Hj & _). exists p. unfold pd_find. rewrite <- Hk. split_and!; [done| | |].
  - by apply lookup_insert_eq.
  - intros k Hne. by apply lookup_insert_ne.
  - cbn. case_bool_decide; auto.
Qed.

(** A provision loaded while another algorithm is configured has no compiled
    expression: it is never found by the regular expression algorithm, even after the
    matching mode is changed on the fly: what that search finds was there before. *)
Theorem provisions_loaded_without_regex_never_match `{!RegexLaws} decode_url ub valid (j : json) (d d' : ProvisionData)
  inState method uri (p : AdminServerProvision)
  (Hd : pd_inv d) (Hl : pd_loadSingle decode_url ub valid false j d = (d', Val Success))
  (Hf : pd_findRegexMatching inState method uri d' = Some p) : pd_map d !! pr_key p = Some p.
Proof.
  assert (pd_inv d') as Hd' by (replace d' with (pd_loadSingle decode_url ub valid false j d).1 by (by rewrite Hl); by apply pd_loadSingle_inv).
  unfold pd_loadSingle in Hl. destruct (valid j); [|done]. unfold bind, lift in Hl. cbn in Hl.
  destruct (Provision_load decode_url ub j false) as [[p0|]|] eqn:Ep; try done. cbn in Hl. injection Hl as <-.
  apply Provision_load_key in Ep as (_ & _ & _ & _ & _ & Hrx & _).
  unfold pd_findRegexMatching in Hf. apply find_matching_Some in Hf as (l1 & k & l2 & _ & Hp & [m Hm] & _).
  destruct Hd' as (_ & _ & Hkey). rewrite (Hkey _ _ Hp). cbn in Hp.
  destruct (decide (k = pr_key p0)) as [->|Hne].
  - rewrite lookup_insert_eq in Hp. injection Hp as <-. rewrite Hrx in Hm by done. by rewrite regex_default_fails in Hm.
  - by rewrite lookup_insert_ne in Hp.
Qed.
End AdminProperties.

Module AdminExamples.
Import Still.

Definition ub0 (d : double) : Z := 0%Z.
Definition all (j : json) : bool := true.
Definition doc (uri : string) : json :=
  JObject [("requestMethod", JString "GET"); ("requestUri", JString uri); ("responseCode", JUint 200)].

Definition bad_matching : json := JObject [("algorithm", JString "RegexMatching"); ("rgx", JString "a")].

Lemma matching_load_is_transactional_witness : (matching_load all bad_matching Config_new).1 = Config_new.
Proof.
  destruct (matching_load_is_transactional all bad_matching Config_new (matching_load all bad_matching Config_new).1 BadContent)
    as [Hk _]; [vm_compute; reflexivity|]. exact (Hk ltac:(discriminate)).
Defined.

Definition data1 : ProvisionData := (pd_load id ub0 all true (JArray [doc "/a"; doc "/b"]) ProvisionData_new).1.

Lemma provisions_stay_consistent_witness : NoDup (ordered_keys_ data1).
Proof.
  apply (provisions_stay_consistent id ub0 all data1). eapply rtc_l; [|apply rtc_refl]. apply pd_step_load.
Defined.

Lemma data1_inv : pd_inv data1.
Proof. apply (pd_step_inv id ub0 all ProvisionData_new); [apply pd_step_load|apply pd_inv_new]. Qed.

Lemma regex_matching_finds_the_first_witness :
  exists p, pd_findRegexMatching "initial" "GET" "/b" data1 = Some p /\ pr_key p = "initial#GET#/b" /\
    exists l1 l2, ordered_keys_ data1 = l1 ++ pr_key p :: l2.
Proof.
  pose proof (regex_matching_finds_the_first "initial" "GET" "/b" data1 data1_inv) as Hm.
  assert (pr_key <$> pd_findRegexMatching "initial" "GET" "/b" data1 = Some "initial#GET#/b") as Hk by (vm_compute; reflexivity).
  destruct (pd_findRegexMatching "initial" "GET" "/b" data1) as [p|]; [|discriminate Hk].
  injection Hk as Hk. destruct Hm as (l1 & l2 & Ho & _). exists p. split; [reflexivity|]. split; [exact Hk|].
  exists l1, l2. exact Ho.
Defined.

Definition data2 (rm : bool) : ProvisionData := (pd_loadSingle id ub0 all rm (doc "/c") data1).1.

Lemma loaded_provision_is_found_witness :
  exists p, pr_json p = doc "/c" /\ pd_find (in_state_ p) (request_method_ p) (request_uri_ p) (data2 true) = Some p.
Proof.
  destruct (loaded_provision_is_found id ub0 all true (doc "/c") data1 (data2 true)) as (p & Hj & Hf & _); [vm_compute; reflexivity|].
  exists p. split; [exact Hj|exact Hf].
Defined.

Lemma provisions_loaded_without_regex_never_match_witness :
  exists p, pd_findRegexMatching "initial" "GET" "/a" (data2 false) = Some p /\ pd_map data1 !! pr_key p = Some p /\
    pd_findRegexMatching "initial" "GET" "/c" (data2 false) = None.
Proof.
  assert (exists p, pd_findRegexMatching "initial" "GET" "/a" (data2 false) = Some p) as [p Hp] by (eexists; vm_compute; reflexivity).
  exists p. split; [exact Hp|]. split; [|vm_compute; reflexivity].
  apply (provisions_loaded_without_regex_never_match id ub0 all (doc "/c") data1 (data2 false) "initial" "GET" "/a" p data1_inv);
    [vm_compute; reflexivity|exact Hp].
Defined.
End AdminExamples.
