(* ===== verification/TrafficServer.v ===== *)
(** [src/http2/MyTrafficHttp2Server.cpp]: the server of the mocked service.  A
    request is classified by its URI, its provision is found by the state of its
    key, transformed into a response, and the event is stored (or the key purged) so
    that the next request of the key is in the next state. *)
From S2P Require Import Prelude Std Double Functions Query Json JsonModel External JsonConstraint Keys DataPart MockEvents MockData TypeConverter Vault Transformation Schema Stages StageFrames ServerProvision ServerTransform ServerAdmin.
From stdpp Require Import options.
#[local] Open Scope Z_scope.

(** ** State *)

(** The counters of [enableMyMetrics]. *)
Record Counters := mkCounters {
  provisioned_requests_successful : nat;
  provisioned_requests_failed : nat;
  purged_contexts_successful : nat;
  purged_contexts_failed : nat
}.

(** The server and what it reaches: the matching configuration and the provisions of
    the administration data, the world of the provisions (vault, mock data, schemas,
    outside), its switches, its counters (absent without metrics), the events whose
    stream is still open, and the calls made to the trigger of client provisions
    (when there is one). *)
Record Server `{RegexLib} `{SchemaLib} (OS : Type) := mkServer {
  s_matching : Config;
  s_provisions : ProvisionData;
  s_world : World OS;
  server_data_ : bool;
  server_data_key_history_ : bool;
  purge_execution_ : bool;
  receive_request_body_ : bool;
  pre_reserve_request_body_ : bool;
  metrics_ : option Counters;
  max_busy_threads_ : Z;
  pending_events_ : gmap Z loc;
  client_provision_trigger_ : option (list (string * string))
}.
Arguments mkServer {_ _} {OS}.
Arguments s_matching {_ _} {OS}.
Arguments s_provisions {_ _} {OS}.
Arguments s_world {_ _} {OS}.
Arguments server_data_ {_ _} {OS}.
Arguments server_data_key_history_ {_ _} {OS}.
Arguments purge_execution_ {_ _} {OS}.
Arguments receive_request_body_ {_ _} {OS}.
Arguments pre_reserve_request_body_ {_ _} {OS}.
Arguments metrics_ {_ _} {OS}.
Arguments max_busy_threads_ {_ _} {OS}.
Arguments pending_events_ {_ _} {OS}.
Arguments client_provision_trigger_ {_ _} {OS}.

(** The request as the transport gives it, with the number of busy workers. *)
Record Incoming := mkIncoming {
  in_receptionId : Z;
  in_method : string;
  in_path : string;
  in_query : string;
  in_headers : header_map;
  in_body : string;
  in_timestampUs : Z;
  in_busyThreads : Z
}.

(** The output parameters of [receive]. *)
Record Reply := mkReply {
  rp_status : Z;
  rp_headers : header_map;
  rp_body : string;
  rp_delayMs : Z
}.

(** [checkMethodIsAllowed] and [checkMethodIsImplemented] *)
Definition allowedMethods : list string := ["POST"; "GET"; "PUT"; "DELETE"; "HEAD"].
Definition checkMethodIsAllowed (method : string) : bool * list string :=
  (bool_decide (method ∈ allowedMethods), allowedMethods).
Definition checkMethodIsImplemented (method : string) : bool := bool_decide (method ∈ allowedMethods).

Section Traffic.
Context `{JsonEq} `{JsonText} `{JsonPointer} `{RegexLib} `{SchemaLib} `{Calculus} {OS : Type} `{Outside OS}.
Context (decode_url : string -> string) (multipart_decode : string -> string -> list mp_event)
  (ub : double -> Z) (report_text : fail_report -> outcome string).

(** ** Updates *)

Definition with_provisions (d : ProvisionData) (s : Server OS) : Server OS :=
  mkServer (s_matching s) d (s_world s) (server_data_ s) (server_data_key_history_ s) (purge_execution_ s)
    (receive_request_body_ s) (pre_reserve_request_body_ s) (metrics_ s) (max_busy_threads_ s) (pending_events_ s)
    (client_provision_trigger_ s).
Definition with_sworld (w : World OS) (s : Server OS) : Server OS :=
  mkServer (s_matching s) (s_provisions s) w (server_data_ s) (server_data_key_history_ s) (purge_execution_ s)
    (receive_request_body_ s) (pre_reserve_request_body_ s) (metrics_ s) (max_busy_threads_ s) (pending_events_ s)
    (client_provision_trigger_ s).
Definition with_metrics (m : option Counters) (s : Server OS) : Server OS :=
  mkServer (s_matching s) (s_provisions s) (s_world s) (server_data_ s) (server_data_key_history_ s) (purge_execution_ s)
    (receive_request_body_ s) (pre_reserve_request_body_ s) m (max_busy_threads_ s) (pending_events_ s)
    (client_provision_trigger_ s).
Definition with_busy (n : Z) (s : Server OS) : Server OS :=
  mkServer (s_matching s) (s_provisions s) (s_world s) (server_data_ s) (server_data_key_history_ s) (purge_execution_ s)
    (receive_request_body_ s) (pre_reserve_request_body_ s) (metrics_ s) n (pending_events_ s)
    (client_provision_trigger_ s).
Definition with_pending (m : gmap Z loc) (s : Server OS) : Server OS :=
  mkServer (s_matching s) (s_provisions s) (s_world s) (server_data_ s) (server_data_key_history_ s) (purge_execution_ s)
    (receive_request_body_ s) (pre_reserve_request_body_ s) (metrics_ s) (max_busy_threads_ s) m
    (client_provision_trigger_ s).
Definition with_triggered (l : option (list (string * string))) (s : Server OS) : Server OS :=
  mkServer (s_matching s) (s_provisions s) (s_world s) (server_data_ s) (server_data_key_history_ s) (purge_execution_ s)
    (receive_request_body_ s) (pre_reserve_request_body_ s) (metrics_ s) (max_busy_threads_ s) (pending_events_ s) l.

Definition s_data (s : Server OS) : MockData MockServerEvent := w_server (s_world s).
Definition on_data (f : MockData MockServerEvent -> MockData MockServerEvent) (s : Server OS) : Server OS :=
  with_sworld (with_server (f (s_data s)) (s_world s)) s.
Definition count (f : Counters -> Counters) (s : Server OS) : Server OS := with_metrics (f <$> metrics_ s) s.

Definition inc_provisioned (ok : bool) (c : Counters) : Counters :=
  if ok then mkCounters (S (provisioned_requests_successful c)) (provisioned_requests_failed c)
               (purged_contexts_successful c) (purged_contexts_failed c)
  else mkCounters (provisioned_requests_successful c) (S (provisioned_requests_failed c))
         (purged_contexts_successful c) (purged_contexts_failed c).
Definition inc_purged (ok : bool) (c : Counters) : Counters :=
  if ok then mkCounters (provisioned_requests_successful c) (provisioned_requests_failed c)
               (S (purged_contexts_successful c)) (purged_contexts_failed c)
  else mkCounters (provisioned_requests_successful c) (provisioned_requests_failed c)
         (purged_contexts_successful c) (S (purged_contexts_failed c)).

(** The constructor: data stored with their history, purges executed. *)
Definition Server_new (c : Config) (d : ProvisionData) (w : World OS) : Server OS :=
  mkServer c d w true true true true true None 0 ∅ None.

(** [enableMyMetrics(metrics, source)]: [registered] are the counters the metrics have
    for the source, [None] without metrics. *)
Definition enableMyMetrics (registered : option Counters) (s : Server OS) : Server OS := with_metrics registered s.
(** [setClientProvisionTrigger]: no call made yet. *)
Definition setClientProvisionTrigger (s : Server OS) : Server OS := with_triggered (Some []) s.

(** ** The steps of [receive] *)

(** The normalized and the classification URIs, and the query parameters. *)
Definition traffic_uris (c : Config) (path query : string) : outcome (string * string * gmap string string) :=
  if sempty query then Val (path, path, ∅)
  else
    let separator := match uri_path_query_parameters_separator c with Ampersand => "&"%char | Semicolon => ";"%char end in
    match extractQueryParameters decode_url query (Some "") separator with
    | None => Throw undefined
    | Some r =>
        let! '(qmap, normalized) := r in
        let normalized := default "" normalized in
        Val (path +:+ "?" +:+ normalized,
             match uri_path_query_parameters_filter c with
             | PassBy => path +:+ "?" +:+ query
             | Sort => path +:+ "?" +:+ normalized
             | Ignore => path
             end, qmap)
    end.

(** The provision of the classification URI, or the default one of the method (the
    one with an empty URI). *)
Definition traffic_find (c : Config) (d : ProvisionData) (inState method classificationUri : string)
    : option AdminServerProvision :=
  let provision :=
    match algorithm c with
    | FullMatching => pd_find inState method classificationUri d
    | FullMatchingRegexReplace => pd_find inState method (regex_replace classificationUri (rgx c) (fmt c)) d
    | RegexMatching => pd_findRegexMatching inState method classificationUri d
    end in
  match provision with
  | Some p => Some p
  | None => pd_find inState method "" d
  end.

(** [getMockServerData()->loadEvent(...)]: the event is built, which decodes the
    request body in place, and stored. *)
Definition server_loadEvent (key : DataKey) (previousState state : string) (q : Incoming) (rp : Reply)
    (part : DataPart) (historyEnabled : bool) (originMethod originUri : string) : M (Server OS) DataPart :=
  do '(event, part) <- lift (MockServerEvent_load multipart_decode previousState state (in_timestampUs q) (rp_status rp)
                               (in_headers q) (rp_headers rp) part (rp_body rp) (in_receptionId q) (rp_delayMs rp)
                               originMethod originUri) ;;
  modify (on_data (data_loadEvent key event historyEnabled)) ;;;
  ret part.

(** [pending_events_[receptionId] = getLastLoadedEvent()]; a null pointer there is as
    good as no entry. *)
Definition register_pending (receptionId : Z) (s : Server OS) : Server OS :=
  with_pending (partial_alter (fun _ => last_loaded_event_ (s_data s)) receptionId (pending_events_ s)) s.

Definition busy_threads (current : Z) (s : Server OS) : Server OS :=
  if (0 <? current) && (max_busy_threads_ s <? current) then with_busy current s else s.

(** [provision->transform(...)]: the provision is the one of the map. *)
Definition run_transform (q : Incoming) (rp : Reply) (normalizedUri : string) (qmap : gmap string string)
    (chainVariables : gmap string string) (p : AdminServerProvision) : M (Server OS) (Transformed (OS := OS)) := fun s =>
  let '(td, o) := transform multipart_decode ub report_text normalizedUri (in_path q) qmap (DataPart_of (in_body q))
                    (in_headers q) (in_receptionId q) (rp_body rp) chainVariables (employ p) (s_world s) in
  let s := with_sworld (td_world td) (with_provisions (pd_update (td_provision td) (s_provisions s)) s) in
  match o with Val _ => (s, Val td) | Throw e => (s, Throw e) end.

Definition fire_triggers (l : list (string * string)) (s : Server OS) : Server OS :=
  with_triggered ((fun done => done ++ l) <$> client_provision_trigger_ s) s.

(** The storage of a provisioned request. *)
Definition store_provisioned (q : Incoming) (key : DataKey) (normalizedUri inState : string) (td : Transformed (OS := OS)) (rp : Reply)
    : M (Server OS) unit :=
  let resp := td_resp td in
  let hasVirtualMethod := negb (sempty (outStateMethod resp)) in
  do s <- get ;;
  if negb (server_data_ s) then ret tt
  else
    let history := server_data_key_history_ s in
    let provisionUri := request_uri_ (td_provision td) in
    let key := setProvisionUri provisionUri key in
    do part <- server_loadEvent key inState (if hasVirtualMethod then out_state_ (td_provision td) else outState resp)
                 q rp (td_body td) history "" "" ;;
    modify (register_pending (in_receptionId q)) ;;;
    modify (on_data (storeChainVariables key (td_vars td))) ;;;
    if hasVirtualMethod then
      let uri := if sempty (outStateUri resp) then normalizedUri else outStateUri resp in
      let foreignKey := setProvisionUri provisionUri (DataKey2 (outStateMethod resp) uri) in
      server_loadEvent foreignKey inState (outState resp) q rp part history (in_method q) normalizedUri ;;; ret tt
    else ret tt.

(** The purge of the key of the request. *)
Definition purge_key (key : DataKey) (s : Server OS) : Server OS :=
  let '(_, somethingDeleted, d) := clear (EventKey_of key "") (s_data s) in
  count (inc_purged somethingDeleted) (on_data (fun _ => d) s).

(** After the transformation: the triggers, the purge or the storage, the counter. *)
Definition answer (q : Incoming) (key : DataKey) (normalizedUri inState : string) (td : Transformed (OS := OS))
    : M (Server OS) Reply :=
  let resp := td_resp td in
  let rp := mkReply (responseStatusCode resp) (responseHeaders resp) (responseBody resp) (responseDelayMs resp) in
  modify (fire_triggers (clientProvisionTriggers resp)) ;;;
  do s <- get ;;
  (if purge_execution_ s && bool_decide (outState resp = "purge")
   then modify (purge_key key)
   else store_provisioned q key normalizedUri inState td rp) ;;;
  modify (count (inc_provisioned true)) ;;;
  ret rp.

(** Without provision the answer is 501, and the event is stored all the same. *)
Definition answer_501 (q : Incoming) (key : DataKey) (rp : Reply) : M (Server OS) Reply :=
  let rp := mkReply 501 (rp_headers rp) (rp_body rp) (rp_delayMs rp) in
  do s <- get ;;
  (if server_data_ s
   then server_loadEvent key "" "" q rp (DataPart_of (in_body q)) true "" "" ;;;
        modify (register_pending (in_receptionId q))
   else ret tt) ;;;
  modify (count (inc_provisioned false)) ;;;
  ret rp.

(** [receive] *)
Definition receive (q : Incoming) (rp : Reply) : M (Server OS) Reply :=
  modify (busy_threads (in_busyThreads q)) ;;;
  do s <- get ;;
  do '(normalizedUri, classificationUri, qmap) <- lift (traffic_uris (s_matching s) (in_path q) (in_query q)) ;;
  let key := DataKey2 (in_method q) normalizedUri in
  match findLastRegisteredRequestState key (s_data s) with
  | None => throw undefined
  | Some (_, inState, chainVariables) =>
      match traffic_find (s_matching s) (s_provisions s) inState (in_method q) classificationUri with
      | Some p =>
          do td <- run_transform q rp normalizedUri qmap chainVariables p ;;
          answer q key normalizedUri inState td
      | None => answer_501 q key rp
      end
  end.

(** ** The end of a stream *)

(** [streamClose] at the time [now]. *)
Definition streamClose (receptionId now : Z) (s : Server OS) : Server OS :=
  if server_data_ s then
    match pending_events_ s !! receptionId with
    | Some l => on_data (update_event l (setSendingTimestampUs now)) (with_pending (delete receptionId (pending_events_ s)) s)
    | None => s
    end
  else s.

Definition stream_error_key (receptionId : Z) (method path : string) : string :=
  "__core:stream-error-traffic-server:" +:+ to_string_u receptionId +:+ ":" +:+ method +:+ ":" +:+ path.

(** [streamError]: an entry of the vault; writing it may throw as any other. *)
Definition streamError (errorCode receptionId : Z) (method path : string) : M (Server OS) unit := fun s =>
  let '(v, o) := vault_load (stream_error_key receptionId method path) (JString (to_string_u errorCode)) (w_vault (s_world s)) in
  (with_sworld (with_vault v (s_world s)) s, o).

Definition response_delay_key (receptionId : Z) : string := "__core:response-delay-ms:" +:+ to_string_u receptionId.

(** [responseDelayMs]: the additional delay the vault has for the request. *)
Definition server_responseDelayMs (receptionId : Z) (s : Server OS) : outcome Z :=
  match v_tryGet (response_delay_key receptionId) (w_vault (s_world s)) with
  | None => Val 0
  | Some val =>
      let! valStr := jsonToString val in
      match stoll valStr with
      | Val ms => Val ms
      | Throw invalid_argument | Throw out_of_range => Val 0
      | Throw e => Throw e
      end
  end.

(** ** Configuration *)

(** The switches, from the command line or the administration interface. *)
Definition with_switches (store history purge receive_body pre_reserve : bool) (s : Server OS) : Server OS :=
  mkServer (s_matching s) (s_provisions s) (s_world s) store history purge receive_body pre_reserve (metrics_ s)
    (max_busy_threads_ s) (pending_events_ s) (client_provision_trigger_ s).
Definition discardData (discard : bool) (s : Server OS) : Server OS :=
  with_switches (negb discard) (server_data_key_history_ s) (purge_execution_ s) (receive_request_body_ s) (pre_reserve_request_body_ s) s.
Definition discardDataKeyHistory (discard : bool) (s : Server OS) : Server OS :=
  with_switches (server_data_ s) (negb discard) (purge_execution_ s) (receive_request_body_ s) (pre_reserve_request_body_ s) s.
Definition disablePurge (disable : bool) (s : Server OS) : Server OS :=
  with_switches (server_data_ s) (server_data_key_history_ s) (negb disable) (receive_request_body_ s) (pre_reserve_request_body_ s) s.
Definition setReceiveRequestBody (receive : bool) (s : Server OS) : Server OS :=
  with_switches (server_data_ s) (server_data_key_history_ s) (purge_execution_ s) receive (pre_reserve_request_body_ s) s.
Definition setPreReserveRequestBody (preReserve : bool) (s : Server OS) : Server OS :=
  with_switches (server_data_ s) (server_data_key_history_ s) (purge_execution_ s) (receive_request_body_ s) preReserve s.

Definition receiveDataLen (s : Server OS) : bool := receive_request_body_ s.
Definition preReserveRequestBody (s : Server OS) : bool := pre_reserve_request_body_ s.

Definition dataConfigurationAsJsonString (s : Server OS) : outcome string :=
  json_dump (json_set "needsStorage" (JBool (pd_needsStorage (s_provisions s)))
    (json_set "purgeExecution" (JBool (purge_execution_ s))
      (json_set "storeEventsKeyHistory" (JBool (server_data_key_history_ s))
        (json_set "storeEvents" (JBool (server_data_ s)) JNull)))).

Definition configurationAsJsonString (s : Server OS) : outcome string :=
  json_dump (json_set "preReserveRequestBody" (JBool (pre_reserve_request_body_ s))
    (json_set "receiveRequestBody" (JBool (receive_request_body_ s)) JNull)).

End Traffic.

(** ** What the transformation does to the data *)


Lemma data_remove_heap `{EventType E} k seq (d : MockData E) :
  heap_ (data_removeEventBySeq k seq d).2 = heap_ d /\
  last_loaded_event_ (data_removeEventBySeq k seq d).2 = last_loaded_event_ d.
Proof.
  unfold data_removeEventBySeq. destruct (map_ d !! key_ k) as [h|]; [|done].
  destruct (removeEventBySeq _ _ _) as [b h']. by destruct (b && _).
Qed.

Lemma clear_heap `{EventType E} ek (d : MockData E) :
  heap_ (clear ek d).2 = heap_ d /\ last_loaded_event_ (clear ek d).2 = last_loaded_event_ d.
Proof.
  unfold clear. destruct (ek_empty ek); [done|]. destruct (negb _); [done|].
  destruct (map_ d !! _) as [h|]; [|done]. destruct (hasNumber ek); [|done]. destruct (negb _); [done|].
  by destruct (removeEvent _ _ _).
Qed.

Lemma any_item `{RegexLib} t : all_items (fun _ => true) t = true.
Proof.
  induction t as [item offs IH] using Transformation_induction. cbn.
  induction IH as [|x l Hx _ IHl]; [done|]. cbn. by rewrite Hx.
Qed.

Section Frame.
Context `{JsonEq} `{JsonText} `{JsonPointer} `{RegexLib} `{SchemaLib} `{Calculus} {OS : Type} `{Outside OS}.
Context (decode_url : string -> string) (multipart_decode : string -> string -> list mp_event)
  (ub : double -> Z) (report_text : fail_report -> outcome string).

(** The events keep their places, and the histories stay whole. *)
Definition data_safe (d d' : MockData MockServerEvent) : Prop :=
  (heap_ d' = heap_ d /\ last_loaded_event_ d' = last_loaded_event_ d) /\ (data_inv d -> data_inv d').

#[local] Instance data_safe_preorder : PreOrder data_safe.
Proof. split; [by split|]. intros d1 d2 d3 [[E1 L1] H1'] [[E2 L2] H2']. split; [split; congruence|auto]. Qed.

Definition run_safe (r r' : Run Response OS) : Prop := data_safe (w_server (r_world r)) (w_server (r_world r')).

#[local] Instance run_safe_preorder : PreOrder run_safe.
Proof. split; [by intros r|]. intros r1 r2 r3 A B. unfold run_safe in *. by etransitivity. Qed.

Lemma quiet_safe r r' : quiet r r' -> run_safe r r'.
Proof. intros (_ & _ & _ & _ & E & _). unfold run_safe. by rewrite E. Qed.

Lemma target_frame_safe ty r r' : purge_type ty = false -> target_frame ty r r' -> run_safe r r'.
Proof. intros Hp (_ & _ & _ & _ & _ & E & _). unfold run_safe. by rewrite E. Qed.

Lemma target_purge_safe t eraser : keeps run_safe (target_purge (OS := OS) t eraser).
Proof.
  unfold target_purge. destruct (negb eraser); [refine (keeps_ret _ _)|].
  refine (keeps_bind _ _ _ _ _); [eapply keeps_impl; [apply quiet_safe|apply quiet_replace_all]|].
  intros f r. unfold bind, get. cbn [fst]. destruct (negb _).
  - unfold lift, modify, ret. destruct (stoull _) as [n|]; [|done].
    pose proof (data_remove_heap (DataKey2 (nth 0 f "") (nth 1 f "")) n (w_server (r_world r))) as Hh.
    pose proof (data_inv_remove (DataKey2 (nth 0 f "") (nth 1 f "")) n (w_server (r_world r))) as Hi.
    destruct (data_removeEventBySeq _ _ _) as [b d']. split; [exact Hh|exact Hi].
  - unfold modify, ret.
    pose proof (clear_heap (EventKey2 (nth 0 f "") (nth 1 f "") (nth 2 f "")) (w_server (r_world r))) as Hh.
    pose proof (data_inv_clear (EventKey2 (nth 0 f "") (nth 1 f "") (nth 2 f "")) (w_server (r_world r))) as Hi.
    destruct (clear _ _) as [[b1 b2] d']. split; [exact Hh|exact Hi].
Qed.

Lemma processTargets_safe t ms eraser : keeps run_safe (processTargets (OS := OS) ub t ms eraser).
Proof.
  destruct (purge_type (target_type_ (it_target t))) eqn:Hp.
  - unfold processTargets, target_switch.
    destruct (target_type_ (it_target t)) eqn:Ht; try discriminate Hp.
    refine (keeps_catch _ _ _ _ _); [|intros e; refine (keeps_ret _ _)].
    refine (keeps_bind _ _ _ _ _); [eapply keeps_impl; [apply quiet_safe|apply quiet_replace]|intros tg].
    refine (keeps_bind _ _ _ _ _); [|intros tg2; apply target_purge_safe].
    destruct (sempty _); [refine (keeps_ret _ _)|eapply keeps_impl; [apply quiet_safe|apply quiet_replace]].
  - eapply keeps_impl; [intros s s'; apply (target_frame_safe _ s s' Hp)|apply processTargets_frame].
Qed.

Lemma transform_items_safe in_state body q uses l :
  keeps run_safe (transform_items (OS := OS) ub report_text in_state body q uses l).
Proof.
  apply (transform_items_keeps ub report_text run_safe (fun _ => true)).
  - intros item. eapply keeps_impl; [apply quiet_safe|apply processSources_quiet].
  - intros item f. eapply keeps_impl; [apply quiet_safe|apply processFilters_quiet].
  - intros item ms e _. apply processTargets_safe.
  - apply any_items.
Qed.

(** The fields of a provision that a run does not change: all but the caches. *)
Definition same_provision (p p' : AdminServerProvision) : Prop :=
  pr_key p' = pr_key p /\ request_uri_ p' = request_uri_ p /\ out_state_ p' = out_state_ p /\
  transformations_ p' = transformations_ p /\ employed_ p' = employed_ p.

Lemma request_schema_same schemas p : same_provision p (getRequestSchema schemas p).2.
Proof. unfold getRequestSchema. cbn. by destruct (sempty _). Qed.
Lemma response_schema_same schemas p : same_provision p (getResponseSchema schemas p).2.
Proof. unfold getResponseSchema. cbn. by destruct (sempty _). Qed.

Lemma transform_end_frame p body uses (r : Run Response OS) :
  same_provision p (td_provision (transform_end p body uses r)) /\ td_world (transform_end p body uses r) = r_world r.
Proof.
  unfold transform_end. pose proof (response_schema_same (w_schemas (r_world r)) p) as Hs.
  destruct (getResponseSchema (w_schemas (r_world r)) p) as [rs p']. by split.
Qed.

Lemma transform_frame uri path params body headers seq body0 vars p (w : World OS) :
  let td := (transform multipart_decode ub report_text uri path params body headers seq body0 vars p w).1 in
  same_provision p (td_provision td) /\ data_safe (w_server w) (w_server (td_world td)).
Proof.
  cbn zeta. unfold transform. pose proof (request_schema_same (w_schemas w) p) as Hs.
  destruct (getRequestSchema (w_schemas w) p) as [qs p']. cbn [snd] in Hs.
  match goal with |- context [match ?b with Val _ => _ | Throw _ => _ end] => destruct b as [part|e] end; [|by split].
  match goal with |- context [match ?b with Some _ => _ | None => _ end] => destruct b as [td|] eqn:Hr end.
  { destruct qs as [s|]; [|done]. destruct (AdminSchema_validate _ _); [|done]. injection Hr as <-. by split. }
  match goal with |- context [transform_items ?a ?b ?c ?d ?e ?f ?g ?r0] =>
    pose proof (transform_items_safe c d e f g r0) as Hw; destruct (transform_items a b c d e f g r0) as [r [u|e']] end;
    cbn [fst].
  - destruct (transform_end_frame p' part (existsb is_json_target (transformations_ p')) r) as [Hs' ->].
    split; [|exact Hw]. destruct Hs as (?&?&?&?&?), Hs' as (?&?&?&?&?). unfold same_provision. split_and!; congruence.
  - split; [exact Hs|exact Hw].
Qed.
End Frame.

(** ** Invariant *)

Section TrafficInvariant.
Context `{JsonEq} `{JsonText} `{JsonPointer} `{RegexLib} `{SchemaLib} `{Calculus} {OS : Type} `{Outside OS}.
Context (decode_url : string -> string) (multipart_decode : string -> string -> list mp_event)
  (ub : double -> Z) (report_text : fail_report -> outcome string).

(** Whole histories, consistent provisions, and no pointer to a missing event. *)
Definition traffic_inv (s : Server OS) : Prop :=
  data_inv (s_data s) /\ pd_inv (s_provisions s) /\
  (forall l, last_loaded_event_ (s_data s) = Some l -> (l < length (heap_ (s_data s)))%nat) /\
  (forall id l, pending_events_ s !! id = Some l -> (l < length (heap_ (s_data s)))%nat).

Definition inv_kept (s s' : Server OS) : Prop := traffic_inv s -> traffic_inv s'.
#[local] Instance inv_kept_preorder : PreOrder inv_kept.
Proof. split; [intros s Hs; exact Hs|]. intros s1 s2 s3 A B. unfold inv_kept in *. auto. Qed.

Lemma traffic_find_in c d inState method uri p :
  traffic_find c d inState method uri = Some p -> exists k, pd_map d !! k = Some p.
Proof.
  unfold traffic_find. intros Hf.
  assert (forall u, pd_find inState method u d = Some p -> exists k, pd_map d !! k = Some p) as Hpd by (intros u E; by eexists).
  destruct (algorithm c).
  - destruct (pd_find inState method uri d) as [p'|] eqn:E; [simplify_eq|]; eauto.
  - destruct (pd_find inState method (regex_replace _ _ _) d) as [p'|] eqn:E; [simplify_eq|]; eauto.
  - destruct (pd_findRegexMatching inState method uri d) as [p'|] eqn:E; [simplify_eq|eauto].
    apply find_matching_Some in E as (_ & k & _ & _ & ? & _). eauto.
Qed.

Lemma pd_inv_update p p' d :
  pd_inv d -> pd_map d !! pr_key p = Some p -> pr_key p' = pr_key p -> pd_inv (pd_update p' d).
Proof.
  intros (Hnd & Hk & Hp) Hin E. unfold pd_update. rewrite E. split_and!; cbn; [done| |].
  - intros k. rewrite Hk. destruct (decide (k = pr_key p)) as [->|Hne].
    + rewrite lookup_insert_eq, Hin. split; eauto.
    + by rewrite lookup_insert_ne.
  - intros k p0. destruct (decide (k = pr_key p)) as [->|Hne].
    + rewrite lookup_insert_eq. intros [= <-]. done.
    + rewrite lookup_insert_ne by done. apply Hp.
Qed.

Lemma loadEvent_range `{EventType E} k (e : E) b d l :
  wf_key k -> data_inv d -> last_loaded_event_ (data_loadEvent k e b d) = Some l ->
  (l < length (heap_ (data_loadEvent k e b d)))%nat.
Proof.
  intros Hk Hd Hl. pose proof (data_inv_load k e b d Hk Hd) as Hd'. unfold data_loadEvent in *.
  destruct (getEvents k d) as [h m]. cbn [last_loaded_event_ heap_ map_] in *. rewrite history_getEvent_last in Hl.
  destruct (Hd' (key_ k) (history_loadEvent (length (heap_ d)) b h)) as (_ & Hf & _); [apply lookup_insert_eq|].
  apply last_Some_elem_of in Hl. rewrite Forall_forall in Hf. by apply Hf.
Qed.

Lemma loadEvent_heap `{EventType E} k (e : E) b d : heap_ (data_loadEvent k e b d) = heap_ d ++ [e].
Proof. unfold data_loadEvent. by destruct (getEvents k d). Qed.

Lemma on_load_inv k e b s : wf_key k -> inv_kept s (on_data (data_loadEvent k e b) s).
Proof.
  intros Hk (Hd & Hp & Hl & Hpend). split_and!; cbn; [by apply data_inv_load|done| |].
  - intros l E. by eapply loadEvent_range.
  - intros id l E. change (w_server (s_world s)) with (s_data s). rewrite loadEvent_heap, length_app. cbn.
    specialize (Hpend _ _ E). lia.
Qed.

Lemma on_safe_inv f s : data_safe (s_data s) (f (s_data s)) -> inv_kept s (on_data f s).
Proof.
  intros [[Hh Hll] Hi] (Hd & Hp & Hl & Hpend). split_and!; cbn; [by apply Hi|done| |];
    change (w_server (s_world s)) with (s_data s); rewrite ?Hh, ?Hll; done.
Qed.

Lemma clear_safe ek (d : MockData MockServerEvent) : data_safe d (clear ek d).2.
Proof. split; [apply clear_heap|apply data_inv_clear]. Qed.
Lemma chain_safe k vars (d : MockData MockServerEvent) : data_safe d (storeChainVariables k vars d).
Proof.
  split; [|apply data_inv_chain]. unfold storeChainVariables. by destruct (map_ d !! key_ k).
Qed.

Lemma server_loadEvent_inv k ps st q rp part b om ou : wf_key k ->
  keeps inv_kept (server_loadEvent (OS := OS) multipart_decode k ps st q rp part b om ou).
Proof.
  intros Hk. unfold server_loadEvent. refine (keeps_bind _ _ _ _ _); [refine (keeps_lift _ _)|].
  intros [e p]. refine (keeps_bind _ _ _ _ _); [|intros _; refine (keeps_ret _ _)].
  intros s. by apply on_load_inv.
Qed.

Lemma register_pending_inv id : keeps inv_kept (modify (register_pending (OS := OS) id)).
Proof.
  intros s (Hd & Hp & Hl & Hpend). split_and!; cbn; [done..|]. intros id' l.
  destruct (decide (id = id')) as [->|Hne].
  - rewrite lookup_partial_alter. rewrite decide_True by done. apply Hl.
  - rewrite lookup_partial_alter_ne by done. apply Hpend.
Qed.

Lemma store_provisioned_inv q m u ns st td rp :
  keeps inv_kept (store_provisioned (OS := OS) multipart_decode q (DataKey2 m u) ns st td rp).
Proof.
  unfold store_provisioned. refine (keeps_bind _ _ _ _ _); [refine (keeps_get _)|]. intros s.
  destruct (server_data_ s); cbn [negb]; [|refine (keeps_ret _ _)].
  refine (keeps_bind _ _ _ _ _); [apply server_loadEvent_inv; auto with h2|]. intros part.
  refine (keeps_bind _ _ _ _ _); [apply register_pending_inv|]. intros _.
  refine (keeps_bind _ _ _ _ _); [intros s'; apply on_safe_inv, chain_safe|]. intros _.
  destruct (negb _); [|refine (keeps_ret _ _)].
  refine (keeps_bind _ _ _ _ _); [apply server_loadEvent_inv; auto with h2|]. intros _. refine (keeps_ret _ _).
Qed.

Lemma purge_key_inv k : keeps inv_kept (modify (purge_key (OS := OS) k)).
Proof.
  intros s Hs. unfold modify, purge_key. cbn [fst]. pose proof (clear_safe (EventKey_of k "") (s_data s)) as Hc.
  destruct (clear _ _) as [[b1 b2] d]. exact (on_safe_inv (fun _ => d) s Hc Hs).
Qed.

Lemma run_transform_inv q rp uri qmap vars p s : pd_map (s_provisions s) !! pr_key p = Some p ->
  inv_kept s (run_transform multipart_decode ub report_text q rp uri qmap vars p s).1.
Proof.
  intros Hp (Hd & Hpd & Hl & Hpend). unfold run_transform.
  pose proof (transform_frame multipart_decode ub report_text uri (in_path q) qmap (DataPart_of (in_body q)) (in_headers q)
                (in_receptionId q) (rp_body rp) vars (employ p) (s_world s)) as Hf.
  destruct (transform _ _ _ _ _ _ _ _ _ _ _ _ _) as [td o]. cbn [fst] in Hf.
  destruct Hf as [(Hk & _) [[Hh Hll] Hi]].
  assert (traffic_inv (with_sworld (td_world td) (with_provisions (pd_update (td_provision td) (s_provisions s)) s))) as Hinv.
  { unfold traffic_inv, s_data in *. split_and!; cbn; [by apply Hi|by eapply pd_inv_update| |]; rewrite ?Hh, ?Hll; done. }
  by destruct o.
Qed.

Lemma answer_inv q m u nu st td : keeps inv_kept (answer (OS := OS) multipart_decode q (DataKey2 m u) nu st td).
Proof.
  unfold answer. refine (keeps_bind _ _ _ _ _); [intros s1 Hs1; exact Hs1|intros _].
  refine (keeps_bind _ _ _ _ _); [refine (keeps_get _)|intros s]. refine (keeps_bind _ _ _ _ _).
  - destruct (_ && _); [apply purge_key_inv|apply store_provisioned_inv].
  - intros _. refine (keeps_bind _ _ _ _ _); [intros s1 Hs1; exact Hs1|intros _]. refine (keeps_ret _ _).
Qed.

Lemma answer_501_inv q m u rp : keeps inv_kept (answer_501 (OS := OS) multipart_decode q (DataKey2 m u) rp).
Proof.
  unfold answer_501. refine (keeps_bind _ _ _ _ _); [refine (keeps_get _)|intros s]. refine (keeps_bind _ _ _ _ _).
  - destruct (server_data_ _); [|refine (keeps_ret _ _)].
    refine (keeps_bind _ _ _ _ _); [apply server_loadEvent_inv; auto with h2|]. intros _. apply register_pending_inv.
  - intros _. refine (keeps_bind _ _ _ _ _); [intros s1 Hs1; exact Hs1|intros _]. refine (keeps_ret _ _).
Qed.

(** A request keeps the invariant, however it ends. *)
Lemma receive_inv q rp : keeps inv_kept (receive (OS := OS) decode_url multipart_decode ub report_text q rp).
Proof.
  unfold receive. refine (keeps_bind _ _ _ _ _).
  { intros s Hs. unfold modify, busy_threads. cbn [fst]. destruct (_ && _); exact Hs. }
  intros _ s Hs. unfold bind at 1, get at 1. unfold bind at 1, lift at 1.
  destruct (traffic_uris _ _ _ _) as [[[nu cu] qm]|e]; [|exact Hs].
  destruct (findLastRegisteredRequestState _ _) as [[[b st] cv]|]; [|exact Hs].
  destruct (traffic_find _ _ _ _ _) as [p|] eqn:Hf; [|by apply answer_501_inv].
  assert (pd_map (s_provisions s) !! pr_key p = Some p) as Hp.
  { apply traffic_find_in in Hf as [k Hk]. destruct Hs as (_ & (_ & _ & Hkey) & _). by rewrite (Hkey _ _ Hk). }
  pose proof (run_transform_inv q rp nu qm cv p s Hp Hs) as Hs1. unfold bind at 1.
  destruct (run_transform _ _ _ _ _ _ _ _ _ _) as [s1 [td|e]]; [|exact Hs1]. by apply answer_inv.
Qed.
End TrafficInvariant.

(** ** Runs of the server *)

Section Runs.
Context `{JsonEq} `{JsonText} `{JsonPointer} `{RegexLib} `{SchemaLib} `{Calculus} {OS : Type} `{Outside OS}.
Context (decode_url : string -> string) (multipart_decode : string -> string -> list mp_event)
  (ub : double -> Z) (report_text : fail_report -> outcome string) (valid : json -> bool).

(** A new matching configuration. *)
Definition with_matching (c : Config) (s : Server OS) : Server OS :=
  mkServer c (s_provisions s) (s_world s) (server_data_ s) (server_data_key_history_ s) (purge_execution_ s)
    (receive_request_body_ s) (pre_reserve_request_body_ s) (metrics_ s) (max_busy_threads_ s) (pending_events_ s)
    (client_provision_trigger_ s).

(** A server without provisions and events. *)
Definition fresh (s : Server OS) : Prop :=
  s_data s = MockData_empty /\ s_provisions s = ProvisionData_new /\ pending_events_ s = ∅.

(** Traffic and administration, one operation after the other. *)
Inductive traffic_step : Server OS -> Server OS -> Prop :=
| ts_receive q rp s : traffic_step s (receive decode_url multipart_decode ub report_text q rp s).1
| ts_close id now s : traffic_step s (streamClose id now s)
| ts_error code id m path s : traffic_step s (streamError code id m path s).1
| ts_metrics registered s : traffic_step s (enableMyMetrics registered s)
| ts_trigger s : traffic_step s (setClientProvisionTrigger s)
| ts_discard b s : traffic_step s (discardData b s)
| ts_discard_history b s : traffic_step s (discardDataKeyHistory b s)
| ts_disable_purge b s : traffic_step s (disablePurge b s)
| ts_receive_body b s : traffic_step s (setReceiveRequestBody b s)
| ts_pre_reserve b s : traffic_step s (setPreReserveRequestBody b s)
| ts_matching j s : traffic_step s (with_matching (matching_load valid j (s_matching s)).1 s)
| ts_load rm j s : traffic_step s (with_provisions (pd_load decode_url ub valid rm j (s_provisions s)).1 s)
| ts_unload s : traffic_step s (with_provisions (pd_clear (s_provisions s)).2 s)
| ts_clear ek s : traffic_step s (on_data (fun d => (clear ek d).2) s).

Lemma fresh_inv s : fresh s -> traffic_inv s.
Proof.
  intros (Hd & Hp & Hpend). unfold traffic_inv. rewrite Hd, Hp, Hpend. split_and!; [|apply pd_inv_new|done|].
  - apply map_Forall_empty.
  - intros id l. by rewrite lookup_empty.
Qed.

Lemma streamClose_inv id now s : inv_kept s (streamClose (OS := OS) id now s).
Proof.
  intros (Hd & Hp & Hl & Hpend). unfold streamClose. destruct (server_data_ s); [|done].
  destruct (pending_events_ s !! id) as [l|]; [|done].
  assert (forall x f, length (heap_ (update_event x f (s_data s))) = length (heap_ (s_data s))) as Hlen
    by (intros x f; apply length_alter).
  unfold traffic_inv, s_data in *. split_and!; cbn -[update_event].
  - by apply data_inv_update.
  - done.
  - intros l'. rewrite Hlen. apply Hl.
  - intros id' l' [_ E]%lookup_delete_Some. rewrite Hlen. by eapply Hpend.
Qed.

Lemma traffic_step_inv s s' : traffic_step s s' -> traffic_inv s -> traffic_inv s'.
Proof.
  destruct 1; intros Hs; try exact Hs.
  - by apply receive_inv.
  - by apply streamClose_inv.
  - unfold streamError. by destruct (vault_load _ _ _).
  - destruct Hs as (Hd & Hp & Hl & Hpend). split_and!; cbn; [done| |done..].
    apply (pd_step_inv decode_url ub valid (s_provisions s)); [apply pd_step_load|done].
  - destruct Hs as (Hd & Hp & Hl & Hpend). split_and!; cbn; [done| |done..]. apply pd_inv_new.
  - by apply on_safe_inv; [apply clear_safe|].
Qed.

Lemma traffic_reachable_inv s0 s : fresh s0 -> rtc traffic_step s0 s -> traffic_inv s.
Proof.
  intros Hf Hr. assert (traffic_inv s0) as Hs by (by apply fresh_inv). clear Hf.
  induction Hr as [|? s1 ? Hst _ IH]; [done|]. apply IH. by eapply traffic_step_inv.
Qed.

Lemma traffic_inv_state s k : traffic_inv s -> exists r, findLastRegisteredRequestState k (s_data (OS := OS) s) = Some r.
Proof.
  intros (Hd & _). unfold findLastRegisteredRequestState. destruct (map_ (s_data s) !! key_ k) as [h|] eqn:E; [|eauto].
  apply Hd in E. apply last_state_defined in E as [st E]. rewrite E. cbn. eauto.
Qed.

(** [receive] without the monad, and what it is once its lookups are known. *)
Lemma receive_eq q rp s :
  receive decode_url multipart_decode ub report_text q rp s =
  let s' := busy_threads (in_busyThreads q) s in
  match traffic_uris decode_url (s_matching s) (in_path q) (in_query q) with
  | Throw e => (s', Throw e)
  | Val (nu, cu, qm) =>
      match findLastRegisteredRequestState (DataKey2 (in_method q) nu) (s_data s) with
      | None => (s', Throw undefined)
      | Some (_, st, cv) =>
          match traffic_find (s_matching s) (s_provisions s) st (in_method q) cu with
          | Some p => (do td <- run_transform multipart_decode ub report_text q rp nu qm cv p ;;
                       answer multipart_decode q (DataKey2 (in_method q) nu) nu st td) s'
          | None => answer_501 multipart_decode q (DataKey2 (in_method q) nu) rp s'
          end
      end
  end.
Proof.
  unfold receive. unfold bind at 1, modify at 1. unfold bind at 1, get at 1.
  assert (s_matching (busy_threads (in_busyThreads q) s) = s_matching s /\ s_data (busy_threads (in_busyThreads q) s) = s_data s /\
          s_provisions (busy_threads (in_busyThreads q) s) = s_provisions s) as (-> & -> & ->)
    by (unfold busy_threads; by destruct (_ && _)).
  unfold bind at 1, lift at 1. destruct (traffic_uris _ _ _ _) as [[[nu cu] qm]|]; [|done]. cbn zeta.
  destruct (findLastRegisteredRequestState _ _) as [[[b st] cv]|]; [|done]. by destruct (traffic_find _ _ _ _ _).
Qed.

Lemma receive_provisioned q rp s nu cu qm b st cv p :
  traffic_uris decode_url (s_matching s) (in_path q) (in_query q) = Val (nu, cu, qm) ->
  findLastRegisteredRequestState (DataKey2 (in_method q) nu) (s_data s) = Some (b, st, cv) ->
  traffic_find (s_matching s) (s_provisions s) st (in_method q) cu = Some p ->
  receive decode_url multipart_decode ub report_text q rp s =
  (do td <- run_transform multipart_decode ub report_text q rp nu qm cv p ;;
   answer multipart_decode q (DataKey2 (in_method q) nu) nu st td) (busy_threads (in_busyThreads q) s).
Proof.
  intros Hu Hl Hf. by rewrite receive_eq, Hu, Hl, Hf.
Qed.

Lemma receive_unprovisioned q rp s nu cu qm b st cv :
  traffic_uris decode_url (s_matching s) (in_path q) (in_query q) = Val (nu, cu, qm) ->
  findLastRegisteredRequestState (DataKey2 (in_method q) nu) (s_data s) = Some (b, st, cv) ->
  traffic_find (s_matching s) (s_provisions s) st (in_method q) cu = None ->
  receive decode_url multipart_decode ub report_text q rp s =
  answer_501 multipart_decode q (DataKey2 (in_method q) nu) rp (busy_threads (in_busyThreads q) s).
Proof.
  intros Hu Hl Hf. by rewrite receive_eq, Hu, Hl, Hf.
Qed.
End Runs.

(** ** The state of a key after a storage *)

Section Stored.
Context `{EventType E}.

Lemma find_key (k k' : DataKey) (d : MockData E) :
  key_ k = key_ k' -> findLastRegisteredRequestState k d = findLastRegisteredRequestState k' d.
Proof. unfold findLastRegisteredRequestState. by intros ->. Qed.

(** A stored event with the chain variables of its key. *)
Lemma load_chain_find k e (d : MockData E) vars :
  findLastRegisteredRequestState k (storeChainVariables k vars (data_loadEvent k e true d))
  = Some (effective_state (getState e) vars).
Proof.
  unfold findLastRegisteredRequestState, storeChainVariables, data_loadEvent.
  destruct (getEvents k d) as [h m]. cbn [map_ heap_ with_map]. rewrite lookup_insert_eq. cbn [map_ heap_ with_map].
  rewrite lookup_insert_eq. unfold getLastRegisteredRequestState. cbn [events_ setChainVariables].
  rewrite history_loadEvent_last by (by left). cbn.
  rewrite lookup_app_r, Nat.sub_diag by done. cbn. unfold effective_state. by destruct (sempty (getState e)).
Qed.

Lemma load_find_other k k' e b (d : MockData E) :
  data_inv d -> key_ k' <> key_ k ->
  findLastRegisteredRequestState k' (data_loadEvent k e b d) = findLastRegisteredRequestState k' d.
Proof.
  intros Hd Hne. unfold findLastRegisteredRequestState. 
  assert (map_ (data_loadEvent k e b d) !! key_ k' = map_ d !! key_ k') as ->.
  { unfold data_loadEvent. destruct (getEvents k d). cbn. by apply lookup_insert_ne. }
  destruct (map_ d !! key_ k') as [h|] eqn:Eh; [|done]. rewrite loadEvent_heap.
  unfold getLastRegisteredRequestState. destruct (last (events_ h)) as [l|] eqn:El; [|done]. cbn.
  destruct (Hd _ _ Eh) as (_ & Hf & _). apply last_Some_elem_of in El. rewrite Forall_forall in Hf.
  by rewrite lookup_app_l by (by apply Hf).
Qed.
End Stored.

Lemma loaded_state `{JsonText} scan ps st ts code h1 h2 part body seq dl om ou e part' :
  MockServerEvent_load scan ps st ts code h1 h2 part body seq dl om ou = Val (e, part') ->
  getState e = st /\ recv_seq_ e = seq /\ previous_state_ (se_base e) = ps /\ response_status_code_ (se_base e) = to_u32 code.
Proof.
  unfold MockServerEvent_load. intros (p1 & _ & Hl)%obind_val. apply obind_val in Hl as (p2 & _ & Hl). by injection Hl as <- <-.
Qed.

(** ** Storage of a provisioned request *)

Section Storage.
Context `{JsonEq} `{JsonText} `{JsonPointer} `{RegexLib} `{SchemaLib} `{Calculus} {OS : Type} `{Outside OS}.
Context (decode_url : string -> string) (multipart_decode : string -> string -> list mp_event)
  (ub : double -> Z) (report_text : fail_report -> outcome string).

Lemma server_loadEvent_val k ps st q rp part b om ou (s s' : Server OS) part' :
  server_loadEvent multipart_decode k ps st q rp part b om ou s = (s', Val part') ->
  exists e, getState e = st /\ recv_seq_ e = in_receptionId q /\ previous_state_ (se_base e) = ps /\
    response_status_code_ (se_base e) = to_u32 (rp_status rp) /\ s' = on_data (data_loadEvent k e b) s.
Proof.
  unfold server_loadEvent, bind, lift, modify, ret.
  destruct (MockServerEvent_load _ _ _ _ _ _ _ _ _ _ _ _ _) as [[e p]|] eqn:El; [|done].
  apply loaded_state in El as (<- & <- & <- & <-). intros [= <- <-]. by exists e.
Qed.

(** The data after the storage: one event under the key of the request, with its
    chain variables, and one more under the foreign key. *)
Lemma store_provisioned_val q k nu st td rp (s s' : Server OS) :
  server_data_ s = true -> server_data_key_history_ s = true ->
  store_provisioned multipart_decode q k nu st td rp s = (s', Val tt) ->
  let resp := td_resp td in
  let k1 := setProvisionUri (request_uri_ (td_provision td)) k in
  let foreign := setProvisionUri (request_uri_ (td_provision td))
                   (DataKey2 (outStateMethod resp) (if sempty (outStateUri resp) then nu else outStateUri resp)) in
  exists e, recv_seq_ e = in_receptionId q /\ previous_state_ (se_base e) = st /\
    let d1 := storeChainVariables k1 (td_vars td) (data_loadEvent k1 e true (s_data s)) in
    if sempty (outStateMethod resp) then getState e = outState resp /\ s_data s' = d1
    else getState e = out_state_ (td_provision td) /\
         exists e2, getState e2 = outState resp /\ recv_seq_ e2 = in_receptionId q /\ s_data s' = data_loadEvent foreign e2 true d1.
Proof.
  intros Hd Hh. unfold store_provisioned. unfold bind at 1, get at 1. rewrite Hd, Hh. cbn [negb].
  unfold bind at 1. destruct (server_loadEvent _ _ _ _ _ _ _ _ _ _ s) as [s1 [part|]] eqn:E1; [|done].
  apply server_loadEvent_val in E1 as (e & He & Hseq & Hps & _ & ->). unfold bind at 1, modify at 1.
  unfold bind at 1, modify at 1. intros Hr. exists e. split; [done|]. split; [done|]. cbn zeta.
  destruct (sempty (outStateMethod (td_resp td))); cbn [negb] in *.
  - injection Hr as <-. split; [done|]. done.
  - unfold bind at 1 in Hr. destruct (server_loadEvent _ _ _ _ _ _ _ _ _ _ _) as [s2 [part'|]] eqn:E2; [|done].
    injection Hr as <-. apply server_loadEvent_val in E2 as (e2 & He2 & Hseq2 & _ & _ & ->).
    split; [done|]. exists e2. split; [done|]. split; [done|]. done.
Qed.

(** A provisioned request that is not purged ends in the storage of its event. *)
Lemma answer_stores q k nu st td (s s' : Server OS) rp' :
  purge_execution_ s && bool_decide (outState (td_resp td) = "purge") = false ->
  answer multipart_decode q k nu st td s = (s', Val rp') ->
  rp' = mkReply (responseStatusCode (td_resp td)) (responseHeaders (td_resp td)) (responseBody (td_resp td)) (responseDelayMs (td_resp td)) /\
  exists s1, store_provisioned multipart_decode q k nu st td rp' (fire_triggers (clientProvisionTriggers (td_resp td)) s) = (s1, Val tt)
    /\ s' = count (inc_provisioned true) s1.
Proof.
  intros Hp. unfold answer. unfold bind at 1, modify at 1. unfold bind at 1, get at 1. cbn [purge_execution_ fire_triggers with_triggered].
  rewrite Hp. unfold bind at 1. destruct (store_provisioned _ _ _ _ _ _ _ _) as [s1 [[]|]] eqn:Es; [|done].
  unfold bind at 1, modify at 1, ret. intros [= <- <-]. split; [done|]. by exists s1.
Qed.

(** The server a transformation leaves. *)
Definition after_transform (q : Incoming) (td : Transformed (OS := OS)) (s : Server OS) : Server OS :=
  let s := busy_threads (in_busyThreads q) s in
  with_sworld (td_world td) (with_provisions (pd_update (td_provision td) (s_provisions s)) s).

Lemma busy_same n (s : Server OS) :
  s_matching (busy_threads n s) = s_matching s /\ s_world (busy_threads n s) = s_world s /\
  s_provisions (busy_threads n s) = s_provisions s /\ server_data_ (busy_threads n s) = server_data_ s /\
  server_data_key_history_ (busy_threads n s) = server_data_key_history_ s /\
  purge_execution_ (busy_threads n s) = purge_execution_ s /\ pending_events_ (busy_threads n s) = pending_events_ s /\
  metrics_ (busy_threads n s) = metrics_ s.
Proof. unfold busy_threads. by destruct (_ && _). Qed.

Lemma receive_transformed q rp s nu cu qm b st cv p td :
  traffic_uris decode_url (s_matching s) (in_path q) (in_query q) = Val (nu, cu, qm) ->
  findLastRegisteredRequestState (DataKey2 (in_method q) nu) (s_data s) = Some (b, st, cv) ->
  traffic_find (s_matching s) (s_provisions s) st (in_method q) cu = Some p ->
  transform multipart_decode ub report_text nu (in_path q) qm (DataPart_of (in_body q)) (in_headers q) (in_receptionId q)
    (rp_body rp) cv (employ p) (s_world s) = (td, Val tt) ->
  receive decode_url multipart_decode ub report_text q rp s =
  answer multipart_decode q (DataKey2 (in_method q) nu) nu st td (after_transform q td s).
Proof.
  intros Hu Hl Hf Ht. rewrite (receive_provisioned _ _ _ _ _ _ _ nu cu qm b st cv p) by done.
  unfold bind at 1, run_transform. destruct (busy_same (in_busyThreads q) s) as (_ & -> & _). by rewrite Ht.
Qed.
End Storage.

(** ** Properties *)

Section TrafficProperties.
Context `{JsonEq} `{JsonText} `{JsonPointer} `{RegexLib} `{SchemaLib} `{Calculus} {OS : Type} `{Outside OS}.
Context (decode_url : string -> string) (multipart_decode : string -> string -> list mp_event)
  (ub : double -> Z) (report_text : fail_report -> outcome string).

(** C8: Whatever the traffic and the administration do, one operation after the
    other and with their exceptions, the server stays whole: the state of every key
    can be read, the provisions are listed once each under their own keys, and every
    event of an open stream exists. *)
Theorem traffic_server_stays_whole (valid : json -> bool) (s0 s : Server OS) (k : DataKey) (Hf : fresh s0)
  (Hr : rtc (traffic_step decode_url multipart_decode ub report_text valid) s0 s) :
  (exists b st vars, findLastRegisteredRequestState k (s_data s) = Some (b, st, vars) /\ st <> "") /\
  pd_inv (s_provisions s) /\
  (forall id l, pending_events_ s !! id = Some l -> is_Some (heap_ (s_data s) !! l)).
Proof.
  pose proof (traffic_reachable_inv decode_url multipart_decode ub report_text valid s0 s Hf Hr) as Hs.
  split_and!.
  - destruct (traffic_inv_state s k Hs) as [[[b st] vars] E]. exists b, st, vars. split; [done|].
    revert E. unfold findLastRegisteredRequestState. destruct (map_ _ !! _); [|by intros [= <- <- <-]].
    destruct (getLastRegisteredRequestState _ _) as [st'|]; [|done]. cbn.
    destruct (sempty st') eqn:E'; intros [= <- <- <-]; [done|by apply sempty_false].
  - apply Hs.
  - intros id l Hl. apply lookup_lt_is_Some. destruct Hs as (_ & _ & _ & Hp). by eapply Hp.
Qed.

(** C26: Unless the configuration passes the query by, two requests that differ in the
    order of their query parameters only are treated alike: same answer, same events,
    same states. *)
Theorem query_order_is_irrelevant (id ts busy : Z) (method path q1 q2 body : string) (headers : header_map) (rp : Reply)
  (s : Server OS) (sep : ascii)
  (Hsep : sep = match uri_path_query_parameters_separator (s_matching s) with Ampersand => "&"%char | Semicolon => ";"%char end)
  (Hpass : uri_path_query_parameters_filter (s_matching s) <> PassBy)
  (Hne1 : q1 <> "") (Hne2 : q2 <> "") (Hnd : NoDup (pairs sep q1).*1) (Hperm : pairs sep q1 ≡ₚ pairs sep q2) :
  receive decode_url multipart_decode ub report_text (mkIncoming id method path q1 headers body ts busy) rp s =
  receive decode_url multipart_decode ub report_text (mkIncoming id method path q2 headers body ts busy) rp s.
Proof.
  assert (traffic_uris decode_url (s_matching s) path q1 = traffic_uris decode_url (s_matching s) path q2) as Hu.
  { unfold traffic_uris. apply sempty_false in Hne1 as E1. apply sempty_false in Hne2 as E2. rewrite E1, E2, <- Hsep.
    assert (extractQueryParameters decode_url q1 (Some "") sep = extractQueryParameters decode_url q2 (Some "") sep) as ->.
    { rewrite !extract_refines. unfold extract_spec. rewrite E1, E2.
      assert (NoDup (pairs sep q2).*1) as Hnd2 by (by rewrite <- Hperm).
      rewrite !decide_True by done. by destruct (pairs_maps_perm decode_url _ _ Hnd Hperm) as [-> ->]. }
    destruct (extractQueryParameters _ _ _ _) as [[[m t]|]|]; [|done..]. cbn.
    by destruct (uri_path_query_parameters_filter _). }
  rewrite !receive_eq. cbn [in_path in_query]. by rewrite Hu.
Qed.

(** C2: The state machine of the mock: after a provisioned request whose event is
    stored with its history, the next request of the same key is in the out-state of
    the transformation, with the variables it left (an empty state is the initial
    one, without variables).  With a foreign out-state, the foreign key takes it, and
    the key of the request goes on with the out-state of the provision. *)
Theorem next_request_is_in_the_out_state (q : Incoming) (rp r : Reply) (s s' : Server OS) (nu cu : string)
  (qm : gmap string string) (b : bool) (st : string) (cv : gmap string string) (p : AdminServerProvision) (td : Transformed)
  (Hs : traffic_inv s)
  (Hu : traffic_uris decode_url (s_matching s) (in_path q) (in_query q) = Val (nu, cu, qm))
  (Hl : findLastRegisteredRequestState (DataKey2 (in_method q) nu) (s_data s) = Some (b, st, cv))
  (Hf : traffic_find (s_matching s) (s_provisions s) st (in_method q) cu = Some p)
  (Ht : transform multipart_decode ub report_text nu (in_path q) qm (DataPart_of (in_body q)) (in_headers q)
          (in_receptionId q) (rp_body rp) cv (employ p) (s_world s) = (td, Val tt))
  (Hd : server_data_ s = true) (Hh : server_data_key_history_ s = true)
  (Hp : purge_execution_ s = false \/ outState (td_resp td) <> "purge")
  (Hr : receive decode_url multipart_decode ub report_text q rp s = (s', Val r)) :
  let resp := td_resp td in
  let own := DataKey2 (in_method q) nu in
  let foreign := DataKey2 (outStateMethod resp) (if sempty (outStateUri resp) then nu else outStateUri resp) in
  rp_status r = responseStatusCode resp /\ rp_body r = responseBody resp /\
  (outStateMethod resp = "" ->
     findLastRegisteredRequestState own (s_data s') = Some (effective_state (outState resp) (td_vars td))) /\
  (outStateMethod resp <> "" ->
     (exists vars, findLastRegisteredRequestState foreign (s_data s') = Some (effective_state (outState resp) vars)) /\
     (key_ foreign <> key_ own ->
      findLastRegisteredRequestState own (s_data s') = Some (effective_state (out_state_ p) (td_vars td)))).
Proof.
  cbn zeta. rewrite (receive_transformed _ _ _ _ q rp s nu cu qm b st cv p td) in Hr by done.
  destruct (busy_same (in_busyThreads q) s) as (_ & _ & _ & Hd' & Hh' & Hp' & _).
  assert (data_inv (w_server (td_world td)) /\ out_state_ (td_provision td) = out_state_ p) as [Hinv Ho].
  { pose proof (transform_frame multipart_decode ub report_text nu (in_path q) qm (DataPart_of (in_body q)) (in_headers q)
                  (in_receptionId q) (rp_body rp) cv (employ p) (s_world s)) as Hfr.
    rewrite Ht in Hfr. destruct Hfr as [(_ & _ & Ho & _) [_ Hi]]. split; [apply Hi, Hs|exact Ho]. }
  apply answer_stores in Hr as (-> & s1 & Hst & ->);
    [|cbn; rewrite Hp'; destruct Hp as [->|Hp]; [done|]; rewrite bool_decide_eq_false_2 by done; apply andb_false_r].
  apply store_provisioned_val in Hst as (e & _ & _ & He); [|by cbn; rewrite Hd'|by cbn; rewrite Hh'].
  split; [done|]. split; [done|]. cbn zeta in He. change (s_data (count (inc_provisioned true) s1)) with (s_data s1).
  split; intros Hm.
  - rewrite Hm in He. cbn in He. destruct He as [<- ->].
    rewrite (find_key (DataKey2 (in_method q) nu) (setProvisionUri (request_uri_ (td_provision td)) (DataKey2 (in_method q) nu)) _ eq_refl).
    apply load_chain_find.
  - apply sempty_false in Hm. rewrite Hm in He. destruct He as (Hout & e2 & <- & _ & ->).
    match goal with |- context [data_loadEvent ?f e2 true ?d1] =>
      assert (data_inv d1) as Hd1 by (apply data_inv_chain, data_inv_load; [auto with h2|exact Hinv]) end.
    split.
    + eexists. erewrite find_key; [apply load_find_last; [exact Hd1|by left]|done].
    + intros Hk. rewrite load_find_other by (try exact Hd1; apply not_eq_sym; exact Hk).
      rewrite (find_key (DataKey2 (in_method q) nu) (setProvisionUri (request_uri_ (td_provision td)) (DataKey2 (in_method q) nu)) _ eq_refl).
      rewrite load_chain_find, Hout, Ho. done.
Qed.

(** C32: A request without provision is answered with 501 and whatever else the caller
    had prepared; its event is stored (after the ones of its key, even with the
    history disabled) with no state, so its key is back in the initial one; no other
    key, no provision and no vault entry changes. *)
Theorem unprovisioned_request_is_501 (q : Incoming) (rp r : Reply) (s s' : Server OS) (nu cu : string)
  (qm : gmap string string) (b : bool) (st : string) (cv : gmap string string)
  (Hs : traffic_inv s)
  (Hu : traffic_uris decode_url (s_matching s) (in_path q) (in_query q) = Val (nu, cu, qm))
  (Hl : findLastRegisteredRequestState (DataKey2 (in_method q) nu) (s_data s) = Some (b, st, cv))
  (Hf : traffic_find (s_matching s) (s_provisions s) st (in_method q) cu = None)
  (Hd : server_data_ s = true)
  (Hr : receive decode_url multipart_decode ub report_text q rp s = (s', Val r)) :
  let own := DataKey2 (in_method q) nu in
  r = mkReply 501 (rp_headers rp) (rp_body rp) (rp_delayMs rp) /\
  (exists e, abs (s_data s') = spec_loadEvent (key_ own) e true (abs (s_data s)) /\
     recv_seq_ e = in_receptionId q /\ response_status_code_ (se_base e) = 501 /\ getState e = "" /\
     exists l, pending_events_ s' = <[in_receptionId q := l]> (pending_events_ s) /\ heap_ (s_data s') !! l = Some e) /\
  findLastRegisteredRequestState own (s_data s') = Some (true, DEFAULT_ADMIN_PROVISION_STATE, ∅) /\
  (forall k, key_ k <> key_ own -> findLastRegisteredRequestState k (s_data s') = findLastRegisteredRequestState k (s_data s)) /\
  s_provisions s' = s_provisions s /\ w_vault (s_world s') = w_vault (s_world s).
Proof.
  cbn zeta. rewrite (receive_unprovisioned _ _ _ _ q rp s nu cu qm b st cv) in Hr by done.
  destruct (busy_same (in_busyThreads q) s) as (_ & Hw & Hpv & Hd' & _ & _ & Hpe & _).
  unfold answer_501 in Hr. unfold bind at 1, get at 1 in Hr. rewrite Hd', Hd in Hr. unfold bind at 1 2 in Hr.
  destruct (server_loadEvent _ _ _ _ _ _ _ _ _ _ _) as [s1 [part|]] eqn:El; [|done].
  apply server_loadEvent_val in El as (e & Hst & Hseq & _ & Hcode & ->).
  unfold modify, bind, ret in Hr. injection Hr as <- <-.
  assert (data_inv (s_data s)) as Hi by apply Hs.
  match goal with |- context [s_data ?x] =>
    assert (s_data x = data_loadEvent (DataKey2 (in_method q) nu) e true (s_data s)) as Hdata
      by (unfold s_data at 1; cbn; unfold s_data; by rewrite Hw) end.
  rewrite Hdata. split_and!; [done| | | | |].
  - exists e. split; [by apply abs_load; auto with h2|]. split; [done|]. split; [by rewrite Hcode|]. split; [done|].
    exists (length (heap_ (s_data s))). split.
    + cbn. unfold s_data at 1. cbn. rewrite Hw, Hpe. change (w_server (s_world s)) with (s_data s).
      rewrite load_last_loaded by (done || by left). done.
    + rewrite loadEvent_heap. rewrite lookup_app_r by done. by rewrite Nat.sub_diag.
  - rewrite load_find_last by (done || by left). unfold effective_state. by rewrite Hst.
  - intros k Hk. by apply load_find_other.
  - cbn. exact Hpv.
  - cbn. by rewrite Hw.
Qed.

(** The out-state 'purge', when purges are enabled, forgets the whole history of
    the key and stores nothing: the next request of the key is in the initial state,
    without variables; no other key is touched. *)
Theorem purge_forgets_the_key (q : Incoming) (rp r : Reply) (s s' : Server OS) (nu cu : string)
  (qm : gmap string string) (b : bool) (st : string) (cv : gmap string string) (p : AdminServerProvision) (td : Transformed)
  (Hu : traffic_uris decode_url (s_matching s) (in_path q) (in_query q) = Val (nu, cu, qm))
  (Hl : findLastRegisteredRequestState (DataKey2 (in_method q) nu) (s_data s) = Some (b, st, cv))
  (Hf : traffic_find (s_matching s) (s_provisions s) st (in_method q) cu = Some p)
  (Ht : transform multipart_decode ub report_text nu (in_path q) qm (DataPart_of (in_body q)) (in_headers q)
          (in_receptionId q) (rp_body rp) cv (employ p) (s_world s) = (td, Val tt))
  (Hm : in_method q <> "") (Hn : nu <> "")
  (Hp : purge_execution_ s = true) (Ho : outState (td_resp td) = "purge")
  (Hr : receive decode_url multipart_decode ub report_text q rp s = (s', Val r)) :
  let own := DataKey2 (in_method q) nu in
  map_ (s_data s') = delete (key_ own) (map_ (w_server (td_world td))) /\
  heap_ (s_data s') = heap_ (w_server (td_world td)) /\
  findLastRegisteredRequestState own (s_data s') = Some (false, DEFAULT_ADMIN_PROVISION_STATE, ∅) /\
  pending_events_ s' = pending_events_ s /\ rp_status r = responseStatusCode (td_resp td).
Proof.
  cbn zeta. rewrite (receive_transformed _ _ _ _ q rp s nu cu qm b st cv p td) in Hr by done.
  destruct (busy_same (in_busyThreads q) s) as (_ & _ & _ & _ & _ & Hp' & Hpe & _).
  unfold answer in Hr. unfold bind at 1, modify at 1 in Hr. unfold bind at 1, get at 1 in Hr. cbn -[purge_key] in Hr.
  rewrite Hp', Hp, Ho, bool_decide_eq_true_2 in Hr by done. cbn -[purge_key] in Hr.
  unfold bind, modify, ret in Hr. injection Hr as <- <-.
  assert (forall d : MockData MockServerEvent, map_ (clear (EventKey_of (DataKey2 (in_method q) nu) "") d).2
            = delete (key_ (DataKey2 (in_method q) nu)) (map_ d)) as Hc.
  { intros d. unfold clear, ek_empty, ek_checkSelection, ek_complete, dk_empty, dk_checkSelection, dk_complete. cbn -[key_].
    unfold dk_empty, dk_complete. cbn -[key_]. apply sempty_false in Hm. apply sempty_false in Hn. rewrite Hm, Hn. cbn -[key_].
    destruct (map_ d !! _) eqn:E; [done|]. cbn -[key_]. by rewrite delete_id. }
  unfold purge_key. match goal with |- context [clear ?k ?d] =>
    pose proof (Hc d) as Hmap; pose proof (proj1 (clear_heap k d)) as Hheap; destruct (clear k d) as [[b1 b2] d'] end.
  cbn [snd] in *. split_and!; [exact Hmap|exact Hheap| |exact Hpe|done].
  unfold findLastRegisteredRequestState. cbn -[key_]. change (map_ d') with (map_ d'). rewrite Hmap. by rewrite lookup_delete_eq.
Qed.

(** The end of a stream stamps the sending time on the event registered for it,
    on no other, and only once. *)
Theorem stream_close_stamps_once (s : Server OS) (id now now' : Z) (l : nat) (e : MockServerEvent)
  (Hd : server_data_ s = true) (Hp : pending_events_ s !! id = Some l) (He : heap_ (s_data s) !! l = Some e) :
  let s' := streamClose id now s in
  heap_ (s_data s') = <[l := setSendingTimestampUs now e]> (heap_ (s_data s)) /\ map_ (s_data s') = map_ (s_data s) /\
  pending_events_ s' = delete id (pending_events_ s) /\ streamClose id now' s' = s'.
Proof.
  cbn zeta. unfold streamClose at 1 2 3 5. rewrite Hd, Hp. cbn. split_and!; [|done|done|].
  - unfold s_data in *. cbn. apply list_eq. intros i. destruct (decide (i = l)) as [->|Hne].
    + rewrite list_lookup_alter_eq, He, list_lookup_insert_eq; [done|]. by apply lookup_lt_Some in He.
    + by rewrite list_lookup_alter_ne, list_lookup_insert_ne.
  - unfold streamClose. rewrite Hd, Hp. cbn. rewrite Hd, lookup_delete_eq. done.
Qed.

(** The additional delay of a request is the number its vault entry reads as: 0
    without entry or when it is not a number of milliseconds, and always a [long
    long]; a number written as text comes back. *)
Theorem response_delay_reads_the_vault (s : Server OS) (id : Z) (n : Z) (t : string) (Hn : is_i64 n) :
  (v_map (w_vault (s_world s)) !! response_delay_key id = None -> server_responseDelayMs id s = Val 0) /\
  (v_map (w_vault (s_world s)) !! response_delay_key id = Some (JString (to_string_i n)) -> server_responseDelayMs id s = Val n) /\
  (v_map (w_vault (s_world s)) !! response_delay_key id = Some (JString t) ->
     server_responseDelayMs id s = match stoll t with Val v => Val v | Throw _ => Val 0 end) /\
  (forall v, server_responseDelayMs id s = Val v -> is_i64 v).
Proof.
  unfold server_responseDelayMs, v_tryGet. split_and!.
  - by intros ->.
  - intros ->. cbn. by rewrite stoll_to_string.
  - intros ->. cbn. destruct (stoll t) as [|e] eqn:E; [done|]. revert E. unfold stoll, sto_signed.
    destruct (strto 10 t) as [[neg v]|]; [destruct (_ && _); [done|]|]; by intros [= <-].
  - intros v. destruct (_ !! _) as [j|]; [|intros [= <-]; unfold is_i64, i64_min, i64_max; lia].
    destruct (jsonToString j) as [x|]; [|done]. cbn. destruct (stoll x) as [z|[]] eqn:E; try done.
    + intros [= <-]. by eapply stoll_range.
    + intros [= <-]. unfold is_i64, i64_min, i64_max; lia.
    + intros [= <-]. unfold is_i64, i64_min, i64_max; lia.
Qed.
End TrafficProperties.

Module TrafficExamples.
Import Still.

Definition ub0 (d : double) : Z := 0.
Definition text0 (r : fail_report) : outcome string := Val "fail".
Definition scan0 (b c : string) : list mp_event := [].
Definition all (j : json) : bool := true.

Definition doc (out : string) : json :=
  JObject [("requestMethod", JString "GET"); ("requestUri", JString "/a?x=1&y=2"); ("responseCode", JUint 200);
           ("outState", JString out)].

(** A new server, and the same one with a provision. *)
Definition server0 : Server world :=
  Server_new Config_new ProvisionData_new (mkWorld Vault_new MockData_empty MockData_empty ∅ 1 2 []).
Definition server1 (out : string) : Server world :=
  with_provisions (pd_load id ub0 all false (doc out) (s_provisions server0)).1 server0.

Definition request1 (query : string) : Incoming := mkIncoming 7 "GET" "/a" query [] "" 1000 0.
Definition reply0 : Reply := mkReply 0 [] "" 0.
Definition server2 (out : string) : Server world := (receive id scan0 ub0 text0 (request1 "y=2&x=1") reply0 (server1 out)).1.

Lemma fresh0 : fresh server0.
Proof. by repeat split. Qed.
Lemma reach1 out : rtc (traffic_step id scan0 ub0 text0 all) server0 (server1 out).
Proof. eapply rtc_l; [apply (ts_load id scan0 ub0 text0 all false (doc out))|apply rtc_refl]. Qed.
Lemma reach2 out : rtc (traffic_step id scan0 ub0 text0 all) server0 (server2 out).
Proof. eapply rtc_r; [apply reach1|apply (ts_receive id scan0 ub0 text0 all (request1 "y=2&x=1") reply0)]. Qed.
Lemma inv1 out : traffic_inv (server1 out).
Proof. eapply traffic_reachable_inv; [apply fresh0|apply reach1]. Qed.

Lemma traffic_server_stays_whole_witness :
  is_Some (heap_ (s_data (server2 "two")) !! 0%nat).
Proof.
  destruct (traffic_server_stays_whole id scan0 ub0 text0 all server0 (server2 "two") (DataKey2 "GET" "/a?x=1&y=2")) as (_ & _ & Hp);
    [apply fresh0|apply reach2|]. apply (Hp 7). vm_compute. reflexivity.
Defined.

Lemma query_order_is_irrelevant_witness :
  receive id scan0 ub0 text0 (request1 "y=2&x=1") reply0 (server1 "two") =
  receive id scan0 ub0 text0 (request1 "x=1&y=2") reply0 (server1 "two").
Proof.
  apply (query_order_is_irrelevant id scan0 ub0 text0 7 1000 0 "GET" "/a" "y=2&x=1" "x=1&y=2" "" [] reply0 (server1 "two") "&"%char);
    [reflexivity|discriminate..| |].
  - apply (bool_decide_unpack _). vm_compute. exact I.
  - vm_compute. apply perm_swap.
Defined.

Lemma next_request_is_in_the_out_state_witness :
  findLastRegisteredRequestState (DataKey2 "GET" "/a?x=1&y=2") (s_data (server2 "two")) = Some (true, "two", ∅).
Proof.
  assert (exists p, traffic_find Config_new (s_provisions (server1 "two")) "initial" "GET" "/a?x=1&y=2" = Some p) as [p Hp]
    by (eexists; vm_compute; reflexivity).
  assert (p = default p (traffic_find Config_new (s_provisions (server1 "two")) "initial" "GET" "/a?x=1&y=2")) as Ep by (rewrite Hp; reflexivity).
  vm_compute in Ep.
  assert (exists qm, traffic_uris id Config_new "/a" "y=2&x=1" = Val ("/a?x=1&y=2", "/a?x=1&y=2", qm)) as [qm Hu]
    by (eexists; vm_compute; reflexivity).
  assert (exists td, transform scan0 ub0 text0 "/a?x=1&y=2" "/a" qm (DataPart_of "") [] 7 "" ∅ (employ p) (s_world (server1 "two")) = (td, Val tt)
                     /\ outState (td_resp td) = "two" /\ outStateMethod (td_resp td) = "" /\ td_vars td = ∅) as (td & Ht & Ho & Hm & Hv).
  { rewrite Ep. eexists. split; [vm_compute; reflexivity|]. repeat split. }
  assert (exists r, receive id scan0 ub0 text0 (request1 "y=2&x=1") reply0 (server1 "two") = (server2 "two", Val r)) as [r Hr]
    by (eexists; vm_compute; reflexivity).
  destruct (next_request_is_in_the_out_state id scan0 ub0 text0 (request1 "y=2&x=1") reply0 r (server1 "two") (server2 "two")
              "/a?x=1&y=2" "/a?x=1&y=2" qm false "initial" ∅ p td (inv1 "two") Hu eq_refl Hp Ht eq_refl eq_refl) as (_ & _ & Hn & _);
    [right; rewrite Ho; discriminate|exact Hr|].
  specialize (Hn Hm). rewrite Ho, Hv in Hn. exact Hn.
Defined.

Definition lost : Incoming := mkIncoming 8 "GET" "/b" "" [] "" 1000 0.

Lemma unprovisioned_request_is_501_witness :
  exists s r, receive id scan0 ub0 text0 lost reply0 (server1 "two") = (s, Val r) /\ rp_status r = 501.
Proof.
  assert (exists s r, receive id scan0 ub0 text0 lost reply0 (server1 "two") = (s, Val r)) as (s & r & Hr)
    by (do 2 eexists; vm_compute; reflexivity).
  exists s, r. split; [exact Hr|].
  destruct (unprovisioned_request_is_501 id scan0 ub0 text0 lost reply0 r (server1 "two") s "/b" "/b" ∅ false "initial" ∅ (inv1 "two"))
    as [Hrep _]; [reflexivity..|vm_compute; reflexivity|reflexivity|exact Hr|]. by rewrite Hrep.
Defined.

Lemma purge_forgets_the_key_witness :
  findLastRegisteredRequestState (DataKey2 "GET" "/a?x=1&y=2") (s_data (server2 "purge")) = Some (false, "initial", ∅).
Proof.
  assert (exists p, traffic_find Config_new (s_provisions (server1 "purge")) "initial" "GET" "/a?x=1&y=2" = Some p) as [p Hp]
    by (eexists; vm_compute; reflexivity).
  assert (p = default p (traffic_find Config_new (s_provisions (server1 "purge")) "initial" "GET" "/a?x=1&y=2")) as Ep by (rewrite Hp; reflexivity).
  vm_compute in Ep.
  assert (exists qm, traffic_uris id Config_new "/a" "y=2&x=1" = Val ("/a?x=1&y=2", "/a?x=1&y=2", qm)) as [qm Hu]
    by (eexists; vm_compute; reflexivity).
  assert (exists td, transform scan0 ub0 text0 "/a?x=1&y=2" "/a" qm (DataPart_of "") [] 7 "" ∅ (employ p) (s_world (server1 "purge")) = (td, Val tt)
                     /\ outState (td_resp td) = "purge") as (td & Ht & Ho).
  { rewrite Ep. eexists. split; [vm_compute; reflexivity|]. reflexivity. }
  assert (exists r, receive id scan0 ub0 text0 (request1 "y=2&x=1") reply0 (server1 "purge") = (server2 "purge", Val r)) as [r Hr]
    by (eexists; vm_compute; reflexivity).
  destruct (purge_forgets_the_key id scan0 ub0 text0 (request1 "y=2&x=1") reply0 r (server1 "purge") (server2 "purge")
              "/a?x=1&y=2" "/a?x=1&y=2" qm false "initial" ∅ p td Hu eq_refl Hp Ht ltac:(discriminate) ltac:(discriminate) eq_refl Ho Hr)
    as (_ & _ & Hn & _). exact Hn.
Defined.

Lemma stream_close_stamps_once_witness :
  streamClose 7 6000 (streamClose 7 5000 (server2 "two")) = streamClose 7 5000 (server2 "two").
Proof.
  assert (exists e, heap_ (s_data (server2 "two")) !! 0%nat = Some e) as [e He] by (eexists; vm_compute; reflexivity).
  destruct (stream_close_stamps_once (server2 "two") 7 5000 6000 0 e) as (_ & _ & _ & Hs); [vm_compute; reflexivity..|exact He|exact Hs].
Defined.

Lemma response_delay_reads_the_vault_witness : server_responseDelayMs 7 server0 = Val 0.
Proof.
  destruct (response_delay_reads_the_vault server0 7 (-5) "") as [Hn _]; [unfold is_i64, i64_min, i64_max; lia|].
  apply Hn. reflexivity.
Defined.
End TrafficExamples.
