(* ===== verification/ClientProvision.v ===== *)
(** [src/model/AdminClientProvision.cpp]: a client provision, read from its JSON
    form; the transformation that builds a request and the one applied to its
    response; and the parameters of its automatic sequences. *)
From S2P Require Import Prelude Std Double Functions Query Json JsonModel External JsonConstraint Keys DataPart MockEvents MockData TypeConverter Vault Transformation Schema Stages.
From stdpp Require Import options.
#[local] Open Scope Z_scope.

(** ** State *)

(** The request under construction: the output parameters of [transform]. *)
Record ClientRequest := mkClientRequest {
  cq_method : string;
  cq_uri : string;
  cq_body : string;
  cq_headers : header_map;
  cq_out_state : string;
  cq_delay_ms : Z;
  cq_timeout_ms : Z
}.

(** What the provision reads of a response ([Http2Client::response]). *)
Record ClientResponse := mkClientResponse {
  cr_status : Z;
  cr_headers : header_map;
  cr_body : string;
  cr_sending_us : Z;
  cr_reception_us : Z
}.

(** The two moments the stages run at: before a request is sent, with the
    document of the body when it is used; and on its response. *)
Inductive Phase :=
| PreSend (uses_json : bool)
| OnResponse (uri : string) (headers : header_map) (response : ClientResponse) (sendSeq : Z).

(** The atomic counters of automatic sequences. *)
Record Dynamics := mkDynamics {
  seq_ : Z;
  seq_begin_ : Z;
  seq_end_ : Z;
  cps_ : Z;
  repeat_ : bool
}.
Definition Dynamics_new : Dynamics := mkDynamics 0 0 0 0 false.

Definition DEFAULT_ADMIN_PROVISION_CLIENT_OUT_STATE : string := "road-closed".

Section ClientProvision.
Context `{JsonEq} `{JsonText} `{JsonPointer} `{RegexLib} `{SchemaLib} `{Calculus} {OS : Type} `{Outside OS}.
(** The URL decoder, the value of undefined conversions of a [double], and the text
    of a [jsonConstraint] report. *)
Context (decode_url : string -> string) (ub : double -> Z) (report_text : fail_report -> outcome string).

Record AdminClientProvision := mkClientProvision {
  cp_employed : bool;
  cp_json : json;
  cp_key : string;
  cp_in_state : string;
  cp_id : string;
  cp_out_state : string;
  cp_endpoint_id : string;
  cp_method : string;
  cp_uri : string;
  cp_headers : header_map;
  cp_body : json;
  cp_body_string : string;
  cp_delay_ms : Z;
  cp_timeout_ms : Z;
  cp_expected_code : Z;
  cp_request_schema_id : string;
  cp_response_schema_id : string;
  cp_request_schema : option AdminSchema;
  cp_response_schema : option AdminSchema;
  cp_transformations : list Transformation;
  cp_on_response : list Transformation;
  cp_dyn : Dynamics
}.

Definition cp_update (employed : bool) (j : json) (rq rs : option AdminSchema) (d : Dynamics) (p : AdminClientProvision) : AdminClientProvision :=
  mkClientProvision employed j (cp_key p) (cp_in_state p) (cp_id p) (cp_out_state p) (cp_endpoint_id p) (cp_method p) (cp_uri p)
    (cp_headers p) (cp_body p) (cp_body_string p) (cp_delay_ms p) (cp_timeout_ms p) (cp_expected_code p)
    (cp_request_schema_id p) (cp_response_schema_id p) rq rs (cp_transformations p) (cp_on_response p) d.
Definition cp_employ (p : AdminClientProvision) : AdminClientProvision :=
  cp_update true (cp_json p) (cp_request_schema p) (cp_response_schema p) (cp_dyn p) p.
Definition cp_with_json (j : json) (p : AdminClientProvision) : AdminClientProvision :=
  cp_update (cp_employed p) j (cp_request_schema p) (cp_response_schema p) (cp_dyn p) p.
Definition cp_with_schemas (rq rs : option AdminSchema) (p : AdminClientProvision) : AdminClientProvision :=
  cp_update (cp_employed p) (cp_json p) rq rs (cp_dyn p) p.
Definition cp_with_dyn (d : Dynamics) (p : AdminClientProvision) : AdminClientProvision :=
  cp_update (cp_employed p) (cp_json p) (cp_request_schema p) (cp_response_schema p) d p.

Definition with_seq (z : Z) (d : Dynamics) : Dynamics := mkDynamics z (seq_begin_ d) (seq_end_ d) (cps_ d) (repeat_ d).
Definition setSeq (z : Z) (p : AdminClientProvision) : AdminClientProvision := cp_with_dyn (with_seq z (cp_dyn p)) p.

Definition client_getRequestSchema (schemas : gmap string AdminSchema) (p : AdminClientProvision)
    : option AdminSchema * AdminClientProvision :=
  let s := cached_schema (cp_request_schema_id p) schemas (cp_request_schema p) in
  (s, if sempty (cp_request_schema_id p) then p else cp_with_schemas s (cp_response_schema p) p).
Definition client_getResponseSchema (schemas : gmap string AdminSchema) (p : AdminClientProvision)
    : option AdminSchema * AdminClientProvision :=
  let s := cached_schema (cp_response_schema_id p) schemas (cp_response_schema p) in
  (s, if sempty (cp_response_schema_id p) then p else cp_with_schemas (cp_request_schema p) s p).

Definition set_cq_method (s : string) (q : ClientRequest) : ClientRequest :=
  mkClientRequest s (cq_uri q) (cq_body q) (cq_headers q) (cq_out_state q) (cq_delay_ms q) (cq_timeout_ms q).
Definition set_cq_uri (s : string) (q : ClientRequest) : ClientRequest :=
  mkClientRequest (cq_method q) s (cq_body q) (cq_headers q) (cq_out_state q) (cq_delay_ms q) (cq_timeout_ms q).
Definition set_cq_body (s : string) (q : ClientRequest) : ClientRequest :=
  mkClientRequest (cq_method q) (cq_uri q) s (cq_headers q) (cq_out_state q) (cq_delay_ms q) (cq_timeout_ms q).
Definition set_cq_headers (h : header_map) (q : ClientRequest) : ClientRequest :=
  mkClientRequest (cq_method q) (cq_uri q) (cq_body q) h (cq_out_state q) (cq_delay_ms q) (cq_timeout_ms q).
Definition set_cq_out (s : string) (q : ClientRequest) : ClientRequest :=
  mkClientRequest (cq_method q) (cq_uri q) (cq_body q) (cq_headers q) s (cq_delay_ms q) (cq_timeout_ms q).
Definition set_cq_delay (d : Z) (q : ClientRequest) : ClientRequest :=
  mkClientRequest (cq_method q) (cq_uri q) (cq_body q) (cq_headers q) (cq_out_state q) d (cq_timeout_ms q).
Definition set_cq_timeout (d : Z) (q : ClientRequest) : ClientRequest :=
  mkClientRequest (cq_method q) (cq_uri q) (cq_body q) (cq_headers q) (cq_out_state q) (cq_delay_ms q) d.

Abbreviation CM := (M (Run ClientRequest OS)).

(** ** Sources *)

(** Before sending, the URI and the headers read are the ones being built (the same
    objects); on the response, those of the request that was sent. *)
Definition phase_uri (ph : Phase) (r : Run ClientRequest OS) : string :=
  match ph with PreSend _ => cq_uri (r_output r) | OnResponse uri _ _ _ => uri end.
Definition phase_headers (ph : Phase) (r : Run ClientRequest OS) : header_map :=
  match ph with PreSend _ => cq_headers (r_output r) | OnResponse _ h _ _ => h end.
Definition phase_response (ph : Phase) : option ClientResponse :=
  match ph with PreSend _ => None | OnResponse _ _ rsp _ => Some rsp end.
Definition phase_sendSeq (ph : Phase) : Z := match ph with PreSend _ => 0 | OnResponse _ _ _ n => n end.
Definition phase_uses_json (ph : Phase) : bool := match ph with PreSend b => b | OnResponse _ _ _ _ => false end.

(** [RequestBody]: a node of the document being built, or the provisioned text. *)
Definition client_source_request_body (body_string : string) (ph : Phase) (t : Item) : CM (bool * bool) :=
  do path <- replace (source_ (it_source t)) (source_patterns_ t) ;;
  if phase_uses_json ph
  then do r <- get ;; do ok <- src_setObject (r_json r) path ;; src_when ok
  else set_string body_string.

(** [ResponseBody]: a node of the received document, or the text received. *)
Definition client_source_response_body (ph : Phase) (t : Item) : CM (bool * bool) :=
  match phase_response ph with
  | None => src_fail
  | Some rsp =>
      do path <- replace (source_ (it_source t)) (source_patterns_ t) ;;
      match json_parse (cr_body rsp) with
      | None => set_string (cr_body rsp)
      | Some j => do ok <- src_setObject j path ;; src_when ok
      end
  end.

(** The sources on the request and on the response. *)
Definition client_source_message (body_string : string) (ph : Phase) (t : Item) : CM (bool * bool) :=
  let header h := match headers_find (source_ (it_source t)) h with Some v => set_string v | None => src_fail end in
  match source_type_ (it_source t) with
  | RequestUri => do r <- get ;; set_string (phase_uri ph r)
  | RequestBody => client_source_request_body body_string ph t
  | ResponseBody => client_source_response_body ph t
  | RequestHeader => do r <- get ;; header (phase_headers ph r)
  | ResponseHeader => match phase_response ph with None => src_fail | Some rsp => header (cr_headers rsp) end
  | ResponseStatusCode =>
      match phase_response ph with
      | None => src_fail
      | Some rsp => set_source (setInteger (cr_status rsp)) ;;; src_ok
      end
  | RequestHeaders => do r <- get ;; src_setObject (headers_json (phase_headers ph r)) "" ;;; src_ok
  | ResponseHeaders =>
      match phase_response ph with
      | None => src_fail
      | Some rsp => src_setObject (headers_json (cr_headers rsp)) "" ;;; src_ok
      end
  | _ => src_fail
  end.

(** The generators, the variables and the values; an eraser is an empty text here. *)
Definition client_source_value (ph : Phase) (t : Item) : CM (bool * bool) :=
  match source_type_ (it_source t) with
  | Eraser => set_source (setString "") ;;; ret (true, true)
  | Math => source_math ub t
  | Random => source_random t
  | RandomSet => source_random_set t
  | Timestamp => source_timestamp t
  | Strftime => source_strftime t
  | Sendseq => set_source (setUnsigned (phase_sendSeq ph)) ;;; src_ok
  | SVar => source_var t
  | SGVar => source_vault t
  | Value => src_setReplacing (source_ (it_source t)) (source_patterns_ t) ;;; src_ok
  | _ => src_fail
  end.

(** The stored events, the state, the files and the commands; the sources of a
    server request are not applicable. *)
Definition client_source_stored (in_state : string) (t : Item) : CM (bool * bool) :=
  match source_type_ (it_source t) with
  | ServerEvent => source_server_event t
  | ClientEvent => source_client_event t
  | InState => set_string in_state
  | STxtFile => source_file t true
  | SBinFile => source_file t false
  | Command => source_command t
  | _ => src_fail
  end.

(** [processSources] *)
Definition client_processSources (in_state body_string : string) (ph : Phase) (t : Item) : CM (bool * bool) :=
  match source_type_ (it_source t) with
  | RequestUri | RequestBody | ResponseBody | RequestHeader | ResponseHeader | ResponseStatusCode
  | RequestHeaders | ResponseHeaders => client_source_message body_string ph t
  | Eraser | Math | Random | RandomSet | Timestamp | Strftime | Sendseq | SVar | SGVar | Value => client_source_value ph t
  | ServerEvent | ClientEvent | InState | STxtFile | SBinFile | Command
  | RequestUriPath | RequestUriParam | Recvseq => client_source_stored in_state t
  end.

(** ** Filters *)

(** [ConditionVar]: local variables only. *)
Definition client_filter_condition (f : Filter) : CM (bool * list string) :=
  let negate := starts_with "!" (filter_ f) in
  let conditionVar := if negate then sdrop 1 (filter_ f) else filter_ f in
  do r <- get ;;
  let exists_ := match r_vars r !! conditionVar with Some v => negb (sempty v) | None => false end in
  if (if negate then negb exists_ else exists_) then flt_ok else flt_fail.

(** [EqualTo] and [DifferentFrom]: the converter keeps its value. *)
Definition client_filter_compare (t : Item) (f : Filter) (source : string) (equal : bool) : CM (bool * list string) :=
  do filter <- replace (filter_ f) (filter_patterns_ t) ;;
  if Bool.eqb (bool_decide (source = filter)) equal then flt_ok else flt_fail.

(** [JsonConstraint] on the text of the source: it must be JSON. *)
Definition client_filter_constraint (f : Filter) (source : string) : CM (bool * list string) :=
  match json_parse source with
  | None => flt_fail
  | Some sourceJson =>
      match jsonConstraint sourceJson (filter_object_ f) with
      | None => flt_string "1"
      | Some report =>
          do result <- lift (report_text report) ;;
          flt_string (if sempty result then "1" else result)
      end
  end.

(** [SchemaId]: an unknown schema or a text that is not JSON fail. *)
Definition client_filter_schema (f : Filter) (source : string) : CM (bool * list string) :=
  do r <- get ;;
  match schema_find (filter_ f) (w_schemas (r_world r)) with
  | None => flt_fail
  | Some s =>
      match json_parse source with
      | None => flt_fail
      | Some sourceJson => flt_string (default "1" (AdminSchema_validate s sourceJson))
      end
  end.

(** The filters that write the text anew. *)
Definition client_filter_format (f : Filter) (source : string) : CM (bool * list string) :=
  match filter_type_ f with
  | Split => filter_split_run f source
  | BaseConvert => filter_base_run f source
  | FStrptime => filter_strptime f source
  | _ => flt_ok
  end.

(** The filters that read the converter themselves. *)
Definition client_filter_direct (f : Filter) : CM (bool * list string) :=
  match filter_type_ f with
  | Sum => filter_arith ub f Z.add d_add
  | Multiply => filter_arith ub f Z.mul d_mul
  | FStrftime => filter_strftime ub f
  | RegexKey => filter_regex_key f
  | Size => filter_size
  | _ => flt_ok
  end.

(** [processFilters] *)
Definition client_processFilters (t : Item) (f : Filter) : CM (bool * list string) :=
  match filter_type_ f with
  | Sum | Multiply | FStrftime | RegexKey | Size => client_filter_direct f
  | ty =>
      do source <- src_getString ;;
      match ty with
      | RegexCapture =>
          match regex_match source (filter_rgx_ f) with
          | Some (m :: ms) => set_source (setString m) ;;; ret (true, m :: ms)
          | _ => flt_fail
          end
      | RegexReplace => flt_string (regex_replace source (filter_rgx_ f) (filter_ f))
      | Append => do filter <- replace (filter_ f) (filter_patterns_ t) ;; flt_string (source +:+ filter)
      | Prepend => do filter <- replace (filter_ f) (filter_patterns_ t) ;; flt_string (filter +:+ source)
      | ConditionVar => client_filter_condition f
      | EqualTo => client_filter_compare t f source true
      | DifferentFrom => client_filter_compare t f source false
      | JsonConstraint_f => client_filter_constraint f source
      | SchemaId => client_filter_schema f source
      | _ => client_filter_format f source
      end
  end.

(** ** Targets *)

(** [ClientEventToPurge]: by sequence, or by number. *)
Definition client_target_purge (t : Item) (eraser : bool) : CM bool :=
  if negb eraser then ret false
  else
    do f <- replace_all (target_tokenized_ (it_target t)) (target_patterns_ t) ;;
    let '(endpoint, method, uri, number, sendseq) := (nth 0 f "", nth 1 f "", nth 2 f "", nth 3 f "", nth 4 f "") in
    do r <- get ;;
    let d := w_client (r_world r) in
    let store d' := modify (fun r => with_world (with_client d' (r_world r)) r) in
    if negb (sempty sendseq) then
      do n <- lift (stoull sendseq) ;;
      let '(_, d') := data_removeEventBySeq (DataKey3 endpoint method uri) n d in
      store d' ;;; ret true
    else
      let '(_, _, d') := clear (EventKey_of (DataKey3 endpoint method uri) number) d in
      store d' ;;; ret true.

(** The targets on the request. *)
Definition client_target_request (t : Item) (target : string) (eraser : bool) : CM bool :=
  match target_type_ (it_target t) with
  | RequestBodyString => do s <- src_getString ;; put_output (set_cq_body s) ;;; ret true
  | RequestBodyHexString =>
      do s <- src_getString ;;
      do r <- get ;;
      let '(ok, out) := fromHexString s (cq_body (r_output r)) in
      put_output (set_cq_body out) ;;; ret ok
  | RequestBodyJson_String => do s <- src_getString ;; json_assign target (JString s) ;;; ret true
  | RequestBodyJson_Integer => target_number (src_getInteger ub) (fun i => json_assign target (JInt i))
  | RequestBodyJson_Unsigned => target_number (src_getUnsigned ub) (fun u => json_assign target (JUint u))
  | RequestBodyJson_Float => target_number src_getFloat (fun d => json_assign target (JFloat d))
  | RequestBodyJson_Boolean => target_number src_getBoolean (fun b => json_assign target (JBool b))
  | RequestBodyJson_Object => target_object ub target eraser
  | RequestBodyJson_JsonString => target_json_string target
  | RequestHeader_t =>
      do s <- src_getString ;;
      put_output (fun q => set_cq_headers (headers_emplace target s (cq_headers q)) q) ;;; ret true
  | RequestDelayMs => target_number (src_getUnsigned ub) (fun u => put_output (set_cq_delay (to_u32 u)))
  | RequestTimeoutMs => target_number (src_getUnsigned ub) (fun u => put_output (set_cq_timeout (to_u32 u)))
  | RequestUri_t => do s <- src_getString ;; put_output (set_cq_uri s) ;;; ret true
  | RequestMethod_t => do s <- src_getString ;; put_output (set_cq_method s) ;;; ret true
  | _ => ret true
  end.

(** The targets on the variables, the vault, the state, the outside world and the
    events; those of a server response are not applicable. *)
Definition client_target_store (t : Item) (target : string) (matches : list string) (eraser : bool) : CM bool :=
  let filter := filter_type_ <$> it_filter t in
  let vault_path := if sempty (target2_ (it_target t)) then ret "" else replace (target2_ (it_target t)) (target2_patterns_ t) in
  match target_type_ (it_target t) with
  | TVar => target_var target filter matches
  | TGVar => do path <- vault_path ;; target_vault target path eraser filter matches
  | TGVarJson_Object =>
      do path <- vault_path ;;
      do '(ok, obj) <- src_getObject ;;
      if ok : bool then vault_store target path obj ;;; ret true else ret false
  | TGVarJson_JsonString =>
      do path <- vault_path ;;
      do s <- src_getString ;;
      match json_parse s with
      | None => ret false
      | Some obj => vault_store target path obj ;;; ret true
      end
  | OutState => do s <- src_getString ;; put_output (set_cq_out s) ;;; ret true
  | TTxtFile => target_file t target eraser true
  | TBinFile => target_file t target eraser false
  | UDPSocket => target_udp target
  | ClientEventToPurge => client_target_purge t eraser
  | Break => do s <- src_getString ;; (if sempty s then ret tt else modify with_break) ;;; ret false
  | _ => ret true
  end.

(** [processTargets]: the name of the target is read outside its [try]. *)
Definition client_processTargets (t : Item) (matches : list string) (eraser : bool) : CM bool :=
  do target <- replace (target_ (it_target t)) (target_patterns_ t) ;;
  catch (match target_type_ (it_target t) with
         | RequestBodyString | RequestBodyHexString | RequestBodyJson_String | RequestBodyJson_Integer
         | RequestBodyJson_Unsigned | RequestBodyJson_Float | RequestBodyJson_Boolean | RequestBodyJson_Object
         | RequestBodyJson_JsonString | RequestHeader_t | RequestDelayMs | RequestTimeoutMs | RequestUri_t
         | RequestMethod_t => client_target_request t target eraser
         | _ => client_target_store t target matches eraser
         end)
        (fun _ => ret true).

(** ** [transform] *)

(** The body of the loop, and [executeOnFilterFail]. *)
Definition client_item (in_state body_string : string) (ph : Phase) : Transformation -> CM unit :=
  item_run (client_processSources in_state body_string ph) client_processFilters client_processTargets.
Definition client_executeOnFilterFail (in_state body_string : string) (ph : Phase) : list Transformation -> CM unit :=
  fallbacks_run (client_processSources in_state body_string ph) client_processFilters client_processTargets.

(** Does any item need the request document as a target? *)
Definition is_request_json_target (t : Transformation) : bool :=
  match target_type_ (it_target (tr_item t)) with
  | RequestBodyJson_String | RequestBodyJson_Integer | RequestBodyJson_Unsigned | RequestBodyJson_Float
  | RequestBodyJson_Boolean | RequestBodyJson_Object | RequestBodyJson_JsonString => true
  | _ => false
  end.

(** The sequence the variable ["sequence"] shows: the one given, or the current one. *)
Definition sequence_of (seq : Z) (p : AdminClientProvision) : Z := if 0 <=? seq then seq else seq_ (cp_dyn p).

(** What [transform] leaves: the provision with its caches, the request, the error of
    the validation, the variables and the world. *)
Record ClientTransformed := mkClientTransformed {
  ct_provision : AdminClientProvision;
  ct_request : ClientRequest;
  ct_error : string;
  ct_vars : gmap string string;
  ct_world : World OS
}.

(** After the items: the schema of the request may refuse it; otherwise the document
    is written when it is used and not empty. *)
Definition client_transform_end (p : AdminClientProvision) (uses_json : bool) (r : Run ClientRequest OS) : ClientTransformed :=
  let '(qs, p) := client_getRequestSchema (w_schemas (r_world r)) p in
  match match qs with
        | Some s => AdminSchema_validate s (if uses_json then r_json r else cp_body p)
        | None => None
        end with
  | Some error => mkClientTransformed p (r_output r) error (r_vars r) (r_world r)
  | None =>
      let q := if uses_json && negb (json_empty (r_json r))
               then match json_dump (r_json r) with
                    | Val s => set_cq_body s (r_output r)
                    | Throw _ => r_output r
                    end
               else r_output r in
      mkClientTransformed p q "" (r_vars r) (r_world r)
  end.

(** [transform]; [requestBody0] is what the caller passes by reference. *)
Definition client_transform (requestBody0 : string) (vars : gmap string string) (seq : Z) (p : AdminClientProvision) (w : World OS)
    : ClientTransformed * outcome unit :=
  let uses_json := existsb is_request_json_target (cp_transformations p) in
  let q := mkClientRequest (cp_method p) (cp_uri p) (if uses_json then requestBody0 else cp_body_string p) (cp_headers p)
             (cp_out_state p) (cp_delay_ms p) (cp_timeout_ms p) in
  let vars := <["sequence" := to_string_i (sequence_of seq p)]> vars in
  let r0 := mkRun TypeConverter_new vars (if uses_json then cp_body p else JNull) q false w in
  match items_run (client_item (cp_in_state p) (cp_body_string p) (PreSend uses_json)) (cp_transformations p) r0 with
  | (r, Val _) => (client_transform_end p uses_json r, Val tt)
  | (r, Throw e) => (mkClientTransformed p (r_output r) "" (r_vars r) (r_world r), Throw e)
  end.

(** ** [transformResponse] *)

(** Each item starts from its own unused request and document; the state and the rest
    are shared. *)
Definition unused_request (r : Run ClientRequest OS) : Run ClientRequest OS :=
  mkRun (r_source r) (r_vars r) JNull (mkClientRequest "" "" "" [] (cq_out_state (r_output r)) 0 0) (r_break r) (r_world r).

Definition response_item (in_state body_string : string) (ph : Phase) (t : Transformation) : CM unit :=
  modify unused_request ;;; client_item in_state body_string ph t.

Record ResponseTransformed := mkResponseTransformed {
  rt_provision : AdminClientProvision;
  rt_out_state : string;
  rt_vars : gmap string string;
  rt_world : World OS
}.

(** The validations of the response: its status code, and its schema when it is JSON. *)
Definition expected_status (p : AdminClientProvision) (rsp : ClientResponse) : bool :=
  (cp_expected_code p =? 0) || (cr_status rsp =? to_i32 (cp_expected_code p)).
Definition valid_response (qs : option AdminSchema) (rsp : ClientResponse) : bool :=
  match qs, json_parse (cr_body rsp) with
  | Some s, Some j => match AdminSchema_validate s j with Some _ => false | None => true end
  | _, _ => true
  end.

Definition transformResponse (uri : string) (headers : header_map) (rsp : ClientResponse) (sendSeq : Z) (outState : string)
    (vars : gmap string string) (seq : Z) (p : AdminClientProvision) (w : World OS) : ResponseTransformed * outcome bool :=
  let run :=
    match cp_on_response p with
    | [] => (mkResponseTransformed p outState vars w, Val tt)
    | items =>
        let vars := <["sequence" := to_string_i (sequence_of seq p)]> vars in
        let r0 := mkRun TypeConverter_new vars JNull (mkClientRequest "" "" "" [] outState 0 0) false w in
        let ph := OnResponse uri headers rsp sendSeq in
        let '(r, o) := items_run (response_item (cp_in_state p) (cp_body_string p) ph) items r0 in
        (mkResponseTransformed p (cq_out_state (r_output r)) (r_vars r) (r_world r), o)
    end in
  match run with
  | (rt, Throw e) => (rt, Throw e)
  | (rt, Val _) =>
      let '(rs, p) := client_getResponseSchema (w_schemas (rt_world rt)) p in
      (mkResponseTransformed p (rt_out_state rt) (rt_vars rt) (rt_world rt),
       Val (expected_status p rsp && valid_response rs rsp))
  end.

(** ** Sequences *)

(** [j[key]] where a value is written: a missing or null member becomes an object. *)
Definition as_object (j : json) : outcome json :=
  match j with JNull | JObject _ => Val j | _ => Throw json_exception end.

(** [saveDynamics] on the stored document. *)
Definition saveDynamics (d : Dynamics) (j : json) : outcome json :=
  let! j := as_object j in
  let! dyn := as_object (default JNull (json_find "dynamics" j)) in
  let dyn := json_set "sequence" (JInt (seq_ d)) dyn in
  let dyn := json_set "sequenceBegin" (JInt (seq_begin_ d)) dyn in
  let dyn := json_set "sequenceEnd" (JInt (seq_end_ d)) dyn in
  let dyn := json_set "cps" (JUint (cps_ d)) dyn in
  Val (json_set "dynamics" (json_set "repeat" (JBool (repeat_ d)) dyn) j).

Definition cp_saveDynamics (p : AdminClientProvision) : outcome AdminClientProvision :=
  let! j := saveDynamics (cp_dyn p) (cp_json p) in Val (cp_with_json j p).

(** [getJson]: the current counters are written in the document, which is returned. *)
Definition cp_getJson : M AdminClientProvision json := fun p =>
  match cp_saveDynamics p with Val p' => (p', Val (cp_json p')) | Throw e => (p, Throw e) end.

(** A bound of the range, when it is given. *)
Definition range_bound (s : string) (current : Z) : option Z :=
  if sempty s then Some current else match stoll s with Val z => Some z | Throw _ => None end.

(** The rate and the repetition, when they are given; what is written before a
    refusal stays written. *)
Definition update_rate (cps repeat : string) (d : Dynamics) : bool * Dynamics :=
  let '(ok, d) :=
    if sempty cps then (true, d)
    else let '(ok, aux, negative) := string2uint64andSign cps 0 false in
         if ok && negb negative
         then (true, mkDynamics (seq_ d) (seq_begin_ d) (seq_end_ d) (to_u32 aux) (repeat_ d))
         else (false, d) in
  if negb ok then (false, d)
  else if sempty repeat then (true, d)
  else if bool_decide (repeat = "true") || bool_decide (repeat = "false")
       then (true, mkDynamics (seq_ d) (seq_begin_ d) (seq_end_ d) (cps_ d) (bool_decide (repeat = "true")))
       else (false, d).

(** The success of [updateTriggering] and the counters; [seq_begin_ - 1] may overflow. *)
Definition update_dynamics (sequenceBegin sequenceEnd cps repeat : string) (d : Dynamics) : outcome (bool * Dynamics) :=
  match range_bound sequenceBegin (seq_begin_ d), range_bound sequenceEnd (seq_end_ d) with
  | Some b, Some e =>
      if e <? b then Val (false, d)
      else
        let rangeProvided := negb (sempty sequenceBegin) || negb (sempty sequenceEnd) in
        if rangeProvided && (b =? i64_min) then Throw undefined
        else Val (update_rate cps repeat (mkDynamics (if rangeProvided then b - 1 else seq_ d) b e (cps_ d) (repeat_ d)))
  | _, _ => Val (false, d)
  end.

(** [updateTriggering]: the counters are saved in the document on success only. *)
Definition updateTriggering (sequenceBegin sequenceEnd cps repeat : string) : M AdminClientProvision bool := fun p =>
  match update_dynamics sequenceBegin sequenceEnd cps repeat (cp_dyn p) with
  | Throw e => (p, Throw e)
  | Val (ok, d) =>
      let p := cp_with_dyn d p in
      if ok : bool
      then match cp_saveDynamics p with Val p' => (p', Val true) | Throw e => (p, Throw e) end
      else (p, Val false)
  end.

(** ** [load] *)

Definition client_needsStorage (p : AdminClientProvision) : bool :=
  existsb (fun t => bool_decide (source_type_ (it_source (tr_item t)) = ServerEvent)
                    || bool_decide (source_type_ (it_source (tr_item t)) = ClientEvent)
                    || bool_decide (target_type_ (it_target (tr_item t)) = ServerEventToPurge)
                    || bool_decide (target_type_ (it_target (tr_item t)) = ClientEventToPurge))
    (cp_transformations p ++ cp_on_response p).

(** A number field, or zero. *)
Definition number_field (k : string) (j : json) : outcome Z :=
  match json_find k j with
  | Some v => if is_number v then get_u32 ub (Some v) else Val 0
  | None => Val 0
  end.
Definition items_field (k : string) (j : json) : outcome (list Transformation) :=
  match json_find k j with
  | Some v => load_transformations decode_url ub (json_elements v)
  | None => Val []
  end.

(** The states: an empty text is the initial state; ["road-closed"] is not an input
    state and the initial state is not an output one. *)
Definition in_state_field (j : json) : option string :=
  match json_find "inState" j with
  | Some (JString s) =>
      let s := if sempty s then DEFAULT_ADMIN_PROVISION_STATE else s in
      if decide (s = DEFAULT_ADMIN_PROVISION_CLIENT_OUT_STATE) then None else Some s
  | _ => Some DEFAULT_ADMIN_PROVISION_STATE
  end.
Definition out_state_field (j : json) : option string :=
  match json_find "outState" j with
  | Some (JString s) =>
      let s := if sempty s then DEFAULT_ADMIN_PROVISION_STATE else s in
      if decide (s = DEFAULT_ADMIN_PROVISION_STATE) then None else Some s
  | _ => Some DEFAULT_ADMIN_PROVISION_CLIENT_OUT_STATE
  end.

(** [load] on a new provision: [Val None] is [return false]. *)
Definition ClientProvision_load (j : json) : outcome (option AdminClientProvision) :=
  let! id := get_string (json_find "id" j) in
  match in_state_field j, out_state_field j with
  | Some inState, Some outState =>
      if negb (schema_field_ok "requestSchemaId" j) then Val None
      else if negb (schema_field_ok "responseSchemaId" j) then Val None
      else
        let! headers := match json_find "requestHeaders" j with
                        | Some (JObject l) => headers_field l []
                        | _ => Val []
                        end in
        let! '(body, text) := body_field (json_find "requestBody" j) in
        let! delay := number_field "requestDelayMs" j in
        let! timeout := number_field "timeoutMs" j in
        let! expected := number_field "expectedResponseStatusCode" j in
        let! ts := items_field "transform" j in
        let! rts := items_field "onResponseTransform" j in
        let! p := cp_saveDynamics
          (mkClientProvision false j (calculateStringKey inState id "") inState id outState
             (text_field "endpoint" "" j) (text_field "requestMethod" "" j) (text_field "requestUri" "" j)
             headers body text delay timeout expected
             (text_field "requestSchemaId" "" j) (text_field "responseSchemaId" "" j) None None ts rts Dynamics_new) in
        Val (Some p)
  | _, _ => Val None
  end.
End ClientProvision.
