(* ===== verification/ClientTransform.v ===== *)
(** Properties of client provisions ([ClientProvision.v]): what each stage can change,
    the request and its validation, the verdict on a response, the shape of a loaded
    provision, and the updates of its sequence parameters. *)
From S2P Require Import Prelude Std Double Functions Query Json JsonModel External JsonConstraint Keys DataPart MockEvents MockData TypeConverter Vault Transformation Schema Stages StageFrames ClientProvision.
From stdpp Require Import options.
#[local] Open Scope Z_scope.

(** ** What a target may change, by its type *)

Definition request_json_type (ty : TargetType) : bool :=
  match ty with
  | RequestBodyJson_String | RequestBodyJson_Integer | RequestBodyJson_Unsigned | RequestBodyJson_Float
  | RequestBodyJson_Boolean | RequestBodyJson_Object | RequestBodyJson_JsonString => true
  | _ => false
  end.
Definition request_body_type (ty : TargetType) : bool :=
  match ty with RequestBodyString | RequestBodyHexString => true | _ => false end.

(** The parts of the state, other than the request. *)
Definition client_touch (ty : TargetType) : Touch :=
  mkTouch (request_json_type ty)
    (match ty with TGVar | TGVarJson_Object | TGVarJson_JsonString => true | _ => false end)
    (match ty with TVar | TGVar => true | _ => false end)
    (match ty with TTxtFile | TBinFile | UDPSocket => true | _ => false end)
    false
    (match ty with ClientEventToPurge => true | _ => false end)
    (match ty with Break => true | _ => false end).

(** The fields of the request. *)
Definition request_rel (ty : TargetType) (q q' : ClientRequest) : Prop :=
  (ty <> RequestMethod_t -> cq_method q' = cq_method q) /\
  (ty <> RequestUri_t -> cq_uri q' = cq_uri q) /\
  (request_body_type ty = false -> cq_body q' = cq_body q) /\
  (ty <> RequestHeader_t -> cq_headers q' = cq_headers q) /\
  (ty <> OutState -> cq_out_state q' = cq_out_state q) /\
  (ty <> RequestDelayMs -> cq_delay_ms q' = cq_delay_ms q) /\
  (ty <> RequestTimeoutMs -> cq_timeout_ms q' = cq_timeout_ms q).

#[local] Instance request_rel_preorder ty : PreOrder (request_rel ty).
Proof.
  split; [intros q; unfold request_rel; by split_and!|]. intros q1 q2 q3 (A1&A2&A3&A4&A5&A6&A7) (B1&B2&B3&B4&B5&B6&B7). unfold request_rel.
  split_and!; intros Ht; first [by rewrite B1, A1|by rewrite B2, A2|by rewrite B3, A3|by rewrite B4, A4|by rewrite B5, A5
    |by rewrite B6, A6|by rewrite B7, A7].
Qed.

Section Stages.
Context `{JsonEq} `{JsonText} `{JsonPointer} `{RegexLib} `{SchemaLib} `{Calculus} {OS : Type} `{Outside OS}.
Context (decode_url : string -> string) (ub : double -> Z) (report_text : fail_report -> outcome string).

Lemma client_sources_quiet in_state body ph t : keeps quiet (client_processSources (OS := OS) ub in_state body ph t).
Proof.
  unfold client_processSources, client_source_message, client_source_request_body, client_source_response_body,
    client_source_value, client_source_stored, src_ok, src_fail, src_when. frame.
Qed.

Lemma client_filters_quiet t f : keeps quiet (client_processFilters (OS := OS) ub report_text t f).
Proof.
  unfold client_processFilters, client_filter_condition, client_filter_compare, client_filter_constraint,
    client_filter_schema, client_filter_format, client_filter_direct, flt_ok, flt_fail. frame.
Qed.

Lemma client_targets_touch t ms eraser :
  keeps (touches (client_touch (target_type_ (it_target t))) (request_rel (target_type_ (it_target t))))
    (client_processTargets (OS := OS) ub t ms eraser).
Proof.
  unfold client_processTargets, client_target_request, client_target_store. destruct (target_type_ (it_target t)).
  all: unfold client_target_purge, src_getInteger, src_getUnsigned, src_getFloat, src_getBoolean.
  all: frame; try (refine (touch_number _ _ _ _ _); intros ?; frame).
  all: try (refine (touch_put_output _ _ _ _); intros q; unfold request_rel; cbn; split_and!; congruence).
  all: try (intros r; unfold touches, request_rel; cbn; split_and!; congruence).
Qed.

(** A relation kept by the stages is kept by an item and its fallbacks. *)
Lemma client_item_keeps (R : relation (Run ClientRequest OS)) `{!PreOrder R} (Q : Item -> bool) in_state body ph t :
  (forall r r', quiet r r' -> R r r') ->
  (forall item ms e, Q item = true -> keeps R (client_processTargets (OS := OS) ub item ms e)) ->
  all_items Q t = true -> keeps R (client_item (OS := OS) ub report_text in_state body ph t).
Proof.
  intros Hq Ht Ha. eapply item_run_keeps; [done| | |done|done].
  - intros item. eapply keeps_impl; [exact Hq|apply client_sources_quiet].
  - intros item f. eapply keeps_impl; [exact Hq|apply client_filters_quiet].
Qed.

(** What no item of a client provision changes: the events of the server side, the
    schemas and the configuration. *)
Definition client_safe (r r' : Run ClientRequest OS) : Prop :=
  w_server (r_world r') = w_server (r_world r) /\ w_schemas (r_world r') = w_schemas (r_world r) /\
  w_long_term_us (r_world r') = w_long_term_us (r_world r) /\ w_short_term_us (r_world r') = w_short_term_us (r_world r).
#[local] Instance client_safe_preorder : PreOrder client_safe.
Proof. split; [intros r; unfold client_safe; by split_and!|]. intros r1 r2 r3 (?&?&?&?) (?&?&?&?). unfold client_safe. split_and!; congruence. Qed.

Lemma client_item_safe in_state body ph t : keeps client_safe (client_item (OS := OS) ub report_text in_state body ph t).
Proof.
  apply (client_item_keeps _ (fun _ => true)).
  - intros r r' (_&_&_&_&?&_&?&?&?). unfold client_safe. split_and!; congruence.
  - intros item ms e _. eapply keeps_impl; [|apply client_targets_touch].
    intros r r' (_&_&_&_&_&Hs&_&_&?&?&?). unfold client_safe. split_and!; try congruence. by apply Hs.
  - pose proof (any_items [t]) as Ha. cbn in Ha. by rewrite andb_true_r in Ha.
Qed.

Lemma response_item_safe in_state body ph t : keeps client_safe (response_item (OS := OS) ub report_text in_state body ph t).
Proof. unfold response_item. frame; [by intros r|apply client_item_safe]. Qed.
End Stages.

(** ** The counters in the document *)

(** A document whose counters can be written. *)
Definition savable (j : json) : Prop :=
  is_object j = true /\
  match json_find "dynamics" j with None | Some JNull | Some (JObject _) => True | _ => False end.

Definition read_int (k : string) (j : json) : option Z := match json_find k j with Some (JInt z) => Some z | _ => None end.
Definition read_uint (k : string) (j : json) : option Z := match json_find k j with Some (JUint z) => Some z | _ => None end.
Definition read_bool (k : string) (j : json) : option bool := match json_find k j with Some (JBool b) => Some b | _ => None end.

(** The counters a document shows. *)
Definition dynamics_of (j : json) : option Dynamics :=
  d ← json_find "dynamics" j;
  s ← read_int "sequence" d; b ← read_int "sequenceBegin" d; e ← read_int "sequenceEnd" d;
  c ← read_uint "cps" d; r ← read_bool "repeat" d;
  Some (mkDynamics s b e c r).

Lemma saveDynamics_spec d j : savable j ->
  exists j', saveDynamics d j = Val j' /\ savable j' /\ dynamics_of j' = Some d /\
    (forall k, k <> "dynamics" -> json_find k j' = json_find k j).
Proof.
  intros [Hj Hd]. destruct j as [| | | | | | |l]; try discriminate Hj. unfold saveDynamics. cbn [as_object obind].
  set (dyn := default JNull (json_find "dynamics" (JObject l))) in *.
  assert (exists l', json_set "sequence" (JInt (seq_ d)) dyn = JObject l' /\ as_object dyn = Val dyn) as (l' & El & ->).
  { subst dyn. cbn in *. destruct (assoc "dynamics" l) as [[]|]; try done; cbn; eauto. }
  cbn [obind]. eexists. split; [reflexivity|]. rewrite El. cbn [json_set]. split_and!.
  - split; [done|]. cbn [json_find]. by rewrite assoc_set_eq.
  - unfold dynamics_of, read_int, read_uint, read_bool. cbn [json_find]. rewrite assoc_set_eq. cbn [mbind option_bind json_find].
    assert (assoc "sequence" l' = Some (JInt (seq_ d))) as Es.
    { pose proof (json_find_set_eq "sequence" (JInt (seq_ d)) dyn) as Hs. rewrite El in Hs. cbn in Hs. apply Hs.
      subst dyn. cbn in *. destruct (assoc "dynamics" l) as [[]|]; try done; cbn; auto. }
    repeat (rewrite assoc_set_eq || rewrite assoc_set_ne by done). rewrite Es. cbn.
    repeat (rewrite assoc_set_eq || rewrite assoc_set_ne by done; cbn). by destruct d.
  - intros k Hk. cbn. by rewrite assoc_set_ne by congruence.
Qed.

(** Writing the counters again changes nothing. *)
Definition settled (k : string) (v : json) (l : list (string * json)) : Prop := assoc_set k v l = l.
Lemma settled_set k v l : settled k v (assoc_set k v l).
Proof.
  unfold settled. induction l as [|[k' w] l IH]; cbn [assoc_set]; [by rewrite decide_True|].
  destruct (decide (k = k')); [cbn [assoc_set]; by rewrite decide_True|].
  destruct (decide (String.le k k')); cbn [assoc_set]; [by rewrite decide_True|]. rewrite !decide_False by done. by rewrite IH.
Qed.
Lemma settled_other k v k' v' l : k <> k' -> settled k v l -> settled k v (assoc_set k' v' l).
Proof.
  unfold settled. intros Hne. induction l as [|[x w] l IH]; cbn [assoc_set]; [done|]. destruct (decide (k = x)) as [<-|Hx].
  - intros [= <-]. rewrite (decide_False (P := k' = k)) by done. destruct (decide (String.le k' k)) as [Hle|Hle]; cbn [assoc_set].
    + rewrite decide_False, decide_False by (try intros Hle'; try apply Hne, (anti_symm String.le); done). by rewrite decide_True.
    + by rewrite decide_True.
  - destruct (decide (String.le k x)) as [Hle|Hle]; [by intros [= E _]|]. intros [= Hl]. destruct (decide (k' = x)) as [<-|Hx'].
    + cbn [assoc_set]. rewrite !decide_False by done. by rewrite Hl.
    + destruct (decide (String.le k' x)) as [Hle'|Hle']; cbn [assoc_set].
      * rewrite (decide_False (P := k = k')), (decide_False (P := String.le k k')) by (try intros ?; try apply Hle; by etrans).
        rewrite !decide_False by done. by rewrite Hl.
      * rewrite !decide_False by done. by rewrite IH.
Qed.

Lemma saveDynamics_again d j j' : saveDynamics d j = Val j' -> saveDynamics d j' = Val j'.
Proof.
  assert (forall k v l, settled k v l -> json_set k v (JObject l) = JObject l) as Hs by (intros k v l E; cbn; by rewrite E).
  unfold saveDynamics. intros E. apply obind_val in E as (j0 & Ej & E). apply obind_val in E as (dyn & Ed & [= <-]).
  assert (exists l, json_set "sequence" (JInt (seq_ d)) dyn = JObject l /\ settled "sequence" (JInt (seq_ d)) l) as (l & El & Hl).
  { destruct (default JNull (json_find "dynamics" j0)); try done; injection Ed as <-; cbn; eexists; (split; [done|]);
      [apply (settled_set _ _ [])|apply settled_set]. }
  rewrite El. cbn [json_set]. set (L := assoc_set "repeat" _ _).
  assert (exists l0, json_set "dynamics" (JObject L) j0 = JObject l0 /\ settled "dynamics" (JObject L) l0 /\ assoc "dynamics" l0 = Some (JObject L))
    as (l0 & -> & Hl0 & Ef).
  { destruct j; try done; injection Ej as <-; cbn -[settled]; eexists; (split; [done|]); (split; [|first [apply assoc_set_eq|reflexivity]]);
      [apply (settled_set _ _ [])|apply settled_set]. }
  cbn [as_object obind json_find]. rewrite Ef. cbn [from_option id as_object obind]. subst L.
  rewrite !(Hs _ _ (assoc_set _ _ _)) by (repeat first [apply settled_set|apply settled_other; [done|]]; done). by rewrite Hs.
Qed.

(** ** Well-formed provisions *)

Definition is_u32 (z : Z) : Prop := 0 <= z < 2 ^ 32.

Lemma to_u32_range z : is_u32 (to_u32 z).
Proof. unfold is_u32, to_u32, wrap_u. apply Z.mod_pos_bound. lia. Qed.

Definition dyn_typed (d : Dynamics) : Prop :=
  is_i64 (seq_ d) /\ is_i64 (seq_begin_ d) /\ is_i64 (seq_end_ d) /\ is_u32 (cps_ d) /\
  i64_min < seq_begin_ d /\ seq_begin_ d <= seq_end_ d.

Section Typed.
Context `{RegexLib} `{SchemaLib}.

(** The fields of a provision within the widths of their C++ types, its key, its
    states away from the reserved values, an ordered range, and a document its
    counters can be written in. *)
Record cp_typed (p : AdminClientProvision) : Prop := {
  ct_key : cp_key p = calculateStringKey (cp_in_state p) (cp_id p) "";
  ct_in : cp_in_state p <> "" /\ cp_in_state p <> DEFAULT_ADMIN_PROVISION_CLIENT_OUT_STATE;
  ct_out : cp_out_state p <> "" /\ cp_out_state p <> DEFAULT_ADMIN_PROVISION_STATE;
  ct_delay : is_u32 (cp_delay_ms p);
  ct_timeout : is_u32 (cp_timeout_ms p);
  ct_expected : is_u32 (cp_expected_code p);
  ct_dyn : dyn_typed (cp_dyn p);
  ct_json : savable (cp_json p)
}.

(** The parts of a provision the operations write do not matter but the counters and
    the document. *)
Lemma cp_update_typed employed j rq rs d p :
  cp_typed p -> savable j -> dyn_typed d -> cp_typed (cp_update employed j rq rs d p).
Proof. intros [] Hj Hd. by split. Qed.

Lemma cp_save_typed p : cp_typed p ->
  exists p', cp_saveDynamics p = Val p' /\ cp_typed p' /\ cp_dyn p' = cp_dyn p /\ dynamics_of (cp_json p') = Some (cp_dyn p).
Proof.
  intros Hp. destruct (saveDynamics_spec (cp_dyn p) (cp_json p) (ct_json p Hp)) as (j' & E & Hs & Hd & _).
  exists (cp_with_json j' p). unfold cp_saveDynamics. rewrite E. split_and!; [done| |done|done].
  apply cp_update_typed; [done..|apply Hp].
Qed.

Lemma update_rate_range cps rep d :
  let '(_, d') := update_rate cps rep d in
  seq_ d' = seq_ d /\ seq_begin_ d' = seq_begin_ d /\ seq_end_ d' = seq_end_ d /\ (is_u32 (cps_ d) -> is_u32 (cps_ d')).
Proof.
  unfold update_rate. destruct (sempty cps); cbn.
  { destruct (sempty rep); [done|]. by destruct (_ || _). }
  destruct (string2uint64andSign cps 0 false) as [[ok aux] neg]. destruct (ok && negb neg); cbn; [|done].
  destruct (sempty rep); [split_and!; try done; intros _; apply to_u32_range|].
  destruct (_ || _); split_and!; try done; intros _; apply to_u32_range.
Qed.

Lemma range_bound_i64 s z b : is_i64 z -> range_bound s z = Some b -> is_i64 b.
Proof.
  unfold range_bound. intros Hz. destruct (sempty s); [by intros [= <-]|].
  destruct (stoll s) eqn:E; [|done]. intros [= <-]. by eapply stoll_range.
Qed.

Lemma update_dynamics_typed sb se c r d ok d' :
  dyn_typed d -> update_dynamics sb se c r d = Val (ok, d') -> dyn_typed d'.
Proof.
  intros Hd. pose proof Hd as (Hs & Hb & He & Hc & Hm & Hle). unfold update_dynamics.
  destruct (range_bound sb _) as [b|] eqn:Eb; [|by intros [= _ <-]].
  destruct (range_bound se _) as [e|] eqn:Ee; [|by intros [= _ <-]].
  assert (sempty sb = true -> b = seq_begin_ d) as Hsame by (unfold range_bound in Eb; intros Es; rewrite Es in Eb; congruence).
  apply range_bound_i64 in Eb; [|done]. apply range_bound_i64 in Ee; [|done].
  destruct (e <? b) eqn:Elt; [by intros [= _ <-]|]. apply Z.ltb_ge in Elt.
  set (given := _ || _). destruct (given && (b =? i64_min)) eqn:Ebad; [done|]. intros [= E].
  pose proof (update_rate_range c r (mkDynamics (if given then b - 1 else seq_ d) b e (cps_ d) (repeat_ d))) as Hr.
  rewrite E in Hr. cbn in Hr. destruct Hr as (R1 & R2 & R3 & R4).
  assert (i64_min < b) as Hlt.
  { unfold is_i64 in *. destruct (sempty sb) eqn:Es; [rewrite Hsame; done|]. subst given. cbn in Ebad. lia. }
  unfold dyn_typed. rewrite R1, R2, R3. split_and!; auto. destruct given; [|done]. unfold is_i64 in *. lia.
Qed.

Lemma updateTriggering_typed sb se c r p : cp_typed p -> cp_typed (updateTriggering sb se c r p).1.
Proof.
  intros Hp. unfold updateTriggering. destruct (update_dynamics _ _ _ _ _) as [[ok d]|] eqn:E; [|done].
  apply update_dynamics_typed in E; [|apply Hp].
  assert (cp_typed (cp_with_dyn d p)) as Hp' by (apply cp_update_typed; [done|apply Hp|done]).
  destruct ok; [|done]. destruct (cp_save_typed _ Hp') as (p' & -> & Ht & _). done.
Qed.
(** An accepted update, parameter by parameter; the document shows the counters. *)
Lemma accepted_update_parts sb se cps rep (p p' : AdminClientProvision) (Hp : cp_typed p)
  (Hu : updateTriggering sb se cps rep p = (p', Val true)) :
  exists b e, range_bound sb (seq_begin_ (cp_dyn p)) = Some b /\ range_bound se (seq_end_ (cp_dyn p)) = Some e /\ b <= e /\
    seq_begin_ (cp_dyn p') = b /\ seq_end_ (cp_dyn p') = e /\
    seq_ (cp_dyn p') = (if sempty sb && sempty se then seq_ (cp_dyn p) else b - 1) /\
    dynamics_of (cp_json p') = Some (cp_dyn p').
Proof.
  unfold updateTriggering in Hu. destruct (update_dynamics sb se cps rep (cp_dyn p)) as [[ok d]|] eqn:Ed; [|done].
  pose proof (update_dynamics_typed _ _ _ _ _ _ _ (ct_dyn p Hp) Ed) as Hd.
  assert (cp_typed (cp_with_dyn d p)) as Hp' by (apply cp_update_typed; [done|apply Hp|done]).
  destruct ok; [|done]. destruct (cp_save_typed _ Hp') as (p2 & E2 & _ & Ed2 & Ej2). rewrite E2 in Hu. injection Hu as <-.
  rewrite Ed2 in *. cbn in *. unfold update_dynamics in Ed.
  destruct (range_bound sb _) as [b|]; [|done]. destruct (range_bound se _) as [e|]; [|done].
  destruct (Z.ltb_spec e b); [done|]. exists b, e. destruct (_ && (b =? i64_min)); [done|]. injection Ed as Ed.
  pose proof (update_rate_range cps rep (mkDynamics (if negb (sempty sb) || negb (sempty se) then b - 1 else seq_ (cp_dyn p)) b e
    (cps_ (cp_dyn p)) (repeat_ (cp_dyn p)))) as Hr.
  rewrite Ed in Hr. cbn in Hr. destruct Hr as (R1 & R2 & R3 & _). rewrite R1, R2, R3. split_and!; try done.
  by destruct (sempty sb), (sempty se).
Qed.
End Typed.

Section LoadTyped.
Context `{JsonEq} `{JsonText} `{JsonPointer} `{RegexLib} `{SchemaLib} `{Calculus}.
Context (decode_url : string -> string) (ub : double -> Z).

Lemma get_u32_range j z : get_u32 ub j = Val z -> is_u32 z.
Proof.
  unfold get_u32. destruct j as [[| | | |f| | |]|]; intros [= <-]; try apply to_u32_range.
  - by destruct b; unfold is_u32.
  - destruct (d_trunc f) as [t|]; [|apply to_u32_range]. destruct (_ && _) eqn:E; [|apply to_u32_range].
    apply andb_true_iff in E as [?%Z.leb_le ?%Z.ltb_lt]. done.
Qed.

Lemma number_field_range k j z : number_field ub k j = Val z -> is_u32 z.
Proof.
  unfold number_field. destruct (json_find k j) as [v|]; [|by intros [= <-]; unfold is_u32].
  destruct (is_number v); [apply get_u32_range|by intros [= <-]; unfold is_u32].
Qed.

Lemma in_state_field_spec j s : in_state_field j = Some s -> s <> "" /\ s <> DEFAULT_ADMIN_PROVISION_CLIENT_OUT_STATE.
Proof.
  unfold in_state_field. repeat case_match; intros [= <-]; try done. split; [|done]. intros ->. done.
Qed.
Lemma out_state_field_spec j s : out_state_field j = Some s -> s <> "" /\ s <> DEFAULT_ADMIN_PROVISION_STATE.
Proof.
  unfold out_state_field. repeat case_match; intros [= <-]; try done. split; [|done]. intros ->. done.
Qed.

Lemma saveDynamics_savable d j j' : saveDynamics d j = Val j' -> is_object j = true -> savable j.
Proof.
  unfold saveDynamics, savable. destruct j; cbn; try done. destruct (assoc _ _) as [[]|]; cbn; try done.
Qed.

Lemma ClientProvision_load_typed j p : ClientProvision_load decode_url ub j = Val (Some p) ->
  cp_typed p /\ get_string (json_find "id" j) = Val (cp_id p) /\ dynamics_of (cp_json p) = Some Dynamics_new.
Proof.
  unfold ClientProvision_load. intros (id & Eid & E)%obind_val.
  destruct (in_state_field j) as [ins|] eqn:Ein; [|done]. destruct (out_state_field j) as [outs|] eqn:Eout; [|done].
  repeat (destruct (negb _); [done|]).
  apply obind_val in E as (headers & _ & E). apply obind_val in E as ([body text] & _ & E).
  apply obind_val in E as (delay & Ed & E). apply obind_val in E as (timeout & Et & E).
  apply obind_val in E as (expected & Ex & E). apply obind_val in E as (ts & _ & E). apply obind_val in E as (rts & _ & E).
  apply obind_val in E as (p' & Ep & [= <-]). unfold cp_saveDynamics in Ep.
  apply obind_val in Ep as (j' & Ej & [= <-]). cbn in Ej.
  assert (is_object j = true) as Hobj by (destruct j; done).
  pose proof (saveDynamics_savable _ _ _ Ej Hobj) as Hs.
  destruct (saveDynamics_spec Dynamics_new j Hs) as (j2 & Ej2 & Hs2 & Hd2 & _). rewrite Ej in Ej2. injection Ej2 as <-.
  split; [|done]. split; cbn; try done.
  - by apply in_state_field_spec with j.
  - by apply out_state_field_spec with j.
  - by eapply number_field_range.
  - by eapply number_field_range.
  - by eapply number_field_range.
Qed.
End LoadTyped.

(** ** Properties *)

Section Properties.
Context `{JsonEq} `{JsonText} `{JsonPointer} `{RegexLib} `{SchemaLib} `{Calculus} {OS : Type} `{Outside OS}.
Context (decode_url : string -> string) (ub : double -> Z) (report_text : fail_report -> outcome string).

(** Reading a source and applying a filter leave the request, its document, the
    vault, the events and the schemas as they were; a target, also when it throws,
    changes only what its type names: one field of the request, its document, a
    variable, the vault, the outside world, the client events or the break flag, and
    never the events of the server side. *)
Theorem client_targets_change_only_what_they_name in_state body ph (t : Item) (f : Filter) (ms : list string) (eraser : bool)
  (r : Run ClientRequest OS) :
  quiet r (client_processSources ub in_state body ph t r).1 /\ quiet r (client_processFilters ub report_text t f r).1 /\
  touches (client_touch (target_type_ (it_target t))) (request_rel (target_type_ (it_target t))) r
    (client_processTargets ub t ms eraser r).1.
Proof. split_and!; [apply client_sources_quiet|apply client_filters_quiet|apply client_targets_touch]. Qed.

(** The verdict on a response does not depend on the items run on it: whatever they
    do, if they do not throw, the response is accepted exactly when its status code is
    the expected one, if any, and its document, if it is one, satisfies the response
    schema the provision has or finds; the schemas and the server events stay. *)
Theorem response_verdict uri headers rsp sendSeq outState vars seq (p : AdminClientProvision) (w : World OS) :
  let '(rt, o) := transformResponse ub report_text uri headers rsp sendSeq outState vars seq p w in
  w_schemas (rt_world rt) = w_schemas w /\ w_server (rt_world rt) = w_server w /\
  match o with
  | Val ok => rt_provision rt = (client_getResponseSchema (w_schemas w) p).2 /\
      (ok = true <->
       (cp_expected_code p = 0 \/ cr_status rsp = to_i32 (cp_expected_code p)) /\
       (forall s j e, (client_getResponseSchema (w_schemas w) p).1 = Some s -> json_parse (cr_body rsp) = Some j ->
          AdminSchema_validate s j <> Some e))
  | Throw _ => True
  end.
Proof.
  unfold transformResponse.
  set (run := match cp_on_response p with [] => _ | _ => _ end).
  assert (w_schemas (rt_world run.1) = w_schemas w /\ w_server (rt_world run.1) = w_server w) as [Es Ed].
  { subst run. destruct (cp_on_response p) as [|t l]; [done|].
    set (r0 := mkRun _ _ _ _ _ _). set (items := response_item _ _ _ _ _).
    assert (keeps client_safe (items_run items (t :: l))) as Hk.
    { apply items_run_keeps; [apply client_safe_preorder|]. intros x _. apply response_item_safe. }
    destruct (Hk r0) as (? & ? & _). by destruct (items_run items (t :: l) r0). }
  destruct run as [rt [[]|e]]; cbn [fst] in *; [|done]. rewrite Es.
  destruct (client_getResponseSchema (w_schemas w) p) as [rs p'] eqn:Ep. cbn [fst snd rt_world rt_provision]. split_and!; [done|done|done|].
  assert (cp_expected_code p' = cp_expected_code p) as Hc.
  { unfold client_getResponseSchema in Ep. injection Ep as _ <-. by destruct (sempty _). }
  rewrite andb_true_iff. unfold expected_status, valid_response. rewrite orb_true_iff, !Z.eqb_eq, Hc.
  split; intros [Ha Hb]; (split; [exact Ha|]).
  - intros s j e [= ->] Ej. rewrite Ej in Hb. by destruct (AdminSchema_validate s j).
  - destruct rs as [s|]; [|done]. destruct (json_parse (cr_body rsp)) as [j|] eqn:Ej; [|done].
    destruct (AdminSchema_validate s j) as [e|] eqn:Ev; [|done]. by destruct (Hb s j e).
Qed.

(** The parameters of an automatic sequence are not updated as a whole: a request
    with a valid new range and a wrong rate is refused, and still the new range is in
    force and the sequence restarts at it. *)
Theorem refused_update_moves_the_range (b e : Z) (cps rep : string) (p : AdminClientProvision)
  (Hb : is_i64 b) (He : is_i64 e) (Hmin : i64_min < b) (Hle : b <= e) (Hc : cps <> "")
  (Hbad : let '(ok, _, negative) := string2uint64andSign cps 0 false in ok && negb negative = false) :
  let '(p', o) := updateTriggering (to_string_i b) (to_string_i e) cps rep p in
  o = Val false /\ cp_json p' = cp_json p /\
  cp_dyn p' = mkDynamics (b - 1) b e (cps_ (cp_dyn p)) (repeat_ (cp_dyn p)).
Proof.
  assert (forall z, is_i64 z -> sempty (to_string_i z) = false) as Hne.
  { intros z Hz. destruct (to_string_i z) eqn:E; [|done]. pose proof (stoll_to_string z Hz) as Hs. by rewrite E in Hs. }
  unfold updateTriggering, update_dynamics, range_bound. rewrite !Hne, !stoll_to_string by done.
  destruct (Z.ltb_spec e b); [lia|]. cbn [negb orb andb]. destruct (Z.eqb_spec b i64_min); [lia|].
  unfold update_rate. apply sempty_false in Hc. rewrite Hc.
  destruct (string2uint64andSign cps 0 false) as [[ok aux] negative]. rewrite Hbad. cbn. by destruct p.
Qed.

(** The request of a provision without items and without request schema: what was
    provisioned, whatever the variables, which get the sequence. *)
Theorem static_request body0 vars seq (p : AdminClientProvision) (w : World OS)
  (Ht : cp_transformations p = []) (Hs : cp_request_schema_id p = "") :
  client_transform ub report_text body0 vars seq p w =
  (mkClientTransformed p (mkClientRequest (cp_method p) (cp_uri p) (cp_body_string p) (cp_headers p) (cp_out_state p)
                            (cp_delay_ms p) (cp_timeout_ms p)) "" (<["sequence" := to_string_i (sequence_of seq p)]> vars) w, Val tt).
Proof.
  unfold client_transform. rewrite Ht. cbn. unfold client_transform_end, client_getRequestSchema, cached_schema.
  by rewrite Hs.
Qed.

(** A condition of a client provision never looks at the vault. *)
Theorem client_condition_ignores_vault (f : Filter) (name : string) (r : Run ClientRequest OS)
  (Hf : filter_ f = name) (Hn : starts_with "!" name = false) (Hv : r_vars r !! name = None) :
  client_filter_condition f r = (r, Val (false, [])).
Proof. unfold client_filter_condition, bind, get. rewrite Hf, Hn, Hv. done. Qed.

(** The reserved variable can be written like any other. *)
Theorem sequence_variable_is_writable (t : Item) (r : Run ClientRequest OS)
  (Ht : it_target t = mkTarget TVar "sequence" "" []) (Hf : it_filter t = None) (Hp : target_patterns_ t = ∅)
  (Hty : native_type_ (r_source r) = TString) :
  r_vars (client_processTargets ub t [] false r).1 !! "sequence" = Some (s_value_ (r_source r)).
Proof.
  unfold client_processTargets, bind, replace, catch, client_target_store, target_var, src_getString, getString. rewrite Hp, Ht, Hf.
  unfold replaceVariables. rewrite bool_decide_eq_true_2 by done. unfold bind. cbn. rewrite Hty. cbn. by rewrite lookup_insert_eq.
Qed.
End Properties.

Module ClientExamples.
Import Still.

Definition ub0 (d : double) : Z := 0.
Definition text0 (r : fail_report) : outcome string := Val "fail".

(** A provision of two states: the response of the first request moves it. *)
Definition doc0 : json :=
  JObject [("endpoint", JString "peer"); ("expectedResponseStatusCode", JUint 200); ("id", JString "flow");
           ("outState", JString "second"); ("requestMethod", JString "GET"); ("requestUri", JString "/a")].

Definition loaded (j : json) : outcome (option AdminClientProvision) := ClientProvision_load (fun s => s) ub0 j.
Definition blank : AdminClientProvision :=
  mkClientProvision false JNull "" "" "" "" "" "" "" [] JNull "" 0 0 0 "" "" None None [] [] Dynamics_new.
Definition flow_of (j : json) : AdminClientProvision := match loaded j with Val (Some p) => p | _ => blank end.
Definition flow0 : AdminClientProvision := flow_of doc0.

Lemma flow0_typed : cp_typed flow0.
Proof. apply (ClientProvision_load_typed (fun s => s) ub0 doc0 flow0). vm_compute. reflexivity. Defined.

Lemma refused_update_moves_the_range_witness :
  cp_dyn (updateTriggering "3" "5" "-1" "" flow0).1 = mkDynamics 2 3 5 0 false.
Proof.
  pose proof (refused_update_moves_the_range 3 5 "-1" "" flow0) as Hr.
  change (to_string_i 3) with "3" in Hr. change (to_string_i 5) with "5" in Hr.
  destruct (updateTriggering "3" "5" "-1" "" flow0) as [p' o].
  destruct Hr as (_ & _ & E); [unfold is_i64, i64_min, i64_max; lia..|lia|done|vm_compute; reflexivity|]. exact E.
Defined.

(** The items of a response may change the state and the vault but not its verdict. *)
Example verdict_of_a_wrong_status :
  (transformResponse ub0 text0 "/a" [] (mkClientResponse 500 [] "" 0 0) 1 "second" ∅ 0 flow0
     (mkWorld Vault_new MockData_empty MockData_empty ∅ 1 2 ([] : world))).2 = Val false.
Proof. vm_compute. reflexivity. Qed.
End ClientExamples.
