(* ===== verification/Ticker.v ===== *)
(** The automatic sequences of a client provision ([startTicking], [stopTicking],
    [scheduleTick] and its handler in [src/model/AdminClientProvision.cpp]) and the
    pool their requests are posted to ([postToPool] in
    [src/http2/MyAdminHttp2Server.hpp]), as state machines. *)
From S2P Require Import Prelude Std Double Functions Query Json JsonModel External JsonConstraint Keys DataPart MockEvents MockData TypeConverter Vault Transformation Schema Stages ClientProvision ClientTransform.
From stdpp Require Import options.
#[local] Open Scope Z_scope.

(** ** State and operations *)

Section Ticker.
Context `{RegexLib} `{SchemaLib}.

(** A provision with its timer. [tk_waiting]: a wait on [timer_] is outstanding;
    [tk_stopped]: waits on stopped timers whose cancellation is posted and did not run
    yet. *)
Record Ticker := mkTicker {
  tk_provision : AdminClientProvision;
  tk_timer : bool;
  tk_callback : bool;
  tk_io_context : bool;
  tk_waiting : bool;
  tk_stopped : nat
}.

Definition Ticker_of (p : AdminClientProvision) : Ticker := mkTicker p false false false false 0.

Definition with_provision (p : AdminClientProvision) (k : Ticker) : Ticker :=
  mkTicker p (tk_timer k) (tk_callback k) (tk_io_context k) (tk_waiting k) (tk_stopped k).
Definition with_waiting (b : bool) (k : Ticker) : Ticker :=
  mkTicker (tk_provision k) (tk_timer k) (tk_callback k) (tk_io_context k) b (tk_stopped k).

Definition tk_dyn (k : Ticker) : Dynamics := cp_dyn (tk_provision k).
Definition set_seq (z : Z) (k : Ticker) : Ticker := with_provision (setSeq z (tk_provision k)) k.
Definition isTicking (k : Ticker) : bool := tk_timer k.

(** [saveDynamics] *)
Definition tk_save : M Ticker unit := fun k =>
  match cp_saveDynamics (tk_provision k) with Val p => (with_provision p k, Val tt) | Throw e => (k, Throw e) end.

Definition stopTicking (k : Ticker) : Ticker :=
  if tk_timer k && tk_io_context k then
    mkTicker (tk_provision k) false false (tk_io_context k) false (tk_stopped k + (if tk_waiting k then 1 else 0))
  else if tk_timer k then mkTicker (tk_provision k) false false (tk_io_context k) false (tk_stopped k)
  else k.

(** [scheduleTick]: a new expiry cancels the wait there was. *)
Definition scheduleTick (k : Ticker) : Ticker :=
  if negb (tk_timer k) || (cps_ (tk_dyn k) =? 0) then stopTicking k else with_waiting true k.

(** [startTicking]: a sequence outside the range restarts. *)
Definition start_state (k : Ticker) : Ticker :=
  let k := stopTicking k in
  let k := mkTicker (tk_provision k) (tk_timer k) true true (tk_waiting k) (tk_stopped k) in
  let d := tk_dyn k in
  if (seq_ d <? seq_begin_ d - 1) || (seq_end_ d <? seq_ d) then set_seq (seq_begin_ d - 1) k else k.

Definition startTicking : M Ticker unit :=
  modify start_state ;;;
  tk_save ;;;
  modify (fun k => scheduleTick (mkTicker (tk_provision k) true (tk_callback k) (tk_io_context k) false (tk_stopped k))).

(** The handler of an expired wait: [accepted] is the answer of the callback and
    [late] whether the counters were saved half a second ago. The value is the
    sequence the callback is called with, when it accepts. *)
Definition on_tick (accepted late : bool) : M Ticker (option Z) :=
  modify scheduleTick ;;;
  do k <- get ;;
  if tk_callback k && negb accepted then ret None
  else
    let sent := if tk_callback k then Some (seq_ (tk_dyn k)) else None in
    modify (set_seq (to_i64 (seq_ (tk_dyn k) + 1))) ;;;
    do k <- get ;;
    if seq_end_ (tk_dyn k) <? seq_ (tk_dyn k) then
      if repeat_ (tk_dyn k) then
        modify (set_seq (seq_begin_ (tk_dyn k))) ;;; (if late then tk_save else ret tt) ;;; ret sent
      else tk_save ;;; modify stopTicking ;;; ret sent
    else (if late then tk_save else ret tt) ;;; ret sent.

(** A wait ends: the one of the timer, or one of a stopped timer that had already
    expired when its cancellation was posted. *)
Definition expire (stopped : bool) (k : Ticker) : Ticker :=
  if stopped then mkTicker (tk_provision k) (tk_timer k) (tk_callback k) (tk_io_context k) (tk_waiting k) (pred (tk_stopped k))
  else with_waiting false k.
Definition fire (stopped accepted late : bool) : M Ticker (option Z) :=
  modify (expire stopped) ;;; on_tick accepted late.

(** ** Executions *)

(** What can happen to a provision and its timer. *)
Inductive tk_step : Ticker -> Ticker -> Prop :=
| step_start k : tk_step k (startTicking k).1
| step_stop k : tk_step k (stopTicking k)
| step_update sb se cps rep k : tk_step k (with_provision (updateTriggering sb se cps rep (tk_provision k)).1 k)
| step_setSeq z k : is_i64 z -> tk_step k (set_seq z k)
| step_employ k : tk_step k (with_provision (cp_employ (tk_provision k)) k)
| step_schemas rq rs k : tk_step k (with_provision (cp_with_schemas rq rs (tk_provision k)) k)
| step_fire accepted late k : tk_waiting k = true -> tk_step k (fire false accepted late k).1
| step_fire_stopped accepted late k : (0 < tk_stopped k)%nat -> tk_step k (fire true accepted late k).1
| step_cancel k : (0 < tk_stopped k)%nat -> tk_step k (expire true k).

(** The waits of a timer expire one after another, while there is one: the answers of
    the callback and the times, and the sequences sent. *)
Fixpoint fires (l : list (bool * bool)) (k : Ticker) : list Z * Ticker :=
  match l with
  | [] => ([], k)
  | (accepted, late) :: l' =>
      if tk_waiting k then
        let '(k1, o) := fire false accepted late k in
        let '(sent, k2) := fires l' k1 in
        (match o with Val (Some z) => z :: sent | _ => sent end, k2)
      else ([], k)
  end.
End Ticker.

(** ** [postToPool] *)

(** The pool: works posted and not started, the ones discarded, and the limit (0 is
    no limit). *)
Record Pool := mkPool {
  pending_pool_dispatches_ : Z;
  discarded_dispatches_ : Z;
  max_pending_pool_dispatches_ : Z
}.
Definition postToPool (p : Pool) : bool * Pool :=
  if (0 <? max_pending_pool_dispatches_ p) && (max_pending_pool_dispatches_ p <=? pending_pool_dispatches_ p)
  then (false, mkPool (pending_pool_dispatches_ p) (to_u64 (discarded_dispatches_ p + 1)) (max_pending_pool_dispatches_ p))
  else (true, mkPool (to_u64 (pending_pool_dispatches_ p + 1)) (discarded_dispatches_ p) (max_pending_pool_dispatches_ p)).
(** A work of the pool starts. *)
Definition pool_start (p : Pool) : Pool :=
  mkPool (to_u64 (pending_pool_dispatches_ p - 1)) (discarded_dispatches_ p) (max_pending_pool_dispatches_ p).

(** ** Lemmas *)

Section TickerLemmas.
Context `{RegexLib} `{SchemaLib}.

(** The shape of the state between two events. *)
Record tk_inv (k : Ticker) : Prop := {
  ti_typed : cp_typed (tk_provision k);
  ti_callback : tk_callback k = tk_timer k;
  ti_waiting : tk_waiting k = true -> tk_timer k = true;
  ti_io : tk_timer k = true -> tk_io_context k = true
}.

Lemma set_seq_typed z k : is_i64 z -> cp_typed (tk_provision k) -> cp_typed (tk_provision (set_seq z k)).
Proof.
  intros Hz Hp. apply cp_update_typed; [done|apply Hp|]. destruct (ct_dyn _ Hp) as (_ & Hrest). by split.
Qed.

Lemma tk_save_typed k : cp_typed (tk_provision k) ->
  exists p, tk_save k = (with_provision p k, Val tt) /\ cp_typed p /\ cp_dyn p = tk_dyn k.
Proof. intros Hp. destruct (cp_save_typed _ Hp) as (p & E & Ht & Hd & _). exists p. unfold tk_save. by rewrite E. Qed.

Lemma stopTicking_inv k : tk_inv k -> tk_inv (stopTicking k).
Proof.
  intros Hk. unfold stopTicking. destruct (tk_timer k) eqn:Et; [|exact Hk].
  rewrite (ti_io k Hk Et). cbn. destruct Hk. by split.
Qed.
Lemma scheduleTick_inv k : tk_inv k -> tk_inv (scheduleTick k).
Proof.
  intros Hk. unfold scheduleTick. destruct (tk_timer k) eqn:Et; cbn; [|by apply stopTicking_inv].
  destruct (cps_ (tk_dyn k) =? 0); [by apply stopTicking_inv|]. destruct Hk. by split.
Qed.
Lemma scheduleTick_provision k : tk_provision (scheduleTick k) = tk_provision k.
Proof. unfold scheduleTick, stopTicking. by repeat case_match. Qed.

Lemma with_provision_inv p k : tk_inv k -> cp_typed p -> tk_inv (with_provision p k).
Proof. intros [] Hp. by split. Qed.
Lemma set_seq_inv z k : is_i64 z -> tk_inv k -> tk_inv (set_seq z k).
Proof. intros Hz Hk. apply with_provision_inv; [done|]. by apply set_seq_typed; [|apply Hk]. Qed.
Lemma tk_save_inv k : tk_inv k -> tk_inv (tk_save k).1 /\ (tk_save k).2 = Val tt.
Proof.
  intros Hk. destruct (tk_save_typed k (ti_typed k Hk)) as (p & -> & Hp & _). split; [by apply with_provision_inv|done].
Qed.

Lemma typed_begin_i64 k : tk_inv k -> is_i64 (seq_begin_ (tk_dyn k) - 1) /\ is_i64 (seq_begin_ (tk_dyn k)).
Proof.
  intros Hk. destruct (ct_dyn _ (ti_typed k Hk)) as (_ & Hb & _ & _ & Hm & _). unfold tk_dyn, is_i64 in *. lia.
Qed.

Lemma startTicking_inv k : tk_inv k -> tk_inv (startTicking k).1 /\ (startTicking k).2 = Val tt.
Proof.
  intros Hk. unfold startTicking, bind, modify. set (k1 := start_state k).
  assert (cp_typed (tk_provision k1)) as Hp1.
  { subst k1. unfold start_state. cbn zeta.
    pose proof (stopTicking_inv k Hk) as Hs. destruct (_ || _).
    - apply set_seq_typed; [|apply Hs]. pose proof (typed_begin_i64 _ Hs) as [? _]. done.
    - apply Hs. }
  assert (tk_callback k1 = true /\ tk_io_context k1 = true) as [Hc1 Hi1].
  { subst k1. unfold start_state. cbn zeta. by destruct (_ || _). }
  destruct (tk_save_typed k1 Hp1) as (p & -> & Hp & _). cbn. split; [|done]. apply scheduleTick_inv. by split.
Qed.

(** The parts of a tick after the counter moved. *)
Lemma on_tick_inv accepted late k : tk_inv k -> tk_inv (on_tick accepted late k).1.
Proof.
  intros Hk. unfold on_tick, bind, modify, get. pose proof (scheduleTick_inv k Hk) as Hs. cbn zeta.
  destruct (tk_callback (scheduleTick k) && negb accepted); [done|].
  set (k1 := set_seq _ (scheduleTick k)). assert (tk_inv k1) as H1 by (apply set_seq_inv; [apply to_i64_range|done]).
  destruct (seq_end_ (tk_dyn k1) <? seq_ (tk_dyn k1)); [destruct (repeat_ (tk_dyn k1))|].
  - set (k2 := set_seq _ k1). assert (tk_inv k2) as Hk2 by (apply set_seq_inv; [apply typed_begin_i64|]; done).
    destruct late; [|done]. destruct (tk_save_inv k2 Hk2) as [Hi Ho]. by destruct (tk_save k2) as [? [|]].
  - destruct (tk_save_inv k1 H1) as [Hi Ho]. destruct (tk_save k1) as [k3 [|]]; [|done]. by apply stopTicking_inv.
  - destruct late; [|done]. destruct (tk_save_inv k1 H1) as [Hi Ho]. by destruct (tk_save k1) as [? [|]].
Qed.

Lemma expire_inv stopped k : tk_inv k -> tk_inv (expire stopped k).
Proof. intros []. by destruct stopped; split. Qed.
Lemma fire_inv stopped accepted late k : tk_inv k -> tk_inv (fire stopped accepted late k).1.
Proof. intros Hk. unfold fire, bind, modify. by apply on_tick_inv, expire_inv. Qed.

Lemma tk_step_inv k k' : tk_inv k -> tk_step k k' -> tk_inv k'.
Proof.
  intros Hk Hstep. destruct Hstep.
  - by apply startTicking_inv.
  - by apply stopTicking_inv.
  - apply with_provision_inv; [done|]. apply updateTriggering_typed, Hk.
  - by apply set_seq_inv.
  - apply with_provision_inv; [done|]. apply cp_update_typed; apply Hk.
  - apply with_provision_inv; [done|]. apply cp_update_typed; apply Hk.
  - by apply fire_inv.
  - by apply fire_inv.
  - by apply expire_inv.
Qed.

(** *** A running timer *)

Record running (k : Ticker) : Prop := {
  rn_inv : tk_inv k;
  rn_timer : tk_timer k = true;
  rn_waiting : tk_waiting k = true;
  rn_cps : 0 < cps_ (tk_dyn k);
  rn_range : seq_begin_ (tk_dyn k) - 1 <= seq_ (tk_dyn k) <= seq_end_ (tk_dyn k);
  rn_end : seq_end_ (tk_dyn k) < i64_max
}.

(** The counters but the current one. *)
Definition same_range (d d' : Dynamics) : Prop :=
  seq_begin_ d' = seq_begin_ d /\ seq_end_ d' = seq_end_ d /\ cps_ d' = cps_ d /\ repeat_ d' = repeat_ d.

Lemma save_if_late (late : bool) k : tk_inv k ->
  exists p, (if late then tk_save else ret tt) k = (with_provision p k, Val tt) /\ cp_typed p /\ cp_dyn p = tk_dyn k.
Proof.
  intros Hk. destruct late; [by apply tk_save_typed, Hk|]. exists (tk_provision k). split_and!; [by destruct k|apply Hk|done].
Qed.

Lemma fire_running accepted late k : running k ->
  let '(k', o) := fire false accepted late k in
  same_range (tk_dyn k) (tk_dyn k') /\
  if negb accepted then k' = k /\ o = Val None
  else o = Val (Some (seq_ (tk_dyn k))) /\
    if seq_ (tk_dyn k) <? seq_end_ (tk_dyn k) then running k' /\ seq_ (tk_dyn k') = seq_ (tk_dyn k) + 1
    else if repeat_ (tk_dyn k) then running k' /\ seq_ (tk_dyn k') = seq_begin_ (tk_dyn k)
    else tk_timer k' = false /\ tk_waiting k' = false /\ seq_ (tk_dyn k') = seq_end_ (tk_dyn k) + 1.
Proof.
  intros [Hi Ht Hw Hc Hr He]. unfold fire, expire, on_tick, bind, modify, get. cbn zeta beta iota.
  assert (scheduleTick (with_waiting false k) = k) as Esch.
  { unfold scheduleTick. cbn. rewrite Ht. cbn. destruct (Z.eqb_spec (cps_ (tk_dyn (with_waiting false k))) 0) as [E|_].
    { unfold tk_dyn in *. cbn in E. lia. } destruct k. cbn in *. by subst. }
  rewrite Esch, (ti_callback k Hi), Ht. destruct accepted; cbn [negb andb]; [|by split].
  set (k1 := set_seq _ k). pose proof (ct_dyn _ (ti_typed k Hi)) as (Hs & Hb & He' & _ & Hm & Hle).
  assert (to_i64 (seq_ (tk_dyn k) + 1) = seq_ (tk_dyn k) + 1) as Eto.
  { apply to_i64_id. unfold is_i64, i64_max, tk_dyn in *. lia. }
  assert (tk_inv k1) as H1 by (apply set_seq_inv; [apply to_i64_range|done]).
  change (seq_end_ (tk_dyn k1)) with (seq_end_ (tk_dyn k)). change (seq_ (tk_dyn k1)) with (to_i64 (seq_ (tk_dyn k) + 1)).
  change (repeat_ (tk_dyn k1)) with (repeat_ (tk_dyn k)). change (seq_begin_ (tk_dyn k1)) with (seq_begin_ (tk_dyn k)).
  rewrite Eto. destruct (Z.ltb_spec (seq_end_ (tk_dyn k)) (seq_ (tk_dyn k) + 1)) as [Hlast|Hmore].
  - destruct (Z.ltb_spec (seq_ (tk_dyn k)) (seq_end_ (tk_dyn k))); [lia|].
    destruct (repeat_ (tk_dyn k)) eqn:Erep.
    + assert (tk_inv (set_seq (seq_begin_ (tk_dyn k)) k1)) as Hk2 by (apply set_seq_inv; [apply typed_begin_i64|]; done).
      destruct (save_if_late late _ Hk2) as (p & -> & Hp & Ed). cbn in Ed |- *. unfold tk_dyn in *. cbn. rewrite Ed.
      split_and!; try done. split; unfold tk_dyn; cbn; rewrite ?Ed; cbn; try done; try lia.
      by apply with_provision_inv.
    + destruct (tk_save_typed k1 (ti_typed k1 H1)) as (p & -> & Hp & Ed). cbn in Ed |- *.
      unfold stopTicking. cbn. rewrite Ht, (ti_io k Hi Ht). unfold tk_dyn in *. cbn. rewrite Ed. cbn.
      split_and!; try done. lia.
  - destruct (Z.ltb_spec (seq_ (tk_dyn k)) (seq_end_ (tk_dyn k))); [|lia].
    destruct (save_if_late late _ H1) as (p & -> & Hp & Ed). cbn in Ed |- *. unfold tk_dyn in *. cbn. rewrite Ed. cbn.
    split_and!; try done. split; unfold tk_dyn; cbn; rewrite ?Ed; cbn; try done; try lia. by apply with_provision_inv.
Qed.
End TickerLemmas.

Section TickerRuns.
Context `{RegexLib} `{SchemaLib}.

(** The ticks the callback accepts. *)
Definition accepts (l : list (bool * bool)) : nat := length (filter (fun x => x.1 = true) l).

Lemma accepts_cons b late l : accepts ((b, late) :: l) = ((if b then 1 else 0) + accepts l)%nat.
Proof. unfold accepts. rewrite filter_cons. by destruct b. Qed.

Lemma fires_idle l k : tk_waiting k = false -> fires l k = ([], k).
Proof. intros Hw. destruct l as [|[a b] l]; [done|]. cbn. by rewrite Hw. Qed.

Lemma same_range_trans d1 d2 d3 : same_range d1 d2 -> same_range d2 d3 -> same_range d1 d3.
Proof. intros (?&?&?&?) (?&?&?&?). unfold same_range. split_and!; congruence. Qed.

Lemma start_running k : tk_inv k -> 0 < cps_ (tk_dyn k) -> seq_end_ (tk_dyn k) < i64_max ->
  running (startTicking k).1 /\ same_range (tk_dyn k) (tk_dyn (startTicking k).1) /\
  seq_ (tk_dyn (startTicking k).1) =
    (if (seq_ (tk_dyn k) <? seq_begin_ (tk_dyn k) - 1) || (seq_end_ (tk_dyn k) <? seq_ (tk_dyn k))
     then seq_begin_ (tk_dyn k) - 1 else seq_ (tk_dyn k)).
Proof.
  intros Hk Hc He. destruct (startTicking_inv k Hk) as [Hi _]. revert Hi. unfold startTicking, bind, modify.
  assert (tk_provision (stopTicking k) = tk_provision k) as Ep by (unfold stopTicking; by repeat case_match).
  set (k1 := start_state k).
  assert (tk_callback k1 = true /\ tk_io_context k1 = true /\ same_range (tk_dyn k) (tk_dyn k1) /\
    seq_ (tk_dyn k1) = (if (seq_ (tk_dyn k) <? seq_begin_ (tk_dyn k) - 1) || (seq_end_ (tk_dyn k) <? seq_ (tk_dyn k))
     then seq_begin_ (tk_dyn k) - 1 else seq_ (tk_dyn k)) /\ cp_typed (tk_provision k1)) as (Hcb & Hio & Hsame & Hseq & Hp1).
  { pose proof (typed_begin_i64 k Hk) as [Hb _]. subst k1. unfold start_state, tk_dyn in *. cbn zeta. cbn. rewrite Ep.
    destruct (_ || _); split_and!; try done; unfold tk_dyn; cbn; rewrite ?Ep; try done; [|apply Hk].
    apply cp_update_typed; [by rewrite ?Ep; apply Hk|rewrite ?Ep; apply Hk|].
    destruct (ct_dyn _ (ti_typed k Hk)) as (_ & Hrest). by split. }
  destruct (tk_save_typed k1 Hp1) as (p & -> & Hp & Ed). cbn. unfold scheduleTick. cbn.
  change (tk_dyn (mkTicker p true (tk_callback k1) (tk_io_context k1) false (tk_stopped k1))) with (cp_dyn p).
  destruct Hsame as (S1 & S2 & S3 & S4). rewrite Ed. destruct (Z.eqb_spec (cps_ (tk_dyn k1)) 0); [lia|]. cbn. intros Hi.
  change (tk_dyn (with_waiting true (mkTicker p true (tk_callback k1) (tk_io_context k1) false (tk_stopped k1)))) with (cp_dyn p).
  rewrite Ed. split_and!; [|unfold same_range; by split_and!|done].
  destruct (ct_dyn _ (ti_typed k Hk)) as (_ & _ & _ & _ & _ & Hle).
  split; try done; unfold tk_dyn in *; cbn; rewrite Ed; try lia.
  rewrite Hseq, S1, S2. destruct (Z.ltb_spec (seq_ (cp_dyn (tk_provision k))) (seq_begin_ (cp_dyn (tk_provision k)) - 1)); cbn [orb]; [lia|].
  destruct (Z.ltb_spec (seq_end_ (cp_dyn (tk_provision k))) (seq_ (cp_dyn (tk_provision k)))); lia.
Qed.

(** The values sent by the ticks of a timer that does not repeat: the accepted ones
    send the values from the current one to the end, in order, and the timer stops
    after the last. *)
Lemma fires_once l : forall k, running k -> repeat_ (tk_dyn k) = false ->
  let len := Z.to_nat (seq_end_ (tk_dyn k) - seq_ (tk_dyn k) + 1) in
  let '(sent, k') := fires l k in
  sent = seqZ (seq_ (tk_dyn k)) (Z.of_nat (min (accepts l) len)) /\ same_range (tk_dyn k) (tk_dyn k') /\
  if decide (accepts l < len)%nat then running k' /\ seq_ (tk_dyn k') = seq_ (tk_dyn k) + Z.of_nat (accepts l)
  else tk_timer k' = false /\ tk_waiting k' = false /\ seq_ (tk_dyn k') = seq_end_ (tk_dyn k) + 1.
Proof.
  induction l as [|[b late] l IH]; intros k Hk Hrep; cbn zeta; cbn [fires].
  - destruct (rn_range k Hk). cbn. split_and!; [done|done|]. rewrite decide_True by lia. split; [done|lia].
  - rewrite (rn_waiting k Hk), accepts_cons. pose proof (fire_running b late k Hk) as Hf.
    destruct (fire false b late k) as [k1 o]. destruct Hf as [Hsame Hf]. destruct b; cbn [negb] in Hf.
    + destruct Hf as [-> Hf]. destruct Hsame as (S1 & S2 & S3 & S4).
      destruct (Z.ltb_spec (seq_ (tk_dyn k)) (seq_end_ (tk_dyn k))) as [Hlt|Hge].
      * destruct Hf as [Hk1 Eseq]. specialize (IH k1 Hk1). cbn zeta in IH. destruct (fires l k1) as [sent k2].
        rewrite S2, Eseq, S4 in IH. destruct (IH Hrep) as (-> & Hs2 & Hrest).
        replace (Z.to_nat (seq_end_ (tk_dyn k) - seq_ (tk_dyn k) + 1))
          with (S (Z.to_nat (seq_end_ (tk_dyn k) - (seq_ (tk_dyn k) + 1) + 1))) by lia.
        set (len := Z.to_nat _) in *. split_and!.
        -- change (1 + accepts l)%nat with (S (accepts l)). cbn [Nat.min]. rewrite (seqZ_cons (seq_ (tk_dyn k))) by lia. f_equal. f_equal; lia.
        -- eapply same_range_trans; [|exact Hs2]. by split_and!.
        -- destruct (decide (accepts l < len)%nat) as [Hd|Hd]; [rewrite decide_True by lia|by rewrite decide_False by lia].
           destruct Hrest. split; [done|lia].
      * rewrite Hrep in Hf. destruct Hf as (Ht & Hw & Es). rewrite fires_idle by done.
        pose proof (rn_range k Hk) as Hrg.
        replace (Z.to_nat (seq_end_ (tk_dyn k) - seq_ (tk_dyn k) + 1)) with 1%nat by lia.
        split_and!; [|by split_and!|].
        -- by assert (((1 + accepts l) `min` 1)%nat = 1%nat) as -> by lia.
        -- rewrite decide_False by lia. done.
    + destruct Hf as [-> ->]. specialize (IH k Hk Hrep). by destruct (fires l k) as [sent k2].
Qed.

(** The [i]-th value sent from the value [s] on by a timer that repeats. *)
Definition cycle_value (b e s : Z) (i : nat) : Z :=
  if decide (i = 0%nat) then s else b + (s - b + Z.of_nat i) mod (e - b + 1).

Lemma cycle_value_next b e s i : b - 1 <= s <= e -> b <= e ->
  cycle_value b e s (S i) = cycle_value b e (if s <? e then s + 1 else b) i.
Proof.
  intros Hs Hbe. unfold cycle_value. rewrite decide_False by done. destruct (Z.ltb_spec s e) as [Hlt|Hge], (decide (i = 0%nat)) as [->|].
  - rewrite Z.mod_small by lia. lia.
  - do 2 f_equal. lia.
  - assert (s = e) as -> by lia. replace (e - b + Z.of_nat 1) with (1 * (e - b + 1)) by lia. rewrite Z.mod_mul by lia. lia.
  - assert (s = e) as -> by lia. f_equal. replace (e - b + Z.of_nat (S i)) with (b - b + Z.of_nat i + 1 * (e - b + 1)) by lia.
    by rewrite Z.mod_add by lia.
Qed.

Lemma fires_repeat l : forall k, running k -> repeat_ (tk_dyn k) = true ->
  let '(sent, k') := fires l k in
  running k' /\ length sent = accepts l /\
  forall i, (i < accepts l)%nat ->
    sent !! i = Some (cycle_value (seq_begin_ (tk_dyn k)) (seq_end_ (tk_dyn k)) (seq_ (tk_dyn k)) i).
Proof.
  induction l as [|[b late] l IH]; intros k Hk Hrep; cbn [fires].
  - split_and!; [done|done|]. cbn. lia.
  - rewrite (rn_waiting k Hk), accepts_cons. pose proof (fire_running b late k Hk) as Hf.
    destruct (fire false b late k) as [k1 o]. destruct Hf as [(S1 & S2 & S3 & S4) Hf]. destruct b; cbn [negb] in Hf.
    + destruct Hf as [-> Hf]. rewrite Hrep in Hf.
      assert (running k1 /\ seq_ (tk_dyn k1) = (if seq_ (tk_dyn k) <? seq_end_ (tk_dyn k) then seq_ (tk_dyn k) + 1
                                                else seq_begin_ (tk_dyn k))) as [Hk1 Es].
      { by destruct (seq_ (tk_dyn k) <? seq_end_ (tk_dyn k)). }
      specialize (IH k1 Hk1 ltac:(congruence)). destruct (fires l k1) as [sent k2]. destruct IH as (Hk2 & Hlen & Hv).
      split_and!; [done|cbn; lia|]. intros [|i] Hi; [done|]. cbn [lookup list_lookup]. rewrite Hv by lia.
      rewrite S1, S2, Es, cycle_value_next; [done|exact (rn_range k Hk)|].
      destruct (ct_dyn _ (ti_typed k (rn_inv k Hk))) as (_ & _ & _ & _ & _ & Hle). exact Hle.
    + destruct Hf as [-> ->]. specialize (IH k Hk Hrep). by destruct (fires l k) as [sent k2].
Qed.
End TickerRuns.

(** ** Properties *)

Section Properties.
Context `{RegexLib} `{SchemaLib}.

(** C37: Whatever happens to a loaded provision and its timer, in any order (starts and
    stops, updates of its parameters, accepted or not, single shots, ticks accepted or
    refused, ticks of stopped timers, saved counters), every field stays in the range
    of its type, its states away from the reserved ones, its range ordered, its
    document able to show its counters, and it has a callback exactly when it has a
    timer. *)
Theorem provision_stays_typed (p : AdminClientProvision) (k : Ticker) (Hp : cp_typed p)
  (Hs : rtc tk_step (Ticker_of p) k) :
  cp_typed (tk_provision k) /\ tk_callback k = tk_timer k /\
  exists p' j, cp_getJson (tk_provision k) = (p', Val j) /\ cp_typed p' /\ cp_json p' = j /\ dynamics_of j = Some (tk_dyn k).
Proof.
  assert (tk_inv k) as Hk.
  { apply (rtc_invariant tk_step tk_inv (Ticker_of p)); [by split|apply tk_step_inv|exact Hs]. }
  split_and!; [apply Hk|apply Hk|].
  destruct (cp_save_typed _ (ti_typed k Hk)) as (p' & E & Ht & _ & Hd). exists p', (cp_json p'). unfold cp_getJson. by rewrite E.
Qed.

(** The ticks of a range with a positive rate and without repetition. *)
Lemma range_ticks (sb se cps rep : string) (p p' : AdminClientProvision) (b e : Z) (l : list (bool * bool))
  (Hp : cp_typed p) (Hb : stoll sb = Val b) (He : stoll se = Val e) (Hmax : e < i64_max)
  (Hu : updateTriggering sb se cps rep p = (p', Val true)) (Hc : 0 < cps_ (cp_dyn p')) (Hr : repeat_ (cp_dyn p') = false)
  (Hl : (Z.to_nat (e - b + 2) <= accepts l)%nat) :
  let '(ticked, k) := fires l (startTicking (Ticker_of p')).1 in
  b <= e /\ ticked = seqZ (b - 1) (e - b + 2) /\ isTicking k = false /\ seq_ (tk_dyn k) = e + 1.
Proof.
  pose proof (accepted_update_parts sb se cps rep p p' Hp Hu) as (b' & e' & Eb & Ee & Hle & E1 & E2 & E3 & _).
  assert (sempty sb = false) as Hsb by (destruct sb; [done|done]).
  assert (sempty se = false) as Hse by (destruct se; [done|done]).
  unfold range_bound in Eb, Ee. rewrite Hsb, Hb in Eb. rewrite Hse, He in Ee. injection Eb as <-. injection Ee as <-.
  rewrite Hsb in E3. cbn in E3.
  assert (tk_inv (Ticker_of p')) as Hi.
  { split; try done. pose proof (updateTriggering_typed sb se cps rep p Hp) as Ht. by rewrite Hu in Ht. }
  destruct (start_running (Ticker_of p') Hi Hc ltac:(unfold tk_dyn; cbn; lia)) as (Hk & (S1 & S2 & S3 & S4) & Es).
  unfold tk_dyn in *. cbn [Ticker_of tk_provision] in *. rewrite E1, E2, E3 in *.
  assert ((b - 1 <? b - 1) || (e <? b - 1) = false) as Ef.
  { rewrite orb_false_iff, !Z.ltb_ge. lia. }
  rewrite Ef in Es. pose proof (fires_once l _ Hk) as Hf. unfold tk_dyn in Hf. cbn zeta in Hf.
  rewrite S4, S2, Es in Hf. specialize (Hf Hr). destruct (fires l _) as [sent k].
  replace (e - (b - 1) + 1) with (e - b + 2) in Hf by lia. destruct Hf as (-> & _ & Hf).
  rewrite decide_False in Hf by lia. destruct Hf as (Ht & _ & Hq). split_and!; [done| |done|done].
  f_equal. rewrite Nat.min_r by lia. rewrite Z2Nat.id by lia. done.
Qed.


(** The first tick of a range is one before it: the counter is set before the range, and the
    callback gets it before it is incremented. *)
Theorem range_starts_one_before (sb se cps rep : string) (p p' : AdminClientProvision) (b e : Z) (l : list (bool * bool))
  (Hp : cp_typed p) (Hb : stoll sb = Val b) (He : stoll se = Val e) (Hmax : e < i64_max)
  (Hu : updateTriggering sb se cps rep p = (p', Val true)) (Hc : 0 < cps_ (cp_dyn p')) (Hr : repeat_ (cp_dyn p') = false)
  (Hl : (Z.to_nat (e - b + 2) <= accepts l)%nat) :
  head (fires l (startTicking (Ticker_of p')).1).1 = Some (b - 1).
Proof.
  pose proof (range_ticks sb se cps rep p p' b e l Hp Hb He Hmax Hu Hc Hr Hl) as Ht. destruct (fires l _) as [ticked k].
  destruct Ht as (Hle & -> & _). cbn [fst]. by rewrite seqZ_cons by lia.
Qed.

(** With repetition the timer never stops by itself: after the value before the
    range, the values of the range come around again and again. *)
Theorem repeated_range_cycles (k : Ticker) (l : list (bool * bool)) (Hi : tk_inv k) (Hc : 0 < cps_ (tk_dyn k))
  (He : seq_end_ (tk_dyn k) < i64_max) (Hr : repeat_ (tk_dyn k) = true) (Hs : seq_ (tk_dyn k) = seq_begin_ (tk_dyn k) - 1) :
  let '(sent, k') := fires l (startTicking k).1 in
  isTicking k' = true /\ length sent = accepts l /\
  (forall i, (S i < accepts l)%nat ->
     sent !! S i = Some (seq_begin_ (tk_dyn k) + Z.of_nat i mod (seq_end_ (tk_dyn k) - seq_begin_ (tk_dyn k) + 1))).
Proof.
  destruct (start_running k Hi Hc He) as (Hk & (S1 & S2 & S3 & S4) & Es).
  destruct (ct_dyn _ (ti_typed k Hi)) as (_ & _ & _ & _ & _ & Hle). fold (tk_dyn k) in Hle.
  assert ((seq_ (tk_dyn k) <? seq_begin_ (tk_dyn k) - 1) || (seq_end_ (tk_dyn k) <? seq_ (tk_dyn k)) = false) as Ef.
  { rewrite orb_false_iff, !Z.ltb_ge. lia. }
  rewrite Ef in Es. pose proof (fires_repeat l _ Hk ltac:(congruence)) as Hf. destruct (fires l _) as [sent k'].
  destruct Hf as (Hk' & Hlen & Hv). split_and!; [exact (rn_timer _ Hk')|done|]. intros i Hl. rewrite Hv by done. f_equal.
  unfold cycle_value. rewrite decide_False by done. rewrite S1, S2, Es, Hs.
  by replace (seq_begin_ (tk_dyn k) - 1 - seq_begin_ (tk_dyn k) + Z.of_nat (S i)) with (Z.of_nat i) by lia.
Qed.

(** A tick that finds the rate at zero, or its timer stopped, moves the sequence and
    sends nothing: after the resumption that value is missing. *)
Theorem tick_after_a_pause_skips_a_value (accepted late : bool) (k : Ticker) (Hi : tk_inv k)
  (Hs : seq_ (tk_dyn k) < seq_end_ (tk_dyn k)) (Hp : tk_timer k = false \/ cps_ (tk_dyn k) = 0) :
  let '(k', o) := on_tick accepted late k in
  o = Val None /\ seq_ (tk_dyn k') = seq_ (tk_dyn k) + 1 /\ isTicking k' = false.
Proof.
  unfold on_tick, bind, modify, get. pose proof (scheduleTick_inv k Hi) as Hsi.
  assert (tk_timer (scheduleTick k) = false /\ tk_dyn (scheduleTick k) = tk_dyn k) as [Ht Ed].
  { unfold tk_dyn. rewrite scheduleTick_provision. split; [|done]. unfold scheduleTick.
    assert (negb (tk_timer k) || (cps_ (tk_dyn k) =? 0) = true) as -> by (destruct Hp as [->| ->]; [done|by rewrite orb_true_r]).
    unfold stopTicking. by destruct (tk_timer k) eqn:E, (tk_io_context k). }
  rewrite (ti_callback _ Hsi), Ht. cbn [andb]. set (k1 := set_seq _ (scheduleTick k)).
  pose proof (ct_dyn _ (ti_typed k Hi)) as (Hq & _ & He & _).
  assert (seq_ (tk_dyn k1) = seq_ (tk_dyn k) + 1 /\ seq_end_ (tk_dyn k1) = seq_end_ (tk_dyn k)) as [E1 E2].
  { subst k1. unfold tk_dyn in *. cbn. rewrite Ed. split; [|done]. apply to_i64_id. unfold is_i64 in *. lia. }
  rewrite E1, E2. destruct (Z.ltb_spec (seq_end_ (tk_dyn k)) (seq_ (tk_dyn k) + 1)); [lia|].
  assert (tk_inv k1) as Hk1 by (apply set_seq_inv; [apply to_i64_range|done]).
  destruct (save_if_late late k1 Hk1) as (p & -> & _ & Edp). unfold tk_dyn in *. cbn. by rewrite Edp, E1.
Qed.

(** Pausing between two ticks and resuming keeps the place in the range. *)
Theorem pause_and_resume (k : Ticker) (Hk : running k) :
  running (startTicking (stopTicking k)).1 /\ seq_ (tk_dyn (startTicking (stopTicking k)).1) = seq_ (tk_dyn k).
Proof.
  pose proof (rn_range k Hk) as Hr. pose proof (rn_inv k Hk) as Hi.
  assert (tk_dyn (stopTicking k) = tk_dyn k) as Ed by (unfold tk_dyn, stopTicking; by repeat case_match).
  destruct (start_running (stopTicking k) (stopTicking_inv k Hi)) as (Hn & _ & Es); rewrite ?Ed; [apply Hk|apply Hk|].
  split; [done|]. rewrite Es, Ed.
  assert ((seq_ (tk_dyn k) <? seq_begin_ (tk_dyn k) - 1) || (seq_end_ (tk_dyn k) <? seq_ (tk_dyn k)) = false) as ->; [|done].
  rewrite orb_false_iff, !Z.ltb_ge. lia.
Qed.
End Properties.

(** *** The pool *)

(** Works posted and started, in any order; a start needs a work posted. *)
Inductive pool_step : Pool -> Pool -> Prop :=
| pool_post p : pool_step p (postToPool p).2
| pool_begin p : 0 < pending_pool_dispatches_ p -> pool_step p (pool_start p).

(** The works waiting in the pool never exceed its limit, and a work is refused
    exactly when they reach it. *)
Theorem pool_is_bounded (m : Z) (p : Pool) (Hm : 0 < m <= u64_max) (Hp : rtc pool_step (mkPool 0 0 m) p) :
  max_pending_pool_dispatches_ p = m /\ 0 <= pending_pool_dispatches_ p <= m /\
  ((postToPool p).1 = false <-> pending_pool_dispatches_ p = m).
Proof.
  assert (max_pending_pool_dispatches_ p = m /\ 0 <= pending_pool_dispatches_ p <= m) as [E Hb].
  { apply (rtc_invariant pool_step (fun p => max_pending_pool_dispatches_ p = m /\ 0 <= pending_pool_dispatches_ p <= m) (mkPool 0 0 m));
      [cbn; lia| |exact Hp].
    intros p1 p2 [E Hb] Hstep. destruct Hstep as [q|q Hq]; [unfold postToPool|unfold pool_start].
    - destruct (Z.ltb_spec 0 (max_pending_pool_dispatches_ q)), (Z.leb_spec (max_pending_pool_dispatches_ q) (pending_pool_dispatches_ q));
        cbn; try lia. rewrite to_u64_id by (unfold is_u64; lia). lia.
    - cbn. rewrite to_u64_id by (unfold is_u64; lia). lia. }
  split_and!; [done|lia|lia|]. unfold postToPool. rewrite E.
  destruct (Z.ltb_spec 0 m), (Z.leb_spec m (pending_pool_dispatches_ p)); cbn; split; intros; try done; lia.
Qed.

Module TickerExamples.
Import Still ClientExamples.

Definition started (sb se cps rep : string) : Ticker := (startTicking (Ticker_of (updateTriggering sb se cps rep flow0).1)).1.

Lemma provision_stays_typed_witness :
  cp_typed (tk_provision (startTicking (Ticker_of flow0)).1).
Proof.
  destruct (provision_stays_typed flow0 (startTicking (Ticker_of flow0)).1 flow0_typed) as [Ht _]; [|exact Ht].
  apply rtc_once. apply step_start.
Defined.


Lemma range_starts_one_before_witness : head (fires (repeat (true, false) 3) (started "5" "6" "100" "false")).1 = Some 4.
Proof.
  apply (range_starts_one_before "5" "6" "100" "false" flow0 (updateTriggering "5" "6" "100" "false" flow0).1 5 6
    (repeat (true, false) 3) flow0_typed); vm_compute; (reflexivity || lia).
Defined.

Lemma repeated_range_cycles_witness :
  (fires (repeat (true, false) 4) (started "5" "6" "100" "true")).1 !! 3%nat = Some 5.
Proof.
  set (k := Ticker_of (updateTriggering "5" "6" "100" "true" flow0).1).
  assert (tk_inv k) as Hi by (split; try done; apply updateTriggering_typed, flow0_typed).
  pose proof (repeated_range_cycles k (repeat (true, false) 4) Hi) as Hr. unfold started. fold k.
  destruct (fires _ _) as [sent k'].
  destruct Hr as (_ & _ & Hv); [vm_compute; reflexivity..|]. exact (Hv 2%nat ltac:(vm_compute; lia)).
Defined.

Lemma pool_is_bounded_witness : (postToPool (postToPool (mkPool 0 0 1)).2).1 = false.
Proof.
  destruct (pool_is_bounded 1 (postToPool (mkPool 0 0 1)).2) as (_ & _ & Hf);
    [unfold u64_max; lia|apply rtc_once, pool_post|]. apply Hf. vm_compute. reflexivity.
Defined.
End TickerExamples.
