(* ===== verification/ClientFlow.v ===== *)
(** The client side at work: the client provisions
    ([src/model/AdminClientProvisionData.cpp]), the requests they send and the chains
    their responses continue ([sendClientRequest] of
    [src/http2/MyAdminHttp2Server.cpp]), and their triggers
    ([triggerClientProvision], [triggerClientOperation]). *)
From S2P Require Import Prelude Std Double Functions Query Json JsonModel External JsonConstraint Keys DataPart MockEvents MockData TypeConverter Vault Transformation ClientEndpoint Schema Stages StageFrames ClientProvision ClientTransform Ticker.
From stdpp Require Import options.
#[local] Open Scope Z_scope.

(** ** State *)

(** An endpoint object: its identifier and the times the endpoints had been cleared
    when it was registered. The clear is the only way to drop one, and the requests
    in flight keep theirs. *)
Definition EpRef : Type := nat * string.

(** The counters of [MyTrafficHttp2Client]: all the connections share their labels. *)
Record ClientCounters := mkClientCounters {
  provisioned_successful : Z;
  provisioned_failed : Z;
  purged_successful : Z;
  purged_failed : Z;
  unexpected_status : Z
}.

(** What the callback of a request captures. *)
Record InFlight := mkInFlight {
  if_in_state : string;
  if_request : ClientRequest;
  if_provision_id : string;
  if_endpoint_id : string;
  if_send_seq : Z;
  if_provision_seq : Z;
  if_endpoint : EpRef;
  if_vars : gmap string string;
  if_purge : option (list (DataKey * Z))
}.

(** A request handed to a connection ([asyncSend]): the connection, the timeout and
    the delay in milliseconds, and its callback. *)
Record Sending := mkSending {
  sd_client : Client;
  sd_timeout_ms : Z;
  sd_delay_ms : Z;
  sd_callback : InFlight
}.

(** A work of the pool: the arguments of [sendClientRequest]. *)
Record Work := mkWork {
  wk_provision : nat;
  wk_in_state : string;
  wk_endpoint : EpRef;
  wk_seq : Z
}.

Section Flow.
Context `{JsonEq} `{JsonText} `{JsonPointer} `{RegexLib} `{SchemaLib} `{Calculus} {OS : Type} `{Outside OS}.
Context (decode_url : string -> string) (multipart_decode : string -> string -> list mp_event)
  (ub : double -> Z) (report_text : fail_report -> outcome string).

(** A provision object: the provision with its timer, and what its callback captured. *)
Record ProvisionObject := mkObject {
  ob_ticker : Ticker;
  ob_in_state : string;
  ob_endpoint : EpRef
}.

Record Flow := mkFlow {
  fl_heap : gmap nat ProvisionObject;
  fl_provisions : gmap string nat;
  fl_endpoints : gmap string AdminClientEndpoint;
  fl_generation : nat;
  fl_detached : gmap EpRef AdminClientEndpoint;
  fl_world : World OS;
  fl_client_data : bool;
  fl_key_history : bool;
  fl_purge : bool;
  fl_metrics : bool;
  fl_counters : ClientCounters;
  fl_pool : option Pool;
  fl_works : list Work;
  fl_sent : list Sending
}.

Definition with_heap (h : gmap nat ProvisionObject) (s : Flow) : Flow :=
  mkFlow h (fl_provisions s) (fl_endpoints s) (fl_generation s) (fl_detached s) (fl_world s) (fl_client_data s) (fl_key_history s)
    (fl_purge s) (fl_metrics s) (fl_counters s) (fl_pool s) (fl_works s) (fl_sent s).
Definition with_provisions (m : gmap string nat) (s : Flow) : Flow :=
  mkFlow (fl_heap s) m (fl_endpoints s) (fl_generation s) (fl_detached s) (fl_world s) (fl_client_data s) (fl_key_history s)
    (fl_purge s) (fl_metrics s) (fl_counters s) (fl_pool s) (fl_works s) (fl_sent s).
Definition with_endpoints (m : gmap string AdminClientEndpoint) (g : nat) (d : gmap EpRef AdminClientEndpoint) (s : Flow) : Flow :=
  mkFlow (fl_heap s) (fl_provisions s) m g d (fl_world s) (fl_client_data s) (fl_key_history s)
    (fl_purge s) (fl_metrics s) (fl_counters s) (fl_pool s) (fl_works s) (fl_sent s).
Definition with_fworld (w : World OS) (s : Flow) : Flow :=
  mkFlow (fl_heap s) (fl_provisions s) (fl_endpoints s) (fl_generation s) (fl_detached s) w (fl_client_data s) (fl_key_history s)
    (fl_purge s) (fl_metrics s) (fl_counters s) (fl_pool s) (fl_works s) (fl_sent s).
Definition with_settings (data history purge : bool) (s : Flow) : Flow :=
  mkFlow (fl_heap s) (fl_provisions s) (fl_endpoints s) (fl_generation s) (fl_detached s) (fl_world s) data history
    purge (fl_metrics s) (fl_counters s) (fl_pool s) (fl_works s) (fl_sent s).
Definition with_counters (c : ClientCounters) (s : Flow) : Flow :=
  mkFlow (fl_heap s) (fl_provisions s) (fl_endpoints s) (fl_generation s) (fl_detached s) (fl_world s) (fl_client_data s) (fl_key_history s)
    (fl_purge s) (fl_metrics s) c (fl_pool s) (fl_works s) (fl_sent s).
Definition with_pool (p : option Pool) (l : list Work) (s : Flow) : Flow :=
  mkFlow (fl_heap s) (fl_provisions s) (fl_endpoints s) (fl_generation s) (fl_detached s) (fl_world s) (fl_client_data s) (fl_key_history s)
    (fl_purge s) (fl_metrics s) (fl_counters s) p l (fl_sent s).
Definition with_sent (l : list Sending) (s : Flow) : Flow :=
  mkFlow (fl_heap s) (fl_provisions s) (fl_endpoints s) (fl_generation s) (fl_detached s) (fl_world s) (fl_client_data s) (fl_key_history s)
    (fl_purge s) (fl_metrics s) (fl_counters s) (fl_pool s) (fl_works s) l.

Definition fl_data (s : Flow) : MockData MockClientEvent := w_client (fl_world s).
Definition on_client_data (f : MockData MockClientEvent -> MockData MockClientEvent) (s : Flow) : Flow :=
  with_fworld (with_client (f (fl_data s)) (fl_world s)) s.

(** The increments of the counters, when there are metrics. *)
Definition count (f : ClientCounters -> ClientCounters) (s : Flow) : Flow :=
  if fl_metrics s then with_counters (f (fl_counters s)) s else s.
Definition inc_provisioned (ok : bool) (c : ClientCounters) : ClientCounters :=
  if ok then mkClientCounters (provisioned_successful c + 1) (provisioned_failed c) (purged_successful c) (purged_failed c) (unexpected_status c)
  else mkClientCounters (provisioned_successful c) (provisioned_failed c + 1) (purged_successful c) (purged_failed c) (unexpected_status c).
Definition inc_purged (ok : bool) (c : ClientCounters) : ClientCounters :=
  if ok then mkClientCounters (provisioned_successful c) (provisioned_failed c) (purged_successful c + 1) (purged_failed c) (unexpected_status c)
  else mkClientCounters (provisioned_successful c) (provisioned_failed c) (purged_successful c) (purged_failed c + 1) (unexpected_status c).
Definition inc_unexpected (c : ClientCounters) : ClientCounters :=
  mkClientCounters (provisioned_successful c) (provisioned_failed c) (purged_successful c) (purged_failed c) (unexpected_status c + 1).

(** Objects behind shared pointers. *)
Definition object_at (l : nat) : M Flow ProvisionObject := fun s =>
  match fl_heap s !! l with Some o => (s, Val o) | None => (s, Throw undefined) end.
Definition put_ticker (l : nat) (k : Ticker) (s : Flow) : Flow :=
  with_heap (alter (fun o => mkObject k (ob_in_state o) (ob_endpoint o)) l (fl_heap s)) s.
Definition put_provision (l : nat) (p : AdminClientProvision) (s : Flow) : Flow :=
  with_heap (alter (fun o => mkObject (with_provision p (ob_ticker o)) (ob_in_state o) (ob_endpoint o)) l (fl_heap s)) s.

Definition endpoint_at (r : EpRef) (s : Flow) : option AdminClientEndpoint :=
  if decide (r.1 = fl_generation s) then fl_endpoints s !! r.2 else fl_detached s !! r.
Definition put_endpoint (r : EpRef) (e : AdminClientEndpoint) (s : Flow) : Flow :=
  if decide (r.1 = fl_generation s) then with_endpoints (<[r.2 := e]> (fl_endpoints s)) (fl_generation s) (fl_detached s) s
  else with_endpoints (fl_endpoints s) (fl_generation s) (<[r := e]> (fl_detached s)) s.

(** ** [AdminClientProvisionData] *)

(** [find]: the object registered for a state and an identifier. *)
Definition client_find (inState id : string) (s : Flow) : option nat := fl_provisions s !! calculateStringKey inState id "".

(** [loadSingle]; [valid] is the validation against the schema of the operation. *)
Definition cpd_loadSingle (valid : json -> bool) (j : json) : M Flow LoadResult :=
  if negb (valid j) then ret BadSchema
  else
    do p <- lift (ClientProvision_load decode_url ub j) ;;
    match p with
    | None => ret BadContent
    | Some p =>
        do s <- get ;;
        let l := fresh (dom (fl_heap s)) in
        modify (fun s => with_provisions (<[cp_key p := l]> (fl_provisions s))
                           (with_heap (<[l := mkObject (Ticker_of p) "" (O, "")]> (fl_heap s)) s)) ;;;
        ret Success
    end.

Definition cpd_load (valid : json -> bool) : json -> M Flow LoadResult := load_document (cpd_loadSingle valid).

(** The registered provisions, in some order. *)
Definition registered_provisions (s : Flow) : list AdminClientProvision :=
  omap (fun l => (fun o => tk_provision (ob_ticker o)) <$> fl_heap s !! l) (map_to_list (fl_provisions s)).*2.

(** [asJsonString]: [getJson] of each object, which writes its document. *)
Fixpoint documents (getUnused : bool) (ls : list nat) : M Flow (list json) :=
  match ls with
  | [] => ret []
  | l :: ls =>
      do o <- object_at l ;;
      if getUnused && cp_employed (tk_provision (ob_ticker o)) then documents getUnused ls
      else
        let '(p, j) := cp_getJson (tk_provision (ob_ticker o)) in
        modify (put_provision l p) ;;;
        do j <- lift j ;;
        do js <- documents getUnused ls ;;
        ret (j :: js)
  end.
Definition client_asJsonString (getUnused : bool) : M Flow string :=
  do s <- get ;;
  do js <- documents getUnused (map_to_list (fl_provisions s)).*2 ;;
  lift (json_dump (JArray js)).
Definition client_data_needsStorage (s : Flow) : bool := existsb client_needsStorage (registered_provisions s).
Definition clearClientProvisions (s : Flow) : bool * Flow :=
  (negb (bool_decide (fl_provisions s = ∅)), with_provisions ∅ s).

(** [clearClientEndpoints]: the objects in use stay reachable. *)
Definition clearClientEndpoints (s : Flow) : bool * Flow :=
  (negb (bool_decide (fl_endpoints s = ∅)),
   with_endpoints ∅ (S (fl_generation s))
     ((kmap (pair (fl_generation s)) (fl_endpoints s) : gmap EpRef AdminClientEndpoint) ∪ fl_detached s) s).

(** [AdminClientEndpointData::load] on the registered endpoints. *)
Definition load_endpoints (lazy : bool) (connections : Z) (valid : json -> bool) (j : json) : M Flow EndpointResult := fun s =>
  let '(d, r) := ep_load ub lazy connections valid j (fl_endpoints s) in
  (with_endpoints d (fl_generation s) (fl_detached s) s, r).

(** ** [sendClientRequest] *)

(** [provision->transform(...)] *)
Definition run_client_transform (l : nat) (vars : gmap string string) (seq : Z) : M Flow (ClientTransformed (OS := OS)) := fun s =>
  match object_at l s with
  | (s, Throw e) => (s, Throw e)
  | (s, Val o) =>
      let '(ct, r) := client_transform ub report_text "" vars seq (cp_employ (tk_provision (ob_ticker o))) (fl_world s) in
      let s := with_fworld (ct_world ct) (put_provision l (ct_provision ct) s) in
      match r with Val _ => (s, Val ct) | Throw e => (s, Throw e) end
  end.

(** The connection, the sequence and the hand-over of a request. *)
Definition hand_over (p : AdminClientProvision) (inState : string) (ep : EpRef) (seq : Z) (purge : option (list (DataKey * Z)))
    (ct : ClientTransformed (OS := OS)) : M Flow unit :=
  do s <- get ;;
  match endpoint_at ep s with
  | None => throw undefined
  | Some e =>
      let '(sendSeq, e) := incrementSendSeq (connect false 1 e) in
      let numWorkers := getNumWorkers e in
      let workerIndex := if 1 <? numWorkers then sendSeq mod numWorkers else 0 in
      modify (put_endpoint ep e) ;;;
      match getClient (Z.to_nat workerIndex) e with
      | None => throw undefined
      | Some client =>
          let q := ct_request ct in
          let callback := mkInFlight inState q (cp_id p) (cp_endpoint_id p) sendSeq (sequence_of seq p) ep (ct_vars ct) purge in
          modify (fun s => with_sent (fl_sent s ++ [mkSending client (if cq_timeout_ms q =? 0 then 1000 else cq_timeout_ms q)
                                                      (cq_delay_ms q) callback]) s)
      end
  end.

Definition sendClientRequest (l : nat) (inState : string) (ep : EpRef) (seq : Z) (vars : gmap string string)
    (purge : option (list (DataKey * Z))) : M Flow unit :=
  do s <- get ;;
  let purge := match purge with Some p => Some p | None => if fl_purge s then Some [] else None end in
  do ct <- run_client_transform l vars seq ;;
  if negb (sempty (ct_error ct)) then ret tt
  else hand_over (ct_provision ct) inState ep seq purge ct.

(** ** The response *)

(** [transformResponse] of the provision registered now, if there is one. *)
Definition response_transform (f : InFlight) (rsp : ClientResponse) : M Flow (bool * string * gmap string string) := fun s =>
  match client_find (if_in_state f) (if_provision_id f) s with
  | None => (s, Val (true, cq_out_state (if_request f), if_vars f))
  | Some l =>
      match object_at l s with
      | (s, Throw e) => (s, Throw e)
      | (s, Val o) =>
          let '(rt, r) := transformResponse ub report_text (cq_uri (if_request f)) (cq_headers (if_request f)) rsp (if_send_seq f)
                            (cq_out_state (if_request f)) (if_vars f) (if_provision_seq f) (tk_provision (ob_ticker o)) (fl_world s) in
          let s := with_fworld (rt_world rt) (put_provision l (rt_provision rt) s) in
          match r with Val ok => (s, Val (ok, rt_out_state rt, rt_vars rt)) | Throw e => (s, Throw e) end
      end
  end.

Definition if_key (f : InFlight) : DataKey := DataKey3 (if_endpoint_id f) (cq_method (if_request f)) (cq_uri (if_request f)).

(** [MockClientData::loadEvent]: the history of a new key is in the map before its
    event is read. *)
Definition client_loadEvent (f : InFlight) (finalOutState : string) (rsp : ClientResponse) : M Flow unit := fun s =>
  let q := if_request f in
  match MockClientEvent_load multipart_decode (if_provision_id f) (if_in_state f) finalOutState (cr_sending_us rsp)
          (cr_reception_us rsp) (cr_status rsp) (cq_headers q) (cr_headers rsp) (cq_body q) (DataPart_of (cr_body rsp))
          (if_send_seq f) (if_provision_seq f) (cq_delay_ms q) (cq_timeout_ms q) with
  | Val (event, _) => (on_client_data (data_loadEvent (if_key f) event (fl_key_history s)) s, Val tt)
  | Throw e => (on_client_data (fun d => with_map (<[key_ (if_key f) := (getEvents (if_key f) d).1]> (map_ d)) d) s, Throw e)
  end.

(** The removal of the events of a chain, and whether there was any. *)
Fixpoint purge_events (keys : list (DataKey * Z)) (deleted : bool) (d : MockData MockClientEvent) : bool * MockData MockClientEvent :=
  match keys with
  | [] => (deleted, d)
  | (k, seq) :: keys' => let '(b, d) := data_removeEventBySeq k seq d in purge_events keys' (deleted || b) d
  end.
Definition purge_chain (f : InFlight) (purge : option (list (DataKey * Z))) (s : Flow) : Flow :=
  let '(deleted, d) := purge_events (default [] purge ++ [(if_key f, if_send_seq f)]) false (fl_data s) in
  count (inc_purged deleted) (on_client_data (fun _ => d) s).

(** The continuation in the state the response leads to. *)
Definition progress (f : InFlight) (finalOutState : string) (vars : gmap string string) (purge : option (list (DataKey * Z))) : M Flow unit :=
  if negb (sempty finalOutState) && negb (bool_decide (finalOutState = if_in_state f)) then
    do s <- get ;;
    match client_find finalOutState (if_provision_id f) s with
    | None => ret tt
    | Some l =>
        do o <- object_at l ;;
        modify (put_provision l (setSeq (if_provision_seq f) (tk_provision (ob_ticker o)))) ;;;
        sendClientRequest l finalOutState (if_endpoint f) (if_provision_seq f) vars purge
    end
  else ret tt.

(** The callback of [asyncSend]. *)
Definition on_response (f : InFlight) (rsp : ClientResponse) : M Flow unit :=
  do '(ok, finalOutState, vars) <- response_transform f rsp ;;
  modify (count (inc_provisioned (0 <? cr_status rsp))) ;;;
  if cr_status rsp <=? 0 then ret tt
  else
    (if ok : bool then ret tt else modify (count inc_unexpected)) ;;;
    do s <- get ;;
    do purge <- (if fl_client_data s
                 then client_loadEvent f finalOutState rsp ;;;
                      ret ((fun l => l ++ [(if_key f, if_send_seq f)]) <$> if_purge f)
                 else ret (if_purge f)) ;;
    if negb ok then ret tt
    else do s <- get ;;
         if fl_purge s && bool_decide (finalOutState = "purge") then modify (purge_chain f purge)
         else progress f finalOutState vars purge.

(** The response of the [i]-th request in flight arrives. *)
Definition deliver_response (i : nat) (rsp : ClientResponse) : M Flow unit :=
  do s <- get ;;
  match fl_sent s !! i with
  | None => ret tt
  | Some sd => modify (fun s => with_sent (delete i (fl_sent s)) s) ;;; on_response (sd_callback sd) rsp
  end.

(** ** Triggers *)

(** [triggerClientProvision], from a server provision: the endpoint must be known and
    permitted. *)
Definition triggerClientProvision (id inState : string) : M Flow unit :=
  do s <- get ;;
  match client_find inState id s with
  | None => ret tt
  | Some l =>
      do o <- object_at l ;;
      let epid := cp_endpoint_id (tk_provision (ob_ticker o)) in
      match endpoint_find epid (fl_endpoints s) with
      | None => ret tt
      | Some e => if permit_ e then sendClientRequest l inState (fl_generation s, epid) (-1) ∅ None else ret tt
      end
  end.

(** A query string as the code reads it, for [&] separated parameters. *)
Definition query_map {S} (q : string) : M S (gmap string string) :=
  if sempty q then ret ∅
  else match extractQueryParameters decode_url q None "&" with
       | Some (Val (m, _)) => ret m
       | Some (Throw e) => throw e
       | None => throw undefined
       end.

(** [startTicking] with the callback of the trigger. *)
Definition start_ticking (l : nat) (inState : string) (ep : EpRef) : M Flow unit :=
  do o <- object_at l ;;
  let '(k, r) := startTicking (ob_ticker o) in
  modify (fun s => with_heap (<[l := mkObject k inState ep]> (fl_heap s)) s) ;;;
  lift r.

(** The callback of a tick: the request is posted to the pool, or sent at once. *)
Definition tick_callback (l : nat) (inState : string) (ep : EpRef) : M Flow bool :=
  do o <- object_at l ;;
  let tickSeq := seq_ (tk_dyn (ob_ticker o)) in
  do s <- get ;;
  match fl_pool s with
  | Some p =>
      let '(accepted, p) := postToPool p in
      modify (with_pool (Some p) (if accepted : bool then fl_works s ++ [mkWork l inState ep tickSeq] else fl_works s)) ;;;
      ret accepted
  | None => sendClientRequest l inState ep tickSeq ∅ None ;;; ret true
  end.

(** A wait of an object expires, of its timer or of a stopped one: the callback runs in
    the middle of the handler, and does not touch the timer. *)
Definition tick (l : nat) (stopped late : bool) : M Flow unit :=
  do o <- object_at l ;;
  let k := scheduleTick (expire stopped (ob_ticker o)) in
  do accepted <- (if tk_callback k then tick_callback l (ob_in_state o) (ob_endpoint o) else ret true) ;;
  do o <- object_at l ;;
  let '(k, r) := fire stopped accepted late (ob_ticker o) in
  modify (put_ticker l k) ;;;
  do _ <- lift r ;; ret tt.

(** A work of the pool starts. *)
Definition run_work : M Flow unit :=
  do s <- get ;;
  match fl_works s with
  | [] => ret tt
  | wk :: works =>
      modify (with_pool (pool_start <$> fl_pool s) works) ;;;
      sendClientRequest (wk_provision wk) (wk_in_state wk) (wk_endpoint wk) (wk_seq wk) ∅ None
  end.

(** The provision a sequence was set or updated in: [None] is the status to return. *)
Definition apply_sequence (l : nat) (sequence sequenceBegin sequenceEnd cps repeat : string) (hasDynamics : bool) : M Flow (option Z) :=
  do o <- object_at l ;;
  let p := tk_provision (ob_ticker o) in
  match (if sempty sequence then Val None else match stoll sequence with Val z => Val (Some z) | Throw e => Throw e end) with
  | Throw _ => ret (Some 400)
  | Val seq =>
      let p := match seq with Some z => setSeq z p | None => p end in
      modify (put_provision l p) ;;;
      if hasDynamics : bool then
        let '(p, r) := updateTriggering sequenceBegin sequenceEnd cps repeat p in
        modify (put_provision l p) ;;;
        do ok <- lift r ;;
        ret (if ok : bool then None else Some 400)
      else ret None
  end.

(** [triggerClientOperation]: the status code. *)
Definition triggerClientOperation (id queryParams : string) : M Flow Z :=
  do qmap <- query_map queryParams ;;
  let param k dflt := default dflt (qmap !! k) in
  let inState := param "inState" DEFAULT_ADMIN_PROVISION_STATE in
  let '(sequence, sequenceBegin, sequenceEnd, cps, repeat) :=
    (param "sequence" "", param "sequenceBegin" "", param "sequenceEnd" "", param "cps" "", param "repeat" "") in
  let hasDynamics := negb (sempty sequenceBegin) || negb (sempty sequenceEnd) || negb (sempty cps) || negb (sempty repeat) in
  if negb (sempty sequence) && hasDynamics then ret 400
  else
    do s <- get ;;
    match client_find inState id s with
    | None => ret 404
    | Some l =>
        do refused <- apply_sequence l sequence sequenceBegin sequenceEnd cps repeat hasDynamics ;;
        match refused with
        | Some code => ret code
        | None =>
            do o <- object_at l ;;
            do s <- get ;;
            let epid := cp_endpoint_id (tk_provision (ob_ticker o)) in
            match endpoint_find epid (fl_endpoints s) with
            | None => ret 404
            | Some e =>
                if negb (permit_ e) then ret 403
                else if hasDynamics then
                  (if 0 <? cps_ (tk_dyn (ob_ticker o))
                   then if isTicking (ob_ticker o) then ret tt else start_ticking l inState (fl_generation s, epid)
                   else modify (put_ticker l (stopTicking (ob_ticker o)))) ;;;
                  ret 202
                else sendClientRequest l inState (fl_generation s, epid) (-1) ∅ None ;;; ret 200
            end
        end
    end.
End Flow.
