(* ===== verification/FlowInvariant.v ===== *)
(** The client side stays whole ([ClientFlow.v]): every execution keeps its objects
    typed, its references alive and its send sequences unique. *)
From S2P Require Import Prelude Std Double Functions Query Json JsonModel External JsonConstraint Keys DataPart MockEvents MockData TypeConverter Vault Transformation ClientEndpoint Schema Stages StageFrames ClientProvision ClientTransform Ticker ClientFlow.
From stdpp Require Import options.
#[local] Open Scope Z_scope.

(** ** Code that leads from one assertion to another *)

(** With or without an exception. *)
Definition leads {S A} (I J : S -> Prop) (m : M S A) : Prop := forall s, I s -> J (m s).1.

Section Leads.
Context {S : Type} (I J : S -> Prop) (Hij : forall s, I s -> J s).

Lemma leads_ret {A} (a : A) : leads I J (ret a).
Proof using Hij. intros s Hs. by apply Hij. Qed.
Lemma leads_throw {A} e : leads I J (throw (A := A) e).
Proof using Hij. intros s Hs. by apply Hij. Qed.
Lemma leads_lift {A} (o : outcome A) : leads I J (lift o).
Proof using Hij. intros s Hs. by apply Hij. Qed.
Lemma leads_bind {A B} (m : M S A) (f : A -> M S B) : leads I I m -> (forall a, leads I J (f a)) -> leads I J (bind m f).
Proof using Hij.
  intros Hm Hf s Hs. unfold bind. specialize (Hm s Hs). destruct (m s) as [s' [a|]]; [by apply Hf|by apply Hij].
Qed.
(** The value read is the state itself. *)
Lemma leads_get {B} (f : S -> M S B) : (forall s, I s -> J (f s s).1) -> leads I J (bind get f).
Proof using Type. intros Hf s Hs. by apply Hf. Qed.
Lemma leads_modify (f : S -> S) : (forall s, I s -> J (f s)) -> leads I J (modify f).
Proof using Type. intros Hf s Hs. by apply Hf. Qed.
End Leads.

Section Invariant.
Context `{JsonEq} `{JsonText} `{JsonPointer} `{RegexLib} `{SchemaLib} `{Calculus} {OS : Type} `{Outside OS}.
Context (decode_url : string -> string) (multipart_decode : string -> string -> list mp_event)
  (ub : double -> Z) (report_text : fail_report -> outcome string).
Implicit Types (s : Flow (OS := OS)).

(** ** The invariant *)

Definition object_ok s (o : ProvisionObject) : Prop :=
  tk_inv (ob_ticker o) /\ (tk_timer (ob_ticker o) = true -> is_Some (endpoint_at (ob_endpoint o) s)).
Definition work_ok s (wk : Work) : Prop :=
  is_Some (fl_heap s !! wk_provision wk) /\ is_Some (endpoint_at (wk_endpoint wk) s) /\ is_i64 (wk_seq wk).
(** The identity of a request in flight. *)
Definition sent_id (sd : Sending) : EpRef * Z := (if_endpoint (sd_callback sd), if_send_seq (sd_callback sd)).
Definition sent_ok s (sd : Sending) : Prop :=
  is_i64 (if_provision_seq (sd_callback sd)) /\
  exists e, endpoint_at (if_endpoint (sd_callback sd)) s = Some e /\ if_send_seq (sd_callback sd) <= send_seq_ e.

(** An endpoint: its sequence fits, and its connections are there. *)
Definition ep_ok (e : AdminClientEndpoint) : Prop := is_u64 (send_seq_ e) /\ Forall is_Some (clients_ e).

Record flow_inv s : Prop := {
  fi_objects : map_Forall (fun _ => object_ok s) (fl_heap s);
  fi_registered : map_Forall (fun k l => exists o, fl_heap s !! l = Some o /\ cp_key (tk_provision (ob_ticker o)) = k) (fl_provisions s);
  fi_works : Forall (work_ok s) (fl_works s);
  fi_sent : Forall (sent_ok s) (fl_sent s);
  fi_unique : NoDup (sent_id <$> fl_sent s);
  fi_seqs : forall r e, endpoint_at r s = Some e -> ep_ok e;
  fi_detached : map_Forall (fun (r : EpRef) _ => (r.1 < fl_generation s)%nat) (fl_detached s)
}.

(** Two states with the same objects, endpoints, works and requests. *)
Lemma inv_same s s' :
  fl_heap s' = fl_heap s -> fl_provisions s' = fl_provisions s -> fl_endpoints s' = fl_endpoints s ->
  fl_generation s' = fl_generation s -> fl_detached s' = fl_detached s -> fl_works s' = fl_works s -> fl_sent s' = fl_sent s ->
  flow_inv s -> flow_inv s'.
Proof.
  intros Eh Ep Ee Eg Ed Ew Es [Ho Hr Hw Ht Hu Hq Hd].
  assert (forall r, endpoint_at r s' = endpoint_at r s) as Eat by (intros r; unfold endpoint_at; by rewrite Ee, Eg, Ed).
  split; rewrite ?Eh, ?Ep, ?Ew, ?Es, ?Ed, ?Eg; try done.
  - intros l o Hl. destruct (Ho l o Hl) as [? Ht']. split; [done|]. by rewrite Eat.
  - eapply Forall_impl; [exact Hw|]. intros wk (? & ? & ?). split_and!; [by rewrite Eh|by rewrite Eat|done].
  - eapply Forall_impl; [exact Ht|]. intros sd (? & e & ? & ?). split; [done|]. exists e. by rewrite Eat.
  - intros r e. rewrite Eat. apply Hq.
Qed.

Lemma inv_world w s : flow_inv s -> flow_inv (with_fworld w s).
Proof. by apply inv_same. Qed.
Lemma inv_settings a b c s : flow_inv s -> flow_inv (with_settings a b c s).
Proof. by apply inv_same. Qed.
Lemma inv_count f s : flow_inv s -> flow_inv (count f s).
Proof. unfold count. destruct (fl_metrics s); [by apply inv_same|done]. Qed.
Lemma inv_client_data f s : flow_inv s -> flow_inv (on_client_data f s).
Proof. apply inv_world. Qed.

(** A better state of an object. *)
Lemma inv_alter l (f : ProvisionObject -> ProvisionObject) s : flow_inv s ->
  (forall o, fl_heap s !! l = Some o -> object_ok s o -> object_ok s (f o) /\
     cp_key (tk_provision (ob_ticker (f o))) = cp_key (tk_provision (ob_ticker o))) ->
  flow_inv (with_heap (alter f l (fl_heap s)) s).
Proof.
  intros [Ho Hr Hw Ht Hu Hq Hd] Hf. split; cbn; try done.
  - intros l' o' Hl'. destruct (decide (l = l')) as [<-|Hne].
    + rewrite lookup_alter_eq in Hl'. destruct (fl_heap s !! l) as [o|] eqn:El; [|done]. injection Hl' as <-.
      apply (Hf o eq_refl (Ho l o El)).
    + rewrite lookup_alter_ne in Hl' by done. apply (Ho l' o' Hl').
  - intros k l' Hk. destruct (Hr k l' Hk) as (o & El & Ek). destruct (decide (l = l')) as [<-|Hne].
    + exists (f o). rewrite lookup_alter_eq, El. split; [done|]. rewrite <- Ek. apply (Hf o El (Ho l o El)).
    + exists o. by rewrite lookup_alter_ne.
  - eapply Forall_impl; [exact Hw|]. intros wk ([o Hl] & He). split; [|done]. cbn.
    destruct (decide (l = wk_provision wk)) as [->|Hne]; [rewrite lookup_alter_eq, Hl|rewrite lookup_alter_ne by done]; eauto.
Qed.

Lemma inv_put_provision l p s : flow_inv s ->
  (forall o, fl_heap s !! l = Some o -> cp_typed p /\ cp_key p = cp_key (tk_provision (ob_ticker o))) ->
  flow_inv (put_provision l p s).
Proof.
  intros Hs Hp. apply inv_alter; [done|]. intros o Ho [Hk He]. destruct (Hp o Ho) as [Ht Ek]. split; [|done].
  split; [by apply with_provision_inv|done].
Qed.

Lemma inv_put_ticker l k s : flow_inv s ->
  (forall o, fl_heap s !! l = Some o -> tk_inv k /\ (tk_timer k = true -> is_Some (endpoint_at (ob_endpoint o) s)) /\
     cp_key (tk_provision k) = cp_key (tk_provision (ob_ticker o))) ->
  flow_inv (put_ticker l k s).
Proof. intros Hs Hp. apply inv_alter; [done|]. intros o Ho _. destruct (Hp o Ho) as (Ht & Ek & He). by split. Qed.

(** The endpoints may only move their sequences forward. *)
Lemma inv_endpoints s s' :
  fl_heap s' = fl_heap s -> fl_provisions s' = fl_provisions s -> fl_works s' = fl_works s -> fl_sent s' = fl_sent s ->
  (forall r e, endpoint_at r s = Some e -> exists e', endpoint_at r s' = Some e' /\ send_seq_ e <= send_seq_ e') ->
  (forall r e, endpoint_at r s' = Some e -> ep_ok e) ->
  map_Forall (fun (r : EpRef) _ => (r.1 < fl_generation s')%nat) (fl_detached s') ->
  flow_inv s -> flow_inv s'.
Proof.
  intros Eh Ep Ew Es Hat Hu64 Hdet [Ho Hr Hw Ht Hu Hq Hd].
  assert (forall r, is_Some (endpoint_at r s) -> is_Some (endpoint_at r s')) as His.
  { intros r [e He]. destruct (Hat r e He) as (e' & -> & _). eauto. }
  split; rewrite ?Eh, ?Ep, ?Ew, ?Es; try done.
  - intros l o Hl. destruct (Ho l o Hl) as [? Ht']. split; [done|]. auto.
  - eapply Forall_impl; [exact Hw|]. intros wk (? & ? & ?). split_and!; [by rewrite Eh|auto|done].
  - eapply Forall_impl; [exact Ht|]. intros sd (? & e & He & Hle). split; [done|]. destruct (Hat _ e He) as (e' & He' & ?). exists e'. split; [done|lia].
Qed.

Lemma endpoint_at_put r e r' s :
  endpoint_at r' (put_endpoint r e s) = if decide (r' = r) then Some e else endpoint_at r' s.
Proof.
  destruct r as [g i], r' as [g' i']. unfold put_endpoint, endpoint_at. cbn.
  repeat (case_decide; cbn; simplify_eq/=; try done).
  all: first [by rewrite lookup_insert_eq|by rewrite lookup_insert_ne by congruence|congruence].
Qed.

Lemma inv_put_endpoint r e e' s : flow_inv s -> endpoint_at r s = Some e -> send_seq_ e <= send_seq_ e' -> ep_ok e' ->
  flow_inv (put_endpoint r e' s).
Proof.
  intros Hs He Hle Hu. pose proof Hs as Hs'. revert Hs'. apply inv_endpoints; try (unfold put_endpoint; by case_decide).
  - intros r0 e0 Hr0. rewrite endpoint_at_put. case_decide as E; [|exists e0; split; [done|lia]].
    subst r0. rewrite He in Hr0. injection Hr0 as <-. eauto.
  - intros r0 e0. rewrite endpoint_at_put. case_decide; [by intros [= <-]|apply (fi_seqs s Hs)].
  - unfold put_endpoint, endpoint_at in *. destruct (decide (r.1 = fl_generation s)); cbn; [apply Hs|].
    apply map_Forall_insert_2; [|apply Hs]. by apply (fi_detached s Hs r e).
Qed.

(** A request with the next sequence of its endpoint. *)
Lemma inv_send sd e s : flow_inv s -> endpoint_at (if_endpoint (sd_callback sd)) s = Some e ->
  if_send_seq (sd_callback sd) = send_seq_ e -> is_i64 (if_provision_seq (sd_callback sd)) ->
  Forall (fun sd' => if_endpoint (sd_callback sd') = if_endpoint (sd_callback sd) ->
                     if_send_seq (sd_callback sd') < if_send_seq (sd_callback sd)) (fl_sent s) ->
  flow_inv (with_sent (fl_sent s ++ [sd]) s).
Proof.
  intros [Ho Hr Hw Ht Hu Hq Hd] He Hseq Hz Hlt. split; cbn; try done.
  - apply Forall_app. split; [done|]. apply Forall_singleton. split; [done|]. exists e. split; [done|]. rewrite Hseq. lia.
  - rewrite fmap_app. change (sent_id <$> [sd]) with [sent_id sd]. apply NoDup_app. split_and!; [done| |apply NoDup_singleton].
    intros x (sd' & -> & Hin)%list_elem_of_fmap. rewrite list_elem_of_singleton. intros [= E1 E2].
    rewrite Forall_forall in Hlt. specialize (Hlt sd' Hin E1). lia.
Qed.

(** ** Provisions *)

(** A run of the items only changes the caches of its provision. *)
Definition same_definition (p p' : AdminClientProvision) : Prop :=
  exists rq rs, p' = cp_with_schemas rq rs p.
Lemma same_definition_refl p : same_definition p p.
Proof. exists (cp_request_schema p), (cp_response_schema p). by destruct p. Qed.
Lemma same_definition_typed p p' : same_definition p p' -> cp_typed p -> cp_typed p' /\ cp_key p' = cp_key p.
Proof. intros (rq & rs & ->) Hp. split; [|done]. apply cp_update_typed; [done|apply Hp|apply Hp]. Qed.

Lemma client_transform_definition body0 vars seq p (w : World OS) :
  same_definition p (ct_provision (client_transform ub report_text body0 vars seq p w).1).
Proof.
  unfold client_transform. destruct (items_run _ _ _) as [r [[]|e]]; cbn; [|apply same_definition_refl].
  unfold client_transform_end, client_getRequestSchema. cbn zeta.
  assert (same_definition p (if sempty (cp_request_schema_id p) then p else
    cp_with_schemas (cached_schema (cp_request_schema_id p) (w_schemas (r_world r)) (cp_request_schema p)) (cp_response_schema p) p)) as Hs.
  { destruct (sempty _); [apply same_definition_refl|by eexists _, _]. }
  by destruct (match cached_schema _ _ _ with Some _ => _ | None => _ end).
Qed.

Lemma transformResponse_definition uri headers rsp sendSeq outState vars seq p (w : World OS) :
  same_definition p (rt_provision (transformResponse ub report_text uri headers rsp sendSeq outState vars seq p w).1).
Proof.
  unfold transformResponse. set (run := match cp_on_response p with [] => _ | _ => _ end).
  assert (rt_provision run.1 = p) as Er.
  { subst run. destruct (cp_on_response p); [done|]. by destruct (items_run _ _ _). }
  destruct run as [rt [[]|e]]; cbn in *; [|rewrite Er; apply same_definition_refl].
  unfold client_getResponseSchema. cbn. destruct (sempty _); [apply same_definition_refl|by eexists _, _].
Qed.

(** ** Operations *)

(** No sequence is about to wrap around. *)
Definition small s : Prop := forall r e, endpoint_at r s = Some e -> send_seq_ e < u64_max.
Definition ready s : Prop := flow_inv s /\ small s.

(** An update that leaves the endpoints alone. *)
Lemma ready_of s s' : flow_inv s' -> (forall r, endpoint_at r s' = endpoint_at r s) -> small s -> ready s'.
Proof. intros Hi Hr Hs. split; [done|]. intros r e. rewrite Hr. apply Hs. Qed.

Lemma ready_count f s : ready s -> ready (count f s).
Proof. intros [Hi Hs]. eapply ready_of; [by apply inv_count| |done]. intros r. unfold count. by destruct (fl_metrics s). Qed.
Lemma ready_world w s : ready s -> ready (with_fworld w s).
Proof. intros [Hi Hs]. by eapply ready_of; [apply inv_world| |]. Qed.
Lemma ready_client_data f s : ready s -> ready (on_client_data f s).
Proof. apply ready_world. Qed.
Lemma ready_put_provision l p s : ready s ->
  (forall o, fl_heap s !! l = Some o -> cp_typed p /\ cp_key p = cp_key (tk_provision (ob_ticker o))) -> ready (put_provision l p s).
Proof. intros [Hi Hs] Hp. eapply ready_of; [by apply inv_put_provision| |done]. done. Qed.

(** The definition of an object replaced by another run of it. *)
Lemma ready_put_same l o p s : ready s -> fl_heap s !! l = Some o -> same_definition (tk_provision (ob_ticker o)) p ->
  ready (put_provision l p s).
Proof.
  intros Hr Ho Hp. apply ready_put_provision; [done|]. intros o' Ho'. rewrite Ho in Ho'. injection Ho' as <-.
  apply same_definition_typed; [done|]. apply (fi_objects s (proj1 Hr) l o Ho).
Qed.

Lemma employ_typed p : cp_typed p -> cp_typed (cp_employ p).
Proof. intros Hp. apply cp_update_typed; [done|apply Hp|apply Hp]. Qed.

Lemma run_transform_ready l vars seq : leads ready ready (run_client_transform (OS := OS) ub report_text l vars seq).
Proof.
  intros s Hr. unfold run_client_transform, object_at. destruct (fl_heap s !! l) as [o|] eqn:Ho; [|done].
  pose proof (client_transform_definition "" vars seq (cp_employ (tk_provision (ob_ticker o))) (fl_world s)) as Hd.
  destruct (client_transform _ _ _ _ _ _ _) as [ct r]. cbn in Hd.
  assert (ready (with_fworld (ct_world ct) (put_provision l (ct_provision ct) s))) as Hr'.
  { apply ready_world, ready_put_provision; [done|]. intros o' Ho'. rewrite Ho in Ho'. injection Ho' as <-.
    apply same_definition_typed in Hd as [Ht Hk]; [by split|].
    apply employ_typed, (fi_objects s (proj1 Hr) l o Ho). }
  by destruct r.
Qed.

Lemma run_transform_typed l vars seq s s' ct : ready s ->
  run_client_transform (OS := OS) ub report_text l vars seq s = (s', Val ct) -> cp_typed (ct_provision ct).
Proof.
  intros Hr. unfold run_client_transform, object_at. destruct (fl_heap s !! l) as [o|] eqn:Ho; [|done].
  pose proof (client_transform_definition "" vars seq (cp_employ (tk_provision (ob_ticker o))) (fl_world s)) as Hd.
  destruct (client_transform _ _ _ _ _ _ _) as [ct' [[]|]]; [|done]. cbn in Hd. intros [= _ <-].
  apply same_definition_typed in Hd as [Ht _]; [done|]. apply employ_typed, (fi_objects s (proj1 Hr) l o Ho).
Qed.

Lemma sequence_of_i64 seq p : is_i64 seq -> cp_typed p -> is_i64 (sequence_of seq p).
Proof. intros Hz Hp. unfold sequence_of. destruct (_ <=? _); [done|]. by destruct (ct_dyn _ Hp). Qed.

Lemma connect_seq b n e : send_seq_ (connect b n e) = send_seq_ e.
Proof. unfold connect. by destruct b. Qed.
Lemma connect_full b n e : Forall is_Some (clients_ e) -> Forall is_Some (clients_ (connect b n e)).
Proof.
  intros He. assert (forall m c l, Forall is_Some l -> Forall is_Some (fill m c (l ++ replicate (m - length l) None))) as Hfill.
  { induction m as [|m IH]; intros c l Hl; cbn; [by rewrite app_nil_r|]. destruct Hl as [|x l Hx Hl]; cbn.
    - specialize (IH c []). rewrite Nat.sub_0_r in IH. auto.
    - constructor; eauto. }
  unfold connect. destruct b; cbn -[fill]; [apply (Hfill _ _ []); constructor|by apply Hfill].
Qed.

Lemma hand_over_inv p inState ep seq purge (ct : ClientTransformed (OS := OS)) : is_i64 seq -> cp_typed p ->
  leads ready flow_inv (hand_over (OS := OS) p inState ep seq purge ct).
Proof.
  intros Hz Hp s [Hs Hsmall]. unfold hand_over, bind, get. cbn beta iota. destruct (endpoint_at ep s) as [e|] eqn:He; [|done].
  pose proof (fi_seqs s Hs ep e He) as [[Hlo _] Hcl]. specialize (Hsmall ep e He) as Hhi.
  assert ((incrementSendSeq (connect false 1 e)).1 = send_seq_ e + 1 /\
    send_seq_ (incrementSendSeq (connect false 1 e)).2 = send_seq_ e + 1 /\
    Forall is_Some (clients_ (incrementSendSeq (connect false 1 e)).2)) as (Hn & Hseq & Hfull).
  { unfold incrementSendSeq. cbn -[connect]. rewrite connect_seq. rewrite to_u64_id by (unfold is_u64; lia).
    split_and!; [done..|by apply connect_full]. }
  destruct (incrementSendSeq (connect false 1 e)) as [n e']. cbn [fst snd] in Hn, Hseq, Hfull. subst n. unfold modify. cbn beta iota.
  assert (flow_inv (put_endpoint ep e' s)) as Hs'.
  { eapply inv_put_endpoint; [done|exact He|lia|]. split; [unfold is_u64; lia|done]. }
  destruct (getClient _ e') as [client|]; [|done]. cbn.
  apply (inv_send _ e'); [done|by cbn; rewrite endpoint_at_put, decide_True|by cbn|by apply sequence_of_i64|].
  assert (fl_sent (put_endpoint ep e' s) = fl_sent s) as -> by (unfold put_endpoint; by case_decide).
  eapply Forall_impl; [apply (fi_sent s Hs)|]. intros sd (_ & e0 & He0 & Hle) E. cbn in E |- *. rewrite E, He in He0.
  injection He0 as <-. lia.
Qed.

Lemma ready_inv s : ready s -> flow_inv s.
Proof. by intros []. Qed.
Hint Resolve ready_inv : core.

Lemma sendClientRequest_inv l inState ep seq vars purge : is_i64 seq ->
  leads ready flow_inv (sendClientRequest (OS := OS) ub report_text l inState ep seq vars purge).
Proof.
  intros Hz. unfold sendClientRequest. apply leads_get. intros s Hs. cbn beta.
  set (purge' := match purge with Some _ => _ | None => _ end). unfold bind.
  pose proof (run_transform_ready l vars seq s Hs) as Hr. pose proof (run_transform_typed l vars seq s) as Ht.
  destruct (run_client_transform _ _ _ _ _ s) as [s' [ct|]]; [|by apply ready_inv].
  destruct (negb _); [by apply ready_inv|]. by apply hand_over_inv; [|eapply Ht|].
Qed.

Lemma response_transform_ready f rsp : leads ready ready (response_transform (OS := OS) ub report_text f rsp).
Proof.
  intros s Hr. unfold response_transform. destruct (client_find _ _ s) as [l|]; [|done]. unfold object_at.
  destruct (fl_heap s !! l) as [o|] eqn:Ho; [|done].
  match goal with |- context [transformResponse ?a ?b ?c ?d ?e ?f ?g ?h ?i ?j ?k] =>
    pose proof (transformResponse_definition c d e f g h i j k) as Hd; destruct (transformResponse a b c d e f g h i j k) as [rt r] end.
  cbn in Hd. assert (ready (with_fworld (rt_world rt) (put_provision l (rt_provision rt) s))) as Hr'.
  { apply ready_world. by eapply ready_put_same. }
  by destruct r.
Qed.

Lemma client_loadEvent_ready f st rsp : leads ready ready (client_loadEvent (OS := OS) multipart_decode f st rsp).
Proof.
  intros s Hr. unfold client_loadEvent. destruct (MockClientEvent_load _ _ _ _ _ _ _ _ _ _ _ _ _ _ _) as [[ev dp]|]; by apply ready_client_data.
Qed.

Lemma purge_chain_ready f purge s : ready s -> ready (purge_chain f purge s).
Proof.
  intros Hr. unfold purge_chain. destruct (purge_events _ _ _) as [b d]. by apply ready_count, ready_client_data.
Qed.

Lemma setSeq_typed z p : is_i64 z -> cp_typed p -> cp_typed (setSeq z p).
Proof. intros Hz Hp. apply cp_update_typed; [done|apply Hp|]. destruct (ct_dyn _ Hp) as (_ & Hrest). by split. Qed.

Lemma progress_inv f st vars purge : is_i64 (if_provision_seq f) ->
  leads ready flow_inv (progress (OS := OS) ub report_text f st vars purge).
Proof.
  intros Hz. unfold progress. destruct (_ && _); [|apply leads_ret, ready_inv]. apply leads_get. intros s Hr.
  destruct (client_find _ _ s) as [l|]; [|by apply ready_inv]. unfold bind, object_at.
  destruct (fl_heap s !! l) as [o|] eqn:Ho; [|by apply ready_inv]. unfold modify. apply sendClientRequest_inv; [done|].
  apply ready_put_provision; [done|]. intros o' Ho'. rewrite Ho in Ho'. injection Ho' as <-.
  split; [|done]. apply setSeq_typed; [done|]. apply (fi_objects s (proj1 Hr) l o Ho).
Qed.

Lemma on_response_inv f rsp : is_i64 (if_provision_seq f) ->
  leads ready flow_inv (on_response (OS := OS) multipart_decode ub report_text f rsp).
Proof.
  intros Hz. unfold on_response. refine (leads_bind _ _ _ _ _ _ _); [auto|apply response_transform_ready|].
  intros [[ok st] vars]. refine (leads_bind _ _ _ _ _ _ _); [auto|apply leads_modify; intros s; apply ready_count|intros _].
  destruct (_ <=? 0); [apply leads_ret, ready_inv|].
  refine (leads_bind _ _ _ _ _ _ _); [auto|destruct ok; [by apply leads_ret|apply leads_modify; intros s; apply ready_count]|intros _].
  apply leads_get. intros s Hr. refine (leads_bind ready flow_inv _ _ _ _ _ s Hr); [auto| |].
  { destruct (fl_client_data s); [|by apply leads_ret].
    refine (leads_bind _ _ _ _ _ _ _); [auto|apply client_loadEvent_ready|intros _; by apply leads_ret]. }
  intros purge. destruct (negb ok); [apply leads_ret, ready_inv|]. apply leads_get. intros s' Hr'. destruct (_ && _).
  - by apply ready_inv, purge_chain_ready.
  - by apply progress_inv.
Qed.

Lemma inv_drop i s : flow_inv s -> flow_inv (with_sent (delete i (fl_sent s)) s).
Proof.
  intros [Ho Hr Hw Ht Hu Hq Hd]. split; cbn; try done.
  - by apply Forall_delete.
  - eapply sublist_NoDup; [exact Hu|]. apply fmap_sublist, sublist_delete.
Qed.

Lemma ready_drop i s : ready s -> ready (with_sent (delete i (fl_sent s)) s).
Proof. intros [Hi Hs]. split; [by apply inv_drop|done]. Qed.

Lemma deliver_response_inv i rsp : leads ready flow_inv (deliver_response (OS := OS) multipart_decode ub report_text i rsp).
Proof.
  unfold deliver_response. apply leads_get. intros s Hr. destruct (fl_sent s !! i) as [sd|] eqn:Hi; [|by apply ready_inv].
  pose proof (proj1 (Forall_lookup _ _) (fi_sent s (proj1 Hr)) i sd Hi) as [Hz _].
  by apply on_response_inv; [|apply ready_drop].
Qed.

(** *** Ticks *)

(** A timer in a later state: of the same provision, and not started. *)
Definition later (k k' : Ticker) : Prop :=
  cp_key (tk_provision k') = cp_key (tk_provision k) /\ (tk_timer k' = true -> tk_timer k = true).
Instance later_preorder : PreOrder later.
Proof. split; [done|]. intros ??? [E1 ?] [E2 ?]. split; [congruence|auto]. Qed.

Lemma stop_later k : later k (stopTicking k).
Proof. unfold stopTicking. by repeat (case_match; try done). Qed.
Lemma schedule_later k : later k (scheduleTick k).
Proof. unfold scheduleTick. destruct (_ || _); [apply stop_later|done]. Qed.
Lemma save_later k : later k (tk_save k).1.
Proof. unfold tk_save, cp_saveDynamics. by destruct (saveDynamics _ _). Qed.

Lemma on_tick_later accepted late k : later k (on_tick accepted late k).1.
Proof.
  unfold on_tick, bind, modify, get. cbn zeta. etransitivity; [apply schedule_later|].
  destruct (_ && _); [done|]. set (k1 := set_seq _ _). assert (later (scheduleTick k) k1) as Hk1 by done.
  etransitivity; [exact Hk1|]. clearbody k1.
  assert (forall k2 (o : option Z), later k2 (((if late then tk_save else ret tt) ;;; ret o) k2).1) as Hl.
  { intros k2 o. unfold bind. destruct late; [|done]. pose proof (save_later k2) as Hs. by destruct (tk_save k2) as [? []]. }
  destruct (_ <? _); [destruct (repeat_ _)|apply Hl].
  - set (k2 := set_seq _ k1). assert (later k1 k2) as Hk2 by done. etransitivity; [exact Hk2|apply Hl].
  - pose proof (save_later k1) as Hs. destruct (tk_save k1) as [k3 []]; [|done]. etransitivity; [exact Hs|apply stop_later].
Qed.
Lemma expire_later stopped k : later k (expire stopped k).
Proof. by destruct stopped. Qed.
Lemma fire_later stopped accepted late k : later k (fire stopped accepted late k).1.
Proof. unfold fire, bind, modify. etransitivity; [apply expire_later|apply on_tick_later]. Qed.

Lemma object_at_ok {B} (P : Flow -> Prop) l (f : ProvisionObject -> M Flow B) s : P s ->
  (forall o, fl_heap s !! l = Some o -> P (f o s).1) -> P (bind (object_at (OS := OS) l) f s).1.
Proof. intros Hs Hf. unfold bind, object_at. destruct (fl_heap s !! l) as [o|] eqn:Ho; [by apply Hf|done]. Qed.

Lemma inv_later l o k s : flow_inv s -> fl_heap s !! l = Some o -> tk_inv k -> later (ob_ticker o) k -> flow_inv (put_ticker l k s).
Proof.
  intros Hs Ho Hk [Ek Ht]. apply inv_put_ticker; [done|]. intros o' Ho'. rewrite Ho in Ho'. injection Ho' as <-.
  split_and!; [done| |done]. intros E. by apply (fi_objects s Hs l o Ho), Ht.
Qed.

Lemma inv_works p works s : flow_inv s -> Forall (work_ok s) works -> flow_inv (with_pool p works s).
Proof. intros [] Hw. by split. Qed.
Lemma ready_works p works s : ready s -> Forall (work_ok s) works -> ready (with_pool p works s).
Proof. intros [Hi Hs] Hw. split; [by apply inv_works|done]. Qed.

Lemma tick_callback_inv l inState ep s : ready s -> is_Some (endpoint_at ep s) ->
  flow_inv (tick_callback (OS := OS) ub report_text l inState ep s).1.
Proof.
  intros Hr Hep. unfold tick_callback. apply (object_at_ok flow_inv); [auto|]. intros o Ho. unfold bind at 1, get.
  pose proof (ti_typed _ (proj1 (fi_objects s (proj1 Hr) l o Ho))) as Hp.
  assert (is_i64 (seq_ (tk_dyn (ob_ticker o)))) as Hz by by destruct (ct_dyn _ Hp).
  destruct (fl_pool s) as [p|].
  - destruct (postToPool p) as [[] p']; cbn; apply inv_works; auto; [|apply Hr].
    apply Forall_app. split; [apply Hr|]. apply Forall_singleton. by split; [exists o|].
  - pose proof (sendClientRequest_inv l inState ep (seq_ (tk_dyn (ob_ticker o))) ∅ None Hz s Hr) as Hi.
    unfold bind. by destruct (sendClientRequest _ _ _ _ _ _ _ _ s) as [? []].
Qed.

Lemma tick_inv l stopped late : leads ready flow_inv (tick (OS := OS) ub report_text l stopped late).
Proof.
  intros s Hr. unfold tick. apply (object_at_ok flow_inv); [auto|]. intros o Ho. cbn zeta.
  pose proof (fi_objects s (proj1 Hr) l o Ho) as [Hk Hep].
  assert (flow_inv ((if tk_callback (scheduleTick (expire stopped (ob_ticker o)))
    then tick_callback (OS := OS) ub report_text l (ob_in_state o) (ob_endpoint o) else ret true) s).1) as Hi.
  { destruct (tk_callback _) eqn:Ec; [|by apply ready_inv]. apply tick_callback_inv; [done|]. apply Hep.
    rewrite (ti_callback _ (scheduleTick_inv _ (expire_inv stopped _ Hk))) in Ec. by apply schedule_later, expire_later in Ec. }
  unfold bind at 1. match type of Hi with flow_inv ?x.1 => destruct x as [s1 [accepted|]] end; [|done]. cbn in Hi.
  apply (object_at_ok flow_inv); [done|]. intros o1 Ho1.
  pose proof (fire_inv stopped accepted late (ob_ticker o1) (proj1 (fi_objects s1 Hi l o1 Ho1))) as Hk1.
  pose proof (fire_later stopped accepted late (ob_ticker o1)) as Hl1. destruct (fire stopped accepted late (ob_ticker o1)) as [k r].
  assert (flow_inv (put_ticker l k s1)) by by eapply inv_later. unfold bind, modify, lift. by destruct r.
Qed.

Lemma run_work_inv : leads ready flow_inv (run_work (OS := OS) ub report_text).
Proof.
  unfold run_work. apply leads_get. intros s Hr. destruct (fl_works s) as [|wk works] eqn:Ew; [by apply ready_inv|].
  pose proof (fi_works s (proj1 Hr)) as Hw. rewrite Ew in Hw. apply Forall_cons in Hw as [(_ & _ & Hz) Hw].
  by apply sendClientRequest_inv; [|apply ready_works].
Qed.

(** *** Triggers *)

Lemma updateTriggering_key sb se c r p : cp_key (updateTriggering sb se c r p).1 = cp_key p.
Proof.
  unfold updateTriggering, cp_saveDynamics. destruct (update_dynamics _ _ _ _ _) as [[[] d]|]; try done. by destruct (saveDynamics _ _).
Qed.

Lemma apply_sequence_ready l z sb se c r dyn : leads ready ready (apply_sequence (OS := OS) l z sb se c r dyn).
Proof.
  intros s Hr. unfold apply_sequence. apply (object_at_ok ready); [done|]. intros o Ho. cbn zeta.
  pose proof (ti_typed _ (proj1 (fi_objects s (proj1 Hr) l o Ho))) as Hp.
  destruct (if sempty z then _ else _) as [seq|] eqn:Ez; [|done].
  set (p := match seq with Some _ => _ | None => _ end).
  assert (cp_typed p /\ cp_key p = cp_key (tk_provision (ob_ticker o))) as [Ht Hk].
  { subst p. destruct seq as [v|]; [|done]. split; [|done]. apply setSeq_typed; [|done].
    destruct (sempty z); [done|]. destruct (stoll z) eqn:E; [|done]. injection Ez as <-. by eapply stoll_range. }
  clearbody p. unfold bind at 1, modify.
  assert (ready (put_provision l p s)) as Hr1.
  { apply ready_put_provision; [done|]. intros o' Ho'. rewrite Ho in Ho'. by injection Ho' as <-. }
  destruct dyn; [|done]. pose proof (updateTriggering_typed sb se c r p Ht) as Ht2. pose proof (updateTriggering_key sb se c r p) as Hk2.
  destruct (updateTriggering sb se c r p) as [p2 res]. cbn in Ht2, Hk2.
  assert (ready (put_provision l p2 (put_provision l p s))) as Hr2.
  { apply ready_put_provision; [done|]. intros o' Ho'. cbn in Ho'. rewrite lookup_alter_eq, Ho in Ho'. injection Ho' as <-. cbn. by split; [|rewrite Hk2]. }
  unfold bind, lift. by destruct res.
Qed.

Lemma startTicking_key k : cp_key (tk_provision (startTicking k).1) = cp_key (tk_provision k).
Proof.
  unfold startTicking, bind, modify. set (k1 := start_state k).
  assert (cp_key (tk_provision k1) = cp_key (tk_provision k)) as E1.
  { subst k1. unfold start_state. cbn zeta. pose proof (stop_later k) as [E _]. by destruct (_ || _). }
  clearbody k1. pose proof (save_later k1) as [E2 _]. destruct (tk_save k1) as [k2 []]; cbn in *; [|congruence].
  rewrite scheduleTick_provision. cbn. congruence.
Qed.

Lemma inv_replace l o o' s : flow_inv s -> fl_heap s !! l = Some o -> object_ok s o' ->
  cp_key (tk_provision (ob_ticker o')) = cp_key (tk_provision (ob_ticker o)) -> flow_inv (with_heap (<[l := o']> (fl_heap s)) s).
Proof.
  intros Hs Ho Hok Hk. replace (<[l := o']> (fl_heap s)) with (alter (fun _ => o') l (fl_heap s)).
  - apply inv_alter; [done|]. intros o1 Ho1 _. rewrite Ho in Ho1. by injection Ho1 as <-.
  - apply map_eq. intros l'. destruct (decide (l = l')) as [<-|].
    + by rewrite lookup_alter_eq, lookup_insert_eq, Ho.
    + by rewrite lookup_alter_ne, lookup_insert_ne.
Qed.

Lemma start_ticking_inv l inState ep s : flow_inv s -> is_Some (endpoint_at ep s) -> flow_inv (start_ticking (OS := OS) l inState ep s).1.
Proof.
  intros Hs Hep. unfold start_ticking. apply (object_at_ok flow_inv); [done|]. intros o Ho.
  pose proof (fi_objects s Hs l o Ho) as [Hk _]. pose proof (startTicking_inv _ Hk) as [Hk' _].
  pose proof (startTicking_key (ob_ticker o)) as Ekey. destruct (startTicking (ob_ticker o)) as [k r]. unfold bind, modify, lift.
  by apply (inv_replace l o).
Qed.

Lemma endpoint_current id e s : endpoint_find id (fl_endpoints s) = Some e -> is_Some (endpoint_at (fl_generation s, id) s).
Proof. intros He. unfold endpoint_at. rewrite decide_True by done. by exists e. Qed.

Lemma minus_one_i64 : is_i64 (-1).
Proof. done. Qed.

Lemma triggerClientProvision_inv id inState : leads ready flow_inv (triggerClientProvision (OS := OS) ub report_text id inState).
Proof.
  unfold triggerClientProvision. apply leads_get. intros s Hr. destruct (client_find _ _ s) as [l|]; [|by apply ready_inv].
  apply (object_at_ok flow_inv); [auto|]. intros o Ho. cbn zeta. destruct (endpoint_find _ _) as [e|]; [|by apply ready_inv].
  destruct (permit_ e); [by apply sendClientRequest_inv|by apply ready_inv].
Qed.

Lemma operation_ends_inv l inState e epid (dyn : bool) s o : ready s -> fl_heap s !! l = Some o ->
  endpoint_find epid (fl_endpoints s) = Some e ->
  flow_inv ((if dyn then
     (if 0 <? cps_ (tk_dyn (ob_ticker o))
      then if isTicking (ob_ticker o) then ret tt else start_ticking l inState (fl_generation s, epid)
      else modify (put_ticker l (stopTicking (ob_ticker o)))) ;;; ret 202
   else sendClientRequest (OS := OS) ub report_text l inState (fl_generation s, epid) (-1) ∅ None ;;; ret 200) s).1.
Proof.
  intros Hr Ho He. pose proof (fi_objects s (proj1 Hr) l o Ho) as [Hk _].
  assert (forall (m : M Flow unit) (z : Z), flow_inv (m s).1 -> flow_inv ((m ;;; ret z) s).1) as Hret.
  { intros m z. unfold bind. by destruct (m s) as [? []]. }
  destruct dyn; apply Hret; [|by apply sendClientRequest_inv].
  destruct (_ <? _); [destruct (isTicking _)|].
  - by apply ready_inv.
  - apply start_ticking_inv; [auto|by eapply endpoint_current].
  - cbn. eapply inv_later; [auto|done|by apply stopTicking_inv|apply stop_later].
Qed.

Lemma triggerClientOperation_inv id q : leads ready flow_inv (triggerClientOperation (OS := OS) decode_url ub report_text id q).
Proof.
  unfold triggerClientOperation. apply leads_bind; [auto| |].
  { unfold query_map. destruct (sempty q); [by apply leads_ret|].
    destruct (extractQueryParameters _ _ _ _) as [[[]|]|]; [by apply leads_ret|by apply leads_throw|by apply leads_throw]. }
  intros qmap. cbn zeta. destruct (_ && _); [apply leads_ret, ready_inv|]. apply leads_get. intros s Hr.
  destruct (client_find _ _ s) as [l|]; [|by apply ready_inv].
  match goal with |- flow_inv (bind ?m _ s).1 => assert (leads ready ready m) as Hm by apply apply_sequence_ready;
    specialize (Hm s Hr); unfold bind at 1; destruct (m s) as [s1 [[code|]|]] end; [by apply ready_inv| |by apply ready_inv].
  apply (object_at_ok flow_inv); [auto|]. intros o Ho. unfold bind at 1, get. cbn zeta.
  destruct (endpoint_find _ _) as [e|] eqn:He; [|by apply ready_inv]. destruct (negb (permit_ e)); [by apply ready_inv|].
  by eapply operation_ends_inv.
Qed.

(** *** Registration *)

Lemma inv_register p s : flow_inv s -> cp_typed p -> let l := fresh (dom (fl_heap s)) in
  flow_inv (with_provisions (<[cp_key p := l]> (fl_provisions s))
              (with_heap (<[l := mkObject (Ticker_of p) "" (O, "")]> (fl_heap s)) s)).
Proof.
  intros [Ho Hr Hw Ht Hu Hq Hd] Hp l.
  assert (fl_heap s !! l = None) as Hl by apply not_elem_of_dom, is_fresh.
  assert (forall l' o, fl_heap s !! l' = Some o -> <[l := mkObject (Ticker_of p) "" (O, "")]> (fl_heap s) !! l' = Some o) as Hold.
  { intros l' o Hl'. rewrite lookup_insert_ne; [done|]. intros <-. by rewrite Hl in Hl'. }
  split; cbn; try done.
  - apply map_Forall_insert_2; [|exact Ho]. split; [by split|done].
  - apply map_Forall_insert_2; [eexists; by rewrite lookup_insert_eq|].
    intros k l' Hk. destruct (Hr k l' Hk) as (o & Hl' & Ek). exists o. auto.
  - eapply Forall_impl; [exact Hw|]. intros wk ([o Hl'] & He). split; [|done]. exists o. cbn. auto.
Qed.

Lemma load_items_leads {S} (I : S -> Prop) (f : json -> M S LoadResult) : (forall j, leads I I (f j)) -> forall l, leads I I (load_items f l).
Proof.
  intros Hf. induction l as [|j l IH]; cbn; [by apply leads_ret|]. apply leads_bind; [done|apply Hf|].
  intros []; try by apply leads_ret. exact IH.
Qed.

Lemma cpd_load_inv valid j : leads flow_inv flow_inv (cpd_load (OS := OS) decode_url ub valid j).
Proof.
  assert (forall j, leads flow_inv flow_inv (cpd_loadSingle (OS := OS) decode_url ub valid j)) as H1j.
  { clear j. intros j s Hs. unfold cpd_loadSingle. destruct (negb _); [done|]. unfold bind at 1, lift.
    destruct (ClientProvision_load decode_url ub j) as [[p|]|] eqn:Ep; [|done..]. cbn. apply inv_register; [done|].
    by apply ClientProvision_load_typed in Ep as [Ht _]. }
  unfold cpd_load, load_document. destruct j; try apply H1j. by apply load_items_leads.
Qed.

(** *** Reports *)

Lemma getJson_typed p : cp_typed p -> cp_typed (cp_getJson p).1 /\ cp_key (cp_getJson p).1 = cp_key p.
Proof.
  intros Hp. unfold cp_getJson. destruct (cp_saveDynamics p) as [p'|] eqn:E; [|done].
  destruct (cp_save_typed p Hp) as (p2 & E2 & Ht & _). rewrite E in E2. injection E2 as <-. split; [done|].
  unfold cp_saveDynamics in E. destruct (saveDynamics _ _); [|done]. by injection E as <-.
Qed.
Lemma documents_inv unused ls : leads flow_inv flow_inv (documents (OS := OS) unused ls).
Proof.
  induction ls as [|l ls IH]; cbn [documents]; [by apply leads_ret|]. intros s Hs. apply (object_at_ok flow_inv); [done|]. intros o Ho.
  destruct (unused && _); [by apply IH|]. pose proof (getJson_typed _ (ti_typed _ (proj1 (fi_objects s Hs l o Ho)))) as [Ht Hk].
  destruct (cp_getJson _) as [p j]. refine (leads_bind flow_inv flow_inv _ _ _ _ _ (put_provision l p s) _); [done|by apply leads_lift| |].
  - intros j'. apply leads_bind; [done|apply IH|]. intros js. by apply leads_ret.
  - apply inv_put_provision; [done|]. intros o' Ho'. rewrite Ho in Ho'. by injection Ho' as <-.
Qed.
Lemma client_asJsonString_inv unused : leads flow_inv flow_inv (client_asJsonString (OS := OS) unused).
Proof.
  apply leads_get. intros s Hs. refine (leads_bind flow_inv flow_inv _ _ _ _ _ s Hs); [done|apply documents_inv|]. intros js. by apply leads_lift.
Qed.

(** The endpoints keep their sequences. *)
Definition seqs_kept (d d' : gmap string AdminClientEndpoint) : Prop := forall id,
  match d !! id with
  | Some e => exists e', d' !! id = Some e' /\ send_seq_ e' = send_seq_ e
  | None => forall e', d' !! id = Some e' -> send_seq_ e' = 0
  end.
Instance seqs_kept_preorder : PreOrder seqs_kept.
Proof.
  split.
  - intros d id. destruct (d !! id); [eauto|done].
  - intros d1 d2 d3 H12 H23 id. specialize (H12 id). specialize (H23 id). destruct (d1 !! id) as [e|].
    + destruct H12 as (e' & E & ?). rewrite E in H23. destruct H23 as (e'' & ? & ?). exists e''. split; [done|congruence].
    + intros e'' E3. destruct (d2 !! id) as [e'|]; [|by apply H23]. destruct H23 as (e3 & E3' & ?). rewrite E3 in E3'. injection E3' as <-.
      rewrite (H12 e' eq_refl) in *. done.
Qed.

Lemma connect_unless_lazy_seq lazy n b e : send_seq_ (connect_unless_lazy lazy n b e) = send_seq_ e.
Proof. unfold connect_unless_lazy. destruct lazy; [done|apply connect_seq]. Qed.

Lemma seqs_kept_insert k e d :
  match d !! k with Some r => send_seq_ e = send_seq_ r | None => send_seq_ e = 0 end -> seqs_kept d (<[k := e]> d).
Proof.
  intros Hk id. destruct (decide (k = id)) as [<-|].
  - rewrite lookup_insert_eq. destruct (d !! k); [eauto|]. by intros e' [= <-].
  - rewrite lookup_insert_ne by done. destruct (d !! id); [eauto|done].
Qed.

Lemma Endpoint_load_parts j e ok e' : Endpoint_load ub j e = Val (ok, e') -> send_seq_ e' = send_seq_ e /\ clients_ e' = clients_ e.
Proof.
  intros El. destruct (Endpoint_load_any ub j _ e _ _ El) as (r' & E & _ & _ & _ & _ & _ & _ & _ & _ & ? & ? & _).
  rewrite El in E. by injection E as <-.
Qed.

Lemma ep_loadSingle_seqs lazy n valid j d : seqs_kept d (ep_loadSingle ub lazy n valid j d).1.
Proof.
  unfold ep_loadSingle. destruct (negb _); [done|]. unfold bind at 1, lift.
  destruct (Endpoint_load ub j AdminClientEndpoint_new) as [[ok e]|] eqn:El; [|done]. destruct (negb ok); [done|].
  unfold bind, get, endpoint_find. cbn beta iota. destruct (d !! ep_key e) as [r|] eqn:Er.
  - destruct (_ || _); [|done]. destruct (Endpoint_load ub j r) as [[ok' r']|] eqn:El'; [|done].
    cbn. apply seqs_kept_insert. rewrite Er, connect_unless_lazy_seq. by apply Endpoint_load_parts in El' as [-> _].
  - cbn. apply seqs_kept_insert. rewrite Er, connect_unless_lazy_seq.
    by apply Endpoint_load_parts in El as [-> _].
Qed.
Lemma ep_load_seqs lazy n valid j d : seqs_kept d (ep_load ub lazy n valid j d).1.
Proof.
  assert (forall l b d, seqs_kept d (ep_load_items ub lazy n valid l b d).1) as Hl.
  { clear j d. induction l as [|j l IH]; intros b d; cbn; [done|]. pose proof (ep_loadSingle_seqs lazy n valid j d) as Hj.
    unfold bind. destruct (ep_loadSingle _ _ _ _ _ _) as [d' [[]|]]; try done; (etransitivity; [exact Hj|apply IH]). }
  unfold ep_load. destruct j; try apply ep_loadSingle_seqs. apply Hl.
Qed.

(** The connections are there after a load. *)
Definition all_connected : gmap string AdminClientEndpoint -> Prop := map_Forall (fun _ e => Forall is_Some (clients_ e)).
Lemma ep_load_connected lazy n valid j : leads all_connected all_connected (ep_load ub lazy n valid j).
Proof.
  assert (forall b e, Forall is_Some (clients_ e) -> Forall is_Some (clients_ (connect_unless_lazy lazy n b e))) as Hlazy.
  { intros b e He. unfold connect_unless_lazy. destruct lazy; [done|by apply connect_full]. }
  assert (forall j, leads all_connected all_connected (ep_loadSingle ub lazy n valid j)) as H1j.
  { clear j. intros j d Hd. unfold ep_loadSingle. destruct (negb _); [done|]. unfold bind at 1, lift.
    destruct (Endpoint_load ub j AdminClientEndpoint_new) as [[ok e]|] eqn:El; [|done]. destruct (negb ok); [done|].
    apply Endpoint_load_parts in El as [_ Hcl]. unfold bind, get, endpoint_find. cbn beta iota.
    destruct (d !! ep_key e) as [r|] eqn:Er; [destruct (_ || _); [|done]; destruct (Endpoint_load ub j r) as [[ok' r']|] eqn:El; [|done]|];
      cbn; (apply map_Forall_insert_2; [apply Hlazy|done]); [|rewrite Hcl; constructor].
    apply Endpoint_load_parts in El as [_ ->]. apply (Hd _ _ Er). }
  assert (forall l b, leads all_connected all_connected (ep_load_items ub lazy n valid l b)) as Hl.
  { clear j. induction l as [|j l IH]; intros b; cbn; [by apply leads_ret|]. apply leads_bind; [done|apply H1j|].
    intros []; try by apply leads_ret. all: apply IH. }
  unfold ep_load. destruct j; try apply H1j. apply Hl.
Qed.

Lemma load_endpoints_inv lazy n valid j : leads flow_inv flow_inv (load_endpoints (OS := OS) ub lazy n valid j).
Proof.
  intros s Hs. unfold load_endpoints. pose proof (ep_load_seqs lazy n valid j (fl_endpoints s)) as Hk.
  pose proof (ep_load_connected lazy n valid j (fl_endpoints s)) as Hc.
  assert (all_connected (fl_endpoints s)) as Hall.
  { intros id e He. apply (fi_seqs s Hs (fl_generation s, id)). unfold endpoint_at. by rewrite decide_True. }
  specialize (Hc Hall).
  destruct (ep_load _ _ _ _ _ _) as [d r]. cbn in *. apply (inv_endpoints s); try done; [| |apply Hs].
  - intros [g id] e. unfold endpoint_at. cbn. case_decide; [|intros He; exists e; split; [done|lia]].
    intros He. specialize (Hk id). rewrite He in Hk. destruct Hk as (e' & -> & E). exists e'. split; [done|lia].
  - intros [g id] e He. pose proof (fi_seqs s Hs (g, id)) as Hq. unfold endpoint_at in *. cbn in *. case_decide; [|by apply Hq].
    split; [|by apply (Hc id)]. specialize (Hk id). destruct (fl_endpoints s !! id) as [e0|]; [|rewrite (Hk e He); done].
    destruct Hk as (e' & E & Es). rewrite He in E. injection E as <-. rewrite Es. by apply Hq.
Qed.

Lemma endpoint_at_clear r s : flow_inv s -> forall e,
  endpoint_at r (clearClientEndpoints (OS := OS) s).2 = Some e <-> endpoint_at r s = Some e.
Proof.
  intros Hs e. destruct r as [g id]. unfold clearClientEndpoints, endpoint_at. cbn.
  assert (g <> fl_generation s -> (kmap (pair (fl_generation s)) (fl_endpoints s) : gmap EpRef AdminClientEndpoint) !! ((g, id) : EpRef) = None) as Hno.
  { intros Hg. apply lookup_kmap_None; [apply _|]. by intros i [= -> _]. }
  assert (forall e, fl_detached s !! (g, id) = Some e -> (g < fl_generation s)%nat) as Hlt by apply (fi_detached s Hs (g, id)).
  destruct (decide (g = S (fl_generation s))) as [->|Hg].
  - rewrite lookup_empty, decide_False by lia. split; [done|]. intros He. apply Hlt in He. lia.
  - rewrite lookup_union. destruct (decide (g = fl_generation s)) as [->|Hne].
    + rewrite lookup_kmap by apply _. destruct (fl_endpoints s !! id); cbn.
      * by destruct (fl_detached s !! _).
      * destruct (fl_detached s !! _) as [e0|]; [|done]. specialize (Hlt e0 eq_refl). lia.
    + rewrite Hno by done. by destruct (fl_detached s !! _).
Qed.

Lemma clearClientEndpoints_inv s : flow_inv s -> flow_inv (clearClientEndpoints (OS := OS) s).2.
Proof.
  intros Hs. pose proof (endpoint_at_clear) as Hat. apply (inv_endpoints s); try done.
  - intros r e He. exists e. split; [by apply Hat|lia].
  - intros r e He. apply (Hat r s Hs) in He. by apply (fi_seqs s Hs r).
  - intros [g id] e. cbn. rewrite lookup_union_Some_raw. intros [He|[_ He]].
    + apply lookup_kmap_Some in He as (i & [= -> _] & _); [lia|apply _].
    + apply (fi_detached s Hs) in He. cbn in He. lia.
Qed.

Lemma clearClientProvisions_inv s : flow_inv s -> flow_inv (clearClientProvisions (OS := OS) s).2.
Proof. intros []. split; cbn; try done. Qed.

(** *** Executions *)

(** What can happen to the client side: administration, triggers, expired timers, works
    of the pool, responses, and the server side and the vault at work. *)
Inductive flow_step : Flow (OS := OS) -> Flow (OS := OS) -> Prop :=
| fs_load valid j s : flow_step s (cpd_load decode_url ub valid j s).1
| fs_endpoints lazy n valid j s : flow_step s (load_endpoints ub lazy n valid j s).1
| fs_clear_provisions s : flow_step s (clearClientProvisions s).2
| fs_clear_endpoints s : flow_step s (clearClientEndpoints s).2
| fs_settings data history purge s : flow_step s (with_settings data history purge s)
| fs_world w s : flow_step s (with_fworld w s)
| fs_trigger id inState s : small s -> flow_step s (triggerClientProvision ub report_text id inState s).1
| fs_operation id query s : small s -> flow_step s (triggerClientOperation decode_url ub report_text id query s).1
| fs_tick l stopped late s : small s -> flow_step s (tick ub report_text l stopped late s).1
| fs_cancel l o s : fl_heap s !! l = Some o -> flow_step s (put_ticker l (expire true (ob_ticker o)) s)
| fs_work s : small s -> flow_step s (run_work ub report_text s).1
| fs_response i rsp s : small s -> flow_step s (deliver_response multipart_decode ub report_text i rsp s).1.

Lemma flow_step_inv s s' : flow_inv s -> flow_step s s' -> flow_inv s'.
Proof.
  intros Hs Hstep. destruct Hstep.
  - by apply cpd_load_inv.
  - by apply load_endpoints_inv.
  - by apply clearClientProvisions_inv.
  - by apply clearClientEndpoints_inv.
  - by apply inv_settings.
  - by apply inv_world.
  - by apply triggerClientProvision_inv.
  - by apply triggerClientOperation_inv.
  - by apply tick_inv.
  - eapply inv_later; [done..|apply expire_inv|apply expire_later]. by apply (fi_objects _ Hs l o).
  - by apply run_work_inv.
  - by apply deliver_response_inv.
Qed.

(** The agent starts with nothing registered. *)
Definition flow_start (w : World OS) (data history purge metrics : bool) (pool : option Pool) : Flow (OS := OS) :=
  mkFlow ∅ ∅ ∅ O ∅ w data history purge metrics (mkClientCounters 0 0 0 0 0) pool [] [].

Lemma flow_start_inv w data history purge metrics pool : flow_inv (flow_start w data history purge metrics pool).
Proof.
  split; try apply map_Forall_empty; [constructor..|]. intros [g id] e. unfold endpoint_at. cbn. by case_decide; rewrite lookup_empty.
Qed.
End Invariant.
