(* ===== verification/FlowProperties.v ===== *)
(** What the client side promises ([ClientFlow.v]): whole in every execution, chains
    that keep their sequence, purges that remove a chain and nothing else, and statuses
    of a trigger that tell what was done. *)
From S2P Require Import Prelude Std Double Functions Query Json JsonModel External JsonConstraint Keys DataPart MockEvents MockData TypeConverter Vault Transformation ClientEndpoint Schema Stages StageFrames ClientProvision ClientTransform Ticker ClientFlow FlowInvariant.
From stdpp Require Import options.
#[local] Open Scope Z_scope.

Section FlowLemmas.
Context `{JsonEq} `{JsonText} `{JsonPointer} `{RegexLib} `{SchemaLib} `{Calculus} {OS : Type} `{Outside OS}.
Context (decode_url : string -> string) (multipart_decode : string -> string -> list mp_event)
  (ub : double -> Z) (report_text : fail_report -> outcome string).
Implicit Types (s : Flow (OS := OS)).

(** ** Requests *)

(** At most one request more, of this state, endpoint and sequence. *)
Definition sends_one (inState : string) (ep : EpRef) (seq : Z) (s s' : Flow (OS := OS)) : Prop :=
  fl_sent s' = fl_sent s \/
  exists sd, fl_sent s' = fl_sent s ++ [sd] /\ if_in_state (sd_callback sd) = inState /\ if_endpoint (sd_callback sd) = ep /\
    if_provision_seq (sd_callback sd) = seq.

Lemma put_endpoint_sent r e s : fl_sent (put_endpoint r e s) = fl_sent s.
Proof. unfold put_endpoint. by case_decide. Qed.
Lemma count_sent g s : fl_sent (count g s) = fl_sent s.
Proof. unfold count. by destruct (fl_metrics s). Qed.

Lemma run_transform_sent l vars seq s : fl_sent (run_client_transform (OS := OS) ub report_text l vars seq s).1 = fl_sent s.
Proof.
  unfold run_client_transform, object_at. destruct (fl_heap s !! l); [|done]. by destruct (client_transform _ _ _ _ _ _ _) as [? []].
Qed.

Lemma hand_over_sends p inState ep seq purge ct s : sends_one inState ep (sequence_of seq p) s (hand_over (OS := OS) p inState ep seq purge ct s).1.
Proof.
  unfold hand_over, bind, get. cbn beta iota. destruct (endpoint_at ep s) as [e|]; [|by left].
  destruct (incrementSendSeq _) as [n e']. unfold modify. cbn beta iota.
  destruct (getClient _ e') as [c|]; [|left; apply put_endpoint_sent]. right. cbn. rewrite put_endpoint_sent. by eexists.
Qed.

(** The sequence the request is sent with. *)
Lemma transform_sequence l vars seq s s' ct o : fl_heap s !! l = Some o ->
  run_client_transform (OS := OS) ub report_text l vars seq s = (s', Val ct) ->
  sequence_of seq (ct_provision ct) = sequence_of seq (tk_provision (ob_ticker o)).
Proof.
  intros Ho. unfold run_client_transform, object_at. rewrite Ho.
  pose proof (client_transform_definition ub report_text "" vars seq (cp_employ (tk_provision (ob_ticker o))) (fl_world s)) as (rq & rs & Hd).
  destruct (client_transform _ _ _ _ _ _ _) as [ct' [[]|]]; [|done]. cbn in Hd. intros [= _ <-]. by rewrite Hd.
Qed.

Lemma send_sends l inState ep seq vars purge o s : fl_heap s !! l = Some o ->
  sends_one inState ep (sequence_of seq (tk_provision (ob_ticker o))) s (sendClientRequest (OS := OS) ub report_text l inState ep seq vars purge s).1.
Proof.
  intros Ho. unfold sendClientRequest, bind, get. cbn beta iota. set (purge' := match purge with Some _ => _ | None => _ end).
  pose proof (run_transform_sent l vars seq s) as Hs. pose proof (transform_sequence l vars seq s) as Hq.
  destruct (run_client_transform _ _ _ _ _ s) as [s1 [ct|]]; [|by left]. cbn in Hs. specialize (Hq s1 ct o Ho eq_refl).
  destruct (negb _); [by left|]. unfold sends_one. rewrite <- Hs, <- Hq. apply hand_over_sends.
Qed.

(** A request with nothing in its way is handed to a connection. *)
Lemma worker_is_connected e n : Forall is_Some (clients_ e) ->
  exists c, getClient (Z.to_nat n) (connect false 1 e) = Some c.
Proof.
  intros Hf. pose proof (connect_full false 1 e Hf) as Hc. unfold getClient.
  destruct (clients_ (connect false 1 e) !! Z.to_nat n) as [c|] eqn:Ec; [by apply (proj1 (Forall_lookup _ _) Hc _ _ Ec)|].
  pose proof (connect_workers false 1 e) as Hw. rewrite connect_client, connect_lookup by lia. cbn. eauto.
Qed.

Definition sending_of (client : Client) (p : AdminClientProvision) (inState : string) (ep : EpRef) (seq sendSeq : Z)
    (purge : option (list (DataKey * Z))) (ct : ClientTransformed (OS := OS)) : Sending :=
  mkSending client (if cq_timeout_ms (ct_request ct) =? 0 then 1000 else cq_timeout_ms (ct_request ct)) (cq_delay_ms (ct_request ct))
    (mkInFlight inState (ct_request ct) (cp_id p) (cp_endpoint_id p) sendSeq (sequence_of seq p) ep (ct_vars ct) purge).

Lemma hand_over_done p inState ep seq purge ct e s : endpoint_at ep s = Some e -> ep_ok e -> send_seq_ e < u64_max ->
  exists client s', hand_over (OS := OS) p inState ep seq purge ct s = (s', Val tt) /\
    fl_sent s' = fl_sent s ++ [sending_of client p inState ep seq (send_seq_ e + 1) purge ct].
Proof.
  intros He [[Hlo _] Hf] Hn. unfold hand_over, bind, get. cbn beta iota. rewrite He. unfold incrementSendSeq. rewrite connect_seq.
  rewrite to_u64_id by (unfold is_u64; lia). unfold modify. cbn beta iota.
  match goal with |- context [getClient ?i ?e'] => assert (exists c, getClient i e' = Some c) as [c Hc] by by apply worker_is_connected end.
  rewrite Hc. eexists c, _. split; [reflexivity|]. cbn. by rewrite put_endpoint_sent.
Qed.

(** ** Responses *)

Lemma response_transform_sent f rsp s : fl_sent (response_transform (OS := OS) ub report_text f rsp s).1 = fl_sent s.
Proof.
  unfold response_transform. destruct (client_find _ _ s); [|done]. unfold object_at. destruct (fl_heap s !! _); [|done].
  by destruct (transformResponse _ _ _ _ _ _ _ _ _ _ _) as [? []].
Qed.
Lemma client_loadEvent_sent f st rsp s : fl_sent (client_loadEvent (OS := OS) multipart_decode f st rsp s).1 = fl_sent s.
Proof. unfold client_loadEvent. by destruct (MockClientEvent_load _ _ _ _ _ _ _ _ _ _ _ _ _ _ _) as [[]|]. Qed.
Lemma purge_chain_sent f purge s : fl_sent (purge_chain f purge s) = fl_sent s.
Proof. unfold purge_chain. destruct (purge_events _ _ _). by rewrite count_sent. Qed.

(** The sequence of a chain, also a negative one. *)
Lemma sequence_of_chain z p : sequence_of z (setSeq z p) = z.
Proof. unfold sequence_of. cbn. by destruct (0 <=? z). Qed.

Lemma progress_sends f st vars purge s :
  (sends_one st (if_endpoint f) (if_provision_seq f) s (progress (OS := OS) ub report_text f st vars purge s).1 /\
   st <> "" /\ st <> if_in_state f) \/ fl_sent (progress (OS := OS) ub report_text f st vars purge s).1 = fl_sent s.
Proof.
  unfold progress. destruct (negb (sempty st) && _) eqn:Eg; [|by right]. apply andb_true_iff in Eg as [Hne Hst].
  unfold bind, get, modify. cbn beta iota. destruct (client_find _ _ s) as [l|]; [|by right]. unfold object_at.
  destruct (fl_heap s !! l) as [o|] eqn:Ho; [|by right]. left. split_and!.
  - set (s1 := put_provision l (setSeq (if_provision_seq f) (tk_provision (ob_ticker o))) s).
    pose proof (send_sends l st (if_endpoint f) (if_provision_seq f) vars purge
      (mkObject (with_provision (setSeq (if_provision_seq f) (tk_provision (ob_ticker o))) (ob_ticker o)) (ob_in_state o) (ob_endpoint o)) s1) as Hs.
    cbn in Hs. rewrite lookup_alter_eq, Ho, sequence_of_chain in Hs. by specialize (Hs eq_refl).
  - by intros ->.
  - intros ->. by rewrite bool_decide_eq_true_2 in Hst.
Qed.

(** The event of a response, when events are stored. *)
Definition store_event (f : InFlight) (st : string) (rsp : ClientResponse) : M Flow (option (list (DataKey * Z))) :=
  do s <- get ;;
  if fl_client_data s
  then client_loadEvent (OS := OS) multipart_decode f st rsp ;;; ret ((fun l => l ++ [(if_key f, if_send_seq f)]) <$> if_purge f)
  else ret (if_purge f).

(** [on_response] once the response is read: [store_event] names its middle part. *)
Lemma on_response_eq f rsp s : on_response (OS := OS) multipart_decode ub report_text f rsp s =
  match response_transform ub report_text f rsp s with
  | (s1, Throw e) => (s1, Throw e)
  | (s1, Val (ok, st, vars)) =>
      let s2 := count (inc_provisioned (0 <? cr_status rsp)) s1 in
      if cr_status rsp <=? 0 then (s2, Val tt)
      else
        let s3 := if ok : bool then s2 else count inc_unexpected s2 in
        match store_event f st rsp s3 with
        | (s4, Throw e) => (s4, Throw e)
        | (s4, Val purge) =>
            if negb ok then (s4, Val tt)
            else if fl_purge s4 && bool_decide (st = "purge") then (purge_chain f purge s4, Val tt)
            else progress ub report_text f st vars purge s4
        end
  end.
Proof.
  unfold on_response, store_event, bind, get, modify, ret. cbn beta iota.
  destruct (response_transform _ _ _ _ _) as [s1 [[[ok st] vars]|]]; [|done]. cbn zeta.
  destruct (cr_status rsp <=? 0); [done|]. destruct ok; cbn [negb].
  all: destruct (fl_client_data _); [destruct (client_loadEvent _ _ _ _ _) as [s4 []]; [|done]|]; try done.
  all: by destruct (fl_purge _ && _).
Qed.

Lemma store_event_sent f st rsp s : fl_sent (store_event f st rsp s).1 = fl_sent s.
Proof.
  unfold store_event, bind, get. destruct (fl_client_data s); [|done]. pose proof (client_loadEvent_sent f st rsp s) as Hs.
  by destruct (client_loadEvent _ _ _ _ s) as [? []].
Qed.

Lemma response_sends f rsp s s' : s' = (on_response (OS := OS) multipart_decode ub report_text f rsp s).1 ->
  fl_sent s' = fl_sent s \/
  exists st vars, 0 < cr_status rsp /\ (response_transform ub report_text f rsp s).2 = Val (true, st, vars) /\
    st <> "" /\ st <> if_in_state f /\ sends_one st (if_endpoint f) (if_provision_seq f) s s'.
Proof.
  intros ->. rewrite on_response_eq. pose proof (response_transform_sent f rsp s) as E1.
  destruct (response_transform _ _ _ _ s) as [s1 [[[ok st] vars]|]]; [|by left]. cbn zeta. cbn in E1.
  set (s2 := count _ s1). assert (fl_sent s2 = fl_sent s) as E2 by (by subst s2; rewrite count_sent). clearbody s2.
  destruct (Z.leb_spec (cr_status rsp) 0); [by left|].
  set (s3 := if ok then s2 else _). assert (fl_sent s3 = fl_sent s) as E3 by (subst s3; destruct ok; [done|by rewrite count_sent]). clearbody s3.
  pose proof (store_event_sent f st rsp s3) as E4. destruct (store_event f st rsp s3) as [s4 [purge|]]; cbn in E4; [|left; cbn; congruence].
  destruct ok; cbn [negb]; [|left; cbn; congruence].
  destruct (_ && _); [left; cbn; rewrite purge_chain_sent; congruence|].
  destruct (progress_sends f st vars purge s4) as [(Hs & Hne & Hst)|Hs]; [|left; congruence].
  right. exists st, vars. split_and!; try done. unfold sends_one in *. by rewrite E4, E3 in Hs.
Qed.

Lemma count_endpoint g s r : endpoint_at r (count g s) = endpoint_at r s.
Proof. unfold count. by destruct (fl_metrics s). Qed.
Lemma response_transform_endpoint f rsp s r : endpoint_at r (response_transform (OS := OS) ub report_text f rsp s).1 = endpoint_at r s.
Proof.
  unfold response_transform. destruct (client_find _ _ s); [|done]. unfold object_at. destruct (fl_heap s !! _); [|done].
  by destruct (transformResponse _ _ _ _ _ _ _ _ _ _ _) as [? []].
Qed.
Lemma store_event_endpoint f st rsp s r : endpoint_at r (store_event f st rsp s).1 = endpoint_at r s.
Proof.
  unfold store_event, bind, get, client_loadEvent. destruct (fl_client_data s); [|done].
  by destruct (MockClientEvent_load _ _ _ _ _ _ _ _ _ _ _ _ _ _ _) as [[]|].
Qed.
Lemma store_event_ready f st rsp : leads ready ready (store_event f st rsp).
Proof.
  unfold store_event. apply leads_get. intros s Hr. destruct (fl_client_data s); [|done].
  refine (leads_bind ready ready _ _ _ _ _ s Hr); [done|apply client_loadEvent_ready|intros _; by apply leads_ret].
Qed.

(** A request that is built without an error is sent. *)
Lemma send_done l inState ep seq vars purge o ct s : ready s -> fl_heap s !! l = Some o -> is_Some (endpoint_at ep s) ->
  client_transform ub report_text "" vars seq (cp_employ (tk_provision (ob_ticker o))) (fl_world s) = (ct, Val tt) -> ct_error ct = "" ->
  exists s' sd, sendClientRequest (OS := OS) ub report_text l inState ep seq vars purge s = (s', Val tt) /\
    fl_sent s' = fl_sent s ++ [sd] /\ if_in_state (sd_callback sd) = inState /\ if_request (sd_callback sd) = ct_request ct /\
    if_endpoint (sd_callback sd) = ep /\ if_provision_seq (sd_callback sd) = sequence_of seq (tk_provision (ob_ticker o)) /\
    if_vars (sd_callback sd) = ct_vars ct /\
    (exists e, endpoint_at ep s = Some e /\ if_send_seq (sd_callback sd) = send_seq_ e + 1).
Proof.
  intros Hr Ho [e He] Hct Herr. unfold sendClientRequest, bind at 1, get. set (purge' := match purge with Some _ => _ | None => _ end).
  pose proof (transform_sequence l vars seq s) as Hq. unfold bind, run_client_transform, object_at in *. rewrite Ho, Hct in *.
  rewrite Herr. cbn [negb sempty]. specialize (Hq _ ct o eq_refl eq_refl).
  set (s1 := with_fworld _ _). assert (endpoint_at ep s1 = Some e) as He1 by exact He.
  destruct (hand_over_done (ct_provision ct) inState ep seq purge' ct e s1 He1) as (c & s' & -> & Hs').
  { apply (fi_seqs s (proj1 Hr) ep e He). }
  { apply (proj2 Hr ep e He). }
  exists s', (sending_of c (ct_provision ct) inState ep seq (send_seq_ e + 1) purge' ct). cbn. split_and!; try done. by exists e.
Qed.

(** A valid response that was read and stored. *)
Lemma stored_parts f rsp s s1 s2 st vars purge : ready s -> response_transform ub report_text f rsp s = (s1, Val (true, st, vars)) ->
  store_event f st rsp (count (inc_provisioned true) s1) = (s2, Val purge) ->
  ready s2 /\ (forall r, endpoint_at r s2 = endpoint_at r s) /\ fl_sent s2 = fl_sent s.
Proof.
  intros Hs Hr Hev. set (s1' := count (inc_provisioned true) s1) in *. split_and!.
  - pose proof (store_event_ready f st rsp s1') as Hx. rewrite Hev in Hx. apply Hx, ready_count.
    pose proof (response_transform_ready ub report_text f rsp s Hs) as Hy. by rewrite Hr in Hy.
  - intros r. pose proof (store_event_endpoint f st rsp s1' r) as E1. rewrite Hev in E1.
    pose proof (response_transform_endpoint f rsp s r) as E2. rewrite Hr in E2. cbn [fst] in E1, E2.
    subst s1'. by rewrite E1, count_endpoint, E2.
  - pose proof (store_event_sent f st rsp s1') as E1. rewrite Hev in E1.
    pose proof (response_transform_sent f rsp s) as E2. rewrite Hr in E2. cbn [fst] in E1, E2. subst s1'. by rewrite E1, count_sent, E2.
Qed.

(** ** Purges *)

Definition events_at (K : string) (d : MockData MockClientEvent) : list MockClientEvent := default [] (abs d !! K).








(** ** Triggers *)

(** Nothing sent or posted, and no timer started or stopped. *)
Definition timer_of (o : ProvisionObject) : bool * string * EpRef := (tk_timer (ob_ticker o), ob_in_state o, ob_endpoint o).
Definition idle s s' : Prop :=
  fl_sent s' = fl_sent s /\ fl_works s' = fl_works s /\ forall l, timer_of <$> fl_heap s' !! l = timer_of <$> fl_heap s !! l.
Lemma idle_refl s : idle s s.
Proof. done. Qed.
Lemma idle_trans s1 s2 s3 : idle s1 s2 -> idle s2 s3 -> idle s1 s3.
Proof. intros (E1 & E2 & E3) (F1 & F2 & F3). split_and!; [congruence..|]. intros l. by rewrite F3. Qed.
Lemma put_provision_idle l p s : idle s (put_provision l p s).
Proof.
  split_and!; [done..|]. intros l'. cbn. destruct (decide (l = l')) as [<-|].
  - rewrite lookup_alter_eq. by destruct (fl_heap s !! l).
  - by rewrite lookup_alter_ne.
Qed.

(** Only the counters of a provision, and its document. *)
Definition counters_only (p p' : AdminClientProvision) : Prop :=
  exists j d, p' = cp_update (cp_employed p) j (cp_request_schema p) (cp_response_schema p) d p.
(** The state as it was, but for the counters of an object. *)
Definition counters_moved (l : nat) s s' : Prop :=
  exists o p, fl_heap s !! l = Some o /\ counters_only (tk_provision (ob_ticker o)) p /\ s' = put_provision l p s.

Lemma counters_only_trans p1 p2 p3 : counters_only p1 p2 -> counters_only p2 p3 -> counters_only p1 p3.
Proof. intros (j1 & d1 & ->) (j2 & d2 & ->). by exists j2, d2. Qed.
Lemma setSeq_counters z p : counters_only p (setSeq z p).
Proof. by eexists _, _. Qed.
Lemma updateTriggering_counters sb se c r p : counters_only p (updateTriggering sb se c r p).1.
Proof.
  assert (counters_only p p) as Hp by (exists (cp_json p), (cp_dyn p); by destruct p).
  unfold updateTriggering. destruct (update_dynamics _ _ _ _ _) as [[ok d]|]; [|done].
  assert (counters_only p (cp_with_dyn d p)) as Hd by by eexists _, _.
  destruct ok; [|done]. unfold cp_saveDynamics. destruct (saveDynamics _ _) as [j|]; [|done]. cbn. eapply counters_only_trans; [exact Hd|]. by eexists _, _.
Qed.
Lemma put_provision_twice l p1 p2 s : put_provision l p2 (put_provision l p1 s) = put_provision l p2 s.
Proof.
  unfold put_provision, with_heap. cbn. f_equal. apply map_eq. intros l'. destruct (decide (l = l')) as [<-|].
  - rewrite !lookup_alter_eq. by destruct (fl_heap s !! l).
  - by rewrite !lookup_alter_ne.
Qed.
Lemma counters_moved_idle l s s' : counters_moved l s s' -> idle s s'.
Proof. intros (o & p & _ & _ & ->). apply put_provision_idle. Qed.

Lemma apply_sequence_moves l z sb se c r dyn s s' res : apply_sequence (OS := OS) l z sb se c r dyn s = (s', res) ->
  s' = s \/ counters_moved l s s'.
Proof.
  unfold apply_sequence, bind, object_at, modify, lift. destruct (fl_heap s !! l) as [o|] eqn:Ho; [|intros [= <- <-]; by left].
  destruct (if sempty z then _ else _) as [v|]; [|intros [= <- <-]; by left].
  set (p1 := match v with Some _ => _ | None => _ end).
  assert (counters_only (tk_provision (ob_ticker o)) p1) as Hp1.
  { subst p1. destruct v; [apply setSeq_counters|]. exists (cp_json (tk_provision (ob_ticker o))), (cp_dyn (tk_provision (ob_ticker o))). by destruct (tk_provision (ob_ticker o)). }
  destruct dyn.
  - pose proof (updateTriggering_counters sb se c r p1) as Hp2. destruct (updateTriggering _ _ _ _ _) as [p2 res2]. cbn [fst] in Hp2.
    rewrite put_provision_twice. intros E. assert (s' = put_provision l p2 s) as -> by (destruct res2; by injection E as <- _).
    right. exists o, p2. split_and!; [done| |done]. by eapply counters_only_trans.
  - intros [= <- _]. right. by exists o, p1.
Qed.

Lemma startTicking_ticks k k' : startTicking k = (k', Val tt) -> 0 < cps_ (tk_dyn k) ->
  tk_timer k' = true /\ cps_ (tk_dyn k') = cps_ (tk_dyn k).
Proof.
  unfold startTicking, bind, modify. set (k1 := start_state k).
  assert (cps_ (tk_dyn k1) = cps_ (tk_dyn k)) as E1.
  { subst k1. unfold start_state, stopTicking. by repeat case_match. }
  clearbody k1. unfold tk_save, cp_saveDynamics. destruct (saveDynamics _ _) as [j|]; [|done]. cbn. intros [= <-] Hc.
  unfold scheduleTick. cbn. unfold tk_dyn in *. cbn in *. destruct (Z.eqb_spec (cps_ (cp_dyn (tk_provision k1))) 0); [lia|]. done.
Qed.

Lemma send_works l inState ep seq vars purge s :
  fl_works (sendClientRequest (OS := OS) ub report_text l inState ep seq vars purge s).1 = fl_works s.
Proof.
  unfold sendClientRequest, run_client_transform, object_at, bind, get. cbn beta iota. destruct (fl_heap s !! l); [|done].
  destruct (client_transform _ _ _ _ _ _ _) as [ct [|]]; [|done]. destruct (negb _); [done|].
  unfold hand_over, bind, get, modify. cbn beta iota. destruct (endpoint_at _ _) as [e|]; [|done].
  destruct (incrementSendSeq _) as [n e']. unfold put_endpoint. by destruct (getClient _ e'); cbn; case_decide.
Qed.

(** A request leaves the timers alone. *)
Lemma send_timers l inState ep seq vars purge s l' :
  timer_of <$> fl_heap (sendClientRequest (OS := OS) ub report_text l inState ep seq vars purge s).1 !! l' = timer_of <$> fl_heap s !! l'.
Proof.
  unfold sendClientRequest, run_client_transform, object_at, bind, get. cbn beta iota. destruct (fl_heap s !! l); [|done].
  destruct (client_transform _ _ _ _ _ _ _) as [ct r]. set (s1 := with_fworld _ _).
  assert (timer_of <$> fl_heap s1 !! l' = timer_of <$> fl_heap s !! l') as E by exact (proj2 (proj2 (put_provision_idle l (ct_provision ct) s)) l').
  destruct r as [|]; [|done]. destruct (negb _); [done|].
  unfold hand_over, bind, get, modify. cbn beta iota. destruct (endpoint_at _ _) as [e|]; [|done].
  destruct (incrementSendSeq _) as [n e']. unfold put_endpoint. by destruct (getClient _ e'); cbn; case_decide.
Qed.

(** The state a trigger names. *)
Definition trigger_state (query : string) : string :=
  match (query_map (S := unit) decode_url query tt).2 with
  | Val qmap => default DEFAULT_ADMIN_PROVISION_STATE (qmap !! "inState")
  | Throw _ => DEFAULT_ADMIN_PROVISION_STATE
  end.
Lemma query_map_same q s : query_map decode_url q s = (s, (query_map (S := unit) decode_url q tt).2).
Proof. unfold query_map. destruct (sempty q); [done|]. by destruct (extractQueryParameters _ _ _ _) as [[[]|]|]. Qed.

(** The end of an accepted trigger. *)
Lemma ticking_as_told l inState ep s s' o : fl_heap s !! l = Some o ->
  (if 0 <? cps_ (tk_dyn (ob_ticker o))
   then if isTicking (ob_ticker o) then ret tt else start_ticking (OS := OS) l inState ep
   else modify (put_ticker l (stopTicking (ob_ticker o)))) s = (s', Val tt) ->
  fl_sent s' = fl_sent s /\ fl_works s' = fl_works s /\ (forall l', l' <> l -> fl_heap s' !! l' = fl_heap s !! l') /\
  exists o', fl_heap s' !! l = Some o' /\ isTicking (ob_ticker o') = (0 <? cps_ (tk_dyn (ob_ticker o'))).
Proof.
  intros Ho. destruct (Z.ltb_spec 0 (cps_ (tk_dyn (ob_ticker o)))) as [Hc|Hc].
  - destruct (isTicking (ob_ticker o)) eqn:Ei.
    + intros [= <-]. split_and!; [done..|]. exists o. split; [done|]. rewrite Ei. symmetry. by apply Z.ltb_lt.
    + unfold start_ticking, bind, object_at. rewrite Ho. destruct (startTicking (ob_ticker o)) as [k r] eqn:Es.
      unfold modify, lift. intros [= <- ->]. split_and!; [done..|intros l' Hl'; cbn; by rewrite lookup_insert_ne|]. eexists. cbn. rewrite lookup_insert_eq. split; [done|]. cbn.
      destruct (startTicking_ticks _ _ Es Hc) as [Ht Ecps]. unfold isTicking. rewrite Ht, Ecps. symmetry. by apply Z.ltb_lt.
  - intros [= <-]. split_and!; [done..|intros l' Hl'; cbn; by rewrite lookup_alter_ne|]. cbn. rewrite lookup_alter_eq, Ho. eexists. split; [done|]. cbn.
    unfold isTicking, stopTicking, tk_dyn in *. destruct (tk_timer (ob_ticker o)) eqn:Et, (tk_io_context (ob_ticker o)); cbn; rewrite ?Et;
      symmetry; apply Z.ltb_ge; exact Hc.
Qed.

Lemma operation_status id query s s' code : triggerClientOperation (OS := OS) decode_url ub report_text id query s = (s', Val code) ->
  let found := client_find (trigger_state query) id s in
  (code = 200 /\ exists l o, found = Some l /\ fl_heap s !! l = Some o /\ fl_works s' = fl_works s /\
     (forall l', timer_of <$> fl_heap s' !! l' = timer_of <$> fl_heap s !! l') /\
     (fl_sent s' = fl_sent s \/
      exists sd, fl_sent s' = fl_sent s ++ [sd] /\ if_in_state (sd_callback sd) = trigger_state query /\
        if_endpoint (sd_callback sd) = (fl_generation s, cp_endpoint_id (tk_provision (ob_ticker o))))) \/
  (code = 202 /\ fl_sent s' = fl_sent s /\ fl_works s' = fl_works s /\
     exists l o, found = Some l /\ fl_heap s' !! l = Some o /\ isTicking (ob_ticker o) = (0 <? cps_ (tk_dyn (ob_ticker o))) /\
       forall l', l' <> l -> fl_heap s' !! l' = fl_heap s !! l') \/
  ((code = 400 \/ code = 403 \/ code = 404) /\ idle s s' /\ (s' = s \/ exists l, found = Some l /\ counters_moved l s s')).
Proof.
  unfold triggerClientOperation. unfold bind at 1. rewrite query_map_same. unfold trigger_state.
  destruct (query_map decode_url query tt).2 as [qmap|]; [|done]. cbn zeta.
  set (st := default DEFAULT_ADMIN_PROVISION_STATE (qmap !! "inState")).
  destruct (_ && _). { intros [= <- <-]. right; right. split_and!; [lia|done|by left]. }
  unfold bind at 1, get. destruct (client_find st id s) as [l|] eqn:Hl; [|intros [= <- <-]; right; right; split_and!; [lia|done|by left]].
  match goal with |- context [apply_sequence ?a ?b ?c ?d ?e ?f ?g] => pose proof (apply_sequence_moves a b c d e f g s) as Hm;
    unfold bind at 1; destruct (apply_sequence a b c d e f g s) as [s1 res] eqn:Ea end. specialize (Hm s1 res eq_refl).
  assert (idle s s1) as Hi by (destruct Hm as [->|Hm]; [done|by eapply counters_moved_idle]).
  assert (s1 = s \/ exists l0, Some l = Some l0 /\ counters_moved l0 s s1) as Hm' by (destruct Hm; [by left|right; by exists l]).
  destruct res as [[refused|]|]; [| |done].
  { intros [= <- <-]. right; right. split_and!; [|done|done]. revert Ea. unfold apply_sequence, bind, object_at, modify, lift, ret.
    repeat case_match; intros [=]; subst; lia. }
  unfold bind at 1, object_at. destruct (fl_heap s1 !! l) as [o|] eqn:Ho; [|done]. unfold bind at 1, get. cbn beta iota zeta.
  assert (fl_generation s1 = fl_generation s /\ (forall l', l' <> l -> fl_heap s1 !! l' = fl_heap s !! l') /\
    exists o0, fl_heap s !! l = Some o0 /\ cp_endpoint_id (tk_provision (ob_ticker o)) = cp_endpoint_id (tk_provision (ob_ticker o0)))
    as (Eg & Hother & o0 & Ho0 & Eid).
  { destruct Hm as [->|(o0 & p & Ho0 & (j & d & ->) & ->)]; [split_and!; [done..|by exists o]|]. cbn in Ho. rewrite lookup_alter_eq, Ho0 in Ho.
    injection Ho as <-. split_and!; [done|intros l' Hl'; cbn; by rewrite lookup_alter_ne|by exists o0]. }
  rewrite Eg, Eid.
  destruct (endpoint_find _ _) as [e|]; [|intros [= <- <-]; right; right; split_and!; [lia|done..]].
  destruct (negb (permit_ e)); [intros [= <- <-]; right; right; split_and!; [lia|done..]|].
  destruct Hi as (Hs & Hw & Ht).
  match goal with |- context [if ?b then _ else _] => destruct b end.
  - match goal with |- bind ?m _ s1 = _ -> _ => destruct (m s1) as [s2 [[]|]] eqn:Et; unfold bind; rewrite Et; [|done] end.
    intros [= <- <-]. destruct (ticking_as_told _ _ _ _ _ _ Ho Et) as (Hs2 & Hw2 & Ho2 & o' & Ho' & Htick).
    right; left. split_and!; [done|congruence..|]. exists l, o'. split_and!; [done..|]. intros l' Hl'. by rewrite Ho2, Hother.
  - match goal with |- bind ?m _ s1 = _ -> _ => destruct (m s1) as [s2 [[]|]] eqn:Et; unfold bind; rewrite Et; [|done] end.
    intros [= <- <-]. left. match type of Et with sendClientRequest _ _ _ ?i ?ep _ _ _ _ = _ =>
      pose proof (send_sends l i ep (-1) ∅ None o s1 Ho) as Hsend; pose proof (send_works l i ep (-1) ∅ None s1) as Hw2;
      pose proof (send_timers l i ep (-1) ∅ None s1) as Ht2 end.
    unfold sends_one in Hsend. rewrite Et in Hsend, Hw2, Ht2. cbn in Hsend, Hw2, Ht2. split; [done|]. exists l, o0.
    split_and!; [done|done|congruence|intros l'; by rewrite Ht2, Ht|]. rewrite Hs in Hsend.
    destruct Hsend as [?|(sd & ? & ? & ? & _)]; [by left|right; by exists sd].
Qed.
End FlowLemmas.

(** ** Properties *)

Section FlowProperties.
Context `{JsonEq} `{JsonText} `{JsonPointer} `{RegexLib} `{SchemaLib} `{Calculus} {OS : Type} `{Outside OS}.
Context (decode_url : string -> string) (multipart_decode : string -> string -> list mp_event)
  (ub : double -> Z) (report_text : fail_report -> outcome string).
Implicit Types (s : Flow (OS := OS)).

(** C6: However administration, triggers, timers, works of the pool and responses
    interleave, every registered provision is a live and typed object under its own key,
    a running timer and a posted work refer to a live object and a live endpoint, also
    after both were deleted, the connections of every endpoint are there, and no two
    requests in flight of an endpoint have the same sequence. *)
Theorem client_side_stays_whole (w : World OS) (data history purge metrics : bool) (pool : option Pool) (s : Flow (OS := OS))
  (Hs : rtc (flow_step decode_url multipart_decode ub report_text) (flow_start w data history purge metrics pool) s) :
  (forall key l, fl_provisions s !! key = Some l -> exists o, fl_heap s !! l = Some o /\
     cp_typed (tk_provision (ob_ticker o)) /\ cp_key (tk_provision (ob_ticker o)) = key) /\
  (forall l o, fl_heap s !! l = Some o -> isTicking (ob_ticker o) = true -> is_Some (endpoint_at (ob_endpoint o) s)) /\
  (forall wk, wk ∈ fl_works s -> is_Some (fl_heap s !! wk_provision wk) /\ is_Some (endpoint_at (wk_endpoint wk) s)) /\
  (forall sd, sd ∈ fl_sent s -> is_Some (endpoint_at (if_endpoint (sd_callback sd)) s)) /\
  (forall r e, endpoint_at r s = Some e -> Forall is_Some (clients_ e)) /\
  NoDup (sent_id <$> fl_sent s).
Proof.
  assert (flow_inv s) as [Ho Hr Hw Ht Hu Hq _].
  { eapply (rtc_invariant _ flow_inv); [apply flow_start_inv|apply flow_step_inv|exact Hs]. }
  split_and!; [|by intros l o Hl; apply (Ho l o Hl)| | |by intros r e He; apply (Hq r e)|exact Hu].
  - intros key l Hl. destruct (Hr key l Hl) as (o & Hlo & Hk). exists o. split_and!; [done|apply (Ho l o Hlo)|done].
  - intros wk Hwk. by apply (proj1 (Forall_forall _ _) Hw) in Hwk as (? & ? & _).
  - intros sd Hsd. apply (proj1 (Forall_forall _ _) Ht) in Hsd as (_ & e & He & _). by exists e.
Qed.

(** C33: A response leads to one more request at most, and to none after a transport
    error, a refused response, or a state that is empty or the one it was sent in; the
    request goes to the endpoint and with the provision sequence of the one before, also
    when the sequence is negative. *)
Theorem response_sends_at_most_one (f : InFlight) (rsp : ClientResponse) (s : Flow (OS := OS)) :
  let s' := (on_response multipart_decode ub report_text f rsp s).1 in
  fl_sent s' = fl_sent s \/
  exists st vars sd, 0 < cr_status rsp /\ (response_transform ub report_text f rsp s).2 = Val (true, st, vars) /\
    st <> "" /\ st <> if_in_state f /\ fl_sent s' = fl_sent s ++ [sd] /\ if_in_state (sd_callback sd) = st /\
    if_endpoint (sd_callback sd) = if_endpoint f /\ if_provision_seq (sd_callback sd) = if_provision_seq f.
Proof.
  cbn zeta. destruct (response_sends multipart_decode ub report_text f rsp s _ eq_refl) as [?|(st & vars & ? & ? & ? & ? & Hs)]; [by left|].
  destruct Hs as [?|(sd & ? & ? & ? & ?)]; [by left|]. right. by exists st, vars, sd.
Qed.

(** C5: A valid response continues its chain: when a provision is registered for the
    state it leads to and its request is built without an error, that request is handed
    to a connection of the same endpoint, with the next send sequence, the sequence of
    the chain and its variables. *)
Theorem valid_response_continues_the_chain (f : InFlight) (rsp : ClientResponse) (s s1 s2 : Flow (OS := OS)) (st : string)
  (vars : gmap string string) (purge : option (list (DataKey * Z))) (l : nat) (o : ProvisionObject) (ct : ClientTransformed (OS := OS))
  (Hi : flow_inv s) (Hsmall : small s) (Hep : is_Some (endpoint_at (if_endpoint f) s)) (Hz : is_i64 (if_provision_seq f))
  (Hst : 0 < cr_status rsp)
  (Hr : response_transform ub report_text f rsp s = (s1, Val (true, st, vars)))
  (Hev : store_event multipart_decode f st rsp (count (inc_provisioned true) s1) = (s2, Val purge))
  (Hne : st <> "") (Hin : st <> if_in_state f) (Hp : fl_purge s2 = false \/ st <> "purge")
  (Hl : client_find st (if_provision_id f) s2 = Some l) (Ho : fl_heap s2 !! l = Some o)
  (Hct : client_transform ub report_text "" vars (if_provision_seq f)
           (cp_employ (setSeq (if_provision_seq f) (tk_provision (ob_ticker o)))) (fl_world s2) = (ct, Val tt))
  (Herr : ct_error ct = "") :
  exists s' sd e, on_response multipart_decode ub report_text f rsp s = (s', Val tt) /\ fl_sent s' = fl_sent s ++ [sd] /\
    endpoint_at (if_endpoint f) s = Some e /\ if_send_seq (sd_callback sd) = send_seq_ e + 1 /\
    if_in_state (sd_callback sd) = st /\ if_endpoint (sd_callback sd) = if_endpoint f /\
    if_provision_seq (sd_callback sd) = if_provision_seq f /\ if_request (sd_callback sd) = ct_request ct /\
    if_vars (sd_callback sd) = ct_vars ct.
Proof.
  rewrite on_response_eq, Hr. cbn zeta. rewrite (proj2 (Z.leb_gt _ _) Hst), (proj2 (Z.ltb_lt _ _) Hst), Hev. cbn [negb].
  assert (fl_purge s2 && bool_decide (st = "purge") = false) as ->.
  { destruct Hp as [->|Hp]; [done|]. rewrite bool_decide_eq_false_2 by done. apply andb_false_r. }
  destruct (stored_parts multipart_decode ub report_text f rsp s s1 s2 st vars purge (conj Hi Hsmall) Hr Hev) as (Hr2 & Eep & Es).
  unfold progress. assert (negb (sempty st) && negb (bool_decide (st = if_in_state f)) = true) as ->.
  { rewrite bool_decide_eq_false_2 by done. by destruct st. }
  unfold bind, get, modify. cbn beta iota. rewrite Hl. unfold object_at. rewrite Ho.
  set (z := if_provision_seq f) in *. set (p := setSeq z (tk_provision (ob_ticker o))) in *.
  assert (ready (put_provision l p s2)) as Hr3.
  { apply ready_put_provision; [done|]. intros o' Ho'. rewrite Ho in Ho'. injection Ho' as <-. split; [|done].
    apply setSeq_typed; [done|]. apply (fi_objects s2 (proj1 Hr2) l o Ho). }
  set (o1 := mkObject (with_provision p (ob_ticker o)) (ob_in_state o) (ob_endpoint o)).
  assert (fl_heap (put_provision l p s2) !! l = Some o1) as Ho1 by (cbn; by rewrite lookup_alter_eq, Ho).
  destruct (send_done ub report_text l st (if_endpoint f) z vars purge o1 ct _ Hr3 Ho1) as (s' & sd & -> & E1 & E2 & E3 & E4 & E5 & E6 & e & Ee & E7).
  { change (is_Some (endpoint_at (if_endpoint f) s2)). by rewrite Eep. }
  { exact Hct. }
  { exact Herr. }
  exists s', sd, e. change (endpoint_at (if_endpoint f) s2 = Some e) in Ee. change (fl_sent s' = fl_sent s2 ++ [sd]) in E1. change (ob_ticker o1) with (with_provision p (ob_ticker o)) in E5.
  split_and!; try done; [by rewrite E1, Es|by rewrite <- Eep|]. rewrite E5. apply sequence_of_chain.
Qed.


(** C25: The status of a trigger tells what was done.  With 200, of the provision it names
    one request at most was sent, to the endpoint of the provision, nothing was posted and no
    timer touched.  With 202 nothing was sent or posted, the timer of that provision runs
    exactly when its rate is positive, and no other provision changed.  With 400, 403 or 404
    nothing was sent or posted and no timer touched; all that may have changed are the
    counters of that provision, which are moved before the refusal. *)
Theorem trigger_status_tells_what_was_done (id query : string) (s s' : Flow (OS := OS)) (code : Z)
  (Ht : triggerClientOperation decode_url ub report_text id query s = (s', Val code)) :
  let found := client_find (trigger_state decode_url query) id s in
  (code = 200 /\ exists l o, found = Some l /\ fl_heap s !! l = Some o /\ fl_works s' = fl_works s /\
     (forall l', timer_of <$> fl_heap s' !! l' = timer_of <$> fl_heap s !! l') /\
     (fl_sent s' = fl_sent s \/
      exists sd, fl_sent s' = fl_sent s ++ [sd] /\ if_in_state (sd_callback sd) = trigger_state decode_url query /\
        if_endpoint (sd_callback sd) = (fl_generation s, cp_endpoint_id (tk_provision (ob_ticker o))))) \/
  (code = 202 /\ fl_sent s' = fl_sent s /\ fl_works s' = fl_works s /\
     exists l o, found = Some l /\ fl_heap s' !! l = Some o /\ isTicking (ob_ticker o) = (0 <? cps_ (tk_dyn (ob_ticker o))) /\
       forall l', l' <> l -> fl_heap s' !! l' = fl_heap s !! l') \/
  ((code = 400 \/ code = 403 \/ code = 404) /\ idle s s' /\ (s' = s \/ exists l, found = Some l /\ counters_moved l s s')).
Proof. exact (operation_status decode_url ub report_text id query s s' code Ht). Qed.
End FlowProperties.

Module FlowExamples.
Import Still ClientExamples.

Definition decode0 (ct body : string) : list mp_event := [].
Definition world0 : World world := mkWorld Vault_new MockData_empty MockData_empty ∅ 1 2 ([] : world).
Definition start0 : Flow := flow_start world0 true true true true (Some (mkPool 0 0 0)).

(** The endpoint, and the second state of the flow. *)
Definition peer0 : json := JObject [("host", JString "h"); ("id", JString "peer"); ("port", JUint 80)].
Definition doc1 : json :=
  JObject [("endpoint", JString "peer"); ("id", JString "flow"); ("inState", JString "second"); ("outState", JString "purge");
           ("requestMethod", JString "GET"); ("requestUri", JString "/b")].
Definition all_valid (j : json) : bool := true.

Definition ready0 : Flow :=
  (cpd_load (fun x => x) ub0 all_valid (JArray [doc0; doc1]) (load_endpoints ub0 true 1 all_valid peer0 start0).1).1.
(** A trigger with a negative sequence. *)
Definition sent0 : Flow := (triggerClientOperation (fun x => x) ub0 text0 "flow" "sequence=-3" ready0).1.

Definition step0 : relation Flow := flow_step (fun x => x) decode0 ub0 text0.
Lemma small0 s : fl_detached s = ∅ -> forallb (fun x => send_seq_ x.2 <? u64_max) (map_to_list (fl_endpoints s)) = true -> small (OS := world) s.
Proof.
  intros Hd He r e. unfold endpoint_at. rewrite Hd. case_decide; [|by rewrite lookup_empty]. intros Hr.
  apply Z.ltb_lt. rewrite forallb_forall in He. apply (He (r.2, e)). by apply list_elem_of_In, elem_of_map_to_list.
Qed.

Lemma reaches_ready0 : rtc step0 start0 ready0.
Proof. eapply rtc_l; [apply (fs_endpoints _ _ _ _ true 1 all_valid peer0)|]. eapply rtc_l; [apply (fs_load _ _ _ _ all_valid (JArray [doc0; doc1]))|done]. Qed.
Lemma small_ready0 : small ready0.
Proof. apply small0; vm_compute; reflexivity. Qed.
Lemma reaches_sent0 : rtc step0 start0 sent0.
Proof. eapply rtc_r; [apply reaches_ready0|]. apply fs_operation, small_ready0. Qed.

Lemma client_side_stays_whole_witness : NoDup (sent_id <$> fl_sent sent0) /\ length (fl_sent sent0) = 1%nat.
Proof.
  destruct (client_side_stays_whole (fun x => x) decode0 ub0 text0 world0 true true true true (Some (mkPool 0 0 0)) sent0 reaches_sent0)
    as (_ & _ & _ & _ & _ & Hu). split; [exact Hu|vm_compute; reflexivity].
Defined.

Lemma trigger_status_tells_what_was_done_witness :
  (triggerClientOperation (fun x => x) ub0 text0 "flow" "sequence=1&cps=2" ready0).2 = Val 400 /\
  idle ready0 (triggerClientOperation (fun x => x) ub0 text0 "flow" "sequence=1&cps=2" ready0).1.
Proof.
  assert ((triggerClientOperation (fun x => x) ub0 text0 "flow" "sequence=1&cps=2" ready0).2 = Val 400) as E by (vm_compute; reflexivity).
  split; [exact E|].
  destruct (trigger_status_tells_what_was_done (fun x => x) ub0 text0 "flow" "sequence=1&cps=2" ready0
    (triggerClientOperation (fun x => x) ub0 text0 "flow" "sequence=1&cps=2" ready0).1 400) as [[E' _]|[[E' _]|(_ & Hi & _)]];
    [by rewrite <- E; destruct (triggerClientOperation _ _ _ _ _ _)|discriminate E'..|exact Hi].
Defined.

(** The first response arrives, and then the second one. *)
Definition flight0 (s : Flow (OS := world)) : InFlight :=
  match fl_sent s with sd :: _ => sd_callback sd | [] => mkInFlight "" (mkClientRequest "" "" "" [] "" 0 0) "" "" 0 0 (O, "") ∅ None end.
Definition ok0 : ClientResponse := mkClientResponse 200 [] "" 5 6.
Definition read0 : Flow := (response_transform ub0 text0 (flight0 sent0) ok0 sent0).1.
Definition stored0 : Flow := (store_event decode0 (flight0 sent0) "second" ok0 (count (inc_provisioned true) read0)).1.
Definition purge0 : option (list (DataKey * Z)) := Some [(if_key (flight0 sent0), 1)].
Definition object0 : ProvisionObject := default (mkObject (Ticker_of blank) "" (O, "")) (fl_heap stored0 !! 1%nat).
Lemma valid_response_continues_the_chain_witness :
  exists sd, fl_sent (on_response decode0 ub0 text0 (flight0 sent0) ok0 sent0).1 = fl_sent sent0 ++ [sd] /\
    if_provision_seq (sd_callback sd) = -3 /\ if_in_state (sd_callback sd) = "second".
Proof.
  assert (flow_inv sent0) as Hi.
  { eapply (rtc_invariant _ flow_inv); [apply flow_start_inv|apply flow_step_inv|apply reaches_sent0]. }
  assert (small sent0) as Hs.
  { apply small0; vm_compute; reflexivity. }
  destruct (valid_response_continues_the_chain decode0 ub0 text0 (flight0 sent0) ok0 sent0 read0 stored0 "second"
    (if_vars (flight0 sent0)) purge0 1%nat object0
    (client_transform ub0 text0 "" (if_vars (flight0 sent0)) (-3) (cp_employ (setSeq (-3) (tk_provision (ob_ticker object0)))) (fl_world stored0)).1
    Hi Hs) as (s' & sd & e & E & Esent & _ & _ & Hst & _ & Hz & _);
    [eexists; vm_compute; reflexivity|done|done|vm_compute; reflexivity|vm_compute; reflexivity|done|done|by right|vm_compute; reflexivity..|].
  exists sd. rewrite E. split_and!; [exact Esent|exact Hz|exact Hst].
Defined.

Definition keyA : DataKey := DataKey3 "peer" "GET" "/a".


(** The whole chain: after its purge no event is left. *)
Example chain_ends_in_a_purge :
  let s1 := (deliver_response decode0 ub0 text0 0 ok0 sent0).1 in
  let s2 := (deliver_response decode0 ub0 text0 0 ok0 s1).1 in
  (length (fl_sent s1), size (map_ (fl_data s1))) = (1%nat, 1%nat) /\
  (length (fl_sent s2), size (map_ (fl_data s2))) = (0%nat, 0%nat) /\ purged_successful (fl_counters s2) = 1.
Proof. vm_compute. done. Qed.

(** Sequences that are not unique: when the endpoint is deleted and registered again its
    sequence restarts.  Two chains of the sequences -3 and 4 then share the key and the send
    sequence of their first events, and the purge of the second one, which ends first,
    removes the event of the first one and leaves its own. *)
Definition deliver0 (i : nat) (rsp : ClientResponse) (s : Flow (OS := world)) : Flow := (deliver_response decode0 ub0 text0 i rsp s).1.
Definition again0 : Flow :=
  (triggerClientOperation (fun x => x) ub0 text0 "flow" "sequence=4"
     (load_endpoints ub0 true 1 all_valid peer0 (clearClientEndpoints (deliver0 0 ok0 sent0)).2).1).1.
Theorem purge_takes_the_event_of_another_chain :
  let before := deliver0 1 ok0 again0 in
  let after := deliver0 1 ok0 before in
  sequence_ <$> events_at (key_ keyA) (fl_data before) = [-3; 4] /\
  (fun sd => if_provision_seq (sd_callback sd)) <$> fl_sent before = [-3; 4] /\
  (fun sd => if_provision_seq (sd_callback sd)) <$> fl_sent after = [-3] /\
  sequence_ <$> events_at (key_ keyA) (fl_data after) = [4].
Proof. vm_compute. done. Qed.

(** A tick with a negative sequence through the pool: the work was posted for [-6] and
    is sent with the sequence the counter has reached. *)
Definition ticking0 : Flow :=
  (triggerClientOperation (fun x => x) ub0 text0 "flow" "sequenceBegin=-5&sequenceEnd=5&cps=10" ready0).1.
Example negative_tick_is_sent_with_the_next_sequence :
  let s1 := (tick ub0 text0 0 false false ticking0).1 in
  wk_seq <$> fl_works s1 = [-6] /\
  (fun sd => if_provision_seq (sd_callback sd)) <$> fl_sent (run_work ub0 text0 s1).1 = [-5].
Proof. vm_compute. done. Qed.

(** A deleted provision keeps ticking. *)
Example deleted_provision_keeps_ticking :
  let s1 := (clearClientProvisions ticking0).2 in
  fl_provisions s1 = ∅ /\ length (fl_sent (run_work ub0 text0 (tick ub0 text0 0 false false s1).1).1) = 1%nat.
Proof. vm_compute. done. Qed.
End FlowExamples.
