(* ===== verification/AdminServer.v ===== *)
(** The administration interface ([src/http2/MyAdminHttp2Server.cpp] and its header):
    the operations of the REST interface over the components of the agent, with
    [src/jsonSchema/JsonSchema.cpp], [src/model/Configuration.cpp] and
    [src/model/AdminData.hpp]. *)
From S2P Require Import Prelude Std Double Functions Query Json JsonModel External JsonConstraint Keys DataPart MockEvents MockData TypeConverter Vault Transformation Reports ClientEndpoint Schema Stages ServerProvision ServerAdmin TrafficServer ClientProvision Ticker ClientFlow.
From stdpp Require Import options.
#[local] Open Scope Z_scope.

(** ** [JsonSchema] *)

Section JsonSchema.
Context `{SchemaLib}.

Record JsonSchema := mkJsonSchema {
  available_ : bool;
  js_json : json;
  js_validator : option validator
}.
Definition JsonSchema_new : JsonSchema := mkJsonSchema false JNull None.

(** [setJson]: a schema the validator refuses leaves it as it was. *)
Definition setJson (j : json) (s : JsonSchema) : bool * JsonSchema :=
  match set_root_schema j with
  | Some v => (true, mkJsonSchema true j (Some v))
  | None => (false, mkJsonSchema false j (js_validator s))
  end.

(** [validate]: a validator without a schema throws. *)
Definition js_validate (s : JsonSchema) (j : json) : bool :=
  match js_validator s with
  | Some v => match schema_error v j with Some _ => false | None => true end
  | None => false
  end.
End JsonSchema.

(** ** [Configuration] *)

Record Configuration := mkConfiguration {
  long_term_files_close_delay_us_ : Z;
  short_term_files_close_delay_us_ : Z;
  lazy_client_connection_ : bool;
  traffic_server_worker_threads_ : Z;
  traffic_server_max_worker_threads_ : Z;
  queue_dispatcher_max_size_ : Z;
  traffic_client_connections_ : Z;
  disable_metrics_ : bool
}.
Definition Configuration_new : Configuration := mkConfiguration 1000000 0 false 1 1 (-1) 1 false.

Definition Configuration_getJson (c : Configuration) : json :=
  let j := json_set "longTermFilesCloseDelayUsecs" (JUint (long_term_files_close_delay_us_ c)) JNull in
  let j := json_set "shortTermFilesCloseDelayUsecs" (JUint (short_term_files_close_delay_us_ c)) j in
  let j := json_set "lazyClientConnection" (JBool (lazy_client_connection_ c)) j in
  let j := json_set "trafficServerWorkerThreads" (JUint (traffic_server_worker_threads_ c)) j in
  let j := json_set "trafficServerMaxWorkerThreads" (JUint (traffic_server_max_worker_threads_ c)) j in
  let j := json_set "queueDispatcherMaxSize" (JInt (queue_dispatcher_max_size_ c)) j in
  let j := json_set "trafficClientConnections" (JUint (traffic_client_connections_ c)) j in
  json_set "disableMetrics" (JBool (disable_metrics_ c)) j.

(** ** Latency of the dispatches *)

Record Latency := mkLatency {
  dispatch_latency_sum_us_ : Z;
  dispatch_latency_count_ : Z;
  dispatch_latency_max_us_ : Z
}.
Definition Latency_new : Latency := mkLatency 0 0 0.

(** [recordDispatchLatency] of a work that waited [us] microseconds. *)
Definition recordDispatchLatency (us : Z) (l : Latency) : Latency :=
  mkLatency (to_u64 (dispatch_latency_sum_us_ l + us)) (to_u64 (dispatch_latency_count_ l + 1))
    (if dispatch_latency_max_us_ l <? to_u64 us then to_u64 us else dispatch_latency_max_us_ l).

Definition dispatchLatencyAsJsonString (l : Latency) (p : Pool) : string :=
  let avg := if 0 <? dispatch_latency_count_ l then d_div (d_of_Z (dispatch_latency_sum_us_ l)) (d_of_Z (dispatch_latency_count_ l)) else d_of_Z 0 in
  "{" +:+ quote "avgUs" +:+ ":" +:+ d_to_string avg +:+ "," +:+ quote "maxUs" +:+ ":" +:+ to_string_u (dispatch_latency_max_us_ l) +:+
  "," +:+ quote "count" +:+ ":" +:+ to_string_u (dispatch_latency_count_ l) +:+
  "," +:+ quote "pending" +:+ ":" +:+ to_string_u (pending_pool_dispatches_ p) +:+
  "," +:+ quote "discarded" +:+ ":" +:+ to_string_u (discarded_dispatches_ p) +:+ "}".

(** ** Requests *)

Definition statusCodeOK (statusCode : Z) : bool := (200 <=? statusCode) && (statusCode <? 300).

Definition admin_methods : list string := ["POST"; "GET"; "DELETE"; "PUT"].
Definition admin_checkMethodIsAllowed (method : string) : bool * list string := (bool_decide (method ∈ admin_methods), admin_methods).
Definition admin_checkMethodIsImplemented (method : string) : bool := bool_decide (method ∈ admin_methods).

Definition header_find (k : string) (h : header_map) : option string := snd <$> find (fun kv => bool_decide (kv.1 = k)) h.
Definition checkHeaders (method : string) (h : header_map) : bool :=
  if bool_decide (method ∈ ["GET"; "DELETE"; "PUT"]) then true
  else match header_find "content-type" h with
       | Some v => bool_decide (v = "application/json")
       | None => match header_find "content-length" h with Some v => negb (bool_decide (v = "0")) | None => false end
       end.

(** [getPathSuffix]: [back()] of an empty string is undefined. *)
Definition getPathSuffix (apiPath uriPath : string) : outcome string :=
  let n := String.length apiPath in
  if (String.length uriPath <=? n)%nat then Val ""
  else
    let! result := substr uriPath (S n) None in
    match last (chars result) with
    | None => Throw undefined
    | Some c => Val (if bool_decide (c = "/"%char) then stake (String.length result - 1) result else result)
    end.

Definition buildJsonResponse (responseResult : bool) (responseBody warning : string) : string :=
  "{ " +:+ quote "result" +:+ ":" +:+ quote (if responseResult then "true" else "false") +:+ ", " +:+ quote "response" +:+ ": " +:+
  quote responseBody +:+ (if sempty warning then "" else ", " +:+ quote "warning" +:+ ": " +:+ quote warning) +:+ " }".

(** The operations with a schema. *)
Inductive Operation := OpServerMatching | OpServerProvision | OpClientEndpoint | OpClientProvision | OpSchema | OpVault.

(** The operations of [GET] in the order they are recognized. *)
Inductive GetOp :=
| GetSchemaOf (o : Operation)
| GetServerSummary | GetServerSequence | GetClientSummary | GetClientSequence
| GetVault | GetVaultWait (key : string)
| GetServerMatching | GetServerProvision (unused : bool) | GetClientEndpoint | GetClientProvision (unused : bool)
| TriggerClientProvision (id : string)
| GetSchemas | GetServerData | GetClientData
| GetConfiguration | GetServerConfiguration | GetServerDataConfiguration | GetClientDataConfiguration
| GetDispatchLatency | GetFilesConfiguration | GetFiles | GetSockets | GetLogging | GetHealth | GetMallocTrim
| GetInvalid.

(** [^vault/([^/]+)/wait$] *)
Definition vault_wait_key (s : string) : option string :=
  if starts_with "vault/" s then
    let r := sdrop 6 s in
    match find_char "/" r with
    | Some i => if (0 <? i)%nat && bool_decide (sdrop i r = "/wait") then Some (stake i r) else None
    | None => None
    end
  else None.

Definition get_route (pathSuffix : string) : GetOp :=
  let sfx t := bool_decide (pathSuffix = t) in
  if sfx "server-matching/schema" then GetSchemaOf OpServerMatching
  else if sfx "server-provision/schema" then GetSchemaOf OpServerProvision
  else if sfx "client-endpoint/schema" then GetSchemaOf OpClientEndpoint
  else if sfx "client-provision/schema" then GetSchemaOf OpClientProvision
  else if sfx "schema/schema" then GetSchemaOf OpSchema
  else if sfx "server-data/summary" then GetServerSummary
  else if sfx "server-data/sequence" then GetServerSequence
  else if sfx "client-data/summary" then GetClientSummary
  else if sfx "client-data/sequence" then GetClientSequence
  else if sfx "vault" then GetVault
  else if sfx "vault/schema" then GetSchemaOf OpVault
  else match vault_wait_key pathSuffix with
  | Some key => GetVaultWait key
  | None =>
  if sfx "server-matching" then GetServerMatching
  else if sfx "server-provision" then GetServerProvision false
  else if sfx "server-provision/unused" then GetServerProvision true
  else if sfx "client-endpoint" then GetClientEndpoint
  else if sfx "client-provision" then GetClientProvision false
  else if sfx "client-provision/unused" then GetClientProvision true
  else match wild_rest "client-provision/" pathSuffix with
  | Some id => TriggerClientProvision id
  | None =>
  if sfx "schema" then GetSchemas
  else if sfx "server-data" then GetServerData
  else if sfx "client-data" then GetClientData
  else if sfx "configuration" then GetConfiguration
  else if sfx "server/configuration" then GetServerConfiguration
  else if sfx "server-data/configuration" then GetServerDataConfiguration
  else if sfx "client-data/configuration" then GetClientDataConfiguration
  else if sfx "client/dispatch-latency" then GetDispatchLatency
  else if sfx "files/configuration" then GetFilesConfiguration
  else if sfx "files" then GetFiles
  else if sfx "udp-sockets" then GetSockets
  else if sfx "logging" then GetLogging
  else if sfx "health" then GetHealth
  else if sfx "malloc-trim" then GetMallocTrim
  else GetInvalid
  end end.

(** ** The agent *)

(** The search of an expression ([std::regex_search]). *)
Class RegexSearch `{RegexLib} := regex_search : string -> regex -> bool.

(** What the administration reads of the outside: the documents of the file and socket
    managers, the read cache, and the memory given back to the system. *)
Class AdminOutside (OS : Type) := {
  files_configuration : OS -> outcome string;
  files_json : OS -> outcome string;
  sockets_json : OS -> outcome string;
  enable_read_cache : bool -> OS -> OS;
  malloc_trim : OS -> bool * OS
}.

Section Admin.
Context `{JsonEq} `{JsonText} `{JsonPointer} `{RegexLib} `{!RegexSearch} `{SchemaLib} `{Calculus} {OS : Type} `{Outside OS} `{AdminOutside OS} `{StdSort}.
(** The schemas of the operations, the state of a connection, and the levels the logger
    knows. *)
Context (decode_url : string -> string) (ub : double -> Z) (report_text : fail_report -> outcome string)
  (schema_text : Operation -> json) (client_status : Client -> string) (level_known : string -> bool).

(** The agent: the world its components share, the traffic server (absent or not; the
    matching and the provisions are there anyway), the client side, the waits, the
    configuration, the latency and the level of the logger. The worlds of the parts are
    views of the shared one. *)
Record Agent := mkAgent {
  ag_world : World OS;
  ag_traffic : bool;
  ag_server : Server OS;
  ag_flow : Flow (OS := OS);
  ag_waits : option WaitManager;
  ag_configuration : Configuration;
  ag_latency : Latency;
  ag_level : string
}.

Definition on_aworld (f : World OS -> World OS) (a : Agent) : Agent :=
  mkAgent (f (ag_world a)) (ag_traffic a) (ag_server a) (ag_flow a) (ag_waits a) (ag_configuration a) (ag_latency a) (ag_level a).
Definition with_waits (w : option WaitManager) (a : Agent) : Agent :=
  mkAgent (ag_world a) (ag_traffic a) (ag_server a) (ag_flow a) w (ag_configuration a) (ag_latency a) (ag_level a).
Definition with_level (l : string) (a : Agent) : Agent :=
  mkAgent (ag_world a) (ag_traffic a) (ag_server a) (ag_flow a) (ag_waits a) (ag_configuration a) (ag_latency a) l.

(** The server and the client side see the shared world. *)
Definition server_view (a : Agent) : Server OS := with_sworld (ag_world a) (ag_server a).
Definition flow_view (a : Agent) : Flow (OS := OS) := with_fworld (ag_world a) (ag_flow a).
Definition put_server (s : Server OS) (a : Agent) : Agent :=
  mkAgent (s_world s) (ag_traffic a) s (ag_flow a) (ag_waits a) (ag_configuration a) (ag_latency a) (ag_level a).
Definition put_flow (s : Flow (OS := OS)) (a : Agent) : Agent :=
  mkAgent (fl_world s) (ag_traffic a) (ag_server a) s (ag_waits a) (ag_configuration a) (ag_latency a) (ag_level a).
Definition on_server {A} (m : M (Server OS) A) : M Agent A := fun a =>
  let '(s, r) := m (server_view a) in (put_server s a, r).
Definition on_flow {A} (m : M (Flow (OS := OS)) A) : M Agent A := fun a =>
  let '(s, r) := m (flow_view a) in (put_flow s a, r).

Definition on_provisions {A} (m : M ProvisionData A) : M (Server OS) A := fun s =>
  let '(d, r) := m (s_provisions s) in (TrafficServer.with_provisions d s, r).
Definition on_matching {A} (m : M Config A) : M (Server OS) A := fun s =>
  let '(c, r) := m (s_matching s) in
  (mkServer c (s_provisions s) (s_world s) (server_data_ s) (server_data_key_history_ s) (purge_execution_ s)
     (receive_request_body_ s) (pre_reserve_request_body_ s) (metrics_ s) (max_busy_threads_ s) (pending_events_ s)
     (client_provision_trigger_ s), r).
Definition on_avault {A} (m : M Vault A) : M Agent A := fun a =>
  let '(v, r) := m (w_vault (ag_world a)) in
  (on_aworld (fun w => mkWorld v (w_server w) (w_client w) (w_schemas w) (w_long_term_us w) (w_short_term_us w) (w_out w)) a, r).
Definition on_schemas {A} (m : M (gmap string AdminSchema) A) : M Agent A := fun a =>
  let '(d, r) := m (w_schemas (ag_world a)) in
  (on_aworld (fun w => mkWorld (w_vault w) (w_server w) (w_client w) d (w_long_term_us w) (w_short_term_us w) (w_out w)) a, r).

Definition op_schema (o : Operation) : JsonSchema := (setJson (schema_text o) JsonSchema_new).2.
Definition op_valid (o : Operation) : json -> bool := js_validate (op_schema o).

(** ** [POST] *)

(** The text of a load: valid or not, for one document or several. *)
Definition load_log (isArray : bool) (result : LoadResult) (one many bad : string) : string :=
  match result with
  | Success => if isArray then many else one
  | BadSchema => if isArray then "detected one invalid schema" else "invalid schema"
  | BadContent => (if isArray then "detected one invalid " else "invalid ") +:+ bad +:+ " data received"
  end.
Definition created (result : LoadResult) : Z := match result with Success => 201 | _ => 400 end.
Definition is_success (result : LoadResult) : bool := match result with Success => true | _ => false end.
Definition storage_warning : string := "provision references serverEvent/clientEvent but storeEvents is disabled".

Definition serverMatching (j : json) : M Agent (Z * string * string) :=
  do result <- on_server (on_matching (matching_load (op_valid OpServerMatching) j)) ;;
  ret (created result, "server-matching operation; " +:+
       match result with
       | Success => "valid schema and matching data received"
       | BadSchema => "invalid schema"
       | BadContent => "invalid matching data received"
       end, "").

Definition serverProvision (j : json) : M Agent (Z * string * string) :=
  do a <- get ;;
  do result <- on_server (on_provisions (pd_load decode_url ub (op_valid OpServerProvision)
                 (bool_decide (algorithm (s_matching (ag_server a)) = RegexMatching)) j)) ;;
  do a <- get ;;
  let warning := if is_success result && pd_needsStorage (s_provisions (ag_server a)) && ag_traffic a && negb (server_data_ (ag_server a))
                 then storage_warning else "" in
  ret (created result, "server-provision operation; " +:+ load_log (is_array j) result "valid schema and server provision data received"
         "valid schemas and server provisions data received" "server provision", warning).

Definition clientEndpoint (j : json) : M Agent (Z * string * string) :=
  do a <- get ;;
  do result <- on_flow (load_endpoints ub (lazy_client_connection_ (ag_configuration a)) (traffic_client_connections_ (ag_configuration a))
                 (op_valid OpClientEndpoint) j) ;;
  let '(code, as_load) := match result with
                          | EpSuccess => (201, Success) | EpAccepted => (202, Success)
                          | EpBadSchema => (400, BadSchema) | EpBadContent => (400, BadContent) end in
  ret (code, "client-endpoint operation; " +:+ load_log (is_array j) as_load "valid schema and client endpoint data received"
         "valid schemas and client endpoints data received" "client endpoint", "").

Definition clientProvision (j : json) : M Agent (Z * string * string) :=
  do result <- on_flow (cpd_load decode_url ub (op_valid OpClientProvision) j) ;;
  do a <- get ;;
  let warning := if is_success result && client_data_needsStorage (ag_flow a) && negb (fl_client_data (ag_flow a)) then storage_warning else "" in
  ret (created result, "client-provision operation; " +:+ load_log (is_array j) result "valid schema and client provision data received"
         "valid schemas and client provisions data received" "client provision", warning).

Definition vault (j : json) : M Agent (Z * string * string) :=
  do ok <- on_avault (loadJson (op_valid OpVault) j) ;;
  ret (if ok : bool then (201, "vault operation; valid schema and vault data received", "")
       else (400, "vault operation; invalid schema", "")).

Definition schema (j : json) : M Agent (Z * string * string) :=
  do result <- on_schemas (schema_load (op_valid OpSchema) j) ;;
  ret (created result, "schema operation; " +:+ load_log (is_array j) result "valid schema and schema data received"
         "valid schemas and schemas data received" "schema", "").

Definition content_json (h : header_map) : header_map := headers_emplace "content-type" "application/json" h.

Definition post_operation (pathSuffix : string) (j : json) : M Agent (Z * string * string) :=
  let sfx t := bool_decide (pathSuffix = t) in
  if sfx "server-matching" then serverMatching j
  else if sfx "server-provision" then serverProvision j
  else if sfx "client-endpoint" then clientEndpoint j
  else if sfx "client-provision" then clientProvision j
  else if sfx "schema" then schema j
  else if sfx "vault" then vault j
  else ret (501, "unsupported operation", "").

Definition receivePOST (pathSuffix requestBody : string) (rp : Reply) : M Agent Reply :=
  do '(code, response, warning) <-
    match json_parse requestBody with
    | Some j => post_operation pathSuffix j
    | None => ret (400, "failed to parse json from body request", "")
    end ;;
  ret (mkReply code (content_json (rp_headers rp)) (buildJsonResponse (statusCodeOK code) response warning) (rp_delayMs rp)).

Definition receiveNOOP (rp : Reply) : Reply :=
  mkReply 400 (content_json (rp_headers rp)) (buildJsonResponse false "no operation provided" "") (rp_delayMs rp).

(** ** [GET] *)

(** The parameters of a query, and one of them. *)
Definition params (q : string) : M Agent (gmap string string) := query_map decode_url q.
Definition param (k : string) (m : gmap string string) : string := default "" (m !! k).

Definition reply_with (code : Z) (body : string) (rp : Reply) : Reply := mkReply code (rp_headers rp) body (rp_delayMs rp).
Definition reply_json (code : Z) (body : string) (rp : Reply) : Reply :=
  mkReply code (content_json (rp_headers rp)) body (rp_delayMs rp).
(** 204 when the list is empty. *)
Definition reply_list (body : string) (rp : Reply) : Reply :=
  reply_json (if bool_decide (body = "[]") then 204 else 200) body rp.

(** A time of the query: not a number is an exception. *)
Definition time_param (k : string) (m : gmap string string) : outcome Z :=
  match m !! k with Some t => stoull t | None => Val 0 end.

(** [server-data/sequence] and [client-data/sequence] over the report of the data. *)
Definition get_sequence (report : Z -> Z -> string -> option (string -> bool) -> outcome string) (q : string) (rp : Reply)
    : M Agent Reply :=
  do m <- params q ;;
  do from <- lift (time_param "fromTimestampUs" m) ;;
  do to <- lift (time_param "toTimestampUs" m) ;;
  let uriRegex := param "uriRegex" m in
  match (if sempty uriRegex then Val None
         else match regex_assign uriRegex with Val r => Val (Some (fun uri => regex_search uri r)) | Throw e => Throw e end) with
  | Throw regex_error => ret (reply_json 400 (rp_body rp) rp)
  | Throw e => throw e
  | Val expression =>
      do body <- lift (report from to (param "requestMethod" m) expression) ;;
      ret (reply_list body rp)
  end.

(** [vault]: the whole of it or an entry; a status of 400 when the request arrives
    skips the operation. *)
Definition get_vault (q : string) (rp : Reply) : M Agent Reply :=
  do m <- params q ;;
  do a <- get ;;
  let name := param "name" m in
  if negb (sempty q) && sempty name then ret (reply_json 400 "" rp)
  else if rp_status rp =? 400 then ret (reply_json 400 (rp_body rp) rp)
  else
    let entries := v_map (w_vault (ag_world a)) in
    if sempty name then
      do body <- lift (if bool_decide (entries = ∅) then Val "{}" else json_dump (foldr (fun kv j => json_set kv.1 kv.2 j) JNull (map_to_list entries))) ;;
      ret (reply_json (if bool_decide (body = "{}") then 204 else 200) body rp)
    else match entries !! name with
         | Some v => do body <- lift (json_dump v) ;; ret (reply_json 200 body rp)
         | None => ret (reply_json 204 (rp_body rp) rp)
         end.

(** The answer of a wait. *)
Definition wait_reply (key : string) (r : wait_result) (rp : Reply) : M Agent Reply :=
  let j := json_set "result" (JBool (wr_result r)) JNull in
  let j := json_set "key" (JString key) j in
  let j := json_set "value" (wr_value r) j in
  let j := json_set "previousValue" (wr_previous r) j in
  do body <- lift (json_dump j) ;;
  do a <- get ;;
  let full := match ag_waits a with Some w => isFull w | None => false end in
  ret (reply_json (if negb (wr_result r) && full then 429 else if wr_result r then 200 else 408) body rp).

(** An answer, or a request that waits for the vault. *)
Inductive Answer :=
| Replied (rp : Reply)
| Waiting (t : waiter) (rp : Reply).

Definition wait_timeout (text : string) : Z :=
  if sempty text then 30000
  else let '(ok, t, negative) := string2uint64andSign text 0 false in if ok && negb negative then to_u32 t else 30000.
Definition wait_target (text : string) : json :=
  if sempty text then JNull else match json_parse text with Some j => j | None => JString text end.

Definition get_wait (key q : string) (rp : Reply) : M Agent Answer :=
  do a <- get ;;
  match ag_waits a with
  | None => ret (Replied (reply_with 404 (rp_body rp) rp))
  | Some w =>
      do m <- params q ;;
      let '(r, w) := wait_enter key (wait_target (param "value" m)) (wait_timeout (param "timeoutMs" m))
                       (v_map (w_vault (ag_world a))) JNull w in
      modify (with_waits (Some w)) ;;;
      match r with
      | inl result => do rp <- wait_reply key result rp ;; ret (Replied rp)
      | inr t => ret (Waiting t rp)
      end
  end.

(** The wait is over: [seen] is what the thread saw of the vault. *)
Definition finish_wait (t : waiter) (seen : list (bool * gmap string json)) (rp : Reply) : M Agent Reply :=
  do a <- get ;;
  match ag_waits a with
  | None => throw undefined
  | Some w =>
      let '(r, w) := wait_leave t seen (v_map (w_vault (ag_world a))) JNull w in
      modify (with_waits (Some w)) ;;;
      wait_reply (wt_key t) r rp
  end.

(** [server-data] and [client-data]: an exception of the report is caught, and the body
    stays as it was. *)
Definition get_data (report : outcome string * bool) (rp : Reply) : M Agent Reply :=
  let '(o, validQuery) := report in
  match o with
  | Throw undefined => throw undefined
  | _ => let body := match o with Val body => body | Throw _ => rp_body rp end in
         ret (if validQuery : bool then reply_list body rp else reply_json 400 body rp)
  end.

Definition clientDataConfigurationAsJsonString (s : Flow (OS := OS)) : outcome string :=
  let j := json_set "storeEvents" (JBool (fl_client_data s)) JNull in
  let j := json_set "storeEventsKeyHistory" (JBool (fl_key_history s)) j in
  let j := json_set "purgeExecution" (JBool (fl_purge s)) j in
  json_dump (json_set "needsStorage" (JBool (client_data_needsStorage s)) j).

(** Operations that only read. *)
Definition text_reply (o : Agent -> outcome string) (rp : Reply) : M Agent Answer :=
  do a <- get ;; do body <- lift (o a) ;; ret (Replied (reply_json 200 body rp)).
Definition list_reply (o : Agent -> outcome string) (rp : Reply) : M Agent Answer :=
  do a <- get ;; do body <- lift (o a) ;; ret (Replied (reply_list body rp)).
(** Operations of the traffic server, when there is one. *)
Definition traffic_reply (o : Server OS -> outcome string) (rp : Reply) : M Agent Answer :=
  do a <- get ;; if ag_traffic a then text_reply (fun a => o (server_view a)) rp else ret (Replied (reply_with 404 (rp_body rp) rp)).
Definition replied (m : M Agent Reply) : M Agent Answer := do rp <- m ;; ret (Replied rp).
Definition health : string := "{" +:+ quote "status" +:+ ":" +:+ quote "healthy" +:+ "}".

Definition server_data (a : Agent) : MockData MockServerEvent := w_server (ag_world a).
Definition client_data (a : Agent) : MockData MockClientEvent := w_client (ag_world a).

Definition receiveGET (uri pathSuffix q : string) (rp : Reply) : M Agent Answer :=
  match get_route pathSuffix with
  | GetSchemaOf o => text_reply (fun _ => json_dump (json_set "$id" (JString uri) (js_json (op_schema o)))) rp
  | GetServerSummary => do m <- params q ;; text_reply (fun a => summary (param "maxKeys" m) (server_data a)) rp
  | GetClientSummary => do m <- params q ;; text_reply (fun a => summary (param "maxKeys" m) (client_data a)) rp
  | GetServerSequence =>
      do a <- get ;; replied (get_sequence (fun from to method re => getSequence (server_event_entries ub) from to method re (server_data a)) q rp)
  | GetClientSequence =>
      do a <- get ;; replied (get_sequence (fun from to method re => getSequence (client_event_entries ub) from to method re (client_data a)) q rp)
  | GetVault => replied (get_vault q rp)
  | GetVaultWait key => get_wait key q rp
  | GetServerMatching => text_reply (fun a => json_dump (cfg_json (s_matching (ag_server a)))) rp
  | GetServerProvision unused =>
      list_reply (fun a => pd_asJsonString (bool_decide (algorithm (s_matching (ag_server a)) = RegexMatching)) unused (s_provisions (ag_server a))) rp
  | GetClientEndpoint => list_reply (fun a => ep_asJsonString client_status (fl_endpoints (ag_flow a))) rp
  | GetClientProvision unused => do body <- on_flow (client_asJsonString unused) ;; ret (Replied (reply_list body rp))
  | TriggerClientProvision id =>
      do code <- on_flow (triggerClientOperation decode_url ub report_text id q) ;;
      ret (Replied (reply_json code (buildJsonResponse (statusCodeOK code)
                      (if statusCodeOK code then "operation processed" else "operation failed") "") rp))
  | GetSchemas => list_reply (fun a => json_dump (JArray (as_json <$> (map_to_list (w_schemas (ag_world a))).*2))) rp
  | GetServerData =>
      do m <- params q ;; do a <- get ;;
      replied (get_data (asJsonString (EventLocationKey2 (param "requestMethod" m) (param "requestUri" m) (param "eventNumber" m)
                                (param "eventPath" m)) (server_data a)) rp)
  | GetClientData =>
      do m <- params q ;; do a <- get ;;
      replied (get_data (asJsonString (EventLocationKey3 (param "clientEndpointId" m) (param "requestMethod" m) (param "requestUri" m)
                                (param "eventNumber" m) (param "eventPath" m)) (client_data a)) rp)
  | GetConfiguration => text_reply (fun a => json_dump (Configuration_getJson (ag_configuration a))) rp
  | GetServerConfiguration => traffic_reply configurationAsJsonString rp
  | GetServerDataConfiguration => traffic_reply dataConfigurationAsJsonString rp
  | GetClientDataConfiguration => text_reply (fun a => clientDataConfigurationAsJsonString (ag_flow a)) rp
  | GetDispatchLatency =>
      text_reply (fun a => Val (dispatchLatencyAsJsonString (ag_latency a) (default (mkPool 0 0 0) (fl_pool (ag_flow a))))) rp
  | GetFilesConfiguration => text_reply (fun a => files_configuration (w_out (ag_world a))) rp
  | GetFiles => list_reply (fun a => files_json (w_out (ag_world a))) rp
  | GetSockets => list_reply (fun a => sockets_json (w_out (ag_world a))) rp
  | GetLogging =>
      do a <- get ;;
      ret (Replied (mkReply 200 (headers_emplace "content-type" "text/html" (rp_headers rp)) (ag_level a) (rp_delayMs rp)))
  | GetHealth => text_reply (fun _ => Val health) rp
  | GetMallocTrim =>
      do a <- get ;;
      let '(released, o) := malloc_trim (w_out (ag_world a)) in
      modify (on_aworld (with_out o)) ;;;
      text_reply (fun _ => Val ("{" +:+ quote "result" +:+ ":" +:+ quote (if released : bool then "memory released" else "nothing to release") +:+ "}")) rp
  | GetInvalid => ret (Replied (reply_json 400 (buildJsonResponse false ("invalid operation '" +:+ pathSuffix +:+ "'") "") rp))
  end.

(** ** [DELETE] *)

Definition cleared (b : bool) : Z := if b then 200 else 204.
(** The status of a removal of events: refused, done or nothing to do. *)
Definition removed (success deleted : bool) : Z := if success then cleared deleted else 400.

Definition delete_vault (q : string) (status : Z) : M Agent Z :=
  do m <- params q ;;
  let name := param "name" m in
  if negb (sempty q) && sempty name then ret 400
  else if status =? 400 then ret 400
  else if sempty name
       then do a <- get ;;
            modify (on_aworld (fun w => mkWorld (mkVault ∅ (v_wakeups (w_vault w)) (v_sse (w_vault w))) (w_server w) (w_client w) (w_schemas w)
                                          (w_long_term_us w) (w_short_term_us w) (w_out w))) ;;;
            ret (cleared (negb (bool_decide (v_map (w_vault (ag_world a)) = ∅))))
       else do exists_ <- on_avault (fun v => let '(b, v) := v_remove name v in (v, Val b)) ;; ret (cleared exists_).

Definition delete_server_data (q : string) : M Agent Z :=
  do m <- params q ;; do a <- get ;;
  let '(success, deleted, d) := clear (EventKey2 (param "requestMethod" m) (param "requestUri" m) (param "eventNumber" m)) (server_data a) in
  modify (on_aworld (with_server d)) ;;; ret (removed success deleted).
Definition delete_client_data (q : string) : M Agent Z :=
  do m <- params q ;; do a <- get ;;
  let '(success, deleted, d) := clear (EventKey3 (param "clientEndpointId" m) (param "requestMethod" m) (param "requestUri" m) (param "eventNumber" m))
                                  (client_data a) in
  modify (on_aworld (with_client d)) ;;; ret (removed success deleted).

Definition receiveDELETE (pathSuffix q : string) (status : Z) : M Agent Z :=
  let sfx t := bool_decide (pathSuffix = t) in
  if sfx "server-provision" then do b <- on_server (on_provisions (fun d => let '(b, d) := pd_clear d in (d, Val b))) ;; ret (cleared b)
  else if sfx "client-endpoint" then do b <- on_flow (fun s => let '(b, s) := clearClientEndpoints s in (s, Val b)) ;; ret (cleared b)
  else if sfx "client-provision" then do b <- on_flow (fun s => let '(b, s) := clearClientProvisions s in (s, Val b)) ;; ret (cleared b)
  else if sfx "schema" then do b <- on_schemas (fun d => (∅, Val (negb (bool_decide (d = ∅))))) ;; ret (cleared b)
  else if sfx "server-data" then delete_server_data q
  else if sfx "client-data" then delete_client_data q
  else if sfx "vault" then delete_vault q status
  else ret 400.

(** ** [PUT] *)

Definition is_bool_text (t : string) : bool := bool_decide (t = "true") || bool_decide (t = "false").
Definition is_true_text (t : string) : bool := bool_decide (t = "true").

(** [logging] *)
Definition put_logging (q : string) : M Agent bool :=
  do m <- params q ;;
  let level := default "?" (m !! "level") in
  if bool_decide (level = "?") || negb (level_known level) then ret false
  else modify (with_level level) ;;; ret true.

(** [server/configuration]: the second switch only when the first one is right. *)
Definition put_server_configuration (q : string) : M Agent bool :=
  do m <- params q ;;
  let '(receiveBody, preReserve) := (param "receiveRequestBody" m, param "preReserveRequestBody" m) in
  let success := negb (sempty receiveBody) || negb (sempty preReserve) in
  let success := if sempty receiveBody then success else is_bool_text receiveBody in
  (if negb (sempty receiveBody) && success
   then on_server (modify (setReceiveRequestBody (is_true_text receiveBody))) else ret tt) ;;;
  if success && negb (sempty preReserve) then
    (if is_bool_text preReserve then on_server (modify (setPreReserveRequestBody (is_true_text preReserve))) else ret tt) ;;;
    ret (is_bool_text preReserve)
  else ret success.

(** The switches of the storage: any text but [true] is false, and one that is not
    given stays. *)
Definition data_switches (m : gmap string string) : option (option bool * option bool * option bool) :=
  let switch t := if sempty t then None else Some (is_true_text t) in
  let '(discard, discardKeyHistory, disablePurge) := (param "discard" m, param "discardKeyHistory" m, param "disablePurge" m) in
  if sempty discard && sempty discardKeyHistory && sempty disablePurge then None
  else if negb (sempty discard) && negb (sempty discardKeyHistory) && is_true_text discard && negb (is_true_text discardKeyHistory) then None
  else Some (switch discard, switch discardKeyHistory, switch disablePurge).

Definition when {A B} (o : option B) (f : B -> A -> A) (a : A) : A := match o with Some b => f b a | None => a end.
Definition set_server_switches (d h p : option bool) (s : Server OS) : Server OS :=
  when p disablePurge (when h discardDataKeyHistory (when d discardData s)).
Definition set_client_switches (d h p : option bool) (s : Flow (OS := OS)) : Flow (OS := OS) :=
  with_settings (match d with Some b => negb b | None => fl_client_data s end) (match h with Some b => negb b | None => fl_key_history s end)
    (match p with Some b => negb b | None => fl_purge s end) s.

(** [server-data/configuration] and [client-data/configuration]: the success, and the
    warning when the provisions need the events that are discarded. *)
Definition put_data_configuration (serverMode : bool) (q : string) (rp : Reply) : M Agent (bool * Reply) :=
  do m <- params q ;;
  match data_switches m with
  | None => ret (false, rp)
  | Some (d, h, p) =>
      (if serverMode then on_server (modify (set_server_switches d h p)) else on_flow (modify (set_client_switches d h p))) ;;;
      do a <- get ;;
      let needs := if serverMode then pd_needsStorage (s_provisions (ag_server a)) else client_data_needsStorage (ag_flow a) in
      ret (true, if default false d && needs
                 then reply_json (rp_status rp) (buildJsonResponse true ((if serverMode then "server" else "client") +:+ "-data configuration updated")
                        "active provisions require storeEvents (serverEvent/clientEvent references found)") rp
                 else rp)
  end.

Definition put_files_configuration (q : string) : M Agent bool :=
  do m <- params q ;;
  let readCache := param "readCache" m in
  if negb (sempty q) && is_bool_text readCache
  then modify (on_aworld (fun w => with_out (enable_read_cache (is_true_text readCache) (w_out w)) w)) ;;; ret true
  else ret false.

Definition with_status (code : Z) (rp : Reply) : Reply := mkReply code (rp_headers rp) (rp_body rp) (rp_delayMs rp).

Definition receivePUT (pathSuffix q : string) (rp : Reply) : M Agent Reply :=
  let sfx t := bool_decide (pathSuffix = t) in
  let ends (m : M Agent (bool * Reply)) := do '(success, rp) <- m ;; ret (with_status (if success : bool then 200 else 400) rp) in
  let plain (m : M Agent bool) := ends (do b <- m ;; ret (b, rp)) in
  do a <- get ;;
  if sfx "logging" then plain (put_logging q)
  else if sfx "server/configuration" then
    if ag_traffic a then plain (put_server_configuration q) else ret (with_status 404 rp)
  else if sfx "server-data/configuration" then
    do _ <- params q ;; if ag_traffic a then ends (put_data_configuration true q rp) else ret (with_status 404 rp)
  else if sfx "client-data/configuration" then ends (put_data_configuration false q rp)
  else if sfx "files/configuration" then plain (put_files_configuration q)
  else ret (with_status 400 rp).

(** ** [receive] *)

Record AdminRequest := mkAdminRequest {
  ar_method : string;
  ar_scheme : string;
  ar_host : string;
  ar_path : string;
  ar_query : string;
  ar_body : string
}.

Definition admin_receive (apiPath : string) (r : AdminRequest) (rp : Reply) : M Agent Answer :=
  do pathSuffix <- lift (getPathSuffix apiPath (ar_path r)) ;;
  let rp := mkReply (rp_status rp) (rp_headers rp) "" (rp_delayMs rp) in
  let method t := bool_decide (ar_method r = t) in
  if sempty pathSuffix then ret (Replied (receiveNOOP rp))
  else if method "DELETE" then
    do code <- receiveDELETE pathSuffix (ar_query r) (rp_status rp) ;; ret (Replied (mkReply code [] (rp_body rp) (rp_delayMs rp)))
  else if method "GET" then receiveGET (ar_scheme r +:+ "://" +:+ ar_host r +:+ ar_path r) pathSuffix (ar_query r) rp
  else if method "POST" then replied (receivePOST pathSuffix (ar_body r) rp)
  else if method "PUT" then
    replied (do rp <- receivePUT pathSuffix (ar_query r) rp ;;
             ret (if sempty (rp_body rp) then mkReply (rp_status rp) [] "" (rp_delayMs rp) else rp))
  else ret (Replied rp).

(** ** [registerHandlers] *)

(** The keys a stream watches: the texts after [key=] in the query, as they are. *)
Fixpoint key_params (l : list string) : gset string :=
  match l with
  | [] => ∅
  | t :: l' => (if starts_with "key=" t then {[ sdrop 4 t ]} else ∅) ∪ key_params l'
  end.
Definition sse_keys (query : string) : gset string := if sempty query then ∅ else key_params (pieces "&" query).

Definition open_stream (query : string) : M Agent Z :=
  on_avault (fun v => let '(id, m) := addConnection (sse_keys query) (v_sse v) in (mkVault (v_map v) (v_wakeups v) m, Val id)).
Definition close_stream (id : Z) : M Agent unit :=
  on_avault (fun v => (mkVault (v_map v) (v_wakeups v) (removeConnection id (v_sse v)), Val tt)).
End Admin.
