(* ===== verification/AdminProperties.v ===== *)
(** What the administration interface promises ([AdminServer.v]): the whole agent stays
    whole under administration, traffic and client flows, the operations that read
    change nothing, and the operations that write change what they name. *)
From S2P Require Import Prelude Std Double Functions Query Json JsonModel External JsonConstraint Keys DataPart MockEvents MockData TypeConverter Vault Transformation Reports ClientEndpoint Schema Stages StageFrames ServerProvision ServerTransform ServerAdmin TrafficServer ClientProvision ClientTransform Ticker ClientFlow FlowInvariant FlowProperties AdminServer.
From stdpp Require Import options.
#[local] Open Scope Z_scope.

(** ** What the client side leaves to the server side *)

Section Serves.
Context `{JsonEq} `{JsonText} `{JsonPointer} `{RegexLib} `{SchemaLib} `{Calculus} {OS : Type} `{Outside OS}.
Context (decode_url : string -> string) (multipart_decode : string -> string -> list mp_event)
  (ub : double -> Z) (report_text : fail_report -> outcome string).

(** The events of the server and the schemas. *)
Definition same_served (w w' : World OS) : Prop := w_server w' = w_server w /\ w_schemas w' = w_schemas w.
Definition serves (s s' : Flow (OS := OS)) : Prop := same_served (fl_world s) (fl_world s').
#[local] Instance serves_preorder : PreOrder serves.
Proof. split; [done|]. intros s1 s2 s3 [] []. split; congruence. Qed.

Lemma client_transform_serves body0 vars seq p (w : World OS) :
  same_served w (ct_world (client_transform ub report_text body0 vars seq p w).1).
Proof.
  unfold client_transform. set (r0 := mkRun _ _ _ _ _ _). set (items := client_item _ _ _ _ _).
  assert (keeps client_safe (items_run items (cp_transformations p))) as Hk.
  { apply items_run_keeps; [apply client_safe_preorder|]. intros x _. apply client_item_safe. }
  destruct (Hk r0) as (? & ? & _). destruct (items_run items _ r0) as [r [[]|]]; [|done].
  unfold client_transform_end. cbn zeta. destruct (client_getRequestSchema _ _) as [sch p']. repeat case_match; by split.
Qed.

Lemma transformResponse_serves uri headers rsp sendSeq outState vars seq p (w : World OS) :
  same_served w (rt_world (transformResponse ub report_text uri headers rsp sendSeq outState vars seq p w).1).
Proof.
  unfold transformResponse. set (run := match cp_on_response p with [] => _ | _ => _ end).
  assert (same_served w (rt_world run.1)) as Hr.
  { subst run. destruct (cp_on_response p) as [|t l]; [done|].
    set (r0 := mkRun _ _ _ _ _ _). set (items := response_item _ _ _ _ _).
    assert (keeps client_safe (items_run items (t :: l))) as Hk.
    { apply items_run_keeps; [apply client_safe_preorder|]. intros x _. apply response_item_safe. }
    destruct (Hk r0) as (? & ? & _). by destruct (items_run items (t :: l) r0). }
  destruct run as [rt [[]|]]; [|done]. destruct (client_getResponseSchema _ _) as [sch p']. by repeat case_match.
Qed.

(** Updates that leave the world alone. *)
Lemma serves_modify f : (forall s, fl_world (f s) = fl_world s) -> keeps serves (modify (S := Flow (OS := OS)) f).
Proof. intros Hf s. unfold serves, same_served. cbn. by rewrite Hf. Qed.
Lemma serves_object l : keeps serves (object_at (OS := OS) l).
Proof. intros s. unfold object_at. by destruct (fl_heap s !! l). Qed.
Lemma serves_count g s : fl_world (ClientFlow.count (OS := OS) g s) = fl_world s.
Proof. unfold ClientFlow.count. by destruct (fl_metrics s). Qed.
Lemma serves_put_endpoint r e s : fl_world (put_endpoint (OS := OS) r e s) = fl_world s.
Proof. unfold put_endpoint. by case_decide. Qed.
#[local] Hint Resolve serves_modify serves_object serves_count serves_put_endpoint : frame.

Lemma serves_run_transform l vars seq : keeps serves (run_client_transform (OS := OS) ub report_text l vars seq).
Proof.
  intros s. unfold run_client_transform, object_at. destruct (fl_heap s !! l) as [o|]; [|done].
  pose proof (client_transform_serves "" vars seq (cp_employ (tk_provision (ob_ticker o))) (fl_world s)) as Hw.
  by destruct (client_transform _ _ _ _ _ _ _) as [ct []].
Qed.
Lemma serves_hand_over p inState ep seq purge ct : keeps serves (hand_over (OS := OS) p inState ep seq purge ct).
Proof. unfold hand_over. frame. Qed.
#[local] Hint Resolve serves_run_transform serves_hand_over : frame.
Lemma serves_send l inState ep seq vars purge : keeps serves (sendClientRequest (OS := OS) ub report_text l inState ep seq vars purge).
Proof. unfold sendClientRequest. frame. Qed.
#[local] Hint Resolve serves_send : frame.

Lemma serves_response f rsp : keeps serves (response_transform (OS := OS) ub report_text f rsp).
Proof.
  intros s. unfold response_transform. destruct (client_find _ _ s) as [l|]; [|done]. unfold object_at.
  destruct (fl_heap s !! l) as [o|]; [|done].
  match goal with |- context [transformResponse ?a ?b ?c ?d ?e ?f ?g ?h ?i ?j ?k] =>
    pose proof (transformResponse_serves c d e f g h i j k) as Hw; destruct (transformResponse a b c d e f g h i j k) as [rt []] end; exact Hw.
Qed.
Lemma serves_client_data g s : serves s (on_client_data (OS := OS) g s).
Proof. by split. Qed.
Lemma serves_loadEvent f st rsp : keeps serves (client_loadEvent (OS := OS) multipart_decode f st rsp).
Proof. intros s. unfold client_loadEvent. by destruct (MockClientEvent_load _ _ _ _ _ _ _ _ _ _ _ _ _ _ _) as [[]|]. Qed.
Lemma serves_purge f purge : keeps serves (modify (purge_chain (OS := OS) f purge)).
Proof.
  intros s. cbn. unfold purge_chain, serves. destruct (purge_events _ _ _). rewrite serves_count. apply serves_client_data.
Qed.
#[local] Hint Resolve serves_response serves_loadEvent serves_purge : frame.

Lemma serves_deliver i rsp : keeps serves (deliver_response (OS := OS) multipart_decode ub report_text i rsp).
Proof. unfold deliver_response, on_response, progress. frame. Qed.
Lemma serves_trigger id inState : keeps serves (triggerClientProvision (OS := OS) ub report_text id inState).
Proof. unfold triggerClientProvision. frame. Qed.
Lemma serves_start l inState ep : keeps serves (start_ticking (OS := OS) l inState ep).
Proof. unfold start_ticking. frame. Qed.
#[local] Hint Resolve serves_start : frame.
Lemma serves_operation id q : keeps serves (triggerClientOperation (OS := OS) decode_url ub report_text id q).
Proof. unfold triggerClientOperation, query_map, apply_sequence. frame. Qed.
Lemma serves_tick l stopped late : keeps serves (tick (OS := OS) ub report_text l stopped late).
Proof. unfold tick, tick_callback. frame. Qed.
Lemma serves_work : keeps serves (run_work (OS := OS) ub report_text).
Proof. unfold run_work. frame. Qed.
Lemma serves_endpoints lazy n valid j : keeps serves (load_endpoints (OS := OS) ub lazy n valid j).
Proof. intros s. unfold load_endpoints. by destruct (ep_load _ _ _ _ _ _). Qed.
Lemma serves_load valid j : keeps serves (cpd_load (OS := OS) decode_url ub valid j).
Proof.
  assert (forall j, keeps serves (cpd_loadSingle (OS := OS) decode_url ub valid j)) as Hj.
  { intros j'. unfold cpd_loadSingle. frame. }
  unfold cpd_load, load_document. destruct j as [| | | | | |l|]; try apply Hj. induction l as [|j l IH]; cbn [load_items]; [done|].
  refine (keeps_bind _ _ _ (Hj j) _). intros []; [exact IH|by intros s..].
Qed.
Lemma serves_documents unused ls : keeps serves (documents (OS := OS) unused ls).
Proof. induction ls as [|l ls IH]; cbn [documents]; frame. Qed.
#[local] Hint Resolve serves_documents : frame.
Lemma serves_report unused : keeps serves (client_asJsonString (OS := OS) unused).
Proof. unfold client_asJsonString. frame. Qed.
End Serves.

(** ** Documents that are refreshed *)

Section Refreshed.
Context `{JsonEq} `{JsonText} `{JsonPointer} `{RegexLib} `{SchemaLib} `{Calculus} {OS : Type} `{Outside OS}.
Implicit Types (s : Flow (OS := OS)).

(** A provision as it was, or with its counters in its document. *)
Definition refreshed (p p' : AdminClientProvision) : Prop := p' = p \/ cp_saveDynamics p = Val p'.
Definition object_refreshed (o o' : ProvisionObject) : Prop :=
  exists p, refreshed (tk_provision (ob_ticker o)) p /\ o' = mkObject (with_provision p (ob_ticker o)) (ob_in_state o) (ob_endpoint o).
Definition heap_refreshed (h h' : gmap nat ProvisionObject) : Prop := forall l, option_Forall2 object_refreshed (h !! l) (h' !! l).

Lemma save_again p p' : cp_saveDynamics p = Val p' -> cp_saveDynamics p' = Val p'.
Proof using Type.
  unfold cp_saveDynamics. destruct (saveDynamics (cp_dyn p) (cp_json p)) as [j|] eqn:E; [|done]. intros [= <-].
  cbn [cp_dyn cp_json cp_with_json cp_update]. rewrite (saveDynamics_again _ _ _ E). done.
Qed.
Lemma getJson_refreshed p : refreshed p (cp_getJson p).1.
Proof using Type. unfold cp_getJson, refreshed. destruct (cp_saveDynamics p); auto. Qed.
Lemma getJson_again p p' : refreshed p p' -> (cp_getJson p').2 = (cp_getJson p).2 /\ cp_employed p' = cp_employed p /\
  (refreshed p (cp_getJson p').1 /\ ((cp_getJson p').1 = (cp_getJson p).1)).
Proof using Type.
  intros [->|E]; [split_and!; [done..|apply getJson_refreshed|done]|]. unfold cp_getJson. rewrite E, (save_again _ _ E).
  split_and!; [done| |by right|done]. unfold cp_saveDynamics in E. destruct (saveDynamics _ _); [|done]. by injection E as <-.
Qed.
#[global] Instance object_refreshed_refl : Reflexive object_refreshed.
Proof using Type. intros [[] ? ?]. eexists. split; [by left|done]. Qed.
#[global] Instance object_refreshed_trans : Transitive object_refreshed.
Proof using Type.
  intros o1 o2 o3 (p2 & Hp2 & ->) (p3 & Hp3 & ->). exists p3. split; [|done]. cbn in Hp3. destruct Hp3 as [->|Hp3]; [done|].
  destruct Hp2 as [->|Hp2]; [by right|]. rewrite (save_again _ _ Hp2) in Hp3. injection Hp3 as <-. by right.
Qed.
#[global] Instance heap_refreshed_preorder : PreOrder heap_refreshed.
Proof using Type.
  split.
  - intros h l. by destruct (h !! l); constructor.
  - intros h1 h2 h3 H12 H23 l. specialize (H12 l). specialize (H23 l). destruct H12 as [o1 o2 H12|].
    + inversion H23; subst. constructor. by etrans.
    + inversion H23; subst. constructor.
Qed.

(** A turn of the report. *)
Lemma documents_cons unused l ls s : documents unused (l :: ls) s =
  match fl_heap s !! l with
  | None => (s, Throw undefined)
  | Some o =>
      let p := tk_provision (ob_ticker o) in
      if unused && cp_employed p then documents unused ls s
      else
        let s1 := put_provision l (cp_getJson p).1 s in
        match (cp_getJson p).2 with
        | Throw e => (s1, Throw e)
        | Val j => let r := documents unused ls s1 in (r.1, let! js := r.2 in Val (j :: js))
        end
  end.
Proof using Type.
  cbn [documents]. unfold bind at 1, object_at. destruct (fl_heap s !! l) as [o|]; [|done]. cbn zeta. destruct (unused && _); [done|].
  destruct (cp_getJson _) as [p [j|e]]; [|done]. unfold bind, modify, lift, ret. cbn. by destruct (documents unused ls _) as [? []].
Qed.

(** A report of the provisions writes their documents and nothing else. *)
Lemma documents_refresh unused ls : forall s, exists h, (documents unused ls s).1 = with_heap h s /\ heap_refreshed (fl_heap s) h.
Proof using Type.
  induction ls as [|l ls IH]; intros s; [exists (fl_heap s); split; [by destruct s|done]|].
  rewrite documents_cons. destruct (fl_heap s !! l) as [o|] eqn:Ho; [|exists (fl_heap s); split; [by destruct s|done]].
  cbn zeta. destruct (unused && _); [apply IH|].
  pose proof (getJson_refreshed (tk_provision (ob_ticker o))) as Hr. destruct (cp_getJson _) as [p j]. cbn [fst snd] in *.
  set (s1 := put_provision l p s).
  assert (heap_refreshed (fl_heap s) (fl_heap s1)) as Hs1.
  { intros l'. subst s1. cbn. destruct (decide (l = l')) as [<-|Hne].
    - rewrite lookup_alter_eq, Ho. constructor. by exists p.
    - rewrite lookup_alter_ne by done. destruct (fl_heap s !! l'); by constructor. }
  destruct j as [j|]; [|by exists (fl_heap s1)]. destruct (IH s1) as (h & Eh & Hh). exists h. cbn [fst]. rewrite Eh. split; [done|by etrans].
Qed.

(** A report gives the same before and after. *)
Lemma documents_again unused ls : forall s s', heap_refreshed (fl_heap s) (fl_heap s') -> (documents unused ls s').2 = (documents unused ls s).2.
Proof using Type.
  induction ls as [|l ls IH]; intros s s' Hh; [done|]. rewrite !documents_cons. pose proof (Hh l) as Hl.
  destruct (fl_heap s !! l) as [o|] eqn:Ho, (fl_heap s' !! l) as [o'|] eqn:Ho'; inversion Hl as [? ? (p' & Hp & ->)|]; subst; [|done].
  cbn [ob_ticker tk_provision with_provision]. cbn zeta. destruct (getJson_again _ _ Hp) as (Ej & -> & _ & Eg).
  destruct (unused && _); [by apply IH|]. rewrite Ej, Eg. destruct (cp_getJson (tk_provision (ob_ticker o))) as [q [j|]]; [|done]. cbn [fst snd].
  rewrite (IH (put_provision l q s)); [done|]. intros l'. cbn. destruct (decide (l = l')) as [<-|Hne].
  - rewrite !lookup_alter_eq, Ho, Ho'. by constructor.
  - rewrite !lookup_alter_ne by done. apply Hh.
Qed.

Lemma report_refreshes unused s : exists h, (client_asJsonString unused s).1 = with_heap h s /\ heap_refreshed (fl_heap s) h.
Proof using Type.
  unfold client_asJsonString, bind, get, lift. destruct (documents_refresh unused (map_to_list (fl_provisions s)).*2 s) as (h & E & Hh).
  destruct (documents _ _ s) as [s' r]. exists h. by destruct r.
Qed.
Lemma report_again unused s h : heap_refreshed (fl_heap s) h -> (client_asJsonString unused (with_heap h s)).2 = (client_asJsonString unused s).2.
Proof using Type.
  intros Hh. unfold client_asJsonString, bind, get, lift. cbn [fl_provisions with_heap].
  pose proof (documents_again unused (map_to_list (fl_provisions s)).*2 s (with_heap h s) Hh) as E.
  destruct (documents _ _ s) as [? r], (documents _ _ (with_heap h s)) as [? r']. cbn in E. subst r'. by destruct r.
Qed.
Lemma needsStorage_refreshed s s' : fl_provisions s' = fl_provisions s -> heap_refreshed (fl_heap s) (fl_heap s') ->
  client_data_needsStorage s' = client_data_needsStorage s.
Proof using Type.
  intros Ep Hh. unfold client_data_needsStorage, registered_provisions. rewrite Ep. generalize (map_to_list (fl_provisions s)).*2. intros ls.
  induction ls as [|l ls IH]; [done|]. cbn. pose proof (Hh l) as Hl. destruct Hl as [o o' (p & Hp & ->)|]; [|exact IH]. cbn. rewrite IH. f_equal.
  destruct Hp as [->|Hp]; [done|]. unfold cp_saveDynamics in Hp. destruct (saveDynamics _ _); [|done]. by injection Hp as <-.
Qed.
End Refreshed.

(** ** The agent stays whole *)

Section Whole.
Context `{JsonEq} `{JsonText} `{JsonPointer} `{RegexLib} `{!RegexSearch} `{SchemaLib} `{Calculus} {OS : Type} `{Outside OS} `{AdminOutside OS} `{StdSort}.
Context (decode_url : string -> string) (multipart_decode : string -> string -> list mp_event) (ub : double -> Z)
  (report_text : fail_report -> outcome string) (schema_text : Operation -> json) (client_status : Client -> string) (level_known : string -> bool).
Implicit Types (a : Agent (OS := OS)).

(** The server side and the client side are whole in the world they share. *)
Definition agent_whole a : Prop := traffic_inv (server_view a) /\ flow_inv (flow_view a).

(** The invariant of the server side reads the events of the server only. *)
Lemma traffic_inv_world (s : Server OS) w w' : w_server w' = w_server w -> traffic_inv (with_sworld w s) -> traffic_inv (with_sworld w' s).
Proof. intros E. unfold traffic_inv, s_data. cbn. by rewrite E. Qed.
Lemma server_view_put (s : Server OS) a : server_view (put_server s a) = s.
Proof. by destruct s. Qed.
Lemma flow_view_put (s : Flow (OS := OS)) a : flow_view (put_flow s a) = s.
Proof. by destruct s. Qed.

Lemma whole_server {A} (m : M (Server OS) A) : leads traffic_inv traffic_inv m -> leads agent_whole agent_whole (on_server m).
Proof.
  intros Hm a [Hs Hf]. unfold on_server. specialize (Hm _ Hs). destruct (m (server_view a)) as [s r]. cbn in *. split.
  - by rewrite server_view_put.
  - by apply (inv_world (s_world s)) in Hf.
Qed.
Lemma whole_flow {A} (m : M (Flow (OS := OS)) A) a : keeps serves m -> agent_whole a -> flow_inv (m (flow_view a)).1 ->
  agent_whole (on_flow m a).1.
Proof.
  intros Hk [Hs Hf] Hm. unfold on_flow. specialize (Hk (flow_view a)). destruct (m (flow_view a)) as [s r]. cbn in *. split.
  - destruct Hk as [E _]. by eapply traffic_inv_world; [exact E|].
  - by rewrite flow_view_put.
Qed.
Lemma whole_world f : (forall w, w_server (f w) = w_server w) -> forall a, agent_whole a -> agent_whole (on_aworld f a).
Proof.
  intros Hf a [Hs Hfl]. split.
  - eapply traffic_inv_world; [|exact Hs]. apply Hf.
  - by apply (inv_world (f (ag_world a))) in Hfl.
Qed.

Lemma whole_vault {A} (m : M Vault A) : leads agent_whole agent_whole (on_avault m).
Proof. intros a Ha. unfold on_avault. destruct (m _) as [v r]. cbn. by apply whole_world. Qed.
Lemma whole_schemas {A} (m : M (gmap string AdminSchema) A) : leads agent_whole agent_whole (on_schemas m).
Proof. intros a Ha. unfold on_schemas. destruct (m _) as [v r]. cbn. by apply whole_world. Qed.

Lemma provisions_kept {A} (m : M ProvisionData A) : (forall d, pd_inv d -> pd_inv (m d).1) ->
  leads (traffic_inv (OS := OS)) traffic_inv (on_provisions m).
Proof.
  intros Hm s (Hd & Hp & Hl & Hpend). unfold on_provisions. specialize (Hm _ Hp). destruct (m (s_provisions s)) as [d r]. by split_and!.
Qed.
Lemma matching_kept {A} (m : M Config A) : leads (traffic_inv (OS := OS)) traffic_inv (on_matching m).
Proof. intros s Hs. unfold on_matching. by destruct (m (s_matching s)). Qed.

(** Computations that keep the agent whole. *)
Definition whole_kept a a' : Prop := agent_whole a -> agent_whole a'.
#[local] Instance whole_kept_preorder : PreOrder whole_kept.
Proof. split; [by intros a Ha|]. intros a1 a2 a3 H12 H23. unfold whole_kept in *. auto. Qed.

Lemma kept_server {A} (m : M (Server OS) A) : leads traffic_inv traffic_inv m -> keeps whole_kept (on_server m).
Proof. intros Hm a Ha. by apply whole_server. Qed.
Lemma kept_flow {A} (m : M (Flow (OS := OS)) A) : keeps serves m -> leads flow_inv flow_inv m -> keeps whole_kept (on_flow m).
Proof. intros Hk Hm a Ha. apply whole_flow; [done..|]. apply Hm, Ha. Qed.
Lemma kept_vault {A} (m : M Vault A) : keeps whole_kept (on_avault m).
Proof. intros a Ha. by apply whole_vault. Qed.
Lemma kept_schemas {A} (m : M (gmap string AdminSchema) A) : keeps whole_kept (on_schemas m).
Proof. intros a Ha. by apply whole_schemas. Qed.
Lemma kept_world f : (forall w, w_server (f w) = w_server w) -> keeps whole_kept (modify (on_aworld (OS := OS) f)).
Proof. intros Hf a Ha. by apply whole_world. Qed.
Lemma kept_waits w : keeps whole_kept (modify (with_waits (OS := OS) w)).
Proof. intros a Ha. exact Ha. Qed.
Lemma kept_level l : keeps whole_kept (modify (with_level (OS := OS) l)).
Proof. intros a Ha. exact Ha. Qed.
Lemma kept_params q : keeps whole_kept (params (OS := OS) decode_url q).
Proof. unfold params, query_map. frame. Qed.
Lemma whole_clear_server ek a : agent_whole a -> agent_whole (on_aworld (with_server (clear ek (server_data a)).2) a).
Proof.
  intros [Hs Hf]. split; [|by apply (inv_world (with_server (clear ek (server_data a)).2 (ag_world a))) in Hf].
  change (server_view (on_aworld (with_server (clear ek (server_data a)).2) a)) with
    (on_data (fun d => (clear ek d).2) (server_view a)). by apply on_safe_inv; [apply clear_safe|].
Qed.
#[local] Hint Resolve kept_vault kept_schemas kept_world kept_waits kept_level kept_params : frame.

(** The loads of the components. *)
Lemma kept_matching_load (m : M Config LoadResult) : keeps whole_kept (on_server (OS := OS) (on_matching m)).
Proof. apply kept_server, matching_kept. Qed.
Lemma kept_provision_load valid rm j : keeps whole_kept (on_server (OS := OS) (on_provisions (pd_load decode_url ub valid rm j))).
Proof. apply kept_server, provisions_kept. intros d Hd. by eapply pd_step_inv; [apply pd_step_load|]. Qed.
Lemma kept_endpoint_load lazy n valid j : keeps whole_kept (on_flow (OS := OS) (load_endpoints ub lazy n valid j)).
Proof. apply kept_flow; [apply serves_endpoints|apply load_endpoints_inv]. Qed.
Lemma kept_client_load valid j : keeps whole_kept (on_flow (OS := OS) (cpd_load decode_url ub valid j)).
Proof. apply kept_flow; [apply serves_load|apply cpd_load_inv]. Qed.
#[local] Hint Resolve kept_matching_load kept_provision_load kept_endpoint_load kept_client_load : frame.

Lemma kept_post sfx body rp : keeps whole_kept (receivePOST decode_url ub schema_text sfx body rp).
Proof. unfold receivePOST, post_operation, serverMatching, serverProvision, clientEndpoint, clientProvision, schema, vault. frame. Qed.

Lemma kept_server_modify f : (forall s, traffic_inv s -> traffic_inv (f s)) -> keeps whole_kept (on_server (modify f)).
Proof. intros Hf. apply kept_server. intros s. apply Hf. Qed.
Lemma kept_flow_modify f : (forall s, fl_world (f s) = fl_world s) -> (forall s, flow_inv s -> flow_inv (f s)) -> keeps whole_kept (on_flow (modify f)).
Proof. intros Hw Hf. apply kept_flow; [by apply serves_modify|]. intros s. apply Hf. Qed.

Lemma kept_put sfx q rp : keeps whole_kept (receivePUT decode_url level_known sfx q rp).
Proof.
  unfold receivePUT, put_logging, put_server_configuration, put_data_configuration, put_files_configuration. frame.
  - by apply kept_server_modify.
  - by apply kept_server_modify.
  - apply kept_server_modify. intros s Hs. unfold set_server_switches, when. by repeat case_match.
  - apply kept_flow_modify; [done|]. intros s. apply inv_settings.
Qed.

Lemma kept_delete_server q : keeps whole_kept (delete_server_data decode_url q).
Proof.
  unfold delete_server_data. refine (keeps_bind _ _ _ (kept_params q) _). intros m a Ha. unfold bind, get. cbn beta iota.
  match goal with |- context [clear ?ek ?d] => pose proof (whole_clear_server ek a Ha) as Hc; change (server_data a) with d in Hc;
    destruct (clear ek d) as [[success deleted] d'] end. exact Hc.
Qed.
Lemma kept_delete_client q : keeps whole_kept (delete_client_data decode_url q).
Proof. unfold delete_client_data. frame. Qed.
#[local] Hint Resolve kept_delete_server kept_delete_client : frame.

Lemma kept_delete sfx q status : keeps whole_kept (receiveDELETE decode_url sfx q status).
Proof.
  unfold receiveDELETE, delete_vault. frame.
  - apply kept_server, provisions_kept. intros d _. apply pd_inv_new.
  - apply kept_flow; [by intros s|intros s; apply clearClientEndpoints_inv].
  - apply kept_flow; [by intros s|intros s; apply clearClientProvisions_inv].
Qed.

(** ** Operations that read *)

Definition reads_only (g : GetOp) : bool :=
  match g with GetVaultWait _ | TriggerClientProvision _ | GetMallocTrim => false | _ => true end.

Lemma eq_params q : keeps eq (params (OS := OS) decode_url q).
Proof. unfold params, query_map. frame. Qed.
#[local] Hint Resolve eq_params : frame.

(** The report of the client provisions is the only one of them that writes. *)
Definition refreshes (g : GetOp) : bool := match g with GetClientProvision _ => true | _ => false end.
(** The agent as it was, but for the documents of its client provisions. *)
Record agent_refreshed a a' : Prop := {
  ar_world : ag_world a' = ag_world a;
  ar_traffic : ag_traffic a' = ag_traffic a;
  ar_server : ag_server a' = ag_server a;
  ar_waits : ag_waits a' = ag_waits a;
  ar_configuration : ag_configuration a' = ag_configuration a;
  ar_latency : ag_latency a' = ag_latency a;
  ar_level : ag_level a' = ag_level a;
  ar_flow : exists h, flow_view a' = with_heap h (flow_view a) /\ heap_refreshed (fl_heap (ag_flow a)) h
}.

Lemma get_reads uri sfx q rp : reads_only (get_route sfx) = true -> refreshes (get_route sfx) = false ->
  keeps eq (receiveGET decode_url ub report_text schema_text client_status uri sfx q rp).
Proof.
  intros Hr Hf. unfold receiveGET. destruct (get_route sfx); try discriminate Hr; try discriminate Hf.
  all: unfold text_reply, list_reply, traffic_reply, replied, get_sequence, get_vault, get_data, text_reply; frame.
Qed.

Lemma get_refreshes uri sfx q rp a : reads_only (get_route sfx) = true ->
  agent_refreshed a (receiveGET decode_url ub report_text schema_text client_status uri sfx q rp a).1.
Proof.
  intros Hr. destruct (refreshes (get_route sfx)) eqn:Hf.
  - unfold receiveGET. destruct (get_route sfx); try discriminate Hf. unfold bind at 1, on_flow.
    destruct (report_refreshes unused (flow_view a)) as (h & E & Hh). destruct (client_asJsonString _ _) as [s r]. cbn in E. subst s.
    assert (agent_refreshed a (put_flow (with_heap h (flow_view a)) a)) as Ha by (split; [done..|by exists h]). by destruct r.
  - rewrite <- (get_reads uri sfx q rp Hr Hf a). split; [done..|]. exists (fl_heap (ag_flow a)). split; [by destruct a as [? ? ? [] ? ? ? ?]|done].
Qed.

(** Computations that give the same before and after. *)
Definition steady {A} (m : M (Agent (OS := OS)) A) : Prop :=
  forall a a', agent_refreshed a a' -> (m a').2 = (m a).2 /\ agent_refreshed (m a).1 (m a').1.
Lemma steady_ret {A} (x : A) : steady (ret x).
Proof using Type. by intros a a' Ha. Qed.
Lemma steady_throw {A} e : steady (throw (A := A) e).
Proof using Type. by intros a a' Ha. Qed.
Lemma steady_lift {A} (o : outcome A) : steady (lift o).
Proof using Type. by intros a a' Ha. Qed.
Lemma steady_bind {A B} (m : M Agent A) (f : A -> M Agent B) : steady m -> (forall x, steady (f x)) -> steady (bind m f).
Proof using Type.
  intros Hm Hf a a' Ha. destruct (Hm a a' Ha) as [E Hr]. unfold bind. destruct (m a) as [a1 r], (m a') as [a1' r'].
  cbn in E, Hr. subst r'. destruct r as [x|]; [by apply Hf|done].
Qed.
Lemma steady_read {B} (f : Agent -> M Agent B) : (forall a a', agent_refreshed a a' -> f a' = f a) -> (forall a, steady (f a)) -> steady (bind get f).
Proof using Type. intros He Hf a a' Ha. unfold bind, get. rewrite (He a a' Ha). by apply Hf. Qed.
Lemma steady_params q : steady (params decode_url q).
Proof using Type. unfold params, query_map. repeat case_match; first [apply steady_ret|apply steady_throw]. Qed.

(** What is read of the agent is not in the documents. *)
Lemma refreshed_needsStorage a a' : agent_refreshed a a' -> client_data_needsStorage (ag_flow a') = client_data_needsStorage (ag_flow a).
Proof using Type.
  intros [_ _ _ _ _ _ _ (h & Eh & Hh)]. apply needsStorage_refreshed.
  - change (fl_provisions (flow_view a') = fl_provisions (flow_view a)). by rewrite Eh.
  - change (fl_heap (ag_flow a')) with (fl_heap (flow_view a')). by rewrite Eh.
Qed.
Lemma refreshed_flow a a' : agent_refreshed a a' ->
  fl_endpoints (ag_flow a') = fl_endpoints (ag_flow a) /\ fl_pool (ag_flow a') = fl_pool (ag_flow a) /\
  fl_client_data (ag_flow a') = fl_client_data (ag_flow a) /\ fl_key_history (ag_flow a') = fl_key_history (ag_flow a) /\
  fl_purge (ag_flow a') = fl_purge (ag_flow a).
Proof using Type.
  intros [_ _ _ _ _ _ _ (h & Eh & _)].
  assert (forall X (f : Flow (OS := OS) -> X), f (flow_view a') = f (with_heap h (flow_view a))) as Ef by (intros; by rewrite Eh).
  split_and!; [apply (Ef _ fl_endpoints)|apply (Ef _ fl_pool)|apply (Ef _ fl_client_data)|apply (Ef _ fl_key_history)|apply (Ef _ fl_purge)].
Qed.
Ltac same_reads :=
  let Ha := fresh "Ha" in
  intros ? ? Ha; rewrite ?(refreshed_needsStorage _ _ Ha); unfold clientDataConfigurationAsJsonString, server_view, server_data, client_data;
  rewrite ?(refreshed_needsStorage _ _ Ha); destruct (refreshed_flow _ _ Ha) as (?Ef & ?Ef & ?Ef & ?Ef & ?Ef);
  destruct Ha as [?Ef ?Ef ?Ef ?Ef ?Ef ?Ef ?Ef _];
  repeat match goal with E : _ = _ |- _ => rewrite E; clear E end; reflexivity.
Ltac steady :=
  repeat match goal with
         | |- steady (ret _) => apply steady_ret
         | |- steady (throw _) => apply steady_throw
         | |- steady (lift _) => apply steady_lift
         | |- steady (params _ _) => apply steady_params
         | |- steady (bind get _) => apply steady_read; [same_reads|intros]
         | |- steady (bind _ _) => apply steady_bind; [|intros]
         | |- steady (match _ with _ => _ end) => case_match
         end.

(** Asked before or after, an operation that reads gives the same answer. *)
Lemma get_again uri sfx q rp : reads_only (get_route sfx) = true -> refreshes (get_route sfx) = false ->
  steady (receiveGET decode_url ub report_text schema_text client_status uri sfx q rp).
Proof.
  intros Hr Hf. unfold receiveGET. destruct (get_route sfx); try discriminate Hr; try discriminate Hf.
  all: unfold list_reply, traffic_reply, text_reply, replied, get_sequence, get_vault, get_data; steady.
Qed.
Lemma list_again unused rp a a' : agent_refreshed a a' ->
  ((do body <- on_flow (client_asJsonString unused) ;; ret (Replied (reply_list body rp))) a').2 =
  ((do body <- on_flow (client_asJsonString unused) ;; ret (Replied (reply_list body rp))) a).2.
Proof.
  intros [_ _ _ _ _ _ _ (h & Eh & Hh)]. unfold bind, on_flow. rewrite Eh. pose proof (report_again unused (flow_view a) h Hh) as E.
  destruct (client_asJsonString unused (flow_view a)) as [? r], (client_asJsonString unused (with_heap _ _)) as [? r']. cbn in E. subst r'. by destruct r.
Qed.

Lemma kept_wait_reply key r rp : keeps whole_kept (wait_reply (OS := OS) key r rp).
Proof. unfold wait_reply. frame. Qed.
#[local] Hint Resolve kept_wait_reply : frame.
Lemma kept_wait key q rp : keeps whole_kept (get_wait (OS := OS) decode_url key q rp).
Proof. unfold get_wait. frame. Qed.
Lemma kept_finish_wait t seen rp : keeps whole_kept (finish_wait (OS := OS) t seen rp).
Proof. unfold finish_wait. frame. Qed.

(** A request that is sent needs a sequence that does not wrap around. *)
Lemma whole_sending {A} (m : M (Flow (OS := OS)) A) a : keeps serves m -> leads ready flow_inv m -> agent_whole a -> small (flow_view a) ->
  agent_whole (on_flow m a).1.
Proof. intros Hk Hm Ha Hs. apply whole_flow; [done..|]. apply Hm. split; [apply Ha|done]. Qed.

Lemma get_whole uri sfx q rp a : agent_whole a -> small (flow_view a) ->
  agent_whole (receiveGET decode_url ub report_text schema_text client_status uri sfx q rp a).1.
Proof.
  intros Ha Hs. destruct (reads_only (get_route sfx)) eqn:Hr.
  { destruct (refreshes (get_route sfx)) eqn:Hf; [|by rewrite <- (get_reads uri sfx q rp Hr Hf a)].
    unfold receiveGET. destruct (get_route sfx); try discriminate Hf.
    pose proof (kept_flow _ (serves_report unused) (client_asJsonString_inv unused) a Ha) as Hw.
    unfold bind. by destruct (on_flow _ a) as [a' []]. }
  unfold receiveGET. destruct (get_route sfx) eqn:Eg; try discriminate Hr; clear Hr.
  - by apply kept_wait.
  - pose proof (whole_sending (triggerClientOperation decode_url ub report_text id q) a (serves_operation _ _ _ _ _)
      (triggerClientOperation_inv _ _ _ _ _) Ha Hs) as Hw.
    unfold bind. by destruct (on_flow _ a) as [a' []].
  - unfold bind at 1, get. destruct (malloc_trim _) as [b o].
    assert (keeps whole_kept (modify (on_aworld (with_out o)) ;;;
      text_reply (OS := OS) (fun _ => Val ("{" +:+ quote "result" +:+ ":" +:+ quote (if b then "memory released" else "nothing to release") +:+ "}")) rp)) as Hk
      by (unfold text_reply; frame).
    by apply Hk.
Qed.

Lemma admin_whole apiPath r rp a : agent_whole a -> small (flow_view a) ->
  agent_whole (admin_receive decode_url ub report_text schema_text client_status level_known apiPath r rp a).1.
Proof.
  intros Ha Hs. unfold admin_receive. unfold bind at 1, lift. destruct (getPathSuffix _ _) as [sfx|]; [|done]. cbn zeta.
  destruct (sempty sfx); [done|]. repeat case_match.
  - assert (forall m (f : Z -> M Agent (Answer)), keeps whole_kept m -> (forall c, keeps whole_kept (f c)) -> agent_whole (bind m f a).1) as Hb.
    { intros m f Hm Hf. by apply (keeps_bind whole_kept m f Hm Hf). }
    apply Hb; [apply kept_delete|]. intros c. frame.
  - by apply get_whole.
  - assert (keeps whole_kept (replied (receivePOST decode_url ub schema_text sfx (ar_body r)
      (mkReply (rp_status rp) (rp_headers rp) "" (rp_delayMs rp))))) as Hk.
    { unfold replied. refine (keeps_bind _ _ _ (kept_post _ _ _) _). intros x. frame. }
    by apply Hk.
  - match goal with |- agent_whole (replied ?m a).1 => assert (keeps whole_kept (replied m)) as Hk end; [|by apply Hk].
    unfold replied. refine (keeps_bind _ _ _ _ _); [|intros x; frame].
    refine (keeps_bind _ _ _ (kept_put _ _ _) _). intros x. frame.
  - done.
Qed.

(** ** Executions of the agent *)

(** Administration, waits, streams, traffic, and the events of the client side. *)
Inductive agent_step : Agent (OS := OS) -> Agent (OS := OS) -> Prop :=
| as_admin apiPath r rp a : small (flow_view a) ->
    agent_step a (admin_receive decode_url ub report_text schema_text client_status level_known apiPath r rp a).1
| as_wait_over t seen rp a : agent_step a (finish_wait t seen rp a).1
| as_stream query a : agent_step a (open_stream query a).1
| as_stream_closed id a : agent_step a (close_stream id a).1
| as_traffic q rp a : agent_step a (on_server (receive decode_url multipart_decode ub report_text q rp) a).1
| as_closed id now a : agent_step a (on_server (modify (streamClose id now)) a).1
| as_error code id m path a : agent_step a (on_server (streamError code id m path) a).1
| as_trigger id inState a : small (flow_view a) -> agent_step a (on_flow (triggerClientProvision ub report_text id inState) a).1
| as_tick l stopped late a : small (flow_view a) -> agent_step a (on_flow (tick ub report_text l stopped late) a).1
| as_work a : small (flow_view a) -> agent_step a (on_flow (run_work ub report_text) a).1
| as_response i rsp a : small (flow_view a) -> agent_step a (on_flow (deliver_response multipart_decode ub report_text i rsp) a).1.

Lemma agent_step_whole a a' : agent_whole a -> agent_step a a' -> agent_whole a'.
Proof.
  intros Ha Hstep. destruct Hstep.
  - by apply admin_whole.
  - by apply kept_finish_wait.
  - by apply kept_vault.
  - by apply kept_vault.
  - apply whole_server; [|done]. intros s Hs. by apply receive_inv.
  - apply whole_server; [|done]. intros s Hs. by apply streamClose_inv.
  - apply whole_server; [|done]. intros s Hs. by apply (traffic_step_inv decode_url multipart_decode ub report_text (fun _ => true) s);
      [apply ts_error|].
  - by apply whole_sending; [apply serves_trigger|apply triggerClientProvision_inv| |].
  - by apply whole_sending; [apply serves_tick|apply tick_inv| |].
  - by apply whole_sending; [apply serves_work|apply run_work_inv| |].
  - by apply whole_sending; [apply serves_deliver|apply deliver_response_inv| |].
Qed.

(** The agent at its start. *)
Definition agent_start (out : OS) (c : Configuration) (traffic : bool) (waits : option WaitManager) (pool : option Pool) (level : string) : Agent :=
  let w := mkWorld Vault_new MockData_empty MockData_empty ∅ (long_term_files_close_delay_us_ c) (short_term_files_close_delay_us_ c) out in
  mkAgent w traffic (Server_new Config_new ProvisionData_new w)
    (mkFlow ∅ ∅ ∅ O ∅ w true true true (negb (disable_metrics_ c)) (mkClientCounters 0 0 0 0 0) pool [] []) waits c Latency_new level.

Lemma agent_start_whole out c traffic waits pool level : agent_whole (agent_start out c traffic waits pool level).
Proof. split; [by apply fresh_inv|]. exact (flow_start_inv _ true true true (negb (disable_metrics_ c)) pool). Qed.
End Whole.

(** ** Configuration keeps the traffic *)

Section Traffic.
Context `{JsonEq} `{JsonText} `{JsonPointer} `{RegexLib} `{!RegexSearch} `{SchemaLib} `{Calculus} {OS : Type} `{Outside OS} `{AdminOutside OS} `{StdSort}.
Context (decode_url : string -> string) (ub : double -> Z) (schema_text : Operation -> json) (level_known : string -> bool).
Implicit Types (a : Agent (OS := OS)).

(** The events, the requests and works of the client side, and the open streams. *)
Definition same_traffic a a' : Prop :=
  server_data a' = server_data a /\ client_data a' = client_data a /\ fl_sent (ag_flow a') = fl_sent (ag_flow a) /\
  fl_works (ag_flow a') = fl_works (ag_flow a) /\ pending_events_ (ag_server a') = pending_events_ (ag_server a).
#[local] Instance same_traffic_preorder : PreOrder same_traffic.
Proof. split; [by intros a|]. intros a1 a2 a3 (?&?&?&?&?) (?&?&?&?&?). unfold same_traffic. split_and!; congruence. Qed.

Definition server_quiet (s s' : Server OS) : Prop := s_world s' = s_world s /\ pending_events_ s' = pending_events_ s.
Definition flow_quiet (s s' : Flow (OS := OS)) : Prop := fl_world s' = fl_world s /\ fl_sent s' = fl_sent s /\ fl_works s' = fl_works s.
#[local] Instance flow_quiet_preorder : PreOrder flow_quiet.
Proof. split; [done|]. intros s1 s2 s3 (?&?&?) (?&?&?). unfold flow_quiet. split_and!; congruence. Qed.

Lemma traffic_server {A} (m : M (Server OS) A) : keeps server_quiet m -> keeps same_traffic (on_server m).
Proof.
  intros Hm a. unfold on_server. destruct (Hm (server_view a)) as [Hw Hp]. destruct (m (server_view a)) as [s r]. cbn in *.
  unfold same_traffic, server_data, client_data. cbn. by rewrite Hw.
Qed.
Lemma traffic_flow {A} (m : M (Flow (OS := OS)) A) : keeps flow_quiet m -> keeps same_traffic (on_flow m).
Proof.
  intros Hm a. unfold on_flow. destruct (Hm (flow_view a)) as (Hw & Hs & Hk). destruct (m (flow_view a)) as [s r]. cbn in *.
  unfold same_traffic, server_data, client_data. cbn. by rewrite Hw, Hs, Hk.
Qed.
Lemma traffic_vault {A} (m : M Vault A) : keeps same_traffic (on_avault m).
Proof. intros a. unfold on_avault. by destruct (m _). Qed.
Lemma traffic_schemas {A} (m : M (gmap string AdminSchema) A) : keeps same_traffic (on_schemas m).
Proof. intros a. unfold on_schemas. by destruct (m _). Qed.
Lemma traffic_params q : keeps same_traffic (params (OS := OS) decode_url q).
Proof. unfold params, query_map. frame. Qed.
Lemma traffic_level l : keeps same_traffic (modify (with_level (OS := OS) l)).
Proof. by intros a. Qed.
Lemma traffic_out f : keeps same_traffic (modify (on_aworld (fun w => with_out (f w : OS) w))).
Proof. by intros a. Qed.
#[local] Hint Resolve traffic_vault traffic_schemas traffic_params traffic_level traffic_out : frame.

Lemma load_quiet valid j : keeps flow_quiet (cpd_load (OS := OS) decode_url ub valid j).
Proof.
  assert (forall j, keeps flow_quiet (cpd_loadSingle (OS := OS) decode_url ub valid j)) as Hj.
  { intros j'. unfold cpd_loadSingle. frame. by intros s. }
  unfold cpd_load, load_document. destruct j as [| | | | | |l|]; try apply Hj. induction l as [|j l IH]; cbn [load_items]; [done|].
  refine (keeps_bind _ _ _ (Hj j) _). intros []; [exact IH|by intros s..].
Qed.

Lemma traffic_post sfx body rp : keeps same_traffic (receivePOST decode_url ub schema_text sfx body rp).
Proof.
  assert (forall m : M ProvisionData LoadResult, keeps same_traffic (on_server (on_provisions m))) as Hp.
  { intros m. apply traffic_server. intros s. unfold on_provisions. by destruct (m _). }
  assert (forall m : M Config LoadResult, keeps same_traffic (on_server (on_matching m))) as Hm.
  { intros m. apply traffic_server. intros s. unfold on_matching. by destruct (m _). }
  assert (forall lazy n valid j, keeps same_traffic (on_flow (load_endpoints ub lazy n valid j))) as He.
  { intros. apply traffic_flow. intros s. unfold load_endpoints. by destruct (ep_load _ _ _ _ _ _). }
  assert (forall valid j, keeps same_traffic (on_flow (cpd_load decode_url ub valid j))) as Hc.
  { intros. apply traffic_flow, load_quiet. }
  unfold receivePOST, post_operation, serverMatching, serverProvision, clientEndpoint, clientProvision, schema, vault. frame.
Qed.

Lemma traffic_put sfx q rp : keeps same_traffic (receivePUT decode_url level_known sfx q rp).
Proof.
  unfold receivePUT, put_logging, put_server_configuration, put_data_configuration, put_files_configuration. frame.
  - by apply traffic_server; intros s.
  - by apply traffic_server; intros s.
  - apply traffic_server. intros s. cbn. unfold set_server_switches, when. by repeat case_match.
  - by apply traffic_flow; intros s.
Qed.
End Traffic.

(** ** Routes *)

Lemma route_other (s t : string) : s <> t -> bool_decide (s = t) = false.
Proof. apply bool_decide_eq_false_2. Qed.

(** Every client provision but the ones named [schema] and [unused] can be
    triggered under its identifier, whatever it is if it has no line terminator, and
    every entry of the vault whose name has no slash can be waited for: no other
    operation takes their path. *)
Theorem paths_lead_to_their_operation :
  (forall id, one_line id = true -> id <> "schema" -> id <> "unused" ->
     get_route ("client-provision/" +:+ id) = TriggerClientProvision id) /\
  (forall key, key <> "" -> no_char "/" key -> get_route ("vault/" +:+ key +:+ "/wait") = GetVaultWait key).
Proof.
  split.
  - intros id Hd Hs Hu. unfold get_route. cbn zeta.
    assert (vault_wait_key ("client-provision/" +:+ id) = None) as -> by reflexivity.
    assert (wild_rest "client-provision/" ("client-provision/" +:+ id) = Some id) as ->.
    { unfold wild_rest. rewrite wild_app by done. fold (one_line id). by rewrite Hd. }
    repeat (rewrite route_other; [|first [discriminate|intros E; injection E as E; first [apply Hs; exact E|apply Hu; exact E]]]). done.
  - intros key Hk Hc. unfold get_route. cbn zeta.
    assert (vault_wait_key ("vault/" +:+ key +:+ "/wait") = Some key) as ->.
    { unfold vault_wait_key. change (starts_with "vault/" ("vault/" +:+ key +:+ "/wait")) with true. cbv iota.
      change (sdrop 6 ("vault/" +:+ key +:+ "/wait")) with (key +:+ "/wait"). cbn zeta.
      change (key +:+ "/wait") with (key +:+ String "/" "wait"). rewrite find_char_app by done.
      rewrite sdrop_app, stake_app. destruct key; [done|]. done. }
    assert (forall t, "vault/" +:+ key +:+ "/wait" = "vault/" +:+ t -> no_char "/" t -> False) as Hno.
    { intros t E Ht. injection E as E. change (key +:+ "/wait" = t) in E. subst t. apply no_char_app in Ht as [_ Ht]. by apply no_char_cons in Ht as [? _]. }
    repeat (rewrite route_other; [|first [discriminate|intros E; apply (Hno "schema" E); unfold no_char; vm_compute; set_solver]]). done.
Qed.
(** ** Properties *)

Section AdminProperties.
Context `{JsonEq} `{JsonText} `{JsonPointer} `{RegexLib} `{!RegexSearch} `{SchemaLib} `{Calculus} {OS : Type} `{Outside OS} `{AdminOutside OS} `{StdSort}.
Context (decode_url : string -> string) (multipart_decode : string -> string -> list mp_event) (ub : double -> Z)
  (report_text : fail_report -> outcome string) (schema_text : Operation -> json) (client_status : Client -> string) (level_known : string -> bool).
Implicit Types (a : Agent (OS := OS)).

(** C1: The components work together: whatever administration requests, traffic, ends
    and errors of streams, waits, timers, works and responses follow each other, the
    server side (the state of every key can be read, its provisions are consistent, the
    events of open streams exist) and the client side (live and typed objects, live
    endpoints, unique sequences in flight) are both whole in the world they share. *)
Theorem agent_stays_whole (out : OS) (c : Configuration) (traffic : bool) (waits : option WaitManager) (pool : option Pool) (level : string)
  (a : Agent (OS := OS))
  (Ha : rtc (agent_step decode_url multipart_decode ub report_text schema_text client_status level_known)
          (agent_start out c traffic waits pool level) a) :
  (forall k, exists r, findLastRegisteredRequestState k (server_data a) = Some r) /\
  pd_inv (s_provisions (ag_server a)) /\
  (forall id l, pending_events_ (ag_server a) !! id = Some l -> (l < length (heap_ (server_data a)))%nat) /\
  (forall key l, fl_provisions (ag_flow a) !! key = Some l -> exists o, fl_heap (ag_flow a) !! l = Some o /\
     cp_typed (tk_provision (ob_ticker o)) /\ cp_key (tk_provision (ob_ticker o)) = key) /\
  (forall sd, sd ∈ fl_sent (ag_flow a) -> is_Some (endpoint_at (if_endpoint (sd_callback sd)) (ag_flow a))) /\
  NoDup (sent_id <$> fl_sent (ag_flow a)).
Proof.
  assert (agent_whole a) as [Ht Hf].
  { eapply (rtc_invariant _ agent_whole); [apply agent_start_whole|apply agent_step_whole|exact Ha]. }
  destruct Hf as [Ho Hr _ Hsent Hu _ _]. pose proof Ht as (Hd & Hp & _ & Hpend).
  split_and!; [|exact Hp|exact Hpend| | |exact Hu].
  - intros k. by apply (traffic_inv_state (server_view a) k).
  - intros key l Hl. destruct (Hr key l Hl) as (o & Hlo & Hk). exists o. split_and!; [done|apply (Ho l o Hlo)|done].
  - intros sd Hsd. apply (proj1 (Forall_forall _ _) Hsent) in Hsd as (_ & e & He & _). by exists e.
Qed.

(** C35: The operations that read change nothing a client can see.  A [GET], unless it
    triggers a client provision, waits for the vault or gives memory back, leaves the agent
    exactly as it was, but for the list of the client provisions, which writes the counters
    of the provisions in their documents and changes nothing else; and after it every such
    [GET] is answered as it would have been before. *)
Theorem reading_changes_nothing (uri pathSuffix q : string) (rp : Reply) (a : Agent (OS := OS)) (Hr : reads_only (get_route pathSuffix) = true) :
  let a' := (receiveGET decode_url ub report_text schema_text client_status uri pathSuffix q rp a).1 in
  (refreshes (get_route pathSuffix) = false -> a' = a) /\
  agent_refreshed a a' /\
  forall uri' pathSuffix' q' rp', reads_only (get_route pathSuffix') = true ->
    (receiveGET decode_url ub report_text schema_text client_status uri' pathSuffix' q' rp' a').2 =
    (receiveGET decode_url ub report_text schema_text client_status uri' pathSuffix' q' rp' a).2.
Proof.
  cbv zeta. pose proof (get_refreshes decode_url ub report_text schema_text client_status uri pathSuffix q rp a Hr) as Ha.
  split_and!; [intros Hf; symmetry; by apply get_reads|done|]. intros uri' sfx' q' rp' Hr'.
  destruct (refreshes (get_route sfx')) eqn:Hf'; [|by apply get_again].
  unfold receiveGET at 1 3. destruct (get_route sfx'); try discriminate Hf'. by apply list_again.
Qed.


(** Removing is idempotent: after a [DELETE] without parameters of the server or
    client provisions, the schemas, the events of the server or the client or the vault,
    the same [DELETE] is answered with 204 and changes nothing more. *)
Theorem deleting_twice_is_no_content (pathSuffix : string) (status : Z) (a a' : Agent (OS := OS)) (code : Z)
  (Hs : In pathSuffix ["server-provision"; "client-provision"; "schema"; "server-data"; "client-data"; "vault"])
  (Hst : status <> 400)
  (Hd : receiveDELETE decode_url pathSuffix "" status a = (a', Val code)) :
  (code = 200 \/ code = 204) /\ receiveDELETE decode_url pathSuffix "" status a' = (a', Val 204).
Proof.
  assert (forall b, cleared b = 200 \/ cleared b = 204) as Hc by (intros []; cbn; auto).
  assert (status =? 400 = false) as Hne by by apply Z.eqb_neq.
  destruct a as [w t srv fl wt cf lat lv], w, srv, fl.
  repeat (destruct Hs as [<-|Hs]); [..|destruct Hs]; unfold receiveDELETE in *; cbn zeta in *;
    repeat (rewrite bool_decide_eq_false_2 in Hd by done); rewrite bool_decide_eq_true_2 in Hd by done;
    repeat (rewrite bool_decide_eq_false_2 by done); rewrite bool_decide_eq_true_2 by done;
    unfold bind, on_server, on_provisions, on_flow, on_schemas, delete_server_data, delete_client_data, delete_vault, params, query_map, param, bind, get, modify, ret in *;
    cbn in Hd |- *; rewrite ?Hne in Hd; cbn in Hd |- *; injection Hd as <- <-; (split; [apply Hc|]); cbn; rewrite ?Hne; cbn; done.
Qed.

(** C36: Configuring loses no traffic: a [POST] or a [PUT], accepted or refused, leaves
    the events of the server and the client, the requests in flight, the works waiting
    and the open streams as they were. *)
Theorem configuring_keeps_the_traffic (pathSuffix body q : string) (rp : Reply) (a : Agent (OS := OS)) :
  same_traffic a (receivePOST decode_url ub schema_text pathSuffix body rp a).1 /\
  same_traffic a (receivePUT decode_url level_known pathSuffix q rp a).1.
Proof. split; [apply traffic_post|apply traffic_put]. Qed.

(** A switch after a configuration. *)
Definition switched (old : bool) (o : option bool) : bool := match o with Some b => negb b | None => old end.

(** The configuration of the storage is all or nothing: refused, without switches or
    with the incoherent pair, it changes nothing; accepted, each switch given has its new
    value, the others keep theirs, and nothing else of the agent changes. *)
Theorem data_configuration_is_all_or_nothing (q : string) (rp : Reply) (a a' : Agent (OS := OS)) (success : bool) (rp' : Reply)
  (m : gmap string string) (Hq : params decode_url q a = (a, Val m)) (Hw : fl_world (ag_flow a) = ag_world a)
  (Hp : put_data_configuration decode_url false q rp a = (a', Val (success, rp'))) :
  (success = true <-> is_Some (data_switches m)) /\
  (success = false -> a' = a) /\
  (forall d h p, data_switches m = Some (d, h, p) ->
     fl_client_data (ag_flow a') = switched (fl_client_data (ag_flow a)) d /\
     fl_key_history (ag_flow a') = switched (fl_key_history (ag_flow a)) h /\
     fl_purge (ag_flow a') = switched (fl_purge (ag_flow a)) p /\
     put_flow (with_settings (fl_client_data (ag_flow a)) (fl_key_history (ag_flow a)) (fl_purge (ag_flow a)) (ag_flow a')) a' = a).
Proof.
  unfold put_data_configuration, bind at 1 in Hp. rewrite Hq in Hp. destruct (data_switches m) as [[[d h] p]|] eqn:Ed.
  - unfold on_flow, modify, bind, get, ret in Hp. cbn in Hp. injection Hp as <- <- <-.
    split_and!; [done|done|]. intros d' h' p' [= <- <- <-]. cbn. split_and!; [done..|].
    destruct a as [w t srv fl wt cf lat lv], fl. cbn in *. by subst.
  - injection Hp as <- <- <-. split_and!; [|done|done]. split; [done|]. by intros [].
Qed.
End AdminProperties.

Module AdminPropExamples.
Import Still ClientExamples FlowExamples.

(** Names for the documents of the examples. *)
#[local] Instance named_text : JsonText :=
  {| json_parse := fun s => if bool_decide (s = "peer") then Some peer0 else if bool_decide (s = "flow") then Some (JArray [doc0; doc1]) else None;
     json_parse_error := fun _ => "parse error"; json_dump := json_dump |}.
#[local] Instance literal_search : RegexSearch := fun s r => bool_decide (r = Some s).
#[local] Instance unsorted : StdSort := fun l => l.
#[local] Instance no_files : AdminOutside world :=
  {| files_configuration := fun _ => Val "{}"; files_json := fun _ => Val "[]"; sockets_json := fun _ => Val "[]";
     enable_read_cache := fun _ o => o; malloc_trim := fun o => (false, o) |}.

Definition any_schema (o : Operation) : json := JObject [].
Definition status0 (c : Client) : string := "Open".
Definition levels (l : string) : bool := bool_decide (l ∈ ["Debug"; "Warning"]).
Definition id0 (s : string) : string := s.
Definition reply0 : Reply := mkReply 0 [] "" 0.
Definition api : string := "/admin/v1".
Definition admin (method suffix q body : string) : M (Agent (OS := world)) Answer :=
  admin_receive id0 ub0 text0 any_schema status0 levels api
    (mkAdminRequest method "http" "localhost:8074" (api +:+ "/" +:+ suffix) q body) reply0.
Definition agent0 : Agent := agent_start ([] : world) Configuration_new true None None "Warning".
Definition agent1 : Agent := (admin "POST" "client-endpoint" "" "peer" agent0).1.
Definition agent2 : Agent := (admin "POST" "client-provision" "" "flow" agent1).1.
Definition agent3 : Agent := (admin "GET" "client-provision/flow" "sequence=7" "" agent2).1.
Definition status_of (r : outcome Answer) : Z := match r with Val (Replied rp) => rp_status rp | _ => 0 end.

Definition step1 : relation (Agent (OS := world)) := agent_step id0 decode0 ub0 text0 any_schema status0 levels.
Lemma reaches_agent3 : rtc step1 agent0 agent3.
Proof.
  eapply rtc_l; [apply (as_admin _ _ _ _ _ _ _ api (mkAdminRequest "POST" "http" "localhost:8074" (api +:+ "/client-endpoint") "" "peer") reply0);
    apply small0; vm_compute; reflexivity|].
  eapply rtc_l; [apply (as_admin _ _ _ _ _ _ _ api (mkAdminRequest "POST" "http" "localhost:8074" (api +:+ "/client-provision") "" "flow") reply0);
    apply small0; vm_compute; reflexivity|].
  eapply rtc_l; [apply (as_admin _ _ _ _ _ _ _ api (mkAdminRequest "GET" "http" "localhost:8074" (api +:+ "/client-provision/flow") "sequence=7" "") reply0);
    apply small0; vm_compute; reflexivity|]. done.
Qed.

Lemma agent_stays_whole_witness : NoDup (sent_id <$> fl_sent (ag_flow agent3)) /\ length (fl_sent (ag_flow agent3)) = 1%nat /\
  status_of (admin "POST" "client-provision" "" "flow" agent1).2 = 201.
Proof.
  destruct (agent_stays_whole id0 decode0 ub0 text0 any_schema status0 levels [] Configuration_new true None None "Warning" agent3 reaches_agent3)
    as (_ & _ & _ & _ & _ & Hu).
  split_and!; [exact Hu|vm_compute; reflexivity..].
Defined.

Lemma reading_changes_nothing_witness :
  agent_refreshed agent3 (receiveGET id0 ub0 text0 any_schema status0 "" "client-provision" "" reply0 agent3).1 /\
  (receiveGET id0 ub0 text0 any_schema status0 "" "client-provision/unused" "" reply0
     (receiveGET id0 ub0 text0 any_schema status0 "" "client-provision" "" reply0 agent3).1).2 =
  (receiveGET id0 ub0 text0 any_schema status0 "" "client-provision/unused" "" reply0 agent3).2 /\
  status_of (admin "GET" "client-provision/unused" "" "" agent3).2 = 200.
Proof.
  destruct (reading_changes_nothing id0 ub0 text0 any_schema status0 "" "client-provision" "" reply0 agent3) as (_ & H & Hs); [reflexivity|].
  split; [exact H|]. split; [apply Hs; reflexivity|vm_compute; reflexivity].
Defined.

Lemma deleting_twice_is_no_content_witness :
  (receiveDELETE id0 "client-provision" "" 0 agent3).2 = Val 200 /\
  (receiveDELETE id0 "client-provision" "" 0 (receiveDELETE id0 "client-provision" "" 0 agent3).1).2 = Val 204.
Proof.
  assert (receiveDELETE id0 "client-provision" "" 0 agent3 = ((receiveDELETE id0 "client-provision" "" 0 agent3).1, Val 200)) as E by (vm_compute; reflexivity).
  destruct (deleting_twice_is_no_content id0 "client-provision" 0 agent3 _ 200 ltac:(cbn; auto) ltac:(done) E) as [_ E'].
  split; [by rewrite E|by rewrite E'].
Defined.

Lemma data_configuration_is_all_or_nothing_witness :
  fl_client_data (ag_flow (put_data_configuration id0 false "discard=true&discardKeyHistory=true" reply0 agent3).1) = false.
Proof.
  destruct (data_configuration_is_all_or_nothing id0 "discard=true&discardKeyHistory=true" reply0 agent3
    (put_data_configuration id0 false "discard=true&discardKeyHistory=true" reply0 agent3).1 true
    (snd (match (put_data_configuration id0 false "discard=true&discardKeyHistory=true" reply0 agent3).2 with Val x => x | _ => (true, reply0) end))
    (<["discard":="true"]> (<["discardKeyHistory":="true"]> ∅))) as (_ & _ & Hs); [vm_compute; reflexivity..|].
  destruct (Hs (Some true) (Some true) None) as [-> _]; [vm_compute; reflexivity|]. reflexivity.
Defined.

(** A refused configuration of the server has changed the first switch. *)
Example refused_server_configuration_changes_a_switch :
  let '(a, r) := admin "PUT" "server/configuration" "receiveRequestBody=false&preReserveRequestBody=x" "" agent0 in
  status_of r = 400 /\ receive_request_body_ (ag_server agent0) = true /\ receive_request_body_ (ag_server a) = false.
Proof. vm_compute. done. Qed.

(** Any text but [true] stands for false in the configuration of the storage. *)
Example any_text_is_false :
  let '(a, r) := admin "PUT" "server-data/configuration" "discard=yes" "" agent0 in
  status_of r = 200 /\ server_data_ (ag_server a) = true.
Proof. vm_compute. done. Qed.

(** A path that ends after the slash of the interface reads past an empty string, and a
    time that is not a number is an exception. *)
Example bare_path_is_undefined : (admin "GET" "" "" "" agent0).2 = Throw undefined.
Proof. vm_compute. reflexivity. Qed.
Example wrong_time_throws : (admin "GET" "server-data/sequence" "fromTimestampUs=now" "" agent0).2 = Throw invalid_argument.
Proof. vm_compute. reflexivity. Qed.

(** The answer to an unknown path with a quotation mark is not a document. *)
Example answers_are_not_escaped : forall q : ascii, q = cz 34 ->
  match (admin "GET" (String q "") "" "" agent0).2 with
  | Val (Replied rp) => exists t, rp_body rp = t +:+ String q (String "'" (String q " }"))
  | _ => False
  end.
Proof.
  intros q ->. eexists ("{ " +:+ quote "result" +:+ ":" +:+ quote "false" +:+ ", " +:+ quote "response" +:+ ": " +:+ String (cz 34) "invalid operation '").
  vm_compute. reflexivity.
Qed.
End AdminPropExamples.
