(* ===== verification/AdminSchemas.v ===== *)
(** The schemas of the operations ([src/jsonSchema/AdminSchemas.hpp]), as documents, and
    what they accept.  The validator of the program is a parameter ([SchemaLib]): its
    documented behaviour, the keywords of the draft 7 of JSON schema that these documents
    use, is [accepts7], and the hypothesis that it behaves so is the class
    [ValidatorLaws]. *)
From S2P Require Import Prelude Std Double Functions Query Json JsonModel External JsonConstraint Keys DataPart MockEvents MockData TypeConverter Vault Transformation Reports ClientEndpoint Schema Stages ServerProvision ServerAdmin TrafficServer ClientProvision Ticker ClientFlow AdminServer.
From Stdlib Require Import Floats.SpecFloat.
From stdpp Require Import options.
#[local] Open Scope Z_scope.

(** ** The documents *)

(** A literal of the source: the order of the keys of an object is not the one of the
    text. *)
Definition obj (l : list (string * json)) : json := foldl (fun j kv => json_set kv.1 kv.2 j) (JObject []) l.
Definition arr (l : list json) : json := JArray l.

(** [schema] *)
Definition schema_schema : json := obj [
    ("$schema", JString "http://json-schema.org/draft-07/schema#");
    ("type", JString "object");
    ("additionalProperties", JBool false);
    ("properties", obj [("id", obj [("type", JString "string")]); ("schema", obj [("type", JString "object")])]);
    ("required", arr [JString "id"; JString "schema"])].

(** [vault] *)
Definition vault_schema : json := obj [
    ("$schema", JString "http://json-schema.org/draft-07/schema#");
    ("type", JString "object");
    ("additionalProperties", JBool false);
    ("patternProperties", obj [("^[^.]+$", obj [])])].

(** [server_matching] *)
Definition server_matching_schema : json := obj [
    ("$schema", JString "http://json-schema.org/draft-07/schema#");
    ("type", JString "object");
    ("additionalProperties", JBool false);
    ("properties", obj [
      ("algorithm", obj [
        ("type", JString "string");
        ("enum", arr [JString "FullMatching"; JString "FullMatchingRegexReplace"; JString "RegexMatching"])]);
      ("rgx", obj [("type", JString "string")]);
      ("fmt", obj [("type", JString "string")]);
      ("uriPathQueryParameters", obj [
        ("type", JString "object");
        ("additionalProperties", JBool false);
        ("properties", obj [
          ("filter", obj [("type", JString "string"); ("enum", arr [JString "Sort"; JString "PassBy"; JString "Ignore"])]);
          ("separator", obj [("type", JString "string"); ("enum", arr [JString "Ampersand"; JString "Semicolon"])])]);
        ("required", arr [JString "filter"])])]);
    ("required", arr [JString "algorithm"])].

(** The parts of a filter that are objects. *)
Definition regexReplace_schema : json := obj [
    ("type", JString "object");
    ("additionalProperties", JBool false);
    ("properties", obj [("rgx", obj [("type", JString "string")]); ("fmt", obj [("type", JString "string")])]);
    ("required", arr [JString "rgx"; JString "fmt"])].

Definition split_schema : json := obj [
    ("type", JString "object");
    ("additionalProperties", JBool false);
    ("properties", obj [
      ("size", obj [("type", JString "integer"); ("minimum", JUint 1)]);
      ("count", obj [("type", JString "integer"); ("minimum", JUint 1)]);
      ("sep", obj [("type", JString "string")]);
      ("filler", obj [("type", JString "string")]);
      ("numeric", obj [("type", JString "boolean")])])].

Definition baseConvert_schema : json := obj [
    ("type", JString "object");
    ("additionalProperties", JBool false);
    ("required", arr [JString "in"; JString "out"]);
    ("properties", obj [
      ("in", obj [("type", JString "integer"); ("minimum", JUint 2); ("maximum", JUint 36)]);
      ("out", obj [("type", JString "integer"); ("minimum", JUint 2); ("maximum", JUint 36)]);
      ("capital", obj [("type", JString "boolean")])])].

Definition date_schema : json := obj [
    ("type", JString "object");
    ("additionalProperties", JBool false);
    ("required", arr [JString "fmt"]);
    ("properties", obj [
      ("fmt", obj [("type", JString "string")]);
      ("unit", obj [("type", JString "string"); ("enum", arr [JString "s"; JString "ms"; JString "us"; JString "ns"])])])].

(** The keys of a filter, of which one is required. *)
Definition filter_keys : list string :=
  ["RegexCapture"; "RegexReplace"; "Append"; "Prepend"; "Sum"; "Multiply"; "ConditionVar"; "EqualTo"; "DifferentFrom"; "JsonConstraint"; "SchemaId"; "Split"; "BaseConvert"; "Strptime"; "Strftime"; "RegexKey"].

(** The property of each key; the pattern of [ConditionVar] is of the kind of provision. *)
Definition filter_properties (conditionVar : string) : json := obj [
    ("RegexCapture", obj [("type", JString "string")]);
    ("RegexReplace", regexReplace_schema);
    ("Append", obj [("type", JString "string")]);
    ("Prepend", obj [("type", JString "string")]);
    ("Sum", obj [("type", JString "number")]);
    ("Multiply", obj [("type", JString "number")]);
    ("ConditionVar", obj [("type", JString "string"); ("pattern", JString conditionVar)]);
    ("EqualTo", obj [("type", JString "string")]);
    ("DifferentFrom", obj [("type", JString "string")]);
    ("JsonConstraint", obj [("type", arr [JString "object"; JString "array"])]);
    ("SchemaId", obj [("type", JString "string")]);
    ("Split", split_schema);
    ("BaseConvert", baseConvert_schema);
    ("Strptime", date_schema);
    ("Strftime", date_schema);
    ("RegexKey", obj [("type", JString "string")])].

Definition filter_object (conditionVar : string) : json := obj [
    ("type", JString "object");
    ("additionalProperties", JBool false);
    ("oneOf", arr (map (fun k => obj [("required", arr [JString k])]) filter_keys));
    ("properties", filter_properties conditionVar)].

Definition filter_definition (conditionVar : string) : json := obj [("oneOf", arr [obj [("type", JString "string"); ("enum", arr [JString "Size"])]; filter_object conditionVar])].

(** The patterns of the items of a server provision. *)
Definition server_items_source : string :=
  "^request\.(uri(\.(path$|param\..+))?|body(\..+)?|header\..+|headers)$|^response\.(body(\..+)?|headers)$|^eraser$|^math\..*|^random\.[-+]{0,1}[0-9]+\.[-+]{0,1}[0-9]+$|^randomset\..+|^timestamp\.[m|u|n]{0,1}s$|^strftime\..+|^recvseq$|^(var|vault|serverEvent|clientEvent)\..+|^(value)\..*|^inState$|^txtFile\..+|^binFile\..+|^command\..+".
Definition server_items_target : string :=
  "^response\.body\.(string$|hexstring$)|^response\.body\.json\.(object$|object\..+|jsonstring$|jsonstring\..+|string$|string\..+|integer$|integer\..+|unsigned$|unsigned\..+|float$|float\..+|boolean$|boolean\..+)|^response\.(header\..+|statusCode|delayMs)$|^(var|vault|serverEvent)\..+|^outState(\.(POST|GET|PUT|DELETE|HEAD)(\..+)?)?$|^txtFile\..+|^binFile\..+|^udpSocket\..+|^clientProvision\..+|^break$".

(** The patterns of the items of a client provision. *)
Definition client_items_source : string :=
  "^request\.(uri|body(\..+)?|header\..+|headers)$|^response\.headers$|^eraser$|^math\..*|^random\.[-+]{0,1}[0-9]+\.[-+]{0,1}[0-9]+$|^randomset\..+|^timestamp\.[m|u|n]{0,1}s$|^strftime\..+|^sendseq$|^(var|vault|clientEvent|serverEvent)\..+|^(value)\..*|^inState$|^txtFile\..+|^binFile\..+|^command\..+".
Definition client_items_target : string :=
  "^request\.body\.(string$|hexstring$)|^request\.body\.json\.(object$|object\..+|jsonstring$|jsonstring\..+|string$|string\..+|integer$|integer\..+|unsigned$|unsigned\..+|float$|float\..+|boolean$|boolean\..+)|^request\.(header\..+|delayMs|timeoutMs|uri|method)$|^(var|vault|clientEvent)\..+|^outState$|^txtFile\..+|^binFile\..+|^udpSocket\..+".

(** The patterns of the items of a client provision for a response. *)
Definition response_items_source : string :=
  "^request\.(uri(\.(path$|param\..+))?|body(\..+)?|header\..+|headers)$|^response\.(body(\..+)?|header\..+|headers|statusCode)$|^eraser$|^math\..*|^random\.[-+]{0,1}[0-9]+\.[-+]{0,1}[0-9]+$|^randomset\..+|^timestamp\.[m|u|n]{0,1}s$|^strftime\..+|^sendseq$|^(var|vault|clientEvent|serverEvent)\..+|^(value)\..*|^inState$|^txtFile\..+|^binFile\..+|^command\..+".
Definition response_items_target : string :=
  "^(var|vault|clientEvent)\..+|^outState$|^txtFile\..+|^binFile\..+|^udpSocket\..+|^break$".

(** An item: whatever its other keys, their values are filters. *)
Definition item_schema (source target : string) : json := obj [
    ("type", JString "object");
    ("minProperties", JUint 2);
    ("maxProperties", JUint 4);
    ("properties", obj [
      ("source", obj [("type", JString "string"); ("pattern", JString source)]);
      ("target", obj [("type", JString "string"); ("pattern", JString target)]);
      ("onFilterFail", obj [
        ("type", JString "array");
        ("minItems", JUint 1);
        ("items", obj [
          ("type", JString "object");
          ("minProperties", JUint 2);
          ("required", arr [JString "source"; JString "target"])])])]);
    ("additionalProperties", obj [("$ref", JString "#/definitions/filter")]);
    ("required", arr [JString "source"; JString "target"])].

Definition server_transform_schema : json := obj [
    ("type", JString "array");
    ("minItems", JUint 1);
    ("items", item_schema server_items_source server_items_target)].

(** The properties of a server provision. *)
Definition server_properties : json := obj [
    ("description", obj [("type", JString "string")]);
    ("inState", obj [("type", JString "string"); ("pattern", JString "^[^#]*$")]);
    ("outState", obj [("type", JString "string"); ("pattern", JString "^[^#]*$")]);
    ("requestMethod", obj [
      ("type", JString "string");
      ("enum", arr [JString "POST"; JString "GET"; JString "PUT"; JString "DELETE"; JString "HEAD"])]);
    ("requestUri", obj [("type", JString "string")]);
    ("requestSchemaId", obj [("type", JString "string")]);
    ("responseHeaders", obj [("additionalProperties", obj [("type", JString "string")]); ("type", JString "object")]);
    ("responseCode", obj [("type", JString "integer")]);
    ("responseBody", obj [
      ("anyOf", arr [
        obj [("type", JString "object")];
        obj [("type", JString "array")];
        obj [("type", JString "string")];
        obj [("type", JString "integer")];
        obj [("type", JString "number")];
        obj [("type", JString "boolean")];
        obj [("type", JString "null")]])]);
    ("responseDelayMs", obj [("type", JString "integer")]);
    ("transform", server_transform_schema);
    ("responseSchemaId", obj [("type", JString "string")])].

(** [server_provision] *)
Definition server_provision_schema : json := obj [
    ("$schema", JString "http://json-schema.org/draft-07/schema#");
    ("definitions", obj [("filter", filter_definition "^(?!$)(?!!$).*$")]);
    ("type", JString "object");
    ("additionalProperties", JBool false);
    ("properties", server_properties);
    ("required", arr [JString "requestMethod"; JString "responseCode"])].

(** [client_endpoint] *)
Definition client_endpoint_schema : json := obj [
    ("$schema", JString "http://json-schema.org/draft-07/schema#");
    ("type", JString "object");
    ("additionalProperties", JBool false);
    ("properties", obj [
      ("id", obj [("type", JString "string"); ("pattern", JString "^[^#]*$")]);
      ("host", obj [("type", JString "string")]);
      ("port", obj [("type", JString "integer"); ("minimum", JUint 0); ("maximum", JUint 65536)]);
      ("secure", obj [("type", JString "boolean")]);
      ("permit", obj [("type", JString "boolean")])]);
    ("required", arr [JString "id"; JString "host"; JString "port"])].

Definition client_transform_schema : json := obj [
    ("type", JString "array");
    ("minItems", JUint 1);
    ("items", item_schema client_items_source client_items_target)].

Definition response_transform_schema : json := obj [("type", JString "array"); ("items", item_schema response_items_source response_items_target)].

(** The properties of a client provision. *)
Definition client_properties : json := obj [
    ("description", obj [("type", JString "string")]);
    ("id", obj [("type", JString "string"); ("pattern", JString "^[^#]*$")]);
    ("inState", obj [("type", JString "string"); ("pattern", JString "^[^#]*$")]);
    ("outState", obj [("type", JString "string"); ("pattern", JString "^[^#]*$"); ("not", obj [("enum", arr [JString "initial"])])]);
    ("endpoint", obj [("type", JString "string"); ("pattern", JString "^[^#]*$")]);
    ("requestMethod", obj [
      ("type", JString "string");
      ("enum", arr [JString "POST"; JString "GET"; JString "PUT"; JString "DELETE"; JString "HEAD"])]);
    ("requestUri", obj [("type", JString "string")]);
    ("requestSchemaId", obj [("type", JString "string")]);
    ("requestHeaders", obj [("additionalProperties", obj [("type", JString "string")]); ("type", JString "object")]);
    ("requestBody", obj [
      ("anyOf", arr [
        obj [("type", JString "object")];
        obj [("type", JString "array")];
        obj [("type", JString "string")];
        obj [("type", JString "integer")];
        obj [("type", JString "number")];
        obj [("type", JString "boolean")];
        obj [("type", JString "null")]])]);
    ("requestDelayMs", obj [("type", JString "integer")]);
    ("timeoutMs", obj [("type", JString "integer")]);
    ("transform", client_transform_schema);
    ("onResponseTransform", response_transform_schema);
    ("responseSchemaId", obj [("type", JString "string")]);
    ("expectedResponseStatusCode", obj [("type", JString "integer"); ("minimum", JUint 100); ("maximum", JUint 599)])].

(** [client_provision] *)
Definition client_provision_schema : json := obj [
    ("$schema", JString "http://json-schema.org/draft-07/schema#");
    ("definitions", obj [("filter", filter_definition "^!?.*$")]);
    ("type", JString "object");
    ("additionalProperties", JBool false);
    ("properties", client_properties);
    ("required", arr [JString "id"])].

Definition adminSchemas (o : Operation) : json :=
  match o with
  | OpServerMatching => server_matching_schema
  | OpServerProvision => server_provision_schema
  | OpClientEndpoint => client_endpoint_schema
  | OpClientProvision => client_provision_schema
  | OpSchema => schema_schema
  | OpVault => vault_schema
  end.

(** ** Acceptance *)

(** A number without fractional part is an integer, however it is written. *)
Definition integral (f : double) : bool := match d_trunc f with Some z => d_eqb (d_of_Z z) f | None => false end.
Definition has_type (t : string) (j : json) : bool :=
  if String.eqb t "object" then is_object j
  else if String.eqb t "array" then is_array j
  else if String.eqb t "string" then is_string j
  else if String.eqb t "boolean" then is_boolean j
  else if String.eqb t "null" then is_null j
  else if String.eqb t "number" then is_number j
  else if String.eqb t "integer" then match j with JFloat f => integral f | _ => is_number_integer j end
  else false.
Definition text_of (j : json) : string := match j with JString s => s | _ => "" end.
(** The enumerations are of texts. *)
Definition enumerated (l : list json) (j : json) : bool :=
  match j with JString s => existsb (fun v => match v with JString s' => String.eqb s s' | _ => false end) l | _ => false end.
Definition at_least (m : Z) (j : json) : bool :=
  match j with JInt i => m <=? i | JUint u => m <=? u | JFloat f => SFleb (d_of_Z m) f | _ => true end.
Definition at_most (m : Z) (j : json) : bool :=
  match j with JInt i => i <=? m | JUint u => u <=? m | JFloat f => SFleb f (d_of_Z m) | _ => true end.
Definition limit (v : json) : Z := match v with JUint u => u | JInt i => i | _ => 0 end.
Definition obj_members (j : json) : list (string * json) := match j with JObject l => l | _ => [] end.
Definition arr_entries (j : json) : list json := match j with JArray l => l | _ => [] end.

Section Accepts.
Context `{RegexLib} `{!RegexSearch}.

Definition matches (pattern s : string) : bool :=
  match regex_assign pattern with Val r => regex_search s r | Throw _ => false end.

(** A member that is neither a property nor matches a pattern. *)
Definition additional (s : json) (k : string) : bool :=
  negb (existsb (fun kv => String.eqb kv.1 k) (obj_members (default JNull (json_find "properties" s))))
  && negb (existsb (fun kv => matches kv.1 k) (obj_members (default JNull (json_find "patternProperties" s)))).

(** A reference to a definition of the document. *)
Definition resolve (root : json) (ref : string) : option json :=
  if starts_with "#/definitions/" ref then json_find "definitions" root ≫= json_find (sdrop 14 ref) else None.

(** What a keyword asks of a value; [rec] is the acceptance of the parts. *)
Definition keyword (root : json) (rec : json -> json -> bool) (s : json) (k : string) (v j : json) : bool :=
  if String.eqb k "type" then match v with JArray ts => existsb (fun t => has_type (text_of t) j) ts | _ => has_type (text_of v) j end
  else if String.eqb k "enum" then enumerated (arr_entries v) j
  else if String.eqb k "minimum" then at_least (limit v) j
  else if String.eqb k "maximum" then at_most (limit v) j
  else if String.eqb k "pattern" then match j with JString t => matches (text_of v) t | _ => true end
  else if String.eqb k "required" then negb (is_object j) || forallb (fun r => bool_decide (is_Some (json_find (text_of r) j))) (arr_entries v)
  else if String.eqb k "properties" then forallb (fun kv => match json_find kv.1 j with Some x => rec kv.2 x | None => true end) (obj_members v)
  else if String.eqb k "patternProperties" then
    forallb (fun kv => forallb (fun x => negb (matches kv.1 x.1) || rec kv.2 x.2) (obj_members j)) (obj_members v)
  else if String.eqb k "additionalProperties" then forallb (fun x => negb (additional s x.1) || rec v x.2) (obj_members j)
  else if String.eqb k "items" then forallb (rec v) (arr_entries j)
  else if String.eqb k "minItems" then negb (is_array j) || (limit v <=? Z.of_nat (length (arr_entries j)))
  else if String.eqb k "minProperties" then negb (is_object j) || (limit v <=? Z.of_nat (length (obj_members j)))
  else if String.eqb k "maxProperties" then negb (is_object j) || (Z.of_nat (length (obj_members j)) <=? limit v)
  else if String.eqb k "oneOf" then (length (List.filter (fun s => rec s j) (arr_entries v)) =? 1)%nat
  else if String.eqb k "anyOf" then existsb (fun s => rec s j) (arr_entries v)
  else if String.eqb k "not" then negb (rec v j)
  else if String.eqb k "$ref" then match resolve root (text_of v) with Some s => rec s j | None => false end
  else true.

(** The fuel bounds the depth of the schema, references included. *)
Fixpoint accepts (fuel : nat) (root s j : json) : bool :=
  match fuel with
  | O => false
  | S fuel =>
      match s with
      | JBool b => b
      | JObject l => forallb (fun kv => keyword root (accepts fuel root) s kv.1 kv.2 j) l
      | _ => false
      end
  end.

(** The documents of the operations are at most nine deep. *)
Definition accepts7 (s j : json) : bool := accepts 16 s s j.
End Accepts.

(** The validator takes the documents of the operations as schemas, and accepts what they
    say. *)
Class ValidatorLaws `{RegexLib} `{!RegexSearch} `{SchemaLib} := {
  operation_schema : forall o, exists v, set_root_schema (adminSchemas o) = Some v;
  validates : forall o v j, set_root_schema (adminSchemas o) = Some v ->
    (schema_error v j = None <-> accepts7 (adminSchemas o) j = true)
}.

(** ** What acceptance gives *)

Section AcceptedFacts.
Context `{RegexLib} `{!RegexSearch}.

Lemma accepts_keyword n root s j k v :
  accepts (S n) root s j = true -> json_find k s = Some v -> keyword root (accepts n root) s k v j = true.
Proof using Type.
  destruct s as [| | | | | | |l]; try done. intros Ha Hf. cbn [json_find] in Hf. apply assoc_elem, list_elem_of_In in Hf.
  cbn [accepts] in Ha. rewrite forallb_forall in Ha. exact (Ha _ Hf).
Qed.

Lemma accepted_type n root s j t :
  accepts (S n) root s j = true -> json_find "type" s = Some (JString t) -> has_type t j = true.
Proof using Type. intros Ha Hf. exact (accepts_keyword _ _ _ _ _ _ Ha Hf). Qed.

Lemma accepted_required n root s j rs r :
  accepts (S n) root s j = true -> json_find "required" s = Some (JArray rs) -> JString r ∈ rs -> is_object j = true ->
  is_Some (json_find r j).
Proof using Type.
  intros Ha Hf Hr Ho. pose proof (accepts_keyword _ _ _ _ _ _ Ha Hf) as Hk. unfold keyword in Hk. cbn in Hk.
  rewrite Ho in Hk. cbn in Hk. rewrite forallb_forall in Hk. apply list_elem_of_In in Hr. apply Hk in Hr. by apply bool_decide_eq_true in Hr.
Qed.

(** The schema of a field. *)
Definition field_schema (s : json) (k : string) : option json := json_find "properties" s ≫= json_find k.

Lemma accepted_field n root s j k sub x :
  accepts (S n) root s j = true -> field_schema s k = Some sub -> json_find k j = Some x -> accepts n root sub x = true.
Proof using Type.
  unfold field_schema. destruct (json_find "properties" s) as [ps|] eqn:Ep; [|done]. cbn. intros Ha Hs Hx.
  pose proof (accepts_keyword _ _ _ _ _ _ Ha Ep) as Hk. unfold keyword in Hk. cbn in Hk.
  destruct ps as [| | | | | | |l]; try done. cbn in Hs, Hk. rewrite forallb_forall in Hk.
  apply assoc_elem, list_elem_of_In in Hs. apply Hk in Hs. cbn in Hs. by rewrite Hx in Hs.
Qed.

Lemma accepted_field_type n root s j k sub x t :
  accepts (S (S n)) root s j = true -> field_schema s k = Some sub -> json_find "type" sub = Some (JString t) ->
  json_find k j = Some x -> has_type t x = true.
Proof using Type. intros Ha Hs Ht Hx. eapply accepted_type; [|exact Ht]. by eapply accepted_field. Qed.

Lemma has_type_string x : has_type "string" x = true -> exists s, x = JString s.
Proof using Type. destruct x; try done. eauto. Qed.
Lemma has_type_object x : has_type "object" x = true -> exists l, x = JObject l.
Proof using Type. destruct x; try done. eauto. Qed.
Lemma has_type_array x : has_type "array" x = true -> exists l, x = JArray l.
Proof using Type. destruct x; try done. eauto. Qed.
Lemma has_type_boolean x : has_type "boolean" x = true -> exists b, x = JBool b.
Proof using Type. destruct x; try done. eauto. Qed.
Lemma has_type_integer x : has_type "integer" x = true -> is_number x = true.
Proof using Type. by destruct x. Qed.

(** A text that must be there, or may be. *)
Lemma accepted_text n root s j k sub rs :
  accepts (S (S n)) root s j = true -> is_object j = true -> field_schema s k = Some sub -> json_find "type" sub = Some (JString "string") ->
  json_find "required" s = Some (JArray rs) -> JString k ∈ rs -> exists t, json_find k j = Some (JString t).
Proof using Type.
  intros Ha Ho Hs Ht Hr Hin. destruct (accepted_required _ _ _ _ _ _ Ha Hr Hin Ho) as [x Hx].
  destruct (has_type_string x) as [t ->]; [by eapply accepted_field_type|]. eauto.
Qed.
Lemma accepted_number n root s j k sub rs :
  accepts (S (S n)) root s j = true -> is_object j = true -> field_schema s k = Some sub -> json_find "type" sub = Some (JString "integer") ->
  json_find "required" s = Some (JArray rs) -> JString k ∈ rs -> exists x, json_find k j = Some x /\ is_number x = true.
Proof using Type.
  intros Ha Ho Hs Ht Hr Hin. destruct (accepted_required _ _ _ _ _ _ Ha Hr Hin Ho) as [x Hx].
  exists x. split; [done|]. apply has_type_integer. by eapply accepted_field_type.
Qed.

(** The elements of an array, and the members an object has beside its properties. *)
Lemma accepted_items n root s l sub x :
  accepts (S n) root s (JArray l) = true -> json_find "items" s = Some sub -> x ∈ l -> accepts n root sub x = true.
Proof using Type.
  intros Ha Hs Hx. pose proof (accepts_keyword _ _ _ _ _ _ Ha Hs) as Hk. unfold keyword in Hk. cbn in Hk.
  rewrite forallb_forall in Hk. apply Hk. by apply list_elem_of_In.
Qed.
Lemma accepted_additional n root s l sub k x :
  accepts (S n) root s (JObject l) = true -> json_find "additionalProperties" s = Some sub -> (k, x) ∈ l -> additional s k = true ->
  accepts n root sub x = true.
Proof using Type.
  intros Ha Hs Hx Hk'. pose proof (accepts_keyword _ _ _ _ _ _ Ha Hs) as Hk. unfold keyword in Hk. cbn in Hk.
  rewrite forallb_forall in Hk. apply list_elem_of_In in Hx. apply Hk in Hx. cbn in Hx. by rewrite Hk' in Hx.
Qed.
Lemma accepted_enum n root s j vs :
  accepts (S n) root s j = true -> json_find "enum" s = Some (JArray vs) -> exists t, j = JString t /\ JString t ∈ vs.
Proof using Type.
  intros Ha Hs. pose proof (accepts_keyword _ _ _ _ _ _ Ha Hs) as Hk. unfold keyword in Hk. cbn in Hk.
  destruct j as [| | | | |t| |]; try done. cbn in Hk. exists t. split; [done|].
  apply existsb_exists in Hk as (v & Hin & Hv). destruct v; try done. apply String.eqb_eq in Hv. subst. by apply list_elem_of_In.
Qed.
Lemma accepted_pattern n root s t p :
  accepts (S n) root s (JString t) = true -> json_find "pattern" s = Some (JString p) -> matches p t = true.
Proof using Type. intros Ha Hs. exact (accepts_keyword _ _ _ _ _ _ Ha Hs). Qed.
Lemma accepted_one_of n root s j vs :
  accepts (S n) root s j = true -> json_find "oneOf" s = Some (JArray vs) -> exists v, v ∈ vs /\ accepts n root v j = true.
Proof using Type.
  intros Ha Hs. pose proof (accepts_keyword _ _ _ _ _ _ Ha Hs) as Hk. unfold keyword in Hk. cbn in Hk.
  destruct (List.filter _ vs) as [|v l] eqn:E; [done|]. exists v. assert (In v (v :: l)) as Hin by by left.
  rewrite <- E in Hin. apply filter_In in Hin as [Hin ?]. split; [by apply list_elem_of_In|done].
Qed.
Lemma accepted_ref n root s j ref sub :
  accepts (S n) root s j = true -> json_find "$ref" s = Some (JString ref) -> resolve root ref = Some sub -> accepts n root sub j = true.
Proof using Type.
  intros Ha Hs Hr. pose proof (accepts_keyword _ _ _ _ _ _ Ha Hs) as Hk. unfold keyword in Hk. cbn in Hk. by rewrite Hr in Hk.
Qed.
End AcceptedFacts.

(** Membership in a list that is written out. *)
Ltac in_list := solve [repeat first [apply list_elem_of_here | apply list_elem_of_further]].

(** ** The filters *)

Section Filters.
Context `{RegexLib} `{!RegexSearch} {RL : RegexLaws} (ub : double -> Z).

(** What reads well, or is refused with the exception of an expression. *)
Definition reads {A} (o : outcome A) : Prop := (exists a, o = Val a) \/ o = Throw regex_error.

Lemma reads_val {A} (a : A) : reads (Val a).
Proof using Type. left. eauto. Qed.
Lemma reads_bind {A B} (o : outcome A) (f : A -> outcome B) : reads o -> (forall a, reads (f a)) -> reads (obind o f).
Proof using Type. intros [[a ->] | -> ] Hf; [apply Hf|by right]. Qed.
Lemma reads_regex s : reads (regex_assign s).
Proof using RL.
  destruct (regex_assign s) as [r|e] eqn:E; [apply reads_val|]. apply regex_assign_throws in E. subst. by right.
Qed.
Lemma reads_text t : reads (get_string (Some (JString t))).
Proof using Type. apply reads_val. Qed.

Definition text_schema : json := obj [("type", JString "string")].
Lemma text_accepted n root x s : accepts (S n) root s x = true -> json_find "type" s = Some (JString "string") -> exists t, x = JString t.
Proof using Type. intros Ha Ht. apply has_type_string. by eapply accepted_type. Qed.
Lemma number_reads (o : option json) x : o = Some x -> is_number x = true ->
  reads (get_i64 ub o) /\ reads (get_u64 ub o).
Proof using Type. intros -> Hx. destruct x; try done; split; apply reads_val. Qed.

(** An optional field of an accepted object. *)
Lemma optional_reads {A} n root s j k sub t (read : json -> outcome A) d :
  accepts (S (S n)) root s j = true -> field_schema s k = Some sub -> json_find "type" sub = Some (JString t) ->
  (forall x, has_type t x = true -> reads (read x)) ->
  reads (match json_find k j with Some x => read x | None => Val d end).
Proof using Type.
  intros Ha Hs Ht Hr. destruct (json_find k j) as [x|] eqn:Ex; [|apply reads_val]. apply Hr. by eapply accepted_field_type.
Qed.

Lemma string_reads x : has_type "string" x = true -> reads (get_string (Some x)).
Proof using Type. intros [s ->]%has_type_string. apply reads_val. Qed.
Lemma boolean_reads x : has_type "boolean" x = true -> reads (get_bool x).
Proof using Type. intros [s ->]%has_type_boolean. apply reads_val. Qed.
Lemma integer_reads x : has_type "integer" x = true -> reads (get_i64 ub (Some x)) /\ reads (get_u64 ub (Some x)).
Proof using Type. intros Hx%has_type_integer. by eapply number_reads. Qed.

Lemma split_reads n root j : accepts (S (S n)) root split_schema j = true -> reads (filter_split ub j).
Proof using Type.
  intros Ha. unfold filter_split. repeat (apply reads_bind; [|intros ?]); [| | | | |apply reads_val].
  - eapply optional_reads; [done|reflexivity|reflexivity|]. intros x. apply integer_reads.
  - eapply optional_reads; [done|reflexivity|reflexivity|]. intros x. apply integer_reads.
  - eapply optional_reads; [done|reflexivity|reflexivity|]. intros x. apply string_reads.
  - eapply optional_reads; [done|reflexivity|reflexivity|]. intros x. apply string_reads.
  - eapply optional_reads; [done|reflexivity|reflexivity|]. intros x. apply boolean_reads.
Qed.

Lemma base_reads n root j : accepts (S (S n)) root baseConvert_schema j = true -> reads (filter_base ub j).
Proof using Type.
  intros Ha. assert (is_object j = true) as Ho by exact (accepted_type _ _ _ _ "object" Ha eq_refl).
  destruct (accepted_number _ _ _ _ "in" _ _ Ha Ho eq_refl eq_refl eq_refl) as (x & Hx & Hn); [in_list|].
  destruct (accepted_number _ _ _ _ "out" _ _ Ha Ho eq_refl eq_refl eq_refl) as (y & Hy & Hm); [in_list|].
  unfold filter_base. apply reads_bind; [by eapply number_reads|]. intros ?. apply reads_bind; [by eapply number_reads|]. intros ?.
  apply reads_bind; [|intros ?; apply reads_val].
  eapply optional_reads; [done|reflexivity|reflexivity|]. intros z. apply boolean_reads.
Qed.

Lemma date_reads n root t j : accepts (S (S n)) root date_schema j = true -> reads (filter_date t j).
Proof using Type.
  intros Ha. assert (is_object j = true) as Ho by exact (accepted_type _ _ _ _ "object" Ha eq_refl).
  destruct (accepted_text _ _ _ _ "fmt" _ _ Ha Ho eq_refl eq_refl eq_refl) as (f & Hf); [in_list|].
  unfold filter_date. rewrite Hf. apply reads_bind; [apply reads_val|]. intros ?. apply reads_bind; [|intros ?; apply reads_val].
  eapply optional_reads; [done|reflexivity|reflexivity|]. intros z. apply string_reads.
Qed.

(** The readers of [Transformation], each with the schema of its key. *)
Definition reader_ok (root : json) (c : string) (kr : string * (json -> outcome Filter)) : Prop :=
  exists sub, json_find kr.1 (filter_properties c) = Some sub /\
  forall n v, accepts (S (S n)) root sub v = true -> reads (kr.2 v).

Lemma text_reader root c k (read : json -> outcome Filter) :
  (exists sub, json_find k (filter_properties c) = Some sub /\ json_find "type" sub = Some (JString "string")) ->
  (forall t, reads (read (JString t))) -> reader_ok root c (k, read).
Proof using Type.
  intros (sub & Hs & Ht) Hr. exists sub. split; [done|]. intros n v Ha. destruct (text_accepted _ _ _ _ Ha Ht) as [t ->]. apply Hr.
Qed.

Lemma readers_ok root c : Forall (reader_ok root c) (filter_readers ub).
Proof using RL.
  unfold filter_readers. repeat (apply Forall_cons; split); [..|by apply Forall_nil_2].
  all: try (apply text_reader; [eexists; split; reflexivity|]; intros t; cbn; by repeat (apply reads_bind || apply reads_regex || apply reads_val || intros ?)).
  - exists regexReplace_schema. split; [reflexivity|]. intros n v Ha. cbn [snd].
    assert (is_object v = true) as Ho by exact (accepted_type _ _ _ _ "object" Ha eq_refl).
    destruct (accepted_text _ _ _ _ "rgx" _ _ Ha Ho eq_refl eq_refl eq_refl) as (x & ->); [in_list|].
    destruct (accepted_text _ _ _ _ "fmt" _ _ Ha Ho eq_refl eq_refl eq_refl) as (f & ->); [in_list|].
    by repeat (apply reads_bind || apply reads_regex || apply reads_val || intros ?).
  - eexists. split; [reflexivity|]. intros n v _. apply reads_val.
  - eexists. split; [reflexivity|]. intros n v _. apply reads_val.
  - eexists. split; [reflexivity|]. intros n v _. apply reads_val.
  - exists split_schema. split; [reflexivity|]. intros n v Ha. by eapply split_reads.
  - exists baseConvert_schema. split; [reflexivity|]. intros n v Ha. by eapply base_reads.
  - exists date_schema. split; [reflexivity|]. intros n v Ha. by eapply date_reads.
  - exists date_schema. split; [reflexivity|]. intros n v Ha. by eapply date_reads.
Qed.

Lemma first_reader_reads n root c j l : accepts (S (S (S n))) root (filter_object c) j = true -> Forall (reader_ok root c) l ->
  reads (first_reader l j).
Proof using Type.
  intros Ha. induction 1 as [|[k read] l (sub & Hs & Hr) _ IH]; [apply reads_val|]. cbn [first_reader].
  destruct (json_find k j) as [v|] eqn:Ev; [|done]. apply (Hr n). eapply accepted_field; [exact Ha| |exact Ev]. exact Hs.
Qed.

(** A filter the schema accepts is read, or refused for its expression. *)
Lemma accepted_filter_loads n root c j : accepts (S (S (S (S n)))) root (filter_definition c) j = true ->
  exists r, load_filter ub j = Val r.
Proof using RL.
  intros Ha. assert (reads (first_reader (filter_readers ub) j) \/ j = JString "Size") as [Hr| ->].
  - destruct (accepted_one_of _ _ _ _ _ Ha eq_refl) as (v & Hv & Hav).
    apply elem_of_cons in Hv as [->|Hv].
    + right. destruct (accepted_enum _ _ _ _ _ Hav eq_refl) as (t & -> & Ht). apply list_elem_of_singleton in Ht. congruence.
    + left. apply list_elem_of_singleton in Hv as ->. eapply first_reader_reads; [exact Hav|apply readers_ok].
  - unfold load_filter. destruct (first_reader (filter_readers ub) j) as [f|e]; destruct Hr as [[x Hx]|Hx]; simplify_eq; eauto.
    all: repeat case_match; eauto.
  - eexists. reflexivity.
Qed.
End Filters.

(** ** The items *)

(** The bounds of a random source are integers of the machine. *)
Definition random_in_range (s : string) : Prop :=
  match random_groups s with Some (a, b) => (exists i, stoi a = Val i) /\ (exists i, stoi b = Val i) | None => True end.

(** What the schema does not look at: the bounds of a random source, and the items of
    [onFilterFail], of which [ok] holds here. *)
Inductive careful (ok : json -> Prop) : json -> Prop :=
| careful_item j :
    (forall t, json_find "source" j = Some (JString t) -> random_in_range t) ->
    (forall l x, json_find "onFilterFail" j = Some (JArray l) -> x ∈ l -> ok x) ->
    (forall l x, json_find "onFilterFail" j = Some (JArray l) -> x ∈ l -> careful ok x) ->
    careful ok j.

Section Items.
Context `{RegexLib} `{!RegexSearch} {RL : RegexLaws} (decode : string -> string) (ub : double -> Z).

Definition rule_val {A} (s : string) (r : rule A) : Prop := forall o, r s = Some o -> exists a, o = Val a.

Lemma first_rule_val {A} s (rules : list (rule A)) : Forall (rule_val s) rules -> exists a, first_rule rules s = Val a.
Proof using Type.
  induction 1 as [|r rules Hr _ IH]; [by eexists|]. cbn. destruct (r s) as [o|] eqn:E; [by apply Hr|done].
Qed.
Lemma lit_val {A} s n (a : A) : rule_val s (lit n a).
Proof using Type. intros o. unfold lit. case_decide; [intros [= <-]; eauto|done]. Qed.
Lemma pre_val {A} s n (f : string -> A) : rule_val s (pre n f).
Proof using Type. intros o. unfold pre. destruct (wild_rest n s); cbn; [intros [= <-]; eauto|done]. Qed.
Lemma groups_val {A} s g (f : string -> string -> A) : rule_val s (groups_rule g f).
Proof using Type. intros o. unfold groups_rule. destruct (g s) as [[a b]|]; cbn; [intros [= <-]; eauto|done]. Qed.
Lemma value_val s : rule_val s value_rule.
Proof using Type. intros o. unfold value_rule. destruct (wild "value." s); cbn; [intros [= <-]; eauto|done]. Qed.
Lemma provision_val s : rule_val s clientProvision_rule.
Proof using Type.
  intros o. unfold clientProvision_rule. destruct (clientProvision_groups s) as [[a b]|]; cbn; [|done].
  intros [= <-]. destruct (sempty b); eauto.
Qed.
Lemma random_val s : random_in_range s -> rule_val s random_rule.
Proof using Type.
  unfold random_in_range. intros Hr o. unfold random_rule. destruct (random_groups s) as [[a b]|]; cbn; [|done].
  destruct Hr as [[i ->] [k ->]]. intros [= <-]. cbn. eauto.
Qed.

Ltac rules := repeat (apply Forall_cons; split); try apply Forall_nil_2;
  try (apply lit_val || apply pre_val || apply groups_val || apply value_val || apply provision_val).

Lemma source_loads s : random_in_range s -> exists r, load_source decode s = Val r.
Proof using Type. intros Hr. apply first_rule_val. unfold source_rules. rules. by apply random_val. Qed.
Lemma target_loads s : exists r, load_target decode s = Val r.
Proof using Type. apply first_rule_val. unfold response_body_rules, request_body_rules, other_target_rules, body_rules. cbn [app]. rules. Qed.

(** An item the schema accepts is read, if its random bounds are. *)
Lemma accepted_item_loads n root c src tgt j :
  resolve root "#/definitions/filter" = Some (filter_definition c) ->
  accepts (S (S (S (S (S (S n)))))) root (item_schema src tgt) j = true ->
  (forall t, json_find "source" j = Some (JString t) -> random_in_range t) ->
  exists r, load_item decode ub j = Val r.
Proof using RL.
  intros Hroot Ha Hr. assert (is_object j = true) as Ho by exact (accepted_type _ _ _ _ "object" Ha eq_refl).
  destruct (accepted_text _ _ _ _ "source" _ _ Ha Ho eq_refl eq_refl eq_refl) as (x & Hx); [in_list|].
  destruct (accepted_text _ _ _ _ "target" _ _ Ha Ho eq_refl eq_refl eq_refl) as (y & Hy); [in_list|].
  destruct (source_loads x) as [so Hso]; [by apply Hr|]. destruct (target_loads y) as [ta Hta].
  unfold load_item. rewrite Hx, Hy. cbn [get_string obind].
  assert (exists f, match json_find "filter" j with None => Val (Some None) | Some f => let! r := load_filter ub f in Val (Some <$> r) end = Val f) as [f Hf].
  { destruct (json_find "filter" j) as [f|] eqn:Ef; [|by eexists]. destruct j as [| | | | | | |l]; try done.
    cbn [json_find] in Ef. apply assoc_elem in Ef.
    pose proof (accepted_additional _ _ _ _ _ _ _ Ha eq_refl Ef eq_refl) as Hf.
    pose proof (accepted_ref _ _ _ _ _ _ Hf eq_refl Hroot) as Hd.
    destruct (accepted_filter_loads ub _ _ _ _ Hd) as [r ->]. cbn. eauto. }
  rewrite Hf. cbn [obind]. destruct f as [f|]; [|eauto]. rewrite Hso. cbn [obind]. destruct so as [so|]; [|eauto].
  rewrite Hta. cbn [obind]. destruct ta; eauto.
Qed.

Lemma accepted_transformation_loads n root c src tgt j :
  resolve root "#/definitions/filter" = Some (filter_definition c) ->
  careful (fun x => accepts (S (S (S (S (S (S n)))))) root (item_schema src tgt) x = true) j ->
  accepts (S (S (S (S (S (S n)))))) root (item_schema src tgt) j = true ->
  exists r, Transformation_load decode ub j = Val r.
Proof using RL.
  intros Hroot. induction 1 as [j Hs Hl _ IH]. intros Ha.
  destruct (accepted_item_loads n root c src tgt j Hroot Ha Hs) as [i Hi].
  rewrite Transformation_load_unfold, Hi. cbn [obind]. destruct i as [i|]; [|eauto].
  destruct (json_find "onFilterFail" j) as [[| | | | | |l|]|] eqn:El; eauto.
  assert (exists ts, load_all decode ub l = Val ts) as [ts ->]; [|cbn; eauto].
  assert (forall x, x ∈ l -> exists r, Transformation_load decode ub x = Val r) as Hx.
  { intros x Hx. apply (IH l x); [done|done|]. by apply (Hl l x). }
  clear -Hx. induction l as [|x l IHl]; cbn; [eauto|].
  destruct (Hx x) as [r ->]; [apply list_elem_of_here|]. cbn. destruct r as [t|]; [|eauto].
  destruct IHl as [ts ->]; [intros y Hy; apply Hx; by apply list_elem_of_further|]. cbn. eauto.
Qed.

Lemma accepted_transformations_load n root c src tgt l :
  resolve root "#/definitions/filter" = Some (filter_definition c) ->
  Forall (fun x => accepts (S (S (S (S (S (S n)))))) root (item_schema src tgt) x = true) l ->
  Forall (careful (fun x => accepts (S (S (S (S (S (S n)))))) root (item_schema src tgt) x = true)) l ->
  exists ts, load_transformations decode ub l = Val ts.
Proof using RL.
  intros Hroot Ha. induction Ha as [|x l Hx _ IH]; [by eexists|]. intros [Hc Hcl]%Forall_cons. cbn [load_transformations].
  destruct (accepted_transformation_loads n root c src tgt x) as [t ->]; [done..|]. cbn.
  destruct (IH Hcl) as [ts ->]. cbn. eauto.
Qed.
End Items.
