(* ===== verification/SchemaPatterns.v ===== *)
(** The patterns of the schemas for the sources and the targets of an item, read as
    regular expressions, and the recognizers of [Transformation::load]: what the schemas
    admit is identified by the load, but for the specifications they do not look into. *)
From S2P Require Import Prelude Std Double Json JsonModel External Regex Query Transformation RegexRules AdminServer AdminSchemas.
From stdpp Require Import options.

#[export] Instance std_regex_search : RegexSearch := fun s r => match r with Some x => rx_search x s | None => false end.

(** ** The texts an expression starts with *)

(** After a literal text the expression goes on, is at the end, has something or
    anything. *)
Inductive ending := Through | Ended | Something | Anything.

Definition andthen (a b : string * ending) : string * ending :=
  match a.2 with
  | Through => (a.1 +:+ b.1, b.2)
  | _ => a
  end.

Fixpoint starts (r : re) : list (string * ending) :=
  match r with
  | Eps | Bol | NotAhead _ => [("", Through)]
  | Char c => [(String c "", Through)]
  | Dot | Class_ _ _ => [("", Something)]
  | Star _ _ => [("", Anything)]
  | Seq a b => x ← starts a; map (andthen x) (starts b)
  | Alt a b => starts a ++ starts b
  | Group _ a => starts a
  | Eol => [("", Ended)]
  end.

(** The expression is anchored at the begin. *)
Fixpoint anchored (r : re) : bool :=
  match r with
  | Bol => true
  | Seq a _ | Group _ a => anchored a
  | Alt a b => anchored a && anchored b
  | _ => false
  end.

Lemma anchored_begin r : anchored r = true -> forall p q, accepts_re r p q -> p_begin p = true.
Proof.
  induction r as [|c| |n l|a IHa b IHb|a IHa b IHb|g a IHa|n a IHa| | |a IHa]; cbn; try done.
  - intros Ha p q (m & Hm & _). eauto.
  - intros [Ha Hb]%andb_true_iff p q [|]; eauto.
  - intros Ha p q (m & Hm & _). eauto.
  - by intros _ p q [].
Qed.

(** What is left after the literal text. *)
Definition left_by (e : ending) (rest after : list ascii) : Prop :=
  match e with Through => after = rest | Ended => rest = [] | Something => rest <> [] | Anything => True end.

Definition started (l : list (string * ending)) (p q : pos) : Prop :=
  exists w e rest, (w, e) ∈ l /\ p_rest p = chars w ++ rest /\ left_by e rest (p_rest q).

Lemma started_one e p q : left_by e (p_rest p) (p_rest q) -> started [("", e)] p q.
Proof. intros Hl. exists "", e, (p_rest p). split_and!; [set_solver|done|done]. Qed.
Lemma started_eats f p q : eats f p q -> started [("", Something)] p q.
Proof. intros (c & r & E & _ & ->). apply started_one. cbn. by rewrite E. Qed.
Lemma started_seq la lb p m q : started la p m -> started lb m q -> started (x ← la; map (andthen x) lb) p q.
Proof.
  intros (w & e & rest & Hw & Er & Hl) (w' & e' & rest' & Hw' & Er' & Hl').
  assert ((w, e) ∈ la -> andthen (w, e) (w', e') ∈ (x ← la; map (andthen x) lb)) as Hin.
  { intros _. apply list_elem_of_bind. exists (w, e). split; [|done]. apply list_elem_of_fmap. by exists (w', e'). }
  specialize (Hin Hw). destruct e; cbn in Hl, Hin; [|by exists w, Ended, rest|by exists w, Something, rest|by exists w, Anything, rest].
  exists (w +:+ w'), e', rest'. split_and!; [done|by rewrite Er, <- Hl, Er', chars_app, app_assoc|done].
Qed.

Lemma starts_sound r : forall p q, accepts_re r p q -> started (starts r) p q.
Proof.
  induction r as [|c| |n l|a IHa b IHb|a IHa b IHb|g a IHa|n a IHa| | |a IHa]; intros p q; cbn [accepts_re starts].
  - intros ->. by apply started_one.
  - intros (d & r & E & Hd%Ascii.eqb_eq & ->). subst d. exists (String c ""), Through, r. split_and!; [set_solver|done|done].
  - apply started_eats.
  - apply started_eats.
  - intros (m & Ha%IHa & Hb%IHb). by eapply started_seq.
  - intros [(w & e & rest & Hw & H)%IHa|(w & e & rest & Hw & H)%IHb]; exists w, e, rest; (split; [set_solver|done]).
  - intros _. by apply started_one.
  - intros (m & (w & e & rest & Hw & Er & Hl)%IHa & ->). by exists w, e, rest.
  - intros [_ ->]. by apply started_one.
  - intros [E ->]. by apply started_one.
  - intros [_ ->]. by apply started_one.
Qed.

(** ** Groups do not change what is accepted *)

(** A sequence, to the right. *)
Fixpoint cat (a b : re) : re := match a with Seq x y => Seq x (cat y b) | _ => Seq a b end.
Lemma accepts_cat a b : forall p q, accepts_re (cat a b) p q <-> accepts_re (Seq a b) p q.
Proof.
  induction a as [|c| |n l|x _ y IHy|x _ y _|g x _|n x _| | |x _]; intros p q; try done. cbn [cat accepts_re]. split.
  - intros (m & Hm & (m' & ? & ?)%IHy). eauto.
  - intros (m & (m' & ? & ?) & ?). exists m'. split; [done|]. apply IHy. cbn. eauto.
Qed.

Fixpoint bare (r : re) : re :=
  match r with
  | Seq a b => cat (bare a) (bare b)
  | Alt a b => Alt (bare a) (bare b)
  | Star g a => Star g (bare a)
  | Group _ a => bare a
  | NotAhead a => NotAhead (bare a)
  | _ => r
  end.

(** The same place in the text. *)
Definition same_place (p q : pos) : Prop := p_begin p = p_begin q /\ p_rest p = p_rest q.
#[global] Instance same_place_equiv : Equivalence same_place.
Proof. unfold same_place. split; [done|intros ?? []; done|intros ??? [] []; split; congruence]. Qed.

Definition simulates (R R' : pos -> pos -> Prop) : Prop :=
  forall p q p', R p q -> same_place p p' -> exists q', R' p' q' /\ same_place q q'.

Lemma eats_simulates f : simulates (eats f) (eats f).
Proof. intros p q p' (c & r & E & Hf & ->) [_ Hr]. exists (mkPos false r (p_groups p')). split; [|done]. exists c, r. by rewrite <- Hr. Qed.
Lemma iter_simulates R R' : simulates R R' -> simulates (iter R) (iter R').
Proof.
  intros HR p q p' Hi. revert p'. induction Hi as [p|p m q Hm Hs _ IH]; intros p' Hp; [by exists p'; split; [constructor|]|].
  destruct (HR _ _ _ Hm Hp) as (m' & Hm' & Hp'). destruct (IH m' Hp') as (q' & Hq' & Hs'). exists q'. split; [|done].
  eapply iter_more; [exact Hm'| |exact Hq']. unfold shorter in *. destruct Hp as [_ <-], Hp' as [_ <-]. done.
Qed.

Lemma bare_simulates r : simulates (accepts_re r) (accepts_re (bare r)) /\ simulates (accepts_re (bare r)) (accepts_re r).
Proof.
  induction r as [|c| |n l|a [IH1 IH1'] b [IH2 IH2']|a [IH1 IH1'] b [IH2 IH2']|g a [IH1 IH1']|n a [IH1 IH1']| | |a [IH1 IH1']]; cbn [bare accepts_re].
  - split; intros p q p' -> Hp; by exists p'.
  - split; apply eats_simulates.
  - split; apply eats_simulates.
  - split; apply eats_simulates.
  - split; intros p q p' H Hp; [destruct H as (m & Ha & Hb)|apply accepts_cat in H as (m & Ha & Hb)].
    + destruct (IH1 _ _ _ Ha Hp) as (m' & Ha' & Hm). destruct (IH2 _ _ _ Hb Hm) as (q' & ? & ?). exists q'. rewrite accepts_cat. cbn. eauto.
    + destruct (IH1' _ _ _ Ha Hp) as (m' & Ha' & Hm). destruct (IH2' _ _ _ Hb Hm) as (q' & ? & ?). eauto.
  - split; intros p q p' [Ha|Ha] Hp.
    + destruct (IH1 _ _ _ Ha Hp) as (q' & ? & ?). eauto.
    + destruct (IH2 _ _ _ Ha Hp) as (q' & ? & ?). eauto.
    + destruct (IH1' _ _ _ Ha Hp) as (q' & ? & ?). eauto.
    + destruct (IH2' _ _ _ Ha Hp) as (q' & ? & ?). eauto.
  - split; by apply iter_simulates.
  - split.
    + intros p q p' (m & Ha & ->) Hp. destruct (IH1 _ _ _ Ha Hp) as (q' & ? & ?). eauto.
    + intros p q p' Ha Hp. destruct (IH1' _ _ _ Ha Hp) as (q' & ? & ?). exists (capture n p' q'). eauto.
  - split; intros p q p' [Hb ->] Hp; exists p'; (split; [|done]); by rewrite <- (proj1 Hp).
  - split; intros p q p' [Hb ->] Hp; exists p'; (split; [|done]); by rewrite <- (proj2 Hp).
  - split; intros p q p' [Hb ->] Hp; exists p'; (split; [|done]); (split; [|done]); intros (m & Hm); apply Hb.
    + destruct (IH1' _ _ _ Hm (symmetry Hp)) as (q' & ? & ?). eauto.
    + destruct (IH1 _ _ _ Hm (symmetry Hp)) as (q' & ? & ?). eauto.
Qed.

(** An expression that says the same but for its groups. *)
Lemma match_bare r x s q : accepts_re r (at_begin (chars s)) q -> p_rest q = [] -> bare r = bare (rx_re x) -> is_Some (rx_match x s).
Proof.
  intros Hq Er Eb. destruct (proj1 (bare_simulates r) _ _ _ Hq (reflexivity _)) as (q1 & H1 & E1). rewrite Eb in H1.
  destruct (proj2 (bare_simulates (rx_re x)) _ _ _ H1 (reflexivity _)) as (q2 & H2 & E2).
  apply match_accepts. exists q2. split; [done|]. by rewrite <- (proj2 E2), <- (proj2 E1).
Qed.

(** ** What a pattern of the schemas admits *)

#[global] Instance re_eq_dec : EqDecision re.
Proof. solve_decision. Defined.
#[global] Instance ending_eq_dec : EqDecision ending.
Proof. solve_decision. Defined.

Fixpoint alternatives (r : re) : list re := match r with Alt a b => a :: alternatives b | _ => [r] end.
Lemma alternatives_sound r p q : accepts_re r p q -> exists a, a ∈ alternatives r /\ accepts_re a p q.
Proof.
  induction r as [|c| |n l|a IHa b IHb|a IHa b IHb|g a IHa|n a IHa| | |a IHa]; intros H;
    try (eexists; split; [apply list_elem_of_here|exact H]).
  destruct H as [H|H]; [exists a; split; [apply list_elem_of_here|done]|].
  destruct (IHb H) as (x & Hx & Ha). exists x. split; [by apply list_elem_of_further|done].
Qed.

Definition random_text : string := "^random\.([-+]{0,1}[0-9]+)\.([-+]{0,1}[0-9]+)$".
(** The alternative of the schemas for a random source: the code's without its groups. *)
Definition random_bare : option re := (fun x => bare (rx_re x)) <$> rx_compile random_text.

(** The texts the other alternatives start with. *)
Definition heads (pattern : string) : list (string * ending) :=
  match rx_compile pattern with
  | Some x => if anchored (rx_re x) then a ← alternatives (rx_re x); (if decide (Some (bare a) = random_bare) then [] else starts a) else [("", Anything)]
  | None => []
  end.

(** Whether there is an alternative for a random source. *)
Definition has_random (pattern : string) : bool :=
  match rx_compile pattern with
  | Some x => existsb (fun a => bool_decide (Some (bare a) = random_bare)) (alternatives (rx_re x))
  | None => false
  end.

(** A text that starts with one of them. *)
Definition headed (l : list (string * ending)) (s : string) : Prop :=
  exists w e t, (w, e) ∈ l /\ s = w +:+ t /\ match e with Through | Anything => True | Ended => t = "" | Something => t <> "" end.

Lemma random_ends a p q : Some (bare a) = random_bare -> accepts_re a p q -> p_rest q = [].
Proof.
  intros Eb Ha. destruct (proj1 (bare_simulates a) _ _ _ Ha (reflexivity _)) as (q' & Hq & [_ ->]).
  clear Ha. revert Hq Eb. generalize (bare a). intros r Hq Eb. vm_compute in Eb. injection Eb as ->.
  cbn -[eats] in Hq. repeat (destruct Hq as (? & _ & Hq)). by destruct Hq as [E ->].
Qed.

Lemma admitted_text pattern s : matches pattern s = true ->
  headed (heads pattern) s \/ (has_random pattern = true /\ is_Some (random_groups s)).
Proof.
  unfold matches, heads, has_random, regex_assign, regex_search, std_regex, std_regex_search. destruct (rx_compile pattern) as [x|]; [|done].
  intros Hs. destruct (anchored (rx_re x)) eqn:Ea; [|left; exists "", Anything, s; split_and!; [set_solver|done|done]].
  unfold rx_search in Hs. destruct (search_from _ _ _) eqn:E; [|done].
  assert (is_Some (search_from (rx_re x) true (chars s))) as (a & b & q & Es & Hq)%search_correct by (by rewrite E).
  pose proof (anchored_begin _ Ea _ _ Hq) as Hb. cbn in Hb. apply bool_decide_eq_true in Hb as ->. cbn in Es. subst b.
  destruct (alternatives_sound _ _ _ Hq) as (r & Hr & Hq'). destruct (decide (Some (bare r) = random_bare)) as [Eb|Hne].
  - right. split; [apply existsb_exists; exists r; split; [by apply list_elem_of_In|by apply bool_decide_eq_true]|].
    pose proof (random_ends _ _ _ Eb Hq') as Er. pose proof (random_match s) as Hm. unfold matches_of in Hm. fold random_text in Hm.
    unfold random_bare in Eb. destruct (rx_compile random_text) as [y|] eqn:Ey; [|done]. cbn in Eb, Hm. injection Eb as Eb.
    destruct (match_bare _ _ _ _ Hq' Er Eb) as [m Em]. rewrite Em in Hm. destruct (random_groups s); [eauto|done].
  - left. destruct (starts_sound _ _ _ Hq') as (w & e & rest & Hw & Er & Hl). exists w, e, (str rest). split_and!.
    + apply list_elem_of_bind. exists r. split; [|done]. by rewrite decide_False.
    + apply chars_inj. by rewrite chars_app, chars_str.
    + destruct e; cbn in Hl; [done|by rewrite Hl|by destruct rest|done].
Qed.

(** ** What is admitted is identified *)

(** The load identifies a specification: it fails on it, if it does, for another reason. *)
Definition never_none {A} (s : string) (r : rule A) : Prop := r s <> Some (Val None).
Lemma first_rule_hits {A} (rules : list (rule A)) s :
  Forall (never_none s) rules -> Exists (fun r => is_Some (r s)) rules -> first_rule rules s <> Val None.
Proof.
  intros Hn He. induction Hn as [|r rules Hr Hn IH]; [by apply Exists_nil in He|]. cbn. unfold never_none in Hr.
  destruct (r s) as [o|] eqn:E; [congruence|]. apply IH. apply Exists_cons in He as [[x Hx]|He]; [congruence|done].
Qed.
Lemma rules_hit {A} (r : rule A) rules s : r ∈ rules -> is_Some (r s) -> Exists (fun r => is_Some (r s)) rules.
Proof. intros Hr Hs. apply Exists_exists. eauto. Qed.

Lemma one_line_app a b : one_line (a +:+ b) = one_line a && one_line b.
Proof. unfold one_line. by rewrite chars_app, forallb_app. Qed.
Lemma pre_starts {A} pattern (f : string -> A) s :
  one_line s = true -> starts_with pattern s = true -> is_Some (pre pattern f s).
Proof.
  intros Hl [t ->]%starts_with_spec. rewrite one_line_app in Hl. apply andb_true_iff in Hl as [Hp Ht]. rewrite pre_hit by done. eauto.
Qed.

Section Identified.
Context (decode : string -> string).

Definition source_prefixes : list string :=
  ["request.uri.param."; "request.body."; "response.body."; "request.header."; "math."; "randomset."; "timestamp."; "strftime.";
   "var."; "serverEvent."; "clientEvent."; "response.header."; "txtFile."; "binFile."; "command."].
Definition source_names : list string :=
  ["request.uri"; "request.uri.path"; "request.body"; "response.body"; "request.headers"; "response.headers"; "eraser"; "recvseq";
   "sendseq"; "response.statusCode"; "inState"].

Definition target_prefixes : list string :=
  ["response.body.json.string."; "response.body.json.integer."; "response.body.json.unsigned."; "response.body.json.float.";
   "response.body.json.boolean."; "response.body.json.object."; "response.body.json.jsonstring.";
   "request.body.json.string."; "request.body.json.integer."; "request.body.json.unsigned."; "request.body.json.float.";
   "request.body.json.boolean."; "request.body.json.object."; "request.body.json.jsonstring.";
   "request.header."; "response.header."; "var."; "txtFile."; "binFile."; "udpSocket."; "serverEvent."; "clientEvent."].
Definition target_names : list string :=
  ["response.body.string"; "response.body.hexstring"; "response.body.json.string"; "response.body.json.integer"; "response.body.json.unsigned";
   "response.body.json.float"; "response.body.json.boolean"; "response.body.json.object"; "response.body.json.jsonstring";
   "request.body.string"; "request.body.hexstring"; "request.body.json.string"; "request.body.json.integer"; "request.body.json.unsigned";
   "request.body.json.float"; "request.body.json.boolean"; "request.body.json.object"; "request.body.json.jsonstring";
   "request.delayMs"; "request.timeoutMs"; "request.uri"; "request.method"; "response.statusCode"; "response.delayMs"; "outState"; "break";
   "outState.POST"; "outState.GET"; "outState.PUT"; "outState.DELETE"; "outState.HEAD"].
Definition outState_prefixes : list string := ["outState.POST."; "outState.GET."; "outState.PUT."; "outState.DELETE."; "outState.HEAD."].

Definition target_rules : list (rule Target) := response_body_rules ++ request_body_rules ++ other_target_rules decode.

(** Goes through the names and through the rules. *)
Ltac each_name H := repeat (apply elem_of_cons in H as [-> |H]); [..|by apply elem_of_nil in H].
Ltac rule_named w tac other :=
  unfold source_rules, target_rules, response_body_rules, request_body_rules, other_target_rules, body_rules; cbn [app];
  repeat lazymatch goal with
    | |- Exists _ (pre ?n _ :: _) => tryif unify w n then (apply Exists_cons; left; tac) else (apply Exists_cons; right)
    | |- Exists _ (lit ?n _ :: _) => tryif unify w n then (apply Exists_cons; left; tac) else (apply Exists_cons; right)
    | |- Exists _ (groups_rule outState_groups _ :: _) => apply Exists_cons; first [left; other | right]
    | |- Exists _ (_ :: _) => apply Exists_cons; right
    end.
Ltac hit_by_prefix Hl Hs := match type of Hs with starts_with ?w _ = true => rule_named w ltac:(apply (pre_starts _ _ _ Hl Hs)) fail end.
Ltac hit_by_name := match goal with |- Exists (fun r => is_Some (r ?w)) _ => rule_named w ltac:(eexists; reflexivity) ltac:(eexists; reflexivity) end.

Lemma source_prefix_hits w s : w ∈ source_prefixes -> one_line s = true -> starts_with w s = true ->
  Exists (fun r => is_Some (r s)) (source_rules decode).
Proof. intros Hw Hl Hs. unfold source_prefixes in Hw. each_name Hw; hit_by_prefix Hl Hs. Qed.
Lemma source_name_hits w : w ∈ source_names -> Exists (fun r => is_Some (r w)) (source_rules decode).
Proof. intros Hw. unfold source_names in Hw. each_name Hw; hit_by_name. Qed.
Lemma target_prefix_hits w s : w ∈ target_prefixes -> one_line s = true -> starts_with w s = true ->
  Exists (fun r => is_Some (r s)) target_rules.
Proof. intros Hw Hl Hs. unfold target_prefixes in Hw. each_name Hw; hit_by_prefix Hl Hs. Qed.
Lemma target_name_hits w : w ∈ target_names -> Exists (fun r => is_Some (r w)) target_rules.
Proof. intros Hw. unfold target_names in Hw. each_name Hw; hit_by_name. Qed.

Lemma value_hits t : Exists (fun r => is_Some (r ("value." +:+ t))) (source_rules decode).
Proof. apply (rules_hit value_rule); [|eexists; reflexivity]. unfold source_rules. repeat first [apply list_elem_of_here | apply list_elem_of_further]. Qed.
Lemma random_hits s : is_Some (random_groups s) -> Exists (fun r => is_Some (r s)) (source_rules decode).
Proof.
  intros [[a b] E]. apply (rules_hit random_rule); [unfold source_rules; repeat first [apply list_elem_of_here | apply list_elem_of_further]|].
  unfold random_rule. rewrite E. cbn. eauto.
Qed.

Lemma outState_hits w t : w ∈ outState_prefixes -> one_line t = true -> t <> "" -> Exists (fun r => is_Some (r (w +:+ t))) target_rules.
Proof.
  intros Hw Hl Ht. apply (rules_hit (groups_rule outState_groups (fun m u => mkTarget OutState m (sdrop 1 u) []))).
  - unfold target_rules, other_target_rules. apply elem_of_app. right. apply elem_of_app. right.
    repeat first [apply list_elem_of_here | apply list_elem_of_further].
  - unfold groups_rule. rewrite fmap_is_Some. unfold outState_prefixes in Hw. pose proof (optional_tail_dot _ Hl Ht) as Ho.
    each_name Hw; match goal with |- is_Some (outState_groups (?w +:+ t)) =>
      let m := eval vm_compute in (stake (String.length w - 10) (sdrop 9 w)) in
      change (is_Some (match optional_tail (String "." t) with Some u => Some (m, u) | None => None end)) end; rewrite Ho; eauto.
Qed.

(** A text that starts as the schemas want it is identified. *)
Definition source_head_ok (h : string * ending) : bool :=
  let '(w, e) := h in
  starts_with "vault." w || bool_decide (w = "value.")
  || match e with Ended => existsb (String.eqb w) source_names | _ => false end
  || existsb (fun p => starts_with p w) source_prefixes.
Definition target_head_ok (h : string * ending) : bool :=
  let '(w, e) := h in
  starts_with "vault." w || starts_with "clientProvision." w
  || match e with Ended => existsb (String.eqb w) target_names | Something => existsb (String.eqb w) outState_prefixes | _ => false end
  || existsb (fun p => starts_with p w) target_prefixes.

Lemma starts_with_trans a b t : starts_with a b = true -> starts_with a (b +:+ t) = true.
Proof. intros [u ->]%starts_with_spec. apply starts_with_spec. exists (u +:+ t). by rewrite string_app_assoc. Qed.
Lemma existsb_name w l : existsb (String.eqb w) l = true -> w ∈ l.
Proof. intros (x & Hx & ->%String.eqb_eq)%existsb_exists. by apply list_elem_of_In. Qed.

Lemma source_head_hits l s : forallb source_head_ok l = true -> headed l s -> one_line s = true -> starts_with "vault." s = false ->
  Exists (fun r => is_Some (r s)) (source_rules decode).
Proof.
  intros Ho (w & e & t & Hw & -> & He) Hl Hv. apply list_elem_of_In in Hw. pose proof (proj1 (forallb_forall _ _) Ho _ Hw) as H. unfold source_head_ok in H.
  apply orb_true_iff in H as [[[H|H]%orb_true_iff|H]%orb_true_iff|H].
  - by rewrite (starts_with_trans _ _ t H) in Hv.
  - apply bool_decide_eq_true in H as ->. apply value_hits.
  - destruct e; try done. subst t. rewrite string_app_nil_r. by apply source_name_hits, existsb_name.
  - apply existsb_exists in H as (p & Hp & Hs). eapply source_prefix_hits; [by apply list_elem_of_In|done|by apply starts_with_trans].
Qed.

Lemma target_head_hits l s : forallb target_head_ok l = true -> headed l s -> one_line s = true ->
  starts_with "vault." s = false -> starts_with "clientProvision." s = false -> Exists (fun r => is_Some (r s)) target_rules.
Proof.
  intros Ho (w & e & t & Hw & -> & He) Hl Hv Hc. apply list_elem_of_In in Hw. pose proof (proj1 (forallb_forall _ _) Ho _ Hw) as H. unfold target_head_ok in H.
  apply orb_true_iff in H as [[[H|H]%orb_true_iff|H]%orb_true_iff|H].
  - by rewrite (starts_with_trans _ _ t H) in Hv.
  - by rewrite (starts_with_trans _ _ t H) in Hc.
  - destruct e; try done.
    + subst t. rewrite string_app_nil_r. by apply target_name_hits, existsb_name.
    + rewrite one_line_app in Hl. apply andb_true_iff in Hl as [_ Hl]. apply outState_hits; [by apply existsb_name|done|done].
  - apply existsb_exists in H as (p & Hp & Hs). eapply target_prefix_hits; [by apply list_elem_of_In|done|by apply starts_with_trans].
Qed.

Lemma lit_never {A} s n (a : A) : never_none s (lit n a).
Proof. unfold never_none, lit. by case_decide. Qed.
Lemma pre_never {A} s n (f : string -> A) : never_none s (pre n f).
Proof. unfold never_none, pre. by destruct (wild_rest n s). Qed.
Lemma groups_never {A} s g (f : string -> string -> A) : never_none s (groups_rule g f).
Proof. unfold never_none, groups_rule. by destruct (g s) as [[]|]. Qed.
Lemma value_never s : never_none s value_rule.
Proof. unfold never_none, value_rule. by destruct (wild "value." s). Qed.
Lemma random_never s : never_none s random_rule.
Proof. unfold never_none, random_rule. destruct (random_groups s) as [[a b]|]; [|done]. cbn. destruct (stoi a); [|done]. cbn. by destruct (stoi b). Qed.
Lemma clientProvision_never s : starts_with "clientProvision." s = false -> never_none s clientProvision_rule.
Proof. unfold never_none, clientProvision_rule, clientProvision_groups. by intros ->. Qed.

Ltac nevers := repeat (apply Forall_cons; split); try apply Forall_nil_2;
  try (apply lit_never || apply pre_never || apply groups_never || apply value_never || apply random_never || by apply clientProvision_never).

(** The patterns of the three schemas. *)
Definition source_patterns : list string := [server_items_source; client_items_source; response_items_source].
Definition target_patterns : list string := [server_items_target; client_items_target; response_items_target].

Lemma admitted_source p s : p ∈ source_patterns -> matches p s = true -> one_line s = true -> starts_with "vault." s = false ->
  load_source decode s <> Val None.
Proof.
  intros Hp Hm Hl Hv. assert (forallb source_head_ok (heads p) = true) as Ho.
  { unfold source_patterns in Hp. each_name Hp; vm_compute; reflexivity. }
  apply first_rule_hits; [unfold source_rules; nevers|].
  apply admitted_text in Hm as [Hh|[_ Hr]]; [by eapply source_head_hits|by apply random_hits].
Qed.

Lemma admitted_target p s : p ∈ target_patterns -> matches p s = true -> one_line s = true ->
  starts_with "vault." s = false -> starts_with "clientProvision." s = false -> load_target decode s <> Val None.
Proof.
  intros Hp Hm Hl Hv Hc. assert (forallb target_head_ok (heads p) = true /\ has_random p = false) as [Ho Hr].
  { unfold target_patterns in Hp. each_name Hp; split; vm_compute; reflexivity. }
  apply admitted_text in Hm as [Hh|[Hr' _]]; [|congruence].
  apply first_rule_hits; [|by eapply target_head_hits]. unfold response_body_rules, request_body_rules, other_target_rules, body_rules.
  cbn [app]. nevers.
Qed.
End Identified.

(** C14: the patterns of the schemas and the load agree: a source or target of one line that
    the pattern of one of the three schemas admits is identified by the load, which then
    fails, if it does, only with an exception of its numbers; excepted are the specifications
    of the vault and of a client provision, into which the patterns do not look. *)
Theorem admitted_is_identified (decode : string -> string) (s : string) :
  one_line s = true -> starts_with "vault." s = false ->
  (existsb (fun p => matches p s) source_patterns = true -> load_source decode s <> Val None) /\
  (starts_with "clientProvision." s = false -> existsb (fun p => matches p s) target_patterns = true -> load_target decode s <> Val None).
Proof.
  intros Hl Hv. split.
  - intros (p & Hp%list_elem_of_In & Hm)%existsb_exists. by eapply admitted_source.
  - intros Hc (p & Hp%list_elem_of_In & Hm)%existsb_exists. by eapply admitted_target.
Qed.

Lemma admitted_is_identified_witness :
  existsb (fun p => matches p "outState.POST./uri") target_patterns = true /\ load_target id "outState.POST./uri" <> Val None.
Proof.
  split; [vm_compute; reflexivity|]. apply (proj2 (admitted_is_identified id "outState.POST./uri" eq_refl eq_refl)); vm_compute; reflexivity.
Defined.

(** The exceptions are real: an entry of the vault with a second dot that is no path, a
    client provision without state, a line terminator after a prefix. *)
Example admitted_not_identified :
  let nl := String (cz 10) "" in
  map (fun s => (existsb (fun p => matches p s) source_patterns, match load_source id s with Val None => true | _ => false end))
    ["vault.a.b"; "math.1" +:+ nl; "txtFile.a" +:+ nl]
  = [(true, true); (true, true); (true, true)] /\
  map (fun s => (existsb (fun p => matches p s) target_patterns, match load_target id s with Val None => true | _ => false end))
    ["vault.a.b"; "clientProvision.id"; "var.a" +:+ nl]
  = [(true, true); (true, true); (true, true)].
Proof. vm_compute. split; reflexivity. Qed.
