(* ===== verification/SchemaProperties.v ===== *)
(** What the schemas of the operations ([AdminSchemas.v]) give to the operations: the loads
    of the documents they accept do not throw, except for what they do not look at, and the
    keys of the provisions they accept are their own. *)
From S2P Require Import Prelude Std Double Functions Query Json JsonModel External JsonConstraint Keys DataPart MockEvents MockData TypeConverter Vault Transformation Reports ClientEndpoint Schema Stages ServerProvision ServerAdmin TrafficServer ClientProvision Ticker ClientFlow AdminServer AdminSchemas.
From stdpp Require Import options.
#[local] Open Scope Z_scope.

(** ** Code that returns *)

Definition returns {S A} (m : M S A) : Prop := forall s, exists s' a, m s = (s', Val a).

Lemma returns_ret {S A} (a : A) : returns (S := S) (ret a).
Proof. intros s. by exists s, a. Qed.
Lemma returns_get {S} : returns (S := S) get.
Proof. intros s. by exists s, s. Qed.
Lemma returns_modify {S} (f : S -> S) : returns (modify f).
Proof. intros s. by exists (f s), tt. Qed.
Lemma returns_lift {S A} (o : outcome A) : (exists a, o = Val a) -> returns (S := S) (lift o).
Proof. intros [a ->] s. by exists s, a. Qed.
Lemma returns_bind {S A B} (m : M S A) (f : A -> M S B) : returns m -> (forall a, returns (f a)) -> returns (bind m f).
Proof. intros Hm Hf s. unfold bind. destruct (Hm s) as (s' & a & ->). apply Hf. Qed.
#[export] Hint Resolve returns_ret returns_get returns_modify : h2.

(** Each of the documents of a load. *)
Definition each (P : json -> Prop) (j : json) : Prop := match j with JArray l => Forall P l | _ => P j end.

Lemma returns_load {S} (single : json -> M S LoadResult) j : each (fun x => returns (single x)) j -> returns (load_document single j).
Proof.
  unfold load_document, each. destruct j as [| | | | | |l|]; try done. induction 1 as [|x l Hx _ IH]; cbn [load_items]; [apply returns_ret|].
  apply returns_bind; [done|]. intros [| |]; auto with h2.
Qed.

(** ** The documents that are accepted *)

Section Loads.
Context `{JsonText} `{RegexLib} `{!RegexSearch} {RL : RegexLaws} `{SchemaLib} (decode : string -> string) (ub : double -> Z).

Lemma schema_document_loads j : accepts7 schema_schema j = true -> exists r, AdminSchema_load j = Val r.
Proof using Type.
  intros Ha. assert (is_object j = true) as Ho by exact (accepted_type _ _ _ _ "object" Ha eq_refl).
  destruct (accepted_text _ _ _ _ "id" _ _ Ha Ho eq_refl eq_refl eq_refl) as (t & Ht); [in_list|].
  destruct (accepted_required _ _ _ _ _ "schema" Ha eq_refl) as [s Hs]; [in_list|done|].
  unfold AdminSchema_load. rewrite Ht, Hs. cbn. eauto.
Qed.

(** The fields a matching configuration is read from are there. *)
Lemma matching_document_fields j : accepts7 server_matching_schema j = true ->
  (exists alg, json_find "algorithm" j = Some alg) /\ exists q, load_qparams j = Val q.
Proof using Type.
  intros Ha. unfold accepts7 in Ha. assert (is_object j = true) as Ho by exact (accepted_type _ _ _ _ "object" Ha eq_refl).
  split; [apply (accepted_required _ _ _ _ _ "algorithm" Ha eq_refl); [in_list|done]|].
  unfold load_qparams. destruct (json_find "uriPathQueryParameters" j) as [q|] eqn:Eq; [|by eexists].
  pose proof (accepted_field _ _ _ _ "uriPathQueryParameters" _ _ Ha eq_refl Eq) as Hq.
  assert (is_object q = true) as Hoq by exact (accepted_type _ _ _ _ "object" Hq eq_refl).
  destruct (accepted_required _ _ _ _ _ "filter" Hq eq_refl) as [f Hf]; [in_list|done|]. rewrite Hf. by eexists.
Qed.

Lemma endpoint_document_loads j e : accepts7 client_endpoint_schema j = true -> exists r, Endpoint_load ub j e = Val r.
Proof using Type.
  intros Ha. assert (is_object j = true) as Ho by exact (accepted_type _ _ _ _ "object" Ha eq_refl).
  destruct (accepted_text _ _ _ _ "id" _ _ Ha Ho eq_refl eq_refl eq_refl) as (t & Ht); [in_list|].
  destruct (accepted_text _ _ _ _ "host" _ _ Ha Ho eq_refl eq_refl eq_refl) as (h & Hh); [in_list|].
  destruct (accepted_number _ _ _ _ "port" _ _ Ha Ho eq_refl eq_refl eq_refl) as (p & Hp & Hn); [in_list|].
  unfold Endpoint_load. rewrite Ht, Hh, Hp. destruct p; try done; cbn; eauto.
Qed.

(** Headers and bodies. *)
Lemma headers_load l : (forall k x, (k, x) ∈ l -> exists t, x = JString t) -> forall h, exists h', headers_field l h = Val h'.
Proof using Type.
  induction l as [|[k x] l IH]; intros Hl h; [by eexists|]. cbn.
  destruct (Hl k x) as [t ->]; [apply list_elem_of_here|]. cbn. apply IH. intros k' y Hy. apply (Hl k'). by apply list_elem_of_further.
Qed.
Definition headers_schema : json := obj [("additionalProperties", obj [("type", JString "string")]); ("type", JString "object")].
Lemma accepted_headers_load n root s j k :
  accepts (S (S (S n))) root s j = true -> field_schema s k = Some headers_schema ->
  exists h, match json_find k j with Some (JObject l) => headers_field l [] | _ => Val [] end = Val h.
Proof using Type.
  intros Ha Hs. destruct (json_find k j) as [x|] eqn:Ex; [|by eexists]. destruct x as [| | | | | | |l]; try (by eexists).
  apply headers_load. intros k' y Hy. pose proof (accepted_field _ _ _ _ _ _ _ Ha Hs Ex) as Hx.
  pose proof (accepted_additional _ _ _ _ _ _ _ Hx eq_refl Hy eq_refl) as Ht. eapply text_accepted; [exact Ht|reflexivity].
Qed.
Definition dumps (o : option json) : Prop := forall b, o = Some b -> exists s, json_dump b = Val s.
Lemma body_loads o : dumps o -> exists r, body_field o = Val r.
Proof using Type.
  intros Hd. destruct o as [b|]; [|by eexists]. destruct (Hd b eq_refl) as [s Hs]. destruct b; cbn; try (by eexists); rewrite Hs; cbn; eauto.
Qed.
Lemma get_u32_number x : is_number x = true -> exists z, get_u32 ub (Some x) = Val z.
Proof using Type. destruct x; try done; cbn; eauto. Qed.

(** The items of a field. *)
Lemma accepted_items_load n root c s j k sub src tgt :
  resolve root "#/definitions/filter" = Some (filter_definition c) ->
  accepts (S (S (S (S (S (S (S (S n)))))))) root s j = true -> field_schema s k = Some sub ->
  json_find "type" sub = Some (JString "array") -> json_find "items" sub = Some (item_schema src tgt) ->
  (forall l, json_find k j = Some (JArray l) -> Forall (careful (fun x => accepts (S (S (S (S (S (S n)))))) root (item_schema src tgt) x = true)) l) ->
  exists ts, match json_find k j with Some v => load_transformations decode ub (json_elements v) | None => Val [] end = Val ts.
Proof using RL.
  intros Hroot Ha Hs Ht Hi Hc. destruct (json_find k j) as [x|] eqn:Ex; [|by eexists].
  pose proof (accepted_field _ _ _ _ _ _ _ Ha Hs Ex) as Hx. destruct (has_type_array x) as [l ->]; [by eapply accepted_type|].
  cbn [json_elements]. eapply accepted_transformations_load; [exact Hroot| |by apply Hc].
  apply Forall_forall. intros y Hy. by eapply accepted_items.
Qed.

(** What the schema of a provision does not look at: bodies that have no text, and in the
    items the bounds of random sources and the items of [onFilterFail]. *)
Definition server_care (j : json) : Prop :=
  dumps (json_find "responseBody" j) /\
  forall l, json_find "transform" j = Some (JArray l) ->
    Forall (careful (fun x => accepts 14 server_provision_schema (item_schema server_items_source server_items_target) x = true)) l.

Lemma server_provision_loads j rm : accepts7 server_provision_schema j = true -> server_care j ->
  exists r, Provision_load decode ub j rm = Val r.
Proof using RL.
  intros Ha [Hd Hc]. unfold accepts7 in Ha. assert (is_object j = true) as Ho by exact (accepted_type _ _ _ _ "object" Ha eq_refl).
  destruct (accepted_text _ _ _ _ "requestMethod" _ _ Ha Ho eq_refl eq_refl eq_refl) as (m & Hm); [in_list|].
  destruct (accepted_number _ _ _ _ "responseCode" _ _ Ha Ho eq_refl eq_refl eq_refl) as (c & Hcode & Hn); [in_list|].
  destruct (get_u32_number c Hn) as [code Hu].
  destruct (accepted_headers_load _ _ _ _ "responseHeaders" Ha eq_refl) as [h Hh].
  destruct (body_loads _ Hd) as [[b t] Hb].
  destruct (accepted_items_load 8 server_provision_schema "^(?!$)(?!!$).*$" _ _ "transform" _ _ _ eq_refl Ha eq_refl eq_refl eq_refl Hc) as [ts Hts].
  assert (exists z, match json_find "responseDelayMs" j with Some v => if is_number v then get_u32 ub (Some v) else Val 0 | None => Val 0 end = Val z) as [d Hdel].
  { destruct (json_find "responseDelayMs" j) as [v|]; [|by eexists]. destruct (is_number v) eqn:Ev; [|by eexists]. by apply get_u32_number. }
  unfold Provision_load. rewrite Hm, Hcode. cbn [get_string obind]. rewrite Hu. cbn [obind].
  destruct (negb (schema_field_ok "requestSchemaId" j)); [by eexists|]. destruct (negb (schema_field_ok "responseSchemaId" j)); [by eexists|].
  rewrite Hh. cbn [obind]. rewrite Hb. cbn [obind]. rewrite Hdel. cbn [obind]. rewrite Hts. cbn [obind].
  destruct rm; [|by eexists]. destruct (regex_assign _) as [r|e] eqn:Er; [by eexists|]. apply regex_assign_throws in Er. subst. by eexists.
Qed.

Definition client_care (j : json) : Prop :=
  dumps (json_find "requestBody" j) /\
  (forall l, json_find "transform" j = Some (JArray l) ->
     Forall (careful (fun x => accepts 14 client_provision_schema (item_schema client_items_source client_items_target) x = true)) l) /\
  (forall l, json_find "onResponseTransform" j = Some (JArray l) ->
     Forall (careful (fun x => accepts 14 client_provision_schema (item_schema response_items_source response_items_target) x = true)) l).

Lemma number_field_loads k j : exists z, number_field ub k j = Val z.
Proof using Type.
  unfold number_field. destruct (json_find k j) as [v|]; [|by eexists]. destruct (is_number v) eqn:Ev; [|by eexists]. by apply get_u32_number.
Qed.

Lemma client_provision_loads j : accepts7 client_provision_schema j = true -> client_care j ->
  exists r, ClientProvision_load decode ub j = Val r.
Proof using RL.
  intros Ha (Hd & Hc & Hc'). unfold accepts7 in Ha. assert (is_object j = true) as Ho by exact (accepted_type _ _ _ _ "object" Ha eq_refl).
  destruct (accepted_text _ _ _ _ "id" _ _ Ha Ho eq_refl eq_refl eq_refl) as (m & Hm); [in_list|].
  destruct (accepted_headers_load _ _ _ _ "requestHeaders" Ha eq_refl) as [h Hh].
  destruct (body_loads _ Hd) as [[b t] Hb].
  destruct (accepted_items_load 8 client_provision_schema "^!?.*$" _ _ "transform" _ _ _ eq_refl Ha eq_refl eq_refl eq_refl Hc) as [ts Hts].
  destruct (accepted_items_load 8 client_provision_schema "^!?.*$" _ _ "onResponseTransform" _ _ _ eq_refl Ha eq_refl eq_refl eq_refl Hc') as [rts Hrts].
  destruct (number_field_loads "requestDelayMs" j) as [d Hdel]. destruct (number_field_loads "timeoutMs" j) as [ti Hti].
  destruct (number_field_loads "expectedResponseStatusCode" j) as [ex Hex].
  unfold ClientProvision_load. rewrite Hm. cbn [get_string obind].
  destruct (in_state_field j); [|by eexists]. destruct (out_state_field j); [|by eexists].
  destruct (negb (schema_field_ok "requestSchemaId" j)); [by eexists|]. destruct (negb (schema_field_ok "responseSchemaId" j)); [by eexists|].
  rewrite Hh. cbn [obind]. rewrite Hb. cbn [obind]. rewrite Hdel. cbn [obind]. rewrite Hti. cbn [obind]. rewrite Hex. cbn [obind].
  unfold items_field. rewrite Hts. cbn [obind]. rewrite Hrts. cbn [obind].
  unfold cp_saveDynamics, saveDynamics. cbn [cp_json cp_dyn]. destruct j as [| | | | | | |l]; try done. cbn [as_object obind].
  destruct (json_find "dynamics" (JObject l)) as [x|] eqn:Ex; [|by eexists]. exfalso. cbn [json_find] in Ex. apply assoc_elem in Ex.
  pose proof (accepted_additional _ _ _ _ _ _ _ Ha eq_refl Ex eq_refl) as Hf. done.
Qed.
End Loads.

(** ** The operations *)

Section Operations.
Context `{JsonEq} `{JsonText} `{JsonPointer} `{RegexLib} `{!RegexSearch} {RL : RegexLaws} `{SchemaLib} {VL : ValidatorLaws}
  `{Calculus} {OS : Type} `{Outside OS} `{AdminOutside OS} `{StdSort}.
Context (decode_url : string -> string) (ub : double -> Z).

Lemma op_valid_accepts o j : op_valid adminSchemas o j = true <-> accepts7 (adminSchemas o) j = true.
Proof using VL.
  unfold op_valid, op_schema, setJson. destruct (operation_schema o) as [v Hv]. rewrite Hv. cbn.
  pose proof (validates o v j Hv) as Hl. destruct (schema_error v j); [|by rewrite <- Hl]. rewrite <- Hl. done.
Qed.

(** The parts of the agent. *)
Ltac by_part Hm := intros Hm s; edestruct Hm as (? & ? & E); rewrite E; eauto.
Lemma returns_server {A} (m : M (Server OS) A) : returns m -> returns (on_server m).
Proof using Type. unfold on_server. by_part Hm. Qed.
Lemma returns_flow {A} (m : M (Flow (OS := OS)) A) : returns m -> returns (on_flow m).
Proof using Type. unfold on_flow. by_part Hm. Qed.
Lemma returns_provisions {A} (m : M ProvisionData A) : returns m -> returns (on_provisions (OS := OS) m).
Proof using Type. unfold on_provisions. by_part Hm. Qed.
Lemma returns_matching {A} (m : M Config A) : returns m -> returns (on_matching (OS := OS) m).
Proof using Type. unfold on_matching. by_part Hm. Qed.
Lemma returns_schemas {A} (m : M (gmap string AdminSchema) A) : returns m -> returns (on_schemas (OS := OS) m).
Proof using Type. unfold on_schemas. by_part Hm. Qed.
Lemma returns_endpoints lazy connections valid j : returns (ep_load ub lazy connections valid j) ->
  returns (load_endpoints (OS := OS) ub lazy connections valid j).
Proof using Type. unfold load_endpoints. by_part Hm. Qed.

(** What the validation excludes is not loaded. *)
Ltac valid_only o j := destruct (op_valid adminSchemas o j) eqn:Ev; [apply op_valid_accepts in Ev|apply returns_ret].

Lemma schema_single j : returns (schema_loadSingle (op_valid adminSchemas OpSchema) j).
Proof using VL.
  unfold schema_loadSingle. valid_only OpSchema j. cbn [negb]. apply returns_bind; [by apply returns_lift, schema_document_loads|].
  intros [s|]; [|apply returns_ret]. apply returns_bind; auto with h2.
Qed.

Lemma endpoint_single lazy connections j : returns (ep_loadSingle ub lazy connections (op_valid adminSchemas OpClientEndpoint) j).
Proof using VL.
  unfold ep_loadSingle. valid_only OpClientEndpoint j. cbn [negb]. apply returns_bind; [by apply returns_lift, endpoint_document_loads|].
  intros [ok e]. destruct (negb ok); [apply returns_ret|]. apply returns_bind; [apply returns_get|]. intros d.
  destruct (endpoint_find (ep_key e) d) as [r|]; [|apply returns_bind; auto with h2]. case_match; [|apply returns_ret].
  apply returns_bind; [by apply returns_lift, endpoint_document_loads|]. intros [? ?]. apply returns_bind; auto with h2.
Qed.

Lemma endpoint_items lazy connections l : forall b, returns (ep_load_items ub lazy connections (op_valid adminSchemas OpClientEndpoint) l b).
Proof using VL.
  induction l as [|j l IH]; intros b; cbn [ep_load_items]; [apply returns_ret|].
  apply returns_bind; [apply endpoint_single|]. intros []; auto with h2.
Qed.

Lemma endpoint_load lazy connections j : returns (ep_load ub lazy connections (op_valid adminSchemas OpClientEndpoint) j).
Proof using VL. unfold ep_load. destruct j; try apply endpoint_single. apply endpoint_items. Qed.

Lemma matching_returns j : returns (matching_load (op_valid adminSchemas OpServerMatching) j).
Proof using VL.
  unfold matching_load. valid_only OpServerMatching j. cbn [negb]. apply matching_document_fields in Ev as [[alg Halg] Hq].
  case_match; [|apply returns_ret]. repeat (case_match; simplify_eq).
  all: apply returns_bind; [by apply returns_lift|]; intros q'; repeat case_match; try apply returns_ret; apply returns_bind; auto with h2.
Qed.

Lemma each_all (P : json -> Prop) j : (forall x, P x) -> each P j.
Proof using Type. intros HP. destruct j; cbn; try apply HP. by apply Forall_forall. Qed.

(** C10: whatever document is posted, and whatever the agent holds, the operations that
    configure schemas, matching and endpoints answer: no exception leaves them and nothing
    they do is undefined, because the schemas exclude what the loads cannot read.  (Without
    the schema the matching would dereference the iterators of missing fields:
    [matching_needs_its_schema].) *)
Theorem configuration_never_throws (j : json) :
  returns (S := Agent (OS := OS)) (schema adminSchemas j) /\
  returns (S := Agent (OS := OS)) (serverMatching adminSchemas j) /\
  returns (S := Agent (OS := OS)) (clientEndpoint ub adminSchemas j).
Proof using VL.
  split_and!.
  - apply returns_bind; [|intros; apply returns_ret]. apply returns_schemas, returns_load, each_all, schema_single.
  - apply returns_bind; [|intros; apply returns_ret]. apply returns_server, returns_matching, matching_returns.
  - apply returns_bind; [apply returns_get|]. intros a. apply returns_bind; [|intros []; apply returns_ret].
    apply returns_flow, returns_endpoints, endpoint_load.
Qed.

(** The load of the matching configuration alone relies on the validation. *)
Theorem matching_needs_its_schema :
  (matching_load (fun _ => true) (JObject []) Config_new).2 = Throw undefined /\
  (matching_load (fun _ => true) (obj [("algorithm", JString "FullMatching"); ("uriPathQueryParameters", JObject [])]) Config_new).2 = Throw undefined.
Proof using Type. by split. Qed.

(** C11: whatever provisions are posted, no exception leaves their operations, if their
    bodies have a text, the bounds of their random sources are integers, and the items of
    their [onFilterFail] are what the schema would accept as items: the rest of what the
    loads rely on is excluded by the schemas. *)
Theorem provisions_never_throw (j : json) :
  (each server_care j -> returns (S := Agent (OS := OS)) (serverProvision decode_url ub adminSchemas j)) /\
  (each client_care j -> returns (S := Agent (OS := OS)) (clientProvision decode_url ub adminSchemas j)).
Proof using RL VL.
  split; intros Hc.
  - apply returns_bind; [apply returns_get|]. intros a. apply returns_bind.
    2: { intros r. apply returns_bind; [apply returns_get|]. intros. apply returns_ret. }
    apply returns_server, returns_provisions, returns_load.
    assert (forall x, server_care x -> returns (pd_loadSingle decode_url ub (op_valid adminSchemas OpServerProvision)
      (bool_decide (algorithm (s_matching (ag_server a)) = RegexMatching)) x)) as Hx.
    { intros x Hx. unfold pd_loadSingle. valid_only OpServerProvision x. cbn [negb].
      apply returns_bind; [by apply returns_lift, server_provision_loads|]. intros [p|]; [apply returns_bind; auto with h2|apply returns_ret]. }
    destruct j; cbn in Hc |- *; auto. eapply Forall_impl; [exact Hc|exact Hx].
  - apply returns_bind; [|intros r; apply returns_bind; [apply returns_get|]; intros; apply returns_ret].
    apply returns_flow, returns_load.
    assert (forall x, client_care x -> returns (cpd_loadSingle (OS := OS) decode_url ub (op_valid adminSchemas OpClientProvision) x)) as Hx.
    { intros x Hx. unfold cpd_loadSingle. valid_only OpClientProvision x. cbn [negb].
      apply returns_bind; [by apply returns_lift, client_provision_loads|]. intros [p|]; [|apply returns_ret].
      apply returns_bind; [apply returns_get|]. intros. apply returns_bind; auto with h2. }
    destruct j; cbn in Hc |- *; auto. eapply Forall_impl; [exact Hc|exact Hx].
Qed.
End Operations.

(** ** Keys *)

(** The pattern of states and identifiers. *)
Class PatternLaws `{RegexLib} `{!RegexSearch} := {
  no_hash : forall s, matches "^[^#]*$" s = true <-> no_char "#" s
}.

Section OwnKeys.
Context `{JsonText} `{RegexLib} `{!RegexSearch} {PL : PatternLaws} `{SchemaLib} {VL : ValidatorLaws} (decode : string -> string) (ub : double -> Z).

Lemma provision_key j rm p : Provision_load decode ub j rm = Val (Some p) ->
  pr_key p = calculateStringKey (in_state_ p) (request_method_ p) (request_uri_ p) /\
  in_state_ p = state_field "inState" j /\ json_find "requestMethod" j = Some (JString (request_method_ p)).
Proof using Type.
  intros Hl. unfold Provision_load in Hl. apply obind_val in Hl as (m & Hm & Hl). apply obind_val in Hl as (c & _ & Hl).
  destruct (negb (schema_field_ok "requestSchemaId" j)); [done|]. destruct (negb (schema_field_ok "responseSchemaId" j)); [done|].
  apply obind_val in Hl as (h & _ & Hl). apply obind_val in Hl as ([b t] & _ & Hl). apply obind_val in Hl as (d & _ & Hl).
  apply obind_val in Hl as (ts & _ & Hl).
  assert (exists r, json_find "requestMethod" j = Some r /\ r = JString m) as (r & -> & ->).
  { destruct (json_find "requestMethod" j) as [[]|]; try done. injection Hm as <-. eauto. }
  destruct rm; [destruct (regex_assign _) as [x|[]]; try done|]; injection Hl as <-; done.
Qed.

Lemma accepted_state n root s j k : accepts (S (S n)) root s j = true ->
  field_schema s k = Some (obj [("type", JString "string"); ("pattern", JString "^[^#]*$")]) ->
  forall t, json_find k j = Some (JString t) -> no_char "#" t.
Proof using PL.
  intros Ha Hs t Ht. pose proof (accepted_field _ _ _ _ _ _ _ Ha Hs Ht) as Hx. apply no_hash.
  eapply accepted_pattern; [exact Hx|reflexivity].
Qed.

Lemma accepted_method n root s j k sub vs : accepts (S (S n)) root s j = true ->
  field_schema s k = Some sub -> json_find "enum" sub = Some (JArray vs) -> Forall (fun v => forall t, v = JString t -> no_char "#" t) vs ->
  forall t, json_find k j = Some (JString t) -> no_char "#" t.
Proof using Type.
  intros Ha Hs He Hv t Ht. pose proof (accepted_field _ _ _ _ _ _ _ Ha Hs Ht) as Hx.
  destruct (accepted_enum _ _ _ _ _ Hx He) as (t' & [= <-] & Hin). rewrite Forall_forall in Hv. exact (Hv _ Hin t eq_refl).
Qed.

Lemma state_plain j : (forall t, json_find "inState" j = Some (JString t) -> no_char "#" t) -> no_char "#" (state_field "inState" j).
Proof using Type.
  intros Ht. unfold state_field, text_field.
  assert (no_char "#" DEFAULT_ADMIN_PROVISION_STATE) as Hd by (apply (bool_decide_unpack _); vm_compute; exact I).
  destruct (json_find "inState" j) as [x|]; [destruct x|]; try (destruct (sempty _); done).
  destruct (sempty s); [done|]. by apply Ht.
Qed.

Lemma loaded_server_parts j rm p : op_valid adminSchemas OpServerProvision j = true -> Provision_load decode ub j rm = Val (Some p) ->
  no_char "#" (in_state_ p) /\ no_char "#" (request_method_ p).
Proof using PL VL.
  intros Ha%op_valid_accepts (Hk & Hi & Hm)%provision_key. unfold accepts7 in Ha. split.
  - rewrite Hi. apply state_plain. eapply accepted_state; [exact Ha|reflexivity].
  - refine (accepted_method _ _ _ _ "requestMethod" _ _ Ha eq_refl eq_refl _ _ Hm).
    repeat (apply Forall_cons; split); try apply Forall_nil_2; intros t [= <-]; apply (bool_decide_unpack _); vm_compute; exact I.
Qed.

(** C12: two server provisions that are accepted and loaded share their key only if they are
    for the same state, method and URI: neither hides the other. *)
Theorem accepted_provisions_have_their_own_key (j j' : json) (rm rm' : bool) (p p' : AdminServerProvision)
    (Hv : op_valid adminSchemas OpServerProvision j = true) (Hv' : op_valid adminSchemas OpServerProvision j' = true)
    (Hl : Provision_load decode ub j rm = Val (Some p)) (Hl' : Provision_load decode ub j' rm' = Val (Some p'))
    (Hk : pr_key p = pr_key p') :
  in_state_ p = in_state_ p' /\ request_method_ p = request_method_ p' /\ request_uri_ p = request_uri_ p'.
Proof using PL VL.
  destruct (loaded_server_parts _ _ _ Hv Hl) as [Hi Hm]. destruct (loaded_server_parts _ _ _ Hv' Hl') as [Hi' Hm'].
  apply provision_key in Hl as (E & _). apply provision_key in Hl' as (E' & _). rewrite E, E' in Hk.
  by apply calculateStringKey_inj in Hk.
Qed.
End OwnKeys.

(** ** What the schemas let through *)

Section LetThrough.
Context `{JsonText} `{RegexLib} `{!RegexSearch} `{SchemaLib} {VL : ValidatorLaws} (decode : string -> string) (ub : double -> Z).

(** The source of an item of [onFilterFail] may be of any type: the load throws. *)
Definition bad_fallback : json :=
  obj [("requestMethod", JString "GET"); ("responseCode", JUint 200);
       ("transform", arr [obj [("source", JString "eraser"); ("target", JString "response.body.string");
                               ("onFilterFail", arr [obj [("source", JUint 1); ("target", JUint 2)]])]])].

Theorem accepted_fallback_throws (rm : bool)
    (Hs : matches server_items_source "eraser" = true) (Ht : matches server_items_target "response.body.string" = true) :
  op_valid adminSchemas OpServerProvision bad_fallback = true /\ Provision_load decode ub bad_fallback rm = Throw json_exception.
Proof using VL.
  split; [|reflexivity]. apply op_valid_accepts. cbv -[matches server_items_source server_items_target]. rewrite Hs, Ht. reflexivity.
Qed.

(** The bounds of a random source may be of any length. *)
Definition big_random : json :=
  obj [("requestMethod", JString "GET"); ("responseCode", JUint 200);
       ("transform", arr [obj [("source", JString "random.0.2147483648"); ("target", JString "response.body.string")]])].

Theorem accepted_random_throws (rm : bool)
    (Hs : matches server_items_source "random.0.2147483648" = true) (Ht : matches server_items_target "response.body.string" = true) :
  op_valid adminSchemas OpServerProvision big_random = true /\ Provision_load decode ub big_random rm = Throw out_of_range.
Proof using VL.
  split; [|reflexivity]. apply op_valid_accepts. cbv -[matches server_items_source server_items_target]. rewrite Hs, Ht. reflexivity.
Qed.

(** A filter under a misspelled key is accepted, and not read. *)
Definition misspelled_filter : json :=
  obj [("source", JString "eraser"); ("target", JString "response.body.string"); ("fliter", obj [("Append", JString "x")])].

Theorem misspelled_filter_is_ignored
    (Hs : matches server_items_source "eraser" = true) (Ht : matches server_items_target "response.body.string" = true) :
  accepts 14 server_provision_schema (item_schema server_items_source server_items_target) misspelled_filter = true /\
  exists i, load_item decode ub misspelled_filter = Val (Some i) /\ it_filter i = None.
Proof using Type.
  split; [cbv -[matches server_items_source server_items_target]; rewrite Hs, Ht; reflexivity|]. eexists. split; reflexivity.
Qed.
End LetThrough.

(** ** Witnesses *)

Module SchemaExamples.
Import Still.

(** An engine that knows the pattern without ['#'], and finds every other one. *)
#[local] Instance pattern_search : RegexSearch := fun s r =>
  match r with Some p => if decide (p = "^[^#]*$") then bool_decide (no_char "#" s) else true | None => false end.
#[local] Instance pattern_laws : PatternLaws.
Proof. split. intros s. cbn. apply bool_decide_eq_true. Qed.
(** A validator that is the draft. *)
#[local] Instance draft_validator : SchemaLib :=
  {| validator := json; set_root_schema := Some; schema_error := fun s j => if accepts7 s j then None else Some "error" |}.
#[local] Instance draft_laws : ValidatorLaws.
Proof. split; [by eexists|]. intros o v j [= <-]. unfold schema_error, draft_validator. destruct (accepts7 (adminSchemas o) j); split; done. Qed.

Definition get_item : json := obj [("requestMethod", JString "GET"); ("responseCode", JUint 200); ("requestUri", JString "/a#b")].
Definition load (j : json) : outcome (option AdminServerProvision) := Provision_load (fun s => s) (fun _ => 0) j false.
Definition loaded : AdminServerProvision :=
  match load get_item with Val (Some p) => p | _ => mkProvision false JNull "" regex_default "" "" "" "" 0 [] JNull "" 0 "" "" None None [] end.

Lemma accepted_provisions_have_their_own_key_witness : request_uri_ loaded = "/a#b" /\ request_uri_ loaded = request_uri_ loaded.
Proof.
  split; [vm_compute; reflexivity|].
  assert (op_valid adminSchemas OpServerProvision get_item = true) as Hv by (vm_compute; reflexivity).
  assert (Provision_load (fun s => s) (fun _ => 0) get_item false = Val (Some loaded)) as Hl by reflexivity.
  exact (proj2 (proj2 (accepted_provisions_have_their_own_key (fun s => s) (fun _ => 0) get_item get_item false false loaded loaded Hv Hv Hl Hl eq_refl))).
Defined.

Lemma accepted_fallback_throws_witness :
  op_valid adminSchemas OpServerProvision bad_fallback = true /\ load bad_fallback = Throw json_exception.
Proof.
  assert (matches server_items_source "eraser" = true) as Hs by (vm_compute; reflexivity).
  assert (matches server_items_target "response.body.string" = true) as Ht by (vm_compute; reflexivity).
  exact (accepted_fallback_throws (fun s => s) (fun _ => 0) false Hs Ht).
Defined.

#[local] Instance unsorted : StdSort := fun l => l.
#[local] Instance no_files : AdminOutside world :=
  {| files_configuration := fun _ => Val "{}"; files_json := fun _ => Val "[]"; sockets_json := fun _ => Val "[]";
     enable_read_cache := fun _ o => o; malloc_trim := fun o => (false, o) |}.

Lemma configuration_never_throws_witness : returns (S := Agent (OS := world)) (serverMatching adminSchemas (JArray [JNull])).
Proof. exact (proj1 (proj2 (configuration_never_throws (fun _ => 0) (JArray [JNull])))). Defined.

(** A provision with an item that has a fallback. *)
Definition with_fallback : json :=
  obj [("requestMethod", JString "GET"); ("responseCode", JUint 200);
       ("transform", arr [obj [("source", JString "random.0.9"); ("target", JString "response.body.string"); ("filter", JString "Size");
                               ("onFilterFail", arr [obj [("source", JString "eraser"); ("target", JString "break")]])]])].

Lemma careful_of ok j : (forall t, json_find "source" j = Some (JString t) -> random_in_range t) ->
  match json_find "onFilterFail" j with Some (JArray l) => Forall (fun x => ok x /\ careful ok x) l | _ => True end -> careful ok j.
Proof.
  intros Hs Hl. constructor; [done|..]; intros l x E Hx; rewrite E in Hl; rewrite Forall_forall in Hl; by apply Hl in Hx as [].
Qed.

Lemma provisions_never_throw_witness :
  returns (S := Agent (OS := world)) (serverProvision (fun s => s) (fun _ => 0) adminSchemas with_fallback) /\
  created Success = 201.
Proof.
  split; [|reflexivity]. apply (proj1 (provisions_never_throw (fun s => s) (fun _ => 0) with_fallback)).
  split; [by intros b [=]|]. intros l [= <-]. apply Forall_singleton. apply careful_of.
  - intros t [= <-]. split; eexists; reflexivity.
  - apply Forall_singleton. split; [vm_compute; reflexivity|]. apply careful_of; [|done]. intros t [= <-]. done.
Defined.
End SchemaExamples.
