(* ===== verification/Files.v ===== *)
(** The files and sockets the items write to ([src/model/SafeFile.cpp],
    [src/model/FileManager.cpp], [src/model/SafeSocket.cpp] and
    [src/model/SocketManager.cpp]): streams that stay open for a while after a write, the
    bound on the files open at a time, the read cache, and datagrams with a delay. *)
From S2P Require Import Prelude Std Double Json JsonModel External Stages AdminServer.
From stdpp Require Import options.
#[local] Open Scope Z_scope.

(** ** [SafeFile] *)

(** The modes of [std::fstream::open]: input, output at the end of the file, and output
    to an emptied file. *)
Inductive OpenMode := ModeIn | ModeApp | ModeTrunc.

(** The stream ([opened_] with its mode), what it holds back from the file, the timer
    that will close it, and the cache. *)
Record SafeFile := mkSafeFile {
  opened_ : option OpenMode;
  buffer_ : string;
  timer_ : bool;
  read_cached_ : bool;
  data_ : string
}.
Definition SafeFile_closed : SafeFile := mkSafeFile None "" false false "".

Record FileCounters := mkFileCounters {
  observed_open : Z;
  observed_close : Z;
  observed_write : Z;
  observed_empty : Z;
  observed_delayed_close : Z;
  observed_instant_close : Z;
  observed_error_open : Z
}.

(** The file manager, with the number of open files, and the files of the machine. *)
Record FileManager := mkFileManager {
  files_ : gmap string SafeFile;
  read_cache_ : bool;
  current_opened_ : Z;
  file_counters : FileCounters;
  disk_ : gmap string string
}.

Definition with_opened (o : option OpenMode) (f : SafeFile) : SafeFile := mkSafeFile o (buffer_ f) (timer_ f) (read_cached_ f) (data_ f).
Definition with_buffer (b : string) (f : SafeFile) : SafeFile := mkSafeFile (opened_ f) b (timer_ f) (read_cached_ f) (data_ f).
Definition with_timer (b : bool) (f : SafeFile) : SafeFile := mkSafeFile (opened_ f) (buffer_ f) b (read_cached_ f) (data_ f).
Definition with_cache (b : bool) (d : string) (f : SafeFile) : SafeFile := mkSafeFile (opened_ f) (buffer_ f) (timer_ f) b d.

Definition with_current (n : Z) (m : FileManager) : FileManager := mkFileManager (files_ m) (read_cache_ m) n (file_counters m) (disk_ m).
Definition with_disk (d : gmap string string) (m : FileManager) : FileManager :=
  mkFileManager (files_ m) (read_cache_ m) (current_opened_ m) (file_counters m) d.
Definition with_file (p : string) (f : SafeFile) (m : FileManager) : FileManager :=
  mkFileManager (<[p := f]> (files_ m)) (read_cache_ m) (current_opened_ m) (file_counters m) (disk_ m).

Definition inc_open (c : FileCounters) := let 'mkFileCounters o cl w e d i x := c in mkFileCounters (o + 1) cl w e d i x.
Definition inc_close (c : FileCounters) := let 'mkFileCounters o cl w e d i x := c in mkFileCounters o (cl + 1) w e d i x.
Definition inc_write (c : FileCounters) := let 'mkFileCounters o cl w e d i x := c in mkFileCounters o cl (w + 1) e d i x.
Definition inc_empty (c : FileCounters) := let 'mkFileCounters o cl w e d i x := c in mkFileCounters o cl w (e + 1) d i x.
Definition inc_delayed (c : FileCounters) := let 'mkFileCounters o cl w e d i x := c in mkFileCounters o cl w e (d + 1) i x.
Definition inc_instant (c : FileCounters) := let 'mkFileCounters o cl w e d i x := c in mkFileCounters o cl w e d (i + 1) x.
Definition inc_error (c : FileCounters) := let 'mkFileCounters o cl w e d i x := c in mkFileCounters o cl w e d i (x + 1).

Section Files.
(** The limit of open files, whether there are timers and metrics, and the paths that can
    be opened for output. *)
Context (max_open_files_ : Z) (io_context_ metrics_ : bool) (creatable : string -> bool).

Definition counted (g : FileCounters -> FileCounters) (m : FileManager) : FileManager :=
  if metrics_ then mkFileManager (files_ m) (read_cache_ m) (current_opened_ m) (g (file_counters m)) (disk_ m) else m.

(** The machine opens a file: the files after it. *)
Definition disk_open (mode : OpenMode) (p : string) (d : gmap string string) : option (gmap string string) :=
  match mode with
  | ModeIn => if bool_decide (is_Some (d !! p)) then Some d else None
  | ModeApp => if creatable p then Some (<[p := default "" (d !! p)]> d) else None
  | ModeTrunc => if creatable p then Some (<[p := ""]> d) else None
  end.

(** [open]: nothing ([None]) while the limit is reached: the thread waits. *)
Definition sf_open (mode : OpenMode) (p : string) (f : SafeFile) (m : FileManager) : option (bool * SafeFile * FileManager) :=
  match opened_ f with
  | Some _ => Some (true, f, m)
  | None =>
      if current_opened_ m <? max_open_files_ then
        match disk_open mode p (disk_ m) with
        | Some d => Some (true, with_opened (Some mode) f, counted inc_open (with_current (current_opened_ m + 1) (with_disk d m)))
        | None => Some (false, f, counted inc_error m)
        end
      else None
  end.

(** What the stream held back goes to the end of the file. *)
Definition disk_append (p : string) (s : string) (d : gmap string string) : gmap string string := alter (fun c => c +:+ s) p d.

Definition sf_close (p : string) (f : SafeFile) (m : FileManager) : SafeFile * FileManager :=
  match opened_ f with
  | None => (f, m)
  | Some _ => (with_buffer "" (with_opened None f),
               counted inc_close (with_current (current_opened_ m - 1) (with_disk (disk_append p (buffer_ f) (disk_ m)) m)))
  end.

(** The constructor opens the file, whatever comes of it. *)
Definition SafeFile_new (mode : OpenMode) (p : string) (m : FileManager) : option (SafeFile * FileManager) :=
  '(_, f, m) ← sf_open mode p SafeFile_closed m; Some (f, m).

Definition sf_empty (p : string) (f : SafeFile) (m : FileManager) : option (SafeFile * FileManager) :=
  let '(f, m) := sf_close p f m in
  '(_, f, m) ← sf_open ModeTrunc p f m;
  let '(f, m) := sf_close p f m in
  Some (f, counted inc_empty m).

(** The loop of [std::getline]: the lines without their ends. *)
Fixpoint getlines (s chunk result : string) : string :=
  match s with
  | EmptyString => result +:+ chunk
  | String c s' => if bool_decide (c = cz 10) then getlines s' "" (result +:+ chunk) else getlines s' (chunk +:+ String c "") result
  end.

(** What the stream gives: nothing when it was not opened for input. *)
Definition stream_lines (p : string) (f : SafeFile) (m : FileManager) : string :=
  match opened_ f with Some ModeIn => getlines (default "" (disk_ m !! p)) "" "" | _ => "" end.

Definition sf_read (mode : OpenMode) (cached : bool) (p : string) (f : SafeFile) (m : FileManager)
    : option (bool * string * SafeFile * FileManager) :=
  if cached && read_cached_ f then Some (true, data_ f, f, m)
  else
    '(success, f, m) ← sf_open mode p f m;
    let result := if success : bool then stream_lines p f m else "" in
    let '(f, m) := sf_close p f m in
    Some (success, result, (if cached then with_cache success result f else f), m).

(** [write]: the stream passes on [spill] of the characters it holds. *)
Definition sf_write (spill : nat) (data : string) (closeDelayUs : Z) (p : string) (f : SafeFile) (m : FileManager)
    : option (SafeFile * FileManager) :=
  '(success, f, m) ← sf_open ModeApp p f m;
  if negb success then Some (f, m)
  else
    let held := buffer_ f +:+ data in
    let '(f, m) := match opened_ f with
                   | Some ModeIn | None => (f, m)
                   | _ => (with_buffer (sdrop spill held) f, with_disk (disk_append p (stake spill held) (disk_ m)) m)
                   end in
    let m := counted inc_write m in
    if io_context_ && negb (closeDelayUs =? 0) then Some (with_timer true f, counted inc_delayed m)
    else let '(f, m) := sf_close p f m in Some (f, counted inc_instant m).

(** The timer of [delayedClose] expires; [late] is one that was armed again since. *)
Definition sf_expire (late : bool) (p : string) (f : SafeFile) (m : FileManager) : SafeFile * FileManager :=
  sf_close p (with_timer (timer_ f && late) f) m.

Definition sf_getJson (p : string) (f : SafeFile) (d : gmap string string) : json :=
  let j := json_set "path" (JString p) JNull in
  let j := match d !! p with
           | Some c => json_set "state" (JString (match opened_ f with Some _ => "opened" | None => "closed" end))
                         (json_set "bytes" (JUint (to_u32 (Z.of_nat (String.length c)))) j)
           | None => json_set "state" (JString "missing") j
           end in
  if read_cached_ f then json_set "readCache" (JString "true") j else j.

(** ** [FileManager] *)

Definition FileManager_new (d : gmap string string) : FileManager := mkFileManager ∅ false 0 (mkFileCounters 0 0 0 0 0 0 0) d.

(** The file of a path, opened when it is new. *)
Definition file_at (mode : OpenMode) (p : string) (m : FileManager) : option (SafeFile * FileManager) :=
  match files_ m !! p with
  | Some f => Some (f, m)
  | None => '(f, m) ← SafeFile_new mode p m; Some (f, with_file p f m)
  end.

Definition fm_write_ (spill : nat) (p data : string) (textOrBinary : bool) (closeDelayUs : Z) (m : FileManager) : option FileManager :=
  '(f, m) ← file_at ModeApp p m;
  '(f, m) ← sf_write spill data closeDelayUs p f m;
  Some (with_file p f m).

Definition fm_read_ (p : string) (textOrBinary : bool) (m : FileManager) : option (bool * string * FileManager) :=
  '(f, m) ← file_at ModeIn p m;
  '(success, data, f, m) ← sf_read ModeIn (read_cache_ m) p f m;
  Some (success, data, with_file p f m).

Definition fm_empty_ (p : string) (m : FileManager) : option FileManager :=
  '(f, m) ← file_at ModeApp p m;
  '(f, m) ← sf_empty p f m;
  Some (with_file p f m).

Definition enableReadCache (b : bool) (m : FileManager) : FileManager :=
  mkFileManager (files_ m) b (current_opened_ m) (file_counters m) (disk_ m).

(** The timer of a file expires. *)
Definition fm_expire (late : bool) (p : string) (m : FileManager) : FileManager :=
  match files_ m !! p with
  | Some f => let '(f, m) := sf_expire late p f m in with_file p f m
  | None => m
  end.

Definition fm_getConfigurationJson (m : FileManager) : json :=
  json_set "readCache" (JString (if read_cache_ m then "enabled" else "disabled")) JNull.
Definition fm_getJson (m : FileManager) : json :=
  JArray ((fun pf => sf_getJson pf.1 pf.2 (disk_ m)) <$> map_to_list (files_ m)).
Definition fm_asJsonString `{JsonText} (m : FileManager) : outcome string :=
  if bool_decide (files_ m = ∅) then Val "[]" else json_dump (fm_getJson m).
End Files.

(** ** [SafeSocket] and [SocketManager] *)

Record SafeSocket := mkSafeSocket { socket_ : Z; sun_path : string }.

Record SocketCounters := mkSocketCounters {
  socket_open : Z;
  socket_write : Z;
  socket_delayed_write : Z;
  socket_instant_write : Z;
  socket_error_open : Z
}.

(** The sockets, the datagrams whose timer runs, and the datagrams handed to [sendto]:
    the socket, the address and the data. *)
Record SocketManager := mkSocketManager {
  sockets_ : gmap string SafeSocket;
  delayed_ : list (SafeSocket * string);
  sent_ : list (SafeSocket * string);
  socket_counters : SocketCounters
}.
Definition SocketManager_new : SocketManager := mkSocketManager ∅ [] [] (mkSocketCounters 0 0 0 0 0).

Definition inc_socket_open (c : SocketCounters) := let 'mkSocketCounters o w d i x := c in mkSocketCounters (o + 1) w d i x.
Definition inc_socket_write (c : SocketCounters) := let 'mkSocketCounters o w d i x := c in mkSocketCounters o (w + 1) d i x.
Definition inc_socket_delayed (c : SocketCounters) := let 'mkSocketCounters o w d i x := c in mkSocketCounters o w (d + 1) i x.
Definition inc_socket_instant (c : SocketCounters) := let 'mkSocketCounters o w d i x := c in mkSocketCounters o w d (i + 1) x.
Definition inc_socket_error (c : SocketCounters) := let 'mkSocketCounters o w d i x := c in mkSocketCounters o w d i (x + 1).

Section Sockets.
(** Timers, metrics, and the size of [sun_path]. *)
Context (io_context_ metrics_ : bool) (sun_path_size : nat).

Definition tallied (g : SocketCounters -> SocketCounters) (m : SocketManager) : SocketManager :=
  if metrics_ then mkSocketManager (sockets_ m) (delayed_ m) (sent_ m) (g (socket_counters m)) else m.

(** A C string ends at its first zero. *)
Definition c_str (s : string) : string := match find_char (cz 0) s with Some i => stake i s | None => s end.

(** [open] with the descriptor [fd] of the system: [strcpy] to a field that is too small
    is undefined, and without a socket the address is not set. *)
Definition ss_open (p : string) (fd : Z) (m : SocketManager) : outcome SafeSocket * SocketManager :=
  if 0 <=? fd then
    (if (String.length (c_str p) <? sun_path_size)%nat then Val (mkSafeSocket fd (c_str p)) else Throw undefined, tallied inc_socket_open m)
  else (Val (mkSafeSocket fd ""), tallied inc_socket_error m).

Definition sendto (s : SafeSocket) (data : string) (m : SocketManager) : SocketManager :=
  mkSocketManager (sockets_ m) (delayed_ m) (sent_ m ++ [(s, data)]) (socket_counters m).

Definition ss_write (s : SafeSocket) (data : string) (writeDelayUs : Z) (fromDelayed : bool) (m : SocketManager) : SocketManager :=
  let m := if writeDelayUs =? 0
           then let m := tallied inc_socket_write m in if fromDelayed then m else tallied inc_socket_instant m
           else m in
  if io_context_ && negb (writeDelayUs =? 0)
  then let m := tallied inc_socket_delayed m in
       mkSocketManager (sockets_ m) (delayed_ m ++ [(s, data)]) (sent_ m) (socket_counters m)
  else sendto s data m.

(** The timer of the [i]th delayed datagram expires. *)
Definition ss_expire (i : nat) (m : SocketManager) : SocketManager :=
  match delayed_ m !! i with
  | Some (s, data) =>
      ss_write s data 0 true (mkSocketManager (sockets_ m) (delete i (delayed_ m)) (sent_ m) (socket_counters m))
  | None => m
  end.

Definition sm_write_ (fd : Z) (p data : string) (writeDelayUs : Z) (m : SocketManager) : outcome unit * SocketManager :=
  match sockets_ m !! p with
  | Some s => (Val tt, ss_write s data writeDelayUs false m)
  | None =>
      let '(o, m) := ss_open p fd m in
      match o with
      | Throw e => (Throw e, m)
      | Val s =>
          let m := mkSocketManager (<[p := s]> (sockets_ m)) (delayed_ m) (sent_ m) (socket_counters m) in
          (Val tt, ss_write s data writeDelayUs false m)
      end
  end.

Definition ss_getJson (p : string) (s : SafeSocket) : json := json_set "socket" (JInt (socket_ s)) (json_set "path" (JString p) JNull).
Definition sm_getJson (m : SocketManager) : json := JArray ((fun ps => ss_getJson ps.1 ps.2) <$> map_to_list (sockets_ m)).
Definition sm_asJsonString `{JsonText} (m : SocketManager) : outcome string :=
  if bool_decide (sockets_ m = ∅) then Val "[]" else json_dump (sm_getJson m).
End Sockets.

(** ** The machine *)

(** The outside of the agent with these managers: a thread that waits for a file to be
    closed is continued when the timer of one expires. *)
Section Machine.
Context {O : Type} `{!Outside O} `{!AdminOutside O} `{JsonText}.
Context (max_open_files_ : Z) (metrics_ : bool) (creatable : string -> bool) (sun_path_size : nat).

(** What is left of the outside, the two managers, and the descriptors of the system. *)
Record Machine := mkMachine {
  ma_rest : O;
  ma_files : FileManager;
  ma_sockets : SocketManager;
  ma_descriptors : list Z
}.
Definition on_rest {A} (f : O -> A * O) (x : Machine) : A * Machine :=
  let '(a, o) := f (ma_rest x) in (a, mkMachine o (ma_files x) (ma_sockets x) (ma_descriptors x)).
Definition with_files (m : FileManager) (x : Machine) : Machine := mkMachine (ma_rest x) m (ma_sockets x) (ma_descriptors x).

(** The first file whose timer runs. *)
Definition expiring (m : FileManager) : option string :=
  fst <$> find (fun pf => timer_ pf.2 && match opened_ pf.2 with Some _ => true | None => false end) (map_to_list (files_ m)).
(** An operation, after the expiration of a timer when it had to wait. *)
Definition waited {A} (f : FileManager -> option (A * FileManager)) (x : Machine) : option (A * Machine) :=
  let done m := '(a, m) ← f m; Some (a, with_files m x) in
  match done (ma_files x) with
  | Some r => Some r
  | None => p ← expiring (ma_files x); done (fm_expire metrics_ false p (ma_files x))
  end.
Definition or_stuck {A} (a : A) (x : Machine) (r : option (A * Machine)) : A * Machine := default (a, x) r.

#[export] Instance machine : Outside Machine :=
  {| os_rand := on_rest os_rand; os_clock_ns := on_rest os_clock_ns;
     os_strftime := fun f n => on_rest (os_strftime f n); os_popen := fun c => on_rest (os_popen c);
     fm_read := fun p text x => or_stuck "" x (waited (fun m => '(_, data, m) ← fm_read_ max_open_files_ metrics_ creatable p text m; Some (data, m)) x);
     fm_write := fun p data text delay x =>
       (or_stuck tt x (waited (fun m => m ← fm_write_ max_open_files_ true metrics_ creatable 0 p data text delay m; Some (tt, m)) x)).2;
     fm_empty := fun p x => (or_stuck tt x (waited (fun m => m ← fm_empty_ max_open_files_ metrics_ creatable p m; Some (tt, m)) x)).2;
     sm_write := fun p data delay x =>
       let '(fd, rest) := match ma_descriptors x with fd :: l => (fd, l) | [] => (-1, []) end in
       let '(o, s) := sm_write_ true metrics_ sun_path_size fd p data delay (ma_sockets x) in
       (o, mkMachine (ma_rest x) (ma_files x) s (match sockets_ (ma_sockets x) !! p with Some _ => ma_descriptors x | None => rest end)) |}.
#[export] Instance machine_admin : AdminOutside Machine :=
  {| files_configuration := fun x => json_dump (fm_getConfigurationJson (ma_files x));
     files_json := fun x => fm_asJsonString (ma_files x);
     sockets_json := fun x => sm_asJsonString (ma_sockets x);
     enable_read_cache := fun b x => with_files (enableReadCache b (ma_files x)) x;
     malloc_trim := on_rest malloc_trim |}.
End Machine.
