(* ===== verification/FileProperties.v ===== *)
(** What the files and sockets of [Files.v] promise: the bound on the open files, that a
    thread that waits for one goes on, contents as the writes in their order, what a read
    gives, and datagrams that are sent once. *)
From S2P Require Import Prelude Std Double Json JsonModel External Stages AdminServer Files.
From stdpp Require Import options.
#[local] Open Scope Z_scope.

(** The text of a file as a read gives it. *)
Definition without_newlines (t : string) : string := str (filter (fun c => c <> cz 10) (chars t)).
Lemma getlines_eq t chunk result : getlines t chunk result = result +:+ chunk +:+ without_newlines t.
Proof.
  revert chunk result. induction t as [|c t IH]; intros chunk result; cbn [getlines]; [by rewrite string_app_nil_r|].
  unfold without_newlines in *. rewrite chars_cons. case_bool_decide.
  - rewrite filter_cons_False by tauto. rewrite IH. apply string_app_assoc.
  - rewrite filter_cons_True, IH by done. by rewrite string_app_assoc.
Qed.

(** ** The invariant of the file manager *)

Section FileInvariant.
Context (max_open_files_ : Z) (io_context_ metrics_ : bool) (creatable : string -> bool).
Implicit Types (m : FileManager) (f : SafeFile) (p q : string).
#[local] Notation sf_open := (sf_open max_open_files_ metrics_ creatable).
#[local] Notation sf_close := (sf_close metrics_).
#[local] Notation counted := (counted metrics_).
#[local] Notation file_at := (file_at max_open_files_ metrics_ creatable).

Definition is_open f : bool := match opened_ f with Some _ => true | None => false end.
Definition open_files (fs : gmap string SafeFile) : gmap string SafeFile := filter (fun pf => is_open pf.2 = true) fs.

(** A stream: closed, nothing is held back; open for output, the file exists and can be
    written. *)
Definition stream_ok p f m : Prop :=
  (opened_ f = None -> buffer_ f = "") /\
  (forall mode, opened_ f = Some mode -> is_Some (disk_ m !! p) /\ (mode = ModeIn -> buffer_ f = "") /\ (mode <> ModeIn -> creatable p = true)).
(** Between operations an open stream appends, and its timer is going to close it. *)
Definition at_rest f : Prop := is_open f = true -> opened_ f = Some ModeApp /\ timer_ f = true.

Definition counters_ok m : Prop :=
  metrics_ = true ->
  observed_open (file_counters m) - observed_close (file_counters m) = current_opened_ m /\
  observed_write (file_counters m) = observed_delayed_close (file_counters m) + observed_instant_close (file_counters m).

(** The manager while an operation has the file [f] of the path [p] in hand. *)
Record hand p f m : Prop := {
  hd_own : stream_ok p f m;
  hd_others : forall q g, q <> p -> files_ m !! q = Some g -> stream_ok q g m /\ at_rest g;
  hd_count : current_opened_ m = Z.of_nat (size (open_files (delete p (files_ m)))) + (if is_open f then 1 else 0);
  hd_bound : 0 <= current_opened_ m <= max_open_files_
}.
Definition held p f m : Prop := hand p f m /\ counters_ok m.

Definition files_inv m : Prop :=
  (forall p f, files_ m !! p = Some f -> stream_ok p f m /\ at_rest f) /\
  current_opened_ m = Z.of_nat (size (open_files (files_ m))) /\ 0 <= current_opened_ m <= max_open_files_ /\ counters_ok m.

Lemma open_files_insert p f (fs : gmap string SafeFile) :
  size (open_files (<[p := f]> fs)) = (size (open_files (delete p fs)) + (if is_open f then 1 else 0))%nat.
Proof.
  rewrite <- insert_delete_eq. unfold open_files. destruct (is_open f) eqn:E.
  - rewrite map_filter_insert_True by done. rewrite map_size_insert_None; [lia|]. apply map_lookup_filter_None. left. apply lookup_delete_eq.
  - rewrite map_filter_insert_False by (cbn; congruence). rewrite delete_delete_eq. lia.
Qed.

(** Taking a file in hand and putting it back. *)
Lemma hand_take p f m : files_inv m -> files_ m !! p = Some f -> held p f m.
Proof.
  intros (Hf & Hc & Hb & Hk) Hp. split; [|done]. split; [by apply (Hf p f Hp)|by intros q g _ Hq; apply Hf| |done].
  rewrite Hc, <- (insert_id _ _ _ Hp), open_files_insert. rewrite delete_insert_eq. destruct (is_open f); lia.
Qed.
Lemma hand_new p m : files_inv m -> files_ m !! p = None -> held p SafeFile_closed m.
Proof.
  intros (Hf & Hc & Hb & Hk) Hp. split; [|done]. split; [split; done|by intros q g _ Hq; apply Hf| |done].
  rewrite Hc, delete_id by done. cbn. lia.
Qed.
Lemma hand_add p f g m : held p f m -> held p f (with_file p g m).
Proof.
  intros [[Hown Hot Hc Hb] Hk]. split; [|done]. split; [done| |cbn; by rewrite delete_insert_eq|done].
  intros q h Hq. cbn. rewrite lookup_insert_ne by done. by apply Hot.
Qed.
Lemma hand_put p f m : held p f m -> at_rest f -> files_inv (with_file p f m).
Proof.
  intros [[Hown Hot Hc Hb] Hk] Hr. split_and!; cbn; [|rewrite open_files_insert, Hc; destruct (is_open f); lia|lia..|done].
  intros q g. destruct (decide (q = p)) as [->|Hq]; [rewrite lookup_insert_eq; by intros [= <-]|].
  rewrite lookup_insert_ne by done. by apply Hot.
Qed.

(** No file disappears from the disk. *)
Definition grows (d d' : gmap string string) : Prop := forall q, is_Some (d !! q) -> is_Some (d' !! q).
Lemma stream_ok_grows q f m m' : grows (disk_ m) (disk_ m') -> stream_ok q f m -> stream_ok q f m'.
Proof. intros Hg [H1 H2]. split; [done|]. intros mode Hm. destruct (H2 mode Hm) as (? & ? & ?). auto. Qed.
Lemma disk_append_grows p s d : grows d (disk_append p s d).
Proof.
  intros q. unfold disk_append. destruct (decide (q = p)) as [->|]; [|by rewrite lookup_alter_ne].
  rewrite lookup_alter_eq. intros [c ->]. by eexists.
Qed.
Lemma disk_open_grows mode p d d' : disk_open creatable mode p d = Some d' ->
  grows d d' /\ is_Some (d' !! p) /\ (mode <> ModeIn -> creatable p = true).
Proof.
  assert (forall c, grows d (<[p := c]> d) /\ is_Some ((<[p := c]> d) !! p)) as Hi.
  { intros c. split; [|by rewrite lookup_insert_eq]. intros q Hq. destruct (decide (q = p)) as [->|]; [by rewrite lookup_insert_eq|].
    by rewrite lookup_insert_ne. }
  unfold disk_open. destruct mode.
  - case_bool_decide; [|done]. intros [= <-]. split_and!; [by intros q|done|done].
  - destruct (creatable p); [|done]. intros [= <-]. destruct (Hi (default "" (d !! p))). by split_and!.
  - destruct (creatable p); [|done]. intros [= <-]. destruct (Hi ""). by split_and!.
Qed.

Lemma counted_parts g m : files_ (counted g m) = files_ m /\ read_cache_ (counted g m) = read_cache_ m /\
  current_opened_ (counted g m) = current_opened_ m /\ disk_ (counted g m) = disk_ m /\
  (metrics_ = true -> file_counters (counted g m) = g (file_counters m)).
Proof. unfold counted. by destruct metrics_. Qed.

Lemma counted_files g m : files_ (counted g m) = files_ m.
Proof. apply counted_parts. Qed.
Lemma counted_cache g m : read_cache_ (counted g m) = read_cache_ m.
Proof. apply counted_parts. Qed.
Lemma counted_current g m : current_opened_ (counted g m) = current_opened_ m.
Proof. apply counted_parts. Qed.
Lemma counted_disk g m : disk_ (counted g m) = disk_ m.
Proof. apply counted_parts. Qed.

Lemma hand_counted g p f m : hand p f m -> hand p f (counted g m).
Proof.
  intros [Hown Hot Hc Hb]. destruct (counted_parts g m) as (Ef & Er & Ec & Ed & Eg).
  split; unfold stream_ok in *; by rewrite ?Ec, ?Ed, ?Ef.
Qed.
(** Counting with what it adds to the open files and to the writes. *)
Lemma counters_counted g m (n : Z) :
  (metrics_ = true -> observed_open (file_counters m) - observed_close (file_counters m) = n /\
     observed_write (file_counters m) = observed_delayed_close (file_counters m) + observed_instant_close (file_counters m)) ->
  (forall c, observed_open (g c) - observed_close (g c) = observed_open c - observed_close c + (current_opened_ m - n) /\
     observed_write (g c) - observed_delayed_close (g c) - observed_instant_close (g c) =
     observed_write c - observed_delayed_close c - observed_instant_close c) ->
  counters_ok (counted g m).
Proof.
  intros Hn Hg Hm. destruct (counted_parts g m) as (_ & _ & -> & _ & Eg). rewrite (Eg Hm).
  destruct (Hn Hm), (Hg (file_counters m)). lia.
Qed.

Lemma held_open mode p f m b f' m' : held p f m -> sf_open mode p f m = Some (b, f', m') -> held p f' m'.
Proof.
  intros Hh. pose proof Hh as [[Hown Hot Hc Hb] Hk]. unfold Files.sf_open. destruct (opened_ f) as [mo|] eqn:Eo; [by intros [= <- <- <-]|].
  destruct (current_opened_ m <? max_open_files_) eqn:El; [|done]. apply Z.ltb_lt in El.
  destruct (disk_open _ mode p (disk_ m)) as [d|] eqn:Ed; intros [= <- <- <-].
  - destruct (disk_open_grows _ _ _ _ Ed) as (Hg & Hp & Hcr). split.
    + apply hand_counted. split; cbn.
      * split; [done|]. intros mo [= <-]. cbn. split_and!; [done|intros ->; by apply Hown|done].
      * intros q g Hq Hl. destruct (Hot q g Hq Hl). split; [|done]. by eapply stream_ok_grows; [exact Hg|].
      * rewrite Hc. unfold is_open. rewrite Eo. lia.
      * lia.
    + apply (counters_counted _ _ (current_opened_ m)); [exact Hk|]. intros []. cbn. lia.
  - split; [apply hand_counted, Hh|]. apply (counters_counted _ _ (current_opened_ m)); [exact Hk|]. intros []. cbn. lia.
Qed.

Lemma held_close p f m : held p f m -> held p (sf_close p f m).1 (sf_close p f m).2.
Proof.
  intros Hh. pose proof Hh as [[Hown Hot Hc Hb] Hk]. unfold Files.sf_close. destruct (opened_ f) as [mo|] eqn:Eo; [|done]. cbn.
  unfold is_open in Hc. rewrite Eo in Hc. split.
  - apply hand_counted. split; cbn; [by split| |lia|lia].
    intros q g Hq Hl. destruct (Hot q g Hq Hl). split; [|done]. by eapply stream_ok_grows; [apply disk_append_grows|].
  - apply (counters_counted _ _ (current_opened_ m)); [exact Hk|]. intros []. cbn. lia.
Qed.
Lemma closed_after p f m : opened_ (sf_close p f m).1 = None.
Proof. unfold Files.sf_close. by destruct (opened_ f) eqn:E. Qed.
Lemma closed_at_rest p f m : at_rest (sf_close p f m).1.
Proof. unfold at_rest, is_open. by rewrite closed_after. Qed.

(** ** Contents *)

(** What a file will hold once its stream is closed. *)
Definition pending m q : string := match files_ m !! q with Some g => buffer_ g | None => "" end.
Definition abs m : gmap string string := map_imap (fun q c => Some (c +:+ pending m q)) (disk_ m).
Lemma content_lookup m q : abs m !! q = (fun c => c +:+ pending m q) <$> disk_ m !! q.
Proof. unfold abs. rewrite map_lookup_imap. by destruct (disk_ m !! q). Qed.
Lemma abs_with_file p f m q : abs (with_file p f m) !! q = if decide (q = p) then (fun c => c +:+ buffer_ f) <$> disk_ m !! p else abs m !! q.
Proof.
  rewrite !content_lookup. unfold pending. cbn. case_decide; [subst; by rewrite lookup_insert_eq|]. by rewrite lookup_insert_ne.
Qed.
Lemma abs_counted g m : abs (counted g m) = abs m.
Proof. unfold Files.counted. by destruct metrics_. Qed.
Lemma with_file_counted p f g m : with_file p f (counted g m) = counted g (with_file p f m).
Proof. unfold Files.counted. by destruct metrics_. Qed.
Lemma with_file_again p f g m : with_file p f (with_file p g m) = with_file p f m.
Proof. unfold with_file. cbn. by rewrite insert_insert_eq. Qed.

(** Two managers that differ in the file at hand and in its place on the disk. *)
Lemma abs_ext p f m f' m' v :
  files_ m' = files_ m -> (forall q, q <> p -> disk_ m' !! q = disk_ m !! q) ->
  (fun c => c +:+ buffer_ f') <$> disk_ m' !! p = v ->
  abs (with_file p f' m') = partial_alter (fun _ => v) p (abs (with_file p f m)).
Proof.
  intros Hf Hd Hv. apply map_eq. intros q. destruct (decide (q = p)) as [->|Hq].
  - rewrite lookup_partial_alter_eq, abs_with_file, decide_True by done. exact Hv.
  - rewrite lookup_partial_alter_ne by done. rewrite !abs_with_file, !decide_False by done. rewrite !content_lookup. unfold pending.
    by rewrite Hf, Hd.
Qed.
Lemma abs_same p f m f' m' :
  files_ m' = files_ m -> (forall q, q <> p -> disk_ m' !! q = disk_ m !! q) ->
  (fun c => c +:+ buffer_ f') <$> disk_ m' !! p = (fun c => c +:+ buffer_ f) <$> disk_ m !! p ->
  abs (with_file p f' m') = abs (with_file p f m).
Proof.
  intros Hf Hd Hv. rewrite (abs_ext p f m f' m' _ Hf Hd Hv). apply partial_alter_id.
  rewrite abs_with_file. by rewrite decide_True.
Qed.

Definition opened_with mode (p : string) (a : gmap string string) : gmap string string :=
  match mode with
  | ModeIn => a
  | ModeApp => <[p := default "" (a !! p)]> a
  | ModeTrunc => <[p := ""]> a
  end.

Lemma open_done mode p f m b f' m' : held p f m -> sf_open mode p f m = Some (b, f', m') ->
  files_ m' = files_ m /\ read_cache_ m' = read_cache_ m /\ timer_ f' = timer_ f /\ read_cached_ f' = read_cached_ f /\ data_ f' = data_ f /\ is_open f' = b /\
  (is_open f = true -> (b, f', m') = (true, f, m)) /\
  (is_open f = false -> if b then opened_ f' = Some mode else f' = f /\ disk_open creatable mode p (disk_ m) = None) /\
  abs (with_file p f' m') = (if b && negb (is_open f) then opened_with mode p (abs (with_file p f m)) else abs (with_file p f m)).
Proof.
  intros [[[Hbuf _] _ _ _] _]. unfold Files.sf_open, is_open. destruct (opened_ f) as [mo|] eqn:Eo.
  { intros [= <- <- <-]. rewrite Eo. by split_and!. }
  specialize (Hbuf eq_refl). destruct (current_opened_ m <? max_open_files_); [|done].
  destruct (disk_open _ mode p (disk_ m)) as [d|] eqn:Ed; intros [= <- <- <-];
    (split; [by rewrite counted_files|]); (split; [by rewrite counted_cache|]); cbn; rewrite ?Eo; split_and!; try done.
  - rewrite with_file_counted, abs_counted. unfold disk_open in Ed. destruct mode; cbn.
    + case_bool_decide; [|done]. injection Ed as <-. by apply abs_same.
    + destruct (creatable p); [|done]. injection Ed as <-.
      apply abs_ext; cbn; [done|by intros q Hq; rewrite lookup_insert_ne|]. rewrite lookup_insert_eq, abs_with_file, decide_True, Hbuf by done.
      destruct (disk_ m !! p); cbn; by rewrite ?string_app_nil_r.
    + destruct (creatable p); [|done]. injection Ed as <-.
      apply abs_ext; cbn; [done|by intros q Hq; rewrite lookup_insert_ne|]. rewrite lookup_insert_eq. cbn. by rewrite Hbuf.
  - by rewrite with_file_counted, abs_counted.
Qed.

Lemma close_done p f m f' m' : held p f m -> sf_close p f m = (f', m') ->
  held p f' m' /\ files_ m' = files_ m /\ read_cache_ m' = read_cache_ m /\ timer_ f' = timer_ f /\ is_open f' = false /\
  current_opened_ m' = current_opened_ m - (if is_open f then 1 else 0) /\ abs (with_file p f' m') = abs (with_file p f m).
Proof.
  intros Hh Hc. pose proof (held_close p f m Hh) as Hh'. pose proof (closed_after p f m) as Ho. rewrite Hc in Hh', Ho. cbn in Hh', Ho.
  split; [exact Hh'|]. destruct Hh as [[[_ Hex] _ _ _] _]. unfold Files.sf_close, is_open in *. rewrite Ho.
  destruct (opened_ f) as [mo|] eqn:Eo; injection Hc as <- <-; [|split_and!; try done; lia].
  rewrite counted_files, counted_cache, counted_current. cbn. split_and!; try done. rewrite with_file_counted, abs_counted.
  apply abs_same; cbn; [done|by intros q Hq; unfold disk_append; rewrite lookup_alter_ne|]. unfold disk_append. rewrite lookup_alter_eq.
  destruct (disk_ m !! p); cbn; by rewrite ?string_app_nil_r.
Qed.

(** The steps of an operation on the file in hand: what it may do to the contents. *)
Definition spec_write p (data : string) (a : gmap string string) : gmap string string :=
  if creatable p then <[p := default "" (a !! p) +:+ data]> a else a.
Definition spec_empty p (a : gmap string string) : gmap string string := if creatable p then <[p := ""]> a else a.

Lemma held_timer b p f m : held p f m -> held p (with_timer b f) m.
Proof. by intros [[] ?]. Qed.
Lemma held_cache b d p f m : held p f m -> held p (with_cache b d f) m.
Proof. by intros [[] ?]. Qed.

(** The data of a write, held back or on the disk. *)
Definition spilled (spill : nat) (data p : string) f m : SafeFile * FileManager :=
  let held := buffer_ f +:+ data in
  match opened_ f with
  | Some ModeIn | None => (f, m)
  | _ => (with_buffer (sdrop spill held) f, with_disk (disk_append p (stake spill held) (disk_ m)) m)
  end.
Lemma spilled_done spill data p f m f' m' : held p f m -> spilled spill data p f m = (f', m') -> opened_ f = Some ModeApp ->
  held p f' m' /\ files_ m' = files_ m /\ read_cache_ m' = read_cache_ m /\ opened_ f' = Some ModeApp /\
  abs (with_file p f' m') = spec_write p data (abs (with_file p f m)).
Proof.
  intros [[[_ Hown] Hot Hc Hb] Hk] Hs Eo. unfold spilled in Hs. rewrite Eo in Hs. injection Hs as <- <-.
  destruct (Hown _ Eo) as (Hex & _ & Hcr). specialize (Hcr ltac:(done)). split.
  { split; [|done]. split; cbn; [|by intros q g Hq Hl; destruct (Hot q g Hq Hl); split; [eapply stream_ok_grows; [apply disk_append_grows|]|]|done|done].
    split; cbn; [by rewrite Eo|]. intros mo Hmo. rewrite Eo in Hmo. injection Hmo as <-. split_and!; [by apply disk_append_grows|done|done]. }
  split_and!; [done|done|done|]. unfold spec_write. rewrite Hcr. destruct Hex as [c Hex].
  rewrite (abs_ext p f m _ _ (Some ((c +:+ buffer_ f) +:+ data))); cbn; [|done|by intros q Hq; unfold disk_append; rewrite lookup_alter_ne|].
  - rewrite abs_with_file, decide_True, Hex by done. done.
  - unfold disk_append. rewrite lookup_alter_eq, Hex. cbn. by rewrite !string_app_assoc, stake_sdrop.
Qed.

#[local] Notation sf_write := (sf_write max_open_files_ io_context_ metrics_ creatable).
#[local] Notation sf_empty := (sf_empty max_open_files_ metrics_ creatable).
#[local] Notation sf_read := (sf_read max_open_files_ metrics_ creatable).

Lemma held_counters g p f m : hand p f m -> counters_ok (counted g m) -> held p f (counted g m).
Proof. intros Hh Hc. split; [by apply hand_counted|exact Hc]. Qed.

(** The operations on the file in hand. *)
Definition op_done p f m f' m' (a : gmap string string) : Prop :=
  held p f' m' /\ at_rest f' /\ files_ m' = files_ m /\ read_cache_ m' = read_cache_ m /\ abs (with_file p f' m') = a.

Lemma write_done spill data delay p f m f' m' : held p f m -> (is_open f = true -> opened_ f = Some ModeApp) ->
  sf_write spill data delay p f m = Some (f', m') -> op_done p f m f' m' (spec_write p data (abs (with_file p f m))).
Proof.
  intros Hh Hrest Hw. unfold Files.sf_write in Hw. destruct (sf_open ModeApp p f m) as [[[b f1] m1]|] eqn:Eo; [|done]. cbn in Hw.
  pose proof (held_open _ _ _ _ _ _ _ Hh Eo) as Hh1.
  destruct (open_done _ _ _ _ _ _ _ Hh Eo) as (Ef & Er & Et & _ & _ & Eb & Hopen & Hnew & Habs).
  destruct b; cbn in Hw.
  2: { injection Hw as <- <-. destruct (is_open f) eqn:Ei; [by specialize (Hopen eq_refl)|]. destruct (Hnew eq_refl) as [-> Hd].
    split; [done|]. split; [intros ?; congruence|]. split_and!; [done|done|]. rewrite Habs. unfold spec_write. unfold disk_open in Hd. by destruct (creatable p). }
  assert (opened_ f1 = Some ModeApp) as Em.
  { destruct (is_open f) eqn:Ei; [|by apply Hnew]. specialize (Hopen eq_refl). injection Hopen as -> ->. by apply Hrest. }
  fold (spilled spill data p f1 m1) in Hw. destruct (spilled spill data p f1 m1) as [f2 m2] eqn:Es.
  destruct (spilled_done _ _ _ _ _ _ _ Hh1 Es Em) as (Hh2 & Ef2 & Er2 & Em2 & Habs2).
  assert (spec_write p data (abs (with_file p f1 m1)) = spec_write p data (abs (with_file p f m))) as Espec.
  { rewrite Habs. destruct (is_open f); [done|]. cbn. unfold spec_write.
    destruct Hh1 as [[[_ Hown] _ _ _] _]. destruct (Hown _ Em) as (_ & _ & Hcr). rewrite Hcr by done.
    by rewrite lookup_insert_eq, insert_insert_eq. }
  destruct (io_context_ && negb (delay =? 0)).
  - injection Hw as <- <-. split_and!.
    + apply held_timer, held_counters; [apply hand_counted, Hh2|]. unfold counters_ok. intros Hm.
      destruct (proj2 Hh2 Hm) as [E1 E2]. unfold Files.counted. rewrite Hm. cbn. destruct (file_counters m2). cbn in *. lia.
    + by intros _.
    + rewrite !counted_files. congruence.
    + rewrite !counted_cache. congruence.
    + rewrite !with_file_counted, !abs_counted. rewrite <- Espec, <- Habs2. by apply abs_same.
  - destruct (sf_close p f2 (counted inc_write m2)) as [f3 m3] eqn:Ec. injection Hw as <- <-.
    assert (exists m4, sf_close p f2 m2 = (f3, m4) /\ m3 = counted inc_write m4) as (m4 & Ec' & ->).
    { unfold Files.sf_close in *. destruct (opened_ f2); [|by injection Ec as <- <-; exists m2].
      injection Ec as <- <-. eexists. split; [reflexivity|]. unfold Files.counted. destruct metrics_; [|done]. cbn. by destruct (file_counters m2). }
    destruct (close_done _ _ _ _ _ Hh2 Ec') as (Hh3 & Ef3 & Er3 & _ & Eo3 & _ & Habs3). split_and!.
    + apply held_counters; [apply hand_counted, Hh3|]. unfold counters_ok. intros Hm.
      destruct (proj2 Hh3 Hm) as [E1 E2]. unfold Files.counted. rewrite Hm. cbn. destruct (file_counters m4). cbn in *. lia.
    + intros ?. congruence.
    + rewrite !counted_files. congruence.
    + rewrite !counted_cache. congruence.
    + rewrite !with_file_counted, !abs_counted. congruence.
Qed.

Lemma empty_done p f m f' m' : held p f m -> sf_empty p f m = Some (f', m') ->
  op_done p f m f' m' (spec_empty p (abs (with_file p f m))).
Proof.
  intros Hh. unfold Files.sf_empty. destruct (sf_close p f m) as [f1 m1] eqn:Ec.
  destruct (close_done _ _ _ _ _ Hh Ec) as (Hh1 & Ef1 & Er1 & _ & Eo1 & _ & Habs1).
  destruct (sf_open ModeTrunc p f1 m1) as [[[b f2] m2]|] eqn:Eo; [|done]. cbn.
  pose proof (held_open _ _ _ _ _ _ _ Hh1 Eo) as Hh2.
  destruct (open_done _ _ _ _ _ _ _ Hh1 Eo) as (Ef2 & Er2 & _ & _ & _ & Eb & _ & Hnew & Habs2). specialize (Hnew Eo1).
  destruct (sf_close p f2 m2) as [f3 m3] eqn:Ec3. intros [= <- <-].
  destruct (close_done _ _ _ _ _ Hh2 Ec3) as (Hh3 & Ef3 & Er3 & _ & Eo3 & _ & Habs3). split_and!.
  - apply held_counters; [apply Hh3|]. apply (counters_counted _ _ (current_opened_ m3)); [apply Hh3|]. intros []. cbn. lia.
  - intros ?. congruence.
  - rewrite counted_files. congruence.
  - rewrite counted_cache. congruence.
  - rewrite with_file_counted, abs_counted, Habs3, Habs2, Eo1, Habs1. unfold spec_empty. destruct b; cbn.
    + destruct Hh2 as [[[_ Hown] _ _ _] _]. destruct (Hown _ Hnew) as (_ & _ & Hcr). by rewrite Hcr by done.
    + destruct Hnew as [_ Hd]. unfold disk_open in Hd. by destruct (creatable p).
Qed.

Lemma read_done cached p f m b data f' m' : held p f m -> (cached && read_cached_ f = true -> at_rest f) ->
  sf_read ModeIn cached p f m = Some (b, data, f', m') -> op_done p f m f' m' (abs (with_file p f m)).
Proof.
  intros Hh Hca. unfold Files.sf_read. destruct (cached && read_cached_ f) eqn:Ei.
  { intros [= <- <- <- <-]. by split_and!; auto. }
  destruct (sf_open ModeIn p f m) as [[[b1 f1] m1]|] eqn:Eo; [|done]. cbn.
  pose proof (held_open _ _ _ _ _ _ _ Hh Eo) as Hh1.
  destruct (open_done _ _ _ _ _ _ _ Hh Eo) as (Ef1 & Er1 & _ & _ & _ & Eb & _ & _ & Habs1).
  destruct (sf_close p f1 m1) as [f2 m2] eqn:Ec. intros [= <- <- <- <-].
  destruct (close_done _ _ _ _ _ Hh1 Ec) as (Hh2 & Ef2 & Er2 & _ & Eo2 & _ & Habs2).
  assert (abs (with_file p f2 m2) = abs (with_file p f m)) as Ha.
  { rewrite Habs2, Habs1. by case_match. }
  assert (at_rest f2) as Hr2 by (intros ?; congruence).
  destruct cached; split_and!; try congruence; try done; [by apply held_cache|]. rewrite <- Ha. by apply abs_same.
Qed.

Lemma abs_taken p f m : files_ m !! p = Some f -> abs (with_file p f m) = abs m.
Proof. intros Hp. unfold abs, pending. cbn. by rewrite insert_id. Qed.
Lemma abs_fresh p f m : files_ m !! p = None -> buffer_ f = "" -> abs (with_file p f m) = abs m.
Proof.
  intros Hp Hb. apply map_eq. intros q. rewrite abs_with_file. case_decide; [|done]. subst. rewrite content_lookup. unfold pending. by rewrite Hp, Hb.
Qed.

(** The file of a path, there or new. *)
Lemma file_at_done mode p m f m1 : files_inv m -> file_at mode p m = Some (f, m1) ->
  held p f m1 /\ read_cache_ m1 = read_cache_ m /\
  ((at_rest f /\ abs (with_file p f m1) = abs m) \/
   (opened_ f = Some mode /\ read_cached_ f = false /\ abs (with_file p f m1) = opened_with mode p (abs m))).
Proof.
  intros Hi. unfold Files.file_at. destruct (files_ m !! p) as [f0|] eqn:Ep.
  { intros [= <- <-]. split; [by apply hand_take|]. split; [done|]. left. split; [by apply (proj1 Hi p f0 Ep)|by apply abs_taken]. }
  unfold SafeFile_new. destruct (sf_open mode p SafeFile_closed m) as [[[b f1] m2]|] eqn:Eo; [|done]. cbn. intros [= <- <-].
  pose proof (hand_new p m Hi Ep) as Hh. pose proof (held_open _ _ _ _ _ _ _ Hh Eo) as Hh1.
  destruct (open_done _ _ _ _ _ _ _ Hh Eo) as (Ef & Er & Et & Ec & _ & Eb & _ & Hnew & Habs). specialize (Hnew eq_refl).
  split; [by apply hand_add|]. split; [done|]. rewrite with_file_again, Habs, (abs_fresh p SafeFile_closed m) by done.
  destruct b; cbn.
  - right. by split_and!.
  - left. destruct Hnew as [-> _]. split; [by intros ?|done].
Qed.

#[local] Notation fm_write_ := (fm_write_ max_open_files_ io_context_ metrics_ creatable).
#[local] Notation fm_read_ := (fm_read_ max_open_files_ metrics_ creatable).
#[local] Notation fm_empty_ := (fm_empty_ max_open_files_ metrics_ creatable).

(** What an operation of the manager does to the contents. *)
Lemma op_put p f m f' m' a : op_done p f m f' m' a -> files_inv (with_file p f' m') /\ abs (with_file p f' m') = a.
Proof. intros (Hh & Hr & _ & _ & Ha). split; [by apply hand_put|done]. Qed.

Lemma app_creatable p f m : held p f m -> opened_ f = Some ModeApp -> creatable p = true.
Proof. intros [[[_ Hown] _ _ _] _] Ho. destruct (Hown _ Ho) as (_ & _ & Hcr). by apply Hcr. Qed.

Lemma fm_write_done spill p data text delay m m' : files_inv m -> fm_write_ spill p data text delay m = Some m' ->
  files_inv m' /\ abs m' = spec_write p data (abs m).
Proof.
  intros Hi. unfold Files.fm_write_. destruct (file_at ModeApp p m) as [[f m1]|] eqn:Ef; [|done]. cbn.
  destruct (sf_write spill data delay p f m1) as [[f2 m2]|] eqn:Ew; [|done]. intros [= <-].
  destruct (file_at_done _ _ _ _ _ Hi Ef) as (Hh & _ & Hcase).
  apply write_done in Ew; [|done|destruct Hcase as [[Hr _]|[Ho _]]; [by intros ?; apply Hr|done]].
  destruct (op_put _ _ _ _ _ _ Ew) as [Hinv ->]. split; [done|]. destruct Hcase as [[_ ->]|(Ho & _ & ->)]; [done|].
  unfold spec_write. rewrite (app_creatable p f m1) by done. cbn. by rewrite lookup_insert_eq, insert_insert_eq.
Qed.
Lemma fm_empty_done p m m' : files_inv m -> fm_empty_ p m = Some m' -> files_inv m' /\ abs m' = spec_empty p (abs m).
Proof.
  intros Hi. unfold Files.fm_empty_. destruct (file_at ModeApp p m) as [[f m1]|] eqn:Ef; [|done]. cbn.
  destruct (sf_empty p f m1) as [[f2 m2]|] eqn:Ew; [|done]. intros [= <-].
  destruct (file_at_done _ _ _ _ _ Hi Ef) as (Hh & _ & Hcase). apply empty_done in Ew; [|done].
  destruct (op_put _ _ _ _ _ _ Ew) as [Hinv ->]. split; [done|]. destruct Hcase as [[_ ->]|(Ho & _ & ->)]; [done|].
  unfold spec_empty. rewrite (app_creatable p f m1) by done. cbn. by rewrite insert_insert_eq.
Qed.
Lemma fm_read_done p text m b data m' : files_inv m -> fm_read_ p text m = Some (b, data, m') -> files_inv m' /\ abs m' = abs m.
Proof.
  intros Hi. unfold Files.fm_read_. destruct (file_at ModeIn p m) as [[f m1]|] eqn:Ef; [|done]. cbn.
  destruct (sf_read ModeIn (read_cache_ m1) p f m1) as [[[[b2 d2] f2] m2]|] eqn:Ew; [|done]. intros [= <- <- <-].
  destruct (file_at_done _ _ _ _ _ Hi Ef) as (Hh & _ & Hcase).
  apply read_done in Ew; [|done|destruct Hcase as [[Hr _]|(_ & -> & _)]; [done|by rewrite andb_false_r]].
  destruct (op_put _ _ _ _ _ _ Ew) as [Hinv ->]. split; [done|]. by destruct Hcase as [[_ ->]|(_ & _ & ->)].
Qed.
Lemma fm_expire_done late p m : files_inv m -> files_inv (fm_expire metrics_ late p m) /\ abs (fm_expire metrics_ late p m) = abs m /\
  (forall f, files_ m !! p = Some f -> current_opened_ (fm_expire metrics_ late p m) = current_opened_ m - (if is_open f then 1 else 0)).
Proof.
  intros Hi. unfold fm_expire. destruct (files_ m !! p) as [f|] eqn:Ef; [|done].
  unfold sf_expire. destruct (sf_close p _ m) as [f2 m2] eqn:Ec.
  destruct (close_done _ _ _ _ _ (held_timer (timer_ f && late) p f m (hand_take p f m Hi Ef)) Ec) as (Hh & _ & _ & _ & Eo & En & Ha).
  split_and!; [by apply hand_put; [|intros ?; congruence]|by rewrite Ha; rewrite <- (abs_taken p f m Ef); apply abs_same|].
  intros f' [= <-]. exact En.
Qed.

(** ** Room for one more file *)

Lemma open_room mode p f m : current_opened_ m < max_open_files_ \/ is_open f = true -> is_Some (sf_open mode p f m).
Proof.
  intros Hr. unfold Files.sf_open, is_open in *. destruct (opened_ f); [done|]. destruct Hr as [Hr|]; [|done].
  rewrite (proj2 (Z.ltb_lt _ _) Hr). by destruct (disk_open _ _ _ _).
Qed.
Lemma open_current mode p f m b f' m' : sf_open mode p f m = Some (b, f', m') ->
  is_open f' = b /\ current_opened_ m' = current_opened_ m + (if is_open f then 0 else if b then 1 else 0).
Proof.
  unfold Files.sf_open, is_open. destruct (opened_ f) as [mo|] eqn:Eo; [intros [= <- <- <-]; rewrite Eo; split; [done|lia]|].
  destruct (_ <? _); [|done]. destruct (disk_open _ _ _ _); intros [= <- <- <-]; rewrite counted_current; cbn; rewrite ?Eo; split; done || lia.
Qed.
Lemma file_at_room mode p m : files_inv m -> current_opened_ m < max_open_files_ ->
  exists f m1, file_at mode p m = Some (f, m1) /\ (current_opened_ m1 < max_open_files_ \/ is_open f = true).
Proof.
  intros Hi Hr. unfold Files.file_at. destruct (files_ m !! p) as [f|]; [by exists f, m; auto|]. unfold SafeFile_new.
  destruct (open_room mode p SafeFile_closed m (or_introl Hr)) as [[[b f1] m1] Eo]. rewrite Eo. cbn.
  destruct (open_current _ _ _ _ _ _ _ Eo) as [Eb Ec]. cbn in Ec. exists f1, (with_file p f1 m1). split; [done|].
  destruct b; [by right|]. left. cbn. lia.
Qed.
Lemma empty_room p f m : held p f m -> current_opened_ m < max_open_files_ \/ is_open f = true -> is_Some (sf_empty p f m).
Proof.
  intros Hh Hr. unfold Files.sf_empty. destruct (sf_close p f m) as [f1 m1] eqn:Ec.
  destruct (close_done _ _ _ _ _ Hh Ec) as (_ & _ & _ & _ & _ & En & _). pose proof (hd_bound _ _ _ (proj1 Hh)).
  destruct (open_room ModeTrunc p f1 m1) as [[[b f2] m2] ->]; [left; destruct Hr as [?|Hr]; [destruct (is_open f)|rewrite Hr in En]; lia|].
  cbn. destruct (sf_close p f2 m2). by eexists.
Qed.

(** ** What a read gives *)

(** A file that is not open gives its content, if it exists. *)
Lemma closed_read cached p f m b data f' m' : held p f m -> is_open f = false -> cached && read_cached_ f = false ->
  sf_read ModeIn cached p f m = Some (b, data, f', m') ->
  b = bool_decide (is_Some (disk_ m !! p)) /\ data = without_newlines (default "" (disk_ m !! p)) /\
  (cached = true -> read_cached_ f' = b /\ data_ f' = data).
Proof.
  intros Hh Ho Hca. unfold Files.sf_read. rewrite Hca. destruct (sf_open ModeIn p f m) as [[[b1 f1] m1]|] eqn:Eo; [|done]. cbn.
  destruct (sf_close p f1 m1) as [f2 m2]. intros [= <- <- <- <-].
  assert (b1 = bool_decide (is_Some (disk_ m !! p)) /\ (b1 = true -> opened_ f1 = Some ModeIn /\ disk_ m1 = disk_ m)) as [-> Hb].
  { unfold Files.sf_open, is_open in *. destruct (opened_ f); [done|]. destruct (_ <? _); [|done]. unfold disk_open in Eo.
    case_bool_decide; injection Eo as <- <- <-; (split; [done|]); [|done]. by rewrite counted_disk. }
  split; [done|]. split; [|by intros ->].
  case_bool_decide as Hd; [|destruct (disk_ m !! p); [by destruct Hd|done]].
  unfold stream_lines. destruct (Hb eq_refl) as [-> ->]. by rewrite getlines_eq.
Qed.
Lemma open_read cached p f m b data f' m' : opened_ f = Some ModeApp -> cached && read_cached_ f = false ->
  sf_read ModeIn cached p f m = Some (b, data, f', m') -> b = true /\ data = "" /\ (cached = true -> read_cached_ f' = true /\ data_ f' = "").
Proof.
  intros Ho Hca. unfold Files.sf_read, Files.sf_open. rewrite Hca, Ho. cbn. unfold stream_lines. rewrite Ho.
  destruct (sf_close p f m). intros [= <- <- <- <-]. split_and!; [done|done|by intros ->].
Qed.

(** What a read of the path [p] finds: a cached text, an open stream, or the file. *)
Definition read_spec p m : bool * string :=
  let from_file := (bool_decide (is_Some (abs m !! p)), without_newlines (default "" (abs m !! p))) in
  match files_ m !! p with
  | Some f => if read_cache_ m && read_cached_ f then (true, data_ f) else if is_open f then (true, "") else from_file
  | None => from_file
  end.
Lemma read_is_spec p text m b data m' : files_inv m -> fm_read_ p text m = Some (b, data, m') -> (b, data) = read_spec p m.
Proof.
  intros Hi. unfold Files.fm_read_, Files.file_at, read_spec. destruct (files_ m !! p) as [f|] eqn:Ef.
  - cbn. destruct (sf_read ModeIn (read_cache_ m) p f m) as [[[[b1 d1] f1] m1]|] eqn:Er; [|done]. cbn. intros [= <- <- <-].
    destruct (read_cache_ m && read_cached_ f) eqn:Ec; [unfold Files.sf_read in Er; rewrite Ec in Er; by injection Er as <- <- <- <-|].
    destruct (proj1 Hi p f Ef) as [Hown Hrest]. destruct (is_open f) eqn:Eo.
    + destruct (open_read _ _ _ _ _ _ _ _ (proj1 (Hrest Eo)) Ec Er) as (-> & -> & _). done.
    + destruct (closed_read _ _ _ _ _ _ _ _ (hand_take p f m Hi Ef) Eo Ec Er) as (-> & -> & _).
      rewrite content_lookup. unfold pending. rewrite Ef. destruct Hown as [Hbuf _]. unfold is_open in Eo. destruct (opened_ f); [done|]. rewrite Hbuf by done.
      destruct (disk_ m !! p); cbn; by rewrite ?string_app_nil_r.
  - unfold SafeFile_new. destruct (sf_open ModeIn p SafeFile_closed m) as [[[b1 f1] m1]|] eqn:Eo; cbn; [|done].
    pose proof (hand_new p m Hi Ef) as Hh. destruct (open_done _ _ _ _ _ _ _ Hh Eo) as (_ & Erc & _ & Ec & _ & Eb & _ & Hnew & _).
    specialize (Hnew eq_refl). destruct (sf_read ModeIn _ p f1 _) as [[[[b2 d2] f2] m2]|] eqn:Er; [|done]. cbn. intros [= <- <- <-].
    pose proof (hand_add p f1 f1 m1 (held_open _ _ _ _ _ _ _ Hh Eo)) as Hh1.
    assert (disk_ m1 = disk_ m /\ b1 = bool_decide (is_Some (disk_ m !! p))) as [Ed Eb1].
    { revert Eo. unfold Files.sf_open, disk_open. cbn. destruct (_ <? _); [|done].
      case_bool_decide; intros [= <- <- <-]; by rewrite counted_disk. }
    rewrite content_lookup. unfold pending. rewrite Ef. destruct b1.
    + unfold Files.sf_read, Files.sf_open in Er. cbn in Er, Ec. rewrite Ec, andb_false_r, Hnew in Er. cbn in Er.
      unfold stream_lines in Er. rewrite Hnew in Er. cbn in Er. rewrite Ed, getlines_eq in Er.
      destruct (sf_close p f1 (with_file p f1 m1)). injection Er as <- <- _ _.
      destruct (disk_ m !! p); [|by rewrite bool_decide_eq_false_2 in Eb1 by (by intros [])]. cbn. by rewrite string_app_nil_r.
    + cbn in Ec. destruct (closed_read _ _ _ _ _ _ _ _ Hh1 Eb ltac:(by rewrite Ec, andb_false_r) Er) as (-> & -> & _). cbn. rewrite Ed.
      by destruct (disk_ m !! p).
Qed.

(** ** Operations of the manager *)

Inductive FileOp :=
| FWrite (spill : nat) (p data : string) (textOrBinary : bool) (closeDelayUs : Z)
| FRead (p : string) (textOrBinary : bool)
| FEmpty (p : string)
| FCache (b : bool)
| FExpire (late : bool) (p : string).

(** [None]: the operation waits. *)
Definition file_do (o : FileOp) m : option FileManager :=
  match o with
  | FWrite spill p data text delay => fm_write_ spill p data text delay m
  | FRead p text => snd <$> fm_read_ p text m
  | FEmpty p => fm_empty_ p m
  | FCache b => Some (enableReadCache b m)
  | FExpire late p => Some (fm_expire metrics_ late p m)
  end.
Fixpoint file_run (l : list FileOp) m : option FileManager :=
  match l with [] => Some m | o :: l => m ← file_do o m; file_run l m end.

(** What the operations do to the contents of the files. *)
Definition spec_do (o : FileOp) (a : gmap string string) : gmap string string :=
  match o with
  | FWrite _ p data _ _ => spec_write p data a
  | FEmpty p => spec_empty p a
  | _ => a
  end.

Lemma file_do_done o m m' : files_inv m -> file_do o m = Some m' -> files_inv m' /\ abs m' = spec_do o (abs m).
Proof.
  intros Hi. destruct o as [spill p data text delay|p text|p|b|late p]; cbn.
  - by apply fm_write_done.
  - destruct (fm_read_ p text m) as [[[b d] m1]|] eqn:E; [|done]. intros [= <-]. by eapply fm_read_done.
  - by apply fm_empty_done.
  - by intros [= <-].
  - intros [= <-]. destruct (fm_expire_done late p m Hi) as (? & ? & _). done.
Qed.
Lemma file_run_done l m m' : files_inv m -> file_run l m = Some m' -> files_inv m' /\ abs m' = foldl (fun a o => spec_do o a) (abs m) l.
Proof.
  revert m. induction l as [|o l IH]; intros m Hi; cbn; [by intros [= <-]|].
  destruct (file_do o m) as [m1|] eqn:E; [|done]. cbn. destruct (file_do_done o m m1 Hi E) as [Hi1 <-]. by apply IH.
Qed.
Lemma files_start_inv d : 0 <= max_open_files_ -> files_inv (FileManager_new d).
Proof. intros Hm. by split_and!. Qed.
Lemma abs_start d : abs (FileManager_new d) = d.
Proof. apply map_eq. intros q. rewrite content_lookup. cbn. destruct (d !! q); cbn; [by rewrite string_app_nil_r|done]. Qed.

Lemma file_do_room o m : files_inv m -> current_opened_ m < max_open_files_ -> is_Some (file_do o m).
Proof.
  intros Hi Hr. destruct o as [spill p data text delay|p text|p|b|late p]; cbn; [| | |done|done].
  - unfold Files.fm_write_. destruct (file_at_room ModeApp p m Hi Hr) as (f & m1 & -> & Hr1). cbn.
    unfold Files.sf_write. destruct (open_room ModeApp p f m1 Hr1) as [[[b f2] m2] ->]. cbn.
    destruct (negb b); [by eexists|]. repeat case_match; by eexists.
  - unfold Files.fm_read_. destruct (file_at_room ModeIn p m Hi Hr) as (f & m1 & -> & Hr1). cbn.
    unfold Files.sf_read. destruct (_ && _); [by eexists|]. destruct (open_room ModeIn p f m1 Hr1) as [[[b f2] m2] ->]. cbn.
    destruct (sf_close p f2 m2). by eexists.
  - unfold Files.fm_empty_. destruct (file_at_room ModeApp p m Hi Hr) as (f & m1 & E & Hr1). rewrite E. cbn.
    destruct (file_at_done _ _ _ _ _ Hi E) as (Hh & _). destruct (empty_room p f m1 Hh Hr1) as [[f2 m2] ->]. by eexists.
Qed.

(** A file that is open has a timer, and once it expires there is room. *)
Lemma expire_room o m : files_inv m -> 1 <= max_open_files_ -> file_do o m = None ->
  exists p f, files_ m !! p = Some f /\ is_open f = true /\ timer_ f = true /\ is_Some (file_do o (fm_expire metrics_ false p m)).
Proof.
  intros Hi Hmax Hw. pose proof Hi as (Hf & Hc & Hb & _).
  assert (~ current_opened_ m < max_open_files_) as Hfull.
  { intros Hr. destruct (file_do_room o m Hi Hr). congruence. }
  destruct (decide (open_files (files_ m) = ∅)) as [E|Hne]; [rewrite E, map_size_empty in Hc; lia|].
  apply map_choose in Hne as (p & f & Hp). apply map_lookup_filter_Some in Hp as [Hp Ho]. cbn in Ho.
  destruct (Hf p f Hp) as [_ Hr]. exists p, f. split_and!; [done|done|by apply Hr|].
  destruct (fm_expire_done false p m Hi) as (Hi' & _ & Hn). specialize (Hn f Hp). rewrite Ho in Hn.
  apply file_do_room; [done|lia].
Qed.
End FileInvariant.

(** ** Properties of the files *)

Section FileProperties.
Context (max_open_files_ : Z) (io_context_ metrics_ : bool) (creatable : string -> bool).
Implicit Types (m : FileManager).
#[local] Notation file_do := (file_do max_open_files_ io_context_ metrics_ creatable).
#[local] Notation file_run := (file_run max_open_files_ io_context_ metrics_ creatable).

(** C29: Whatever operations and timers follow each other, the number of open files is
    the number of streams that are open, it never exceeds the limit, every open stream is
    going to be closed by its timer, and the counters agree: files opened less files
    closed are the open ones, and each write closed its file at once or later. *)
Theorem open_files_are_bounded (d : gmap string string) (l : list FileOp) (m : FileManager)
  (Hmax : 0 <= max_open_files_) (Hrun : file_run l (FileManager_new d) = Some m) :
  current_opened_ m = Z.of_nat (size (open_files (files_ m))) /\ current_opened_ m <= max_open_files_ /\
  (forall p f, files_ m !! p = Some f -> is_open f = true -> opened_ f = Some ModeApp /\ timer_ f = true) /\
  (metrics_ = true -> observed_open (file_counters m) - observed_close (file_counters m) = current_opened_ m /\
     observed_write (file_counters m) = observed_delayed_close (file_counters m) + observed_instant_close (file_counters m)).
Proof.
  destruct (file_run_done _ _ _ _ l _ m (files_start_inv _ _ _ d Hmax) Hrun) as [(Hf & Hc & Hb & Hk) _].
  split_and!; [done|lia| |exact Hk]. intros p f Hp Ho. by apply (proj2 (Hf p f Hp)).
Qed.

(** C30: No thread waits for ever: when an operation waits because the limit of open
    files is reached, some file is open and its timer runs, and after it has expired the
    operation goes through. *)
Theorem waiting_operation_goes_on (d : gmap string string) (l : list FileOp) (m : FileManager) (o : FileOp)
  (Hmax : 1 <= max_open_files_) (Hrun : file_run l (FileManager_new d) = Some m) (Hwait : file_do o m = None) :
  exists p f, files_ m !! p = Some f /\ is_open f = true /\ timer_ f = true /\ is_Some (file_do o (fm_expire metrics_ false p m)).
Proof.
  assert (0 <= max_open_files_) as H0 by lia.
  destruct (file_run_done _ _ _ _ l _ m (files_start_inv _ _ _ d H0) Hrun) as [Hi _]. by apply expire_room.
Qed.

(** C4: The files refine their specification, a map of paths to texts: a write appends
    its data to its file, emptying it makes it empty, where the path can be opened for
    output, and reads, timers, the cache and what a stream holds back change nothing. *)
Theorem contents_are_the_writes (d : gmap string string) (l : list FileOp) (m : FileManager)
  (Hmax : 0 <= max_open_files_) (Hrun : file_run l (FileManager_new d) = Some m) :
  abs m = foldl (fun a o => spec_do creatable o a) d l /\
  (forall p, is_open (default SafeFile_closed (files_ m !! p)) = false -> disk_ m !! p = abs m !! p).
Proof.
  destruct (file_run_done _ _ _ _ l _ m (files_start_inv _ _ _ d Hmax) Hrun) as [Hi Ha]. rewrite abs_start in Ha.
  split; [exact Ha|]. intros p Ho. rewrite content_lookup. unfold pending. destruct (files_ m !! p) as [f|] eqn:Ef.
  - destruct (proj1 Hi p f Ef) as [[Hb _] _]. cbn in Ho. unfold is_open in Ho. destruct (opened_ f); [done|]. rewrite Hb by done.
    destruct (disk_ m !! p); cbn; by rewrite ?string_app_nil_r.
  - destruct (disk_ m !! p); cbn; by rewrite ?string_app_nil_r.
Qed.

(** A read gives the text that is cached, if the cache is on and has one; otherwise
    the empty text, with success, while the stream of the last write is open; otherwise
    the content of the file without its line ends, and a failure when there is none. *)
Theorem read_gives_text_cache_or_nothing (d : gmap string string) (l : list FileOp) (m m' : FileManager) (p : string)
  (textOrBinary success : bool) (data : string)
  (Hmax : 0 <= max_open_files_) (Hrun : file_run l (FileManager_new d) = Some m)
  (Hread : fm_read_ max_open_files_ metrics_ creatable p textOrBinary m = Some (success, data, m')) :
  let f := default SafeFile_closed (files_ m !! p) in
  let content := foldl (fun a o => spec_do creatable o a) d l !! p in
  (read_cache_ m = true -> read_cached_ f = true -> success = true /\ data = data_ f) /\
  (read_cache_ m && read_cached_ f = false -> is_open f = true -> success = true /\ data = "") /\
  (read_cache_ m && read_cached_ f = false -> is_open f = false ->
     (success = true <-> is_Some content) /\ data = without_newlines (default "" content)).
Proof.
  destruct (file_run_done _ _ _ _ l _ m (files_start_inv _ _ _ d Hmax) Hrun) as [Hi Ha]. rewrite abs_start in Ha. cbn zeta. rewrite <- Ha.
  apply (read_is_spec _ _ _ _ _ _ _ _ _ Hi) in Hread. unfold read_spec in Hread. destruct (files_ m !! p) as [f|]; cbn.
  - split_and!; intros H1 H2; rewrite ?H1, ?H2 in Hread; cbn in Hread; injection Hread as -> ->; [done|done|].
    split; [apply bool_decide_eq_true|done].
  - injection Hread as -> ->. split_and!; [by intros|done|]. intros _ _. split; [apply bool_decide_eq_true|done].
Qed.
End FileProperties.

(** ** Sockets *)

Section SocketProperties.
Context (io_context_ metrics_ : bool) (sun_path_size : nat).
Implicit Types (m : SocketManager) (s : SafeSocket).
#[local] Notation ss_write := (ss_write io_context_ metrics_).
#[local] Notation tallied := (tallied metrics_).

Inductive SocketOp :=
| SWrite (fd : Z) (p data : string) (writeDelayUs : Z)
| SExpire (i : nat).
Definition socket_do (o : SocketOp) m : outcome unit * SocketManager :=
  match o with
  | SWrite fd p data delay => sm_write_ io_context_ metrics_ sun_path_size fd p data delay m
  | SExpire i => (Val tt, ss_expire io_context_ metrics_ i m)
  end.
Fixpoint socket_run (l : list SocketOp) m : outcome SocketManager :=
  match l with
  | [] => Val m
  | o :: l => match socket_do o m with (Val _, m) => socket_run l m | (Throw e, _) => Throw e end
  end.

(** The address and the data of a datagram, and the datagrams a run was asked for. *)
Definition datagram (x : SafeSocket * string) : string * string := (sun_path x.1, x.2).
Definition asked (o : SocketOp) : list (string * string) := match o with SWrite _ p data _ => [(c_str p, data)] | SExpire _ => [] end.
Definition has_descriptor (o : SocketOp) : Prop := match o with SWrite fd _ _ _ => 0 <= fd | SExpire _ => True end.

Definition sockets_ok m : Prop := forall p s, sockets_ m !! p = Some s -> sun_path s = c_str p /\ 0 <= socket_ s.
Definition tally_ok m : Prop :=
  io_context_ = true -> metrics_ = true ->
  socket_write (socket_counters m) = Z.of_nat (length (sent_ m)) /\
  socket_delayed_write (socket_counters m) + socket_instant_write (socket_counters m) = Z.of_nat (length (sent_ m) + length (delayed_ m)).

Lemma tallied_parts g m : sockets_ (tallied g m) = sockets_ m /\ delayed_ (tallied g m) = delayed_ m /\ sent_ (tallied g m) = sent_ m.
Proof. unfold Files.tallied. by destruct metrics_. Qed.
Lemma ss_write_parts s data delay b m : sockets_ (ss_write s data delay b m) = sockets_ m /\
  sent_ (ss_write s data delay b m) ++ delayed_ (ss_write s data delay b m) ≡ₚ (s, data) :: sent_ m ++ delayed_ m.
Proof.
  unfold Files.ss_write, sendto, Files.tallied. destruct (delay =? 0), b, metrics_, io_context_; cbn; (split; [done|]); by solve_Permutation.
Qed.
Lemma ss_write_tally s data delay m : tally_ok m -> tally_ok (ss_write s data delay false m).
Proof.
  intros Ht Hio Hm. destruct (Ht Hio Hm) as [E1 E2]. unfold Files.ss_write, sendto, Files.tallied. rewrite Hio, Hm.
  destruct (delay =? 0); cbn; destruct (socket_counters m); cbn in *; rewrite length_app; cbn; lia.
Qed.
Lemma ss_expire_done i m : tally_ok m -> sockets_ (ss_expire io_context_ metrics_ i m) = sockets_ m /\
  sent_ (ss_expire io_context_ metrics_ i m) ++ delayed_ (ss_expire io_context_ metrics_ i m) ≡ₚ sent_ m ++ delayed_ m /\
  tally_ok (ss_expire io_context_ metrics_ i m).
Proof.
  intros Ht. unfold ss_expire. destruct (delayed_ m !! i) as [[s data]|] eqn:Ei; [|done].
  pose proof (delete_Permutation _ _ _ Ei) as Hp. destruct (ss_write_parts s data 0 true (mkSocketManager (sockets_ m) (delete i (delayed_ m)) (sent_ m) (socket_counters m))) as [Es Hs].
  split_and!; [done|rewrite Hs; cbn; symmetry; etransitivity; [apply Permutation_app_head, Hp|by solve_Permutation]|]. intros Hio Hm. destruct (Ht Hio Hm) as [E1 E2].
  apply Permutation_length in Hp. cbn in Hp. unfold Files.ss_write, sendto, Files.tallied. rewrite Hio, Hm. cbn.
  destruct (socket_counters m). cbn in *. rewrite length_app. cbn. lia.
Qed.

Lemma sm_write_done fd p data delay m m' : 0 <= fd -> sockets_ok m -> tally_ok m ->
  sm_write_ io_context_ metrics_ sun_path_size fd p data delay m = (Val tt, m') ->
  sockets_ok m' /\ tally_ok m' /\ datagram <$> sent_ m' ++ delayed_ m' ≡ₚ (c_str p, data) :: (datagram <$> sent_ m ++ delayed_ m).
Proof.
  intros Hfd Hs Ht. unfold sm_write_. destruct (sockets_ m !! p) as [s|] eqn:Ep.
  - intros [= <-]. destruct (ss_write_parts s data delay false m) as [E Hp]. split_and!; [|by apply ss_write_tally|].
    + unfold sockets_ok. by rewrite E.
    + rewrite Hp. cbn. unfold datagram at 1. cbn. by rewrite (proj1 (Hs p s Ep)).
  - unfold ss_open. rewrite (proj2 (Z.leb_le _ _) Hfd). destruct (_ <? _)%nat; [|done]. intros [= <-].
    set (s := mkSafeSocket fd (c_str p)). destruct (tallied_parts inc_socket_open m) as (-> & -> & ->).
    set (m1 := mkSocketManager _ _ _ _). destruct (ss_write_parts s data delay false m1) as [E Hp]. split_and!.
    + unfold sockets_ok. rewrite E. cbn. intros q t. destruct (decide (q = p)) as [->|]; [rewrite lookup_insert_eq; by intros [= <-]|].
      rewrite lookup_insert_ne by done. apply Hs.
    + apply ss_write_tally. intros Hio Hm. destruct (Ht Hio Hm). cbn. unfold Files.tallied. rewrite Hm. cbn. by destruct (socket_counters m).
    + rewrite Hp. done.
Qed.

(** Every datagram is sent once: after any writes and expirations the datagrams sent
    and the ones whose timer runs are, up to their order, the ones that were asked for,
    each to the address of its path, and the counters are their numbers. *)
Theorem datagrams_are_sent_once (l : list SocketOp) (m : SocketManager) (Hfd : Forall has_descriptor l)
  (Hrun : socket_run l SocketManager_new = Val m) :
  datagram <$> sent_ m ++ delayed_ m ≡ₚ l ≫= asked /\
  (io_context_ = true -> metrics_ = true ->
     socket_write (socket_counters m) = Z.of_nat (length (sent_ m)) /\
     socket_delayed_write (socket_counters m) + socket_instant_write (socket_counters m) = Z.of_nat (length (sent_ m) + length (delayed_ m))).
Proof.
  assert (forall l m0 m, sockets_ok m0 -> tally_ok m0 -> Forall has_descriptor l -> socket_run l m0 = Val m ->
    tally_ok m /\ datagram <$> sent_ m ++ delayed_ m ≡ₚ (l ≫= asked) ++ (datagram <$> sent_ m0 ++ delayed_ m0)) as Hgen.
  { clear. intros l. induction l as [|o l IH]; intros m0 m Hs Ht Hl Hr; [by injection Hr as <-|]. apply Forall_cons in Hl as [Ho Hl].
    cbn [socket_run] in Hr. destruct o as [fd p data delay|i]; cbn [socket_do] in Hr.
    - destruct (sm_write_ _ _ _ fd p data delay m0) as [[[]|] m1] eqn:Ew; [|done].
      destruct (sm_write_done _ _ _ _ _ _ Ho Hs Ht Ew) as (Hs1 & Ht1 & Hp). destruct (IH _ _ Hs1 Ht1 Hl Hr) as [Ht2 Hp2]. split; [done|].
      rewrite Hp2, Hp. cbn. by solve_Permutation.
    - destruct (ss_expire_done i m0 Ht) as (Es & Hp & Ht1). assert (sockets_ok (ss_expire io_context_ metrics_ i m0)) as Hs1 by (unfold sockets_ok; by rewrite Es).
      destruct (IH _ _ Hs1 Ht1 Hl Hr) as [Ht2 Hp2]. split; [done|]. by rewrite Hp2, Hp. }
  destruct (Hgen l SocketManager_new m) as [Ht Hp]; [done|by intros ??|done|done|]. split; [|exact Ht]. rewrite Hp. by rewrite app_nil_r.
Qed.
End SocketProperties.

(** ** The machine never stays waiting *)

Section MachineProperties.
Context {O : Type} (max_open_files_ : Z) (metrics_ : bool) (creatable : string -> bool).

Lemma expiring_some (m : FileManager) p f : files_ m !! p = Some f -> is_open f = true -> timer_ f = true ->
  exists q g, expiring m = Some q /\ files_ m !! q = Some g /\ is_open g = true.
Proof.
  intros Hp Ho Ht. unfold expiring. destruct (find _ _) as [[q g]|] eqn:Ef; cbn.
  - apply find_some in Ef as [Hin Hg]. apply list_elem_of_In, elem_of_map_to_list in Hin. apply andb_prop in Hg as [_ Hg]. by exists q, g.
  - apply (find_none _ _) with (x := (p, f)) in Ef; [cbn in Ef; unfold is_open in Ho; by rewrite Ht, Ho in Ef|].
    by apply list_elem_of_In, elem_of_map_to_list.
Qed.

(** An operation of the manager, seen as one of the machine, is never stuck. *)
Lemma never_stuck {A} (g : FileManager -> option (A * FileManager)) (o : FileOp) (x : Machine (O := O)) :
  (forall m, is_Some (g m) <-> is_Some (file_do max_open_files_ true metrics_ creatable o m)) ->
  files_inv max_open_files_ metrics_ creatable (ma_files x) -> 1 <= max_open_files_ -> is_Some (waited metrics_ g x).
Proof.
  intros Hg Hi Hmax. unfold waited. destruct (g (ma_files x)) as [[a m]|] eqn:Eg; [by eexists|]. cbn.
  assert (file_do max_open_files_ true metrics_ creatable o (ma_files x) = None) as Ho.
  { apply eq_None_not_Some. intros Ho. apply Hg in Ho. rewrite Eg in Ho. by destruct Ho. }
  destruct (expire_room _ _ _ _ o (ma_files x) Hi Hmax Ho) as (p & f & Hp & Hop & Hti & _).
  destruct (expiring_some _ p f Hp Hop Hti) as (q & h & -> & Hq & Hoq). cbn.
  destruct (fm_expire_done _ _ _ false q (ma_files x) Hi) as (Hi' & _ & Hn). specialize (Hn h Hq). rewrite Hoq in Hn.
  assert (is_Some (g (fm_expire metrics_ false q (ma_files x)))) as [[a m] ->]; [|by eexists].
  apply Hg, file_do_room; [done|]. destruct Hi as (_ & _ & Hb & _). lia.
Qed.
End MachineProperties.

Module FileExamples.
Import Still.

(** One file may be open at a time. *)
Definition anywhere (p : string) : bool := true.
Definition run1 (l : list FileOp) : option FileManager := file_run 1 true true anywhere l (FileManager_new ∅).
Definition line : string := String (cz 10) "".
Definition ops0 : list FileOp := [FWrite 1 "/a" ("one" +:+ line) true 0; FWrite 2 "/a" "two" true 1000000].
Definition files0 : FileManager := default (FileManager_new ∅) (run1 ops0).
Lemma run0 : run1 ops0 = Some files0.
Proof. vm_compute. reflexivity. Qed.

Lemma open_files_are_bounded_witness : current_opened_ files0 = 1 /\ current_opened_ files0 <= 1.
Proof.
  destruct (open_files_are_bounded 1 true true anywhere ∅ ops0 files0 ltac:(lia) run0) as (E & Hle & _).
  split; [rewrite E; vm_compute; reflexivity|exact Hle].
Defined.

(** A write to another file waits, until the first one is closed. *)
Definition other : FileOp := FWrite 0 "/b" "x" true 0.
Lemma waiting_operation_goes_on_witness : file_do 1 true true anywhere other files0 = None /\
  exists p, is_Some (file_do 1 true true anywhere other (fm_expire true false p files0)).
Proof.
  assert (file_do 1 true true anywhere other files0 = None) as E by (vm_compute; reflexivity). split; [exact E|].
  destruct (waiting_operation_goes_on 1 true true anywhere ∅ ops0 files0 other ltac:(lia) run0 E) as (p & f & _ & _ & _ & Hs). by exists p.
Defined.

Lemma contents_are_the_writes_witness : abs files0 !! "/a" = Some ("one" +:+ line +:+ "two").
Proof.
  destruct (contents_are_the_writes 1 true true anywhere ∅ ops0 files0 ltac:(lia) run0) as [-> _]. vm_compute. reflexivity.
Defined.

(** Read while it is open, the file gives nothing; read again, its lines in one. *)
Definition read1 (m : FileManager) : option (bool * string * FileManager) := fm_read_ 1 true anywhere "/a" true m.
Definition files1 : FileManager := match read1 files0 with Some (_, _, m) => m | None => files0 end.
Lemma read_gives_text_cache_or_nothing_witness :
  (exists m, read1 files0 = Some (true, "", m)) /\ exists m, read1 files1 = Some (true, "onetwo", m).
Proof.
  split.
  - destruct (read1 files0) as [[[b data] m]|] eqn:E; [|vm_compute in E; discriminate E]. exists m.
    destruct (read_gives_text_cache_or_nothing 1 true true anywhere ∅ ops0 files0 m "/a" true b data ltac:(lia) run0 E) as (_ & Ho & _).
    destruct Ho as [-> ->]; [vm_compute; reflexivity..|done].
  - eexists. vm_compute. reflexivity.
Defined.

(** With the cache on, the nothing is kept for good, whatever is written later. *)
Example empty_text_stays_cached :
  let m := run1 (ops0 ++ [FCache true; FRead "/a" true; FWrite 0 "/a" "three" true 0]) in
  match m with
  | Some m => disk_ m !! "/a" = Some ("one" +:+ line +:+ "twothree") /\ exists m', read1 m = Some (true, "", m')
  | None => False
  end.
Proof. vm_compute. split; [done|by eexists]. Qed.

(** Datagrams: a delayed one is overtaken, and a path that is too long is undefined. *)
Definition sops0 : list SocketOp := [SWrite 5 "/tmp/u" "a" 1000; SWrite 6 "/tmp/u" "b" 0; SExpire 0].
Definition sockets0 : SocketManager := match socket_run true true 108 sops0 SocketManager_new with Val m => m | _ => SocketManager_new end.
Lemma datagrams_are_sent_once_witness :
  datagram <$> sent_ sockets0 = [("/tmp/u", "b"); ("/tmp/u", "a")] /\ datagram <$> sent_ sockets0 ++ delayed_ sockets0 ≡ₚ [("/tmp/u", "a"); ("/tmp/u", "b")].
Proof.
  split; [vm_compute; reflexivity|].
  destruct (datagrams_are_sent_once true true 108 sops0 sockets0) as [Hp _]; [repeat (apply Forall_cons; split; [cbn; lia|]); apply Forall_nil_2|vm_compute; reflexivity|exact Hp].
Defined.
Example long_socket_path_is_undefined :
  (sm_write_ true true 108 5 (str (repeat "x"%char 108)) "data" 0 SocketManager_new).1 = Throw undefined.
Proof. vm_compute. reflexivity. Qed.

(** The machine with these managers, seen through the interface of the items. *)
#[local] Instance no_files : AdminOutside world :=
  {| files_configuration := fun _ => Val "{}"; files_json := fun _ => Val "[]"; sockets_json := fun _ => Val "[]";
     enable_read_cache := fun _ o => o; malloc_trim := fun o => (false, o) |}.
#[local] Instance machine0 : Outside (Machine (O := world)) := machine 1 true anywhere 108.
Definition start1 : Machine := mkMachine ([] : world) (FileManager_new ∅) SocketManager_new [5].
Example machine_reads_what_it_wrote :
  let x := fm_write "/b" "text" true 0 (fm_write "/a" "data" true 1000000 start1) in
  (fm_read "/b" true x).1 = "text" /\ (fm_read "/a" true x).1 = "data" /\ files_json x =
  Val (String.concat (String (cz 34) "") ["[{"; "bytes"; ":4,"; "path"; ":"; "/a"; ","; "state"; ":"; "closed"; "},{"; "bytes"; ":4,"; "path"; ":";
    "/b"; ","; "state"; ":"; "closed"; "}]"]).
Proof. vm_compute. done. Qed.
End FileExamples.
