(* ===== verification/Conformance.v ===== *)
(** The ground of the tests of the repository ([ut/model/Transformation/transform.cpp]): the
    instances the model is run with, the fixture [Transform_test] and what the tests do
    with it.  [TransformTests] has the tests themselves. *)
From S2P Require Import Prelude Std Double Functions Query Json JsonModel JsonReader External Regex JsonConstraint Keys DataPart MockEvents MockData TypeConverter Vault Transformation ItemText Schema Stages ServerProvision ServerAdmin AdminServer AdminSchemas SchemaPatterns SchemaProperties Files.
From stdpp Require Import options.
#[local] Open Scope Z_scope.

(** ** Dates *)

(** The days since 1970-01-01, and the date of a day, in the Gregorian calendar. *)
Definition days_from_civil (y m d : Z) : Z :=
  let y := if m <=? 2 then y - 1 else y in
  let era := y / 400 in
  let yoe := y - era * 400 in
  let doy := (153 * (if m <=? 2 then m + 9 else m - 3) + 2) / 5 + d - 1 in
  era * 146097 + (yoe * 365 + yoe / 4 - yoe / 100 + doy) - 719468.
Definition civil_from_days (z : Z) : Z * Z * Z :=
  let z := z + 719468 in
  let era := z / 146097 in
  let doe := z - era * 146097 in
  let yoe := (doe - doe / 1460 + doe / 36524 - doe / 146096) / 365 in
  let doy := doe - (365 * yoe + yoe / 4 - yoe / 100) in
  let mp := (5 * doy + 2) / 153 in
  let m := if mp <? 10 then mp + 3 else mp - 9 in
  (yoe + era * 400 + (if m <=? 2 then 1 else 0), m, doy - (153 * mp + 2) / 5 + 1).

Record tm := mkTm { tm_year : Z; tm_mon : Z; tm_mday : Z; tm_hour : Z; tm_min : Z; tm_sec : Z }.
Definition timegm (t : tm) : Z :=
  86400 * days_from_civil (tm_year t) (tm_mon t) (tm_mday t) + 3600 * tm_hour t + 60 * tm_min t + tm_sec t.
Definition gmtime (e : Z) : tm :=
  let '(y, m, d) := civil_from_days (e / 86400) in
  let s := e mod 86400 in mkTm y m d (s / 3600) (s / 60 mod 60) (s mod 60).

Fixpoint up_to_digits (n : nat) (l : list ascii) (a : Z) (found : bool) : option (Z * list ascii) :=
  match n, l with
  | S n, c :: l' => if isdigit c then up_to_digits n l' (10 * a + (zc c - 48)) true else if found then Some (a, l) else None
  | _, _ => if found then Some (a, l) else None
  end.
Definition set_tm (c : ascii) (a : Z) (t : tm) : option tm :=
  let '(mkTm y m d h i s) := t in
  match zc c with
  | 89 => Some (mkTm a m d h i s)
  | 109 => if (1 <=? a) && (a <=? 12) then Some (mkTm y a d h i s) else None
  | 100 => if (1 <=? a) && (a <=? 31) then Some (mkTm y m a h i s) else None
  | 72 => if a <=? 23 then Some (mkTm y m d a i s) else None
  | 77 => if a <=? 59 then Some (mkTm y m d h a s) else None
  | 83 => if a <=? 60 then Some (mkTm y m d h i a) else None
  | _ => None
  end.
(** The directives [%Y %m %d %H %M %S] and literal characters. *)
Fixpoint strptime_ (fmt l : list ascii) (t : tm) : option tm :=
  match fmt with
  | [] => Some t
  | p :: fmt1 =>
      match fmt1 with
      | c :: fmt2 =>
          if zc p =? 37 then
            '(a, l) ← up_to_digits (if zc c =? 89 then 4%nat else 2%nat) l 0 false; t ← set_tm c a t; strptime_ fmt2 l t
          else match l with x :: l => if Ascii.eqb x p then strptime_ fmt1 l t else None | [] => None end
      | [] => match l with x :: l => if Ascii.eqb x p then strptime_ fmt1 l t else None | [] => None end
      end
  end.
Definition padded (n : nat) (z : Z) : string := let s := to_string_u z in zeros (Z.of_nat n - Z.of_nat (String.length s)) +:+ s.
Fixpoint strftime_ (fmt : list ascii) (t : tm) : string :=
  match fmt with
  | [] => ""
  | p :: fmt1 =>
      match fmt1 with
      | c :: fmt2 =>
          if zc p =? 37 then
            match zc c with
            | 89 => to_string_i (tm_year t) | 109 => padded 2 (tm_mon t) | 100 => padded 2 (tm_mday t)
            | 72 => padded 2 (tm_hour t) | 77 => padded 2 (tm_min t) | 83 => padded 2 (tm_sec t) | _ => ""
            end +:+ strftime_ fmt2 t
          else String p (strftime_ fmt1 t)
      | [] => String p ""
      end
  end.

(** ** Instances *)

(** A sum or a quotient of two decimal numbers. *)
Definition small_expression (s : string) : double :=
  let number t := match stod t with Val f => f | Throw _ => d_of_Z 0 end in
  match find_char "+" s, find_char "/" s with
  | Some i, _ => d_add (number (stake i s)) (number (sdrop (S i) s))
  | None, Some i => d_div (number (stake i s)) (number (sdrop (S i) s))
  | None, None => number s
  end.
(** [echo -n], and 127 for any other command. *)
Definition shell (c : string) : string * Z := if starts_with "echo -n " c then (sdrop 8 c, 0) else ("", 127).

(** Does a schema refer to nothing out of the document?  The validator is made without a
    loader, and refuses the others, as it does what is neither an object nor a boolean. *)
Fixpoint refs_local (j : json) : bool :=
  match j with
  | JObject kvs => forallb (fun kv => match kv with
      | (k, JString s) => negb (String.eqb k "$ref") || starts_with "#" s
      | (_, v) => refs_local v
      end) kvs
  | JArray l => forallb refs_local l
  | _ => true
  end.

Module Bench.
Export Still.
(** The reader and the writer of documents and the engine of regular expressions of this
    development, the draft as the validator, and files, sockets and a clock that are
    simulated. *)
#[export] Existing Instance model_eq.
#[export] Existing Instance reader_text.
#[export] Existing Instance model_pointer.
#[export] Existing Instance std_regex.
#[export] Existing Instance std_regex_search.
#[export] Instance bench_validator : SchemaLib :=
  {| validator := json; set_root_schema := fun s => match s with JObject _ | JBool _ => if refs_local s then Some s else None | _ => None end; schema_error := fun s j => if accepts7 s j then None else Some "error" |}.
#[export] Instance bench_files : AdminOutside world :=
  {| files_configuration := fun _ => Val "{}"; files_json := fun _ => Val "[]"; sockets_json := fun _ => Val "[]";
     enable_read_cache := fun _ o => o; malloc_trim := fun o => (false, o) |}.
#[export] Instance bench_calculus : Calculus :=
  {| expression_value := small_expression;
     strptime_gm := fun s fmt => timegm <$> strptime_ (chars fmt) (chars s) (mkTm 1900 1 1 0 0 0);
     strftime_gm := fun fmt e n => let r := strftime_ (chars fmt) (gmtime e) in if (String.length r <? n)%nat && negb (sempty r) then Some r else None |}.
Definition OS : Type := Machine (O := world).
(** The managers have no timers: a file that is written is closed at once. *)
Definition timed : Outside OS := machine 1024 false (fun _ => true) 108.
#[export] Instance bench_machine : Outside OS :=
  {| os_rand := @os_rand _ timed; os_clock_ns := @os_clock_ns _ timed; os_strftime := @os_strftime _ timed; os_popen := fun c o => (Some (shell c), o);
     fm_read := @fm_read _ timed; fm_write := fun p data text _ => @fm_write _ timed p data text 0; fm_empty := @fm_empty _ timed;
     sm_write := @sm_write _ timed |}.
End Bench.
Import Bench.

(** ** The instances satisfy the hypotheses *)

(** A repetition of a class takes characters of the class. *)
Lemma iter_eats f p q : iter (eats f) p q -> exists l, p_rest p = l ++ p_rest q /\ Forall (fun c => f c = true) l.
Proof.
  induction 1 as [p|p q r (c & t & Ep & Hc & ->) _ _ (l & El & Hl)].
  - by exists [].
  - cbn in El. exists (c :: l). rewrite Ep, El. split; [done|by constructor].
Qed.
Lemma eats_iter f l : Forall (fun c => f c = true) l -> forall b r g, exists q, iter (eats f) (mkPos b (l ++ r) g) q /\ p_rest q = r.
Proof.
  induction 1 as [|c l Hc _ IH]; intros b r g; [by eexists; split; [apply iter_stop|]|].
  destruct (IH false r g) as (q & Hq & Er). exists q. split; [|done].
  eapply iter_more; [by exists c, (l ++ r)| |exact Hq].
  unfold shorter. cbn. apply Nat.leb_le. lia.
Qed.

Lemma not_hash c : in_class true [("#"%char, "#"%char)] c = true <-> c <> "#"%char.
Proof.
  unfold in_class, in_range, existsb, fst, snd. rewrite orb_false_r. split.
  - intros H ->. by vm_compute in H.
  - intros Hne. assert (zc c <> zc "#"%char) by (by intros ?%zc_inj). cbn [xorb].
    apply negb_true_iff, andb_false_iff. rewrite !Z.leb_gt. lia.
Qed.

(** The pattern of states and identifiers, read by the engine, is what the theorems ask of
    it, and the validator follows the draft on the schemas of the operations. *)
#[export] Instance std_pattern_laws : PatternLaws.
Proof.
  split. intros s. unfold matches, regex_assign, regex_search, std_regex, std_regex_search.
  destruct (rx_compile "^[^#]*$") as [x|] eqn:Ex; [|by vm_compute in Ex].
  vm_compute in Ex. injection Ex as <-. unfold rx_search.
  set (r := Seq Bol (Seq (Star true (Class_ true [("#"%char, "#"%char)])) Eol)).
  change (rx_re _) with r.
  transitivity (is_Some (search_from r true (chars s))).
  { destruct (search_from r true (chars s)); split; done. }
  rewrite search_correct. unfold r, no_char. split.
  - intros (a & b & q & Es & m & [Hb ->] & m' & Hm%iter_eats & He & ->). cbn in Hb, Hm. apply bool_decide_eq_true in Hb as ->.
    destruct Hm as (l & -> & Hl). rewrite He, app_nil_r in Es. cbn in Es. rewrite Es. intros Hin.
    rewrite Forall_forall in Hl. by apply Hl in Hin; vm_compute in Hin.
  - intros Hn. destruct (eats_iter (in_class true [("#"%char, "#"%char)]) (chars s)) with (b := true) (r := @nil ascii) (g := @nil (nat * list ascii)) as (q & Hq & Er).
    { apply Forall_forall. intros c Hc. apply not_hash. by intros ->. }
    exists [], (chars s), q. split; [done|]. eexists. split; [by split|]. exists q. rewrite app_nil_r in Hq. done.
Qed.
#[export] Instance bench_validator_laws : ValidatorLaws.
Proof.
  assert (forall o, set_root_schema (adminSchemas o) = Some (adminSchemas o)) as Hs by (intros []; vm_compute; reflexivity).
  split; [eauto|]. intros o v j. rewrite Hs. intros [= <-]. unfold schema_error, bench_validator.
  destruct (accepts7 (adminSchemas o) j); split; done.
Qed.

(** With this engine the texts the schemas let through are the ones of [SchemaProperties]. *)
Definition accepted_and_throws (j : json) (e : exn) : bool :=
  op_valid adminSchemas OpServerProvision j &&
  match Provision_load id (fun _ => 0) j false with Throw x => bool_decide (x = e) | Val _ => false end.
Example let_through_by_the_engine :
  [accepted_and_throws bad_fallback json_exception; accepted_and_throws big_random out_of_range;
   matches server_items_source "eraser"; matches server_items_target "response.body.string"] = [true; true; true; true].
Proof. vm_compute. reflexivity. Qed.

(** No text of the tests has an escape of a URI or several parts. *)
Definition decode_url (s : string) : string := s.
Definition no_parts (boundary content : string) : list mp_event := [].
Definition ub (d : double) : Z := 0.

(** The reports of [jsonConstraint], [ert::tracing::Logger::asString] written out. *)
Definition failReport (r : fail_report) : outcome string :=
  match r with
  | ExpectedArray => Val "JsonConstraint FAILED: expected array but received non-array"
  | ElementNotFound i e =>
      let! t := json_dump e in
      Val ("JsonConstraint FAILED: expected element at index '" +:+ to_string_u (Z.of_nat i) +:+ "' not found in validated source array: " +:+ t)
  | KeyMissing k => Val ("JsonConstraint FAILED: expected key '" +:+ k +:+ "' is missing in validated source")
  | ValueDiffers k => Val ("JsonConstraint FAILED: expected value for key '" +:+ k +:+ "' differs regarding validated source")
  end.

(** ** The fixture *)

Definition int (z : Z) : json := if z <? 0 then JInt z else JUint z.
Definition float (a k : Z) : json := JFloat (d_of_decimal a k).

Definition ProvisionConfiguration_GET : json := obj [
    ("requestMethod", JString "GET");
    ("requestUri", JString "/app/v1/foo/bar/1?name=test");
    ("responseCode", JUint 200);
    ("responseDelayMs", JUint 0);
    ("responseBody", obj [("bar", JString "bar-1"); ("remove-me", JUint 0)]);
    ("responseHeaders", obj [("content-type", JString "application/json"); ("x-version", JString "1.0.0")])].
Definition ProvisionConfiguration_GET_responseBodyAsString : string := quoted "{'bar':'bar-1','remove-me':0}".
Definition request_document : json := obj [
    ("foo", JUint 1); ("node1", obj [("node2", JString "value-of-node1-node2"); ("delaymilliseconds", JUint 25)])].
Definition draft7 : string * json := ("$schema", JString "http://json-schema.org/draft-07/schema#").
Definition RequestSchema : json := obj [
    ("id", JString "myRequestSchema");
    ("schema", obj [draft7; ("type", JString "object"); ("additionalProperties", JBool true);
      ("properties", obj [("foo", obj [("type", JString "number")])]); ("required", arr [JString "foo"])])].
Definition ResponseSchema : json := obj [
    ("id", JString "myResponseSchema");
    ("schema", obj [draft7; ("type", JString "object"); ("additionalProperties", JBool true);
      ("properties", obj [("bar", obj [("type", JString "string")])]); ("required", arr [JString "bar"])])].
Definition SchemaExample : json := obj [
    ("id", JString "SchemaExample");
    ("schema", obj [draft7; ("type", JString "object"); ("required", arr [JString "foo"; JString "node1"]);
      ("properties", obj [("foo", obj [("type", JString "integer")]);
        ("node1", obj [("type", JString "object"); ("required", arr [JString "node2"; JString "delaymilliseconds"]);
          ("properties", obj [("node2", obj [("type", JString "string")]);
            ("delaymilliseconds", obj [("type", JString "integer"); ("const", JUint 25)])])])])])].

(** What the tests set before they run. *)
Record Fixture := mkFixture {
  fx_provision : json;
  fx_request : json;
  fx_headers : header_map;
  fx_world : World OS
}.

Definition loaded_schemas : gmap string AdminSchema :=
  foldl (fun m j => (schema_load (op_valid adminSchemas OpSchema) j m).1) ∅ [RequestSchema; ResponseSchema; SchemaExample].

Definition first_headers : header_map := [("content-type", "application/json"); ("x-version", "1.0.0")].

(** The events the fixture simulates. *)
Definition server_events : MockData MockServerEvent :=
  match MockServerEvent_load no_parts "previous-state" "state" 1000000 201 first_headers [] (DataPart_of (quoted "{'foo':15}"))
          (quoted "{'bar':25}") 111 20 "" "" with
  | Val (e, _) => data_loadEvent (DataKey2 "POST" "/app/v1/foo/bar/1") e true MockData_empty
  | Throw _ => MockData_empty
  end.
Definition client_events : MockData MockClientEvent :=
  match MockClientEvent_load no_parts "myProvisionId" "initial" "initial" 1000000 1000000 200 first_headers [("content-type", "application/json")]
          (quoted "{'qux':99}") (DataPart_of (quoted "{'baz':42}")) 1 1 0 3000 with
  | Val (e, _) => data_loadEvent (DataKey3 "myEndpoint" "GET" "/api/v1/data") e true MockData_empty
  | Throw _ => MockData_empty
  end.

Definition no_outside : OS := mkMachine ([] : world) (FileManager_new ∅) SocketManager_new [5].

Definition Transform_test : Fixture :=
  mkFixture ProvisionConfiguration_GET request_document first_headers
    (mkWorld (vault_load "myVault" (JString "myVault_value") Vault_new).1 server_events client_events loaded_schemas 1000000 0 no_outside).

(** [adata_.loadServerProvision(server_provision_json_, common_resources_)] *)
Definition load (f : Fixture) : ProvisionData * outcome LoadResult :=
  pd_load decode_url ub (op_valid adminSchemas OpServerProvision) false (fx_provision f) ProvisionData_new.
(** [find] and [transform], if the provision is found and no exception leaves it. *)
Definition transform_at (in_state requestBody response_body : string) (variables : gmap string string) (headers : header_map) (w : World OS)
    (d : ProvisionData) : option (Transformed (OS := OS)) :=
  p ← pd_find in_state "GET" "/app/v1/foo/bar/1?name=test" d;
  match transform no_parts ub failReport "/app/v1/foo/bar/1?name=test" "/app/v1/foo/bar/1" {["name" := "test"]}
          (DataPart_of requestBody) headers 74 response_body variables p w with
  | (t, Val tt) => Some t
  | (_, Throw _) => None
  end.
Definition provisionAndTransform (f : Fixture) (requestBody : string) : option (Transformed (OS := OS)) :=
  match load f with
  | (d, Val Success) => if (size (pd_map d) =? 1)%nat then transform_at "initial" requestBody "" ∅ (fx_headers f) (fx_world f) d else None
  | _ => None
  end.

(** ** The steps of a test *)

Definition set_field (k : string) (v : json) (f : Fixture) : Fixture :=
  mkFixture (json_set k v (fx_provision f)) (fx_request f) (fx_headers f) (fx_world f).
Definition field (k : string) (f : Fixture) : json := default JNull (json_find k (fx_provision f)).
(** [server_provision_json_["transform"].push_back(item)] *)
Definition push (item : json) (f : Fixture) : Fixture := set_field "transform" (JArray (json_elements (field "transform" f) ++ [item])) f.
Definition push_all (items : list json) (f : Fixture) : Fixture := foldl (fun f i => push i f) f items.
Definition set_request (k : string) (v : json) (f : Fixture) : Fixture :=
  mkFixture (fx_provision f) (json_set k v (fx_request f)) (fx_headers f) (fx_world f).
Definition with_content_type (t : string) (f : Fixture) : Fixture :=
  mkFixture (fx_provision f) (fx_request f) (("content-type", t) :: filter (fun h => h.1 <> "content-type") (fx_headers f)) (fx_world f).
Definition emplace (k v : string) (f : Fixture) : Fixture := mkFixture (fx_provision f) (fx_request f) (fx_headers f ++ [(k, v)]) (fx_world f).
Definition in_vault (k : string) (v : json) (f : Fixture) : Fixture :=
  let w := fx_world f in
  mkFixture (fx_provision f) (fx_request f) (fx_headers f)
    (mkWorld (vault_load k v (w_vault w)).1 (w_server w) (w_client w) (w_schemas w) (w_long_term_us w) (w_short_term_us w) (w_out w)).
Definition in_file (path content : string) (f : Fixture) : Fixture :=
  let w := fx_world f in
  mkFixture (fx_provision f) (fx_request f) (fx_headers f)
    (mkWorld (w_vault w) (w_server w) (w_client w) (w_schemas w) (w_long_term_us w) (w_short_term_us w)
       (mkMachine ([] : world) (FileManager_new {[path := content]}) SocketManager_new [5])).

Definition dump (j : json) : string := write_json j.
(** [provisionAndTransform(requestBody)] and what is expected of it. *)
Definition run (f : Fixture) (requestBody : string) (expected : Transformed (OS := OS) -> bool) : bool :=
  match provisionAndTransform f requestBody with Some t => expected t | None => false end.
Definition status (n : Z) (t : Transformed (OS := OS)) : bool := responseStatusCode (td_resp t) =? n.
Definition body_is (s : string) (t : Transformed (OS := OS)) : bool := String.eqb (responseBody (td_resp t)) s.
(** A member of the document in the response body. *)
Definition member (k : string) (v : json) (t : Transformed (OS := OS)) : bool :=
  match read_json (responseBody (td_resp t)) with Some j => match json_find k j with Some x => json_eqb x v | None => false end | None => false end.
Definition out_state (s : string) (t : Transformed (OS := OS)) : bool := String.eqb (outState (td_resp t)) s.
Definition triggers (l : list (string * string)) (t : Transformed (OS := OS)) : bool := bool_decide (clientProvisionTriggers (td_resp t) = l).
Definition both (a b : Transformed (OS := OS) -> bool) (t : Transformed (OS := OS)) : bool := a t && b t.
Infix "&&&" := both (at level 40, left associativity).

(** The headers in a member of the response body. *)
Definition is_header (name value : string) (h : json) : bool :=
  match json_find "name" h, json_find "value" h with
  | Some n, Some v => json_eqb n (JString name) && json_eqb v (JString value)
  | _, _ => false
  end.
Definition has_headers (k : string) (expected : list json -> bool) (t : Transformed (OS := OS)) : bool :=
  match read_json (responseBody (td_resp t)) ≫= json_find k with Some (JArray hdrs) => expected hdrs | _ => false end.

(** [transformation.load(item)] and [asString()]. *)
Definition text_is (item : json) (s : string) : bool :=
  match Transformation_load decode_url ub item with Val (Some t) => String.eqb (Transformation_asString t) s | _ => false end.

(** Expectations of values. *)
Definition checks : list bool -> bool := forallb id.
Definition same (a b : string) : bool := String.eqb a b.
Definition gives (o : outcome string) (s : string) : bool := match o with Val t => String.eqb t s | Throw _ => false end.
Definition some {A} (o : option A) : bool := match o with Some _ => true | None => false end.
(** [nlohmann::json::parse(text)] is a document. *)
Definition parses_to (o : outcome string) (j : json) : bool :=
  match o with Val t => match read_json t with Some x => json_eqb x j | None => false end | Throw _ => false end.
