(* ===== verification/TransformTests.v ===== *)
(** The tests of transformations of the repository ([ut/model/Transformation/transform.cpp]),
    each one as a definition that says whether the model gives what the test expects,
    and the theorem that it does.  Left out is [FilterSchemaId], which expects the text of
    an error of the validator. *)
From S2P Require Import Prelude Std Double Functions Query Json JsonModel JsonReader External Regex Keys DataPart MockEvents MockData Vault Transformation ItemText Schema Stages ServerProvision ServerAdmin AdminServer AdminSchemas Files Conformance.
From stdpp Require Import options.
Import Bench.
#[local] Open Scope Z_scope.

(** ** Items *)

Definition TransformationItemRegexCapture : json := obj [("source", JString "request.uri"); ("target", JString "var.uri_parts"); ("filter", obj [("RegexCapture", JString "(/app/v1/foo/bar/)([0-9]*)(\?name=test)")])].
Definition TransformationItemRegexCaptureUnmatches : json := obj [("source", JString "request.uri"); ("target", JString "var.uri_parts"); ("filter", obj [("RegexCapture", JString "(/app/v2/foo/bar/)([a-z]*)(\?name=proc)")])].
Definition TransformationItemRegexCaptureWithVault : json := obj [("source", JString "request.uri"); ("target", JString "vault.g_uri_parts"); ("filter", obj [("RegexCapture", JString "(/app/v1/foo/bar/)([0-9]*)(\?name=test)")])].
Definition TransformationItemRegexReplace : json := obj [("source", JString "request.uri.path"); ("target", JString "response.body.string"); ("filter", obj [("RegexReplace", obj [("rgx", JString "(/app/v1/foo/bar/)([0-9]*)"); ("fmt", JString "$2")])])].
Definition TransformationItemBadRegex : json := obj [("source", JString "request.uri"); ("target", JString "response.body.string"); ("filter", obj [("RegexCapture", JString "[")])].
Definition TransformationAsStringSource1 : json := obj [("source", JString "request.body"); ("target", JString "response.body.string")].
Definition TransformationAsStringSource2 : json := obj [("source", JString "random.1.2"); ("target", JString "response.body.string")].
Definition TransformationAsStringSource3 : json := obj [("source", JString "txtFile./tmp/foo"); ("target", JString "response.body.string")].
Definition TransformationAsStringSource4 : json := obj [("source", JString "command.echo -n hi @{name}"); ("target", JString "response.body.string")].
Definition TransformationAsStringTarget1 : json := obj [("source", JString "value.foo"); ("target", JString "response.body.json.string")].
Definition TransformationAsStringTarget2 : json := obj [("source", JString "value.foo"); ("target", JString "outState.POST.@{uri}")].
Definition TransformationAsStringTarget3 : json := obj [("source", JString "value.foo"); ("target", JString "txtFile.@{filepath}")].
Definition TransformationItemSplitDefaults : json := obj [("source", JString "value.55011223"); ("target", JString "response.body.string"); ("filter", obj [("Split", obj [])])].
Definition TransformationItemSplitNumeric : json := obj [("source", JString "value.55011223"); ("target", JString "response.body.string"); ("filter", obj [("Split", obj [("numeric", JBool true)])])].
Definition TransformationItemSplitCustom : json := obj [("source", JString "value.AABBCC"); ("target", JString "response.body.string"); ("filter", obj [("Split", obj [("size", JUint 2); ("count", JUint 3); ("sep", JString ":"); ("filler", JString "X"); ("numeric", JBool false)])])].
Definition TransformationAsStringFilter1 : json := obj [("source", JString "value.foo"); ("filter", obj [("Sum", JUint 1)]); ("target", JString "response.body.string")].
Definition TransformationAsStringFilter2 : json := obj [("source", JString "value.foo"); ("filter", obj [("EqualTo", JString "@{bar}")]); ("target", JString "response.body.string")].
Definition TransformationItemBaseConvertDecToHex : json := obj [("source", JString "value.255"); ("target", JString "response.body.string"); ("filter", obj [("BaseConvert", obj [("in", JUint 10); ("out", JUint 16)])])].
Definition TransformationItemBaseConvertDecToHexCapital : json := obj [("source", JString "value.255"); ("target", JString "response.body.string"); ("filter", obj [("BaseConvert", obj [("in", JUint 10); ("out", JUint 16); ("capital", JBool true)])])].
Definition TransformationItemBaseConvertHexToDec : json := obj [("source", JString "value.ff"); ("target", JString "response.body.string"); ("filter", obj [("BaseConvert", obj [("in", JUint 16); ("out", JUint 10)])])].
Definition TransformationItemBaseConvertDecToBin : json := obj [("source", JString "value.10"); ("target", JString "response.body.string"); ("filter", obj [("BaseConvert", obj [("in", JUint 10); ("out", JUint 2)])])].
Definition TransformationAsStringFilter3 : json := obj [("source", JString "request.uri"); ("target", JString "var.uri_parts"); ("filter", obj [("RegexCapture", JString "(/app/v1/foo/bar/)([0-9]*)(\?name=test)")])].
Definition TransformationAsStringFilter4 : json := obj [("source", JString "request.uri.path"); ("target", JString "response.body.string"); ("filter", obj [("RegexReplace", obj [("rgx", JString "(/app/v1/foo/bar/)([0-9]*)"); ("fmt", JString "$2")])])].
Definition TransformationAsStringFilter5 : json := obj [("source", JString "value.55011223"); ("target", JString "response.body.string"); ("filter", obj [("Split", obj [("numeric", JBool true)])])].

(** ** Tests *)

Definition Transform_TransformationAsStringSource1 : bool :=
  text_is TransformationAsStringSource1
    "SourceType: RequestBody | source_:  (empty: whole, path: node) | TargetType: ResponseBodyString".
Definition Transform_TransformationAsStringSource2 : bool :=
  text_is TransformationAsStringSource2
    "SourceType: Random | source_:  | source_i1_: 1 (Random min) | source_i2_: 2 (Random max) | TargetType: ResponseBodyString".
Definition Transform_TransformationAsStringSource3 : bool :=
  text_is TransformationAsStringSource3
    "SourceType: STxtFile | source_: /tmp/foo (path file) | TargetType: ResponseBodyString".
Definition Transform_TransformationAsStringSource4 : bool :=
  text_is TransformationAsStringSource4
    "SourceType: Command | source_: echo -n hi @{name} (shell command expression) | source variables: name | TargetType: ResponseBodyString".
Definition Transform_TransformationAsStringTarget1 : bool :=
  text_is TransformationAsStringTarget1
    "SourceType: Value | source_: foo | TargetType: ResponseBodyJson_String | target_:  (empty: whole, path: node)".
Definition Transform_TransformationAsStringTarget2 : bool :=
  text_is TransformationAsStringTarget2
    "SourceType: Value | source_: foo | TargetType: OutState | target_: POST (empty: current method, method: another) | target2_: @{uri}(empty: current uri, uri: another) | target2 variables: uri".
Definition Transform_TransformationAsStringTarget3 : bool :=
  text_is TransformationAsStringTarget3
    "SourceType: Value | source_: foo | TargetType: TTxtFile | target_: @{filepath} (path file) | target variables: filepath".
Definition Transform_TransformationAsStringFilter1 : bool :=
  text_is TransformationAsStringFilter1
    "SourceType: Value | source_: foo | TargetType: ResponseBodyString | FilterType: Sum | filter_number_type_: 1 (0: integer, 1: unsigned, 2: float) | filter_i_: 0 | filter_u_: 1 | filter_f_: 0".
Definition Transform_TransformationAsStringFilter2 : bool :=
  text_is TransformationAsStringFilter2
    "SourceType: Value | source_: foo | TargetType: ResponseBodyString | FilterType: EqualTo | filter_ @{bar} | filter variables: bar".
Definition Transform_TransformationAsStringFilter3 : bool :=
  text_is TransformationAsStringFilter3
    "SourceType: RequestUri | TargetType: TVar | target_: uri_parts | FilterType: RegexCapture | filter_ (/app/v1/foo/bar/)([0-9]*)(\?name=test) (literal, although not actually needed, but useful to access & print on traces)".
Definition Transform_TransformationAsStringFilter4 : bool :=
  text_is TransformationAsStringFilter4
    "SourceType: RequestUriPath | TargetType: ResponseBodyString | FilterType: RegexReplace | filter_ $2 (fmt)".
Definition Transform_TransformationAsStringFilter5 : bool :=
  text_is TransformationAsStringFilter5
    "SourceType: Value | source_: 55011223 | TargetType: ResponseBodyString | FilterType: Split | size: 2 | count: 4 | sep: '.' | filler: '0' | numeric: true".
Definition Transform_EmptyInStateAndOutStateBecomeDefault : bool :=
  let f := Transform_test in
  let f := set_field "inState" (JString "") f in
  let f := set_field "outState" (JString "") f in
  run f (dump request_document) (out_state "initial" &&& status 200 &&& body_is ProvisionConfiguration_GET_responseBodyAsString).
Definition Transform_ProvisionWithResponseBodyAsString : bool :=
  let f := Transform_test in
  let f := set_field "responseBody" (JString "hello") f in
  run f (dump request_document) (status 200 &&& body_is "hello").
Definition Transform_ProvisionWithResponseBodyAsNumberInteger : bool :=
  let f := Transform_test in
  let f := set_field "responseBody" (JInt (-123)) f in
  run f (dump request_document) (status 200 &&& body_is "-123").
Definition Transform_ProvisionWithResponseBodyAsNumberUnsigned : bool :=
  let f := Transform_test in
  let f := set_field "responseBody" (JInt 123) f in
  run f (dump request_document) (status 200 &&& body_is "123").
Definition Transform_ProvisionWithResponseBodyAsFloat : bool :=
  let f := Transform_test in
  let f := set_field "responseBody" (float 314 (-2)) f in
  run f (dump request_document) (status 200 &&& body_is "3.140000").
Definition Transform_ProvisionWithResponseBodyAsBoolean : bool :=
  let f := Transform_test in
  let f := set_field "responseBody" (JBool true) f in
  run f (dump request_document) (status 200 &&& body_is "true").
Definition Transform_ProvisionWithResponseBodyAsNull : bool :=
  let f := Transform_test in
  let f := set_field "responseBody" (JNull) f in
  run f (dump request_document) (status 200 &&& body_is "null").
Definition Transform_RequestNotValidated : bool :=
  let f := Transform_test in
  let f := set_field "requestSchemaId" (JString "myRequestSchema") f in
  let f := set_field "responseSchemaId" (JString "myResponseSchema") f in
  run f (dump (json_set "foo" (JString "this is a string") request_document)) (status 400 &&& body_is "").
Definition Transform_ResponseNotValidated : bool :=
  let f := set_field "requestSchemaId" (JString "myRequestSchema") Transform_test in
  let f := set_field "responseSchemaId" (JString "myResponseSchema") f in
  let f := set_field "responseBody" (JObject (filter (fun kv => kv.1 <> "bar") (items (field "responseBody" f)))) f in
  run f (dump request_document) (status 500 &&& body_is (quoted "{'remove-me':0}")).
Definition Transform_SourceRequestUri : bool :=
  let item := obj [("source", JString "request.uri"); ("target", JString "response.body.string")] in
  let f := Transform_test in
  let f := push item f in
  run f (dump request_document) (status 200 &&& body_is "/app/v1/foo/bar/1?name=test").
Definition Transform_SourceRequestUriPath : bool :=
  let item := obj [("source", JString "request.uri.path"); ("target", JString "response.body.string")] in
  let f := Transform_test in
  let f := push item f in
  run f (dump request_document) (status 200 &&& body_is "/app/v1/foo/bar/1").
Definition Transform_SourceRequestUriParam : bool :=
  let item := obj [("source", JString "request.uri.param.name"); ("target", JString "response.body.string")] in
  let f := Transform_test in
  let f := push item f in
  run f (dump request_document) (status 200 &&& body_is "test").
Definition Transform_SourceRequestUriParamUnknown : bool :=
  let item := obj [("source", JString "request.uri.param.missing"); ("target", JString "response.body.string")] in
  let f := Transform_test in
  let f := push item f in
  run f (dump request_document) (status 200 &&& body_is ProvisionConfiguration_GET_responseBodyAsString).
Definition Transform_SourceRequestBody : bool :=
  let item := obj [("source", JString "request.body"); ("target", JString "response.body.string")] in
  let f := Transform_test in
  let f := push item f in
  run f (dump request_document) (status 200 &&& body_is (quoted "{'foo':1,'node1':{'delaymilliseconds':25,'node2':'value-of-node1-node2'}}")).
Definition Transform_SourceRequestBodyEmpty : bool :=
  let item := obj [("source", JString "request.body"); ("target", JString "response.body.string")] in
  let f := Transform_test in
  let f := push item f in
  run f "" (status 200 &&& body_is "").
Definition Transform_SourceRequestBodyPlainText : bool :=
  let item := obj [("source", JString "request.body"); ("target", JString "response.body.string")] in
  let f := Transform_test in
  let f := with_content_type "text/html" f in
  let f := push item f in
  run f "hello" (status 200 &&& body_is "hello").
Definition Transform_SourceRequestBodyPath : bool :=
  let item := obj [("source", JString "request.body./foo"); ("target", JString "response.body.string")] in
  let f := Transform_test in
  let f := push item f in
  run f (dump request_document) (status 200 &&& body_is "1").
Definition Transform_SourceRequestBodyPathUnknown : bool :=
  let item := obj [("source", JString "request.body./missing"); ("target", JString "response.body.string")] in
  let f := Transform_test in
  let f := push item f in
  run f (dump request_document) (status 200 &&& body_is ProvisionConfiguration_GET_responseBodyAsString).
Definition Transform_SourceRequestHeader : bool :=
  let item := obj [("source", JString "request.header.x-version"); ("target", JString "response.body.string")] in
  let f := Transform_test in
  let f := push item f in
  run f (dump request_document) (status 200 &&& body_is "1.0.0").
Definition Transform_SourceRequestHeaderUnknown : bool :=
  let item := obj [("source", JString "request.header.missing"); ("target", JString "response.body.string")] in
  let f := Transform_test in
  let f := push item f in
  run f (dump request_document) (status 200 &&& body_is ProvisionConfiguration_GET_responseBodyAsString).
Definition Transform_SourceResponseBody : bool :=
  let item := obj [("source", JString "response.body"); ("target", JString "response.body.string")] in
  let f := Transform_test in
  let f := push item f in
  run f (dump request_document) (status 200 &&& body_is ProvisionConfiguration_GET_responseBodyAsString).
Definition Transform_SourceResponseBodyPath : bool :=
  let item := obj [("source", JString "response.body./bar"); ("target", JString "response.body.string")] in
  let f := Transform_test in
  let f := push item f in
  run f (dump request_document) (status 200 &&& body_is "bar-1").
Definition Transform_SourceResponseBodyPathUnknown : bool :=
  let item := obj [("source", JString "response.body./missing"); ("target", JString "response.body.string")] in
  let f := Transform_test in
  let f := push item f in
  run f (dump request_document) (status 200 &&& body_is ProvisionConfiguration_GET_responseBodyAsString).
Definition Transform_SourceEraser : bool :=
  let item := obj [("source", JString "eraser"); ("target", JString "response.body.json.object./remove-me")] in
  let f := Transform_test in
  let f := push item f in
  run f (dump request_document) (status 200 &&& body_is (quoted "{'bar':'bar-1'}")).
Definition Transform_SourceEraserWholeJson : bool :=
  let item := obj [("source", JString "eraser"); ("target", JString "response.body.json.object")] in
  let f := Transform_test in
  let f := push item f in
  run f (dump request_document) (status 200 &&& body_is "").
Definition Transform_SourceEraserVault : bool :=
  let item1 := obj [("source", JString "value.myVaultEntry_value"); ("target", JString "vault.myVaultEntry")] in
  let item2 := obj [("source", JString "vault.myVaultEntry"); ("target", JString "response.body.json.object./vaultBeforeRemoval")] in
  let item3 := obj [("source", JString "eraser"); ("target", JString "vault.myVaultEntry")] in
  let item4 := obj [("source", JString "vault.myVaultEntry"); ("target", JString "response.body.json.object./vaultAfterRemoval")] in
  let expectedJson := field "responseBody" Transform_test in
  let expectedJson := json_set "vaultBeforeRemoval" (JString "myVaultEntry_value") expectedJson in
  let f := Transform_test in
  let f := push_all [item1; item2; item3; item4] f in
  run f (dump request_document) (status 200 &&& body_is (dump expectedJson)).
Definition Transform_SourceMath : bool :=
  let item := obj [("source", JString "math.1+1"); ("target", JString "response.body.string")] in
  let f := Transform_test in
  let f := push item f in
  run f (dump request_document) (status 200 &&& body_is "2").
Definition Transform_SourceRandom : bool :=
  let item := obj [("source", JString "random.10.10"); ("target", JString "response.body.string")] in
  let f := Transform_test in
  let f := push item f in
  run f (dump request_document) (status 200 &&& body_is "10").
Definition Transform_SourceRandomSet : bool :=
  let item := obj [("source", JString "randomset.hi|hi|hi"); ("target", JString "response.body.string")] in
  let f := Transform_test in
  let f := push item f in
  run f (dump request_document) (status 200 &&& body_is "hi").
Definition Transform_SourceTimestamp : bool :=
  let item1 := obj [("source", JString "timestamp.ms"); ("target", JString "response.body.json.object./timestampMs")] in
  let item2 := obj [("source", JString "timestamp.us"); ("target", JString "response.body.json.object./timestampUs")] in
  let item3 := obj [("source", JString "timestamp.ns"); ("target", JString "response.body.json.object./timestampNs")] in
  let item4 := obj [("source", JString "timestamp.s"); ("target", JString "response.body.json.object./timestampS")] in
  let f := push_all [item1; item2; item3; item4] Transform_test in
  run f (dump request_document) (status 200 &&& fun t =>
    match read_json (responseBody (td_resp t)) with
    | Some responseBuilt =>
        let expectedJson := field "responseBody" Transform_test in
        let copy k j := json_set k (default JNull (json_find k responseBuilt)) j in
        body_is (dump (copy "timestampS" (copy "timestampNs" (copy "timestampUs" (copy "timestampMs" expectedJson))))) t
    | None => false
    end).
Definition Transform_SourceStrftime : bool :=
  let item := obj [("source", JString "strftime.This month is %b."); ("target", JString "response.body.string")] in
  run (push item Transform_test) (dump request_document) (status 200 &&& body_is (os_strftime "This month is %b." 80 no_outside).1).
Definition Transform_SourceRecvseq : bool :=
  let item := obj [("source", JString "recvseq"); ("target", JString "response.body.string")] in
  let f := Transform_test in
  let f := push item f in
  run f (dump request_document) (status 200 &&& body_is (to_string_u 74)).
Definition Transform_SourceVariable : bool :=
  let item1 := obj [("source", JString "value.myVariable_value"); ("target", JString "var.myVariable")] in
  let item2 := obj [("source", JString "var.myVariable"); ("target", JString "response.body.string")] in
  let f := Transform_test in
  let f := push_all [item1; item2] f in
  run f (dump request_document) (status 200 &&& body_is "myVariable_value").
Definition Transform_SourceVariableUnknown : bool :=
  let item := obj [("source", JString "var.myVariable"); ("target", JString "response.body.string")] in
  let f := Transform_test in
  let f := push item f in
  run f (dump request_document) (status 200 &&& body_is ProvisionConfiguration_GET_responseBodyAsString).
Definition Transform_SourceVault : bool :=
  let item := obj [("source", JString "vault.myVault"); ("target", JString "response.body.string")] in
  let f := Transform_test in
  let f := push item f in
  run f (dump request_document) (status 200 &&& body_is "myVault_value").
Definition Transform_SourceVaultUnknown : bool :=
  let item := obj [("source", JString "vault.missingVault"); ("target", JString "response.body.string")] in
  let f := Transform_test in
  let f := push item f in
  run f (dump request_document) (status 200 &&& body_is ProvisionConfiguration_GET_responseBodyAsString).
Definition Transform_SourceServerEvent : bool :=
  let item := obj [("source", JString "serverEvent.requestMethod=POST&requestUri=/app/v1/foo/bar/1&eventNumber=-1&eventPath=/requestBody/foo"); ("target", JString "response.body.string")] in
  let f := Transform_test in
  let f := push item f in
  run f (dump request_document) (status 200 &&& body_is "15").
Definition Transform_SourceServerEventPathUnknown : bool :=
  let item := obj [("source", JString "serverEvent.requestMethod=POST&requestUri=/app/v1/foo/bar/1&eventNumber=-1&eventPath=/requestBody/missing"); ("target", JString "response.body.string")] in
  let f := Transform_test in
  let f := push item f in
  run f (dump request_document) (status 200 &&& body_is ProvisionConfiguration_GET_responseBodyAsString).
Definition Transform_SourceClientEvent : bool :=
  let item := obj [("source", JString "clientEvent.clientEndpointId=myEndpoint&requestMethod=GET&requestUri=/api/v1/data&eventNumber=-1&eventPath=/responseBody/baz"); ("target", JString "response.body.string")] in
  let f := Transform_test in
  let f := push item f in
  run f (dump request_document) (status 200 &&& body_is "42").
Definition Transform_SourceClientEventPathUnknown : bool :=
  let item := obj [("source", JString "clientEvent.clientEndpointId=myEndpoint&requestMethod=GET&requestUri=/api/v1/data&eventNumber=-1&eventPath=/responseBody/missing"); ("target", JString "response.body.string")] in
  let f := Transform_test in
  let f := push item f in
  run f (dump request_document) (status 200 &&& body_is ProvisionConfiguration_GET_responseBodyAsString).
Definition Transform_SourceClientEventEndpointUnknown : bool :=
  let item := obj [("source", JString "clientEvent.clientEndpointId=unknownEndpoint&requestMethod=GET&requestUri=/api/v1/data&eventNumber=-1&eventPath=/responseBody/baz"); ("target", JString "response.body.string")] in
  let f := Transform_test in
  let f := push item f in
  run f (dump request_document) (status 200 &&& body_is ProvisionConfiguration_GET_responseBodyAsString).
Definition Transform_SourceValue : bool :=
  let item := obj [("source", JString "value.hello"); ("target", JString "response.body.string")] in
  let f := Transform_test in
  let f := push item f in
  run f (dump request_document) (status 200 &&& body_is "hello").
Definition Transform_SourceInState : bool :=
  let item := obj [("source", JString "inState"); ("target", JString "response.body.string")] in
  let f := Transform_test in
  let f := push item f in
  run f (dump request_document) (status 200 &&& body_is "initial").
Definition Transform_SourceTxtFile : bool :=
  let path := "/tmp/h2agent.UT.Transform_test.SourceTxtFile.txt" in
  let f := in_file path ("example" +:+ newline) Transform_test in
  let item := obj [("source", JString ("txtFile." +:+ path)); ("target", JString "response.body.string")] in
  run (push item f) (dump request_document) (status 200 &&& body_is "example").
Definition Transform_SourceBinFile : bool :=
  let path := "/tmp/h2agent.UT.Transform_test.SourceBinFile.bin" in
  let value := str [cz 15; cz 0; cz 0; cz 0] in
  let f := in_file path value Transform_test in
  let item := obj [("source", JString ("binFile." +:+ path)); ("target", JString "response.body.string")] in
  run (push item f) (dump request_document) (status 200 &&& fun t => String.eqb (stake 4 (responseBody (td_resp t))) value).
Definition Transform_SourceCommand : bool :=
  let item1 := obj [("source", JString "command.echo -n foo"); ("target", JString "response.body.string")] in
  let item2 := obj [("source", JString "math.200+@{rc}"); ("target", JString "response.statusCode")] in
  let f := Transform_test in
  let f := push_all [item1; item2] f in
  run f (dump request_document) (status 200 &&& body_is "foo").
Definition Transform_SourceCommandFail : bool :=
  let item1 := obj [("source", JString "command.unknowncommand"); ("target", JString "var.command-output")] in
  let item2 := obj [("source", JString "value.@{command-output}@{rc}"); ("target", JString "response.body.string")] in
  let f := Transform_test in
  let f := push_all [item1; item2] f in
  run f (dump request_document) (status 200 &&& body_is "127").
Definition Transform_TargetResponseBodyString : bool :=
  let item := obj [("source", JString "value.plain text"); ("target", JString "response.body.string")] in
  let f := Transform_test in
  let f := push item f in
  run f (dump request_document) (status 200 &&& body_is "plain text").
Definition Transform_TargetResponseBodyHexString : bool :=
  let item := obj [("source", JString "value.0xc0a8"); ("target", JString "response.body.hexstring")] in
  let f := push item Transform_test in
  let f := set_field "responseHeaders" (json_set "content-type" (JString "application/octet-stream") (field "responseHeaders" f)) f in
  run f (dump request_document) (status 200 &&&
    (fun t => bool_decide (responseHeaders (td_resp t) = [("content-type", "application/octet-stream"); ("x-version", "1.0.0")])) &&&
    body_is (str [cz 192; cz 168])).
Definition Transform_TargetResponseBodyJsonObjectFromString : bool :=
  let item := obj [("source", JString "value.hello"); ("target", JString "response.body.json.object")] in
  let f := Transform_test in
  let f := push item f in
  run f (dump request_document) (status 200 &&& body_is (quoted "'hello'")).
Definition Transform_TargetResponseBodyJsonObjectFromInteger : bool :=
  let item := obj [("source", JString "random.10.10"); ("target", JString "response.body.json.object")] in
  let f := Transform_test in
  let f := push item f in
  run f (dump request_document) (status 200 &&& body_is "10").
Definition Transform_TargetResponseBodyJsonObjectFromUnsigned : bool :=
  let item := obj [("source", JString "recvseq"); ("target", JString "response.body.json.object")] in
  let f := Transform_test in
  let f := push item f in
  run f (dump request_document) (status 200 &&& body_is "74").
Definition Transform_TargetResponseBodyJsonObjectFromFloat : bool :=
  let item := obj [("source", JString "math.1/2"); ("target", JString "response.body.json.object")] in
  let f := Transform_test in
  let f := push item f in
  run f (dump request_document) (status 200 &&& body_is "0.5").
Definition Transform_TargetResponseBodyJsonObjectFromBoolean : bool :=
  let item := obj [("source", JString "request.body./boo"); ("target", JString "response.body.json.object")] in
  let f := Transform_test in
  let f := push item f in
  run f (quoted "{'bar':'bar-1','foo':1,'boo':true}") (status 200 &&& body_is "true").
Definition Transform_TargetResponseBodyJsonObject : bool :=
  let item := obj [("source", JString "request.body"); ("target", JString "response.body.json.object")] in
  let f := Transform_test in
  let f := push item f in
  run f (dump request_document) (status 200 &&& body_is (quoted "{'bar':'bar-1','foo':1,'node1':{'delaymilliseconds':25,'node2':'value-of-node1-node2'},'remove-me':0}")).
Definition Transform_TargetResponseBodyJsonJsonstring : bool :=
  let item := obj [("source", JString (quoted "value.{'bar':'bar-8'}")); ("target", JString "response.body.json.jsonstring")] in
  let f := Transform_test in
  let f := push item f in
  run f (dump request_document) (status 200 &&& body_is (quoted "{'bar':'bar-8','remove-me':0}")).
Definition Transform_TargetResponseBodyJsonJsonstringMalformed : bool :=
  let item := obj [("source", JString (quoted "value.{'bar:'bar-8'}")); ("target", JString "response.body.json.jsonstring")] in
  let f := Transform_test in
  let f := push item f in
  run f (dump request_document) (status 200 &&& body_is ProvisionConfiguration_GET_responseBodyAsString).
Definition Transform_TargetResponseBodyJsonString : bool :=
  let item := obj [("source", JString "value.hello"); ("target", JString "response.body.json.string")] in
  let f := Transform_test in
  let f := push item f in
  run f (dump request_document) (status 200 &&& body_is (quoted "'hello'")).
Definition Transform_TargetResponseBodyJsonInteger : bool :=
  let item := obj [("source", JString "value.-15"); ("target", JString "response.body.json.integer")] in
  let f := Transform_test in
  let f := push item f in
  run f (dump request_document) (status 200 &&& body_is "-15").
Definition Transform_TargetResponseBodyJsonUnsigned : bool :=
  let item := obj [("source", JString "value.15"); ("target", JString "response.body.json.unsigned")] in
  let f := Transform_test in
  let f := push item f in
  run f (dump request_document) (status 200 &&& body_is "15").
Definition Transform_TargetResponseBodyJsonFloat : bool :=
  let item := obj [("source", JString "value.3.14"); ("target", JString "response.body.json.float")] in
  let f := Transform_test in
  let f := push item f in
  run f (dump request_document) (status 200 &&& body_is "3.14").
Definition Transform_TargetResponseBodyJsonBoolean : bool :=
  let item := obj [("source", JString "value.non-empty-string-means-true"); ("target", JString "response.body.json.boolean")] in
  let f := Transform_test in
  let f := push item f in
  run f (dump request_document) (status 200 &&& body_is "true").
Definition Transform_TargetResponseBodyJsonObjectPath : bool :=
  let item := obj [("source", JString "request.body"); ("target", JString "response.body.json.object./target")] in
  let f := Transform_test in
  let f := push item f in
  run f (dump request_document) (status 200 &&& body_is (quoted "{'bar':'bar-1','remove-me':0,'target':{'foo':1,'node1':{'delaymilliseconds':25,'node2':'value-of-node1-node2'}}}")).
Definition Transform_TargetResponseBodyJsonJsonstringPath : bool :=
  let item := obj [("source", JString (quoted "value.{'bar':'bar-8'}")); ("target", JString "response.body.json.jsonstring./target")] in
  let f := Transform_test in
  let f := push item f in
  run f (dump request_document) (status 200 &&& body_is (quoted "{'bar':'bar-1','remove-me':0,'target':{'bar':'bar-8'}}")).
Definition Transform_TargetResponseBodyJsonStringPath : bool :=
  let item := obj [("source", JString "value.hello"); ("target", JString "response.body.json.string./target")] in
  let f := Transform_test in
  let f := push item f in
  run f (dump request_document) (status 200 &&& body_is (quoted "{'bar':'bar-1','remove-me':0,'target':'hello'}")).
Definition Transform_TargetResponseBodyJsonStringMissingPathException : bool :=
  let item := obj [("source", JString "request.body"); ("target", JString "response.body.json.string.target")] in
  let f := Transform_test in
  let f := push item f in
  run f "hello" (status 200 &&& body_is ProvisionConfiguration_GET_responseBodyAsString).
Definition Transform_TargetResponseBodyJsonStringPathExceptionDueToBinary : bool :=
  let item := obj [("source", JString "request.body"); ("target", JString "response.body.json.string./target")] in
  let f := Transform_test in
  let f := with_content_type "application/octet-stream" f in
  let f := push item f in
  run f (str [cz 128; cz 1]) (status 200 &&& body_is "").
Definition Transform_TargetResponseBodyJsonIntegerPath : bool :=
  let item := obj [("source", JString "value.-15"); ("target", JString "response.body.json.integer./target")] in
  let f := Transform_test in
  let f := push item f in
  run f (dump request_document) (status 200 &&& body_is (quoted "{'bar':'bar-1','remove-me':0,'target':-15}")).
Definition Transform_TargetResponseBodyJsonUnsignedPath : bool :=
  let item := obj [("source", JString "value.15"); ("target", JString "response.body.json.unsigned./target")] in
  let f := Transform_test in
  let f := push item f in
  run f (dump request_document) (status 200 &&& body_is (quoted "{'bar':'bar-1','remove-me':0,'target':15}")).
Definition Transform_TargetResponseBodyJsonFloatPath : bool :=
  let item := obj [("source", JString "value.3.14"); ("target", JString "response.body.json.float./target")] in
  let f := Transform_test in
  let f := push item f in
  run f (dump request_document) (status 200 &&& body_is (quoted "{'bar':'bar-1','remove-me':0,'target':3.14}")).
Definition Transform_TargetResponseBodyJsonBooleanPath : bool :=
  let item := obj [("source", JString "value.non-empty-string-means-true"); ("target", JString "response.body.json.boolean./target")] in
  let f := Transform_test in
  let f := push item f in
  run f (dump request_document) (status 200 &&& body_is (quoted "{'bar':'bar-1','remove-me':0,'target':true}")).
Definition Transform_TargetResponseHeader : bool :=
  let item := obj [("source", JString "value.1.2.3"); ("target", JString "response.header.version")] in
  run (push item Transform_test) (dump request_document) (status 200 &&& body_is ProvisionConfiguration_GET_responseBodyAsString &&&
    fun t => bool_decide (headers_find "version" (responseHeaders (td_resp t)) = Some "1.2.3")).
Definition Transform_TargetResponseStatusCode : bool :=
  let item := obj [("source", JString "value.201"); ("target", JString "response.statusCode")] in
  let f := Transform_test in
  let f := push item f in
  run f (dump request_document) (status 201 &&& body_is ProvisionConfiguration_GET_responseBodyAsString).
Definition Transform_TargetResponsedelayMs : bool :=
  let item := obj [("source", JString "value.125"); ("target", JString "response.delayMs")] in
  run (push item Transform_test) (dump request_document) (status 200 &&& body_is ProvisionConfiguration_GET_responseBodyAsString &&&
    fun t => responseDelayMs (td_resp t) =? 125).
Definition Transform_TargetVariable : bool :=
  let item1 := obj [("source", JString "value.hello"); ("target", JString "var.varname")] in
  let item2 := obj [("source", JString "var.varname"); ("target", JString "response.body.string")] in
  let f := Transform_test in
  let f := push_all [item1; item2] f in
  run f (dump request_document) (status 200 &&& body_is "hello").
Definition Transform_TargetVault : bool :=
  let item1 := obj [("source", JString "value.hello"); ("target", JString "vault.vaultname")] in
  let item2 := obj [("source", JString "vault.vaultname"); ("target", JString "response.body.string")] in
  let f := Transform_test in
  let f := push_all [item1; item2] f in
  run f (dump request_document) (status 200 &&& body_is "hello").
Definition Transform_TargetServerEvent : bool :=
  let item1 := obj [("source", JString "value.any"); ("target", JString "serverEvent.requestMethod=POST&requestUri=/app/v1/foo/bar/1&eventNumber=-1&eventPath=/requestBody/foo")] in
  let item2 := obj [("source", JString "eraser"); ("target", JString "serverEvent.requestMethod=POST&requestUri=/app/v1/foo/bar/1&eventNumber=-1&eventPath=/requestBody/foo")] in
  let item3 := obj [("source", JString "eraser"); ("target", JString "serverEvent.requestUri=/app/v1/foo/bar/1&eventNumber=-1&eventPath=/requestBody/foo")] in
  let item4 := obj [("source", JString "serverEvent.requestMethod=POST&requestUri=/app/v1/foo/bar/1&eventNumber=-1&eventPath=/requestBody/foo"); ("target", JString "response.body.string")] in
  let f := Transform_test in
  let f := push_all [item1; item2; item3; item4] f in
  run f (dump request_document) (status 200 &&& body_is ProvisionConfiguration_GET_responseBodyAsString).
Definition Transform_TargetOutState : bool :=
  let item := obj [("source", JString "value.out-state"); ("target", JString "outState")] in
  let f := Transform_test in
  let f := push item f in
  run f (dump request_document) (status 200 &&& body_is ProvisionConfiguration_GET_responseBodyAsString &&& out_state "out-state").
Definition Transform_TargetOutStateForeign : bool :=
  let item := obj [("source", JString "value.foreign-state"); ("target", JString "outState.POST./foreign/uri")] in
  run (push item Transform_test) (dump request_document) (status 200 &&& body_is ProvisionConfiguration_GET_responseBodyAsString &&&
    out_state "foreign-state" &&& fun t => String.eqb (outStateMethod (td_resp t)) "POST" && String.eqb (outStateUri (td_resp t)) "/foreign/uri").
Definition Transform_TargetTxtFile : bool :=
  let item1 := obj [("source", JString "value.example2"); ("target", JString "txtFile./tmp/h2agent.UT.Transform_test.SourceTxtFile2.txt")] in
  let item2 := obj [("source", JString "txtFile./tmp/h2agent.UT.Transform_test.SourceTxtFile2.txt"); ("target", JString "response.body.string")] in
  let item3 := obj [("source", JString "eraser"); ("target", JString "txtFile./tmp/h2agent.UT.Transform_test.SourceTxtFile2.txt")] in
  let f := Transform_test in
  let f := push_all [item1; item2; item3] f in
  run f (dump request_document) (status 200 &&& body_is "example2").
Definition Transform_TargetBinFile : bool :=
  let path := "/tmp/h2agent.UT.Transform_test.SourceBinFile.bin" in
  let path2 := "/tmp/h2agent.UT.Transform_test.SourceBinFile2.bin" in
  let value := str [cz 35; cz 0; cz 0; cz 0] in
  let f := in_file path value Transform_test in
  let item1 := obj [("source", JString ("binFile." +:+ path)); ("target", JString ("binFile." +:+ path2))] in
  let item2 := obj [("source", JString "eraser"); ("target", JString ("binFile." +:+ path))] in
  run (push_all [item1; item2] f) (dump request_document) (status 200 &&& body_is ProvisionConfiguration_GET_responseBodyAsString &&&
    fun t => bool_decide (disk_ (ma_files (w_out (td_world t))) !! path2 = Some value)).
Definition Transform_TargetUDPSocket : bool :=
  let socketPath := "/tmp/h2agent.UT.Transform_test.TargetUDPSocket" in
  let item := obj [("source", JString "value.hello"); ("target", JString ("udpSocket." +:+ socketPath +:+ "|0"))] in
  run (push item Transform_test) (dump request_document) (status 200 &&&
    fun t => bool_decide ((sent_ (ma_sockets (w_out (td_world t)))).*2 = ["hello"])).
Definition Transform_TargetBreak : bool :=
  let item1 := obj [("source", JString "value."); ("target", JString "break")] in
  let item2 := obj [("source", JString "value.hello"); ("target", JString "response.body.string")] in
  let item3 := obj [("source", JString "value.non-empty"); ("target", JString "break")] in
  let item4 := obj [("source", JString "value.201"); ("target", JString "response.statusCode")] in
  let f := Transform_test in
  let f := push_all [item1; item2; item3; item4] f in
  run f (dump request_document) (status 200 &&& body_is "hello").
Definition Transform_TargetClientProvision : bool :=
  let item1 := obj [("source", JString "value.1"); ("target", JString "clientProvision.myFlow.initial")] in
  let item2 := obj [("source", JString "value.go"); ("target", JString "clientProvision.anotherFlow.step2")] in
  run (push_all [item1; item2] Transform_test) (dump request_document) (triggers [("myFlow", "initial"); ("anotherFlow", "step2")]).
Definition Transform_TargetClientProvisionWithEraser : bool :=
  let item := obj [("source", JString "eraser"); ("target", JString "clientProvision.myFlow.initial")] in
  let f := Transform_test in
  let f := push item f in
  run f (dump request_document) (triggers []).
Definition Transform_TargetClientProvisionSkippedOnEmptyVar : bool :=
  let item := obj [("source", JString "var.nonExistent"); ("target", JString "clientProvision.myFlow.initial")] in
  let f := Transform_test in
  let f := push item f in
  run f (dump request_document) (triggers []).
Definition Transform_TargetClientProvisionMissingInState : bool :=
  let item := obj [("source", JString "value.1"); ("target", JString "clientProvision.myFlow")] in
  let f := Transform_test in
  let f := push item f in
  run f (dump request_document) (triggers []).
Definition Transform_FilterIncompatibleWithEraser : bool :=
  let f := Transform_test in
  let f := push TransformationItemBadRegex f in
  run f (dump request_document) (status 200 &&& body_is ProvisionConfiguration_GET_responseBodyAsString).
Definition Transform_FilterRegexCapture : bool :=
  let item1 := obj [("source", JString "var.uri_parts"); ("target", JString "response.body.json.string./uri_parts")] in
  let item2 := obj [("source", JString "var.uri_parts.1"); ("target", JString "response.body.json.string./uri_parts.1")] in
  let item3 := obj [("source", JString "var.uri_parts.2"); ("target", JString "response.body.json.string./uri_parts.2")] in
  let item4 := obj [("source", JString "var.uri_parts.3"); ("target", JString "response.body.json.string./uri_parts.3")] in
  let expectedJson := field "responseBody" Transform_test in
  let expectedJson := json_set "uri_parts" (JString "/app/v1/foo/bar/1?name=test") expectedJson in
  let expectedJson := json_set "uri_parts.1" (JString "/app/v1/foo/bar/") expectedJson in
  let expectedJson := json_set "uri_parts.2" (JString "1") expectedJson in
  let expectedJson := json_set "uri_parts.3" (JString "?name=test") expectedJson in
  let f := Transform_test in
  let f := push_all [TransformationItemRegexCapture; item1; item2; item3; item4] f in
  run f (dump request_document) (status 200 &&& body_is (dump expectedJson)).
Definition Transform_FilterRegexCaptureWithVault : bool :=
  let item1 := obj [("source", JString "vault.g_uri_parts"); ("target", JString "response.body.json.object./g_uri_parts")] in
  let item2 := obj [("source", JString "vault.g_uri_parts./1"); ("target", JString "response.body.json.string./g_uri_parts.1")] in
  let item3 := obj [("source", JString "vault.g_uri_parts./2"); ("target", JString "response.body.json.string./g_uri_parts.2")] in
  let item4 := obj [("source", JString "vault.g_uri_parts./3"); ("target", JString "response.body.json.string./g_uri_parts.3")] in
  let expectedJson := field "responseBody" Transform_test in
  let expectedJson := json_set "g_uri_parts" (obj [("0", JString "/app/v1/foo/bar/1?name=test"); ("1", JString "/app/v1/foo/bar/"); ("2", JString "1"); ("3", JString "?name=test")]) expectedJson in
  let expectedJson := json_set "g_uri_parts.1" (JString "/app/v1/foo/bar/") expectedJson in
  let expectedJson := json_set "g_uri_parts.2" (JString "1") expectedJson in
  let expectedJson := json_set "g_uri_parts.3" (JString "?name=test") expectedJson in
  let f := Transform_test in
  let f := push_all [TransformationItemRegexCaptureWithVault; item1; item2; item3; item4] f in
  run f (dump request_document) (status 200 &&& body_is (dump expectedJson)).
Definition Transform_FilterRegexCaptureUnmatches : bool :=
  let item1 := obj [("source", JString "var.uri_parts"); ("target", JString "response.body.json.string./uri_parts")] in
  let item2 := obj [("source", JString "var.uri_parts.1"); ("target", JString "response.body.json.string./uri_parts.1")] in
  let item3 := obj [("source", JString "var.uri_parts.2"); ("target", JString "response.body.json.string./uri_parts.2")] in
  let item4 := obj [("source", JString "var.uri_parts.3"); ("target", JString "response.body.json.string./uri_parts.3")] in
  let f := Transform_test in
  let f := push_all [TransformationItemRegexCaptureUnmatches; item1; item2; item3; item4] f in
  run f (dump request_document) (status 200 &&& body_is ProvisionConfiguration_GET_responseBodyAsString).
Definition Transform_FilterRegexCaptureWrongRegex : bool :=
  let f := Transform_test in
  let f := push TransformationItemBadRegex f in
  run f (dump request_document) (status 200 &&& body_is ProvisionConfiguration_GET_responseBodyAsString).
Definition Transform_FilterRegexReplace : bool :=
  let f := Transform_test in
  let f := push TransformationItemRegexReplace f in
  run f (dump request_document) (status 200 &&& body_is "1").
Definition Transform_FilterAppend : bool :=
  let item := obj [("source", JString "inState"); ("target", JString "response.body.string"); ("filter", obj [("Append", JString " state, and variable is: @{myVault}")])] in
  let f := Transform_test in
  let f := push item f in
  run f (dump request_document) (status 200 &&& body_is "initial state, and variable is: myVault_value").
Definition Transform_FilterPrepend : bool :=
  let item := obj [("source", JString "inState"); ("target", JString "response.body.string"); ("filter", obj [("Prepend", JString "@{myVault} variable value, and state is: ")])] in
  let f := Transform_test in
  let f := push item f in
  run f (dump request_document) (status 200 &&& body_is "myVault_value variable value, and state is: initial").
Definition Transform_FilterSum : bool :=
  let item1 := obj [("source", JString "value.-3"); ("target", JString "var.accum"); ("filter", obj [("Sum", JInt (-5))])] in
  let item2 := obj [("source", JString "var.accum"); ("target", JString "response.body.string"); ("filter", obj [("Sum", JUint 9)])] in
  let item3 := obj [("source", JString "value.200.5"); ("target", JString "response.statusCode"); ("filter", obj [("Sum", float 5 (-1))])] in
  let f := Transform_test in
  let f := push_all [item1; item2; item3] f in
  run f (dump request_document) (status 201 &&& body_is "1").
Definition Transform_FilterMultiply : bool :=
  let item1 := obj [("source", JString "value.10"); ("target", JString "var.accum"); ("filter", obj [("Multiply", JUint 2)])] in
  let item2 := obj [("source", JString "var.accum"); ("target", JString "var.accum"); ("filter", obj [("Multiply", float (-5) (-1))])] in
  let item3 := obj [("source", JString "var.accum"); ("target", JString "response.body.string"); ("filter", obj [("Multiply", JInt (-1))])] in
  let f := Transform_test in
  let f := push_all [item1; item2; item3] f in
  run f (dump request_document) (status 200 &&& body_is "10").
Definition Transform_FilterEqualTo : bool :=
  let item1 := obj [("source", JString "value.myVault_value"); ("target", JString "response.body.string"); ("filter", obj [("EqualTo", JString "@{myVault}")])] in
  let item2 := obj [("source", JString "value.this is different"); ("target", JString "response.body.string"); ("filter", obj [("EqualTo", JString "@{myVault}")])] in
  let f := Transform_test in
  let f := push_all [item1; item2] f in
  run f (dump request_document) (status 200 &&& body_is "myVault_value").
Definition Transform_FilterDifferentFrom : bool :=
  let item1 := obj [("source", JString "value.myVault_value"); ("target", JString "response.body.string"); ("filter", obj [("DifferentFrom", JString "@{myVault}")])] in
  let item2 := obj [("source", JString "value.this is different"); ("target", JString "response.body.string"); ("filter", obj [("DifferentFrom", JString "@{myVault}")])] in
  let f := Transform_test in
  let f := push_all [item1; item2] f in
  run f (dump request_document) (status 200 &&& body_is "this is different").
Definition Transform_FilterConditionVar : bool :=
  let item1 := obj [("source", JString "value.hi"); ("target", JString "response.body.string"); ("filter", obj [("ConditionVar", JString "myVault")])] in
  let item2 := obj [("source", JString "value.bye"); ("target", JString "response.body.string"); ("filter", obj [("ConditionVar", JString "missingVar")])] in
  let item3 := obj [("source", JString "value.201"); ("target", JString "response.statusCode"); ("filter", obj [("ConditionVar", JString "!missingVar")])] in
  let f := Transform_test in
  let f := push_all [item1; item2; item3] f in
  run f (dump request_document) (status 201 &&& body_is "hi").
Definition Transform_OnFilterFail : bool :=
  let item1 := obj [("source", JString "value.found"); ("target", JString "response.body.string"); ("filter", obj [("ConditionVar", JString "myVault")]); ("onFilterFail", arr [obj [("source", JString "value.missing"); ("target", JString "response.body.string")]])] in
  let f := Transform_test in
  let f := push item1 f in
  run f (dump request_document) (body_is "found").
Definition Transform_OnFilterFailTriggered : bool :=
  let item1 := obj [("source", JString "value.found"); ("target", JString "response.body.string"); ("filter", obj [("ConditionVar", JString "nonExistent")]); ("onFilterFail", arr [obj [("source", JString "value.fallback"); ("target", JString "response.body.string")]])] in
  let f := Transform_test in
  let f := push item1 f in
  run f (dump request_document) (body_is "fallback").
Definition Transform_OnFilterFailWithEqualTo : bool :=
  let item1 := obj [("source", JString "value.hello"); ("target", JString "response.body.string"); ("filter", obj [("EqualTo", JString "world")]); ("onFilterFail", arr [obj [("source", JString "value.not_equal"); ("target", JString "response.body.string")]])] in
  let f := Transform_test in
  let f := push item1 f in
  run f (dump request_document) (body_is "not_equal").
Definition Transform_OnFilterFailNested : bool :=
  let item1 := obj [("source", JString "value.hello"); ("target", JString "response.body.string"); ("filter", obj [("EqualTo", JString "a")]); ("onFilterFail", arr [obj [("source", JString "value.hello"); ("target", JString "response.body.string"); ("filter", obj [("EqualTo", JString "b")]); ("onFilterFail", arr [obj [("source", JString "value.default"); ("target", JString "response.body.string")]])]])] in
  let f := Transform_test in
  let f := push item1 f in
  run f (dump request_document) (body_is "default").
Definition Transform_FilterJsonConstraintSucceed : bool :=
  let item := obj [("source", JString "request.body"); ("target", JString "response.body.string"); ("filter", obj [("JsonConstraint", obj [("foo", JUint 1)])])] in
  let f := Transform_test in
  let f := push item f in
  run f (dump request_document) (status 200 &&& body_is "1").
Definition Transform_FilterJsonConstraintFail : bool :=
  let item := obj [("source", JString "request.body"); ("target", JString "response.body.string"); ("filter", obj [("JsonConstraint", obj [("foo", JUint 2)])])] in
  let f := Transform_test in
  let f := push item f in
  run f (dump request_document) (status 200 &&& body_is "JsonConstraint FAILED: expected value for key 'foo' differs regarding validated source").
Definition Transform_FilterJsonConstraintFailAndTargetVariable : bool :=
  let item1 := obj [("source", JString "request.body"); ("target", JString "var.expectedBody"); ("filter", obj [("JsonConstraint", obj [("foo", JUint 2)])])] in
  let item2 := obj [("source", JString "value.400"); ("target", JString "response.statusCode"); ("filter", obj [("ConditionVar", JString "!expectedBody")])] in
  let item3 := obj [("source", JString "var.expectedBody.fail"); ("target", JString "response.body.string")] in
  let f := Transform_test in
  let f := push_all [item1; item2; item3] f in
  run f (dump request_document) (status 400 &&& body_is "JsonConstraint FAILED: expected value for key 'foo' differs regarding validated source").
Definition Transform_NeedsStorageFalseForBasicProvision : bool :=
  let '(d, result) := load Transform_test in
  bool_decide (result = Val Success)
  && match pd_find "initial" "GET" "/app/v1/foo/bar/1?name=test" d with Some p => negb (needsStorage p) | None => false end
  && negb (pd_needsStorage d).
Definition Transform_NeedsStorageTrueForServerEventSource : bool :=
  let item := obj [("source", JString "serverEvent.requestBody"); ("target", JString "response.body.json.string./result")] in
  let '(d, result) := load (set_field "transform" (arr [item]) Transform_test) in
  bool_decide (result = Val Success)
  && match pd_find "initial" "GET" "/app/v1/foo/bar/1?name=test" d with Some p => needsStorage p | None => false end
  && pd_needsStorage d.
Definition Transform_NeedsStorageTrueForServerEventToPurgeTarget : bool :=
  let item := obj [("source", JString "eraser"); ("target", JString "serverEvent.purge")] in
  let '(d, result) := load (set_field "transform" (arr [item]) Transform_test) in
  bool_decide (result = Val Success)
  && match pd_find "initial" "GET" "/app/v1/foo/bar/1?name=test" d with Some p => needsStorage p | None => false end.
Definition Transform_ScopedVarPropagatesAcrossOutStateChain : bool :=
  let link1 := set_field "inState" (JString "initial") (set_field "outState" (JString "step2") Transform_test) in
  let link1 := set_field "transform" (arr [obj [("source", JString "request.body./foo"); ("target", JString "var.captured")]]) link1 in
  let link2 := set_field "inState" (JString "step2") Transform_test in
  let link2 := set_field "transform" (arr [obj [("source", JString "var.captured"); ("target", JString "response.body.string")]]) link2 in
  match load link1 with
  | (d, Val Success) =>
      match transform_at "initial" (quoted "{'foo':'hello'}") "" ∅ (fx_headers link1) (fx_world link1) d with
      | Some t1 =>
          bool_decide (td_vars t1 !! "captured" = Some "hello") && out_state "step2" t1 &&
          match pd_load decode_url ub (op_valid adminSchemas OpServerProvision) false (fx_provision link2) (pd_update (td_provision t1) d) with
          | (d, Val Success) =>
              match transform_at "step2" "{}" (responseBody (td_resp t1)) (td_vars t1) (fx_headers link1) (td_world t1) d with
              | Some t2 => body_is "hello" t2
              | None => false
              end
          | _ => false
          end
      | None => false
      end
  | _ => false
  end.
Definition Transform_FilterSplitDefaults : bool :=
  let f := Transform_test in
  let f := push TransformationItemSplitDefaults f in
  run f (dump request_document) (status 200 &&& body_is "55.01.12.23").
Definition Transform_FilterSplitNumeric : bool :=
  let f := Transform_test in
  let f := push TransformationItemSplitNumeric f in
  run f (dump request_document) (status 200 &&& body_is "55.1.12.23").
Definition Transform_FilterSplitCustom : bool :=
  let f := Transform_test in
  let f := push TransformationItemSplitCustom f in
  run f (dump request_document) (status 200 &&& body_is "AA:BB:CC").
Definition Transform_FilterSplitPadding : bool :=
  let item := obj [("source", JString "value.123"); ("target", JString "response.body.string"); ("filter", obj [("Split", obj [("size", JUint 2); ("count", JUint 4); ("numeric", JBool true)])])] in
  let f := Transform_test in
  let f := push item f in
  run f (dump request_document) (status 200 &&& body_is "0.0.1.23").
Definition Transform_FilterSplitTruncation : bool :=
  let item := obj [("source", JString "value.987655011223"); ("target", JString "response.body.string"); ("filter", obj [("Split", obj [("numeric", JBool true)])])] in
  let f := Transform_test in
  let f := push item f in
  run f (dump request_document) (status 200 &&& body_is "55.1.12.23").
Definition Transform_FilterBaseConvertDecToHex : bool :=
  let f := Transform_test in
  let f := push TransformationItemBaseConvertDecToHex f in
  run f (dump request_document) (status 200 &&& body_is "ff").
Definition Transform_FilterBaseConvertDecToHexCapital : bool :=
  let f := Transform_test in
  let f := push TransformationItemBaseConvertDecToHexCapital f in
  run f (dump request_document) (status 200 &&& body_is "FF").
Definition Transform_FilterBaseConvertHexToDec : bool :=
  let f := Transform_test in
  let f := push TransformationItemBaseConvertHexToDec f in
  run f (dump request_document) (status 200 &&& body_is "255").
Definition Transform_FilterBaseConvertDecToBin : bool :=
  let f := Transform_test in
  let f := push TransformationItemBaseConvertDecToBin f in
  run f (dump request_document) (status 200 &&& body_is "1010").
Definition Transform_FilterBaseConvertZero : bool :=
  let item := obj [("source", JString "value.0"); ("target", JString "response.body.string"); ("filter", obj [("BaseConvert", obj [("in", JUint 10); ("out", JUint 16)])])] in
  let f := Transform_test in
  let f := push item f in
  run f (dump request_document) (status 200 &&& body_is "0").
Definition Transform_FilterBaseConvertInvalidSource : bool :=
  let item := obj [("source", JString "value.not_a_number"); ("target", JString "response.body.string"); ("filter", obj [("BaseConvert", obj [("in", JUint 10); ("out", JUint 16)])])] in
  let f := Transform_test in
  let f := push item f in
  run f (dump request_document) (status 200 &&& body_is "not_a_number").
Definition Transform_SourceRequestHeaders : bool :=
  let item := obj [("source", JString "request.headers"); ("target", JString "response.body.json.object./hdrs")] in
  run (push item Transform_test) (dump request_document) (status 200 &&& has_headers "hdrs" (fun hdrs =>
    (2 <=? Z.of_nat (length hdrs)) && existsb (is_header "content-type" "application/json") hdrs && existsb (is_header "x-version" "1.0.0") hdrs)).
Definition Transform_SourceRequestHeadersDuplicateKeys : bool :=
  let f := emplace "cookie" "lang=en" (emplace "cookie" "session=abc" Transform_test) in
  let item := obj [("source", JString "request.headers"); ("target", JString "response.body.json.object./hdrs")] in
  run (push item f) (dump request_document) (status 200 &&& has_headers "hdrs" (fun hdrs =>
    Z.of_nat (length (List.filter (fun h => match json_find "name" h with Some n => json_eqb n (JString "cookie") | None => false end) hdrs)) =? 2)).
Definition Transform_TargetVaultWithPath : bool :=
  let item1 := obj [("source", JString "value.alice"); ("target", JString "vault.user./name")] in
  let item2 := obj [("source", JString "value.30"); ("target", JString "vault.user./age")] in
  let item3 := obj [("source", JString "vault.user"); ("target", JString "response.body.json.object./result")] in
  run (push_all [item1; item2; item3] Transform_test) (dump request_document) (status 200 &&& fun t =>
    match read_json (responseBody (td_resp t)) ≫= json_find "result" with
    | Some r => match json_find "name" r, json_find "age" r with Some n, Some a => json_eqb n (JString "alice") && json_eqb a (JString "30") | _, _ => false end
    | None => false
    end).
Definition Transform_SourceVaultWithPath : bool :=
  let item := obj [("source", JString "vault.config./host"); ("target", JString "response.body.string")] in
  let f := Transform_test in
  let f := in_vault "config" (obj [("host", JString "localhost"); ("port", JInt 8080)]) f in
  let f := push item f in
  run f (dump request_document) (status 200 &&& body_is "localhost").
Definition Transform_SourceVaultWithPathNumeric : bool :=
  let item := obj [("source", JString "vault.config./port"); ("target", JString "response.body.string")] in
  let f := Transform_test in
  let f := in_vault "config" (obj [("port", JInt 8080)]) f in
  let f := push item f in
  run f (dump request_document) (status 200 &&& body_is "8080").
Definition Transform_SourceVaultWithPathMissing : bool :=
  let item := obj [("source", JString "vault.config./missing"); ("target", JString "response.body.string")] in
  let f := Transform_test in
  let f := in_vault "config" (obj [("host", JString "localhost")]) f in
  let f := push item f in
  run f (dump request_document) (status 200 &&& body_is ProvisionConfiguration_GET_responseBodyAsString).
Definition Transform_TargetVaultJsonObject : bool :=
  let item1 := obj [("source", JString "request.body"); ("target", JString "vault.captured")] in
  let item2 := obj [("source", JString "vault.captured./foo"); ("target", JString "response.body.string")] in
  let f := Transform_test in
  let f := push_all [item1; item2] f in
  run f (dump request_document) (status 200 &&& body_is "1").
Definition Transform_TargetVaultJsonObjectTyped : bool :=
  let item1 := obj [("source", JString "request.body"); ("target", JString "vault.obj.json.object")] in
  let item2 := obj [("source", JString "vault.obj./foo"); ("target", JString "response.body.string")] in
  let f := Transform_test in
  let f := push_all [item1; item2] f in
  run f (dump request_document) (status 200 &&& body_is "1").
Definition Transform_TargetVaultJsonObjectTypedWithPath : bool :=
  let item1 := obj [("source", JString "request.body"); ("target", JString "vault.container.json.object./nested")] in
  let item2 := obj [("source", JString "vault.container./nested/foo"); ("target", JString "response.body.string")] in
  let f := Transform_test in
  let f := push_all [item1; item2] f in
  run f (dump request_document) (status 200 &&& body_is "1").
Definition Transform_TargetVaultJsonObjectTypedFailsOnString : bool :=
  let item1 := obj [("source", JString "value.just-a-string"); ("target", JString "vault.obj.json.object")] in
  let item2 := obj [("source", JString "vault.obj"); ("target", JString "response.body.string")] in
  let f := Transform_test in
  let f := push_all [item1; item2] f in
  run f (dump request_document) (status 200 &&& body_is ProvisionConfiguration_GET_responseBodyAsString).
Definition Transform_TargetVaultJsonJsonString : bool :=
  let item1 := obj [("source", JString (quoted "value.{'volume':100,'time':30}")); ("target", JString "vault.parsed.json.jsonstring")] in
  let item2 := obj [("source", JString "vault.parsed./volume"); ("target", JString "response.body.json.unsigned./vol")] in
  let item3 := obj [("source", JString "vault.parsed./time"); ("target", JString "response.body.json.unsigned./t")] in
  let f := Transform_test in
  let f := push_all [item1; item2; item3] f in
  run f (dump request_document) (status 200 &&& member "vol" (JInt 100) &&& member "t" (JInt 30)).
Definition Transform_TargetVaultJsonJsonStringWithPath : bool :=
  let item1 := obj [("source", JString (quoted "value.{'a':1}")); ("target", JString "vault.container.json.jsonstring./data")] in
  let item2 := obj [("source", JString "vault.container./data/a"); ("target", JString "response.body.json.integer./result")] in
  let f := Transform_test in
  let f := push_all [item1; item2] f in
  run f (dump request_document) (status 200 &&& member "result" (JInt 1)).
Definition Transform_TargetVaultJsonJsonStringInvalidJson : bool :=
  let item1 := obj [("source", JString "value.not-valid-json"); ("target", JString "vault.parsed.json.jsonstring")] in
  let item2 := obj [("source", JString "vault.parsed"); ("target", JString "response.body.string")] in
  let f := Transform_test in
  let f := push_all [item1; item2] f in
  run f (dump request_document) (status 200 &&& body_is ProvisionConfiguration_GET_responseBodyAsString).
Definition Transform_TargetVaultJsonJsonStringFromVar : bool :=
  let item1 := obj [("source", JString (quoted "value.{'name':'alice','age':30}")); ("target", JString "var.rawJson")] in
  let item2 := obj [("source", JString "var.rawJson"); ("target", JString "vault.user.json.jsonstring")] in
  let item3 := obj [("source", JString "vault.user./name"); ("target", JString "response.body.json.string./userName")] in
  let item4 := obj [("source", JString "vault.user./age"); ("target", JString "response.body.json.unsigned./userAge")] in
  let f := Transform_test in
  let f := push_all [item1; item2; item3; item4] f in
  run f (dump request_document) (status 200 &&& member "userName" (JString "alice") &&& member "userAge" (JInt 30)).
Definition Transform_FilterStrptimeBasic : bool :=
  let item1 := obj [("source", JString "value.2026-03-30T16:00:00"); ("target", JString "response.body.json.integer./epoch"); ("filter", obj [("Strptime", obj [("fmt", JString "%Y-%m-%dT%H:%M:%S")])])] in
  let f := Transform_test in
  let f := push item1 f in
  run f (dump request_document) (status 200 &&& member "epoch" (JInt 1774886400)).
Definition Transform_FilterStrptimeMilliseconds : bool :=
  let item1 := obj [("source", JString "value.2026-03-30T16:00:00"); ("target", JString "response.body.json.integer./epoch_ms"); ("filter", obj [("Strptime", obj [("fmt", JString "%Y-%m-%dT%H:%M:%S"); ("unit", JString "ms")])])] in
  let f := Transform_test in
  let f := push item1 f in
  run f (dump request_document) (status 200 &&& member "epoch_ms" (JInt 1774886400000)).
Definition Transform_FilterStrptimeInvalidFormat : bool :=
  let item1 := obj [("source", JString "value.not-a-date"); ("target", JString "response.body.json.integer./epoch"); ("filter", obj [("Strptime", obj [("fmt", JString "%Y-%m-%dT%H:%M:%S")])])] in
  let f := Transform_test in
  let f := push item1 f in
  run f (dump request_document) (status 200 &&& body_is ProvisionConfiguration_GET_responseBodyAsString).
Definition Transform_FilterStrftimeBasic : bool :=
  let item1 := obj [("source", JString "value.1774886400"); ("target", JString "response.body.json.string./date"); ("filter", obj [("Strftime", obj [("fmt", JString "%Y-%m-%dT%H:%M:%S")])])] in
  let f := Transform_test in
  let f := push item1 f in
  run f (dump request_document) (status 200 &&& member "date" (JString "2026-03-30T16:00:00")).
Definition Transform_FilterStrftimeFromMilliseconds : bool :=
  let item1 := obj [("source", JString "value.1774886400000"); ("target", JString "response.body.json.string./date"); ("filter", obj [("Strftime", obj [("fmt", JString "%Y-%m-%dT%H:%M:%S"); ("unit", JString "ms")])])] in
  let f := Transform_test in
  let f := push item1 f in
  run f (dump request_document) (status 200 &&& member "date" (JString "2026-03-30T16:00:00")).
Definition Transform_FilterStrptimeStrftimeRoundTrip : bool :=
  let item1 := obj [("source", JString "value.2026-03-30T16:00:00"); ("target", JString "var.epoch"); ("filter", obj [("Strptime", obj [("fmt", JString "%Y-%m-%dT%H:%M:%S")])])] in
  let item2 := obj [("source", JString "var.epoch"); ("target", JString "var.epoch"); ("filter", obj [("Sum", JUint 3600)])] in
  let item3 := obj [("source", JString "var.epoch"); ("target", JString "response.body.json.string./future"); ("filter", obj [("Strftime", obj [("fmt", JString "%Y-%m-%dT%H:%M:%S")])])] in
  let f := Transform_test in
  let f := push_all [item1; item2; item3] f in
  run f (dump request_document) (status 200 &&& member "future" (JString "2026-03-30T17:00:00")).
Definition Transform_FilterStrftimeNonNumericSource : bool :=
  let item1 := obj [("source", JString "value.not-a-number"); ("target", JString "response.body.json.string./date"); ("filter", obj [("Strftime", obj [("fmt", JString "%Y-%m-%dT%H:%M:%S")])])] in
  let f := Transform_test in
  let f := push item1 f in
  run f (dump request_document) (status 200 &&& body_is ProvisionConfiguration_GET_responseBodyAsString).
Definition Transform_FilterRegexKeyBasic : bool :=
  let item1 := obj [("source", JString "vault.data"); ("target", JString "vault.found"); ("filter", obj [("RegexKey", JString "user-5678-.*")])] in
  let item2 := obj [("source", JString "vault.found./name"); ("target", JString "response.body.json.string./result")] in
  let f := Transform_test in
  let f := in_vault "data" (obj [("user-1234-abc", obj [("name", JString "alice"); ("age", JInt 30)]); ("user-5678-def", obj [("name", JString "bob"); ("age", JInt 25)])]) f in
  let f := push_all [item1; item2] f in
  run f (dump request_document) (status 200 &&& member "result" (JString "bob")).
Definition Transform_FilterRegexKeyFromRequestBody : bool :=
  let item1 := obj [("source", JString "request.body./node1"); ("target", JString "vault.match"); ("filter", obj [("RegexKey", JString "node.*")])] in
  let item2 := obj [("source", JString "vault.match"); ("target", JString "response.body.string")] in
  let f := Transform_test in
  let f := push_all [item1; item2] f in
  run f (dump request_document) (status 200 &&& body_is "value-of-node1-node2").
Definition Transform_FilterRegexKeyNoMatch : bool :=
  let item1 := obj [("source", JString "vault.data"); ("target", JString "response.body.json.integer./val"); ("filter", obj [("RegexKey", JString "noMatch.*")])] in
  let f := Transform_test in
  let f := in_vault "data" (obj [("keyA", JInt 1); ("keyB", JInt 2)]) f in
  let f := push item1 f in
  run f (dump request_document) (status 200 &&& body_is ProvisionConfiguration_GET_responseBodyAsString).
Definition Transform_FilterRegexKeyNotAnObject : bool :=
  let item1 := obj [("source", JString "value.just-a-string"); ("target", JString "vault.result"); ("filter", obj [("RegexKey", JString ".*")])] in
  let f := Transform_test in
  let f := push item1 f in
  run f (dump request_document) (status 200 &&& body_is ProvisionConfiguration_GET_responseBodyAsString).
Definition Transform_FilterRegexKeyStringValue : bool :=
  let item1 := obj [("source", JString "vault.cfg"); ("target", JString "response.body.json.string./addr"); ("filter", obj [("RegexKey", JString "host-prod")])] in
  let f := Transform_test in
  let f := in_vault "cfg" (obj [("host-prod", JString "10.0.0.1"); ("host-dev", JString "127.0.0.1")]) f in
  let f := push item1 f in
  run f (dump request_document) (status 200 &&& member "addr" (JString "10.0.0.1")).
Definition Transform_FilterRegexKeyCaptureGroupsVault : bool :=
  let item1 := obj [("source", JString "vault.data"); ("target", JString "vault.matched"); ("filter", obj [("RegexKey", JString "imsi-([0-9]+):(rule1)")])] in
  let item2 := obj [("source", JString "vault.matched./qos"); ("target", JString "response.body.json.integer./qos")] in
  let item3 := obj [("source", JString "var.matched.0"); ("target", JString "response.body.json.string./key")] in
  let item4 := obj [("source", JString "var.matched.1"); ("target", JString "response.body.json.string./imsi")] in
  let item5 := obj [("source", JString "var.matched.2"); ("target", JString "response.body.json.string./rule")] in
  let f := Transform_test in
  let f := in_vault "data" (obj [("imsi-5550110000000:rule1", obj [("qos", JInt 15)]); ("imsi-5550220000000:rule2", obj [("qos", JInt 9)])]) f in
  let f := push_all [item1; item2; item3; item4; item5] f in
  run f (dump request_document) (status 200 &&& member "qos" (JInt 15) &&& member "key" (JString "imsi-5550110000000:rule1") &&& member "imsi" (JString "5550110000000") &&& member "rule" (JString "rule1")).
Definition Transform_FilterRegexKeyCaptureGroupsVar : bool :=
  let item1 := obj [("source", JString "vault.cfg"); ("target", JString "var.result"); ("filter", obj [("RegexKey", JString "host-(prod)-(eu)")])] in
  let item2 := obj [("source", JString "var.result"); ("target", JString "response.body.json.string./value")] in
  let item3 := obj [("source", JString "var.result.0"); ("target", JString "response.body.json.string./key")] in
  let item4 := obj [("source", JString "var.result.1"); ("target", JString "response.body.json.string./env")] in
  let item5 := obj [("source", JString "var.result.2"); ("target", JString "response.body.json.string./region")] in
  let f := Transform_test in
  let f := in_vault "cfg" (obj [("host-prod-eu", JString "10.0.0.1"); ("host-dev-us", JString "127.0.0.1")]) f in
  let f := push_all [item1; item2; item3; item4; item5] f in
  run f (dump request_document) (status 200 &&& member "value" (JString "10.0.0.1") &&& member "key" (JString "host-prod-eu") &&& member "env" (JString "prod") &&& member "region" (JString "eu")).
Definition Transform_FilterSizeJsonArray : bool :=
  let item2 := obj [("source", JString "request.body./items"); ("target", JString "response.body.json.string./count"); ("filter", JString "Size")] in
  let body_is := json_set "items" (arr [JInt 1; JInt 2; JInt 3; JInt 4; JInt 5]) JNull in
  let f := Transform_test in
  let f := push item2 f in
  run f (dump body_is) (status 200 &&& member "count" (JString "5")).
Definition Transform_FilterSizeJsonObject : bool :=
  let item := obj [("source", JString "request.body./data"); ("target", JString "response.body.json.string./count"); ("filter", JString "Size")] in
  let body_is := json_set "data" (obj [("a", JInt 1); ("b", JInt 2); ("c", JInt 3)]) JNull in
  let f := Transform_test in
  let f := push item f in
  run f (dump body_is) (status 200 &&& member "count" (JString "3")).
Definition Transform_FilterSizeString : bool :=
  let item := obj [("source", JString "value.hello"); ("target", JString "response.body.json.string./count"); ("filter", JString "Size")] in
  let f := Transform_test in
  let f := push item f in
  run f (dump request_document) (status 200 &&& member "count" (JString "5")).

(** ** They pass *)

Definition transform_tests : list bool :=
  [Transform_TransformationAsStringSource1; Transform_TransformationAsStringSource2; Transform_TransformationAsStringSource3;
   Transform_TransformationAsStringSource4; Transform_TransformationAsStringTarget1; Transform_TransformationAsStringTarget2;
   Transform_TransformationAsStringTarget3; Transform_TransformationAsStringFilter1; Transform_TransformationAsStringFilter2;
   Transform_TransformationAsStringFilter3; Transform_TransformationAsStringFilter4; Transform_TransformationAsStringFilter5;
   Transform_EmptyInStateAndOutStateBecomeDefault; Transform_ProvisionWithResponseBodyAsString; Transform_ProvisionWithResponseBodyAsNumberInteger;
   Transform_ProvisionWithResponseBodyAsNumberUnsigned; Transform_ProvisionWithResponseBodyAsFloat; Transform_ProvisionWithResponseBodyAsBoolean;
   Transform_ProvisionWithResponseBodyAsNull; Transform_RequestNotValidated; Transform_ResponseNotValidated; Transform_SourceRequestUri;
   Transform_SourceRequestUriPath; Transform_SourceRequestUriParam; Transform_SourceRequestUriParamUnknown; Transform_SourceRequestBody;
   Transform_SourceRequestBodyEmpty; Transform_SourceRequestBodyPlainText; Transform_SourceRequestBodyPath; Transform_SourceRequestBodyPathUnknown;
   Transform_SourceRequestHeader; Transform_SourceRequestHeaderUnknown; Transform_SourceResponseBody; Transform_SourceResponseBodyPath;
   Transform_SourceResponseBodyPathUnknown; Transform_SourceEraser; Transform_SourceEraserWholeJson; Transform_SourceEraserVault;
   Transform_SourceMath; Transform_SourceRandom; Transform_SourceRandomSet; Transform_SourceTimestamp; Transform_SourceStrftime;
   Transform_SourceRecvseq; Transform_SourceVariable; Transform_SourceVariableUnknown; Transform_SourceVault; Transform_SourceVaultUnknown;
   Transform_SourceServerEvent; Transform_SourceServerEventPathUnknown; Transform_SourceClientEvent; Transform_SourceClientEventPathUnknown;
   Transform_SourceClientEventEndpointUnknown; Transform_SourceValue; Transform_SourceInState; Transform_SourceTxtFile; Transform_SourceBinFile;
   Transform_SourceCommand; Transform_SourceCommandFail; Transform_TargetResponseBodyString; Transform_TargetResponseBodyHexString;
   Transform_TargetResponseBodyJsonObjectFromString; Transform_TargetResponseBodyJsonObjectFromInteger;
   Transform_TargetResponseBodyJsonObjectFromUnsigned; Transform_TargetResponseBodyJsonObjectFromFloat;
   Transform_TargetResponseBodyJsonObjectFromBoolean; Transform_TargetResponseBodyJsonObject; Transform_TargetResponseBodyJsonJsonstring;
   Transform_TargetResponseBodyJsonJsonstringMalformed; Transform_TargetResponseBodyJsonString; Transform_TargetResponseBodyJsonInteger;
   Transform_TargetResponseBodyJsonUnsigned; Transform_TargetResponseBodyJsonFloat; Transform_TargetResponseBodyJsonBoolean;
   Transform_TargetResponseBodyJsonObjectPath; Transform_TargetResponseBodyJsonJsonstringPath; Transform_TargetResponseBodyJsonStringPath;
   Transform_TargetResponseBodyJsonStringMissingPathException; Transform_TargetResponseBodyJsonStringPathExceptionDueToBinary;
   Transform_TargetResponseBodyJsonIntegerPath; Transform_TargetResponseBodyJsonUnsignedPath; Transform_TargetResponseBodyJsonFloatPath;
   Transform_TargetResponseBodyJsonBooleanPath; Transform_TargetResponseHeader; Transform_TargetResponseStatusCode;
   Transform_TargetResponsedelayMs; Transform_TargetVariable; Transform_TargetVault; Transform_TargetServerEvent; Transform_TargetOutState;
   Transform_TargetOutStateForeign; Transform_TargetTxtFile; Transform_TargetBinFile; Transform_TargetUDPSocket; Transform_TargetBreak;
   Transform_TargetClientProvision; Transform_TargetClientProvisionWithEraser; Transform_TargetClientProvisionSkippedOnEmptyVar;
   Transform_TargetClientProvisionMissingInState; Transform_FilterIncompatibleWithEraser; Transform_FilterRegexCapture;
   Transform_FilterRegexCaptureWithVault; Transform_FilterRegexCaptureUnmatches; Transform_FilterRegexCaptureWrongRegex;
   Transform_FilterRegexReplace; Transform_FilterAppend; Transform_FilterPrepend; Transform_FilterSum; Transform_FilterMultiply;
   Transform_FilterEqualTo; Transform_FilterDifferentFrom; Transform_FilterConditionVar; Transform_OnFilterFail; Transform_OnFilterFailTriggered;
   Transform_OnFilterFailWithEqualTo; Transform_OnFilterFailNested; Transform_FilterJsonConstraintSucceed; Transform_FilterJsonConstraintFail;
   Transform_FilterJsonConstraintFailAndTargetVariable; Transform_NeedsStorageFalseForBasicProvision;
   Transform_NeedsStorageTrueForServerEventSource; Transform_NeedsStorageTrueForServerEventToPurgeTarget;
   Transform_ScopedVarPropagatesAcrossOutStateChain; Transform_FilterSplitDefaults; Transform_FilterSplitNumeric; Transform_FilterSplitCustom;
   Transform_FilterSplitPadding; Transform_FilterSplitTruncation; Transform_FilterBaseConvertDecToHex; Transform_FilterBaseConvertDecToHexCapital;
   Transform_FilterBaseConvertHexToDec; Transform_FilterBaseConvertDecToBin; Transform_FilterBaseConvertZero;
   Transform_FilterBaseConvertInvalidSource; Transform_SourceRequestHeaders; Transform_SourceRequestHeadersDuplicateKeys;
   Transform_TargetVaultWithPath; Transform_SourceVaultWithPath; Transform_SourceVaultWithPathNumeric; Transform_SourceVaultWithPathMissing;
   Transform_TargetVaultJsonObject; Transform_TargetVaultJsonObjectTyped; Transform_TargetVaultJsonObjectTypedWithPath;
   Transform_TargetVaultJsonObjectTypedFailsOnString; Transform_TargetVaultJsonJsonString; Transform_TargetVaultJsonJsonStringWithPath;
   Transform_TargetVaultJsonJsonStringInvalidJson; Transform_TargetVaultJsonJsonStringFromVar; Transform_FilterStrptimeBasic;
   Transform_FilterStrptimeMilliseconds; Transform_FilterStrptimeInvalidFormat; Transform_FilterStrftimeBasic;
   Transform_FilterStrftimeFromMilliseconds; Transform_FilterStrptimeStrftimeRoundTrip; Transform_FilterStrftimeNonNumericSource;
   Transform_FilterRegexKeyBasic; Transform_FilterRegexKeyFromRequestBody; Transform_FilterRegexKeyNoMatch; Transform_FilterRegexKeyNotAnObject;
   Transform_FilterRegexKeyStringValue; Transform_FilterRegexKeyCaptureGroupsVault; Transform_FilterRegexKeyCaptureGroupsVar;
   Transform_FilterSizeJsonArray; Transform_FilterSizeJsonObject; Transform_FilterSizeString].

(** The model of the transformations gives what the tests of the repository expect of the
    code, in each of the 165 tests: sources, filters, targets, fallbacks, schemas, files,
    sockets and the texts of the items. *)
Theorem transform_tests_pass : forallb id transform_tests = true /\ length transform_tests = 165%nat.
Proof. vm_compute. split; reflexivity. Qed.
