(* ===== verification/ClientTests.v ===== *)
(** The tests of client provisions of the repository ([ut/model/Transformation/clientTransform.cpp]),
    each one as a definition that says whether the model gives what the test expects,
    and the theorem that it does. *)
From S2P Require Import Prelude Std Double Functions Query Json JsonModel JsonReader External Regex Keys DataPart MockEvents MockData Vault Transformation Schema Stages ServerProvision ClientEndpoint ClientProvision Ticker ClientFlow AdminServer AdminSchemas Files Conformance.
From stdpp Require Import options.
Import Bench.
#[local] Open Scope Z_scope.

(** ** The fixture *)

Definition ClientProvision_POST : json := obj [("id", JString "myFlow"); ("endpoint", JString "myServer"); ("requestMethod", JString "POST"); ("requestUri", JString "/api/v1/test"); ("requestBody", obj [("foo", JString "bar")]); ("requestHeaders", obj [("content-type", JString "application/json")]); ("requestDelayMs", JUint 50); ("timeoutMs", JUint 2000)].

Definition client_world : World OS :=
  mkWorld (vault_load "myVaultEntry" (JString "vaultValue") Vault_new).1 MockData_empty MockData_empty ∅ 1000000 0 no_outside.
Definition no_flow : Flow (OS := OS) := mkFlow ∅ ∅ ∅ O ∅ client_world true true true false (mkClientCounters 0 0 0 0 0) None [] [].

(** [adata_.loadClientProvision(client_provision_json_, common_resources_)] and [find]. *)
Definition loaded_flow (j : json) : Flow (OS := OS) * outcome LoadResult :=
  cpd_load decode_url ub (op_valid adminSchemas OpClientProvision) j no_flow.
Definition client_provision (inState : string) (j : json) : option AdminClientProvision :=
  match loaded_flow j with
  | (s, Val Success) => l ← client_find inState "myFlow" s; o ← fl_heap s !! l; Some (tk_provision (ob_ticker o))
  | _ => None
  end.
Definition on_provision (provision : option AdminClientProvision) (expected : AdminClientProvision -> bool) : bool :=
  match provision with Some p => expected p | None => false end.
(** [provisionAndTransform] and what is expected of it. *)
Definition client_transformed (provision : option AdminClientProvision) (expected : ClientTransformed (OS := OS) -> bool) : bool :=
  on_provision provision (fun p =>
    match client_transform ub failReport "" ∅ (-1) p client_world with (t, Val tt) => expected t | (_, Throw _) => false end).
(** [provision->transformResponse("/test", {}, response, 1, outState, variables_)] *)
Definition response_run (provision : option AdminClientProvision) (response : ClientResponse)
    (expected : ResponseTransformed (OS := OS) -> bool -> bool) : bool :=
  on_provision provision (fun p =>
    match transformResponse ub failReport "/test" [] response 1 "initial" ∅ (-1) p client_world with (t, Val ok) => expected t ok | (_, Throw _) => false end).
Definition updated (b e cps rep : string) (accepted : bool) (p : AdminClientProvision) (expected : AdminClientProvision -> bool) : bool :=
  match updateTriggering b e cps rep p with (p', Val ok) => Bool.eqb ok accepted && expected p' | (_, Throw _) => false end.
Definition has_member (k : string) (v : json) (s : string) : bool :=
  match read_json s ≫= json_find k with Some x => json_eqb x v | None => false end.

(** ** Tests *)

Definition Client_LoadBasicProvision : bool :=
  let provision := client_provision "initial" ClientProvision_POST in
  on_provision provision (fun p => String.eqb (cp_endpoint_id p) "myServer" && String.eqb (cp_method p) "POST" && String.eqb (cp_uri p) "/api/v1/test" && (cp_delay_ms p =? 50) && (cp_timeout_ms p =? 2000)).
Definition Client_LoadProvisionWithInState : bool :=
  let provision := client_provision "step2" (obj [("id", JString "myFlow"); ("inState", JString "step2"); ("outState", JString "done")]) in
  on_provision provision (fun p => String.eqb (cp_out_state p) "done").
Definition Client_TransformNoTransformations : bool :=
  let provision := client_provision "initial" ClientProvision_POST in
  client_transformed provision (fun t => String.eqb (cq_method (ct_request t)) "POST" && String.eqb (cq_uri (ct_request t)) "/api/v1/test" && String.eqb (cq_body (ct_request t)) (quoted "{'foo':'bar'}") && (cq_delay_ms (ct_request t) =? 50) && (cq_timeout_ms (ct_request t) =? 2000) && String.eqb (cq_out_state (ct_request t)) "road-closed").
Definition Client_TargetRequestUri : bool :=
  let provision := client_provision "initial" (obj [("id", JString "myFlow"); ("endpoint", JString "myServer"); ("requestMethod", JString "GET"); ("requestUri", JString "/original"); ("transform", arr [obj [("source", JString "value./api/v1/replaced"); ("target", JString "request.uri")]])]) in
  client_transformed provision (fun t => String.eqb (cq_uri (ct_request t)) "/api/v1/replaced").
Definition Client_TargetRequestMethod : bool :=
  let provision := client_provision "initial" (obj [("id", JString "myFlow"); ("endpoint", JString "myServer"); ("requestMethod", JString "GET"); ("requestUri", JString "/test"); ("transform", arr [obj [("source", JString "value.PUT"); ("target", JString "request.method")]])]) in
  client_transformed provision (fun t => String.eqb (cq_method (ct_request t)) "PUT").
Definition Client_TargetRequestHeader : bool :=
  let provision := client_provision "initial" (obj [("id", JString "myFlow"); ("endpoint", JString "myServer"); ("requestMethod", JString "GET"); ("requestUri", JString "/test"); ("transform", arr [obj [("source", JString "value.bearer-token-123"); ("target", JString "request.header.authorization")]])]) in
  client_transformed provision (fun t => bool_decide (headers_find "authorization" (cq_headers (ct_request t)) = Some "bearer-token-123")).
Definition Client_TargetRequestDelayMs : bool :=
  let provision := client_provision "initial" (obj [("id", JString "myFlow"); ("endpoint", JString "myServer"); ("requestMethod", JString "GET"); ("requestUri", JString "/test"); ("requestDelayMs", JUint 10); ("transform", arr [obj [("source", JString "value.500"); ("target", JString "request.delayMs")]])]) in
  client_transformed provision (fun t => (cq_delay_ms (ct_request t) =? 500)).
Definition Client_TargetRequestTimeoutMs : bool :=
  let provision := client_provision "initial" (obj [("id", JString "myFlow"); ("endpoint", JString "myServer"); ("requestMethod", JString "GET"); ("requestUri", JString "/test"); ("timeoutMs", JUint 1000); ("transform", arr [obj [("source", JString "value.5000"); ("target", JString "request.timeoutMs")]])]) in
  client_transformed provision (fun t => (cq_timeout_ms (ct_request t) =? 5000)).
Definition Client_TargetRequestBodyJsonString : bool :=
  let provision := client_provision "initial" (obj [("id", JString "myFlow"); ("endpoint", JString "myServer"); ("requestMethod", JString "POST"); ("requestUri", JString "/test"); ("requestBody", obj [("original", JString "data")]); ("transform", arr [obj [("source", JString "value.replaced"); ("target", JString "request.body.json.string./original")]])]) in
  client_transformed provision (fun t => has_member "original" (JString "replaced") (cq_body (ct_request t))).
Definition Client_TargetRequestBodyJsonInteger : bool :=
  let provision := client_provision "initial" (obj [("id", JString "myFlow"); ("endpoint", JString "myServer"); ("requestMethod", JString "POST"); ("requestUri", JString "/test"); ("requestBody", obj [("count", JUint 0)]); ("transform", arr [obj [("source", JString "value.42"); ("target", JString "request.body.json.integer./count")]])]) in
  client_transformed provision (fun t => has_member "count" (JInt 42) (cq_body (ct_request t))).
Definition Client_TargetOutState : bool :=
  let provision := client_provision "initial" (obj [("id", JString "myFlow"); ("endpoint", JString "myServer"); ("requestMethod", JString "GET"); ("requestUri", JString "/test"); ("transform", arr [obj [("source", JString "value.step2"); ("target", JString "outState")]])]) in
  client_transformed provision (fun t => String.eqb (cq_out_state (ct_request t)) "step2").
Definition Client_TargetVariable : bool :=
  let provision := client_provision "initial" (obj [("id", JString "myFlow"); ("endpoint", JString "myServer"); ("requestMethod", JString "GET"); ("requestUri", JString "/test"); ("transform", arr [obj [("source", JString "value.hello"); ("target", JString "var.myVar")]; obj [("source", JString "var.myVar"); ("target", JString "request.uri")]])]) in
  client_transformed provision (fun t => String.eqb (cq_uri (ct_request t)) "hello").
Definition Client_TargetVault : bool :=
  let provision := client_provision "initial" (obj [("id", JString "myFlow"); ("endpoint", JString "myServer"); ("requestMethod", JString "GET"); ("requestUri", JString "/test"); ("transform", arr [obj [("source", JString "value.newValue"); ("target", JString "vault.testGVar")]; obj [("source", JString "vault.testGVar"); ("target", JString "request.uri")]])]) in
  client_transformed provision (fun t => String.eqb (cq_uri (ct_request t)) "newValue").
Definition Client_TargetBreak : bool :=
  let provision := client_provision "initial" (obj [("id", JString "myFlow"); ("endpoint", JString "myServer"); ("requestMethod", JString "GET"); ("requestUri", JString "/test"); ("onResponseTransform", arr [obj [("source", JString "value.stopped"); ("target", JString "outState")]; obj [("source", JString "value.1"); ("target", JString "break")]; obj [("source", JString "value.should-not-reach"); ("target", JString "outState")]])]) in
  response_run provision (mkClientResponse 200 [] "" 0 0) (fun t ok => String.eqb (rt_out_state t) "stopped").
Definition Client_SourceValue : bool :=
  let provision := client_provision "initial" (obj [("id", JString "myFlow"); ("endpoint", JString "myServer"); ("requestMethod", JString "GET"); ("requestUri", JString "/test"); ("transform", arr [obj [("source", JString "value./api/v1/new"); ("target", JString "request.uri")]])]) in
  client_transformed provision (fun t => String.eqb (cq_uri (ct_request t)) "/api/v1/new").
Definition Client_SourceVault : bool :=
  let provision := client_provision "initial" (obj [("id", JString "myFlow"); ("endpoint", JString "myServer"); ("requestMethod", JString "GET"); ("requestUri", JString "/test"); ("transform", arr [obj [("source", JString "vault.myVaultEntry"); ("target", JString "request.uri")]])]) in
  client_transformed provision (fun t => String.eqb (cq_uri (ct_request t)) "vaultValue").
Definition Client_SourceEraser : bool :=
  let provision := client_provision "initial" (obj [("id", JString "myFlow"); ("endpoint", JString "myServer"); ("requestMethod", JString "GET"); ("requestUri", JString "/test"); ("transform", arr [obj [("source", JString "eraser"); ("target", JString "vault.myVaultEntry")]; obj [("source", JString "vault.myVaultEntry"); ("target", JString "request.uri")]])]) in
  client_transformed provision (fun t => String.eqb (cq_uri (ct_request t)) "/test").
Definition Client_SourceInState : bool :=
  let provision := client_provision "initial" (obj [("id", JString "myFlow"); ("endpoint", JString "myServer"); ("requestMethod", JString "GET"); ("requestUri", JString "/test"); ("transform", arr [obj [("source", JString "inState"); ("target", JString "request.uri")]])]) in
  client_transformed provision (fun t => String.eqb (cq_uri (ct_request t)) "initial").
Definition Client_SourceMath : bool :=
  let provision := client_provision "initial" (obj [("id", JString "myFlow"); ("endpoint", JString "myServer"); ("requestMethod", JString "GET"); ("requestUri", JString "/test"); ("transform", arr [obj [("source", JString "math.2+3"); ("target", JString "request.delayMs")]])]) in
  client_transformed provision (fun t => (cq_delay_ms (ct_request t) =? 5)).
Definition Client_SourceRandom : bool :=
  let provision := client_provision "initial" (obj [("id", JString "myFlow"); ("endpoint", JString "myServer"); ("requestMethod", JString "GET"); ("requestUri", JString "/test"); ("transform", arr [obj [("source", JString "random.10.20"); ("target", JString "request.delayMs")]])]) in
  client_transformed provision (fun t => (10 <=? cq_delay_ms (ct_request t)) && (cq_delay_ms (ct_request t) <=? 20)).
Definition Client_SourceTimestamp : bool :=
  let provision := client_provision "initial" (obj [("id", JString "myFlow"); ("endpoint", JString "myServer"); ("requestMethod", JString "GET"); ("requestUri", JString "/test"); ("transform", arr [obj [("source", JString "timestamp.ms"); ("target", JString "var.ts")]])]) in
  client_transformed provision (fun t => true).
Definition Client_FilterAppend : bool :=
  let provision := client_provision "initial" (obj [("id", JString "myFlow"); ("endpoint", JString "myServer"); ("requestMethod", JString "GET"); ("requestUri", JString "/test"); ("transform", arr [obj [("source", JString "value./api/v1/"); ("filter", obj [("Append", JString "resource")]); ("target", JString "request.uri")]])]) in
  client_transformed provision (fun t => String.eqb (cq_uri (ct_request t)) "/api/v1/resource").
Definition Client_FilterPrepend : bool :=
  let provision := client_provision "initial" (obj [("id", JString "myFlow"); ("endpoint", JString "myServer"); ("requestMethod", JString "GET"); ("requestUri", JString "/test"); ("transform", arr [obj [("source", JString "value.resource"); ("filter", obj [("Prepend", JString "/api/v1/")]); ("target", JString "request.uri")]])]) in
  client_transformed provision (fun t => String.eqb (cq_uri (ct_request t)) "/api/v1/resource").
Definition Client_FilterSum : bool :=
  let provision := client_provision "initial" (obj [("id", JString "myFlow"); ("endpoint", JString "myServer"); ("requestMethod", JString "GET"); ("requestUri", JString "/test"); ("transform", arr [obj [("source", JString "value.100"); ("filter", obj [("Sum", JUint 50)]); ("target", JString "request.delayMs")]])]) in
  client_transformed provision (fun t => (cq_delay_ms (ct_request t) =? 150)).
Definition Client_TransformResponseSetsOutState : bool :=
  let provision := client_provision "initial" (obj [("id", JString "myFlow"); ("endpoint", JString "myServer"); ("requestMethod", JString "GET"); ("requestUri", JString "/test"); ("onResponseTransform", arr [obj [("source", JString "value.step2"); ("target", JString "outState")]])]) in
  response_run provision (mkClientResponse 200 [("content-type", "application/json")] (quoted "{'result':'ok'}") 0 0) (fun t ok => String.eqb (rt_out_state t) "step2").
Definition Client_TransformResponseSourceResponseBody : bool :=
  let provision := client_provision "initial" (obj [("id", JString "myFlow"); ("endpoint", JString "myServer"); ("requestMethod", JString "GET"); ("requestUri", JString "/test"); ("onResponseTransform", arr [obj [("source", JString "eraser"); ("target", JString "vault.respBody")]; obj [("source", JString "response.body"); ("target", JString "vault.respBody")]])]) in
  response_run provision (mkClientResponse 200 [] (quoted "{'greeting':'hello'}") 0 0) (fun t ok => bool_decide (is_Some (v_tryGet "respBody" (w_vault (rt_world t))))).
Definition Client_TransformResponseSourceResponseStatusCode : bool :=
  let provision := client_provision "initial" (obj [("id", JString "myFlow"); ("endpoint", JString "myServer"); ("requestMethod", JString "GET"); ("requestUri", JString "/test"); ("onResponseTransform", arr [obj [("source", JString "response.statusCode"); ("target", JString "var.code")]])]) in
  response_run provision (mkClientResponse 404 [] "" 0 0) (fun t ok => true).
Definition Client_TransformResponseSourceResponseHeader : bool :=
  let provision := client_provision "initial" (obj [("id", JString "myFlow"); ("endpoint", JString "myServer"); ("requestMethod", JString "GET"); ("requestUri", JString "/test"); ("onResponseTransform", arr [obj [("source", JString "eraser"); ("target", JString "vault.location")]; obj [("source", JString "response.header.location"); ("target", JString "vault.location")]])]) in
  response_run provision (mkClientResponse 302 [("location", "/api/v1/redirected")] "" 0 0) (fun t ok => true).
Definition Client_TransformResponseBreakOnError : bool :=
  let provision := client_provision "initial" (obj [("id", JString "myFlow"); ("endpoint", JString "myServer"); ("requestMethod", JString "GET"); ("requestUri", JString "/test"); ("onResponseTransform", arr [obj [("source", JString "response.statusCode"); ("filter", obj [("DifferentFrom", JString "200")]); ("target", JString "outState")]; obj [("source", JString "value.1"); ("target", JString "break")]])]) in
  response_run provision (mkClientResponse 500 [] "" 0 0) (fun t ok => String.eqb (rt_out_state t) "500").
Definition Client_SetSeqGetSeq : bool :=
  on_provision (client_provision "initial" ClientProvision_POST) (fun p =>
    (seq_ (cp_dyn p) =? 0) && (seq_ (cp_dyn (setSeq 42 p)) =? 42) && (seq_ (cp_dyn (setSeq 0 (setSeq 42 p))) =? 0)).
Definition Client_UpdateTriggeringValidRange : bool :=
  let provision := client_provision "initial" ClientProvision_POST in
  on_provision provision (fun p => updated "1" "100" "50" "false" true p (fun p => (cps_ (cp_dyn p) =? 50))).
Definition Client_UpdateTriggeringInvalidRange : bool :=
  let provision := client_provision "initial" ClientProvision_POST in
  on_provision provision (fun p => updated "100" "1" "" "" false p (fun p => true)).
Definition Client_UpdateTriggeringNegativeSequenceBegin : bool :=
  let provision := client_provision "initial" ClientProvision_POST in
  on_provision provision (fun p => updated "-1" "100" "" "" true p (fun p => true)).
Definition Client_UpdateTriggeringInvalidSequenceBegin : bool :=
  let provision := client_provision "initial" ClientProvision_POST in
  on_provision provision (fun p => updated "abc" "100" "" "" false p (fun p => true)).
Definition Client_UpdateTriggeringInvalidCps : bool :=
  let provision := client_provision "initial" ClientProvision_POST in
  on_provision provision (fun p => updated "" "" "-1" "" false p (fun p => true)).
Definition Client_UpdateTriggeringInvalidRepeat : bool :=
  let provision := client_provision "initial" ClientProvision_POST in
  on_provision provision (fun p => updated "" "" "" "invalid" false p (fun p => true)).
Definition Client_UpdateTriggeringPartialUpdate : bool :=
  let provision := client_provision "initial" ClientProvision_POST in
  on_provision provision (fun p => updated "1" "100" "50" "false" true p (fun p => (cps_ (cp_dyn p) =? 50) && updated "" "" "200" "" true p (fun p => (cps_ (cp_dyn p) =? 200)))).
Definition Client_NeedsStorageFalseForBasicProvision : bool :=
  let provision := client_provision "initial" ClientProvision_POST in
  on_provision provision (fun p => negb (client_needsStorage p) && Bool.eqb (client_data_needsStorage (fst (loaded_flow ClientProvision_POST))) false).
Definition Client_NeedsStorageTrueForClientEventSource : bool :=
  let provision := client_provision "initial" (json_set "transform" (arr [obj [("source", JString "clientEvent.requestMethod"); ("target", JString "request.uri")]]) ClientProvision_POST) in
  on_provision provision (fun p => client_needsStorage p && Bool.eqb (client_data_needsStorage (fst (loaded_flow (json_set "transform" (arr [obj [("source", JString "clientEvent.requestMethod"); ("target", JString "request.uri")]]) ClientProvision_POST)))) true).
Definition Client_NeedsStorageTrueForServerEventSource : bool :=
  let provision := client_provision "initial" (json_set "transform" (arr [obj [("source", JString "serverEvent.requestMethod"); ("target", JString "request.uri")]]) ClientProvision_POST) in
  on_provision provision (fun p => client_needsStorage p).
Definition Client_NeedsStorageTrueForClientEventToPurgeTarget : bool :=
  let provision := client_provision "initial" (json_set "onResponseTransform" (arr [obj [("source", JString "eraser"); ("target", JString "clientEvent.purge")]]) ClientProvision_POST) in
  on_provision provision (fun p => client_needsStorage p).
Definition Client_LoadProvisionWithExpectedResponseStatusCode : bool :=
  let provision := client_provision "initial" (json_set "expectedResponseStatusCode" (JInt 200) ClientProvision_POST) in
  on_provision provision (fun p => (cp_expected_code p =? 200)).
Definition Client_LoadProvisionWithoutExpectedResponseStatusCode : bool :=
  let provision := client_provision "initial" ClientProvision_POST in
  on_provision provision (fun p => (cp_expected_code p =? 0)).
Definition Client_TransformResponseReturnsTrueWhenNoValidation : bool :=
  let provision := client_provision "initial" ClientProvision_POST in
  response_run provision (mkClientResponse 200 [] "{}" 0 0) (fun t ok => ok).
Definition Client_TransformResponseReturnsTrueWhenStatusCodeMatches : bool :=
  let provision := client_provision "initial" (json_set "expectedResponseStatusCode" (JInt 200) ClientProvision_POST) in
  response_run provision (mkClientResponse 200 [] "" 0 0) (fun t ok => ok).
Definition Client_TransformResponseReturnsFalseWhenStatusCodeMismatch : bool :=
  let provision := client_provision "initial" (json_set "expectedResponseStatusCode" (JInt 200) ClientProvision_POST) in
  response_run provision (mkClientResponse 500 [] "" 0 0) (fun t ok => negb ok).
Definition Client_ScopedVarPropagatesFromTransformToTransformResponse : bool :=
  let j := json_set "transform" (arr [obj [("source", JString "value.pre-send-marker"); ("target", JString "var.marker")]]) ClientProvision_POST in
  let j := json_set "onResponseTransform" (arr [obj [("source", JString "var.marker"); ("target", JString "var.result")]]) j in
  client_transformed (client_provision "initial" j) (fun t =>
    bool_decide (ct_vars t !! "marker" = Some "pre-send-marker") &&
    match transformResponse ub failReport "/api/v1/test" (cq_headers (ct_request t)) (mkClientResponse 200 [] "{}" 0 0) 1 "initial" (ct_vars t) (-1)
            (ct_provision t) (ct_world t) with
    | (r, Val _) => bool_decide (rt_vars r !! "result" = Some "pre-send-marker")
    | (_, Throw _) => false
    end).
Definition Client_ScopedVarPropagatesAcrossOutStateChain : bool :=
  let j := json_set "outState" (JString "authenticated") ClientProvision_POST in
  let j := json_set "onResponseTransform" (arr [obj [("source", JString "value.my-secret-token"); ("target", JString "var.token")]]) j in
  let link2 := obj [("id", JString "myFlow"); ("endpoint", JString "myServer"); ("inState", JString "authenticated"); ("requestMethod", JString "GET");
    ("requestUri", JString "/api/v1/data"); ("transform", arr [obj [("source", JString "var.token"); ("target", JString "request.header.x-auth")]])] in
  client_transformed (client_provision "initial" j) (fun t =>
    match transformResponse ub failReport "/api/v1/test" (cq_headers (ct_request t)) (mkClientResponse 200 [] "{}" 0 0) 1 "authenticated" (ct_vars t) (-1)
            (ct_provision t) (ct_world t) with
    | (r, Val _) =>
        bool_decide (rt_vars r !! "token" = Some "my-secret-token") &&
        on_provision (client_provision "authenticated" link2) (fun p =>
          match client_transform ub failReport "" (rt_vars r) (-1) p (rt_world r) with
          | (t2, Val tt) => bool_decide (headers_find "x-auth" (cq_headers (ct_request t2)) = Some "my-secret-token")
          | (_, Throw _) => false
          end)
    | (_, Throw _) => false
    end).
Definition Client_TransformResponseSourceResponseHeaders : bool :=
  let j := obj [("id", JString "myFlow"); ("endpoint", JString "myServer"); ("requestMethod", JString "GET"); ("requestUri", JString "/test");
    ("onResponseTransform", arr [obj [("source", JString "response.headers"); ("target", JString "vault.resp_hdrs")]])] in
  response_run (client_provision "initial" j)
    (mkClientResponse 200 [("content-type", "application/json"); ("x-request-id", "abc-123")] "{}" 0 0) (fun t _ =>
    match v_tryGet "resp_hdrs" (w_vault (rt_world t)) with
    | Some (JArray hdrs) => existsb (is_header "content-type" "application/json") hdrs && existsb (is_header "x-request-id" "abc-123") hdrs
    | _ => false
    end).

(** ** They pass *)

Definition client_tests : list bool :=
  [Client_LoadBasicProvision; Client_LoadProvisionWithInState; Client_TransformNoTransformations; Client_TargetRequestUri;
   Client_TargetRequestMethod; Client_TargetRequestHeader; Client_TargetRequestDelayMs; Client_TargetRequestTimeoutMs;
   Client_TargetRequestBodyJsonString; Client_TargetRequestBodyJsonInteger; Client_TargetOutState; Client_TargetVariable; Client_TargetVault;
   Client_TargetBreak; Client_SourceValue; Client_SourceVault; Client_SourceEraser; Client_SourceInState; Client_SourceMath; Client_SourceRandom;
   Client_SourceTimestamp; Client_FilterAppend; Client_FilterPrepend; Client_FilterSum; Client_TransformResponseSetsOutState;
   Client_TransformResponseSourceResponseBody; Client_TransformResponseSourceResponseStatusCode; Client_TransformResponseSourceResponseHeader;
   Client_TransformResponseBreakOnError; Client_SetSeqGetSeq; Client_UpdateTriggeringValidRange; Client_UpdateTriggeringInvalidRange;
   Client_UpdateTriggeringNegativeSequenceBegin; Client_UpdateTriggeringInvalidSequenceBegin; Client_UpdateTriggeringInvalidCps;
   Client_UpdateTriggeringInvalidRepeat; Client_UpdateTriggeringPartialUpdate; Client_NeedsStorageFalseForBasicProvision;
   Client_NeedsStorageTrueForClientEventSource; Client_NeedsStorageTrueForServerEventSource; Client_NeedsStorageTrueForClientEventToPurgeTarget;
   Client_LoadProvisionWithExpectedResponseStatusCode; Client_LoadProvisionWithoutExpectedResponseStatusCode;
   Client_TransformResponseReturnsTrueWhenNoValidation; Client_TransformResponseReturnsTrueWhenStatusCodeMatches;
   Client_TransformResponseReturnsFalseWhenStatusCodeMismatch; Client_ScopedVarPropagatesFromTransformToTransformResponse;
   Client_ScopedVarPropagatesAcrossOutStateChain; Client_TransformResponseSourceResponseHeaders].

(** The model of the client provisions gives what the tests of the repository expect of the code. *)
Theorem client_tests_pass : forallb id client_tests = true /\ length client_tests = 49%nat.
Proof. vm_compute. split; reflexivity. Qed.
