(* ===== verification/AdminTests.v ===== *)
(** The tests of the administration of the repository ([ut/model/AdminData/configure.cpp] and
    [ut/http2Server/myAdminHttp2Server.cpp]), each one as a definition that says whether
    the model gives what the test expects, and the theorem that it does.  Left out are
    the tests of getters that compare pointers. *)
From S2P Require Import Prelude Std Double Functions Query Json JsonModel JsonReader External Regex Keys DataPart MockEvents MockData Vault Transformation Schema Stages ServerProvision ServerAdmin TrafficServer ClientEndpoint ClientProvision Ticker ClientFlow AdminServer AdminSchemas Files Conformance.
From stdpp Require Import options.
Import Bench.
#[local] Open Scope Z_scope.

(** ** The fixtures *)

Definition first_world : World OS := mkWorld Vault_new MockData_empty MockData_empty ∅ 1000000 0 no_outside.
Definition TestAgent : Type := Agent (OS := OS).
Definition first_agent (c : Configuration) : TestAgent :=
  mkAgent first_world true (Server_new Config_new ProvisionData_new first_world)
    (mkFlow ∅ ∅ ∅ O ∅ first_world true true true false (mkClientCounters 0 0 0 0 0) None [] []) None c Latency_new "Warning".

(** No connection in the tests: [configuration_.setLazyClientConnection(true)]. *)
Definition Configure_test : TestAgent := first_agent (mkConfiguration 1000000 0 true 1 1 (-1) 1 false).
Definition MyAdminHttp2ServerUnitTest : TestAgent := first_agent Configuration_new.

(** A step of a test: [None] when it is not as expected. *)
Definition Step : Type := TestAgent -> option TestAgent.
Definition expect {A} (m : M TestAgent A) (expected : A -> bool) : Step := fun a =>
  match m a with (a', Val r) => if expected r then Some a' else None | (_, Throw _) => None end.
Definition that (expected : TestAgent -> bool) : Step := fun a => if expected a then Some a else None.
Definition passes (a : TestAgent) (steps : list Step) : bool := match foldl (fun o s => o ≫= s) (Some a) steps with Some _ => true | None => false end.

(** The operations of [AdminData]. *)
Definition same_result (r r' : LoadResult) : bool := bool_decide (r = r').
Definition valid (o : Operation) : json -> bool := op_valid adminSchemas o.
Definition loadServerMatching (j : json) (r : LoadResult) : Step :=
  expect (on_server (on_matching (matching_load (valid OpServerMatching) j))) (same_result r).
Definition regex_configured (a : TestAgent) : bool := bool_decide (algorithm (s_matching (ag_server a)) = RegexMatching).
Definition loadServerProvision (j : json) (r : LoadResult) : Step := fun a =>
  expect (on_server (on_provisions (pd_load decode_url ub (valid OpServerProvision) (regex_configured a) j))) (same_result r) a.
Definition clearServerProvisions (b : bool) : Step :=
  expect (on_server (on_provisions (fun d => let '(b, d) := pd_clear d in (d, Val b)))) (Bool.eqb b).
Definition loadClientEndpoint (j : json) (r : EndpointResult) : Step := fun a =>
  expect (on_flow (load_endpoints ub (lazy_client_connection_ (ag_configuration a)) (traffic_client_connections_ (ag_configuration a))
            (valid OpClientEndpoint) j))
    (fun r' => match r, r' with EpSuccess, EpSuccess | EpAccepted, EpAccepted | EpBadSchema, EpBadSchema | EpBadContent, EpBadContent => true | _, _ => false end) a.
Definition clearEndpoints (b : bool) : Step := expect (on_flow (fun s => let '(b, s) := clearClientEndpoints s in (s, Val b))) (Bool.eqb b).
Definition loadSchema (j : json) (r : LoadResult) : Step := expect (on_schemas (schema_load (valid OpSchema) j)) (same_result r).
Definition clearSchemas (b : bool) : Step := expect (on_schemas (fun d => (∅, Val (negb (bool_decide (d = ∅)))))) (Bool.eqb b).

Definition matching (a : TestAgent) : Config := s_matching (ag_server a).
Definition provisions (a : TestAgent) : ProvisionData := s_provisions (ag_server a).
Definition endpoints (a : TestAgent) : gmap string AdminClientEndpoint := fl_endpoints (ag_flow a).
Definition closed (c : Client) : string := "Closed".
Definition schema_is (o : Operation) : bool := json_eqb (js_json (op_schema adminSchemas o)) (adminSchemas o).

(** ** [Configure_test] *)

Definition MatchingConfiguration_FullMatching__Success : json := obj [("algorithm", JString "FullMatching")].
Definition MatchingConfiguration_FullMatchingRegexReplace__Success : json := obj [("algorithm", JString "FullMatchingRegexReplace"); ("rgx", JString "([0-9]{3})-([a-z]{2})-foo-bar"); ("fmt", JString "$1")].
Definition MatchingConfiguration_RegexMatching__Success : json := obj [("algorithm", JString "RegexMatching")].
Definition MatchingConfiguration_uriPathQueryParameters__Success : json := obj [("algorithm", JString "FullMatching")].
Definition MatchingConfiguration_uriPathQueryParameters__SuccessDefault : json := obj [("algorithm", JString "FullMatching"); ("uriPathQueryParameters", obj [("filter", JString "Sort"); ("separator", JString "Ampersand")])].
Definition MatchingConfiguration_uriPathQueryParameters__Success2 : json := obj [("algorithm", JString "FullMatching"); ("uriPathQueryParameters", obj [("filter", JString "Sort"); ("separator", JString "Semicolon")])].
Definition MatchingConfiguration_uriPathQueryParameters__Success3 : json := obj [("algorithm", JString "FullMatching"); ("uriPathQueryParameters", obj [("filter", JString "PassBy")])].
Definition MatchingConfiguration_uriPathQueryParameters__Success4 : json := obj [("algorithm", JString "FullMatching"); ("uriPathQueryParameters", obj [("filter", JString "Ignore")])].
Definition MatchingConfiguration__BadSchema : json := obj [("happy", JBool true); ("pi", float 3141 (-3))].
Definition MatchingConfiguration_algorithm__BadSchema : json := obj [("algorithm", JString "unknown")].
Definition MatchingConfiguration_uriPathQueryParameters__BadSchema : json := obj [("algorithm", JString "FullMatching"); ("uriPathQueryParameters", JString "unknown")].
Definition MatchingConfiguration_uriPathQueryParameters__BadSchema2 : json := obj [("algorithm", JString "FullMatching"); ("uriPathQueryParameters", obj [("separator", JString "Semicolon")])].
Definition MatchingConfiguration_FullMatching__BadContent : json := obj [("algorithm", JString "FullMatching"); ("rgx", JString "whatever")].
Definition MatchingConfiguration_FullMatching__BadContent2 : json := obj [("algorithm", JString "FullMatching"); ("fmt", JString "whatever")].
Definition MatchingConfiguration_FullMatchingRegexReplace__BadContent : json := obj [("algorithm", JString "FullMatchingRegexReplace")].
Definition MatchingConfiguration_RegexMatching__BadContent : json := obj [("algorithm", JString "RegexMatching"); ("rgx", JString "whatever")].
Definition MatchingConfiguration_RegexMatching__BadContent2 : json := obj [("algorithm", JString "RegexMatching"); ("fmt", JString "whatever")].
Definition MatchingConfiguration_RegexMatching__BadContent3 : json := obj [("algorithm", JString "RegexMatching"); ("rgx", JString "(")].
Definition ProvisionConfiguration__Success : json := obj [("requestMethod", JString "GET"); ("requestUri", JString "/app/v1/foo/bar/1?name=test"); ("responseCode", JUint 200); ("responseBody", obj [("foo", JString "bar-1")]); ("responseHeaders", obj [("content-type", JString "text/html"); ("x-version", JString "1.0.0")]); ("transform", arr [obj [("source", JString "random.10.30"); ("target", JString "response.body.json.integer./randomBetween10and30")]]); ("requestSchemaId", JString "myRequestsSchema"); ("responseSchemaId", JString "myResponsesSchema")].
Definition ProvisionConfiguration__SuccessRegex : json := obj [("requestMethod", JString "GET"); ("requestUri", JString "(/foo/bar/)([0-9]{3})"); ("responseCode", JUint 200)].
Definition ProvisionConfiguration__SuccessArray : json := arr [obj [("requestMethod", JString "GET"); ("requestUri", JString "/app/v1/foo/bar/1"); ("responseCode", JUint 200)]; obj [("requestMethod", JString "GET"); ("requestUri", JString "/app/v1/foo/bar/2"); ("responseCode", JUint 200)]].
Definition ProvisionConfiguration__BadSchema : json := obj [("happy", JBool true); ("pi", float 3141 (-3))].
Definition ProvisionConfiguration__BadContent : json := obj [("requestMethod", JString "GET"); ("requestUri", JString "bad regular expression due to the slash \"); ("responseCode", JUint 200)].
Definition ProvisionConfiguration__BadContent2 : json := obj [("requestMethod", JString "GET"); ("requestUri", JString "/any/uri"); ("responseCode", JUint 200); ("requestSchemaId", JString "")].
Definition ProvisionConfiguration__BadContent3 : json := obj [("requestMethod", JString "GET"); ("requestUri", JString "/any/uri"); ("responseCode", JUint 200); ("responseSchemaId", JString "")].
Definition ProvisionConfiguration__BadContentArray : json := arr [obj [("requestMethod", JString "GET"); ("requestUri", JString "(/foo/bar/)[0-9]{3}"); ("responseCode", JUint 200)]; obj [("requestMethod", JString "GET"); ("requestUri", JString "bad regular expression due to the slash \"); ("responseCode", JUint 200)]].
Definition ClientEndpointConfiguration__Success : json := obj [("id", JString "myServer"); ("host", JString "localhost"); ("port", JUint 8000); ("secure", JBool true); ("permit", JBool false)].
Definition ClientEndpointConfiguration__SuccessArray : json := arr [obj [("id", JString "myServer1"); ("host", JString "localhost1"); ("port", JUint 8000)]; obj [("id", JString "myServer2"); ("host", JString "localhost2"); ("port", JUint 8000)]].
Definition ClientEndpointConfiguration__AcceptedArrayChangePort : json := arr [obj [("id", JString "myServer1"); ("host", JString "localhost1"); ("port", JUint 8000)]; obj [("id", JString "myServer1"); ("host", JString "localhost1"); ("port", JUint 9000)]].
Definition ClientEndpointConfiguration__AcceptedArrayChangeSecure : json := arr [obj [("id", JString "myServer1"); ("host", JString "localhost1"); ("port", JUint 8000); ("secure", JBool true)]; obj [("id", JString "myServer1"); ("host", JString "localhost1"); ("port", JUint 8000); ("secure", JBool false)]].
Definition ClientEndpointConfiguration__AcceptedArrayNoChanges : json := arr [obj [("id", JString "myServer1"); ("host", JString "localhost1"); ("port", JUint 8000); ("secure", JBool false)]; obj [("id", JString "myServer1"); ("host", JString "localhost1"); ("port", JUint 8000); ("secure", JBool false)]].
Definition ClientEndpointConfiguration__BadSchema : json := obj [("permit", JBool true)].
Definition ClientEndpointConfiguration__BadSchema2 : json := obj [("id", JString "myServer"); ("host", JString "localhost"); ("port", JUint 99999)].
Definition ClientEndpointConfiguration__BadContent : json := obj [("id", JString ""); ("host", JString "localhost"); ("port", JUint 8000)].
Definition ClientEndpointConfiguration__BadContent2 : json := obj [("id", JString "myServer"); ("host", JString ""); ("port", JUint 8000)].
Definition ClientEndpointConfiguration__BadContentArray : json := arr [obj [("id", JString "myServer1"); ("host", JString "localhost1"); ("port", JUint 8000)]; obj [("id", JString ""); ("host", JString "localhost2"); ("port", JUint 8000)]].
Definition SchemaConfiguration__Success : json := obj [("id", JString "myRequestsSchema"); ("schema", obj [("$schema", JString "http://json-schema.org/draft-07/schema#"); ("type", JString "object"); ("additionalProperties", JBool false); ("properties", obj [("foo", obj [("type", JString "string")])]); ("required", arr [JString "foo"])])].
Definition SchemaConfiguration__SuccessArray : json := arr [obj [("id", JString "myRequestsSchema"); ("schema", obj [("$schema", JString "http://json-schema.org/draft-07/schema#"); ("type", JString "object"); ("additionalProperties", JBool false); ("properties", obj [("foo", obj [("type", JString "string")])]); ("required", arr [JString "foo"])])]; obj [("id", JString "myResponsesSchema"); ("schema", obj [("$schema", JString "http://json-schema.org/draft-07/schema#"); ("type", JString "object"); ("additionalProperties", JBool false); ("properties", obj [("bar", obj [("type", JString "number")])]); ("required", arr [JString "bar"])])]].
Definition SchemaConfiguration__BadSchema : json := obj [("happy", JBool true); ("pi", float 3141 (-3))].
Definition SchemaConfiguration__BadContent : json := obj [("id", JString "myRequestsSchema"); ("schema", obj [("type", JString "object"); ("properties", obj [("name", obj [("type", JString "string")]); ("age", obj [("type", JString "integer")])]); ("required", arr [JString "name"]); ("$ref", JString "external-schema.json")])].
Definition SchemaConfiguration__BadContentArray : json := arr [obj [("id", JString "myRequestsSchema"); ("schema", obj [("$schema", JString "http://json-schema.org/draft-07/schema#"); ("type", JString "object"); ("additionalProperties", JBool false); ("properties", obj [("foo", obj [("type", JString "string")])]); ("required", arr [JString "foo"])])]; obj [("id", JString "myRequestsSchema"); ("schema", obj [("type", JString "object"); ("properties", obj [("name", obj [("type", JString "string")]); ("age", obj [("type", JString "integer")])]); ("required", arr [JString "name"]); ("$ref", JString "external-schema.json")])]].

Definition Configure_LoadMatching : bool :=
  passes Configure_test
    [loadServerMatching MatchingConfiguration_FullMatching__Success Success;
     that (fun a => json_eqb (cfg_json (matching a)) MatchingConfiguration_FullMatching__Success && schema_is OpServerMatching);
     loadServerMatching MatchingConfiguration_FullMatchingRegexReplace__Success Success;
     that (fun a => bool_decide (algorithm (matching a) = FullMatchingRegexReplace) && String.eqb (fmt (matching a)) "$1" &&
       gives (Val (regex_replace "123-ab-foo-bar" (rgx (matching a)) (fmt (matching a)))) "123");
     loadServerMatching MatchingConfiguration_RegexMatching__Success Success;
     loadServerMatching MatchingConfiguration_uriPathQueryParameters__SuccessDefault Success;
     loadServerMatching MatchingConfiguration_uriPathQueryParameters__Success Success;
     that (fun a => match uri_path_query_parameters_filter (matching a), uri_path_query_parameters_separator (matching a) with
       Sort, Ampersand => true | _, _ => false end);
     loadServerMatching MatchingConfiguration_uriPathQueryParameters__Success2 Success;
     loadServerMatching MatchingConfiguration_uriPathQueryParameters__Success3 Success;
     loadServerMatching MatchingConfiguration_uriPathQueryParameters__Success4 Success;
     loadServerMatching MatchingConfiguration__BadSchema BadSchema;
     loadServerMatching MatchingConfiguration_algorithm__BadSchema BadSchema;
     loadServerMatching MatchingConfiguration_uriPathQueryParameters__BadSchema BadSchema;
     loadServerMatching MatchingConfiguration_uriPathQueryParameters__BadSchema2 BadSchema;
     loadServerMatching MatchingConfiguration_FullMatching__BadContent BadContent;
     loadServerMatching MatchingConfiguration_FullMatching__BadContent2 BadContent;
     loadServerMatching MatchingConfiguration_FullMatchingRegexReplace__BadContent BadContent;
     loadServerMatching MatchingConfiguration_RegexMatching__BadContent BadContent;
     loadServerMatching MatchingConfiguration_RegexMatching__BadContent2 BadContent;
     loadServerMatching MatchingConfiguration_RegexMatching__BadContent3 BadContent].

Definition anotherProvision : json := json_set "requestUri" (JString "/app/v1/foo/bar/1?name=test_bis") ProvisionConfiguration__Success.
Definition Configure_LoadProvisionSuccess : bool :=
  passes Configure_test
    [loadServerProvision ProvisionConfiguration__Success Success;
     that (fun a => gives (pd_asJsonString false false (provisions a)) (dump (arr [ProvisionConfiguration__Success])));
     loadServerProvision anotherProvision Success;
     that (fun a => gives (pd_asJsonString true false (provisions a)) (dump (arr [ProvisionConfiguration__Success; anotherProvision])));
     clearServerProvisions true;
     loadServerProvision ProvisionConfiguration__SuccessArray Success;
     clearServerProvisions true].

Definition Configure_LoadProvisionFail : bool :=
  passes Configure_test
    [loadServerProvision ProvisionConfiguration__BadSchema BadSchema;
     that (fun a => gives (pd_asJsonString false false (provisions a)) "[]" && schema_is OpServerProvision);
     clearServerProvisions false;
     loadServerMatching MatchingConfiguration_RegexMatching__Success Success;
     loadServerProvision ProvisionConfiguration__BadContent BadContent;
     loadServerProvision ProvisionConfiguration__BadContent2 BadContent;
     loadServerProvision ProvisionConfiguration__BadContent3 BadContent;
     clearServerProvisions false;
     loadServerMatching MatchingConfiguration_RegexMatching__Success Success;
     loadServerProvision ProvisionConfiguration__BadContentArray BadContent;
     clearServerProvisions true].

Definition Configure_FindProvisionRegex : bool :=
  passes Configure_test
    [loadServerMatching MatchingConfiguration_RegexMatching__Success Success;
     loadServerProvision ProvisionConfiguration__SuccessRegex Success;
     that (fun a => some (pd_findRegexMatching "initial" "GET" "/foo/bar/123" (provisions a)));
     that (fun a => negb (some (pd_findRegexMatching "missing" "GET" "/foo/bar/123" (provisions a))));
     that (fun a => negb (some (pd_findRegexMatching "initial" "POST" "/foo/bar/123" (provisions a))));
     that (fun a => negb (some (pd_findRegexMatching "initial" "GET" "/foo/bar/12345" (provisions a))));
     clearServerProvisions true].

Definition Configure_FindProvision : bool :=
  passes Configure_test
    [loadServerMatching MatchingConfiguration_RegexMatching__Success Success;
     loadServerProvision ProvisionConfiguration__Success Success;
     that (fun a => negb (some (pd_find "missing" "GET" "/app/v1/foo/bar/1?name=test" (provisions a))));
     that (fun a => negb (some (pd_find "initial" "POST" "/app/v1/foo/bar/1?name=test" (provisions a))));
     that (fun a => negb (some (pd_find "initial" "GET" "/app/v1/foo/bar/1?name=missing" (provisions a))));
     that (fun a => match pd_find "initial" "GET" "/app/v1/foo/bar/1?name=test" (provisions a) with
       | Some p => String.eqb (response_body_string_ p) (quoted "{'foo':'bar-1'}") &&
           negb (some (getRequestSchema (w_schemas (ag_world a)) p).1) && negb (some (getResponseSchema (w_schemas (ag_world a)) p).1)
       | None => false
       end);
     clearServerProvisions true].

Definition Configure_Delete : bool :=
  passes Configure_test
    [loadServerMatching MatchingConfiguration_RegexMatching__Success Success;
     loadServerProvision ProvisionConfiguration__Success Success;
     clearServerProvisions true;
     clearServerProvisions false].

(** The test expects the order the library has in its map of the two endpoints, which is
    unspecified: here they may be in any order. *)
Definition anotherClientEndpoint : json := json_set "id" (JString "myServer_bis") ClientEndpointConfiguration__Success.
Definition Configure_LoadClientEndpointSuccess : bool :=
  passes Configure_test
    [loadClientEndpoint ClientEndpointConfiguration__Success EpSuccess;
     that (fun a => gives (ep_asJsonString closed (endpoints a)) (dump (arr [ClientEndpointConfiguration__Success])));
     loadClientEndpoint anotherClientEndpoint EpSuccess;
     that (fun a => gives (ep_asJsonString closed (endpoints a)) (dump (arr [anotherClientEndpoint; ClientEndpointConfiguration__Success])) ||
       gives (ep_asJsonString closed (endpoints a)) (dump (arr [ClientEndpointConfiguration__Success; anotherClientEndpoint])));
     clearEndpoints true;
     loadClientEndpoint ClientEndpointConfiguration__SuccessArray EpSuccess;
     clearEndpoints true;
     loadClientEndpoint ClientEndpointConfiguration__AcceptedArrayChangePort EpAccepted;
     loadClientEndpoint ClientEndpointConfiguration__AcceptedArrayChangeSecure EpAccepted;
     loadClientEndpoint ClientEndpointConfiguration__AcceptedArrayNoChanges EpSuccess;
     clearEndpoints true].

Definition Configure_LoadClientEndpointFail : bool :=
  passes Configure_test
    [loadClientEndpoint ClientEndpointConfiguration__BadSchema EpBadSchema;
     that (fun a => gives (ep_asJsonString closed (endpoints a)) "[]" && schema_is OpClientEndpoint);
     loadClientEndpoint ClientEndpointConfiguration__BadSchema2 EpBadSchema;
     clearEndpoints false;
     loadClientEndpoint ClientEndpointConfiguration__BadContent EpBadContent;
     loadClientEndpoint ClientEndpointConfiguration__BadContent2 EpBadContent;
     clearEndpoints false;
     loadClientEndpoint ClientEndpointConfiguration__BadContentArray EpBadContent;
     clearEndpoints true].

Definition with_endpoint (k : string) (expected : AdminClientEndpoint -> bool) (a : TestAgent) : bool :=
  match endpoint_find k (endpoints a) with Some e => expected e | None => false end.
Definition Configure_FindClientEndpoint : bool :=
  passes Configure_test
    [loadClientEndpoint ClientEndpointConfiguration__Success EpSuccess;
     that (with_endpoint "myServer" (fun e => String.eqb (ep_key e) "myServer" && String.eqb (host_ e) "localhost" && (port_ e =? 8000) &&
       secure_ e && negb (permit_ e) && json_eqb (Endpoint_asJson closed e) ClientEndpointConfiguration__Success));
     clearEndpoints true].

Definition Configure_ConnectClientEndpoint : bool :=
  let expectedJson := json_set "status" (JString "Closed") ClientEndpointConfiguration__Success in
  passes Configure_test
    [loadClientEndpoint ClientEndpointConfiguration__Success EpSuccess;
     that (with_endpoint "myServer" (fun e =>
       let e1 := connect false 1 e in
       json_eqb (Endpoint_asJson closed e1) expectedJson && json_eqb (Endpoint_asJson closed (connect true 1 e1)) expectedJson))].

Definition Configure_DeleteClientEndpoint : bool :=
  passes Configure_test [loadClientEndpoint ClientEndpointConfiguration__Success EpSuccess; clearEndpoints true; clearEndpoints false].

Definition schemas_text (a : TestAgent) : string := dump (JArray (as_json <$> (map_to_list (w_schemas (ag_world a))).*2)).
Definition Configure_LoadSchemaSuccess : bool :=
  passes Configure_test
    [loadSchema SchemaConfiguration__Success Success;
     that (fun a => String.eqb (schemas_text a) (dump (arr [SchemaConfiguration__Success])));
     loadSchema SchemaConfiguration__SuccessArray Success;
     clearSchemas true].

Definition Configure_LoadSchemaFail : bool :=
  passes Configure_test
    [loadSchema SchemaConfiguration__BadSchema BadSchema;
     that (fun a => String.eqb (schemas_text a) "[]" && schema_is OpSchema);
     clearSchemas false;
     loadSchema SchemaConfiguration__BadContent BadContent;
     clearSchemas false;
     loadSchema SchemaConfiguration__BadContentArray BadContent;
     clearSchemas true].

Definition Configure_FindSchema : bool :=
  passes Configure_test
    [loadSchema SchemaConfiguration__Success Success;
     that (fun a => some (schema_find "myRequestsSchema" (w_schemas (ag_world a))));
     clearSchemas true].

Definition Configure_FindMissingSchema : bool :=
  passes Configure_test [that (fun a => negb (some (schema_find "myRequestsSchema" (w_schemas (ag_world a)))))].

Definition Configure_ValidateSchema : bool :=
  passes Configure_test
    [loadSchema SchemaConfiguration__Success Success;
     that (fun a => match schema_find "myRequestsSchema" (w_schemas (ag_world a)) with
       | Some s => negb (some (AdminSchema_validate s (obj [("foo", JString "bar")])))
       | None => false
       end)].

(** ** [MyAdminHttp2ServerUnitTest] *)

(** The status and the log of an operation. *)
Definition answers (m : M TestAgent (Z * string * string)) (code : Z) (log : string) : Step :=
  expect m (fun '(c, l, _) => (c =? code) && String.eqb l log).
Definition answers_code (m : M TestAgent (Z * string * string)) (code : Z) : Step := expect m (fun '(c, _, _) => c =? code).
Definition on_admin (steps : list Step) : bool := passes MyAdminHttp2ServerUnitTest steps.
Definition test_matching (j : json) : M TestAgent (Z * string * string) := serverMatching adminSchemas j.
Definition test_provision (j : json) : M TestAgent (Z * string * string) := serverProvision decode_url ub adminSchemas j.
Definition test_vault (j : json) : M TestAgent (Z * string * string) := vault adminSchemas j.
Definition test_schema (j : json) : M TestAgent (Z * string * string) := schema adminSchemas j.
Definition test_endpoint (j : json) : M TestAgent (Z * string * string) := clientEndpoint ub adminSchemas j.
Definition test_client_provision (j : json) : M TestAgent (Z * string * string) := clientProvision decode_url ub adminSchemas j.

Definition Admin_ServerMatchingFullMatching : bool :=
  on_admin [answers (test_matching (obj [("algorithm", JString "FullMatching")])) 201 "server-matching operation; valid schema and matching data received"].
Definition Admin_ServerMatchingRegexReplace : bool :=
  on_admin [answers (test_matching (obj [("algorithm", JString "FullMatchingRegexReplace"); ("rgx", JString "(/app/v1/foo/)([0-9]*)"); ("fmt", JString "$1")])) 201
    "server-matching operation; valid schema and matching data received"].
Definition Admin_ServerMatchingRegexMatching : bool :=
  on_admin [answers (test_matching (obj [("algorithm", JString "RegexMatching")])) 201 "server-matching operation; valid schema and matching data received"].
Definition Admin_ServerMatchingInvalidSchema : bool :=
  on_admin [answers (test_matching (obj [("foo", JString "bar")])) 400 "server-matching operation; invalid schema"].
Definition Admin_ServerMatchingInvalidContent : bool :=
  on_admin [answers (test_matching (obj [("algorithm", JString "FullMatching"); ("rgx", JString "whatever")])) 400 "server-matching operation; invalid matching data received"].

Definition Admin_ServerProvisionValid : bool :=
  on_admin [answers (test_provision (obj [("requestMethod", JString "GET"); ("requestUri", JString "/foo/bar"); ("responseCode", JUint 200)])) 201
    "server-provision operation; valid schema and server provision data received"].
Definition Admin_ServerProvisionInvalidSchema : bool :=
  on_admin [answers (test_provision (obj [("requestUri", JString "/foo/bar"); ("responseCode", JUint 200)])) 400 "server-provision operation; invalid schema"].
Definition Admin_ServerProvisionWithResponseBody : bool :=
  on_admin [answers_code (test_provision (obj [("requestMethod", JString "POST"); ("requestUri", JString "/api/test"); ("responseCode", JUint 201); ("responseBody", obj [("status", JString "created")])])) 201].
Definition Admin_ServerProvisionWithHeaders : bool :=
  on_admin [answers_code (test_provision (obj [("requestMethod", JString "GET"); ("requestUri", JString "/api/data"); ("responseCode", JUint 200); ("responseHeaders", obj [("content-type", JString "application/json"); ("x-custom", JString "value")])])) 201].

Definition Admin_VaultValid : bool :=
  on_admin [answers (test_vault (obj [("var1", JString "value1"); ("var2", JString "value2")])) 201 "vault operation; valid schema and vault data received"].
Definition Admin_VaultInvalidNonString : bool :=
  on_admin [answers (test_vault (obj [("var.with.dots", JUint 123)])) 400 "vault operation; invalid schema"].
Definition Admin_VaultInvalidObject : bool :=
  on_admin [answers (test_vault (obj [("a.b", obj [("nested", JString "object")])])) 400 "vault operation; invalid schema"].
Definition Admin_VaultSingleVar : bool := on_admin [answers_code (test_vault (obj [("singleVar", JString "singleValue")])) 201].
Definition Admin_VaultEmptyValue : bool := on_admin [answers_code (test_vault (obj [("emptyVar", JString EmptyString)])) 201].

Definition Admin_SchemaValid : bool :=
  on_admin [answers (test_schema (obj [("id", JString "mySchema"); ("schema", obj [("$schema", JString "http://json-schema.org/draft-07/schema#"); ("type", JString "object"); ("properties", obj [("foo", obj [("type", JString "string")])])])])) 201 "schema operation; valid schema and schema data received"].
Definition Admin_SchemaInvalid : bool := on_admin [answers (test_schema (obj [("id", JString "mySchema")])) 400 "schema operation; invalid schema"].
Definition Admin_SchemaWithRequired : bool :=
  on_admin [answers_code (test_schema (obj [("id", JString "requiredSchema"); ("schema", obj [("$schema", JString "http://json-schema.org/draft-07/schema#"); ("type", JString "object"); ("properties", obj [("name", obj [("type", JString "string")])]); ("required", arr [JString "name"])])])) 201].

Definition Admin_ClientEndpointValidSingle : bool :=
  on_admin [answers (test_endpoint (obj [("id", JString "myServer"); ("host", JString "localhost"); ("port", JUint 8000); ("secure", JBool false)])) 201
    "client-endpoint operation; valid schema and client endpoint data received"].
Definition Admin_ClientEndpointValidArray : bool :=
  on_admin [answers (test_endpoint (arr [obj [("id", JString "server1"); ("host", JString "localhost"); ("port", JUint 8000)]; obj [("id", JString "server2"); ("host", JString "localhost"); ("port", JUint 8001)]])) 201
    "client-endpoint operation; valid schemas and client endpoints data received"].
Definition Admin_ClientEndpointInvalidSchema : bool :=
  on_admin [answers (test_endpoint (obj [("i_d", JString "wrong_field"); ("host", JString "localhost")])) 400 "client-endpoint operation; invalid schema"].
Definition Admin_ClientEndpointInvalidContent : bool :=
  on_admin [answers (test_endpoint (obj [("id", JString EmptyString); ("host", JString "localhost"); ("port", JUint 8000)])) 400
    "client-endpoint operation; invalid client endpoint data received"].
Definition Admin_ClientEndpointSecure : bool :=
  on_admin [answers_code (test_endpoint (obj [("id", JString "secureServer"); ("host", JString "localhost"); ("port", JUint 443); ("secure", JBool true)])) 201].

Definition Admin_ClientProvisionValid : bool :=
  on_admin [expect (test_endpoint (obj [("id", JString "myEndpoint"); ("host", JString "localhost"); ("port", JUint 8000)])) (fun _ => true);
    answers (test_client_provision (obj [("id", JString "myProvision"); ("endpoint", JString "myEndpoint"); ("requestMethod", JString "GET"); ("requestUri", JString "/test")])) 201
      "client-provision operation; valid schema and client provision data received"].
Definition Admin_ClientProvisionInvalidSchema : bool :=
  on_admin [answers (test_client_provision (obj [])) 400 "client-provision operation; invalid schema"].

(** The results of the two validations are only printed. *)
Definition Admin_DebugClientProvisionSchema : bool := available_ (op_schema adminSchemas OpClientProvision).

(** [discardClientData], [discardClientDataKeyHistory] and [disableClientPurge], and the
    configuration as text. *)
Definition switched (d h p : option bool) : Step := expect (on_flow (modify (set_client_switches d h p))) (fun _ => true).
Definition configuration_is (needs purge store history : string) : Step :=
  that (fun a => gives (clientDataConfigurationAsJsonString (ag_flow a))
    (quoted "{'needsStorage':" +:+ needs +:+ quoted ",'purgeExecution':" +:+ purge +:+ quoted ",'storeEvents':" +:+ store +:+
     quoted ",'storeEventsKeyHistory':" +:+ history +:+ "}")).

Definition Admin_ClientDataConfigurationDefault : bool := on_admin [configuration_is "false" "true" "true" "true"].
Definition Admin_ClientDataConfigurationAfterDiscard : bool :=
  on_admin [switched (Some true) None None; configuration_is "false" "true" "false" "true"].
Definition Admin_ClientDataConfigurationAfterDiscardHistory : bool :=
  on_admin [switched None (Some true) None; configuration_is "false" "true" "true" "false"].
Definition Admin_ClientDataConfigurationAfterDisablePurge : bool :=
  on_admin [switched None None (Some true); configuration_is "false" "false" "true" "true"].
Definition Admin_ClientDataConfigurationAllDisabled : bool :=
  on_admin [switched (Some true) None None; switched None (Some true) None; switched None None (Some true);
    configuration_is "false" "false" "false" "false"].
Definition Admin_ClientDataConfigurationToggleDiscard : bool :=
  on_admin [switched (Some true) None None; configuration_is "false" "true" "false" "true";
    switched (Some false) None None; configuration_is "false" "true" "true" "true"].
Definition Admin_ClientDataConfigurationToggleHistory : bool :=
  on_admin [switched None (Some true) None; configuration_is "false" "true" "true" "false";
    switched None (Some false) None; configuration_is "false" "true" "true" "true"].
Definition Admin_ClientDataConfigurationTogglePurge : bool :=
  on_admin [switched None None (Some true); configuration_is "false" "false" "true" "true";
    switched None None (Some false); configuration_is "false" "true" "true" "true"].


(** ** They pass *)

Definition admin_tests : list bool :=
  [Configure_LoadMatching; Configure_LoadProvisionSuccess; Configure_LoadProvisionFail; Configure_FindProvisionRegex; Configure_FindProvision;
   Configure_Delete; Configure_LoadClientEndpointSuccess; Configure_LoadClientEndpointFail; Configure_FindClientEndpoint;
   Configure_ConnectClientEndpoint; Configure_DeleteClientEndpoint; Configure_LoadSchemaSuccess; Configure_LoadSchemaFail; Configure_FindSchema;
   Configure_FindMissingSchema; Configure_ValidateSchema; Admin_ServerMatchingFullMatching; Admin_ServerMatchingRegexReplace;
   Admin_ServerMatchingRegexMatching; Admin_ServerMatchingInvalidSchema; Admin_ServerMatchingInvalidContent; Admin_ServerProvisionValid;
   Admin_ServerProvisionInvalidSchema; Admin_ServerProvisionWithResponseBody; Admin_ServerProvisionWithHeaders; Admin_VaultValid;
   Admin_VaultInvalidNonString; Admin_VaultInvalidObject; Admin_VaultSingleVar; Admin_VaultEmptyValue; Admin_SchemaValid; Admin_SchemaInvalid;
   Admin_SchemaWithRequired; Admin_ClientEndpointValidSingle; Admin_ClientEndpointValidArray; Admin_ClientEndpointInvalidSchema;
   Admin_ClientEndpointInvalidContent; Admin_ClientEndpointSecure; Admin_ClientProvisionValid; Admin_ClientProvisionInvalidSchema;
   Admin_DebugClientProvisionSchema; Admin_ClientDataConfigurationDefault; Admin_ClientDataConfigurationAfterDiscard;
   Admin_ClientDataConfigurationAfterDiscardHistory; Admin_ClientDataConfigurationAfterDisablePurge; Admin_ClientDataConfigurationAllDisabled;
   Admin_ClientDataConfigurationToggleDiscard; Admin_ClientDataConfigurationToggleHistory; Admin_ClientDataConfigurationTogglePurge].

(** The model of the administration gives what the tests of the repository expect of the code. *)
Theorem admin_tests_pass : forallb id admin_tests = true /\ length admin_tests = 49%nat.
Proof. vm_compute. split; reflexivity. Qed.
