(* ===== verification/ModelTests.v ===== *)
(** The tests of functions, keys, bodies and conversions of the repository
    ([ut/model/Functions/functions.cpp], [Keys/keys.cpp], [DataPart/datapart.cpp] and
    [Storage/typeConverter.cpp]), each one as a definition that says whether the model
    gives what the test expects, and the theorem that it does.  Left out are
    [JsonContentSerialization], which expects the text of an error of the parser, and the
    tests of constructors by copy and by move. *)
From S2P Require Import Prelude Std Double Functions Query Json JsonModel JsonReader External Regex JsonConstraint Keys DataPart TypeConverter Vault Transformation ItemText AdminSchemas Conformance.
From stdpp Require Import options.
Import Bench.
#[local] Open Scope Z_scope.

(** ** [functions_test] *)

(** [ert::http2comm::URLFunctions::decode], for escapes that are well formed. *)
Fixpoint percent_decode_ (l : list ascii) : list ascii :=
  match l with
  | [] => []
  | c :: l1 => match l1 with
               | h1 :: h2 :: l2 => if zc c =? 37 then hex_byte (zc (tolower h1)) (zc (tolower h2)) :: percent_decode_ l2 else c :: percent_decode_ l1
               | _ => c :: percent_decode_ l1
               end
  end.
Definition percent_decode (s : string) : string := str (percent_decode_ (chars s)).

Definition QueryParametersExampleDefault : string := "foo=foo_value&bar=bar_value".
Definition QueryParametersExampleSemicolon : string := "foo=foo_value;bar=bar_value".
Definition QueryParametersExampleBadKey : string := "foo=foo_value&bar=bar_value&foo=foo_value2".
Definition QueryParametersExampleEncoded : string := "requestUri=%2Fapp%2Fv1%2Ffoo%2Fbar%3Fid%3D5%26name%3Dtest&foo=foo_value".
Definition query (q : string) (sep : ascii) : gmap string string :=
  match extractQueryParameters percent_decode q None sep with Some (Val (m, _)) => m | _ => ∅ end.
Definition sorted_query (q : string) (sep : ascii) : option string :=
  match extractQueryParameters percent_decode q (Some "") sep with Some (Val (_, s)) => s | _ => None end.
Definition qmap_amp_ : gmap string string := query QueryParametersExampleDefault "&".
Definition qmap_scl_ : gmap string string := query QueryParametersExampleSemicolon ";".
Definition qmap_enc_ : gmap string string := query QueryParametersExampleEncoded "&".

Definition Functions_calculateStringKey_k1k2k3 : bool := same (calculateStringKey "initial" "POST" "/foo/bar") "initial#POST#/foo/bar".
Definition Functions_calculateStringKey_k1k2 : bool := same (calculateStringKey "POST" "/foo/bar" "") "POST#/foo/bar".
Definition Functions_aggregateKeyPart_TwoArguments : bool := same (aggregateKeyPart "" "POST" "/foo/bar") "POST#/foo/bar".
Definition Functions_aggregateKeyPart_OneArguments : bool :=
  same (aggregateKeyPart "POST#/foo/bar" "myClientEndpoint" "") "myClientEndpoint#POST#/foo/bar".

Definition Functions_FooBarQueryParameters : bool :=
  forallb (fun m : gmap string string => checks
    [(size m =? 2)%nat; bool_decide (m !! "foo" = Some "foo_value"); bool_decide (m !! "bar" = Some "bar_value")]) [qmap_amp_; qmap_scl_].
Definition Functions_ExtractQueryParameters : bool := checks
  [(size (query QueryParametersExampleBadKey "&") =? 0)%nat;
   bool_decide (sorted_query QueryParametersExampleEncoded "&" = Some "foo=foo_value&requestUri=%2Fapp%2Fv1%2Ffoo%2Fbar%3Fid%3D5%26name%3Dtest");
   bool_decide (sorted_query QueryParametersExampleDefault "&" = Some "bar=bar_value&foo=foo_value");
   bool_decide (sorted_query QueryParametersExampleSemicolon ";" = Some "bar=bar_value;foo=foo_value")].
Definition Functions_EncodedQueryParameter : bool := checks
  [(size qmap_enc_ =? 2)%nat; bool_decide (qmap_enc_ !! "foo" = Some "foo_value");
   bool_decide (qmap_enc_ !! "requestUri" = Some "/app/v1/foo/bar?id=5&name=test")].

Definition both_are (r : bool * string) (ok : bool) (s : string) : bool := Bool.eqb r.1 ok && same r.2 s.
Definition Functions_PrintableStringAsHex : bool := both_are (asHexString "hello world !") true "0x68656c6c6f20776f726c642021".
Definition Functions_NonPrintableStringAsHex : bool := both_are (asHexString (str (chars "hell" ++ [cz 195; cz 179]))) false "0x68656c6cc3b3".
Definition Functions_EmptyInputStringAsHex : bool := both_are (asHexString "") true "0x".
Definition Functions_ValidHexStringToOctetStream : bool :=
  let r := fromHexString "c0a80001" "" in r.1 && both_are (asHexString r.2) false "0xc0a80001".
Definition Functions_ValidHexStringToOctetStreamWith0xPrefix : bool :=
  let r := fromHexString "0xc0a80001" "" in r.1 && both_are (asHexString r.2) false "0xc0a80001".
Definition Functions_InvalidHexStringToOctetStreamError1 : bool := both_are (fromHexString "0x68656c6c6fr0" "") false "hello".
Definition Functions_InvalidHexStringToOctetStreamError2 : bool := both_are (fromHexString "0x68656c6c6f0r" "") false "hello".
Definition Functions_InvalidHexStringOddSize : bool := negb (fromHexString "0x686" "").1.
Definition Functions_AsAsciiString : bool := let r := fromHexString "c030" "" in r.1 && both_are (asAsciiString r.2 "") false ".0".
Definition Functions_EmptyAsAsciiString : bool := both_are (asAsciiString "" "") false "<null>".

(** The constraint, and the text of its report. *)
Definition constraint_fails (received expected : json) (report : string) : bool :=
  match jsonConstraint received expected with Some r => gives (failReport r) report | None => false end.
Definition niels : json :=
  (obj [("pi", float 3141 (-3)); ("happy", JBool true); ("name", JString "Niels"); ("nothing", JNull); ("answer", obj [("everything", JUint 42)]); ("list", arr [JUint 1; JUint 0; JUint 2]); ("object", obj [("currency", JString "USD"); ("value", float 4299 (-2))])]).
Definition Functions_JsonConstraintSuccess : bool := isNone (jsonConstraint niels (obj [("pi", float 3141 (-3)); ("name", JString "Niels"); ("object", obj [("value", float 4299 (-2))])])).
Definition Functions_JsonConstraintFail : bool :=
  constraint_fails niels (obj [("pi", float 3141 (-3)); ("name", JString "Niels"); ("object", obj [("value", float 4299 (-2)); ("MISSING", JUint 3)])])
    "JsonConstraint FAILED: expected key 'MISSING' is missing in validated source".
Definition Functions_JsonConstraintFailByValue : bool :=
  constraint_fails (obj [("pi", float 3141 (-3))]) (obj [("pi", float 31 (-1))]) "JsonConstraint FAILED: expected value for key 'pi' differs regarding validated source".
Definition Functions_JsonConstraintArrayUnordered : bool :=
  isNone (jsonConstraint (arr [obj [("name", JString "b"); ("value", JString "2")]; obj [("name", JString "c"); ("value", JString "3")]; obj [("name", JString "a"); ("value", JString "1")]])
    (arr [obj [("name", JString "a"); ("value", JString "1")]; obj [("name", JString "b"); ("value", JString "2")]; obj [("name", JString "c"); ("value", JString "3")]])).
Definition Functions_JsonConstraintNestedArrayUnordered : bool :=
  isNone (jsonConstraint (obj [("tags", arr [JString "c"; JString "a"; JString "b"; JString "extra"])]) (obj [("tags", arr [JString "a"; JString "b"; JString "c"])])).

Definition Functions_String2uint64andSignError : bool := negb (string2uint64andSign "bad_input" 0 false).1.1.
Definition Functions_String2uint64andSignPositive : bool := bool_decide (string2uint64andSign "1770" 0 false = (true, 1770, false)).
Definition Functions_String2uint64andSignNegative : bool := bool_decide (string2uint64andSign "-1770" 0 false = (true, 1770, true)).
Definition Functions_FixMetricsNameEmptyString : bool := same (fixMetricsName "") "".
Definition Functions_FixMetricsNameOnlyValidCharacters : bool := same (fixMetricsName "valid:chars_0123") "valid:chars_0123".
Definition Functions_FixMetricsNameInvalidCharacters : bool := same (fixMetricsName "invalid!chars#") "invalid_chars_".
Definition Functions_FixMetricsNameMixedCharacters : bool := same (fixMetricsName "mixed!:_chars#0123") "mixed_:_chars_0123".

(** ** [keys] *)

(** The parts of a key, the key and the number of parts. *)
Definition parts_are (k : DataKey) (endpoint method uri key : string) (n : Z) : bool :=
  same (client_endpoint_id_ k) endpoint && same (method_ k) method && same (uri_ k) uri && same (key_ k) key && (nkeys_ k =? n).
(** [empty()], [complete()] and [checkSelection()]. *)
Definition data_key_is (k : DataKey) (e c s : bool) : bool :=
  Bool.eqb (dk_empty k) e && Bool.eqb (dk_complete k) c && Bool.eqb (dk_checkSelection k) s.
Definition event_key_is (k : EventKey) (e c s : bool) : bool :=
  Bool.eqb (ek_empty k) e && Bool.eqb (ek_complete k) c && Bool.eqb (ek_checkSelection k) s.
(** [getNumber()], [hasNumber()], [validNumber()], [getUNumber()] and [reverse()]. *)
Definition number_is (k : EventKey) (number : string) (has valid : bool) (u : Z) (reverse : bool) : bool :=
  same (number_ k) number && Bool.eqb (hasNumber k) has && Bool.eqb (validNumber k) valid && (u_number_ k =? u) && Bool.eqb (reverse_ k) reverse.

Definition Keys_dataKeyTwoPartsGetters : bool := parts_are (DataKey2 "POST" "/foo/bar") "" "POST" "/foo/bar" "POST#/foo/bar" 2.
Definition Keys_dataKeyThreePartsGetters : bool :=
  parts_are (DataKey3 "myClientEndpointId" "POST" "/foo/bar") "myClientEndpointId" "POST" "/foo/bar" "myClientEndpointId#POST#/foo/bar" 3.
Definition Keys_dataKeyTwoPartsPresence : bool := checks
  [data_key_is (DataKey2 "POST" "/foo/bar") false true true; data_key_is (DataKey2 "" "/foo/bar") false false false;
   data_key_is (DataKey2 "POST" "") false false false; data_key_is (DataKey2 "" "") true false true].
Definition Keys_dataKeyThreePartsPresence : bool := checks
  [data_key_is (DataKey3 "myClientEndpointId" "POST" "/foo/bar") false true true;
   data_key_is (DataKey3 "myClientEndpointId" "" "/foo/bar") false false false;
   data_key_is (DataKey3 "myClientEndpointId" "POST" "") false false false;
   data_key_is (DataKey3 "myClientEndpointId" "" "") false false false;
   data_key_is (DataKey3 "" "POST" "/foo/bar") false false false;
   data_key_is (DataKey3 "" "" "/foo/bar") false false false;
   data_key_is (DataKey3 "" "POST" "") false false false;
   data_key_is (DataKey3 "" "" "") true false true].
Definition Keys_dataKeyTwoPartsKeyToJson : bool := json_eqb (keyToJson (DataKey2 "POST" "/foo/bar") JNull) (obj [("method", JString "POST"); ("uri", JString "/foo/bar")]).
Definition Keys_dataKeyThreePartsKeyToJson : bool :=
  json_eqb (keyToJson (DataKey3 "myClientEndpointId" "POST" "/foo/bar") JNull)
    (obj [("clientEndpointId", JString "myClientEndpointId"); ("method", JString "POST"); ("uri", JString "/foo/bar")]).
Definition Keys_dataKeyWithProvisionUri : bool :=
  json_eqb (keyToJson (setProvisionUri "(/foo/bar/)([0-9]*)" (DataKey2 "POST" "/foo/bar/1234")) JNull)
    (obj [("method", JString "POST"); ("uri", JString "/foo/bar/1234"); ("provisionUri", JString "(/foo/bar/)([0-9]*)")]).
Definition Keys_eventKeyDataKeyConstructorTwoPartsGetters : bool :=
  parts_are (ek_data (EventKey_of (DataKey2 "POST" "/foo/bar") "1")) "" "POST" "/foo/bar" "POST#/foo/bar" 2.
Definition Keys_eventKeyTwoPartsGetters : bool := parts_are (ek_data (EventKey2 "POST" "/foo/bar" "1")) "" "POST" "/foo/bar" "POST#/foo/bar" 2.
Definition Keys_eventKeyThreePartsGetters : bool :=
  parts_are (ek_data (EventKey3 "myClientEndpointId" "POST" "/foo/bar" "1")) "myClientEndpointId" "POST" "/foo/bar" "myClientEndpointId#POST#/foo/bar" 3.
Definition Keys_eventKeyTwoPartsCheckPositiveNumber : bool := number_is (EventKey2 "POST" "/foo/bar" "1") "1" true true 1 false.
Definition Keys_eventKeyTwoPartsCheckNegativeNumber : bool := number_is (EventKey2 "POST" "/foo/bar" "-1") "-1" true true 1 true.
Definition Keys_eventKeyTwoPartsCheckInvalidNumber : bool := number_is (EventKey2 "POST" "/foo/bar" "invalid") "invalid" true false 0 false.
Definition Keys_eventKeyThreePartsCheckPositiveNumber : bool :=
  number_is (EventKey3 "myClientEnpointId" "POST" "/foo/bar" "invalid") "invalid" true false 0 false.
Definition Keys_eventKeyThreePartsCheckNegativeNumber : bool :=
  number_is (EventKey3 "myClientEnpointId" "POST" "/foo/bar" "invalid") "invalid" true false 0 false.
Definition Keys_eventKeyThreePartsCheckInvalidNumber : bool :=
  number_is (EventKey3 "myClientEnpointId" "POST" "/foo/bar" "invalid") "invalid" true false 0 false.
(** The test makes keys of data, not of events, but for the first one. *)
Definition Keys_eventKeyTwoPartsPresence : bool := checks
  [event_key_is (EventKey2 "POST" "/foo/bar" "1") false true true; data_key_is (DataKey3 "POST" "/foo/bar" "") false false false;
   data_key_is (DataKey3 "" "" "1") false false false; data_key_is (DataKey3 "" "" "") true false true].
Definition Keys_eventKeyThreePartsPresence : bool := checks
  [event_key_is (EventKey3 "myClientEndpointId" "POST" "/foo/bar" "1") false true true;
   event_key_is (EventKey3 "myClientEndpointId" "POST" "/foo/bar" "") false false true;
   event_key_is (EventKey3 "" "" "" "1") false false false; event_key_is (EventKey3 "" "" "" "") true false true].
Definition Keys_eventKeyTwoPartsAsString : bool :=
  same (EventKey_asString (EventKey2 "POST" "/foo/bar" "1")) "requestMethod: POST | requestUri: /foo/bar | eventNumber: 1".
Definition Keys_eventKeyThreePartsAsString : bool :=
  same (EventKey_asString (EventKey3 "myClientEndpointId" "POST" "/foo/bar" "1"))
    "clientEndpointId: myClientEndpointId | requestMethod: POST | requestUri: /foo/bar | eventNumber: 1".
Definition Keys_eventLocationKeyTwoPartsGetters : bool :=
  let k := EventLocationKey2 "POST" "/foo/bar" "1" "/requestBody" in
  parts_are (ek_data (elk_event k)) "" "POST" "/foo/bar" "POST#/foo/bar" 2 && same (number_ (elk_event k)) "1" && same (path_ k) "/requestBody".
Definition Keys_eventLocationKeyThreePartsGetters : bool :=
  let k := EventLocationKey3 "myClientEndpointId" "POST" "/foo/bar" "1" "/requestBody" in
  parts_are (ek_data (elk_event k)) "myClientEndpointId" "POST" "/foo/bar" "myClientEndpointId#POST#/foo/bar" 3 &&
  same (number_ (elk_event k)) "1" && same (path_ k) "/requestBody".
Definition Keys_eventLocationKeyTwoPartsPresence : bool := checks
  [elk_checkSelection (EventLocationKey3 "myClientEndpointId" "POST" "/foo/bar" "1" "/requestBody");
   elk_checkSelection (EventLocationKey3 "myClientEndpointId" "POST" "/foo/bar" "1" "");
   negb (elk_checkSelection (EventLocationKey3 "myClientEndpointId" "POST" "/foo/bar" "" "/requestBody"));
   elk_checkSelection (EventLocationKey3 "myClientEndpointId" "POST" "/foo/bar" "" "")].

(** ** [DataPart_test] *)

(** The parts between the boundaries: the lines of the header, an empty line and the
    data. *)
Definition crlf : string := str [cz 13; cz 10].
Fixpoint part_events (fuel : nat) (s : string) : list mp_event :=
  match fuel with
  | O => []
  | S fuel =>
      match find_sub crlf s with
      | None => []
      | Some O => [MPData (stake (String.length s - 4) (sdrop 2 s))]
      | Some i => match find_sub ": " (stake i s) with
                  | Some k => MPHeader (stake k s) (sdrop (k + 2) (stake i s)) :: part_events fuel (sdrop (i + 2) s)
                  | None => part_events fuel (sdrop (i + 2) s)
                  end
      end
  end.
Fixpoint parts_of (fuel : nat) (mark s : string) : list mp_event :=
  match fuel with
  | O => []
  | S fuel =>
      match find_sub mark s with
      | None => []
      | Some i => (if (i =? 0)%nat then [] else part_events (S i) (sdrop 2 (stake i s))) ++ parts_of fuel mark (sdrop (i + String.length mark) s)
      end
  end.
Definition scan_parts (boundary content : string) : list mp_event := parts_of (S (String.length content)) ("--" +:+ boundary) content.

Definition FooBarJson : json := (obj [("foo", JString "bar")]).
Definition HelloWorld : string := "hello world !".
Definition HelloWorldAsHexString : string := "0x68656c6c6f20776f726c642021".
Definition MultipartAsHexString : string := "0x2d2d374d41345957786b54725a753067570d0a436f6e74656e742d547970653a206170706c69636174696f6e2f6a736f6e0d0a0d0a7b22666f6f223a22626172227d0d0a2d2d374d41345957786b54725a753067570d0a436f6e74656e742d547970653a206170706c69636174696f6e2f6f637465742d73747265616d0d0a0d0a268001260d0a2d2d374d41345957786b54725a753067572d2d".
Definition IpAsHexString : string := "0xc0a80001".
Definition MultipartJson : json := (obj [("multipart.1", obj [("content", obj [("foo", JString "bar")]); ("headers", obj [("Content-Type", JString "application/json")])]); ("multipart.2", obj [("content", JString "0x26800126"); ("headers", obj [("Content-Type", JString "application/octet-stream")])])]).

Definition dp_text_ : DataPart := assign HelloWorld DataPart_empty.
Definition dp_binary_ : DataPart := (assignFromHex IpAsHexString DataPart_empty).2.
Definition dp_document : DataPart := assign (dump FooBarJson) DataPart_empty.
Definition dp_multipart_ : DataPart := assign (dump FooBarJson) DataPart_empty.
(** [decode] under a content type, the document and [isJson()]. *)
Definition decodes (type : string) (dp : DataPart) (j : json) (is_json : bool) : bool :=
  match decode scan_parts [("content-type", type)] dp with
  | Val d => json_eqb (dp_json_ d) j && Bool.eqb (is_json_ d) is_json
  | Throw _ => false
  end.

Definition DataPart_DecodeText : bool := decodes "text/plain" dp_text_ (JString HelloWorld) false.
Definition DataPart_DecodeBinary : bool := decodes "application/octet-stream" dp_binary_ (JString IpAsHexString) false.
Definition DataPart_DecodeBinaryPrintable : bool :=
  decodes "application/octet-stream" (assignFromHex HelloWorldAsHexString dp_binary_).2 (JString HelloWorld) false.
Definition DataPart_DecodeJson : bool := decodes "application/json" dp_document FooBarJson true.
Definition DataPart_AsAsciiStringReadable : bool := same (asAsciiString_dp (assignFromHex HelloWorldAsHexString dp_binary_).2) HelloWorld.
Definition DataPart_AsAsciiStringNonReadable : bool := same (asAsciiString_dp (assignFromHex IpAsHexString dp_binary_).2) "....".
Definition DataPart_DecodeMultipart : bool :=
  decodes "multipart/related; boundary=7MA4YWxkTrZu0gW" (assignFromHex MultipartAsHexString dp_multipart_).2 MultipartJson true.
Definition DataPart_DecodeMultipartEmptyBoundary : bool :=
  decodes "multipart/related; boundary=" (assignFromHex MultipartAsHexString dp_multipart_).2 JNull false.

(** ** [TypeConverter_test] *)

Definition test_vars : gmap string string := list_to_map [("var1", "value1"); ("var2", "value2")].
Definition test_vault_entries : gmap string json := {["gvar1" := JString "gvalue1"]}.
Definition test_json : json := (obj [("path_to_basics", obj [("string", JString "hello"); ("unsigned", JUint 111); ("integer", JInt (-111)); ("float", float 314 (-2)); ("boolean", JBool true)]); ("path_to_object", obj [("foo", JUint 1); ("bar", JUint 2)])]).

Definition Conversion_SearchReplaceAll : bool :=
  bool_decide (searchReplaceAll "var=@{var}; var=@{var}" "@{var}" "value" = Some "var=value; var=value").
Definition Conversion_ReplaceVariables : bool :=
  gives (replaceVariables "var1=@{var1}; var2=@{var2}; var1var2=@{var1}@{var2}; gvar1=@{gvar1}"
    (list_to_map [("@{var1}", "var1"); ("@{var2}", "var2"); ("@{gvar1}", "gvar1")]) test_vars test_vault_entries)
    "var1=value1; var2=value2; var1var2=value1value2; gvar1=gvalue1".

(** All the getters, in the order of the tests, and the text of the converter after them:
    each expected value with its success. *)
Definition converts (t : TypeConverter) (s : string) (i : bool * Z) (u : bool * Z) (f : bool * double) (b : bool) (repr : string) : bool :=
  match getString t with
  | Throw _ => false
  | Val (t, s') =>
      let '(t, oi, vi) := getInteger ub t in
      let '(t, ou, vu) := getUnsigned ub t in
      let '(t, of_, vf) := getFloat t in
      let '(t, ob, vb) := getBoolean t in
      let '(oj, vj) := getObject t in
      checks [same s' s; Bool.eqb oi i.1; vi =? i.2; Bool.eqb ou u.1; vu =? u.2; Bool.eqb of_ f.1; d_eqb vf f.2; ob; Bool.eqb vb b;
        negb oj; json_empty vj; gives (TypeConverter_asString t) repr]
  end.
Definition pi_314 : double := d_of_decimal 314 (-2).

Definition Conversion_SetString : bool :=
  converts (setString "hello" TypeConverter_new) "hello" (false, 0) (false, 0) (false, d_of_Z 0) true
    "NativeType (String = 0, Integer, Unsigned, Float, Boolean, Object): 0 | STRING: hello | Integer: 0 | Unsigned: 0 | Float: 0 | Boolean: true | Object: null".
Definition Conversion_SetStringReplacingVariables : bool :=
  match setStringReplacingVariables "@{var1}" {["@{var1}" := "var1"]} test_vars test_vault_entries TypeConverter_new with
  | Val t => match getString t with Val (_, s) => same s "value1" | Throw _ => false end
  | Throw _ => false
  end.
Definition Conversion_SetInteger : bool :=
  converts (setInteger (-111) TypeConverter_new) "-111" (true, -111) (true, to_u64 (-111)) (true, d_of_Z (-111)) true
    "NativeType (String = 0, Integer, Unsigned, Float, Boolean, Object): 1 | String: -111 | INTEGER: -111 | Unsigned: 18446744073709551505 | Float: -111 | Boolean: true | Object: null".
Definition Conversion_SetUnsigned : bool :=
  converts (setUnsigned 111 TypeConverter_new) "111" (true, 111) (true, 111) (true, d_of_Z 111) true
    "NativeType (String = 0, Integer, Unsigned, Float, Boolean, Object): 2 | String: 111 | Integer: 111 | UNSIGNED: 111 | Float: 111 | Boolean: true | Object: null".
Definition Conversion_SetFloat : bool :=
  converts (setFloat pi_314 TypeConverter_new) "3.14" (true, 3) (true, 3) (true, pi_314) true
    "NativeType (String = 0, Integer, Unsigned, Float, Boolean, Object): 3 | String: 3.14 | Integer: 3 | Unsigned: 3 | FLOAT: 3.14 | Boolean: true | Object: null".
Definition Conversion_SetBoolean : bool :=
  converts (setBoolean true TypeConverter_new) "true" (true, 1) (true, 1) (true, d_of_Z 1) true
    "NativeType (String = 0, Integer, Unsigned, Float, Boolean, Object): 4 | String: true | Integer: 1 | Unsigned: 1 | Float: 1 | BOOLEAN: true | Object: null".
(** One converter is used for all the paths, as in the test. *)
Definition Conversion_SetObject : bool :=
  let t := (setObject test_json "/path_to_basics/string" TypeConverter_new).2 in
  match getString t with
  | Throw _ => false
  | Val (t, s) =>
      let t := (setObject test_json "/path_to_basics/unsigned" t).2 in
      let '(t, ou, u) := getUnsigned ub t in
      let t := (setObject test_json "/path_to_basics/integer" t).2 in
      let '(t, oi, i) := getInteger ub t in
      let t := (setObject test_json "/path_to_basics/float" t).2 in
      let '(t, of_, f) := getFloat t in
      let t := (setObject test_json "/path_to_basics/boolean" t).2 in
      let '(t, ob, b) := getBoolean t in
      let t := (setObject test_json "/path_to_object" t).2 in
      let '(t, oi2, _) := getInteger ub t in
      let '(t, ou2, _) := getUnsigned ub t in
      let '(t, of2, _) := getFloat t in
      let '(t, ob2, _) := getBoolean t in
      let '(oj, j) := getObject t in
      checks [same s "hello"; ou; u =? 111; oi; i =? -111; of_; d_eqb f pi_314; ob; b; negb oi2; negb ou2; negb of2; negb ob2; oj;
        same (dump j) (quoted "{'bar':2,'foo':1}");
        gives (TypeConverter_asString t) ("NativeType (String = 0, Integer, Unsigned, Float, Boolean, Object): 5 | String:  | Integer: 0 | Unsigned: 0 | Float: 0 | Boolean: false | OBJECT: " +:+ quoted "{'bar':2,'foo':1}")]
  end.
Definition Conversion_SetObjectMissingPath : bool :=
  let '(result, t) := setObject test_json "/missing/path" TypeConverter_new in
  match getString t with Val (_, s) => negb result && same s "" | Throw _ => false end.


(** ** They pass *)

Definition model_tests : list bool :=
  [Functions_calculateStringKey_k1k2k3; Functions_calculateStringKey_k1k2; Functions_aggregateKeyPart_TwoArguments;
   Functions_aggregateKeyPart_OneArguments; Functions_FooBarQueryParameters; Functions_ExtractQueryParameters; Functions_EncodedQueryParameter;
   Functions_PrintableStringAsHex; Functions_NonPrintableStringAsHex; Functions_EmptyInputStringAsHex; Functions_ValidHexStringToOctetStream;
   Functions_ValidHexStringToOctetStreamWith0xPrefix; Functions_InvalidHexStringToOctetStreamError1; Functions_InvalidHexStringToOctetStreamError2;
   Functions_InvalidHexStringOddSize; Functions_AsAsciiString; Functions_EmptyAsAsciiString; Functions_JsonConstraintSuccess;
   Functions_JsonConstraintFail; Functions_JsonConstraintFailByValue; Functions_JsonConstraintArrayUnordered;
   Functions_JsonConstraintNestedArrayUnordered; Functions_String2uint64andSignError; Functions_String2uint64andSignPositive;
   Functions_String2uint64andSignNegative; Functions_FixMetricsNameEmptyString; Functions_FixMetricsNameOnlyValidCharacters;
   Functions_FixMetricsNameInvalidCharacters; Functions_FixMetricsNameMixedCharacters; Keys_dataKeyTwoPartsGetters; Keys_dataKeyThreePartsGetters;
   Keys_dataKeyTwoPartsPresence; Keys_dataKeyThreePartsPresence; Keys_dataKeyTwoPartsKeyToJson; Keys_dataKeyThreePartsKeyToJson;
   Keys_dataKeyWithProvisionUri; Keys_eventKeyDataKeyConstructorTwoPartsGetters; Keys_eventKeyTwoPartsGetters; Keys_eventKeyThreePartsGetters;
   Keys_eventKeyTwoPartsCheckPositiveNumber; Keys_eventKeyTwoPartsCheckNegativeNumber; Keys_eventKeyTwoPartsCheckInvalidNumber;
   Keys_eventKeyThreePartsCheckPositiveNumber; Keys_eventKeyThreePartsCheckNegativeNumber; Keys_eventKeyThreePartsCheckInvalidNumber;
   Keys_eventKeyTwoPartsPresence; Keys_eventKeyThreePartsPresence; Keys_eventKeyTwoPartsAsString; Keys_eventKeyThreePartsAsString;
   Keys_eventLocationKeyTwoPartsGetters; Keys_eventLocationKeyThreePartsGetters; Keys_eventLocationKeyTwoPartsPresence; DataPart_DecodeText;
   DataPart_DecodeBinary; DataPart_DecodeBinaryPrintable; DataPart_DecodeJson; DataPart_AsAsciiStringReadable; DataPart_AsAsciiStringNonReadable;
   DataPart_DecodeMultipart; DataPart_DecodeMultipartEmptyBoundary; Conversion_SearchReplaceAll; Conversion_ReplaceVariables; Conversion_SetString;
   Conversion_SetStringReplacingVariables; Conversion_SetInteger; Conversion_SetUnsigned; Conversion_SetFloat; Conversion_SetBoolean;
   Conversion_SetObject; Conversion_SetObjectMissingPath].

(** The functions, the keys, the bodies and the conversions of the model give what the tests of
    the repository expect of the code. *)
Theorem model_tests_pass : forallb id model_tests = true /\ length model_tests = 70%nat.
Proof. vm_compute. split; reflexivity. Qed.
