(* ===== verification/StorageTests.v ===== *)
(** The tests of the storage of the repository ([ut/model/Storage]: mock data, histories and
    events of the server and of the client, vault, streams and waits), each one as a
    definition that says whether the model gives what the test expects, and the theorem
    that it does. *)
From S2P Require Import Prelude Std Double Functions Query Json JsonModel JsonReader External Regex Keys DataPart MockEvents MockData TypeConverter Vault Reports AdminServer AdminSchemas Conformance.
From stdpp Require Import options.
Import Bench.
#[local] Open Scope Z_scope.

(** ** The fixtures *)

Definition test_request_headers : header_map :=
  [("content-type", "application/json"); ("request-header1", "req-h1"); ("request-header2", "req-h2")].
Definition test_response_headers : header_map :=
  [("content-type", "application/json"); ("response-header1", "res-h1"); ("response-header2", "res-h2")].
(** The time of the tests, which they do not predict. *)
Definition now : Z := 1653827182451878.

(** An event of the server in a state, with the origin of a virtual one. *)
Definition server_event_in (state : string) (delay : Z) (method uri : string) : option MockServerEvent :=
  match MockServerEvent_load no_parts "previous-state" state now 201 test_request_headers test_response_headers
          (DataPart_of (quoted "{'foo':1}")) (quoted "{'bar':2}") 111 delay method uri with
  | Val (e, _) => Some e
  | Throw _ => None
  end.
Definition load_server (k : DataKey) (state : string) (delay : Z) (history : bool) (method uri : string) (d : MockData MockServerEvent)
    : MockData MockServerEvent :=
  match server_event_in state delay method uri with Some e => data_loadEvent k e history d | None => d end.
Definition key1 : DataKey := DataKey2 "DELETE" "/the/uri/111".
Definition key2 : DataKey := DataKey2 "DELETE" "/the/uri/222".
Definition MockServerData_test : MockData MockServerEvent :=
  load_server key2 "state" 20 true "POST" "/the/uri/which/causes/virtual" (load_server key2 "state" 20 true "" ""
    (load_server key1 "state" 20 true "POST" "/the/uri/which/causes/virtual" (load_server key1 "state" 20 true "" "" MockData_empty))).
Definition real_event : json := (obj [("previousState", JString "previous-state"); ("receptionTimestampUs", JUint 1653827182451878); ("requestBody", obj [("foo", JUint 1)]); ("requestHeaders", obj [("content-type", JString "application/json"); ("request-header1", JString "req-h1"); ("request-header2", JString "req-h2")]); ("responseBody", obj [("bar", JUint 2)]); ("responseDelayMs", JUint 20); ("responseHeaders", obj [("content-type", JString "application/json"); ("response-header1", JString "res-h1"); ("response-header2", JString "res-h2")]); ("responseStatusCode", JUint 201); ("recvseq", JUint 111); ("state", JString "state")]).
Definition virtual_event (uri : string) : json :=
  json_set "virtualOrigin" (obj [("method", JString "POST"); ("uri", JString uri)]) real_event.

Definition client_event_in (state : string) (delay timeout : Z) : option MockClientEvent :=
  match MockClientEvent_load no_parts "scenario1" "previous-state" state now now 201 test_request_headers test_response_headers
          (quoted "{'foo':1}") (DataPart_of (quoted "{'bar':2}")) 111 100 delay timeout with
  | Val (e, _) => Some e
  | Throw _ => None
  end.
Definition load_client (k : DataKey) (state : string) (delay timeout : Z) (history : bool) (d : MockData MockClientEvent) : MockData MockClientEvent :=
  match client_event_in state delay timeout with Some e => data_loadEvent k e history d | None => d end.
Definition client_key1 : DataKey := DataKey3 "myClientEndpointId" "DELETE" "/the/uri/111".
Definition client_key2 : DataKey := DataKey3 "myClientEndpointId" "DELETE" "/the/uri/222".
Definition MockClientData_test : MockData MockClientEvent :=
  load_client client_key2 "state" 20 2000 true (load_client client_key1 "state" 20 2000 true MockData_empty).
Definition real_client_event : json := (obj [("clientProvisionId", JString "scenario1"); ("previousState", JString "previous-state"); ("sendingTimestampUs", JUint 1653827182451878); ("receptionTimestampUs", JUint 1653827182451878); ("requestBody", obj [("foo", JUint 1)]); ("requestHeaders", obj [("content-type", JString "application/json"); ("request-header1", JString "req-h1"); ("request-header2", JString "req-h2")]); ("responseBody", obj [("bar", JUint 2)]); ("requestDelayMs", JUint 20); ("timeoutMs", JUint 2000); ("responseHeaders", obj [("content-type", JString "application/json"); ("response-header1", JString "res-h1"); ("response-header2", JString "res-h2")]); ("responseStatusCode", JUint 201); ("sendseq", JUint 111); ("sequence", JUint 100); ("state", JString "state")]).

(** ** Expectations *)

Section Expect.
Context `{EventType E}.

(** The success of [clear] and [somethingDeleted]; the data goes on. *)
Fixpoint clears (l : list (EventKey * bool * bool)) (d : MockData E) : bool :=
  match l with
  | [] => true
  | (k, ok, something) :: l => let '(r, s, d) := clear k d in Bool.eqb r ok && Bool.eqb s something && clears l d
  end.
Definition query_is (k : EventLocationKey) (j : json) (valid : bool) (d : MockData E) : bool :=
  let '(o, v) := asJsonString k d in parses_to o j && Bool.eqb v valid.
(** The document only. *)
Definition query_text_is (k : EventLocationKey) (j : json) (d : MockData E) : bool := parses_to (asJsonString k d).1 j.
Definition event_is (k : EventKey) (j : json) (d : MockData E) : bool :=
  match data_getEvent k d ≫= fun l => heap_ d !! l with Some e => json_eqb (json_ (ev_base e)) j | None => false end.
Definition no_event (k : EventKey) (d : MockData E) : bool := negb (some (data_getEvent k d)).
Definition state_is (k : DataKey) (s : string) (d : MockData E) : bool :=
  match findLastRegisteredRequestState k d with Some (_, s', _) => same s' s | None => false end.
(** The keys are in the unspecified order of the map of the library: here in any order. *)
Definition either {A} (f : A -> bool) (a b : A) : bool := f a || f b.
End Expect.

Definition summary_doc (l : list json) (total : Z) : json :=
  obj [("displayedKeys", obj [("amount", JUint 2); ("list", arr l)]); ("totalEvents", JUint total); ("totalKeys", JUint 2)].
#[local] Existing Instance ReportsExamples.by_time.
(** [getSequence(0, 0, method, rgx)] *)
Definition uri_search (rgx : string) : option (string -> bool) :=
  match regex_assign rgx with Val r => Some (fun uri => regex_search uri r) | Throw _ => None end.
Definition server_sequence (method : string) (rgx : option (string -> bool)) (d : MockData MockServerEvent) : outcome string :=
  getSequence (server_event_entries ub) 0 0 method rgx d.
Definition client_sequence (method : string) (rgx : option (string -> bool)) (d : MockData MockClientEvent) : outcome string :=
  getSequence (client_event_entries ub) 0 0 method rgx d.
Definition entries_are (o : outcome string) (expected : list json -> bool) : bool :=
  match o with Val t => match read_json t with Some (JArray l) => expected l | _ => false end | Throw _ => false end.
Definition direction (s : string) (j : json) : bool := match json_find "direction" j with Some (JString t) => same t s | _ => false end.

(** ** [MockServerData_test] *)

Definition ServerData_ClearFails : bool := clears
  [(EventKey2 "PUT" "/the/uri" "1", true, false); (EventKey2 "POST" "/no/event/with/this/uri" "1", true, false);
   (EventKey2 "POST" "" "", false, false); (EventKey2 "" "/the/uri" "", false, false); (EventKey2 "" "" "1", false, false);
   (EventKey2 "DELETE" "/the/uri/111" "invalid number", false, false); (EventKey2 "DELETE" "/the/uri/111" "-invalid number", false, false);
   (EventKey2 "DELETE" "/the/uri/111" "", true, true)] MockServerData_test.
Definition ServerData_ClearEverything : bool := clears [(EventKey2 "" "" "", true, true)] MockServerData_test.
Definition ServerData_ClearSucceed : bool := clears [(EventKey2 "DELETE" "/the/uri/111" "1", true, true)] MockServerData_test.
Definition ServerData_AsJsonString : bool := query_text_is (EventLocationKey2 "DELETE" "/the/uri/111" "1" "") real_event MockServerData_test.
Definition ServerData_AsJsonStringBadKey : bool := query_is (EventLocationKey2 "" "" "1" "/foo/bar") (arr []) false MockServerData_test.
Definition ServerData_AsJsonStringBadNumber : bool :=
  query_is (EventLocationKey2 "DELETE" "/the/uri/111" "invalid" "") (arr []) false MockServerData_test.
Definition ServerData_AsJsonStringNotFoundByKey : bool :=
  query_is (EventLocationKey2 "DELETE" "/the/uri/000" "" "") (arr []) true MockServerData_test.
Definition ServerData_AsJsonStringNotFoundByNumber : bool :=
  query_is (EventLocationKey2 "DELETE" "/the/uri/111" "30" "") (arr []) true MockServerData_test.
(** Only the text is parsed. *)
Definition ServerData_AsJsonStringNoNumber : bool :=
  match (asJsonString (EventLocationKey2 "DELETE" "/the/uri/111" "" "") MockServerData_test).1 with Val t => some (read_json t) | Throw _ => false end.
Definition ServerData_AsJsonStringWithEventPath : bool :=
  match json_at "/requestBody" real_event with
  | Val j => query_text_is (EventLocationKey2 "DELETE" "/the/uri/111" "1" "/requestBody") j MockServerData_test
  | Throw _ => false
  end.
Definition ServerData_Summary : bool :=
  let entry uri := obj [("amount", JUint 2); ("method", JString "DELETE"); ("uri", JString uri)] in
  either (fun l => parses_to (summary "" MockServerData_test) (summary_doc l 4))
    [entry "/the/uri/222"; entry "/the/uri/111"] [entry "/the/uri/111"; entry "/the/uri/222"].
Definition ServerData_GetMockServerEvent : bool :=
  event_is (EventKey2 "DELETE" "/the/uri/222" "-1") (virtual_event "/the/uri/which/causes/virtual") MockServerData_test.
Definition ServerData_GetMockServerEventIncompleteKey : bool := no_event (EventKey2 "DELETE" "" "") MockServerData_test.
Definition ServerData_GetMockServerEventInvalidNumber : bool := no_event (EventKey2 "DELETE" "/the/uri/222" "invalid") MockServerData_test.
Definition ServerData_GetJsonOrAllAsJsonString : bool :=
  let entry uri := obj [("method", JString "DELETE"); ("events", arr [real_event; virtual_event "/the/uri/which/causes/virtual"]); ("uri", JString uri)] in
  either (fun l => json_eqb (data_getJson MockServerData_test) (arr l) && query_is (EventLocationKey2 "" "" "" "") (arr l) true MockServerData_test)
    [entry "/the/uri/222"; entry "/the/uri/111"] [entry "/the/uri/111"; entry "/the/uri/222"].
Definition put_key : DataKey := DataKey2 "PUT" "/the/put/uri".
Definition ServerData_FindLastRegisteredRequestState : bool :=
  let d := load_server put_key "most_recent_state" 20 true "" "" MockServerData_test in
  state_is put_key "most_recent_state" d && state_is (DataKey2 "DELETE" "/the/uri/222") "state" d.
Definition ServerData_OverwriteLastEvent : bool :=
  state_is put_key "most_recent_state" (load_server put_key "most_recent_state" 22 false "" ""
    (load_server put_key "last_recent_state" 20 true "" "" MockServerData_test)).
Definition ServerData_DefaultStateInitial : bool := state_is put_key "initial" (load_server put_key "" 20 true "" "" MockServerData_test).
Definition ServerData_SequenceEmpty : bool := gives (server_sequence "" None MockData_empty) "[]".
Definition ServerData_SequenceChronologicalOrder : bool :=
  entries_are (server_sequence "" None MockServerData_test) (fun l => (length l =? 4)%nat && forallb (direction "recv") l).
Definition ServerData_SequenceFilterByMethod : bool := gives (server_sequence "POST" None MockServerData_test) "[]".
Definition ServerData_SequenceFilterByUriRegex : bool :=
  some (uri_search "111") && entries_are (server_sequence "" (uri_search "111") MockServerData_test) (fun l => (length l =? 2)%nat).

(** ** [MockClientData_test] *)

Definition ClientData_ClearFails : bool := clears
  [(EventKey3 "myClientEndpointId" "PUT" "/the/uri" "1", true, false);
   (EventKey3 "myClientEndpointId" "POST" "/no/event/with/this/uri" "1", true, false);
   (EventKey3 "myClientEndpointId" "POST" "" "", false, false); (EventKey3 "myClientEndpointId" "" "/the/uri" "", false, false);
   (EventKey3 "myClientEndpointId" "" "" "1", false, false);
   (EventKey3 "myClientEndpointId" "DELETE" "/the/uri/111" "invalid number", false, false);
   (EventKey3 "myClientEndpointId" "DELETE" "/the/uri/111" "", true, true)] MockClientData_test.
Definition ClientData_ClearEverything : bool := clears [(EventKey3 "" "" "" "", true, true)] MockClientData_test.
Definition ClientData_ClearSucceed : bool := clears [(EventKey3 "myClientEndpointId" "DELETE" "/the/uri/111" "1", true, true)] MockClientData_test.
Definition ClientData_AsJsonString : bool :=
  query_is (EventLocationKey3 "myClientEndpointId" "DELETE" "/the/uri/111" "1" "") real_client_event true MockClientData_test.
Definition ClientData_AsJsonStringBadKey : bool := query_is (EventLocationKey3 "" "" "" "1" "/foo/bar") (arr []) false MockClientData_test.
Definition ClientData_AsJsonStringBadNumber : bool :=
  query_is (EventLocationKey3 "myClientEndpointId" "DELETE" "/the/uri/111" "invalid" "") (arr []) false MockClientData_test.
Definition ClientData_AsJsonStringNotFoundByKey : bool :=
  query_is (EventLocationKey3 "myClientEndpointId" "DELETE" "/the/uri/000" "" "") (arr []) true MockClientData_test.
Definition ClientData_AsJsonStringNotFoundByNumber : bool :=
  query_is (EventLocationKey3 "myClientEndpointId" "DELETE" "/the/uri/111" "30" "") (arr []) true MockClientData_test.
Definition ClientData_AsJsonStringNoNumber : bool :=
  match (asJsonString (EventLocationKey3 "myClientEndpointId" "DELETE" "/the/uri/111" "" "") MockClientData_test).1 with
  | Val t => some (read_json t) | Throw _ => false end.
Definition ClientData_AsJsonStringWithEventPath : bool :=
  match json_at "/requestBody" real_client_event with
  | Val j => query_text_is (EventLocationKey3 "myClientEndpointId" "DELETE" "/the/uri/111" "1" "/requestBody") j MockClientData_test
  | Throw _ => false
  end.
Definition ClientData_Summary : bool :=
  let entry uri := obj [("amount", JUint 1); ("clientEndpointId", JString "myClientEndpointId"); ("method", JString "DELETE"); ("uri", JString uri)] in
  either (fun l => parses_to (summary "" MockClientData_test) (summary_doc l 2))
    [entry "/the/uri/222"; entry "/the/uri/111"] [entry "/the/uri/111"; entry "/the/uri/222"].
Definition ClientData_GetMockClientEvent : bool :=
  event_is (EventKey3 "myClientEndpointId" "DELETE" "/the/uri/222" "-1") real_client_event MockClientData_test.
Definition ClientData_GetMockClientEventIncompleteKey : bool := no_event (EventKey3 "myClientEndpointId" "DELETE" "" "") MockClientData_test.
Definition ClientData_GetMockClientEventInvalidNumber : bool :=
  no_event (EventKey3 "myClientEndpointId" "DELETE" "/the/uri/222" "invalid") MockClientData_test.
Definition ClientData_GetJsonOrAllAsJsonString : bool :=
  let entry uri := obj [("clientEndpointId", JString "myClientEndpointId"); ("method", JString "DELETE"); ("events", arr [real_client_event]);
                        ("uri", JString uri)] in
  either (fun l => json_eqb (data_getJson MockClientData_test) (arr l) && query_is (EventLocationKey3 "" "" "" "" "") (arr l) true MockClientData_test)
    [entry "/the/uri/222"; entry "/the/uri/111"] [entry "/the/uri/111"; entry "/the/uri/222"].
Definition client_put_key : DataKey := DataKey3 "myClientEndpointId" "PUT" "/the/put/uri".
Definition ClientData_FindLastRegisteredRequestState : bool :=
  let d := load_client client_put_key "most_recent_state" 20 2000 true MockClientData_test in
  state_is client_put_key "most_recent_state" d && state_is (DataKey3 "myClientEndpointId" "DELETE" "/the/uri/222") "state" d.
Definition ClientData_OverwriteLastEvent : bool :=
  state_is client_put_key "most_recent_state" (load_client client_put_key "most_recent_state" 20 2000 false
    (load_client client_put_key "last_recent_state" 22 2222 true MockClientData_test)).
Definition ClientData_DefaultStateInitial : bool :=
  state_is client_put_key "initial" (load_client client_put_key "" 22 2222 true MockClientData_test).
Definition ClientData_SequenceEmpty : bool := gives (client_sequence "" None MockData_empty) "[]".
Definition ClientData_SequenceInterleaved : bool :=
  entries_are (client_sequence "" None MockClientData_test)
    (fun l => (length l =? 4)%nat && existsb (direction "send") l && existsb (direction "recv") l).
Definition ClientData_SequenceFilterByMethod : bool := gives (client_sequence "POST" None MockClientData_test) "[]".
Definition ClientData_SequenceFilterByUriRegex : bool :=
  some (uri_search "111") && entries_are (client_sequence "" (uri_search "111") MockClientData_test) (fun l => (length l =? 2)%nat).

(** ** [MockServerEventsHistory_test] and [MockClientEventsHistory_test] *)

(** A history with the events its locations point to. *)
Definition push_event {E} (e : option E) (h : list E * MockEventsHistory) : list E * MockEventsHistory :=
  match e with Some e => (h.1 ++ [e], history_loadEvent (length h.1) true h.2) | None => h end.
Definition server_history : list MockServerEvent * MockEventsHistory :=
  push_event (server_event_in "state" 20 "POST" "/the/uri/which/causes/virtual2")
    (push_event (server_event_in "state" 20 "POST" "/the/uri/which/causes/virtual1") (push_event (server_event_in "state" 20 "" "") ([], MockEventsHistory_new key2))).
Definition history_key_is (k : DataKey) (endpoint method uri key : string) : bool :=
  same (client_endpoint_id_ k) endpoint && same (method_ k) method && same (uri_ k) uri && same (key_ k) key.
Definition history_doc (l : list json) : json := obj [("method", JString "DELETE"); ("events", arr l); ("uri", JString "/the/uri/222")].

Definition ServerHistory_SizeKeyMethodAndUri : bool :=
  (history_size server_history.2 =? 3) && history_key_is (data_key_ server_history.2) "" "DELETE" "/the/uri/222" "DELETE#/the/uri/222".
Definition ServerHistory_RemoveVirtual1 : bool :=
  let h := (removeEvent 2 false server_history.2).2 in
  (history_size h =? 2) &&
  json_eqb (history_getJson server_history.1 h) (history_doc [real_event; virtual_event "/the/uri/which/causes/virtual2"]).
Definition ServerHistory_GetLastRegisteredRequestState : bool :=
  let h := push_event (server_event_in "latest_state" 20 "" "") server_history in
  (history_size h.2 =? 4) && bool_decide (getLastRegisteredRequestState h.1 h.2 = Some "latest_state").
Definition ServerHistory_RemoveFirstUsingReverse : bool :=
  let h := (removeEvent (history_size server_history.2) true server_history.2).2 in
  (history_size h =? history_size server_history.2 - 1) &&
  json_eqb (history_getJson server_history.1 h)
    (history_doc [virtual_event "/the/uri/which/causes/virtual1"; virtual_event "/the/uri/which/causes/virtual2"]).

Definition client_history : list MockClientEvent * MockEventsHistory :=
  push_event (client_event_in "state" 20 2000)
    (push_event (client_event_in "state" 20 2000) ([], MockEventsHistory_new (DataKey3 "myClientEndpoint" "DELETE" "/the/uri/222"))).
Definition ClientHistory_SizeKeyMethodAndUri : bool :=
  (history_size client_history.2 =? 2) &&
  history_key_is (data_key_ client_history.2) "myClientEndpoint" "DELETE" "/the/uri/222" "myClientEndpoint#DELETE#/the/uri/222".
Definition ClientHistory_GetLastRegisteredRequestState : bool :=
  let h := push_event (client_event_in "latest_state" 20 2000) client_history in
  (history_size h.2 =? 3) && bool_decide (getLastRegisteredRequestState h.1 h.2 = Some "latest_state").
Definition ClientHistory_RemoveFirstUsingReverse : bool :=
  let h := (removeEvent (history_size client_history.2) true client_history.2).2 in
  (history_size h =? history_size client_history.2 - 1) &&
  json_eqb (history_getJson client_history.1 h) (json_set "clientEndpointId" (JString "myClientEndpoint") (history_doc [real_client_event])).

(** ** [MockServerEvent_test] and [MockClientEvent_test] *)

Definition on_event {E} (e : option E) (expected : E -> bool) : bool := match e with Some e => expected e | None => false end.
Definition one_server_event : option MockServerEvent := server_event_in "state" 20 "POST" "/the/uri".
Definition header_is (k v : string) (h : header_map) : bool := bool_decide (headers_find k h = Some v).
Definition ServerEvent_Load : bool := on_event one_server_event (fun e => same (getState e) "state").
Definition ServerEvent_GetRequestHeaders : bool := on_event one_server_event (fun e =>
  forallb (fun kv => header_is kv.1 kv.2 (request_headers_ (se_base e))) test_request_headers).
Definition ServerEvent_GetRequestBody : bool := on_event one_server_event (fun e => json_eqb (request_body_ e) (obj [("foo", JUint 1)])).
Definition ServerEvent_GetJson : bool := on_event one_server_event (fun e => json_eqb (json_ (se_base e)) (virtual_event "/the/uri")).
Definition ServerEvent_SetSendingTimestampUs : bool := on_event one_server_event (fun e =>
  (se_sending_timestamp_us_ e =? 0) && (se_sending_timestamp_us_ (setSendingTimestampUs 1715000000100 e) =? 1715000000100)).
Definition ServerEvent_GetJsonWithSendingTimestamp : bool := on_event one_server_event (fun e =>
  match json_find "sendingTimestampUs" (json_ (se_base (setSendingTimestampUs 1715000000100 e))) with
  | Some j => json_eqb j (JUint 1715000000100) | None => false end).
Definition ServerEvent_GetJsonWithoutSendingTimestamp : bool := on_event one_server_event (fun e =>
  negb (some (json_find "sendingTimestampUs" (json_ (se_base e))))).

Definition one_client_event : option MockClientEvent := client_event_in "state" 20 2000.
Definition ClientEvent_Load : bool := on_event one_client_event (fun e => same (getState e) "state").
Definition ClientEvent_GetResponseHeaders : bool := on_event one_client_event (fun e =>
  forallb (fun kv => header_is kv.1 kv.2 (response_headers_ (ce_base e))) test_response_headers).
Definition ClientEvent_GetResponseBody : bool := on_event one_client_event (fun e => json_eqb (response_body_ e) (obj [("bar", JUint 2)])).
Definition ClientEvent_GetJson : bool := on_event one_client_event (fun e => json_eqb (json_ (ce_base e)) real_client_event).

(** ** [Vault_test] *)

Definition VaultConfiguration__Success : json := (obj [("variable_name_1", JString "variable_value_1"); ("variable_name_2", JString "variable_value_2")]).
Definition VaultConfiguration__BadSchema : json := (obj [("variable.with.dots", JString "value")]).
(** [getJson()] of the map. *)
Definition vault_json (v : Vault) : json := obj (map_to_list (v_map v)).
Definition entry_is (k : string) (j : json) (v : Vault) : bool := match v_tryGet k v with Some x => json_eqb x j | None => false end.
Definition loaded (l : list (string * json)) : Vault := foldl (fun v kj => (vault_load kj.1 kj.2 v).1) Vault_new l.
(** [clear()] of the map: whether there was something to delete. *)
Definition v_clear (v : Vault) : bool * Vault := (negb (bool_decide (v_map v = ∅)), mkVault ∅ (v_wakeups v) (v_sse v)).
Definition vault_valid : json -> bool := op_valid adminSchemas OpVault.

Definition Vault_LoadVaultSuccess : bool :=
  match loadJson vault_valid VaultConfiguration__Success Vault_new with
  | (v, Val ok) =>
      let '(existed, v1) := v_remove "variable_name_2" v in
      let v2 := (vault_load "another_variable" (JString "another_value") v1).1 in
      checks [ok; json_eqb (vault_json v) VaultConfiguration__Success; entry_is "variable_name_2" (JString "variable_value_2") v; existed;
        negb (some (v_tryGet "variable_name_2" v1)); entry_is "another_variable" (JString "another_value") v2;
        (v_clear v2).1; negb (v_clear (v_clear v2).2).1]
  | (_, Throw _) => false
  end.
Definition Vault_LoadVaultFail : bool :=
  match loadJson vault_valid VaultConfiguration__BadSchema Vault_new with
  | (v, Val ok) => negb ok && same (dump (vault_json v)) "{}"
  | (_, Throw _) => false
  end.
Definition Vault_GetVaultSchema : bool := json_eqb (js_json (op_schema adminSchemas OpVault)) (adminSchemas OpVault).
Definition typed_entries : list (string * json) :=
  [("str", JString "hello"); ("num", JInt 42); ("flt", float 314 (-2)); ("boo", JBool true); ("nul", JNull); ("arr", arr [JInt 1; JInt 2; JInt 3]);
   ("obj", obj [("a", JInt 1); ("b", JString "two")])].
Definition Vault_LoadJsonTypes : bool := forallb (fun kj => entry_is kj.1 kj.2 (loaded typed_entries)) typed_entries.
Definition Vault_JsonToString : bool := checks
  [gives (jsonToString (JString "hello")) "hello"; gives (jsonToString (JInt 42)) "42"; gives (jsonToString (float 314 (-2))) "3.14";
   gives (jsonToString (JBool true)) "true"; gives (jsonToString JNull) ""; gives (jsonToString (arr [JInt 1; JInt 2])) "[1,2]";
   gives (jsonToString (obj [("k", JString "v")])) (quoted "{'k':'v'}")].
Definition at_path (k path : string) (j : json) (v : Vault) : Vault := (loadAtPath k path j v).1.
Definition Vault_LoadAtPathCreatesObject : bool := entry_is "key1" (obj [("name", JString "alice")]) (at_path "key1" "/name" (JString "alice") Vault_new).
Definition Vault_LoadAtPathUpdatesExisting : bool :=
  entry_is "key1" (obj [("a", JUint 1); ("b", JUint 99)]) (at_path "key1" "/b" (JInt 99) (loaded [("key1", (obj [("a", JUint 1); ("b", JUint 2)]))])).
Definition Vault_LoadAtPathNestedPath : bool :=
  match v_tryGet "key1" (at_path "key1" "/x/y/z" (JString "deep") Vault_new) with
  | Some j => match json_at "/x/y/z" j with Val x => json_eqb x (JString "deep") | Throw _ => false end
  | None => false
  end.
Definition Vault_LoadAtPathOverwritesNonObject : bool :=
  entry_is "key1" (obj [("field", JUint 42)]) (at_path "key1" "/field" (JInt 42) (loaded [("key1", JString "just a string")])).
Definition Vault_LoadJsonWithMixedTypes : bool :=
  match loadJson vault_valid (obj [("str_key", JString "value"); ("num_key", JUint 123); ("obj_key", obj [("nested", JBool true)])]) Vault_new with
  | (v, Val ok) => checks [ok; entry_is "str_key" (JString "value") v; entry_is "num_key" (JInt 123) v; entry_is "obj_key" (obj [("nested", JBool true)]) v]
  | (_, Throw _) => false
  end.

(** ** [WaitManager_test] *)

(** What the thread that waits sees: the entry when it starts to wait and after the write
    of the other thread; the sleep of 20 milliseconds lets it start first. *)
Definition entry (s : string) : gmap string json := {["key1" := JString s]}.
Definition waits (target : json) (timeout : Z) (before : string) (after : list string) (expected : wait_result -> bool) : bool :=
  match wait_enter "key1" target timeout (entry before) JNull (mkWait 0 false) with
  | (inl r, _) => expected r
  | (inr t, w) =>
      let seen := (false, entry before) :: map (fun s => (false, entry s)) after in
      expected (wait_leave t seen (entry (List.last after before)) JNull w).1
  end.
Definition Wait_VaultAnyChange : bool := waits JNull 5000 "initial" ["changed"] (fun r =>
  wr_result r && json_eqb (wr_previous r) (JString "initial") && json_eqb (wr_value r) (JString "changed")).
Definition Wait_VaultSpecificValue : bool := waits (JString "target") 5000 "v1" ["target"] (fun r =>
  wr_result r && json_eqb (wr_value r) (JString "target")).
Definition Wait_VaultAlreadySatisfied : bool := waits (JString "target") 100 "target" [] (fun r =>
  wr_result r && json_eqb (wr_value r) (JString "target")).
Definition Wait_VaultTimeout : bool := waits JNull 50 "initial" [] (fun r => negb (wr_result r) && json_eqb (wr_previous r) (JString "initial")).
(** The threads that wait, one after the other. *)
Definition waiting (n : nat) : WaitManager :=
  Nat.iter n (fun w => (wait_enter "key1" (JString "never") 2000 ∅ JNull w).2) (mkWait 0 false).
Definition Wait_MaxWaitersEnforced : bool :=
  match (wait_enter "key1" (JString "never") 100 ∅ JNull (waiting (Z.to_nat MAX_WAITERS))).1 with
  | inl r => negb (wr_result r)
  | inr _ => false
  end.

(** ** [SseManager_test] *)

Definition notify (k : string) (j : json) (m : SseManager) : SseManager := (sse_notify k j m).1.
(** What the callback of a connection was given. *)
Definition received (id : Z) (m : SseManager) : list string := match connections_ m !! id with Some c => c_written c | None => [] end.
Definition has_text (s t : string) : bool := some (find_sub s t).
Definition Sse_NotifyMatchingKey : bool :=
  let '(id, m) := addConnection {["key1"]} SseManager_new in
  match received id (notify "key1" (JString "value1") m) with
  | [t] => checks [has_text (quoted "'key':'key1'") t; has_text (quoted "'value':'value1'") t; has_text ("event: vault-set" +:+ newline) t]
  | _ => false
  end.
Definition Sse_NotifyNonMatchingKeyIsFiltered : bool :=
  let '(id, m) := addConnection {["key1"]} SseManager_new in
  match received id (notify "other_key" (JString "val") m) with [] => true | _ => false end.
Definition Sse_EmptyFilterReceivesAll : bool :=
  let '(id, m) := addConnection ∅ SseManager_new in
  (length (received id (notify "b" (JInt 2) (notify "a" (JInt 1) m))) =? 2)%nat.
(** After its removal the connection is not there to be written to. *)
Definition Sse_RemoveConnectionStopsNotifications : bool :=
  let '(id, m) := addConnection ∅ SseManager_new in
  let m1 := notify "x" (JString "before") m in
  let m2 := notify "x" (JString "after") (removeConnection id m1) in
  (length (received id m1) =? 1)%nat && negb (some (connections_ m2 !! id)).
Definition Sse_ActiveConnections : bool :=
  let '(id1, m1) := addConnection ∅ SseManager_new in
  let '(id2, m2) := addConnection {["k"]} m1 in
  let m3 := removeConnection id1 m2 in
  checks [activeConnections SseManager_new =? 0; activeConnections m2 =? 2; activeConnections m3 =? 1; activeConnections (removeConnection id2 m3) =? 0].


(** ** They pass *)

Definition storage_tests : list bool :=
  [ServerData_ClearFails; ServerData_ClearEverything; ServerData_ClearSucceed; ServerData_AsJsonString; ServerData_AsJsonStringBadKey;
   ServerData_AsJsonStringBadNumber; ServerData_AsJsonStringNotFoundByKey; ServerData_AsJsonStringNotFoundByNumber;
   ServerData_AsJsonStringNoNumber; ServerData_AsJsonStringWithEventPath; ServerData_Summary; ServerData_GetMockServerEvent;
   ServerData_GetMockServerEventIncompleteKey; ServerData_GetMockServerEventInvalidNumber; ServerData_GetJsonOrAllAsJsonString;
   ServerData_FindLastRegisteredRequestState; ServerData_OverwriteLastEvent; ServerData_DefaultStateInitial; ServerData_SequenceEmpty;
   ServerData_SequenceChronologicalOrder; ServerData_SequenceFilterByMethod; ServerData_SequenceFilterByUriRegex; ClientData_ClearFails;
   ClientData_ClearEverything; ClientData_ClearSucceed; ClientData_AsJsonString; ClientData_AsJsonStringBadKey; ClientData_AsJsonStringBadNumber;
   ClientData_AsJsonStringNotFoundByKey; ClientData_AsJsonStringNotFoundByNumber; ClientData_AsJsonStringNoNumber;
   ClientData_AsJsonStringWithEventPath; ClientData_Summary; ClientData_GetMockClientEvent; ClientData_GetMockClientEventIncompleteKey;
   ClientData_GetMockClientEventInvalidNumber; ClientData_GetJsonOrAllAsJsonString; ClientData_FindLastRegisteredRequestState;
   ClientData_OverwriteLastEvent; ClientData_DefaultStateInitial; ClientData_SequenceEmpty; ClientData_SequenceInterleaved;
   ClientData_SequenceFilterByMethod; ClientData_SequenceFilterByUriRegex; ServerHistory_SizeKeyMethodAndUri; ServerHistory_RemoveVirtual1;
   ServerHistory_GetLastRegisteredRequestState; ServerHistory_RemoveFirstUsingReverse; ClientHistory_SizeKeyMethodAndUri;
   ClientHistory_GetLastRegisteredRequestState; ClientHistory_RemoveFirstUsingReverse; ServerEvent_Load; ServerEvent_GetRequestHeaders;
   ServerEvent_GetRequestBody; ServerEvent_GetJson; ServerEvent_SetSendingTimestampUs; ServerEvent_GetJsonWithSendingTimestamp;
   ServerEvent_GetJsonWithoutSendingTimestamp; ClientEvent_Load; ClientEvent_GetResponseHeaders; ClientEvent_GetResponseBody; ClientEvent_GetJson;
   Vault_LoadVaultSuccess; Vault_LoadVaultFail; Vault_GetVaultSchema; Vault_LoadJsonTypes; Vault_JsonToString; Vault_LoadAtPathCreatesObject;
   Vault_LoadAtPathUpdatesExisting; Vault_LoadAtPathNestedPath; Vault_LoadAtPathOverwritesNonObject; Vault_LoadJsonWithMixedTypes;
   Wait_VaultAnyChange; Wait_VaultSpecificValue; Wait_VaultAlreadySatisfied; Wait_VaultTimeout; Wait_MaxWaitersEnforced; Sse_NotifyMatchingKey;
   Sse_NotifyNonMatchingKeyIsFiltered; Sse_EmptyFilterReceivesAll; Sse_RemoveConnectionStopsNotifications; Sse_ActiveConnections].

(** The storage of the model gives what the tests of the repository expect of the code. *)
Theorem storage_tests_pass : forallb id storage_tests = true /\ length storage_tests = 82%nat.
Proof. vm_compute. split; reflexivity. Qed.
