(* ===== verification/SystemTests.v ===== *)
(** The tests of schemas, configuration, traffic server, files and sockets of the repository
    ([ut/jsonSchema], [ut/model/Configuration], [ut/http2Server/myTrafficHttp2Server.cpp],
    [ut/model/FileSystem] and [ut/model/UnixSockets]), each one as a definition that says
    whether the model gives what the test expects, and the theorem that it does.  Left out
    are the tests of schemas that expect the text of an error of the validator and the
    tests of setters and getters. *)
From S2P Require Import Prelude Std Double Functions Query Json JsonModel JsonReader External Regex Keys DataPart MockEvents MockData Vault Schema Stages ServerProvision ServerAdmin TrafficServer AdminServer AdminSchemas Files Conformance.
From stdpp Require Import options.
Import Bench.
#[local] Open Scope Z_scope.

(** ** [jsonSchema_test] *)

Definition ServerMatchingJson : json := (obj [("algorithm", JString "FullMatching")]).
Definition VaultJson : json := (obj [("var1", JString "value1"); ("var2", obj [("nested", JBool true)])]).
Definition VaultJson_nok : json := (obj [("var.with.dots", JString "value")]).
Definition VaultJson_nok2 : json := (obj [("a.b", JUint 1)]).
(** [setJson], [isAvailable], [getJson] and [validate] of some documents. *)
Definition schema_checks (j : json) (documents : list (json * bool)) : bool :=
  let '(ok, s) := setJson j JsonSchema_new in
  ok && available_ s && json_eqb (js_json s) j && forallb (fun d => Bool.eqb (js_validate s d.1) d.2) documents.
Definition Schema_InvalidSchema : bool := let '(ok, s) := setJson JNull JsonSchema_new in negb ok && negb (available_ s).
Definition Schema_CheckSchemaMatching : bool := schema_checks (adminSchemas OpServerMatching) [(ServerMatchingJson, true)].
Definition Schema_CheckVaultSchema : bool :=
  schema_checks (adminSchemas OpVault) [(VaultJson, true); (VaultJson_nok, false); (VaultJson_nok2, false)].

(** ** [Configuration_test] *)

Definition DefaultConfiguration : json := (obj [("disableMetrics", JBool false); ("lazyClientConnection", JBool false); ("longTermFilesCloseDelayUsecs", JUint 1000000); ("queueDispatcherMaxSize", JInt (-1)); ("shortTermFilesCloseDelayUsecs", JUint 0); ("trafficClientConnections", JUint 1); ("trafficServerMaxWorkerThreads", JUint 1); ("trafficServerWorkerThreads", JUint 1)]).
Definition default_is (k : string) (j : json) : bool := match json_find k DefaultConfiguration with Some x => json_eqb x j | None => false end.
Definition Configuration_Defaults : bool := checks
  [default_is "longTermFilesCloseDelayUsecs" (JUint (long_term_files_close_delay_us_ Configuration_new));
   default_is "shortTermFilesCloseDelayUsecs" (JUint (short_term_files_close_delay_us_ Configuration_new));
   default_is "lazyClientConnection" (JBool (lazy_client_connection_ Configuration_new))].
Definition Configuration_GetJson : bool := json_eqb (Configuration_getJson Configuration_new) DefaultConfiguration.
Definition Configuration_AsJsonString : bool := same (dump (Configuration_getJson Configuration_new)) (dump DefaultConfiguration).

(** ** [MyTrafficHttp2ServerUnitTest] *)

Definition MyTrafficHttp2ServerUnitTest : Server OS :=
  Server_new Config_new ProvisionData_new (mkWorld Vault_new MockData_empty MockData_empty ∅ 1000000 0 no_outside).
Definition data_configuration_is (s : Server OS) (purge store history : string) : bool :=
  gives (dataConfigurationAsJsonString s)
    (quoted "{'needsStorage':false,'purgeExecution':" +:+ purge +:+ quoted ",'storeEvents':" +:+ store +:+
     quoted ",'storeEventsKeyHistory':" +:+ history +:+ "}").
Definition configuration_text (s : Server OS) (reserve receive : string) : bool :=
  gives (configurationAsJsonString s) (quoted "{'preReserveRequestBody':" +:+ reserve +:+ quoted ",'receiveRequestBody':" +:+ receive +:+ "}").

Definition Traffic_DataConfigurationDefault : bool := data_configuration_is MyTrafficHttp2ServerUnitTest "true" "true" "true".
Definition Traffic_DataConfigurationAfterDiscardData : bool :=
  data_configuration_is (discardData true MyTrafficHttp2ServerUnitTest) "true" "false" "true".
Definition Traffic_DataConfigurationAfterDiscardKeyHistory : bool :=
  data_configuration_is (discardDataKeyHistory true MyTrafficHttp2ServerUnitTest) "true" "true" "false".
Definition Traffic_DataConfigurationAfterDisablePurge : bool :=
  data_configuration_is (disablePurge true MyTrafficHttp2ServerUnitTest) "false" "true" "true".
Definition Traffic_DataConfigurationAllDisabled : bool :=
  data_configuration_is (disablePurge true (discardDataKeyHistory true (discardData true MyTrafficHttp2ServerUnitTest))) "false" "false" "false".
Definition Traffic_ConfigurationDefault : bool := configuration_text MyTrafficHttp2ServerUnitTest "true" "true".
Definition Traffic_ConfigurationReceiveRequestBodyFalse : bool :=
  configuration_text (setReceiveRequestBody false MyTrafficHttp2ServerUnitTest) "true" "false".
Definition Traffic_ConfigurationPreReserveRequestBodyFalse : bool :=
  configuration_text (setPreReserveRequestBody false MyTrafficHttp2ServerUnitTest) "false" "true".
Definition Traffic_ConfigurationBothFalse : bool :=
  configuration_text (setPreReserveRequestBody false (setReceiveRequestBody false MyTrafficHttp2ServerUnitTest)) "false" "false".
Definition Traffic_PreReserveRequestBodyDefault : bool := preReserveRequestBody MyTrafficHttp2ServerUnitTest.
Definition Traffic_PreReserveRequestBodySetFalse : bool :=
  negb (preReserveRequestBody (setPreReserveRequestBody false MyTrafficHttp2ServerUnitTest)).
(** The vault has an entry, and the delay for the reception 12345. *)
Definition delay_is (entry : option string) (ms : Z) : bool :=
  let s := MyTrafficHttp2ServerUnitTest in
  let w := s_world s in
  let v := match entry with Some t => v_add "__core:response-delay-ms:12345" (JString t) (w_vault w) | None => w_vault w end in
  match server_responseDelayMs 12345
          (with_sworld (mkWorld v (w_server w) (w_client w) (w_schemas w) (w_long_term_us w) (w_short_term_us w) (w_out w)) s) with
  | Val d => d =? ms
  | Throw _ => false
  end.
Definition Traffic_ResponseDelayMsNoVariable : bool := delay_is None 0.
Definition Traffic_ResponseDelayMsWithVariable : bool := delay_is (Some "500") 500.
Definition Traffic_ResponseDelayMsInvalidVariable : bool := delay_is (Some "not_a_number") 0.
Definition Traffic_ResponseDelayMsOutOfRange : bool := delay_is (Some "99999999999999999999999999999") 0.
Definition Traffic_DiscardDataToggle : bool :=
  let s1 := discardData true MyTrafficHttp2ServerUnitTest in
  checks [data_configuration_is MyTrafficHttp2ServerUnitTest "true" "true" "true"; data_configuration_is s1 "true" "false" "true";
    data_configuration_is (discardData false s1) "true" "true" "true"].

(** ** [FileManager_test] *)

(** The managers of the tests have no metrics; [/foo/bar] cannot be made. *)
Definition can_be_made (p : string) : bool := starts_with "/tmp/" p.
Definition path1 : string := "/tmp/h2agent.ut.Beethoven.txt".
Definition path2 : string := "/tmp/h2agent.ut.Mozart.txt".
Definition file1 : json := obj [("bytes", JUint 0); ("path", JString path1); ("state", JString "closed"); ("readCache", JString "true")].
Definition file2 : json := obj [("bytes", JUint 0); ("path", JString path2); ("state", JString "closed")].

(** A step on the manager: [None] when it waits for ever or is not as expected. *)
Definition FileStep : Type := FileManager -> option FileManager.
Definition fm_writes (p data : string) : FileStep := fm_write_ 1024 false false can_be_made 0 p data true 0.
Definition fm_empties (p : string) : FileStep := fm_empty_ 1024 false can_be_made p.
Definition fm_reads (p : string) (text : bool) (content : string) (success : bool) : FileStep := fun m =>
  '(ok, data, m) ← fm_read_ 1024 false can_be_made p text m; if same data content && Bool.eqb ok success then Some m else None.
Definition fm_that (b : FileManager -> bool) : FileStep := fun m => if b m then Some m else None.
Definition fm_set (f : FileManager -> FileManager) : FileStep := fun m => Some (f m).
Definition fm_clear (m : FileManager) : FileManager := mkFileManager ∅ (read_cache_ m) (current_opened_ m) (file_counters m) (disk_ m).
Definition cache_is (state : string) (m : FileManager) : bool :=
  let j := obj [("readCache", JString state)] in
  json_eqb (fm_getConfigurationJson m) j && same (dump (fm_getConfigurationJson m)) (dump j).
Definition Files_FileManager : bool :=
  some (foldl (fun o s => o ≫= s) (Some (FileManager_new ∅))
    [fm_writes path2 "hi"; fm_writes path1 "hi"; fm_reads path1 true "hi" true;
     fm_set (enableReadCache true); fm_reads path1 true "hi" true;
     fm_writes path1 "hi"; fm_reads path1 true "hi" true;
     fm_empties path1; fm_empties path2;
     fm_reads path1 true "hi" true;
     fm_set (enableReadCache false); fm_reads path2 true "" true;
     fm_that (fun m => json_eqb (fm_getJson m) (arr [file1; file2]) || json_eqb (fm_getJson m) (arr [file2; file1]));
     fm_set fm_clear; fm_that (fun m => gives (fm_asJsonString m) "[]");
     fm_set (enableReadCache true); fm_that (cache_is "enabled");
     fm_set (enableReadCache false); fm_that (cache_is "disabled");
     fm_empties "/tmp/newfile"; fm_reads "/tmp/newfile" true "" true;
     fm_reads "/tmp/newfile2" true "" false; fm_reads "/tmp/newfile3" false "" false]).

(** ** [SafeFile_test] *)

Definition safe_path : string := "/tmp/h2agent.ut.safefile.txt".
Definition safe_file_json (n : Z) : json := obj [("bytes", JUint n); ("path", JString safe_path); ("state", JString "closed")].
(** A file, emptied and written; [expire] is what happens before it is read. *)
Definition safe_file_test (timers : bool) (delay : Z) (expire : SafeFile * FileManager -> SafeFile * FileManager) : bool :=
  match ('(f, m) ← SafeFile_new 1024 false can_be_made ModeApp safe_path (FileManager_new ∅);
         let opened := current_opened_ m in
         '(f, m) ← sf_empty 1024 false can_be_made safe_path f m;
         '(f, m) ← sf_write 1024 timers false can_be_made 0 "hi" delay safe_path f m;
         let '(f, m) := expire (f, m) in
         let closed := current_opened_ m in
         '(ok, data, f, m) ← sf_read 1024 false can_be_made ModeIn false safe_path f m;
         let j1 := sf_getJson safe_path f (disk_ m) in
         '(f, m) ← sf_empty 1024 false can_be_made safe_path f m;
         Some (opened, closed, ok, data, j1, sf_getJson safe_path f (disk_ m))) with
  | Some (opened, closed, ok, data, j1, j2) =>
      checks [current_opened_ (FileManager_new ∅) =? 0; opened =? 1; closed =? 0; same data "hi"; ok; json_eqb j1 (safe_file_json 2);
        json_eqb j2 (safe_file_json 0)]
  | None => false
  end.
(** The timer of 5 milliseconds expires in the 50 the test waits. *)
Definition File_SafeFileWithCloseDelayed : bool := safe_file_test true 5000 (fun fm => sf_expire false false safe_path fm.1 fm.2).
Definition File_SafeFileWithInstantClose : bool := safe_file_test false 0 id.
Definition File_SafeFileFailsToOpen : bool :=
  match SafeFile_new 1024 false can_be_made ModeApp "/foo/bar" (FileManager_new ∅) with
  | Some (f, m) => json_eqb (sf_getJson "/foo/bar" f (disk_ m)) (obj [("path", JString "/foo/bar"); ("state", JString "missing")])
  | None => false
  end.

(** ** [SocketManager_test] and [SafeSocket_test] *)

(** The sockets that receive are bound to the paths: what is sent to a path, in order. *)
Definition socket1 : string := "/tmp/h2agent.ut.socket.Beethoven".
Definition socket2 : string := "/tmp/h2agent.ut.socket.Mozart".
Definition received_at (p : string) (m : SocketManager) : list string :=
  omap (fun sd => if same (sun_path sd.1) p then Some sd.2 else None) (sent_ m).
Definition socket_json (p : string) (fd : Z) : json := obj [("socket", JInt fd); ("path", JString p)].
Definition Sockets_SocketManager : bool :=
  let write fd p data m := (sm_write_ false false 108 fd p data 0 m).2 in
  let m := write 0 socket1 "again" (write 6 socket1 "hi" (write 5 socket2 "bye" SocketManager_new)) in
  let m0 := mkSocketManager ∅ (delayed_ m) (sent_ m) (socket_counters m) in
  checks [bool_decide (received_at socket1 m = ["hi"; "again"]); bool_decide (received_at socket2 m = ["bye"]);
    json_eqb (sm_getJson m) (arr [socket_json socket1 6; socket_json socket2 5]) ||
    json_eqb (sm_getJson m) (arr [socket_json socket2 5; socket_json socket1 6]);
    gives (sm_asJsonString m0) "[]"].
Definition safe_socket_path : string := "/tmp/h2agent.ut.safesocket.txt".
Definition safe_socket_test (timers : bool) (delay : Z) (expire : SocketManager -> SocketManager) : bool :=
  match ss_open false 108 safe_socket_path 5 SocketManager_new with
  | (Val s, m) =>
      let m := expire (ss_write timers false s "hi" delay false m) in
      bool_decide (received_at safe_socket_path m = ["hi"]) && json_eqb (ss_getJson safe_socket_path s) (socket_json safe_socket_path 5)
  | (Throw _, _) => false
  end.
Definition Socket_SafeSocketWithWriteDelayed : bool := safe_socket_test true 5000 (ss_expire true false 0).
Definition Socket_SafeSocketWithInstantWrite : bool := safe_socket_test false 0 id.


(** ** They pass *)

Definition system_tests : list bool :=
  [Schema_InvalidSchema; Schema_CheckSchemaMatching; Schema_CheckVaultSchema; Configuration_Defaults; Configuration_GetJson;
   Configuration_AsJsonString; Traffic_DataConfigurationDefault; Traffic_DataConfigurationAfterDiscardData;
   Traffic_DataConfigurationAfterDiscardKeyHistory; Traffic_DataConfigurationAfterDisablePurge; Traffic_DataConfigurationAllDisabled;
   Traffic_ConfigurationDefault; Traffic_ConfigurationReceiveRequestBodyFalse; Traffic_ConfigurationPreReserveRequestBodyFalse;
   Traffic_ConfigurationBothFalse; Traffic_PreReserveRequestBodyDefault; Traffic_PreReserveRequestBodySetFalse; Traffic_ResponseDelayMsNoVariable;
   Traffic_ResponseDelayMsWithVariable; Traffic_ResponseDelayMsInvalidVariable; Traffic_ResponseDelayMsOutOfRange; Traffic_DiscardDataToggle;
   Files_FileManager; File_SafeFileWithCloseDelayed; File_SafeFileWithInstantClose; File_SafeFileFailsToOpen; Sockets_SocketManager;
   Socket_SafeSocketWithWriteDelayed; Socket_SafeSocketWithInstantWrite].

(** The schemas, the configuration, the traffic server, the files and the sockets of the model
    give what the tests of the repository expect of the code. *)
Theorem system_tests_pass : forallb id system_tests = true /\ length system_tests = 29%nat.
Proof. vm_compute. split; reflexivity. Qed.
