(* ===== verification/Startup.v ===== *)
(** The start of the agent ([src/main.cpp]): the command line with its checks, the
    boundaries of the histograms, and the files that configure the components before the
    servers are started. *)
From S2P Require Import Prelude Std Double Functions Query Json JsonModel External JsonConstraint Keys DataPart MockEvents MockData TypeConverter Vault Transformation Reports ClientEndpoint Schema Stages ServerProvision ServerAdmin TrafficServer ClientProvision Ticker ClientFlow AdminServer.
From Stdlib Require Import Floats.SpecFloat.
From stdpp Require Import sorting options.
#[local] Open Scope Z_scope.

(** ** Exits *)

(** A part of the start: it goes on, or the program exits with a code and a message of
    the usage, or what it does is undefined. *)
Inductive launch (A : Type) :=
| Goes (a : A)
| Exits (rc : Z) (message : string)
| Undefined.
Arguments Goes {A} a.
Arguments Exits {A} rc message.
Arguments Undefined {A}.
#[global] Instance launch_bind : MBind launch := fun A B f m =>
  match m with Goes a => f a | Exits rc message => Exits rc message | Undefined => Undefined end.

(** [usage(rc, message)] *)
Definition usage {A} (rc : Z) (message : string) : launch A := Exits rc message.
Definition EXIT_SUCCESS : Z := 0.
Definition EXIT_FAILURE : Z := 1.

(** ** Numbers and boundaries *)

(** [toNumber]: the conversion to [unsigned long], cut to an [int]. *)
Definition toNumber (value : string) : launch Z :=
  match stoull value with
  | Val n => Goes (to_i32 n)
  | Throw _ => usage EXIT_FAILURE ("Error in number conversion for '" +:+ value +:+ "' !")
  end.

(** The order of [std::sort] on doubles: not greater. *)
Definition d_not_greater (a b : double) : Prop := SFltb b a = false.
#[global] Instance d_not_greater_dec : RelDecision d_not_greater.
Proof. intros a b. unfold d_not_greater. apply _. Defined.

Definition histogram_value (item : string) : option double :=
  match stod item with Val v => if SFleb (d_of_Z 0) v then Some v else None | Throw _ => None end.
(** The values that are kept, in their order. *)
Definition histogram_values (input : string) : list double := omap histogram_value (pieces "," input).

(** [loadHistogramBoundaries]: [pop_back] of an empty text is undefined. *)
Definition loadHistogramBoundaries (input : string) : launch (string * list double) :=
  let values := histogram_values input in
  let result := String.concat "" ((fun v => d_to_string v +:+ ",") <$> values) in
  if sempty result then Undefined
  else Goes (stake (String.length result - 1) result, merge_sort d_not_greater values).

(** ** The command line *)

(** The words after the first occurrence of an option. *)
Fixpoint after (name : string) (argv : list string) : option (list string) :=
  match argv with
  | [] => None
  | w :: l => if bool_decide (w = name) then Some l else after name l
  end.

Record Settings := mkSettings {
  st_application_name : string;
  st_log_level : option string;
  st_verbose : bool;
  st_ipv6 : bool;
  st_bind_address : string;
  st_admin_port : string;
  st_traffic_server_port : string;
  st_api_name : string;
  st_api_version : string;
  st_io_threads : Z;
  st_worker_threads : Z;
  st_max_worker_threads : Z;
  st_queue_max_size : Z;
  st_max_concurrent_streams : Z;
  st_admin_worker_threads : Z;
  st_key_file : string;
  st_key_password : string;
  st_crt_file : string;
  st_admin_secured : bool;
  st_schema_file : string;
  st_matching_file : string;
  st_provision_file : string;
  st_endpoint_file : string;
  st_client_provision_file : string;
  st_vault_file : string;
  st_ignore_request_body : bool;
  st_dynamic_allocation : bool;
  st_discard_data : bool;
  st_discard_key_history : bool;
  st_disable_purge : bool;
  st_prometheus_port : string;
  st_delay_boundaries : list double;
  st_size_boundaries : list double;
  st_client_workers : Z;
  st_pool_max_pending : Z;
  st_traffic_enabled : bool;
  st_configuration : Configuration
}.

Section CommandLine.
(** The words of the command line, the program first, and the last part of its path
    ([basename]); the levels the logger knows; the processors of the machine; and whether
    the transport limits the streams. *)
Context (argv : list string) (progname : string) (level_known : string -> bool) (nproc : Z) (max_streams : bool).

(** [readCmdLine] without and with a value. *)
Definition readFlag (name : string) : bool := bool_decide (name ∈ argv).
Definition readValue (name : string) : launch (option string) :=
  match after name argv with
  | None => Goes None
  | Some [] => usage EXIT_FAILURE ("Missing mandatory value for '" +:+ name +:+ "'")
  | Some (v :: _) => Goes (Some v)
  end.
(** The short option is looked for first. *)
Fixpoint readAny (options : list string) : launch (option string) :=
  match options with
  | [] => Goes None
  | o :: l => v ← readValue o; match v with Some v => Goes (Some v) | None => readAny l end
  end.
Definition readText (options : list string) (d : string) : launch string := v ← readAny options; Goes (default d v).
Definition readNumber (options : list string) : launch (option Z) :=
  v ← readAny options; match v with None => Goes None | Some v => n ← toNumber v; Goes (Some n) end.
(** A number that must not be under its least value. *)
Definition readAtLeast (options : list string) (least : Z) (message : string) : launch (option Z) :=
  n ← readNumber options;
  if match n with Some n => n <? least | None => false end then usage EXIT_FAILURE message else Goes n.
Definition readBoundaries (name : string) : launch (list double) :=
  v ← readValue name;
  match v with None => Goes [] | Some v => '(_, l) ← loadHistogramBoundaries v; Goes l end.

Definition invalid (name what : string) : string := "Invalid '" +:+ name +:+ "' value. Must be " +:+ what +:+ ".".

(** The threads of the pool of works when the command line says nothing. *)
Definition default_client_workers (connections : Z) : Z :=
  if nproc <? connections then Z.max 1 (nproc - 2) else Z.max 0 (nproc - connections - 1).

(** The threads of the servers: of input and output, the workers, their maximum, the
    size of the queue, the streams of a connection, and the workers of the
    administration. *)
Definition readThreads : launch (option Z * Z * option Z * option Z * Z * option Z) :=
  io ← readAtLeast ["-t"; "--traffic-server-io-threads"] 1 (invalid "--traffic-server-io-threads" "greater than 0");
  workers ← readAtLeast ["-w"; "--traffic-server-worker-threads"] 1 (invalid "--traffic-server-worker-threads" "greater than 0");
  let worker_threads := default 1 workers in
  max_workers ← readAtLeast ["--traffic-server-max-worker-threads"] worker_threads
    (invalid "--traffic-server-max-worker-threads" "greater or equal than traffic server worker threads");
  queue ← readNumber ["--traffic-server-queue-dispatcher-max-size"];
  let queue := option_map (fun n => if worker_threads <? 0 then -1 else n) queue in
  streams ← (if max_streams then
      n ← readNumber ["--traffic-server-max-concurrent-streams"];
      let n := match n with Some n => to_u32 n | None => 256 end in
      if n <? 1 then usage EXIT_FAILURE (invalid "--traffic-server-max-concurrent-streams" "greater than 0") else Goes n
    else Goes 256);
  admin_workers ← readAtLeast ["--admin-server-worker-threads"] 1 (invalid "--admin-server-worker-threads" "greater than 0");
  Goes (io, worker_threads, max_workers, queue, streams, admin_workers).

(** The configuration files. *)
Definition readFiles : launch (string * string * string * string * string * string) :=
  schema_file ← readText ["--schema"] "";
  matching_file ← readText ["--traffic-server-matching"] "";
  provision_file ← readText ["--traffic-server-provision"] "";
  endpoint_file ← readText ["--traffic-client-endpoint"] "";
  client_provision_file ← readText ["--traffic-client-provision"] "";
  vault_file ← readText ["--vault"] "";
  Goes (schema_file, matching_file, provision_file, endpoint_file, client_provision_file, vault_file).

(** The delays of the files, and the connections and the pool of the client side. *)
Definition readDelays : launch (option Z * option Z) :=
  long_term ← readAtLeast ["--long-term-files-close-delay-usecs"] 0 (invalid "--long-term-files-close-delay-usecs" "greater or equal than 0");
  short_term ← readAtLeast ["--short-term-files-close-delay-usecs"] 0 (invalid "--short-term-files-close-delay-usecs" "greater or equal than 0");
  Goes (long_term, short_term).
Definition readClient : launch (Z * Z * Z) :=
  connections ← readAtLeast ["--traffic-client-connections"] 1 (invalid "--traffic-client-connections" "greater than 0");
  let connections := default (traffic_client_connections_ Configuration_new) connections in
  client_workers ← readAtLeast ["--traffic-client-worker-threads"] 0
    "Invalid '--traffic-client-worker-threads' value. Must be 0 (disabled) or greater.";
  pending ← readNumber ["--traffic-client-pool-max-pending"];
  Goes (connections, default (default_client_workers connections) client_workers, to_u64 (default 0 pending)).

Definition readCommandLine : launch Settings :=
  let flags l := existsb readFlag l in
  if flags ["-h"; "--help"] then usage EXIT_SUCCESS "" else
  name ← readText ["--name"] progname;
  level ← readAny ["-l"; "--log-level"];
  if match level with Some l => negb (level_known l) | None => false end then usage EXIT_FAILURE "Invalid log level provided !" else
  bind ← readText ["-b"; "--bind-address"] "";
  admin_port ← readText ["-a"; "--admin-port"] "8074";
  port ← readText ["-p"; "--traffic-server-port"] "8000";
  api_name ← readText ["-m"; "--traffic-server-api-name"] "";
  api_version ← readText ["-n"; "--traffic-server-api-version"] "";
  '(io, worker_threads, max_workers, queue, streams, admin_workers) ← readThreads;
  key ← readText ["-k"; "--traffic-server-key"] "";
  password ← readText ["-d"; "--traffic-server-key-password"] "";
  crt ← readText ["-c"; "--traffic-server-crt"] "";
  '(schema_file, matching_file, provision_file, endpoint_file, client_provision_file, vault_file) ← readFiles;
  prometheus_port ← readText ["--prometheus-port"] "8080";
  delay_boundaries ← readBoundaries "--prometheus-response-delay-seconds-histogram-boundaries";
  size_boundaries ← readBoundaries "--prometheus-message-size-bytes-histogram-boundaries";
  '(long_term, short_term) ← readDelays;
  '(connections, client_workers, pending) ← readClient;
  if flags ["-V"; "--version"] then Exits EXIT_SUCCESS "" else
  port_number ← toNumber port;
  let c := Configuration_new in
  Goes (mkSettings name level (flags ["-v"; "--verbose"]) (readFlag "--ipv6") bind admin_port port api_name api_version
    (default 1 io) worker_threads (default worker_threads max_workers) (default (-1) queue) streams (default 33 admin_workers)
    key password crt (flags ["-s"; "--secure-admin"]) schema_file matching_file provision_file endpoint_file client_provision_file vault_file
    (readFlag "--traffic-server-ignore-request-body") (readFlag "--traffic-server-dynamic-request-body-allocation")
    (readFlag "--discard-data") (readFlag "--discard-data" || readFlag "--discard-data-key-history") (readFlag "--disable-purge")
    prometheus_port delay_boundaries size_boundaries client_workers pending (0 <? port_number)
    (mkConfiguration (default (long_term_files_close_delay_us_ c) long_term) (default (short_term_files_close_delay_us_ c) short_term)
       (readFlag "--remote-servers-lazy-connection") worker_threads (default (traffic_server_max_worker_threads_ c) max_workers)
       (default (queue_dispatcher_max_size_ c) queue) connections (readFlag "--disable-metrics"))).
End CommandLine.

(** ** The configuration of the components *)

Section Boot.
Context `{JsonEq} `{JsonText} `{JsonPointer} `{RegexLib} `{!RegexSearch} `{SchemaLib} `{Calculus} {OS : Type} `{Outside OS} `{AdminOutside OS} `{StdSort}.
(** The files of the machine ([getFileContent]). *)
Context (decode_url : string -> string) (ub : double -> Z) (schema_text : Operation -> json) (file_content : string -> option string).

(** The components as they are made, before they are configured. *)
Definition boot_agent (out : OS) (s : Settings) : Agent (OS := OS) :=
  let c := st_configuration s in
  let w := mkWorld Vault_new MockData_empty MockData_empty ∅ (long_term_files_close_delay_us_ c) (short_term_files_close_delay_us_ c) out in
  let pool := if 0 <? st_client_workers s then Some (mkPool 0 0 (st_pool_max_pending s)) else None in
  mkAgent w false (Server_new Config_new ProvisionData_new w)
    (mkFlow ∅ ∅ ∅ O ∅ w true true true (negb (disable_metrics_ c)) (mkClientCounters 0 0 0 0 0) pool [] [])
    (Some (mkWait 0 false)) c Latency_new (default "Warning" (st_log_level s)).

(** The load of a configuration file: the messages on the error stream. The operation
    gives a status code, which stands for success when it is not zero. *)
Definition load_file (path log : string) (operation : json -> M (Agent (OS := OS)) (Z * string * string)) : M (Agent (OS := OS)) (list string) :=
  if sempty path then ret []
  else match file_content path with
       | None => ret [log]
       | Some text =>
           match json_parse text with
           | None => ret [log]
           | Some j => do '(code, log, _) <- operation j ;; ret (if code =? 0 then [log] else [])
           end
       end.

Definition failed (what : string) : string := what +:+ " configuration load failed and will be ignored".

Definition with_traffic (b : bool) (a : Agent (OS := OS)) : Agent :=
  mkAgent (ag_world a) b (ag_server a) (ag_flow a) (ag_waits a) (ag_configuration a) (ag_latency a) (ag_level a).

(** The part of the traffic server, when it is enabled. *)
Definition boot_server (s : Settings) : M (Agent (OS := OS)) (list string) :=
  if st_traffic_enabled s then
    do m1 <- load_file (st_matching_file s) (failed "Server matching") (serverMatching schema_text) ;;
    do m2 <- load_file (st_provision_file s) (failed "Server provision") (serverProvision decode_url ub schema_text) ;;
    on_server (modify (setReceiveRequestBody (negb (st_ignore_request_body s)))) ;;;
    on_server (modify (setPreReserveRequestBody (negb (st_dynamic_allocation s)))) ;;;
    on_server (modify (discardData (st_discard_data s))) ;;;
    on_server (modify (discardDataKeyHistory (st_discard_key_history s))) ;;;
    on_server (modify (disablePurge (st_disable_purge s))) ;;;
    ret (m1 ++ m2)
  else ret [].

Definition boot (s : Settings) : M (Agent (OS := OS)) (list string) :=
  (if st_traffic_enabled s
   then on_server (modify (enableMyMetrics (if disable_metrics_ (st_configuration s) then None else Some (mkCounters 0 0 0 0)))) else ret tt) ;;;
  do m1 <- load_file (st_schema_file s) (failed "Schema") (schema schema_text) ;;
  do m2 <- boot_server s ;;
  do m3 <- load_file (st_endpoint_file s) (failed "Client endpoint") (clientEndpoint ub schema_text) ;;
  do m4 <- load_file (st_client_provision_file s) (failed "Client provision") (clientProvision decode_url ub schema_text) ;;
  modify (with_traffic (st_traffic_enabled s)) ;;;
  do m5 <- load_file (st_vault_file s) (failed "Vault") (vault schema_text) ;;
  (if st_traffic_enabled s then on_server (modify setClientProvisionTrigger) else ret tt) ;;;
  ret (m1 ++ m2 ++ m3 ++ m4 ++ m5).
End Boot.

Lemma launch_goes {A B} (m : launch A) (f : A -> launch B) b : m ≫= f = Goes b -> exists a, m = Goes a /\ f a = Goes b.
Proof. destruct m as [a| |]; [|done|done]. by exists a. Qed.
