(* ===== verification/StartupProperties.v ===== *)
(** What the start of the agent promises ([Startup.v]): settings within their bounds,
    boundaries of histograms in order, and an agent that is whole and configured as the
    command line says; and what it does not report. *)
From S2P Require Import Prelude Std Double Functions Query Json JsonModel External JsonConstraint Keys DataPart MockEvents MockData TypeConverter Vault Transformation Reports ClientEndpoint Schema Stages StageFrames ServerProvision ServerAdmin TrafficServer ClientProvision Ticker ClientTransform ClientFlow FlowInvariant FlowProperties AdminServer AdminProperties Startup.
From Stdlib Require Import Floats.SpecFloat.
From stdpp Require Import sorting options.
#[local] Open Scope Z_scope.

(** ** The command line *)

(** Goes through a sequence of reads that succeeded. *)
Ltac launches H :=
  repeat match type of H with
  | _ ≫= _ = Goes _ => let Hr := fresh "Hr" in apply launch_goes in H as (? & Hr & H)
  | (let '(_, _) := ?x in _) = Goes _ => destruct x
  | (if ?b then _ else _) = Goes _ => let E := fresh "E" in destruct b eqn:E; [discriminate H|]
  end.

Lemma to_i32_range z : - 2 ^ 31 <= to_i32 z < 2 ^ 31.
Proof. unfold wrap_i. pose proof (Z.mod_pos_bound (z + 2 ^ (32 - 1)) (2 ^ 32) eq_refl). lia. Qed.

Section Reads.
Context (argv : list string).

(** A number that was given. *)
Definition given (least : Z) (o : option Z) : Prop := match o with Some n => least <= n < 2 ^ 31 | None => True end.
Lemma readNumber_given options o : readNumber argv options = Goes o -> given (- 2 ^ 31) o.
Proof.
  unfold readNumber. intros H. launches H. destruct x as [v|]; [|by injection H as <-]. launches H. injection H as <-.
  unfold toNumber in Hr0. destruct (stoull v); [|done]. injection Hr0 as <-. apply to_i32_range.
Qed.
Lemma readAtLeast_given options least message o : readAtLeast argv options least message = Goes o -> given least o.
Proof.
  unfold readAtLeast. intros H. launches H. injection H as <-. apply readNumber_given in Hr. destruct x as [n|]; [|done].
  apply Z.ltb_ge in E. cbn in *. lia.
Qed.
End Reads.

Lemma default_given least d o : given least o -> least <= d < 2 ^ 31 -> least <= default d o < 2 ^ 31.
Proof. by destruct o. Qed.

Lemma default_workers_bound nproc connections : 0 <= nproc < 2 ^ 31 -> 1 <= connections -> 0 <= default_client_workers nproc connections < 2 ^ 31.
Proof. intros Hn Hc. unfold default_client_workers. destruct (Z.ltb_spec nproc connections); lia. Qed.

Section Parts.
Context (argv : list string) (nproc : Z) (max_streams : bool).
Lemma readThreads_bounds io workers max_workers queue streams admin_workers :
  readThreads argv max_streams = Goes (io, workers, max_workers, queue, streams, admin_workers) ->
  given 1 io /\ 1 <= workers < 2 ^ 31 /\ given workers max_workers /\ 1 <= streams < 2 ^ 32 /\ given 1 admin_workers.
Proof.
  unfold readThreads. intros H. launches H. injection H as <- <- <- _ <- <-.
  repeat match goal with H : readAtLeast _ _ _ _ = Goes _ |- _ => apply readAtLeast_given in H end.
  pose proof (default_given 1 1 _ Hr0 ltac:(lia)) as Hw.
  assert (1 <= x3 < 2 ^ 32) as Hst; [|by split; [|split; [|split; [|split]]]].
  destruct max_streams; [|injection Hr3 as <-; lia]. launches Hr3. injection Hr3 as <-. apply Z.ltb_ge in E. split; [done|].
  destruct x5; [by apply Z.mod_pos_bound|lia].
Qed.
Lemma readClient_bounds connections workers pending : 0 <= nproc < 2 ^ 31 -> readClient argv nproc = Goes (connections, workers, pending) ->
  1 <= connections < 2 ^ 31 /\ 0 <= workers < 2 ^ 31 /\ 0 <= pending <= u64_max.
Proof.
  intros Hn. unfold readClient. intros H. launches H. injection H as <- <- <-.
  repeat match goal with H : readAtLeast _ _ _ _ = Goes _ |- _ => apply readAtLeast_given in H end.
  pose proof (default_given 1 1 _ Hr ltac:(lia)) as Hc. change (traffic_client_connections_ Configuration_new) with 1.
  pose proof (default_given 0 _ _ Hr0 (default_workers_bound nproc _ Hn (proj1 Hc))). pose proof (to_u64_range (default 0 x1)). by split; [|split].
Qed.
End Parts.

(** ** Boundaries *)

(** The comparison of doubles is antisymmetric. *)
Lemma SFcompare_swap (a b : spec_float) : SFcompare b a = CompOpp <$> SFcompare a b.
Proof.
  destruct a as [sa|sa| |sa ma ea], b as [sb|sb| |sb mb eb]; cbn; try (by repeat case_match).
  destruct sa, sb; cbn; [|done|done|]; rewrite (Z.compare_antisym ea eb); destruct (ea ?= eb); cbn; try done;
    pose proof (Pos.compare_antisym ma mb) as E; unfold Pos.compare in E; rewrite E; by destruct (Pos.compare_cont Eq ma mb).
Qed.
#[local] Instance d_not_greater_total : Total d_not_greater.
Proof.
  intros a b. unfold d_not_greater, SFltb. rewrite (SFcompare_swap a b). destruct (SFcompare a b) as [[]|]; cbn; auto.
Qed.

(** ** What is configured *)

Section BootLemmas.
Context `{JsonEq} `{JsonText} `{JsonPointer} `{RegexLib} `{!RegexSearch} `{SchemaLib} `{Calculus} {OS : Type} `{Outside OS} `{AdminOutside OS} `{StdSort}.
Context (decode_url : string -> string) (multipart_decode : string -> string -> list mp_event) (ub : double -> Z)
  (schema_text : Operation -> json) (file_content : string -> option string).
Implicit Types (a : Agent (OS := OS)).

Lemma load_file_keeps R `{!PreOrder R} path log (operation : json -> M (Agent (OS := OS)) (Z * string * string)) :
  (forall j, keeps R (operation j)) -> keeps R (load_file file_content path log operation).
Proof. intros Ho. unfold load_file. frame. Qed.

(** The start keeps the agent whole. *)
#[local] Existing Instance whole_kept_preorder.
#[local] Hint Resolve kept_vault kept_schemas kept_world kept_matching_load kept_provision_load kept_endpoint_load kept_client_load : frame.
Lemma boot_kept s : keeps (whole_kept (OS := OS)) (boot decode_url ub schema_text file_content s).
Proof.
  assert (forall f, (forall x : Server OS, traffic_inv x -> traffic_inv (f x)) -> keeps whole_kept (on_server (modify f))) as Hs
    by (intros; by apply kept_server_modify).
  unfold boot, boot_server, load_file, schema, serverMatching, serverProvision, clientEndpoint, clientProvision, vault. frame.
  all: first [by apply Hs|intros b Hb; exact Hb].
Qed.

(** The switches of both sides, and whether the traffic server is known. *)
Definition server_switches (s : Server OS) : bool * bool * bool * bool * bool :=
  (server_data_ s, server_data_key_history_ s, purge_execution_ s, receive_request_body_ s, pre_reserve_request_body_ s).
Definition flow_switches (s : Flow (OS := OS)) : bool * bool * bool * option Pool := (fl_client_data s, fl_key_history s, fl_purge s, fl_pool s).
Definition switches_kept a a' : Prop :=
  server_switches (ag_server a') = server_switches (ag_server a) /\ flow_switches (ag_flow a') = flow_switches (ag_flow a) /\ ag_traffic a' = ag_traffic a.
#[local] Instance switches_kept_preorder : PreOrder switches_kept.
Proof. split; [done|]. intros a1 a2 a3 (? & ? & ?) (? & ? & ?). unfold switches_kept. split_and!; congruence. Qed.

Lemma switches_server {A} (m : M (Server OS) A) : keeps (fun x y => server_switches y = server_switches x) m -> keeps switches_kept (on_server m).
Proof. intros Hm a. unfold on_server. specialize (Hm (server_view a)). by destruct (m (server_view a)). Qed.
Lemma switches_flow {A} (m : M (Flow (OS := OS)) A) : keeps (fun x y => flow_switches y = flow_switches x) m -> keeps switches_kept (on_flow m).
Proof. intros Hm a. unfold on_flow. specialize (Hm (flow_view a)). by destruct (m (flow_view a)). Qed.
Lemma switches_matching (m : M Config LoadResult) : keeps switches_kept (on_server (on_matching m)).
Proof. apply switches_server. intros x. unfold on_matching. by destruct (m _). Qed.
Lemma switches_provisions (m : M ProvisionData LoadResult) : keeps switches_kept (on_server (on_provisions m)).
Proof. apply switches_server. intros x. unfold on_provisions. by destruct (m _). Qed.
Lemma switches_endpoints lazy n valid j : keeps switches_kept (on_flow (load_endpoints ub lazy n valid j)).
Proof. apply switches_flow. intros x. unfold load_endpoints. by destruct (ep_load _ _ _ _ _ _). Qed.
#[local] Instance flow_switches_preorder : PreOrder (fun x y => flow_switches y = flow_switches x).
Proof. split; [done|]. intros x y z ? ?. congruence. Qed.
Lemma switches_provision valid j : keeps switches_kept (on_flow (cpd_load decode_url ub valid j)).
Proof.
  apply switches_flow.
  assert (forall j, keeps (fun x y => flow_switches y = flow_switches x) (cpd_loadSingle (OS := OS) decode_url ub valid j)) as Hj.
  { intros j'. unfold cpd_loadSingle. frame. by intros x. }
  unfold cpd_load, load_document. destruct j as [| | | | | |l|]; try apply Hj. induction l as [|j l IH]; cbn [load_items]; [done|].
  refine (keeps_bind _ _ _ (Hj j) _). intros []; [exact IH|by intros x..].
Qed.
Lemma switches_vault {A} (m : M Vault A) : keeps switches_kept (on_avault m).
Proof. intros a. unfold on_avault. by destruct (m _). Qed.
Lemma switches_schemas {A} (m : M (gmap string AdminSchema) A) : keeps switches_kept (on_schemas m).
Proof. intros a. unfold on_schemas. by destruct (m _). Qed.
#[local] Hint Resolve switches_matching switches_provisions switches_endpoints switches_provision switches_vault switches_schemas : frame.

(** The loads of the files leave the switches alone. *)
Definition file_operations : list (json -> M (Agent (OS := OS)) (Z * string * string)) :=
  [schema schema_text; serverMatching schema_text; serverProvision decode_url ub schema_text; clientEndpoint ub schema_text;
   clientProvision decode_url ub schema_text; vault schema_text].
Lemma operations_keep op j : op ∈ file_operations -> keeps switches_kept (op j).
Proof.
  unfold file_operations, schema, serverMatching, serverProvision, clientEndpoint, clientProvision, vault.
  repeat (rewrite elem_of_cons; intros [->|Hop]; [by frame|revert Hop]). by rewrite elem_of_nil.
Qed.
Lemma load_keeps path log op : op ∈ file_operations -> keeps switches_kept (load_file file_content path log op).
Proof. intros Hop. apply load_file_keeps; [apply _|]. intros j. by apply operations_keep. Qed.

Lemma bind_val {S A B} (m : M S A) (f : A -> M S B) x y b : bind m f x = (y, Val b) -> exists z v, m x = (z, Val v) /\ f v z = (y, Val b).
Proof. unfold bind. destruct (m x) as [z [v|e]]; [|done]. intros E. by exists z, v. Qed.
Lemma loaded_keeps path log op a a' msgs : op ∈ file_operations -> load_file file_content path log op a = (a', Val msgs) -> switches_kept a a'.
Proof. intros Hop E. pose proof (load_keeps path log op Hop a) as Hk. by rewrite E in Hk. Qed.

(** The part of the server sets its switches. *)
Definition server_as_told (s : Settings) : bool * bool * bool * bool * bool :=
  (negb (st_discard_data s), negb (st_discard_key_history s), negb (st_disable_purge s), negb (st_ignore_request_body s),
   negb (st_dynamic_allocation s)).
Lemma boot_server_done s a a' msgs : boot_server decode_url ub schema_text file_content s a = (a', Val msgs) ->
  flow_switches (ag_flow a') = flow_switches (ag_flow a) /\ ag_traffic a' = ag_traffic a /\
  server_switches (ag_server a') = if st_traffic_enabled s then server_as_told s else server_switches (ag_server a).
Proof.
  unfold boot_server. destruct (st_traffic_enabled s); [|by intros [= <- <-]]. intros E.
  apply bind_val in E as (a1 & m1 & E1 & E). apply bind_val in E as (a2 & m2 & E2 & E).
  apply loaded_keeps in E1 as (_ & F1 & T1); [|unfold file_operations; set_solver]. apply loaded_keeps in E2 as (_ & F2 & T2); [|unfold file_operations; set_solver].
  unfold bind, on_server, modify, ret in E. cbn in E. injection E as <- _. cbn. split_and!; [congruence|congruence|done].
Qed.

Lemma boot_done s a a' msgs : boot decode_url ub schema_text file_content s a = (a', Val msgs) ->
  ag_traffic a' = st_traffic_enabled s /\ flow_switches (ag_flow a') = flow_switches (ag_flow a) /\
  (st_traffic_enabled s = true -> server_switches (ag_server a') = server_as_told s).
Proof.
  unfold boot. intros E. apply bind_val in E as (a0 & [] & E0 & E). apply bind_val in E as (a1 & m1 & E1 & E).
  apply bind_val in E as (a2 & m2 & E2 & E). apply bind_val in E as (a3 & m3 & E3 & E). apply bind_val in E as (a4 & m4 & E4 & E).
  apply bind_val in E as (a5 & [] & E5 & E). apply bind_val in E as (a6 & m6 & E6 & E). apply bind_val in E as (a7 & [] & E7 & E).
  injection E as <- _. injection E5 as <-.
  apply loaded_keeps in E1 as (_ & F1 & _); [|unfold file_operations; set_solver].
  apply boot_server_done in E2 as (F2 & _ & S2).
  apply loaded_keeps in E3 as (S3 & F3 & _); [|unfold file_operations; set_solver].
  apply loaded_keeps in E4 as (S4 & F4 & _); [|unfold file_operations; set_solver].
  apply loaded_keeps in E6 as (S6 & F6 & T6); [|unfold file_operations; set_solver]. cbn in S6, F6, T6.
  assert (flow_switches (ag_flow a0) = flow_switches (ag_flow a)) as F0 by (destruct (st_traffic_enabled s); injection E0 as <-; done).
  assert (flow_switches (ag_flow a7) = flow_switches (ag_flow a6) /\ ag_traffic a7 = ag_traffic a6 /\
    server_switches (ag_server a7) = server_switches (ag_server a6)) as (F7 & T7 & S7).
  { destruct (st_traffic_enabled s); injection E7 as <-; done. }
  split_and!; [congruence|congruence|]. intros He. rewrite He in S2. congruence.
Qed.

(** The status of an operation is never zero. *)
Lemma operations_code op j a a' code text warning : op ∈ file_operations -> op j a = (a', Val (code, text, warning)) -> code <> 0.
Proof.
  assert (forall r, created r <> 0) as Hc by (by intros []).
  unfold file_operations, schema, serverMatching, serverProvision, clientEndpoint, clientProvision, vault.
  repeat (rewrite elem_of_cons; intros [->|Hop]; [|revert Hop]); [..|by rewrite elem_of_nil].
  all: intros E; repeat (apply bind_val in E as (? & ? & _ & E)); repeat case_match; unfold ret in E; simplify_eq/=; try apply Hc; try done.
Qed.
End BootLemmas.

(** ** Properties *)

(** C31: Settings that are accepted are within their bounds: threads and connections are
    positive numbers of an [int], the workers never more than their maximum, the delays
    and the pool not negative, a discarded storage has no history, and the configuration
    shows the workers, the delays and the connections that are used. *)
Theorem settings_are_in_bounds (argv : list string) (progname : string) (level_known : string -> bool) (nproc : Z) (max_streams : bool) (s : Settings)
  (Hn : 0 <= nproc < 2 ^ 31) (Hs : readCommandLine argv progname level_known nproc max_streams = Goes s) :
  let c := st_configuration s in
  1 <= st_io_threads s < 2 ^ 31 /\ 1 <= st_worker_threads s <= st_max_worker_threads s /\ st_max_worker_threads s < 2 ^ 31 /\
  1 <= st_admin_worker_threads s < 2 ^ 31 /\ 1 <= st_max_concurrent_streams s < 2 ^ 32 /\ 0 <= st_client_workers s < 2 ^ 31 /\
  0 <= st_pool_max_pending s <= u64_max /\
  0 <= long_term_files_close_delay_us_ c < 2 ^ 31 /\ 0 <= short_term_files_close_delay_us_ c < 2 ^ 31 /\
  1 <= traffic_client_connections_ c < 2 ^ 31 /\ traffic_server_worker_threads_ c = st_worker_threads s /\
  (st_discard_data s = true -> st_discard_key_history s = true).
Proof.
  unfold readCommandLine in Hs. launches Hs. injection Hs as <-. cbn zeta.
  match goal with H : readThreads _ _ = Goes _ |- _ => apply readThreads_bounds in H as (Hio & Hw & Hmw & Hst & Had) end.
  match goal with H : readClient _ _ = Goes _ |- _ => apply readClient_bounds in H as (Hcon & Hcw & Hpend); [|exact Hn] end.
  match goal with H : readDelays _ = Goes _ |- _ => unfold readDelays in H; launches H; injection H as -> -> end.
  repeat match goal with H : readAtLeast _ _ _ _ = Goes _ |- _ => apply readAtLeast_given in H end.
  cbn [st_io_threads st_worker_threads st_max_worker_threads st_admin_worker_threads st_max_concurrent_streams st_client_workers
       st_pool_max_pending st_configuration long_term_files_close_delay_us_ short_term_files_close_delay_us_ traffic_client_connections_
       traffic_server_worker_threads_ st_discard_data st_discard_key_history Configuration_new].
  pose proof (default_given _ _ _ Hmw (conj (Z.le_refl _) (proj2 Hw))). pose proof (default_given 1 1 _ Hio ltac:(lia)).
  pose proof (default_given 1 33 _ Had ltac:(lia)).
  repeat match goal with H : given 0 ?o |- context [default ?d ?o] => apply (default_given 0 d) in H; [|lia] end.
  split_and!; try lia. by intros ->.
Qed.

(** The boundaries of a histogram are its non-negative values in order, none lost
    or repeated; without such a value the program reads past an empty text. *)
Theorem boundaries_are_sorted (input : string) :
  match loadHistogramBoundaries input with
  | Goes (_, l) => Sorted d_not_greater l /\ l ≡ₚ histogram_values input /\ l <> []
  | Exits _ _ => False
  | Undefined => histogram_values input = []
  end.
Proof.
  unfold loadHistogramBoundaries. destruct (histogram_values input) as [|v l] eqn:E; [done|].
  destruct (sempty _) eqn:Ee.
  - exfalso. apply sempty_true in Ee. apply (f_equal String.length) in Ee. cbn in Ee. destruct l; cbn in Ee; rewrite ?slength_app in Ee; cbn in Ee; lia.
  - split_and!; [apply (Sorted_merge_sort d_not_greater)|apply merge_sort_Permutation|].
    intros Hn. pose proof (merge_sort_Permutation d_not_greater (v :: l)) as Hp. rewrite Hn in Hp. by apply Permutation_nil_cons in Hp.
Qed.

Section StartProperties.
Context `{JsonEq} `{JsonText} `{JsonPointer} `{RegexLib} `{!RegexSearch} `{SchemaLib} `{Calculus} {OS : Type} `{Outside OS} `{AdminOutside OS} `{StdSort}.
Context (decode_url : string -> string) (multipart_decode : string -> string -> list mp_event) (ub : double -> Z)
  (report_text : fail_report -> outcome string) (schema_text : Operation -> json) (client_status : Client -> string) (level_known : string -> bool)
  (file_content : string -> option string).

(** C9: Whatever the command line says and whatever the configuration files hold, the
    agent is whole when it has started, also when the start was cut short by an exception, and in
    every state it reaches later.  When it has started, the traffic server is there when
    its port says so, with the switches of the command line, and the client side has a pool
    exactly when it has workers. *)
Theorem started_agent_is_whole_and_configured (out : OS) (s : Settings) (a' : Agent (OS := OS)) (result : outcome (list string))
  (Hb : boot decode_url ub schema_text file_content s (boot_agent out s) = (a', result)) :
  (forall a, rtc (agent_step decode_url multipart_decode ub report_text schema_text client_status level_known) a' a -> agent_whole a) /\
  (forall msgs, result = Val msgs ->
     ag_traffic a' = st_traffic_enabled s /\
     (st_traffic_enabled s = true ->
        server_data_ (ag_server a') = negb (st_discard_data s) /\ server_data_key_history_ (ag_server a') = negb (st_discard_key_history s) /\
        purge_execution_ (ag_server a') = negb (st_disable_purge s) /\ receive_request_body_ (ag_server a') = negb (st_ignore_request_body s) /\
        pre_reserve_request_body_ (ag_server a') = negb (st_dynamic_allocation s)) /\
     (is_Some (fl_pool (ag_flow a')) <-> 0 < st_client_workers s)).
Proof.
  assert (agent_whole (boot_agent out s)) as Hw.
  { split; [by apply fresh_inv|]. exact (flow_start_inv _ true true true (negb (disable_metrics_ (st_configuration s))) _). }
  split.
  - intros a Ha. eapply (rtc_invariant _ agent_whole); [|apply agent_step_whole|exact Ha].
    pose proof (boot_kept decode_url ub schema_text file_content s (boot_agent out s) Hw) as Hk. by rewrite Hb in Hk.
  - intros msgs ->. apply boot_done in Hb as (Ht & Hf & Hs). injection Hf as _ _ _ ->. split_and!; [done| |].
    + intros He. specialize (Hs He). injection Hs as -> -> -> -> ->. done.
    + cbn. destruct (Z.ltb_spec 0 (st_client_workers s)); split; [done|done|by intros []|lia].
Qed.

(** The switches do not reach the client side: with [--discard-data], with
    [--discard-data-key-history] and with [--disable-purge] it stores its events, their
    history, and executes the purge as without them. *)
Theorem switches_do_not_reach_the_client (out : OS) (s : Settings) (a' : Agent (OS := OS)) (msgs : list string)
  (Hb : boot decode_url ub schema_text file_content s (boot_agent out s) = (a', Val msgs)) :
  fl_client_data (ag_flow a') = true /\ fl_key_history (ag_flow a') = true /\ fl_purge (ag_flow a') = true.
Proof. apply boot_done in Hb as (_ & Hf & _). by injection Hf as -> -> -> _. Qed.

(** A file that is a document is never reported, also when it is refused. *)
Theorem refused_files_are_silent (path log text : string) (op : json -> M (Agent (OS := OS)) (Z * string * string)) (j : json) (a a' : Agent (OS := OS))
  (msgs : list string) (Hop : op ∈ file_operations decode_url ub schema_text) (Hc : file_content path = Some text) (Hj : json_parse text = Some j)
  (Hl : load_file file_content path log op a = (a', Val msgs)) : msgs = [].
Proof.
  unfold load_file in Hl. destruct (sempty path); [by injection Hl as <- <-|]. rewrite Hc, Hj in Hl.
  apply bind_val in Hl as (a1 & [[code t] w] & E & Hl). apply (operations_code decode_url ub schema_text) in E; [|done].
  rewrite (proj2 (Z.eqb_neq _ _) E) in Hl. by injection Hl as <- <-.
Qed.
End StartProperties.

Module StartupExamples.
Import Still ClientExamples FlowExamples AdminPropExamples.
#[local] Existing Instances literal_search unsorted no_files.

Definition words : list string := ["h2agent"; "-w"; "4"; "--discard-data"; "--traffic-client-connections"; "2"; "--vault"; "/vault.json"].
Definition settings (argv : list string) : option Settings :=
  match readCommandLine argv "h2agent" levels 8 true with Goes s => Some s | _ => None end.
Definition settings0 : Settings :=
  default (mkSettings "" None false false "" "" "" "" "" 0 0 0 0 0 0 "" "" "" false "" "" "" "" "" "" false false false false false "" [] [] 0 0 false Configuration_new)
    (settings words).
Lemma read_words : readCommandLine words "h2agent" levels 8 true = Goes settings0.
Proof. vm_compute. reflexivity. Qed.

Lemma settings_are_in_bounds_witness : 1 <= st_worker_threads settings0 <= st_max_worker_threads settings0 /\ st_client_workers settings0 = 5.
Proof.
  destruct (settings_are_in_bounds words "h2agent" levels 8 true settings0 ltac:(lia) read_words) as (_ & Hw & _). split; [exact Hw|vm_compute; reflexivity].
Defined.

(** A vault that is refused by its schema. *)
Definition content0 (path : string) : option string := if bool_decide (path = "/vault.json") then Some "[]" else None.
Definition started0 : Agent (OS := world) * outcome (list string) := boot id0 ub0 any_schema content0 settings0 (boot_agent [] settings0).
Lemma started_agent_is_whole_and_configured_witness :
  agent_whole started0.1 /\ server_data_ (ag_server started0.1) = false /\ is_Some (fl_pool (ag_flow started0.1)).
Proof.
  destruct (started_agent_is_whole_and_configured id0 decode0 ub0 text0 any_schema status0 levels content0 [] settings0 started0.1 started0.2
    (surjective_pairing started0)) as [Hw Hs].
  destruct (Hs []) as (_ & Hsrv & Hc); [vm_compute; reflexivity|]. destruct Hsrv as [Hd _]; [vm_compute; reflexivity|].
  split; [by apply Hw|]. split; [etransitivity; [exact Hd|vm_compute; reflexivity]|]. apply Hc. vm_compute. reflexivity.
Defined.

(** The vault of the file was refused, and nothing is reported. *)
Example refused_vault_is_silent : started0.2 = Val [] /\ v_map (w_vault (ag_world started0.1)) = ∅.
Proof. vm_compute. done. Qed.

(** The configuration shows a maximum of workers that is less than the workers. *)
Example configuration_shows_another_maximum :
  st_max_worker_threads settings0 = 4 /\ traffic_server_worker_threads_ (st_configuration settings0) = 4 /\
  traffic_server_max_worker_threads_ (st_configuration settings0) = 1.
Proof. vm_compute. done. Qed.

(** A number is cut to an [int], an option can be the value of another one, and a list of
    boundaries without a number is undefined. *)
Example number_is_cut : toNumber "4294967297" = Goes 1.
Proof. vm_compute. reflexivity. Qed.
Example option_is_also_a_value : (fun s => (st_key_file s, st_admin_secured s)) <$> settings ["h2agent"; "-k"; "-s"] = Some ("-s", true).
Proof. vm_compute. reflexivity. Qed.
Example no_boundary_is_undefined : loadHistogramBoundaries "none" = Undefined.
Proof. vm_compute. reflexivity. Qed.
End StartupExamples.
