(* ===== verification/Shutdown.v ===== *)
(** The end of the program ([main.cpp], [stopAgent] and [myExit]): the objects [main] makes,
    in their order, what the servers are started with, and the release of the objects,
    whenever the program ends. *)
From S2P Require Import Prelude Std Double Functions Query Json JsonModel External JsonConstraint Keys DataPart MockEvents MockData TypeConverter Vault Transformation Reports ClientEndpoint Schema Stages ServerProvision ServerAdmin TrafficServer ClientProvision Ticker ClientFlow AdminServer Files FileProperties Startup.
From stdpp Require Import options.
#[local] Open Scope Z_scope.

(** ** The objects of the program *)

(** The global pointers of [main.cpp]. *)
Inductive Global :=
| TimersIoContext
| ClientWorkerIoContext
| AdminHttp2Server
| TrafficHttp2Server
| GConfiguration
| GVault
| GFileManager
| GSocketManager
| GMockServerData
| GMockClientData
| GWaitManager
| GSseManager
| GMetrics.
#[global] Instance Global_eq_dec : EqDecision Global.
Proof. solve_decision. Defined.

(** The objects [main] makes, in order: the first five before it reads the command line. *)
Definition main_objects (s : Settings) : list Global :=
  [TimersIoContext; GConfiguration; GVault; GFileManager; GSocketManager]
  ++ (if disable_metrics_ (st_configuration s) then [] else [GMetrics])
  ++ [AdminHttp2Server]
  ++ (if 0 <? st_client_workers s then [ClientWorkerIoContext] else [])
  ++ [GMockServerData; GMockClientData; GWaitManager; GSseManager]
  ++ (if st_traffic_enabled s then [TrafficHttp2Server] else []).

(** ** The start of the servers *)

(** The addresses of the servers and of the exposer of metrics. *)
Definition bind_addresses (s : Settings) : string * string :=
  if sempty (st_bind_address s) then (if st_ipv6 s then ("::", "[::]") else ("0.0.0.0", "0.0.0.0"))
  else (st_bind_address s, st_bind_address s).
Definition exposer_address (s : Settings) : string := (bind_addresses s).2 +:+ ":" +:+ st_prometheus_port s.

Definition traffic_secured (s : Settings) : bool := negb (sempty (st_key_file s)) && negb (sempty (st_crt_file s)).

(** The arguments of [serve], and the password of the key. *)
Record Serve := mkServe {
  sv_address : string;
  sv_port : string;
  sv_key : string;
  sv_crt : string;
  sv_threads : Z;
  sv_password : option string
}.
Definition key_password (b : bool) (s : Settings) : option string :=
  if negb (sempty (st_key_password s)) && b then Some (st_key_password s) else None.
Definition admin_serve (s : Settings) : Serve :=
  mkServe (bind_addresses s).1 (st_admin_port s) (if st_admin_secured s then st_key_file s else "")
    (if st_admin_secured s then st_crt_file s else "") 1 (key_password (st_admin_secured s) s).
Definition traffic_serve (s : Settings) : option Serve :=
  if st_traffic_enabled s
  then Some (mkServe (bind_addresses s).1 (st_traffic_server_port s) (st_key_file s) (st_crt_file s) (st_io_threads s)
               (key_password (traffic_secured s) s))
  else None.

(** The exit when a server could not start, the administration first. *)
Definition serve_exit (rc1 rc2 : Z) : option Z :=
  if negb (rc1 =? EXIT_SUCCESS) then Some rc1 else if negb (rc2 =? EXIT_SUCCESS) then Some rc2 else None.

(** ** The release of the objects *)

(** The pointers that are not null, the services that were stopped and the objects that
    were released, in order, and the state of the objects whose destructors do something;
    [pc_ticking] tells that a client provision has a timer. *)
Record Process := mkProcess {
  pc_pointers : list Global;
  pc_stopped : list Global;
  pc_released : list Global;
  pc_files : FileManager;
  pc_sockets : SocketManager;
  pc_waits : WaitManager;
  pc_ticking : bool
}.

Section Release.
Context (metrics_ : bool).

(** A destructor uses an object: it must not have been released. *)
Definition uses (g : Global) : M Process unit :=
  do p <- get ;; if bool_decide (g ∈ pc_released p) then throw undefined else ret tt.
Definition on_files (f : FileManager -> FileManager) (p : Process) : Process :=
  mkProcess (pc_pointers p) (pc_stopped p) (pc_released p) (f (pc_files p)) (pc_sockets p) (pc_waits p) (pc_ticking p).

(** [SafeFile::~SafeFile] closes the file, and counts it in the metrics. *)
Definition sf_destroy (path : string) (m : FileManager) : FileManager :=
  match files_ m !! path with
  | Some f => let '(f, m) := sf_close metrics_ path f m in with_file path f m
  | None => m
  end.
Definition fm_destroy (m : FileManager) : FileManager := foldl (fun m pf => sf_destroy pf.1 m) m (map_to_list (files_ m)).

(** The destructors: the provisions of the administration post the cancellation of their
    timers, the files are closed, and the datagrams that wait are dropped. *)
Definition destroy (g : Global) : M Process unit :=
  match g with
  | AdminHttp2Server => do p <- get ;; if pc_ticking p then uses TimersIoContext else ret tt
  | GFileManager =>
      do p <- get ;;
      (if metrics_ && bool_decide (open_files (files_ (pc_files p)) <> ∅) then uses GMetrics else ret tt) ;;;
      (if bool_decide (files_ (pc_files p) <> ∅) then uses TimersIoContext else ret tt) ;;;
      modify (on_files fm_destroy)
  | GSocketManager =>
      modify (fun p => let k := pc_sockets p in
        mkProcess (pc_pointers p) (pc_stopped p) (pc_released p) (pc_files p)
          (mkSocketManager ∅ [] (sent_ k) (socket_counters k)) (pc_waits p) (pc_ticking p))
  | _ => ret tt
  end.

(** [delete(p); p = nullptr;] *)
Definition null (g : Global) (p : Process) : Process :=
  mkProcess (filter (fun h => h <> g) (pc_pointers p)) (pc_stopped p) (pc_released p ++ [g]) (pc_files p) (pc_sockets p) (pc_waits p) (pc_ticking p).
Definition release (g : Global) : M Process unit :=
  do p <- get ;; if bool_decide (g ∈ pc_pointers p) then destroy g ;;; modify (null g) else ret tt.
Fixpoint release_all (l : list Global) : M Process unit :=
  match l with [] => ret tt | g :: l => release g ;;; release_all l end.

(** [if (p) p->stop();] *)
Definition stop_service (g : Global) (p : Process) : Process :=
  if bool_decide (g ∈ pc_pointers p)
  then mkProcess (pc_pointers p) (pc_stopped p ++ [g]) (pc_released p) (pc_files p) (pc_sockets p) (pc_waits p) (pc_ticking p)
  else p.
Definition shutdown_waits (p : Process) : Process :=
  if bool_decide (GWaitManager ∈ pc_pointers p)
  then mkProcess (pc_pointers p) (pc_stopped p) (pc_released p) (pc_files p) (pc_sockets p) (wait_shutdown (pc_waits p)) (pc_ticking p)
  else p.

Definition stopAgent : M Process unit :=
  modify (stop_service TimersIoContext) ;;;
  modify (stop_service ClientWorkerIoContext) ;;;
  modify (stop_service AdminHttp2Server) ;;;
  modify (stop_service TrafficHttp2Server) ;;;
  release GMockServerData ;;;
  modify shutdown_waits ;;;
  release_all [GWaitManager; GSseManager; GMetrics; TrafficHttp2Server; AdminHttp2Server; GFileManager; GSocketManager; GVault;
               GConfiguration; TimersIoContext; ClientWorkerIoContext].

(** [myExit]: the program ends with its code, whatever there was to release. *)
Definition myExit (rc : Z) (p : Process) : Process * outcome Z :=
  match stopAgent p with
  | (p, Val _) => (p, Val rc)
  | (p, Throw e) => (p, Throw e)
  end.
End Release.

(** ** Files that are closed at the end *)

Section Closing.
Context (max_open_files_ : Z) (metrics_ : bool) (creatable : string -> bool).
#[local] Notation files_inv := (files_inv max_open_files_ metrics_ creatable).

Lemma sf_destroy_done path m : files_inv m ->
  files_inv (sf_destroy metrics_ path m) /\ abs (sf_destroy metrics_ path m) = abs m /\
  dom (files_ (sf_destroy metrics_ path m)) = dom (files_ m) /\
  forall q f, files_ (sf_destroy metrics_ path m) !! q = Some f ->
    (q = path -> is_open f = false) /\ (q <> path -> files_ m !! q = Some f).
Proof.
  intros Hi. unfold sf_destroy. destruct (files_ m !! path) as [f|] eqn:Ef; [|split_and!; [done..|intros; split; [by intros ->; congruence|done]]].
  destruct (sf_close metrics_ path f m) as [f' m'] eqn:Ec.
  destruct (close_done _ _ _ _ _ _ _ _ (hand_take _ _ _ path f m Hi Ef) Ec) as (Hh & Hf & _ & _ & Eo & _ & Ha).
  split_and!; [by apply hand_put; [|intros ?; congruence]|by rewrite Ha, abs_taken| |].
  - cbn. rewrite Hf, dom_insert_L. apply elem_of_dom_2 in Ef. set_solver.
  - cbn. rewrite Hf. intros q g Hg. apply lookup_insert_Some in Hg as [[<- <-]|[Hq Hg]]; split; congruence.
Qed.

Lemma closing_done (l : list (string * SafeFile)) : forall m, files_inv m ->
  let m' := foldl (fun m pf => sf_destroy metrics_ pf.1 m) m l in
  files_inv m' /\ abs m' = abs m /\
  forall q f, files_ m' !! q = Some f -> is_open f = true -> q ∉ l.*1 /\ files_ m !! q = Some f.
Proof.
  induction l as [|[p g] l IH]; intros m Hi; cbn.
  - split_and!; [done..|]. intros. split; [set_solver|done].
  - destruct (sf_destroy_done p m Hi) as (Hi1 & Ha1 & _ & Hf1). destruct (IH _ Hi1) as (Hi2 & Ha2 & Hf2). split_and!; [done|congruence|].
    intros q f Hq Ho. destruct (Hf2 q f Hq Ho) as [Hn Hq1]. destruct (Hf1 q f Hq1) as [Hc Hd].
    destruct (decide (q = p)) as [->|Hne]; [by rewrite Hc in Ho|]. split; [set_solver|by apply Hd].
Qed.

(** What the streams held back is in the files. *)
Lemma fm_destroy_done m : files_inv m -> disk_ (fm_destroy metrics_ m) = abs m.
Proof.
  intros Hi. destruct (closing_done (map_to_list (files_ m)) m Hi) as (Hi' & Ha & Ho). fold (fm_destroy metrics_ m) in Hi', Ha, Ho.
  rewrite <- Ha. apply map_eq. intros q. rewrite content_lookup.
  assert (pending (fm_destroy metrics_ m) q = "") as ->.
  { unfold pending. destruct (files_ (fm_destroy metrics_ m) !! q) as [f|] eqn:Ef; [|done].
    destruct (is_open f) eqn:E.
    - destruct (Ho q f Ef E) as [Hn Hq]. contradict Hn. apply list_elem_of_fmap. exists (q, f). split; [done|]. by apply elem_of_map_to_list.
    - destruct (proj1 Hi' q f Ef) as [[Hb _] _]. apply Hb. unfold is_open in E. by destruct (opened_ f). }
  destruct (disk_ _ !! q); cbn; by rewrite ?string_app_nil_r.
Qed.
End Closing.

(** ** The order of the releases *)

Section Stop.
Context (metrics_ : bool) (P : list Global) (m : FileManager) (sent : list (SafeSocket * string)).

(** The objects in [dn] have been released, as far as they had been made. *)
Record stopping (dn : list Global) (p : Process) : Prop := {
  st_pointers : pc_pointers p = filter (fun g => g ∉ dn) P;
  st_released : pc_released p = filter (fun g => g ∈ P) dn;
  st_files : pc_files p = if bool_decide (GFileManager ∈ filter (fun g => g ∈ P) dn) then fm_destroy metrics_ m else m;
  st_sent : sent_ (pc_sockets p) = sent
}.

(** What a destructor uses has not been released. *)
Definition safe (dn : list Global) (g : Global) : Prop :=
  match g with
  | AdminHttp2Server => TimersIoContext ∉ dn
  | GFileManager => TimersIoContext ∉ dn /\ (metrics_ = false \/ open_files (files_ m) = ∅)
  | _ => True
  end.

Lemma uses_ok dn p g : stopping dn p -> g ∉ dn -> uses g p = (p, Val tt).
Proof.
  intros [_ Hr _ _] Hg. unfold uses, bind, get. rewrite Hr, bool_decide_eq_false_2; [done|]. rewrite list_elem_of_filter. tauto.
Qed.

Lemma null_pointers dn g : filter (fun h => h <> g) (filter (fun h => h ∉ dn) P) = filter (fun h => h ∉ dn ++ [g]) P.
Proof. rewrite list_filter_filter. apply list_filter_iff. intros h. set_solver. Qed.

Lemma filter_without (g : Global) (l : list Global) : g ∉ l -> filter (fun h => h <> g) l = l.
Proof.
  induction l as [|h l IH]; intros Hg; [done|]. rewrite filter_cons, decide_True by set_solver. f_equal. apply IH. set_solver.
Qed.

(** A destructor leaves the bookkeeping alone. *)
Lemma destroy_ok dn p g : stopping dn p -> g ∉ dn -> g ∈ P -> safe dn g ->
  exists p', destroy metrics_ g p = (p', Val tt) /\ stopping (dn ++ [g]) (null g p').
Proof.
  intros Hs Hg HP Hsafe. pose proof Hs as [H1 H2 H3 H4].
  assert (bool_decide (GFileManager ∈ filter (fun g => g ∈ P) (dn ++ [g])) =
          bool_decide (GFileManager ∈ filter (fun g => g ∈ P) dn) || bool_decide (g = GFileManager)) as Hb.
  { rewrite filter_app. cbn. rewrite decide_True by done. destruct (bool_decide_reflect (g = GFileManager)) as [->|Hn].
    - rewrite orb_true_r. apply bool_decide_eq_true_2. set_solver.
    - rewrite orb_false_r. apply bool_decide_ext. set_solver. }
  assert (forall p', pc_pointers p' = pc_pointers p -> pc_released p' = pc_released p -> sent_ (pc_sockets p') = sent ->
    pc_files p' = (if bool_decide (g = GFileManager) then fm_destroy metrics_ m else pc_files p) -> stopping (dn ++ [g]) (null g p')) as Hnull.
  { intros p' E1 E2 E3 E4. split; cbn; [by rewrite E1, H1, null_pointers| |rewrite Hb, E4, H3; by destruct (bool_decide (g = _)), (bool_decide (_ ∈ _))|done].
    rewrite E2, H2, filter_app. cbn. by rewrite decide_True. }
  destruct g; cbn; try (exists p; split; [done|by apply Hnull]).
  - unfold bind, get. destruct (pc_ticking p).
    + rewrite (uses_ok dn p TimersIoContext) by done. exists p. split; [done|by apply Hnull].
    + exists p. split; [done|by apply Hnull].
  - destruct Hsafe as [Ht Hm]. unfold bind, get.
    assert (pc_files p = m) as Hf. { rewrite H3, bool_decide_eq_false_2; [done|]. rewrite list_elem_of_filter; tauto. }
    assert ((if metrics_ && bool_decide (open_files (files_ (pc_files p)) <> ∅) then uses GMetrics else ret tt) p = (p, Val tt)) as ->.
    { rewrite Hf. destruct Hm as [-> | ->]; [done|]. rewrite bool_decide_eq_false_2 by tauto. by rewrite andb_false_r. }
    assert ((if bool_decide (files_ (pc_files p) <> ∅) then uses TimersIoContext else ret tt) p = (p, Val tt)) as ->.
    { destruct (bool_decide (files_ (pc_files p) <> ∅)); [by apply (uses_ok dn)|done]. }
    eexists. split; [reflexivity|]. apply Hnull; cbn; [done..|by rewrite Hf].
  - eexists. split; [reflexivity|]. by apply Hnull.
Qed.

Lemma release_ok dn p g : stopping dn p -> g ∉ dn -> safe dn g ->
  exists p', release metrics_ g p = (p', Val tt) /\ stopping (dn ++ [g]) p'.
Proof.
  intros Hs Hg Hsafe. unfold release. unfold bind at 1, get at 1. rewrite (st_pointers _ _ Hs). case_bool_decide as Hin.
  - apply list_elem_of_filter in Hin as [_ HP]. destruct (destroy_ok dn p g Hs Hg HP Hsafe) as (p' & E & Hs').
    exists (null g p'). split; [|done]. unfold bind. by rewrite E.
  - exists p. split; [done|]. assert (g ∉ P) as HP by (rewrite list_elem_of_filter in Hin; tauto). destruct Hs as [H1 H2 H3 H4].
    assert (filter (fun g => g ∈ P) (dn ++ [g]) = filter (fun g => g ∈ P) dn) as E.
    { rewrite filter_app. cbn. rewrite decide_False by done. by rewrite app_nil_r. }
    split; [|by rewrite E|by rewrite E|done]. rewrite H1, <- null_pointers. symmetry. apply filter_without. by rewrite list_elem_of_filter; tauto.
Qed.

Lemma release_all_ok l : forall dn p, stopping dn p -> NoDup (dn ++ l) ->
  (forall l1 g l2, l = l1 ++ g :: l2 -> safe (dn ++ l1) g) ->
  exists p', release_all metrics_ l p = (p', Val tt) /\ stopping (dn ++ l) p'.
Proof.
  induction l as [|g l IH]; intros dn p Hs Hn Hsafe; cbn; [exists p; by rewrite app_nil_r|].
  apply NoDup_app in Hn as Hn'. destruct Hn' as (_ & Hg & _).
  destruct (release_ok dn p g Hs) as (p1 & E & Hs1); [set_solver|specialize (Hsafe [] g l eq_refl); by rewrite app_nil_r in Hsafe|].
  destruct (IH (dn ++ [g]) p1 Hs1) as (p2 & E2 & Hs2); [by rewrite <- app_assoc|intros l1 h l2 ->; rewrite <- app_assoc; by apply (Hsafe (g :: l1) h l2)|].
  exists p2. unfold bind. rewrite E. rewrite <- app_assoc in Hs2. done.
Qed.
End Stop.

Lemma release_all_app metrics_ l1 l2 p p' : release_all metrics_ l1 p = (p', Val tt) ->
  release_all metrics_ (l1 ++ l2) p = release_all metrics_ l2 p'.
Proof.
  revert p. induction l1 as [|g l1 IH]; intros p; cbn; [by intros [= ->]|].
  unfold bind. destruct (release metrics_ g p) as [p1 [[]|]]; [apply IH|done].
Qed.

(** The objects in the order in which they are released. *)
Definition released_order : list Global :=
  [GMockServerData; GWaitManager; GSseManager; GMetrics; TrafficHttp2Server; AdminHttp2Server; GFileManager; GSocketManager; GVault;
   GConfiguration; TimersIoContext; ClientWorkerIoContext].

Lemma released_order_all g : g ∈ released_order <-> g <> GMockClientData.
Proof. unfold released_order. destruct g; set_solver. Qed.
Lemma released_order_once : NoDup released_order.
Proof. apply (bool_decide_unpack _). vm_compute. exact I. Qed.

Lemma main_objects_once s n : NoDup (take n (main_objects s)).
Proof.
  eapply sublist_NoDup; [|apply sublist_take]. unfold main_objects.
  destruct (disable_metrics_ _), (0 <? _), (st_traffic_enabled s); apply (bool_decide_unpack _); vm_compute; exact I.
Qed.
Lemma first_objects s n g : (5 <= n)%nat -> g ∈ [TimersIoContext; GConfiguration; GVault; GFileManager; GSocketManager] -> g ∈ take n (main_objects s).
Proof.
  intros Hn Hg. unfold main_objects. rewrite take_app. apply elem_of_app. left. by rewrite take_ge.
Qed.

Section StopAgent.
Context (metrics_ : bool).

Lemma stop_service_ok P m sent dn g p : stopping metrics_ P m sent dn p -> stopping metrics_ P m sent dn (stop_service g p).
Proof. unfold stop_service. case_bool_decide; [|done]. by intros []. Qed.
Lemma shutdown_waits_ok P m sent dn p : stopping metrics_ P m sent dn p -> stopping metrics_ P m sent dn (shutdown_waits p).
Proof. unfold shutdown_waits. case_bool_decide; [|done]. by intros []. Qed.

(** The program stops its services, and the data of the server is the first it releases. *)
Lemma stop_begins P m k w t : exists p1,
  (forall rest : M Process unit, bind (modify (stop_service TimersIoContext)) (fun _ => bind (modify (stop_service ClientWorkerIoContext))
     (fun _ => bind (modify (stop_service AdminHttp2Server)) (fun _ => bind (modify (stop_service TrafficHttp2Server))
     (fun _ => bind (release metrics_ GMockServerData) (fun _ => bind (modify shutdown_waits) (fun _ => rest)))))) (mkProcess P [] [] m k w t) = rest p1) /\
  stopping metrics_ P m (sent_ k) [GMockServerData] p1.
Proof.
  assert (stopping metrics_ P m (sent_ k) [] (mkProcess P [] [] m k w t)) as H0.
  { split; cbn; [|done..]. induction P as [|g l IH]; [done|]. rewrite filter_cons, decide_True by set_solver. by f_equal. }
  apply (stop_service_ok _ _ _ _ TimersIoContext), (stop_service_ok _ _ _ _ ClientWorkerIoContext),
    (stop_service_ok _ _ _ _ AdminHttp2Server), (stop_service_ok _ _ _ _ TrafficHttp2Server) in H0.
  destruct (release_ok _ _ _ _ [] _ GMockServerData H0) as (p1 & E1 & H1); [set_solver|done|].
  exists (shutdown_waits p1). split; [|by apply shutdown_waits_ok]. intros rest. unfold bind, modify. by rewrite E1.
Qed.

(** Before the release of the files, what a destructor uses is there. *)
Lemma order_safe m l1 g l2 : metrics_ = false \/ open_files (files_ m) = ∅ ->
  released_order = l1 ++ g :: l2 -> safe metrics_ m l1 g.
Proof.
  intros Hm Ho. assert (g = AdminHttp2Server \/ g = GFileManager -> TimersIoContext ∉ l1) as Ht.
  { intros Hg. unfold released_order in Ho.
    do 12 (destruct l1 as [|? l1]; [injection Ho as <- Ho; destruct Hg; (done || set_solver)|injection Ho as <- Ho]).
    by destruct l1. }
  destruct g; cbn; auto.
Qed.

Lemma stop_releases P m k w t : metrics_ = false \/ open_files (files_ m) = ∅ ->
  exists p, stopAgent metrics_ (mkProcess P [] [] m k w t) = (p, Val tt) /\ stopping metrics_ P m (sent_ k) released_order p.
Proof.
  intros Hm. destruct (stop_begins P m k w t) as (p1 & E1 & H1).
  destruct (release_all_ok _ _ _ _ (tail released_order) _ _ H1 released_order_once) as (p2 & E2 & H2).
  { intros l1 g l2 E. apply (order_safe m (GMockServerData :: l1) g l2 Hm). unfold released_order in *. cbn in *. by rewrite E. }
  exists p2. split; [|done]. unfold stopAgent. rewrite E1. exact E2.
Qed.

(** Without anything left to release, stopping again does nothing. *)
Lemma stop_again p : (forall g, g ∈ released_order -> g ∉ pc_pointers p) -> stopAgent metrics_ p = (p, Val tt).
Proof.
  intros Hp. assert (forall g, g ∈ released_order -> stop_service g p = p) as Hs.
  { intros g Hg. unfold stop_service. by rewrite bool_decide_eq_false_2 by auto. }
  assert (forall g, g ∈ released_order -> release metrics_ g p = (p, Val tt)) as Hr.
  { intros g Hg. unfold release, bind, get. by rewrite bool_decide_eq_false_2 by auto. }
  assert (shutdown_waits p = p) as Hw. { unfold shutdown_waits. rewrite bool_decide_eq_false_2; [done|]. apply Hp. set_solver. }
  unfold stopAgent, bind, modify. rewrite !Hs by set_solver. rewrite Hr by set_solver. rewrite Hw. cbn.
  unfold bind. by rewrite !Hr by set_solver.
Qed.
End StopAgent.

(** ** Properties *)

Section AtTheEnd.
Context (max_open_files_ : Z) (io_context_ : bool) (creatable : string -> bool) (s : Settings).
Context (d : gmap string string) (l : list FileOp) (m : FileManager) (k : SocketManager) (w : WaitManager) (ticking : bool).
(** The program ends after it has made [n] of its objects, the first five at least, and
    after any operations on its files. *)
Context (n : nat) (Hn : (5 <= n)%nat) (Hmax : 0 <= max_open_files_).
#[local] Notation metrics_ := (negb (disable_metrics_ (st_configuration s))).
Context (Hrun : file_run max_open_files_ io_context_ metrics_ creatable l (FileManager_new d) = Some m).
#[local] Notation made := (take n (main_objects s)).
#[local] Notation process := (mkProcess made [] [] m k w ticking).

(** C19: whenever the program ends, every object it has made but the data of the client is
    released, once, none is used after it was released, and stopping again does nothing;
    every text written is in its file, although streams held it back, and no datagram is
    sent any more; if there are no metrics, or no file is open. *)
Theorem stop_loses_nothing (Hfree : disable_metrics_ (st_configuration s) = true \/ open_files (files_ m) = ∅) :
  exists p, stopAgent metrics_ process = (p, Val tt) /\
    pc_released p ≡ₚ filter (fun g => g <> GMockClientData) made /\
    pc_pointers p = filter (fun g => g = GMockClientData) made /\
    disk_ (pc_files p) = foldl (fun a o => spec_do creatable o a) d l /\
    sent_ (pc_sockets p) = sent_ k /\
    stopAgent metrics_ p = (p, Val tt).
Proof using Hmax Hn Hrun.
  destruct (stop_releases metrics_ made m k w ticking) as (p & E & [H1 H2 H3 H4]).
  { destruct Hfree as [-> | ?]; auto. }
  assert (pc_pointers p = filter (fun g => g = GMockClientData) made) as Hp.
  { rewrite H1. apply list_filter_iff. intros g. rewrite released_order_all. destruct (decide (g = GMockClientData)); tauto. }
  exists p. split_and!; [done| |done| |done|].
  - rewrite H2. apply NoDup_Permutation; [apply NoDup_filter, released_order_once|apply NoDup_filter, main_objects_once|].
    intros g. rewrite !list_elem_of_filter, released_order_all. tauto.
  - rewrite H3, bool_decide_eq_true_2.
    + destruct (file_run_done _ _ _ _ l _ m (files_start_inv _ _ _ d Hmax) Hrun) as [Hi Ha]. rewrite abs_start in Ha.
      by rewrite (fm_destroy_done _ _ _ _ Hi).
    + apply list_elem_of_filter. split; [apply first_objects; [done|set_solver]|by apply released_order_all].
  - apply stop_again. intros g Hg. rewrite Hp, list_elem_of_filter. apply released_order_all in Hg. tauto.
Qed.

(** With metrics, a file that is still open is counted as closed in metrics that have been
    released. *)
Theorem open_file_is_counted_in_released_metrics (Hm : GMetrics ∈ made) (Ho : open_files (files_ m) <> ∅) :
  (stopAgent metrics_ process).2 = Throw undefined.
Proof using Hn.
  clear Hrun Hmax. assert (metrics_ = true) as Em.
  { destruct (disable_metrics_ (st_configuration s)) eqn:Ed; [|done]. apply elem_of_take in Hm as (i & Hi & _). exfalso.
    apply list_elem_of_lookup_2 in Hi. unfold main_objects in Hi. rewrite Ed in Hi. repeat case_match; set_solver. }
  rewrite Em. destruct (stop_begins true made m k w ticking) as (p1 & E1 & H1).
  destruct (release_all_ok _ _ _ _ [GWaitManager; GSseManager; GMetrics; TrafficHttp2Server; AdminHttp2Server] _ _ H1) as (p2 & E2 & H2).
  { apply (bool_decide_unpack _). vm_compute. exact I. }
  { intros l1 g l2 E. do 5 (destruct l1 as [|? l1]; [injection E as <- E; cbn; (done || set_solver)|injection E as <- E]). by destruct l1. }
  unfold stopAgent. rewrite E1.
  pose proof (release_all_app true _ [GFileManager; GSocketManager; GVault; GConfiguration; TimersIoContext; ClientWorkerIoContext] _ _ E2) as E3.
  cbn [app] in E3. rewrite E3.
  destruct H2 as [Hp Hr Hf _].
  assert (pc_files p2 = m) as Hfm. { rewrite Hf, bool_decide_eq_false_2; [done|]. rewrite list_elem_of_filter. set_solver. }
  cbn. unfold release, bind, get. rewrite Hp, bool_decide_eq_true_2.
  2: { apply list_elem_of_filter. split; [set_solver|apply first_objects; [done|set_solver]]. }
  unfold destroy, uses, bind, get, throw. rewrite Hfm, (bool_decide_eq_true_2 (open_files _ <> ∅)) by done. cbn [andb].
  rewrite Hr, bool_decide_eq_true_2; [done|]. apply list_elem_of_filter. split; [done|set_solver].
Qed.
End AtTheEnd.

(** ** Witnesses *)

Module ShutdownExamples.
Definition settings (argv : list string) : Settings :=
  match readCommandLine argv "h2agent" (fun _ => true) 8 true with
  | Goes s => s
  | _ => mkSettings "" None false false "" "" "" "" "" 0 0 0 0 0 0 "" "" "" false "" "" "" "" "" "" false false false false false "" [] [] 0 0 false Configuration_new
  end.
Definition anywhere (_ : string) : bool := true.
Definition writes : list FileOp := [FWrite 1 "/a" "one" true 1000; FWrite 0 "/a" "two" true 1000].
Definition files (metrics : bool) : FileManager := default (FileManager_new ∅) (file_run 4 true metrics anywhere writes (FileManager_new ∅)).
Definition waits : WaitManager := mkWait 0 false.

(** A stream holds a text back, and stopping writes it. *)
Lemma stop_loses_nothing_witness :
  disk_ (files false) !! "/a" = Some "o" /\
  exists p, stopAgent false (mkProcess (main_objects (settings ["h2agent"; "--disable-metrics"])) [] [] (files false) SocketManager_new waits true) = (p, Val tt) /\
    disk_ (pc_files p) !! "/a" = Some "onetwo" /\ pc_pointers p = [GMockClientData].
Proof.
  split; [vm_compute; reflexivity|].
  destruct (stop_loses_nothing 4 true anywhere (settings ["h2agent"; "--disable-metrics"]) ∅ writes (files false) SocketManager_new waits true 13
    ltac:(lia) ltac:(lia) ltac:(vm_compute; reflexivity) ltac:(left; vm_compute; reflexivity)) as (p & E & _ & Hp & Hd & _).
  exists p. split_and!; [exact E|rewrite Hd; vm_compute; reflexivity|rewrite Hp; vm_compute; reflexivity].
Defined.

Lemma open_file_is_counted_in_released_metrics_witness :
  (stopAgent true (mkProcess (take 13 (main_objects (settings ["h2agent"]))) [] [] (files true) SocketManager_new waits true)).2 = Throw undefined.
Proof.
  apply (open_file_is_counted_in_released_metrics (settings ["h2agent"]) (files true) SocketManager_new waits true 13 ltac:(lia)).
  - apply (bool_decide_unpack _). vm_compute. exact I.
  - apply (bool_decide_unpack _). vm_compute. exact I.
Defined.

(** The administration has a key file only when it is to be secured, and the exposer of
    metrics writes its address in brackets. *)
Example server_arguments :
  let s := settings ["h2agent"; "--ipv6"; "-k"; "k.pem"; "-c"; "c.pem"; "-d"; "secret"] in
  admin_serve s = mkServe "::" "8074" "" "" 1 None /\
  traffic_serve s = Some (mkServe "::" "8000" "k.pem" "c.pem" 1 (Some "secret")) /\
  exposer_address s = "[::]:8080".
Proof. vm_compute. done. Qed.
End ShutdownExamples.
