(* ===== verification/Banner.v ===== *)
(** What [main] says of its settings on the standard output before the servers start
    ([src/main.cpp]): each line is a title and a value.  The drawing of the program and the
    line with the date are left out. *)
From S2P Require Import Prelude Std Double Functions Query Json JsonModel External JsonConstraint Keys DataPart MockEvents MockData TypeConverter Vault Transformation Reports ClientEndpoint Schema Stages ServerProvision ServerAdmin TrafficServer ClientProvision Ticker ClientFlow AdminServer Startup StartupProperties Shutdown.
From stdpp Require Import options.
#[local] Open Scope Z_scope.

(** ** The lines *)

Definition choice (b : bool) (yes no : string) : string := if b then yes else no.
Definition or_none (none s : string) : string := if sempty s then none else s.

(** The lines of the workers: the queue is used with more than one. *)
Definition queue_lines (s : Settings) : list (string * string) :=
  if 1 <? st_worker_threads s then
    [("Traffic server maximum worker threads: ", to_string_i (st_max_worker_threads s));
     ("Traffic server queue dispatcher congestion control: ", choice (0 <=? st_queue_max_size s) "enabled" "disabled")]
    ++ (if 0 <=? st_queue_max_size s then [("Traffic server queue dispatcher maximum size allowed: ", to_string_i (st_queue_max_size s))] else [])
  else [].

(** The key and the certificate; the password itself is not shown. *)
Definition secure_lines (s : Settings) : list (string * string) :=
  [("Traffic server key password: ", if sempty (st_key_password s) then "<not provided>" else "***");
   ("Traffic server key file: ", or_none "<not provided>" (st_key_file s));
   ("Traffic server crt file: ", or_none "<not provided>" (st_crt_file s))]
  ++ (if traffic_secured s then [] else
        [("SSL/TLS disabled: ", "both key & certificate must be provided")]
        ++ (if sempty (st_key_password s) then [] else [("Traffic server key password was provided but will be ignored !", "")]))
  ++ [("Traffic secured: ", choice (traffic_secured s) "yes" "no")].

Definition traffic_lines (max_streams : bool) (s : Settings) : list (string * string) :=
  [("Traffic server local bind address: ", (bind_addresses s).1);
   ("Traffic server local port: ", st_traffic_server_port s);
   ("Traffic server api name: ", or_none "<none>" (st_api_name s));
   ("Traffic server api version: ", or_none "<none>" (st_api_version s));
   ("Traffic server worker threads: ", to_string_i (st_worker_threads s));
   ("Traffic server I/O threads: ", to_string_i (st_io_threads s))]
  ++ (if max_streams then [("Traffic server max concurrent streams: ", to_string_u (st_max_concurrent_streams s))] else [])
  ++ queue_lines s ++ secure_lines s.

Definition data_lines (s : Settings) : list (string * string) :=
  [("Schema configuration file: ", or_none "<not provided>" (st_schema_file s));
   ("Vault configuration file: ", or_none "<not provided>" (st_vault_file s));
   ("Traffic server process request body: ", choice (negb (st_ignore_request_body s)) "true" "false");
   ("Traffic server pre reserve request body: ", choice (negb (st_dynamic_allocation s)) "true" "false");
   ("Data storage: ", choice (negb (st_discard_data s)) "enabled" "disabled");
   ("Data key history storage: ", choice (negb (st_discard_key_history s)) "enabled" "disabled");
   ("Purge execution: ", choice (st_disable_purge s) "disabled" "enabled")].

Definition file_lines (s : Settings) : list (string * string) :=
  (if st_traffic_enabled s then
     [("Traffic server matching configuration file: ", or_none "<not provided>" (st_matching_file s));
      ("Traffic server provision configuration file: ", or_none "<not provided>" (st_provision_file s))]
   else [])
  ++ [("Traffic client endpoint configuration file: ", or_none "<not provided>" (st_endpoint_file s));
      ("Traffic client provision configuration file: ", or_none "<not provided>" (st_client_provision_file s))].

(** The boundaries are shown as the texts [loadHistogramBoundaries] made. *)
Definition metrics_lines (delay_text size_text : string) (s : Settings) : list (string * string) :=
  if disable_metrics_ (st_configuration s) then [("Metrics (prometheus): ", "disabled")]
  else
    [("Prometheus local bind address: ", (bind_addresses s).2); ("Prometheus local port: ", st_prometheus_port s)]
    ++ (match st_delay_boundaries s with [] => [] | _ => [("Prometheus 'response delay seconds' histogram boundaries: ", delay_text)] end)
    ++ (match st_size_boundaries s with [] => [] | _ => [("Prometheus 'message size bytes' histogram boundaries: ", size_text)] end).

Definition client_lines (s : Settings) : list (string * string) :=
  let c := st_configuration s in
  [("Long-term files close delay (usecs): ", to_string_u (long_term_files_close_delay_us_ c));
   ("Short-term files close delay (usecs): ", to_string_u (short_term_files_close_delay_us_ c));
   ("Remote servers lazy connection: ", choice (lazy_client_connection_ c) "true" "false");
   ("Traffic client connections: ", to_string_u (traffic_client_connections_ c));
   ("Traffic client worker threads: ", to_string_i (st_client_workers s) +:+ (if st_client_workers s =? 0 then " (disabled)" else ""))].

(** [level] is the level of the logger. *)
Definition banner (max_streams : bool) (level delay_text size_text : string) (s : Settings) : list (string * string) :=
  [("Log level: ", level); ("Verbose (stdout): ", choice (st_verbose s) "true" "false"); ("IP stack: ", choice (st_ipv6 s) "IPv6" "IPv4");
   ("Admin local port: ", st_admin_port s);
   ("Traffic server (mock server service): ", choice (st_traffic_enabled s) "enabled" "disabled")]
  ++ (if st_traffic_enabled s then traffic_lines max_streams s else [])
  ++ [("Admin secured: ", if traffic_secured s then choice (st_admin_secured s) "yes" "no" else choice (st_admin_secured s) "ignored" "no")]
  ++ data_lines s ++ file_lines s ++ metrics_lines delay_text size_text s ++ client_lines s.

(** ** What they say *)

(** The value of the first line with a title. *)
Definition value_of (title : string) (l : list (string * string)) : option string := snd <$> find (fun tv => String.eqb tv.1 title) l.

Lemma value_of_app title l1 l2 : value_of title (l1 ++ l2) = match value_of title l1 with Some v => Some v | None => value_of title l2 end.
Proof. unfold value_of. induction l1 as [|tv l1 IH]; cbn; [done|]. by destruct (String.eqb tv.1 title). Qed.

(** The lines of the traffic server have none of the titles that follow. *)
Lemma traffic_titles max_streams s title : title ∈ ["Admin secured: "; "Traffic server process request body: ";
    "Traffic server pre reserve request body: "; "Data storage: "; "Data key history storage: "; "Purge execution: "] ->
  value_of title (traffic_lines max_streams s) = None.
Proof.
  intros Ht. unfold traffic_lines, queue_lines, secure_lines. rewrite !value_of_app.
  destruct max_streams, (1 <? st_worker_threads s), (0 <=? st_queue_max_size s), (traffic_secured s), (sempty (st_key_password s));
    repeat (apply elem_of_cons in Ht as [->|Ht]; [reflexivity|]); by apply elem_of_nil in Ht.
Qed.

Definition with_password (p : string) (s : Settings) : Settings :=
  mkSettings (st_application_name s) (st_log_level s) (st_verbose s) (st_ipv6 s) (st_bind_address s) (st_admin_port s) (st_traffic_server_port s)
    (st_api_name s) (st_api_version s) (st_io_threads s) (st_worker_threads s) (st_max_worker_threads s) (st_queue_max_size s)
    (st_max_concurrent_streams s) (st_admin_worker_threads s) (st_key_file s) p (st_crt_file s) (st_admin_secured s) (st_schema_file s)
    (st_matching_file s) (st_provision_file s) (st_endpoint_file s) (st_client_provision_file s) (st_vault_file s) (st_ignore_request_body s)
    (st_dynamic_allocation s) (st_discard_data s) (st_discard_key_history s) (st_disable_purge s) (st_prometheus_port s) (st_delay_boundaries s)
    (st_size_boundaries s) (st_client_workers s) (st_pool_max_pending s) (st_traffic_enabled s) (st_configuration s).

(** The password of the key is not in what is printed: whatever it is, as long as there is
    one, the lines are the same. *)
Theorem password_is_hidden max_streams level delay_text size_text s p1 p2 (H1 : p1 <> "") (H2 : p2 <> "") :
  banner max_streams level delay_text size_text (with_password p1 s) = banner max_streams level delay_text size_text (with_password p2 s).
Proof.
  apply sempty_false in H1, H2. unfold banner, traffic_lines, secure_lines. cbn. by rewrite H1, H2.
Qed.

(** The lines of the data are found in the whole. *)
Lemma banner_data max_streams level delay_text size_text s title : title ∈ ["Traffic server process request body: ";
    "Traffic server pre reserve request body: "; "Data storage: "; "Data key history storage: "; "Purge execution: "] ->
  value_of title (banner max_streams level delay_text size_text s) = value_of title (data_lines s).
Proof.
  intros Ht. unfold banner. rewrite !value_of_app.
  assert (value_of title (if st_traffic_enabled s then traffic_lines max_streams s else []) = None) as ->.
  { destruct (st_traffic_enabled s); [|done]. apply traffic_titles. set_solver. }
  repeat (apply elem_of_cons in Ht as [->|Ht]; [reflexivity|]). by apply elem_of_nil in Ht.
Qed.

Section Truth.
Context `{JsonEq} `{JsonText} `{JsonPointer} `{RegexLib} `{!RegexSearch} `{SchemaLib} `{Calculus} {OS : Type} `{Outside OS} `{AdminOutside OS} `{StdSort}.
Context (decode_url : string -> string) (ub : double -> Z) (schema_text : Operation -> json) (file_content : string -> option string).

(** Of a traffic server that has started, the lines say what it does with the bodies, the
    events, their history and the purge. *)
Theorem banner_tells_the_server max_streams level delay_text size_text (out : OS) (s : Settings) (a' : Agent (OS := OS)) (msgs : list string)
  (Hb : boot decode_url ub schema_text file_content s (boot_agent out s) = (a', Val msgs)) (Ht : st_traffic_enabled s = true) :
  let told title := value_of title (banner max_streams level delay_text size_text s) in
  told "Data storage: " = Some (choice (server_data_ (ag_server a')) "enabled" "disabled") /\
  told "Data key history storage: " = Some (choice (server_data_key_history_ (ag_server a')) "enabled" "disabled") /\
  told "Purge execution: " = Some (choice (purge_execution_ (ag_server a')) "enabled" "disabled") /\
  told "Traffic server process request body: " = Some (choice (receive_request_body_ (ag_server a')) "true" "false") /\
  told "Traffic server pre reserve request body: " = Some (choice (pre_reserve_request_body_ (ag_server a')) "true" "false").
Proof.
  apply boot_done in Hb as (_ & _ & Hs). specialize (Hs Ht). injection Hs as E1 E2 E3 E4 E5.
  cbv beta zeta. rewrite !banner_data by set_solver. rewrite E1, E2, E3, E4, E5.
  unfold data_lines, value_of. cbn. by destruct (st_disable_purge s).
Qed.

(** Of the client side they do not: the events of the client are stored whatever they say. *)
Theorem banner_not_of_the_client max_streams level delay_text size_text (out : OS) (s : Settings) (a' : Agent (OS := OS)) (msgs : list string)
  (Hb : boot decode_url ub schema_text file_content s (boot_agent out s) = (a', Val msgs)) (Hd : st_discard_data s = true) :
  value_of "Data storage: " (banner max_streams level delay_text size_text s) = Some "disabled" /\ fl_client_data (ag_flow a') = true.
Proof.
  apply boot_done in Hb as (_ & Hf & _). injection Hf as E _ _ _. rewrite banner_data by set_solver. rewrite E. split; [|done].
  unfold data_lines, value_of. cbn. by rewrite Hd.
Qed.
End Truth.
