(* ===== verification/Tools.v ===== *)
(** The tools ([tools/*/main.cpp]): what their programs share (the words of a command
    line, headers, the parts of a URI, the datagrams of a unix socket), and the programs
    [h2client], [udp-server], [matching-helper] and [arashpartow-helper]. *)
From S2P Require Import Prelude Std Double Functions Query Json JsonModel External DataPart TypeConverter Transformation Templates Stages Startup.
From stdpp Require Import options.
#[local] Open Scope Z_scope.

(** ** The command line *)

(** [cmdOptionExists]: a pointer into the words is the words from it on.  An option that
    is the last word leaves the value as it was. *)
Definition cmdOptionExists (words : list string) (name value : string) : option (list string) * string :=
  match after name words with
  | None => (None, value)
  | Some l => (Some l, default value (head l))
  end.

(** The programs keep one variable for the values of all their options. *)
Definition CL (A : Type) : Type := string -> launch (A * string).
#[global] Instance CL_ret : MRet CL := fun A a value => Goes (a, value).
#[global] Instance CL_bind : MBind CL := fun A B f m value => '(a, value) ← m value; f a value.
Definition CL_lift {A} (l : launch A) : CL A := fun value => a ← l; Goes (a, value).
Definition current : CL string := fun value => Goes (value, value).

Section Words.
Context (argv : list string).

(** [cmdOptionExists(.., short, ..) || cmdOptionExists(.., long, ..)] *)
Fixpoint is_given (names : list string) : CL bool :=
  match names with
  | [] => mret false
  | n :: l => fun value =>
      match cmdOptionExists argv n value with
      | (Some _, value) => Goes (true, value)
      | (None, value) => is_given l value
      end
  end.
Definition given_value (names : list string) : CL (option string) :=
  b ← is_given names; v ← current; mret (if b : bool then Some v else None).
Definition given_text (names : list string) (d : string) : CL string := v ← given_value names; mret (default d v).

(** [while ((next = cmdOptionExists(next, end, name, value)))]: the values of all the
    occurrences; the search goes on at the value. *)
Fixpoint occurrences (name : string) (next : list string) (value : string) : list string * string :=
  match next with
  | [] => ([], value)
  | w :: l =>
      if bool_decide (w = name)
      then let value := default value (head l) in
           let '(vs, value') := occurrences name l value in (value :: vs, value')
      else occurrences name l value
  end.
Definition all_given (name : string) : CL (list string) := fun value => Goes (occurrences name argv value).
End Words.

(** [atoi]: what is not a number is zero; out of range it is undefined. *)
Definition atoi (s : string) : launch Z :=
  match strto 10 s with
  | None => Goes 0
  | Some (neg, v) =>
      let z := if neg : bool then - v else v in
      if (- 2 ^ 31 <=? z) && (z <=? 2 ^ 31 - 1) then Goes z else Undefined
  end.

(** The option that must be a positive number. *)
Definition print_each (value : option string) : launch Z :=
  match value with
  | None => Goes 1
  | Some v => n ← atoi v; if n <=? 0 then usage EXIT_FAILURE "" else Goes n
  end.

(** ** Headers and URIs *)

(** A header as [name:value]; a name may start with a colon. *)
Definition split_header (value : string) : string * string :=
  let pos := match find_char ":" value with
             | Some O => find_first_of ":" value (Some 1%nat)
             | p => p
             end in
  match pos with
  | Some p => (stake p value, sdrop (S p) value)
  | None => ("", value)
  end.
Definition emplace_header (h : header_map) (value : string) : header_map :=
  let '(hname, hvalue) := split_header value in headers_emplace hname hvalue h.

(** The cut of a text at the first occurrence of a character. *)
Definition cut_at (c : ascii) (s : string) : string * string :=
  match find_char c s with
  | Some p => (stake p s, sdrop (S p) s)
  | None => (s, "")
  end.

(** Host, port and path. *)
Definition tokenizeUri (uri : string) : string * string * string :=
  let authority_path := match find_sub "://" uri with Some p => sdrop (p + 3) uri | None => uri end in
  if sempty authority_path then (uri, "", "")
  else
    let '(host_port, path) := cut_at "/" authority_path in
    if sempty host_port then (uri, "", path)
    else let '(host, port) := cut_at ":" host_port in (host, port, path).

Record HttpRequest := mkHttpRequest {
  hr_secure : bool;
  hr_host : string;
  hr_port : string;
  hr_method : string;
  hr_path : string;
  hr_body : string;
  hr_headers : header_map;
  hr_timeout : Z
}.

(** ** [h2client] *)

Section H2client.
(** The levels the logger knows, and the status code of the response to a request; it is
    negative when there is none. *)
Context (argv : list string) (level_known : string -> bool) (send : HttpRequest -> Z).

Definition checked_level (level : option string) : launch unit :=
  match level with
  | Some l => if level_known l then Goes tt else usage EXIT_FAILURE "Invalid log level provided !"
  | None => Goes tt
  end.
Definition checked_timeout (value : option string) : launch Z :=
  match value with
  | None => Goes 5000
  | Some v =>
      n ← toNumber v;
      if n <? 0 then usage EXIT_FAILURE "Invalid '--timeout-milliseconds' value. Must be greater than 0." else Goes n
  end.
Definition checked_method (value : option string) : launch string :=
  match value with
  | None => Goes "GET"
  | Some m =>
      if bool_decide (m ∈ ["POST"; "GET"; "PUT"; "DELETE"; "HEAD"]) then Goes m
      else usage EXIT_FAILURE "Invalid '--method' value. Allowed: POST, GET, PUT, DELETE, HEAD."
  end.

(** The options in the order of the code: the URI, the request without its target, and
    whether the exit code is the one of a probe. *)
Definition h2client_options : CL (string * (bool * string * string * header_map * Z) * bool) :=
  help ← is_given argv ["-h"; "--help"];
  if help : bool then CL_lift (usage EXIT_SUCCESS "") else
  level ← given_value argv ["-l"; "--log-level"];
  _ ← CL_lift (checked_level level);
  verbose ← is_given argv ["-v"; "--verbose"];
  timeout ← given_value argv ["-t"; "--timeout-milliseconds"];
  millisecondsTimeout ← CL_lift (checked_timeout timeout);
  method ← given_value argv ["-m"; "--method"];
  method ← CL_lift (checked_method method);
  headers ← all_given argv "--header";
  body ← given_text argv ["-b"; "--body"] "";
  uri ← given_text argv ["-u"; "--uri"] "";
  secure ← is_given argv ["--secure"];
  rcProbe ← is_given argv ["--rc-probe"];
  mret (uri, (secure, method, body, foldl emplace_header [] headers, millisecondsTimeout), rcProbe).

Definition h2client_request : launch (HttpRequest * bool) :=
  '(uri, (secure, method, body, headers, timeout), rcProbe, _) ← h2client_options "";
  if sempty uri then usage EXIT_FAILURE "" else
  let '(host, port, path) := tokenizeUri uri in
  if sempty host then Exits EXIT_FAILURE "Invalid URI !"
  else Goes (mkHttpRequest secure host port method path body headers timeout, rcProbe).

Definition h2client_rc (rcProbe : bool) (status : Z) : Z :=
  if rcProbe then (if (200 <=? status) && (status <? 400) then 0 else 1)
  else if status <? 0 then EXIT_FAILURE else EXIT_SUCCESS.

(** The whole program: its exit. *)
Definition h2client_main : launch Empty_set :=
  '(request, rcProbe) ← h2client_request; Exits (h2client_rc rcProbe (send request)) "".
End H2client.

(** ** [udp-server] *)

(** What [recvfrom] leaves in the buffer of a datagram: at most one character less than
    its size, up to the first null. *)
Definition BUFFER_SIZE : nat := 256.
Definition cstr (s : string) : string := match find_char "000" s with Some p => stake p s | None => s end.
Definition in_buffer (datagram : string) : string := stake (BUFFER_SIZE - 1) datagram.
#[global] Arguments in_buffer : simpl never.

(** The loop over the datagrams: it ends at the first that is empty, or [EOF]; the others
    are counted, and the lines printed for some of them. *)
Definition shown (printEach sequence : Z) : bool := (sequence mod printEach =? 0) || (sequence =? 0).
Fixpoint recv_loop (printEach : Z) (datagrams : list string) (sequence : Z) : list (Z * string) * bool :=
  match datagrams with
  | [] => ([], false)
  | d :: l =>
      if sempty (in_buffer d) then ([], true)
      else
        let udpData := cstr (in_buffer d) in
        if bool_decide (udpData = "EOF") then ([], true)
        else let '(lines, ended) := recv_loop printEach l (to_u32 (sequence + 1)) in
             (if shown printEach sequence then (sequence, udpData) :: lines else lines, ended)
  end.

Section UdpServer.
(** The size of the path of an address, and whether the socket is made and bound. *)
Context (argv : list string) (sun_path_size : nat) (made bound : bool).

Definition udp_server_options : CL (string * option string) :=
  help ← is_given argv ["-h"; "--help"];
  if help : bool then CL_lift (usage EXIT_SUCCESS "") else
  path ← given_text argv ["-k"; "--udp-socket-path"] "";
  printEach ← given_value argv ["-e"; "--print-each"];
  mret (path, printEach).

(** [strcpy] into the path of the address: there must be room for the final null. *)
Definition strcpy_path (path : string) : launch unit :=
  if decide (String.length path < sun_path_size)%nat then Goes tt else Undefined.

Definition udp_server_start : launch (string * Z) :=
  '(path, printEach, _) ← udp_server_options "";
  if sempty path then usage EXIT_FAILURE "" else
  printEach ← print_each (if sempty (default "" printEach) then None else printEach);
  if negb made then Exits EXIT_FAILURE "Error creating UDP socket !" else
  _ ← strcpy_path path;
  if negb bound then Exits EXIT_FAILURE "Error binding UDP socket !" else Goes (path, printEach).
End UdpServer.

(** ** The helpers *)

Section Helpers.
Context (argv : list string).

Definition matching_helper_options : CL (string * string * string) :=
  help ← is_given argv ["-h"; "--help"];
  if help : bool then CL_lift (usage EXIT_SUCCESS "") else
  regex ← given_text argv ["-r"; "--regex"] "";
  test ← given_text argv ["-t"; "--test"] "";
  fmt ← given_text argv ["-f"; "--fmt"] "";
  mret (regex, test, fmt).

(** The exit of the program, with the text of the result. *)
Definition matching_helper `{RegexLib} : launch Empty_set :=
  '(regex, test, fmt, _) ← matching_helper_options "";
  if sempty regex then usage EXIT_FAILURE "" else
  if sempty test then usage EXIT_FAILURE "" else
  match regex_assign regex with
  | Throw _ => Exits EXIT_FAILURE "Invalid regular expression"
  | Val re =>
      let matched := match regex_match test re with Some _ => true | None => false end in
      Exits (if matched then EXIT_SUCCESS else EXIT_FAILURE) (if sempty fmt then "" else regex_replace test re fmt)
  end.

Definition arashpartow_helper_options : CL string :=
  help ← is_given argv ["-h"; "--help"];
  if help : bool then CL_lift (usage EXIT_SUCCESS "") else
  given_text argv ["-e"; "--expression"] "".

(** The exit of the program; [out] is the output of a number on a stream. *)
Definition arashpartow_helper `{Calculus} (out : double -> string) : launch Empty_set :=
  '(expression_string, _) ← arashpartow_helper_options "";
  if sempty expression_string then usage EXIT_FAILURE ""
  else Exits EXIT_SUCCESS (out (expression_value expression_string)).
End Helpers.

(** ** Lemmas *)

Lemma CL_goes_bind {A B} (m : CL A) (f : A -> CL B) value r :
  (m ≫= f) value = Goes r -> exists a value', m value = Goes (a, value') /\ f a value' = Goes r.
Proof. unfold mbind at 1, CL_bind. intros ([a v] & Hm & Hf)%launch_goes. eauto. Qed.

(** Go through the options of an accepted command line. *)
Ltac cl_inv H :=
  repeat match type of H with
         | (_ ≫= _) _ = Goes _ =>
             let a := fresh "a" in let v := fresh "v" in let E := fresh "Ho" in
             apply CL_goes_bind in H as (a & v & E & H); cbn beta in H
         | (if ?b then CL_lift (usage _ _) else _) _ = Goes _ => destruct b; [discriminate H|]
         end.

(** [occurrences] is the loop of the code. *)
Lemma occurrences_loop name words value :
  occurrences name words value =
  match cmdOptionExists words name value with
  | (None, value) => ([], value)
  | (Some next, value) => let '(vs, value') := occurrences name next value in (value :: vs, value')
  end.
Proof.
  unfold cmdOptionExists. induction words as [|w l IH]; [done|]. cbn.
  case_bool_decide; [done|exact IH].
Qed.

Lemma is_given_mem argv names value b v :
  is_given argv names value = Goes (b, v) -> b = existsb (fun n => bool_decide (n ∈ argv)) names.
Proof.
  revert value. induction names as [|n l IH]; intros value; cbn; [by intros [= <- <-]|].
  unfold cmdOptionExists. destruct (after n argv) as [r|] eqn:Ha; cbn.
  - intros [= <- <-]. rewrite bool_decide_eq_true_2; [done|].
    clear IH. revert Ha. induction argv as [|w a IHa]; cbn; [done|]. case_bool_decide; intros; [subst; set_solver|].
    apply elem_of_cons. right. auto.
  - intros Hg. rewrite bool_decide_eq_false_2; [by eapply IH|]. intros Hin.
    clear -Ha Hin. induction argv as [|w a IHa]; cbn in *; [set_solver|]. case_bool_decide; [done|].
    apply IHa; [done|]. set_solver.
Qed.

Lemma cut_at_app c a b : no_char c a -> cut_at c (a +:+ String c b) = (a, b).
Proof.
  intros Ha. unfold cut_at. rewrite find_char_app by done. f_equal; [apply stake_app|].
  change (S (String.length a)) with (1 + String.length a)%nat. rewrite Nat.add_comm, <- sdrop_sdrop, sdrop_app.
  apply sdrop_0.
Qed.

Lemma cut_at_none c s : no_char c s -> cut_at c s = (s, "").
Proof. intros Hs. unfold cut_at. by rewrite (proj2 (find_char_None _ _) Hs). Qed.

(** A URI in its usual form. *)
Definition uri_text (scheme host : string) (port path : option string) : string :=
  scheme +:+ "://" +:+ host +:+ match port with Some p => ":" +:+ p | None => "" end
    +:+ match path with Some p => "/" +:+ p | None => "" end.

Lemma uri_authority scheme rest : no_char ":" scheme ->
  match find_sub "://" (scheme +:+ "://" +:+ rest) with
  | Some p => sdrop (p + 3) (scheme +:+ "://" +:+ rest)
  | None => scheme +:+ "://" +:+ rest
  end = rest.
Proof.
  intros Hs. change "://" with (String ":" "//") at 1 2 3. rewrite find_sub_app by done.
  rewrite <- sdrop_sdrop, sdrop_app. by apply sdrop_0.
Qed.

Lemma host_port_parts host port : host <> "" -> no_char ":" host ->
  cut_at ":" (host +:+ match port with Some p => ":" +:+ p | None => "" end) = (host, default "" port).
Proof.
  intros Hh Hc. destruct port as [p|]; [by apply cut_at_app|]. rewrite string_app_nil_r. by apply cut_at_none.
Qed.

Lemma no_char_host_port c host port : c <> ":"%char -> no_char c host -> no_char c (default "" port) ->
  no_char c (host +:+ match port with Some p => ":" +:+ p | None => "" end).
Proof.
  intros Hc Hh Hp. apply no_char_app. split; [done|]. destruct port as [p|]; [|unfold no_char; set_solver].
  change (":" +:+ p) with (String ":" p). by apply no_char_cons.
Qed.

(** ** Properties *)

(** A URI in its usual form, with or without port and path, is taken apart into the
    host, the port and the path it was made of. *)
Theorem uri_is_taken_apart (scheme host : string) (port path : option string)
    (Hs : no_char ":" scheme) (Hh : host <> "") (Hc : no_char ":" host) (Hd : no_char "/" host)
    (Hp : no_char "/" (default "" port)) :
  tokenizeUri (uri_text scheme host port path) = (host, default "" port, default "" path).
Proof.
  unfold tokenizeUri, uri_text. rewrite uri_authority by done.
  set (hp := host +:+ match port with Some p => ":" +:+ p | None => "" end).
  assert (no_char "/" hp) as Hn by by apply no_char_host_port.
  assert (sempty hp = false) as He by (apply sempty_false; subst hp; by destruct host).
  rewrite <- string_app_assoc. fold hp.
  assert (sempty (hp +:+ match path with Some p => "/" +:+ p | None => "" end) = false) as -> by by destruct hp.
  assert (cut_at "/" (hp +:+ match path with Some p => "/" +:+ p | None => "" end) = (hp, default "" path)) as ->.
  { destruct path as [p|]; [by apply cut_at_app|]. rewrite string_app_nil_r. by apply cut_at_none. }
  rewrite He. subst hp. by rewrite host_port_parts.
Qed.

Lemma uri_is_taken_apart_witness :
  tokenizeUri (uri_text "http" "localhost" (Some "8000") (Some "book/1")) = ("localhost", "8000", "book/1").
Proof.
  apply (uri_is_taken_apart "http" "localhost" (Some "8000") (Some "book/1"));
    [apply (bool_decide_unpack _); vm_compute; exact I|done|apply (bool_decide_unpack _); vm_compute; exact I..].
Defined.

(** Once the command line is accepted, the exit code tells the outcome: with the option
    of the probe, success is a status code from 200 up to 399; without it, any response. *)
Theorem h2client_exit (argv : list string) (level_known : string -> bool) (send : HttpRequest -> Z) (r : HttpRequest) (probe : bool)
    (Hr : h2client_request argv level_known = Goes (r, probe)) :
  probe = bool_decide ("--rc-probe" ∈ argv) /\
  exists rc, h2client_main argv level_known send = Exits rc "" /\
    (rc = 0 <-> if probe then 200 <= send r < 400 else 0 <= send r).
Proof.
  split; [|exists (h2client_rc probe (send r)); split].
  - unfold h2client_request in Hr. apply launch_goes in Hr as ([[[uri [[[[s m] b] h] t]] p] v] & Ho & Hr).
    unfold h2client_options in Ho. cl_inv Ho.
    match goal with H : is_given argv ["--rc-probe"] _ = _ |- _ => apply is_given_mem in H; cbn in H; rewrite orb_false_r in H; rename H into Hp end.
    unfold mret, CL_ret in Ho. simplify_eq. destruct (sempty uri); [done|].
    destruct (tokenizeUri uri) as [[host port] path]. destruct (sempty host); [done|]. by simplify_eq.
  - unfold h2client_main. by rewrite Hr.
  - unfold h2client_rc, EXIT_FAILURE, EXIT_SUCCESS. destruct probe; [|destruct (Z.ltb_spec (send r) 0); lia].
    destruct (Z.leb_spec 200 (send r)), (Z.ltb_spec (send r) 400); cbn; lia.
Qed.

(** An option without a value, as the last word, takes the value of the option that was
    read before it: the URI is the text of the body here. *)
Theorem last_option_takes_the_value_before (level_known : string -> bool) :
  h2client_request ["h2client"; "--body"; "hello"; "--uri"] level_known =
  Goes (mkHttpRequest false "hello" "" "GET" "" "hello" [] 5000, false).
Proof. reflexivity. Qed.

(** Without an authority the whole URI is the host: it is not refused. *)
Theorem uri_without_authority (path : string) :
  tokenizeUri ("http:///" +:+ path) = ("http:///" +:+ path, "", path).
Proof. done. Qed.

(** The datagrams that end a server. *)
Definition ends_server (d : string) : bool := sempty (in_buffer d) || bool_decide (cstr (in_buffer d) = "EOF").
Fixpoint before_end (l : list string) : list string :=
  match l with [] => [] | d :: l => if ends_server d then [] else d :: before_end l end.

Lemma recv_loop_from printEach l : forall sequence,
  0 <= sequence -> sequence + Z.of_nat (length l) < 2 ^ 32 -> 0 < printEach ->
  recv_loop printEach l sequence =
  (filter (fun kv => kv.1 mod printEach = 0) (imap (fun i d => (sequence + Z.of_nat i, cstr (in_buffer d))) (before_end l)),
   existsb ends_server l).
Proof.
  induction l as [|d l IH]; intros n Hn Hb Hp; [done|]. cbn [recv_loop before_end existsb].
  cbn [length] in Hb. unfold ends_server at 1 2. destruct (sempty (in_buffer d)) eqn:He; [done|]. cbn [orb].
  case_bool_decide as Heof; [done|]. cbn [orb].
  unfold wrap_u. rewrite (Z.mod_small (n + 1)) by lia. rewrite IH by lia. cbn [imap].
  rewrite Z.add_0_r, filter_cons. f_equal.
  replace (imap (fun i d0 => (n + 1 + Z.of_nat i, cstr (in_buffer d0))) (before_end l))
    with (imap ((fun i d0 => (n + Z.of_nat i, cstr (in_buffer d0))) ∘ S) (before_end l)).
  2: { apply imap_ext. intros i x _. cbn. f_equal. lia. }
  unfold shown. cbn [fst]. destruct (Z.eqb_spec n 0) as [->|Hz].
  - rewrite orb_true_r, decide_True by by apply Z.mod_0_l; lia. done.
  - rewrite orb_false_r. destruct (Z.eqb_spec (n mod printEach) 0); [by rewrite decide_True|by rewrite decide_False].
Qed.

(** The server prints, of the datagrams received before the first that is empty or
    [EOF], every [printEach]th from the first one, with its number, and then it ends. *)
Theorem server_prints_each (printEach : Z) (datagrams : list string)
    (Hp : 0 < printEach) (Hn : Z.of_nat (length datagrams) < 2 ^ 32) :
  recv_loop printEach datagrams 0 =
  (filter (fun kv => kv.1 mod printEach = 0) (imap (fun i d => (Z.of_nat i, cstr (in_buffer d))) (before_end datagrams)),
   existsb ends_server datagrams).
Proof. rewrite recv_loop_from by lia. done. Qed.

Lemma server_prints_each_witness :
  recv_loop 2 ["a"; "b"; "c"; "EOF"; "d"] 0 = ([(0, "a"); (2, "c")], true).
Proof. rewrite (server_prints_each 2 ["a"; "b"; "c"; "EOF"; "d"]) by (cbn; lia). vm_compute. reflexivity. Defined.

(** An empty datagram ends the server, as the end of file does. *)
Theorem empty_datagram_ends_server (printEach sequence : Z) (l : list string) :
  recv_loop printEach ("" :: l) sequence = ([], true).
Proof. done. Qed.

(** A path with no room for the final null is written past the address. *)
Theorem long_path_is_undefined (argv : list string) (path : string) (n : Z) (sun_path_size : nat) (bound : bool)
    (Hs : udp_server_start argv (S (String.length path)) true true = Goes (path, n)) (Hl : (sun_path_size <= String.length path)%nat) :
  udp_server_start argv sun_path_size true bound = Undefined.
Proof.
  unfold udp_server_start in *. destruct (udp_server_options argv "") as [[[p each] v]| |]; cbn in *; [|done..].
  destruct (sempty p); [done|]. destruct (print_each _) as [m| |]; cbn in *; [|done..].
  unfold strcpy_path in *. destruct (decide (String.length p < S _)%nat); cbn in *; [|done]. simplify_eq.
  by rewrite decide_False by lia.
Qed.

Lemma long_path_is_undefined_witness :
  udp_server_start ["udp-server"; "-k"; "abcdef"] 6 true true = Undefined.
Proof. apply (long_path_is_undefined _ "abcdef" 1); [reflexivity|cbn; lia]. Defined.

Lemma h2client_exit_witness :
  let argv := ["h2client"; "--uri"; "http://h:1/p"; "--rc-probe"] in
  true = bool_decide ("--rc-probe" ∈ argv) /\
  exists rc, h2client_main argv (fun _ => true) (fun _ => 204) = Exits rc "" /\ (rc = 0 <-> 200 <= 204 < 400).
Proof.
  apply (h2client_exit ["h2client"; "--uri"; "http://h:1/p"; "--rc-probe"] (fun _ => true) (fun _ => 204)
    (mkHttpRequest false "h" "1" "GET" "p" "" [] 5000) true). vm_compute. reflexivity.
Defined.
