(* ===== verification/UdpClient.v ===== *)
(** The generator of datagrams ([tools/udp-client/main.cpp]): its command line, the
    patterns of its templates, the pace, and the loop that sends a datagram for each
    number of a range. *)
From S2P Require Import Prelude Std Double Functions Query Json JsonModel External TypeConverter Transformation Templates Startup Tools.
From Stdlib Require Import Floats.SpecFloat.
From stdpp Require Import options.
#[local] Open Scope Z_scope.

(** ** The command line *)

(** [toLong] and [toDouble] *)
Definition toLong (value : string) : launch Z :=
  match stoull value with
  | Val n => Goes n
  | Throw _ => usage EXIT_FAILURE ("Error in number conversion for '" +:+ value +:+ "' !")
  end.
Definition toDouble (value : string) : launch double :=
  match stod value with
  | Val d => Goes d
  | Throw _ => usage EXIT_FAILURE ("Error in number conversion for '" +:+ value +:+ "' !")
  end.

Record UdpClient := mkUdpClient {
  uc_path : string;
  uc_eps : double;
  uc_rampupSeconds : Z;
  uc_initialValue : Z;
  uc_finalValue : Z;
  uc_templates : list string;
  uc_printEach : Z
}.

Definition launch_option {A} (f : string -> launch A) (d : A) (value : option string) : launch A :=
  match value with Some v => f v | None => Goes d end.

Definition udp_client_options (argv : list string) : CL UdpClient :=
  help ← is_given argv ["-h"; "--help"];
  if help : bool then CL_lift (usage EXIT_SUCCESS "") else
  path ← given_text argv ["-k"; "--udp-socket-path"] "";
  eps ← given_value argv ["--eps"];
  eps ← CL_lift (launch_option (fun v => d ← toDouble v; if d_eqb d (d_of_Z 0) then usage EXIT_FAILURE "" else Goes d) (d_of_Z 1) eps);
  rampup ← given_value argv ["-r"; "--rampup-seconds"];
  rampup ← CL_lift (launch_option (fun v => n ← toLong v; Goes (Z.max 0 (to_i32 n))) 0 rampup);
  initialValue ← given_value argv ["-i"; "--initial"];
  initialValue ← CL_lift (launch_option toLong 0 initialValue);
  finalValue ← given_value argv ["-f"; "--final"];
  finalValue ← CL_lift (launch_option toLong u64_max finalValue);
  templates ← all_given argv "--template";
  printEach ← given_value argv ["-e"; "--print-each"];
  printEach ← CL_lift (print_each printEach);
  mret (mkUdpClient path eps rampup initialValue finalValue templates printEach).

Definition udp_client_line (argv : list string) : launch UdpClient :=
  '(c, _) ← udp_client_options argv "";
  if sempty (uc_path c) then usage EXIT_FAILURE ""
  else Goes (mkUdpClient (uc_path c) (uc_eps c) (uc_rampupSeconds c) (uc_initialValue c) (uc_finalValue c)
               (if bool_decide (uc_templates c = []) then ["@{seq}"] else uc_templates c) (uc_printEach c)).

(** The socket and the address of the server. *)
Definition udp_client_start (argv : list string) (sun_path_size : nat) (made : bool) : launch UdpClient :=
  c ← udp_client_line argv;
  if negb made then Exits EXIT_FAILURE "Error creating UDP socket !" else
  _ ← strcpy_path sun_path_size (uc_path c);
  Goes c.

(** ** The patterns of the templates *)

Fixpoint span_digits (s : string) : string * string :=
  match s with
  | String c s' => if isdigit c then let '(d, r) := span_digits s' in (String c d, r) else ("", s)
  | EmptyString => ("", s)
  end.

(** A match of [@\{seq([+-]\d+|)\}] at the start: its group and what follows it. *)
Definition take_seq (s : string) : option (string * string) :=
  if starts_with "@{seq" s then
    match sdrop 5 s with
    | String c t =>
        if bool_decide (c = "}"%char) then Some ("", t)
        else if bool_decide (c = "+"%char) || bool_decide (c = "-"%char) then
          let '(d, r) := span_digits t in
          if sempty d then None
          else match r with
               | String e r => if bool_decide (e = "}"%char) then Some (String c d, r) else None
               | EmptyString => None
               end
        else None
    | EmptyString => None
    end
  else None.

Definition seq_pattern (group : string) : string := "@{seq" +:+ group +:+ "}".

(** [std::sregex_iterator] over a template, the offset of each match stored under its
    text; a turn consumes a character at least.  An offset out of range throws. *)
Fixpoint seq_matches (fuel : nat) (tpl : string) : list string :=
  match fuel with
  | O => []
  | S fuel =>
      match tpl with
      | EmptyString => []
      | String _ tpl' =>
          match take_seq tpl with
          | Some (group, rest) => group :: seq_matches fuel rest
          | None => seq_matches fuel tpl'
          end
      end
  end.
Fixpoint store_matches (groups : list string) (patterns : gmap string Z) : outcome (gmap string Z) :=
  match groups with
  | [] => Val patterns
  | g :: l => let! n := stoll (if sempty g then "0" else g) in store_matches l (<[seq_pattern g := n]> patterns)
  end.
Fixpoint collectSeqPatterns (templates : list string) (patterns : gmap string Z) : outcome (gmap string Z) :=
  match templates with
  | [] => Val patterns
  | tpl :: l => let! patterns := store_matches (seq_matches (String.length tpl) tpl) patterns in collectSeqPatterns l patterns
  end.

(** The [while] that replaces a pattern: after a replacement the search goes on at its
    start ([udpDataSeq] is empty).  [None] is an exhausted budget. *)
Fixpoint seq_loop (fuel : nat) (udpData from to : string) (pos : nat) : option string :=
  match fuel with
  | O => None
  | S fuel =>
      match find_sub from (sdrop pos udpData) with
      | None => Some udpData
      | Some i =>
          let pos := (pos + i)%nat in
          seq_loop fuel (replace_at udpData pos (String.length from) to) from to (pos + 0)
      end
  end.
Definition seq_number (value offset : Z) : string := to_string_u (to_u64 (value + offset)).
Definition replace_seq (value : Z) (udpData : string) (it : string * Z) : string :=
  default udpData (seq_loop (S (String.length udpData)) udpData it.1 (seq_number value it.2) 0).
(** The datagram of a template for a number. *)
Definition fill_template (patterns : gmap string Z) (value : Z) (tpl : string) : string :=
  foldl (replace_seq value) tpl (map_entries patterns).

(** ** The loop *)

Section Loop.
(** The results of [rand()], one for each turn. *)
Context (c : UdpClient) (patterns : gmap string Z) (rand : Z -> Z).

Definition template_of (sequence : Z) : string :=
  let n := Z.of_nat (length (uc_templates c)) in
  default "" (uc_templates c !! Z.to_nat (if n =? 1 then 0 else rand sequence mod n)).

(** The datagrams that are sent, and whether the loop has ended. *)
Fixpoint send_loop (fuel : nat) (sequence : Z) : list string * bool :=
  match fuel with
  | O => ([], false)
  | S fuel =>
      let value := to_u64 (uc_initialValue c + sequence) in
      let udpData := fill_template patterns value (template_of sequence) in
      if uc_finalValue c <? value then ([], true)
      else let '(sent, ended) := send_loop fuel (to_u64 (sequence + 1)) in (udpData :: sent, ended)
  end.
End Loop.

(** ** The pace *)

Definition rampupPeriods : Z := 1000.
Definition nanos : double := d_of_Z 1000000000.

(** The period of a speed; a conversion out of range is undefined. *)
Definition periodNS (eps : double) : launch Z :=
  match d_to_i64 (d_div nanos eps) with Some p => Goes p | None => Undefined end.

(** The duration of a period of the ramp, a product of two [int]. *)
Definition rampupPeriodsNS (rampupSeconds : Z) : launch Z :=
  let p := 1000000000 / rampupPeriods * rampupSeconds in
  if p <=? 2 ^ 31 - 1 then Goes p else Undefined.

(** Under one event per second there is no ramp. *)
Definition rampup_seconds (eps : double) (rampupSeconds : Z) : Z := if SFltb eps (d_of_Z 1) then 0 else rampupSeconds.

(** The ramp at the start of a turn: its seconds (zero once it is over) and the period. *)
Definition rampup (eps : double) (rampupSeconds elapsed period : Z) : launch (Z * Z) :=
  if rampupSeconds =? 0 then Goes (0, period)
  else
    width ← rampupPeriodsNS rampupSeconds;
    let index := to_i32 (Z.quot elapsed width) in
    if rampupPeriods <=? index then p ← periodNS eps; Goes (0, p)
    else
      let acceleration := d_div (d_add eps (d_of_Z (-1))) (d_of_Z rampupSeconds) in
      let speed := d_add (d_of_Z 1) (d_mul (d_mul acceleration (d_of_Z index)) (d_div (d_of_Z rampupSeconds) (d_of_Z rampupPeriods))) in
      p ← periodNS speed; Goes (rampupSeconds, p).

(** When the next datagram is due, from the start. *)
Definition due (period sequence : Z) : Z := to_i64 (to_u64 (period * sequence)).

(** ** The range *)

Section Range.
Context (c : UdpClient) (patterns : gmap string Z) (rand : Z -> Z).

(** The datagram of a number of the range. *)
Definition range_datagram (k : nat) : string :=
  fill_template patterns (uc_initialValue c + Z.of_nat k) (template_of c rand (Z.of_nat k)).

Lemma send_loop_range fuel : forall k,
  0 <= uc_initialValue c -> uc_finalValue c < u64_max ->
  uc_initialValue c + Z.of_nat k <= uc_finalValue c + 1 ->
  (Z.to_nat (uc_finalValue c - uc_initialValue c + 1) - k < fuel)%nat ->
  send_loop c patterns rand fuel (Z.of_nat k) =
  (range_datagram <$> seq k (Z.to_nat (uc_finalValue c - uc_initialValue c + 1) - k), true).
Proof.
  unfold u64_max. induction fuel as [|fuel IH]; intros k Hi Hf Hk Hfuel; [lia|]. cbn [send_loop].
  rewrite (to_u64_id (uc_initialValue c + _)) by (unfold is_u64, u64_max; lia).
  destruct (Z.ltb_spec (uc_finalValue c) (uc_initialValue c + Z.of_nat k)) as [Hlt|Hle].
  - replace (Z.to_nat _ - k)%nat with 0%nat by lia. done.
  - replace (to_u64 (Z.of_nat k + 1)) with (Z.of_nat (S k)).
    2: { rewrite to_u64_id by (unfold is_u64, u64_max; lia). lia. }
    rewrite IH by lia.
    replace (Z.to_nat (uc_finalValue c - uc_initialValue c + 1) - k)%nat
      with (S (Z.to_nat (uc_finalValue c - uc_initialValue c + 1) - S k)) by lia. done.
Qed.

Lemma send_loop_unlimited fuel : forall sequence,
  uc_finalValue c = u64_max ->
  length (send_loop c patterns rand fuel sequence).1 = fuel /\ (send_loop c patterns rand fuel sequence).2 = false.
Proof.
  induction fuel as [|fuel IH]; intros n Hf; [done|]. cbn [send_loop]. rewrite Hf.
  pose proof (to_u64_range (uc_initialValue c + n)) as Hr. unfold is_u64 in Hr.
  destruct (Z.ltb_spec u64_max (to_u64 (uc_initialValue c + n))); [lia|].
  specialize (IH (to_u64 (n + 1)) Hf). destruct (send_loop _ _ _ fuel _) as [sent e]. cbn in *. by destruct IH as [-> ->].
Qed.

(** C22: the generator ends, and until then it sends one datagram for each number of its
    range, in order, and none when the range is empty; with the greatest number as the end
    it never ends. *)
Theorem generator_covers_the_range (fuel : nat) (Hi : is_u64 (uc_initialValue c)) (Hf : is_u64 (uc_finalValue c)) :
  (uc_finalValue c < u64_max -> (Z.to_nat (uc_finalValue c - uc_initialValue c + 1) < fuel)%nat ->
   send_loop c patterns rand fuel 0 =
   (range_datagram <$> seq 0 (Z.to_nat (uc_finalValue c - uc_initialValue c + 1)), true)) /\
  (uc_finalValue c = u64_max -> (send_loop c patterns rand fuel 0).2 = false).
Proof.
  unfold is_u64 in *. split; [|intros; by apply send_loop_unlimited]. intros Hl Hfuel.
  destruct (decide (uc_initialValue c <= uc_finalValue c + 1)).
  - pose proof (send_loop_range fuel 0) as E. rewrite Nat.sub_0_r in E. apply E; lia.
  - destruct fuel as [|fuel]; [lia|]. cbn [send_loop]. rewrite Z.add_0_r, to_u64_id by done.
    destruct (Z.ltb_spec (uc_finalValue c) (uc_initialValue c)); [|lia].
    by replace (Z.to_nat _) with 0%nat by lia.
Qed.
End Range.

(** ** The pace *)

(** The product of the ramp fits up to 2147 seconds, and is undefined from there on. *)
Theorem ramp_is_bounded (rampupSeconds : Z) (Hr : 0 <= rampupSeconds) :
  rampupPeriodsNS rampupSeconds = (if rampupSeconds <=? 2147 then Goes (1000000 * rampupSeconds) else Undefined).
Proof.
  unfold rampupPeriodsNS. change (1000000000 / rampupPeriods) with 1000000.
  destruct (Z.leb_spec (1000000 * rampupSeconds) (2 ^ 31 - 1)), (Z.leb_spec rampupSeconds 2147); [done|lia|lia|done].
Qed.

(** After its seconds the ramp is over: the period is the one of the speed, for good. *)
Theorem ramp_ends (eps : double) (rampupSeconds elapsed period p : Z)
    (Hr : 0 < rampupSeconds <= 2147) (He : 1000000000 * rampupSeconds <= elapsed < 2 ^ 50) (Hp : periodNS eps = Goes p) :
  rampup eps rampupSeconds elapsed period = Goes (0, p) /\ forall later, rampup eps 0 later p = Goes (0, p).
Proof.
  split; [|done]. unfold rampup. destruct (Z.eqb_spec rampupSeconds 0); [lia|].
  rewrite ramp_is_bounded by lia. destruct (Z.leb_spec rampupSeconds 2147); [|lia]. cbn.
  assert (1000 <= Z.quot elapsed (1000000 * rampupSeconds) < 2 ^ 31) as Hq.
  { rewrite Z.quot_div_nonneg by lia. split; [apply Z.div_le_lower_bound; lia|].
    apply Z.div_lt_upper_bound; lia. }
  unfold wrap_i. change (32 - 1) with 31. rewrite Z.mod_small by lia.
  destruct (Z.leb_spec rampupPeriods (Z.quot elapsed (1000000 * rampupSeconds) + 2 ^ 31 - 2 ^ 31)); [|unfold rampupPeriods in *; lia].
  by rewrite Hp.
Qed.

Lemma ramp_is_bounded_witness : rampupPeriodsNS 2148 = Undefined.
Proof. rewrite (ramp_is_bounded 2148) by lia. reflexivity. Defined.

Lemma ramp_ends_witness : rampup (d_of_Z 1000) 10 10000000000 5 = Goes (0, 1000000).
Proof. apply (ramp_ends (d_of_Z 1000) 10 10000000000 5 1000000); [lia|lia|vm_compute; reflexivity]. Defined.

(** ** Templates *)

Definition offset_text (group : string) : string := if sempty group then "0" else group.

(** The offset of a pattern: nothing, or a sign and digits. *)
Definition is_group (group : string) : Prop :=
  group = "" \/ exists c d, group = String c d /\ (c = "+"%char \/ c = "-"%char) /\ d <> "" /\ forallb isdigit (chars d) = true.
(** The number it is, of any size. *)
Fixpoint decimal (d : string) (acc : Z) : Z :=
  match d with String c d => decimal d (10 * acc + (zc c - zc "0")) | EmptyString => acc end.
Definition offset_of (group : string) : Z :=
  match group with String c d => if bool_decide (c = "-"%char) then - decimal d 0 else decimal d 0 | EmptyString => 0 end.

(** A template has quiet texts and patterns of the sequence. *)
Definition seq_name (g : string) : string := "seq" +:+ g.
Definition seq_piece (p : piece) : Prop :=
  match p with Lit s => quiet s = true | Var n => exists g, n = seq_name g /\ is_group g end.
(** The value of a name. *)
Definition seq_value (value : Z) (n : string) : option string := Some (seq_number value (offset_of (sdrop 3 n))).

Lemma seq_pattern_name g : seq_pattern g = pattern_of (seq_name g).
Proof. done. Qed.
Lemma seq_value_name value g : seq_value value (seq_name g) = Some (seq_number value (offset_of g)).
Proof. unfold seq_value, seq_name. change 3%nat with (String.length "seq"). by rewrite sdrop_app. Qed.

(** Numbers have no at sign. *)
Lemma render_loop_digits fuel : forall v acc, no_char "@" acc -> no_char "@" (render_loop fuel 10 false v acc).
Proof.
  induction fuel as [|fuel IH]; intros v acc Ha; cbn [render_loop]; [done|]. destruct (0 <? v); [|done].
  apply IH, no_char_cons. split; [|done]. intros E. apply (f_equal zc) in E.
  pose proof (Z.mod_pos_bound v 10 eq_refl). rewrite digit_char_zc in E by lia.
  destruct (v mod 10 <? 10) eqn:El; [|lia]. change (zc "@") with 64 in E. lia.
Qed.
Lemma seq_number_ok value offset : quiet (seq_number value offset) = true.
Proof.
  apply quiet_no_at.
  unfold seq_number, to_string_u, render. destruct (_ =? 0); [|apply render_loop_digits]; unfold no_char; vm_compute; set_solver.
Qed.

(** The characters of an offset. *)
Lemma digits_no_char c d : isdigit c = false -> forallb isdigit (chars d) = true -> no_char c d.
Proof.
  intros Hc. unfold no_char. rewrite forallb_forall. intros Hd Hin%list_elem_of_In. apply Hd in Hin. congruence.
Qed.
Lemma group_no_char c g : c <> "+"%char -> c <> "-"%char -> isdigit c = false -> is_group g -> no_char c g.
Proof.
  intros H1 H2 Hc [->|(s & d & -> & Hs & _ & Hd)]; [unfold no_char; set_solver|].
  apply no_char_cons. split; [destruct Hs as [-> | -> ]; done|]. by apply digits_no_char.
Qed.
Lemma seq_name_plain g : is_group g -> var_name (seq_name g).
Proof.
  intros Hg. unfold var_name, seq_name. rewrite !no_char_app.
  split_and!; try (by apply group_no_char); unfold no_char; vm_compute; set_solver.
Qed.
Lemma seq_piece_ok p : seq_piece p -> piece_ok p.
Proof. destruct p as [s|n]; [done|]. intros (g & -> & Hg). by apply seq_name_plain. Qed.
Lemma seq_pieces_ok ps : Forall seq_piece ps -> Forall piece_ok ps.
Proof. intros H. eapply Forall_impl; [done|]. apply seq_piece_ok. Qed.

(** The replacement is searched again, but has no pattern. *)
Lemma seq_loop_pieces n to : var_name n -> quiet to = true -> forall fuel p ps,
  (var_count ps < fuel)%nat -> Forall piece_ok ps ->
  seq_loop fuel (p +:+ template_text ps) (pattern_of n) to (String.length p) = Some (p +:+ template_text (put n to <$> ps)).
Proof.
  intros Hn Hto. induction fuel as [|fuel IH]; intros p ps Hf Hok; [lia|].
  cbn [seq_loop]. rewrite sdrop_app. destruct (decide (Var n ∈ ps)) as [Hin|Hni].
  - apply var_split in Hin as (ps1 & ps2 & -> & Hni). apply Forall_app in Hok as [Hok1 Hok2].
    apply Forall_cons in Hok2 as [_ Hok2]. rewrite find_var_first by done.
    rewrite Nat.add_0_r, <- slength_app, template_text_app. cbn [template_text piece_text].
    rewrite <- (string_app_assoc p), replace_at_app.
    change (to +:+ template_text ps2) with (template_text (Lit to :: ps2)). rewrite IH.
    + rewrite fmap_app, template_text_app, (put_none n to ps1) by done. rewrite !fmap_cons, put_var.
      by rewrite string_app_assoc.
    + rewrite var_count_app in Hf. cbn in *. lia.
    + by apply Forall_cons.
  - by rewrite find_var_none, put_none.
Qed.

Lemma replace_seq_pieces value g ps : is_group g -> Forall piece_ok ps ->
  replace_seq value (template_text ps) (seq_pattern g, offset_of g) = template_text (subst_name (seq_value value) (seq_name g) ps).
Proof.
  intros Hg Hok. unfold replace_seq, subst_name. cbn [fst snd]. rewrite seq_value_name.
  pose proof (seq_loop_pieces (seq_name g) (seq_number value (offset_of g)) (seq_name_plain g Hg) (seq_number_ok value _)
    (S (String.length (template_text ps))) "" ps) as E.
  change (String.length "") with O in E. change ("" +:+ ?x) with x in E. rewrite seq_pattern_name, E; [done| |done].
  pose proof (var_count_length ps). lia.
Qed.

(** An entry of the collected patterns, and the name it stands for. *)
Definition entry_name (kv : string * Z) : string := stake (String.length kv.1 - 3) (sdrop 2 kv.1).
Definition pattern_entry (kv : string * Z) : Prop := exists g, kv = (seq_pattern g, offset_of g) /\ is_group g.

Lemma entry_name_pattern g n : entry_name (seq_pattern g, n) = seq_name g.
Proof.
  unfold entry_name. cbn [fst]. rewrite seq_pattern_name. unfold pattern_of.
  change 2%nat with (String.length "@{"). rewrite sdrop_app, !slength_app. cbn [String.length].
  replace (2 + (String.length (seq_name g) + 1) - 3)%nat with (String.length (seq_name g)) by lia. apply stake_app.
Qed.

(** ** Collecting the patterns *)

Lemma span_digits_app d r : forallb isdigit (chars d) = true -> (match r with String c _ => isdigit c = false | _ => True end) ->
  span_digits (d +:+ r) = (d, r).
Proof.
  intros Hd Hr. induction d as [|c d IH].
  { change ("" +:+ r) with r. destruct r as [|c r]; [done|]. cbn [span_digits]. by rewrite Hr. }
  rewrite chars_cons in Hd. cbn in Hd. apply andb_true_iff in Hd as [Hc Hd].
  rewrite string_app_cons. cbn [span_digits]. by rewrite Hc, IH.
Qed.

Lemma take_seq_pattern g r : is_group g -> take_seq (seq_pattern g +:+ r) = Some (g, r).
Proof.
  intros Hg. unfold take_seq, seq_pattern. rewrite !string_app_assoc.
  assert (starts_with "@{seq" ("@{seq" +:+ g +:+ "}" +:+ r) = true) as -> by (apply starts_with_spec; eauto).
  change 5%nat with (String.length "@{seq"). rewrite sdrop_app.
  destruct Hg as [->|(c & d & -> & Hc & Hd & Hds)]; [done|]. rewrite string_app_cons. cbn [app].
  assert (bool_decide (c = "}"%char) = false) as -> by (destruct Hc; subst; done).
  assert (bool_decide (c = "+"%char) || bool_decide (c = "-"%char) = true) as -> by (destruct Hc; subst; done).
  rewrite span_digits_app by done. by destruct d.
Qed.

Lemma take_seq_lit c s t : quiet (String c s) = true -> take_seq (String c (s +:+ t)) = None.
Proof. intros Hc. unfold take_seq. by rewrite (quiet_no_brace "seq"). Qed.

(** The iterator finds the patterns of a template, all of them. *)
Definition groups (ps : list piece) : list string := omap (fun p => match p with Var n => Some (sdrop 3 n) | Lit _ => None end) ps.

Lemma groups_seq g ps : groups (Var (seq_name g) :: ps) = g :: groups ps.
Proof. done. Qed.

Lemma seq_matches_lit s : quiet s = true -> forall fuel t, (String.length s <= fuel)%nat ->
  seq_matches fuel (s +:+ t) = seq_matches (fuel - String.length s) t.
Proof.
  induction s as [|c s IH]; intros Hs fuel t Hf; [by rewrite Nat.sub_0_r|].
  destruct fuel as [|fuel]; [cbn in Hf; lia|].
  rewrite string_app_cons. cbn [seq_matches]. rewrite take_seq_lit by done.
  cbn [quiet] in Hs. apply andb_true_iff in Hs as [_ Hs]. cbn in Hf. rewrite IH by (done || lia). done.
Qed.

Lemma seq_matches_text ps : Forall seq_piece ps -> forall fuel, (String.length (template_text ps) <= fuel)%nat ->
  seq_matches fuel (template_text ps) = groups ps.
Proof.
  induction 1 as [|[s|n] ps Hp _ IH]; intros fuel Hf.
  - by destruct fuel.
  - cbn [template_text piece_text] in *. rewrite slength_app in Hf. rewrite seq_matches_lit by (done || lia). apply IH. lia.
  - destruct Hp as (g & -> & Hg). rewrite groups_seq. cbn [template_text piece_text] in *. rewrite slength_app in Hf.
    pose proof (take_seq_pattern g (template_text ps) Hg) as Et. rewrite seq_pattern_name, pattern_of_cons, string_app_cons in Et.
    rewrite pattern_of_cons, string_app_cons in *. destruct fuel as [|fuel]; [cbn in Hf; lia|]. cbn [seq_matches].
    rewrite Et. f_equal. apply IH. cbn in Hf. lia.
Qed.

(** [stoll] reads an offset, if it is a number of 64 bits. *)
Lemma digit_in_decimal c : isdigit c = true -> digit_in 10 c = Some (zc c - 48).
Proof.
  intros Hc. unfold digit_in, digit_val. rewrite Hc. unfold isdigit in Hc. apply andb_true_iff in Hc as [_ Hc%Z.leb_le].
  by destruct (Z.ltb_spec (zc c - 48) 10); [|lia].
Qed.
Lemma strto_signed c d : c = "+"%char \/ c = "-"%char -> d <> "" -> forallb isdigit (chars d) = true ->
  strto 10 (String c d) = Some (bool_decide (c = "-"%char), (scan_digits 10 d 0).1).
Proof.
  intros Hc Hd Hds. destruct d as [|e d]; [done|]. rewrite chars_cons in Hds. cbn in Hds. apply andb_true_iff in Hds as [He _].
  assert (starts_digit 10 (String e d) = true) as Hs by (cbn; by rewrite digit_in_decimal).
  assert (skip_0x 10 (String e d) = String e d) as Hx by (by destruct d).
  unfold strto. assert (take_sign (skip_space (String c (String e d))) = (bool_decide (c = "-"%char), String e d)) as ->
    by (destruct Hc as [-> | ->]; reflexivity).
  by rewrite Hx, Hs.
Qed.
Lemma scan_decimal d : forallb isdigit (chars d) = true -> forall acc, (scan_digits 10 d acc).1 = decimal d acc.
Proof.
  induction d as [|c d IH]; intros Hd acc; [done|]. rewrite chars_cons in Hd. cbn in Hd. apply andb_true_iff in Hd as [Hc Hd].
  cbn [scan_digits decimal]. rewrite digit_in_decimal by done. rewrite IH by done. f_equal. change (zc "0") with 48. lia.
Qed.
Lemma stoll_group g : is_group g -> stoll (offset_text g) = (if bool_decide (is_i64 (offset_of g)) then Val (offset_of g) else Throw out_of_range).
Proof.
  intros [->|(c & d & -> & Hc & Hd & Hds)]; [vm_compute; reflexivity|]. unfold stoll, sto_signed, offset_text. cbn [sempty].
  rewrite strto_signed by done. unfold offset_of. rewrite <- (scan_decimal d Hds).
  assert (forall z, (if (i64_min <=? z) && (z <=? i64_max) then Val z else Throw out_of_range) =
    (if bool_decide (is_i64 z) then Val z else Throw out_of_range)) as Hz.
  { intros z. unfold is_i64. destruct (Z.leb_spec i64_min z), (Z.leb_spec z i64_max); cbn [andb]; case_bool_decide; done || lia. }
  destruct (bool_decide (c = "-"%char)); apply Hz.
Qed.

Lemma store_matches_val gs : Forall is_group gs -> forall m,
  store_matches gs m = if bool_decide (Forall (fun g => is_i64 (offset_of g)) gs)
                       then Val (foldl (fun m g => <[seq_pattern g := offset_of g]> m) m gs) else Throw out_of_range.
Proof.
  induction 1 as [|g gs Hg _ IH]; intros m; [done|]. cbn [store_matches foldl]. fold (offset_text g). rewrite stoll_group by done.
  erewrite (bool_decide_ext (Forall _ (g :: gs))) by apply Forall_cons. rewrite bool_decide_and.
  destruct (bool_decide (is_i64 (offset_of g))); [apply IH|done].
Qed.

Lemma groups_ok ps : Forall seq_piece ps -> Forall is_group (groups ps).
Proof. induction 1 as [|[s|n] ps Hp _ IH]; [done|done|]. destruct Hp as (g & -> & Hg). rewrite groups_seq. by apply Forall_cons. Qed.

Lemma collectSeqPatterns_val tpls : Forall (Forall seq_piece) tpls -> forall m,
  collectSeqPatterns (template_text <$> tpls) m =
  if bool_decide (Forall (fun g => is_i64 (offset_of g)) (mjoin (groups <$> tpls)))
  then Val (foldl (fun m g => <[seq_pattern g := offset_of g]> m) m (mjoin (groups <$> tpls))) else Throw out_of_range.
Proof.
  induction 1 as [|ps tpls Hps _ IH]; intros m; [done|]. cbn -[bool_decide is_i64]. rewrite seq_matches_text by done.
  rewrite store_matches_val by by apply groups_ok. rewrite foldl_app.
  erewrite (bool_decide_ext (Forall _ (groups ps ++ _))) by apply Forall_app. rewrite bool_decide_and.
  destruct (bool_decide (Forall _ (groups ps))); [apply IH|done].
Qed.

Lemma foldl_patterns gs : forall (m : gmap string Z) p n,
  foldl (fun m g => <[seq_pattern g := offset_of g]> m) m gs !! p = Some n ->
  m !! p = Some n \/ exists g, g ∈ gs /\ p = seq_pattern g /\ n = offset_of g.
Proof.
  induction gs as [|g gs IH]; intros m p n H; [by left|]. apply IH in H as [H|(g' & ? & ?)]; [|right; exists g'; set_solver].
  apply lookup_insert_Some in H as [[<- <-]|[_ H]]; [right; exists g; set_solver|by left].
Qed.

Lemma foldl_patterns_keeps gs : forall (m : gmap string Z) p, is_Some (m !! p) ->
  is_Some (foldl (fun m g => <[seq_pattern g := offset_of g]> m) m gs !! p).
Proof.
  induction gs as [|g gs IH]; intros m p H; [done|]. apply IH. destruct (decide (p = seq_pattern g)) as [->|].
  - by rewrite lookup_insert_eq.
  - by rewrite lookup_insert_ne.
Qed.

Lemma foldl_patterns_in gs g : g ∈ gs -> forall m : gmap string Z,
  is_Some (foldl (fun m g => <[seq_pattern g := offset_of g]> m) m gs !! seq_pattern g).
Proof.
  induction gs as [|g' gs IH]; [set_solver|]. intros [->|Hin]%elem_of_cons m; [|by apply IH].
  cbn. apply foldl_patterns_keeps. by rewrite lookup_insert_eq.
Qed.

(** The patterns of several templates: each is one of a template, and all are there. *)
Lemma collected_entries tpls (m := foldl (fun m g => <[seq_pattern g := offset_of g]> m) (∅ : gmap string Z) (mjoin (groups <$> tpls))) :
  Forall (Forall seq_piece) tpls ->
  Forall pattern_entry (map_entries m) /\
  forall ps n, ps ∈ tpls -> Var n ∈ ps -> n ∈ entry_name <$> map_entries m.
Proof.
  intros Hok. rewrite Forall_forall in Hok. subst m. split.
  - rewrite map_entries_perm. apply Forall_forall. intros [p n] Hin'. apply elem_of_map_to_list in Hin'.
    apply foldl_patterns in Hin' as [H|(g & Hgin & -> & ->)]; [done|]. exists g. split; [done|].
    apply list_elem_of_join in Hgin as (gs & Hgs & (ps' & -> & Hin')%list_elem_of_fmap).
    apply Hok, groups_ok in Hin'. by eapply Forall_forall in Hin'.
  - intros ps n Hps Hn. pose proof (Hok _ Hps) as Hok'. rewrite Forall_forall in Hok'.
    destruct (Hok' _ Hn) as (g & -> & Hg).
    destruct (foldl_patterns_in (mjoin (groups <$> tpls)) g) with (m := ∅ : gmap string Z) as [k Hk].
    { apply list_elem_of_join. exists (groups ps). split; [|set_solver]. apply list_elem_of_omap. by exists (Var (seq_name g)). }
    apply list_elem_of_fmap. exists (seq_pattern g, k). split; [by rewrite entry_name_pattern|].
    rewrite map_entries_perm. by apply elem_of_map_to_list.
Qed.

(** C28: take templates made of patterns of the sequence and of texts in which an at sign is
    always followed by another character of the text than an opening brace.  Their patterns
    are collected if every offset is a 64-bit integer, and otherwise there is an exception.
    When they are, then whatever the order in which they are replaced, a datagram is its
    template with every pattern replaced by the number plus its offset (as an unsigned
    64-bit integer), and nothing else changed. *)
Theorem template_is_filled (tpls : list (list piece)) (value : Z) (Hok : Forall (Forall seq_piece) tpls) :
  match collectSeqPatterns (template_text <$> tpls) ∅ with
  | Val patterns =>
      Forall (fun g => is_i64 (offset_of g)) (mjoin (groups <$> tpls)) /\
      forall ps, ps ∈ tpls -> fill_template patterns value (template_text ps) = template_text (piece_value (seq_value value) <$> ps)
  | Throw e => e = out_of_range /\ ~ Forall (fun g => is_i64 (offset_of g)) (mjoin (groups <$> tpls))
  end.
Proof.
  rewrite collectSeqPatterns_val by done. case_bool_decide as Hi; [|done]. split; [done|]. intros ps Hin. unfold fill_template.
  destruct (collected_entries tpls Hok) as [He Hn]. rewrite Forall_forall in He. rewrite Forall_forall in Hok.
  rewrite (fold_fill (seq_value value) entry_name).
  - f_equal. apply fill_all. intros n. by apply Hn.
  - intros e (g & -> & Hg)%He v. rewrite entry_name_pattern, seq_value_name. intros [= <-]. apply seq_number_ok.
  - intros e qs (g & -> & Hg)%He Hqs. rewrite entry_name_pattern. by apply replace_seq_pieces.
  - by apply seq_pieces_ok, Hok.
Qed.

Lemma template_is_filled_witness :
  match collectSeqPatterns ["a@b/@{seq}|@{seq-8}"; "@{seq+1}"] ∅ with
  | Val patterns => fill_template patterns 100 "a@b/@{seq}|@{seq-8}" = "a@b/100|92"
  | Throw _ => False
  end.
Proof.
  assert (Forall (Forall seq_piece) [[Lit "a@b/"; Var "seq"; Lit "|"; Var "seq-8"]; [Var "seq+1"]]) as Hok.
  { repeat (apply Forall_cons; split); try apply Forall_nil_2; cbn -[quiet].
    - vm_compute. reflexivity.
    - exists "". split; [done|]. by left.
    - vm_compute. reflexivity.
    - exists "-8". split; [done|]. right. exists "-"%char, "8"; auto.
    - exists "+1". split; [done|]. right. exists "+"%char, "1"; auto. }
  pose proof (template_is_filled [[Lit "a@b/"; Var "seq"; Lit "|"; Var "seq-8"]; [Var "seq+1"]] 100 Hok) as H.
  change (template_text <$> _) with ["a@b/@{seq}|@{seq-8}"; "@{seq+1}"] in H.
  destruct (collectSeqPatterns _ _) as [m|e] eqn:E.
  - destruct H as [_ H]. apply (H [Lit "a@b/"; Var "seq"; Lit "|"; Var "seq-8"]). set_solver.
  - vm_compute in E. discriminate E.
Defined.

Lemma generator_covers_the_range_witness :
  send_loop (mkUdpClient "s" (d_of_Z 1) 0 7 9 ["@{seq}"] 1) {["@{seq}" := 0]} (fun _ => 0) 10 0 = (["7"; "8"; "9"], true).
Proof.
  rewrite (proj1 (generator_covers_the_range (mkUdpClient "s" (d_of_Z 1) 0 7 9 ["@{seq}"] 1) {["@{seq}" := 0]} (fun _ => 0) 10
    ltac:(unfold is_u64, u64_max; cbn; lia) ltac:(unfold is_u64, u64_max; cbn; lia)));
    [vm_compute; reflexivity|unfold u64_max; cbn; lia|cbn; lia].
Defined.

(** A sequence shifted under zero is not negative: it wraps around. *)
Theorem shift_under_zero_wraps (value offset : Z) (Hn : - 2 ^ 64 <= value + offset < 0) :
  seq_number value offset = to_string_u (2 ^ 64 + value + offset).
Proof.
  unfold seq_number, wrap_u. f_equal. rewrite <- (Z.mod_add _ 1) by lia. rewrite Z.mod_small; lia.
Qed.

Lemma shift_under_zero_wraps_witness : seq_number 0 (-8000) = "18446744073709543616".
Proof. rewrite (shift_under_zero_wraps 0 (-8000)) by lia. vm_compute. reflexivity. Defined.

(** The exception of an offset that is not a 64-bit integer is caught by nothing. *)
Theorem big_offset_throws : collectSeqPatterns ["@{seq+9223372036854775808}"] ∅ = Throw out_of_range.
Proof. vm_compute. reflexivity. Qed.
