(* ===== verification/UdpServerH2client.v ===== *)
(** The tool that sends a request for each datagram ([tools/udp-server-h2client/main.cpp]):
    its command line, the variables of a datagram, the requests, the statistics, and the
    program as a state machine: the loop that receives, the workers that run what it posts
    to them, and the responses. *)
From S2P Require Import Prelude Std Double Functions Query Json JsonModel External DataPart TypeConverter Transformation Templates Stages Startup Tools.
From stdpp Require Import options.
#[local] Open Scope Z_scope.

(** ** The command line *)

Record RelaySettings := mkRelaySettings {
  rs_name : string;
  rs_socket_path : string;
  rs_output_path : string;
  rs_output_value : string;
  rs_workers : Z;
  rs_print_each : Z;
  rs_timeout : Z;
  rs_delay : Z;
  rs_random_delay : bool;
  rs_method : string;
  rs_headers : header_map;
  rs_body : string;
  rs_uri : string;
  rs_secure : bool;
  rs_prometheus_port : string;
  rs_delay_boundaries : list double;
  rs_size_boundaries : list double
}.

Section CommandLine.
(** The words, the last part of the path of the program, the levels the logger knows, and
    the processors of the machine. *)
Context (argv : list string) (progname : string) (level_known : string -> bool) (nproc : Z).

Definition given_number (names : list string) : CL (option Z) :=
  v ← given_value argv names;
  match v with None => mret None | Some v => CL_lift (n ← toNumber v; Goes (Some n)) end.

Definition checked_workers (n : option Z) : launch Z :=
  match n with
  | None => Goes nproc
  | Some n => if n <=? 0 then usage EXIT_FAILURE "Invalid '-w|--workers' value. Must be positive." else Goes n
  end.
Definition relay_timeout (n : option Z) : launch Z :=
  match n with
  | None => Goes 5000
  | Some n => if n <? 0 then usage EXIT_FAILURE "Invalid '--timeout-milliseconds' value. Must be greater than 0." else Goes n
  end.
(** A negative delay is the bound of a random one; the least number has no opposite. *)
Definition relay_delay (n : option Z) : launch (Z * bool) :=
  match n with
  | None => Goes (0, false)
  | Some n => if n <? 0 then (if n =? - 2 ^ 31 then Undefined else Goes (- n, true)) else Goes (n, false)
  end.
Definition relay_boundaries (v : option string) : launch (list double) :=
  match v with None => Goes [] | Some v => '(_, l) ← loadHistogramBoundaries v; Goes l end.

Definition relay_options : CL RelaySettings :=
  help ← is_given argv ["-h"; "--help"];
  if help : bool then CL_lift (usage EXIT_SUCCESS "") else
  name ← given_text argv ["--name"] progname;
  path ← given_text argv ["-k"; "--udp-socket-path"] "";
  output_path ← given_text argv ["-o"; "--udp-output-socket-path"] "";
  output_value ← given_text argv ["--udp-output-value"] "@{udp}";
  workers ← given_number ["-w"; "--workers"];
  workers ← CL_lift (checked_workers workers);
  each ← given_value argv ["-e"; "--print-each"];
  each ← CL_lift (print_each each);
  level ← given_value argv ["-l"; "--log-level"];
  _ ← CL_lift (checked_level level_known level);
  verbose ← is_given argv ["-v"; "--verbose"];
  timeout ← given_number ["-t"; "--timeout-milliseconds"];
  timeout ← CL_lift (relay_timeout timeout);
  delay ← given_number ["-d"; "--send-delay-milliseconds"];
  delay ← CL_lift (relay_delay delay);
  method ← given_text argv ["-m"; "--method"] "GET";
  headers ← all_given argv "--header";
  body ← given_text argv ["-b"; "--body"] "";
  uri ← given_text argv ["-u"; "--uri"] "";
  secure ← is_given argv ["--secure"];
  address ← given_text argv ["--prometheus-bind-address"] "0.0.0.0";
  port ← given_text argv ["--prometheus-port"] "8081";
  delays ← given_value argv ["--prometheus-response-delay-seconds-histogram-boundaries"];
  delays ← CL_lift (relay_boundaries delays);
  sizes ← given_value argv ["--prometheus-message-size-bytes-histogram-boundaries"];
  sizes ← CL_lift (relay_boundaries sizes);
  mret (mkRelaySettings name path output_path output_value workers each timeout delay.1 delay.2 method
    (foldl emplace_header [] headers) body uri secure port delays sizes).

(** The settings, with the host, the port and the path of the requests. *)
Definition relay_line : launch (RelaySettings * (string * string * string)) :=
  '(s, _) ← relay_options "";
  if sempty (rs_socket_path s) then usage EXIT_FAILURE "" else
  if sempty (rs_uri s) then usage EXIT_FAILURE "" else
  let '(host, port, path) := tokenizeUri (rs_uri s) in
  if sempty host then Exits EXIT_FAILURE "Invalid URI !" else Goes (s, (host, port, path)).

(** The sockets: the server of metrics unless its port is -1, the socket of the datagrams
    bound to its path, and the output socket, whose path is cut to the size of the
    address: the path written to it. *)
Definition relay_start (sun_path_size : nat) (served made output_made bound : bool) : launch (RelaySettings * (string * string * string) * string) :=
  '(s, target) ← relay_line;
  if negb (bool_decide (rs_prometheus_port s = "-1")) && negb served
  then Exits EXIT_FAILURE "Initialization error in prometheus interface" else
  if negb made then Exits EXIT_FAILURE "Error creating UDP socket !" else
  _ ← strcpy_path sun_path_size (rs_socket_path s);
  if negb (sempty (rs_output_path s)) && negb output_made then Exits EXIT_FAILURE "Error creating UDP output socket" else
  if negb bound then Exits EXIT_FAILURE "Error binding UDP socket !"
  else Goes (s, target, stake (sun_path_size - 1) (rs_output_path s)).
End CommandLine.

(** ** The variables of a datagram *)

(** [extractLastNChars] *)
Definition extractLastNChars (input : string) (n : nat) : string :=
  if (String.length input <? n)%nat then input else sdrop (String.length input - n) input.

Definition part_value (prefix val : string) : string :=
  if bool_decide (prefix = "udp8") then extractLastNChars val 8 else val.
Definition part_name (prefix : string) (count : nat) : string := prefix +:+ "." +:+ to_string_u (Z.of_nat count).

(** The loop over the parts, one step for each bar. *)
Fixpoint parts_loop (fuel : nat) (prefix data : string) (start count : nat) (variables : gmap string string) : gmap string string :=
  match fuel with
  | O => variables
  | S fuel =>
      match find_first_of "|" data (Some start) with
      | Some pos =>
          parts_loop fuel prefix data (S pos) (S count)
            (<[part_name prefix count := part_value prefix (stake (pos - start) (sdrop start data))]> variables)
      | None => <[part_name prefix count := part_value prefix (sdrop start data)]> variables
      end
  end.
Definition add_parts (data prefix : string) (variables : gmap string string) : gmap string string :=
  parts_loop (S (String.length data)) prefix data 0 1 variables.

(** The variables [setRequest] stores. *)
Definition stream_variables (data : string) : gmap string string :=
  let variables := <["udp8" := extractLastNChars data 8]> {["udp" := data]} in
  match find_char "|" data with
  | None => variables
  | Some _ => add_parts data "udp8" (add_parts data "udp" variables)
  end.

(** [replaceVariables] of the tool: there is no vault. *)
Definition relay_replaceVariables (s : string) (patterns vars : gmap string string) : string :=
  if bool_decide (patterns = ∅) then s
  else if bool_decide (vars = ∅) then s
  else foldl (fun s it => match vars !! it.2 with Some v => default s (searchReplaceAll s it.1 v) | None => s end) s (map_entries patterns).

(** ** [Stream] *)

(** What the program collected from its arguments before the first datagram. *)
Record RelayConfig := mkRelayConfig {
  rc_method : string;
  rc_path : string;
  rc_body : string;
  rc_headers : header_map;
  rc_timeout : Z;
  rc_delay : Z;
  rc_random_delay : bool;
  rc_output_value : string;
  rc_output : bool;
  rc_print_each : Z;
  rc_debug : bool;
  rc_method_patterns : gmap string string;
  rc_path_patterns : gmap string string;
  rc_body_patterns : gmap string string;
  rc_headers_patterns : gmap string string;
  rc_output_patterns : gmap string string
}.

(** [headersAsString] of the transport is a parameter, and so is whether the level of the
    logger shows the traces of debug. *)
Definition relay_config (headersAsString : header_map -> string) (debug : bool) (s : RelaySettings) (path : string) : RelayConfig :=
  mkRelayConfig (rs_method s) path (rs_body s) (rs_headers s) (rs_timeout s) (rs_delay s) (rs_random_delay s) (rs_output_value s)
    (negb (sempty (rs_output_path s))) (rs_print_each s) debug (collectVariablePatterns (rs_method s)) (collectVariablePatterns path)
    (collectVariablePatterns (rs_body s)) (collectVariablePatterns (headersAsString (rs_headers s))) (collectVariablePatterns (rs_output_value s)).

Record StreamRequest := mkStreamRequest {
  sr_method : string;
  sr_path : string;
  sr_body : string;
  sr_headers : header_map;
  sr_timeout : Z;
  sr_delay : Z
}.

(** The arguments of [asyncSend] in [process]: [getMethod], [getPath], [getBody] and
    [getHeaders] of a stream made of the datagram. *)
Definition stream_headers (c : RelayConfig) (vars : gmap string string) : header_map :=
  foldl (fun h kv => headers_emplace kv.1 (relay_replaceVariables kv.2 (rc_headers_patterns c) vars) h) [] (rc_headers c).
Definition stream_request (c : RelayConfig) (data : string) (delay : Z) : StreamRequest :=
  let vars := stream_variables data in
  mkStreamRequest (relay_replaceVariables (rc_method c) (rc_method_patterns c) vars)
    (relay_replaceVariables (rc_path c) (rc_path_patterns c) vars)
    (relay_replaceVariables (rc_body c) (rc_body_patterns c) vars)
    (stream_headers c vars) (rc_timeout c) delay.

(** ** Statistics *)

Record Stats := mkStats {
  STATUS_CODES_2xx : Z;
  STATUS_CODES_3xx : Z;
  STATUS_CODES_4xx : Z;
  STATUS_CODES_5xx : Z;
  TIMEOUTS : Z;
  CONNECTION_ERRORS : Z
}.
Definition Stats_new : Stats := mkStats 0 0 0 0 0 0.

(** A counter is an [unsigned int]. *)
Definition count_if (b : bool) (n : Z) : Z := if b then to_u32 (n + 1) else n.
Inductive StatusClass := C2xx | C3xx | C4xx | C5xx | CTimeout | CConnection | CNone.
#[global] Instance StatusClass_eq_dec : EqDecision StatusClass.
Proof. solve_decision. Defined.
Definition status_class (status : Z) : StatusClass :=
  if (200 <=? status) && (status <? 300) then C2xx
  else if (300 <=? status) && (status <? 400) then C3xx
  else if (400 <=? status) && (status <? 500) then C4xx
  else if (500 <=? status) && (status <? 600) then C5xx
  else if status =? -2 then CTimeout
  else if (status =? -1) || (status =? -3) || (status =? -4) then CConnection
  else CNone.
Definition count_status (status : Z) (s : Stats) : Stats :=
  let at_class k := bool_decide (status_class status = k) in
  mkStats (count_if (at_class C2xx) (STATUS_CODES_2xx s)) (count_if (at_class C3xx) (STATUS_CODES_3xx s)) (count_if (at_class C4xx) (STATUS_CODES_4xx s))
    (count_if (at_class C5xx) (STATUS_CODES_5xx s)) (count_if (at_class CTimeout) (TIMEOUTS s)) (count_if (at_class CConnection) (CONNECTION_ERRORS s)).

Definition statsAsString (s : Stats) : string :=
  to_string_u (STATUS_CODES_2xx s) +:+ " 2xx, " +:+ to_string_u (STATUS_CODES_3xx s) +:+ " 3xx, " +:+ to_string_u (STATUS_CODES_4xx s) +:+ " 4xx, "
  +:+ to_string_u (STATUS_CODES_5xx s) +:+ " 5xx, " +:+ to_string_u (TIMEOUTS s) +:+ " timeouts, "
  +:+ to_string_u (CONNECTION_ERRORS s) +:+ " connection errors".

(** ** The program *)

(** The main thread receives, or waits for its workers ([join]), or the program has ended
    with a code. *)
Inductive RelayPhase := Receiving | Joining | Ended (rc : Z).
#[global] Instance RelayPhase_eq_dec : EqDecision RelayPhase.
Proof. solve_decision. Defined.

(** [udpData] is one variable, which the handlers posted to the workers refer to: no lock
    protects it, so a handler copies it from the event [Start] to the event [Work], and
    assigning it in between is undefined.  [rl_posted] are the handlers that have not made
    their request, [rl_reading] the ones of them that are copying.  The guard of the context
    of the workers is never reset. *)
Record Relay := mkRelay {
  rl_phase : RelayPhase;
  rl_udpData : string;
  rl_sequence : Z;
  rl_posted : nat;
  rl_reading : nat;
  rl_guard : bool;
  rl_sent : list StreamRequest;
  rl_lines : list (string * string);
  rl_stats : Stats
}.
Definition Relay_new : Relay := mkRelay Receiving "" 0 0 0 true [] [] Stats_new.

Inductive RelayEvent :=
| Receive (datagram : string)
| Start
| Work (rand : Z)
| Respond (status : Z)
| Joined
| Signal.

Section Program.
Context (c : RelayConfig).

Definition set_phase (p : RelayPhase) (r : Relay) : Relay :=
  mkRelay p (rl_udpData r) (rl_sequence r) (rl_posted r) (rl_reading r) (rl_guard r) (rl_sent r) (rl_lines r) (rl_stats r).

(** A turn of the loop that receives. *)
Definition relay_receive (datagram : string) (r : Relay) : launch Relay :=
  if sempty (in_buffer datagram) then Goes (set_phase Joining r)
  else if (0 <? rl_reading r)%nat then Undefined
  else
    let udpData := cstr (in_buffer datagram) in
    let stats := statsAsString (rl_stats r) in
    Goes (if bool_decide (udpData = "EOF") then
      mkRelay Joining udpData (rl_sequence r) (rl_posted r) (rl_reading r) (rl_guard r) (rl_sent r) (rl_lines r) (rl_stats r)
    else if bool_decide (udpData = "STATS") then
      mkRelay Receiving udpData (rl_sequence r) (rl_posted r) (rl_reading r) (rl_guard r) (rl_sent r) (rl_lines r ++ [("STATS", stats)]) (rl_stats r)
    else
      mkRelay Receiving udpData (to_u32 (rl_sequence r + 1)) (S (rl_posted r)) (rl_reading r) (rl_guard r) (rl_sent r)
        (if shown (rc_print_each c) (rl_sequence r) then rl_lines r ++ [(udpData, stats)] else rl_lines r) (rl_stats r)).

(** The delay of a request: a random one is drawn up to the bound, which must have a
    successor. *)
Definition send_delay (rand : Z) : launch Z :=
  if rc_random_delay c then (if rc_delay c =? 2 ^ 31 - 1 then Undefined else Goes (rand mod (rc_delay c + 1))) else Goes (rc_delay c).

(** A handler run by a worker: it starts to copy [udpData], and it sends the request made
    of its copy.  Nothing was assigned in between, so the copy is what the variable holds. *)
Definition relay_start_work (r : Relay) : Relay :=
  mkRelay (rl_phase r) (rl_udpData r) (rl_sequence r) (rl_posted r) (S (rl_reading r)) (rl_guard r) (rl_sent r) (rl_lines r) (rl_stats r).
Definition relay_work (rand : Z) (r : Relay) : launch Relay :=
  delay ← send_delay rand;
  Goes (mkRelay (rl_phase r) (rl_udpData r) (rl_sequence r) (pred (rl_posted r)) (pred (rl_reading r)) (rl_guard r)
          (rl_sent r ++ [stream_request c (rl_udpData r) delay]) (rl_lines r) (rl_stats r)).

(** A response: its stream ended with the handler that made it.  The trace of debug reads
    the datagram from it, and so does the text of the output datagram, when there is an
    output socket. *)
Definition relay_respond (status : Z) (r : Relay) : launch Relay :=
  if rc_debug c || rc_output c then Undefined
  else Goes (mkRelay (rl_phase r) (rl_udpData r) (rl_sequence r) (rl_posted r) (rl_reading r) (rl_guard r) (rl_sent r) (rl_lines r)
               (count_status status (rl_stats r))).

(** A step, when it can happen.  The threads of the workers end, and with them the [join],
    when nothing is posted and the context has no guard. *)
Definition relay_step (r : Relay) (e : RelayEvent) : option (launch Relay) :=
  match rl_phase r, e with
  | Ended _, _ => None
  | Receiving, Receive d => Some (relay_receive d r)
  | _, Receive _ => None
  | _, Start => if (rl_reading r <? rl_posted r)%nat then Some (Goes (relay_start_work r)) else None
  | _, Work rand => if (0 <? rl_reading r)%nat then Some (relay_work rand r) else None
  | _, Respond status => if (0 <? length (rl_sent r))%nat then Some (relay_respond status r) else None
  | Joining, Joined => if (rl_posted r =? 0)%nat && negb (rl_guard r) then Some (Goes (set_phase (Ended EXIT_SUCCESS) r)) else None
  | _, Joined => None
  | _, Signal => Some (Goes (set_phase (Ended EXIT_FAILURE) r))
  end.

(** An execution: every event can happen when it comes. *)
Inductive relay_run : Relay -> list RelayEvent -> launch Relay -> Prop :=
| run_nil r : relay_run r [] (Goes r)
| run_cons r e r' l o : relay_step r e = Some (Goes r') -> relay_run r' l o -> relay_run r (e :: l) o
| run_undefined r e l : relay_step r e = Some Undefined -> relay_run r (e :: l) Undefined.
End Program.
#[export] Hint Constructors relay_run : h2.

(** The names the program reports as the builtin ones it uses: [^udp(?:\.\d+)?$]. *)
Definition builtin_pattern (name : string) : bool :=
  bool_decide (name = "udp")
  || (starts_with "udp." name && negb (sempty (sdrop 4 name)) && forallb isdigit (chars (sdrop 4 name))).

(** The line that reports them, in the order of their names. *)
Definition builtin_patterns (c : RelayConfig) : gmap string string :=
  foldl (fun all (patterns : gmap string string) =>
           foldl (fun all (it : string * string) => if builtin_pattern it.2 then <[it.2 := "@{" +:+ it.2 +:+ "}"]> all else all) all (map_entries patterns))
    ∅ [rc_output_patterns c; rc_method_patterns c; rc_path_patterns c; rc_body_patterns c; rc_headers_patterns c].
Definition builtin_patterns_used (c : RelayConfig) : string :=
  let s := foldl (fun s (it : string * string) => s +:+ " " +:+ it.2) "" (map_entries (builtin_patterns c)) in
  if sempty s then " not detected" else s.

(** ** The variables *)

Lemma part_name_inj prefix i j : is_u64 (Z.of_nat i) -> is_u64 (Z.of_nat j) -> part_name prefix i = part_name prefix j -> i = j.
Proof.
  intros Hi Hj E. unfold part_name in E. apply (f_equal chars) in E. rewrite !chars_app in E.
  do 2 apply app_inv_head in E. apply chars_inj, (f_equal stoull) in E. unfold to_string_u, stoull in E.
  rewrite !stoull_render in E by (done || lia). injection E as E. lia.
Qed.

(** The parts go to their names, one after the other. *)
Fixpoint name_parts (prefix : string) (count : nat) (parts : list string) (variables : gmap string string) : gmap string string :=
  match parts with
  | [] => variables
  | p :: l => name_parts prefix (S count) l (<[part_name prefix count := part_value prefix p]> variables)
  end.

Lemma parts_loop_pieces prefix : forall fuel a s count variables,
  (String.length s < fuel)%nat ->
  parts_loop fuel prefix (a +:+ s) (String.length a) count variables = name_parts prefix count (pieces "|" s) variables.
Proof.
  induction fuel as [|fuel IH]; intros a s count vars Hf; [lia|]. cbn [parts_loop]. unfold find_first_of. rewrite sdrop_app.
  destruct (find_char "|" s) as [i|] eqn:Ef; cbn [fmap option_fmap option_map].
  - apply find_char_Some in Ef as (x & y & -> & Hx & <-). rewrite pieces_sep by done. cbn [name_parts].
    replace (String.length a + String.length x - String.length a)%nat with (String.length x) by lia. rewrite stake_app.
    rewrite slength_app in Hf. cbn in Hf.
    replace (S (String.length a + String.length x)) with (String.length (a +:+ x +:+ "|")).
    2: { rewrite !slength_app. cbn. lia. }
    replace (a +:+ x +:+ String "|" y) with ((a +:+ x +:+ "|") +:+ y).
    2: { by rewrite !string_app_assoc. }
    apply IH. lia.
  - apply find_char_None in Ef. by rewrite pieces_no_sep.
Qed.

Lemma add_parts_names data prefix variables : add_parts data prefix variables = name_parts prefix 1 (pieces "|" data) variables.
Proof. unfold add_parts. apply (parts_loop_pieces prefix _ "" data). lia. Qed.

Lemma name_parts_other prefix n l : forall count variables,
  (forall i, (i < length l)%nat -> n <> part_name prefix (count + i)) -> name_parts prefix count l variables !! n = variables !! n.
Proof.
  induction l as [|p l IH]; intros count vars Hn; [done|]. cbn [name_parts]. rewrite IH.
  - apply lookup_insert_ne. intros E. apply (Hn 0%nat); [cbn; lia|]. by rewrite Nat.add_0_r.
  - intros i Hi. rewrite Nat.add_succ_comm. apply Hn. cbn. lia.
Qed.

Lemma name_parts_lookup prefix l : forall count i variables p,
  Z.of_nat (count + length l) < 2 ^ 63 -> l !! i = Some p ->
  name_parts prefix count l variables !! part_name prefix (count + i) = Some (part_value prefix p).
Proof.
  induction l as [|q l IH]; intros count i vars p Hb Hi; [done|]. cbn [name_parts]. cbn [length] in Hb. destruct i as [|i].
  - injection Hi as ->. rewrite Nat.add_0_r, name_parts_other; [by rewrite lookup_insert_eq|].
    intros j Hj E. apply part_name_inj in E; [lia|unfold is_u64, u64_max; lia..].
  - rewrite <- Nat.add_succ_comm. apply IH; [lia|done].
Qed.

Lemma name_parts_domain prefix l : forall count variables n, is_Some (name_parts prefix count l variables !! n) ->
  is_Some (variables !! n) \/ exists i, (i < length l)%nat /\ n = part_name prefix (count + i).
Proof.
  induction l as [|p l IH]; intros count vars n Hn; [by left|]. apply IH in Hn as [Hn|(i & Hi & ->)].
  - destruct (decide (n = part_name prefix count)) as [->|Hne].
    + right. exists 0%nat. rewrite Nat.add_0_r. cbn. split; [lia|done].
    + left. by rewrite lookup_insert_ne in Hn.
  - right. exists (S i). rewrite Nat.add_succ_comm. cbn. split; [lia|done].
Qed.

Lemma pieces_length c s : (length (pieces c s) <= S (String.length s))%nat.
Proof.
  unfold pieces. induction s as [|d s IH]; [done|]. cbn. destruct (split_on c s) as [p l]. case_decide; cbn in *; lia.
Qed.

Lemma part_names_differ i j : part_name "udp" i <> part_name "udp8" j.
Proof. done. Qed.

(** The variables of a datagram: the whole, its last eight characters, and for a
    datagram with bars each of its parts, whole and cut to its last eight characters,
    under their position; no other name has a value. *)
Theorem variables_are_the_parts (data : string) (Hlen : Z.of_nat (String.length data) < 2 ^ 62) :
  stream_variables data !! "udp" = Some data /\
  stream_variables data !! "udp8" = Some (extractLastNChars data 8) /\
  (forall i p, ~ no_char "|" data -> pieces "|" data !! i = Some p ->
     stream_variables data !! part_name "udp" (S i) = Some p /\
     stream_variables data !! part_name "udp8" (S i) = Some (extractLastNChars p 8)) /\
  (forall n, is_Some (stream_variables data !! n) ->
     n = "udp" \/ n = "udp8" \/
     exists i, (i < length (pieces "|" data))%nat /\ (n = part_name "udp" (S i) \/ n = part_name "udp8" (S i))).
Proof.
  pose proof (pieces_length "|" data) as Hl. unfold stream_variables.
  destruct (find_char "|" data) as [k|] eqn:Ef.
  - rewrite !add_parts_names. split_and!.
    + by rewrite !name_parts_other by done.
    + by rewrite !name_parts_other by done.
    + intros i p _ Hp. change (Some p) with (Some (part_value "udp" p)).
      change (Some (extractLastNChars p 8)) with (Some (part_value "udp8" p)).
      split; [rewrite name_parts_other by (intros; apply part_names_differ)|]; apply (name_parts_lookup _ _ 1 i); done || lia.
    + intros n [[Hn|(i & Hi & ->)]%name_parts_domain|(i & Hi & ->)]%name_parts_domain; [|by eauto 8..].
      apply lookup_insert_is_Some in Hn as [<-|[_ [? [<- _]%lookup_singleton_Some]]]; auto.
  - apply find_char_None in Ef. split_and!.
    + done.
    + done.
    + done.
    + intros n [<-|[_ [? [<- _]%lookup_singleton_Some]]]%lookup_insert_is_Some; auto.
Qed.

Lemma variables_are_the_parts_witness :
  stream_variables "a|0123456789" !! "udp8.2" = Some "23456789".
Proof.
  destruct (variables_are_the_parts "a|0123456789" ltac:(cbn; lia)) as (_ & _ & H & _).
  apply (H 1%nat "0123456789"); [|reflexivity]. intros Hn. apply (bool_decide_pack _) in Hn. vm_compute in Hn. exact Hn.
Defined.

(** ** The requests *)

Lemma no_char_sdrop c n s : no_char c s -> no_char c (sdrop n s).
Proof. rewrite <- (stake_sdrop n s) at 1. by rewrite no_char_app; intros []. Qed.
Lemma extractLastNChars_plain c s n : no_char c s -> no_char c (extractLastNChars s n).
Proof. intros Hs. unfold extractLastNChars. destruct (_ <? _)%nat; [done|by apply no_char_sdrop]. Qed.
Lemma pieces_plain c d s : no_char c s -> Forall (no_char c) (pieces d s).
Proof.
  unfold pieces. induction s as [|e s IH]; intros Hs; [by apply Forall_singleton|].
  apply no_char_cons in Hs as [He Hs]. cbn. specialize (IH Hs). destruct (split_on d s) as [p l].
  apply Forall_cons in IH as [Hp Hl]. case_decide.
  - apply Forall_cons. split; [unfold no_char; set_solver|]. by apply Forall_cons.
  - apply Forall_cons. split; [by apply no_char_cons|done].
Qed.
Lemma name_parts_plain c prefix l : Forall (no_char c) l -> forall count variables,
  map_Forall (fun _ v => no_char c v) variables -> map_Forall (fun _ v => no_char c v) (name_parts prefix count l variables).
Proof.
  induction 1 as [|p l Hp _ IH]; intros count vars Hv; [done|]. apply IH, map_Forall_insert_2; [|done].
  unfold part_value. case_bool_decide; [by apply extractLastNChars_plain|done].
Qed.
Lemma variables_plain c data : no_char c data -> map_Forall (fun _ v => no_char c v) (stream_variables data).
Proof.
  intros Hd. unfold stream_variables. rewrite !add_parts_names.
  assert (map_Forall (fun _ v => no_char c v) (<["udp8" := extractLastNChars data 8]> {["udp" := data]} : gmap string string)) as H0.
  { apply map_Forall_insert_2; [by apply extractLastNChars_plain|]. by apply map_Forall_singleton. }
  destruct (find_char "|" data); [|done]. by apply name_parts_plain, name_parts_plain; [apply pieces_plain..|].
Qed.

(** A text of the command line is sent with each of its patterns replaced by the part
    of the datagram it names, whatever their order, and with the other patterns as they
    are, for a datagram without the sign of a pattern. *)
Theorem patterns_are_replaced (ps : list piece) (data : string) (Hok : Forall piece_ok ps) (Hd : no_char "@" data) :
  relay_replaceVariables (template_text ps) (collectVariablePatterns (template_text ps)) (stream_variables data) =
  template_text (piece_value (fun n => stream_variables data !! n) <$> ps).
Proof.
  pose proof (variables_plain _ _ Hd) as Hv.
  rewrite <- (replace_template _ (bool_decide (stream_variables data = ∅)) ps); [done|done| |].
  - intros n v _ Hl. apply Hv in Hl. by apply quiet_no_at.
  - intros ->%bool_decide_eq_true n. done.
Qed.

Lemma patterns_are_replaced_witness :
  relay_replaceVariables "book/@{udp.2}/@{x}" (collectVariablePatterns "book/@{udp.2}/@{x}") (stream_variables "a|b") = "book/b/@{x}".
Proof.
  set (ps := [Lit "book/"; Var "udp.2"; Lit "/"; Var "x"]). change "book/@{udp.2}/@{x}" with (template_text ps).
  rewrite (patterns_are_replaced ps "a|b"); [vm_compute; reflexivity|..].
  - repeat (apply Forall_cons; split); try apply Forall_nil_2; apply (bool_decide_unpack _); vm_compute; exact I.
  - apply (bool_decide_unpack _). vm_compute. exact I.
Defined.

(** ** Runs *)

(** The datagrams that are posted as requests. *)
Definition udp_data (d : string) : string := cstr (in_buffer d).
Definition ordinary (d : string) : bool := negb (ends_server d) && negb (bool_decide (udp_data d = "STATS")).
Definition received_datagrams (l : list RelayEvent) : list string := omap (fun e => match e with Receive d => Some d | _ => None end) l.
#[global] Arguments received_datagrams : simpl never.
Definition ordinary_datagrams (l : list RelayEvent) : list string := List.filter ordinary (received_datagrams l).

(** The content of a request: all but its delay. *)
Definition content (q : StreamRequest) : StreamRequest := mkStreamRequest (sr_method q) (sr_path q) (sr_body q) (sr_headers q) (sr_timeout q) 0.
Definition request_for (c : RelayConfig) (d : string) : StreamRequest := stream_request c (udp_data d) 0.

Section Runs.
Context (c : RelayConfig).

(** A reception, by kind of datagram. *)
Lemma receive_cases d r r' : relay_receive c d r = Goes r' ->
  (sempty (in_buffer d) = false -> rl_reading r = 0%nat) /\
  ((ends_server d = true /\ r' =
     mkRelay Joining (if sempty (in_buffer d) then rl_udpData r else udp_data d) (rl_sequence r) (rl_posted r) (rl_reading r) (rl_guard r)
       (rl_sent r) (rl_lines r) (rl_stats r)) \/
  (ends_server d = false /\ udp_data d = "STATS" /\ exists lines, r' =
     mkRelay Receiving (udp_data d) (rl_sequence r) (rl_posted r) (rl_reading r) (rl_guard r) (rl_sent r) lines (rl_stats r)) \/
  (ordinary d = true /\ exists lines, r' =
     mkRelay Receiving (udp_data d) (to_u32 (rl_sequence r + 1)) (S (rl_posted r)) (rl_reading r) (rl_guard r) (rl_sent r) lines (rl_stats r))).
Proof.
  unfold relay_receive, ordinary, ends_server, udp_data, set_phase. destruct (sempty (in_buffer d)).
  { intros [= <-]. split; [done|by left]. }
  destruct (Nat.ltb_spec 0 (rl_reading r)); [done|]. cbn [orb]. intros [= <-]. split; [lia|].
  case_bool_decide as H1; [by left|]. right. case_bool_decide as H2; [left; split_and!; [done..|]; by eexists|].
  right. split; [done|]. by eexists.
Qed.

(** An ordinary datagram is received when no handler is copying. *)
Lemma receive_ordinary d r : ordinary d = true -> rl_reading r = 0%nat -> exists lines, relay_receive c d r =
  Goes (mkRelay Receiving (udp_data d) (to_u32 (rl_sequence r + 1)) (S (rl_posted r)) (rl_reading r) (rl_guard r) (rl_sent r) lines (rl_stats r)).
Proof.
  unfold relay_receive, ordinary, ends_server, udp_data. intros Ho ->. destruct (sempty (in_buffer d)); [done|]. cbn [orb] in Ho.
  do 2 case_bool_decide; try done. by eexists.
Qed.

(** What holds in every state, by the events so far. *)
Definition relay_inv (l : list RelayEvent) (r : Relay) : Prop :=
  rl_guard r = true /\
  (rl_reading r <= rl_posted r)%nat /\
  (length (rl_sent r) + rl_posted r)%nat = length (ordinary_datagrams l) /\
  rl_sequence r = to_u32 (Z.of_nat (length (ordinary_datagrams l))) /\
  (0 < rl_posted r -> exists d, d ∈ received_datagrams l /\ rl_udpData r = udp_data d)%nat /\
  (forall q, q ∈ rl_sent r -> exists d, d ∈ received_datagrams l /\ content q = request_for c d).

Lemma received_snoc l e : received_datagrams (l ++ [e]) = received_datagrams l ++ received_datagrams [e].
Proof. apply omap_app. Qed.
Lemma ordinary_snoc l e : ordinary_datagrams (l ++ [e]) = ordinary_datagrams l ++ ordinary_datagrams [e].
Proof. unfold ordinary_datagrams. by rewrite received_snoc, List.filter_app. Qed.

Lemma content_request data delay : content (stream_request c data delay) = stream_request c data 0.
Proof. done. Qed.

(** What a step is, by its event. *)
Lemma step_cases r e r' : relay_step c r e = Some (Goes r') ->
  match e with
  | Receive d => rl_phase r = Receiving /\ relay_receive c d r = Goes r'
  | Start => (rl_reading r < rl_posted r)%nat /\ r' = relay_start_work r
  | Work k => (0 < rl_reading r)%nat /\ exists delay,
      r' = mkRelay (rl_phase r) (rl_udpData r) (rl_sequence r) (pred (rl_posted r)) (pred (rl_reading r)) (rl_guard r)
             (rl_sent r ++ [stream_request c (rl_udpData r) delay]) (rl_lines r) (rl_stats r)
  | Respond status =>
      r' = mkRelay (rl_phase r) (rl_udpData r) (rl_sequence r) (rl_posted r) (rl_reading r) (rl_guard r) (rl_sent r) (rl_lines r) (count_status status (rl_stats r))
  | Joined => rl_guard r = false /\ r' = set_phase (Ended EXIT_SUCCESS) r
  | Signal => r' = set_phase (Ended EXIT_FAILURE) r
  end.
Proof.
  unfold relay_step. destruct (rl_phase r) eqn:Ep, e as [d| |k|st| |]; try done; try (by intros [= <-]); try (by intros [= ->]).
  all: try (destruct (Nat.ltb_spec (rl_reading r) (rl_posted r)); [|done]; by intros [= <-]).
  all: try (destruct (Nat.ltb_spec 0 (rl_reading r)); [|done]; unfold relay_work; destruct (send_delay c k) as [delay| |];
            cbn; [|done..]; intros [= <-]; rewrite <- Ep; by eauto).
  all: try (destruct (_ <? _)%nat; [|done]; unfold relay_respond; destruct (_ || _); [done|]; intros [= <-]; by rewrite <- Ep).
  destruct (_ =? _)%nat, (rl_guard r); cbn; try done. by intros [= <-].
Qed.

Lemma relay_step_inv l r e r' : relay_inv l r -> relay_step c r e = Some (Goes r') -> relay_inv (l ++ [e]) r'.
Proof.
  intros (Hg & Hrd & Hn & Hs & Hd & Hq) Hstep%step_cases. unfold relay_inv. rewrite ordinary_snoc, received_snoc.
  assert (forall d, d ∈ received_datagrams l -> d ∈ received_datagrams l ++ received_datagrams [e]) as Hin.
  { intros d ?. apply elem_of_app. by left. }
  assert (forall q, q ∈ rl_sent r -> exists d, d ∈ received_datagrams l ++ received_datagrams [e] /\ content q = request_for c d) as Hq'.
  { intros q (d & ? & ?)%Hq. eauto. }
  assert (0 < rl_posted r -> exists d, d ∈ received_datagrams l ++ received_datagrams [e] /\ rl_udpData r = udp_data d)%nat as Hd'.
  { intros (d & ? & ?)%Hd. eauto. }
  destruct e as [d| |k|st| |].
  - destruct Hstep as [_ Hrec]. change (ordinary_datagrams [Receive d]) with (List.filter ordinary [d]). cbn [List.filter].
    assert (d ∈ received_datagrams l ++ received_datagrams [Receive d]) as Hdin by (apply elem_of_app; right; by apply list_elem_of_here).
    destruct (receive_cases d r r' Hrec) as [_ [[He ->]|[(He & Hst & lines & ->)|(Ho & lines & ->)]]].
    + assert (ordinary d = false) as -> by (unfold ordinary; by rewrite He). rewrite app_nil_r. split_and!; cbn; [done..| |done].
      destruct (sempty (in_buffer d)); [done|eauto].
    + assert (ordinary d = false) as -> by (unfold ordinary; rewrite He, Hst; done). rewrite app_nil_r. split_and!; cbn; eauto.
    + rewrite Ho, length_app. cbn. split_and!; [done|lia..| |eauto|done].
      rewrite Hs. unfold wrap_u. rewrite Zplus_mod_idemp_l. f_equal. lia.
  - destruct Hstep as [Hp ->]. rewrite !app_nil_r in *. split_and!; cbn; done || lia.
  - destruct Hstep as (Hp & delay & ->). rewrite !app_nil_r in *. split_and!; cbn; [done|lia|rewrite length_app; cbn; lia|done| |].
    + intros Hp'. apply Hd'. lia.
    + intros q [Hqi| ->%list_elem_of_singleton]%elem_of_app; [by apply Hq'|].
      destruct (Hd' ltac:(lia)) as (d & Hdi & ->). exists d. split; [done|]. done.
  - subst r'. rewrite !app_nil_r in *. by split_and!.
  - destruct Hstep as [? _]. congruence.
  - subst r'. rewrite !app_nil_r in *. by split_and!.
Qed.

Lemma relay_run_inv r l r' : relay_run c r l (Goes r') -> forall l0, relay_inv l0 r -> relay_inv (l0 ++ l) r'.
Proof.
  remember (Goes r') as o eqn:Eo. intros Hr. revert r' Eo. induction Hr as [r|r e r1 l o Hs Hr IH|]; intros r' Eo l0 H0; [|..|done].
  - rewrite app_nil_r. by simplify_eq.
  - replace (l0 ++ e :: l) with ((l0 ++ [e]) ++ l) by by rewrite <- app_assoc. apply IH; [done|]. by eapply relay_step_inv.
Qed.

Lemma relay_inv_new : relay_inv [] Relay_new.
Proof. split_and!; cbn; [done..|lia|]. intros q Hq. by apply elem_of_nil in Hq. Qed.

(** C27: in every run without a race, that is in which no datagram is assigned while a
    worker copies the one before, and whatever the order of receptions, works and responses,
    a request is sent for each datagram or still waits to be, and no request has a content
    that was not received.  A race is undefined ([race_is_undefined]). *)
Theorem one_request_per_datagram (l : list RelayEvent) (r : Relay) (Hr : relay_run c Relay_new l (Goes r)) :
  (length (rl_sent r) + rl_posted r)%nat = length (ordinary_datagrams l) /\
  rl_sequence r = to_u32 (Z.of_nat (length (ordinary_datagrams l))) /\
  forall q, q ∈ rl_sent r -> exists d, d ∈ received_datagrams l /\ content q = request_for c d.
Proof. destruct (relay_run_inv _ _ _ Hr [] relay_inv_new) as (_ & _ & ? & ? & _ & ?). done. Qed.

(** A datagram that comes while a worker copies the one before is a race: the execution is
    undefined. *)
Theorem race_is_undefined (r : Relay) (d : string) (Hp : rl_phase r = Receiving) (Hd : ordinary d = true) (Hw : (0 < rl_posted r)%nat)
    (Hf : rl_reading r = 0%nat) :
  relay_run c r [Start; Receive d] Undefined.
Proof.
  eapply run_cons.
  - unfold relay_step. rewrite Hp, Hf. by destruct (Nat.ltb_spec 0 (rl_posted r)); [|lia].
  - apply run_undefined. unfold relay_step, relay_receive, relay_start_work. cbn. rewrite Hp.
    unfold ordinary, ends_server in Hd. by destruct (sempty (in_buffer d)).
Qed.

(** The end of file does not end the program: its main thread waits for the workers, and
    they never return, since the guard of their context is never reset.  Only a signal
    ends it, and then with the code of a failure. *)
Theorem end_of_file_does_not_end (l : list RelayEvent) (r : Relay) (rc : Z)
    (Hr : relay_run c Relay_new l (Goes r)) (Hp : rl_phase r = Ended rc) :
  Signal ∈ l /\ rc = EXIT_FAILURE.
Proof.
  assert (forall r0 l0 o, relay_run c r0 l0 o -> rl_guard r0 = true -> (forall n, rl_phase r0 <> Ended n) ->
    forall r rc, o = Goes r -> rl_phase r = Ended rc -> Signal ∈ l0 /\ rc = EXIT_FAILURE) as H.
  { clear. induction 1 as [r|r e r1 l o Hs Hr IH|]; intros Hg Hne r' rc' Eo Hp; simplify_eq; [by apply Hne in Hp|].
    pose proof (step_cases _ _ _ Hs) as Hc. destruct e as [d| |k|st| |].
    - destruct Hc as [_ Hc]. apply receive_cases in Hc as [_ Hc].
      destruct (IH ltac:(destruct Hc as [[_ ->]|[(_ & _ & ? & ->)|(_ & ? & ->)]]; exact Hg)
        ltac:(destruct Hc as [[_ ->]|[(_ & _ & ? & ->)|(_ & ? & ->)]]; done) _ _ eq_refl Hp).
      split; [by apply elem_of_cons; right|done].
    - destruct Hc as [_ ->]. destruct (IH Hg Hne _ _ eq_refl Hp). split; [by apply elem_of_cons; right|done].
    - destruct Hc as (_ & delay & ->). destruct (IH Hg Hne _ _ eq_refl Hp). split; [by apply elem_of_cons; right|done].
    - subst r1. destruct (IH Hg Hne _ _ eq_refl Hp). split; [by apply elem_of_cons; right|done].
    - destruct Hc as [? _]. congruence.
    - subst r1. split; [by apply elem_of_cons; left|]. inversion Hr; subst; [cbn in Hp; congruence|done]. }
  by eapply H; [exact Hr|..].
Qed.

(** ** Runs in which each request is made before the next datagram *)

(** No datagram is received while a request waits to be made. *)
Fixpoint calm (waiting : bool) (l : list RelayEvent) : bool :=
  match l with
  | [] => true
  | Receive d :: l => negb waiting && calm (ordinary d) l
  | Work _ :: l => calm false l
  | _ :: l => calm waiting l
  end.

Definition calm_inv (waiting : bool) (l : list RelayEvent) (r : Relay) : Prop :=
  rl_posted r = (if waiting then 1 else 0)%nat /\
  (rl_reading r <= rl_posted r)%nat /\
  (content <$> rl_sent r) ++ (if waiting then [stream_request c (rl_udpData r) 0] else []) = request_for c <$> ordinary_datagrams l.

Lemma calm_step waiting l r e r' : calm_inv waiting l r -> relay_step c r e = Some (Goes r') ->
  match e with Receive _ => waiting = false | _ => True end ->
  calm_inv (match e with Receive d => ordinary d | Work _ => false | _ => waiting end) (l ++ [e]) r'.
Proof.
  intros (Hp & Hrd & Hs) Hstep%step_cases Hw. unfold calm_inv. rewrite ordinary_snoc, fmap_app. destruct e as [d| |k|st| |].
  - subst waiting. destruct Hstep as [_ Hrec]. change (ordinary_datagrams [Receive d]) with (List.filter ordinary [d]). cbn [List.filter].
    rewrite app_nil_r in Hs.
    destruct (receive_cases d r r' Hrec) as [_ [[He ->]|[(He & Hst & lines & ->)|(Ho & lines & ->)]]].
    + assert (ordinary d = false) as -> by (unfold ordinary; by rewrite He). cbn. by rewrite !app_nil_r.
    + assert (ordinary d = false) as -> by (unfold ordinary; rewrite He, Hst; done). cbn. by rewrite !app_nil_r.
    + rewrite Ho. cbn. rewrite Hp in *. rewrite <- Hs. split_and!; [done|lia|done].
  - destruct Hstep as [Hlt ->]. cbn. rewrite app_nil_r. split_and!; [done|lia|done].
  - destruct Hstep as (Hpos & delay & ->). cbn. rewrite Hp in *. destruct waiting; [|lia]. split_and!; [done|lia|].
    rewrite fmap_app, !app_nil_r. exact Hs.
  - subst r'. cbn. by rewrite app_nil_r.
  - destruct Hstep as [_ ->]. cbn. by rewrite app_nil_r.
  - subst r'. cbn. by rewrite app_nil_r.
Qed.

Lemma calm_run r l o : relay_run c r l o -> forall r' waiting l0, o = Goes r' -> calm waiting l = true -> calm_inv waiting l0 r ->
  exists waiting', calm_inv waiting' (l0 ++ l) r'.
Proof.
  induction 1 as [r|r e r1 l o Hs Hr IH|]; intros r' waiting l0 Eo Hc H0; simplify_eq.
  - rewrite app_nil_r. eauto.
  - replace (l0 ++ e :: l) with ((l0 ++ [e]) ++ l) by by rewrite <- app_assoc.
    eapply IH; [done| |eapply calm_step; [exact H0|exact Hs|]]; destruct e; cbn in Hc; try done;
      by apply andb_true_iff in Hc as [?%negb_true_iff ?].
Qed.

(** C16: when no datagram comes before the request of the one before was made, the requests
    are those of the datagrams, each one, in their order. *)
Theorem calm_datagrams_are_relayed (l : list RelayEvent) (r : Relay)
    (Hr : relay_run c Relay_new l (Goes r)) (Hc : calm false l = true) (Hp : rl_posted r = 0%nat) :
  content <$> rl_sent r = request_for c <$> ordinary_datagrams l.
Proof.
  destruct (calm_run _ _ _ Hr r false [] eq_refl Hc) as (w & Hp' & _ & Hs); [done|].
  destruct w; [lia|]. by rewrite app_nil_r in Hs.
Qed.

(** Otherwise a datagram can be lost, also without a race: both requests of two datagrams
    that were received before the workers ran have the content of the second. *)
Theorem datagram_is_overwritten (a b : string) (Ha : ordinary a = true) (Hb : ordinary b = true) (Hd : rc_random_delay c = false) :
  exists r, relay_run c Relay_new [Receive a; Receive b; Start; Work 0; Start; Work 0] (Goes r) /\
    content <$> rl_sent r = [request_for c b; request_for c b].
Proof.
  destruct (receive_ordinary a Relay_new Ha eq_refl) as [la Ea].
  set (r1 := mkRelay _ _ _ _ _ _ _ la _) in Ea. destruct (receive_ordinary b r1 Hb eq_refl) as [lb Eb].
  eexists. split.
  - apply (run_cons _ _ _ r1); [by rewrite <- Ea|]. eapply run_cons; [rewrite <- Eb; reflexivity|].
    do 4 (eapply run_cons; [unfold relay_step, relay_work, send_delay; cbn; rewrite ?Hd; reflexivity|]). apply run_nil.
  - done.
Qed.

(** With an output socket, or with the traces of debug, a response reads a stream that has
    ended: what it does is undefined. *)
Theorem output_reads_an_ended_stream (r : Relay) (status : Z) (Ho : rc_debug c || rc_output c = true) (Hp : rl_phase r = Receiving)
    (Hs : (0 < length (rl_sent r))%nat) :
  relay_run c r [Respond status] Undefined.
Proof.
  apply run_undefined. unfold relay_step, relay_respond. rewrite Hp, Ho. by destruct (Nat.ltb_spec 0 (length (rl_sent r))); [|lia].
Qed.
End Runs.

(** ** Statistics *)

Definition stats_total (s : Stats) : Z :=
  STATUS_CODES_2xx s + STATUS_CODES_3xx s + STATUS_CODES_4xx s + STATUS_CODES_5xx s + TIMEOUTS s + CONNECTION_ERRORS s.
Definition counted (status : Z) : bool := negb (bool_decide (status_class status = CNone)).
Definition stats_below (n : Z) (s : Stats) : Prop :=
  0 <= STATUS_CODES_2xx s < n /\ 0 <= STATUS_CODES_3xx s < n /\ 0 <= STATUS_CODES_4xx s < n /\ 0 <= STATUS_CODES_5xx s < n /\
  0 <= TIMEOUTS s < n /\ 0 <= CONNECTION_ERRORS s < n.

Lemma counted_spec status : counted status = true <-> 200 <= status < 600 \/ -4 <= status <= -1.
Proof.
  unfold counted, status_class.
  repeat match goal with
         | |- context [?a <=? ?b] => destruct (Z.leb_spec a b)
         | |- context [?a <? ?b] => destruct (Z.ltb_spec a b)
         | |- context [?a =? ?b] => destruct (Z.eqb_spec a b)
         end; cbn; case_bool_decide; try done; split; intros; done || lia.
Qed.

Lemma count_status_total status s : stats_below (2 ^ 32 - 1) s ->
  stats_total (count_status status s) = stats_total s + (if counted status then 1 else 0) /\
  forall n, stats_below n s -> n < 2 ^ 32 -> stats_below (n + 1) (count_status status s).
Proof.
  intros Hb. unfold stats_below, stats_total, count_status, counted, count_if, wrap_u in *. cbn in Hb |- *.
  destruct (status_class status); (split; [|intros n Hn Hl]); rewrite ?Z.mod_small by lia;
    repeat (case_bool_decide; try done); cbn; lia.
Qed.

(** Of any responses, each one with a status code from 200 to 599, or that is a
    timeout or an error of the connection, is counted once, and the others are not
    counted. *)
Theorem responses_are_counted (statuses : list Z) (Hn : Z.of_nat (length statuses) < 2 ^ 32 - 1) :
  stats_total (foldl (fun s status => count_status status s) Stats_new statuses) =
  Z.of_nat (length (filter (fun st => 200 <= st < 600 \/ -4 <= st <= -1) statuses)).
Proof.
  assert (stats_total Stats_new + 0 = 0 /\ stats_below 1 Stats_new) as [H0 Hb] by done.
  assert (forall l s n, stats_below n s -> n + Z.of_nat (length l) < 2 ^ 32 ->
    stats_total (foldl (fun s status => count_status status s) s l) =
    stats_total s + Z.of_nat (length (filter (fun st => 200 <= st < 600 \/ -4 <= st <= -1) l))) as H.
  { clear. induction l as [|st l IH]; intros s n Hs Hl; [cbn; lia|]. cbn [foldl]. cbn [length] in Hl.
    destruct (count_status_total st s) as [Et Hs']; [unfold stats_below in *; lia|].
    rewrite (IH _ (n + 1)) by (try apply Hs'; done || lia). rewrite Et, filter_cons.
    pose proof (counted_spec st) as Hc. destruct (counted st), (decide _) as [Hd|Hd]; cbn [length]; try lia.
    all: exfalso; tauto || (apply Hc in Hd; done). }
  rewrite (H statuses Stats_new 1) by (done || lia). done.
Qed.

Lemma responses_are_counted_witness :
  stats_total (foldl (fun s status => count_status status s) Stats_new [200; 404; -2; 100; -1]) = 4.
Proof. rewrite (responses_are_counted [200; 404; -2; 100; -1]) by (cbn; lia). vm_compute. reflexivity. Defined.

(** The names with the last eight characters are documented as builtin, and not reported. *)
Theorem builtin_names_of_eight_unreported : builtin_pattern "udp8" = false /\ builtin_pattern "udp8.1" = false /\ builtin_pattern "udp.1" = true.
Proof. vm_compute. done. Qed.

(** ** Witnesses *)

Module RelayExamples.
Definition config : RelayConfig :=
  mkRelayConfig "GET" "book/@{udp}" "" [] 5000 0 false "@{udp}" false 1 false ∅ (collectVariablePatterns "book/@{udp}") ∅ ∅
    (collectVariablePatterns "@{udp}").
Definition sent_of (o : launch Relay) : list string := match o with Goes r => sr_path <$> rl_sent r | _ => [] end.

(** The last state of an execution. *)
Fixpoint exec (r : Relay) (l : list RelayEvent) : launch Relay :=
  match l with
  | [] => Goes r
  | e :: l => match relay_step config r e with Some (Goes r') => exec r' l | _ => Undefined end
  end.
Lemma exec_run l : forall r r', exec r l = Goes r' -> relay_run config r l (Goes r').
Proof.
  induction l as [|e l IH]; intros r r'; cbn; [intros [= ->]; constructor|].
  destruct (relay_step config r e) as [[r1| |]|] eqn:E; [|done..]. intros H. eapply run_cons; [exact E|]. by apply IH.
Qed.

Definition events : list RelayEvent := [Receive "1"; Start; Work 0; Respond 200; Receive "STATS"; Receive "2"; Start; Work 0; Receive "EOF"].
Definition last_state : Relay := match exec Relay_new events with Goes r => r | _ => Relay_new end.

Lemma one_request_per_datagram_witness : (length (rl_sent last_state) + rl_posted last_state)%nat = 2%nat.
Proof.
  assert (relay_run config Relay_new events (Goes last_state)) as Hr by (apply exec_run; vm_compute; reflexivity).
  destruct (one_request_per_datagram config events last_state Hr) as (H & _). rewrite H. vm_compute. reflexivity.
Defined.

Lemma calm_datagrams_are_relayed_witness : sr_path <$> (content <$> rl_sent last_state) = ["book/1"; "book/2"].
Proof.
  assert (relay_run config Relay_new events (Goes last_state)) as Hr by (apply exec_run; vm_compute; reflexivity).
  rewrite (calm_datagrams_are_relayed config events last_state Hr) by (vm_compute; reflexivity). vm_compute. reflexivity.
Defined.

Lemma end_of_file_does_not_end_witness :
  exists r, relay_run config Relay_new (events ++ [Signal]) (Goes r) /\ rl_phase r = Ended EXIT_FAILURE /\ Signal ∈ events ++ [Signal].
Proof.
  assert (relay_run config Relay_new (events ++ [Signal]) (Goes (set_phase (Ended EXIT_FAILURE) last_state))) as Hr
    by (apply exec_run; vm_compute; reflexivity).
  eexists. split; [exact Hr|]. split; [reflexivity|].
  exact (proj1 (end_of_file_does_not_end config (events ++ [Signal]) _ EXIT_FAILURE Hr eq_refl)).
Defined.

Lemma datagram_is_overwritten_witness :
  exists r, relay_run config Relay_new [Receive "1"; Receive "2"; Start; Work 0; Start; Work 0] (Goes r) /\
    content <$> rl_sent r = [request_for config "2"; request_for config "2"].
Proof. apply (datagram_is_overwritten config "1" "2"); vm_compute; reflexivity. Defined.
End RelayExamples.
